(* ===== verification/_CoqProject ===== *)
-Q . S2P
Prelude.v
Memory.v
Hardware.v
Board.v
StdDescriptors.v
Endpoint.v
EndpointSpec.v
USBController.v
DeviceSpec.v
ControlStream.v
WaitSpec.v
DeviceStandardReq.v
EndpointStream.v
Serial.v
Descriptors.v
ControlTransfer.v
ControlReceive.v
ControlRequest.v
ClassDriver.v
DataEndpoint.v
DataStream.v
SerialPort.v
SerialPortSpec.v
HIDDevice.v
HIDDeviceSpec.v
CDCDevice.v
CDCDeviceSpec.v
MassStorageDevice.v
MassStorageSpec.v
PrinterDevice.v
PrinterSpec.v
MIDIDevice.v
MIDISpec.v
RNDISDevice.v
RNDISSpec.v
AudioDevice.v
AudioSpec.v
EthernetFrame.v
FrameSpec.v
NetProtocols.v
NetSpec.v
TCP.v
TCPTable.v
TCPSpec.v
TCPTaskSpec.v
WebserverSpec.v
Ethernet.v
EthernetSpec.v
RNDISEthernet.v
RNDISEthernetSpec.v
Flash.v
FlashSpec.v
BootloaderAPI.v
IntelHex.v
HexSpec.v
BootloaderPrinter.v
BootloaderPrinterSpec.v
VirtualFAT.v
VirtualFATSpec.v
FATSpec.v
SCSI.v
BootloaderMassStorage.v
SCSISpec.v
BootloaderMassStorageSpec.v
BootloaderDFU.v
BootloaderDFUSpec.v
DFUDownloadSpec.v
DFUUploadSpec.v
Joystick.v
JoystickSpec.v
LoopSpec.v
HostProtocol.v
RequestSpec.v
FeatureSpec.v
ConfigDescriptors.v
ConfigDescriptorsSpec.v
HIDParser.v
HIDParserSpec.v
HIDSpec.v
RingBuffer.v
