(* ===== verification/Prelude.v ===== *)
(** Verification of the PGCon controller firmware and of the LUFA library it is built on.

    PGCon drives a Nintendo Switch from a PC: a Java application sends one-byte
    commands over a serial line to an ATmega32U4, whose firmware (firmware/)
    keeps a virtual game pad up to date and presents it to the console as a USB
    HID joystick.  The firmware is Joystick.c and Descriptors.c on top of the
    LUFA USB device stack (firmware/lufa/LUFA).  The repository also holds the rest
    of LUFA: its device class drivers, its demos and its boot loaders.  This library
    models, in this order of importance:

    - the joystick image, with the options of firmware/makefile and
      firmware/Config/LUFAConfig.h (AVR8, USB_DEVICE_ONLY, static options, flash
      descriptors, a 64-byte control endpoint, one configuration), and the command
      bytes of the desktop protocol;
    - the device class drivers of LUFA (HID, CDC, mass storage, printer, MIDI, RNDIS,
      audio), its report and configuration descriptor parsers and its ring buffer;
    - the RNDIS demo: a network adapter with its own Ethernet, ARP, IP, ICMP, UDP,
      DHCP and TCP and a web server (Demos/Device/ClassDriver/RNDISEthernet);
    - three boot loaders (Bootloaders/Printer, Bootloaders/MassStorage and
      Bootloaders/DFU), over the self-programming memory of the processor.

    * How C code is modelled

    A w-bit integer is a [Z] with its truncation written out ([u8], [u16],
    [u32]).  A statement is a [prog W A]: a function from a world to an
    [outcome], which is a result and a new world ([Ret]), a loop that did not end
    within its fuel ([NoFuel]) or an access outside an object ([Fault]).  A world
    (Hardware.v, [World]) is the globals of the stack, the interrupt flag, the
    application's state and the trace of all register accesses so far.  The
    microcontroller's peripherals, and the host and the serial peer behind them,
    are not code of the repository: they are the class parameter [Hardware],
    which answers every register read from the trace.  A theorem over all
    [Hardware] is a theorem about every board and host; a theorem that needs a
    peer that works states what it relies on as a class (below), and its witness
    gives an instance.

    A class driver works on a structure of the application through a pointer: the
    class [Object] of ClassDriver.v is that view of the application's state.  Buffers
    and packets are byte lists; reading or writing outside of one is a [Fault]
    (Memory.v).  The events and callbacks LUFA leaves to the application are classes
    ([DeviceEvents], [DeviceRequests], [MSCallbacks], ...); so are the LEDs, the
    watchdog and the clock of a board ([Board]).  The flash memory is observed through
    the sequence of operations of avr/boot.h that are performed on it, and Flash.v says
    what they do ([spm_run]); the EEPROM through the bytes written.

    The USB interrupt is taken where the code polls the volatile device state
    ([interrupt_point], [poll_DeviceState]), that is in every waiting loop and at
    the head of the two tasks; interrupts between other instructions are not
    modelled.  The watchdog and clock routines of avr-libc are the parameter
    [AvrLibc], the parser's filter callback and the contents of uninitialised
    locals are arguments.  The demo and the boot loaders run on the stack as it is
    configured for the joystick, apart from the size of the control endpoint that the DFU
    loader uses itself.

    Loops that are not bounded by the data take fuel.  Theorems that say that
    code returns give the fuel that is enough: 13 for the endpoint size mask
    (13 sizes), the number of packets and polls for a transfer, 102 (K + 1) for a
    wait in which the host sends a frame every K polls (a timeout of 100 frames),
    the number of bytes for a descriptor search, four folds for an Internet checksum,
    the size of a frame (1500 bytes) for the DHCP options, 1300 steps and twice the
    length of its data for a SCSI command, 170 clusters for a chain of the file
    allocation table; the mass storage loader ends in its 257th round and not before.  Safety
    theorems hold for every fuel.

    * Files

    - Prelude.v: machine integers, the program monad, weakest preconditions
      ([wp], partial or total), frames ([keeps]) and memory safety ([safe]) with
      the tactics and hint databases that discharge them.
    - Memory.v: byte buffers, string functions, byte order (Common/Endianness.h).
    - Hardware.v: registers, traces, [World], register access, the interrupt mask
      (Common.h), [StackRel] and [StackInv] (what the device stack respects).
      Board.v: LEDs, watchdog and clock.
    - StdDescriptors.v, Descriptors.v: descriptor structures and their memory
      images (StdDescriptors.h, HIDClassCommon.h, HIDReportData.h), the
      descriptors of the controller and CALLBACK_USB_GetDescriptor.
    - Endpoint.v (Endpoint_AVR8.[ch]), USBController.v (USBController_AVR8.[ch],
      USBInterrupt_AVR8.[ch], Device_AVR8.[ch]), ControlStream.v and
      EndpointStream.v (EndpointStream_AVR8.c and its templates),
      DeviceStandardReq.v (DeviceStandardReq.c, USBTask.c), Serial.v
      (Serial_AVR8.[ch]), Joystick.v (Joystick.[ch]): one definition per C
      function, in its order of calls and register accesses.  What the stack needs of
      the application for its frames and its safety is [EventsKeep], [EventsSafe],
      [RequestsKeep] and [RequestsSafe], which Joystick.v discharges.
    - HostProtocol.v: NintendoSwitchStandardButton, NintendoSwitchBaseStick,
      NintendoSwitchStandardStick and PGConProtocol of the Java application, and
      the abstract game pad they are meant to drive.
    - ClassDriver.v, SerialPort.v and HIDDevice.v, CDCDevice.v, MassStorageDevice.v,
      PrinterDevice.v, MIDIDevice.v, RNDISDevice.v, AudioDevice.v: the drivers of
      Drivers/USB/Class/Device; SerialPort.v is what the CDC and the printer driver
      have in common.
    - ConfigDescriptors.v (ConfigDescriptors.[ch]), HIDParser.v (HIDParser.[ch]),
      RingBuffer.v (Drivers/Misc/RingBuffer.h, with its theorem).
    - EthernetFrame.v, NetProtocols.v, TCP.v (TCP.c and Webserver.c), Ethernet.v,
      RNDISEthernet.v: the RNDIS demo.
    - Flash.v (the processor), BootloaderAPI.v, IntelHex.v and BootloaderPrinter.v
      (Bootloaders/Printer), VirtualFAT.v, SCSI.v and BootloaderMassStorage.v
      (Bootloaders/MassStorage), BootloaderDFU.v (Bootloaders/DFU).
    - The theorems: EndpointSpec.v, DeviceSpec.v, WaitSpec.v, ControlTransfer.v,
      ControlReceive.v, ControlRequest.v, DataEndpoint.v and DataStream.v about the
      endpoints and streams; JoystickSpec.v, LoopSpec.v, RequestSpec.v, FeatureSpec.v
      about the joystick and its requests; ConfigDescriptorsSpec.v, HIDParserSpec.v,
      HIDSpec.v about the parsers; SerialPortSpec.v, HIDDeviceSpec.v,
      CDCDeviceSpec.v, MassStorageSpec.v, PrinterSpec.v, MIDISpec.v, RNDISSpec.v,
      AudioSpec.v about the drivers; FrameSpec.v, NetSpec.v, TCPTable.v, TCPSpec.v,
      TCPTaskSpec.v, WebserverSpec.v, EthernetSpec.v, RNDISEthernetSpec.v about the
      demo; FlashSpec.v, HexSpec.v, BootloaderPrinterSpec.v, VirtualFATSpec.v, FATSpec.v,
      SCSISpec.v, BootloaderMassStorageSpec.v, BootloaderDFUSpec.v, DFUDownloadSpec.v,
      DFUUploadSpec.v about the boot loaders.

    * What is proved

    - The application.  On every board [main] never leaves an object
      ([main_never_faults]), applies exactly the bytes it read, in order, and
      answers them ([main_serves_commands]), keeps the controller well formed
      ([main_controller_ok]) and the stack's globals valid ([main_device_ok]).
      With a working line and host the receiver drains the line
      ([receiveCommand_drains]), a report goes out ([HID_Task_sends_report]) and
      every round of the loop ends and reports the bytes that were waiting
      ([main_loop_reports]), in a well formed report ([main_controller_ok]).
    - The protocol.  The commands of the desktop application refine an abstract
      game pad ([protocol_refines]).  The right stick does not:
      [set_right_stick_moves_left], [main_RY_centered].
    - USB transfers.  Control reads are packetized as the specification asks
      ([Control_W_packets], [GetDescriptor_transfers]), control writes are stored
      faithfully ([Control_R_receives]), and so are the streams of data endpoints
      ([Write_Stream_packets], [Read_Stream_receives]); waits end
      ([WaitUntilReady_terminates]), endpoints get their configuration
      ([ConfigureEndpoint_sets], [BytesToEPSizeMask_result]).
    - Requests and state.  [unsupported_request_stalled], [SetAddress_result],
      [SetConfiguration_result], [GetStatus_answers], [RemoteWakeup_feature],
      [interrupt_keeps_configured], [GetSerialString_hex], [Serial_Init_baud].
    - Descriptors and reports.  [GetDescriptor_answers], [report_matches_descriptor]
      (LUFA's own parser reads the controller's fields back from the reports),
      [enc_report_faithful], [joystick_configuration_walk],
      [GetNextDescriptorOfType_finds], [ProcessHIDReport_bounds] (the report parser
      returns for whole descriptors without PUSH, and keeps its tables in bounds),
      [GetHIDReportItemInfo_reads], [SetHIDReportItemInfo_roundtrip].
    - The ring buffer of LUFA is a bounded queue ([RingBuffer_fifo]).
    - Class drivers.  Reports go out when they should and the driver stays inside its
      objects ([HID_USBTask_reports], [HID_driver_safe]); bytes are transported in order
      ([CDC_transmits], [Audio_samples_transported]); a command block is answered with
      its own status wrapper and an invalid one is refused ([MS_command_answered],
      [MS_invalid_command]); the RNDIS messages refine their specification
      ([RNDIS_messages_answered]); settings and frames survive a round trip
      ([CDC_line_encoding_roundtrip], [RNDIS_frame_roundtrip]).
    - The RNDIS demo.  The connection table is a finite map ([TCP_table_refines]), a
      segment moves the connection as the state machine says ([TCP_packet_refines]),
      the web server sends its page ([Webserver_serves_page]), an address is leased
      ([Ethernet_leases_address]) and a ping comes back through the whole device
      ([ping_over_USB]), the last two for the frame lengths that pass the device's test.
    - Boot loaders.  An Intel HEX file that is printed is in the flash memory
      ([bootloader_loads_file]).  The virtual disk is a block device over two files,
      whatever the host writes to it ([volume_refines_disk]), its file allocation table
      shows them ([FAT_shows_files]), SCSI commands over USB read and write it or are
      refused ([disk_answers_commands], [disk_stores_writes], [SCSI_refuses]), and
      ejecting it ends the loader ([main_loop_ejects]).  A DFU download is in the flash
      memory and an upload reads it back ([DFU_downloads], [DFU_uploads]); in secure
      mode nothing is changed or shown before the application is erased
      ([DFU_secure], [DFU_secure_blind]).
    - Defects, each with a theorem: commands 46 to 48 and the right stick, the
      state after SET_CONFIGURATION(0) ([SetConfiguration_result]), searches and
      loops that do not end ([zero_length_descriptor_hangs],
      [BytesToEPSizeMask_result], [PRNT_port_status_hangs],
      [MIDI_empty_packet_blocks]), overruns ([truncated_operand_overruns],
      [push_never_succeeds], [descriptor_exceeds_item_table],
      [RNDIS_command_overflow], [RNDIS_set_offset_unchecked],
      [RNDIS_description_unchecked], [SetReport_underflow],
      [TCP_segment_faults], [DHCP_unterminated_faults]), values that are lost or wrong
      ([usage_page_high_half_lost], [GetReport_answers], [Audio_sample24_misread],
      [echo_reply_odd], [Ethernet_length_test], [Webserver_shared_counter],
      [HEX_small_image_lost], [HEX_unsupported_files], [FAT_shows_files],
      [SCSI_refuses], [DFU_start_inverted], [DFU_filler_short], [DFU_whole_page_wraps]).

    * What the theorems assume of the hardware

    [EndpointRegs] (configuration registers read back and the controller has the
    memory), [FrameClock] (the host sends frames, and there is no interrupt), [ControlHost], [ControlSender],
    [ReadyHost] and [CountedBank] (the flags, the FIFO and the byte counter of the control
    endpoint against a host that takes, sends or acknowledges packets), [DataHost] (the
    same for the data endpoints: banks, queues of packets, no interrupt), [Uart] and
    [Steady] (the USART's flags and FIFO), [ReportEndpoints] (a host that polls the report
    endpoint), [LibcFrame] (avr-libc touches neither the globals nor the USART data
    register), [QuietLEDs], [QuietToggle] and [PlainBoard] (the drivers of the board are
    not connected to the USB controller), [TargetOK] and [DFU_Target] (sizes of pages and
    memories), [NVMReads] (reading a memory gives what the operations on it left).

    * What is not modelled

    Host mode (pipes, host class drivers, the host demos) and the other architectures
    (UC3, XMEGA) are compiled out of the firmware.  The stdio streams of the serial driver
    are avr-libc objects.  Of the Java application only the protocol bytes are modelled:
    the rest is user interface, image recognition and thread scheduling.  The other demos
    and projects of LUFA, its CDC and HID boot loaders and its build system are separate
    programs; those with a file system or a network stack of their own (FatFs, uIP) carry
    third-party code.  Of the modelled boot loaders and the RNDIS demo the descriptor
    tables, the timer interrupts that blink LEDs and the branches for boards with a boot
    jumper are left out.  Timing is visible only as the order of register accesses. *)

From stdpp Require Import base tactics option list numbers.
From Stdlib Require Import ZArith Lia.

Open Scope Z_scope.

(** ** Machine integers

    A C integer of width w is a [Z] in [0, 2^w); the truncations below are
    the conversions the C compiler inserts at assignments. *)

Definition u8 (x : Z) : Z := x mod 256.
Definition u16 (x : Z) : Z := x mod 65536.
Definition u32 (x : Z) : Z := x mod 4294967296.

(** [(1 << n)] *)
Definition bit (n : Z) : Z := Z.shiftl 1 n.

(** The two halves of [r |= m] and [r &= ~m] on an 8-bit register value. *)
Definition set_mask (v m : Z) : Z := u8 (Z.lor v m).
Definition clr_mask (v m : Z) : Z := u8 (Z.land v (Z.lnot m)).

(** [(v & m) ? true : false] *)
Definition tst (v m : Z) : bool := negb (Z.land v m =? 0).

Definition is_u8 (x : Z) : Prop := 0 <= x < 256.
Definition is_u16 (x : Z) : Prop := 0 <= x < 65536.
Definition is_u32 (x : Z) : Prop := 0 <= x < 4294967296.

(** Bytes of a little-endian integer, and the integer of such bytes. *)
Definition le16 (x : Z) : list Z := [u8 x; u8 (Z.shiftr x 8)].
Definition le32 (x : Z) : list Z := [u8 x; u8 (Z.shiftr x 8); u8 (Z.shiftr x 16); u8 (Z.shiftr x 24)].
Definition of_le16 (lo hi : Z) : Z := Z.lor lo (Z.shiftl hi 8).
Definition of_le32 (b0 b1 b2 b3 : Z) : Z :=
  Z.lor (Z.lor (Z.lor (Z.shiftl b3 24) (Z.shiftl b2 16)) (Z.shiftl b1 8)) b0.

(** ** Outcomes and programs

    [prog W A] is C code that runs in a world [W] and returns an [A].
    [NoFuel] is a loop that did not finish within its fuel and [Fault] is
    undefined behaviour (an access outside an object). *)

Inductive outcome (W A : Type) : Type :=
  | Ret (a : A) (w : W)
  | NoFuel
  | Fault.
Arguments Ret {W A} a w.
Arguments NoFuel {W A}.
Arguments Fault {W A}.

Definition prog (W A : Type) : Type := W -> outcome W A.

#[export] Instance prog_ret W : MRet (prog W) := fun _ a w => Ret a w.
#[export] Instance prog_bind W : MBind (prog W) := fun _ _ k m w =>
  match m w with
  | Ret a w' => k a w'
  | NoFuel => NoFuel
  | Fault => Fault
  end.

Definition fault {W A} : prog W A := fun _ => Fault.
Definition nofuel {W A} : prog W A := fun _ => NoFuel.
Definition gets {W A} (f : W -> A) : prog W A := fun w => Ret (f w) w.
Definition modify {W} (f : W -> W) : prog W unit := fun w => Ret tt (f w).
Definition when {W} (b : bool) (m : prog W unit) : prog W unit :=
  if b then m else mret tt.

(** [while (cond) body] where [cond] may itself touch the world. *)
Fixpoint while_ {W} (fuel : nat) (cond : prog W bool) (body : prog W unit)
    : prog W unit :=
  match fuel with
  | O => nofuel
  | S fuel => b ← cond; if b : bool then body;; while_ fuel cond body else mret tt
  end.

(** ** Weakest preconditions

    [wp t m Q w]: running [m] in [w] does not fault and every result satisfies
    [Q]; with [t = true] it also does not run out of fuel. *)

Definition wp {W A} (t : bool) (m : prog W A) (Q : A -> W -> Prop) (w : W) : Prop :=
  match m w with
  | Ret a w' => Q a w'
  | NoFuel => t = false
  | Fault => False
  end.

Section Wp.
Context {W A B : Type}.
Implicit Types (m : prog W A) (k : A -> prog W B) (w : W).

Lemma wp_ret t (a : A) (Q : A -> W -> Prop) w : Q a w -> wp t (mret a) Q w.
Proof. done. Qed.

Lemma wp_bind t m k (Q : B -> W -> Prop) w :
  wp t m (fun a w' => wp t (k a) Q w') w -> wp t (m ≫= k) Q w.
Proof. unfold wp, mbind, prog_bind. destruct (m w); done. Qed.

Lemma wp_mono t m (P Q : A -> W -> Prop) w :
  wp t m P w -> (forall a w', P a w' -> Q a w') -> wp t m Q w.
Proof. unfold wp. destruct (m w); auto. Qed.

Lemma wp_gets t (f : W -> A) (Q : A -> W -> Prop) w : Q (f w) w -> wp t (gets f) Q w.
Proof. done. Qed.

Lemma wp_modify t (f : W -> W) (Q : unit -> W -> Prop) w :
  Q tt (f w) -> wp t (modify f) Q w.
Proof. done. Qed.

Lemma wp_conj t m (P Q : A -> W -> Prop) w :
  wp t m P w -> wp t m Q w -> wp t m (fun a w' => P a w' /\ Q a w') w.
Proof. unfold wp. destruct (m w); auto. Qed.

Lemma wp_total_run m (Q : A -> W -> Prop) w :
  wp true m Q w -> exists a w', m w = Ret a w' /\ Q a w'.
Proof. unfold wp. destruct (m w); naive_solver. Qed.

Lemma wp_total_run_unit (m : prog W unit) (Q : W -> Prop) w :
  wp true m (fun _ => Q) w -> exists w', m w = Ret tt w' /\ Q w'.
Proof. unfold wp. destruct (m w) as [[] w'| |]; naive_solver. Qed.

Lemma wp_total_partial m (Q : A -> W -> Prop) w : wp true m Q w -> wp false m Q w.
Proof. unfold wp. destruct (m w); naive_solver. Qed.

Lemma wp_run t m (Q : A -> W -> Prop) w a w' : m w = Ret a w' -> wp t m Q w -> Q a w'.
Proof. intros E. unfold wp. by rewrite E. Qed.
End Wp.

(** Running the first statement of a sequence. *)
Lemma bind_run {W A B} (m : prog W A) (k : A -> prog W B) w a w' :
  m w = Ret a w' -> (m ≫= k) w = k a w'.
Proof. unfold mbind, prog_bind. by intros ->. Qed.

(** Runs the first statement of a sequence by what is known of it. *)
Tactic Notation "run_step" uconstr(L) "as" simple_intropattern(p) :=
  let a := fresh "a" in let w := fresh "w" in let E := fresh "E" in
  edestruct (wp_total_run _ _ _ L) as (a & w & E & p);
  rewrite (bind_run _ _ _ _ _ E); clear E.

(** The first two of a sequence of statements. *)
Lemma wp_seq {W A B C} t (m : prog W A) (n : prog W B) (k : prog W C) Q w :
  wp t (m;; n) (fun _ w' => wp t k Q w') w -> wp t (m;; n;; k) Q w.
Proof.
  unfold wp, mbind, prog_bind. destruct (m w) as [a w1| |]; [|done|done]. by destruct (n w1).
Qed.

Lemma wp_assoc {W A B C} t (m : prog W A) (k : A -> prog W B) (k' : B -> prog W C) Q w :
  wp t (b ← (a ← m; k a); k' b) Q w -> wp t (a ← m; b ← k a; k' b) Q w.
Proof. unfold wp, mbind, prog_bind. by destruct (m w). Qed.

Lemma wp_when {W} t b (m : prog W unit) Q w :
  (b = true -> wp t m Q w) -> (b = false -> Q tt w) -> wp t (when b m) Q w.
Proof. destruct b; cbn; auto. Qed.

(** A loop whose guard and body keep an invariant (partial correctness). *)
Lemma wp_while {W} fuel (cond : prog W bool) body (I : W -> Prop) Q w :
  I w ->
  (forall w, I w -> wp false cond (fun b w' =>
     if b : bool then wp false body (fun _ w'' => I w'') w' else Q tt w') w) ->
  wp false (while_ fuel cond body) Q w.
Proof.
  revert w; induction fuel as [|fuel IH]; intros w HI Hstep; [done|].
  cbn. apply wp_bind. eapply wp_mono; [by apply Hstep|].
  intros [|] w' H; [|done].
  apply wp_bind. eapply wp_mono; [exact H|]. cbn. auto.
Qed.

(** The proof steps every wp proof repeats. *)
Ltac wp_step :=
  lazymatch goal with
  | |- wp _ (_ ≫= _) _ _ => apply wp_bind
  | |- wp _ (mret _) _ _ => apply wp_ret
  | |- wp _ (gets _) _ _ => apply wp_gets
  | |- wp _ (modify _) _ _ => apply wp_modify
  | |- wp _ (when _ _) _ _ => apply wp_when; intros ?
  | |- wp _ (if ?b then _ else _) _ _ => destruct b eqn:?
  end.
Ltac wp_steps := repeat (wp_step; cbn beta).

(** Case analysis on the boolean comparisons of the code. *)
Ltac bool_hyps :=
  repeat match goal with
  | H : (_ =? _) = true |- _ => apply Z.eqb_eq in H
  | H : (_ =? _) = false |- _ => apply Z.eqb_neq in H
  | H : (_ <? _) = true |- _ => apply Z.ltb_lt in H
  | H : (_ <? _) = false |- _ => apply Z.ltb_ge in H
  | H : (_ <=? _) = true |- _ => apply Z.leb_le in H
  | H : (_ <=? _) = false |- _ => apply Z.leb_gt in H
  | H : (_ && _)%bool = true |- _ => apply andb_prop in H as [? ?]
  | H : (_ || _)%bool = false |- _ => apply Bool.orb_false_elim in H as [? ?]
  | H : negb _ = true |- _ => apply Bool.negb_true_iff in H
  | H : negb _ = false |- _ => apply Bool.negb_false_iff in H
  end.

(** ** Integer lemmas *)

Lemma u8_range x : is_u8 (u8 x).
Proof. unfold is_u8, u8. apply Z.mod_pos_bound. lia. Qed.
Lemma u16_range x : is_u16 (u16 x).
Proof. unfold is_u16, u16. apply Z.mod_pos_bound. lia. Qed.
Lemma u32_range x : is_u32 (u32 x).
Proof. unfold is_u32, u32. apply Z.mod_pos_bound. lia. Qed.
Lemma u8_small x : is_u8 x -> u8 x = x.
Proof. unfold is_u8, u8. intros. by apply Z.mod_small. Qed.
Lemma u16_small x : is_u16 x -> u16 x = x.
Proof. unfold is_u16, u16. intros. by apply Z.mod_small. Qed.
Lemma u32_small x : is_u32 x -> u32 x = x.
Proof. unfold is_u32, u32. intros. by apply Z.mod_small. Qed.

Lemma lt_pow2_testbit n x : 0 <= n -> 0 <= x ->
  (forall i, n <= i -> Z.testbit x i = false) -> x < 2 ^ n.
Proof.
  intros Hn Hx H.
  enough (x = x mod 2 ^ n) as -> by (apply Z.mod_pos_bound, Z.pow_pos_nonneg; lia).
  apply Z.bits_inj'. intros i Hi.
  destruct (decide (i < n)).
  - by rewrite Z.mod_pow2_bits_low by lia.
  - rewrite Z.mod_pow2_bits_high by lia. apply H; lia.
Qed.

Lemma testbit_above n x i : 0 <= x < 2 ^ n -> 0 <= n <= i -> Z.testbit x i = false.
Proof.
  intros Hx Hi. rewrite <- (Z.mod_small x (2 ^ n)) by done.
  apply Z.mod_pow2_bits_high. lia.
Qed.

Lemma lor_range n x y : 0 <= n -> 0 <= x < 2 ^ n -> 0 <= y < 2 ^ n ->
  0 <= Z.lor x y < 2 ^ n.
Proof.
  intros Hn Hx Hy. assert (0 <= Z.lor x y) by (apply Z.lor_nonneg; lia).
  split; [done|]. apply lt_pow2_testbit; [done|done|]. intros i Hi.
  by rewrite Z.lor_spec, (testbit_above n x), (testbit_above n y) by lia.
Qed.

Lemma land_range n x y : 0 <= n -> 0 <= x < 2 ^ n -> 0 <= Z.land x y < 2 ^ n.
Proof.
  intros Hn Hx. assert (0 <= Z.land x y) by (apply Z.land_nonneg; lia).
  split; [done|]. apply lt_pow2_testbit; [done|done|]. intros i Hi.
  by rewrite Z.land_spec, (testbit_above n x) by lia.
Qed.

Lemma of_le16_le16 x : is_u16 x -> of_le16 (u8 x) (u8 (Z.shiftr x 8)) = x.
Proof.
  unfold is_u16, of_le16, u8. intros Hx.
  rewrite Z.shiftr_div_pow2 by lia. change 256 with (2 ^ 8).
  rewrite (Z.mod_small (x / 2 ^ 8)) by
    (change (2 ^ 8) with 256; split; [apply Z.div_pos|apply Z.div_lt_upper_bound]; lia).
  apply Z.bits_inj'. intros i Hi. rewrite Z.lor_spec, Z.shiftl_spec by lia.
  destruct (decide (i < 8)).
  - rewrite Z.mod_pow2_bits_low by lia.
    rewrite (Z.testbit_neg_r _ (i - 8)) by lia. by rewrite orb_false_r.
  - rewrite Z.mod_pow2_bits_high by lia.
    rewrite Z.div_pow2_bits by lia. cbn. f_equal; lia.
Qed.

Lemma lor_shiftl x d n : 0 <= n -> 0 <= d < 2 ^ n -> Z.lor (Z.shiftl x n) d = 2 ^ n * x + d.
Proof.
  intros Hn Hd. rewrite Z.shiftl_mul_pow2, (Z.mul_comm x) by lia.
  rewrite <- Z.lxor_lor, <- Z.add_nocarry_lxor; [done|..];
    (apply Z.bits_inj'; intros i Hi; rewrite Z.land_spec, Z.bits_0, Z.mul_comm; destruct (decide (i < n));
     [rewrite (Z.mul_pow2_bits_low x n) by lia; done
     |rewrite <- (Z.mod_small d (2 ^ n)) by lia; rewrite Z.mod_pow2_bits_high by lia; apply andb_false_r]).
Qed.
Lemma of_le16_range lo hi : is_u8 lo -> is_u8 hi -> is_u16 (of_le16 lo hi).
Proof.
  unfold is_u8, is_u16, of_le16. intros Hl Hh. change 65536 with (2 ^ 16).
  apply lor_range; [lia|lia|]. rewrite Z.shiftl_mul_pow2 by lia. lia.
Qed.

Lemma land_shiftl_small n x y : 0 <= n -> 0 <= x < 2 ^ n -> Z.land x (Z.shiftl y n) = 0.
Proof.
  intros Hn Hx. apply Z.bits_inj'. intros i Hi. rewrite Z.land_spec, Z.shiftl_spec, Z.bits_0 by lia.
  destruct (decide (i < n)).
  - by rewrite (Z.testbit_neg_r _ (i - n)), andb_false_r by lia.
  - by rewrite (testbit_above n) by lia.
Qed.

Lemma of_le32_sum b0 b1 b2 b3 : is_u8 b0 -> is_u8 b1 -> is_u8 b2 -> is_u8 b3 ->
  of_le32 b0 b1 b2 b3 = b0 + 256 * (b1 + 256 * (b2 + 256 * b3)).
Proof.
  unfold is_u8, of_le32. intros H0 H1 H2 H3.
  assert (forall n x y, 0 <= n -> 0 <= x < 2 ^ n -> Z.lor (Z.shiftl y n) x = x + 2 ^ n * y) as Hl.
  { intros n x y Hn Hx. rewrite Z.lor_comm, <- Z.lxor_lor, <- Z.add_nocarry_lxor.
    - rewrite Z.shiftl_mul_pow2 by done. lia.
    - by apply land_shiftl_small.
    - by apply land_shiftl_small. }
  replace (Z.lor (Z.shiftl b3 24) (Z.shiftl b2 16)) with (Z.shiftl (b2 + 2 ^ 8 * b3) 16).
  2: { rewrite <- (Hl 8 b2 b3), Z.shiftl_lor, Z.shiftl_shiftl by lia. done. }
  replace (Z.lor (Z.shiftl (b2 + 2 ^ 8 * b3) 16) (Z.shiftl b1 8))
    with (Z.shiftl (b1 + 2 ^ 8 * (b2 + 2 ^ 8 * b3)) 8).
  2: { rewrite <- (Hl 8 b1), Z.shiftl_lor, Z.shiftl_shiftl by lia. done. }
  rewrite Hl by lia. lia.
Qed.

(** The bytes of an integer that was put together from bytes. *)
Lemma le32_of_le32 b0 b1 b2 b3 : is_u8 b0 -> is_u8 b1 -> is_u8 b2 -> is_u8 b3 ->
  let x := of_le32 b0 b1 b2 b3 in
  u8 (Z.land x 0xFF) = b0 /\ u8 (Z.shiftr x 8) = b1 /\ u8 (Z.shiftr x 16) = b2 /\ u8 (Z.shiftr x 24) = b3.
Proof.
  intros H0 H1 H2 H3 x. unfold x. rewrite of_le32_sum by done. unfold is_u8, u8 in *.
  change 0xFF with (Z.ones 8). rewrite Z.land_ones, !Z.shiftr_div_pow2 by lia.
  change (2 ^ 8) with 256. change (2 ^ 16) with 65536. change (2 ^ 24) with 16777216.
  repeat split; Z.div_mod_to_equations; lia.
Qed.


Lemma of_le32_range b0 b1 b2 b3 : is_u8 b0 -> is_u8 b1 -> is_u8 b2 -> is_u8 b3 -> is_u32 (of_le32 b0 b1 b2 b3).
Proof. intros H0 H1 H2 H3. rewrite of_le32_sum by done. unfold is_u8, is_u32 in *. lia. Qed.

Lemma of_le32_le32 x : is_u32 x ->
  of_le32 (u8 x) (u8 (Z.shiftr x 8)) (u8 (Z.shiftr x 16)) (u8 (Z.shiftr x 24)) = x.
Proof.
  intros Hx. rewrite of_le32_sum by apply u8_range. unfold is_u32, u8 in *. rewrite !Z.shiftr_div_pow2 by lia.
  change (2 ^ 8) with 256. change (2 ^ 16) with 65536. change (2 ^ 24) with 16777216.
  Z.div_mod_to_equations. lia.
Qed.


(** Single bits. *)
Lemma testbit_bit n i : 0 <= n -> Z.testbit (bit n) i = (i =? n).
Proof.
  intros Hn. unfold bit. rewrite Z.shiftl_1_l.
  destruct (i =? n) eqn:E; bool_hyps; subst; [by apply Z.pow2_bits_true|].
  apply Z.pow2_bits_false. lia.
Qed.

Lemma tst_bit v n : 0 <= n -> tst v (bit n) = Z.testbit v n.
Proof.
  intros Hn. unfold tst. destruct (Z.testbit v n) eqn:E.
  - apply Bool.negb_true_iff, Z.eqb_neq. intros H. apply (f_equal (fun z => Z.testbit z n)) in H.
    rewrite Z.land_spec, testbit_bit, Z.eqb_refl, E, Z.bits_0 in H by done. done.
  - apply Bool.negb_false_iff, Z.eqb_eq, Z.bits_inj'. intros i Hi.
    rewrite Z.land_spec, testbit_bit, Z.bits_0 by done.
    destruct (i =? n) eqn:?; bool_hyps; subst; [by rewrite E|by rewrite andb_false_r].
Qed.

Lemma testbit_u8 v n : 0 <= n -> Z.testbit (u8 v) n = Z.testbit v n && (n <? 8).
Proof.
  intros Hn. unfold u8. change 256 with (2 ^ 8). destruct (n <? 8) eqn:?; bool_hyps.
  - by rewrite Z.mod_pow2_bits_low, andb_true_r by lia.
  - by rewrite Z.mod_pow2_bits_high, andb_false_r by lia.
Qed.

(** [r &= ~m] clears the bits of [m] and keeps the others; [r |= m] sets them. *)
Lemma tst_odd n : tst n 1 = Z.odd n.
Proof. change 1 with (bit 0). by rewrite tst_bit, Z.bit0_odd. Qed.

Lemma tst_clr v m n : 0 <= n -> Z.testbit m n = true ->
  tst (u8 (Z.land v (Z.lnot m))) (bit n) = false.
Proof.
  intros Hn Hm. by rewrite tst_bit, testbit_u8, Z.land_spec, Z.lnot_spec, Hm, andb_false_r by done.
Qed.

Lemma tst_clr_other v m n : 0 <= n < 8 -> Z.testbit m n = false ->
  tst (u8 (Z.land v (Z.lnot m))) (bit n) = tst v (bit n).
Proof.
  intros Hn Hm. rewrite !tst_bit, testbit_u8, Z.land_spec, Z.lnot_spec, Hm by lia.
  destruct (n <? 8) eqn:?; bool_hyps; [|lia]. by rewrite !andb_true_r.
Qed.

Lemma tst_set v m n : 0 <= n < 8 -> Z.testbit m n = true -> tst (u8 (Z.lor v m)) (bit n) = true.
Proof.
  intros Hn Hm. rewrite tst_bit, testbit_u8, Z.lor_spec, Hm, orb_true_r by lia.
  cbn. apply Z.ltb_lt. lia.
Qed.

Create HintDb firmware.
#[export] Hint Resolve u8_range u16_range u32_range of_le16_range : firmware.

(** ** Frames

    [keeps R m]: every completed run of [m] relates the worlds before and after
    by [R]. *)

Definition keeps {W A} (R : W -> W -> Prop) (m : prog W A) : Prop :=
  forall w, match m w with Ret _ w' => R w w' | _ => True end.

Create HintDb keeps.

Section Keeps.
Context {W : Type} (R : W -> W -> Prop) `{HR : !PreOrder R}.

Lemma keeps_ret {A} (a : A) : keeps R (mret a : prog W A).
Proof. intros w. cbn. reflexivity. Qed.

Lemma keeps_bind {A B} (m : prog W A) (k : A -> prog W B) :
  keeps R m -> (forall a, keeps R (k a)) -> keeps R (m ≫= k).
Proof.
  intros Hm Hk w. specialize (Hm w). unfold mbind, prog_bind.
  destruct (m w) as [a w'| |]; [|done|done].
  specialize (Hk a w'). destruct (k a w'); [|done|done]. by etrans.
Qed.

Lemma keeps_bind_post {A B} (Q : A -> Prop) (m : prog W A) (k : A -> prog W B) :
  keeps R m -> (forall w, wp false m (fun a _ => Q a) w) ->
  (forall a, Q a -> keeps R (k a)) -> keeps R (m ≫= k).
Proof.
  intros Hm HQ Hk w. specialize (Hm w). specialize (HQ w). unfold wp, mbind, prog_bind in *.
  destruct (m w) as [a w'| |]; [|done|done].
  specialize (Hk a HQ w'). destruct (k a w'); [|done|done]. by etrans.
Qed.

Lemma keeps_assoc {A B C} (m : prog W A) (k : A -> prog W B) (k' : B -> prog W C) :
  keeps R ((m ≫= k) ≫= k') -> keeps R (a ← m; b ← k a; k' b).
Proof.
  intros H w. specialize (H w). unfold mbind, prog_bind in *. by destruct (m w) as [a w1| |].
Qed.

(** A pair of steps that respects [R] only as a whole. *)
Lemma keeps_bind_pair {A B C} (m : prog W A) (k : A -> prog W B) (k' : B -> prog W C) :
  (forall w, wp false (m ≫= k) (fun _ w' => R w w') w) -> (forall b, keeps R (k' b)) ->
  keeps R (a ← m; b ← k a; k' b).
Proof.
  intros Hm Hk w. specialize (Hm w). unfold wp, mbind, prog_bind in *.
  destruct (m w) as [a w1| |]; [|done|done].
  destruct (k a w1) as [b w2| |]; [|done|done].
  specialize (Hk b w2). destruct (k' b w2); [|done|done]. by etrans.
Qed.

Lemma keeps_gets {A} (f : W -> A) : keeps R (gets f).
Proof. intros w. cbn. reflexivity. Qed.

Lemma keeps_fault {A} : keeps R (fault : prog W A).
Proof. done. Qed.

Lemma keeps_nofuel {A} : keeps R (nofuel : prog W A).
Proof. done. Qed.

Lemma keeps_when b (m : prog W unit) : keeps R m -> keeps R (when b m).
Proof. destruct b; [done|]. intros _ w. cbn. reflexivity. Qed.

Lemma keeps_while fuel (cond : prog W bool) body :
  keeps R cond -> keeps R body -> keeps R (while_ fuel cond body).
Proof.
  intros Hc Hb. induction fuel as [|fuel IH]; [done|].
  cbn. apply keeps_bind; [done|]. intros [|]; [|apply keeps_ret].
  by apply keeps_bind.
Qed.

Lemma keeps_run {A} (m : prog W A) w a w' : keeps R m -> m w = Ret a w' -> R w w'.
Proof. intros H E. specialize (H w). by rewrite E in H. Qed.
End Keeps.

(** Walks down a program, closing the leaves with the [keeps] hints. *)
Ltac keeps_step :=
  lazymatch goal with
  | |- keeps _ (mret _) => apply keeps_ret; apply _
  | |- keeps _ fault => apply keeps_fault
  | |- keeps _ nofuel => apply keeps_nofuel
  | |- keeps _ (gets _) => apply keeps_gets; apply _
  | |- keeps _ (_ ≫= _) => apply keeps_bind; [apply _| |intros ?]
  | |- keeps _ (when _ _) => apply keeps_when; [apply _|]
  | |- keeps _ (while_ _ _ _) => apply keeps_while; [apply _| |]
  | |- keeps _ (match ?x with _ => _ end) => destruct x
  | |- keeps _ (let '_ := ?x in _) => destruct x
  end.
Ltac head_of t := lazymatch t with ?f _ => head_of f | _ => t end.
Ltac keeps_unfold :=
  lazymatch goal with
  | |- keeps _ ?m => let h := head_of m in unfold h
  end.
Ltac keeps_tac :=
  intros; repeat first [keeps_step | solve [eauto 2 with keeps] | progress keeps_unfold].

(** ** Memory safety

    [safe I m]: from a world satisfying [I], [m] does not leave an object and
    keeps [I]. *)

Definition safe {W A} (I : W -> Prop) (m : prog W A) : Prop :=
  forall w, I w -> wp false m (fun _ w' => I w') w.

Create HintDb safe.

Section Safe.
Context {W : Type} (I : W -> Prop).

Lemma safe_wp {A} (m : prog W A) w : safe I m -> I w -> wp false m (fun _ w' => I w') w.
Proof. auto. Qed.

Lemma safe_ret {A} (a : A) : safe I (mret a : prog W A).
Proof. intros w HI. by apply wp_ret. Qed.

Lemma safe_bind {A B} (m : prog W A) (k : A -> prog W B) :
  safe I m -> (forall a, safe I (k a)) -> safe I (m ≫= k).
Proof.
  intros Hm Hk w HI. apply wp_bind. eapply wp_mono; [by apply Hm|].
  intros a w' HI'. by apply Hk.
Qed.

Lemma safe_bind_post {A B} (Q : A -> Prop) (m : prog W A) (k : A -> prog W B) :
  (forall w, I w -> wp false m (fun a w' => Q a /\ I w') w) ->
  (forall a, Q a -> safe I (k a)) -> safe I (m ≫= k).
Proof.
  intros Hm Hk w HI. apply wp_bind. eapply wp_mono; [by apply Hm|].
  intros a w' [HQ HI']. by apply Hk.
Qed.

Lemma safe_gets {A} (f : W -> A) : safe I (gets f).
Proof. intros w HI. by apply wp_gets. Qed.

Lemma safe_nofuel {A} : safe I (nofuel : prog W A).
Proof. intros w HI. done. Qed.

Lemma safe_when b (m : prog W unit) : safe I m -> safe I (when b m).
Proof. destruct b; [done|]. intros _. apply safe_ret. Qed.

Lemma safe_while fuel (cond : prog W bool) body :
  safe I cond -> safe I body -> safe I (while_ fuel cond body).
Proof.
  intros Hc Hb. induction fuel as [|fuel IH]; [apply safe_nofuel|].
  cbn. apply safe_bind; [done|]. intros [|]; [|apply safe_ret]. by apply safe_bind.
Qed.
End Safe.

Ltac safe_step :=
  lazymatch goal with
  | |- safe _ (mret _) => apply safe_ret
  | |- safe _ nofuel => apply safe_nofuel
  | |- safe _ (gets _) => apply safe_gets
  | |- safe _ (_ ≫= _) => apply safe_bind; [|intros ?]
  | |- safe _ (when _ _) => apply safe_when
  | |- safe _ (while_ _ _ _) => apply safe_while
  | |- safe _ (match ?x with _ => _ end) => destruct x
  end.
Ltac safe_unfold :=
  lazymatch goal with
  | |- safe _ ?m => let h := head_of m in unfold h
  end.
Ltac safe_tac :=
  intros; repeat first [safe_step | solve [eauto 2 with safe] | progress safe_unfold].
