(* ===== verification/Memory.v ===== *)
(** Byte memories: the objects C code points into, as lists of bytes.  An access
    outside an object has no value ([None]), and in a program it is a fault. *)

From stdpp Require Import base tactics option list numbers strings.
From Stdlib Require Import ZArith Lia.
From S2P Require Import Prelude.

(** The conversions to the signed types. *)
Definition int8 (x : Z) : Z := let v := u8 x in if v <? 128 then v else v - 256.
Definition int16 (x : Z) : Z := let v := u16 x in if v <? 32768 then v else v - 65536.

(** Common/Endianness.h: the bytes of the union in the opposite order. *)
Definition SwapEndian_16 (Word : Z) : Z := of_le16 (u8 (Z.shiftr Word 8)) (u8 Word).
Definition SwapEndian_32 (DWord : Z) : Z :=
  of_le32 (u8 (Z.shiftr DWord 24)) (u8 (Z.shiftr DWord 16)) (u8 (Z.shiftr DWord 8)) (u8 DWord).

(** The characters of a string literal, without the terminator. *)
Definition bytes_of (s : string) : list Z :=
  map (fun c => Z.of_nat (Ascii.nat_of_ascii c)) (String.list_ascii_of_string s).

(** ** Routines of the C library *)

(** A variable length array on the stack, with the contents [uninit]. *)
Definition vla (uninit : Z -> Z) (n : Z) : list Z := map uninit (seqZ 0 n).

Lemma length_vla uninit n : length (vla uninit n) = Z.to_nat n.
Proof. unfold vla. by rewrite length_map, length_seqZ. Qed.

(** [memcpy(dst, src, n)]: the new contents of [dst]; [None] outside an object. *)
Definition memcpy (dst src : list Z) (n : Z) : option (list Z) :=
  if (0 <=? n) && (n <=? Z.of_nat (length dst)) && (n <=? Z.of_nat (length src))
  then Some (take (Z.to_nat n) src ++ drop (Z.to_nat n) dst) else None.

(** [memcmp(a, b, n) != 0]; [None] outside an object. *)
Definition memcmp_ne (a b : list Z) (n : Z) : option bool :=
  if (0 <=? n) && (n <=? Z.of_nat (length a)) && (n <=? Z.of_nat (length b))
  then Some (negb (bool_decide (take (Z.to_nat n) a = take (Z.to_nat n) b))) else None.

(** [strlen]: the characters before the terminator; [None] when there is none. *)
Fixpoint strlen (s : list Z) : option Z :=
  match s with
  | [] => None
  | c :: s => if c =? 0 then Some 0 else n ← strlen s; Some (n + 1)
  end.

(** The little-endian 16- and 32-bit integers at an offset of a buffer. *)
Definition get16 (b : list Z) (o : Z) : option Z :=
  if o <? 0 then None
  else match drop (Z.to_nat o) b with b0 :: b1 :: _ => Some (of_le16 b0 b1) | _ => None end.
Definition get32 (b : list Z) (o : Z) : option Z :=
  if o <? 0 then None
  else match drop (Z.to_nat o) b with
       | b0 :: b1 :: b2 :: b3 :: _ => Some (of_le32 b0 b1 b2 b3)
       | _ => None
       end.

(** [memcpy(b + o, bs, length bs)] *)
Definition put_at (b : list Z) (o : Z) (bs : list Z) : option (list Z) :=
  if (0 <=? o) && (o + Z.of_nat (length bs) <=? Z.of_nat (length b))
  then Some (take (Z.to_nat o) b ++ bs ++ drop (Z.to_nat o + length bs) b) else None.
Definition set32 (b : list Z) (o v : Z) : option (list Z) := put_at b o (le32 v).

(** A C value that may be outside an object. *)
Definition checked {W A} (o : option A) : prog W A :=
  match o with Some a => mret a | None => fault end.

Lemma memcpy_some dst src n : 0 <= n <= Z.of_nat (length dst) -> n <= Z.of_nat (length src) ->
  memcpy dst src n = Some (take (Z.to_nat n) src ++ drop (Z.to_nat n) dst).
Proof.
  intros H1 H2. unfold memcpy. rewrite (proj2 (Z.leb_le 0 n)), !(proj2 (Z.leb_le n _)) by lia. done.
Qed.

Lemma memcmp_some a b n : 0 <= n <= Z.of_nat (length a) -> n <= Z.of_nat (length b) ->
  memcmp_ne a b n = Some (negb (bool_decide (take (Z.to_nat n) a = take (Z.to_nat n) b))).
Proof.
  intros H1 H2. unfold memcmp_ne. rewrite (proj2 (Z.leb_le 0 n)), !(proj2 (Z.leb_le n _)) by lia. done.
Qed.

Lemma strlen_app s r : Forall (fun c => c <> 0) s -> strlen (s ++ 0 :: r) = Some (Z.of_nat (length s)).
Proof.
  induction 1 as [|c s Hc _ IH]; [done|]. cbn [Datatypes.app strlen]. rewrite (proj2 (Z.eqb_neq c 0)) by done.
  rewrite IH. cbn. f_equal. lia.
Qed.

Lemma strlen_bounds s n : strlen s = Some n -> 0 <= n < Z.of_nat (length s).
Proof.
  revert n; induction s as [|c s IH]; intros n; [done|]. cbn [strlen]. destruct (c =? 0).
  - intros [= <-]. cbn. lia.
  - destruct (strlen s) as [m|]; [|done]. intros [= <-]. specialize (IH m eq_refl). cbn. lia.
Qed.

Lemma wp_checked {W A} t (o : option A) Q (w : W) a : o = Some a -> Q a w -> wp t (checked o) Q w.
Proof. by intros -> H. Qed.

Lemma safe_checked {W A} (I : W -> Prop) (o : option A) : is_Some o -> safe I (checked o).
Proof. intros [a ->]. apply safe_ret. Qed.

(** ** Byte order *)

(** The bytes of an integer in network order. *)
Definition be16 (x : Z) : list Z := [u8 (Z.shiftr x 8); u8 x].
Definition be32 (x : Z) : list Z := [u8 (Z.shiftr x 24); u8 (Z.shiftr x 16); u8 (Z.shiftr x 8); u8 x].

Lemma of_le16_add b0 b1 : is_u8 b0 -> is_u8 b1 -> of_le16 b0 b1 = 256 * b1 + b0.
Proof. intros H0 H1. unfold of_le16, is_u8 in *. rewrite Z.lor_comm, lor_shiftl by lia. done. Qed.

Lemma le16_of_le16 a b : is_u8 a -> is_u8 b -> le16 (of_le16 a b) = [a; b].
Proof.
  intros Ha Hb. unfold le16. rewrite of_le16_add by done.
  unfold u8, is_u8 in *. rewrite Z.shiftr_div_pow2 by lia. change (2 ^ 8) with 256.
  repeat f_equal; Z.div_mod_to_equations; lia.
Qed.

Lemma le16_Swap x : le16 (SwapEndian_16 x) = be16 x.
Proof. unfold SwapEndian_16, be16. apply le16_of_le16; apply u8_range. Qed.

Lemma le32_bytes a b c d : is_u8 a -> is_u8 b -> is_u8 c -> is_u8 d -> le32 (of_le32 a b c d) = [a; b; c; d].
Proof.
  intros Ha Hb Hc Hd. destruct (le32_of_le32 a b c d Ha Hb Hc Hd) as (E0 & E1 & E2 & E3). unfold le32.
  rewrite E1, E2, E3. f_equal. rewrite <- E0 at 2. change 255 with (Z.ones 8).
  rewrite Z.land_ones by lia. change (2 ^ 8) with 256. unfold u8. by rewrite Zmod_mod.
Qed.

Lemma le32_Swap x : le32 (SwapEndian_32 x) = be32 x.
Proof. unfold SwapEndian_32, be32. apply le32_bytes; apply u8_range. Qed.

(** Integers are stored as bytes. *)
Lemma le16_u8 x : Forall is_u8 (le16 x).
Proof. repeat constructor; apply u8_range. Qed.
Lemma le32_u8 x : Forall is_u8 (le32 x).
Proof. repeat constructor; apply u8_range. Qed.
Lemma be16_u8 x : Forall is_u8 (be16 x).
Proof. repeat constructor; apply u8_range. Qed.
Lemma be32_u8 x : Forall is_u8 (be32 x).
Proof. repeat constructor; apply u8_range. Qed.

(** Big-endian integers are read by swapping. *)
Lemma Swap_of_le16 b0 b1 : is_u8 b0 -> is_u8 b1 -> SwapEndian_16 (of_le16 b0 b1) = 256 * b0 + b1.
Proof.
  intros H0 H1. pose proof (le16_of_le16 b0 b1 H0 H1) as E. unfold le16 in E. injection E as E0 E1.
  unfold SwapEndian_16. rewrite E0, E1. unfold of_le16, is_u8 in *. rewrite Z.lor_comm, lor_shiftl by lia. lia.
Qed.
Lemma Swap_of_le32 b0 b1 b2 b3 : is_u8 b0 -> is_u8 b1 -> is_u8 b2 -> is_u8 b3 ->
  SwapEndian_32 (of_le32 b0 b1 b2 b3) = b3 + 256 * (b2 + 256 * (b1 + 256 * b0)).
Proof.
  intros H0 H1 H2 H3. pose proof (le32_bytes b0 b1 b2 b3 H0 H1 H2 H3) as E. unfold le32 in E. injection E as E0 E1 E2 E3.
  unfold SwapEndian_32. rewrite E0, E1, E2, E3. by apply of_le32_sum.
Qed.

(** ** Fields of a buffer *)

Lemma get32_lookup b o : 0 <= o -> get32 b o =
  (b0 ← b !! Z.to_nat o; b1 ← b !! S (Z.to_nat o); b2 ← b !! S (S (Z.to_nat o));
   b3 ← b !! S (S (S (Z.to_nat o))); Some (of_le32 b0 b1 b2 b3)).
Proof.
  intros Ho. unfold get32. rewrite (proj2 (Z.ltb_ge o 0)) by done. set (n := Z.to_nat o).
  replace (b !! n) with (drop n b !! 0%nat) by (rewrite lookup_drop; f_equal; lia).
  replace (b !! S n) with (drop n b !! 1%nat) by (rewrite lookup_drop; f_equal; lia).
  replace (b !! S (S n)) with (drop n b !! 2%nat) by (rewrite lookup_drop; f_equal; lia).
  replace (b !! S (S (S n))) with (drop n b !! 3%nat) by (rewrite lookup_drop; f_equal; lia).
  by destruct (drop n b) as [|b0 [|b1 [|b2 [|b3 l]]]].
Qed.

Lemma get32_some b o : 0 <= o -> o + 4 <= Z.of_nat (length b) -> Forall is_u8 b ->
  exists v, get32 b o = Some v /\ is_u32 v.
Proof.
  intros Ho Hl Hb. rewrite get32_lookup by done.
  destruct (lookup_lt_is_Some_2 b (Z.to_nat o)) as [b0 E0]; [lia|].
  destruct (lookup_lt_is_Some_2 b (S (Z.to_nat o))) as [b1 E1]; [lia|].
  destruct (lookup_lt_is_Some_2 b (S (S (Z.to_nat o)))) as [b2 E2]; [lia|].
  destruct (lookup_lt_is_Some_2 b (S (S (S (Z.to_nat o))))) as [b3 E3]; [lia|].
  rewrite E0, E1, E2, E3. eexists. split; [reflexivity|].
  apply of_le32_range; by eapply Forall_lookup_1.
Qed.

Lemma get32_none b o : Z.of_nat (length b) < o + 4 -> get32 b o = None.
Proof.
  intros H. unfold get32. destruct (o <? 0) eqn:E; [done|]. bool_hyps.
  destruct (drop (Z.to_nat o) b) as [|b0 [|b1 [|b2 [|b3 l]]]] eqn:Ed; try done.
  apply (f_equal length) in Ed. rewrite length_drop in Ed. cbn in Ed. lia.
Qed.

(** Storing bytes: the bytes at the other offsets are kept. *)
Lemma put_at_spec b o bs : 0 <= o -> o + Z.of_nat (length bs) <= Z.of_nat (length b) ->
  exists b', put_at b o bs = Some b' /\ length b' = length b /\
    (forall j, (j < Z.to_nat o \/ Z.to_nat o + length bs <= j)%nat -> b' !! j = b !! j) /\
    (forall j, (j < length bs)%nat -> b' !! (Z.to_nat o + j)%nat = bs !! j) /\
    (Forall is_u8 b -> Forall is_u8 bs -> Forall is_u8 b').
Proof.
  intros Ho Hl. unfold put_at. rewrite (proj2 (Z.leb_le _ _)), (proj2 (Z.leb_le _ _)) by lia.
  eexists. split; [reflexivity|]. assert (length (take (Z.to_nat o) b) = Z.to_nat o) as Ht by (rewrite length_take; lia).
  split_and!.
  - rewrite !length_app, Ht, length_drop. lia.
  - intros j [Hj|Hj].
    + rewrite lookup_app_l by lia. by apply lookup_take_lt.
    + rewrite lookup_app_r, Ht, lookup_app_r, lookup_drop by lia. f_equal. lia.
  - intros j Hj. rewrite lookup_app_r, Ht, lookup_app_l by lia. f_equal. lia.
  - intros Hb Hbs. apply Forall_app. split; [by apply Forall_take|]. apply Forall_app.
    split; [done|by apply Forall_drop].
Qed.

Lemma set32_spec b o v : 0 <= o -> o + 4 <= Z.of_nat (length b) -> is_u32 v ->
  exists b', set32 b o v = Some b' /\ length b' = length b /\ get32 b' o = Some v /\
    (forall p, 0 <= p -> p + 4 <= o \/ o + 4 <= p -> get32 b' p = get32 b p) /\
    (Forall is_u8 b -> Forall is_u8 b').
Proof.
  intros Ho Hl Hv. destruct (put_at_spec b o (le32 v)) as (b' & Hput & Hlen & Hold & Hnew & Hu);
    [done|cbn; lia|]. exists b'. unfold set32. split; [done|]. split; [done|]. split_and!.
  - rewrite get32_lookup by done. pose proof (Hnew 0%nat ltac:(cbn; lia)) as N0.
    pose proof (Hnew 1%nat ltac:(cbn; lia)) as N1. pose proof (Hnew 2%nat ltac:(cbn; lia)) as N2.
    pose proof (Hnew 3%nat ltac:(cbn; lia)) as N3. rewrite Nat.add_0_r in N0.
    rewrite Nat.add_1_r in N1. replace (Z.to_nat o + 2)%nat with (S (S (Z.to_nat o))) in N2 by lia.
    replace (Z.to_nat o + 3)%nat with (S (S (S (Z.to_nat o)))) in N3 by lia.
    rewrite N0, N1, N2, N3. cbn. by rewrite of_le32_le32.
  - intros p Hp Hd. rewrite !get32_lookup by done. cbn [le32 length] in Hold. rewrite !Hold by lia. done.
  - intros Hb. apply Hu; [done|]. repeat constructor; apply u8_range.
Qed.

