(* ===== verification/Hardware.v ===== *)
(** Memory-mapped I/O of the ATmega32U4 and the state of the firmware.

    The USB controller, the USART and the other peripherals are outside the
    program: they are the parameter [Hardware].  The code sees them only through
    its register accesses, so the model records every access in a trace and a
    [Hardware] gives, from the accesses made so far, the value the next read
    returns.  Quantifying over [Hardware] therefore quantifies over every
    behaviour of the device and of the host behind it.

    [World] holds the trace, the globals of the LUFA device stack and the state
    of the application built on it. *)

From stdpp Require Import base tactics option list numbers.
From Stdlib Require Import ZArith Lia.
From S2P Require Import Prelude.

(** ** Registers *)

Inductive Reg : Set :=
  | UENUM | UERST | UECONX | UECFG0X | UECFG1X | UESTA0X | UEIENX | UEINTX
  | UEDATX | UEBCHX | UEBCLX | UEINT
  | UDCON | UDINT | UDIEN | UDADDR | UDFNUM
  | USBCON | USBSTA | USBINT | UHWCON | PLLCSR | PLLFRQ
  | UCSR1A | UCSR1B | UCSR1C | UBRR1 | UDR1 | DDRD | PORTD
  | MCUSR | WDTCR | CLKPR | MCUCR | TIMSK1 | TCCR1B.

#[export] Instance Reg_eq_dec : EqDecision Reg.
Proof. solve_decision. Defined.

(** All registers are 8 bits wide but the frame number and the baud rate. *)
Definition reg_trunc (r : Reg) (v : Z) : Z :=
  match r with
  | UDFNUM | UBRR1 => u16 v
  | _ => u8 v
  end.

(** Bit positions (ATmega32U4 data sheet; the masks they give are the ones of
    the listing firmware/Joystick.lss). *)
Definition FIFOCON := 7.
Definition RWAL := 5.
Definition RXSTPI := 3.
Definition RXOUTI := 2.
Definition TXINI := 0.
Definition STALLRQ := 5.
Definition STALLRQC := 4.
Definition RSTDT := 3.
Definition EPEN := 0.
Definition EPTYPE0 := 6.
Definition EPDIR := 0.
Definition EPSIZE0 := 4.
Definition EPBK0 := 2.
Definition ALLOC := 1.
Definition CFGOK := 7.
Definition NBUSYBK0 := 0.
Definition RXSTPE := 3.
Definition LSM := 2.
Definition RMWKUP := 1.
Definition DETACH := 0.
Definition WAKEUPI := 4.
Definition EORSTI := 3.
Definition SOFI := 2.
Definition SUSPI := 0.
Definition WAKEUPE := 4.
Definition EORSTE := 3.
Definition SOFE := 2.
Definition SUSPE := 0.
Definition ADDEN := 7.
Definition USBE := 7.
Definition FRZCLK := 5.
Definition OTGPADE := 4.
Definition VBUSTE := 0.
Definition VBUS := 0.
Definition VBUSTI := 0.
Definition UVREGE := 0.
Definition PINDIV := 4.
Definition PLLE := 1.
Definition PLOCK := 0.
Definition PDIV2 := 2.
Definition RXC1 := 7.
Definition TXC1 := 6.
Definition UDRE1 := 5.
Definition U2X1 := 1.
Definition RXEN1 := 4.
Definition TXEN1 := 3.
Definition UCSZ11 := 2.
Definition UCSZ10 := 1.
Definition WDRF := 3.
Definition EXTRF := 1.
Definition IVCE := 0.
Definition IVSEL := 1.
Definition TOIE1 := 0.
Definition CS10 := 0.
Definition CS11 := 1.

(** ** Traces and hardware *)

Inductive event : Set :=
  | Rd (r : Reg) (v : Z)   (** the code read [v] from [r] *)
  | Wr (r : Reg) (v : Z).  (** the code wrote [v] to [r] *)

(** Most recent access first. *)
Definition trace : Type := list event.

Class Hardware : Type := {
  (** the value the next read of a register returns *)
  hw_read : trace -> Reg -> Z;
  (** whether the USB general interrupt line is raised *)
  hw_irq : trace -> bool;
  (** the factory signature row, [boot_signature_byte_get] *)
  hw_signature : Z -> Z
}.

(** ** The state of the firmware *)

(** [USB_Request_Header_t] *)
Record USB_Request_Header_t : Set := mkRequest {
  bmRequestType : Z;
  bRequest : Z;
  wValue : Z;
  wIndex : Z;
  wLength : Z
}.

Definition wf_request (r : USB_Request_Header_t) : Prop :=
  is_u8 (bmRequestType r) /\ is_u8 (bRequest r) /\ is_u16 (wValue r) /\ is_u16 (wIndex r)
    /\ is_u16 (wLength r).

Record World (App : Type) : Type := mkWorld {
  tr : trace;
  global_irq : bool;                       (** the I bit of SREG *)
  USB_DeviceState : Z;
  USB_ControlRequest : USB_Request_Header_t;
  USB_Device_ConfigurationNumber : Z;
  USB_Device_CurrentlySelfPowered : bool;
  USB_Device_RemoteWakeupEnabled : bool;
  USB_IsInitialized : bool;
  app : App
}.
Arguments mkWorld {App}.
Arguments tr {App}.
Arguments global_irq {App}.
Arguments USB_DeviceState {App}.
Arguments USB_ControlRequest {App}.
Arguments USB_Device_ConfigurationNumber {App}.
Arguments USB_Device_CurrentlySelfPowered {App}.
Arguments USB_Device_RemoteWakeupEnabled {App}.
Arguments USB_IsInitialized {App}.
Arguments app {App}.

(** Memory after reset: the C startup code zeroes the globals. *)
Definition reset_world {App} (a : App) : World App :=
  mkWorld [] false 0 (mkRequest 0 0 0 0 0) 0 false false false a.

Section Setters.
Context {App : Type}.
Implicit Types w : World App.

Definition upd_tr (f : trace -> trace) w : World App :=
  mkWorld (f (tr w)) (global_irq w) (USB_DeviceState w) (USB_ControlRequest w)
    (USB_Device_ConfigurationNumber w) (USB_Device_CurrentlySelfPowered w)
    (USB_Device_RemoteWakeupEnabled w) (USB_IsInitialized w) (app w).
Definition upd_global_irq (b : bool) w : World App :=
  mkWorld (tr w) b (USB_DeviceState w) (USB_ControlRequest w)
    (USB_Device_ConfigurationNumber w) (USB_Device_CurrentlySelfPowered w)
    (USB_Device_RemoteWakeupEnabled w) (USB_IsInitialized w) (app w).
Definition upd_DeviceState (s : Z) w : World App :=
  mkWorld (tr w) (global_irq w) (u8 s) (USB_ControlRequest w)
    (USB_Device_ConfigurationNumber w) (USB_Device_CurrentlySelfPowered w)
    (USB_Device_RemoteWakeupEnabled w) (USB_IsInitialized w) (app w).
Definition upd_ControlRequest (r : USB_Request_Header_t) w : World App :=
  mkWorld (tr w) (global_irq w) (USB_DeviceState w) r
    (USB_Device_ConfigurationNumber w) (USB_Device_CurrentlySelfPowered w)
    (USB_Device_RemoteWakeupEnabled w) (USB_IsInitialized w) (app w).
Definition upd_ConfigurationNumber (n : Z) w : World App :=
  mkWorld (tr w) (global_irq w) (USB_DeviceState w) (USB_ControlRequest w)
    (u8 n) (USB_Device_CurrentlySelfPowered w)
    (USB_Device_RemoteWakeupEnabled w) (USB_IsInitialized w) (app w).
Definition upd_CurrentlySelfPowered (b : bool) w : World App :=
  mkWorld (tr w) (global_irq w) (USB_DeviceState w) (USB_ControlRequest w)
    (USB_Device_ConfigurationNumber w) b
    (USB_Device_RemoteWakeupEnabled w) (USB_IsInitialized w) (app w).
Definition upd_RemoteWakeupEnabled (b : bool) w : World App :=
  mkWorld (tr w) (global_irq w) (USB_DeviceState w) (USB_ControlRequest w)
    (USB_Device_ConfigurationNumber w) (USB_Device_CurrentlySelfPowered w)
    b (USB_IsInitialized w) (app w).
Definition upd_IsInitialized (b : bool) w : World App :=
  mkWorld (tr w) (global_irq w) (USB_DeviceState w) (USB_ControlRequest w)
    (USB_Device_ConfigurationNumber w) (USB_Device_CurrentlySelfPowered w)
    (USB_Device_RemoteWakeupEnabled w) b (app w).
Definition upd_app (f : App -> App) w : World App :=
  mkWorld (tr w) (global_irq w) (USB_DeviceState w) (USB_ControlRequest w)
    (USB_Device_ConfigurationNumber w) (USB_Device_CurrentlySelfPowered w)
    (USB_Device_RemoteWakeupEnabled w) (USB_IsInitialized w) (f (app w)).

Lemma upd_tr_tr f g w : upd_tr f (upd_tr g w) = upd_tr (fun t => f (g t)) w.
Proof. done. Qed.
End Setters.

(** ** Register access *)

Section Access.
Context {HW : Hardware} {App : Type}.

Definition rd (r : Reg) : prog (World App) Z := fun w =>
  let v := reg_trunc r (hw_read (tr w) r) in
  Ret v (upd_tr (cons (Rd r v)) w).

Definition wr (r : Reg) (v : Z) : prog (World App) unit := fun w =>
  Ret tt (upd_tr (cons (Wr r (reg_trunc r v))) w).

(** [r |= m], [r &= ~m] and [(r & m) ? true : false]. *)
Definition set_bits (r : Reg) (m : Z) : prog (World App) unit :=
  v ← rd r; wr r (Z.lor v m).
Definition clr_bits (r : Reg) (m : Z) : prog (World App) unit :=
  v ← rd r; wr r (Z.land v (Z.lnot m)).
Definition test_bits (r : Reg) (m : Z) : prog (World App) bool :=
  v ← rd r; mret (tst v m).

(** [GetGlobalInterruptMask], [SetGlobalInterruptMask],
    [GlobalInterruptEnable] and [GlobalInterruptDisable]; the mask is the I bit. *)
Definition GetGlobalInterruptMask : prog (World App) bool := gets global_irq.
Definition SetGlobalInterruptMask (s : bool) : prog (World App) unit :=
  modify (upd_global_irq s).
Definition GlobalInterruptEnable : prog (World App) unit := modify (upd_global_irq true).
Definition GlobalInterruptDisable : prog (World App) unit := modify (upd_global_irq false).

Lemma wp_rd t r Q w :
  Q (reg_trunc r (hw_read (tr w) r))
    (upd_tr (cons (Rd r (reg_trunc r (hw_read (tr w) r)))) w) ->
  wp t (rd r) Q w.
Proof. done. Qed.

Lemma wp_wr t r v Q w :
  Q tt (upd_tr (cons (Wr r (reg_trunc r v))) w) -> wp t (wr r v) Q w.
Proof. done. Qed.

Lemma reg_trunc_u8 r v : r <> UDFNUM -> r <> UBRR1 -> reg_trunc r v = u8 v.
Proof. by destruct r. Qed.
End Access.

(** The steps of a wp proof, register accesses included. *)
Ltac hw_step :=
  lazymatch goal with
  | |- wp _ (rd _) _ _ => apply wp_rd
  | |- wp _ (wr _ _) _ _ => apply wp_wr
  | |- _ => wp_step
  end.
Ltac hw_steps := repeat (hw_step; cbn beta).

(** The same up to the first test. *)
Ltac acc_step :=
  lazymatch goal with
  | |- wp _ (_ ≫= _) _ _ => apply wp_bind
  | |- wp _ (rd _) _ _ => apply wp_rd
  | |- wp _ (wr _ _) _ _ => apply wp_wr
  | |- wp _ (mret _) _ _ => apply wp_ret
  end.
Ltac acc_steps := repeat (acc_step; cbn beta).

(** ** Projections of a trace *)

(** The values written to a register, oldest first. *)
Fixpoint writes_to (r : Reg) (t : trace) : list Z :=
  match t with
  | [] => []
  | Wr r' v :: t => if decide (r = r') then writes_to r t ++ [v] else writes_to r t
  | Rd _ _ :: t => writes_to r t
  end.

(** The values read from a register, oldest first. *)
Fixpoint reads_of (r : Reg) (t : trace) : list Z :=
  match t with
  | [] => []
  | Rd r' v :: t => if decide (r = r') then reads_of r t ++ [v] else reads_of r t
  | Wr _ _ :: t => reads_of r t
  end.

(** Evaluates the register comparisons of the projections. *)
Ltac regs_simpl :=
  cbn;
  repeat match goal with
  | |- context [@decide (?a = ?b) ?d] =>
      first [ rewrite (@decide_True _ (a = b) d) by done
            | rewrite (@decide_False _ (a = b) d) by done ]
  end.

(** ** Frames of the device stack

    A relation between worlds that every register access outside the USART and
    every assignment the device stack makes respects.  The frame lemmas of the
    stack are proved once for any such relation. *)

Class StackRel {App} (R : World App -> World App -> Prop) : Prop := {
  sr_preorder :: PreOrder R;
  sr_rd : forall r v w, r <> UDR1 -> R w (upd_tr (cons (Rd r v)) w);
  sr_wr : forall r v w, r <> UDR1 -> R w (upd_tr (cons (Wr r v)) w);
  sr_irq : forall b w, R w (upd_global_irq b w);
  sr_state : forall s w, 0 <= s <= 5 -> R w (upd_DeviceState s w);
  sr_request : forall r w, wf_request r -> R w (upd_ControlRequest r w);
  sr_config : forall n w, 0 <= n <= 1 -> R w (upd_ConfigurationNumber n w);
  sr_self : forall b w, R w (upd_CurrentlySelfPowered b w);
  sr_wakeup : forall b w, R w (upd_RemoteWakeupEnabled b w);
  sr_init : forall b w, R w (upd_IsInitialized b w)
}.

Section StackRel.
Context {HW : Hardware} {App : Type} (R : World App -> World App -> Prop) {SR : StackRel R}.

Lemma keeps_rd r : r <> UDR1 -> keeps R (rd r).
Proof. intros H w. by apply sr_rd. Qed.
Lemma keeps_wr r v : r <> UDR1 -> keeps R (wr r v).
Proof. intros H w. by apply sr_wr. Qed.
Lemma keeps_set_bits r m : r <> UDR1 -> keeps R (set_bits r m).
Proof. intros H. apply keeps_bind; [apply _|by apply keeps_rd|]. intros v. by apply keeps_wr. Qed.
Lemma keeps_clr_bits r m : r <> UDR1 -> keeps R (clr_bits r m).
Proof. intros H. apply keeps_bind; [apply _|by apply keeps_rd|]. intros v. by apply keeps_wr. Qed.
Lemma keeps_test_bits r m : r <> UDR1 -> keeps R (test_bits r m).
Proof. intros H. apply keeps_bind; [apply _|by apply keeps_rd|]. intros v. apply keeps_ret, _. Qed.
Lemma keeps_set_irq b : keeps R (modify (upd_global_irq b)).
Proof. intros w. apply sr_irq. Qed.
Lemma keeps_set_state s : 0 <= s <= 5 -> keeps R (modify (upd_DeviceState s)).
Proof. intros H w. by apply sr_state. Qed.
Lemma keeps_set_request r : wf_request r -> keeps R (modify (upd_ControlRequest r)).
Proof. intros H w. by apply sr_request. Qed.
Lemma keeps_set_config n : 0 <= n <= 1 -> keeps R (modify (upd_ConfigurationNumber n)).
Proof. intros H w. by apply sr_config. Qed.
Lemma keeps_set_self b : keeps R (modify (upd_CurrentlySelfPowered b)).
Proof. intros w. apply sr_self. Qed.
Lemma keeps_set_wakeup b : keeps R (modify (upd_RemoteWakeupEnabled b)).
Proof. intros w. apply sr_wakeup. Qed.
Lemma keeps_set_init b : keeps R (modify (upd_IsInitialized b)).
Proof. intros w. apply sr_init. Qed.
End StackRel.

#[export] Hint Resolve keeps_set_irq keeps_set_self keeps_set_wakeup
  keeps_set_init : keeps.
#[export] Hint Extern 1 (keeps _ (rd _)) => apply keeps_rd; [apply _|discriminate] : keeps.
#[export] Hint Extern 1 (keeps _ (wr _ _)) => apply keeps_wr; [apply _|discriminate] : keeps.
#[export] Hint Extern 1 (keeps _ (set_bits _ _)) =>
  apply keeps_set_bits; [apply _|discriminate] : keeps.
#[export] Hint Extern 1 (keeps _ (clr_bits _ _)) =>
  apply keeps_clr_bits; [apply _|discriminate] : keeps.
#[export] Hint Extern 1 (keeps _ (test_bits _ _)) =>
  apply keeps_test_bits; [apply _|discriminate] : keeps.
#[export] Hint Extern 1 (keeps _ (modify (upd_DeviceState _))) =>
  apply keeps_set_state; [apply _|first [done|by case_match|lia]] : keeps.
#[export] Hint Extern 1 (keeps _ (modify (upd_ConfigurationNumber _))) =>
  apply keeps_set_config; [apply _|first [done|lia]] : keeps.

(** ** Memory safety of the accesses

    A world invariant that register accesses and the assignments of the stack
    preserve, and that has the last request well formed. *)

Class StackInv {App} (I : World App -> Prop) : Prop := {
  si_request w : I w -> wf_request (USB_ControlRequest w);
  si_tr f w : I w -> I (upd_tr f w);
  si_irq b w : I w -> I (upd_global_irq b w);
  si_state s w : I w -> I (upd_DeviceState s w);
  si_config n w : I w -> I (upd_ConfigurationNumber n w);
  si_self b w : I w -> I (upd_CurrentlySelfPowered b w);
  si_wakeup b w : I w -> I (upd_RemoteWakeupEnabled b w);
  si_init b w : I w -> I (upd_IsInitialized b w);
  si_set_request r w : wf_request r -> I w -> I (upd_ControlRequest r w)
}.

(** The weakest one. *)
Definition stack_inv {App} (w : World App) : Prop := wf_request (USB_ControlRequest w).

#[export] Instance stack_inv_stack App : StackInv (stack_inv (App := App)).
Proof. by split. Qed.

Section Safety.
Context {HW : Hardware} {App : Type} {I : World App -> Prop} {SI : StackInv I}.

Lemma safe_rd r : safe I (rd r).
Proof. intros w HI. by apply si_tr. Qed.
Lemma safe_wr r v : safe I (wr r v).
Proof. intros w HI. by apply si_tr. Qed.
Lemma safe_irq b : safe I (modify (upd_global_irq b)).
Proof. intros w HI. by apply si_irq. Qed.
Lemma safe_state s : safe I (modify (upd_DeviceState s)).
Proof. intros w HI. by apply si_state. Qed.
Lemma safe_config n : safe I (modify (upd_ConfigurationNumber n)).
Proof. intros w HI. by apply si_config. Qed.
Lemma safe_self b : safe I (modify (upd_CurrentlySelfPowered b)).
Proof. intros w HI. by apply si_self. Qed.
Lemma safe_wakeup b : safe I (modify (upd_RemoteWakeupEnabled b)).
Proof. intros w HI. by apply si_wakeup. Qed.
Lemma safe_init b : safe I (modify (upd_IsInitialized b)).
Proof. intros w HI. by apply si_init. Qed.
Lemma safe_request r : wf_request r -> safe I (modify (upd_ControlRequest r)).
Proof. intros H w HI. by apply si_set_request. Qed.
Lemma safe_app f : safe stack_inv (modify (upd_app (App := App) f)).
Proof. intros w HI. exact HI. Qed.

(** Reading the request. *)
Lemma safe_get_request {A} (k : USB_Request_Header_t -> prog (World App) A) :
  (forall r, wf_request r -> safe I (k r)) -> safe I (r ← gets USB_ControlRequest; k r).
Proof. intros Hk w HI. apply wp_bind, wp_gets. apply Hk; [|done]. by apply si_request. Qed.
End Safety.

#[export] Hint Resolve safe_rd safe_wr safe_irq safe_state safe_config safe_self safe_wakeup
  safe_init safe_app safe_request : safe.
#[export] Hint Extern 1 (StackInv _) => apply _ : safe.
