(* ===== verification/Board.v ===== *)
(** What the applications use of their board and of avr-libc.

    LUFA/Drivers/Board/LEDs.h selects the driver of the board at compile time; the
    watchdog, the clock prescaler and stdio belong to avr-libc. *)

From stdpp Require Import base tactics.
From Stdlib Require Import ZArith.
From S2P Require Import Prelude Hardware.

Class Board (App : Type) : Type := {
  LEDS_LED1 : Z; LEDS_LED2 : Z; LEDS_LED3 : Z; LEDS_LED4 : Z;
  LEDs_Init : prog (World App) unit;
  LEDs_SetAllLEDs : Z -> prog (World App) unit;
  LEDs_ToggleLEDs : Z -> prog (World App) unit;
  LEDs_Disable : prog (World App) unit;
  wdt_disable : prog (World App) unit;
  wdt_enable : Z -> prog (World App) unit;
  clock_prescale_set : Z -> prog (World App) unit;
  Serial_CreateStream : prog (World App) unit
}.

(** The masks the demos and boot loaders show their state with. *)
Section Masks.
Context {App : Type} {BD : Board App}.
Definition LEDMASK_USB_NOTREADY : Z := LEDS_LED1.
Definition LEDMASK_USB_ENUMERATING : Z := Z.lor LEDS_LED2 LEDS_LED3.
Definition LEDMASK_USB_READY : Z := Z.lor LEDS_LED2 LEDS_LED4.
Definition LEDMASK_USB_ERROR : Z := Z.lor LEDS_LED1 LEDS_LED3.
Definition LEDMASK_USB_BUSY : Z := LEDS_LED2.
End Masks.

(** The LEDs are not connected to the USB controller. *)
Class QuietLEDs {App : Type} (BD : Board App) : Prop :=
  LEDs_quiet m (w : World App) : LEDs_SetAllLEDs m w = Ret tt w.
Class QuietToggle {App : Type} (BD : Board App) : Prop :=
  toggle_quiet m (w : World App) : LEDs_ToggleLEDs m w = Ret tt w.

(** A board without LEDs. *)
Definition no_board App : Board App := {|
  LEDS_LED1 := 1; LEDS_LED2 := 2; LEDS_LED3 := 4; LEDS_LED4 := 8; LEDs_Init := mret tt; LEDs_SetAllLEDs := fun _ => mret tt;
  LEDs_ToggleLEDs := fun _ => mret tt; LEDs_Disable := mret tt;
  wdt_disable := mret tt; wdt_enable := fun _ => mret tt; clock_prescale_set := fun _ => mret tt; Serial_CreateStream := mret tt
|}.

(** The drivers access registers only. *)
Definition plain {App} (m : prog (World App) unit) : Prop := forall w, exists f, m w = Ret tt (upd_tr f w).

Class PlainBoard {App : Type} (BD : Board App) : Prop := {
  plain_init : plain LEDs_Init;
  plain_set m : plain (LEDs_SetAllLEDs m);
  plain_toggle m : plain (LEDs_ToggleLEDs m);
  plain_disable : plain LEDs_Disable;
  plain_wdt_disable : plain wdt_disable;
  plain_wdt_enable t : plain (wdt_enable t);
  plain_clock d : plain (clock_prescale_set d)
}.

Lemma plain_ret {App} : plain (App := App) (mret tt).
Proof. intros w. exists id. by destruct w. Qed.

#[export] Instance no_board_plain App : PlainBoard (no_board App).
Proof. split; intros; apply plain_ret. Qed.

Lemma safe_plain {App} (I : World App -> Prop) {SI : StackInv I} m : plain m -> safe I m.
Proof. intros Hm w HI. destruct (Hm w) as [f E]. unfold wp. rewrite E. by apply si_tr. Qed.

#[export] Hint Extern 1 (safe _ (LEDs_Init)) => apply safe_plain; [apply _|apply plain_init] : safe.
#[export] Hint Extern 1 (safe _ (LEDs_SetAllLEDs _)) => apply safe_plain; [apply _|apply plain_set] : safe.
#[export] Hint Extern 1 (safe _ (LEDs_ToggleLEDs _)) => apply safe_plain; [apply _|apply plain_toggle] : safe.
#[export] Hint Extern 1 (safe _ (LEDs_Disable)) => apply safe_plain; [apply _|apply plain_disable] : safe.
#[export] Hint Extern 1 (safe _ (wdt_disable)) => apply safe_plain; [apply _|apply plain_wdt_disable] : safe.
#[export] Hint Extern 1 (safe _ (wdt_enable _)) => apply safe_plain; [apply _|apply plain_wdt_enable] : safe.
#[export] Hint Extern 1 (safe _ (clock_prescale_set _)) => apply safe_plain; [apply _|apply plain_clock] : safe.
