(* ===== verification/StdDescriptors.v ===== *)
(** Descriptor structures and report item macros: LUFA/Drivers/USB/Core/
    StdDescriptors.h, the HID descriptor of Class/Common/HIDClassCommon.h and the
    item encodings of Class/Common/HIDReportData.h.

    Every structure is packed: its memory image is the concatenation of its
    fields, 16-bit fields little-endian. *)

From stdpp Require Import base tactics option list numbers.
From Stdlib Require Import ZArith Lia.
From S2P Require Import Prelude.

(** [enum USB_DescriptorTypes_t] and the HID class types *)
Definition NO_DESCRIPTOR : Z := 0.
Definition DTYPE_Device : Z := 0x01.
Definition DTYPE_Configuration : Z := 0x02.
Definition DTYPE_String : Z := 0x03.
Definition DTYPE_Interface : Z := 0x04.
Definition DTYPE_Endpoint : Z := 0x05.
Definition HID_DTYPE_HID : Z := 0x21.
Definition HID_DTYPE_Report : Z := 0x22.

Definition USB_CONFIG_POWER_MA (mA : Z) : Z := Z.shiftr mA 1.
Definition VERSION_BCD (Major Minor Revision : Z) : Z :=
  Z.lor (Z.lor (Z.shiftl (Z.land Major 0xFF) 8) (Z.shiftl (Z.land Minor 0x0F) 4))
        (Z.land Revision 0x0F).
Definition LANGUAGE_ID_ENG : Z := 0x0409.
Definition ENDPOINT_ATTR_NO_SYNC : Z := Z.shiftl 0 2.
Definition ENDPOINT_USAGE_DATA : Z := Z.shiftl 0 4.

(** ** Structures *)

Record USB_Descriptor_Header_t : Set := mkHeader { hdr_Size : Z; hdr_Type : Z }.
Definition enc_header (h : USB_Descriptor_Header_t) : list Z := [u8 (hdr_Size h); u8 (hdr_Type h)].

Record USB_Descriptor_Device_t : Set := mkDevice {
  dev_Header : USB_Descriptor_Header_t;
  dev_USBSpecification : Z;
  dev_Class : Z;
  dev_SubClass : Z;
  dev_Protocol : Z;
  dev_Endpoint0Size : Z;
  dev_VendorID : Z;
  dev_ProductID : Z;
  dev_ReleaseNumber : Z;
  dev_ManufacturerStrIndex : Z;
  dev_ProductStrIndex : Z;
  dev_SerialNumStrIndex : Z;
  dev_NumberOfConfigurations : Z
}.
Definition sizeof_Device : Z := 18.
Definition enc_device (d : USB_Descriptor_Device_t) : list Z :=
  enc_header (dev_Header d) ++ le16 (dev_USBSpecification d)
    ++ [u8 (dev_Class d); u8 (dev_SubClass d); u8 (dev_Protocol d); u8 (dev_Endpoint0Size d)]
    ++ le16 (dev_VendorID d) ++ le16 (dev_ProductID d) ++ le16 (dev_ReleaseNumber d)
    ++ [u8 (dev_ManufacturerStrIndex d); u8 (dev_ProductStrIndex d);
        u8 (dev_SerialNumStrIndex d); u8 (dev_NumberOfConfigurations d)].

Record USB_Descriptor_Configuration_Header_t : Set := mkConfigHeader {
  cfg_Header : USB_Descriptor_Header_t;
  cfg_TotalConfigurationSize : Z;
  cfg_TotalInterfaces : Z;
  cfg_ConfigurationNumber : Z;
  cfg_ConfigurationStrIndex : Z;
  cfg_ConfigAttributes : Z;
  cfg_MaxPowerConsumption : Z
}.
Definition sizeof_Configuration_Header : Z := 9.
Definition enc_config_header (c : USB_Descriptor_Configuration_Header_t) : list Z :=
  enc_header (cfg_Header c) ++ le16 (cfg_TotalConfigurationSize c)
    ++ [u8 (cfg_TotalInterfaces c); u8 (cfg_ConfigurationNumber c);
        u8 (cfg_ConfigurationStrIndex c); u8 (cfg_ConfigAttributes c);
        u8 (cfg_MaxPowerConsumption c)].

Record USB_Descriptor_Interface_t : Set := mkInterface {
  if_Header : USB_Descriptor_Header_t;
  if_InterfaceNumber : Z;
  if_AlternateSetting : Z;
  if_TotalEndpoints : Z;
  if_Class : Z;
  if_SubClass : Z;
  if_Protocol : Z;
  if_InterfaceStrIndex : Z
}.
Definition sizeof_Interface : Z := 9.
Definition enc_interface (i : USB_Descriptor_Interface_t) : list Z :=
  enc_header (if_Header i)
    ++ [u8 (if_InterfaceNumber i); u8 (if_AlternateSetting i); u8 (if_TotalEndpoints i);
        u8 (if_Class i); u8 (if_SubClass i); u8 (if_Protocol i); u8 (if_InterfaceStrIndex i)].

Record USB_Descriptor_Endpoint_t : Set := mkEndpointDesc {
  ep_Header : USB_Descriptor_Header_t;
  ep_EndpointAddress : Z;
  ep_Attributes : Z;
  ep_EndpointSize : Z;
  ep_PollingIntervalMS : Z
}.
Definition sizeof_Endpoint : Z := 7.
Definition enc_endpoint (e : USB_Descriptor_Endpoint_t) : list Z :=
  enc_header (ep_Header e) ++ [u8 (ep_EndpointAddress e); u8 (ep_Attributes e)]
    ++ le16 (ep_EndpointSize e) ++ [u8 (ep_PollingIntervalMS e)].

Record USB_HID_Descriptor_HID_t : Set := mkHID {
  hid_Header : USB_Descriptor_Header_t;
  hid_HIDSpec : Z;
  hid_CountryCode : Z;
  hid_TotalReportDescriptors : Z;
  hid_HIDReportType : Z;
  hid_HIDReportLength : Z
}.
Definition sizeof_HID : Z := 9.
Definition enc_hid (h : USB_HID_Descriptor_HID_t) : list Z :=
  enc_header (hid_Header h) ++ le16 (hid_HIDSpec h)
    ++ [u8 (hid_CountryCode h); u8 (hid_TotalReportDescriptors h); u8 (hid_HIDReportType h)]
    ++ le16 (hid_HIDReportLength h).

(** A string descriptor object: header and the array the initialiser gives. *)
Record USB_Descriptor_String_t : Set := mkString {
  str_Header : USB_Descriptor_Header_t;
  str_UnicodeString : list Z
}.
Definition enc_string (s : USB_Descriptor_String_t) : list Z :=
  enc_header (str_Header s) ++ concat (map le16 (str_UnicodeString s)).

(** [USB_STRING_DESCRIPTOR(L"...")]: the literal is stored with its terminator,
    which [Size] leaves out. *)
Definition USB_STRING_DESCRIPTOR (chars : list Z) : USB_Descriptor_String_t :=
  mkString (mkHeader (2 + (2 * (Z.of_nat (length chars) + 1) - 2)) DTYPE_String) (chars ++ [0]).

(** [USB_STRING_DESCRIPTOR_ARRAY(c)] of one character *)
Definition USB_STRING_DESCRIPTOR_ARRAY (c : Z) : USB_Descriptor_String_t :=
  mkString (mkHeader (2 + 2) DTYPE_String) [c].

(** ** HIDReportData.h *)

Definition HID_RI_DATA_SIZE_MASK : Z := 0x03.
Definition HID_RI_TYPE_MASK : Z := 0x0C.
Definition HID_RI_TAG_MASK : Z := 0xF0.
Definition HID_RI_TYPE_MAIN : Z := 0x00.
Definition HID_RI_TYPE_GLOBAL : Z := 0x04.
Definition HID_RI_TYPE_LOCAL : Z := 0x08.

(** The [DataBits] argument of an item macro. *)
Inductive DataBits : Set := Bits0 | Bits8 | Bits16 | Bits32.
Definition HID_RI_DATA_BITS (b : DataBits) : Z :=
  match b with Bits0 => 0x00 | Bits8 => 0x01 | Bits16 => 0x02 | Bits32 => 0x03 end.
Definition HID_RI_ENCODE (b : DataBits) (Data : Z) : list Z :=
  match b with
  | Bits0 => []
  | Bits8 => [Z.land Data 0xFF]
  | Bits16 => [Z.land Data 0xFF; Z.land (Z.shiftr Data 8) 0xFF]
  | Bits32 => [Z.land Data 0xFF; Z.land (Z.shiftr Data 8) 0xFF;
               Z.land (Z.shiftr Data 16) 0xFF; Z.land (Z.shiftr (Z.shiftr Data 16) 8) 0xFF]
  end.

(** [_HID_RI_ENTRY(Type, Tag, DataBits, ...)] *)
Definition HID_RI_ENTRY (Type_ Tag : Z) (b : DataBits) (Data : Z) : list Z :=
  Z.lor (Z.lor Type_ Tag) (HID_RI_DATA_BITS b) :: HID_RI_ENCODE b Data.

Definition HID_IOF_CONSTANT : Z := bit 0.
Definition HID_RI_INPUT := HID_RI_ENTRY HID_RI_TYPE_MAIN 0x80.
Definition HID_RI_OUTPUT := HID_RI_ENTRY HID_RI_TYPE_MAIN 0x90.
Definition HID_RI_COLLECTION := HID_RI_ENTRY HID_RI_TYPE_MAIN 0xA0.
Definition HID_RI_FEATURE := HID_RI_ENTRY HID_RI_TYPE_MAIN 0xB0.
Definition HID_RI_END_COLLECTION := HID_RI_ENTRY HID_RI_TYPE_MAIN 0xC0.
Definition HID_RI_USAGE_PAGE := HID_RI_ENTRY HID_RI_TYPE_GLOBAL 0x00.
Definition HID_RI_LOGICAL_MINIMUM := HID_RI_ENTRY HID_RI_TYPE_GLOBAL 0x10.
Definition HID_RI_LOGICAL_MAXIMUM := HID_RI_ENTRY HID_RI_TYPE_GLOBAL 0x20.
Definition HID_RI_PHYSICAL_MINIMUM := HID_RI_ENTRY HID_RI_TYPE_GLOBAL 0x30.
Definition HID_RI_PHYSICAL_MAXIMUM := HID_RI_ENTRY HID_RI_TYPE_GLOBAL 0x40.
Definition HID_RI_UNIT_EXPONENT := HID_RI_ENTRY HID_RI_TYPE_GLOBAL 0x50.
Definition HID_RI_UNIT := HID_RI_ENTRY HID_RI_TYPE_GLOBAL 0x60.
Definition HID_RI_REPORT_SIZE := HID_RI_ENTRY HID_RI_TYPE_GLOBAL 0x70.
Definition HID_RI_REPORT_ID := HID_RI_ENTRY HID_RI_TYPE_GLOBAL 0x80.
Definition HID_RI_REPORT_COUNT := HID_RI_ENTRY HID_RI_TYPE_GLOBAL 0x90.
Definition HID_RI_PUSH := HID_RI_ENTRY HID_RI_TYPE_GLOBAL 0xA0.
Definition HID_RI_POP := HID_RI_ENTRY HID_RI_TYPE_GLOBAL 0xB0.
Definition HID_RI_USAGE := HID_RI_ENTRY HID_RI_TYPE_LOCAL 0x00.
Definition HID_RI_USAGE_MINIMUM := HID_RI_ENTRY HID_RI_TYPE_LOCAL 0x10.
Definition HID_RI_USAGE_MAXIMUM := HID_RI_ENTRY HID_RI_TYPE_LOCAL 0x20.
