(* ===== verification/Endpoint.v ===== *)
(** Endpoint management: LUFA/Drivers/USB/Core/AVR8/Endpoint_AVR8.h and the
    configuration half of Endpoint_AVR8.c, translated access by access.

    The selected endpoint is the hardware's UENUM register; every operation
    works on it, as in the code. *)

From stdpp Require Import base tactics option list numbers.
From Stdlib Require Import ZArith Lia.
From S2P Require Import Prelude Hardware.

Definition ENDPOINT_TOTAL_ENDPOINTS : Z := 7.
Definition ENDPOINT_EPNUM_MASK : Z := 0x0F.
Definition ENDPOINT_CONTROLEP : Z := 0.
Definition ENDPOINT_DIR_OUT : Z := 0x00.
Definition ENDPOINT_DIR_IN : Z := 0x80.
Definition EP_TYPE_CONTROL : Z := 0x00.
Definition EP_TYPE_INTERRUPT : Z := 0x03.

(** [USB_Endpoint_Table_t] *)
Record USB_Endpoint_Table_t : Set := mkEndpointTable {
  Address : Z;
  Size : Z;
  Type_ : Z;
  Banks : Z
}.

(** [Endpoint_BytesToEPSizeMask]: the loop doubles a 16-bit [CheckBytes]; [None]
    when it has not stopped after [fuel] tests of the guard. *)
Fixpoint EPSizeMask_loop (fuel : nat) (MaskVal CheckBytes Bytes : Z) : option Z :=
  match fuel with
  | O => None
  | S fuel =>
      if CheckBytes <? Bytes
      then EPSizeMask_loop fuel (u8 (MaskVal + 1)) (u16 (Z.shiftl CheckBytes 1)) Bytes
      else Some (u8 (Z.shiftl MaskVal EPSIZE0))
  end.

Definition Endpoint_BytesToEPSizeMask (fuel : nat) (Bytes : Z) : option Z :=
  EPSizeMask_loop fuel 0 8 Bytes.

Section Endpoint.
Context {HW : Hardware} {App : Type}.
Abbreviation P := (prog (World App)).

Definition Endpoint_BytesInEndpoint : P Z :=
  h ← rd UEBCHX; l ← rd UEBCLX; mret (Z.lor (Z.shiftl h 8) l).

Definition Endpoint_GetEndpointDirection : P Z :=
  d ← test_bits UECFG0X (bit EPDIR);
  mret (if d : bool then ENDPOINT_DIR_IN else ENDPOINT_DIR_OUT).

Definition Endpoint_GetCurrentEndpoint : P Z :=
  n ← rd UENUM; d ← Endpoint_GetEndpointDirection;
  mret (Z.lor (Z.land n ENDPOINT_EPNUM_MASK) d).

Definition Endpoint_SelectEndpoint (Address : Z) : P unit :=
  wr UENUM (Z.land Address ENDPOINT_EPNUM_MASK).

Definition Endpoint_ResetEndpoint (Address : Z) : P unit :=
  wr UERST (bit (Z.land Address ENDPOINT_EPNUM_MASK));;
  wr UERST 0.

Definition Endpoint_EnableEndpoint : P unit := set_bits UECONX (bit EPEN).
Definition Endpoint_DisableEndpoint : P unit := clr_bits UECONX (bit EPEN).
Definition Endpoint_IsEnabled : P bool := test_bits UECONX (bit EPEN).

Definition Endpoint_GetBusyBanks : P Z :=
  v ← rd UESTA0X; mret (Z.land v (Z.shiftl 0x03 NBUSYBK0)).

Definition Endpoint_AbortPendingIN (fuel : nat) : P unit :=
  while_ fuel (b ← Endpoint_GetBusyBanks; mret (negb (b =? 0)))
    (set_bits UEINTX (bit RXOUTI);;
     while_ fuel (test_bits UEINTX (bit RXOUTI)) (mret tt)).

Definition Endpoint_IsReadWriteAllowed : P bool := test_bits UEINTX (bit RWAL).
Definition Endpoint_IsConfigured : P bool := test_bits UESTA0X (bit CFGOK).
Definition Endpoint_GetEndpointInterrupts : P Z := rd UEINT.
Definition Endpoint_HasEndpointInterrupted (Address : Z) : P bool :=
  v ← Endpoint_GetEndpointInterrupts;
  mret (tst v (bit (Z.land Address ENDPOINT_EPNUM_MASK))).

Definition Endpoint_IsINReady : P bool := test_bits UEINTX (bit TXINI).
Definition Endpoint_IsOUTReceived : P bool := test_bits UEINTX (bit RXOUTI).
Definition Endpoint_IsSETUPReceived : P bool := test_bits UEINTX (bit RXSTPI).
Definition Endpoint_ClearSETUP : P unit := clr_bits UEINTX (bit RXSTPI).
Definition Endpoint_ClearIN : P unit :=
  clr_bits UEINTX (Z.lor (bit TXINI) (bit FIFOCON)).
Definition Endpoint_ClearOUT : P unit :=
  clr_bits UEINTX (Z.lor (bit RXOUTI) (bit FIFOCON)).

Definition Endpoint_StallTransaction : P unit := set_bits UECONX (bit STALLRQ).
Definition Endpoint_ClearStall : P unit := set_bits UECONX (bit STALLRQC).
Definition Endpoint_IsStalled : P bool := test_bits UECONX (bit STALLRQ).
Definition Endpoint_ResetDataToggle : P unit := set_bits UECONX (bit RSTDT).
Definition Endpoint_SetEndpointDirection (DirectionMask : Z) : P unit :=
  v ← rd UECFG0X;
  wr UECFG0X (Z.lor (Z.land v (Z.lnot (bit EPDIR)))
                    (if DirectionMask =? 0 then 0 else bit EPDIR)).

(** ** FIFO access *)

Definition Endpoint_Read_8 : P Z := rd UEDATX.
Definition Endpoint_Write_8 (Data : Z) : P unit := wr UEDATX Data.
Definition Endpoint_Discard_8 : P unit := rd UEDATX;; mret tt.

Definition Endpoint_Read_16_LE : P Z :=
  b0 ← rd UEDATX; b1 ← rd UEDATX; mret (of_le16 b0 b1).
Definition Endpoint_Read_16_BE : P Z :=
  b1 ← rd UEDATX; b0 ← rd UEDATX; mret (of_le16 b0 b1).
Definition Endpoint_Write_16_LE (Data : Z) : P unit :=
  wr UEDATX (Z.land Data 0xFF);; wr UEDATX (Z.shiftr Data 8).
Definition Endpoint_Write_16_BE (Data : Z) : P unit :=
  wr UEDATX (Z.shiftr Data 8);; wr UEDATX (Z.land Data 0xFF).
Definition Endpoint_Discard_16 : P unit := rd UEDATX;; rd UEDATX;; mret tt.

Definition Endpoint_Read_32_LE : P Z :=
  b0 ← rd UEDATX; b1 ← rd UEDATX; b2 ← rd UEDATX; b3 ← rd UEDATX;
  mret (of_le32 b0 b1 b2 b3).
Definition Endpoint_Read_32_BE : P Z :=
  b3 ← rd UEDATX; b2 ← rd UEDATX; b1 ← rd UEDATX; b0 ← rd UEDATX;
  mret (of_le32 b0 b1 b2 b3).
Definition Endpoint_Write_32_LE (Data : Z) : P unit :=
  wr UEDATX (Z.land Data 0xFF);; wr UEDATX (Z.shiftr Data 8);;
  wr UEDATX (Z.shiftr Data 16);; wr UEDATX (Z.shiftr Data 24).
Definition Endpoint_Write_32_BE (Data : Z) : P unit :=
  wr UEDATX (Z.shiftr Data 24);; wr UEDATX (Z.shiftr Data 16);;
  wr UEDATX (Z.shiftr Data 8);; wr UEDATX (Z.land Data 0xFF).
Definition Endpoint_Discard_32 : P unit :=
  rd UEDATX;; rd UEDATX;; rd UEDATX;; rd UEDATX;; mret tt.

(** ** Configuration *)

(** The loop of [Endpoint_ConfigureEndpoint_Prv] from endpoint [EPNum], with [n]
    endpoints left: endpoints above [Number] that own memory are torn down and
    set up again so that the controller re-allocates in order. *)
Fixpoint ConfigureEndpoint_loop (n : nat) (EPNum Number UECFG0XData UECFG1XData : Z)
    : P bool :=
  match n with
  | O => Endpoint_SelectEndpoint Number;; mret true
  | S n =>
      Endpoint_SelectEndpoint EPNum;;
      temps ← (if EPNum =? Number then mret (UECFG0XData, UECFG1XData, 0)
               else c0 ← rd UECFG0X; c1 ← rd UECFG1X; ie ← rd UEIENX; mret (c0, c1, ie));
      let '(UECFG0XTemp, UECFG1XTemp, UEIENXTemp) := temps in
      if negb (tst UECFG1XTemp (bit ALLOC))
      then ConfigureEndpoint_loop n (u8 (EPNum + 1)) Number UECFG0XData UECFG1XData
      else
        Endpoint_DisableEndpoint;;
        clr_bits UECFG1X (bit ALLOC);;
        Endpoint_EnableEndpoint;;
        wr UECFG0X UECFG0XTemp;;
        wr UECFG1X UECFG1XTemp;;
        wr UEIENX UEIENXTemp;;
        ok ← Endpoint_IsConfigured;
        if negb ok then mret false
        else ConfigureEndpoint_loop n (u8 (EPNum + 1)) Number UECFG0XData UECFG1XData
  end.

Definition Endpoint_ConfigureEndpoint_Prv (Number UECFG0XData UECFG1XData : Z) : P bool :=
  ConfigureEndpoint_loop (Z.to_nat (ENDPOINT_TOTAL_ENDPOINTS - Number))
    Number Number UECFG0XData UECFG1XData.

Definition Endpoint_ConfigureEndpoint (fuel : nat) (Address EPType Size Banks : Z) : P bool :=
  let Number := Z.land Address ENDPOINT_EPNUM_MASK in
  if ENDPOINT_TOTAL_ENDPOINTS <=? Number then mret false
  else
    match Endpoint_BytesToEPSizeMask fuel Size with
    | None => nofuel
    | Some mask =>
        Endpoint_ConfigureEndpoint_Prv Number
          (u8 (Z.lor (Z.shiftl EPType EPTYPE0)
                     (if tst Address ENDPOINT_DIR_IN then bit EPDIR else 0)))
          (u8 (Z.lor (Z.lor (bit ALLOC) (if 1 <? Banks then bit EPBK0 else 0)) mask))
    end.

Fixpoint Endpoint_ConfigureEndpointTable (fuel : nat)
    (Table : list USB_Endpoint_Table_t) : P bool :=
  match Table with
  | [] => mret true
  | e :: Table =>
      if Address e =? 0 then Endpoint_ConfigureEndpointTable fuel Table
      else
        ok ← Endpoint_ConfigureEndpoint fuel (Address e) (Type_ e) (Size e) (Banks e);
        if negb ok then mret false else Endpoint_ConfigureEndpointTable fuel Table
  end.

(** [Endpoint_ClearEndpoints]: the loop over all endpoints, from [EPNum]. *)
Fixpoint ClearEndpoints_loop (n : nat) (EPNum : Z) : P unit :=
  match n with
  | O => mret tt
  | S n =>
      Endpoint_SelectEndpoint EPNum;;
      wr UEIENX 0;;
      wr UEINTX 0;;
      wr UECFG1X 0;;
      Endpoint_DisableEndpoint;;
      ClearEndpoints_loop n (u8 (EPNum + 1))
  end.

Definition Endpoint_ClearEndpoints : P unit :=
  wr UEINT 0;;
  ClearEndpoints_loop (Z.to_nat ENDPOINT_TOTAL_ENDPOINTS) 0.
End Endpoint.

(** ** What a trace means to the endpoints *)

(** The endpoint selected. *)
Fixpoint selected (t : trace) : Z :=
  match t with
  | [] => 0
  | Wr UENUM v :: _ => v
  | _ :: t => selected t
  end.

(** A write of UEINTX that hands the IN bank to the controller. *)
Definition is_commit (v : Z) : bool := negb (tst v (bit TXINI)) && negb (tst v (bit FIFOCON)).

(** The bytes in the bank being filled, oldest first: those written since the
    endpoint was selected or its last bank was sent. *)
Fixpoint bank (t : trace) : list Z :=
  match t with
  | [] => []
  | Wr UEDATX v :: t => bank t ++ [v]
  | Wr UENUM _ :: _ => []
  | Wr UEINTX v :: t => if is_commit v then [] else bank t
  | _ :: t => bank t
  end.

(** The packets sent, oldest first, with their endpoint. *)
Fixpoint packets (t : trace) : list (Z * list Z) :=
  match t with
  | [] => []
  | Wr UEINTX v :: t =>
      if is_commit v then packets t ++ [(selected t, bank t)] else packets t
  | _ :: t => packets t
  end.

Lemma ClearIN_commit v : is_commit (u8 (Z.land v (Z.lnot (Z.lor (bit TXINI) (bit FIFOCON))))) = true.
Proof. unfold is_commit. by rewrite !tst_clr. Qed.

(** ** Frames *)

Section Frames.
Context {HW : Hardware} {App : Type} (R : World App -> World App -> Prop) {SR : StackRel R}.

Lemma keeps_ConfigureEndpoint_loop n e num d0 d1 :
  keeps R (ConfigureEndpoint_loop n e num d0 d1).
Proof. revert e; induction n as [|n IH]; intros e; cbn; keeps_tac; apply IH. Qed.

Lemma keeps_ConfigureEndpoint fuel a t s b : keeps R (Endpoint_ConfigureEndpoint fuel a t s b).
Proof.
  unfold Endpoint_ConfigureEndpoint, Endpoint_ConfigureEndpoint_Prv.
  keeps_tac; apply keeps_ConfigureEndpoint_loop.
Qed.
End Frames.

#[export] Hint Resolve keeps_ConfigureEndpoint : keeps.

(** ** Memory safety *)

Section Safety.
Context {HW : Hardware} {App : Type} {I : World App -> Prop} {SI : StackInv I}.

Lemma safe_ConfigureEndpoint fuel a t s b :
  safe I (Endpoint_ConfigureEndpoint (App := App) fuel a t s b).
Proof.
  unfold Endpoint_ConfigureEndpoint, Endpoint_ConfigureEndpoint_Prv. safe_tac.
  enough (forall n e num d0 d1,
    safe I (ConfigureEndpoint_loop (App := App) n e num d0 d1)) by done.
  intros n; induction n as [|n IH]; intros; cbn; safe_tac; apply IH.
Qed.
End Safety.

#[export] Hint Resolve safe_ConfigureEndpoint : safe.
