(* ===== verification/EndpointSpec.v ===== *)
(** Correctness of endpoint configuration (Endpoint.v). *)

From stdpp Require Import base tactics option list numbers.
From Stdlib Require Import ZArith Lia.
From S2P Require Import Prelude Hardware Endpoint.

(** ** The size mask *)

Lemma EPSizeMask_loop_finds fuel m Bytes : 0 <= m <= 12 -> (m = 0 \/ 8 * 2 ^ (m - 1) < Bytes) ->
  Bytes <= 32768 -> (12 - Z.to_nat m < fuel)%nat ->
  exists m', EPSizeMask_loop fuel m (8 * 2 ^ m) Bytes = Some (16 * m') /\ 0 <= m' <= 12 /\
    Bytes <= 8 * 2 ^ m' /\ (m' = 0 \/ 8 * 2 ^ (m' - 1) < Bytes).
Proof.
  revert m; induction fuel as [|fuel IH]; intros m Hm Hlow HB Hf; [lia|]. cbn.
  destruct (_ <? _) eqn:E; bool_hyps.
  - assert (m < 12) as Hlt.
    { destruct (decide (m = 12)) as [->|]; [cbn in E; lia|lia]. }
    assert (8 * 2 ^ (m + 1) = 2 * (8 * 2 ^ m)) as Hdouble by (rewrite Z.pow_add_r by lia; lia).
    assert (2 ^ (m + 1) <= 2 ^ 12) by (apply Z.pow_le_mono_r; lia).
    assert (0 < 2 ^ m) by (apply Z.pow_pos_nonneg; lia).
    rewrite u8_small by (unfold is_u8; lia). rewrite Z.shiftl_mul_pow2 by lia. change (2 ^ 1) with 2.
    rewrite u16_small by (unfold is_u16; lia). rewrite Z.mul_comm, <- Hdouble.
    apply IH; [lia| |done|lia]. right. replace (m + 1 - 1) with m by lia. lia.
  - exists m. rewrite Z.shiftl_mul_pow2 by (vm_compute; discriminate).
    unfold EPSIZE0. change (2 ^ 4) with 16. rewrite u8_small by (unfold is_u8; lia).
    repeat split; try lia; try done. f_equal. lia.
Qed.

(** Past the largest power of two the doubling wraps to zero and stays there. *)
Lemma EPSizeMask_loop_wraps fuel m k Bytes : 32768 < Bytes -> (k = 0 \/ exists i, 0 <= i <= 12 /\ k = 8 * 2 ^ i) ->
  EPSizeMask_loop fuel m k Bytes = None.
Proof.
  intros HB. revert m k; induction fuel as [|fuel IH]; intros m k Hk; [done|]. cbn.
  assert (k <= 32768) as Hmax.
  { destruct Hk as [->|(i & Hi & ->)]; [lia|].
    assert (2 ^ i <= 2 ^ 12) by (apply Z.pow_le_mono_r; lia). lia. }
  rewrite (proj2 (Z.ltb_lt k Bytes)) by lia. apply IH.
  rewrite Z.shiftl_mul_pow2 by lia. change (2 ^ 1) with 2.
  destruct Hk as [->|(i & Hi & ->)]; [by left|].
  destruct (decide (i = 12)) as [->|]; [by left|]. right. exists (i + 1). split; [lia|].
  assert (2 ^ (i + 1) <= 2 ^ 12) by (apply Z.pow_le_mono_r; lia).
  assert (0 < 2 ^ i) by (apply Z.pow_pos_nonneg; lia).
  rewrite Z.pow_add_r in * by lia. rewrite u16_small by (unfold is_u16; lia). lia.
Qed.

(** For every endpoint size up to 32768 bytes the size mask is found within 13
    tests, and it is the smallest bank size of the controller that holds the
    endpoint; a larger 16-bit size makes [Endpoint_BytesToEPSizeMask] loop for ever,
    since the doubled size wraps to zero. *)
Theorem BytesToEPSizeMask_result fuel Bytes : (13 <= fuel)%nat ->
  if Bytes <=? 32768
  then exists m, Endpoint_BytesToEPSizeMask fuel Bytes = Some (16 * m) /\ 0 <= m <= 12 /\
         Bytes <= 8 * 2 ^ m /\ (m = 0 \/ 8 * 2 ^ (m - 1) < Bytes)
  else forall fuel', Endpoint_BytesToEPSizeMask fuel' Bytes = None.
Proof.
  intros Hf. destruct (Bytes <=? 32768) eqn:E; bool_hyps.
  - apply (EPSizeMask_loop_finds fuel 0); lia.
  - intros fuel'. apply EPSizeMask_loop_wraps; [done|]. right. exists 0. split; [lia|done].
Qed.

Lemma BytesToEPSizeMask_result_witness :
  (exists m, Endpoint_BytesToEPSizeMask 13 64 = Some (16 * m) /\ 0 <= m <= 12 /\
     64 <= 8 * 2 ^ m /\ (m = 0 \/ 8 * 2 ^ (m - 1) < 64)) /\
  forall fuel, Endpoint_BytesToEPSizeMask fuel 32769 = None.
Proof.
  split; [apply (BytesToEPSizeMask_result 13 64)|apply (BytesToEPSizeMask_result 13 32769)]; lia.
Defined.

(** ** Configuration

    The configuration registers exist once per endpoint; a read returns the value
    last written for the endpoint selected. *)

Fixpoint cfg (r : Reg) (ep : Z) (t : trace) : Z :=
  match t with
  | [] => 0
  | Wr r' v :: t =>
      if decide (r = r') then if selected t =? ep then u8 v else cfg r ep t else cfg r ep t
  | Rd _ _ :: t => cfg r ep t
  end.

Definition config_reg (r : Reg) : Prop := r = UECFG0X \/ r = UECFG1X \/ r = UEIENX.

(** The banked registers of the data sheet, with memory enough for every endpoint. *)
Class EndpointRegs {HW : Hardware} : Prop := {
  er_read t r : config_reg r -> u8 (hw_read t r) = cfg r (selected t) t;
  er_ok t : tst (u8 (hw_read t UESTA0X)) (bit CFGOK) = true
}.

Section Configure.
Context {HW : Hardware} {App : Type} {ER : EndpointRegs}.
Abbreviation P := (prog (World App)).

(** [w'] has endpoint [e] selected and set to [c0], [c1] and [ie]; the registers
    of the other endpoints are as in [w]. *)
Definition configured (e c0 c1 ie : Z) (w w' : World App) : Prop :=
  selected (tr w') = e /\ forall r ep, config_reg r ->
    cfg r ep (tr w') =
      if ep =? e then (if decide (r = UECFG0X) then c0 else if decide (r = UECFG1X) then c1 else ie)
      else cfg r ep (tr w).

(** The part of a round that tears an endpoint down and sets it up. *)
Lemma setup_configured e c0 c1 ie (K : P bool) Q w :
  is_u8 c0 -> is_u8 c1 -> is_u8 ie -> selected (tr w) = e ->
  (forall w', configured e c0 c1 ie w w' -> wp true K Q w') ->
  wp true (Endpoint_DisableEndpoint;; clr_bits UECFG1X (bit ALLOC);; Endpoint_EnableEndpoint;;
           wr UECFG0X c0;; wr UECFG1X c1;; wr UEIENX ie;;
           ok ← Endpoint_IsConfigured; if negb ok then mret false else K) Q w.
Proof.
  intros H0 H1 Hie Hs HK. unfold Endpoint_DisableEndpoint, Endpoint_EnableEndpoint,
    Endpoint_IsConfigured, set_bits, clr_bits, test_bits.
  acc_steps. cbn [reg_trunc]. rewrite er_ok. apply HK. split; [exact Hs|].
  intros r ep [-> | [-> | ->]]; regs_simpl;
    rewrite Hs, ?(u8_small c0), ?(u8_small c1), ?(u8_small ie) by done;
    rewrite (Z.eqb_sym e ep); by destruct (ep =? e).
Qed.

Lemma cfg_select r ep v t : config_reg r -> cfg r ep (Wr UENUM v :: t) = cfg r ep t.
Proof. intros [-> | [-> | ->]]; by regs_simpl. Qed.

Lemma epnum_mask e : 0 <= e < 16 -> u8 (Z.land e ENDPOINT_EPNUM_MASK) = e.
Proof.
  intros He. change ENDPOINT_EPNUM_MASK with (Z.ones 4). rewrite Z.land_ones, Z.mod_small by lia. apply u8_small. unfold is_u8. lia.
Qed.

(** Reading back the registers of another endpoint: what the round works with. *)
Lemma read_config {B} (K : Z * Z * Z -> P B) Q (w : World App) :
  let e := selected (tr w) in
  (forall w', selected (tr w') = e -> (forall r ep, cfg r ep (tr w') = cfg r ep (tr w)) ->
     wp true (K (cfg UECFG0X e (tr w), cfg UECFG1X e (tr w), cfg UEIENX e (tr w))) Q w') ->
  wp true (temps ← (c0 ← rd UECFG0X; c1 ← rd UECFG1X; ie ← rd UEIENX; mret (c0, c1, ie)); K temps) Q w.
Proof.
  intros e HK. apply wp_bind, wp_bind, wp_rd, wp_bind, wp_rd, wp_bind, wp_rd, wp_ret.
  cbn [reg_trunc]. rewrite !er_read by (unfold config_reg; tauto). by apply HK.
Qed.

(** The endpoints above the one being configured are left as they were. *)
Lemma ConfigureEndpoint_loop_above n e N d0 d1 (w : World App) :
  0 <= N < e -> e + Z.of_nat n = 7 ->
  wp true (ConfigureEndpoint_loop n e N d0 d1) (fun ok w' => ok = true /\ selected (tr w') = N /\
    forall r ep, config_reg r -> cfg r ep (tr w') = cfg r ep (tr w)) w.
Proof.
  revert e w; induction n as [|n IH]; intros e w HN He; cbn [ConfigureEndpoint_loop];
    unfold Endpoint_SelectEndpoint; apply wp_bind, wp_wr.
  { apply wp_ret. cbn [tr upd_tr selected reg_trunc]. rewrite epnum_mask by lia.
    split; [done|]. split; [done|]. intros r ep Hr. by apply cfg_select. }
  rewrite (proj2 (Z.eqb_neq e N)) by lia.
  rewrite (u8_small (e + 1)) by (unfold is_u8; lia).
  set (w1 := upd_tr _ w). assert (selected (tr w1) = e) as Hs1 by (cbn; apply epnum_mask; lia).
  assert (forall r ep, config_reg r -> cfg r ep (tr w1) = cfg r ep (tr w)) as Hc1
    by (intros; by apply cfg_select).
  apply read_config. rewrite Hs1. intros w2 Hs2 Hc2.
  assert (forall r, config_reg r -> is_u8 (cfg r e (tr w2))) as Hu.
  { intros r Hr. rewrite <- Hs2, <- er_read by done. apply u8_range. }
  assert (forall w3 : World App, (forall r ep, config_reg r -> cfg r ep (tr w3) = cfg r ep (tr w1)) ->
    wp true (ConfigureEndpoint_loop n (e + 1) N d0 d1) (fun ok w' => ok = true /\
      selected (tr w') = N /\ forall r ep, config_reg r -> cfg r ep (tr w') = cfg r ep (tr w)) w3)
    as Hrest.
  { intros w3 Hc3. eapply wp_mono; [apply IH; lia|]. intros ok w4 (-> & Hs4 & Hc4).
    split; [done|]. split; [done|]. intros r ep Hr. by rewrite Hc4, Hc3, Hc1. }
  destruct (negb _); [by apply Hrest|].
  rewrite <- !Hc2. apply (setup_configured e);
    [apply Hu; unfold config_reg; tauto..|done|]. intros w3 [Hs3 Hc3]. apply Hrest.
  intros r ep Hr. rewrite Hc3 by done. destruct (ep =? e) eqn:E; bool_hyps; [|by rewrite Hc2].
  rewrite E, <- Hc2. destruct Hr as [-> | [-> | ->]]; by regs_simpl.
Qed.

Lemma ConfigureEndpoint_Prv_sets N d0 d1 (w : World App) :
  0 <= N < 7 -> is_u8 d0 -> is_u8 d1 -> tst d1 (bit ALLOC) = true ->
  wp true (Endpoint_ConfigureEndpoint_Prv N d0 d1)
    (fun ok w' => ok = true /\ configured N d0 d1 0 w w') w.
Proof.
  intros HN H0 H1 Ha. unfold Endpoint_ConfigureEndpoint_Prv, ENDPOINT_TOTAL_ENDPOINTS.
  destruct (Z.to_nat (7 - N)) as [|n] eqn:En; [lia|]. cbn [ConfigureEndpoint_loop].
  unfold Endpoint_SelectEndpoint. apply wp_bind, wp_wr. rewrite Z.eqb_refl.
  apply wp_bind, wp_ret. rewrite Ha. cbn [negb].
  rewrite (u8_small (N + 1)) by (unfold is_u8; lia).
  apply (setup_configured N); [done|done|by vm_compute|cbn; apply epnum_mask; lia|].
  intros w1 [Hs1 Hc1]. eapply wp_mono; [apply ConfigureEndpoint_loop_above; lia|].
  intros ok w2 (-> & Hs2 & Hc2). split; [done|]. split; [done|]. intros r ep Hr.
  rewrite Hc2, Hc1 by done. destruct (ep =? N); [done|]. by apply cfg_select.
Qed.
End Configure.

(** Configuring an endpoint of up to 512 bytes terminates and succeeds when the
    controller has the memory: the endpoint gets its type, direction, bank count
    and the smallest bank that holds it, its interrupts are off, it is left
    selected, and the configuration of every other endpoint survives the
    re-allocation of those above it. *)
Theorem ConfigureEndpoint_sets {HW : Hardware} {App} {ER : EndpointRegs} fuel Address EPType Size
    Banks (w : World App) :
  let N := Z.land Address ENDPOINT_EPNUM_MASK in
  N < ENDPOINT_TOTAL_ENDPOINTS -> 0 <= EPType < 4 -> Size <= 512 -> (13 <= fuel)%nat ->
  exists w' m, Endpoint_ConfigureEndpoint fuel Address EPType Size Banks w = Ret true w' /\
    selected (tr w') = N /\
    cfg UECFG0X N (tr w') = EPType * 64 + (if tst Address ENDPOINT_DIR_IN then 1 else 0) /\
    cfg UECFG1X N (tr w') = m * 16 + (if 1 <? Banks then 4 else 0) + 2 /\
    cfg UEIENX N (tr w') = 0 /\
    Size <= 8 * 2 ^ m /\ (m = 0 \/ 8 * 2 ^ (m - 1) < Size) /\
    forall r ep, config_reg r -> ep <> N -> cfg r ep (tr w') = cfg r ep (tr w).
Proof.
  intros N HN Ht HS Hf.
  destruct (EPSizeMask_loop_finds fuel 0 Size) as (m & Hm & Hmr & Hsz & Hmin); [lia..|].
  assert (m <= 6) as Hm6.
  { destruct (decide (m <= 6)); [done|]. destruct Hmin as [->|Hmin]; [lia|].
    assert (2 ^ 6 <= 2 ^ (m - 1)) by (apply Z.pow_le_mono_r; lia). lia. }
  assert (0 <= N) by (apply Z.land_nonneg; right; done).
  set (d0 := EPType * 64 + (if tst Address ENDPOINT_DIR_IN then 1 else 0)).
  set (d1 := m * 16 + (if 1 <? Banks then 4 else 0) + 2).
  assert (u8 (Z.lor (Z.shiftl EPType EPTYPE0) (if tst Address ENDPOINT_DIR_IN then bit EPDIR else 0))
          = d0) as E0.
  { subst d0. destruct (tst _ _);
      assert (EPType = 0 \/ EPType = 1 \/ EPType = 2 \/ EPType = 3) as [-> | [-> | [-> | ->]]] by lia;
      done. }
  assert (u8 (Z.lor (Z.lor (bit ALLOC) (if 1 <? Banks then bit EPBK0 else 0)) (16 * m)) = d1
          /\ tst d1 (bit ALLOC) = true /\ is_u8 d1) as (E1 & Ha & Hu1).
  { subst d1. destruct (1 <? Banks);
      assert (m = 0 \/ m = 1 \/ m = 2 \/ m = 3 \/ m = 4 \/ m = 5 \/ m = 6)
        as [-> | [-> | [-> | [-> | [-> | [-> | ->]]]]]] by lia; by vm_compute. }
  assert (is_u8 d0) as Hu0 by (rewrite <- E0; apply u8_range).
  destruct (wp_total_run _ _ _ (ConfigureEndpoint_Prv_sets N d0 d1 w (conj H HN) Hu0 Hu1 Ha))
    as (ok & w' & Hrun & -> & Hsel & Hcfg).
  exists w', m. unfold Endpoint_ConfigureEndpoint. fold N.
  rewrite (proj2 (Z.leb_gt _ _) HN). unfold Endpoint_BytesToEPSizeMask. 
  change 8 with (8 * 2 ^ 0) at 1. rewrite Hm, E0, E1.
  split; [exact Hrun|]. split; [done|].
  split; [|split; [|split]]; try (rewrite Hcfg, Z.eqb_refl by (unfold config_reg; tauto); by regs_simpl).
  split; [done|]. split; [done|]. intros r ep Hr Hep. rewrite Hcfg by done.
  by rewrite (proj2 (Z.eqb_neq _ _) Hep).
Qed.

(** The registers as the data sheet describes them, and nothing else. *)
Definition regs_hw : Hardware :=
  {| hw_read := fun t r =>
       match r with
       | UECFG0X | UECFG1X | UEIENX => cfg r (selected t) t
       | UESTA0X => bit CFGOK
       | _ => 0
       end;
     hw_irq := fun _ => false; hw_signature := fun _ => 0 |}.

Lemma cfg_u8 r ep t : is_u8 (cfg r ep t).
Proof.
  induction t as [|[r' v|r' v] t IH]; cbn; [by vm_compute|done|].
  destruct (decide _); [destruct (_ =? _); [apply u8_range|done]|done].
Qed.

Lemma regs_hw_regs : EndpointRegs (HW := regs_hw).
Proof.
  split; [|done]. intros t r [-> | [-> | ->]]; apply u8_small, cfg_u8.
Qed.

Lemma ConfigureEndpoint_sets_witness :
  exists w' m, Endpoint_ConfigureEndpoint (HW := regs_hw) 13 0x81 3 64 1 (reset_world tt) = Ret true w' /\
    selected (tr w') = 1 /\ cfg UECFG0X 1 (tr w') = 3 * 64 + 1 /\
    cfg UECFG1X 1 (tr w') = m * 16 + 0 + 2 /\ cfg UEIENX 1 (tr w') = 0 /\
    64 <= 8 * 2 ^ m /\ (m = 0 \/ 8 * 2 ^ (m - 1) < 64) /\
    forall r ep, config_reg r -> ep <> 1 -> cfg r ep (tr w') = cfg r ep [].
Proof.
  apply (ConfigureEndpoint_sets (ER := regs_hw_regs) 13 0x81 3 64 1 (reset_world tt));
    [reflexivity|lia|lia|lia].
Defined.
