(* ===== verification/USBController.v ===== *)
(** The USB controller and its interrupts: LUFA/Drivers/USB/Core/AVR8/
    USBController_AVR8.[ch], USBInterrupt_AVR8.[ch] and Device_AVR8.[ch], as
    compiled for the ATmega32U4 in device-only mode with the options of
    firmware/Config/LUFAConfig.h. *)

From stdpp Require Import base tactics option list numbers.
From Stdlib Require Import ZArith Lia.
From S2P Require Import Prelude Hardware Endpoint.

(** ** Configuration of the build *)

Definition USB_DEVICE_OPT_LOWSPEED : Z := bit 0.
Definition USB_DEVICE_OPT_FULLSPEED : Z := Z.shiftl 0 0.
Definition USB_OPT_REG_DISABLED : Z := bit 1.
Definition USB_OPT_REG_ENABLED : Z := Z.shiftl 0 1.
Definition USB_OPT_REG_KEEP_ENABLED : Z := bit 3.
Definition USB_OPT_MANUAL_PLL : Z := bit 2.
Definition USB_OPT_AUTO_PLL : Z := Z.shiftl 0 2.
Definition USE_STATIC_OPTIONS : Z :=
  Z.lor (Z.lor USB_DEVICE_OPT_FULLSPEED USB_OPT_REG_ENABLED) USB_OPT_AUTO_PLL.
Definition USB_Options : Z := USE_STATIC_OPTIONS.
Definition FIXED_CONTROL_ENDPOINT_SIZE : Z := 64.
Definition FIXED_NUM_CONFIGURATIONS : Z := 1.
Definition USB_Device_ControlEndpointSize : Z := FIXED_CONTROL_ENDPOINT_SIZE.
Definition USB_STREAM_TIMEOUT_MS : Z := 100.
Definition USB_PLL_PSC : Z := bit PINDIV.
Definition INTERNAL_SERIAL_LENGTH_BITS : Z := 80.
Definition INTERNAL_SERIAL_START_ADDRESS : Z := 0x0E.

(** [enum USB_Device_States_t] *)
Definition DEVICE_STATE_Unattached : Z := 0.
Definition DEVICE_STATE_Powered : Z := 1.
Definition DEVICE_STATE_Default : Z := 2.
Definition DEVICE_STATE_Addressed : Z := 3.
Definition DEVICE_STATE_Configured : Z := 4.
Definition DEVICE_STATE_Suspended : Z := 5.

(** [enum USB_Interrupts_t], the members of a device-only series 4 part *)
Inductive USB_Interrupts_t : Set :=
  | USB_INT_VBUSTI | USB_INT_WAKEUPI | USB_INT_SUSPI | USB_INT_EORSTI
  | USB_INT_SOFI | USB_INT_RXSTPI.

(** The events the interrupt handler raises in the application. *)
Class DeviceEvents (App : Type) : Type := {
  EVENT_USB_Device_StartOfFrame : prog (World App) unit;
  EVENT_USB_Device_Connect : prog (World App) unit;
  EVENT_USB_Device_Disconnect : prog (World App) unit;
  EVENT_USB_Device_Suspend : prog (World App) unit;
  EVENT_USB_Device_WakeUp : prog (World App) unit;
  EVENT_USB_Device_Reset : prog (World App) unit
}.

(** An application that ignores them. *)
Definition no_events (App : Type) : DeviceEvents App :=
  {| EVENT_USB_Device_StartOfFrame := mret tt; EVENT_USB_Device_Connect := mret tt;
     EVENT_USB_Device_Disconnect := mret tt; EVENT_USB_Device_Suspend := mret tt;
     EVENT_USB_Device_WakeUp := mret tt; EVENT_USB_Device_Reset := mret tt |}.

Section Controller.
Context {HW : Hardware} {App : Type}.
Abbreviation P := (prog (World App)).

(** ** USBInterrupt_AVR8.h *)

Definition USB_INT_Enable (Interrupt : USB_Interrupts_t) : P unit :=
  match Interrupt with
  | USB_INT_VBUSTI => set_bits USBCON (bit VBUSTE)
  | USB_INT_WAKEUPI => set_bits UDIEN (bit WAKEUPE)
  | USB_INT_SUSPI => set_bits UDIEN (bit SUSPE)
  | USB_INT_EORSTI => set_bits UDIEN (bit EORSTE)
  | USB_INT_SOFI => set_bits UDIEN (bit SOFE)
  | USB_INT_RXSTPI => set_bits UEIENX (bit RXSTPE)
  end.

Definition USB_INT_Disable (Interrupt : USB_Interrupts_t) : P unit :=
  match Interrupt with
  | USB_INT_VBUSTI => clr_bits USBCON (bit VBUSTE)
  | USB_INT_WAKEUPI => clr_bits UDIEN (bit WAKEUPE)
  | USB_INT_SUSPI => clr_bits UDIEN (bit SUSPE)
  | USB_INT_EORSTI => clr_bits UDIEN (bit EORSTE)
  | USB_INT_SOFI => clr_bits UDIEN (bit SOFE)
  | USB_INT_RXSTPI => clr_bits UEIENX (bit RXSTPE)
  end.

Definition USB_INT_Clear (Interrupt : USB_Interrupts_t) : P unit :=
  match Interrupt with
  | USB_INT_VBUSTI => clr_bits USBINT (bit VBUSTI)
  | USB_INT_WAKEUPI => clr_bits UDINT (bit WAKEUPI)
  | USB_INT_SUSPI => clr_bits UDINT (bit SUSPI)
  | USB_INT_EORSTI => clr_bits UDINT (bit EORSTI)
  | USB_INT_SOFI => clr_bits UDINT (bit SOFI)
  | USB_INT_RXSTPI => clr_bits UEINTX (bit RXSTPI)
  end.

Definition USB_INT_IsEnabled (Interrupt : USB_Interrupts_t) : P bool :=
  match Interrupt with
  | USB_INT_VBUSTI => test_bits USBCON (bit VBUSTE)
  | USB_INT_WAKEUPI => test_bits UDIEN (bit WAKEUPE)
  | USB_INT_SUSPI => test_bits UDIEN (bit SUSPE)
  | USB_INT_EORSTI => test_bits UDIEN (bit EORSTE)
  | USB_INT_SOFI => test_bits UDIEN (bit SOFE)
  | USB_INT_RXSTPI => test_bits UEIENX (bit RXSTPE)
  end.

Definition USB_INT_HasOccurred (Interrupt : USB_Interrupts_t) : P bool :=
  match Interrupt with
  | USB_INT_VBUSTI => test_bits USBINT (bit VBUSTI)
  | USB_INT_WAKEUPI => test_bits UDINT (bit WAKEUPI)
  | USB_INT_SUSPI => test_bits UDINT (bit SUSPI)
  | USB_INT_EORSTI => test_bits UDINT (bit EORSTI)
  | USB_INT_SOFI => test_bits UDINT (bit SOFI)
  | USB_INT_RXSTPI => test_bits UEINTX (bit RXSTPI)
  end.

Definition USB_INT_DisableAllInterrupts : P unit :=
  clr_bits USBCON (bit VBUSTE);;
  wr UDIEN 0.

Definition USB_INT_ClearAllInterrupts : P unit :=
  wr USBINT 0;;
  wr UDINT 0.

(** ** USBController_AVR8.h *)

Definition USB_VBUS_GetStatus : P bool := test_bits USBSTA (bit VBUS).
Definition USB_Detach : P unit := set_bits UDCON (bit DETACH).
Definition USB_Attach : P unit := clr_bits UDCON (bit DETACH).
Definition USB_PLL_On : P unit :=
  wr PLLCSR USB_PLL_PSC;;
  wr PLLCSR (Z.lor USB_PLL_PSC (bit PLLE)).
Definition USB_PLL_Off : P unit := wr PLLCSR 0.
Definition USB_PLL_IsReady : P bool := test_bits PLLCSR (bit PLOCK).
Definition USB_REG_On : P unit := set_bits UHWCON (bit UVREGE).
Definition USB_REG_Off : P unit := clr_bits UHWCON (bit UVREGE).
Definition USB_OTGPAD_On : P unit := set_bits USBCON (bit OTGPADE).
Definition USB_OTGPAD_Off : P unit := clr_bits USBCON (bit OTGPADE).
Definition USB_CLK_Freeze : P unit := set_bits USBCON (bit FRZCLK).
Definition USB_CLK_Unfreeze : P unit := clr_bits USBCON (bit FRZCLK).
Definition USB_Controller_Enable : P unit := set_bits USBCON (bit USBE).
Definition USB_Controller_Disable : P unit := clr_bits USBCON (bit USBE).
Definition USB_Controller_Reset : P unit :=
  clr_bits USBCON (bit USBE);;
  set_bits USBCON (bit USBE).

(** [while (!(USB_PLL_IsReady()));] *)
Definition USB_PLL_Wait (fuel : nat) : P unit :=
  while_ fuel (r ← USB_PLL_IsReady; mret (negb r)) (mret tt).

(** ** Device_AVR8.[ch] *)

Definition USB_Device_GetFrameNumber : P Z := rd UDFNUM.
Definition USB_Device_EnableSOFEvents : P unit := USB_INT_Enable USB_INT_SOFI.
Definition USB_Device_DisableSOFEvents : P unit := USB_INT_Disable USB_INT_SOFI.
Definition USB_Device_SetLowSpeed : P unit := set_bits UDCON (bit LSM).
Definition USB_Device_SetFullSpeed : P unit := clr_bits UDCON (bit LSM).
Definition USB_Device_SetDeviceAddress (Address : Z) : P unit :=
  v ← rd UDADDR;
  wr UDADDR (Z.lor (Z.land v (bit ADDEN)) (Z.land Address 0x7F)).
Definition USB_Device_EnableDeviceAddress (Address : Z) : P unit :=
  set_bits UDADDR (bit ADDEN).
Definition USB_Device_IsAddressSet : P bool := test_bits UDADDR (bit ADDEN).

Definition USB_Device_SendRemoteWakeup (fuel : nat) : P unit :=
  when (negb (tst USB_Options USB_OPT_MANUAL_PLL)) (USB_PLL_On;; USB_PLL_Wait fuel);;
  USB_CLK_Unfreeze;;
  set_bits UDCON (bit RMWKUP);;
  while_ fuel (test_bits UDCON (bit RMWKUP)) (mret tt).

(** The character of a nibble: ['A' - 10 + n] or ['0' + n]. *)
Definition serial_char (n : Z) : Z := if 10 <=? n then (65 - 10) + n else 48 + n.

(** The loop of [USB_Device_GetSerialString] from [SerialCharNum]: the unicode
    characters it stores. *)
Fixpoint GetSerialString_loop (n : nat) (SerialCharNum SigReadAddress : Z) : list Z :=
  match n with
  | O => []
  | S n =>
      let SerialByte := u8 (hw_signature SigReadAddress) in
      let odd := tst SerialCharNum 0x01 in
      let SerialByte := if odd then Z.shiftr SerialByte 4 else SerialByte in
      let SigReadAddress := if odd then u8 (SigReadAddress + 1) else SigReadAddress in
      u16 (serial_char (Z.land SerialByte 0x0F))
        :: GetSerialString_loop n (u8 (SerialCharNum + 1)) SigReadAddress
  end.

Definition USB_Device_GetSerialString : P (list Z) :=
  CurrentGlobalInt ← GetGlobalInterruptMask;
  GlobalInterruptDisable;;
  let UnicodeString :=
    GetSerialString_loop (Z.to_nat (INTERNAL_SERIAL_LENGTH_BITS / 4)) 0
      INTERNAL_SERIAL_START_ADDRESS in
  SetGlobalInterruptMask CurrentGlobalInt;;
  mret UnicodeString.

(** ** USBController_AVR8.c *)

Definition USB_Init_Device (fuel : nat) : P unit :=
  modify (upd_DeviceState DEVICE_STATE_Unattached);;
  modify (upd_ConfigurationNumber 0);;
  modify (upd_RemoteWakeupEnabled false);;
  modify (upd_CurrentlySelfPowered false);;
  (if tst USB_Options USB_DEVICE_OPT_LOWSPEED
   then USB_Device_SetLowSpeed else USB_Device_SetFullSpeed);;
  USB_INT_Enable USB_INT_VBUSTI;;
  Endpoint_ConfigureEndpoint fuel ENDPOINT_CONTROLEP EP_TYPE_CONTROL
    USB_Device_ControlEndpointSize 1;;
  USB_INT_Clear USB_INT_SUSPI;;
  USB_INT_Enable USB_INT_SUSPI;;
  USB_INT_Enable USB_INT_EORSTI;;
  USB_Attach.

Definition USB_ResetInterface (fuel : nat) : P unit :=
  USB_INT_DisableAllInterrupts;;
  USB_INT_ClearAllInterrupts;;
  USB_Controller_Reset;;
  USB_CLK_Unfreeze;;
  when (negb (tst USB_Options USB_OPT_MANUAL_PLL)) USB_PLL_Off;;
  USB_Init_Device fuel;;
  USB_OTGPAD_On.

Definition USB_Init (fuel : nat) : P unit :=
  USB_OTGPAD_Off;;
  (if negb (tst USB_Options USB_OPT_REG_DISABLED) then USB_REG_On else USB_REG_Off);;
  when (negb (tst USB_Options USB_OPT_MANUAL_PLL)) (wr PLLFRQ (bit PDIV2));;
  modify (upd_IsInitialized true);;
  USB_ResetInterface fuel.

Definition USB_Disable : P unit :=
  USB_INT_DisableAllInterrupts;;
  USB_INT_ClearAllInterrupts;;
  USB_Detach;;
  USB_Controller_Disable;;
  when (negb (tst USB_Options USB_OPT_MANUAL_PLL)) USB_PLL_Off;;
  when (negb (tst USB_Options USB_OPT_REG_KEEP_ENABLED)) USB_REG_Off;;
  USB_OTGPAD_Off;;
  modify (upd_IsInitialized false).

(** ** The general interrupt: [ISR(USB_GEN_vect, ISR_BLOCK)] *)

Context {EV : DeviceEvents App}.

(** [USB_INT_HasOccurred(i) && USB_INT_IsEnabled(i)], short-circuit included *)
Definition USB_INT_Pending (i : USB_Interrupts_t) : P bool :=
  o ← USB_INT_HasOccurred i;
  if o : bool then USB_INT_IsEnabled i else mret false.

Definition ISR_StartOfFrame : P unit :=
  p ← USB_INT_Pending USB_INT_SOFI;
  when p (USB_INT_Clear USB_INT_SOFI;; EVENT_USB_Device_StartOfFrame).

Definition ISR_VBusChange (fuel : nat) : P unit :=
  p ← USB_INT_Pending USB_INT_VBUSTI;
  when p (
    USB_INT_Clear USB_INT_VBUSTI;;
    v ← USB_VBUS_GetStatus;
    if v : bool then
      when (negb (tst USB_Options USB_OPT_MANUAL_PLL)) (USB_PLL_On;; USB_PLL_Wait fuel);;
      modify (upd_DeviceState DEVICE_STATE_Powered);;
      EVENT_USB_Device_Connect
    else
      when (negb (tst USB_Options USB_OPT_MANUAL_PLL)) USB_PLL_Off;;
      modify (upd_DeviceState DEVICE_STATE_Unattached);;
      EVENT_USB_Device_Disconnect).

Definition ISR_Suspend : P unit :=
  p ← USB_INT_Pending USB_INT_SUSPI;
  when p (
    USB_INT_Disable USB_INT_SUSPI;;
    USB_INT_Enable USB_INT_WAKEUPI;;
    USB_CLK_Freeze;;
    when (negb (tst USB_Options USB_OPT_MANUAL_PLL)) USB_PLL_Off;;
    modify (upd_DeviceState DEVICE_STATE_Suspended);;
    EVENT_USB_Device_Suspend).

Definition ISR_WakeUp (fuel : nat) : P unit :=
  p ← USB_INT_Pending USB_INT_WAKEUPI;
  when p (
    when (negb (tst USB_Options USB_OPT_MANUAL_PLL)) (USB_PLL_On;; USB_PLL_Wait fuel);;
    USB_CLK_Unfreeze;;
    USB_INT_Clear USB_INT_WAKEUPI;;
    USB_INT_Disable USB_INT_WAKEUPI;;
    USB_INT_Enable USB_INT_SUSPI;;
    n ← gets USB_Device_ConfigurationNumber;
    (if negb (n =? 0) then modify (upd_DeviceState DEVICE_STATE_Configured)
     else
       a ← USB_Device_IsAddressSet;
       modify (upd_DeviceState
         (if a : bool then DEVICE_STATE_Addressed else DEVICE_STATE_Powered)));;
    EVENT_USB_Device_WakeUp).

Definition ISR_Reset (fuel : nat) : P unit :=
  p ← USB_INT_Pending USB_INT_EORSTI;
  when p (
    USB_INT_Clear USB_INT_EORSTI;;
    modify (upd_DeviceState DEVICE_STATE_Default);;
    modify (upd_ConfigurationNumber 0);;
    USB_INT_Clear USB_INT_SUSPI;;
    USB_INT_Disable USB_INT_SUSPI;;
    USB_INT_Enable USB_INT_WAKEUPI;;
    Endpoint_ConfigureEndpoint fuel ENDPOINT_CONTROLEP EP_TYPE_CONTROL
      USB_Device_ControlEndpointSize 1;;
    EVENT_USB_Device_Reset).

Definition USB_GEN_vect (fuel : nat) : P unit :=
  ISR_StartOfFrame;;
  ISR_VBusChange fuel;;
  ISR_Suspend;;
  ISR_WakeUp fuel;;
  ISR_Reset fuel.

(** A point where the processor takes a pending interrupt: the handler runs with
    interrupts disabled (ISR_BLOCK) and the return restores the I bit. *)
Definition interrupt_point (fuel : nat) : P unit := fun w =>
  if global_irq w && hw_irq (tr w)
  then (modify (upd_global_irq false);; USB_GEN_vect fuel;; modify (upd_global_irq true)) w
  else Ret tt w.

(** A read of the volatile [USB_DeviceState] in a polling loop. *)
Definition poll_DeviceState (fuel : nat) : P Z :=
  interrupt_point fuel;; gets USB_DeviceState.
End Controller.

(** ** Frames *)

(** The application's events respect a relation. *)
Class EventsKeep {App} (EV : DeviceEvents App) (R : World App -> World App -> Prop) : Prop := {
  ek_sof : keeps R EVENT_USB_Device_StartOfFrame;
  ek_connect : keeps R EVENT_USB_Device_Connect;
  ek_disconnect : keeps R EVENT_USB_Device_Disconnect;
  ek_suspend : keeps R EVENT_USB_Device_Suspend;
  ek_wakeup : keeps R EVENT_USB_Device_WakeUp;
  ek_reset : keeps R EVENT_USB_Device_Reset
}.
#[export] Hint Resolve ek_sof ek_connect ek_disconnect ek_suspend ek_wakeup ek_reset : keeps.

Section Frames.
Context {HW : Hardware} {App : Type} (R : World App -> World App -> Prop) {SR : StackRel R}.

Lemma keeps_USB_Init fuel : keeps R (USB_Init fuel).
Proof. keeps_tac. Qed.

Lemma keeps_GetSerialString : keeps R USB_Device_GetSerialString.
Proof. keeps_tac. Qed.

Context {EV : DeviceEvents App} {EK : EventsKeep EV R}.

Lemma keeps_USB_GEN_vect fuel : keeps R (USB_GEN_vect fuel).
Proof. keeps_tac. Qed.

Lemma keeps_interrupt_point fuel : keeps R (interrupt_point fuel).
Proof.
  intros w. unfold interrupt_point. destruct (global_irq w && hw_irq (tr w)); [|reflexivity].
  revert w. change (keeps R (modify (upd_global_irq false);; USB_GEN_vect fuel;;
                             modify (upd_global_irq true))).
  pose proof (keeps_USB_GEN_vect fuel). keeps_tac.
Qed.

Lemma keeps_poll_DeviceState fuel : keeps R (poll_DeviceState fuel).
Proof. pose proof (keeps_interrupt_point fuel). unfold poll_DeviceState. keeps_tac. Qed.
End Frames.

#[export] Hint Resolve keeps_poll_DeviceState keeps_GetSerialString keeps_USB_Init : keeps.

(** ** Memory safety *)

Class EventsSafe {App} (EV : DeviceEvents App) (I : World App -> Prop) : Prop := {
  es_sof : safe I EVENT_USB_Device_StartOfFrame;
  es_connect : safe I EVENT_USB_Device_Connect;
  es_disconnect : safe I EVENT_USB_Device_Disconnect;
  es_suspend : safe I EVENT_USB_Device_Suspend;
  es_wakeup : safe I EVENT_USB_Device_WakeUp;
  es_reset : safe I EVENT_USB_Device_Reset
}.
#[export] Hint Resolve es_sof es_connect es_disconnect es_suspend es_wakeup es_reset : safe.

Section Safety.
Context {HW : Hardware} {App : Type} {I : World App -> Prop} {SI : StackInv I}.
Context {EV : DeviceEvents App} {ES : EventsSafe EV I}.

Lemma safe_USB_GEN_vect fuel : safe I (USB_GEN_vect fuel).
Proof. safe_tac. Qed.

Lemma safe_poll_DeviceState fuel : safe I (poll_DeviceState fuel).
Proof.
  unfold poll_DeviceState. apply safe_bind; [|intros; safe_tac].
  intros w HI. unfold wp, interrupt_point. destruct (global_irq w && hw_irq (tr w)); [|done].
  change (wp false (modify (upd_global_irq false);; USB_GEN_vect fuel;;
                    modify (upd_global_irq true)) (fun _ w' => I w') w).
  revert w HI. change (safe I (modify (upd_global_irq false);; USB_GEN_vect fuel;;
                    modify (upd_global_irq true))).
  pose proof (safe_USB_GEN_vect fuel). safe_tac.
Qed.
End Safety.

#[export] Hint Resolve safe_poll_DeviceState : safe.
