(* ===== verification/DeviceSpec.v ===== *)
(** Correctness of the USB interrupt handler and of the internal serial number
    (USBController.v). *)

From stdpp Require Import base tactics option list numbers.
From Stdlib Require Import ZArith Lia.
From S2P Require Import Prelude Hardware Endpoint USBController.

(** ** The serial number *)

(** The digit of a nibble, and the serial number of signature bytes. *)
Definition hex_digits : list Z := [48; 49; 50; 51; 52; 53; 54; 55; 56; 57; 65; 66; 67; 68; 69; 70].
Definition hex (n : Z) : Z := nth (Z.to_nat n) hex_digits 0.
Definition serial_of (bytes : list Z) : list Z :=
  concat (map (fun b => [hex (b mod 16); hex (b / 16)]) bytes).

Lemma serial_char_hex n : 0 <= n < 16 -> u16 (serial_char n) = hex n.
Proof.
  intros Hn. assert (In n (map Z.of_nat (seq 0 16))) as Hin.
  { apply in_map_iff. exists (Z.to_nat n). split; [lia|]. apply in_seq. lia. }
  cbn in Hin. repeat destruct Hin as [<-|Hin]; try reflexivity. done.
Qed.

Lemma serial_nibbles b : is_u8 b ->
  u16 (serial_char (Z.land b 15)) = hex (b mod 16) /\
  u16 (serial_char (Z.land (Z.shiftr b 4) 15)) = hex (b / 16).
Proof.
  unfold is_u8. intros Hb. change 15 with (Z.ones 4). rewrite !Z.land_ones, Z.shiftr_div_pow2 by lia.
  change (2 ^ 4) with 16. pose proof (Z.mod_pos_bound b 16 ltac:(lia)).
  assert (0 <= b / 16 < 16) by (split; [apply Z.div_pos|apply Z.div_lt_upper_bound]; lia).
  rewrite (Z.mod_small (b / 16)) by lia. split; apply serial_char_hex; lia.
Qed.

Lemma GetSerialString_pair {HW : Hardware} n i a : tst i 1 = false -> tst (u8 (i + 1)) 1 = true ->
  GetSerialString_loop (S (S n)) i a =
    serial_of [u8 (hw_signature a)] ++ GetSerialString_loop n (u8 (u8 (i + 1) + 1)) (u8 (a + 1)).
Proof.
  intros He Ho. destruct (serial_nibbles (u8 (hw_signature a)) (u8_range _)) as [H0 H1].
  unfold serial_of. cbn [GetSerialString_loop map concat app]. by rewrite He, Ho, H0, H1.
Qed.

(** The internal serial number is the twenty hexadecimal digits of the ten
    signature bytes from 0x0E on, low nibble first, read with interrupts disabled
    and the interrupt flag restored. *)
Theorem GetSerialString_hex {HW : Hardware} {App} (w : World App) :
  USB_Device_GetSerialString w =
    Ret (serial_of (map (fun i => u8 (hw_signature i)) (seqZ 0x0E 10)))
      (upd_global_irq (global_irq w) (upd_global_irq false w)).
Proof.
  unfold USB_Device_GetSerialString, GetGlobalInterruptMask, GlobalInterruptDisable,
    SetGlobalInterruptMask, mbind, prog_bind, gets, modify. f_equal.
  change (Z.to_nat (INTERNAL_SERIAL_LENGTH_BITS / 4)) with 20%nat.
  unfold INTERNAL_SERIAL_START_ADDRESS.
  do 10 (rewrite GetSerialString_pair by reflexivity).
  unfold seqZ. cbn [Z.to_nat Pos.to_nat Pos.iter_op Nat.add seq fmap list_fmap map serial_of concat app].
  reflexivity.
Qed.

(** ** Interrupts *)

(** A device that is Configured has a configuration. *)
Definition configured_inv {App} (w : World App) : Prop :=
  USB_DeviceState w = DEVICE_STATE_Configured -> USB_Device_ConfigurationNumber w <> 0.
Definition keeps_inv {App} (w w' : World App) : Prop := configured_inv w -> configured_inv w'.

#[export] Instance keeps_inv_preorder {App} : PreOrder (@keeps_inv App).
Proof. split; [by intros w H|]. intros w1 w2 w3 H1 H2 H. auto. Qed.

Section Interrupts.
Context {HW : Hardware} {App : Type} {EV : DeviceEvents App} {EK : EventsKeep EV keeps_inv}.
Abbreviation R := (@keeps_inv App).

Lemma inv_rd r : keeps R (rd r).
Proof. intros w. exact id. Qed.
Lemma inv_wr r v : keeps R (wr r v).
Proof. intros w. exact id. Qed.
Lemma inv_irq b : keeps R (modify (upd_global_irq b)).
Proof. intros w. exact id. Qed.
Lemma inv_state s : is_u8 s -> s <> DEVICE_STATE_Configured -> keeps R (modify (upd_DeviceState s)).
Proof. intros Hs Hne w _. unfold configured_inv. cbn. by rewrite u8_small. Qed.
#[local] Hint Resolve inv_rd inv_wr inv_irq : keeps.
#[local] Hint Extern 1 (keeps _ (modify (upd_DeviceState _))) =>
  apply inv_state; [by vm_compute|discriminate] : keeps.

Lemma inv_ConfigureEndpoint fuel a t s b : keeps R (Endpoint_ConfigureEndpoint fuel a t s b).
Proof.
  assert (forall n e num d0 d1, keeps R (ConfigureEndpoint_loop n e num d0 d1)) as H.
  { intros n. induction n as [|n IH]; intros; cbn [ConfigureEndpoint_loop]; keeps_tac. }
  unfold Endpoint_ConfigureEndpoint, Endpoint_ConfigureEndpoint_Prv. keeps_tac.
Qed.
#[local] Hint Resolve inv_ConfigureEndpoint : keeps.

(** The state chosen on resume follows the configuration number. *)
Lemma inv_resume : keeps R (
  n ← gets USB_Device_ConfigurationNumber;
  if negb (n =? 0) then modify (upd_DeviceState DEVICE_STATE_Configured)
  else
    a ← USB_Device_IsAddressSet;
    modify (upd_DeviceState (if a : bool then DEVICE_STATE_Addressed else DEVICE_STATE_Powered))).
Proof.
  intros w. unfold mbind at 1, prog_bind at 1, gets. destruct (_ =? 0) eqn:E; cbn [negb].
  - assert (keeps R (a ← USB_Device_IsAddressSet; modify (upd_DeviceState
      (if a : bool then DEVICE_STATE_Addressed else DEVICE_STATE_Powered)))) as H; [|exact (H w)].
    apply keeps_bind; [apply _|keeps_tac|]. intros [|]; keeps_tac.
  - bool_hyps. intros _ _. exact E.
Qed.

(** The reset clears the configuration after leaving the Configured state. *)
Lemma inv_reset : keeps R (modify (upd_DeviceState DEVICE_STATE_Default);; modify (upd_ConfigurationNumber 0)).
Proof. intros w _ H. by vm_compute in H. Qed.

Lemma inv_USB_GEN_vect fuel : keeps R (USB_GEN_vect fuel).
Proof.
  assert (keeps R ISR_StartOfFrame) by keeps_tac.
  assert (keeps R (ISR_VBusChange fuel)) by keeps_tac.
  assert (keeps R ISR_Suspend) by keeps_tac.
  assert (keeps R (ISR_WakeUp fuel)).
  { unfold ISR_WakeUp. apply keeps_bind; [apply _|keeps_tac|]. intros p.
    apply keeps_when; [apply _|]. do 5 (apply keeps_bind; [apply _|keeps_tac|intros _]).
    apply keeps_assoc, keeps_bind; [apply _|apply inv_resume|]. keeps_tac. }
  assert (keeps R (ISR_Reset fuel)).
  { unfold ISR_Reset. apply keeps_bind; [apply _|keeps_tac|]. intros p.
    apply keeps_when; [apply _|]. apply keeps_bind; [apply _|keeps_tac|intros _].
    apply keeps_assoc, keeps_bind; [apply _|apply inv_reset|]. keeps_tac. }
  keeps_tac.
Qed.
End Interrupts.

(** The interrupt handler keeps the device state and the configuration number
    consistent: on every board, after any combination of start-of-frame, VBUS
    change, suspend, resume and bus reset, a device in the Configured state has a
    configuration, if that was so before. *)
Theorem interrupt_keeps_configured {HW : Hardware} {App} {EV : DeviceEvents App}
    {EK : EventsKeep EV keeps_inv} fuel (w w' : World App) :
  USB_GEN_vect fuel w = Ret tt w' -> configured_inv w -> configured_inv w'.
Proof. intros Hrun. exact (keeps_run _ _ _ _ _ (inv_USB_GEN_vect fuel) Hrun). Qed.

(** A board with every interrupt pending and enabled. *)
Definition busy_hw : Hardware :=
  {| hw_read := fun _ _ => 255; hw_irq := fun _ => true; hw_signature := fun _ => 0 |}.

Lemma no_events_keep App (R : World App -> World App -> Prop) `{!PreOrder R} :
  EventsKeep (no_events App) R.
Proof. split; apply keeps_ret, _. Qed.

Definition interrupted : World unit :=
  match USB_GEN_vect (HW := busy_hw) (EV := no_events unit) 20 (reset_world tt) with
  | Ret _ w => w
  | _ => reset_world tt
  end.

Lemma interrupt_keeps_configured_witness : configured_inv interrupted.
Proof.
  apply (interrupt_keeps_configured (HW := busy_hw) (EK := no_events_keep unit keeps_inv) 20
           (reset_world tt)).
  - vm_compute. reflexivity.
  - vm_compute. discriminate.
Defined.
