(* ===== verification/ControlStream.v ===== *)
(** Waiting on endpoints and control transfers: the waiting half of
    LUFA/Drivers/USB/Core/AVR8/Endpoint_AVR8.c and the control stream templates
    Template/Template_Endpoint_Control_{W,R}.c with their instantiations in
    EndpointStream_AVR8.c.

    Every polling loop has fuel, and takes a pending USB interrupt each time it
    reads the volatile device state.  A buffer is the list of its bytes and
    [DataStream] an index into it; touching an index outside the buffer is
    [Fault]. *)

From stdpp Require Import base tactics option list numbers.
From Stdlib Require Import ZArith Lia.
From S2P Require Import Prelude Hardware Endpoint USBController.

Definition REQDIR_HOSTTODEVICE : Z := Z.shiftl 0 7.
Definition REQDIR_DEVICETOHOST : Z := Z.shiftl 1 7.

(** [enum Endpoint_WaitUntilReady_ErrorCodes_t] *)
Definition ENDPOINT_READYWAIT_NoError : Z := 0.
Definition ENDPOINT_READYWAIT_EndpointStalled : Z := 1.
Definition ENDPOINT_READYWAIT_DeviceDisconnected : Z := 2.
Definition ENDPOINT_READYWAIT_BusSuspended : Z := 3.
Definition ENDPOINT_READYWAIT_Timeout : Z := 4.

(** [enum Endpoint_ControlStream_RW_ErrorCodes_t] *)
Definition ENDPOINT_RWCSTREAM_NoError : Z := 0.
Definition ENDPOINT_RWCSTREAM_HostAborted : Z := 1.
Definition ENDPOINT_RWCSTREAM_DeviceDisconnected : Z := 2.
Definition ENDPOINT_RWCSTREAM_BusSuspended : Z := 3.

(** The [i]-th byte of a buffer; [None] outside it. *)
Definition buf_get (buf : list Z) (i : Z) : option Z :=
  if i <? 0 then None else buf !! Z.to_nat i.

(** [buf[i] = v]; [None] outside it. *)
Definition buf_set (buf : list Z) (i v : Z) : option (list Z) :=
  if (0 <=? i) && (i <? Z.of_nat (length buf)) then Some (<[Z.to_nat i := v]> buf) else None.

(** The pointer arithmetic of a template instance: [TEMPLATE_BUFFER_OFFSET] and
    [TEMPLATE_BUFFER_MOVE]. *)
Inductive Endian : Set := LE | BE.
Definition TEMPLATE_BUFFER_OFFSET (e : Endian) (Length : Z) : Z :=
  match e with LE => 0 | BE => Length - 1 end.
Definition TEMPLATE_BUFFER_MOVE (e : Endian) (BufferPtr Amount : Z) : Z :=
  match e with LE => BufferPtr + Amount | BE => BufferPtr - Amount end.

Section ControlStream.
Context {HW : Hardware} {App : Type} {EV : DeviceEvents App}.
Abbreviation P := (prog (World App)).

(** [TEMPLATE_TRANSFER_BYTE] of the write and of the read templates. *)
Definition write_byte (buf : list Z) (i : Z) : P unit :=
  match buf_get buf i with
  | Some b => Endpoint_Write_8 b
  | None => fault
  end.
Definition read_byte (buf : list Z) (i : Z) : P (list Z) :=
  v ← Endpoint_Read_8;
  match buf_set buf i v with
  | Some buf' => mret buf'
  | None => fault
  end.

Section Fuel.
Context (fuel : nat).

(** ** [Endpoint_ClearStatusStage] *)

(** [while (!(ready())) if (USB_DeviceState == Unattached) return;] — the result
    tells whether the loop ended by its guard. *)
Fixpoint StatusStage_wait (n : nat) (ready : P bool) : P bool :=
  match n with
  | O => nofuel
  | S n =>
      r ← ready;
      if r : bool then mret true
      else
        s ← poll_DeviceState fuel;
        if s =? DEVICE_STATE_Unattached then mret false else StatusStage_wait n ready
  end.

Definition Endpoint_ClearStatusStage : P unit :=
  req ← gets USB_ControlRequest;
  if tst (bmRequestType req) REQDIR_DEVICETOHOST then
    r ← StatusStage_wait fuel Endpoint_IsOUTReceived;
    when r Endpoint_ClearOUT
  else
    r ← StatusStage_wait fuel Endpoint_IsINReady;
    when r Endpoint_ClearIN.

(** ** [Endpoint_WaitUntilReady] *)

Fixpoint WaitUntilReady_loop (n : nat) (TimeoutMSRem PreviousFrameNumber : Z) : P Z :=
  match n with
  | O => nofuel
  | S n =>
      d ← Endpoint_GetEndpointDirection;
      ready ← (if d =? ENDPOINT_DIR_IN then Endpoint_IsINReady else Endpoint_IsOUTReceived);
      if ready : bool then mret ENDPOINT_READYWAIT_NoError
      else
        USB_DeviceState_LCL ← poll_DeviceState fuel;
        if USB_DeviceState_LCL =? DEVICE_STATE_Unattached
        then mret ENDPOINT_READYWAIT_DeviceDisconnected
        else if USB_DeviceState_LCL =? DEVICE_STATE_Suspended
        then mret ENDPOINT_READYWAIT_BusSuspended
        else
          stalled ← Endpoint_IsStalled;
          if stalled : bool then mret ENDPOINT_READYWAIT_EndpointStalled
          else
            CurrentFrameNumber ← USB_Device_GetFrameNumber;
            if negb (CurrentFrameNumber =? PreviousFrameNumber) then
              if TimeoutMSRem =? 0 then mret ENDPOINT_READYWAIT_Timeout
              else WaitUntilReady_loop n (u8 (TimeoutMSRem - 1)) CurrentFrameNumber
            else WaitUntilReady_loop n TimeoutMSRem PreviousFrameNumber
  end.

Definition Endpoint_WaitUntilReady : P Z :=
  PreviousFrameNumber ← USB_Device_GetFrameNumber;
  WaitUntilReady_loop fuel USB_STREAM_TIMEOUT_MS PreviousFrameNumber.

(** ** Template_Endpoint_Control_W.c *)

(** The checks at the head of each polling round: [Some e] is [return e]. *)
Definition ControlStream_check (check_setup : bool) : P (option Z) :=
  USB_DeviceState_LCL ← poll_DeviceState fuel;
  if USB_DeviceState_LCL =? DEVICE_STATE_Unattached
  then mret (Some ENDPOINT_RWCSTREAM_DeviceDisconnected)
  else if USB_DeviceState_LCL =? DEVICE_STATE_Suspended
  then mret (Some ENDPOINT_RWCSTREAM_BusSuspended)
  else if check_setup then
    s ← Endpoint_IsSETUPReceived;
    mret (if s : bool then Some ENDPOINT_RWCSTREAM_HostAborted else None)
  else mret None.

(** [while (Length && (BytesInEndpoint < USB_Device_ControlEndpointSize))]: the
    data stream pointer, remaining length and bank fill it ends with. *)
Fixpoint ControlW_fill (n : nat) (e : Endian) (buf : list Z)
    (DataStream Length BytesInEndpoint : Z) : P (Z * Z * Z) :=
  if (Length =? 0) || (USB_Device_ControlEndpointSize <=? BytesInEndpoint)
  then mret (DataStream, Length, BytesInEndpoint)
  else
    match n with
    | O => nofuel
    | S n =>
        write_byte buf DataStream;;
        ControlW_fill n e buf (TEMPLATE_BUFFER_MOVE e DataStream 1)
          (u16 (Length - 1)) (u16 (BytesInEndpoint + 1))
    end.

(** The loop [while (Length || LastPacketFull)]: [Some err] is an early return. *)
Fixpoint ControlW_loop (n : nat) (e : Endian) (buf : list Z)
    (DataStream Length : Z) (LastPacketFull : bool) : P (option Z) :=
  if (Length =? 0) && negb LastPacketFull then mret None
  else
    match n with
    | O => nofuel
    | S n =>
        c ← ControlStream_check true;
        match c with
        | Some err => mret (Some err)
        | None =>
            o ← Endpoint_IsOUTReceived;
            if o : bool then mret None
            else
              i ← Endpoint_IsINReady;
              if i : bool then
                BytesInEndpoint ← Endpoint_BytesInEndpoint;
                r ← ControlW_fill (S (Z.to_nat Length)) e buf DataStream Length BytesInEndpoint;
                let '(DataStream', Length', BytesInEndpoint') := r in
                Endpoint_ClearIN;;
                ControlW_loop n e buf DataStream' Length'
                  (BytesInEndpoint' =? USB_Device_ControlEndpointSize)
              else ControlW_loop n e buf DataStream Length LastPacketFull
        end
    end.

(** [while (!(ready())) { ...checks... }] at the end of both templates. *)
Fixpoint ControlStream_wait (n : nat) (check_setup : bool) (ready : P bool) : P Z :=
  match n with
  | O => nofuel
  | S n =>
      r ← ready;
      if r : bool then mret ENDPOINT_RWCSTREAM_NoError
      else
        c ← ControlStream_check check_setup;
        match c with
        | Some err => mret err
        | None => ControlStream_wait n check_setup ready
        end
  end.

Definition Template_Endpoint_Control_W (e : Endian) (Buffer : list Z) (Length : Z) : P Z :=
  let DataStream := TEMPLATE_BUFFER_OFFSET e Length in
  req ← gets USB_ControlRequest;
  let Length' := if wLength req <? Length then wLength req else Length in
  when (negb (wLength req <? Length) && (Length =? 0)) Endpoint_ClearIN;;
  r ← ControlW_loop fuel e Buffer DataStream Length' false;
  match r with
  | Some err => mret err
  | None => ControlStream_wait fuel true Endpoint_IsOUTReceived
  end.

Definition Endpoint_Write_Control_Stream_LE := Template_Endpoint_Control_W LE.
Definition Endpoint_Write_Control_Stream_BE := Template_Endpoint_Control_W BE.
Definition Endpoint_Write_Control_PStream_LE := Template_Endpoint_Control_W LE.
Definition Endpoint_Write_Control_PStream_BE := Template_Endpoint_Control_W BE.
Definition Endpoint_Write_Control_EStream_LE := Template_Endpoint_Control_W LE.
Definition Endpoint_Write_Control_EStream_BE := Template_Endpoint_Control_W BE.

(** ** Template_Endpoint_Control_R.c *)

(** [while (Length && Endpoint_BytesInEndpoint())] *)
Fixpoint ControlR_drain (n : nat) (e : Endian) (buf : list Z) (DataStream Length : Z)
    : P (list Z * Z * Z) :=
  if Length =? 0 then mret (buf, DataStream, Length)
  else
    b ← Endpoint_BytesInEndpoint;
    if b =? 0 then mret (buf, DataStream, Length)
    else
      match n with
      | O => nofuel
      | S n =>
          buf' ← read_byte buf DataStream;
          ControlR_drain n e buf' (TEMPLATE_BUFFER_MOVE e DataStream 1) (u16 (Length - 1))
      end.

(** [while (Length)]: the buffer, and [Some err] on an early return. *)
Fixpoint ControlR_loop (n : nat) (e : Endian) (buf : list Z) (DataStream Length : Z)
    : P (list Z * option Z) :=
  if Length =? 0 then mret (buf, None)
  else
    match n with
    | O => nofuel
    | S n =>
        c ← ControlStream_check true;
        match c with
        | Some err => mret (buf, Some err)
        | None =>
            o ← Endpoint_IsOUTReceived;
            if o : bool then
              r ← ControlR_drain (S (Z.to_nat Length)) e buf DataStream Length;
              let '(buf', DataStream', Length') := r in
              Endpoint_ClearOUT;;
              ControlR_loop n e buf' DataStream' Length'
            else ControlR_loop n e buf DataStream Length
        end
    end.

(** The bytes stored in the buffer and the error code. *)
Definition Template_Endpoint_Control_R (e : Endian) (Buffer : list Z) (Length : Z)
    : P (list Z * Z) :=
  let DataStream := TEMPLATE_BUFFER_OFFSET e Length in
  when (Length =? 0) Endpoint_ClearOUT;;
  r ← ControlR_loop fuel e Buffer DataStream Length;
  let '(buf, early) := r in
  match early with
  | Some err => mret (buf, err)
  | None =>
      err ← ControlStream_wait fuel false Endpoint_IsINReady;
      mret (buf, err)
  end.

Definition Endpoint_Read_Control_Stream_LE := Template_Endpoint_Control_R LE.
Definition Endpoint_Read_Control_Stream_BE := Template_Endpoint_Control_R BE.
Definition Endpoint_Read_Control_EStream_LE := Template_Endpoint_Control_R LE.
Definition Endpoint_Read_Control_EStream_BE := Template_Endpoint_Control_R BE.
End Fuel.
End ControlStream.

(** ** Frames *)

Section Frames.
Context {HW : Hardware} {App : Type} {EV : DeviceEvents App}.
Context (R : World App -> World App -> Prop) {SR : StackRel R} {EK : EventsKeep EV R}.

Lemma keeps_StatusStage_wait fuel n ready :
  keeps R ready -> keeps R (StatusStage_wait fuel n ready).
Proof. intros Hr. induction n as [|n IH]; cbn; keeps_tac; apply IH. Qed.

Lemma keeps_WaitUntilReady_loop fuel n t f : keeps R (WaitUntilReady_loop fuel n t f).
Proof. revert t f; induction n as [|n IH]; intros; cbn; keeps_tac; apply IH. Qed.

Lemma keeps_ControlStream_check fuel b : keeps R (ControlStream_check fuel b).
Proof. keeps_tac. Qed.

Lemma keeps_ControlStream_wait fuel n b ready :
  keeps R ready -> keeps R (ControlStream_wait fuel n b ready).
Proof.
  intros Hr. pose proof (keeps_ControlStream_check fuel b).
  induction n as [|n IH]; cbn; keeps_tac; apply IH.
Qed.

Lemma keeps_ControlW_fill n e buf ds len b : keeps R (ControlW_fill n e buf ds len b).
Proof. revert ds len b; induction n as [|n IH]; intros; cbn; keeps_tac; apply IH. Qed.

Lemma keeps_ControlW_loop fuel n e buf ds len l : keeps R (ControlW_loop fuel n e buf ds len l).
Proof.
  pose proof (keeps_ControlStream_check fuel true) as Hc.
  revert ds len l; induction n as [|n IH]; intros; cbn -[ControlW_fill];
    keeps_tac; first [apply keeps_ControlW_fill | apply IH].
Qed.

Lemma keeps_ControlR_drain n e buf ds len : keeps R (ControlR_drain n e buf ds len).
Proof. revert buf ds len; induction n as [|n IH]; intros; cbn; keeps_tac; apply IH. Qed.

Lemma keeps_ControlR_loop fuel n e buf ds len : keeps R (ControlR_loop fuel n e buf ds len).
Proof.
  pose proof (keeps_ControlStream_check fuel true) as Hc.
  revert buf ds len; induction n as [|n IH]; intros; cbn -[ControlR_drain];
    keeps_tac; first [apply keeps_ControlR_drain | apply IH].
Qed.

Lemma keeps_ClearStatusStage fuel : keeps R (Endpoint_ClearStatusStage fuel).
Proof.
  unfold Endpoint_ClearStatusStage.
  keeps_tac; apply keeps_StatusStage_wait; keeps_tac.
Qed.

Lemma keeps_WaitUntilReady fuel : keeps R (Endpoint_WaitUntilReady fuel).
Proof. unfold Endpoint_WaitUntilReady. keeps_tac; apply keeps_WaitUntilReady_loop. Qed.

Lemma keeps_Control_W fuel e buf len : keeps R (Template_Endpoint_Control_W fuel e buf len).
Proof.
  unfold Template_Endpoint_Control_W.
  keeps_tac; first [apply keeps_ControlW_loop | apply keeps_ControlStream_wait; keeps_tac].
Qed.

Lemma keeps_Control_R fuel e buf len : keeps R (Template_Endpoint_Control_R fuel e buf len).
Proof.
  unfold Template_Endpoint_Control_R.
  keeps_tac; first [apply keeps_ControlR_loop | apply keeps_ControlStream_wait; keeps_tac].
Qed.
End Frames.

#[export] Hint Resolve keeps_ClearStatusStage keeps_WaitUntilReady keeps_Control_W
  keeps_Control_R : keeps.

(** ** Memory safety *)

Lemma buf_get_lookup buf i : 0 <= i < Z.of_nat (length buf) -> exists b, buf_get buf i = Some b.
Proof.
  intros Hi. unfold buf_get. destruct (i <? 0) eqn:?; bool_hyps; [lia|].
  apply lookup_lt_is_Some. lia.
Qed.

Lemma buf_set_length buf i v : 0 <= i < Z.of_nat (length buf) ->
  exists buf', buf_set buf i v = Some buf' /\ length buf' = length buf.
Proof.
  intros Hi. unfold buf_set. destruct (_ && _) eqn:E; [|bool_hyps; lia].
  eexists; split; [done|]. apply length_insert.
Qed.

(** The bytes a stream still has to move lie inside the buffer. *)
Definition in_buffer (e : Endian) (n : nat) (DataStream Length : Z) : Prop :=
  match e with
  | LE => 0 <= DataStream /\ DataStream + Length <= Z.of_nat n
  | BE => DataStream < Z.of_nat n /\ Length <= DataStream + 1
  end.

Lemma in_buffer_index e n ds len : in_buffer e n ds len -> 0 < len -> 0 <= ds < Z.of_nat n.
Proof. destruct e; cbn; lia. Qed.

Lemma in_buffer_move e n ds len : in_buffer e n ds len -> 0 < len -> is_u16 len ->
  in_buffer e n (TEMPLATE_BUFFER_MOVE e ds 1) (u16 (len - 1)).
Proof.
  unfold is_u16. intros H Hpos Hlen. rewrite u16_small by (unfold is_u16; lia).
  destruct e; cbn in *; lia.
Qed.

Lemma in_buffer_start e n Length len :
  0 <= len <= Length -> Length <= Z.of_nat n ->
  in_buffer e n (TEMPLATE_BUFFER_OFFSET e Length) len.
Proof. destruct e; cbn; lia. Qed.

Section Safety.
Context {HW : Hardware} {App : Type} {I : World App -> Prop} {SI : StackInv I}.
Context {EV : DeviceEvents App} {ES : EventsSafe EV I}.
Abbreviation P := (prog (World App)).

Lemma safe_write_byte buf i : 0 <= i < Z.of_nat (length buf) -> safe I (write_byte (App := App) buf i).
Proof. intros Hi. unfold write_byte. destruct (buf_get_lookup buf i Hi) as [b ->]. safe_tac. Qed.

Lemma safe_StatusStage_wait fuel n (ready : P bool) :
  safe I ready -> safe I (StatusStage_wait fuel n ready).
Proof. intros Hr. induction n as [|n IH]; cbn; safe_tac; apply IH. Qed.

Lemma safe_ClearStatusStage fuel : safe I (Endpoint_ClearStatusStage (App := App) fuel).
Proof. unfold Endpoint_ClearStatusStage. safe_tac; apply safe_StatusStage_wait; safe_tac. Qed.

Lemma safe_WaitUntilReady fuel : safe I (Endpoint_WaitUntilReady (App := App) fuel).
Proof.
  unfold Endpoint_WaitUntilReady. safe_tac.
  enough (forall n t f, safe I (WaitUntilReady_loop (App := App) fuel n t f)) by done.
  intros n; induction n as [|n IH]; intros; cbn; safe_tac; apply IH.
Qed.

Lemma safe_ControlStream_wait fuel n b (ready : P bool) :
  safe I ready -> safe I (ControlStream_wait fuel n b ready).
Proof.
  intros Hr. assert (safe I (ControlStream_check (App := App) fuel b)) by safe_tac.
  induction n as [|n IH]; cbn; safe_tac; apply IH.
Qed.

Lemma safe_ControlW_fill n e buf ds len b w :
  in_buffer e (length buf) ds len -> is_u16 len -> I w ->
  wp false (ControlW_fill (App := App) n e buf ds len b)
    (fun r w' => (in_buffer e (length buf) (fst (fst r)) (snd (fst r)) /\ is_u16 (snd (fst r)))
                 /\ I w') w.
Proof.
  revert ds len b w; induction n as [|n IH]; intros ds len b w Hb Hl HI; cbn;
    destruct (len =? 0) eqn:E; cbn; try (by apply wp_ret); wp_steps; try done.
  bool_hyps. unfold is_u16 in Hl.
  eapply wp_mono; [apply safe_write_byte; [|exact HI]|]; [by apply (in_buffer_index e _ _ len); [|lia]|].
  intros [] w' HI'. apply IH; [|apply u16_range|done]. apply in_buffer_move; [done|lia|done].
Qed.

Lemma safe_ControlW_loop fuel n e buf ds len l :
  in_buffer e (length buf) ds len -> is_u16 len ->
  safe I (ControlW_loop (App := App) fuel n e buf ds len l).
Proof.
  assert (safe I (ControlStream_check (App := App) fuel true)) by safe_tac.
  revert ds len l; induction n as [|n IH]; intros ds len l Hb Hl; cbn -[ControlW_fill];
    (destruct (_ && _); [safe_tac|]); [safe_tac|].
  apply safe_bind; [done|]. intros [err|]; [safe_tac|].
  apply safe_bind; [safe_tac|]. intros [|]; [safe_tac|].
  apply safe_bind; [safe_tac|]. intros [|]; [|by apply IH].
  apply safe_bind; [safe_tac|]. intros b.
  eapply safe_bind_post; [intros; by apply safe_ControlW_fill|].
  intros [[ds' len'] b'] [Hb' Hl']. apply safe_bind; [safe_tac|]. intros _. by apply IH.
Qed.

Lemma safe_Control_W fuel e buf Length :
  is_u16 Length -> Length <= Z.of_nat (length buf) ->
  safe I (Template_Endpoint_Control_W (App := App) fuel e buf Length).
Proof.
  intros HL Hbuf. unfold Template_Endpoint_Control_W.
  apply safe_get_request. intros req (_ & _ & _ & _ & Hw). unfold is_u16 in *.
  apply safe_bind; [safe_tac|]. intros _.
  apply safe_bind.
  - apply safe_ControlW_loop; [apply in_buffer_start|unfold is_u16];
      destruct (wLength req <? Length) eqn:?; bool_hyps; lia.
  - intros [err|]; [safe_tac|]. apply safe_ControlStream_wait. safe_tac.
Qed.

Lemma safe_ControlR_drain n e buf ds len w :
  in_buffer e (length buf) ds len -> is_u16 len -> I w ->
  wp false (ControlR_drain (App := App) n e buf ds len)
    (fun r w' => let '(buf', ds', len') := r in
       (length buf' = length buf /\ in_buffer e (length buf) ds' len' /\ is_u16 len') /\ I w') w.
Proof.
  revert buf ds len w; induction n as [|n IH]; intros buf ds len w Hb Hl HI; cbn;
    destruct (len =? 0) eqn:E; try (by apply wp_ret);
    apply wp_bind; unfold Endpoint_BytesInEndpoint; hw_steps; try done;
    try (split; [done|by do 2 apply si_tr]).
  bool_hyps. unfold is_u16 in Hl. unfold read_byte, Endpoint_Read_8. hw_steps.
  match goal with |- context [buf_set buf ds ?v] =>
    destruct (buf_set_length buf ds v) as (buf' & -> & Hlen) end;
    [by apply (in_buffer_index e _ _ len); [|lia]|].
  apply wp_ret. rewrite <- Hlen. apply IH; [rewrite Hlen|apply u16_range|by do 3 apply si_tr].
  apply in_buffer_move; [done|lia|done].
Qed.

(** The buffer keeps its size. *)
Lemma safe_ControlR_loop fuel n e buf ds len w :
  in_buffer e (length buf) ds len -> is_u16 len -> I w ->
  wp false (ControlR_loop (App := App) fuel n e buf ds len)
    (fun r w' => length (fst r) = length buf /\ I w') w.
Proof.
  assert (safe I (ControlStream_check (App := App) fuel true)) as Hc by safe_tac.
  assert (safe I (Endpoint_IsOUTReceived (App := App))) as Ho by safe_tac.
  assert (safe I (Endpoint_ClearOUT (App := App))) as Hk by safe_tac.
  revert buf ds len w; induction n as [|n IH]; intros buf ds len w Hb Hl HI; cbn -[ControlR_drain];
    (destruct (len =? 0); [by apply wp_ret|]); [done|].
  apply wp_bind. eapply wp_mono; [by apply Hc|]. intros [err|] w1 H1; [by apply wp_ret|].
  apply wp_bind. eapply wp_mono; [by apply Ho|]. intros [|] w2 H2; [|by apply IH].
  apply wp_bind. eapply wp_mono; [by apply safe_ControlR_drain|].
  intros [[buf' ds'] len'] w3 [(Hlen & Hb' & Hl') H3].
  apply wp_bind. eapply wp_mono; [by apply Hk|]. intros [] w4 H4.
  rewrite <- Hlen in Hb' |- *. by apply IH.
Qed.

Lemma safe_Control_R_length fuel e buf Length w :
  is_u16 Length -> Length <= Z.of_nat (length buf) -> I w ->
  wp false (Template_Endpoint_Control_R (App := App) fuel e buf Length)
    (fun r w' => length (fst r) = length buf /\ I w') w.
Proof.
  intros HL Hbuf HI. unfold Template_Endpoint_Control_R. unfold is_u16 in HL.
  assert (safe I (when (Length =? 0) (Endpoint_ClearOUT (App := App)))) as Hk by safe_tac.
  apply wp_bind. eapply wp_mono; [by apply Hk|]. intros [] w1 H1.
  apply wp_bind. eapply wp_mono; [apply safe_ControlR_loop; [apply in_buffer_start; lia|done|done]|].
  intros [buf' [err|]] w2 [Hl H2]; cbn in Hl; [by apply wp_ret|].
  assert (safe I (Endpoint_IsINReady (App := App))) as Hi by safe_tac.
  apply wp_bind. eapply wp_mono; [by apply (safe_ControlStream_wait fuel fuel false _ Hi)|].
  intros err w3 H3. by apply wp_ret.
Qed.

Lemma safe_Control_R fuel e buf Length :
  is_u16 Length -> Length <= Z.of_nat (length buf) ->
  safe I (Template_Endpoint_Control_R (App := App) fuel e buf Length).
Proof.
  intros HL Hbuf w HI. eapply wp_mono; [by apply safe_Control_R_length|]. by intros r w' [_ H].
Qed.
End Safety.

#[export] Hint Resolve safe_ClearStatusStage safe_WaitUntilReady : safe.
