(* ===== verification/WaitSpec.v ===== *)
(** Waiting on an endpoint ends: [Endpoint_WaitUntilReady] of ControlStream.v. *)

From stdpp Require Import base tactics option list numbers.
From Stdlib Require Import ZArith Lia.
From S2P Require Import Prelude Hardware Endpoint USBController ControlStream.

(** The frame number last read, and how often a read has found a new one. *)
Fixpoint last_frame (t : trace) : Z :=
  match t with
  | [] => -1
  | Rd UDFNUM v :: _ => v
  | _ :: t => last_frame t
  end.
Fixpoint frame_changes (t : trace) : nat :=
  match t with
  | [] => 0
  | Rd UDFNUM v :: t => (if v =? last_frame t then 0 else 1) + frame_changes t
  | _ :: t => frame_changes t
  end.

(** The host sends start-of-frame packets: a new frame number appears within [K]
    reads.  [until t] is the number of reads that may still return the old one.  No USB
    interrupt is pending, so that the device state does not change during the wait. *)
Class FrameClock {HW : Hardware} (K : nat) : Type := {
  until : trace -> nat;
  fc_new t : until t = 0%nat -> u16 (hw_read t UDFNUM) <> last_frame t;
  fc_same t v : v = last_frame t -> (until (Rd UDFNUM v :: t) <= pred (until t))%nat;
  fc_tick t v : (until (Rd UDFNUM v :: t) <= K)%nat;
  fc_other t r v : r <> UDFNUM -> (until (Rd r v :: t) <= until t)%nat;
  fc_irq t : hw_irq t = false
}.

Section Wait.
Context {HW : Hardware} {K : nat} {FC : FrameClock K} {App : Type} {EV : DeviceEvents App}.

(** How a wait of [T] more frames from [w] may end. *)
Definition wait_result (T : nat) (w : World App) (e : Z) (w' : World App) : Prop :=
  USB_DeviceState w' = USB_DeviceState w /\
  ((e = ENDPOINT_READYWAIT_NoError \/ e = ENDPOINT_READYWAIT_EndpointStalled) \/
   (e = ENDPOINT_READYWAIT_DeviceDisconnected /\ USB_DeviceState w = DEVICE_STATE_Unattached) \/
   (e = ENDPOINT_READYWAIT_BusSuspended /\ USB_DeviceState w = DEVICE_STATE_Suspended) \/
   (e = ENDPOINT_READYWAIT_Timeout /\
    (frame_changes (tr w) + T + 1 <= frame_changes (tr w'))%nat)).

Lemma poll_state fuel Q (w : World App) :
  Q (USB_DeviceState w) w -> wp true (poll_DeviceState fuel) Q w.
Proof.
  intros HQ. unfold poll_DeviceState. apply wp_bind. unfold wp, interrupt_point.
  by rewrite fc_irq, andb_false_r.
Qed.

(** The accesses of a round before the frame number is read. *)
Lemma until_other t r v n : r <> UDFNUM -> (until t <= n)%nat -> (until (Rd r v :: t) <= n)%nat.
Proof. intros Hr Hn. pose proof (fc_other t r v Hr). lia. Qed.

Lemma round_end fuel n T prev (w : World App) :
  (forall T' prev' w', last_frame (tr w') = prev' -> (T' <= 100)%nat ->
     (T' * (K + 1) + until (tr w') + 1 <= n)%nat ->
     wp true (WaitUntilReady_loop fuel n (Z.of_nat T') prev') (wait_result T' w') w') ->
  last_frame (tr w) = prev -> (T <= 100)%nat -> (T * (K + 1) + until (tr w) <= n)%nat ->
  wp true (CurrentFrameNumber ← USB_Device_GetFrameNumber;
           if negb (CurrentFrameNumber =? prev) then
             if Z.of_nat T =? 0 then mret ENDPOINT_READYWAIT_Timeout
             else WaitUntilReady_loop fuel n (u8 (Z.of_nat T - 1)) CurrentFrameNumber
           else WaitUntilReady_loop fuel n (Z.of_nat T) prev) (wait_result T w) w.
Proof.
  intros IH Hl HT Hn. unfold USB_Device_GetFrameNumber. apply wp_bind, wp_rd. cbn [reg_trunc].
  set (v := u16 (hw_read (tr w) UDFNUM)). pose proof (fc_tick (tr w) v) as Hk.
  destruct (v =? prev) eqn:E; cbn [negb].
  - apply Z.eqb_eq in E. assert (until (tr w) <> 0%nat) as Hu.
    { intros H0. by apply (fc_new _ H0); rewrite Hl. }
    pose proof (fc_same (tr w) v ltac:(congruence)).
    eapply wp_mono; [apply IH; [done|done|cbn; lia]|]. intros e w' [Hst He]. split; [done|].
    destruct He as [He|[He|[He|[He Hc]]]]; [tauto..|]. right; right; right. split; [done|].
    cbn [tr upd_tr frame_changes] in Hc. rewrite E, Hl, Z.eqb_refl in Hc. lia.
  - destruct (Z.of_nat T =? 0) eqn:E0.
    + apply Z.eqb_eq in E0. apply wp_ret. split; [done|]. right; right; right. split; [done|].
      cbn [tr upd_tr frame_changes]. rewrite Hl, E. lia.
    + apply Z.eqb_neq in E0. rewrite u8_small by (unfold is_u8; lia).
      replace (Z.of_nat T - 1) with (Z.of_nat (T - 1)) by lia.
      eapply wp_mono; [apply IH; [done|lia|cbn; nia]|]. intros e w' [Hst He]. split; [done|].
      destruct He as [He|[He|[He|[He Hc]]]]; [tauto..|]. right; right; right. split; [done|].
      cbn [tr upd_tr frame_changes] in Hc. rewrite Hl, E in Hc. lia.
Qed.

Lemma WaitUntilReady_loop_ends fuel n T prev (w : World App) :
  last_frame (tr w) = prev -> (T <= 100)%nat -> (T * (K + 1) + until (tr w) + 1 <= n)%nat ->
  wp true (WaitUntilReady_loop fuel n (Z.of_nat T) prev) (wait_result T w) w.
Proof.
  revert T prev w; induction n as [|n IH]; intros T prev w Hl HT Hn; [lia|].
  cbn [WaitUntilReady_loop]. unfold Endpoint_GetEndpointDirection, test_bits.
  apply wp_bind, wp_bind, wp_bind, wp_rd, wp_ret, wp_ret. apply wp_bind.
  set (w1 := upd_tr _ w).
  assert (until (tr w1) <= until (tr w))%nat as H1 by (by apply until_other).
  destruct (_ =? ENDPOINT_DIR_IN);
    unfold Endpoint_IsINReady, Endpoint_IsOUTReceived, test_bits; apply wp_bind, wp_rd, wp_ret.
  all: set (w2 := upd_tr _ w1);
    assert (until (tr w2) <= until (tr w))%nat as H2 by (by apply until_other).
  all: destruct (tst _ _); [apply wp_ret; split; [done|]; tauto|].
  all: apply wp_bind, poll_state.
  all: destruct (_ =? _) eqn:E1; [apply wp_ret; split; [done|]; bool_hyps; tauto|].
  all: destruct (USB_DeviceState w2 =? DEVICE_STATE_Suspended) eqn:E2;
    [apply wp_ret; split; [done|]; bool_hyps; tauto|].
  all: unfold Endpoint_IsStalled, test_bits; apply wp_bind, wp_bind, wp_rd, wp_ret.
  all: set (w3 := upd_tr _ w2);
    assert (until (tr w3) <= until (tr w))%nat as H3 by (by apply until_other).
  all: destruct (tst _ _); [apply wp_ret; split; [done|]; tauto|].
  all: apply (round_end fuel n T prev w3); [apply IH|done|done|lia].
Qed.
End Wait.

(** C37: Waiting for an endpoint always ends.  While the host sends frames, a wait
    returns whatever the endpoint does, with one of the documented codes: a
    disconnection or a suspension is reported only in those device states, and a
    timeout only after more than [USB_STREAM_TIMEOUT_MS] new frames.  It is assumed that
    no USB interrupt arrives during the wait. *)
Theorem WaitUntilReady_terminates {HW : Hardware} {K} {FC : FrameClock K} {App}
    {EV : DeviceEvents App} fuel (w : World App) : (102 * (K + 1) <= fuel)%nat ->
  exists e w', Endpoint_WaitUntilReady fuel w = Ret e w' /\
    ((e = ENDPOINT_READYWAIT_NoError \/ e = ENDPOINT_READYWAIT_EndpointStalled) \/
     (e = ENDPOINT_READYWAIT_DeviceDisconnected /\ USB_DeviceState w = DEVICE_STATE_Unattached) \/
     (e = ENDPOINT_READYWAIT_BusSuspended /\ USB_DeviceState w = DEVICE_STATE_Suspended) \/
     (e = ENDPOINT_READYWAIT_Timeout /\
      Z.of_nat (frame_changes (tr w)) + USB_STREAM_TIMEOUT_MS < Z.of_nat (frame_changes (tr w')))).
Proof.
  intros Hf. enough (wp true (Endpoint_WaitUntilReady fuel)
    (fun e w' => exists v, wait_result 100 (upd_tr (cons (Rd UDFNUM v)) w) e w') w) as H.
  { destruct (wp_total_run _ _ _ H) as (e & w' & Hrun & v & _ & He). exists e, w'. split; [done|].
    unfold USB_STREAM_TIMEOUT_MS. cbn [USB_DeviceState upd_tr tr frame_changes] in He.
    destruct He as [He|[He|[He|[He Hc]]]]; [tauto..|]. right; right; right. split; [done|lia]. }
  unfold Endpoint_WaitUntilReady, USB_Device_GetFrameNumber. apply wp_bind, wp_rd. cbn [reg_trunc].
  pose proof (fc_tick (tr w) (u16 (hw_read (tr w) UDFNUM))).
  eapply wp_mono; [apply (WaitUntilReady_loop_ends fuel fuel 100); [done|lia|cbn [tr upd_tr]; lia]|].
  intros e w' He. by eexists.
Qed.

(** A frame number that advances at every read, and endpoints that never become
    ready. *)
Definition ticking_hw : Hardware :=
  {| hw_read := fun t r => match r with UDFNUM => last_frame t + 1 | _ => 0 end;
     hw_irq := fun _ => false; hw_signature := fun _ => 0 |}.

Lemma u16_succ_neq x : u16 (x + 1) <> x.
Proof.
  unfold u16. intros H. pose proof (Z.div_mod (x + 1) 65536 ltac:(lia)).
  pose proof (Z.mod_pos_bound (x + 1) 65536 ltac:(lia)). lia.
Qed.

Definition ticking_clock : FrameClock (HW := ticking_hw) 0.
Proof.
  refine {| until := fun _ => 0%nat |}; try (intros; cbn; lia); cbn; try done.
  intros t _. apply u16_succ_neq.
Defined.

Lemma WaitUntilReady_terminates_witness :
  exists e w', Endpoint_WaitUntilReady (HW := ticking_hw) (EV := no_events unit) 102
      (upd_DeviceState DEVICE_STATE_Configured (reset_world tt)) = Ret e w' /\
    ((e = ENDPOINT_READYWAIT_NoError \/ e = ENDPOINT_READYWAIT_EndpointStalled) \/
     (e = ENDPOINT_READYWAIT_DeviceDisconnected /\ DEVICE_STATE_Configured = DEVICE_STATE_Unattached) \/
     (e = ENDPOINT_READYWAIT_BusSuspended /\ DEVICE_STATE_Configured = DEVICE_STATE_Suspended) \/
     (e = ENDPOINT_READYWAIT_Timeout /\
      Z.of_nat (frame_changes []) + USB_STREAM_TIMEOUT_MS < Z.of_nat (frame_changes (tr w')))).
Proof.
  apply (WaitUntilReady_terminates (FC := ticking_clock) (EV := no_events unit) 102
           (upd_DeviceState DEVICE_STATE_Configured (reset_world tt))). lia.
Defined.
