(* ===== verification/DeviceStandardReq.v ===== *)
(** Standard control requests and the USB background task:
    LUFA/Drivers/USB/Core/DeviceStandardReq.c and USBTask.c, with the options
    of firmware/Config/LUFAConfig.h (flash descriptors, one configuration, internal serial
    number, self power and remote wakeup enabled). *)

From stdpp Require Import base tactics option list numbers.
From Stdlib Require Import ZArith Lia.
From S2P Require Import Prelude Hardware Endpoint USBController ControlStream StdDescriptors.

(** StdRequestType.h *)
Definition CONTROL_REQTYPE_RECIPIENT : Z := 0x1F.
Definition REQTYPE_STANDARD : Z := Z.shiftl 0 5.
Definition REQTYPE_CLASS : Z := Z.shiftl 1 5.
Definition REQREC_DEVICE : Z := Z.shiftl 0 0.
Definition REQREC_INTERFACE : Z := Z.shiftl 1 0.
Definition REQREC_ENDPOINT : Z := Z.shiftl 2 0.

(** [enum USB_Control_Request_t] *)
Definition REQ_GetStatus : Z := 0.
Definition REQ_ClearFeature : Z := 1.
Definition REQ_SetFeature : Z := 3.
Definition REQ_SetAddress : Z := 5.
Definition REQ_GetDescriptor : Z := 6.
Definition REQ_GetConfiguration : Z := 8.
Definition REQ_SetConfiguration : Z := 9.

(** [enum USB_Feature_Selectors_t] *)
Definition FEATURE_SEL_EndpointHalt : Z := 0x00.
Definition FEATURE_SEL_DeviceRemoteWakeup : Z := 0x01.
Definition FEATURE_SELFPOWERED_ENABLED : Z := bit 0.
Definition FEATURE_REMOTE_WAKEUP_ENABLED : Z := bit 1.

Definition USE_INTERNAL_SERIAL : Z := 0xDC.

(** [USB_STRING_LEN(UnicodeChars)] *)
Definition USB_STRING_LEN (UnicodeChars : Z) : Z := 2 + Z.shiftl UnicodeChars 1.

(** What the device stack asks of the application: the descriptors (the size and
    the object [*DescriptorAddress] points to), and the request and configuration
    events, given the fuel of their polling loops. *)
Class DeviceRequests (App : Type) : Type := {
  CALLBACK_USB_GetDescriptor : Z -> Z -> Z * option (list Z);
  EVENT_USB_Device_ControlRequest : nat -> prog (World App) unit;
  EVENT_USB_Device_ConfigurationChanged : nat -> prog (World App) unit
}.

Section DeviceStandardReq.
Context {HW : Hardware} {App : Type} {EV : DeviceEvents App} {RQ : DeviceRequests App}.
Context (fuel : nat).
Abbreviation P := (prog (World App)).

Definition USB_Device_SetAddress : P unit :=
  req ← gets USB_ControlRequest;
  let DeviceAddress := Z.land (wValue req) 0x7F in
  USB_Device_SetDeviceAddress DeviceAddress;;
  Endpoint_ClearSETUP;;
  Endpoint_ClearStatusStage fuel;;
  while_ fuel (r ← Endpoint_IsINReady; mret (negb r)) (mret tt);;
  USB_Device_EnableDeviceAddress DeviceAddress;;
  modify (upd_DeviceState
    (if negb (DeviceAddress =? 0) then DEVICE_STATE_Addressed else DEVICE_STATE_Default)).

Definition USB_Device_SetConfiguration : P unit :=
  req ← gets USB_ControlRequest;
  if FIXED_NUM_CONFIGURATIONS <? u8 (wValue req) then mret tt
  else
    Endpoint_ClearSETUP;;
    modify (upd_ConfigurationNumber (u8 (wValue req)));;
    Endpoint_ClearStatusStage fuel;;
    n ← gets USB_Device_ConfigurationNumber;
    (if negb (n =? 0) then modify (upd_DeviceState DEVICE_STATE_Configured)
     else
       a ← USB_Device_IsAddressSet;
       modify (upd_DeviceState
         (if a : bool then DEVICE_STATE_Configured else DEVICE_STATE_Powered)));;
    EVENT_USB_Device_ConfigurationChanged fuel.

Definition USB_Device_GetConfiguration : P unit :=
  Endpoint_ClearSETUP;;
  n ← gets USB_Device_ConfigurationNumber;
  Endpoint_Write_8 n;;
  Endpoint_ClearIN;;
  Endpoint_ClearStatusStage fuel.

(** The bytes of [SignatureDescriptor]: header and unicode characters. *)
Definition SignatureDescriptor (UnicodeString : list Z) : list Z :=
  [u8 (USB_STRING_LEN (INTERNAL_SERIAL_LENGTH_BITS / 4)); DTYPE_String]
    ++ concat (map le16 UnicodeString).

Definition USB_Device_GetInternalSerialDescriptor : P unit :=
  UnicodeString ← USB_Device_GetSerialString;
  Endpoint_ClearSETUP;;
  let d := SignatureDescriptor UnicodeString in
  Endpoint_Write_Control_Stream_LE fuel d (Z.of_nat (length d));;
  Endpoint_ClearOUT.

Definition USB_Device_GetDescriptor : P unit :=
  req ← gets USB_ControlRequest;
  if wValue req =? Z.lor (Z.shiftl DTYPE_String 8) USE_INTERNAL_SERIAL
  then USB_Device_GetInternalSerialDescriptor
  else
    let '(DescriptorSize, DescriptorPointer) :=
      CALLBACK_USB_GetDescriptor (wValue req) (wIndex req) in
    if DescriptorSize =? NO_DESCRIPTOR then mret tt
    else
      Endpoint_ClearSETUP;;
      match DescriptorPointer with
      | None => fault
      | Some d => Endpoint_Write_Control_PStream_LE fuel d DescriptorSize;; mret tt
      end;;
      Endpoint_ClearOUT.

(** The status byte, or [None] for the early returns. *)
Definition GetStatus_value : P (option Z) :=
  req ← gets USB_ControlRequest;
  if bmRequestType req =? Z.lor (Z.lor REQDIR_DEVICETOHOST REQTYPE_STANDARD) REQREC_DEVICE
  then
    p ← gets USB_Device_CurrentlySelfPowered;
    r ← gets USB_Device_RemoteWakeupEnabled;
    mret (Some (Z.lor (if p : bool then FEATURE_SELFPOWERED_ENABLED else 0)
                      (if r : bool then FEATURE_REMOTE_WAKEUP_ENABLED else 0)))
  else if bmRequestType req =? Z.lor (Z.lor REQDIR_DEVICETOHOST REQTYPE_STANDARD) REQREC_ENDPOINT
  then
    let EndpointIndex := Z.land (u8 (wIndex req)) ENDPOINT_EPNUM_MASK in
    if ENDPOINT_TOTAL_ENDPOINTS <=? EndpointIndex then mret None
    else
      Endpoint_SelectEndpoint EndpointIndex;;
      s ← Endpoint_IsStalled;
      Endpoint_SelectEndpoint ENDPOINT_CONTROLEP;;
      mret (Some (if s : bool then 1 else 0))
  else mret None.

Definition USB_Device_GetStatus : P unit :=
  v ← GetStatus_value;
  match v with
  | None => mret tt
  | Some CurrentStatus =>
      Endpoint_ClearSETUP;;
      Endpoint_Write_16_LE CurrentStatus;;
      Endpoint_ClearIN;;
      Endpoint_ClearStatusStage fuel
  end.

(** The switch of [USB_Device_ClearSetFeature]; [false] is an early return. *)
Definition ClearSetFeature_apply : P bool :=
  req ← gets USB_ControlRequest;
  let recipient := Z.land (bmRequestType req) CONTROL_REQTYPE_RECIPIENT in
  if recipient =? REQREC_DEVICE then
    if u8 (wValue req) =? FEATURE_SEL_DeviceRemoteWakeup
    then modify (upd_RemoteWakeupEnabled (bRequest req =? REQ_SetFeature));; mret true
    else mret false
  else if recipient =? REQREC_ENDPOINT then
    if u8 (wValue req) =? FEATURE_SEL_EndpointHalt then
      let EndpointIndex := Z.land (u8 (wIndex req)) ENDPOINT_EPNUM_MASK in
      if (EndpointIndex =? ENDPOINT_CONTROLEP) || (ENDPOINT_TOTAL_ENDPOINTS <=? EndpointIndex)
      then mret false
      else
        Endpoint_SelectEndpoint EndpointIndex;;
        en ← Endpoint_IsEnabled;
        when en
          (if bRequest req =? REQ_SetFeature then Endpoint_StallTransaction
           else
             Endpoint_ClearStall;;
             Endpoint_ResetEndpoint EndpointIndex;;
             Endpoint_ResetDataToggle);;
        mret true
    else mret true
  else mret false.

Definition USB_Device_ClearSetFeature : P unit :=
  ok ← ClearSetFeature_apply;
  when ok
    (Endpoint_SelectEndpoint ENDPOINT_CONTROLEP;;
     Endpoint_ClearSETUP;;
     Endpoint_ClearStatusStage fuel).

(** The eight bytes of the SETUP packet, stored over [USB_ControlRequest]. *)
Definition read_request_header : P USB_Request_Header_t :=
  b0 ← Endpoint_Read_8; b1 ← Endpoint_Read_8; b2 ← Endpoint_Read_8; b3 ← Endpoint_Read_8;
  b4 ← Endpoint_Read_8; b5 ← Endpoint_Read_8; b6 ← Endpoint_Read_8; b7 ← Endpoint_Read_8;
  mret (mkRequest b0 b1 (of_le16 b2 b3) (of_le16 b4 b5) (of_le16 b6 b7)).

(** The standard request switch. *)
Definition dispatch_request (bmRequestType bRequest : Z) : P unit :=
  let d2h r := bmRequestType =? Z.lor (Z.lor REQDIR_DEVICETOHOST REQTYPE_STANDARD) r in
  let h2d r := bmRequestType =? Z.lor (Z.lor REQDIR_HOSTTODEVICE REQTYPE_STANDARD) r in
  if bRequest =? REQ_GetStatus
  then when (d2h REQREC_DEVICE || d2h REQREC_ENDPOINT) USB_Device_GetStatus
  else if (bRequest =? REQ_ClearFeature) || (bRequest =? REQ_SetFeature)
  then when (h2d REQREC_DEVICE || h2d REQREC_ENDPOINT) USB_Device_ClearSetFeature
  else if bRequest =? REQ_SetAddress
  then when (h2d REQREC_DEVICE) USB_Device_SetAddress
  else if bRequest =? REQ_GetDescriptor
  then when (d2h REQREC_DEVICE || d2h REQREC_INTERFACE) USB_Device_GetDescriptor
  else if bRequest =? REQ_GetConfiguration
  then when (d2h REQREC_DEVICE) USB_Device_GetConfiguration
  else if bRequest =? REQ_SetConfiguration
  then when (h2d REQREC_DEVICE) USB_Device_SetConfiguration
  else mret tt.

Definition USB_Device_ProcessControlRequest : P unit :=
  req ← read_request_header;
  modify (upd_ControlRequest req);;
  EVENT_USB_Device_ControlRequest fuel;;
  s ← Endpoint_IsSETUPReceived;
  when s
    (req ← gets USB_ControlRequest;
     dispatch_request (bmRequestType req) (bRequest req));;
  s ← Endpoint_IsSETUPReceived;
  when s (Endpoint_ClearSETUP;; Endpoint_StallTransaction).

(** ** USBTask.c *)

Definition USB_DeviceTask : P unit :=
  st ← poll_DeviceState fuel;
  if st =? DEVICE_STATE_Unattached then mret tt
  else
    PrevEndpoint ← Endpoint_GetCurrentEndpoint;
    Endpoint_SelectEndpoint ENDPOINT_CONTROLEP;;
    s ← Endpoint_IsSETUPReceived;
    when s USB_Device_ProcessControlRequest;;
    Endpoint_SelectEndpoint PrevEndpoint.

Definition USB_USBTask : P unit := USB_DeviceTask.
End DeviceStandardReq.

(** ** Frames *)

(** Whatever the hardware returns, the header read is well formed. *)
Lemma read_request_header_wf {HW : Hardware} {App} (w : World App) :
  wp false read_request_header (fun r _ => wf_request r) w.
Proof.
  unfold read_request_header, Endpoint_Read_8. hw_steps.
  unfold wf_request. cbn [bmRequestType bRequest wValue wIndex wLength reg_trunc].
  auto 6 with firmware.
Qed.

(** The application's request handlers respect a relation, at every fuel. *)
Class RequestsKeep {App} (RQ : DeviceRequests App) (R : World App -> World App -> Prop)
    : Prop := {
  rk_request : forall fuel, keeps R (EVENT_USB_Device_ControlRequest fuel);
  rk_config : forall fuel, keeps R (EVENT_USB_Device_ConfigurationChanged fuel)
}.
#[export] Hint Resolve rk_request rk_config : keeps.

Section Frames.
Context {HW : Hardware} {App : Type} {EV : DeviceEvents App} {RQ : DeviceRequests App}.
Context (R : World App -> World App -> Prop).
Context {SR : StackRel R} {EK : EventsKeep EV R} {RK : RequestsKeep RQ R}.

Lemma keeps_SetConfiguration fuel : keeps R (USB_Device_SetConfiguration fuel).
Proof.
  unfold USB_Device_SetConfiguration. apply keeps_bind; [apply _|keeps_tac|intros req].
  destruct (FIXED_NUM_CONFIGURATIONS <? u8 (wValue req)) eqn:E; [keeps_tac|].
  unfold FIXED_NUM_CONFIGURATIONS in E. bool_hyps.
  pose proof (u8_range (wValue req)) as Hr. unfold is_u8 in Hr.
  assert (keeps R (modify (upd_ConfigurationNumber (u8 (wValue req))))) by
    (apply keeps_set_config; [apply _|lia]).
  keeps_tac.
Qed.

Lemma keeps_ProcessControlRequest fuel : keeps R (USB_Device_ProcessControlRequest fuel).
Proof.
  pose proof (keeps_SetConfiguration fuel).
  unfold USB_Device_ProcessControlRequest. apply keeps_bind_post with (Q := wf_request).
  - apply _.
  - keeps_tac.
  - apply read_request_header_wf.
  - intros req Hreq. apply keeps_bind; [apply _|by apply keeps_set_request|]. intros _. keeps_tac.
Qed.

Lemma keeps_USBTask fuel : keeps R (USB_USBTask fuel).
Proof. pose proof (keeps_ProcessControlRequest fuel). keeps_tac. Qed.
End Frames.

#[export] Hint Resolve keeps_USBTask : keeps.

(** ** Memory safety *)

(** What the stack relies on: a descriptor is at least as long as the size
    returned with it, and the handlers are safe. *)
Class RequestsSafe {App} (RQ : DeviceRequests App) (I : World App -> Prop) : Prop := {
  rs_descriptor : forall v i,
    let '(size, d) := CALLBACK_USB_GetDescriptor v i in
    size = NO_DESCRIPTOR \/
    exists bytes, d = Some bytes /\ is_u16 size /\ size <= Z.of_nat (length bytes);
  rs_request : forall fuel, safe I (EVENT_USB_Device_ControlRequest fuel);
  rs_config : forall fuel, safe I (EVENT_USB_Device_ConfigurationChanged fuel)
}.
#[export] Hint Resolve rs_request rs_config : safe.

Section Safety.
Context {HW : Hardware} {App : Type} {EV : DeviceEvents App} {RQ : DeviceRequests App}.
Context {I : World App -> Prop} {SI : StackInv I}.
Context {ES : EventsSafe EV I} {RS : RequestsSafe RQ I}.

Lemma length_GetSerialString_loop n i a : length (GetSerialString_loop n i a) = n.
Proof. revert i a; induction n as [|n IH]; intros; cbn; [done|]. by rewrite IH. Qed.

Lemma length_concat_le16 l : length (concat (map le16 l)) = (2 * length l)%nat.
Proof. induction l as [|x l IH]; cbn; [done|]. cbn in IH. rewrite IH. lia. Qed.

Lemma safe_GetDescriptor fuel : safe I (USB_Device_GetDescriptor fuel).
Proof.
  unfold USB_Device_GetDescriptor. apply safe_bind; [safe_tac|]. intros req.
  destruct (_ =? _).
  - unfold USB_Device_GetInternalSerialDescriptor.
    apply safe_bind_post with (Q := fun l => length l = 20%nat).
    { intros w HI. unfold USB_Device_GetSerialString. wp_steps. split; [|by do 2 apply si_irq].
      apply length_GetSerialString_loop. }
    intros l Hl. apply safe_bind; [safe_tac|]. intros _. apply safe_bind; [|safe_tac].
    apply safe_Control_W; [|lia]. unfold is_u16. cbn [length app SignatureDescriptor].
    unfold SignatureDescriptor. rewrite length_app, length_concat_le16, Hl. cbn. lia.
  - pose proof (rs_descriptor (wValue req) (wIndex req)) as Hd.
    destruct (CALLBACK_USB_GetDescriptor _ _) as [size d].
    destruct (size =? NO_DESCRIPTOR) eqn:E; [safe_tac|]. bool_hyps.
    destruct Hd as [?|(bytes & -> & Hu & Hs)]; [done|].
    apply safe_bind; [safe_tac|]. intros _. apply safe_bind; [|safe_tac].
    apply safe_bind; [by apply safe_Control_W|]. safe_tac.
Qed.

Lemma safe_ProcessControlRequest fuel : safe I (USB_Device_ProcessControlRequest fuel).
Proof.
  pose proof (safe_GetDescriptor fuel). unfold USB_Device_ProcessControlRequest.
  apply safe_bind_post with (Q := wf_request).
  - intros w HI. apply wp_conj; [apply read_request_header_wf|].
    revert w HI. change (safe I (read_request_header (App := App))). safe_tac.
  - intros req Hreq. apply safe_bind; [by apply safe_request|]. intros _. safe_tac.
Qed.

Lemma safe_USBTask fuel : safe I (USB_USBTask fuel).
Proof. pose proof (safe_ProcessControlRequest fuel). safe_tac. Qed.
End Safety.

#[export] Hint Resolve safe_USBTask : safe.
