(* ===== verification/EndpointStream.v ===== *)
(** Data endpoint streams: LUFA/Drivers/USB/Core/AVR8/EndpointStream_AVR8.c and
    Template/Template_Endpoint_RW.c.

    [BytesProcessed] is the optional progress counter: [None] is a NULL pointer,
    and the functions return its final value beside the error code. *)

From stdpp Require Import base tactics option list numbers.
From Stdlib Require Import ZArith Lia.
From S2P Require Import Prelude Hardware Endpoint USBController ControlStream DeviceStandardReq.

(** [enum Endpoint_Stream_RW_ErrorCodes_t] *)
Definition ENDPOINT_RWSTREAM_NoError : Z := 0.
Definition ENDPOINT_RWSTREAM_IncompleteTransfer : Z := 5.

Section EndpointStream.
Context {HW : Hardware} {App : Type} {EV : DeviceEvents App} {RQ : DeviceRequests App}.
Context (fuel : nat).
Abbreviation P := (prog (World App)).

(** The loop shared by [Endpoint_Discard_Stream] and [Endpoint_Null_Stream]. *)
Fixpoint FillStream_loop (n : nat) (clear step : P unit)
    (Length BytesInTransfer : Z) (BytesProcessed : option Z) : P (Z * option Z) :=
  if Length =? 0 then mret (ENDPOINT_RWSTREAM_NoError, BytesProcessed)
  else
    match n with
    | O => nofuel
    | S n =>
        a ← Endpoint_IsReadWriteAllowed;
        if negb a then
          clear;;
          match BytesProcessed with
          | Some p =>
              mret (ENDPOINT_RWSTREAM_IncompleteTransfer, Some (u16 (p + BytesInTransfer)))
          | None =>
              ErrorCode ← Endpoint_WaitUntilReady fuel;
              if negb (ErrorCode =? 0) then mret (ErrorCode, BytesProcessed)
              else FillStream_loop n clear step Length BytesInTransfer BytesProcessed
          end
        else
          step;;
          FillStream_loop n clear step (u16 (Length - 1)) (u16 (BytesInTransfer + 1)) BytesProcessed
    end.

Definition FillStream (clear step : P unit) (Length : Z) (BytesProcessed : option Z)
    : P (Z * option Z) :=
  ErrorCode ← Endpoint_WaitUntilReady fuel;
  if negb (ErrorCode =? 0) then mret (ErrorCode, BytesProcessed)
  else
    let Length := match BytesProcessed with Some p => u16 (Length - p) | None => Length end in
    FillStream_loop fuel clear step Length 0 BytesProcessed.

Definition Endpoint_Discard_Stream : Z -> option Z -> P (Z * option Z) :=
  FillStream Endpoint_ClearOUT Endpoint_Discard_8.

Definition Endpoint_Null_Stream : Z -> option Z -> P (Z * option Z) :=
  FillStream Endpoint_ClearIN (Endpoint_Write_8 0).

(** ** Template_Endpoint_RW.c

    [clear] is [TEMPLATE_CLEAR_ENDPOINT] and [transfer] is
    [TEMPLATE_TRANSFER_BYTE], which returns the buffer. *)

Fixpoint StreamRW_loop (n : nat) (e : Endian) (clear : P unit)
    (transfer : list Z -> Z -> P (list Z)) (buf : list Z)
    (DataStream Length BytesInTransfer : Z) (BytesProcessed : option Z)
    : P (list Z * Z * option Z) :=
  if Length =? 0 then mret (buf, ENDPOINT_RWSTREAM_NoError, BytesProcessed)
  else
    match n with
    | O => nofuel
    | S n =>
        a ← Endpoint_IsReadWriteAllowed;
        if negb a then
          clear;;
          USB_USBTask fuel;;
          match BytesProcessed with
          | Some p =>
              mret (buf, ENDPOINT_RWSTREAM_IncompleteTransfer, Some (u16 (p + BytesInTransfer)))
          | None =>
              ErrorCode ← Endpoint_WaitUntilReady fuel;
              if negb (ErrorCode =? 0) then mret (buf, ErrorCode, BytesProcessed)
              else StreamRW_loop n e clear transfer buf DataStream Length
                     BytesInTransfer BytesProcessed
          end
        else
          buf' ← transfer buf DataStream;
          StreamRW_loop n e clear transfer buf' (TEMPLATE_BUFFER_MOVE e DataStream 1)
            (u16 (Length - 1)) (u16 (BytesInTransfer + 1)) BytesProcessed
    end.

Definition Template_Endpoint_RW (e : Endian) (clear : P unit)
    (transfer : list Z -> Z -> P (list Z)) (Buffer : list Z) (Length : Z)
    (BytesProcessed : option Z) : P (list Z * Z * option Z) :=
  let DataStream := TEMPLATE_BUFFER_OFFSET e Length in
  ErrorCode ← Endpoint_WaitUntilReady fuel;
  if negb (ErrorCode =? 0) then mret (Buffer, ErrorCode, BytesProcessed)
  else
    let Length' := match BytesProcessed with Some p => u16 (Length - p) | None => Length end in
    let DataStream' :=
      match BytesProcessed with
      | Some p => TEMPLATE_BUFFER_MOVE e DataStream p | None => DataStream end in
    StreamRW_loop fuel e clear transfer Buffer DataStream' Length' 0 BytesProcessed.

Definition transfer_write (buf : list Z) (i : Z) : P (list Z) := write_byte buf i;; mret buf.
Definition transfer_read (buf : list Z) (i : Z) : P (list Z) := read_byte buf i.

Definition Endpoint_Write_Stream_LE := Template_Endpoint_RW LE Endpoint_ClearIN transfer_write.
Definition Endpoint_Write_Stream_BE := Template_Endpoint_RW BE Endpoint_ClearIN transfer_write.
Definition Endpoint_Read_Stream_LE := Template_Endpoint_RW LE Endpoint_ClearOUT transfer_read.
Definition Endpoint_Read_Stream_BE := Template_Endpoint_RW BE Endpoint_ClearOUT transfer_read.
Definition Endpoint_Write_PStream_LE := Template_Endpoint_RW LE Endpoint_ClearIN transfer_write.
Definition Endpoint_Write_PStream_BE := Template_Endpoint_RW BE Endpoint_ClearIN transfer_write.
Definition Endpoint_Write_EStream_LE := Template_Endpoint_RW LE Endpoint_ClearIN transfer_write.
Definition Endpoint_Write_EStream_BE := Template_Endpoint_RW BE Endpoint_ClearIN transfer_write.
Definition Endpoint_Read_EStream_LE := Template_Endpoint_RW LE Endpoint_ClearOUT transfer_read.
Definition Endpoint_Read_EStream_BE := Template_Endpoint_RW BE Endpoint_ClearOUT transfer_read.
End EndpointStream.

(** ** Frames *)

Section Frames.
Context {HW : Hardware} {App : Type} {EV : DeviceEvents App} {RQ : DeviceRequests App}.
Context (R : World App -> World App -> Prop).
Context {SR : StackRel R} {EK : EventsKeep EV R} {RK : RequestsKeep RQ R}.

Lemma keeps_StreamRW_loop fuel n e clear transfer buf ds len b bp :
  keeps R clear -> (forall buf i, keeps R (transfer buf i)) ->
  keeps R (StreamRW_loop fuel n e clear transfer buf ds len b bp).
Proof.
  intros Hc Ht. revert buf ds len b bp; induction n as [|n IH]; intros; cbn; keeps_tac; apply IH.
Qed.

Lemma keeps_Write_Stream_LE fuel buf len bp : keeps R (Endpoint_Write_Stream_LE fuel buf len bp).
Proof.
  unfold Endpoint_Write_Stream_LE, Template_Endpoint_RW.
  keeps_tac; apply keeps_StreamRW_loop; intros; keeps_tac.
Qed.

Lemma keeps_Read_Stream_LE fuel buf len bp : keeps R (Endpoint_Read_Stream_LE fuel buf len bp).
Proof.
  unfold Endpoint_Read_Stream_LE, Template_Endpoint_RW.
  keeps_tac; apply keeps_StreamRW_loop; intros; keeps_tac.
Qed.
End Frames.

#[export] Hint Resolve keeps_Write_Stream_LE keeps_Read_Stream_LE : keeps.

(** ** Memory safety *)

Section Safety.
Context {HW : Hardware} {App : Type} {EV : DeviceEvents App} {RQ : DeviceRequests App}.
Context {I : World App -> Prop} {SI : StackInv I}.
Context {ES : EventsSafe EV I} {RS : RequestsSafe RQ I}.
Abbreviation P := (prog (World App)).

(** A transfer step inside the buffer is safe and keeps the buffer's size. *)
Definition safe_transfer (transfer : list Z -> Z -> P (list Z)) : Prop :=
  forall buf i w, 0 <= i < Z.of_nat (length buf) -> I w ->
  wp false (transfer buf i) (fun buf' w' => length buf' = length buf /\ I w') w.

Lemma safe_transfer_write : safe_transfer transfer_write.
Proof.
  intros buf i w Hi HI. unfold transfer_write. apply wp_bind.
  eapply wp_mono; [by apply safe_write_byte|]. intros [] w' HI'. by apply wp_ret.
Qed.

Lemma safe_transfer_read : safe_transfer transfer_read.
Proof.
  intros buf i w Hi HI. unfold transfer_read, read_byte, Endpoint_Read_8. hw_steps.
  match goal with |- context [buf_set buf i ?v] =>
    destruct (buf_set_length buf i v Hi) as (buf' & -> & Hlen) end.
  apply wp_ret. split; [done|by apply si_tr].
Qed.

Lemma safe_StreamRW_loop fuel n e clear transfer buf ds len b bp :
  safe I clear -> safe_transfer transfer ->
  in_buffer e (length buf) ds len -> is_u16 len ->
  safe I (StreamRW_loop fuel n e clear transfer buf ds len b bp).
Proof.
  intros Hc Ht. revert buf ds len b bp; induction n as [|n IH]; intros buf ds len b bp Hb Hl; cbn;
    (destruct (len =? 0) eqn:E; [safe_tac|]); [safe_tac|]. bool_hyps.
  apply safe_bind; [safe_tac|]. intros [|]; cbn.
  - apply safe_bind_post with (Q := fun buf' => length buf' = length buf).
    { intros w HI. apply Ht; [|done]. apply (in_buffer_index e _ _ len); [done|]. unfold is_u16 in Hl. lia. }
    intros buf' Hlen. apply IH; [rewrite Hlen|apply u16_range].
    apply in_buffer_move; [done|unfold is_u16 in Hl; lia|done].
  - safe_tac.
Qed.

Lemma safe_Stream_RW fuel e clear transfer buf Length :
  safe I clear -> safe_transfer transfer ->
  is_u16 Length -> Length <= Z.of_nat (length buf) ->
  safe I (Template_Endpoint_RW fuel e clear transfer buf Length None).
Proof.
  intros Hc Ht HL Hbuf. unfold Template_Endpoint_RW. apply safe_bind; [safe_tac|]. intros err.
  destruct (negb _); [safe_tac|].
  apply safe_StreamRW_loop; [done|done| |done]. unfold is_u16 in HL. apply in_buffer_start; lia.
Qed.
End Safety.

(** ** Writing into a bank with room

    While the bank of endpoint [ep] has room for [size] bytes, a write stream
    that fits stores its bytes in the bank and sends nothing by itself. *)

Section WriteFits.
Context {HW : Hardware} {App : Type} {EV : DeviceEvents App} {RQ : DeviceRequests App}.
Context (ep : Z) (size : nat).
Hypothesis room : forall t, selected t = ep -> (length (bank t) < size)%nat ->
  tst (u8 (hw_read t UEINTX)) (bit RWAL) = true.

(** Only the bank of [ep] has changed: it has grown by [bs]. *)
Definition filled (bs : list Z) (w w' : World App) : Prop :=
  selected (tr w') = ep /\ bank (tr w') = bank (tr w) ++ bs /\ packets (tr w') = packets (tr w) /\
  app w' = app w /\ USB_DeviceState w' = USB_DeviceState w.

Lemma StreamRW_loop_fits fuel n buf len b w :
  (Z.to_nat len < n)%nat -> 0 <= len <= Z.of_nat (length buf) -> is_u16 len -> Forall is_u8 buf ->
  selected (tr w) = ep -> (length (bank (tr w)) + Z.to_nat len <= size)%nat ->
  wp true (StreamRW_loop fuel n LE Endpoint_ClearIN transfer_write buf
             (Z.of_nat (length buf) - len) len b None)
    (fun r w' => r = (buf, ENDPOINT_RWSTREAM_NoError, None) /\
                 filled (drop (length buf - Z.to_nat len) buf) w w') w.
Proof.
  intros Hn Hl Hu Hb Hsel Hsz. revert len b w Hn Hl Hu Hsel Hsz.
  induction n as [|n IH]; intros len b w Hn Hl Hu Hsel Hsz; [lia|]. cbn [StreamRW_loop].
  destruct (len =? 0) eqn:E; bool_hyps.
  { apply wp_ret. subst. split; [done|]. unfold filled. rewrite drop_ge, app_nil_r by lia. done. }
  unfold Endpoint_IsReadWriteAllowed, test_bits. apply wp_bind, wp_bind, wp_rd, wp_ret.
  cbn [reg_trunc].
  rewrite room by (done || lia). cbn [negb].
  destruct (lookup_lt_is_Some_2 buf (length buf - Z.to_nat len)) as [x Hx]; [lia|].
  apply wp_bind. unfold transfer_write, write_byte, buf_get.
  destruct (_ <? 0) eqn:?; bool_hyps; [lia|].
  replace (Z.to_nat (Z.of_nat (length buf) - len)) with (length buf - Z.to_nat len)%nat by lia.
  rewrite Hx. unfold Endpoint_Write_8. apply wp_bind, wp_wr, wp_ret.
  unfold is_u16 in Hu. rewrite u16_small by (unfold is_u16; lia). cbn [TEMPLATE_BUFFER_MOVE].
  replace (Z.of_nat (length buf) - len + 1) with (Z.of_nat (length buf) - (len - 1)) by lia.
  eapply wp_mono; [apply IH; [lia|lia|unfold is_u16; lia|done|]|].
  { cbn. rewrite length_app. cbn. lia. }
  intros r w' (-> & Hs & Hbk & Hp & Ha & Hd). split; [done|]. cbn in Hbk, Hp, Ha, Hd.
  unfold filled. rewrite Hbk, Hp, Ha, Hd, Hs. rewrite u8_small by exact (Forall_lookup_1 _ _ _ _ Hb Hx).
  repeat split. rewrite <- app_assoc. f_equal. rewrite (drop_S _ _ _ Hx). cbn.
  do 2 f_equal. lia.
Qed.
End WriteFits.
