(* ===== verification/Serial.v ===== *)
(** The USART driver: LUFA/Drivers/Peripheral/AVR8/Serial_AVR8.[ch]. *)

From stdpp Require Import base tactics option list numbers.
From Stdlib Require Import ZArith Lia.
From S2P Require Import Prelude Hardware.

Definition F_CPU : Z := 16000000.

(** [SERIAL_UBBRVAL(Baud)] and [SERIAL_2X_UBBRVAL(Baud)] *)
Definition SERIAL_UBBRVAL (Baud : Z) : Z := (F_CPU / 16 + Baud / 2) / Baud - 1.
Definition SERIAL_2X_UBBRVAL (Baud : Z) : Z := (F_CPU / 8 + Baud / 2) / Baud - 1.

(** End of input of avr-libc's stdio, [_FDEV_EOF]. *)
Definition FDEV_EOF : Z := -2.

Section Serial.
Context {HW : Hardware} {App : Type}.
Abbreviation P := (prog (World App)).

Definition Serial_Init (BaudRate : Z) (DoubleSpeed : bool) : P unit :=
  wr UBRR1 (if DoubleSpeed then SERIAL_2X_UBBRVAL BaudRate else SERIAL_UBBRVAL BaudRate);;
  wr UCSR1C (Z.lor (bit UCSZ11) (bit UCSZ10));;
  wr UCSR1A (if DoubleSpeed then bit U2X1 else 0);;
  wr UCSR1B (Z.lor (bit TXEN1) (bit RXEN1));;
  set_bits DDRD (bit 3);;
  set_bits PORTD (bit 2).

Definition Serial_Disable : P unit :=
  wr UCSR1B 0;;
  wr UCSR1A 0;;
  wr UCSR1C 0;;
  wr UBRR1 0;;
  clr_bits DDRD (bit 3);;
  clr_bits PORTD (bit 2).

Definition Serial_IsCharReceived : P bool := test_bits UCSR1A (bit RXC1).
Definition Serial_IsSendReady : P bool := test_bits UCSR1A (bit UDRE1).
Definition Serial_IsSendComplete : P bool := test_bits UCSR1A (bit TXC1).

Definition Serial_SendByte (fuel : nat) (DataByte : Z) : P unit :=
  while_ fuel (r ← Serial_IsSendReady; mret (negb r)) (mret tt);;
  wr UDR1 DataByte.

(** The received byte, or -1. *)
Definition Serial_ReceiveByte : P Z :=
  r ← Serial_IsCharReceived;
  if negb r then mret (-1) else rd UDR1.

Definition Serial_putchar (fuel : nat) (DataByte : Z) : P Z :=
  Serial_SendByte fuel DataByte;; mret 0.

Definition Serial_getchar : P Z :=
  r ← Serial_IsCharReceived;
  if negb r then mret FDEV_EOF else Serial_ReceiveByte.

Definition Serial_getchar_Blocking (fuel : nat) : P Z :=
  while_ fuel (r ← Serial_IsCharReceived; mret (negb r)) (mret tt);;
  Serial_ReceiveByte.

(** The string is the memory from [StringPtr] on; running off its end without
    meeting the terminator is [Fault]. *)
Fixpoint Serial_SendString (fuel : nat) (StringPtr : list Z) : P unit :=
  match StringPtr with
  | [] => fault
  | CurrByte :: rest =>
      if CurrByte =? 0 then mret tt
      else Serial_SendByte fuel CurrByte;; Serial_SendString fuel rest
  end.

Fixpoint Serial_SendString_P (fuel : nat) (FlashStringPtr : list Z) : P unit :=
  match FlashStringPtr with
  | [] => fault
  | CurrByte :: rest =>
      if CurrByte =? 0 then mret tt
      else Serial_SendByte fuel CurrByte;; Serial_SendString_P fuel rest
  end.

(** [Length] bytes from [Buffer] on; running off its end is [Fault]. *)
Fixpoint Serial_SendData (fuel : nat) (Buffer : list Z) (Length : nat) : P unit :=
  match Length with
  | O => mret tt
  | S Length =>
      match Buffer with
      | [] => fault
      | b :: Buffer => Serial_SendByte fuel b;; Serial_SendData fuel Buffer Length
      end
  end.
End Serial.

(** Sending a terminated string stays inside it. *)
Lemma safe_SendString {HW : Hardware} {App} fuel s : In 0 s ->
  safe stack_inv (Serial_SendString (App := App) fuel s).
Proof.
  induction s as [|b s IH]; [done|]. intros [-> | Hin]; [apply safe_ret|]. cbn [Serial_SendString].
  destruct (b =? 0); [safe_tac|]. apply safe_bind; [safe_tac|]. intros _. by apply IH.
Qed.

Lemma SERIAL_UBBRVAL_nearest Baud : 0 < Baud ->
  2 * Z.abs (Baud * (SERIAL_UBBRVAL Baud + 1) - F_CPU / 16) <= Baud.
Proof.
  intros HB. unfold SERIAL_UBBRVAL, F_CPU. change (16000000 / 16) with 1000000.
  pose proof (Z.div_mod (1000000 + Baud / 2) Baud ltac:(lia)).
  pose proof (Z.mod_pos_bound (1000000 + Baud / 2) Baud HB).
  pose proof (Z.div_mod Baud 2 ltac:(lia)). pose proof (Z.mod_pos_bound Baud 2 ltac:(lia)). lia.
Qed.

(** [Serial_Init] programs the baud rate divisor nearest to the rate asked for:
    the divider written to UBRR1 is off by at most half a step, for every rate the
    USART can run at from a 16 MHz clock. *)
Theorem Serial_Init_baud {HW : Hardware} {App} Baud (w : World App) : 16 <= Baud <= 1000000 ->
  exists w' d, Serial_Init Baud false w = Ret tt w' /\
    writes_to UBRR1 (tr w') = writes_to UBRR1 (tr w) ++ [d] /\
    2 * Z.abs (Baud * (d + 1) - F_CPU / 16) <= Baud.
Proof.
  intros HB. eexists _, (SERIAL_UBBRVAL Baud). split; [reflexivity|].
  split; [|apply SERIAL_UBBRVAL_nearest; lia]. regs_simpl. do 2 f_equal.
  apply u16_small. unfold is_u16, SERIAL_UBBRVAL, F_CPU. change (16000000 / 16) with 1000000.
  assert (1 <= (1000000 + Baud / 2) / Baud < 65537); [|lia].
  assert (0 <= Baud / 2 <= Baud) by (split; [apply Z.div_pos; lia|apply Z.div_le_upper_bound; lia]).
  split; [apply Z.div_le_lower_bound; lia|apply Z.div_lt_upper_bound; lia].
Qed.

(** A board whose registers read as zero. *)
Definition zero_hw : Hardware :=
  {| hw_read := fun _ _ => 0; hw_irq := fun _ => false; hw_signature := fun _ => 0 |}.

Lemma Serial_Init_baud_witness :
  exists w' d, Serial_Init (HW := zero_hw) 9600 false (reset_world tt) = Ret tt w' /\
    writes_to UBRR1 (tr w') = [] ++ [d] /\ 2 * Z.abs (9600 * (d + 1) - F_CPU / 16) <= 9600.
Proof. apply (Serial_Init_baud (HW := zero_hw)). lia. Defined.
