(* ===== verification/Descriptors.v ===== *)
(** The descriptors of the controller: firmware/Descriptors.[ch]. *)

From stdpp Require Import base tactics option list numbers.
From Stdlib Require Import ZArith Lia.
From S2P Require Import Prelude Endpoint USBController StdDescriptors.

Definition INTERFACE_ID_Joystick : Z := 0.
Definition STRING_ID_Language : Z := 0.
Definition STRING_ID_Manufacturer : Z := 1.
Definition STRING_ID_Product : Z := 2.
Definition JOYSTICK_IN_EPADDR : Z := Z.lor ENDPOINT_DIR_IN 1.
Definition JOYSTICK_OUT_EPADDR : Z := Z.lor ENDPOINT_DIR_OUT 2.
Definition JOYSTICK_EPSIZE : Z := 64.
Definition DTYPE_HID : Z := 0x21.
Definition DTYPE_Report : Z := 0x22.
Definition HID_CSCP_HIDClass : Z := 0x03.
Definition HID_CSCP_NonBootSubclass : Z := 0x00.
Definition HID_CSCP_NonBootProtocol : Z := 0x00.

Definition JoystickReport : list Z := concat [
  HID_RI_USAGE_PAGE Bits8 1;
  HID_RI_USAGE Bits8 5;
  HID_RI_COLLECTION Bits8 1;
    HID_RI_LOGICAL_MINIMUM Bits8 0;
    HID_RI_LOGICAL_MAXIMUM Bits8 1;
    HID_RI_PHYSICAL_MINIMUM Bits8 0;
    HID_RI_PHYSICAL_MAXIMUM Bits8 1;
    HID_RI_REPORT_SIZE Bits8 1;
    HID_RI_REPORT_COUNT Bits8 16;
    HID_RI_USAGE_PAGE Bits8 9;
    HID_RI_USAGE_MINIMUM Bits8 1;
    HID_RI_USAGE_MAXIMUM Bits8 16;
    HID_RI_INPUT Bits8 2;
    HID_RI_USAGE_PAGE Bits8 1;
    HID_RI_LOGICAL_MAXIMUM Bits8 7;
    HID_RI_PHYSICAL_MAXIMUM Bits16 315;
    HID_RI_REPORT_SIZE Bits8 4;
    HID_RI_REPORT_COUNT Bits8 1;
    HID_RI_UNIT Bits8 20;
    HID_RI_USAGE Bits8 57;
    HID_RI_INPUT Bits8 66;
    HID_RI_UNIT Bits8 0;
    HID_RI_REPORT_COUNT Bits8 1;
    HID_RI_INPUT Bits8 1;
    HID_RI_LOGICAL_MAXIMUM Bits16 255;
    HID_RI_PHYSICAL_MAXIMUM Bits16 255;
    HID_RI_USAGE Bits8 48;
    HID_RI_USAGE Bits8 49;
    HID_RI_USAGE Bits8 50;
    HID_RI_USAGE Bits8 53;
    HID_RI_REPORT_SIZE Bits8 8;
    HID_RI_REPORT_COUNT Bits8 4;
    HID_RI_INPUT Bits8 2;
    HID_RI_USAGE_PAGE Bits16 65280;
    HID_RI_USAGE Bits8 32;
    HID_RI_REPORT_COUNT Bits8 1;
    HID_RI_INPUT Bits8 2;
    HID_RI_USAGE Bits16 9761;
    HID_RI_REPORT_COUNT Bits8 8;
    HID_RI_OUTPUT Bits8 2;
  HID_RI_END_COLLECTION Bits0 0].

Definition DeviceDescriptor : USB_Descriptor_Device_t := {|
  dev_Header := mkHeader sizeof_Device DTYPE_Device;
  dev_USBSpecification := VERSION_BCD 2 0 0;
  dev_Class := 0x00;
  dev_SubClass := 0x00;
  dev_Protocol := 0x00;
  dev_Endpoint0Size := FIXED_CONTROL_ENDPOINT_SIZE;
  dev_VendorID := 0x0F0D;
  dev_ProductID := 0x0092;
  dev_ReleaseNumber := VERSION_BCD 1 0 0;
  dev_ManufacturerStrIndex := STRING_ID_Manufacturer;
  dev_ProductStrIndex := STRING_ID_Product;
  dev_SerialNumStrIndex := NO_DESCRIPTOR;
  dev_NumberOfConfigurations := FIXED_NUM_CONFIGURATIONS
|}.

(** [USB_Descriptor_Configuration_t], in the order of its declaration *)
Record USB_Descriptor_Configuration_t : Set := mkConfiguration {
  Config : USB_Descriptor_Configuration_Header_t;
  HID_Interface : USB_Descriptor_Interface_t;
  HID_JoystickHID : USB_HID_Descriptor_HID_t;
  HID_ReportOUTEndpoint : USB_Descriptor_Endpoint_t;
  HID_ReportINEndpoint : USB_Descriptor_Endpoint_t
}.
Definition sizeof_Configuration : Z :=
  sizeof_Configuration_Header + sizeof_Interface + sizeof_HID + sizeof_Endpoint + sizeof_Endpoint.
Definition enc_configuration (c : USB_Descriptor_Configuration_t) : list Z :=
  enc_config_header (Config c) ++ enc_interface (HID_Interface c) ++ enc_hid (HID_JoystickHID c)
    ++ enc_endpoint (HID_ReportOUTEndpoint c) ++ enc_endpoint (HID_ReportINEndpoint c).

Definition ConfigurationDescriptor : USB_Descriptor_Configuration_t := {|
  Config := {|
    cfg_Header := mkHeader sizeof_Configuration_Header DTYPE_Configuration;
    cfg_TotalConfigurationSize := sizeof_Configuration;
    cfg_TotalInterfaces := 1;
    cfg_ConfigurationNumber := 1;
    cfg_ConfigurationStrIndex := NO_DESCRIPTOR;
    cfg_ConfigAttributes := 0x80;
    cfg_MaxPowerConsumption := USB_CONFIG_POWER_MA 500 |};
  HID_Interface := {|
    if_Header := mkHeader sizeof_Interface DTYPE_Interface;
    if_InterfaceNumber := INTERFACE_ID_Joystick;
    if_AlternateSetting := 0x00;
    if_TotalEndpoints := 2;
    if_Class := HID_CSCP_HIDClass;
    if_SubClass := HID_CSCP_NonBootSubclass;
    if_Protocol := HID_CSCP_NonBootProtocol;
    if_InterfaceStrIndex := NO_DESCRIPTOR |};
  HID_JoystickHID := {|
    hid_Header := mkHeader sizeof_HID HID_DTYPE_HID;
    hid_HIDSpec := VERSION_BCD 1 1 1;
    hid_CountryCode := 0x00;
    hid_TotalReportDescriptors := 1;
    hid_HIDReportType := HID_DTYPE_Report;
    hid_HIDReportLength := Z.of_nat (length JoystickReport) |};
  HID_ReportINEndpoint := {|
    ep_Header := mkHeader sizeof_Endpoint DTYPE_Endpoint;
    ep_EndpointAddress := JOYSTICK_IN_EPADDR;
    ep_Attributes := Z.lor (Z.lor EP_TYPE_INTERRUPT ENDPOINT_ATTR_NO_SYNC) ENDPOINT_USAGE_DATA;
    ep_EndpointSize := JOYSTICK_EPSIZE;
    ep_PollingIntervalMS := 0x05 |};
  HID_ReportOUTEndpoint := {|
    ep_Header := mkHeader sizeof_Endpoint DTYPE_Endpoint;
    ep_EndpointAddress := JOYSTICK_OUT_EPADDR;
    ep_Attributes := Z.lor (Z.lor EP_TYPE_INTERRUPT ENDPOINT_ATTR_NO_SYNC) ENDPOINT_USAGE_DATA;
    ep_EndpointSize := JOYSTICK_EPSIZE;
    ep_PollingIntervalMS := 0x05 |}
|}.

Definition LanguageString : USB_Descriptor_String_t := USB_STRING_DESCRIPTOR_ARRAY LANGUAGE_ID_ENG.
(** L"HORI CO.,LTD." *)
Definition ManufacturerString : USB_Descriptor_String_t :=
  USB_STRING_DESCRIPTOR [72; 79; 82; 73; 32; 67; 79; 46; 44; 76; 84; 68; 46].
(** L"POKKEN CONTROLLER" *)
Definition ProductString : USB_Descriptor_String_t :=
  USB_STRING_DESCRIPTOR [80; 79; 75; 75; 69; 78; 32; 67; 79; 78; 84; 82; 79; 76; 76; 69; 82].

(** [CALLBACK_USB_GetDescriptor]: the size and the object [*DescriptorAddress]
    points to ([None] is NULL). *)
Definition Joystick_GetDescriptor (wValue wIndex : Z) : Z * option (list Z) :=
  let DescriptorType := u8 (Z.shiftr wValue 8) in
  let DescriptorNumber := u8 (Z.land wValue 0xFF) in
  if DescriptorType =? DTYPE_Device then (sizeof_Device, Some (enc_device DeviceDescriptor))
  else if DescriptorType =? DTYPE_Configuration
  then (sizeof_Configuration, Some (enc_configuration ConfigurationDescriptor))
  else if DescriptorType =? DTYPE_String then
    if DescriptorNumber =? STRING_ID_Language
    then (u8 (hdr_Size (str_Header LanguageString)), Some (enc_string LanguageString))
    else if DescriptorNumber =? STRING_ID_Manufacturer
    then (u8 (hdr_Size (str_Header ManufacturerString)), Some (enc_string ManufacturerString))
    else if DescriptorNumber =? STRING_ID_Product
    then (u8 (hdr_Size (str_Header ProductString)), Some (enc_string ProductString))
    else (NO_DESCRIPTOR, None)
  else if DescriptorType =? DTYPE_HID
  then (sizeof_HID, Some (enc_hid (HID_JoystickHID ConfigurationDescriptor)))
  else if DescriptorType =? DTYPE_Report
  then (Z.of_nat (length JoystickReport), Some JoystickReport)
  else (NO_DESCRIPTOR, None).
