(* ===== verification/ControlTransfer.v ===== *)
(** Control IN transfers end to end: what [Template_Endpoint_Control_W] and the
    GET_DESCRIPTOR handler put on the bus. *)

From stdpp Require Import base tactics option list numbers.
From Stdlib Require Import ZArith Lia.
From S2P Require Import Prelude Hardware StdDescriptors Endpoint USBController ControlStream.
From S2P Require Import DeviceStandardReq Descriptors.

(** ** Packets of a transfer *)

(** [data] as the USB specification splits it for a host that asked for [want]
    bytes: full packets of 64 bytes and a last one that is short, possibly empty,
    or full when it completes the request. *)
Definition packetized (data : list Z) (want : Z) (ps : list (list Z)) : Prop :=
  exists full last, ps = full ++ [last] /\ concat ps = data /\
    Forall (fun p => length p = 64%nat) full /\ (length last <= 64)%nat /\
    (length last = 64%nat -> Z.of_nat (length data) = want) /\
    (last = [] -> Z.of_nat (length data) < want).

(** A host that asked for [want] bytes has its data: it stops at a short packet. *)
Definition complete (want : Z) (ps : list (list Z)) : bool :=
  (want <=? Z.of_nat (length (concat ps))) || existsb (fun p => (length p <? 64)%nat) ps.

(** The bytes a stream sends, in the order it sends them. *)
Definition stream_bytes (e : Endian) (buf : list Z) (Length : Z) : list Z :=
  match e with
  | LE => take (Z.to_nat Length) buf
  | BE => reverse (take (Z.to_nat Length) buf)
  end.

(** The position of the stream pointer after [i] bytes. *)
Definition stream_pos (e : Endian) (Length i : Z) : Z :=
  match e with LE => i | BE => Length - 1 - i end.

Lemma stream_pos_start e Length : TEMPLATE_BUFFER_OFFSET e Length = stream_pos e Length 0.
Proof. destruct e; cbn; lia. Qed.
Lemma stream_pos_move e Length i :
  TEMPLATE_BUFFER_MOVE e (stream_pos e Length i) 1 = stream_pos e Length (i + 1).
Proof. destruct e; cbn; lia. Qed.

Lemma stream_bytes_length e buf Length : 0 <= Length <= Z.of_nat (length buf) ->
  Z.of_nat (length (stream_bytes e buf Length)) = Length.
Proof. destruct e; cbn; rewrite ?length_reverse, length_take; lia. Qed.

Lemma stream_bytes_get e buf Length i : 0 <= Length <= Z.of_nat (length buf) -> 0 <= i < Length ->
  buf_get buf (stream_pos e Length i) = stream_bytes e buf Length !! Z.to_nat i.
Proof.
  intros HL Hi. unfold buf_get. destruct e; cbn; (destruct (_ <? 0) eqn:?; bool_hyps; [lia|]).
  - rewrite lookup_take_lt by lia. done.
  - rewrite reverse_lookup by (rewrite length_take; lia). rewrite length_take, lookup_take_lt by lia.
    f_equal. lia.
Qed.

(** ** Filling the bank *)

Section Fill.
Context {HW : Hardware} {App : Type}.
Context (e : Endian) (buf : list Z) (Length : Z).
Hypothesis Hbuf : 0 <= Length <= Z.of_nat (length buf).
Hypothesis Hlen : is_u16 Length.
Hypothesis Hbytes : Forall is_u8 buf.
Abbreviation src := (stream_bytes e buf Length).

(** Only the bank of the selected endpoint has changed: it has grown by [bs]. *)
Definition banked (bs : list Z) (w w' : World App) : Prop :=
  selected (tr w') = selected (tr w) /\ bank (tr w') = bank (tr w) ++ bs /\
  packets (tr w') = packets (tr w) /\ USB_DeviceState w' = USB_DeviceState w.

Lemma src_u8 i x : src !! i = Some x -> is_u8 x.
Proof.
  assert (Forall is_u8 src) as H.
  { destruct e; cbn; [|apply Forall_reverse]; by apply Forall_take. }
  apply (Forall_lookup_1 _ _ _ _ H).
Qed.

Lemma ControlW_fill_spec n i rem b w :
  (Z.to_nat rem < n)%nat -> 0 <= i -> 0 <= rem -> i + rem <= Length -> 0 <= b <= 64 ->
  wp true (ControlW_fill n e buf (stream_pos e Length i) rem b)
    (fun r w' => let k := Z.min rem (64 - b) in
       r = (stream_pos e Length (i + k), rem - k, b + k) /\
       banked (take (Z.to_nat k) (drop (Z.to_nat i) src)) w w') w.
Proof.
  revert i rem b w; induction n as [|n IH]; intros i rem b w Hn Hi Hr Hir Hb; [lia|].
  unfold is_u16 in Hlen. cbn [ControlW_fill]. unfold USB_Device_ControlEndpointSize, FIXED_CONTROL_ENDPOINT_SIZE.
  destruct (_ || _) eqn:E.
  - apply wp_ret. apply orb_true_iff in E.
    assert (Z.min rem (64 - b) = 0) as -> by (destruct E; bool_hyps; lia).
    rewrite !Z.add_0_r, Z.sub_0_r. split; [done|]. unfold banked. cbn. by rewrite app_nil_r.
  - bool_hyps. destruct (lookup_lt_is_Some_2 src (Z.to_nat i)) as [x Hx].
    { enough (i < Z.of_nat (length src)) by lia. rewrite stream_bytes_length by done. lia. }
    apply wp_bind. unfold write_byte. rewrite stream_bytes_get, Hx by lia.
    unfold Endpoint_Write_8. apply wp_wr. rewrite stream_pos_move.
    rewrite !u16_small by (unfold is_u16; lia).
    eapply wp_mono; [apply IH; lia|]. cbn beta zeta. intros r w' (-> & Hs & Hk & Hp & Hst).
    replace (Z.min rem (64 - b)) with (Z.min (rem - 1) (64 - (b + 1)) + 1) by lia.
    set (k := Z.min (rem - 1) (64 - (b + 1))) in *. assert (0 <= k) by lia.
    split; [f_equal; [f_equal; [f_equal|]|]; lia|]. cbn in Hs, Hk, Hp, Hst.
    unfold banked. rewrite Hs, Hk, Hp, Hst. repeat split. rewrite <- app_assoc. f_equal.
    rewrite (drop_S _ _ _ Hx), u8_small by (by eapply src_u8).
    replace (Z.to_nat (k + 1)) with (S (Z.to_nat k)) by lia.
    replace (Z.to_nat (i + 1)) with (S (Z.to_nat i)) by lia. done.
Qed.
End Fill.

(** ** The transfer

    A host that takes every packet at once, acknowledges when it has its data and
    leaves the device in peace; [n0] packets were sent before the transfer. *)

Class ControlHost {HW : Hardware} (n0 : nat) (want : Z) : Prop := {
  ch_irq t : hw_irq t = false;
  ch_setup t : selected t = 0 -> tst (u8 (hw_read t UEINTX)) (bit RXSTPI) = false;
  ch_in t : selected t = 0 -> tst (u8 (hw_read t UEINTX)) (bit TXINI) = true;
  ch_out t : selected t = 0 ->
    tst (u8 (hw_read t UEINTX)) (bit RXOUTI) = complete want (map snd (drop n0 (packets t)));
  ch_count t : selected t = 0 -> (length (bank t) <= 64)%nat ->
    u8 (hw_read t UEBCHX) = 0 /\ u8 (hw_read t UEBCLX) = Z.of_nat (length (bank t))
}.

Section Transfer.
Context {HW : Hardware} {App : Type} {EV : DeviceEvents App}.
Context (pre : list (Z * list Z)) (want : Z) {CH : ControlHost (length pre) want}.
Context (e : Endian) (buf : list Z) (Length : Z).
Hypothesis Hbuf : 0 <= Length <= Z.of_nat (length buf).
Hypothesis Hlen : is_u16 Length.
Hypothesis Hbytes : Forall is_u8 buf.
Abbreviation src := (stream_bytes e buf Length).
Abbreviation total := (Z.min Length want).

(** Between two packets: endpoint 0 selected, its bank empty, [ps] sent. *)
Definition between (ps : list (list Z)) (w : World App) : Prop :=
  selected (tr w) = 0 /\ bank (tr w) = [] /\ packets (tr w) = pre ++ map (pair 0) ps /\
  USB_DeviceState w <> DEVICE_STATE_Unattached /\ USB_DeviceState w <> DEVICE_STATE_Suspended.

Lemma between_rd ps r v w : between ps w -> between ps (upd_tr (cons (Rd r v)) w).
Proof. done. Qed.

Lemma between_out ps w : between ps w ->
  tst (u8 (hw_read (tr w) UEINTX)) (bit RXOUTI) = complete want ps.
Proof.
  intros (Hs & _ & Hp & _). rewrite ch_out, Hp, drop_app_length, map_map, map_id by done. done.
Qed.

Lemma check_ok fuel ps w : between ps w ->
  wp true (ControlStream_check fuel true) (fun c w' => c = None /\ between ps w') w.
Proof.
  intros Hb. unfold ControlStream_check, poll_DeviceState. apply wp_bind, wp_bind.
  unfold wp at 1, interrupt_point. rewrite ch_irq, andb_false_r. apply wp_gets.
  destruct Hb as (Hs & Hk & Hp & Hu & Hsu).
  destruct (_ =? _) eqn:?; bool_hyps; [done|]. destruct (_ =? _) eqn:?; bool_hyps; [done|].
  unfold Endpoint_IsSETUPReceived, test_bits. apply wp_bind, wp_bind, wp_rd, wp_ret, wp_ret.
  cbn [reg_trunc]. by rewrite ch_setup.
Qed.

(** Filling the empty bank and sending it, then going on with [K]. *)
Lemma send_packet {B} ps i (K : Z -> Z -> Z -> prog (World App) B) Q w :
  between ps w -> 0 <= i <= total ->
  (forall w', let k := Z.min (total - i) 64 in
     between (ps ++ [take (Z.to_nat k) (drop (Z.to_nat i) src)]) w' ->
     wp true (K (stream_pos e Length (i + k)) (total - i - k) k) Q w') ->
  wp true (BytesInEndpoint ← Endpoint_BytesInEndpoint;
           r ← ControlW_fill (S (Z.to_nat (total - i))) e buf (stream_pos e Length i) (total - i)
                 BytesInEndpoint;
           let '(ds, len, bie) := r in Endpoint_ClearIN;; K ds len bie) Q w.
Proof.
  intros (Hs & Hk & Hp & Hu & Hsu) Hi HK. unfold Endpoint_BytesInEndpoint.
  apply wp_bind, wp_bind, wp_rd, wp_bind, wp_rd, wp_ret. cbn [reg_trunc].
  destruct (ch_count (tr w)) as [-> _]; [done|by rewrite Hk; cbn; lia|]. cbn [tr upd_tr].
  destruct (ch_count (Rd UEBCHX 0 :: tr w)) as [_ ->]; [done|by cbn; rewrite Hk; cbn; lia|].
  cbn [bank]. rewrite Hk. change (Z.lor (Z.shiftl 0 8) (Z.of_nat (length []))) with 0. apply wp_bind.
  eapply wp_mono; [apply (ControlW_fill_spec e buf Length); (done || lia)|].
  cbn beta zeta. intros r w' (-> & Hs' & Hk' & Hp' & Hst). cbn in Hs', Hk', Hp', Hst.
  rewrite Z.sub_0_r, Z.add_0_l in *. unfold Endpoint_ClearIN, clr_bits.
  apply wp_bind, wp_bind, wp_rd, wp_wr. apply HK.
  unfold between. cbn [tr upd_tr selected bank packets reg_trunc USB_DeviceState].
  rewrite ClearIN_commit, Hst, Hs', Hp', Hk', Hs, Hk, Hp, map_app. rewrite <- app_assoc. done.
Qed.

(** All packets so far are full and carry the first [i] bytes. *)
Definition progress (ps : list (list Z)) (i : Z) : Prop :=
  Forall (fun p => length p = 64%nat) ps /\ concat ps = take (Z.to_nat i) src /\ 0 <= i <= total.

Lemma src_length : length src = Z.to_nat Length.
Proof. pose proof (stream_bytes_length e buf Length Hbuf). lia. Qed.

Lemma progress_incomplete ps i : progress ps i -> complete want ps = false -> i < want.
Proof.
  intros (Hf & Hc & Hi). unfold complete. intros [H _]%orb_false_elim. bool_hyps.
  rewrite Hc, length_take, src_length in H. lia.
Qed.

Lemma progress_complete ps i : progress ps i -> complete want ps = true -> want <= i.
Proof.
  intros (Hf & Hc & Hi). unfold complete. intros [H|H]%orb_true_iff.
  - bool_hyps. rewrite Hc, length_take, src_length in H. lia.
  - apply existsb_exists in H as (p & Hin & Hp%Nat.ltb_lt).
    rewrite Forall_forall in Hf. rewrite (Hf p Hin) in Hp. lia.
Qed.

Lemma progress_step ps i k : progress ps i -> 0 <= k <= total - i ->
  concat (ps ++ [take (Z.to_nat k) (drop (Z.to_nat i) src)]) = take (Z.to_nat (i + k)) src.
Proof.
  intros (Hf & Hc & Hi) Hk. rewrite concat_app, Hc. cbn. rewrite app_nil_r, take_take_drop.
  f_equal. lia.
Qed.

Lemma chunk_length i k : 0 <= i -> 0 <= k <= total - i ->
  length (take (Z.to_nat k) (drop (Z.to_nat i) src)) = Z.to_nat k.
Proof. intros Hi Hk. rewrite length_take, length_drop, src_length. lia. Qed.

(** The loop ends with the data packetized. *)
Definition sent_all_data (w : World App) : Prop :=
  exists ps, between ps w /\ packetized (take (Z.to_nat total) src) want ps.

Lemma packetized_full ps : progress ps total -> ps <> [] -> total = want ->
  packetized (take (Z.to_nat total) src) want ps.
Proof.
  intros (Hf & Hc & Hi) Hne Ht. destruct ps as [|p full _] using rev_ind; [done|].
  apply Forall_app in Hf as [Hf Hl]. apply Forall_inv in Hl.
  exists full, p. rewrite length_take, src_length. repeat split; try done; try lia.
  intros ->. done.
Qed.

Lemma packetized_short ps i k : progress ps i -> k = total - i -> 0 <= k < 64 ->
  (k = 0 -> total < want) ->
  packetized (take (Z.to_nat total) src) want
    (ps ++ [take (Z.to_nat k) (drop (Z.to_nat i) src)]).
Proof.
  intros Hp -> Hk Hz. destruct (Hp) as (Hf & Hc & Hi).
  eexists ps, _. split; [done|]. rewrite (progress_step ps i) by (done || lia).
  rewrite chunk_length, length_take, src_length by lia.
  split; [f_equal; lia|]. split; [done|]. split; [lia|]. split; [lia|].
  intros Hn. apply (f_equal length) in Hn. rewrite chunk_length in Hn by lia. cbn in Hn. lia.
Qed.

Lemma ControlW_loop_spec fuel n i ps full w : 0 < want ->
  (Z.to_nat (total - i) + 2 <= n)%nat -> between ps w -> progress ps i ->
  (full = true -> ps <> []) -> (full = false -> ps = [] /\ i < total) ->
  wp true (ControlW_loop fuel n e buf (stream_pos e Length i) (total - i) full)
    (fun r w' => r = None /\ sent_all_data w') w.
Proof.
  intros Hw. revert i ps full w; induction n as [|n IH]; intros i ps full w Hn Hb Hp Hfull Hempty; [lia|].
  destruct (Hp) as (Hf & Hc & Hi).
  assert (((total - i =? 0) && negb full)%bool = false) as E.
  { destruct full; cbn; [apply andb_false_r|]. destruct (Hempty eq_refl).
    rewrite andb_true_r. apply Z.eqb_neq. lia. }
  cbn [ControlW_loop]. rewrite E. apply wp_bind. eapply wp_mono; [by apply check_ok|].
  intros c w1 (-> & Hb1). unfold Endpoint_IsOUTReceived, Endpoint_IsINReady, test_bits.
  apply wp_bind, wp_bind, wp_rd, wp_ret. cbn [reg_trunc]. rewrite (between_out ps) by done.
  destruct (complete want ps) eqn:Ec.
  - apply (progress_complete ps i) in Ec; [|done]. apply wp_ret. split; [done|].
    exists ps. split; [done|]. assert (i = total) as -> by lia. apply packetized_full; [done| |lia].
    destruct full; [by apply Hfull|]. destruct (Hempty eq_refl). lia.
  - apply (progress_incomplete ps i) in Ec; [|done].
    apply wp_bind, wp_bind, wp_rd, wp_ret. cbn [reg_trunc]. rewrite ch_in by apply Hb1.
    apply (send_packet ps); [done|done|]. cbn zeta. intros w2 Hb2.
    set (k := Z.min (total - i) 64) in *.
    unfold USB_Device_ControlEndpointSize, FIXED_CONTROL_ENDPOINT_SIZE.
    replace (total - i - k) with (total - (i + k)) by lia.
    destruct (k =? 64) eqn:Ek; bool_hyps.
    + apply (IH _ (ps ++ [take (Z.to_nat k) (drop (Z.to_nat i) src)])); [lia|done| |by destruct ps|done].
      split; [|split; [|lia]].
      * apply Forall_app. split; [done|]. constructor; [|done]. rewrite chunk_length by lia. lia.
      * apply progress_step; [done|lia].
    + replace (total - (i + k)) with 0 by lia. destruct n; (apply wp_ret; split; [done|]);
        (eexists; split; [exact Hb2|]; apply packetized_short; [done|lia|lia|lia]).
Qed.

Lemma packetized_complete data ps : packetized data want ps -> complete want ps = true.
Proof.
  intros (full & last & -> & Hc & _ & Hl & Hfull & _). unfold complete. rewrite Hc.
  destruct (decide (length last = 64%nat)) as [E|E].
  - rewrite (Hfull E). apply orb_true_iff. left. apply Z.leb_le. lia.
  - apply orb_true_iff. right. apply existsb_exists. exists last. split.
    + apply in_or_app. right. by left.
    + apply Nat.ltb_lt. lia.
Qed.

(** The acknowledgements other than [Endpoint_ClearIN] send nothing. *)
Lemma between_ack ps m w : Z.testbit m TXINI = false -> between ps w ->
  wp true (clr_bits UEINTX m) (fun _ w' => between ps w') w.
Proof.
  intros Hm Hb. unfold clr_bits. apply wp_bind, wp_rd, wp_wr. unfold between, is_commit.
  cbn [tr upd_tr selected bank packets reg_trunc USB_DeviceState]. unfold is_commit.
  rewrite tst_clr_other, ch_in by (done || apply Hb). exact Hb.
Qed.

Lemma Control_W_spec fuel w : 0 < Length -> 0 < want -> wLength (USB_ControlRequest w) = want ->
  (Z.to_nat Length + 2 <= fuel)%nat -> between [] w ->
  wp true (Template_Endpoint_Control_W fuel e buf Length)
    (fun r w' => r = ENDPOINT_RWCSTREAM_NoError /\ sent_all_data w') w.
Proof.
  intros HL Hw Hreq Hf Hb. unfold Template_Endpoint_Control_W. apply wp_bind, wp_gets.
  rewrite Hreq. replace (Length =? 0) with false by (symmetry; apply Z.eqb_neq; lia).
  rewrite andb_false_r. apply wp_bind, wp_ret.
  replace (if want <? Length then want else Length) with (total - 0)
    by (destruct (want <? Length) eqn:?; bool_hyps; lia).
  rewrite stream_pos_start. apply wp_bind.
  eapply wp_mono; [apply (ControlW_loop_spec fuel _ 0 []); try done; try lia|].
  - split; [done|]. split; [done|lia].
  - intros _. split; [done|lia].
  - intros r w1 (-> & ps & Hb1 & Hps). destruct fuel as [|fuel]; [lia|]. cbn [ControlStream_wait].
    unfold Endpoint_IsOUTReceived, test_bits. apply wp_bind, wp_bind, wp_rd, wp_ret.
    cbn [reg_trunc]. rewrite (between_out ps), (packetized_complete _ _ Hps) by done.
    apply wp_ret. split; [done|]. by exists ps.
Qed.

(** A stream that shares its only packet with bytes [hdr] already in the bank. *)
Lemma Control_W_headed fuel hdr (w : World App) : 0 < Length -> 0 < want ->
  wLength (USB_ControlRequest w) = want -> Z.of_nat (length hdr) + total < 64 -> (1 < fuel)%nat ->
  selected (tr w) = 0 -> bank (tr w) = hdr -> packets (tr w) = pre ->
  USB_DeviceState w <> DEVICE_STATE_Unattached -> USB_DeviceState w <> DEVICE_STATE_Suspended ->
  wp true (Template_Endpoint_Control_W fuel e buf Length)
    (fun r w' => r = ENDPOINT_RWCSTREAM_NoError /\ between [hdr ++ take (Z.to_nat total) src] w') w.
Proof.
  intros HL Hw Hreq Hsz Hf Hs Hk Hp Hu Hsu. unfold Template_Endpoint_Control_W. apply wp_bind, wp_gets.
  rewrite Hreq. replace (Length =? 0) with false by (symmetry; apply Z.eqb_neq; lia).
  rewrite andb_false_r. apply wp_bind, wp_ret. rewrite stream_pos_start.
  replace (if want <? Length then want else Length) with total
    by (destruct (want <? Length) eqn:?; bool_hyps; lia).
  destruct fuel as [|[|fuel]]; [lia|lia|]. set (f := S (S fuel)). apply wp_bind.
  change (ControlW_loop f f) with (ControlW_loop (App := App) f (S (S fuel))). cbn [ControlW_loop].
  replace (total =? 0) with false by (symmetry; apply Z.eqb_neq; lia). cbn [andb].
  unfold ControlStream_check, poll_DeviceState. apply wp_bind, wp_bind, wp_bind.
  unfold wp at 1, interrupt_point. rewrite ch_irq, andb_false_r. apply wp_gets.
  rewrite (proj2 (Z.eqb_neq _ _) Hu), (proj2 (Z.eqb_neq _ _) Hsu).
  unfold Endpoint_IsSETUPReceived, Endpoint_IsOUTReceived, Endpoint_IsINReady, test_bits.
  apply wp_bind, wp_bind, wp_rd, wp_ret, wp_ret. cbn [reg_trunc]. rewrite ch_setup by done.
  apply wp_bind, wp_bind, wp_rd, wp_ret. cbn [reg_trunc]. rewrite ch_out by done.
  cbn [tr upd_tr packets]. rewrite Hp, drop_all. cbn [map].
  replace (complete want []) with false by (unfold complete; cbn; rewrite orb_false_r; symmetry; apply Z.leb_gt; lia).
  apply wp_bind, wp_bind, wp_rd, wp_ret. cbn [reg_trunc]. rewrite ch_in by done.
  unfold Endpoint_BytesInEndpoint. apply wp_bind, wp_bind, wp_rd, wp_bind, wp_rd, wp_ret. cbn [reg_trunc tr upd_tr].
  match goal with |- context [u8 (hw_read ?t UEBCHX)] =>
    destruct (ch_count t) as [-> _]; [done|cbn; rewrite Hk; lia|] end.
  match goal with |- context [u8 (hw_read ?t UEBCLX)] =>
    destruct (ch_count t) as [_ ->]; [done|cbn; rewrite Hk; lia|] end.
  cbn [bank]. rewrite Hk. change (Z.shiftl 0 8) with 0. rewrite Z.lor_0_l. apply wp_bind.
  eapply wp_mono; [apply (ControlW_fill_spec e buf Length); (done || lia)|].
  cbn beta zeta. intros r w1 (-> & Hs1 & Hk1 & Hp1 & Hst1). cbn in Hs1, Hk1, Hp1, Hst1.
  replace (Z.min total (64 - Z.of_nat (length hdr))) with total in * by lia.
  unfold Endpoint_ClearIN, clr_bits. apply wp_bind, wp_bind, wp_rd, wp_wr. cbn [reg_trunc].
  unfold USB_Device_ControlEndpointSize, FIXED_CONTROL_ENDPOINT_SIZE.
  replace (Z.of_nat (length hdr) + total =? 64) with false by (symmetry; apply Z.eqb_neq; lia).
  rewrite Z.sub_diag. cbn [Z.eqb negb andb]. apply wp_ret. set (w2 := upd_tr _ (upd_tr _ w1)).
  assert (between [hdr ++ take (Z.to_nat total) src] w2) as Hb2.
  { unfold between, w2. cbn [tr upd_tr selected bank packets USB_DeviceState].
    rewrite ClearIN_commit, Hst1, Hs1, Hp1, Hk1, Hs, Hk, Hp. done. }
  subst f. cbn [ControlStream_wait]. unfold Endpoint_IsOUTReceived, test_bits.
  apply wp_bind, wp_bind, wp_rd, wp_ret. cbn [reg_trunc]. rewrite (between_out _ w2) by done.
  unfold complete. cbn [concat existsb]. rewrite app_nil_r, length_app, length_take, src_length.
  rewrite (proj2 (Nat.ltb_lt _ 64)) by lia. rewrite orb_true_r. by apply wp_ret.
Qed.
End Transfer.

Section GetDescriptor.
Context {HW : Hardware} {App : Type} {EV : DeviceEvents App} {RQ : DeviceRequests App}.
Context (pre : list (Z * list Z)) (want : Z) {CH : ControlHost (length pre) want}.

Lemma GetDescriptor_spec fuel (w : World App) size d :
  let req := USB_ControlRequest w in
  wValue req <> 0x03DC -> wLength req = want -> 0 < want ->
  CALLBACK_USB_GetDescriptor (wValue req) (wIndex req) = (size, Some d) ->
  0 < size <= Z.of_nat (length d) -> is_u16 size -> Forall is_u8 d ->
  (Z.to_nat size + 2 <= fuel)%nat -> between pre [] w ->
  wp true (USB_Device_GetDescriptor fuel) (fun _ w' => exists ps, between pre ps w' /\
    packetized (take (Z.to_nat (Z.min size want)) d) want ps) w.
Proof.
  intros req Hv Hl Hw Hd Hs Hu Hb Hf Hbt. unfold USB_Device_GetDescriptor. apply wp_bind, wp_gets.
  fold req. change (Z.lor (Z.shiftl DTYPE_String 8) USE_INTERNAL_SERIAL) with 0x03DC.
  rewrite (proj2 (Z.eqb_neq _ _) Hv), Hd. unfold NO_DESCRIPTOR.
  rewrite (proj2 (Z.eqb_neq size 0)) by lia.
  apply wp_bind. eapply wp_mono; [apply wp_conj; [by apply (between_ack pre want [])|]|].
  { instantiate (1 := fun _ w' => USB_ControlRequest w' = req). done. }
  intros [] w1 [Hb1 Hr1]. apply wp_bind, wp_bind.
  eapply wp_mono; [apply (Control_W_spec pre want LE d size); (done || lia || by rewrite Hr1)|].
  intros r w2 (-> & ps & Hb2 & Hps). apply wp_ret.
  eapply wp_mono; [by apply (between_ack pre want ps)|]. intros [] w3 Hb3. exists ps.
  split; [done|]. cbn in Hps. rewrite take_take in Hps.
  replace (Z.to_nat (Z.min size want) `min` Z.to_nat size)%nat
    with (Z.to_nat (Z.min size want)) in Hps by lia. done.
Qed.
End GetDescriptor.

(** ** Theorems *)

(** C12: A control write terminates without error against a host that takes its
    packets: what reaches the bus is the first min(Length, wLength) bytes of the
    stream (from either end of the buffer), split into full 64-byte packets and a
    short or empty last one exactly when the host asked for more. *)
Theorem Control_W_packets {HW : Hardware} {App} {EV : DeviceEvents App} fuel e buf Length
    (w : World App) :
  ControlHost (length (packets (tr w))) (wLength (USB_ControlRequest w)) ->
  0 < Length <= Z.of_nat (length buf) -> is_u16 Length -> Forall is_u8 buf ->
  0 < wLength (USB_ControlRequest w) -> (Z.to_nat Length + 2 <= fuel)%nat ->
  selected (tr w) = 0 -> bank (tr w) = [] ->
  USB_DeviceState w <> DEVICE_STATE_Unattached -> USB_DeviceState w <> DEVICE_STATE_Suspended ->
  exists w' ps, Template_Endpoint_Control_W fuel e buf Length w = Ret ENDPOINT_RWCSTREAM_NoError w' /\
    packets (tr w') = packets (tr w) ++ map (pair 0) ps /\
    packetized (take (Z.to_nat (Z.min Length (wLength (USB_ControlRequest w))))
                  (stream_bytes e buf Length)) (wLength (USB_ControlRequest w)) ps.
Proof.
  intros CH HL Hu Hb Hw Hf Hs Hk Hst1 Hst2.
  destruct (wp_total_run _ _ _ (Control_W_spec (packets (tr w)) (wLength (USB_ControlRequest w))
    e buf Length ltac:(lia) Hu Hb fuel w ltac:(lia) Hw eq_refl Hf
    ltac:(unfold between; cbn; by rewrite app_nil_r))) as (r & w' & Hrun & -> & ps & Hbt & Hps).
  exists w', ps. repeat split; [done|apply Hbt|done].
Qed.

(** A host that wants [want] bytes after [n0] packets. *)
Definition host_hw (n0 : nat) (want : Z) : Hardware :=
  {| hw_read := fun t r =>
       match r with
       | UEINTX => Z.lor (bit TXINI)
                     (if complete want (map snd (drop n0 (packets t))) then bit RXOUTI else 0)
       | UEBCLX => Z.of_nat (length (bank t))
       | _ => 0
       end;
     hw_irq := fun _ => false; hw_signature := fun _ => 0 |}.

Lemma host_control n0 want : ControlHost (HW := host_hw n0 want) n0 want.
Proof.
  split; cbn -[complete]; intros t; try done; intros _; try by destruct (complete _ _).
  intros Hb. split; [done|]. apply u8_small. unfold is_u8. lia.
Qed.

(** A configured device serving a request for [n] bytes. *)
Definition request_world {App} (a : App) (req : USB_Request_Header_t) : World App :=
  mkWorld [] true DEVICE_STATE_Configured req 1 false false true a.

Lemma Control_W_packets_witness :
  exists w' ps,
    Template_Endpoint_Control_W (HW := host_hw 0 200) (EV := no_events unit) 200 LE (replicate 128 7) 128
      (request_world tt (mkRequest 0x80 6 0x100 0 200)) = Ret ENDPOINT_RWCSTREAM_NoError w' /\
    packets (tr w') = [] ++ map (pair 0) ps /\
    packetized (take 128 (stream_bytes LE (replicate 128 7) 128)) 200 ps.
Proof.
  apply (Control_W_packets (HW := host_hw 0 200) (EV := no_events unit) 200 LE (replicate 128 7) 128
           (request_world tt (mkRequest 0x80 6 0x100 0 200))); try reflexivity; try discriminate.
  - apply host_control.
  - vm_compute. split; [reflexivity|discriminate].
  - vm_compute. split; [discriminate|reflexivity].
  - apply Forall_replicate. vm_compute. split; [discriminate|reflexivity].
  - vm_compute. lia.
Defined.
