(* ===== verification/ControlReceive.v ===== *)
(** The data stage of a control write: what Template_Endpoint_Control_R.c stores
    in the caller's buffer, against a host that sends its packets in its own time. *)

From stdpp Require Import base tactics option list numbers.
From Stdlib Require Import ZArith Lia.
From S2P Require Import Prelude Hardware Endpoint USBController ControlStream ControlTransfer.

(** The OUT bank of the control endpoint: [out] is the packets on their way, the
    unread part of the current one first; RXOUTI rises within [K] polls of the
    last acknowledgement.  The byte counter gives the unread bytes, reading the
    FIFO removes one, and clearing RXOUTI, when it is set, releases the bank. *)
Class ControlSender {HW : Hardware} (K : nat) : Type := {
  out : trace -> list (list Z);
  wait : trace -> nat;
  cs_irq t : hw_irq t = false;
  cs_setup t : selected t = 0 -> tst (u8 (hw_read t UEINTX)) (bit RXSTPI) = false;
  cs_in t : selected t = 0 -> tst (u8 (hw_read t UEINTX)) (bit TXINI) = true;
  cs_flag t : selected t = 0 -> tst (u8 (hw_read t UEINTX)) (bit RXOUTI)
    = bool_decide (wait t = 0%nat /\ out t <> []);
  cs_poll t v : out (Rd UEINTX v :: t) = out t /\ wait (Rd UEINTX v :: t) = pred (wait t);
  cs_count t p ps : selected t = 0 -> out t = p :: ps ->
    u8 (hw_read t UEBCHX) = 0 /\ u8 (hw_read t UEBCLX) = Z.of_nat (length p);
  cs_peek r t v : r = UEBCHX \/ r = UEBCLX -> out (Rd r v :: t) = out t /\ wait (Rd r v :: t) = wait t;
  cs_data t b p ps v : selected t = 0 -> out t = (b :: p) :: ps ->
    u8 (hw_read t UEDATX) = b /\ out (Rd UEDATX v :: t) = p :: ps /\ wait (Rd UEDATX v :: t) = wait t;
  cs_ack t v : selected t = 0 -> wait t = 0%nat -> tst v (bit RXOUTI) = false ->
    out (Wr UEINTX v :: t) = tail (out t) /\ (wait (Wr UEINTX v :: t) <= K)%nat;
  cs_keep t v : selected t = 0 -> wait t <> 0%nat \/ tst v (bit RXOUTI) = true ->
    out (Wr UEINTX v :: t) = out t /\ wait (Wr UEINTX v :: t) = wait t
}.

(** [buf] is [buf0] with the first [i] bytes of [data] stored by a stream of
    length [Length]. *)
Definition stored (e : Endian) (Length : Z) (buf0 data : list Z) (i : Z) (buf : list Z) : Prop :=
  length buf = length buf0 /\ drop (Z.to_nat Length) buf = drop (Z.to_nat Length) buf0 /\
  forall j, 0 <= j < i -> buf_get buf (stream_pos e Length j) = data !! Z.to_nat j.

Lemma stored_start e Length buf data : stored e Length buf data 0 buf.
Proof. repeat split. intros j Hj. lia. Qed.

Lemma stored_next e Length buf0 data i buf b :
  0 <= i < Length -> Length <= Z.of_nat (length buf0) -> data !! Z.to_nat i = Some b ->
  stored e Length buf0 data i buf ->
  exists buf', buf_set buf (stream_pos e Length i) b = Some buf' /\
    stored e Length buf0 data (i + 1) buf'.
Proof.
  intros Hi HL Hb (Hl & Hd & Hj). unfold buf_set.
  assert (0 <= stream_pos e Length i < Length) as Hp by (destruct e; cbn; lia).
  replace (_ && _) with true by (symmetry; apply andb_true_iff; split; [apply Z.leb_le|apply Z.ltb_lt]; lia).
  eexists. split; [done|]. repeat split; [by rewrite length_insert| |].
  - rewrite drop_insert_lt by lia. done.
  - intros j Hji. unfold buf_get. assert (0 <= stream_pos e Length j) by (destruct e; cbn; lia).
    rewrite (proj2 (Z.ltb_ge _ 0)) by done. destruct (decide (j = i)) as [->|].
    + rewrite list_lookup_insert_eq by lia. done.
    + rewrite list_lookup_insert_ne by (destruct e; cbn in *; lia).
      rewrite <- Hj by lia. unfold buf_get. by rewrite (proj2 (Z.ltb_ge _ 0)).
Qed.

Lemma stored_all e Length buf0 data buf : 0 <= Length <= Z.of_nat (length buf0) ->
  Length <= Z.of_nat (length data) -> stored e Length buf0 data Length buf ->
  stream_bytes e buf Length = take (Z.to_nat Length) data.
Proof.
  intros HL Hd (Hl & _ & Hj). apply list_eq. intros j.
  destruct (decide (j < Z.to_nat Length)%nat).
  - rewrite lookup_take_lt by lia. specialize (Hj (Z.of_nat j) ltac:(lia)).
    rewrite stream_bytes_get, Nat2Z.id in Hj by (rewrite ?Hl; lia). done.
  - rewrite !lookup_ge_None_2; [done|..].
    + rewrite length_take. lia.
    + pose proof (stream_bytes_length e buf Length). rewrite Hl in *. lia.
Qed.

Section Receive.
Context {HW : Hardware} {App : Type} {EV : DeviceEvents App} {K : nat} {CS : ControlSender K}.
Context (e : Endian) (Length : Z) (buf0 data : list Z).
Hypothesis Hbuf : 0 <= Length <= Z.of_nat (length buf0).
Hypothesis Hlen : is_u16 Length.
Hypothesis Hdata : Length <= Z.of_nat (length data).

(** The device is up and serving its control endpoint. *)
Definition serving (w : World App) : Prop :=
  selected (tr w) = 0 /\ USB_DeviceState w <> DEVICE_STATE_Unattached /\
  USB_DeviceState w <> DEVICE_STATE_Suspended.

(** The bytes from the [i]-th on are still to come. *)
Definition coming (i : Z) (w : World App) : Prop :=
  serving w /\ concat (out (tr w)) = drop (Z.to_nat i) data.

Lemma BytesInEndpoint_count w p ps (Q : Z -> World App -> Prop) :
  serving w -> out (tr w) = p :: ps -> wait (tr w) = 0%nat ->
  (forall w', serving w' -> out (tr w') = p :: ps -> wait (tr w') = 0%nat ->
     Q (Z.of_nat (length p)) w') ->
  wp true Endpoint_BytesInEndpoint Q w.
Proof.
  intros Hs Ho Hw HQ. unfold Endpoint_BytesInEndpoint. apply wp_bind, wp_rd, wp_bind, wp_rd, wp_ret.
  cbn [reg_trunc]. destruct (cs_count (tr w) p ps) as [-> _]; [apply Hs|done|].
  destruct (cs_peek UEBCHX (tr w) 0) as [Ho1 Hw1]; [auto|].
  destruct (cs_count (Rd UEBCHX 0 :: tr w) p ps) as [_ Hl]; [apply Hs|congruence|].
  cbn [tr upd_tr]. rewrite Hl.
  destruct (cs_peek UEBCLX (Rd UEBCHX 0 :: tr w) (Z.of_nat (length p))) as [Ho2 Hw2]; [auto|].
  change (Z.lor (Z.shiftl 0 8) (Z.of_nat (length p))) with (Z.of_nat (length p)).
  apply HQ; [exact Hs|cbn; congruence..].
Qed.

Lemma ControlR_drain_spec n i buf p ps w :
  (Z.to_nat (Length - i) < n)%nat -> 0 <= i <= Length -> stored e Length buf0 data i buf ->
  coming i w -> out (tr w) = p :: ps -> wait (tr w) = 0%nat ->
  wp true (ControlR_drain n e buf (stream_pos e Length i) (Length - i))
    (fun r w' => exists buf' k, let i' := i + Z.of_nat k in
       r = (buf', stream_pos e Length i', Length - i') /\ i' <= Length /\
       stored e Length buf0 data i' buf' /\ serving w' /\ out (tr w') = drop k p :: ps /\ wait (tr w') = 0%nat /\
       (i' < Length -> drop k p = []) /\ concat (drop k p :: ps) = drop (Z.to_nat i') data) w.
Proof.
  revert i buf p w; induction n as [|n IH]; intros i buf p w Hn Hi Hst [Hs Hc] Ho Hw; [lia|].
  unfold is_u16 in Hlen. cbn [ControlR_drain]. destruct (Length - i =? 0) eqn:E; bool_hyps.
  { apply wp_ret. exists buf, 0%nat. rewrite !Z.add_0_r, drop_0. rewrite Ho in Hc.
    repeat split; try done; try apply Hst; try apply Hs; (lia || (intros; exfalso; lia)). }
  apply wp_bind. eapply BytesInEndpoint_count; [done..|]. intros w1 Hs1 Ho1 Hw1.
  destruct p as [|b p].
  { apply wp_ret. exists buf, 0%nat. rewrite !Z.add_0_r. rewrite Ho in Hc.
    repeat split; try done; try apply Hst; try apply Hs1; (lia || intros; lia). }
  cbn [length Z.of_nat Z.eqb Pos.of_succ_nat]. apply wp_bind. unfold read_byte, Endpoint_Read_8.
  apply wp_bind, wp_rd. cbn [reg_trunc].
  destruct (cs_data (tr w1) b p ps b) as (-> & Ho2 & Hw2); [apply Hs1|done|].
  rewrite Ho in Hc. cbn in Hc.
  destruct (stored_next e Length buf0 data i buf b) as (buf' & Hset & Hst'); try done; try lia.
  { rewrite <- (Nat.add_0_r (Z.to_nat i)), <- lookup_drop, <- Hc. done. }
  rewrite Hset. apply wp_ret. rewrite stream_pos_move, u16_small by (unfold is_u16; lia).
  replace (Length - i - 1) with (Length - (i + 1)) by lia.
  assert (concat (p :: ps) = drop (Z.to_nat (i + 1)) data) as Hc'.
  { replace (Z.to_nat (i + 1)) with (Z.to_nat i + 1)%nat by lia. rewrite <- drop_drop, <- Hc. done. }
  eapply wp_mono; [apply (IH (i + 1) buf' p); try done; try lia|].
  - split; [exact Hs1|]. cbn [tr upd_tr]. by rewrite Ho2.
  - cbn [tr upd_tr]. congruence.
  - intros r w2 (buf2 & k & -> & H). exists buf2, (S k). cbn zeta in *.
    replace (i + Z.of_nat (S k)) with (i + 1 + Z.of_nat k) by lia. done.
Qed.

Lemma check_serving fuel b w : serving w ->
  wp true (ControlStream_check fuel b) (fun c w' => c = None /\ serving w' /\
    out (tr w') = out (tr w) /\ wait (tr w') = (if b then pred (wait (tr w)) else wait (tr w))) w.
Proof.
  intros Hs. unfold ControlStream_check, poll_DeviceState. apply wp_bind, wp_bind.
  unfold wp at 1, interrupt_point. rewrite cs_irq, andb_false_r. apply wp_gets.
  destruct (Hs) as (Hsel & Hu & Hsu).
  destruct (_ =? _) eqn:?; bool_hyps; [done|]. destruct (_ =? _) eqn:?; bool_hyps; [done|].
  destruct b; [|done].
  unfold Endpoint_IsSETUPReceived, test_bits. apply wp_bind, wp_bind, wp_rd, wp_ret, wp_ret.
  cbn [reg_trunc]. rewrite cs_setup by done. split; [done|]. split; [exact Hs|]. apply cs_poll.
Qed.

(** Acknowledging the packet releases the bank. *)
Lemma ClearOUT_ack w : serving w -> wait (tr w) = 0%nat ->
  wp true (Endpoint_ClearOUT (App := App)) (fun _ w' => serving w' /\ out (tr w') = tail (out (tr w)) /\
    (wait (tr w') <= K)%nat) w.
Proof.
  intros Hs Hw. unfold Endpoint_ClearOUT, clr_bits. apply wp_bind, wp_rd, wp_wr.
  split; [exact Hs|]. cbn [tr upd_tr reg_trunc].
  set (v := u8 (hw_read (tr w) UEINTX)). destruct (cs_poll (tr w) v) as [Ho Hw1].
  rewrite <- Ho. apply cs_ack; [exact (proj1 Hs)|by rewrite Hw1, Hw|]. by apply tst_clr.
Qed.

(** The polls and packets that are left. *)
Definition effort (w : World App) : nat := wait (tr w) + length (out (tr w)) * (K + 1).

Lemma ControlR_loop_spec fuel n i buf w :
  (effort w < n)%nat -> 0 <= i <= Length -> stored e Length buf0 data i buf -> coming i w ->
  wp true (ControlR_loop fuel n e buf (stream_pos e Length i) (Length - i))
    (fun r w' => exists buf', r = (buf', None) /\ stored e Length buf0 data Length buf' /\ serving w') w.
Proof.
  revert i buf w; induction n as [|n IH]; intros i buf w Hn Hi Hst [Hs Hc]; [lia|].
  cbn [ControlR_loop]. destruct (Length - i =? 0) eqn:E; bool_hyps.
  { apply wp_ret. exists buf. assert (i = Length) as -> by lia. done. }
  apply wp_bind. eapply wp_mono; [by apply check_serving|]. intros c w1 (-> & Hs1 & Ho1 & Hw1).
  unfold Endpoint_IsOUTReceived, test_bits. apply wp_bind, wp_bind, wp_rd, wp_ret.
  cbn [reg_trunc]. rewrite cs_flag by apply Hs1. set (v := u8 _).
  destruct (cs_poll (tr w1) v) as [Ho2 Hw2].
  destruct (out (tr w)) as [|p ps] eqn:Ho.
  { apply (f_equal length) in Hc. rewrite length_drop in Hc. cbn in Hc. lia. }
  unfold effort in Hn. rewrite Ho in Hn. cbn [length] in Hn. case_bool_decide as Hready.
  - apply wp_bind. eapply wp_mono; [apply (ControlR_drain_spec _ i buf p ps); try done; try lia|].
    + split; [exact Hs1|]. cbn [tr upd_tr]. by rewrite Ho2, Ho1.
    + cbn [tr upd_tr]. congruence.
    + cbn [tr upd_tr]. rewrite Hw2. destruct Hready as [-> _]. done.
    + intros r w2 (buf' & k & -> & Hle & Hst' & Hs2 & Hout & Hwt & Hend & Hrest). cbn zeta in *.
      apply wp_bind. eapply wp_mono; [by apply ClearOUT_ack|]. intros [] w3 (Hs3 & Ho3 & Hw3).
      rewrite Hout in Ho3. cbn in Ho3.
      destruct (decide (i + Z.of_nat k = Length)) as [Heq|Hne].
      * rewrite Heq in *; rewrite Z.sub_diag. destruct n; (apply wp_ret; by exists buf').
      * apply IH; [unfold effort; rewrite Ho3; lia|lia|done|]. split; [done|].
        rewrite Ho3. rewrite Hend in Hrest by lia. done.
  - assert (wait (tr w1) <> 0%nat) by (intros H0; apply Hready; split; [done|by rewrite Ho1]).
    apply IH; [|lia|done|].
    + unfold effort. cbn [tr upd_tr]. rewrite Ho2, Hw2, Ho1. cbn [length]. lia.
    + split; [exact Hs1|]. cbn [tr upd_tr]. by rewrite Ho2, Ho1.
Qed.
End Receive.

(** C15: A control write data stage terminates without error against a host that
    sends its packets in its own time, and stores the data faithfully: the first
    [Length] bytes the host sent, however they are split into packets, are in the
    buffer in stream order (reversed for the big-endian variant), and nothing
    beyond them is touched. *)
Theorem Control_R_receives {HW : Hardware} {App} {EV : DeviceEvents App} {K : nat}
    {CS : ControlSender K} fuel e buf Length (w : World App) :
  0 < Length <= Z.of_nat (length buf) -> is_u16 Length ->
  Length <= Z.of_nat (length (concat (out (tr w)))) ->
  (wait (tr w) + length (out (tr w)) * (K + 1) < fuel)%nat ->
  selected (tr w) = 0 -> USB_DeviceState w <> DEVICE_STATE_Unattached ->
  USB_DeviceState w <> DEVICE_STATE_Suspended ->
  exists buf' w', Template_Endpoint_Control_R fuel e buf Length w
      = Ret (buf', ENDPOINT_RWCSTREAM_NoError) w' /\
    stream_bytes e buf' Length = take (Z.to_nat Length) (concat (out (tr w))) /\
    length buf' = length buf /\ drop (Z.to_nat Length) buf' = drop (Z.to_nat Length) buf.
Proof.
  intros HL Hu Hd Hf Hsel Hun Hsu. set (data := concat (out (tr w))) in *.
  destruct (wp_total_run (Template_Endpoint_Control_R fuel e buf Length)
    (fun r _ => exists buf', r = (buf', ENDPOINT_RWCSTREAM_NoError) /\
       stored e Length buf data Length buf') w) as (r & w' & Hrun & buf' & -> & Hst).
  - unfold Template_Endpoint_Control_R. rewrite stream_pos_start, (proj2 (Z.eqb_neq Length 0)) by lia.
    apply wp_bind, wp_ret, wp_bind. rewrite <- (Z.sub_0_r Length) at 2.
    eapply wp_mono; [apply (ControlR_loop_spec e Length buf data); try done; try lia|].
    + apply stored_start.
    + intros r w1 (buf' & -> & Hst & Hs1). apply wp_bind. destruct fuel as [|fuel]; [lia|].
      cbn [ControlStream_wait]. unfold Endpoint_IsINReady, test_bits.
      apply wp_bind, wp_bind, wp_rd, wp_ret. cbn [reg_trunc]. rewrite cs_in by apply Hs1.
      apply wp_ret, wp_ret. by exists buf'.
  - exists buf', w'. destruct (Hst) as (Hl & Hdr & _). split; [done|].
    split; [apply (stored_all e Length buf); (done || lia)|done].
Qed.

(** A host that has sent [ps] and is always ahead of the device. *)
Fixpoint sender_out (ps : list (list Z)) (t : trace) : list (list Z) :=
  match t with
  | [] => ps
  | Rd UEDATX _ :: t => match sender_out ps t with (_ :: p) :: ps => p :: ps | l => l end
  | Wr UEINTX v :: t => if tst v (bit RXOUTI) then sender_out ps t else tail (sender_out ps t)
  | _ :: t => sender_out ps t
  end.

Definition sender_hw (ps : list (list Z)) : Hardware :=
  {| hw_read := fun t r => match r with
       | UEINTX => Z.lor (bit TXINI) (match sender_out ps t with [] => 0 | _ => bit RXOUTI end)
       | UEBCLX => Z.of_nat (length (hd [] (sender_out ps t)))
       | UEDATX => hd 0 (hd [] (sender_out ps t))
       | _ => 0
       end;
     hw_irq := fun _ => false; hw_signature := fun _ => 0 |}.

Lemma sender_packets ps t : Forall (fun p => (length p <= 64)%nat /\ Forall is_u8 p) ps ->
  Forall (fun p => (length p <= 64)%nat /\ Forall is_u8 p) (sender_out ps t).
Proof.
  intros H. induction t as [|[[]|[]] t IH]; cbn; try done.
  - destruct (sender_out ps t) as [|[|b p] l]; try done. inversion IH as [|? ? [Hl Hu] Hr]; subst.
    constructor; [|done]. cbn in Hl. split; [lia|by inversion Hu].
  - destruct (tst _ _); [done|]. by destruct IH.
Qed.

Definition sender_control ps (H : Forall (fun p => (length p <= 64)%nat /\ Forall is_u8 p) ps) :
  ControlSender (HW := sender_hw ps) 0.
Proof.
  refine {| out := sender_out ps; wait := fun _ => 0%nat |}; cbn [hw_read sender_hw hw_irq]; try done.
  - intros t _. by destruct (sender_out ps t).
  - intros t _. by destruct (sender_out ps t).
  - intros t _. by destruct (sender_out ps t).
  - intros t p l _ Ho. pose proof (sender_packets ps t H) as Hp. rewrite Ho in *. inversion Hp; subst.
    split; [done|]. apply u8_small. unfold is_u8. cbn. lia.
  - intros r t v [-> | ->]; done.
  - intros t b p l v _ Ho. pose proof (sender_packets ps t H) as Hp. cbn. rewrite Ho in *.
    inversion Hp as [|? ? [_ Hu]]; subst. inversion Hu; subst. by rewrite u8_small.
  - intros t v _ _ Hv. cbn. by rewrite Hv.
  - intros t v _ [?|Hv]; [done|]. cbn. by rewrite Hv.
Defined.

Lemma Control_R_receives_witness :
  exists buf' w',
    Template_Endpoint_Control_R (HW := sender_hw [[1; 2; 3; 4]; [5; 6; 7; 8]]) (EV := no_events unit)
      5 BE (replicate 8 0) 7 (request_world tt (mkRequest 0x21 9 0 0 8))
      = Ret (buf', ENDPOINT_RWCSTREAM_NoError) w' /\
    stream_bytes BE buf' 7 = take 7 [1; 2; 3; 4; 5; 6; 7; 8] /\
    length buf' = length (replicate 8 0) /\ drop 7 buf' = drop 7 (replicate 8 0).
Proof.
  assert (Forall (fun p => (length p <= 64)%nat /\ Forall is_u8 p) [[1; 2; 3; 4]; [5; 6; 7; 8]]) as H
    by (repeat constructor; cbn; try lia; done).
  apply (Control_R_receives (HW := sender_hw [[1; 2; 3; 4]; [5; 6; 7; 8]]) (EV := no_events unit)
           (CS := sender_control _ H) 5 BE (replicate 8 0) 7
           (request_world tt (mkRequest 0x21 9 0 0 8))); cbn; try lia; try done.
Defined.
