(* ===== verification/ControlRequest.v ===== *)
(** The control endpoint between the stages of a request: register accesses that
    acknowledge packets, fill the bank and send it, against a host that takes every
    packet at once. *)

From stdpp Require Import base tactics option list numbers.
From Stdlib Require Import ZArith Lia.
From S2P Require Import Prelude Hardware Endpoint USBController ControlStream DeviceStandardReq.

(** The value last written to a register. *)
Fixpoint reg_val (r : Reg) (t : trace) : Z :=
  match t with
  | [] => 0
  | Wr r' v :: t => if decide (r = r') then v else reg_val r t
  | Rd _ _ :: t => reg_val r t
  end.

(** A host that takes the packets of endpoint 0 at once, and no interrupt. *)
Class ReadyHost {HW : Hardware} : Prop := {
  rh_irq t : hw_irq t = false;
  rh_in t : selected t = 0 -> tst (u8 (hw_read t UEINTX)) (bit TXINI) = true
}.

Section Ctl.
Context {App : Type}.
Implicit Types w : World App.

(** Since [w0] only registers were accessed, endpoint 0 is selected, the packets
    [ps] were sent, [b] is in the bank, and no register was written but UEINTX and
    the FIFO. *)
Definition ctl (ps : list (list Z)) (b : list Z) (w0 w : World App) : Prop :=
  (exists ext, w = upd_tr (fun t => ext ++ t) w0) /\
  selected (tr w) = 0 /\ bank (tr w) = b /\
  packets (tr w) = packets (tr w0) ++ map (pair 0) ps /\
  forall r, r <> UEINTX -> r <> UEDATX -> reg_val r (tr w) = reg_val r (tr w0).

Lemma ctl_start w : selected (tr w) = 0 -> ctl [] (bank (tr w)) w w.
Proof.
  intros Hs. split; [by exists []; destruct w|]. cbn. by rewrite app_nil_r.
Qed.

Lemma ctl_globals ps b w0 w : ctl ps b w0 w ->
  USB_DeviceState w = USB_DeviceState w0 /\
  USB_Device_ConfigurationNumber w = USB_Device_ConfigurationNumber w0 /\
  USB_ControlRequest w = USB_ControlRequest w0 /\
  USB_Device_RemoteWakeupEnabled w = USB_Device_RemoteWakeupEnabled w0 /\
  USB_Device_CurrentlySelfPowered w = USB_Device_CurrentlySelfPowered w0 /\
  app w = app w0.
Proof. intros [[ext ->] _]. done. Qed.

Lemma ctl_app ps b w0 w : ctl ps b w0 w -> app w = app w0.
Proof. by intros [[ext ->] _]. Qed.
Lemma ctl_request ps b w0 w : ctl ps b w0 w -> USB_ControlRequest w = USB_ControlRequest w0.
Proof. by intros [[ext ->] _]. Qed.

Lemma ctl_upd_app f ps b w0 w : ctl ps b w0 w -> ctl ps b (upd_app f w0) (upd_app f w).
Proof. intros ([ext ->] & H). split; [by exists ext|done]. Qed.

Lemma ctl_rd r v ps b w0 w : ctl ps b w0 w -> ctl ps b w0 (upd_tr (cons (Rd r v)) w).
Proof. intros ([ext ->] & H). split; [by exists (Rd r v :: ext)|done]. Qed.
End Ctl.

(** Runs a step on the control endpoint by its lemma below. *)
Tactic Notation "ctl_step" uconstr(L) hyp(H) :=
  eapply wp_mono; [eapply L; [..|exact H]; first [done | lia | idtac]|].

Section Steps.
Context {HW : Hardware} {RH : ReadyHost} {App : Type} {EV : DeviceEvents App}.
Implicit Types w : World App.

(** Acknowledgements other than [Endpoint_ClearIN] send nothing. *)
Lemma ack_ctl m ps b w0 w : Z.testbit m TXINI = false -> ctl ps b w0 w ->
  wp true (clr_bits UEINTX m) (fun _ => ctl ps b w0) w.
Proof.
  intros Hm ([ext ->] & Hs & Hb & Hp & Hr). unfold clr_bits. apply wp_bind, wp_rd, wp_wr. unfold ctl.
  cbn [tr upd_tr selected bank packets reg_trunc]. unfold is_commit.
  rewrite tst_clr_other, rh_in by (done || lia). cbn [negb andb].
  split; [eexists (_ :: _ :: ext); done|]. repeat split; [done..|].
  intros r H1 H2. cbn. rewrite decide_False by done. by apply Hr.
Qed.

Lemma ClearSETUP_ctl ps b w0 w : ctl ps b w0 w -> wp true Endpoint_ClearSETUP (fun _ => ctl ps b w0) w.
Proof. by apply ack_ctl. Qed.

Lemma ClearOUT_ctl ps b w0 w : ctl ps b w0 w -> wp true Endpoint_ClearOUT (fun _ => ctl ps b w0) w.
Proof. by apply ack_ctl. Qed.

Lemma ClearIN_ctl ps b w0 w : ctl ps b w0 w ->
  wp true Endpoint_ClearIN (fun _ => ctl (ps ++ [b]) [] w0) w.
Proof.
  intros ([ext ->] & Hs & Hb & Hp & Hr). unfold Endpoint_ClearIN, clr_bits.
  apply wp_bind, wp_rd, wp_wr. unfold ctl. cbn [tr upd_tr selected bank packets reg_trunc] in *.
  rewrite ClearIN_commit, Hs, Hb, Hp, map_app, app_assoc.
  split; [eexists (_ :: _ :: ext); done|]. repeat split. intros r H1 H2. cbn.
  rewrite decide_False by done. by apply Hr.
Qed.

Lemma Write_8_ctl v ps b w0 w : is_u8 v -> ctl ps b w0 w ->
  wp true (Endpoint_Write_8 v) (fun _ => ctl ps (b ++ [v]) w0) w.
Proof.
  intros Hv ([ext ->] & Hs & Hb & Hp & Hr). unfold Endpoint_Write_8. apply wp_wr. cbn [reg_trunc].
  rewrite u8_small by done. split; [by eexists (_ :: ext)|].
  cbn [tr upd_tr selected bank packets reg_val] in *. rewrite Hb.
  repeat split; [done..|]. intros r H1 H2. rewrite decide_False by done. by apply Hr.
Qed.

Lemma IsINReady_ctl ps b w0 w : ctl ps b w0 w ->
  wp true Endpoint_IsINReady (fun r w' => r = true /\ ctl ps b w0 w') w.
Proof.
  intros H. unfold Endpoint_IsINReady, test_bits. apply wp_bind, wp_rd, wp_ret. cbn [reg_trunc].
  rewrite rh_in by apply H. split; [done|]. by apply ctl_rd.
Qed.

(** [while (!(Endpoint_IsINReady()));] *)
Lemma INReady_wait_ctl fuel ps b w0 w : (0 < fuel)%nat -> ctl ps b w0 w ->
  wp true (while_ fuel (r ← Endpoint_IsINReady; mret (negb r)) (mret tt)) (fun _ => ctl ps b w0) w.
Proof.
  intros Hf H. destruct fuel as [|fuel]; [lia|]. cbn [while_]. apply wp_bind, wp_bind.
  ctl_step IsINReady_ctl H. intros r w1 [-> H1]. by apply wp_ret, wp_ret.
Qed.

Lemma StatusStage_IN_wait_ctl fuel n ps b w0 w : (0 < n)%nat -> ctl ps b w0 w ->
  wp true (StatusStage_wait fuel n Endpoint_IsINReady) (fun r w' => r = true /\ ctl ps b w0 w') w.
Proof.
  intros Hf H. destruct n as [|n]; [lia|]. cbn [StatusStage_wait]. apply wp_bind.
  ctl_step IsINReady_ctl H. intros r w1 [-> H1]. by apply wp_ret.
Qed.

(** The status stage of a request without data to the host sends the empty packet. *)
Lemma StatusIN_ctl fuel ps w0 w : (0 < fuel)%nat ->
  tst (bmRequestType (USB_ControlRequest w0)) REQDIR_DEVICETOHOST = false -> ctl ps [] w0 w ->
  wp true (Endpoint_ClearStatusStage fuel) (fun _ => ctl (ps ++ [[]]) [] w0) w.
Proof.
  intros Hf Hd H. unfold Endpoint_ClearStatusStage. apply wp_bind, wp_gets.
  rewrite (ctl_request _ _ _ _ H), Hd. apply wp_bind. ctl_step StatusStage_IN_wait_ctl H.
  intros r w1 [-> H1]. cbn [when]. by apply ClearIN_ctl.
Qed.

(** The status stage of a request that sent data takes the host's acknowledgement. *)
Lemma StatusOUT_ctl fuel ps w0 w : (0 < fuel)%nat -> ps <> [] ->
  (forall t, selected t = 0 -> (length (packets (tr w0)) < length (packets t))%nat ->
     tst (u8 (hw_read t UEINTX)) (bit RXOUTI) = true) ->
  tst (bmRequestType (USB_ControlRequest w0)) REQDIR_DEVICETOHOST = true -> ctl ps [] w0 w ->
  wp true (Endpoint_ClearStatusStage fuel) (fun _ => ctl ps [] w0) w.
Proof.
  intros Hf Hps Hout Hd H. unfold Endpoint_ClearStatusStage. apply wp_bind, wp_gets.
  rewrite (ctl_request _ _ _ _ H), Hd. destruct fuel as [|fuel]; [lia|]. cbn [StatusStage_wait].
  unfold Endpoint_IsOUTReceived, test_bits. apply wp_bind, wp_bind, wp_bind, wp_rd, wp_ret.
  cbn [reg_trunc]. rewrite Hout.
  - apply wp_ret. cbn [when]. apply ClearOUT_ctl. by apply ctl_rd.
  - apply H.
  - destruct H as (_ & _ & _ & -> & _). rewrite length_app, length_map. destruct ps; [done|]. cbn. lia.
Qed.

(** Acknowledging the SETUP packet and ending a request without data. *)
Lemma finish_request fuel w : (0 < fuel)%nat -> selected (tr w) = 0 -> bank (tr w) = [] ->
  tst (bmRequestType (USB_ControlRequest w)) REQDIR_DEVICETOHOST = false ->
  wp true (Endpoint_ClearSETUP;; Endpoint_ClearStatusStage fuel) (fun _ => ctl [[]] [] w) w.
Proof.
  intros Hf Hs Hb Hd. pose proof (ctl_start w Hs) as H. rewrite Hb in H.
  apply wp_bind. ctl_step ClearSETUP_ctl H. intros [] w1 H1. by apply (StatusIN_ctl fuel []).
Qed.
End Steps.
