(* ===== verification/ClassDriver.v ===== *)
(** What the USB device class drivers of LUFA (Drivers/USB/Class/Device) share: the
    interface structure they are handed a pointer to, the class requests and the
    memory routines they call. *)

From stdpp Require Import base tactics option list numbers.
From Stdlib Require Import ZArith Lia.
From S2P Require Import Prelude Memory Hardware Endpoint USBController ControlStream DeviceStandardReq.
From S2P Require Import EndpointStream ControlRequest.

Definition EP_TYPE_ISOCHRONOUS : Z := 0x01.
Definition EP_TYPE_BULK : Z := 0x02.
Definition ENDPOINT_RWSTREAM_DeviceDisconnected : Z := 2.

(** [REQDIR_* | REQTYPE_CLASS | REQREC_INTERFACE] *)
Definition CLASS_IN : Z := Z.lor (Z.lor REQDIR_DEVICETOHOST REQTYPE_CLASS) REQREC_INTERFACE.
Definition CLASS_OUT : Z := Z.lor (Z.lor REQDIR_HOSTTODEVICE REQTYPE_CLASS) REQREC_INTERFACE.

(** [e.Type = t] *)
Definition with_Type (t : Z) (e : USB_Endpoint_Table_t) : USB_Endpoint_Table_t :=
  mkEndpointTable (Address e) (Size e) t (Banks e).

(** The bytes of a [USB_Request_Header_t]. *)
Definition enc_request (r : USB_Request_Header_t) : list Z :=
  [u8 (bmRequestType r); u8 (bRequest r)] ++ le16 (wValue r) ++ le16 (wIndex r) ++ le16 (wLength r).

(** ** The interface structure

    A driver works on an object of type [S] the application owns; the pointer to it
    is a view of the application's memory. *)

Class Object (App S : Type) : Type := {
  load : App -> S;
  store : S -> App -> App;
  load_store s a : load (store s a) = s;
  store_store s s' a : store s (store s' a) = store s a
}.

(** An application that consists of the structure. *)
#[export] Instance object_self S : Object S S :=
  {| load := id; store := fun s _ => s; load_store := fun _ _ => eq_refl;
     store_store := fun _ _ _ => eq_refl |}.

Section Object.
Context {App S : Type} {OB : Object App S}.

(** Reading through the pointer, and [*p = f( *p)]. *)
Definition the : prog (World App) S := gets (fun w => load (app w)).
Definition store_in (f : S -> S) (a : App) : App := store (f (load a)) a.
Definition assign (f : S -> S) : prog (World App) unit := modify (upd_app (store_in f)).

Definition info (w : World App) : S := load (app w).

Lemma assign_run {A} f (k : unit -> prog (World App) A) w :
  (assign f ≫= k) w = k tt (upd_app (store_in f) w).
Proof. done. Qed.

Lemma load_store_in f a : load (store_in f a) = f (load a).
Proof. apply load_store. Qed.

(** ** Invariants of the structure

    The device stack never touches the structure, so an invariant of it is one the
    stack preserves. *)

Definition driver_inv (I : S -> Prop) (w : World App) : Prop := stack_inv w /\ I (info w).

#[export] Instance driver_inv_stack I : StackInv (driver_inv I).
Proof. split; [by intros w [Hw _]|..]; unfold driver_inv, stack_inv, info; cbn; tauto. Qed.

Lemma safe_assign (I : S -> Prop) f : (forall s, I s -> I (f s)) -> safe (driver_inv I) (assign f).
Proof.
  intros Hf w [Hw HI]. apply wp_modify. split; [exact Hw|]. unfold info. cbn.
  rewrite load_store_in. by apply Hf.
Qed.

(** The structure read satisfies the invariant. *)
Lemma safe_the (I : S -> Prop) {A} (k : S -> prog (World App) A) :
  (forall s, I s -> safe (driver_inv I) (k s)) -> safe (driver_inv I) (s ← the; k s).
Proof. intros Hk w [Hw HI]. apply wp_bind, wp_gets. by apply Hk. Qed.
End Object.

(** [while (!(Endpoint_IsINReady()));] *)
Definition INReady_wait {HW : Hardware} {App} (fuel : nat) : prog (World App) unit :=
  while_ fuel (r ← Endpoint_IsINReady; mret (negb r)) (mret tt).

(** The reset of a pair of bulk endpoints, as the mass storage and printer drivers
    write it. *)
Definition reset_bulk {HW : Hardware} {App} (INAddress OUTAddress : Z) : prog (World App) unit :=
  Endpoint_ResetEndpoint OUTAddress;;
  Endpoint_ResetEndpoint INAddress;;
  Endpoint_SelectEndpoint OUTAddress;;
  Endpoint_ClearStall;;
  Endpoint_ResetDataToggle;;
  Endpoint_SelectEndpoint INAddress;;
  Endpoint_ClearStall;;
  Endpoint_ResetDataToggle.

(** ** Class requests

    A SETUP packet is waiting on the selected control endpoint, and the host
    acknowledges the data it gets. *)

Definition pending {HW : Hardware} {App} (w : World App) : Prop :=
  selected (tr w) = 0 /\ bank (tr w) = [] /\ tst (u8 (hw_read (tr w) UEINTX)) (bit RXSTPI) = true.

Definition acked {HW : Hardware} {App} (w : World App) : Prop :=
  forall t, selected t = 0 -> (length (packets (tr w)) < length (packets t))%nat ->
    tst (u8 (hw_read t UEINTX)) (bit RXOUTI) = true.

(** The request is [r] of type [bm], for the interface [n]. *)
Definition asks {App} (w : World App) (bm r n : Z) : Prop :=
  bmRequestType (USB_ControlRequest w) = bm /\ bRequest (USB_ControlRequest w) = r /\
  wIndex (USB_ControlRequest w) = n.

Section Requests.
Context {HW : Hardware} {RH : ReadyHost} {App S : Type} {EV : DeviceEvents App} {OB : Object App S}.
Implicit Types w : World App.

Lemma pending_ctl w : pending w ->
  wp true Endpoint_IsSETUPReceived (fun s w' => s = true /\ ctl [] [] w w') w.
Proof.
  intros (Hs & Hb & Hf). unfold Endpoint_IsSETUPReceived, test_bits. apply wp_bind, wp_rd, wp_ret.
  cbn [reg_trunc]. split; [done|]. apply ctl_rd. rewrite <- Hb. by apply ctl_start.
Qed.

(** A handler that answers with one byte of the structure. *)
Lemma answer_byte fuel (f : S -> Z) w0 w : (0 < fuel)%nat -> is_u8 (f (info w0)) -> acked w0 ->
  bmRequestType (USB_ControlRequest w0) = CLASS_IN -> ctl [] [] w0 w ->
  wp true (Endpoint_ClearSETUP;; INReady_wait fuel;; i ← the; Endpoint_Write_8 (f i);;
           Endpoint_ClearIN;; Endpoint_ClearStatusStage fuel)
    (fun _ => ctl [[f (info w0)]] [] w0) w.
Proof.
  intros Hf Hb Ha Hd H. apply wp_bind. ctl_step ClearSETUP_ctl H. intros [] w1 H1.
  apply wp_bind. ctl_step INReady_wait_ctl H1. intros [] w2 H2.
  apply wp_bind, wp_gets. rewrite (ctl_app _ _ _ _ H2). fold (info w0).
  apply wp_bind. ctl_step Write_8_ctl H2. intros [] w3 H3.
  apply wp_bind. ctl_step ClearIN_ctl H3. intros [] w4 H4.
  by apply StatusOUT_ctl; [| | |rewrite Hd|].
Qed.

(** A handler without data that then updates the structure. *)
Lemma acknowledge_assign fuel (f : USB_Request_Header_t -> S -> S) w0 w : (0 < fuel)%nat ->
  bmRequestType (USB_ControlRequest w0) = CLASS_OUT -> ctl [] [] w0 w ->
  wp true (Endpoint_ClearSETUP;; Endpoint_ClearStatusStage fuel;;
           req ← gets USB_ControlRequest; assign (f req))
    (fun _ => ctl [[]] [] (upd_app (store_in (f (USB_ControlRequest w0))) w0)) w.
Proof.
  intros Hf Hd H. apply wp_bind. ctl_step ClearSETUP_ctl H. intros [] w1 H1.
  apply wp_bind. ctl_step StatusIN_ctl H1; [by rewrite Hd|]. intros [] w2 H2.
  apply wp_bind, wp_gets. rewrite (ctl_request _ _ _ _ H2). apply wp_modify. by apply ctl_upd_app.
Qed.
End Requests.

(** ** Data from the host

    The data stage of a pending request brings [data] to the control endpoint. *)

Fixpoint fifo_reads (t : trace) : nat :=
  match t with
  | [] => 0
  | Rd UEDATX _ :: t => S (fifo_reads t)
  | _ :: t => fifo_reads t
  end.

Definition delivers {HW : Hardware} {App} (w : World App) (data : list Z) : Prop :=
  forall ext, let t := ext ++ tr w in selected t = 0 ->
    (fifo_reads t = fifo_reads (tr w) -> tst (u8 (hw_read t UEINTX)) (bit RXOUTI) = true) /\
    forall k b, data !! k = Some b -> fifo_reads t = (fifo_reads (tr w) + k)%nat ->
      u8 (hw_read t UEDATX) = b.

Section DataStage.
Context {HW : Hardware} {RH : ReadyHost} {App : Type} {EV : DeviceEvents App}.
Implicit Types w : World App.

(** [k] bytes of the data stage have been read. *)
Definition got (k : nat) (w0 w : World App) : Prop :=
  ctl [] [] w0 w /\ fifo_reads (tr w) = (fifo_reads (tr w0) + k)%nat.

Lemma got_upd_app f k w0 w : got k w0 w -> got k (upd_app f w0) (upd_app f w).
Proof. intros [H Hk]. split; [by apply ctl_upd_app|done]. Qed.

Lemma delivers_upd_app f w data : delivers w data -> delivers (upd_app f w) data.
Proof. done. Qed.

Lemma ClearSETUP_got w0 w : got 0 w0 w -> wp true Endpoint_ClearSETUP (fun _ => got 0 w0) w.
Proof.
  intros [H Hk]. apply wp_conj; [by apply ClearSETUP_ctl|].
  unfold Endpoint_ClearSETUP, clr_bits. by apply wp_bind, wp_rd, wp_wr.
Qed.

Lemma OUTReceived_got fuel n data w0 w : (0 < n)%nat -> delivers w0 data -> got 0 w0 w ->
  wp true (StatusStage_wait fuel n Endpoint_IsOUTReceived) (fun r w' => r = true /\ got 0 w0 w') w.
Proof.
  intros Hn Hd [H Hk]. destruct n as [|n]; [lia|]. cbn [StatusStage_wait].
  unfold Endpoint_IsOUTReceived, test_bits. apply wp_bind, wp_bind, wp_rd, wp_ret. cbn [reg_trunc].
  destruct (H) as ([ext ->] & Hs & _). destruct (Hd ext Hs) as [Hr _]. cbn [tr upd_tr].
  rewrite Hr by (cbn in Hk; lia). apply wp_ret. split; [done|]. split; [by apply ctl_rd|done].
Qed.

Lemma Read_8_got data k b w0 w : delivers w0 data -> data !! k = Some b -> got k w0 w ->
  wp true (rd UEDATX) (fun v w' => v = b /\ got (S k) w0 w') w.
Proof.
  intros Hd Hb [H Hk]. apply wp_rd. cbn [reg_trunc]. split.
  - destruct H as ([ext ->] & Hs & _). by apply (proj2 (Hd ext Hs) k).
  - split; [by apply ctl_rd|]. cbn. rewrite Hk. lia.
Qed.

Lemma Read_32_got data k b0 b1 b2 b3 w0 w : delivers w0 data ->
  data !! k = Some b0 -> data !! S k = Some b1 -> data !! S (S k) = Some b2 ->
  data !! S (S (S k)) = Some b3 -> got k w0 w ->
  wp true Endpoint_Read_32_LE (fun v w' => v = of_le32 b0 b1 b2 b3 /\ got (4 + k) w0 w') w.
Proof.
  intros Hd H0 H1 H2 H3 H. unfold Endpoint_Read_32_LE.
  apply wp_bind. eapply wp_mono; [by apply (Read_8_got data k b0)|]. intros v w1 [-> G1].
  apply wp_bind. eapply wp_mono; [by apply (Read_8_got data (S k) b1)|]. intros v w2 [-> G2].
  apply wp_bind. eapply wp_mono; [by apply (Read_8_got data (S (S k)) b2)|]. intros v w3 [-> G3].
  apply wp_bind. eapply wp_mono; [by apply (Read_8_got data (S (S (S k))) b3)|]. intros v w4 [-> G4].
  by apply wp_ret.
Qed.

(** The bytes of a 32-bit value in the bank. *)
Lemma Write_32_ctl b0 b1 b2 b3 ps b w0 w : is_u8 b0 -> is_u8 b1 -> is_u8 b2 -> is_u8 b3 ->
  ctl ps b w0 w ->
  wp true (Endpoint_Write_32_LE (of_le32 b0 b1 b2 b3)) (fun _ => ctl ps (b ++ [b0; b1; b2; b3]) w0) w.
Proof.
  intros H0 H1 H2 H3 H. destruct (le32_of_le32 b0 b1 b2 b3) as (E0 & E1 & E2 & E3); try done.
  assert (forall v x ps b w, u8 v = x -> ctl ps b w0 w ->
    wp true (wr UEDATX v) (fun _ => ctl ps (b ++ [x]) w0) w) as Hw.
  { intros v x ps' b' w' Hx ([ext ->] & Hs & Hb & Hp & Hr). apply wp_wr. cbn [reg_trunc]. rewrite Hx.
    split; [by eexists (_ :: ext)|]. cbn [tr upd_tr selected bank packets reg_val] in *. rewrite Hb.
    repeat split; [done..|]. intros r N1 N2. rewrite decide_False by done. by apply Hr. }
  unfold Endpoint_Write_32_LE. apply wp_bind. eapply wp_mono; [exact (Hw _ _ _ _ _ E0 H)|]. intros [] w1 G1.
  apply wp_bind. eapply wp_mono; [exact (Hw _ _ _ _ _ E1 G1)|]. intros [] w2 G2.
  apply wp_bind. eapply wp_mono; [exact (Hw _ _ _ _ _ E2 G2)|]. intros [] w3 G3.
  eapply wp_mono; [exact (Hw _ _ _ _ _ E3 G3)|]. intros [] w4 G4. by rewrite <- !app_assoc in G4.
Qed.
End DataStage.

(** An assignment to the structure while a data stage is being read. *)
Ltac assign_got F H Hd :=
  rewrite assign_run; apply (got_upd_app (store_in F)) in H; apply (delivers_upd_app (store_in F)) in Hd.

(** A host that has sent a SETUP packet, brings [data] in the data stage and
    acknowledges what it gets. *)
Definition setup_hw (data : list Z) : Hardware :=
  {| hw_read := fun t r => match r with
       | UEINTX => Z.lor (Z.lor (bit TXINI) (bit RXOUTI)) (bit RXSTPI)
       | UEDATX => nth (fifo_reads t) data 0
       | _ => 0 end;
     hw_irq := fun _ => false; hw_signature := fun _ => 0 |}.

Lemma setup_ready data : ReadyHost (HW := setup_hw data).
Proof. split; done. Qed.

Lemma setup_delivers data {App} (w : World App) : Forall is_u8 data -> fifo_reads (tr w) = 0%nat ->
  delivers (HW := setup_hw data) w data.
Proof.
  intros Hd H0 ext t Hs. split; [done|]. intros k b Hb Hk. rewrite H0 in Hk. cbn. fold t. rewrite Hk. cbn.
  rewrite (nth_lookup_Some _ _ _ _ Hb). apply u8_small. by apply (Forall_lookup_1 _ _ _ _ Hd Hb).
Qed.
