(* ===== verification/DataEndpoint.v ===== *)
(** Data endpoints seen from the bus: a reference machine for the banks and queues
    of the bulk, interrupt and isochronous endpoints, computed from the register
    accesses, and what the accessors and streams of EndpointStream.v do to it.

    [DataHost] states that the controller behaves as the machine says towards a
    host that takes every IN packet at once and has its OUT packets ready. *)

From stdpp Require Import base tactics option list numbers fin_maps functions.
From Stdlib Require Import ZArith Lia.
From S2P Require Import Prelude Hardware Endpoint USBController ControlStream DeviceStandardReq.
From S2P Require Import EndpointStream ControlTransfer ControlReceive.

(** ** The reference machine *)

(** One endpoint: the IN bank being filled and the packets sent, the OUT packets
    not yet released (the unread part of the current one first), and the halt. *)
Record EPState : Set := mkEP {
  ep_bank : list Z;
  ep_sent : list (list Z);
  ep_queue : list (list Z);
  ep_stalled : bool
}.

(** Reading a byte of the current OUT packet. *)
Definition pop_byte (q : list (list Z)) : list (list Z) :=
  match q with (_ :: p) :: ps => p :: ps | _ => q end.

(** A write of UEINTX that releases the OUT bank. *)
Definition is_release (v : Z) : bool := negb (tst v (bit RXOUTI)) && negb (tst v (bit FIFOCON)).

(** The FIFO of the endpoint is reset. *)
Definition flush (s : EPState) : EPState :=
  mkEP [] (ep_sent s) (tail (ep_queue s)) (ep_stalled s).

Definition put (x : Z) (s : EPState) : EPState :=
  mkEP (ep_bank s ++ [x]) (ep_sent s) (ep_queue s) (ep_stalled s).
Definition commit (s : EPState) : EPState :=
  mkEP [] (ep_sent s ++ [ep_bank s]) (ep_queue s) (ep_stalled s).
Definition with_queue (q : list (list Z)) (s : EPState) : EPState :=
  mkEP (ep_bank s) (ep_sent s) q (ep_stalled s).
Definition with_stall (b : bool) (s : EPState) : EPState :=
  mkEP (ep_bank s) (ep_sent s) (ep_queue s) b.

(** An access while the endpoint is selected. *)
Definition ep_step (is_in : bool) (ev : event) (s : EPState) : EPState :=
  match ev with
  | Wr UEDATX v => if is_in then put v s else s
  | Rd UEDATX _ => if is_in then s else with_queue (pop_byte (ep_queue s)) s
  | Wr UEINTX v =>
      if is_in then if is_commit v then commit s else s
      else if is_release v then with_queue (tail (ep_queue s)) s else s
  | Wr UECONX v =>
      if tst v (bit STALLRQC) then with_stall false s
      else if tst v (bit STALLRQ) then with_stall true s else s
  | Wr UECFG1X _ => flush s
  | _ => s
  end.

Section Machine.
Context (is_in : Z -> bool) (q0 : Z -> list (list Z)).

(** Endpoint [e] after the accesses [t]; [q0 e] is what the host sends it. *)
Fixpoint ep_state (e : Z) (t : trace) : EPState :=
  match t with
  | [] => mkEP [] [] (q0 e) false
  | Wr UERST v :: t => if tst v (bit e) then flush (ep_state e t) else ep_state e t
  | ev :: t => if selected t =? e then ep_step (is_in e) ev (ep_state e t) else ep_state e t
  end.
End Machine.

(** The bytes the byte counter counts. *)
Definition ep_count (is_in : bool) (s : EPState) : Z :=
  Z.of_nat (length (if is_in then ep_bank s else hd [] (ep_queue s))).

(** The bank may be accessed: it has room, or an unread byte. *)
Definition ep_allowed (is_in : bool) (size : nat) (s : EPState) : bool :=
  if is_in then (length (ep_bank s) <? size)%nat
  else match ep_queue s with (_ :: _) :: _ => true | _ => false end.

Definition ep_ready (is_in : bool) (s : EPState) : bool :=
  if is_in then true else match ep_queue s with [] => false | _ => true end.

Class DataHost {HW : Hardware} (is_in : Z -> bool) (size : Z -> nat)
    (q0 : Z -> list (list Z)) : Prop := {
  dh_irq t : hw_irq t = false;
  dh_setup t : selected t = 0 -> tst (u8 (hw_read t UEINTX)) (bit RXSTPI) = false;
  dh_num t : u8 (hw_read t UENUM) = u8 (selected t);
  dh_dir t e : selected t = e -> e <> 0 -> tst (u8 (hw_read t UECFG0X)) (bit EPDIR) = is_in e;
  dh_ready t e : selected t = e -> e <> 0 ->
    tst (u8 (hw_read t UEINTX)) (bit (if is_in e then TXINI else RXOUTI))
      = ep_ready (is_in e) (ep_state is_in q0 e t);
  dh_allowed t e : selected t = e -> e <> 0 ->
    tst (u8 (hw_read t UEINTX)) (bit RWAL) = ep_allowed (is_in e) (size e) (ep_state is_in q0 e t);
  dh_count t e : selected t = e -> e <> 0 ->
    let n := ep_count (is_in e) (ep_state is_in q0 e t) in
    u8 (hw_read t UEBCHX) = u8 (Z.shiftr n 8) /\ u8 (hw_read t UEBCLX) = u8 n;
  dh_data t e b p ps : selected t = e -> e <> 0 -> is_in e = false ->
    ep_queue (ep_state is_in q0 e t) = (b :: p) :: ps -> u8 (hw_read t UEDATX) = b;
  dh_stalled t e : selected t = e -> e <> 0 ->
    tst (u8 (hw_read t UECONX)) (bit STALLRQ) = ep_stalled (ep_state is_in q0 e t);
  dh_stallrqc t : tst (u8 (hw_read t UECONX)) (bit STALLRQC) = false
}.

Lemma ClearOUT_release v :
  is_release (u8 (Z.land v (Z.lnot (Z.lor (bit RXOUTI) (bit FIFOCON))))) = true.
Proof. unfold is_release. by rewrite !tst_clr. Qed.

(** The two bytes of a counter read one after the other. *)
Lemma lor_halves n : Z.lor (Z.shiftl (u8 (Z.shiftr n 8)) 8) (u8 n) = u16 n.
Proof.
  unfold u8, u16. change 256 with (2 ^ 8). change 65536 with (2 ^ 16). apply Z.bits_inj'. intros i Hi.
  rewrite Z.lor_spec, Z.shiftl_spec by done. destruct (decide (i < 8)).
  - by rewrite (Z.testbit_neg_r _ (i - 8)), !Z.mod_pow2_bits_low by lia.
  - rewrite (Z.mod_pow2_bits_high n 8) by lia. rewrite orb_false_r. destruct (decide (i < 16)).
    + rewrite !Z.mod_pow2_bits_low, Z.shiftr_spec by lia. f_equal. lia.
    + by rewrite !Z.mod_pow2_bits_high by lia.
Qed.

(** ** The accessors on the machine *)

Section Access.
Context {HW : Hardware} {is_in : Z -> bool} {size : Z -> nat} {q0 : Z -> list (list Z)}.
Context {DH : DataHost is_in size q0} {App : Type} {EV : DeviceEvents App} {RQ : DeviceRequests App}.
Implicit Types (w : World App) (st : Z -> EPState) (e : Z).

(** From [w0] only registers were accessed; endpoint [e] is selected and the
    endpoints are in the states [st]. *)
Definition dev (w0 : World App) (e : Z) (st : Z -> EPState) (w : World App) : Prop :=
  (exists ext, w = upd_tr (fun t => ext ++ t) w0) /\ selected (tr w) = e /\
  forall x, ep_state is_in q0 x (tr w) = st x.

Lemma dev_start w : dev w (selected (tr w)) (fun x => ep_state is_in q0 x (tr w)) w.
Proof. split; [by exists []; destruct w|done]. Qed.

Lemma dev_app w0 e st w : dev w0 e st w -> app w = app w0.
Proof. by intros [[ext ->] _]. Qed.
Lemma dev_DeviceState w0 e st w : dev w0 e st w -> USB_DeviceState w = USB_DeviceState w0.
Proof. by intros [[ext ->] _]. Qed.

Lemma dev_upd_app f w0 e st w : dev w0 e st w -> dev (upd_app f w0) e st (upd_app f w).
Proof. intros ([ext ->] & Hs & Hst). split; [by exists ext|done]. Qed.

(** One access. *)
Definition after (ev : event) (e x : Z) (s : EPState) : EPState :=
  match ev with
  | Wr UERST v => if tst v (bit x) then flush s else s
  | _ => if e =? x then ep_step (is_in x) ev s else s
  end.

Lemma dev_event ev w0 e st w : (forall v, ev <> Wr UENUM v) -> dev w0 e st w ->
  dev w0 e (fun x => after ev e x (st x)) (upd_tr (cons ev) w).
Proof.
  intros Hne ([ext ->] & <- & Hst). split; [by exists (ev :: ext)|]. split.
  - destruct ev as [|[] v]; try done. by destruct (Hne v).
  - intros x. rewrite <- Hst. unfold after. by destruct ev as [|[] v].
Qed.

Lemma dev_ext w0 e st st' w : (forall x, st x = st' x) -> dev w0 e st w -> dev w0 e st' w.
Proof. intros H (? & ? & Hst). split; [done|]. split; [done|]. intros x. by rewrite Hst. Qed.

(** Reads other than of the FIFO change nothing. *)
Lemma dev_rd r v w0 e st w : r <> UEDATX -> dev w0 e st w -> dev w0 e st (upd_tr (cons (Rd r v)) w).
Proof.
  intros Hr H. apply (dev_event (Rd r v)) in H; [|done]. eapply dev_ext; [|exact H].
  intros x. cbn. destruct (e =? x); [|done]. by destruct r.
Qed.

(** An access that turns the selected endpoint into [f] of it. *)
Lemma dev_at ev f w0 e st w : (forall v, ev <> Wr UENUM v) -> (forall v, ev <> Wr UERST v) ->
  ep_step (is_in e) ev (st e) = f (st e) -> dev w0 e st w ->
  dev w0 e (<[e := f (st e)]> st) (upd_tr (cons ev) w).
Proof.
  intros Hn Hr Hf H. eapply dev_ext; [|by apply dev_event]. intros x. unfold after.
  replace (match ev with Wr UERST v => _ | _ => _ end)
    with (if e =? x then ep_step (is_in x) ev (st x) else st x).
  - destruct (e =? x) eqn:E; bool_hyps; subst; [by rewrite fn_lookup_insert|by rewrite fn_lookup_insert_ne].
  - destruct ev as [|[] v]; try done. by destruct (Hr v).
Qed.

Lemma SelectEndpoint_dev a w0 e st w : dev w0 e st w ->
  wp true (Endpoint_SelectEndpoint a) (fun _ => dev w0 (Z.land a 0x0F) st) w.
Proof.
  intros ([ext ->] & Hs & Hst). unfold Endpoint_SelectEndpoint. apply wp_wr.
  assert (u8 (Z.land a 0x0F) = Z.land a 0x0F) as E.
  { apply u8_small. unfold is_u8. change 0x0F with (Z.ones 4). rewrite Z.land_ones by lia.
    pose proof (Z.mod_pos_bound a (2 ^ 4) ltac:(lia)). lia. }
  cbn [reg_trunc]. change ENDPOINT_EPNUM_MASK with 0x0F. rewrite E.
  split; [by eexists (_ :: ext)|]. split; [done|]. intros x. rewrite <- Hst. cbn. by destruct (_ =? x).
Qed.

Lemma test_dev r m b w0 e st w : r <> UEDATX -> dev w0 e st w ->
  tst (u8 (hw_read (tr w) r)) m = b -> r <> UDFNUM -> r <> UBRR1 ->
  wp true (test_bits r m) (fun x w' => x = b /\ dev w0 e st w') w.
Proof.
  intros Hr H Hb H1 H2. unfold test_bits. apply wp_bind, wp_rd, wp_ret.
  rewrite reg_trunc_u8 by done. split; [done|]. by apply dev_rd.
Qed.

Lemma IsReadWriteAllowed_dev w0 e st w : e <> 0 -> dev w0 e st w ->
  wp true Endpoint_IsReadWriteAllowed
    (fun x w' => x = ep_allowed (is_in e) (size e) (st e) /\ dev w0 e st w') w.
Proof.
  intros He H. apply test_dev; try done. destruct H as (_ & Hs & Hst).
  by rewrite (dh_allowed _ e), Hst.
Qed.

Lemma IsStalled_dev w0 e st w : e <> 0 -> dev w0 e st w ->
  wp true Endpoint_IsStalled (fun x w' => x = ep_stalled (st e) /\ dev w0 e st w') w.
Proof.
  intros He H. apply test_dev; try done. destruct H as (_ & Hs & Hst).
  by rewrite (dh_stalled _ e), Hst.
Qed.

Lemma IsINReady_dev w0 e st w : e <> 0 -> is_in e = true -> dev w0 e st w ->
  wp true Endpoint_IsINReady (fun x w' => x = true /\ dev w0 e st w') w.
Proof.
  intros He Hi H. apply test_dev; try done. destruct H as (_ & Hs & Hst).
  pose proof (dh_ready _ e Hs He) as Hr. by rewrite Hi in Hr.
Qed.

Lemma IsOUTReceived_dev w0 e st w : e <> 0 -> is_in e = false -> dev w0 e st w ->
  wp true Endpoint_IsOUTReceived
    (fun x w' => x = ep_ready false (st e) /\ dev w0 e st w') w.
Proof.
  intros He Hi H. apply test_dev; try done. destruct H as (_ & Hs & Hst).
  pose proof (dh_ready _ e Hs He) as Hr. by rewrite Hi, Hst in Hr.
Qed.

Lemma BytesInEndpoint_dev w0 e st w : e <> 0 -> dev w0 e st w ->
  wp true Endpoint_BytesInEndpoint (fun n w' => n = u16 (ep_count (is_in e) (st e)) /\ dev w0 e st w') w.
Proof.
  intros He H. unfold Endpoint_BytesInEndpoint. apply wp_bind, wp_rd, wp_bind, wp_rd, wp_ret.
  cbn [reg_trunc]. pose proof (dev_rd UEBCHX (u8 (hw_read (tr w) UEBCHX)) _ _ _ _ ltac:(done) H) as H1.
  split; [|by apply dev_rd]. destruct H as (_ & Hs & Hst), H1 as (_ & Hs1 & Hst1).
  destruct (dh_count _ e Hs He) as [Hh _]. destruct (dh_count _ e Hs1 He) as [_ Hl].
  cbn [tr upd_tr] in Hst1, Hl |- *. rewrite Hl, Hst1, Hh, Hst. apply lor_halves.
Qed.

Lemma Write_8_dev v w0 e st w : is_in e = true -> is_u8 v -> dev w0 e st w ->
  wp true (Endpoint_Write_8 v) (fun _ => dev w0 e (<[e := put v (st e)]> st)) w.
Proof.
  intros Hi Hv H. unfold Endpoint_Write_8. apply wp_wr. cbn [reg_trunc].
  rewrite u8_small by done. apply dev_at; try done. cbn. by rewrite Hi.
Qed.

Lemma Read_8_dev b p ps w0 e st w : e <> 0 -> is_in e = false -> ep_queue (st e) = (b :: p) :: ps ->
  dev w0 e st w ->
  wp true Endpoint_Read_8
    (fun v w' => v = b /\ dev w0 e (<[e := with_queue (p :: ps) (st e)]> st) w') w.
Proof.
  intros He Hi Hq H. unfold Endpoint_Read_8. apply wp_rd. cbn [reg_trunc]. split.
  - destruct H as (_ & Hs & Hst). rewrite <- Hst in Hq. by apply (dh_data _ e b p ps).
  - apply dev_at with (f := with_queue (p :: ps)); try done. cbn. by rewrite Hi, Hq.
Qed.

Lemma ClearIN_dev w0 e st w : is_in e = true -> dev w0 e st w ->
  wp true Endpoint_ClearIN (fun _ => dev w0 e (<[e := commit (st e)]> st)) w.
Proof.
  intros Hi H. unfold Endpoint_ClearIN, clr_bits. apply wp_bind, wp_rd, wp_wr. cbn [reg_trunc].
  apply dev_at; try done; [|by apply dev_rd]. cbn [ep_step]. by rewrite Hi, ClearIN_commit.
Qed.

Lemma ClearOUT_dev w0 e st w : is_in e = false -> dev w0 e st w ->
  wp true Endpoint_ClearOUT
    (fun _ => dev w0 e (<[e := with_queue (tail (ep_queue (st e))) (st e)]> st)) w.
Proof.
  intros Hi H. unfold Endpoint_ClearOUT, clr_bits. apply wp_bind, wp_rd, wp_wr. cbn [reg_trunc].
  apply dev_at with (f := fun s => with_queue (tail (ep_queue s)) s); try done; [|by apply dev_rd].
  cbn [ep_step]. by rewrite Hi, ClearOUT_release.
Qed.

Lemma StallTransaction_dev w0 e st w : dev w0 e st w ->
  wp true Endpoint_StallTransaction (fun _ => dev w0 e (<[e := with_stall true (st e)]> st)) w.
Proof.
  intros H. unfold Endpoint_StallTransaction, set_bits. apply wp_bind, wp_rd, wp_wr.
  cbn [reg_trunc]. apply dev_at with (f := with_stall true); try done; [|by apply dev_rd].
  cbn [ep_step]. rewrite (tst_set _ _ STALLRQ) by done.
  pose proof (dh_stallrqc (tr w)) as Hc. rewrite tst_bit in Hc |- * by done.
  rewrite testbit_u8, Z.lor_spec, Hc by done. done.
Qed.

Lemma ClearStall_dev w0 e st w : dev w0 e st w ->
  wp true Endpoint_ClearStall (fun _ => dev w0 e (<[e := with_stall false (st e)]> st)) w.
Proof.
  intros H. unfold Endpoint_ClearStall, set_bits. apply wp_bind, wp_rd, wp_wr.
  cbn [reg_trunc]. apply dev_at with (f := with_stall false); try done; [|by apply dev_rd].
  cbn [ep_step]. by rewrite (tst_set _ _ STALLRQC).
Qed.

(** Resetting the data toggle leaves the stall condition as it is. *)
Lemma ResetDataToggle_dev w0 e st w : e <> 0 -> dev w0 e st w ->
  wp true Endpoint_ResetDataToggle (fun _ => dev w0 e st) w.
Proof.
  intros He H. unfold Endpoint_ResetDataToggle, set_bits. apply wp_bind, wp_rd, wp_wr.
  cbn [reg_trunc]. eapply dev_ext with (st := <[e := st e]> st).
  { intros x. destruct (decide (e = x)) as [<-|]; [by rewrite fn_lookup_insert|by rewrite fn_lookup_insert_ne]. }
  destruct (H) as (_ & Hs & Hst). pose proof (dh_stallrqc (tr w)) as Hc.
  pose proof (dh_stalled (tr w) e Hs He) as Hl. rewrite Hst in Hl.
  apply dev_at with (f := id); try done; [|by apply dev_rd]. cbn [ep_step].
  rewrite tst_bit in Hc, Hl |- * by done. rewrite testbit_u8 in Hc, Hl |- * by done.
  cbn [Z.ltb Z.compare] in Hc, Hl |- *. rewrite andb_true_r in *. rewrite tst_bit, testbit_u8, !Z.lor_spec by done.
  rewrite (testbit_u8 _ STALLRQC), Hc by done. cbn [andb orb].
  rewrite (testbit_u8 _ STALLRQ), Hl by done. destruct (st e) as [b s q []]; done.
Qed.

(** Resetting an endpoint empties its banks. *)
Lemma ResetEndpoint_dev a n w0 e st w : Z.land a 0x0F = n -> 0 <= n < 8 -> dev w0 e st w ->
  wp true (Endpoint_ResetEndpoint a) (fun _ => dev w0 e (<[n := flush (st n)]> st)) w.
Proof.
  intros Ha Hn H. unfold Endpoint_ResetEndpoint. change ENDPOINT_EPNUM_MASK with 0x0F. rewrite Ha.
  apply wp_bind, wp_wr. cbn [reg_trunc]. apply (dev_event (Wr UERST (u8 (bit n)))) in H; [|done].
  apply wp_wr. cbn [reg_trunc]. apply (dev_event (Wr UERST (u8 0))) in H; [|done].
  eapply dev_ext; [|exact H]. intros x. cbn [after].
  replace (tst (u8 0) (bit x)) with false by (by destruct x as [|[]|[]]).
  destruct (decide (n = x)) as [<-|].
  - rewrite fn_lookup_insert, tst_bit, testbit_u8, testbit_bit, Z.eqb_refl by lia.
    by rewrite (proj2 (Z.ltb_lt n 8)) by lia.
  - rewrite fn_lookup_insert_ne by done. destruct (decide (0 <= x)).
    + rewrite tst_bit, testbit_u8, testbit_bit by lia. by rewrite (proj2 (Z.eqb_neq x n)) by lia.
    + unfold tst, bit.
      replace (Z.shiftl 1 x) with 0; [by rewrite Z.land_0_r|].
      rewrite Z.shiftl_div_pow2 by lia. symmetry. apply Z.div_small. split; [lia|]. apply Z.pow_gt_1; lia.
Qed.

Lemma WaitUntilReady_dev fuel w0 e st w : (0 < fuel)%nat -> e <> 0 -> ep_ready (is_in e) (st e) = true ->
  dev w0 e st w ->
  wp true (Endpoint_WaitUntilReady fuel) (fun r w' => r = ENDPOINT_READYWAIT_NoError /\ dev w0 e st w') w.
Proof.
  intros Hf He Hr H. unfold Endpoint_WaitUntilReady, USB_Device_GetFrameNumber. apply wp_bind, wp_rd.
  apply (dev_rd UDFNUM (reg_trunc UDFNUM (hw_read (tr w) UDFNUM))) in H; [|done].
  destruct fuel as [|fuel]; [lia|]. cbn [WaitUntilReady_loop]. unfold Endpoint_GetEndpointDirection.
  apply wp_bind, wp_bind.
  eapply wp_mono; [apply test_dev with (b := is_in e); try done; by apply dh_dir; [apply H|]|].
  intros d w1 [-> H1]. apply wp_ret. destruct (is_in e) eqn:Hi; cbn [Z.eqb ENDPOINT_DIR_IN ENDPOINT_DIR_OUT Pos.eqb].
  - apply wp_bind. eapply wp_mono; [by apply IsINReady_dev|]. intros x w2 [-> H2]. by apply wp_ret.
  - apply wp_bind. eapply wp_mono; [by apply IsOUTReceived_dev|]. intros x w2 [-> H2].
    rewrite Hr. by apply wp_ret.
Qed.

(** The background task finds nothing to do and selects the endpoint again. *)
Lemma USBTask_dev fuel w0 e st w : 0 <= e < 16 -> dev w0 e st w ->
  wp true (USB_USBTask fuel) (fun _ => dev w0 e st) w.
Proof.
  intros He H. unfold USB_USBTask, USB_DeviceTask, poll_DeviceState. apply wp_bind, wp_bind.
  unfold wp at 1, interrupt_point. rewrite dh_irq, andb_false_r. apply wp_gets.
  destruct (_ =? _); [by apply wp_ret|]. unfold Endpoint_GetCurrentEndpoint, Endpoint_GetEndpointDirection, test_bits.
  apply wp_bind, wp_bind, wp_rd, wp_bind, wp_bind, wp_bind, wp_rd, wp_ret, wp_ret, wp_ret.
  cbn [reg_trunc]. rewrite dh_num.
  apply (dev_rd UENUM (u8 (selected (tr w)))) in H; [|done].
  match goal with |- context [Rd UECFG0X ?v] => apply (dev_rd UECFG0X v) in H; [|done] end.
  apply wp_bind. eapply wp_mono; [by eapply SelectEndpoint_dev|]. intros [] w1 H1.
  apply wp_bind. unfold Endpoint_IsSETUPReceived.
  eapply wp_mono; [apply test_dev with (b := false); try done; apply dh_setup; apply H1|].
  intros b w2 [-> H2]. apply wp_bind, wp_ret. destruct H as (_ & Hs & _). cbn in Hs. rewrite Hs.
  rewrite (u8_small e) by (unfold is_u8; lia).
  match goal with |- context [Endpoint_SelectEndpoint ?a] => assert (Z.land a 0x0F = e) as Hsel end.
  { change ENDPOINT_EPNUM_MASK with (Z.ones 4). change 0x0F with (Z.ones 4).
    rewrite Z.land_lor_distr_l, <- Z.land_assoc, Z.land_diag, Z.land_ones, Z.mod_small by lia.
    destruct (tst _ _); cbn; apply Z.lor_0_r. }
  eapply wp_mono; [by eapply SelectEndpoint_dev|]. intros [] w3. by rewrite Hsel.
Qed.
End Access.

(** Runs an accessor in a world that satisfies [dev], by its lemma above. *)
Tactic Notation "dev_step" uconstr(L) hyp(H) :=
  eapply wp_mono; [eapply L; [..|exact H]; first [done | lia | idtac]|].
