(* ===== verification/DataStream.v ===== *)
(** Data streams across banks: what [Template_Endpoint_RW] of EndpointStream.v does
    to an endpoint of the reference machine of DataEndpoint.v, however many packets
    the transfer takes. *)

From stdpp Require Import base tactics option list numbers fin_maps functions.
From Stdlib Require Import ZArith Lia.
From S2P Require Import Prelude Memory Hardware Endpoint USBController ControlStream DeviceStandardReq.
From S2P Require Import EndpointStream ControlTransfer ControlReceive DataEndpoint ClassDriver.

(** ** Reference transfers *)

(** A byte goes into the bank; a full bank is sent first. *)
Definition put_byte (size : nat) (s : EPState) (x : Z) : EPState :=
  if (length (ep_bank s) <? size)%nat then put x s else put x (commit s).
Definition write_all (size : nat) (s : EPState) (bs : list Z) : EPState :=
  foldl (put_byte size) s bs.

(** Exhausted packets are released, then a byte is read. *)
Fixpoint skip (q : list (list Z)) : list (list Z) :=
  match q with [] :: ps => skip ps | _ => q end.
Fixpoint read_all (k : nat) (q : list (list Z)) : list (list Z) :=
  match k with
  | O => q
  | S k => read_all k (pop_byte (skip q))
  end.

Lemma concat_skip q : concat (skip q) = concat q.
Proof. induction q as [|[|b p] ps IH]; done. Qed.

Lemma skip_cons q b r : concat q = b :: r ->
  exists p ps, skip q = (b :: p) :: ps /\ concat (p :: ps) = r.
Proof.
  induction q as [|[|x p] ps IH]; cbn; [done|exact IH|]. intros [= -> H]. by exists p, ps.
Qed.

Lemma concat_read_all k q : (k <= length (concat q))%nat ->
  concat (read_all k q) = drop k (concat q).
Proof.
  revert q; induction k as [|k IH]; intros q Hk; [by rewrite drop_0|]. cbn [read_all].
  destruct (concat q) as [|b r] eqn:E; [cbn in Hk; lia|].
  destruct (skip_cons q b r E) as (p & ps & -> & H). cbn [pop_byte].
  rewrite IH; [by rewrite H|]. rewrite H. cbn in Hk. lia.
Qed.

(** What a write leaves on the bus and in the bank: the bytes in order, in full
    packets, with at least the last byte still in the bank. *)
Lemma write_all_bank size s bs : bs <> [] -> ep_bank (write_all size s bs) <> [].
Proof.
  intros H. destruct bs as [|x bs _] using rev_ind; [done|]. unfold write_all. rewrite foldl_app.
  cbn [foldl]. unfold put_byte at 1. destruct (_ <? _)%nat; cbn [ep_bank put]; by intros [_ ?]%app_nil.
Qed.

Lemma write_all_spec size s bs : (0 < size)%nat -> (length (ep_bank s) <= size)%nat ->
  exists ps b, write_all size s bs = mkEP b (ep_sent s ++ ps) (ep_queue s) (ep_stalled s) /\
    concat ps ++ b = ep_bank s ++ bs /\ Forall (fun p => length p = size) ps /\
    (length b <= size)%nat.
Proof.
  intros Hs. revert s; induction bs as [|x bs IH]; intros s Hb.
  { exists [], (ep_bank s). rewrite !app_nil_r. destruct s. repeat split; done. }
  cbn [write_all foldl]. change (foldl (put_byte size)) with (write_all size). unfold put_byte.
  destruct (_ <? _)%nat eqn:E; [apply Nat.ltb_lt in E|apply Nat.ltb_ge in E].
  - destruct (IH (put x s)) as (ps & b & -> & Hc & Hf & Hl); [cbn; rewrite length_app; cbn; lia|].
    exists ps, b. cbn in *. by rewrite Hc, <- app_assoc.
  - destruct (IH (put x (commit s))) as (ps & b & -> & Hc & Hf & Hl); [cbn; lia|].
    exists (ep_bank s :: ps), b. cbn in *. rewrite <- !app_assoc, Hc. repeat split; [|done].
    constructor; [lia|done].
Qed.

(** A write that fits stays in the bank. *)
Lemma write_all_fits size s bs : (length (ep_bank s) + length bs <= size)%nat ->
  write_all size s bs = mkEP (ep_bank s ++ bs) (ep_sent s) (ep_queue s) (ep_stalled s).
Proof.
  revert s; induction bs as [|x bs IH]; intros s Hb; cbn; [rewrite app_nil_r; by destruct s|].
  change (foldl (put_byte size)) with (write_all size). unfold put_byte. cbn in Hb.
  rewrite (proj2 (Nat.ltb_lt _ _)) by lia. rewrite IH by (cbn; rewrite length_app; cbn; lia).
  cbn. by rewrite <- app_assoc.
Qed.

(** Pointwise equality of endpoint states after updates of one endpoint. *)
Ltac dev_eq :=
  let x := fresh "x" in intros x;
  match goal with |- context [<[?e := _]> _] =>
    destruct (decide (e = x)) as [<-|]; rewrite ?fn_lookup_insert, ?fn_lookup_insert_ne by done end.

(** Evaluates states at endpoints that are known to be equal or different. *)
Ltac ep_lookup :=
  repeat first [rewrite fn_lookup_insert | rewrite fn_lookup_insert_ne by (done || congruence)].

(** ** Writing *)

Section Write.
Context {HW : Hardware} {is_in : Z -> bool} {size : Z -> nat} {q0 : Z -> list (list Z)}.
Context {DH : DataHost is_in size q0} {App : Type} {EV : DeviceEvents App} {RQ : DeviceRequests App}.
Context (en : Endian) (buf : list Z) (Length : Z).
Hypothesis Hbuf : 0 <= Length <= Z.of_nat (length buf).
Hypothesis Hlen : is_u16 Length.
Hypothesis Hbytes : Forall is_u8 buf.
Abbreviation src := (stream_bytes en buf Length).
Abbreviation dev := (dev (is_in := is_in) (q0 := q0) (App := App)).

Lemma write_loop_dev fuel n i b bp w0 e st w :
  (0 < fuel)%nat -> 0 < e < 16 -> is_in e = true -> (0 < size e)%nat -> 0 <= i <= Length ->
  (2 * Z.to_nat (Length - i) + (if ep_allowed true (size e) (st e) then 0 else 1) < n)%nat ->
  bp = None \/ (length (ep_bank (st e)) + Z.to_nat (Length - i) <= size e)%nat -> dev w0 e st w ->
  wp true (StreamRW_loop fuel n en Endpoint_ClearIN transfer_write buf (stream_pos en Length i)
             (Length - i) b bp)
    (fun r w' => r = (buf, ENDPOINT_RWSTREAM_NoError, bp) /\
       dev w0 e (<[e := write_all (size e) (st e) (drop (Z.to_nat i) src)]> st) w') w.
Proof.
  intros Hf He Hin Hsz. revert i b st w; induction n as [|n IH]; intros i b st w Hi Hn Hbp H; [lia|].
  cbn [StreamRW_loop]. unfold is_u16 in Hlen. destruct (Length - i =? 0) eqn:E; bool_hyps.
  { apply wp_ret. split; [done|]. eapply dev_ext; [|exact H]. dev_eq; [|done].
    rewrite drop_ge; [done|]. pose proof (stream_bytes_length en buf Length Hbuf). lia. }
  apply wp_bind. dev_step IsReadWriteAllowed_dev H.
  intros a w1 [-> H1]. rewrite Hin. destruct (ep_allowed true (size e) (st e)) eqn:Ea; cbn [negb].
  - destruct (lookup_lt_is_Some_2 src (Z.to_nat i)) as [x Hx].
    { pose proof (stream_bytes_length en buf Length Hbuf). lia. }
    apply wp_bind. unfold transfer_write, write_byte. rewrite stream_bytes_get, Hx by lia.
    apply wp_bind. dev_step Write_8_dev H1; [by eapply src_u8|].
    intros [] w2 H2. apply wp_ret. rewrite stream_pos_move, u16_small by (unfold is_u16; lia).
    replace (Length - i - 1) with (Length - (i + 1)) by lia.
    cbn in Ea. apply Nat.ltb_lt in Ea.
    eapply wp_mono; [apply IH; [lia| | |exact H2]|].
    + rewrite fn_lookup_insert. destruct (ep_allowed _ _ _); lia.
    + rewrite fn_lookup_insert. cbn. rewrite length_app. cbn. destruct Hbp; [by left|right; lia].
    + intros r w3 [-> H3]. split; [done|]. eapply dev_ext; [|exact H3]. dev_eq; [|done].
      rewrite (drop_S _ _ _ Hx). cbn. change (foldl (put_byte (size e))) with (write_all (size e)).
      unfold put_byte. rewrite (proj2 (Nat.ltb_lt _ _)) by lia.
      by replace (Z.to_nat (i + 1)) with (S (Z.to_nat i)) by lia.
  - cbn in Ea. apply Nat.ltb_ge in Ea. destruct Hbp as [->|]; [|exfalso; lia].
    apply wp_bind. dev_step ClearIN_dev H1. intros [] w2 H2.
    apply wp_bind. dev_step USBTask_dev H2. intros [] w3 H3.
    apply wp_bind. dev_step WaitUntilReady_dev H3; [by rewrite Hin|].
    intros r w4 [-> H4]. cbn [negb Z.eqb ENDPOINT_READYWAIT_NoError].
    eapply wp_mono; [apply IH; [lia| |by left|exact H4]|].
    + rewrite fn_lookup_insert. unfold ep_allowed. cbn [ep_bank commit length].
      rewrite (proj2 (Nat.ltb_lt 0 _)) by lia. lia.
    + intros r w5 [-> H5]. split; [done|]. eapply dev_ext; [|exact H5]. dev_eq; [|done].
      destruct (drop (Z.to_nat i) src) as [|x l] eqn:Ed.
      { apply (f_equal length) in Ed. rewrite length_drop in Ed. cbn in Ed.
        pose proof (stream_bytes_length en buf Length Hbuf). lia. }
      cbn [write_all foldl]. f_equal. unfold put_byte. cbn [ep_bank commit length].
      by rewrite (proj2 (Nat.ltb_lt 0 _)), (proj2 (Nat.ltb_ge _ _)) by lia.
Qed.

Lemma Write_Stream_dev fuel bp w0 e st w :
  (2 * Z.to_nat Length + 1 < fuel)%nat -> 0 < e < 16 -> is_in e = true -> (0 < size e)%nat ->
  bp = None \/ (bp = Some 0 /\ (length (ep_bank (st e)) + Z.to_nat Length <= size e)%nat) ->
  dev w0 e st w ->
  wp true (Template_Endpoint_RW fuel en Endpoint_ClearIN transfer_write buf Length bp)
    (fun r w' => r = (buf, ENDPOINT_RWSTREAM_NoError, bp) /\
       dev w0 e (<[e := write_all (size e) (st e) src]> st) w') w.
Proof.
  intros Hf He Hin Hsz Hbp H. unfold Template_Endpoint_RW. apply wp_bind.
  dev_step WaitUntilReady_dev H; [by rewrite Hin|].
  intros r w1 [-> H1]. cbn [negb Z.eqb ENDPOINT_READYWAIT_NoError]. rewrite stream_pos_start.
  pose proof (write_loop_dev fuel fuel 0 0 bp w0 e st w1) as Hloop.
  rewrite Z.sub_0_r, drop_0 in Hloop.
  assert (match bp with Some p => u16 (Length - p) | None => Length end = Length) as ->.
  { destruct Hbp as [-> | [-> _]]; [done|]. rewrite Z.sub_0_r. by apply u16_small. }
  replace (match bp with Some p => _ | None => _ end) with (stream_pos en Length 0).
  2: { destruct Hbp as [-> | [-> _]]; [done|]. destruct en; cbn; lia. }
  apply Hloop; try done; try lia; [|destruct Hbp as [-> | [_ ?]]; auto].
  destruct (ep_allowed _ _ _); lia.
Qed.
End Write.

(** ** Reading *)

Section Read.
Context {HW : Hardware} {is_in : Z -> bool} {size : Z -> nat} {q0 : Z -> list (list Z)}.
Context {DH : DataHost is_in size q0} {App : Type} {EV : DeviceEvents App} {RQ : DeviceRequests App}.
Context (en : Endian) (buf0 data : list Z) (Length : Z).
Hypothesis Hbuf : 0 <= Length <= Z.of_nat (length buf0).
Hypothesis Hlen : is_u16 Length.
Hypothesis Hdata : Length <= Z.of_nat (length data).
Abbreviation dev := (dev (is_in := is_in) (q0 := q0) (App := App)).

(** Releasing an exhausted packet does not change what is read next. *)
Lemma read_all_skip k ps : (0 < k)%nat -> read_all k ([] :: ps) = read_all k ps.
Proof. destruct k; [lia|done]. Qed.

Lemma read_loop_dev fuel n i b bp buf w0 e st w :
  (0 < fuel)%nat -> 0 < e < 16 -> is_in e = false -> 0 <= i <= Length ->
  stored en Length buf0 data i buf -> concat (ep_queue (st e)) = drop (Z.to_nat i) data ->
  (Z.to_nat (Length - i) + length (ep_queue (st e)) < n)%nat ->
  bp = None \/ (Z.to_nat (Length - i) <= length (hd [] (ep_queue (st e))))%nat -> dev w0 e st w ->
  wp true (StreamRW_loop fuel n en Endpoint_ClearOUT transfer_read buf (stream_pos en Length i)
             (Length - i) b bp)
    (fun r w' => exists buf', r = (buf', ENDPOINT_RWSTREAM_NoError, bp) /\
       stored en Length buf0 data Length buf' /\
       dev w0 e (<[e := with_queue (read_all (Z.to_nat (Length - i)) (ep_queue (st e))) (st e)]> st) w') w.
Proof.
  intros Hf He Hin. revert i b buf st w;
    induction n as [|n IH]; intros i b buf st w Hi Hst Hq Hn Hbp H; [lia|].
  cbn [StreamRW_loop]. unfold is_u16 in Hlen. destruct (Length - i =? 0) eqn:E; bool_hyps.
  { apply wp_ret. exists buf. assert (i = Length) as -> by lia. split; [done|]. split; [done|].
    eapply dev_ext; [|exact H]. rewrite Z.sub_diag. dev_eq; [|done]. by destruct (st e). }
  apply wp_bind. dev_step IsReadWriteAllowed_dev H. intros a w1 [-> H1]. rewrite Hin. cbn [ep_allowed].
  destruct (ep_queue (st e)) as [|[|x p] ps] eqn:Eq; cbn [negb].
  - exfalso. apply (f_equal length) in Hq. rewrite length_drop in Hq. cbn in Hq. lia.
  - destruct Hbp as [->|]; [|exfalso; cbn in *; lia]. cbn in Hn, Hq.
    apply wp_bind. dev_step ClearOUT_dev H1. intros [] w2 H2. rewrite Eq in H2. cbn [tail] in H2.
    apply wp_bind. dev_step USBTask_dev H2. intros [] w3 H3.
    apply wp_bind. dev_step WaitUntilReady_dev H3.
    { rewrite Hin, fn_lookup_insert. cbn. destruct ps; [|done]. exfalso.
      apply (f_equal length) in Hq. rewrite length_drop in Hq. cbn in Hq. lia. }
    intros r w4 [-> H4]. cbn [negb Z.eqb ENDPOINT_READYWAIT_NoError].
    eapply wp_mono; [apply IH; [done|done| | |by left|exact H4]|]; rewrite fn_lookup_insert; cbn; [done|lia|].
    intros r w5 (buf' & -> & Hs' & H5). exists buf'. split; [done|]. split; [done|].
    eapply dev_ext; [|exact H5]. dev_eq; [|done]. rewrite read_all_skip by lia. by destruct (st e).
  - cbn in Hn, Hq. apply wp_bind. unfold transfer_read, read_byte. apply wp_bind.
    dev_step Read_8_dev H1. intros v w2 [-> H2].
    destruct (stored_next en Length buf0 data i buf x) as (buf' & Hset & Hst'); try done; try lia.
    { rewrite <- (Nat.add_0_r (Z.to_nat i)), <- lookup_drop, <- Hq. done. }
    rewrite Hset. apply wp_ret. rewrite stream_pos_move, u16_small by (unfold is_u16; lia).
    replace (Length - i - 1) with (Length - (i + 1)) by lia.
    assert (Z.to_nat (Length - i) = S (Z.to_nat (Length - (i + 1)))) as Hk by lia.
    assert (Z.to_nat (i + 1) = Z.to_nat i + 1)%nat as Hi1 by lia.
    eapply wp_mono; [apply IH; [lia|done| | | |exact H2]|]; rewrite fn_lookup_insert; cbn.
    + by rewrite Hi1, <- drop_drop, <- Hq.
    + lia.
    + destruct Hbp as [|Hbp]; [by left|right]. cbn in Hbp. lia.
    + intros r w3 (buf2 & -> & Hs2 & H3). exists buf2. split; [done|]. split; [done|].
      eapply dev_ext; [|exact H3]. dev_eq; [|done]. by rewrite Hk.
Qed.

Lemma Read_Stream_dev fuel bp w0 e st w :
  (Z.to_nat Length + length (ep_queue (st e)) < fuel)%nat -> 0 < e < 16 -> is_in e = false ->
  ep_queue (st e) <> [] -> concat (ep_queue (st e)) = data ->
  bp = None \/ (bp = Some 0 /\ (Z.to_nat Length <= length (hd [] (ep_queue (st e))))%nat) ->
  dev w0 e st w ->
  wp true (Template_Endpoint_RW fuel en Endpoint_ClearOUT transfer_read buf0 Length bp)
    (fun r w' => exists buf', r = (buf', ENDPOINT_RWSTREAM_NoError, bp) /\
       stored en Length buf0 data Length buf' /\
       dev w0 e (<[e := with_queue (read_all (Z.to_nat Length) (ep_queue (st e))) (st e)]> st) w') w.
Proof.
  intros Hf He Hin Hne Hq Hbp H. unfold Template_Endpoint_RW. apply wp_bind.
  dev_step WaitUntilReady_dev H. { rewrite Hin. cbn. by destruct (ep_queue (st e)). }
  intros r w1 [-> H1]. cbn [negb Z.eqb ENDPOINT_READYWAIT_NoError]. rewrite stream_pos_start.
  pose proof (read_loop_dev fuel fuel 0 0 bp buf0 w0 e st w1) as Hloop.
  rewrite Z.sub_0_r, drop_0 in Hloop.
  assert (match bp with Some p => u16 (Length - p) | None => Length end = Length) as ->.
  { destruct Hbp as [-> | [-> _]]; [done|]. rewrite Z.sub_0_r. by apply u16_small. }
  replace (match bp with Some p => _ | None => _ end) with (stream_pos en Length 0).
  2: { destruct Hbp as [-> | [-> _]]; [done|]. destruct en; cbn; lia. }
  apply Hloop; try done; try lia; [apply stored_start|destruct Hbp as [-> | [_ ?]]; auto].
Qed.
End Read.

(** Reading from inside one packet. *)
Lemma read_all_packet k p ps : (k <= length p)%nat -> read_all k (p :: ps) = drop k p :: ps.
Proof.
  revert p; induction k as [|k IH]; intros p Hk; [by rewrite drop_0|].
  destruct p as [|b p]; cbn in Hk; [lia|]. cbn [read_all skip pop_byte drop]. apply IH. lia.
Qed.

Lemma stream_bytes_LE buf n : 0 <= n -> stream_bytes LE buf n = take (Z.to_nat n) buf.
Proof. done. Qed.

Lemma Read_packet_dev {HW : Hardware} {is_in size q0} {DH : DataHost is_in size q0} {App}
    {EV : DeviceEvents App} {RQ : DeviceRequests App} fuel buf n p ps (w0 : World App) e st w :
  0 <= n <= Z.of_nat (length buf) -> is_u16 n -> 0 < e < 16 -> is_in e = false ->
  ep_queue (st e) = p :: ps -> n <= Z.of_nat (length p) -> (Z.to_nat n + S (length ps) < fuel)%nat ->
  dev (is_in := is_in) (q0 := q0) w0 e st w ->
  wp true (Endpoint_Read_Stream_LE fuel buf n (Some 0))
    (fun r w' => r = (take (Z.to_nat n) p ++ drop (Z.to_nat n) buf, ENDPOINT_RWSTREAM_NoError, Some 0) /\
       dev (is_in := is_in) (q0 := q0) w0 e (<[e := with_queue (drop (Z.to_nat n) p :: ps) (st e)]> st) w') w.
Proof.
  intros Hn H16 He Hin Hq Hp Hf H. unfold Endpoint_Read_Stream_LE.
  eapply wp_mono; [eapply (Read_Stream_dev LE buf (concat (ep_queue (st e))) n Hn H16); [..|exact H]|];
    rewrite ?Hq; try done; cbn; rewrite ?length_app; try lia.
  - right. split; [done|lia].
  - intros r w1 (buf' & -> & Hs & H1). destruct (Hs) as (Hl & Hd & _).
    apply stored_all in Hs; [|lia|cbn; rewrite length_app; lia]. rewrite stream_bytes_LE in Hs by lia.
    rewrite take_app_le in Hs by lia. split; [|by rewrite read_all_packet in H1 by lia].
    by rewrite <- (take_drop (Z.to_nat n) buf'), Hs, Hd.
Qed.

(** The endpoints after [reset_bulk]. *)
Lemma reset_bulk_dev {HW : Hardware} {is_in size q0} {DH : DataHost is_in size q0} {App}
    ia oa ein eout (w0 : World App) e st w : Z.land ia 0x0F = ein -> Z.land oa 0x0F = eout ->
  0 < ein < 8 -> 0 < eout < 8 -> ein <> eout -> dev (is_in := is_in) (q0 := q0) w0 e st w ->
  wp true (reset_bulk ia oa) (fun _ => dev (is_in := is_in) (q0 := q0) w0 ein
    (<[ein := with_stall false (flush (st ein))]> (<[eout := with_stall false (flush (st eout))]> st))) w.
Proof.
  intros Hi Ho Hein Heout Hne H. unfold reset_bulk.
  apply wp_bind. dev_step (ResetEndpoint_dev _ eout) H. intros [] w1 H1.
  apply wp_bind. dev_step (ResetEndpoint_dev _ ein) H1. intros [] w2 H2.
  apply wp_bind. dev_step SelectEndpoint_dev H2. intros [] w3 H3. rewrite Ho in H3.
  apply wp_bind. dev_step ClearStall_dev H3. intros [] w4 H4.
  apply wp_bind. dev_step ResetDataToggle_dev H4. intros [] w5 H5.
  apply wp_bind. dev_step SelectEndpoint_dev H5. intros [] w6 H6. rewrite Hi in H6.
  apply wp_bind. dev_step ClearStall_dev H6. intros [] w7 H7.
  dev_step ResetDataToggle_dev H7. intros [] w8 H8.
  eapply dev_ext; [|exact H8]. intros x. destruct (decide (ein = x)) as [<-|]; [by ep_lookup|].
  destruct (decide (eout = x)) as [<-|]; by ep_lookup.
Qed.

(** ** Streams that are sent at once *)

(** The packets of a stream that starts with an empty bank and is followed by
    [Endpoint_ClearIN]. *)
Definition in_packets (size : nat) (bs : list Z) : list (list Z) :=
  ep_sent (commit (write_all size (mkEP [] [] [] false) bs)).

(** What a write sends depends on the bank only. *)
Lemma write_all_sent size bs : forall s s', ep_bank s = ep_bank s' -> exists ps b,
  write_all size s bs = mkEP b (ep_sent s ++ ps) (ep_queue s) (ep_stalled s) /\
  write_all size s' bs = mkEP b (ep_sent s' ++ ps) (ep_queue s') (ep_stalled s').
Proof.
  induction bs as [|x bs IH]; intros s s' Hb.
  - exists [], (ep_bank s). rewrite !app_nil_r. split; [by destruct s|]. rewrite Hb. by destruct s'.
  - cbn [write_all foldl]. change (foldl (put_byte size)) with (write_all size). unfold put_byte. rewrite <- Hb. destruct (_ <? _)%nat.
    + destruct (IH (put x s) (put x s')) as (ps & b & -> & ->); [cbn; by rewrite Hb|]. by exists ps, b.
    + destruct (IH (put x (commit s)) (put x (commit s'))) as (ps & b & -> & ->); [done|]. exists (ep_bank s :: ps), b.
      cbn. rewrite <- !app_assoc, Hb. done.
Qed.

Lemma commit_write_all size s bs : ep_bank s = [] ->
  commit (write_all size s bs) = mkEP [] (ep_sent s ++ in_packets size bs) (ep_queue s) (ep_stalled s).
Proof.
  intros Hb. unfold in_packets. destruct (write_all_sent size bs s (mkEP [] [] [] false) Hb) as (ps & b & -> & ->).
  unfold commit. cbn. by rewrite <- app_assoc.
Qed.

(** They carry the bytes in order, and only the last may be short. *)
Lemma in_packets_spec size bs : (0 < size)%nat -> concat (in_packets size bs) = bs /\ Forall (fun p => (length p <= size)%nat) (in_packets size bs).
Proof.
  intros Hs. destruct (write_all_spec size (mkEP [] [] [] false) bs Hs ltac:(cbn; lia)) as (ps & b & E & Hc & Hf & Hb).
  unfold in_packets. rewrite E. cbn. rewrite concat_app. cbn. rewrite app_nil_r. split; [done|]. apply Forall_app_2; [|by constructor].
  eapply Forall_impl; [|exact Hf]. cbn. lia.
Qed.

(** [Endpoint_Null_Stream] writes zeros. *)
Section Null.
Context {HW : Hardware} {is_in : Z -> bool} {size : Z -> nat} {q0 : Z -> list (list Z)}.
Context {DH : DataHost is_in size q0} {App : Type} {EV : DeviceEvents App} {RQ : DeviceRequests App}.
Abbreviation dev := (dev (is_in := is_in) (q0 := q0) (App := App)).

Lemma null_loop_dev fuel n k b w0 e st w : (0 < fuel)%nat -> 0 < e < 16 -> is_in e = true -> (0 < size e)%nat ->
  is_u16 (Z.of_nat k) -> (2 * k + (if ep_allowed true (size e) (st e) then 0 else 1) < n)%nat -> dev w0 e st w ->
  wp true (FillStream_loop fuel n Endpoint_ClearIN (Endpoint_Write_8 0) (Z.of_nat k) b None)
    (fun r w' => dev w0 e (<[e := write_all (size e) (st e) (replicate k 0)]> st) w') w.
Proof.
  intros Hf He Hin Hsz. revert k b st w; induction n as [|n IH]; intros k b st w Hk Hn H; [lia|].
  cbn [FillStream_loop]. destruct (Z.eqb_spec (Z.of_nat k) 0) as [E|E].
  { apply wp_ret. eapply dev_ext; [|exact H]. replace k with 0%nat by lia. dev_eq; done. }
  destruct k as [|k]; [lia|]. apply wp_bind. dev_step IsReadWriteAllowed_dev H.
  intros a w1 [-> H1]. rewrite Hin. destruct (ep_allowed true (size e) (st e)) eqn:Ea; cbn [negb]; cbn in Ea.
  - apply Nat.ltb_lt in Ea. apply wp_bind. dev_step Write_8_dev H1. intros [] w2 H2. unfold is_u16 in Hk.
    rewrite u16_small by (unfold is_u16; lia). replace (Z.of_nat (S k) - 1) with (Z.of_nat k) by lia.
    eapply wp_mono; [apply IH; [unfold is_u16; lia| |exact H2]|].
    + rewrite fn_lookup_insert. destruct (ep_allowed _ _ _); lia.
    + intros r w3 H3. eapply dev_ext; [|exact H3]. rewrite fn_lookup_insert. dev_eq; [|done]. cbn [replicate write_all foldl].
      change (foldl (put_byte (size e))) with (write_all (size e)). unfold put_byte. by rewrite (proj2 (Nat.ltb_lt _ _)) by lia.
  - apply Nat.ltb_ge in Ea. apply wp_bind. dev_step ClearIN_dev H1. intros [] w2 H2.
    apply wp_bind. dev_step WaitUntilReady_dev H2; [by rewrite Hin|].
    intros r w4 [-> H4]. cbn [negb Z.eqb ENDPOINT_READYWAIT_NoError].
    eapply wp_mono; [apply IH; [done| |exact H4]|].
    + rewrite fn_lookup_insert. unfold ep_allowed. cbn [ep_bank commit length]. rewrite (proj2 (Nat.ltb_lt 0 _)) by lia. lia.
    + intros r w5 H5. eapply dev_ext; [|exact H5]. rewrite fn_lookup_insert. dev_eq; [|done]. cbn [replicate write_all foldl]. f_equal.
      unfold put_byte. cbn [ep_bank commit length]. by rewrite (proj2 (Nat.ltb_lt 0 _)), (proj2 (Nat.ltb_ge _ _)) by lia.
Qed.

Lemma Null_Stream_dev fuel n w0 e st w : 0 < e < 16 -> is_in e = true -> (0 < size e)%nat -> is_u16 n ->
  (2 * Z.to_nat n + 1 < fuel)%nat -> dev w0 e st w ->
  wp true (Endpoint_Null_Stream fuel n None)
    (fun r w' => dev w0 e (<[e := write_all (size e) (st e) (replicate (Z.to_nat n) 0)]> st) w') w.
Proof.
  intros He Hin Hsz Hn Hf H. unfold Endpoint_Null_Stream, FillStream. apply wp_bind.
  dev_step WaitUntilReady_dev H; [by rewrite Hin|]. intros r w1 [-> H1]. cbn [negb Z.eqb ENDPOINT_READYWAIT_NoError].
  unfold is_u16 in Hn. rewrite <- (Z2Nat.id n) at 1 by lia.
  apply null_loop_dev; try done; [lia|unfold is_u16; lia|destruct (ep_allowed _ _ _); lia].
Qed.
End Null.

(** A packet of the host after the other: reading all of them. *)
Lemma read_all_packets g rest : g <> [] -> Forall (fun p => p <> []) g ->
  read_all (length (concat g)) (g ++ rest) = [] :: rest.
Proof.
  induction g as [|p g IH]; intros Hne Hg; [done|]. inversion_clear Hg as [|? ? Hp Hg'].
  assert (forall k q r, read_all (length q + S k) (q :: r) = read_all (S k) ([] :: r)) as Hpk.
  { induction q as [|b q IHq]; intros r; [done|]. cbn [length plus]. cbn [read_all skip pop_byte]. apply IHq. }
  destruct g as [|p' g'].
  - cbn [concat Datatypes.app length]. rewrite app_nil_r, read_all_packet by lia. by rewrite drop_all.
  - change ((p :: p' :: g') ++ rest) with (p :: ((p' :: g') ++ rest)). cbn [concat]. rewrite length_app.
    change (concat (p' :: g')) with (p' ++ concat g') in IH. destruct (length (p' ++ concat g')) as [|k] eqn:E.
    { apply length_zero_iff_nil, app_nil in E as [E _]. inversion_clear Hg'. done. }
    rewrite Hpk. exact (IH ltac:(done) Hg').
Qed.

(** ** A controller that is the machine *)

Section Reference.
Context (is_in : Z -> bool) (size : Z -> nat) (q0 : Z -> list (list Z)).

Definition data_hw : Hardware :=
  {| hw_read := fun t r =>
       let e := selected t in
       let s := ep_state is_in q0 e t in
       match r with
       | UENUM => e
       | UECFG0X => if is_in e then bit EPDIR else 0
       | UEINTX =>
           if e =? 0 then 0
           else Z.lor (if ep_ready (is_in e) s then bit (if is_in e then TXINI else RXOUTI) else 0)
                      (if ep_allowed (is_in e) (size e) s then bit RWAL else 0)
       | UEBCHX => Z.shiftr (ep_count (is_in e) s) 8
       | UEBCLX => ep_count (is_in e) s
       | UEDATX => hd 0 (hd [] (ep_queue s))
       | UECONX => if ep_stalled s then bit STALLRQ else 0
       | _ => 0
       end;
     hw_irq := fun _ => false; hw_signature := fun _ => 0 |}.

Lemma queue_u8 : (forall e, Forall (Forall is_u8) (q0 e)) ->
  forall e t, Forall (Forall is_u8) (ep_queue (ep_state is_in q0 e t)).
Proof.
  intros H e t. induction t as [|ev t IH]; [apply H|].
  assert (forall s, Forall (Forall is_u8) (ep_queue s) -> Forall (Forall is_u8) (tail (ep_queue s))) as Ht.
  { intros s Hs. by destruct Hs. }
  assert (forall s, Forall (Forall is_u8) (ep_queue s) ->
    Forall (Forall is_u8) (ep_queue (ep_step (is_in e) ev s))) as Hstep.
  { intros s Hs. destruct ev as [[] v|[] v]; cbn; try done; repeat case_match; try done; cbn; auto.
    destruct (ep_queue s) as [|[|b p] l]; try done. inversion Hs as [|? ? Hp Hl]; subst.
    inversion Hp; subst. by constructor. }
  destruct ev as [r v|[] v]; cbn [ep_state]; case_match; cbn [flush ep_queue]; auto.
Qed.

Lemma data_host : (forall e, Forall (Forall is_u8) (q0 e)) -> DataHost (HW := data_hw) is_in size q0.
Proof.
  intros Hq. split; cbn -[ep_state ep_allowed ep_ready ep_count]; intros t; try done.
  - by intros ->.
  - intros e <- He. by destruct (is_in (selected t)).
  - intros e <- He. rewrite (proj2 (Z.eqb_neq _ _)) by done.
    destruct (is_in (selected t)), (ep_ready _ _), (ep_allowed _ _ _); done.
  - intros e <- He. rewrite (proj2 (Z.eqb_neq _ _)) by done.
    destruct (is_in (selected t)), (ep_ready _ _), (ep_allowed _ _ _); done.
  - by intros e <- He.
  - intros e b p ps <- He Hin E. rewrite E. cbn. apply u8_small.
    pose proof (queue_u8 Hq (selected t) t) as H. rewrite E in H.
    inversion H as [|? ? Hp]; subst. by inversion Hp.
  - intros e <- He. by destruct (ep_stalled _).
  - by destruct (ep_stalled _).
Qed.
End Reference.

(** ** Theorems *)

(** C14: Writing any amount of data to an IN endpoint terminates without error
    against a host that polls it: what reaches the bus is exactly the data, in
    order and after what the bank already held, in packets of the full endpoint
    size; the remainder, never empty, waits in the bank, and no other endpoint and
    no variable of the firmware is touched.  The bank size, the amount of data and
    the direction of the stream are arbitrary. *)
Theorem Write_Stream_packets {HW : Hardware} {is_in size q0} {DH : DataHost is_in size q0}
    {App} {EV : DeviceEvents App} {RQ : DeviceRequests App} fuel en buf Length e (w : World App) :
  0 < Length <= Z.of_nat (length buf) -> is_u16 Length -> Forall is_u8 buf ->
  (2 * Z.to_nat Length + 1 < fuel)%nat -> selected (tr w) = e -> 0 < e < 16 -> is_in e = true ->
  let s := ep_state is_in q0 e (tr w) in
  (0 < size e)%nat -> (length (ep_bank s) <= size e)%nat ->
  exists ext ps b,
    let w' := upd_tr (fun t => ext ++ t) w in
    Template_Endpoint_RW fuel en Endpoint_ClearIN transfer_write buf Length None w
      = Ret (buf, ENDPOINT_RWSTREAM_NoError, None) w' /\
    ep_state is_in q0 e (tr w') = mkEP b (ep_sent s ++ ps) (ep_queue s) (ep_stalled s) /\
    concat ps ++ b = ep_bank s ++ stream_bytes en buf Length /\
    Forall (fun p => length p = size e) ps /\ 0 < Z.of_nat (length b) <= Z.of_nat (size e) /\
    forall x, x <> e -> ep_state is_in q0 x (tr w') = ep_state is_in q0 x (tr w).
Proof.
  intros HL Hu Hb Hf Hs He Hin s Hsz Hbank.
  pose proof (dev_start (is_in := is_in) (q0 := q0) w) as H. rewrite Hs in H.
  destruct (wp_total_run _ _ _ (Write_Stream_dev en buf Length ltac:(lia) Hu Hb fuel None w e _ w
    ltac:(lia) He Hin Hsz ltac:(by left) H)) as (r & w' & Hrun & -> & [ext ->] & Hs' & Hst).
  destruct (write_all_spec (size e) s (stream_bytes en buf Length) Hsz Hbank)
    as (ps & b & Hw & Hc & Hps & Hbl).
  exists ext, ps, b. split; [done|]. split; [|split; [done|split; [done|split]]].
  - rewrite Hst, fn_lookup_insert. exact Hw.
  - assert (b <> []) as Hne.
    { assert (b = ep_bank (write_all (size e) s (stream_bytes en buf Length))) as -> by (by rewrite Hw).
      apply write_all_bank. intros E. pose proof (stream_bytes_length en buf Length ltac:(lia)) as El.
      rewrite E in El. cbn in El. lia. }
    destruct b; [done|]. cbn in *. lia.
  - intros x Hx. rewrite Hst. by rewrite fn_lookup_insert_ne.
Qed.

(** Reading from an OUT endpoint terminates without error once the host has
    sent enough: the buffer holds the first [Length] bytes the host sent, however
    they are split into packets, in stream order; the bytes after them are still in
    the endpoint, and nothing else is touched. *)
Theorem Read_Stream_receives {HW : Hardware} {is_in size q0} {DH : DataHost is_in size q0}
    {App} {EV : DeviceEvents App} {RQ : DeviceRequests App} fuel en buf Length e (w : World App) :
  0 < Length <= Z.of_nat (length buf) -> is_u16 Length ->
  selected (tr w) = e -> 0 < e < 16 -> is_in e = false ->
  let s := ep_state is_in q0 e (tr w) in
  Length <= Z.of_nat (length (concat (ep_queue s))) ->
  (Z.to_nat Length + length (ep_queue s) < fuel)%nat ->
  exists ext buf' q',
    let w' := upd_tr (fun t => ext ++ t) w in
    Template_Endpoint_RW fuel en Endpoint_ClearOUT transfer_read buf Length None w
      = Ret (buf', ENDPOINT_RWSTREAM_NoError, None) w' /\
    stream_bytes en buf' Length = take (Z.to_nat Length) (concat (ep_queue s)) /\
    length buf' = length buf /\ drop (Z.to_nat Length) buf' = drop (Z.to_nat Length) buf /\
    ep_state is_in q0 e (tr w') = with_queue q' s /\
    concat q' = drop (Z.to_nat Length) (concat (ep_queue s)) /\
    forall x, x <> e -> ep_state is_in q0 x (tr w') = ep_state is_in q0 x (tr w).
Proof.
  intros HL Hu Hs He Hin s Hd Hf.
  assert (ep_queue s <> []) as Hne by (intros E; rewrite E in Hd; cbn in Hd; lia).
  pose proof (dev_start (is_in := is_in) (q0 := q0) w) as H. rewrite Hs in H.
  destruct (wp_total_run _ _ _ (Read_Stream_dev en buf (concat (ep_queue s)) Length ltac:(lia) Hu Hd
    fuel None w e (fun x => ep_state is_in q0 x (tr w)) w Hf He Hin Hne eq_refl ltac:(by left) H)) as (r & w' & Hrun & buf' & -> & Hstored & [ext ->] & Hs' & Hst).
  exists ext, buf', (read_all (Z.to_nat Length) (ep_queue s)). destruct (Hstored) as (Hl & Hdr & _).
  split; [done|]. split; [apply (stored_all en Length buf); (done || lia)|]. split; [done|].
  split; [done|]. split; [by rewrite Hst, fn_lookup_insert|]. split; [apply concat_read_all; lia|].
  intros x Hx. rewrite Hst. by rewrite fn_lookup_insert_ne.
Qed.

(** Endpoint 1 is an IN endpoint, endpoint 2 an OUT endpoint with banks of 4 bytes;
    the host sends 7 bytes to the latter. *)
Definition pair_in (e : Z) : bool := e =? 1.
Definition pair_q (e : Z) : list (list Z) := if e =? 2 then [[1; 2; 3]; []; [4; 5; 6; 7]] else [].

Lemma pair_q_u8 e : Forall (Forall is_u8) (pair_q e).
Proof. unfold pair_q. destruct (_ =? _); repeat constructor; lia. Qed.

Definition pair_hw : Hardware := data_hw pair_in (fun _ => 4%nat) pair_q.
Definition pair_host : DataHost (HW := pair_hw) pair_in (fun _ => 4%nat) pair_q :=
  data_host _ _ _ pair_q_u8.

(** An application that answers no request. *)
Definition no_requests App : DeviceRequests App :=
  {| CALLBACK_USB_GetDescriptor := fun _ _ => (0, None);
     EVENT_USB_Device_ControlRequest := fun _ => mret tt;
     EVENT_USB_Device_ConfigurationChanged := fun _ => mret tt |}.

(** A configured device with endpoint [e] selected. *)
Definition selected_world {App} (a : App) (e : Z) : World App :=
  mkWorld [Wr UENUM e] true DEVICE_STATE_Configured (mkRequest 0 0 0 0 0) 1 false false true a.

Lemma Write_Stream_packets_witness :
  exists ext ps b,
    let w' := upd_tr (fun t => ext ++ t) (selected_world tt 1) in
    Template_Endpoint_RW (HW := pair_hw) (EV := no_events unit) (RQ := no_requests unit) 30 LE
      (Endpoint_ClearIN (HW := pair_hw)) transfer_write (replicate 10 9) 10 None (selected_world tt 1)
      = Ret (replicate 10 9, ENDPOINT_RWSTREAM_NoError, None) w' /\
    ep_state pair_in pair_q 1 (tr w') = mkEP b ([] ++ ps) [] false /\
    concat ps ++ b = [] ++ stream_bytes LE (replicate 10 9) 10 /\
    Forall (fun p => length p = 4%nat) ps /\ 0 < Z.of_nat (length b) <= Z.of_nat 4 /\
    forall x, x <> 1 -> ep_state pair_in pair_q x (tr w') = ep_state pair_in pair_q x (tr (selected_world tt 1)).
Proof.
  apply (Write_Stream_packets (DH := pair_host) (EV := no_events unit) (RQ := no_requests unit) 30 LE
           (replicate 10 9) 10 1 (selected_world tt 1)); cbn; try done; try lia.
  repeat constructor; lia.
Defined.

Lemma Read_Stream_receives_witness :
  exists ext buf' q',
    let w' := upd_tr (fun t => ext ++ t) (selected_world tt 2) in
    Template_Endpoint_RW (HW := pair_hw) (EV := no_events unit) (RQ := no_requests unit) 30 LE
      (Endpoint_ClearOUT (HW := pair_hw)) (transfer_read (HW := pair_hw)) (replicate 6 0) 5 None (selected_world tt 2)
      = Ret (buf', ENDPOINT_RWSTREAM_NoError, None) w' /\
    stream_bytes LE buf' 5 = take 5 [1; 2; 3; 4; 5; 6; 7] /\
    length buf' = length (replicate 6 0) /\ drop 5 buf' = drop 5 (replicate 6 0) /\
    ep_state pair_in pair_q 2 (tr w') = with_queue q' (ep_state pair_in pair_q 2 [Wr UENUM 2]) /\
    concat q' = drop 5 [1; 2; 3; 4; 5; 6; 7] /\
    forall x, x <> 2 -> ep_state pair_in pair_q x (tr w') = ep_state pair_in pair_q x (tr (selected_world tt 2)).
Proof.
  apply (Read_Stream_receives (DH := pair_host) (EV := no_events unit) (RQ := no_requests unit) 30 LE
           (replicate 6 0) 5 2 (selected_world tt 2)); cbn; try done; try lia.
Defined.
