(* ===== verification/SerialPort.v ===== *)
(** A port of two bulk endpoints as CDCClassDevice.c and PrinterClassDevice.c have it:
    the two drivers repeat the same functions, and differ in the condition under
    which the port works and in the structure that holds the endpoints.  [online] is
    that condition, [select_in] and [select_out] select the endpoints. *)

From stdpp Require Import base tactics option list numbers.
From Stdlib Require Import ZArith Lia.
From S2P Require Import Prelude Memory Hardware Endpoint USBController ControlStream DeviceStandardReq.
From S2P Require Import EndpointStream ClassDriver.

(** The results of the stdio stream functions. *)
Definition _FDEV_ERR : Z := -1.
Definition _FDEV_EOF : Z := -2.
Definition _FDEV_SETUP_RW : Z := 0x03.

(** The functions of a stdio stream. *)
Record FILE (App : Type) : Type := mkFILE {
  file_put : Z -> prog (World App) Z;
  file_get : prog (World App) Z;
  file_flags : Z
}.

Section SerialPort.
Context {HW : Hardware} {App : Type} {EV : DeviceEvents App} {RQ : DeviceRequests App}.
Context (fuel : nat).
Abbreviation P := (prog (World App)).
Context (online : P bool) (select_in select_out : P unit).

(** The stream functions return the error code. *)
Definition stream_error (m : P (list Z * Z * option Z)) : P Z :=
  r ← m; let '(_, e, _) := r in mret e.

Definition port_SendString (String : list Z) : P Z :=
  on ← online;
  if negb on then mret ENDPOINT_RWSTREAM_DeviceDisconnected
  else
    select_in;;
    n ← checked (strlen String);
    stream_error (Endpoint_Write_Stream_LE fuel String (u16 n) None).

Definition port_SendString_P (String : list Z) : P Z :=
  on ← online;
  if negb on then mret ENDPOINT_RWSTREAM_DeviceDisconnected
  else
    select_in;;
    n ← checked (strlen String);
    stream_error (Endpoint_Write_PStream_LE fuel String (u16 n) None).

Definition port_SendData (Buffer : list Z) (Length : Z) : P Z :=
  on ← online;
  if negb on then mret ENDPOINT_RWSTREAM_DeviceDisconnected
  else
    select_in;;
    stream_error (Endpoint_Write_Stream_LE fuel Buffer Length None).

Definition port_SendData_P (Buffer : list Z) (Length : Z) : P Z :=
  on ← online;
  if negb on then mret ENDPOINT_RWSTREAM_DeviceDisconnected
  else
    select_in;;
    stream_error (Endpoint_Write_PStream_LE fuel Buffer Length None).

Definition port_SendByte (Data : Z) : P Z :=
  on ← online;
  if negb on then mret ENDPOINT_RWSTREAM_DeviceDisconnected
  else
    select_in;;
    a ← Endpoint_IsReadWriteAllowed;
    ErrorCode ← (if negb a then Endpoint_ClearIN;; Endpoint_WaitUntilReady fuel
                 else mret ENDPOINT_READYWAIT_NoError);
    if negb (ErrorCode =? ENDPOINT_READYWAIT_NoError) then mret ErrorCode
    else Endpoint_Write_8 Data;; mret ENDPOINT_READYWAIT_NoError.

Definition port_Flush : P Z :=
  on ← online;
  if negb on then mret ENDPOINT_RWSTREAM_DeviceDisconnected
  else
    select_in;;
    n ← Endpoint_BytesInEndpoint;
    if n =? 0 then mret ENDPOINT_READYWAIT_NoError
    else
      a ← Endpoint_IsReadWriteAllowed;
      let BankFull := negb a in
      Endpoint_ClearIN;;
      if BankFull then
        ErrorCode ← Endpoint_WaitUntilReady fuel;
        if negb (ErrorCode =? ENDPOINT_READYWAIT_NoError) then mret ErrorCode
        else Endpoint_ClearIN;; mret ENDPOINT_READYWAIT_NoError
      else mret ENDPOINT_READYWAIT_NoError.

(** The automatic flush of the drivers' tasks. *)
Definition port_autoflush : P unit :=
  select_in;;
  r ← Endpoint_IsINReady;
  when r (port_Flush;; mret tt).

Definition port_BytesReceived : P Z :=
  on ← online;
  if negb on then mret 0
  else
    select_out;;
    r ← Endpoint_IsOUTReceived;
    if r : bool then
      n ← Endpoint_BytesInEndpoint;
      if n =? 0 then Endpoint_ClearOUT;; mret 0
      else Endpoint_BytesInEndpoint
    else mret 0.

Definition port_ReceiveByte : P Z :=
  on ← online;
  if negb on then mret (-1)
  else
    select_out;;
    r ← Endpoint_IsOUTReceived;
    if r : bool then
      n ← Endpoint_BytesInEndpoint;
      ReceivedByte ← (if negb (n =? 0) then Endpoint_Read_8 else mret (-1));
      n ← Endpoint_BytesInEndpoint;
      when (n =? 0) Endpoint_ClearOUT;;
      mret ReceivedByte
    else mret (-1).

(** ** The stdio streams *)

Definition port_putchar (c : Z) : P Z :=
  e ← port_SendByte (u8 c); mret (if negb (e =? 0) then _FDEV_ERR else 0).

Definition port_getchar : P Z :=
  ReceivedByte ← port_ReceiveByte;
  mret (if ReceivedByte <? 0 then _FDEV_EOF else ReceivedByte).

(** [task] is the driver's task. *)
Fixpoint getchar_loop (task : P unit) (n : nat) : P Z :=
  match n with
  | O => nofuel
  | S n =>
      ReceivedByte ← port_ReceiveByte;
      if ReceivedByte <? 0 then
        st ← poll_DeviceState fuel;
        if st =? DEVICE_STATE_Unattached then mret _FDEV_EOF
        else task;; USB_USBTask fuel;; getchar_loop task n
      else mret ReceivedByte
  end.
Definition port_getchar_Blocking (task : P unit) : P Z := getchar_loop task fuel.
End SerialPort.
