(* ===== verification/SerialPortSpec.v ===== *)
(** Correctness of the functions of a port (SerialPort.v), for every driver that
    promises [OpenPort]: what is sent reaches the host, and what the host sends is
    received. *)

From stdpp Require Import base tactics option list numbers fin_maps functions.
From Stdlib Require Import ZArith Lia.
From S2P Require Import Prelude Memory Hardware Endpoint USBController ControlStream DeviceStandardReq.
From S2P Require Import EndpointStream ControlTransfer ControlReceive DataEndpoint.
From S2P Require Import DataStream ClassDriver SerialPort.

(** ** Sending *)

(** What a firmware sends through the port. *)
Inductive tx_op : Set :=
  | TxByte (Data : Z)
  | TxData (Buffer : list Z) (Length : Z)
  | TxString (String : list Z)
  | TxFlush
  | TxTask.

(** A sequence of them that succeeds. *)
Fixpoint run_all {W} (run : tx_op -> prog W Z) (ops : list tx_op) : prog W bool :=
  match ops with
  | [] => mret true
  | op :: ops => e ← run op; if e =? 0 then run_all run ops else mret false
  end.

Lemma run_all_ext {W} (run run' : tx_op -> prog W Z) ops w :
  (forall op w, run op w = run' op w) -> run_all run ops w = run_all run' ops w.
Proof.
  intros H. revert w; induction ops as [|op ops IH]; intros w; [done|]. cbn [run_all].
  unfold mbind, prog_bind. rewrite H. destruct (run' op w) as [e w1| |]; try done. destruct (e =? 0); [apply IH|done].
Qed.

(** The bytes an operation sends, and its well-formedness. *)
Definition tx_bytes (op : tx_op) : list Z :=
  match op with
  | TxByte Data => [Data]
  | TxData Buffer Length => take (Z.to_nat Length) Buffer
  | TxString String => match strlen String with Some n => take (Z.to_nat n) String | None => [] end
  | TxFlush | TxTask => []
  end.
Definition tx_ok (fuel : nat) (op : tx_op) : Prop :=
  match op with
  | TxByte Data => is_u8 Data
  | TxData Buffer Length => Forall is_u8 Buffer /\ 0 <= Length <= Z.of_nat (length Buffer) /\
      is_u16 Length /\ (2 * Z.to_nat Length + 1 < fuel)%nat
  | TxString String => exists n, strlen String = Some n /\ Forall is_u8 String /\ is_u16 n /\
      (2 * Z.to_nat n + 1 < fuel)%nat
  | TxFlush | TxTask => True
  end.

(** On the reference machine: a waiting packet is sent, and a full one is followed by
    an empty packet that ends the transfer. *)
Definition flushed (size : nat) (s : EPState) : EPState :=
  match ep_bank s with
  | [] => s
  | b => if (length b <? size)%nat then commit s else commit (commit s)
  end.
Definition tx_step (size : nat) (s : EPState) (op : tx_op) : EPState :=
  match op with
  | TxByte Data => put_byte size s Data
  | TxData _ _ | TxString _ => write_all size s (tx_bytes op)
  | TxFlush | TxTask => flushed size s
  end.

(** Since [s0] the machine sent packets that fit the endpoint and, with the bank,
    hold [bs]; when the bank is empty the last one was short. *)
Definition tx_inv (size : nat) (s0 : EPState) (bs : list Z) (s : EPState) : Prop :=
  exists ps, ep_sent s = ep_sent s0 ++ ps /\ concat ps ++ ep_bank s = ep_bank s0 ++ bs /\
    Forall (fun p => (length p <= size)%nat) ps /\ (length (ep_bank s) <= size)%nat /\
    (ep_bank s = [] -> ps = [] \/ exists qs p, ps = qs ++ [p] /\ (length p < size)%nat) /\
    ep_queue s = ep_queue s0 /\ ep_stalled s = ep_stalled s0.

Lemma tx_inv_start size s : (length (ep_bank s) <= size)%nat -> tx_inv size s [] s.
Proof. intros H. exists []. rewrite !app_nil_r. repeat split; auto. Qed.

Lemma tx_inv_put size s0 bs s x : (0 < size)%nat -> tx_inv size s0 bs s ->
  tx_inv size s0 (bs ++ [x]) (put_byte size s x).
Proof.
  intros Hsz (ps & Hs & Hc & Hp & Hb & _ & Hq). unfold put_byte.
  destruct (_ <? _)%nat eqn:E; [apply Nat.ltb_lt in E|apply Nat.ltb_ge in E].
  - exists ps. cbn. rewrite length_app, !app_assoc, Hc. cbn. split_and!; try done; try apply Hq; [lia|].
    by intros [_ ?]%app_nil.
  - exists (ps ++ [ep_bank s]). cbn. rewrite Hs, <- app_assoc, concat_app. cbn.
    rewrite app_nil_r, Hc. split_and!; try done; try apply Hq; [by rewrite app_assoc|].
    apply Forall_app. by repeat constructor.
Qed.

Lemma tx_inv_write size s0 bs s l : (0 < size)%nat -> tx_inv size s0 bs s ->
  tx_inv size s0 (bs ++ l) (write_all size s l).
Proof.
  intros Hsz. revert bs s; induction l as [|x l IH]; intros bs s H; [by rewrite app_nil_r|].
  cbn. change (foldl (put_byte size)) with (write_all size).
  replace (bs ++ x :: l) with ((bs ++ [x]) ++ l) by (by rewrite <- app_assoc).
  apply IH. by apply tx_inv_put.
Qed.

Lemma tx_inv_flush size s0 bs s : (0 < size)%nat -> tx_inv size s0 bs s ->
  tx_inv size s0 bs (flushed size s) /\ ep_bank (flushed size s) = [].
Proof.
  intros Hsz (ps & Hs & Hc & Hp & Hb & Hl & Hq). unfold flushed.
  destruct (ep_bank s) as [|x l] eqn:E; [split; [|done]; exists ps; by rewrite E|].
  destruct (_ <? _)%nat eqn:El; [apply Nat.ltb_lt in El|apply Nat.ltb_ge in El]; (split; [|done]).
  - exists (ps ++ [x :: l]). cbn. rewrite E, Hs, <- app_assoc, concat_app. cbn in *.
    rewrite !app_nil_r, Hc. split_and!; try done; try apply Hq; [apply Forall_app; by repeat constructor|lia|].
    right. by exists ps, (x :: l).
  - exists (ps ++ [x :: l; []]). cbn. rewrite E, Hs, <- !app_assoc, concat_app. cbn in *.
    rewrite !app_nil_r, Hc. split_and!; try done; try apply Hq; [|lia|].
    + apply Forall_app. repeat constructor; [done|done|cbn; lia].
    + right. exists (ps ++ [x :: l]), []. split; [by rewrite <- app_assoc|cbn; lia].
Qed.

Lemma tx_inv_step size s0 bs s op : (0 < size)%nat -> tx_inv size s0 bs s ->
  tx_inv size s0 (bs ++ tx_bytes op) (tx_step size s op).
Proof.
  intros Hsz H. destruct op; cbn [tx_step].
  - by apply tx_inv_put.
  - by apply tx_inv_write.
  - by apply tx_inv_write.
  - cbn. rewrite app_nil_r. by apply tx_inv_flush.
  - cbn. rewrite app_nil_r. by apply tx_inv_flush.
Qed.

Lemma tx_inv_all size s0 bs s ops : (0 < size)%nat -> tx_inv size s0 bs s ->
  tx_inv size s0 (bs ++ concat (map tx_bytes ops)) (foldl (tx_step size) s ops).
Proof.
  intros Hsz. revert bs s; induction ops as [|op ops IH]; intros bs s H; cbn; [by rewrite app_nil_r|].
  rewrite app_assoc. apply IH. by apply tx_inv_step.
Qed.

(** ** The interface of a driver *)

(** What a driver has: the condition, the selections and its task. *)
Record Port (App : Type) : Type := mkPort {
  online : prog (World App) bool;
  select_in : prog (World App) unit;
  select_out : prog (World App) unit;
  task : prog (World App) unit
}.
Arguments online {App}.
Arguments select_in {App}.
Arguments select_out {App}.
Arguments task {App}.

(** The functions of the port. *)
Definition run_tx {HW : Hardware} {App} {EV : DeviceEvents App} {RQ : DeviceRequests App}
    (fuel : nat) (pt : Port App) (op : tx_op) : prog (World App) Z :=
  match op with
  | TxByte Data => port_SendByte fuel (online pt) (select_in pt) Data
  | TxData Buffer Length => port_SendData fuel (online pt) (select_in pt) Buffer Length
  | TxString String => port_SendString fuel (online pt) (select_in pt) String
  | TxFlush => port_Flush fuel (online pt) (select_in pt)
  | TxTask => task pt;; mret 0
  end.

(** What it promises from the world [w0] on, as long as only registers are accessed:
    the port works and its endpoints are [ein] and [eout]. *)
Class OpenPort {HW : Hardware} {App} (is_in : Z -> bool) (size : Z -> nat) (q0 : Z -> list (list Z))
    (pt : Port App) (ein eout : Z) (w0 : World App) : Prop := {
  op_online e st w : dev (is_in := is_in) (q0 := q0) w0 e st w ->
    wp true (online pt) (fun r w' => r = true /\ dev (is_in := is_in) (q0 := q0) w0 e st w') w;
  op_in e st w : dev (is_in := is_in) (q0 := q0) w0 e st w ->
    wp true (select_in pt) (fun _ => dev (is_in := is_in) (q0 := q0) w0 ein st) w;
  op_out e st w : dev (is_in := is_in) (q0 := q0) w0 e st w ->
    wp true (select_out pt) (fun _ => dev (is_in := is_in) (q0 := q0) w0 eout st) w;
  op_ein : 0 < ein < 16 /\ is_in ein = true /\ 0 < Z.of_nat (size ein) < 65536;
  op_eout : 0 < eout < 16 /\ is_in eout = false
}.

(** The task flushes. *)
Class FlushingTask {HW : Hardware} {App} (is_in : Z -> bool) (size : Z -> nat) (q0 : Z -> list (list Z))
    (pt : Port App) (ein : Z) (w0 : World App) : Prop :=
  op_task e st w : (length (ep_bank (st ein)) <= size ein)%nat -> dev (is_in := is_in) (q0 := q0) w0 e st w ->
    wp true (task pt)
      (fun _ => dev (is_in := is_in) (q0 := q0) w0 ein (<[ein := flushed (size ein) (st ein)]> st)) w.

Section Port.
Context {HW : Hardware} {is_in : Z -> bool} {size : Z -> nat} {q0 : Z -> list (list Z)}.
Context {DH : DataHost is_in size q0} {App : Type} {EV : DeviceEvents App} {RQ : DeviceRequests App}.
Context (pt : Port App) (ein eout : Z) (w0 : World App) {OP : OpenPort is_in size q0 pt ein eout w0}.
Abbreviation dev := (dev (is_in := is_in) (q0 := q0) (App := App) w0).

(** The prologue of every function. *)
Lemma online_in {A} (r : A) (k : prog (World App) A) Q e st w : dev e st w ->
  (forall w', dev ein st w' -> wp true k Q w') ->
  wp true (on ← online pt; if negb on then mret r else select_in pt;; k) Q w.
Proof.
  intros H Hk. apply wp_bind. eapply wp_mono; [by apply op_online|]. intros on w1 [-> H1].
  apply wp_bind. eapply wp_mono; [by eapply op_in|]. intros [] w2 H2. by apply Hk.
Qed.

Lemma online_out {A} (r : A) (k : prog (World App) A) Q e st w : dev e st w ->
  (forall w', dev eout st w' -> wp true k Q w') ->
  wp true (on ← online pt; if negb on then mret r else select_out pt;; k) Q w.
Proof.
  intros H Hk. apply wp_bind. eapply wp_mono; [by apply op_online|]. intros on w1 [-> H1].
  apply wp_bind. eapply wp_mono; [by eapply op_out|]. intros [] w2 H2. by apply Hk.
Qed.

Lemma SendByte_dev fuel x e st w : (0 < fuel)%nat -> is_u8 x -> dev e st w ->
  wp true (port_SendByte fuel (online pt) (select_in pt) x)
    (fun r w' => r = 0 /\ dev ein (<[ein := put_byte (size ein) (st ein) x]> st) w') w.
Proof.
  intros Hf Hx H. destruct op_ein as (He & Hin & Hsz).
  apply online_in with (e := e) (st := st); [done|]. intros w1 H1.
  apply wp_bind. dev_step IsReadWriteAllowed_dev H1. intros a w2 [-> H2]. rewrite Hin. cbn [ep_allowed].
  apply wp_bind. destruct (_ <? _)%nat eqn:E; cbn [negb].
  - apply wp_ret. cbn [negb Z.eqb ENDPOINT_READYWAIT_NoError]. apply wp_bind.
    dev_step Write_8_dev H2. intros [] w3 H3. apply wp_ret. split; [done|].
    unfold put_byte. by rewrite E.
  - apply wp_bind. dev_step ClearIN_dev H2. intros [] w3 H3.
    dev_step WaitUntilReady_dev H3; [by rewrite Hin|]. intros r w4 [-> H4].
    cbn [negb Z.eqb ENDPOINT_READYWAIT_NoError]. apply wp_bind. dev_step Write_8_dev H4.
    intros [] w5 H5. apply wp_ret. split; [done|]. eapply dev_ext; [|exact H5].
    rewrite fn_lookup_insert. dev_eq; [|done]. unfold put_byte. by rewrite E.
Qed.

(** The stream functions, once the endpoint is selected. *)
Lemma stream_dev fuel buf n st w : Forall is_u8 buf -> 0 <= n <= Z.of_nat (length buf) -> is_u16 n ->
  (2 * Z.to_nat n + 1 < fuel)%nat -> dev ein st w ->
  wp true (stream_error (Endpoint_Write_Stream_LE fuel buf n None))
    (fun r w' => r = 0 /\ dev ein (<[ein := write_all (size ein) (st ein) (take (Z.to_nat n) buf)]> st) w') w.
Proof.
  intros Hu Hn H16 Hf H. destruct op_ein as (He & Hin & Hsz).
  unfold stream_error, Endpoint_Write_Stream_LE. apply wp_bind.
  dev_step (Write_Stream_dev LE buf n) H; [by left|]. intros r w1 [-> H1]. by apply wp_ret.
Qed.

Lemma Flush_dev fuel e st w : (0 < fuel)%nat -> (length (ep_bank (st ein)) <= size ein)%nat -> dev e st w ->
  wp true (port_Flush fuel (online pt) (select_in pt))
    (fun r w' => r = 0 /\ dev ein (<[ein := flushed (size ein) (st ein)]> st) w') w.
Proof.
  intros Hf Hb H. destruct op_ein as (He & Hin & Hsz).
  apply online_in with (e := e) (st := st); [done|]. intros w1 H1.
  apply wp_bind. dev_step BytesInEndpoint_dev H1. intros n w2 [-> H2]. rewrite Hin. unfold ep_count.
  rewrite u16_small by (unfold is_u16; lia). destruct (_ =? 0) eqn:E; bool_hyps.
  { apply wp_ret. split; [done|]. eapply dev_ext; [|exact H2]. dev_eq; [|done]. unfold flushed.
    destruct (ep_bank (st ein)); [done|cbn in *; lia]. }
  assert (flushed (size ein) (st ein) = if (length (ep_bank (st ein)) <? size ein)%nat
    then commit (st ein) else commit (commit (st ein))) as ->.
  { unfold flushed. destruct (ep_bank (st ein)); [cbn in *; lia|done]. }
  apply wp_bind. dev_step IsReadWriteAllowed_dev H2. intros a w3 [-> H3]. rewrite Hin. cbn [ep_allowed].
  apply wp_bind. dev_step ClearIN_dev H3. intros [] w4 H4. destruct (_ <? _)%nat eqn:El; cbn [negb].
  - by apply wp_ret.
  - apply wp_bind. dev_step WaitUntilReady_dev H4; [by rewrite Hin|]. intros r w5 [-> H5].
    cbn [negb Z.eqb ENDPOINT_READYWAIT_NoError]. apply wp_bind. dev_step ClearIN_dev H5.
    intros [] w6 H6. apply wp_ret. split; [done|]. eapply dev_ext; [|exact H6].
    rewrite fn_lookup_insert. dev_eq; done.
Qed.

(** The automatic flush of a task. *)
Lemma autoflush_dev fuel e st w : (0 < fuel)%nat -> (length (ep_bank (st ein)) <= size ein)%nat -> dev e st w ->
  wp true (port_autoflush fuel (online pt) (select_in pt))
    (fun _ => dev ein (<[ein := flushed (size ein) (st ein)]> st)) w.
Proof.
  intros Hf Hb H. destruct op_ein as (He & Hin & Hsz). apply wp_bind. eapply wp_mono; [by eapply op_in|].
  intros [] w1 H1. apply wp_bind. dev_step IsINReady_dev H1. intros r w2 [-> H2]. cbn [when]. apply wp_bind.
  eapply wp_mono; [by eapply Flush_dev|]. intros r w3 [-> H3]. by apply wp_ret.
Qed.

Context {FT : FlushingTask is_in size q0 pt ein w0}.

Lemma run_tx_dev fuel op e st w : (0 < fuel)%nat -> tx_ok fuel op ->
  (length (ep_bank (st ein)) <= size ein)%nat -> dev e st w ->
  wp true (run_tx fuel pt op) (fun r w' => r = 0 /\ dev ein (<[ein := tx_step (size ein) (st ein) op]> st) w') w.
Proof.
  intros Hf Hok Hb H. destruct op_ein as (He & Hin & Hsz).
  destruct op as [x|buf n|s| |]; cbn [run_tx tx_step tx_ok tx_bytes] in *.
  - by eapply SendByte_dev.
  - destruct Hok as (Hu & Hn & H16 & Hfu). apply online_in with (e := e) (st := st); [done|].
    intros w1 H1. by apply stream_dev.
  - destruct Hok as (n & Es & Hu & H16 & Hfu). rewrite Es.
    apply online_in with (e := e) (st := st); [done|]. intros w1 H1.
    apply wp_bind. eapply wp_checked; [exact Es|]. rewrite u16_small by done. apply strlen_bounds in Es.
    apply stream_dev; try done. lia.
  - by eapply Flush_dev.
  - apply wp_bind. eapply wp_mono; [by eapply op_task|]. intros [] w1 H1. by apply wp_ret.
Qed.

Lemma run_all_dev fuel s0 bs ops e st w : (0 < fuel)%nat -> Forall (tx_ok fuel) ops ->
  tx_inv (size ein) s0 bs (st ein) -> dev e st w -> ops <> [] ->
  wp true (run_all (run_tx fuel pt) ops) (fun r w' => r = true /\
    dev ein (<[ein := foldl (tx_step (size ein)) (st ein) ops]> st) w') w.
Proof.
  intros Hf Hok. destruct op_ein as (He & Hin & Hsz). revert bs e st w.
  induction Hok as [|op ops Hop Hops IH]; intros bs e st w Hinv H Hne; [done|].
  cbn [run_all foldl]. apply wp_bind. destruct (Hinv) as (ps & _ & _ & _ & Hb & _).
  eapply wp_mono; [by apply (run_tx_dev fuel op e st)|]. intros r w1 [-> H1]. cbn [Z.eqb].
  destruct ops as [|op' ops]; [by apply wp_ret|].
  eapply wp_mono; [eapply (IH (bs ++ tx_bytes op)); [|exact H1|done]|].
  - rewrite fn_lookup_insert. apply tx_inv_step; [lia|done].
  - intros r w2 [-> H2]. split; [done|]. eapply dev_ext; [|exact H2].
    rewrite fn_lookup_insert. dev_eq; done.
Qed.
End Port.

(** What is sent reaches the host. *)
Lemma port_transmits {HW : Hardware} {is_in size q0} {DH : DataHost is_in size q0}
    {App} {EV : DeviceEvents App} {RQ : DeviceRequests App} (pt : Port App)
    fuel ein eout ops (w : World App) : (0 < fuel)%nat -> OpenPort is_in size q0 pt ein eout w ->
  FlushingTask is_in size q0 pt ein w -> Forall (tx_ok fuel) ops ->
  let s := ep_state is_in q0 ein (tr w) in
  (length (ep_bank s) <= size ein)%nat ->
  exists ext ps, let w' := upd_tr (fun t => ext ++ t) w in
    run_all (run_tx fuel pt) (ops ++ [TxFlush]) w = Ret true w' /\
    ep_state is_in q0 ein (tr w') = mkEP [] (ep_sent s ++ ps) (ep_queue s) (ep_stalled s) /\
    concat ps = ep_bank s ++ concat (map tx_bytes ops) /\
    Forall (fun p => (length p <= size ein)%nat) ps /\
    (ps = [] \/ exists qs p, ps = qs ++ [p] /\ (length p < size ein)%nat) /\
    forall x, x <> ein -> ep_state is_in q0 x (tr w') = ep_state is_in q0 x (tr w).
Proof.
  intros Hf Ho Ht Hok s Hb. destruct op_ein as (_ & _ & Hsz).
  pose proof (tx_inv_start (size ein) s Hb) as Hinv.
  destruct (wp_total_run _ _ _ (run_all_dev pt ein eout w fuel s [] (ops ++ [TxFlush]) _ (fun x => ep_state is_in q0 x (tr w)) w Hf
    ltac:(apply Forall_app; by repeat constructor) Hinv (dev_start w) ltac:(by destruct ops)))
    as (r & w' & Hrun & -> & [ext ->] & _ & Hst).
  fold s in Hst.
  pose proof (tx_inv_all (size ein) s [] s ops ltac:(lia) Hinv) as Hall. cbn [Datatypes.app] in Hall.
  destruct (tx_inv_flush (size ein) _ _ _ ltac:(lia) Hall) as [(ps & Hs & Hc & Hp & _ & Hl & Hq & Hstl) Hbank].
  pose proof (Hst ein) as Hein. rewrite fn_lookup_insert, foldl_app in Hein. cbn [foldl tx_step] in Hein.
  rewrite Hbank, app_nil_r in Hc. exists ext, ps. split_and!; try done; [|by apply Hl|].
  - rewrite Hein, <- Hs, <- Hq, <- Hstl, <- Hbank. by destruct (flushed _ _).
  - intros x Hx. rewrite Hst. by rewrite fn_lookup_insert_ne.
Qed.

(** ** Receiving *)

(** A call takes a byte, and a packet that is used up is released. *)
Definition rx_step (q : list (list Z)) : option Z * list (list Z) :=
  match q with
  | [] => (None, [])
  | [] :: ps => (None, ps)
  | [b] :: ps => (Some b, ps)
  | (b :: p) :: ps => (Some b, p :: ps)
  end.

(** The bytes [n] calls deliver, and the packets that are left. *)
Fixpoint rx_all (n : nat) (q : list (list Z)) : list Z * list (list Z) :=
  match n with
  | O => ([], q)
  | S n =>
      let '(b, q1) := rx_step q in
      let '(bs, q2) := rx_all n q1 in (option_list b ++ bs, q2)
  end.

(** [n] calls of a receive function; a negative result is no data. *)
Fixpoint receive {W} (recv : prog W Z) (n : nat) : prog W (list Z) :=
  match n with
  | O => mret []
  | S n => b ← recv; bs ← receive recv n; mret (if b <? 0 then bs else b :: bs)
  end.

(** Packets the byte counter can count. *)
Definition countable (q : list (list Z)) : Prop := Forall (fun p => Z.of_nat (length p) < 65536) q.

Lemma countable_rx q : countable q -> countable (rx_step q).2.
Proof.
  intros H. destruct H as [|[|b [|c p]] ps Hp Hps]; cbn; try done; [constructor|].
  constructor; [cbn in *; lia|done].
Qed.

Lemma rx_all_bank n p ps : (n < length p)%nat -> rx_all n (p :: ps) = (take n p, drop n p :: ps).
Proof.
  revert p; induction n as [|n IH]; intros p Hn; [by rewrite drop_0|].
  destruct p as [|b [|c p]]; cbn in Hn; [lia..|]. cbn [rx_all rx_step].
  rewrite IH by (cbn; lia). done.
Qed.

Lemma rx_all_packet p ps : p <> [] -> rx_all (length p) (p :: ps) = (p, ps).
Proof.
  induction p as [|b p IH]; [done|]. intros _. cbn [length rx_all rx_step].
  destruct p as [|c p]; [done|]. by rewrite IH.
Qed.

Lemma rx_all_none n : rx_all n [] = ([], []).
Proof. induction n as [|n IH]; [done|]. cbn. by rewrite IH. Qed.

Lemma rx_all_complete n q : (length (concat q) + length q <= n)%nat -> rx_all n q = (concat q, []).
Proof.
  revert q; induction n as [|n IH]; intros q Hn; [by destruct q; cbn in Hn; [|lia]|].
  destruct q as [|[|b p] ps]; [apply rx_all_none|..]; cbn [rx_all rx_step].
  - cbn in Hn. rewrite IH by lia. done.
  - cbn in Hn. rewrite length_app in Hn. destruct p as [|c p]; cbn in Hn; rewrite IH; try done.
    + lia.
    + cbn. rewrite length_app. lia.
Qed.

Section Receive.
Context {HW : Hardware} {is_in : Z -> bool} {size : Z -> nat} {q0 : Z -> list (list Z)}.
Context {DH : DataHost is_in size q0} {App : Type} {EV : DeviceEvents App} {RQ : DeviceRequests App}.
Context (pt : Port App) (ein eout : Z) (w0 : World App) {OP : OpenPort is_in size q0 pt ein eout w0}.
Abbreviation dev := (dev (is_in := is_in) (q0 := q0) (App := App) w0).

(** Releasing a packet that has been read. *)
Lemma release_dev st w : Z.of_nat (length (hd [] (ep_queue (st eout)))) < 65536 -> dev eout st w ->
  wp true (n ← Endpoint_BytesInEndpoint; when (n =? 0) Endpoint_ClearOUT)
    (fun _ => dev eout (<[eout := with_queue (match ep_queue (st eout) with [] :: ps => ps | q => q end)
                                   (st eout)]> st)) w.
Proof.
  intros Hc H. destruct op_eout as (He & Hout).
  apply wp_bind. dev_step BytesInEndpoint_dev H. intros n w1 [-> H1]. rewrite Hout. unfold ep_count.
  rewrite u16_small by (unfold is_u16; lia). destruct (ep_queue (st eout)) as [|[|b p] ps] eqn:Eq; cbn.
  - dev_step ClearOUT_dev H1. intros [] w2 H2. by rewrite Eq in H2.
  - dev_step ClearOUT_dev H1. intros [] w2 H2. by rewrite Eq in H2.
  - apply wp_ret. eapply dev_ext; [|exact H1]. dev_eq; [|done]. rewrite <- Eq. by destruct (st eout).
Qed.

Lemma ReceiveByte_dev e st w : countable (ep_queue (st eout)) -> dev e st w ->
  wp true (port_ReceiveByte (online pt) (select_out pt)) (fun r w' =>
    r = default (-1) (rx_step (ep_queue (st eout))).1 /\
    (forall b, (rx_step (ep_queue (st eout))).1 = Some b -> 0 <= b) /\
    dev eout (<[eout := with_queue (rx_step (ep_queue (st eout))).2 (st eout)]> st) w') w.
Proof.
  intros Hc H. destruct op_eout as (He & Hout).
  apply (online_out pt ein eout w0) with (e := e) (st := st); [done|]. intros w1 H1.
  apply wp_bind. dev_step IsOUTReceived_dev H1. intros r w2 [-> H2]. cbn [ep_ready].
  destruct (ep_queue (st eout)) as [|p ps] eqn:Eq.
  { apply wp_ret. split_and!; try done. eapply dev_ext; [|exact H2]. cbn. rewrite <- Eq. dev_eq; [|done].
    by destruct (st eout). }
  assert (Z.of_nat (length p) < 65536) as Hp by (by inversion Hc).
  apply wp_bind. dev_step BytesInEndpoint_dev H2. intros n w3 [-> H3]. rewrite Hout. unfold ep_count.
  rewrite Eq. cbn [hd]. rewrite u16_small by (unfold is_u16; lia). apply wp_bind.
  destruct p as [|b p]; cbn [length Z.eqb negb].
  - apply wp_ret, wp_assoc, wp_bind. eapply wp_mono; [apply release_dev; [by rewrite Eq|exact H3]|].
    intros [] w4 H4. apply wp_ret. rewrite Eq in H4. done.
  - dev_step Read_8_dev H3. intros v w4 [-> H4]. apply wp_assoc, wp_bind.
    assert (0 <= b) as Hb0.
    { destruct H3 as (_ & Hs & Hst). rewrite <- Hst in Eq.
      rewrite <- (dh_data _ eout b p ps Hs ltac:(lia) Hout Eq). apply u8_range. }
    eapply wp_mono; [eapply release_dev; [|exact H4]; rewrite fn_lookup_insert; cbn in *; lia|].
    intros [] w5 H5. apply wp_ret. rewrite fn_lookup_insert in H5. cbn [ep_queue with_queue] in H5.
    split_and!; [by destruct p| |].
    + intros b' Hb'. assert (b' = b) as -> by (destruct p; by injection Hb'). done.
    + eapply dev_ext; [|exact H5]. destruct p; dev_eq; done.
Qed.

Lemma receive_dev n e st w : countable (ep_queue (st eout)) -> dev e st w -> (0 < n)%nat ->
  wp true (receive (port_ReceiveByte (online pt) (select_out pt)) n) (fun r w' => r = (rx_all n (ep_queue (st eout))).1 /\
    dev eout (<[eout := with_queue (rx_all n (ep_queue (st eout))).2 (st eout)]> st) w') w.
Proof.
  revert e st w; induction n as [|n IH]; intros e st w Hc H Hn; [lia|]. cbn [receive rx_all].
  apply wp_bind. eapply wp_mono; [by apply (ReceiveByte_dev e st)|]. intros r w1 (-> & Hb & H1).
  pose proof (countable_rx _ Hc) as Hc1. destruct (rx_step (ep_queue (st eout))) as [b q1]. cbn in *.
  assert (wp true (receive (port_ReceiveByte (online pt) (select_out pt)) n) (fun r w' => r = (rx_all n q1).1 /\
    dev eout (<[eout := with_queue (rx_all n q1).2 (st eout)]> st) w') w1) as Hrest.
  { destruct n as [|n].
    - apply wp_ret. split; [done|]. exact H1.
    - eapply wp_mono; [eapply (IH eout); [|exact H1|lia]; by rewrite fn_lookup_insert|].
      rewrite fn_lookup_insert. intros r w2 [-> H2]. split; [done|]. eapply dev_ext; [|exact H2].
      dev_eq; done. }
  apply wp_bind. eapply wp_mono; [exact Hrest|]. intros r w2 [-> H2]. apply wp_ret.
  destruct (rx_all n q1) as [bs q2]. destruct b as [b|]; cbn; [|done]. split; [|done].
  rewrite (proj2 (Z.ltb_ge b 0)); [done|]. by apply Hb.
Qed.

Lemma BytesReceived_dev e st w p ps : ep_queue (st eout) = p :: ps -> p <> [] ->
  Z.of_nat (length p) < 65536 -> dev e st w ->
  wp true (port_BytesReceived (online pt) (select_out pt)) (fun r w' => r = Z.of_nat (length p) /\ dev eout st w') w.
Proof.
  intros Eq Hne Hp H. destruct op_eout as (He & Hout).
  apply (online_out pt ein eout w0) with (e := e) (st := st); [done|]. intros w1 H1.
  apply wp_bind. dev_step IsOUTReceived_dev H1. intros r w2 [-> H2]. cbn [ep_ready]. rewrite Eq.
  assert (u16 (ep_count false (st eout)) = Z.of_nat (length p)) as Hn.
  { unfold ep_count. rewrite Eq. cbn [hd]. apply u16_small. unfold is_u16. lia. }
  apply wp_bind. dev_step BytesInEndpoint_dev H2. intros n w3 [-> H3]. rewrite Hout, Hn.
  rewrite (proj2 (Z.eqb_neq _ 0)) by (destruct p; [done|cbn; lia]).
  dev_step BytesInEndpoint_dev H3. intros n w4 [-> H4]. by rewrite Hout, Hn.
Qed.
End Receive.

(** What the host sends is received. *)
Lemma port_receives {HW : Hardware} {is_in size q0} {DH : DataHost is_in size q0}
    {App} {EV : DeviceEvents App} {RQ : DeviceRequests App} (pt : Port App)
    ein eout n (w : World App) : OpenPort is_in size q0 pt ein eout w ->
  let s := ep_state is_in q0 eout (tr w) in
  countable (ep_queue s) ->
  (forall p ps, ep_queue s = p :: ps -> p <> [] ->
     exists w1 w2, port_BytesReceived (online pt) (select_out pt) w = Ret (Z.of_nat (length p)) w1 /\
       receive (port_ReceiveByte (online pt) (select_out pt)) (length p) w1 = Ret p w2 /\
       ep_state is_in q0 eout (tr w2) = with_queue ps s /\ app w2 = app w) /\
  ((length (concat (ep_queue s)) + length (ep_queue s) <= n)%nat -> (0 < n)%nat ->
     exists w1, receive (port_ReceiveByte (online pt) (select_out pt)) n w = Ret (concat (ep_queue s)) w1 /\
       ep_state is_in q0 eout (tr w1) = with_queue [] s /\ app w1 = app w /\
       forall x, x <> eout -> ep_state is_in q0 x (tr w1) = ep_state is_in q0 x (tr w)).
Proof.
  intros Ho s Hc. split.
  - intros p ps Eq Hne. assert (Z.of_nat (length p) < 65536) as Hp by (rewrite Eq in Hc; by inversion Hc).
    destruct (wp_total_run _ _ _ (BytesReceived_dev pt ein eout w _
      (fun x => ep_state is_in q0 x (tr w)) w p ps Eq Hne Hp (dev_start w))) as (r & w1 & Hrun1 & -> & H1).
    destruct (wp_total_run _ _ _ (receive_dev pt ein eout w (length p) eout
      (fun x => ep_state is_in q0 x (tr w)) w1 Hc H1 ltac:(destruct p; [done|cbn; lia])))
      as (r & w2 & Hrun2 & -> & H2).
    fold s in Hrun2, H2. rewrite Eq, rx_all_packet in Hrun2, H2 by done.
    exists w1, w2. split_and!; try done; [|by eapply dev_app]. destruct H2 as (_ & _ & Hst).
    by rewrite Hst, fn_lookup_insert.
  - intros Hn H0. destruct (wp_total_run _ _ _ (receive_dev pt ein eout w n _
      (fun x => ep_state is_in q0 x (tr w)) w Hc (dev_start w) H0)) as (r & w1 & Hrun & -> & H1).
    fold s in Hrun, H1. rewrite rx_all_complete in Hrun, H1 by done.
    exists w1. split_and!; try done; [..|by eapply dev_app|]; destruct H1 as (_ & _ & Hst).
    + by rewrite Hst, fn_lookup_insert.
    + intros x Hx. rewrite Hst. by rewrite fn_lookup_insert_ne.
Qed.

