(* ===== verification/HIDDevice.v ===== *)
(** The HID device class driver: LUFA/Drivers/USB/Class/Device/HIDClassDevice.[ch].

    The application supplies and consumes reports through the two callbacks; they
    are the class [HIDCallbacks].  A callback gets a buffer as the list of its bytes
    and returns the new contents, so that writing past its end shows as a change of
    length. *)

From stdpp Require Import base tactics option list numbers.
From Stdlib Require Import ZArith Lia.
From S2P Require Import Prelude Memory Hardware Endpoint USBController ControlStream DeviceStandardReq.
From S2P Require Import EndpointStream ClassDriver.

(** [enum HID_ClassRequests_t] *)
Definition HID_REQ_GetReport : Z := 0x01.
Definition HID_REQ_GetIdle : Z := 0x02.
Definition HID_REQ_GetProtocol : Z := 0x03.
Definition HID_REQ_SetReport : Z := 0x09.
Definition HID_REQ_SetIdle : Z := 0x0A.
Definition HID_REQ_SetProtocol : Z := 0x0B.

Definition HID_REPORT_ITEM_In : Z := 0.

(** [USB_ClassInfo_HID_Device_t]; [PrevReportINBuffer] is the buffer the pointer
    leads to, [None] for NULL. *)
Record HID_Config : Set := mkHIDConfig {
  InterfaceNumber : Z;
  ReportINEndpoint : USB_Endpoint_Table_t;
  PrevReportINBuffer : option (list Z);
  PrevReportINBufferSize : Z
}.
Record HID_State : Set := mkHIDState {
  UsingReportProtocol : bool;
  PrevFrameNum : Z;
  IdleCount : Z;
  IdleMSRemaining : Z
}.
Record USB_ClassInfo_HID_Device_t : Set := mkHIDInfo {
  Config : HID_Config;
  State : HID_State
}.

Abbreviation HIDInfo := USB_ClassInfo_HID_Device_t.

Definition set_State (f : HID_State -> HID_State) (i : HIDInfo) : HIDInfo :=
  mkHIDInfo (Config i) (f (State i)).
Definition set_UsingReportProtocol (b : bool) : HIDInfo -> HIDInfo :=
  set_State (fun s => mkHIDState b (PrevFrameNum s) (IdleCount s) (IdleMSRemaining s)).
Definition set_PrevFrameNum (n : Z) : HIDInfo -> HIDInfo :=
  set_State (fun s => mkHIDState (UsingReportProtocol s) (u16 n) (IdleCount s) (IdleMSRemaining s)).
Definition set_IdleCount (n : Z) : HIDInfo -> HIDInfo :=
  set_State (fun s => mkHIDState (UsingReportProtocol s) (PrevFrameNum s) (u16 n) (IdleMSRemaining s)).
Definition set_IdleMSRemaining (n : Z) : HIDInfo -> HIDInfo :=
  set_State (fun s => mkHIDState (UsingReportProtocol s) (PrevFrameNum s) (IdleCount s) (u16 n)).
Definition set_PrevReportINBuffer (b : list Z) (i : HIDInfo) : HIDInfo :=
  mkHIDInfo (mkHIDConfig (InterfaceNumber (Config i)) (ReportINEndpoint (Config i)) (Some b)
               (PrevReportINBufferSize (Config i))) (State i).
Definition set_ReportINType (ty : Z) (i : HIDInfo) : HIDInfo :=
  mkHIDInfo (mkHIDConfig (InterfaceNumber (Config i)) (with_Type ty (ReportINEndpoint (Config i)))
               (PrevReportINBuffer (Config i)) (PrevReportINBufferSize (Config i))) (State i).

(** What the application makes of the reports.  [CreateHIDReport ReportID
    ReportType ReportData ReportSize] returns whether to force the report, and the
    new values of [ReportID], [ReportData] and [ReportSize]. *)
Class HIDCallbacks (App : Type) : Type := {
  CALLBACK_HID_Device_CreateHIDReport :
    Z -> Z -> list Z -> Z -> prog (World App) (bool * Z * list Z * Z);
  CALLBACK_HID_Device_ProcessHIDReport : Z -> Z -> list Z -> Z -> prog (World App) unit
}.

Section HIDDevice.
Context {HW : Hardware} {App : Type} {EV : DeviceEvents App} {RQ : DeviceRequests App}.
Context {OB : Object App HIDInfo} {CB : HIDCallbacks App}.
Context (fuel : nat).
(** The contents of a variable length array on the stack. *)
Context (uninit : Z -> Z).
Abbreviation P := (prog (World App)).

(** [memcpy(PrevReportINBuffer, ReportData, PrevReportINBufferSize)] *)
Definition save_report (ReportData : list Z) : P unit :=
  i ← the;
  match PrevReportINBuffer (Config i) with
  | None => mret tt
  | Some b =>
      b' ← checked (memcpy b ReportData (PrevReportINBufferSize (Config i)));
      assign (set_PrevReportINBuffer b')
  end.

Definition HID_GetReport : P unit :=
  i ← the;
  req ← gets USB_ControlRequest;
  let ReportID := Z.land (wValue req) 0xFF in
  let ReportType := u8 (Z.shiftr (wValue req) 8 - 1) in
  let ReportData := replicate (Z.to_nat (PrevReportINBufferSize (Config i))) 0 in
  r ← CALLBACK_HID_Device_CreateHIDReport ReportID ReportType ReportData 0;
  let '(_, ReportID, ReportData, ReportSize) := r in
  save_report ReportData;;
  Endpoint_SelectEndpoint ENDPOINT_CONTROLEP;;
  Endpoint_ClearSETUP;;
  when (negb (ReportID =? 0)) (Endpoint_Write_8 ReportID);;
  Endpoint_Write_Control_Stream_LE fuel ReportData ReportSize;;
  Endpoint_ClearOUT.

Definition HID_SetReport : P unit :=
  req ← gets USB_ControlRequest;
  let ReportSize := wLength req in
  let ReportID := Z.land (wValue req) 0xFF in
  let ReportType := u8 (Z.shiftr (wValue req) 8 - 1) in
  Endpoint_ClearSETUP;;
  r ← Endpoint_Read_Control_Stream_LE fuel (vla uninit ReportSize) ReportSize;
  let '(ReportData, _) := r in
  Endpoint_ClearIN;;
  let skip := if ReportID =? 0 then 0 else 1 in
  CALLBACK_HID_Device_ProcessHIDReport ReportID ReportType
    (drop (Z.to_nat skip) ReportData) (u16 (ReportSize - skip)).

Definition HID_GetProtocol : P unit :=
  Endpoint_ClearSETUP;;
  INReady_wait fuel;;
  i ← the;
  Endpoint_Write_8 (if UsingReportProtocol (State i) then 1 else 0);;
  Endpoint_ClearIN;;
  Endpoint_ClearStatusStage fuel.

Definition HID_SetProtocol : P unit :=
  Endpoint_ClearSETUP;;
  Endpoint_ClearStatusStage fuel;;
  req ← gets USB_ControlRequest;
  assign (set_UsingReportProtocol (negb (Z.land (wValue req) 0xFF =? 0x00))).

Definition HID_SetIdle : P unit :=
  Endpoint_ClearSETUP;;
  Endpoint_ClearStatusStage fuel;;
  req ← gets USB_ControlRequest;
  assign (set_IdleCount (Z.shiftr (Z.land (wValue req) 0xFF00) 6)).

Definition HID_GetIdle : P unit :=
  Endpoint_ClearSETUP;;
  INReady_wait fuel;;
  i ← the;
  Endpoint_Write_8 (Z.shiftr (IdleCount (State i)) 2);;
  Endpoint_ClearIN;;
  Endpoint_ClearStatusStage fuel.

Definition HID_Device_ProcessControlRequest : P unit :=
  s ← Endpoint_IsSETUPReceived;
  if negb s then mret tt
  else
    req ← gets USB_ControlRequest;
    i ← the;
    if negb (wIndex req =? InterfaceNumber (Config i)) then mret tt
    else
      let r := bRequest req in
      if r =? HID_REQ_GetReport then when (bmRequestType req =? CLASS_IN) HID_GetReport
      else if r =? HID_REQ_SetReport then when (bmRequestType req =? CLASS_OUT) HID_SetReport
      else if r =? HID_REQ_GetProtocol then when (bmRequestType req =? CLASS_IN) HID_GetProtocol
      else if r =? HID_REQ_SetProtocol then when (bmRequestType req =? CLASS_OUT) HID_SetProtocol
      else if r =? HID_REQ_SetIdle then when (bmRequestType req =? CLASS_OUT) HID_SetIdle
      else if r =? HID_REQ_GetIdle then when (bmRequestType req =? CLASS_IN) HID_GetIdle
      else mret tt.

Definition HID_Device_ConfigureEndpoints : P bool :=
  assign (set_State (fun _ => mkHIDState false 0 0 0));;
  assign (set_UsingReportProtocol true);;
  assign (set_IdleCount 500);;
  assign (set_ReportINType EP_TYPE_INTERRUPT);;
  i ← the;
  ok ← Endpoint_ConfigureEndpointTable fuel [ReportINEndpoint (Config i)];
  if negb ok then mret false else mret true.

(** Comparing a report with the previous one, which it replaces. *)
Definition compare_report (i : HIDInfo) (ReportINData : list Z) (ReportINSize : Z) : P bool :=
  match PrevReportINBuffer (Config i) with
  | None => mret false
  | Some b =>
      c ← checked (memcmp_ne ReportINData b ReportINSize);
      save_report ReportINData;; mret c
  end.

(** The report of a polling opportunity. *)
Definition HID_poll : P unit :=
  i ← the;
  let ReportINData := replicate (Z.to_nat (PrevReportINBufferSize (Config i))) 0 in
  r ← CALLBACK_HID_Device_CreateHIDReport 0 HID_REPORT_ITEM_In ReportINData 0;
  let '(ForceSend, ReportID, ReportINData, ReportINSize) := r in
  i ← the;
  let IdlePeriodElapsed :=
    negb (IdleCount (State i) =? 0) && (IdleMSRemaining (State i) =? 0) in
  StatesChanged ← compare_report i ReportINData ReportINSize;
  when (negb (ReportINSize =? 0) && (ForceSend || StatesChanged || IdlePeriodElapsed))
    (i ← the;
     assign (set_IdleMSRemaining (IdleCount (State i)));;
     Endpoint_SelectEndpoint (Address (ReportINEndpoint (Config i)));;
     when (negb (ReportID =? 0)) (Endpoint_Write_8 ReportID);;
     Endpoint_Write_Stream_LE fuel ReportINData ReportINSize None;;
     Endpoint_ClearIN);;
  f ← USB_Device_GetFrameNumber;
  assign (set_PrevFrameNum f).

Definition HID_Device_USBTask : P unit :=
  st ← poll_DeviceState fuel;
  if negb (st =? DEVICE_STATE_Configured) then mret tt
  else
    i ← the;
    f ← USB_Device_GetFrameNumber;
    if (PrevFrameNum (State i) =? f) && negb (tst USB_Options USB_DEVICE_OPT_LOWSPEED) then mret tt
    else
      Endpoint_SelectEndpoint (Address (ReportINEndpoint (Config i)));;
      a ← Endpoint_IsReadWriteAllowed;
      when a HID_poll.

Definition HID_Device_MillisecondElapsed : P unit :=
  i ← the;
  when (negb (IdleMSRemaining (State i) =? 0))
    (assign (fun i => set_IdleMSRemaining (IdleMSRemaining (State i) - 1) i)).
End HIDDevice.
