(* ===== verification/HIDDeviceSpec.v ===== *)
(** Correctness of the HID device class driver (HIDDevice.v). *)

From stdpp Require Import base tactics option list numbers fin_maps functions.
From Stdlib Require Import ZArith Lia.
From S2P Require Import Prelude Memory Hardware Endpoint USBController ControlStream DeviceStandardReq.
From S2P Require Import EndpointStream ControlTransfer ControlReceive ControlRequest DataEndpoint.
From S2P Require Import DataStream ClassDriver HIDDevice.

(** ** The settings of the interface *)

(** The two values a host can set and read back. *)
Inductive setting : Set := Idle | Protocol.
Definition set_request (s : setting) : Z :=
  match s with Idle => HID_REQ_SetIdle | Protocol => HID_REQ_SetProtocol end.
Definition get_request (s : setting) : Z :=
  match s with Idle => HID_REQ_GetIdle | Protocol => HID_REQ_GetProtocol end.

(** The value a set request carries, as the get request reports it: the idle
    duration in units of 4 ms, or the report protocol (1) against the boot
    protocol (0). *)
Definition carried (s : setting) (wValue : Z) : Z :=
  match s with
  | Idle => wValue / 256
  | Protocol => if wValue mod 256 =? 0 then 0 else 1
  end.

Lemma idle_units v : is_u16 v -> Z.shiftr (u16 (Z.shiftr (Z.land v 0xFF00) 6)) 2 = v / 256.
Proof.
  unfold is_u16, u16. intros Hv. change 65536 with (2 ^ 16). change 256 with (2 ^ 8).
  apply Z.bits_inj'. intros i Hi.
  rewrite Z.div_pow2_bits, Z.shiftr_spec by lia. change 0xFF00 with (Z.shiftl (Z.ones 8) 8).
  destruct (decide (i + 8 < 16)).
  - rewrite Z.mod_pow2_bits_low, Z.shiftr_spec, Z.land_spec, Z.shiftl_spec, Z.ones_spec_low by lia.
    rewrite andb_true_r. f_equal. lia.
  - rewrite (testbit_above 16 v (i + 8)) by lia. destruct (decide (i + 2 < 16)).
    + rewrite Z.mod_pow2_bits_low, Z.shiftr_spec, Z.land_spec, Z.shiftl_spec, Z.ones_spec_high by lia.
      apply andb_false_r.
    + by rewrite Z.mod_pow2_bits_high by lia.
Qed.

Lemma low_byte v : Z.land v 0xFF = v mod 256.
Proof. change 0xFF with (Z.ones 8). by rewrite Z.land_ones. Qed.

Section Settings.
Context {HW : Hardware} {RH : ReadyHost} {App : Type} {EV : DeviceEvents App} {RQ : DeviceRequests App}.
Context {OB : Object App HIDInfo} {CB : HIDCallbacks App}.
Implicit Types w : World App.

(** The structure after a set request, and the byte a get request answers with. *)
Definition updated (s : setting) (v : Z) : HIDInfo -> HIDInfo :=
  match s with
  | Idle => set_IdleCount (Z.shiftr (Z.land v 0xFF00) 6)
  | Protocol => set_UsingReportProtocol (negb (Z.land v 0xFF =? 0))
  end.
Definition reported (s : setting) (i : HIDInfo) : Z :=
  match s with
  | Idle => Z.shiftr (IdleCount (State i)) 2
  | Protocol => if UsingReportProtocol (State i) then 1 else 0
  end.

Lemma reported_updated s v i : is_u16 v -> reported s (updated s v i) = carried s v.
Proof.
  intros Hv. destruct s; cbn.
  - by apply idle_units.
  - rewrite low_byte. by destruct (_ =? 0).
Qed.

Lemma carried_u8 s v : is_u16 v -> is_u8 (carried s v).
Proof.
  intros Hv. unfold is_u16, is_u8 in *. destruct s; cbn.
  - split; [apply Z.div_pos|apply Z.div_lt_upper_bound]; lia.
  - destruct (_ =? 0); lia.
Qed.

(** The dispatcher reaches the handler of a pending request. *)
Lemma dispatch_setting fuel uninit bm r w Q : pending w ->
  asks w bm r (InterfaceNumber (Config (info w))) ->
  (forall w', ctl [] [] w w' ->
     wp true (if r =? HID_REQ_GetReport then when (bm =? CLASS_IN) (HID_GetReport fuel)
      else if r =? HID_REQ_SetReport then when (bm =? CLASS_OUT) (HID_SetReport fuel uninit)
      else if r =? HID_REQ_GetProtocol then when (bm =? CLASS_IN) (HID_GetProtocol fuel)
      else if r =? HID_REQ_SetProtocol then when (bm =? CLASS_OUT) (HID_SetProtocol fuel)
      else if r =? HID_REQ_SetIdle then when (bm =? CLASS_OUT) (HID_SetIdle fuel)
      else if r =? HID_REQ_GetIdle then when (bm =? CLASS_IN) (HID_GetIdle fuel)
      else mret tt) Q w') ->
  wp true (HID_Device_ProcessControlRequest fuel uninit) Q w.
Proof.
  intros Hp (<- & <- & Hi) HQ. unfold HID_Device_ProcessControlRequest. apply wp_bind.
  eapply wp_mono; [by apply pending_ctl|]. intros s w1 [-> H1]. cbn [negb].
  apply wp_bind, wp_gets, wp_bind, wp_gets. rewrite (ctl_request _ _ _ _ H1), (ctl_app _ _ _ _ H1).
  fold (info w). rewrite Hi, Z.eqb_refl. by apply HQ.
Qed.

Lemma set_ctl fuel uninit s w : (0 < fuel)%nat -> pending w ->
  asks w CLASS_OUT (set_request s) (InterfaceNumber (Config (info w))) ->
  wp true (HID_Device_ProcessControlRequest fuel uninit)
    (fun _ => ctl [[]] [] (upd_app (store_in (updated s (wValue (USB_ControlRequest w)))) w)) w.
Proof.
  intros Hf Hp Ha. eapply dispatch_setting; [done|done|]. intros w1 H1. destruct Ha as (Hb & _).
  destruct s; cbn [set_request Z.eqb Pos.eqb HID_REQ_SetIdle HID_REQ_SetProtocol when CLASS_OUT].
  - by apply (acknowledge_assign fuel (fun req => set_IdleCount (Z.shiftr (Z.land (wValue req) 0xFF00) 6))).
  - by apply (acknowledge_assign fuel
      (fun req => set_UsingReportProtocol (negb (Z.land (wValue req) 0xFF =? 0x00)))).
Qed.

Lemma get_ctl fuel uninit s w : (0 < fuel)%nat -> pending w -> acked w ->
  asks w CLASS_IN (get_request s) (InterfaceNumber (Config (info w))) ->
  is_u8 (reported s (info w)) ->
  wp true (HID_Device_ProcessControlRequest fuel uninit) (fun _ => ctl [[reported s (info w)]] [] w) w.
Proof.
  intros Hf Hp Hk Ha Hu. eapply dispatch_setting; [done|done|]. intros w1 H1. destruct Ha as (Hb & _).
  destruct s; cbn [get_request Z.eqb Pos.eqb HID_REQ_GetIdle HID_REQ_GetProtocol when CLASS_IN].
  - by apply (answer_byte fuel (reported Idle)).
  - by apply (answer_byte fuel (reported Protocol)).
Qed.
End Settings.

(** The idle rate and the protocol a host sets are the ones it reads back: a
    SET_IDLE or SET_PROTOCOL request for the interface terminates with the empty
    status packet and no other change of the firmware's state than the setting, and
    any later GET_IDLE or GET_PROTOCOL, as long as the interface structure is the
    same, terminates having sent exactly one packet with the value that was set. *)
Theorem HID_setting_roundtrip {HW : Hardware} {RH : ReadyHost} {App} {EV : DeviceEvents App}
    {RQ : DeviceRequests App} {OB : Object App HIDInfo} {CB : HIDCallbacks App} fuel uninit s
    (w : World App) : (0 < fuel)%nat -> pending w ->
  asks w CLASS_OUT (set_request s) (InterfaceNumber (Config (info w))) ->
  is_u16 (wValue (USB_ControlRequest w)) ->
  exists ext, let w1 := upd_tr (fun t => ext ++ t)
      (upd_app (store_in (updated s (wValue (USB_ControlRequest w)))) w) in
    HID_Device_ProcessControlRequest fuel uninit w = Ret tt w1 /\
    packets (tr w1) = packets (tr w) ++ [(0, [])] /\
    forall w2, info w2 = info w1 -> pending w2 -> acked w2 ->
      asks w2 CLASS_IN (get_request s) (InterfaceNumber (Config (info w2))) ->
      exists ext', let w3 := upd_tr (fun t => ext' ++ t) w2 in
        HID_Device_ProcessControlRequest fuel uninit w2 = Ret tt w3 /\
        packets (tr w3) = packets (tr w2) ++ [(0, [carried s (wValue (USB_ControlRequest w))])].
Proof.
  intros Hf Hp Ha Hv. destruct (wp_total_run_unit _ _ _ (set_ctl fuel uninit s w Hf Hp Ha))
    as (w1 & Hrun & [ext ->] & _ & _ & Hpk & _).
  exists ext. split; [done|]. split; [done|]. intros w2 Hi Hp2 Hk2 Ha2.
  assert (reported s (info w2) = carried s (wValue (USB_ControlRequest w))) as Hr.
  { rewrite Hi. unfold info. cbn. rewrite load_store_in. by apply reported_updated. }
  destruct (wp_total_run_unit _ _ _ (get_ctl fuel uninit s w2 Hf Hp2 Hk2 Ha2
    ltac:(rewrite Hr; by apply carried_u8))) as (w3 & Hrun3 & [ext' ->] & _ & _ & Hpk3 & _).
  exists ext'. split; [done|]. by rewrite <- Hr.
Qed.

(** ** Polling opportunities *)

(** Callbacks that access no register: the report made from the application's state
    and a cleared buffer, and the state after; the interface structure is the
    driver's.  A report fits the buffer it was made in. *)
Class PureReports {App} (OB : Object App HIDInfo) (CB : HIDCallbacks App) : Type := {
  make_report : App -> list Z -> bool * Z * list Z * Z;
  made : App -> App;
  pr_create w buf : CALLBACK_HID_Device_CreateHIDReport 0 HID_REPORT_ITEM_In buf 0 w
    = Ret (make_report (app w) buf) (upd_app made w);
  pr_info a : load (made a) = load a;
  pr_fits a buf force id data size : make_report a buf = (force, id, data, size) ->
    is_u8 id /\ length data = length buf /\ Forall is_u8 data /\ 0 <= size <= Z.of_nat (length buf)
}.

Section Poll.
Context {App : Type} {OB : Object App HIDInfo} {CB : HIDCallbacks App} {PR : PureReports OB CB}.

(** What the interface was asked to send at this opportunity. *)
Definition next_report (a : App) : bool * Z * list Z * Z :=
  make_report a (replicate (Z.to_nat (PrevReportINBufferSize (Config (load a)))) 0).

(** The report differs from the last one, or the host has waited for [IdleCount]
    milliseconds. *)
Definition changed (i : HIDInfo) (data : list Z) (size : Z) : bool :=
  match PrevReportINBuffer (Config i) with
  | None => false
  | Some b => negb (bool_decide (take (Z.to_nat size) data = take (Z.to_nat size) b))
  end.
Definition idle_elapsed (i : HIDInfo) : bool :=
  negb (IdleCount (State i) =? 0) && (IdleMSRemaining (State i) =? 0).

Definition report_due (a : App) : bool :=
  let '(force, _, data, size) := next_report a in
  negb (size =? 0) && (force || changed (load a) data size || idle_elapsed (load a)).

(** The packet of the report: its ID, when it has one, and its data. *)
Definition report_packet (a : App) : list Z :=
  let '(_, id, data, size) := next_report a in
  (if id =? 0 then [] else [id]) ++ take (Z.to_nat size) data.

(** The structure after a report was saved for comparison. *)
Definition saved (i : HIDInfo) (data : list Z) : HIDInfo :=
  match PrevReportINBuffer (Config i) with
  | None => i
  | Some b => set_PrevReportINBuffer
      (take (Z.to_nat (PrevReportINBufferSize (Config i))) data ++
       drop (Z.to_nat (PrevReportINBufferSize (Config i))) b) i
  end.

(** The structure after the opportunity in frame [f]. *)
Definition polled (a : App) (f : Z) : HIDInfo :=
  let '(_, _, data, _) := next_report a in
  let i := saved (load a) data in
  set_PrevFrameNum f (if report_due a then set_IdleMSRemaining (IdleCount (State i)) i else i).

(** The buffer of the previous report has the size it is declared with. *)
Definition buffer_ok (i : HIDInfo) : Prop :=
  is_u8 (PrevReportINBufferSize (Config i)) /\
  forall b, PrevReportINBuffer (Config i) = Some b ->
    Z.of_nat (length b) = PrevReportINBufferSize (Config i).

Context {HW : Hardware} {is_in : Z -> bool} {size : Z -> nat} {q0 : Z -> list (list Z)}.
Context {DH : DataHost is_in size q0} {EV : DeviceEvents App} {RQ : DeviceRequests App}.
Abbreviation dev := (dev (is_in := is_in) (q0 := q0) (App := App)).
Implicit Types w : World App.

(** Saving a report of the right length. *)
Lemma save_report_dev data w0 e st w : buffer_ok (info w0) ->
  Z.of_nat (length data) = PrevReportINBufferSize (Config (info w0)) -> dev w0 e st w ->
  wp true (save_report data) (fun _ w' => exists f, dev (upd_app f w0) e st w' /\
    load (f (app w0)) = saved (info w0) data) w.
Proof.
  intros [Hu Hb] Hl H. unfold save_report. apply wp_bind, wp_gets. rewrite (dev_app _ _ _ _ H).
  fold (info w0). unfold is_u8 in Hu. unfold saved.
  destruct (PrevReportINBuffer (Config (info w0))) as [b|] eqn:E.
  - specialize (Hb b eq_refl). apply wp_bind. eapply wp_checked; [apply memcpy_some; lia|].
    apply wp_modify. eexists. split; [by apply dev_upd_app|]. cbn. by rewrite load_store_in.
  - apply wp_ret. exists id. split; [|done]. by destruct w0.
Qed.

Lemma compare_report_dev i data n w0 e st w : info w0 = i -> buffer_ok i ->
  Z.of_nat (length data) = PrevReportINBufferSize (Config i) -> 0 <= n <= Z.of_nat (length data) ->
  dev w0 e st w ->
  wp true (compare_report i data n) (fun x w' => x = changed i data n /\
    exists f, dev (upd_app f w0) e st w' /\ load (f (app w0)) = saved i data) w.
Proof.
  intros <- Hok Hl Hn H. unfold compare_report, changed.
  destruct (PrevReportINBuffer (Config (info w0))) as [b|] eqn:Eb.
  - destruct (Hok) as [_ Hb]. specialize (Hb b Eb). apply wp_bind.
    eapply wp_checked; [apply memcmp_some; lia|]. apply wp_bind.
    eapply wp_mono; [by apply (save_report_dev data w0 e st)|].
    intros [] w2 Hw2. by apply wp_ret.
  - apply wp_ret. split; [done|]. exists id. split; [by destruct w0|]. unfold saved. by rewrite Eb.
Qed.

(** Sending a report that fits the empty bank. *)
Lemma send_report_dev fuel e addr id data n w0 st w :
  Z.land addr 0x0F = e -> 0 < e < 16 -> is_in e = true -> ep_bank (st e) = [] ->
  is_u8 id -> Forall is_u8 data -> 0 <= n <= Z.of_nat (length data) -> n < 256 ->
  (1 + Z.to_nat n <= size e)%nat -> (2 * Z.to_nat n + 1 < fuel)%nat -> dev w0 e st w ->
  wp true (Endpoint_SelectEndpoint addr;;
           when (negb (id =? 0)) (Endpoint_Write_8 id);;
           Endpoint_Write_Stream_LE fuel data n None;; Endpoint_ClearIN)
    (fun _ => dev w0 e (<[e := mkEP [] (ep_sent (st e) ++ [(if id =? 0 then [] else [id]) ++ take (Z.to_nat n) data])
                          (ep_queue (st e)) (ep_stalled (st e))]> st)) w.
Proof.
  intros Ha He Hin Hb Hid Hd Hn Hn2 Hsz Hf H. apply wp_bind. dev_step SelectEndpoint_dev H.
  intros [] w1 H1. rewrite Ha in H1. apply wp_bind.
  assert (wp true (when (negb (id =? 0)) (Endpoint_Write_8 id))
    (fun _ => dev w0 e (<[e := mkEP (if id =? 0 then [] else [id]) (ep_sent (st e)) (ep_queue (st e))
                         (ep_stalled (st e))]> st)) w1) as Hw.
  { destruct (id =? 0); cbn [negb when].
    - apply wp_ret. eapply dev_ext; [|exact H1]. dev_eq; [|done]. destruct (st e); cbn in *. by subst.
    - dev_step Write_8_dev H1. intros [] w2 H2. eapply dev_ext; [|exact H2]. dev_eq; [|done].
      unfold put. by rewrite Hb. }
  eapply wp_mono; [exact Hw|]. intros [] w2 H2. apply wp_bind. unfold Endpoint_Write_Stream_LE.
  dev_step (Write_Stream_dev LE data n) H2; [unfold is_u16; lia|by left|]. intros r w3 [-> H3].
  rewrite fn_lookup_insert in H3. dev_step ClearIN_dev H3. intros [] w4 H4.
  eapply dev_ext; [|exact H4]. rewrite fn_lookup_insert. dev_eq; [|done].
  rewrite write_all_fits; [done|]. cbn. rewrite length_take. destruct (id =? 0); cbn; lia.
Qed.

(** The endpoints after an opportunity: one packet on the report endpoint when a
    report is due, and nothing else. *)
Definition polled_ep (a : App) (s : EPState) : EPState :=
  if report_due a
  then mkEP [] (ep_sent s ++ [report_packet a]) (ep_queue s) (ep_stalled s) else s.

(** The last access read the frame number [f] from its register. *)
Definition read_frame (f : Z) (t : trace) : Prop :=
  exists t', t = Rd UDFNUM f :: t' /\ f = u16 (hw_read t' UDFNUM).

Lemma HID_poll_dev fuel e w0 st w :
  Z.land (Address (ReportINEndpoint (Config (info w0)))) 0x0F = e -> 0 < e < 16 -> is_in e = true ->
  ep_bank (st e) = [] -> buffer_ok (info w0) ->
  (1 + Z.to_nat (PrevReportINBufferSize (Config (info w0))) <= size e)%nat ->
  (2 * Z.to_nat (PrevReportINBufferSize (Config (info w0))) + 1 < fuel)%nat -> dev w0 e st w ->
  wp true (HID_poll fuel) (fun _ w' => exists g f,
    dev (upd_app g w0) e (<[e := polled_ep (app w0) (st e)]> st) w' /\
    load (g (app w0)) = polled (app w0) f /\ read_frame f (tr w')) w.
Proof.
  intros Ha He Hin Hbk Hok Hsz Hf H. destruct (Hok) as [Hu _]. unfold is_u8 in Hu.
  unfold HID_poll. apply wp_bind, wp_gets. rewrite (dev_app _ _ _ _ H). fold (info w0).
  apply wp_bind. unfold wp at 1. rewrite pr_create, (dev_app _ _ _ _ H).
  change (make_report (app w0) _) with (next_report (app w0)).
  unfold polled_ep, polled, report_packet, report_due.
  destruct (next_report (app w0)) as [[[force id] data] n] eqn:Er.
  apply pr_fits in Er as (Hid & Hl & Hd & Hn). rewrite length_replicate in Hl, Hn.
  change (load (app w0)) with (info w0) in Hl, Hn |- *.
  apply (dev_upd_app made) in H. apply wp_bind, wp_gets. rewrite (dev_app _ _ _ _ H). cbn [app upd_app].
  rewrite pr_info. fold (info w0). set (w1 := upd_app made w0) in *.
  assert (info w1 = info w0) as Hi1 by apply pr_info.
  set (c := changed (info w0) data n). set (i1 := saved (info w0) data).
  assert (State i1 = State (info w0)) as Hs1 by (unfold i1, saved; by destruct (PrevReportINBuffer _)).
  assert (ReportINEndpoint (Config i1) = ReportINEndpoint (Config (info w0))) as He1
    by (unfold i1, saved; by destruct (PrevReportINBuffer _)).
  apply wp_bind. dev_step (compare_report_dev (info w0) data n w1) H. intros x w2 (-> & g1 & H2 & Hg1). apply wp_bind. pose (g := fun a => g1 (made a)).
  change (dev (upd_app g w0) e st w2) in H2. change (load (g (app w0)) = saved (info w0) data) in Hg1.
  rename Hg1 into Hg.
  fold (idle_elapsed (info w0)). fold c.
  set (due := negb (n =? 0) && (force || c || idle_elapsed (info w0))).
  eapply wp_mono with (P := fun _ w' => exists g, dev (upd_app g w0) e
      (<[e := if due then mkEP [] (ep_sent (st e) ++ [(if id =? 0 then [] else [id]) ++ take (Z.to_nat n) data])
                (ep_queue (st e)) (ep_stalled (st e)) else st e]> st) w' /\
      load (g (app w0)) = if due then set_IdleMSRemaining (IdleCount (State i1)) i1 else i1).
  { destruct due; cbn [when].
    - apply wp_bind, wp_gets. rewrite (dev_app _ _ _ _ H2). cbn [app upd_app]. rewrite Hg.
      apply wp_bind, wp_modify. apply (dev_upd_app (store_in (set_IdleMSRemaining (IdleCount (State i1))))) in H2.
      fold i1. rewrite He1. eapply wp_mono; [eapply send_report_dev; [..|exact H2]; try done; lia|].
      intros [] w3 H3. eexists (fun a => store_in _ (g a)). split; [exact H3|]. cbn.
      by rewrite load_store_in, Hg.
    - apply wp_ret. exists g. split; [|done]. eapply dev_ext; [|exact H2]. dev_eq; done. }
  intros [] w3 (g' & H3 & Hg'). apply wp_bind. unfold USB_Device_GetFrameNumber. apply wp_rd, wp_modify.
  eexists (fun a => store_in _ (g' a)), _. split.
  - eapply (dev_upd_app _ (upd_app g' w0)). by apply dev_rd.
  - rewrite load_store_in, Hg'. split; [done|]. by eexists.
Qed.
End Poll.

(** The task runs the opportunity of a new frame. *)
Lemma HID_USBTask_poll {App} {OB : Object App HIDInfo} {CB : HIDCallbacks App}
    {PR : PureReports OB CB} {HW : Hardware} {is_in size q0} {DH : DataHost is_in size q0}
    {EV : DeviceEvents App} {RQ : DeviceRequests App} fuel e (w : World App) :
  let i := info w in
  let n := Z.to_nat (PrevReportINBufferSize (Config i)) in
  USB_DeviceState w = DEVICE_STATE_Configured ->
  u16 (hw_read (tr w) UDFNUM) <> PrevFrameNum (State i) ->
  Z.land (Address (ReportINEndpoint (Config i))) 0x0F = e -> 0 < e < 16 -> is_in e = true ->
  ep_bank (ep_state is_in q0 e (tr w)) = [] -> buffer_ok i ->
  (1 + n <= size e)%nat -> (2 * n + 1 < fuel)%nat ->
  exists w' f, HID_Device_USBTask fuel w = Ret tt w' /\ info w' = polled (app w) f /\
    ep_state is_in q0 e (tr w') = polled_ep (app w) (ep_state is_in q0 e (tr w)) /\
    (forall x, x <> e -> ep_state is_in q0 x (tr w') = ep_state is_in q0 x (tr w)) /\
    read_frame f (tr w').
Proof.
  intros i n Hst Hfr Ha He Hin Hbk Hok Hsz Hf.
  enough (wp true (HID_Device_USBTask fuel) (fun _ w' => exists g f,
    dev (is_in := is_in) (q0 := q0) (upd_app g w) e
      (<[e := polled_ep (app w) (ep_state is_in q0 e (tr w))]> (fun x => ep_state is_in q0 x (tr w))) w' /\
    load (g (app w)) = polled (app w) f /\ read_frame f (tr w')) w) as Hwp.
  { apply wp_total_run in Hwp as ([] & w' & Hrun & g & f & H & Hg & Hrd). exists w', f.
    split; [done|]. split; [unfold info; by rewrite (dev_app _ _ _ _ H)|]. destruct H as (_ & _ & Hx).
    split; [by rewrite Hx, fn_lookup_insert|]. split; [|done]. intros x Hne. by rewrite Hx, fn_lookup_insert_ne. }
  unfold HID_Device_USBTask, poll_DeviceState. apply wp_bind, wp_bind.
  unfold wp at 1, interrupt_point. rewrite dh_irq, andb_false_r. apply wp_gets. rewrite Hst.
  cbn [negb Z.eqb Pos.eqb DEVICE_STATE_Configured]. apply wp_bind, wp_gets. fold i.
  unfold USB_Device_GetFrameNumber. apply wp_bind, wp_rd. cbn [reg_trunc].
  rewrite (proj2 (Z.eqb_neq (PrevFrameNum (State i)) _)) by done. cbn [andb].
  pose proof (dev_rd UDFNUM (u16 (hw_read (tr w) UDFNUM)) _ _ _ _ ltac:(done)
    (dev_start (is_in := is_in) (q0 := q0) w)) as H.
  apply wp_bind. dev_step SelectEndpoint_dev H. intros [] w1 H1. fold (info w) i in H1. rewrite Ha in H1.
  apply wp_bind. dev_step IsReadWriteAllowed_dev H1. intros a w2 [-> H2]. rewrite Hin. cbn [ep_allowed].
  rewrite Hbk. cbn [length]. rewrite (proj2 (Nat.ltb_lt 0 _)) by lia. cbn [when].
  by apply (HID_poll_dev fuel e w (fun x => ep_state is_in q0 x (tr w))).
Qed.

(** C26: A polling opportunity of a configured HID interface in a new frame terminates
    and sends the application's report exactly when it is due: when the report is
    not empty and the application forces it, it differs from the last one, or the
    idle period has run out.  The report goes out as one packet, its ID first if it
    has one; the driver remembers the report, restarts the idle period exactly when
    it sent one, touches no other endpoint, and notes the frame number [f] it read
    last, from the register and after the report was sent. *)
Theorem HID_USBTask_reports {App} {OB : Object App HIDInfo} {CB : HIDCallbacks App}
    {PR : PureReports OB CB} {HW : Hardware} {is_in size q0} {DH : DataHost is_in size q0}
    {EV : DeviceEvents App} {RQ : DeviceRequests App} fuel e (w : World App) :
  let i := info w in
  let n := Z.to_nat (PrevReportINBufferSize (Config i)) in
  USB_DeviceState w = DEVICE_STATE_Configured ->
  u16 (hw_read (tr w) UDFNUM) <> PrevFrameNum (State i) ->
  Z.land (Address (ReportINEndpoint (Config i))) 0x0F = e -> 0 < e < 16 -> is_in e = true ->
  ep_bank (ep_state is_in q0 e (tr w)) = [] -> buffer_ok i ->
  (1 + n <= size e)%nat -> (2 * n + 1 < fuel)%nat ->
  exists w' f, HID_Device_USBTask fuel w = Ret tt w' /\ info w' = polled (app w) f /\
    ep_state is_in q0 e (tr w') = polled_ep (app w) (ep_state is_in q0 e (tr w)) /\
    (forall x, x <> e -> ep_state is_in q0 x (tr w') = ep_state is_in q0 x (tr w)) /\
    read_frame f (tr w').
Proof. apply HID_USBTask_poll. Qed.

(** ** The interface structure stays well formed *)

(** The fields have their widths, the idle period is one a request can set, and the
    buffer of the previous report its size. *)
Definition HID_ok (i : HIDInfo) : Prop :=
  is_u16 (PrevFrameNum (State i)) /\ 0 <= IdleCount (State i) <= 1020 /\
  0 <= IdleMSRemaining (State i) <= 1020 /\ buffer_ok i.

(** Callbacks that stay inside the buffers they are given, and keep the structure. *)
Class HIDCallbacksSafe {App} (OB : Object App HIDInfo) (CB : HIDCallbacks App) : Prop := {
  hs_create id ty buf w : driver_inv HID_ok w ->
    Z.of_nat (length buf) = PrevReportINBufferSize (Config (info w)) ->
    wp false (CALLBACK_HID_Device_CreateHIDReport id ty buf 0) (fun r w' =>
      let '(_, _, data, n) := r in driver_inv HID_ok w' /\
      PrevReportINBufferSize (Config (info w')) = PrevReportINBufferSize (Config (info w)) /\
      length data = length buf /\ 0 <= n <= Z.of_nat (length buf)) w;
  hs_process id ty data n : 0 <= n <= Z.of_nat (length data) ->
    safe (driver_inv HID_ok) (CALLBACK_HID_Device_ProcessHIDReport id ty data n)
}.

(** The report the host announces but does not send: an ID without its byte. *)
Definition phantom_report (req : USB_Request_Header_t) : Prop :=
  bRequest req = HID_REQ_SetReport /\ wLength req = 0 /\ Z.land (wValue req) 0xFF <> 0.

Lemma idle_range v : is_u16 v -> 0 <= u16 (Z.shiftr (Z.land v 0xFF00) 6) <= 1020.
Proof.
  intros Hv. pose proof (idle_units v Hv) as H. pose proof (u16_range (Z.shiftr (Z.land v 0xFF00) 6)) as Hr.
  unfold is_u16 in *. assert (u16 (Z.shiftr (Z.land v 0xFF00) 6) mod 4 = 0) as Hm.
  { rewrite <- (Z.land_ones _ 2) by lia. apply Z.bits_inj'. intros i Hi. rewrite Z.land_spec, Z.bits_0.
    destruct (decide (i < 2)); [|by rewrite Z.ones_spec_high, andb_false_r by lia].
    unfold u16. change 65536 with (2 ^ 16). rewrite Z.mod_pow2_bits_low, Z.shiftr_spec, Z.land_spec by lia.
    change 0xFF00 with (Z.shiftl (Z.ones 8) 8). rewrite Z.shiftl_spec, (Z.testbit_neg_r _ (i + 6 - 8)) by lia.
    by rewrite andb_false_r. }
  rewrite Z.shiftr_div_pow2 in H by lia. change (2 ^ 2) with 4 in H.
  pose proof (Z.div_mod (u16 (Z.shiftr (Z.land v 0xFF00) 6)) 4 ltac:(lia)).
  assert (v / 256 < 256) by (apply Z.div_lt_upper_bound; lia). lia.
Qed.

Section Safe.
Context {HW : Hardware} {App : Type} {EV : DeviceEvents App} {RQ : DeviceRequests App}.
Context {OB : Object App HIDInfo} {CB : HIDCallbacks App} {CS : HIDCallbacksSafe OB CB}.
Context {ES : EventsSafe EV (driver_inv HID_ok)}.
Abbreviation J := (driver_inv (App := App) HID_ok).

Lemma HID_save_safe data w : J w ->
  Z.of_nat (length data) = PrevReportINBufferSize (Config (info w)) ->
  wp false (save_report data) (fun _ w' => J w') w.
Proof.
  intros [Hw HI] Hl. destruct (HI) as (Hf & Hc & Hr & Hu & Hb). unfold save_report.
  apply wp_bind, wp_gets. fold (info w). unfold is_u8 in Hu.
  destruct (PrevReportINBuffer (Config (info w))) as [b|] eqn:E; [|by apply wp_ret].
  specialize (Hb b eq_refl). apply wp_bind. eapply wp_checked; [apply memcpy_some; lia|].
  apply wp_modify. split; [exact Hw|]. unfold info. cbn. rewrite load_store_in.
  split; [exact Hf|]. split; [exact Hc|]. split; [exact Hr|]. split; [exact Hu|].
  intros b' [= <-]. cbn. rewrite length_app, length_take, length_drop. fold (info w). lia.
Qed.

Lemma HID_GetReport_safe fuel : safe J (HID_GetReport fuel).
Proof.
  intros w Hw. unfold HID_GetReport. apply wp_bind, wp_gets, wp_bind, wp_gets, wp_bind. fold (info w).
  destruct (Hw) as (_ & _ & _ & _ & Hu & _). unfold is_u8 in Hu.
  eapply wp_mono; [apply hs_create; [done|rewrite length_replicate; lia]|].
  intros [[[force id] data] n] w1 (H1 & Hsz & Hl & Hn). rewrite length_replicate in Hl, Hn.
  apply wp_bind. eapply wp_mono; [apply HID_save_safe; [done|lia]|]. intros [] w2 H2.
  assert (safe J (Endpoint_Write_Control_Stream_LE (App := App) fuel data n))
    by (apply safe_Control_W; [unfold is_u16|]; lia).
  apply safe_wp; [safe_tac|done].
Qed.

Lemma HID_SetReport_safe fuel uninit w : J w -> bRequest (USB_ControlRequest w) = HID_REQ_SetReport ->
  ~ phantom_report (USB_ControlRequest w) ->
  wp false (HID_SetReport fuel uninit) (fun _ w' => J w') w.
Proof.
  intros Hw Hrq Hp. unfold HID_SetReport. apply wp_bind, wp_gets.
  destruct (Hw) as ((_ & _ & _ & _ & Hl) & _). unfold is_u16 in Hl.
  assert (length (vla uninit (wLength (USB_ControlRequest w))) = Z.to_nat (wLength (USB_ControlRequest w))) as Hv
    by apply length_vla.
  assert (safe J (Endpoint_ClearSETUP (App := App))) as Hs by safe_tac.
  assert (safe J (Endpoint_ClearIN (App := App))) as Hi by safe_tac.
  apply wp_bind. eapply wp_mono; [by apply Hs|]. intros [] w1 H1.
  apply wp_bind. eapply wp_mono; [apply safe_Control_R_length; [done|lia|exact H1]|].
  intros [data err] w2 [Hd H2]. cbn in Hd. apply wp_bind. eapply wp_mono; [by apply Hi|].
  intros [] w3 H3. apply hs_process; [|done]. rewrite length_drop.
  destruct (_ =? 0) eqn:E; bool_hyps; cbn.
  - rewrite Z.sub_0_r, u16_small by done. lia.
  - assert (wLength (USB_ControlRequest w) <> 0) by (intros H0; by apply Hp).
    rewrite u16_small by (unfold is_u16; lia). lia.
Qed.

Lemma HID_set_setting_safe fuel s : safe J (Endpoint_ClearSETUP;; Endpoint_ClearStatusStage fuel;;
  req ← gets USB_ControlRequest; assign (updated s (wValue req))).
Proof.
  apply safe_bind; [safe_tac|]. intros _. apply safe_bind; [safe_tac|]. intros _.
  apply safe_get_request. intros req (_ & _ & Hv & _). apply safe_assign.
  intros i (Hf & Hc & Hr & Hb). destruct s; repeat split; try done; try apply Hf; try apply Hc;
    try apply Hr; try apply Hb; by apply idle_range.
Qed.

Lemma HID_request_safe fuel uninit w : J w -> ~ phantom_report (USB_ControlRequest w) ->
  wp false (HID_Device_ProcessControlRequest fuel uninit) (fun _ w' => J w') w.
Proof.
  intros Hw Hp. unfold HID_Device_ProcessControlRequest. apply wp_bind.
  unfold Endpoint_IsSETUPReceived, test_bits. apply wp_bind, wp_rd, wp_ret. set (w1 := upd_tr _ w).
  assert (J w1) as H1 by (by apply si_tr). destruct (negb _); [by apply wp_ret|].
  apply wp_bind, wp_gets, wp_bind, wp_gets. destruct (negb _); [by apply wp_ret|].
  change (USB_ControlRequest w1) with (USB_ControlRequest w) in *.
  destruct (bRequest (USB_ControlRequest w) =? HID_REQ_GetReport) eqn:?; bool_hyps.
  { by apply safe_when; [apply HID_GetReport_safe|]. }
  destruct (bRequest (USB_ControlRequest w) =? HID_REQ_SetReport) eqn:?; bool_hyps.
  { apply wp_when; intros _; [|done]. by apply HID_SetReport_safe. }
  pose proof (HID_set_setting_safe fuel Idle). pose proof (HID_set_setting_safe fuel Protocol).
  apply safe_wp; [safe_tac|done].
Qed.

Lemma HID_configure_safe fuel : safe J (HID_Device_ConfigureEndpoints fuel).
Proof.
  intros w [Hw HI]. unfold HID_Device_ConfigureEndpoints, assign. do 4 apply wp_bind, wp_modify.
  set (w1 := upd_app _ _). assert (J w1) as H1.
  { split; [exact Hw|]. unfold info, w1. cbn. rewrite !load_store_in. destruct HI as (_ & _ & _ & Hok).
    by repeat split; try done; try apply Hok. }
  apply safe_wp; [safe_tac|done].
Qed.

Lemma HID_tick_safe : safe J HID_Device_MillisecondElapsed.
Proof.
  intros w [Hw HI]. unfold HID_Device_MillisecondElapsed. apply wp_bind, wp_gets. apply wp_when; intros E; [|done].
  apply wp_modify. split; [exact Hw|]. unfold info. cbn. rewrite load_store_in. fold (info w).
  destruct HI as (Hf & Hc & Hr & Hb). fold (info w) in E. bool_hyps.
  repeat split; try apply Hf; try apply Hc; try apply Hb; cbn; rewrite u16_small by (unfold is_u16; lia); lia.
Qed.

Context {RS : RequestsSafe RQ (driver_inv HID_ok)}.

Lemma HID_compare_safe i data n w : J w -> info w = i ->
  Z.of_nat (length data) = PrevReportINBufferSize (Config i) -> 0 <= n <= Z.of_nat (length data) ->
  wp false (compare_report i data n) (fun _ w' => J w') w.
Proof.
  intros Hw <- Hl Hn. unfold compare_report. destruct (Hw) as (_ & _ & _ & _ & _ & Hb).
  destruct (PrevReportINBuffer (Config (info w))) as [b|]; [|by apply wp_ret].
  specialize (Hb b eq_refl). apply wp_bind. eapply wp_checked; [apply memcmp_some; lia|].
  apply wp_bind. eapply wp_mono; [by apply HID_save_safe|]. intros [] w1 H1. by apply wp_ret.
Qed.

Lemma HID_poll_safe fuel : safe J (HID_poll fuel).
Proof.
  intros w Hw. unfold HID_poll. apply wp_bind, wp_gets, wp_bind. fold (info w).
  destruct (Hw) as (_ & _ & _ & _ & Hu & _). unfold is_u8 in Hu.
  eapply wp_mono; [apply hs_create; [done|rewrite length_replicate; lia]|].
  intros [[[force id] data] n] w1 (H1 & Hsz & Hl & Hn). rewrite length_replicate in Hl, Hn.
  apply wp_bind, wp_gets, wp_bind. fold (info w1).
  eapply wp_mono; [apply HID_compare_safe; [done|done|lia|lia]|]. intros c w2 H2.
  assert (safe J (Endpoint_Write_Stream_LE (App := App) fuel data n None))
    by (apply safe_Stream_RW; [safe_tac|apply safe_transfer_write|unfold is_u16; lia|lia]).
  apply safe_wp; [|done]. apply safe_bind.
  - apply safe_when, safe_the. intros i (Hf & Hc & Hr & Hb). apply safe_bind; [|intros _; safe_tac].
    apply safe_assign. intros i' (Hf' & Hc' & _ & Hb').
    split; [done|]. split; [done|]. split; [|done]. cbn. rewrite u16_small by (unfold is_u16; lia). done.
  - intros _. apply safe_bind; [safe_tac|]. intros f. apply safe_assign.
    intros i' (_ & Hc' & Hr' & Hb'). split; [apply u16_range|done].
Qed.

Lemma HID_task_safe fuel : safe J (HID_Device_USBTask fuel).
Proof. pose proof (HID_poll_safe fuel). safe_tac. Qed.
End Safe.

(** The operations of the driver. *)
Inductive HID_op : Set := Op_ProcessControlRequest | Op_ConfigureEndpoints | Op_USBTask | Op_MillisecondElapsed.

Definition HID_run {HW : Hardware} {App} {EV : DeviceEvents App} {RQ : DeviceRequests App}
    {OB : Object App HIDInfo} {CB : HIDCallbacks App} fuel uninit (op : HID_op) : prog (World App) unit :=
  match op with
  | Op_ProcessControlRequest => HID_Device_ProcessControlRequest fuel uninit
  | Op_ConfigureEndpoints => HID_Device_ConfigureEndpoints fuel;; mret tt
  | Op_USBTask => HID_Device_USBTask fuel
  | Op_MillisecondElapsed => HID_Device_MillisecondElapsed
  end.

(** C27: On every controller and against every host, no operation of the HID driver
    leaves an object or spoils its interface structure: with callbacks that stay
    inside the buffers they get, each operation that returns leaves the fields in
    their ranges (the idle period at most 1020 ms, the frame number of 16 bits, the
    buffer of the previous report at its size) and the last request well formed.
    The exception is a SET_REPORT that announces a report ID without sending it. *)
Theorem HID_driver_safe {HW : Hardware} {App} {EV : DeviceEvents App} {RQ : DeviceRequests App}
    {OB : Object App HIDInfo} {CB : HIDCallbacks App} fuel uninit op (w : World App) :
  HIDCallbacksSafe OB CB -> EventsSafe EV (driver_inv HID_ok) -> RequestsSafe RQ (driver_inv HID_ok) ->
  stack_inv w -> HID_ok (info w) ->
  (op = Op_ProcessControlRequest -> ~ phantom_report (USB_ControlRequest w)) ->
  match HID_run fuel uninit op w with
  | Ret _ w' => stack_inv w' /\ HID_ok (info w')
  | NoFuel => True
  | Fault => False
  end.
Proof.
  intros CS ES RS Hw HI Hp. enough (wp false (HID_run fuel uninit op) (fun _ w' => driver_inv HID_ok w') w) as H.
  { revert H. unfold wp. by destruct (HID_run fuel uninit op w). }
  destruct op; cbn [HID_run].
  - by apply HID_request_safe; [|apply Hp].
  - apply safe_wp; [|done]. pose proof (HID_configure_safe (App := App) fuel). safe_tac.
  - by apply HID_task_safe.
  - by apply HID_tick_safe.
Qed.

(** ** Two requests the driver does not handle well *)

(** Reading an empty data stage stores nothing. *)
Lemma Read_empty_ctl {HW : Hardware} {RH : ReadyHost} {App} {EV : DeviceEvents App} fuel buf
    (w0 w : World App) : (0 < fuel)%nat -> ctl [] [] w0 w ->
  wp true (Template_Endpoint_Control_R fuel LE buf 0)
    (fun r w' => r = (buf, ENDPOINT_RWCSTREAM_NoError) /\ ctl [] [] w0 w') w.
Proof.
  intros Hf H. unfold Template_Endpoint_Control_R. cbn [Z.eqb when]. apply wp_bind.
  ctl_step ClearOUT_ctl H. intros [] w1 H1. destruct fuel as [|fuel]; [lia|].
  cbn [ControlR_loop Z.eqb]. apply wp_bind, wp_ret, wp_bind. cbn [ControlStream_wait]. apply wp_bind.
  ctl_step IsINReady_ctl H1. intros r w2 [-> H2]. apply wp_ret. by apply wp_ret.
Qed.

(** A SET_REPORT request with a report ID and no data makes the driver call the
    application's report callback with an empty buffer and a size of 65535 bytes:
    the 16-bit subtraction of the ID byte wraps around. *)
Theorem SetReport_underflow {HW : Hardware} {RH : ReadyHost} {App} {EV : DeviceEvents App}
    {RQ : DeviceRequests App} {OB : Object App HIDInfo} {CB : HIDCallbacks App} fuel uninit
    (w : World App) : (0 < fuel)%nat -> pending w ->
  asks w CLASS_OUT HID_REQ_SetReport (InterfaceNumber (Config (info w))) ->
  phantom_report (USB_ControlRequest w) ->
  let v := wValue (USB_ControlRequest w) in
  exists w', app w' = app w /\ HID_Device_ProcessControlRequest fuel uninit w =
    CALLBACK_HID_Device_ProcessHIDReport (Z.land v 0xFF) (u8 (Z.shiftr v 8 - 1)) [] 65535 w'.
Proof.
  intros Hf Hp (Hb & Hr & Hi) (_ & Hl & Hid) v. fold v in Hid.
  destruct (wp_total_run _ _ _ (pending_ctl w Hp)) as (s & w1 & E1 & -> & H1).
  destruct (wp_total_run_unit _ _ _ (ClearSETUP_ctl _ _ _ _ H1)) as (w2 & E2 & H2).
  destruct (wp_total_run _ _ _ (Read_empty_ctl fuel (vla uninit 0) w w2 Hf H2)) as (r & w3 & E3 & -> & H3).
  destruct (wp_total_run_unit _ _ _ (ClearIN_ctl _ _ _ _ H3)) as (w4 & E4 & H4).
  exists w4. split; [by apply ctl_app in H4|].
  unfold HID_Device_ProcessControlRequest. rewrite (bind_run _ _ _ _ _ E1). cbn [negb].
  rewrite (bind_run (gets _) _ _ _ _ eq_refl), (bind_run the _ _ _ _ eq_refl).
  rewrite (ctl_request _ _ _ _ H1), (ctl_app _ _ _ _ H1). fold (info w).
  rewrite Hi, Z.eqb_refl, Hr, Hb. cbn [negb Z.eqb Pos.eqb HID_REQ_GetReport HID_REQ_SetReport].
  change (CLASS_OUT =? CLASS_OUT) with true. cbn [when]. unfold HID_SetReport.
  rewrite (bind_run (gets _) _ _ _ _ eq_refl), (ctl_request _ _ _ _ H1), Hl. fold v.
  rewrite (bind_run _ _ _ _ _ E2). unfold Endpoint_Read_Control_Stream_LE. rewrite (bind_run _ _ _ _ _ E3).
  cbn [fst]. rewrite (bind_run _ _ _ _ _ E4), (proj2 (Z.eqb_neq _ _) Hid). done.
Qed.

(** GET_REPORT terminates against a host that takes its packets, having sent one
    packet: the ID of the report the application made, if it has one, and the first
    bytes of the report, at most as many as the host asked for.  A report with an ID
    that is at least as long as the request is therefore sent with one byte more
    than the host asked for. *)
Theorem GetReport_answers {HW : Hardware} {App} {EV : DeviceEvents App} {OB : Object App HIDInfo}
    {CB : HIDCallbacks App} fuel (w : World App) force id data n g :
  let req := USB_ControlRequest w in
  let i := info w in
  ControlHost (length (packets (tr w))) (wLength req) ->
  CALLBACK_HID_Device_CreateHIDReport (Z.land (wValue req) 0xFF) (u8 (Z.shiftr (wValue req) 8 - 1))
    (replicate (Z.to_nat (PrevReportINBufferSize (Config i))) 0) 0 w
    = Ret (force, id, data, n) (upd_app g w) ->
  load (g (app w)) = i -> buffer_ok i -> Z.of_nat (length data) = PrevReportINBufferSize (Config i) ->
  is_u8 id -> Forall is_u8 data -> 0 < n <= Z.of_nat (length data) -> n < 63 -> 0 < wLength req ->
  USB_DeviceState w = DEVICE_STATE_Configured -> (1 < fuel)%nat ->
  let p := (if id =? 0 then [] else [id]) ++ take (Z.to_nat (Z.min n (wLength req))) data in
  exists w', HID_GetReport fuel w = Ret tt w' /\ packets (tr w') = packets (tr w) ++ [(0, p)] /\
    (id <> 0 -> wLength req <= n -> Z.of_nat (length p) = wLength req + 1).
Proof.
  intros req i CH Hcb Hg Hok Hl Hid Hd Hn Hn2 Hw Hst Hf p.
  enough (wp true (HID_GetReport fuel) (fun _ w' => packets (tr w') = packets (tr w) ++ [(0, p)]) w) as H.
  { apply wp_total_run_unit in H as (w' & Hrun & Hp). exists w'. split; [done|]. split; [done|].
    intros Hne Hle. unfold p. rewrite (proj2 (Z.eqb_neq id 0)) by done. rewrite length_app, length_take.
    cbn. lia. }
  unfold HID_GetReport. apply wp_bind, wp_gets, wp_bind, wp_gets, wp_bind. unfold wp at 1.
  fold (info w) req i. rewrite Hcb. set (w0 := upd_app g w).
  assert (wp true (save_report (App := App) data) (fun _ w' => exists g', w' = upd_app g' w) w0) as Hsave.
  { unfold save_report. apply wp_bind, wp_gets. change (app w0) with (g (app w)). rewrite Hg.
    destruct Hok as [Hu Hb]. destruct (PrevReportINBuffer (Config i)) as [b|] eqn:E; [|apply wp_ret; by exists g].
    specialize (Hb b eq_refl). unfold is_u8 in Hu. apply wp_bind.
    eapply wp_checked; [apply memcpy_some; lia|]. apply wp_modify. by eexists (fun a => store_in _ (g a)). }
  apply wp_bind. eapply wp_mono; [exact Hsave|]. intros [] w1 [g' ->]. clear Hsave.
  unfold Endpoint_SelectEndpoint. apply wp_bind, wp_wr. cbn [reg_trunc]. set (w2 := upd_tr _ (upd_app g' w)).
  assert (between (packets (tr w)) [] w2) as Hb2.
  { split; [done|]. split; [done|]. split; [by cbn; rewrite app_nil_r|]. cbn. rewrite Hst. done. }
  apply wp_bind. eapply wp_mono; [apply wp_conj; [by apply (between_ack _ (wLength req) [])|]|].
  { instantiate (1 := fun _ w' => USB_ControlRequest w' = req). done. }
  intros [] w3 [(Hs3 & Hk3 & Hp3 & Hu3 & Hsu3) Hr3]. cbn in Hp3. rewrite app_nil_r in Hp3.
  apply wp_bind. set (hdr := if id =? 0 then [] else [id]).
  eapply wp_mono with (P := fun _ w' => selected (tr w') = 0 /\ bank (tr w') = hdr /\
    packets (tr w') = packets (tr w) /\ USB_DeviceState w' = USB_DeviceState w3 /\ USB_ControlRequest w' = req).
  { unfold hdr. destruct (id =? 0); cbn [negb when]; [by apply wp_ret|]. unfold Endpoint_Write_8. apply wp_wr.
    cbn. rewrite Hk3, u8_small by done. done. }
  intros [] w4 (Hs4 & Hk4 & Hp4 & Hst4 & Hr4). apply wp_bind. unfold Endpoint_Write_Control_Stream_LE.
  eapply wp_mono; [apply (Control_W_headed (packets (tr w)) (wLength req) LE data n);
    rewrite ?Hst4, ?Hr4; (done || lia || idtac)|].
  - unfold is_u16. lia.
  - unfold hdr. destruct (id =? 0); cbn; lia.
  - intros r w5 [_ Hb5]. eapply wp_mono; [by eapply (between_ack _ (wLength req))|].
    intros [] w6 (_ & _ & -> & _). cbn. rewrite take_take.
    by replace (Z.to_nat (n `min` wLength req) `min` Z.to_nat n)%nat with (Z.to_nat (n `min` wLength req)) by lia.
Qed.

(** ** The idle rate *)

Section IdleRate.
Context {App : Type} {OB : Object App HIDInfo}.

(** [n] milliseconds go by. *)
Fixpoint elapse (n : nat) : prog (World App) unit :=
  match n with
  | O => mret tt
  | S n => HID_Device_MillisecondElapsed;; elapse n
  end.

(** The application differs from [a] at most in the idle counter. *)
Definition idle_variant (a a' : App) : Prop :=
  a' = a \/ exists r, a' = store_in (set_IdleMSRemaining r) a.

Lemma elapse_spec n a0 w : 0 <= IdleMSRemaining (State (info w)) < 65536 -> idle_variant a0 (app w) ->
  wp true (elapse n) (fun _ w' => exists g, w' = upd_app g w /\ idle_variant a0 (app w') /\
    Config (info w') = Config (info w) /\ PrevFrameNum (State (info w')) = PrevFrameNum (State (info w)) /\
    IdleCount (State (info w')) = IdleCount (State (info w)) /\
    IdleMSRemaining (State (info w')) = Z.max 0 (IdleMSRemaining (State (info w)) - Z.of_nat n)) w.
Proof.
  revert w; induction n as [|n IH]; intros w Hr Hv; cbn [elapse].
  { apply wp_ret. exists id. split; [by destruct w|]. repeat split; try done. lia. }
  apply wp_bind. unfold HID_Device_MillisecondElapsed. apply wp_bind, wp_gets. fold (info w).
  apply wp_when; intros E; bool_hyps.
  - apply wp_modify. set (w1 := upd_app _ w).
    assert (info w1 = set_IdleMSRemaining (IdleMSRemaining (State (info w)) - 1) (info w)) as Hi
      by (unfold info, w1; cbn; by rewrite load_store_in).
    eapply wp_mono; [apply IH|].
    + rewrite Hi. cbn. rewrite u16_small by (unfold is_u16; lia). lia.
    + right. unfold w1. cbn. destruct Hv as [-> | [r ->]].
      * eexists. unfold store_in. reflexivity.
      * eexists. unfold store_in. rewrite load_store, store_store. reflexivity.
    + intros [] w' (g & -> & Hv' & H). rewrite Hi in H. cbn in H. exists (fun a => g (store_in (fun i =>
        set_IdleMSRemaining (IdleMSRemaining (State i) - 1) i) a)). split; [done|]. split; [done|].
      rewrite u16_small in H by (unfold is_u16; lia). destruct H as (H1 & H2 & H3 & H4).
      repeat split; try done. rewrite H4. lia.
  - eapply wp_mono; [by apply IH|]. intros [] w' (g & -> & Hv' & H1 & H2 & H3 & H4). exists g.
    repeat split; try done. rewrite H4. lia.
Qed.
End IdleRate.

(** The driver keeps the idle rate the host asked for: [n] milliseconds after it
    sent a report, an application that still makes the same report and does not
    force it has it sent again at the next polling opportunity exactly when the host
    set an idle period and it has elapsed, and with an idle period of 0 never. *)
Theorem HID_idle_rate {App} {OB : Object App HIDInfo} {CB : HIDCallbacks App}
    {PR : PureReports OB CB} {HW : Hardware} {is_in size q0} {DH : DataHost is_in size q0}
    {EV : DeviceEvents App} {RQ : DeviceRequests App} fuel e n (w : World App) id data k :
  let i := info w in
  let m := Z.to_nat (PrevReportINBufferSize (Config i)) in
  let c := IdleCount (State i) in
  USB_DeviceState w = DEVICE_STATE_Configured ->
  u16 (hw_read (tr w) UDFNUM) <> PrevFrameNum (State i) ->
  Z.land (Address (ReportINEndpoint (Config i))) 0x0F = e -> 0 < e < 16 -> is_in e = true ->
  ep_bank (ep_state is_in q0 e (tr w)) = [] -> buffer_ok i ->
  (1 + m <= size e)%nat -> (2 * m + 1 < fuel)%nat ->
  0 <= c < 65536 -> IdleMSRemaining (State i) = c ->
  (forall a, idle_variant (app w) a -> next_report a = (false, id, data, k)) -> k <> 0 ->
  changed i data k = false ->
  exists w', (elapse n;; HID_Device_USBTask fuel) w = Ret tt w' /\
    ep_sent (ep_state is_in q0 e (tr w')) = ep_sent (ep_state is_in q0 e (tr w)) ++
      (if (0 <? c) && (c <=? Z.of_nat n) then [(if id =? 0 then [] else [id]) ++ take (Z.to_nat k) data] else []).
Proof.
  intros i m c Hst Hfr Ha He Hin Hbk Hok Hsz Hf Hc Hr Hnr Hk Hch.
  assert (0 <= IdleMSRemaining (State (info w)) < 65536) as Hrem by (fold i; by rewrite Hr).
  destruct (wp_total_run_unit _ _ _ (elapse_spec n (app w) w Hrem ltac:(by left)))
    as (w1 & Hrun & g & -> & Hv & HC & HF & HI & HR).
  set (w1 := upd_app g w) in *. fold i in HC, HF, HI, HR. fold c in HI.
  destruct (HID_USBTask_poll fuel e w1) as (w' & f & Hrun' & _ & Hep & _);
    rewrite ?HC, ?HF; try done; [unfold buffer_ok; by rewrite HC|].
  exists w'. rewrite (bind_run _ _ _ _ _ Hrun). split; [done|]. rewrite Hep.
  unfold polled_ep, report_due, report_packet. rewrite (Hnr _ Hv), (proj2 (Z.eqb_neq k 0)) by done.
  change (load (app w1)) with (info w1). cbn [negb orb andb]. unfold changed. rewrite HC. fold (changed i data k).
  rewrite Hch. unfold idle_elapsed. rewrite HI, HR, Hr. cbn [orb].
  replace (negb (c =? 0) && (Z.max 0 (c - Z.of_nat n) =? 0)) with ((0 <? c) && (c <=? Z.of_nat n)).
  - destruct ((0 <? c) && _); [done|]. by rewrite app_nil_r.
  - destruct (0 <? c) eqn:?, (c <=? Z.of_nat n) eqn:?, (c =? 0) eqn:?, (_ =? 0) eqn:?; bool_hyps; (done || lia).
Qed.

(** ** A concrete interface

    A three-byte report with ID 5, on endpoint 1; the application is the interface
    structure alone. *)

Definition demo_callbacks : HIDCallbacks HIDInfo :=
  {| CALLBACK_HID_Device_CreateHIDReport :=
       fun _ _ buf _ => mret (false, 5, map (fun _ => 7) buf, Z.of_nat (length buf));
     CALLBACK_HID_Device_ProcessHIDReport := fun _ _ _ _ => mret tt |}.

Definition demo_info (prev : list Z) (rest : Z) : HIDInfo :=
  mkHIDInfo (mkHIDConfig 0 (mkEndpointTable 0x81 8 3 1) (Some prev) 3) (mkHIDState true 5 8 rest).

Definition demo_reports : PureReports (object_self HIDInfo) demo_callbacks.
Proof.
  refine {| make_report := fun _ buf => (false, 5, map (fun _ => 7) buf, Z.of_nat (length buf)); made := id |}.
  - intros w buf. by destruct w.
  - done.
  - intros a buf force id data n [= _ <- <- <-]. rewrite length_map.
    split; [done|]. split; [done|]. split; [|lia]. apply Forall_map, Forall_forall. done.
Defined.

Lemma demo_safe : HIDCallbacksSafe (object_self HIDInfo) demo_callbacks.
Proof.
  split; [|intros; apply safe_ret]. intros id ty buf w HJ Hl. apply wp_ret. rewrite length_map.
  repeat split; try apply HJ; lia.
Qed.

Lemma demo_info_ok prev r : length prev = 3%nat -> 0 <= r <= 1020 -> HID_ok (demo_info prev r).
Proof.
  intros Hp Hr. repeat split; cbn; try lia; try done. intros b [= <-]. lia.
Qed.

Lemma HID_setting_roundtrip_witness :
  let w := request_world (demo_info [0; 0; 0] 0) (mkRequest 0x21 HID_REQ_SetIdle 0x7D00 0 0) in
  exists ext, let w1 := upd_tr (fun t => ext ++ t) (upd_app (store_in (updated Idle 0x7D00)) w) in
    HID_Device_ProcessControlRequest (HW := setup_hw []) (EV := no_events _) (CB := demo_callbacks)
      5 (fun _ => 0) w = Ret tt w1 /\
    packets (tr w1) = [] ++ [(0, [])] /\
    forall w2, info w2 = info w1 -> pending (HW := setup_hw []) w2 -> acked (HW := setup_hw []) w2 ->
      asks w2 CLASS_IN (get_request Idle) (InterfaceNumber (Config (info w2))) ->
      exists ext', let w3 := upd_tr (fun t => ext' ++ t) w2 in
        HID_Device_ProcessControlRequest (HW := setup_hw []) (EV := no_events _) (CB := demo_callbacks)
          5 (fun _ => 0) w2 = Ret tt w3 /\
        packets (tr w3) = packets (tr w2) ++ [(0, [carried Idle 0x7D00])].
Proof.
  apply (HID_setting_roundtrip (HW := setup_hw []) (RH := setup_ready []) (EV := no_events _)
    (RQ := no_requests _) (CB := demo_callbacks) 5 (fun _ => 0) Idle
    (request_world (demo_info [0; 0; 0] 0) (mkRequest 0x21 HID_REQ_SetIdle 0x7D00 0 0)));
    (lia || done || by repeat split).
Defined.

(** A configured interface whose report endpoint is polled. *)
Definition demo_world (prev : list Z) (rest : Z) : World HIDInfo := selected_world (demo_info prev rest) 0.

Lemma HID_USBTask_reports_witness :
  exists w' f, HID_Device_USBTask (HW := pair_hw) (EV := no_events _) (RQ := no_requests _)
      (CB := demo_callbacks) 20 (demo_world [0; 0; 0] 4) = Ret tt w' /\
    info w' = polled (PR := demo_reports) (demo_info [0; 0; 0] 4) f /\
    ep_state pair_in pair_q 1 (tr w') = polled_ep (PR := demo_reports) (demo_info [0; 0; 0] 4)
      (ep_state pair_in pair_q 1 [Wr UENUM 0]) /\
    (forall x, x <> 1 -> ep_state pair_in pair_q x (tr w') = ep_state pair_in pair_q x [Wr UENUM 0]) /\
    read_frame (HW := pair_hw) f (tr w').
Proof.
  apply (HID_USBTask_reports (PR := demo_reports) (DH := pair_host) (EV := no_events _)
    (RQ := no_requests _) 20 1 (demo_world [0; 0; 0] 4)); try done; try (cbn; lia).
  apply (demo_info_ok [0; 0; 0] 4); [done|lia].
Defined.

Lemma HID_driver_safe_witness :
  match HID_run (HW := pair_hw) (EV := no_events _) (RQ := no_requests _) (CB := demo_callbacks)
          20 (fun _ => 0) Op_USBTask (demo_world [0; 0; 0] 4) with
  | Ret _ w' => stack_inv w' /\ HID_ok (info w')
  | NoFuel => True
  | Fault => False
  end.
Proof.
  apply (HID_driver_safe (HW := pair_hw) (EV := no_events _) (RQ := no_requests _)
    (CB := demo_callbacks) 20 (fun _ => 0) Op_USBTask (demo_world [0; 0; 0] 4)).
  - exact demo_safe.
  - split; intros w HJ; exact HJ.
  - split; [intros; by left|..]; intros fuel w HJ; exact HJ.
  - done.
  - apply demo_info_ok; [done|lia].
  - done.
Defined.

Lemma SetReport_underflow_witness :
  exists w', app w' = demo_info [0; 0; 0] 4 /\
    HID_Device_ProcessControlRequest (HW := setup_hw []) (EV := no_events _) (CB := demo_callbacks) 5 (fun _ => 0)
      (request_world (demo_info [0; 0; 0] 4) (mkRequest 0x21 HID_REQ_SetReport 0x0205 0 0))
    = CALLBACK_HID_Device_ProcessHIDReport (HIDCallbacks := demo_callbacks) 5 1 [] 65535 w'.
Proof.
  apply (SetReport_underflow (HW := setup_hw []) (RH := setup_ready []) (EV := no_events _) (RQ := no_requests _)
    (CB := demo_callbacks) 5 (fun _ => 0)
    (request_world (demo_info [0; 0; 0] 4) (mkRequest 0x21 HID_REQ_SetReport 0x0205 0 0)));
    (lia || done || by repeat split).
Defined.

Lemma GetReport_answers_witness :
  exists w', HID_GetReport (HW := host_hw 0 2) (EV := no_events _) (CB := demo_callbacks) 5
      (request_world (demo_info [0; 0; 0] 4) (mkRequest 0xA1 HID_REQ_GetReport 0x0105 0 2)) = Ret tt w' /\
    packets (tr w') = [] ++ [(0, [5; 7; 7])] /\ (5 <> 0 -> 2 <= 3 -> Z.of_nat (length [5; 7; 7]) = 2 + 1).
Proof.
  apply (GetReport_answers (HW := host_hw 0 2) (EV := no_events _) (CB := demo_callbacks) 5
    (request_world (demo_info [0; 0; 0] 4) (mkRequest 0xA1 HID_REQ_GetReport 0x0105 0 2))
    false 5 [7; 7; 7] 3 id); try done; try (cbn; lia).
  - apply host_control.
  - apply (demo_info_ok [0; 0; 0] 4); [done|lia].
  - repeat constructor; lia.
Defined.

Lemma HID_idle_rate_witness :
  exists w', (elapse 8;; HID_Device_USBTask (HW := pair_hw) (EV := no_events _) (RQ := no_requests _)
      (CB := demo_callbacks) 20) (demo_world [7; 7; 7] 8) = Ret tt w' /\
    ep_sent (ep_state pair_in pair_q 1 (tr w')) = [] ++ [[5; 7; 7; 7]].
Proof.
  apply (HID_idle_rate (PR := demo_reports) (DH := pair_host) (EV := no_events _)
    (RQ := no_requests _) 20 1 8 (demo_world [7; 7; 7] 8) 5 [7; 7; 7] 3); try done; try (cbn; lia).
  - apply (demo_info_ok [7; 7; 7] 8); [done|lia].
  - intros a [-> | [r ->]]; done.
Defined.
