(* ===== verification/CDCDevice.v ===== *)
(** The CDC-ACM (virtual serial port) device class driver:
    LUFA/Drivers/USB/Class/Device/CDCClassDevice.[ch]. *)

From stdpp Require Import base tactics option list numbers.
From Stdlib Require Import ZArith Lia.
From S2P Require Import Prelude Memory Hardware Endpoint USBController ControlStream DeviceStandardReq.
From S2P Require Import EndpointStream ClassDriver SerialPort.

(** [enum CDC_ClassRequests_t], [enum CDC_ClassNotifications_t] *)
Definition CDC_REQ_SetLineEncoding : Z := 0x20.
Definition CDC_REQ_GetLineEncoding : Z := 0x21.
Definition CDC_REQ_SetControlLineState : Z := 0x22.
Definition CDC_REQ_SendBreak : Z := 0x23.
Definition CDC_NOTIF_SerialState : Z := 0x20.

Record CDC_LineEncoding_t : Set := mkLineEncoding {
  BaudRateBPS : Z;
  CharFormat : Z;
  ParityType : Z;
  DataBits : Z
}.

(** [USB_ClassInfo_CDC_Device_t] *)
Record CDC_Config : Set := mkCDCConfig {
  ControlInterfaceNumber : Z;
  DataINEndpoint : USB_Endpoint_Table_t;
  DataOUTEndpoint : USB_Endpoint_Table_t;
  NotificationEndpoint : USB_Endpoint_Table_t
}.
Record CDC_State : Set := mkCDCState {
  HostToDevice : Z;
  DeviceToHost : Z;
  LineEncoding : CDC_LineEncoding_t
}.
Record USB_ClassInfo_CDC_Device_t : Set := mkCDCInfo {
  Config : CDC_Config;
  State : CDC_State
}.

Abbreviation CDCInfo := USB_ClassInfo_CDC_Device_t.

Definition set_State (f : CDC_State -> CDC_State) (i : CDCInfo) : CDCInfo :=
  mkCDCInfo (Config i) (f (State i)).
Definition set_HostToDevice (v : Z) : CDCInfo -> CDCInfo :=
  set_State (fun s => mkCDCState v (DeviceToHost s) (LineEncoding s)).
Definition set_LineEncoding (f : CDC_LineEncoding_t -> CDC_LineEncoding_t) : CDCInfo -> CDCInfo :=
  set_State (fun s => mkCDCState (HostToDevice s) (DeviceToHost s) (f (LineEncoding s))).
Definition set_BaudRateBPS (v : Z) : CDCInfo -> CDCInfo :=
  set_LineEncoding (fun l => mkLineEncoding v (CharFormat l) (ParityType l) (DataBits l)).
Definition set_CharFormat (v : Z) : CDCInfo -> CDCInfo :=
  set_LineEncoding (fun l => mkLineEncoding (BaudRateBPS l) v (ParityType l) (DataBits l)).
Definition set_ParityType (v : Z) : CDCInfo -> CDCInfo :=
  set_LineEncoding (fun l => mkLineEncoding (BaudRateBPS l) (CharFormat l) v (DataBits l)).
Definition set_DataBits (v : Z) : CDCInfo -> CDCInfo :=
  set_LineEncoding (fun l => mkLineEncoding (BaudRateBPS l) (CharFormat l) (ParityType l) v).
Definition set_Config (f : CDC_Config -> CDC_Config) (i : CDCInfo) : CDCInfo :=
  mkCDCInfo (f (Config i)) (State i).

(** The [Type] fields of the three endpoints. *)
Definition set_EndpointTypes (i : CDCInfo) : CDCInfo :=
  set_Config (fun c => mkCDCConfig (ControlInterfaceNumber c)
    (with_Type EP_TYPE_BULK (DataINEndpoint c)) (with_Type EP_TYPE_BULK (DataOUTEndpoint c))
    (with_Type EP_TYPE_INTERRUPT (NotificationEndpoint c))) i.

(** The events of the driver; [Event_Stub] is what the application does not define. *)
Class CDCEvents (App : Type) : Type := {
  EVENT_CDC_Device_LineEncodingChanged : prog (World App) unit;
  EVENT_CDC_Device_ControLineStateChanged : prog (World App) unit;
  EVENT_CDC_Device_BreakSent : Z -> prog (World App) unit
}.
Definition CDC_Device_Event_Stub {App} : CDCEvents App :=
  {| EVENT_CDC_Device_LineEncodingChanged := mret tt;
     EVENT_CDC_Device_ControLineStateChanged := mret tt;
     EVENT_CDC_Device_BreakSent := fun _ => mret tt |}.

Section CDCDevice.
Context {HW : Hardware} {App : Type} {EV : DeviceEvents App} {RQ : DeviceRequests App}.
Context {OB : Object App CDCInfo} {CE : CDCEvents App}.
Context (fuel : nat).
Abbreviation P := (prog (World App)).

Definition CDC_GetLineEncoding : P unit :=
  Endpoint_ClearSETUP;;
  INReady_wait fuel;;
  i ← the;
  let l := LineEncoding (State i) in
  Endpoint_Write_32_LE (BaudRateBPS l);;
  Endpoint_Write_8 (CharFormat l);;
  Endpoint_Write_8 (ParityType l);;
  Endpoint_Write_8 (DataBits l);;
  Endpoint_ClearIN;;
  Endpoint_ClearStatusStage fuel.

Definition CDC_SetLineEncoding : P unit :=
  Endpoint_ClearSETUP;;
  r ← StatusStage_wait fuel fuel Endpoint_IsOUTReceived;
  if negb r then mret tt
  else
    b ← Endpoint_Read_32_LE; assign (set_BaudRateBPS b);;
    c ← Endpoint_Read_8; assign (set_CharFormat c);;
    p ← Endpoint_Read_8; assign (set_ParityType p);;
    d ← Endpoint_Read_8; assign (set_DataBits d);;
    Endpoint_ClearOUT;;
    Endpoint_ClearStatusStage fuel;;
    EVENT_CDC_Device_LineEncodingChanged.

Definition CDC_SetControlLineState : P unit :=
  Endpoint_ClearSETUP;;
  Endpoint_ClearStatusStage fuel;;
  req ← gets USB_ControlRequest;
  assign (set_HostToDevice (wValue req));;
  EVENT_CDC_Device_ControLineStateChanged.

Definition CDC_SendBreak : P unit :=
  Endpoint_ClearSETUP;;
  Endpoint_ClearStatusStage fuel;;
  req ← gets USB_ControlRequest;
  EVENT_CDC_Device_BreakSent (u8 (wValue req)).

Definition CDC_Device_ProcessControlRequest : P unit :=
  s ← Endpoint_IsSETUPReceived;
  if negb s then mret tt
  else
    req ← gets USB_ControlRequest;
    i ← the;
    if negb (wIndex req =? ControlInterfaceNumber (Config i)) then mret tt
    else
      let r := bRequest req in
      if r =? CDC_REQ_GetLineEncoding then when (bmRequestType req =? CLASS_IN) CDC_GetLineEncoding
      else if r =? CDC_REQ_SetLineEncoding then when (bmRequestType req =? CLASS_OUT) CDC_SetLineEncoding
      else if r =? CDC_REQ_SetControlLineState
      then when (bmRequestType req =? CLASS_OUT) CDC_SetControlLineState
      else if r =? CDC_REQ_SendBreak then when (bmRequestType req =? CLASS_OUT) CDC_SendBreak
      else mret tt.

Definition CDC_Device_ConfigureEndpoints : P bool :=
  assign (set_State (fun _ => mkCDCState 0 0 (mkLineEncoding 0 0 0 0)));;
  assign set_EndpointTypes;;
  i ← the;
  ok ← Endpoint_ConfigureEndpointTable fuel [DataINEndpoint (Config i)];
  if negb ok then mret false
  else
    ok ← Endpoint_ConfigureEndpointTable fuel [DataOUTEndpoint (Config i)];
    if negb ok then mret false
    else
      ok ← Endpoint_ConfigureEndpointTable fuel [NotificationEndpoint (Config i)];
      if negb ok then mret false else mret true.

(** The negation of [(USB_DeviceState != DEVICE_STATE_Configured) || !(BaudRateBPS)],
    the guard of all that follows. *)
Definition CDC_online : P bool :=
  st ← poll_DeviceState fuel;
  if negb (st =? DEVICE_STATE_Configured) then mret false
  else i ← the; mret (negb (BaudRateBPS (LineEncoding (State i)) =? 0)).

Definition CDC_select (f : CDC_Config -> USB_Endpoint_Table_t) : P unit :=
  i ← the; Endpoint_SelectEndpoint (Address (f (Config i))).

(** The functions of the port (SerialPort.v). *)
Definition CDC_Device_SendString : list Z -> P Z :=
  port_SendString fuel CDC_online (CDC_select DataINEndpoint).
Definition CDC_Device_SendString_P : list Z -> P Z :=
  port_SendString_P fuel CDC_online (CDC_select DataINEndpoint).
Definition CDC_Device_SendData : list Z -> Z -> P Z :=
  port_SendData fuel CDC_online (CDC_select DataINEndpoint).
Definition CDC_Device_SendData_P : list Z -> Z -> P Z :=
  port_SendData_P fuel CDC_online (CDC_select DataINEndpoint).
Definition CDC_Device_SendByte : Z -> P Z :=
  port_SendByte fuel CDC_online (CDC_select DataINEndpoint).
Definition CDC_Device_Flush : P Z := port_Flush fuel CDC_online (CDC_select DataINEndpoint).
Definition CDC_Device_BytesReceived : P Z := port_BytesReceived CDC_online (CDC_select DataOUTEndpoint).
Definition CDC_Device_ReceiveByte : P Z := port_ReceiveByte CDC_online (CDC_select DataOUTEndpoint).

Definition CDC_Device_USBTask : P unit :=
  on ← CDC_online;
  if negb on then mret tt
  else port_autoflush fuel CDC_online (CDC_select DataINEndpoint).

Definition CDC_Device_SendControlLineStateChange : P unit :=
  on ← CDC_online;
  if negb on then mret tt
  else
    CDC_select NotificationEndpoint;;
    i ← the;
    let Notification := mkRequest CLASS_IN CDC_NOTIF_SerialState 0 0 2 in
    Endpoint_Write_Stream_LE fuel (enc_request Notification) 8 None;;
    Endpoint_Write_Stream_LE fuel (le16 (DeviceToHost (State i))) 2 None;;
    Endpoint_ClearIN.

(** ** The stdio streams *)

Definition CDC_Device_putchar : Z -> P Z := port_putchar fuel CDC_online (CDC_select DataINEndpoint).
Definition CDC_Device_getchar : P Z := port_getchar CDC_online (CDC_select DataOUTEndpoint).
Definition CDC_Device_getchar_Blocking : P Z :=
  port_getchar_Blocking fuel CDC_online (CDC_select DataOUTEndpoint) CDC_Device_USBTask.

Definition CDC_Device_CreateStream : FILE App :=
  mkFILE App CDC_Device_putchar CDC_Device_getchar _FDEV_SETUP_RW.
Definition CDC_Device_CreateBlockingStream : FILE App :=
  mkFILE App CDC_Device_putchar CDC_Device_getchar_Blocking _FDEV_SETUP_RW.
End CDCDevice.
