(* ===== verification/CDCDeviceSpec.v ===== *)
(** Correctness of the virtual serial port driver (CDCDevice.v). *)

From stdpp Require Import base tactics option list numbers fin_maps functions.
From Stdlib Require Import ZArith Lia.
From S2P Require Import Prelude Memory Hardware Endpoint USBController ControlStream DeviceStandardReq.
From S2P Require Import EndpointStream ControlTransfer ControlReceive ControlRequest DataEndpoint.
From S2P Require Import DataStream ClassDriver SerialPort SerialPortSpec CDCDevice.

(** ** The port of the driver *)

Definition CDC_tx {HW : Hardware} {App} {EV : DeviceEvents App} {RQ : DeviceRequests App}
    {OB : Object App CDCInfo} (fuel : nat) (op : tx_op) : prog (World App) Z :=
  match op with
  | TxByte Data => CDC_Device_SendByte fuel Data
  | TxData Buffer Length => CDC_Device_SendData fuel Buffer Length
  | TxString String => CDC_Device_SendString fuel String
  | TxFlush => CDC_Device_Flush fuel
  | TxTask => CDC_Device_USBTask fuel;; mret 0
  end.

Definition CDC_port {HW : Hardware} {App} {EV : DeviceEvents App} {OB : Object App CDCInfo}
    (fuel : nat) : Port App :=
  mkPort App (CDC_online fuel) (CDC_select DataINEndpoint) (CDC_select DataOUTEndpoint) (CDC_Device_USBTask fuel).

(** The interface is configured, its data endpoints are [ein] and [eout], and the
    host has set a line encoding. *)
Definition open_port {App} {OB : Object App CDCInfo} (is_in : Z -> bool) (size : Z -> nat)
    (ein eout : Z) (w : World App) : Prop :=
  USB_DeviceState w = DEVICE_STATE_Configured /\
  BaudRateBPS (LineEncoding (State (info w))) <> 0 /\
  Z.land (Address (DataINEndpoint (Config (info w)))) 0x0F = ein /\
  Z.land (Address (DataOUTEndpoint (Config (info w)))) 0x0F = eout /\
  0 < ein < 16 /\ 0 < eout < 16 /\ is_in ein = true /\ is_in eout = false /\
  0 < Z.of_nat (size ein) < 65536.

Section Instance.
Context {HW : Hardware} {is_in : Z -> bool} {size : Z -> nat} {q0 : Z -> list (list Z)}.
Context {DH : DataHost is_in size q0} {App : Type} {EV : DeviceEvents App} {RQ : DeviceRequests App}.
Context {OB : Object App CDCInfo} (ein eout : Z) (w0 : World App) (fuel : nat).
Hypothesis Hopen : open_port is_in size ein eout w0.
Abbreviation dev := (dev (is_in := is_in) (q0 := q0) (App := App) w0).

Lemma online_dev e st w : dev e st w ->
  wp true (CDC_online fuel) (fun r w' => r = true /\ dev e st w') w.
Proof.
  intros H. destruct Hopen as (Hst & Hb & _). unfold CDC_online, poll_DeviceState.
  apply wp_bind, wp_bind. unfold wp at 1, interrupt_point. rewrite dh_irq, andb_false_r. apply wp_gets.
  rewrite (dev_DeviceState _ _ _ _ H), Hst. cbn [negb Z.eqb Pos.eqb DEVICE_STATE_Configured].
  apply wp_bind, wp_gets, wp_ret. rewrite (dev_app _ _ _ _ H). fold (info w0).
  by rewrite (proj2 (Z.eqb_neq _ _)).
Qed.

Lemma select_dev f e st w : dev e st w ->
  wp true (CDC_select f) (fun _ => dev (Z.land (Address (f (Config (info w0)))) 0x0F) st) w.
Proof.
  intros H. apply wp_bind, wp_gets. rewrite (dev_app _ _ _ _ H). by eapply SelectEndpoint_dev.
Qed.

Lemma CDC_OpenPort : OpenPort is_in size q0 (CDC_port fuel) ein eout w0.
Proof.
  destruct (Hopen) as (_ & _ & Hi & Ho & He & Heo & Hin & Hout & Hsz).
  split; cbn [online select_in select_out CDC_port]; [|intros e st w H..|exact (conj He (conj Hin Hsz))|exact (conj Heo Hout)].
  - exact online_dev.
  - eapply wp_mono; [exact (select_dev DataINEndpoint _ _ _ H)|]. intros [] w'. by rewrite Hi.
  - eapply wp_mono; [exact (select_dev DataOUTEndpoint _ _ _ H)|]. intros [] w'. by rewrite Ho.
Qed.

Lemma CDC_FlushingTask : (0 < fuel)%nat -> FlushingTask is_in size q0 (CDC_port fuel) ein w0.
Proof.
  intros Hf e st w Hb H. pose proof CDC_OpenPort. cbn [task CDC_port]. unfold CDC_Device_USBTask. apply wp_bind.
  eapply wp_mono; [by apply online_dev|]. intros on w1 [-> H1]. 
  exact (autoflush_dev (CDC_port fuel) ein eout w0 fuel _ _ _ Hf Hb H1).
Qed.
End Instance.

(** C25: Whatever a firmware sends through an open port, byte by byte, as buffers, as
    strings, with the driver's task or flushes in between, reaches the host: the
    sequence followed by a flush succeeds and terminates, the packets sent are, put
    together, exactly the bytes in order, none is longer than the endpoint, the last
    one is shorter (so the host ends its transfer), nothing stays in the bank, and
    no variable of the firmware and no other endpoint is touched. *)
Theorem CDC_transmits {HW : Hardware} {is_in size q0} {DH : DataHost is_in size q0}
    {App} {EV : DeviceEvents App} {RQ : DeviceRequests App} {OB : Object App CDCInfo}
    fuel ein eout ops (w : World App) : (0 < fuel)%nat -> open_port is_in size ein eout w ->
  Forall (tx_ok fuel) ops ->
  let s := ep_state is_in q0 ein (tr w) in
  (length (ep_bank s) <= size ein)%nat ->
  exists ext ps, let w' := upd_tr (fun t => ext ++ t) w in
    run_all (CDC_tx fuel) (ops ++ [TxFlush]) w = Ret true w' /\
    ep_state is_in q0 ein (tr w') = mkEP [] (ep_sent s ++ ps) (ep_queue s) (ep_stalled s) /\
    concat ps = ep_bank s ++ concat (map tx_bytes ops) /\
    Forall (fun p => (length p <= size ein)%nat) ps /\
    (ps = [] \/ exists qs p, ps = qs ++ [p] /\ (length p < size ein)%nat) /\
    forall x, x <> ein -> ep_state is_in q0 x (tr w') = ep_state is_in q0 x (tr w).
Proof.
  intros Hf Ho Hok s Hb.
  pose proof (port_transmits (CDC_port fuel) fuel ein eout ops w Hf (CDC_OpenPort ein eout w fuel Ho)
    (CDC_FlushingTask ein eout w fuel Ho Hf) Hok Hb) as (ext & ps & Hrun & H).
  exists ext, ps. split; [|exact H]. rewrite <- Hrun. apply run_all_ext. by intros [].
Qed.

(** An open port receives exactly what the host sent, however the host splits it
    into packets.  When the bank holds a packet, [CDC_Device_BytesReceived] returns
    its length and, as its documentation promises, that many calls of
    [CDC_Device_ReceiveByte] succeed at once, delivering the packet.  As many calls
    as there are bytes and packets deliver all the bytes in order, skip empty
    packets and leave nothing. *)
Theorem CDC_receives {HW : Hardware} {is_in size q0} {DH : DataHost is_in size q0}
    {App} {EV : DeviceEvents App} {RQ : DeviceRequests App} {OB : Object App CDCInfo}
    fuel ein eout n (w : World App) : open_port is_in size ein eout w ->
  let s := ep_state is_in q0 eout (tr w) in
  countable (ep_queue s) ->
  (forall p ps, ep_queue s = p :: ps -> p <> [] ->
     exists w1 w2, CDC_Device_BytesReceived fuel w = Ret (Z.of_nat (length p)) w1 /\
       receive (CDC_Device_ReceiveByte fuel) (length p) w1 = Ret p w2 /\
       ep_state is_in q0 eout (tr w2) = with_queue ps s /\ app w2 = app w) /\
  ((length (concat (ep_queue s)) + length (ep_queue s) <= n)%nat -> (0 < n)%nat ->
     exists w1, receive (CDC_Device_ReceiveByte fuel) n w = Ret (concat (ep_queue s)) w1 /\
       ep_state is_in q0 eout (tr w1) = with_queue [] s /\ app w1 = app w /\
       forall x, x <> eout -> ep_state is_in q0 x (tr w1) = ep_state is_in q0 x (tr w)).
Proof.
  intros Ho. exact (port_receives (CDC_port fuel) ein eout n w (CDC_OpenPort ein eout w fuel Ho)).
Qed.

(** ** The line encoding *)

Section LineEncoding.
Context {HW : Hardware} {RH : ReadyHost} {App : Type} {EV : DeviceEvents App}.
Context {OB : Object App CDCInfo} {CE : CDCEvents App}.
Implicit Types w : World App.

(** The line encoding of seven bytes on the bus. *)
Definition dec_line (b0 b1 b2 b3 b4 b5 b6 : Z) : CDC_LineEncoding_t :=
  mkLineEncoding (of_le32 b0 b1 b2 b3) b4 b5 b6.

Lemma set_line_fields l i :
  set_DataBits (DataBits l) (set_ParityType (ParityType l) (set_CharFormat (CharFormat l)
    (set_BaudRateBPS (BaudRateBPS l) i))) = set_LineEncoding (fun _ => l) i.
Proof. by destruct l. Qed.

(** The dispatcher reaches the handler of a pending request. *)
Lemma dispatch_cdc fuel bm r w : pending w ->
  asks w bm r (ControlInterfaceNumber (Config (info w))) ->
  exists w', got 0 w w' /\ CDC_Device_ProcessControlRequest fuel w =
    (if r =? CDC_REQ_GetLineEncoding then when (bm =? CLASS_IN) (CDC_GetLineEncoding fuel)
     else if r =? CDC_REQ_SetLineEncoding then when (bm =? CLASS_OUT) (CDC_SetLineEncoding fuel)
     else if r =? CDC_REQ_SetControlLineState then when (bm =? CLASS_OUT) (CDC_SetControlLineState fuel)
     else if r =? CDC_REQ_SendBreak then when (bm =? CLASS_OUT) (CDC_SendBreak fuel)
     else mret tt) w'.
Proof.
  intros Hp (<- & <- & Hi). unfold CDC_Device_ProcessControlRequest.
  destruct (wp_total_run _ _ _ (wp_conj _ _ _ (fun _ w' => fifo_reads (tr w') = fifo_reads (tr w)) _
    (pending_ctl w Hp) ltac:(by apply wp_bind, wp_rd, wp_ret))) as (s & w1 & E & [-> H1] & Hr).
  exists w1. split; [split; [done|lia]|]. rewrite (bind_run _ _ _ _ _ E). cbn [negb].
  rewrite (bind_run (gets _) _ _ _ _ eq_refl), (bind_run the _ _ _ _ eq_refl).
  rewrite (ctl_request _ _ _ _ H1), (ctl_app _ _ _ _ H1). fold (info w). by rewrite Hi, Z.eqb_refl.
Qed.

(** The data stage and status stage of SET_LINE_ENCODING. *)
Lemma SetLineEncoding_got fuel b0 b1 b2 b3 b4 b5 b6 w0 w : (0 < fuel)%nat ->
  delivers w0 [b0; b1; b2; b3; b4; b5; b6] -> got 0 w0 w ->
  tst (bmRequestType (USB_ControlRequest w0)) REQDIR_DEVICETOHOST = false ->
  exists f w1, CDC_SetLineEncoding fuel w = EVENT_CDC_Device_LineEncodingChanged w1 /\
    ctl [[]] [] (upd_app f w0) w1 /\
    load (f (app w0)) = set_LineEncoding (fun _ => dec_line b0 b1 b2 b3 b4 b5 b6) (info w0).
Proof.
  intros Hf Hd H Hdir. unfold CDC_SetLineEncoding, Endpoint_Read_8.
  run_step (ClearSETUP_got w0 w H) as H1.
  run_step (OUTReceived_got fuel fuel _ w0 _ Hf Hd H1) as [-> H2]. cbn [negb].
  run_step (Read_32_got _ 0 b0 b1 b2 b3 w0 _ Hd eq_refl eq_refl eq_refl eq_refl H2) as [-> H3].
  assign_got (set_BaudRateBPS (of_le32 b0 b1 b2 b3)) H3 Hd.
  run_step (Read_8_got _ 4 b4 _ _ Hd eq_refl H3) as [-> H4].
  assign_got (set_CharFormat b4) H4 Hd.
  run_step (Read_8_got _ 5 b5 _ _ Hd eq_refl H4) as [-> H5].
  assign_got (set_ParityType b5) H5 Hd.
  run_step (Read_8_got _ 6 b6 _ _ Hd eq_refl H5) as [-> H6].
  assign_got (set_DataBits b6) H6 Hd. destruct H6 as [H6 _].
  run_step (ClearOUT_ctl _ _ _ _ H6) as H7.
  match type of H7 with ctl _ _ ?w' _ => run_step (StatusIN_ctl fuel [] w' _ Hf Hdir H7) as H8 end.
  eexists (fun a => store_in _ (store_in _ (store_in _ (store_in _ a)))), _.
  split; [reflexivity|]. split; [exact H8|]. rewrite !load_store_in.
  exact (set_line_fields (dec_line b0 b1 b2 b3 b4 b5 b6) (info w0)).
Qed.

Lemma GetLineEncoding_ctl fuel b0 b1 b2 b3 b4 b5 b6 w0 w : (0 < fuel)%nat ->
  Forall is_u8 [b0; b1; b2; b3; b4; b5; b6] -> acked w0 ->
  bmRequestType (USB_ControlRequest w0) = CLASS_IN ->
  LineEncoding (State (info w0)) = dec_line b0 b1 b2 b3 b4 b5 b6 -> ctl [] [] w0 w ->
  wp true (CDC_GetLineEncoding fuel) (fun _ => ctl [[b0; b1; b2; b3; b4; b5; b6]] [] w0) w.
Proof.
  intros Hf Hb Ha Hd Hl H. rewrite !Forall_cons_iff in Hb. destruct Hb as (U0 & U1 & U2 & U3 & U4 & U5 & U6 & _).
  apply wp_bind. ctl_step ClearSETUP_ctl H. intros [] w1 H1.
  apply wp_bind. ctl_step INReady_wait_ctl H1. intros [] w2 H2.
  apply wp_bind, wp_gets. rewrite (ctl_app _ _ _ _ H2). fold (info w0). rewrite Hl.
  apply wp_bind. ctl_step Write_32_ctl H2. intros [] w3 H3.
  apply wp_bind. ctl_step Write_8_ctl H3. intros [] w4 H4.
  apply wp_bind. ctl_step Write_8_ctl H4. intros [] w5 H5.
  apply wp_bind. ctl_step Write_8_ctl H5. intros [] w6 H6.
  apply wp_bind. ctl_step ClearIN_ctl H6. intros [] w7 H7.
  by apply StatusOUT_ctl; [| | |rewrite Hd|].
Qed.
End LineEncoding.

(** C31: The line encoding a host sets is the one it reads back and the one the
    firmware sees: SET_LINE_ENCODING takes the seven bytes of the data stage, sends
    the empty status packet, changes nothing of the firmware but the line encoding
    and then raises the event; any later GET_LINE_ENCODING, as long as the interface
    structure is the same, terminates having sent one packet with the same seven
    bytes.  The port is open afterwards exactly when the baud rate is not 0. *)
Theorem CDC_line_encoding_roundtrip {HW : Hardware} {RH : ReadyHost} {App} {EV : DeviceEvents App}
    {OB : Object App CDCInfo} {CE : CDCEvents App} fuel b0 b1 b2 b3 b4 b5 b6 (w : World App) :
  (0 < fuel)%nat -> pending w ->
  asks w CLASS_OUT CDC_REQ_SetLineEncoding (ControlInterfaceNumber (Config (info w))) ->
  Forall is_u8 [b0; b1; b2; b3; b4; b5; b6] -> delivers w [b0; b1; b2; b3; b4; b5; b6] ->
  exists f ext, let w1 := upd_tr (fun t => ext ++ t) (upd_app f w) in
    CDC_Device_ProcessControlRequest fuel w = EVENT_CDC_Device_LineEncodingChanged w1 /\
    info w1 = set_LineEncoding (fun _ => mkLineEncoding (of_le32 b0 b1 b2 b3) b4 b5 b6) (info w) /\
    packets (tr w1) = packets (tr w) ++ [(0, [])] /\
    (USB_DeviceState w1 = DEVICE_STATE_Configured -> exists ext',
       CDC_online fuel w1 = Ret (negb (of_le32 b0 b1 b2 b3 =? 0)) (upd_tr (fun t => ext' ++ t) w1)) /\
    forall w2, info w2 = info w1 -> pending w2 -> acked w2 ->
      asks w2 CLASS_IN CDC_REQ_GetLineEncoding (ControlInterfaceNumber (Config (info w2))) ->
      exists ext', let w3 := upd_tr (fun t => ext' ++ t) w2 in
        CDC_Device_ProcessControlRequest fuel w2 = Ret tt w3 /\
        packets (tr w3) = packets (tr w2) ++ [(0, [b0; b1; b2; b3; b4; b5; b6])].
Proof.
  intros Hf Hp Ha Hb Hd. destruct (dispatch_cdc fuel _ _ w Hp Ha) as (w' & H & ->).
  destruct Ha as (Hbm & _). cbn [Z.eqb Pos.eqb CDC_REQ_SetLineEncoding CDC_REQ_GetLineEncoding].
  change (CLASS_OUT =? CLASS_OUT) with true. cbn [when].
  destruct (SetLineEncoding_got fuel b0 b1 b2 b3 b4 b5 b6 w w' Hf Hd H ltac:(by rewrite Hbm))
    as (f & w1 & -> & ([ext ->] & _ & _ & Hpk & _) & Hi).
  exists f, ext. set (w1 := upd_tr _ _) in *. split_and!; [done|exact Hi|exact Hpk|..].
  - intros Hst. exists []. unfold CDC_online, poll_DeviceState, interrupt_point.
    unfold mbind, prog_bind. cbv beta. rewrite rh_irq, andb_false_r. cbn -[w1]. rewrite Hst. cbn -[w1].
    change (load (app w1)) with (load (f (app w))). rewrite Hi. by destruct w1.
  - intros w2 Hi2 Hp2 Hk2 Ha2. destruct (dispatch_cdc fuel _ _ w2 Hp2 Ha2) as (w2' & [H2 _] & ->).
    destruct Ha2 as (Hbm2 & _). change (CDC_REQ_GetLineEncoding =? CDC_REQ_GetLineEncoding) with true.
    change (CLASS_IN =? CLASS_IN) with true. cbn [when].
    destruct (wp_total_run_unit _ _ _ (GetLineEncoding_ctl fuel b0 b1 b2 b3 b4 b5 b6 w2 w2' Hf Hb Hk2 Hbm2
      ltac:(rewrite Hi2; unfold info; cbn; by rewrite Hi) H2)) as (w3 & -> & [ext' ->] & _ & _ & Hpk3 & _).
    by exists ext'.
Qed.

(** ** Witnesses *)

Definition demo_port : CDCInfo :=
  mkCDCInfo (mkCDCConfig 0 (mkEndpointTable 0x81 4 EP_TYPE_BULK 1) (mkEndpointTable 0x02 4 EP_TYPE_BULK 1)
               (mkEndpointTable 0x83 4 EP_TYPE_INTERRUPT 1))
            (mkCDCState 0 0 (mkLineEncoding 9600 0 0 8)).

Lemma demo_open : open_port pair_in (fun _ => 4%nat) 1 2 (selected_world demo_port 0).
Proof. by repeat split. Qed.

Lemma CDC_transmits_witness :
  let ops := [TxByte 1; TxData [2; 3; 4; 5; 6; 7] 5; TxString [72; 105; 0]; TxTask; TxByte 8] in
  let w := selected_world demo_port 0 in
  exists ext ps, let w' := upd_tr (fun t => ext ++ t) w in
    run_all (CDC_tx (HW := pair_hw) (EV := no_events _) (RQ := no_requests _) 20) (ops ++ [TxFlush]) w = Ret true w' /\
    ep_state pair_in pair_q 1 (tr w') = mkEP [] ([] ++ ps) [] false /\
    concat ps = [] ++ [1; 2; 3; 4; 5; 6; 72; 105; 8] /\
    Forall (fun p => (length p <= 4)%nat) ps /\
    (ps = [] \/ exists qs p, ps = qs ++ [p] /\ (length p < 4)%nat) /\
    forall x, x <> 1 -> ep_state pair_in pair_q x (tr w') = ep_state pair_in pair_q x (tr w).
Proof.
  apply (CDC_transmits (DH := pair_host) (EV := no_events _) (RQ := no_requests _) 20 1 2
    [TxByte 1; TxData [2; 3; 4; 5; 6; 7] 5; TxString [72; 105; 0]; TxTask; TxByte 8]
    (selected_world demo_port 0) ltac:(lia) demo_open); [|cbn; lia].
  repeat constructor; try done; try lia. exists 2. by repeat split; repeat constructor; lia.
Defined.

Lemma CDC_receives_witness :
  (forall p ps, pair_q 2 = p :: ps -> p <> [] ->
     exists w1 w2, CDC_Device_BytesReceived (HW := pair_hw) (EV := no_events _) 20
         (selected_world demo_port 0) = Ret (Z.of_nat (length p)) w1 /\
       receive (CDC_Device_ReceiveByte (HW := pair_hw) (EV := no_events _) 20) (length p) w1 = Ret p w2 /\
       ep_state pair_in pair_q 2 (tr w2) = with_queue ps (ep_state pair_in pair_q 2 [Wr UENUM 0]) /\
       app w2 = demo_port) /\
  ((length (concat (pair_q 2)) + length (pair_q 2) <= 10)%nat -> (0 < 10)%nat ->
     exists w1, receive (CDC_Device_ReceiveByte (HW := pair_hw) (EV := no_events _) 20) 10 (selected_world demo_port 0)
         = Ret (concat (pair_q 2)) w1 /\
       ep_state pair_in pair_q 2 (tr w1) = with_queue [] (ep_state pair_in pair_q 2 [Wr UENUM 0]) /\
       app w1 = demo_port /\
       forall x, x <> 2 -> ep_state pair_in pair_q x (tr w1) = ep_state pair_in pair_q x [Wr UENUM 0]).
Proof.
  apply (CDC_receives (DH := pair_host) (EV := no_events _) (RQ := no_requests _) 20 1 2 10
    (selected_world demo_port 0) demo_open). repeat constructor; cbn; lia.
Defined.

Definition demo_line : list Z := [0x00; 0xC2; 0x01; 0x00; 0; 0; 8].

Lemma CDC_line_encoding_roundtrip_witness :
  let w := request_world demo_port (mkRequest 0x21 CDC_REQ_SetLineEncoding 0 0 7) in
  exists f ext, let w1 := upd_tr (fun t => ext ++ t) (upd_app f w) in
    CDC_Device_ProcessControlRequest (HW := setup_hw demo_line) (EV := no_events _)
      (CE := CDC_Device_Event_Stub) 5 w = Ret tt w1 /\
    info w1 = set_LineEncoding (fun _ => mkLineEncoding 115200 0 0 8) demo_port /\
    packets (tr w1) = packets (tr w) ++ [(0, [])] /\
    (USB_DeviceState w1 = DEVICE_STATE_Configured -> exists ext',
       CDC_online (HW := setup_hw demo_line) (EV := no_events _) 5 w1
         = Ret true (upd_tr (fun t => ext' ++ t) w1)) /\
    forall w2, info w2 = info w1 -> pending (HW := setup_hw demo_line) w2 -> acked (HW := setup_hw demo_line) w2 ->
      asks w2 CLASS_IN CDC_REQ_GetLineEncoding (ControlInterfaceNumber (Config (info w2))) ->
      exists ext', let w3 := upd_tr (fun t => ext' ++ t) w2 in
        CDC_Device_ProcessControlRequest (HW := setup_hw demo_line) (EV := no_events _)
          (CE := CDC_Device_Event_Stub) 5 w2 = Ret tt w3 /\
        packets (tr w3) = packets (tr w2) ++ [(0, demo_line)].
Proof.
  exact (CDC_line_encoding_roundtrip (HW := setup_hw demo_line) (RH := setup_ready demo_line) (EV := no_events _)
    (CE := CDC_Device_Event_Stub) 5 0x00 0xC2 0x01 0x00 0 0 8
    (request_world demo_port (mkRequest 0x21 CDC_REQ_SetLineEncoding 0 0 7))
    ltac:(lia) ltac:(by repeat split) ltac:(by repeat split) ltac:(by repeat constructor)
    ltac:(apply setup_delivers; [by repeat constructor|done])).
Defined.
