(* ===== verification/MassStorageDevice.v ===== *)
(** The mass storage (bulk-only transport) device class driver:
    LUFA/Drivers/USB/Class/Device/MassStorageClassDevice.[ch].

    The command block is filled by the stream functions byte by byte; [enc_header]
    and [dec_header] are the memory of its fixed part. *)

From stdpp Require Import base tactics option list numbers.
From Stdlib Require Import ZArith Lia.
From S2P Require Import Prelude Memory Hardware Endpoint USBController ControlStream DeviceStandardReq.
From S2P Require Import EndpointStream ClassDriver.

(** MassStorageClassCommon.h *)
Definition MS_CBW_SIGNATURE : Z := 0x43425355.
Definition MS_CSW_SIGNATURE : Z := 0x53425355.
Definition MS_COMMAND_DIR_DATA_IN : Z := bit 7.
Definition MS_REQ_GetMaxLUN : Z := 0xFE.
Definition MS_REQ_MassStorageReset : Z := 0xFF.
Definition MS_SCSI_COMMAND_Pass : Z := 0.
Definition MS_SCSI_COMMAND_Fail : Z := 1.

Record MS_CommandBlockWrapper_t : Set := mkCBW {
  Signature : Z;
  Tag : Z;
  DataTransferLength : Z;
  Flags : Z;
  LUN : Z;
  SCSICommandLength : Z;
  SCSICommandData : list Z
}.
Record MS_CommandStatusWrapper_t : Set := mkCSW {
  csw_Signature : Z;
  csw_Tag : Z;
  DataTransferResidue : Z;
  Status : Z
}.

(** [USB_ClassInfo_MS_Device_t] *)
Record MS_Config : Set := mkMSConfig {
  InterfaceNumber : Z;
  DataINEndpoint : USB_Endpoint_Table_t;
  DataOUTEndpoint : USB_Endpoint_Table_t;
  TotalLUNs : Z
}.
Record MS_State : Set := mkMSState {
  CommandBlock : MS_CommandBlockWrapper_t;
  CommandStatus : MS_CommandStatusWrapper_t;
  IsMassStoreReset : bool
}.
Record USB_ClassInfo_MS_Device_t : Set := mkMSInfo {
  Config : MS_Config;
  State : MS_State
}.

Abbreviation MSInfo := USB_ClassInfo_MS_Device_t.

Definition set_State (f : MS_State -> MS_State) (i : MSInfo) : MSInfo := mkMSInfo (Config i) (f (State i)).
Definition set_CommandBlock (f : MS_CommandBlockWrapper_t -> MS_CommandBlockWrapper_t) : MSInfo -> MSInfo :=
  set_State (fun s => mkMSState (f (CommandBlock s)) (CommandStatus s) (IsMassStoreReset s)).
Definition set_CommandStatus (c : MS_CommandStatusWrapper_t) : MSInfo -> MSInfo :=
  set_State (fun s => mkMSState (CommandBlock s) c (IsMassStoreReset s)).
Definition set_IsMassStoreReset (b : bool) : MSInfo -> MSInfo :=
  set_State (fun s => mkMSState (CommandBlock s) (CommandStatus s) b).
Definition set_EndpointTypes (i : MSInfo) : MSInfo :=
  let c := Config i in
  mkMSInfo (mkMSConfig (InterfaceNumber c) (with_Type EP_TYPE_BULK (DataINEndpoint c))
              (with_Type EP_TYPE_BULK (DataOUTEndpoint c)) (TotalLUNs c)) (State i).

(** The memory of the wrappers. *)
Definition enc_header (c : MS_CommandBlockWrapper_t) : list Z :=
  le32 (Signature c) ++ le32 (Tag c) ++ le32 (DataTransferLength c) ++
  [u8 (Flags c); u8 (LUN c); u8 (SCSICommandLength c)].
Definition dec_header (buf : list Z) (c : MS_CommandBlockWrapper_t) : MS_CommandBlockWrapper_t :=
  match buf with
  | [s0; s1; s2; s3; t0; t1; t2; t3; l0; l1; l2; l3; f; u; n] =>
      mkCBW (of_le32 s0 s1 s2 s3) (of_le32 t0 t1 t2 t3) (of_le32 l0 l1 l2 l3) f u n (SCSICommandData c)
  | _ => c
  end.
Definition set_SCSICommandData (buf : list Z) (c : MS_CommandBlockWrapper_t) : MS_CommandBlockWrapper_t :=
  mkCBW (Signature c) (Tag c) (DataTransferLength c) (Flags c) (LUN c) (SCSICommandLength c) buf.
Definition enc_status (c : MS_CommandStatusWrapper_t) : list Z :=
  le32 (csw_Signature c) ++ le32 (csw_Tag c) ++ le32 (DataTransferResidue c) ++ [u8 (Status c)].

Class MSCallbacks (App : Type) : Type := {
  CALLBACK_MS_Device_SCSICommandReceived : prog (World App) bool
}.

Section MSDevice.
Context {HW : Hardware} {App : Type} {EV : DeviceEvents App} {RQ : DeviceRequests App}.
Context {OB : Object App MSInfo} {CB : MSCallbacks App}.
Context (fuel : nat).
Abbreviation P := (prog (World App)).

Definition MS_Reset : P unit :=
  Endpoint_ClearSETUP;;
  Endpoint_ClearStatusStage fuel;;
  assign (set_IsMassStoreReset true).

Definition MS_GetMaxLUN : P unit :=
  Endpoint_ClearSETUP;;
  INReady_wait fuel;;
  i ← the;
  Endpoint_Write_8 (TotalLUNs (Config i) - 1);;
  Endpoint_ClearIN;;
  Endpoint_ClearStatusStage fuel.

Definition MS_Device_ProcessControlRequest : P unit :=
  s ← Endpoint_IsSETUPReceived;
  if negb s then mret tt
  else
    req ← gets USB_ControlRequest;
    i ← the;
    if negb (wIndex req =? InterfaceNumber (Config i)) then mret tt
    else
      let r := bRequest req in
      if r =? MS_REQ_MassStorageReset then when (bmRequestType req =? CLASS_OUT) MS_Reset
      else if r =? MS_REQ_GetMaxLUN then when (bmRequestType req =? CLASS_IN) MS_GetMaxLUN
      else mret tt.

Definition MS_Device_ConfigureEndpoints : P bool :=
  assign (set_State (fun _ => mkMSState (mkCBW 0 0 0 0 0 0 (replicate 16 0)) (mkCSW 0 0 0 0) false));;
  assign set_EndpointTypes;;
  i ← the;
  ok ← Endpoint_ConfigureEndpointTable fuel [DataINEndpoint (Config i)];
  if negb ok then mret false
  else
    ok ← Endpoint_ConfigureEndpointTable fuel [DataOUTEndpoint (Config i)];
    if negb ok then mret false else mret true.

Definition MS_select (f : MS_Config -> USB_Endpoint_Table_t) : P unit :=
  i ← the; Endpoint_SelectEndpoint (Address (f (Config i))).

(** [while (stream(buf, length, &BytesProcessed) == IncompleteTransfer)
      if (IsMassStoreReset) return]; the result tells whether the loop ended by its
    guard.  [save] puts the buffer back. *)
Fixpoint MS_stream (n : nat) (stream : list Z -> option Z -> P (list Z * Z * option Z))
    (save : list Z -> P unit) (buf : list Z) (BytesProcessed : option Z) : P bool :=
  match n with
  | O => nofuel
  | S n =>
      r ← stream buf BytesProcessed;
      let '(buf, e, BytesProcessed) := r in
      save buf;;
      if e =? ENDPOINT_RWSTREAM_IncompleteTransfer then
        i ← the;
        if IsMassStoreReset (State i) then mret false else MS_stream n stream save buf BytesProcessed
      else mret true
  end.

Definition invalid_block (i : MSInfo) : bool :=
  let c := CommandBlock (State i) in
  negb (Signature c =? MS_CBW_SIGNATURE) || (TotalLUNs (Config i) <=? LUN c) || tst (Flags c) 0x1F ||
  (SCSICommandLength c =? 0) || (16 <? SCSICommandLength c).

Definition MS_Device_ReadInCommandBlock : P bool :=
  MS_select DataOUTEndpoint;;
  i ← the;
  ok ← MS_stream fuel (fun buf bp => Endpoint_Read_Stream_LE fuel buf 15 bp)
         (fun buf => assign (set_CommandBlock (dec_header buf)))
         (enc_header (CommandBlock (State i))) (Some 0);
  if negb ok then mret false
  else
    i ← the;
    if invalid_block i then
      Endpoint_StallTransaction;;
      MS_select DataINEndpoint;;
      Endpoint_StallTransaction;;
      mret false
    else
      ok ← MS_stream fuel
             (fun buf bp => Endpoint_Read_Stream_LE fuel buf (SCSICommandLength (CommandBlock (State i))) bp)
             (fun buf => assign (set_CommandBlock (set_SCSICommandData buf)))
             (SCSICommandData (CommandBlock (State i))) (Some 0);
      if negb ok then mret false else Endpoint_ClearOUT;; mret true.

(** [while (Endpoint_IsStalled()) { USB_USBTask(); if (IsMassStoreReset) return; }] *)
Fixpoint stall_wait (n : nat) : P bool :=
  match n with
  | O => nofuel
  | S n =>
      s ← Endpoint_IsStalled;
      if negb s then mret true
      else
        USB_USBTask fuel;;
        i ← the;
        if IsMassStoreReset (State i) then mret false else stall_wait n
  end.

Definition MS_Device_ReturnCommandStatus : P unit :=
  MS_select DataOUTEndpoint;;
  ok ← stall_wait fuel;
  if negb ok then mret tt
  else
    MS_select DataINEndpoint;;
    ok ← stall_wait fuel;
    if negb ok then mret tt
    else
      i ← the;
      ok ← MS_stream fuel (fun buf bp => Endpoint_Write_Stream_LE fuel buf 13 bp) (fun _ => mret tt)
             (enc_status (CommandStatus (State i))) (Some 0);
      if negb ok then mret tt else Endpoint_ClearIN.

(** A command block was received: the application's answer and the status. *)
Definition MS_process_command : P unit :=
  i ← the;
  when (tst (Flags (CommandBlock (State i))) MS_COMMAND_DIR_DATA_IN) (MS_select DataINEndpoint);;
  SCSICommandResult ← CALLBACK_MS_Device_SCSICommandReceived;
  assign (fun i => set_CommandStatus
    (mkCSW MS_CSW_SIGNATURE (Tag (CommandBlock (State i))) (DataTransferLength (CommandBlock (State i)))
       (if SCSICommandResult : bool then MS_SCSI_COMMAND_Pass else MS_SCSI_COMMAND_Fail)) i);;
  i ← the;
  when (negb SCSICommandResult && negb (DataTransferResidue (CommandStatus (State i)) =? 0))
    Endpoint_StallTransaction;;
  MS_Device_ReturnCommandStatus.

(** The host asked for a reset. *)
Definition MS_reset_endpoints : P unit :=
  i ← the;
  reset_bulk (Address (DataINEndpoint (Config i))) (Address (DataOUTEndpoint (Config i)));;
  assign (set_IsMassStoreReset false).

Definition MS_Device_USBTask : P unit :=
  st ← poll_DeviceState fuel;
  if negb (st =? DEVICE_STATE_Configured) then mret tt
  else
    MS_select DataOUTEndpoint;;
    r ← Endpoint_IsOUTReceived;
    when r (ok ← MS_Device_ReadInCommandBlock; when ok MS_process_command);;
    i ← the;
    when (IsMassStoreReset (State i)) MS_reset_endpoints.
End MSDevice.
