(* ===== verification/MassStorageSpec.v ===== *)
(** Correctness of the mass storage driver (MassStorageDevice.v): the bulk-only
    transport of one command, and the recovery from a command it does not accept. *)

From stdpp Require Import base tactics option list numbers fin_maps functions.
From Stdlib Require Import ZArith Lia.
From S2P Require Import Prelude Memory Hardware Endpoint USBController ControlStream DeviceStandardReq.
From S2P Require Import EndpointStream ControlTransfer ControlReceive ControlRequest DataEndpoint.
From S2P Require Import DataStream ClassDriver MassStorageDevice.

(** The command block of a packet of 31 bytes; the bytes of the command past its
    length are not touched. *)
Definition header (p : list Z) (c : MS_CommandBlockWrapper_t) : MS_CommandBlockWrapper_t :=
  dec_header (take 15 p) c.
Definition command (p : list Z) (c : MS_CommandBlockWrapper_t) : MS_CommandBlockWrapper_t :=
  let h := header p c in
  let n := Z.to_nat (SCSICommandLength h) in
  set_SCSICommandData (take n (drop 15 p) ++ drop n (SCSICommandData c)) h.

(** The interface is configured and its endpoints are [ein] and [eout]. *)
Definition ms_port {App} {OB : Object App MSInfo} (is_in : Z -> bool) (size : Z -> nat)
    (ein eout : Z) (w : World App) : Prop :=
  USB_DeviceState w = DEVICE_STATE_Configured /\
  Z.land (Address (DataINEndpoint (Config (info w)))) 0x0F = ein /\
  Z.land (Address (DataOUTEndpoint (Config (info w)))) 0x0F = eout /\
  0 < ein < 8 /\ 0 < eout < 8 /\ is_in ein = true /\ is_in eout = false /\ (13 <= size ein)%nat /\
  length (SCSICommandData (CommandBlock (State (info w)))) = 16%nat.

(** Two updates of the interface structure are one. *)
Lemma upd_store_in {App} {OB : Object App MSInfo} g h (w : World App) :
  upd_app (store_in g) (upd_app (store_in h) w) = upd_app (store (g (h (info w)))) w.
Proof. unfold upd_app, store_in, info. cbn. by rewrite load_store, store_store. Qed.

Lemma header_data p c : SCSICommandData (header p c) = SCSICommandData c.
Proof. unfold header, dec_header. by repeat case_match. Qed.

(** A packet of 15 bytes or more is what the header is read from. *)
Lemma header_fields p c : (15 <= length p)%nat ->
  exists s0 s1 s2 s3 t0 t1 t2 t3 l0 l1 l2 l3 f u n r,
    p = [s0; s1; s2; s3; t0; t1; t2; t3; l0; l1; l2; l3; f; u; n] ++ r /\
    header p c = mkCBW (of_le32 s0 s1 s2 s3) (of_le32 t0 t1 t2 t3) (of_le32 l0 l1 l2 l3) f u n
                   (SCSICommandData c).
Proof.
  intros Hp. do 15 (destruct p as [|? p]; [cbn in Hp; lia|]). do 16 eexists. split; reflexivity.
Qed.

(** The command of a block that is accepted fits its array. *)
Lemma accepted_length p i : (15 <= length p)%nat -> Forall is_u8 p -> invalid_block (set_CommandBlock (header p) i) = false ->
  0 <= SCSICommandLength (header p (CommandBlock (State i))) <= 16.
Proof.
  intros Hp Hu Hv. destruct (header_fields p (CommandBlock (State i)) Hp) as (? & ? & ? & ? & ? & ? & ? & ? & ? & ? & ? & ? & ? & ? & n & r & Ep & Eh).
  unfold invalid_block in Hv. cbn in Hv. rewrite Eh in Hv |- *. cbn in Hv |- *.
  rewrite !orb_false_iff in Hv. destruct Hv as [_ Hv]. bool_hyps. rewrite Ep in Hu.
  rewrite Forall_app in Hu. destruct Hu as [Hu _]. do 14 (apply Forall_inv_tail in Hu).
  apply Forall_inv in Hu. unfold is_u8 in Hu. lia.
Qed.

Lemma command_data p i : length p = 31%nat -> Forall is_u8 p -> invalid_block (set_CommandBlock (header p) i) = false ->
  let old := SCSICommandData (CommandBlock (State i)) in length old = 16%nat -> Forall is_u8 old ->
  let c := SCSICommandData (command p (CommandBlock (State i))) in length c = 16%nat /\ Forall is_u8 c.
Proof.
  intros Hp Hu Hv old Hl Ho c. pose proof (accepted_length p i ltac:(lia) Hu Hv) as Hn. unfold c, command. cbn.
  set (n := Z.to_nat _). assert (n <= 16)%nat by lia. rewrite length_app, length_take, !length_drop. fold old. split; [lia|].
  apply Forall_app_2; [by apply Forall_take, Forall_drop|by apply Forall_drop].
Qed.

Section Transport.
Context {HW : Hardware} {is_in : Z -> bool} {size : Z -> nat} {q0 : Z -> list (list Z)}.
Context {DH : DataHost is_in size q0} {App : Type} {EV : DeviceEvents App} {RQ : DeviceRequests App}.
Context {OB : Object App MSInfo} {CB : MSCallbacks App}.
Abbreviation dev := (dev (is_in := is_in) (q0 := q0) (App := App)).
Implicit Types w : World App.

Lemma MS_select_dev f w0 e st w : dev w0 e st w ->
  wp true (MS_select f) (fun _ => dev w0 (Z.land (Address (f (Config (info w0)))) 0x0F) st) w.
Proof.
  intros H. apply wp_bind, wp_gets. rewrite (dev_app _ _ _ _ H). by eapply SelectEndpoint_dev.
Qed.

(** A stream that finishes at once. *)
Lemma MS_stream_once n stream save buf bp buf' bp' (Q : bool -> World App -> Prop) w : (0 < n)%nat ->
  wp true (stream buf bp) (fun r w1 => r = (buf', ENDPOINT_RWSTREAM_NoError, bp') /\
    wp true (save buf') (fun _ => Q true) w1) w ->
  wp true (MS_stream n stream save buf bp) Q w.
Proof.
  intros Hn H. destruct n as [|n]; [lia|]. cbn [MS_stream]. apply wp_bind.
  eapply wp_mono; [exact H|]. intros r w1 [-> H1]. apply wp_bind. eapply wp_mono; [exact H1|].
  intros [] w2 H2. by apply wp_ret.
Qed.

Lemma stall_wait_dev fuel n w0 e st w : (0 < n)%nat -> e <> 0 -> ep_stalled (st e) = false -> dev w0 e st w ->
  wp true (stall_wait fuel n) (fun r w' => r = true /\ dev w0 e st w') w.
Proof.
  intros Hn He Hs H. destruct n as [|n]; [lia|]. cbn [stall_wait]. apply wp_bind.
  dev_step IsStalled_dev H. intros s w1 [-> H1]. rewrite Hs. by apply wp_ret.
Qed.

Section Port.
Context (ein eout : Z) (w0 : World App) (fuel : nat).
Hypothesis Hport : ms_port is_in size ein eout w0.
Abbreviation c0 := (CommandBlock (State (info w0))).

(** The first 15 bytes of a packet. *)
Lemma read_header_dev p ps st w : ep_queue (st eout) = p :: ps -> (15 <= length p)%nat ->
  (16 + length ps < fuel)%nat -> dev w0 eout st w ->
  wp true (MS_stream fuel (fun buf bp => Endpoint_Read_Stream_LE fuel buf 15 bp)
             (fun buf => assign (set_CommandBlock (dec_header buf))) (enc_header c0) (Some 0))
    (fun ok w' => ok = true /\
       dev (upd_app (store_in (set_CommandBlock (dec_header (take 15 p)))) w0) eout
         (<[eout := with_queue (drop 15 p :: ps) (st eout)]> st) w') w.
Proof.
  intros Hq Hp Hf H. destruct Hport as (_ & _ & _ & _ & He & _ & Hout & _).
  eapply MS_stream_once; [lia|].
  eapply wp_mono; [eapply (Read_packet_dev fuel _ 15 p ps); [..|exact H]|]; try done; try lia.
  intros r w1 [-> H1]. split; [reflexivity|]. apply wp_modify. split; [done|].
  change (drop (Z.to_nat 15) (enc_header c0)) with (@nil Z). rewrite app_nil_r. by apply dev_upd_app.
Qed.

(** A block that is not accepted stalls both endpoints. *)
Lemma invalid_block_dev p ps st w : ep_queue (st eout) = p :: ps -> (15 <= length p)%nat ->
  (16 + length ps < fuel)%nat ->
  invalid_block (set_CommandBlock (header p) (info w0)) = true -> dev w0 eout st w ->
  wp true (MS_Device_ReadInCommandBlock fuel) (fun ok w' => ok = false /\
    dev (upd_app (store_in (set_CommandBlock (header p))) w0) ein
      (<[ein := with_stall true (st ein)]>
         (<[eout := with_stall true (with_queue (drop 15 p :: ps) (st eout))]> st)) w') w.
Proof.
  intros Hq Hp Hf Hv H. destruct (Hport) as (_ & Hi & Ho & Hein & He & Hin & Hout & _).
  unfold MS_Device_ReadInCommandBlock. apply wp_bind. eapply wp_mono; [by eapply MS_select_dev|].
  intros [] w1 H1. rewrite Ho in H1. apply wp_bind, wp_gets. rewrite (dev_app _ _ _ _ H1). fold (info w0).
  apply wp_bind. eapply wp_mono; [by apply (read_header_dev p ps st)|]. intros ok w2 [-> H2]. cbn [negb].
  apply wp_bind, wp_gets. rewrite (dev_app _ _ _ _ H2). cbn [app upd_app]. rewrite load_store_in.
  change (dec_header (take 15 p)) with (header p) in *. fold (info w0). rewrite Hv. apply wp_bind. dev_step StallTransaction_dev H2. intros [] w3 H3.
  apply wp_bind. eapply wp_mono; [by eapply MS_select_dev|]. intros [] w4 H4.
  replace (Config (info _)) with (Config (info w0)) in H4 by (unfold info; cbn; by rewrite load_store_in).
  rewrite Hi in H4. apply wp_bind. dev_step StallTransaction_dev H4. intros [] w5 H5. apply wp_ret.
  split; [done|]. eapply dev_ext; [|exact H5]. assert (ein <> eout) by (intros ->; congruence).
  intros x. destruct (decide (ein = x)) as [<-|]; [by ep_lookup|].
  destruct (decide (eout = x)) as [<-|]; by ep_lookup.
Qed.

(** A block that is accepted is read completely, and its packet is released. *)
Lemma valid_block_dev p ps st w : ep_queue (st eout) = p :: ps -> length p = 31%nat -> Forall is_u8 p ->
  (40 + length ps < fuel)%nat ->
  invalid_block (set_CommandBlock (header p) (info w0)) = false -> dev w0 eout st w ->
  wp true (MS_Device_ReadInCommandBlock fuel) (fun ok w' => ok = true /\
    dev (upd_app (store (set_CommandBlock (fun _ => command p c0) (info w0))) w0) eout
      (<[eout := with_queue ps (st eout)]> st) w') w.
Proof.
  intros Hq Hp Hu Hf Hv H. destruct (Hport) as (_ & Hi & Ho & Hein & He & Hin & Hout & _ & Hd).
  unfold MS_Device_ReadInCommandBlock. apply wp_bind. eapply wp_mono; [by eapply MS_select_dev|].
  intros [] w1 H1. rewrite Ho in H1. apply wp_bind, wp_gets. rewrite (dev_app _ _ _ _ H1). fold (info w0).
  apply wp_bind. eapply wp_mono; [apply (read_header_dev p ps st); (done || lia)|].
  intros ok w2 [-> H2]. cbn [negb].
  apply wp_bind, wp_gets. rewrite (dev_app _ _ _ _ H2). cbn [app upd_app]. rewrite load_store_in.
  change (dec_header (take 15 p)) with (header p) in *. fold (info w0). rewrite Hv. cbn [set_CommandBlock set_State State CommandBlock].
  pose proof (accepted_length p (info w0) ltac:(lia) Hu Hv) as Hn.
  rewrite header_data. apply wp_bind. eapply MS_stream_once; [lia|].
  eapply wp_mono; [eapply (Read_packet_dev fuel _ _ (drop 15 p) ps); [..|exact H2]|];
    rewrite ?fn_lookup_insert, ?length_drop; try done; try lia; [unfold is_u16; lia|].
  intros r w3 [-> H3]. split; [reflexivity|]. apply wp_modify. apply (dev_upd_app (store_in (set_CommandBlock
    (set_SCSICommandData (take (Z.to_nat (SCSICommandLength (header p c0))) (drop 15 p) ++
       drop (Z.to_nat (SCSICommandLength (header p c0))) (SCSICommandData c0)))))) in H3.
  cbn [negb]. apply wp_bind. dev_step ClearOUT_dev H3. intros [] w4 H4. apply wp_ret. split; [done|].
  rewrite upd_store_in in H4. eapply dev_ext; [|exact H4]. rewrite !fn_lookup_insert. dev_eq; done.
Qed.
End Port.

Lemma enc_status_u8 c : Forall is_u8 (enc_status c).
Proof. unfold enc_status, le32. repeat constructor; apply u8_range. Qed.

(** The status goes out as one packet. *)
Lemma ReturnCommandStatus_dev fuel ein eout w1 e st w :
  Z.land (Address (DataINEndpoint (Config (info w1)))) 0x0F = ein ->
  Z.land (Address (DataOUTEndpoint (Config (info w1)))) 0x0F = eout ->
  0 < ein < 8 -> 0 < eout < 8 -> is_in ein = true -> (13 <= size ein)%nat -> (28 < fuel)%nat ->
  ep_stalled (st ein) = false -> ep_stalled (st eout) = false -> ep_bank (st ein) = [] -> dev w1 e st w ->
  wp true (MS_Device_ReturnCommandStatus fuel) (fun _ => dev w1 ein (<[ein := mkEP []
    (ep_sent (st ein) ++ [enc_status (CommandStatus (State (info w1)))]) (ep_queue (st ein)) false]> st)) w.
Proof.
  intros Hi Ho Hein Heout Hin Hsz Hf Hsi Hso Hb H. unfold MS_Device_ReturnCommandStatus.
  apply wp_bind. eapply wp_mono; [by eapply MS_select_dev|]. intros [] w2 H2. rewrite Ho in H2.
  apply wp_bind. dev_step stall_wait_dev H2. intros r w3 [-> H3]. cbn [negb].
  apply wp_bind. eapply wp_mono; [by eapply MS_select_dev|]. intros [] w4 H4. rewrite Hi in H4.
  apply wp_bind. dev_step stall_wait_dev H4. intros r w5 [-> H5]. cbn [negb].
  apply wp_bind, wp_gets. rewrite (dev_app _ _ _ _ H5). fold (info w1). set (c := CommandStatus _).
  apply wp_bind. eapply MS_stream_once; [lia|]. unfold Endpoint_Write_Stream_LE.
  dev_step (Write_Stream_dev LE (enc_status c) 13) H5; [apply enc_status_u8|..].
  { right. split; [done|]. rewrite Hb. cbn. lia. }
  intros r w6 [-> H6]. split; [reflexivity|]. apply wp_ret. cbn [negb].
  dev_step ClearIN_dev H6. intros [] w7 H7. eapply dev_ext; [|exact H7]. rewrite fn_lookup_insert.
  change (stream_bytes LE (enc_status c) 13) with (enc_status c). dev_eq; [|done].
  rewrite write_all_fits by (rewrite Hb; change (length (enc_status c)) with 13%nat; cbn; lia).
  by rewrite Hb, Hsi.
Qed.

(** What the application does with the command [c]: it is called with the command
    block in the interface structure and the endpoint of the data selected, touches
    registers and its own state, and returns in a state that satisfies [R]. *)
Definition scsi_answers (w : World App) (ein eout : Z) (c : MS_CommandBlockWrapper_t)
    (st : Z -> EPState) (R : bool -> App -> (Z -> EPState) -> Prop) : Prop :=
  forall w1, dev (upd_app (store (set_CommandBlock (fun _ => c) (info w))) w)
      (if tst (Flags c) MS_COMMAND_DIR_DATA_IN then ein else eout) st w1 ->
    wp true CALLBACK_MS_Device_SCSICommandReceived
      (fun ok w2 => exists a2 e2 st2, dev (upd_app (fun _ => a2) w) e2 st2 w2 /\ R ok a2 st2) w1.

(** It leaves the interface usable: the configuration and the tag unchanged, no
    reset asked for, nothing in the IN bank, no endpoint stalled, and a command that
    failed has no data left to transfer. *)
Definition settled (c : MS_CommandBlockWrapper_t) (i : MSInfo) (ein eout : Z) (ok : bool) (a2 : App)
    (st : Z -> EPState) : Prop :=
  let i2 := load a2 in
  Config i2 = Config i /\ Tag (CommandBlock (State i2)) = Tag c /\ IsMassStoreReset (State i2) = false /\
  ep_bank (st ein) = [] /\ ep_stalled (st ein) = false /\ ep_stalled (st eout) = false /\
  (ok = false -> DataTransferLength (CommandBlock (State i2)) = 0).

(** The status wrapper of a command. *)
Definition status_of (ok : bool) (i2 : MSInfo) : MS_CommandStatusWrapper_t :=
  mkCSW MS_CSW_SIGNATURE (Tag (CommandBlock (State i2))) (DataTransferLength (CommandBlock (State i2)))
    (if ok then MS_SCSI_COMMAND_Pass else MS_SCSI_COMMAND_Fail).

(** The application's state with the status of its answer. *)
Definition with_status (ok : bool) (a : App) : App := store (set_CommandStatus (status_of ok (load a)) (load a)) a.

Lemma process_command_dev fuel ein eout w0 c st w R : ms_port is_in size ein eout w0 -> (28 < fuel)%nat ->
  scsi_answers w0 ein eout c st R ->
  (forall ok a2 st2, R ok a2 st2 -> settled c (info w0) ein eout ok a2 st2) ->
  dev (upd_app (store (set_CommandBlock (fun _ => c) (info w0))) w0) eout st w ->
  wp true (MS_process_command fuel) (fun _ w' => exists ok a2 st2, R ok a2 st2 /\
    dev (upd_app (fun _ => with_status ok a2) w0) ein
      (<[ein := mkEP [] (ep_sent (st2 ein) ++ [enc_status (status_of ok (load a2))]) (ep_queue (st2 ein)) false]> st2) w') w.
Proof.
  intros (_ & Hi & Ho & Hein & Heout & Hin & Hout & Hsz & _) Hf Hcb HR H. unfold MS_process_command.
  apply wp_bind, wp_gets. rewrite (dev_app _ _ _ _ H). cbn [app upd_app]. rewrite load_store.
  cbn [set_CommandBlock set_State State CommandBlock]. apply wp_bind. set (w1 := upd_app _ w0) in H.
  eapply wp_mono with (P := fun _ => dev w1 (if tst (Flags c) MS_COMMAND_DIR_DATA_IN then ein else eout) st).
  { destruct (tst _ _); cbn [when]; [|by apply wp_ret]. eapply wp_mono; [by eapply MS_select_dev|].
    intros [] w2 H1. unfold w1, info in H1. cbn in H1. rewrite load_store in H1. cbn in H1. fold (info w0) in H1.
    by rewrite Hi in H1. }
  intros [] w2 H1. apply wp_bind. eapply wp_mono; [by eapply Hcb|].
  intros ok w3 (a2 & e2 & st2 & H2 & HRR). destruct (HR _ _ _ HRR) as (Hc & Ht & Hr & Hb & Hsi & Hso & Hok).
  apply wp_bind, wp_modify.
  match goal with |- context [store_in ?u] => set (upd := u) end. apply (dev_upd_app (store_in upd)) in H2.
  change (upd_app (store_in upd) (upd_app (fun _ => a2) w0)) with (upd_app (fun _ => with_status ok a2) w0) in H2.
  apply wp_bind, wp_gets. rewrite (dev_app _ _ _ _ H2). cbn [app upd_app]. unfold with_status at 1. rewrite load_store.
  cbn [set_CommandStatus set_State State CommandStatus status_of DataTransferResidue].
  replace (negb ok && _) with false by (destruct ok; [done|]; by rewrite Hok).
  cbn [when]. apply wp_bind, wp_ret. set (w4 := upd_app (fun _ => with_status ok a2) w0) in *.
  assert (info w4 = set_CommandStatus (status_of ok (load a2)) (load a2)) as Hi3
    by (unfold info, w4, with_status; cbn; apply load_store).
  eapply wp_mono; [eapply (ReturnCommandStatus_dev fuel ein eout w4); [..|exact H2]; try done;
    rewrite Hi3; cbn; by rewrite Hc|].
  intros [] w5 H4. exists ok, a2, st2. rewrite Hi3 in H4. split; [done|exact H4].
Qed.

(** The endpoints after a reset. *)
Lemma reset_endpoints_dev ein eout w0 e st w : Z.land (Address (DataINEndpoint (Config (info w0)))) 0x0F = ein ->
  Z.land (Address (DataOUTEndpoint (Config (info w0)))) 0x0F = eout ->
  0 < ein < 8 -> 0 < eout < 8 -> ein <> eout -> dev w0 e st w ->
  wp true MS_reset_endpoints (fun _ => dev (upd_app (store_in (set_IsMassStoreReset false)) w0) ein
    (<[ein := with_stall false (flush (st ein))]> (<[eout := with_stall false (flush (st eout))]> st))) w.
Proof.
  intros Hi Ho Hein Heout Hne H. unfold MS_reset_endpoints. apply wp_bind, wp_gets.
  rewrite (dev_app _ _ _ _ H). fold (info w0).
  apply wp_bind. dev_step (reset_bulk_dev _ _ ein eout) H. intros [] w1 H1. apply wp_modify.
  by apply (dev_upd_app (store_in (set_IsMassStoreReset false))) in H1.
Qed.

(** The task up to the first packet. *)
Lemma MS_USBTask_dev fuel ein eout w Q : ms_port is_in size ein eout w ->
  (forall w', dev w eout (fun x => ep_state is_in q0 x (tr w)) w' ->
     wp true (when (ep_ready false (ep_state is_in q0 eout (tr w)))
                (ok ← MS_Device_ReadInCommandBlock fuel; when ok (MS_process_command fuel));;
              i ← the; when (IsMassStoreReset (State i)) MS_reset_endpoints) Q w') ->
  wp true (MS_Device_USBTask fuel) Q w.
Proof.
  intros (Hst & Hi & Ho & Hein & Heout & Hin & Hout & _) HQ. unfold MS_Device_USBTask, poll_DeviceState.
  apply wp_bind, wp_bind. unfold wp at 1, interrupt_point. rewrite dh_irq, andb_false_r. apply wp_gets.
  rewrite Hst. cbn [negb Z.eqb Pos.eqb DEVICE_STATE_Configured].
  apply wp_bind. eapply wp_mono; [eapply MS_select_dev, (dev_start (is_in := is_in) (q0 := q0))|].
  intros [] w1 H1. rewrite Ho in H1. apply wp_bind. dev_step IsOUTReceived_dev H1. intros r w2 [-> H2].
  by apply HQ.
Qed.

(** A command from its packet to its status. *)
Lemma MS_USBTask_command_dev fuel ein eout p ps w R : ms_port is_in size ein eout w ->
  let st := fun x => ep_state is_in q0 x (tr w) in
  let c := command p (CommandBlock (State (info w))) in
  ep_queue (st eout) = p :: ps -> length p = 31%nat -> Forall is_u8 p ->
  invalid_block (set_CommandBlock (header p) (info w)) = false -> (40 + length ps < fuel)%nat ->
  scsi_answers w ein eout c (<[eout := with_queue ps (st eout)]> st) R ->
  (forall ok a2 st2, R ok a2 st2 -> settled c (info w) ein eout ok a2 st2) ->
  wp true (MS_Device_USBTask fuel) (fun _ w' => exists ok a2 st2, R ok a2 st2 /\
    dev (upd_app (fun _ => with_status ok a2) w) ein
      (<[ein := mkEP [] (ep_sent (st2 ein) ++ [enc_status (status_of ok (load a2))]) (ep_queue (st2 ein)) false]> st2) w') w.
Proof.
  intros Hport st c Hq Hp Hu Hv Hf Hcb HR.
  apply (MS_USBTask_dev fuel ein eout); [done|]. intros w1 H1. fold (st eout).
  unfold ep_ready. rewrite Hq. cbn [when].
  apply wp_bind, wp_bind. eapply wp_mono; [by apply (valid_block_dev ein eout w fuel Hport p ps st)|].
  intros ok w2 [-> H2]. cbn [when].
  eapply wp_mono; [eapply (process_command_dev fuel ein eout w c); [exact Hport|lia|exact Hcb|exact HR|exact H2]|].
  intros [] w3 (ok & a2 & st2 & HRR & H3). apply wp_bind, wp_gets.
  rewrite (dev_app _ _ _ _ H3). cbn [app upd_app]. unfold with_status at 1. rewrite load_store.
  destruct (HR _ _ _ HRR) as (_ & _ & Hr & _). cbn [set_CommandStatus set_State State IsMassStoreReset]. rewrite Hr. apply wp_ret.
  by exists ok, a2, st2.
Qed.
End Transport.

(** C16: The bulk-only transport of a command: when the host's packet is a valid
    command block, the task hands it to the application, with the endpoint of the
    data selected, and then sends exactly one status wrapper of 13 bytes with the
    signature, the tag of that command, the data the application left to transfer,
    and whether it succeeded.  The packet is consumed and the application's own
    effects on the endpoints are kept.  What the application does ([R]) is a parameter;
    it may be anything that leaves the interface usable ([settled]): it keeps the
    configuration and the tag, leaves no data in the IN bank and no endpoint stalled, and
    a command it fails has no data left to transfer (else the task stalls the endpoint of
    the data first, which is not covered). *)
Theorem MS_command_answered {HW : Hardware} {is_in size q0} {DH : DataHost is_in size q0}
    {App} {EV : DeviceEvents App} {RQ : DeviceRequests App} {OB : Object App MSInfo} {CB : MSCallbacks App}
    fuel ein eout p ps (w : World App) R : ms_port is_in size ein eout w ->
  let st := fun x => ep_state is_in q0 x (tr w) in
  let c := command p (CommandBlock (State (info w))) in
  ep_queue (st eout) = p :: ps -> length p = 31%nat -> Forall is_u8 p ->
  invalid_block (set_CommandBlock (header p) (info w)) = false -> (40 + length ps < fuel)%nat ->
  scsi_answers (is_in := is_in) (q0 := q0) w ein eout c (<[eout := with_queue ps (st eout)]> st) R ->
  (forall ok a2 st2, R ok a2 st2 -> settled c (info w) ein eout ok a2 st2) ->
  exists w' ok a2 st2, MS_Device_USBTask fuel w = Ret tt w' /\ R ok a2 st2 /\
    let csw := mkCSW MS_CSW_SIGNATURE (Tag c) (DataTransferLength (CommandBlock (State (load a2))))
                 (if ok then MS_SCSI_COMMAND_Pass else MS_SCSI_COMMAND_Fail) in
    app w' = store (set_CommandStatus csw (load a2)) a2 /\
    ep_state is_in q0 ein (tr w')
      = mkEP [] (ep_sent (st2 ein) ++ [enc_status csw]) (ep_queue (st2 ein)) false /\
    forall x, x <> ein -> ep_state is_in q0 x (tr w') = st2 x.
Proof.
  intros Hport st c Hq Hp Hu Hv Hf Hcb HR.
  pose proof (MS_USBTask_command_dev (is_in := is_in) (size := size) fuel ein eout p ps w R Hport Hq Hp Hu Hv Hf Hcb HR) as H.
  apply wp_total_run_unit in H as (w' & Hrun & ok & a2 & st2 & HRR & H). exists w', ok, a2, st2. split; [done|]. split; [done|].
  destruct (HR _ _ _ HRR) as (_ & <- & _). destruct (H) as (_ & _ & Hst). split; [exact (dev_app _ _ _ _ H)|].
  split; [by rewrite Hst, fn_lookup_insert|]. intros x Hx. by rewrite Hst, fn_lookup_insert_ne.
Qed.

(** C33: A packet that is not a valid command block (wrong signature, a logical unit
    that does not exist, reserved flags, or a bad command length) is refused: the
    task terminates without calling the application and without sending anything,
    both endpoints are stalled, and the rest of the packet stays in the endpoint.
    When the host has asked for a reset, the same call of the task then empties both
    endpoints, ends both stalls and clears the request, so the next command finds
    the interface as after configuration. *)
Theorem MS_invalid_command {HW : Hardware} {is_in size q0} {DH : DataHost is_in size q0}
    {App} {EV : DeviceEvents App} {RQ : DeviceRequests App} {OB : Object App MSInfo} {CB : MSCallbacks App}
    fuel ein eout p ps (w : World App) : ms_port is_in size ein eout w ->
  let st := fun x => ep_state is_in q0 x (tr w) in
  ep_queue (st eout) = p :: ps -> (15 <= length p)%nat ->
  invalid_block (set_CommandBlock (header p) (info w)) = true -> (16 + length ps < fuel)%nat ->
  let reset := IsMassStoreReset (State (info w)) in
  exists w', MS_Device_USBTask fuel w = Ret tt w' /\
    info w' = set_IsMassStoreReset false (set_CommandBlock (header p) (info w)) /\
    ep_state is_in q0 ein (tr w')
      = mkEP (if reset then [] else ep_bank (st ein)) (ep_sent (st ein))
          (if reset then tail (ep_queue (st ein)) else ep_queue (st ein)) (negb reset) /\
    ep_state is_in q0 eout (tr w')
      = mkEP (if reset then [] else ep_bank (st eout)) (ep_sent (st eout))
          (if reset then ps else drop 15 p :: ps) (negb reset) /\
    forall x, x <> ein -> x <> eout -> ep_state is_in q0 x (tr w') = st x.
Proof.
  intros Hport st Hq Hp Hv Hf reset. destruct (Hport) as (_ & Hi & Ho & Hein & Heout & Hin & Hout & _).
  assert (ein <> eout) as Hne by (intros ->; congruence).
  set (st1 := <[ein := with_stall true (st ein)]>
         (<[eout := with_stall true (with_queue (drop 15 p :: ps) (st eout))]> st)).
  set (st2 := if reset then <[ein := with_stall false (flush (st1 ein))]>
                              (<[eout := with_stall false (flush (st1 eout))]> st1) else st1).
  enough (wp true (MS_Device_USBTask fuel) (fun _ w' => exists g,
    dev (is_in := is_in) (q0 := q0) (upd_app g w) ein st2 w' /\
    load (g (app w)) = set_IsMassStoreReset false (set_CommandBlock (header p) (info w))) w) as H.
  { apply wp_total_run_unit in H as (w' & Hrun & g & H & Hg). exists w'. split; [done|].
    split; [unfold info; rewrite (dev_app _ _ _ _ H); exact Hg|]. destruct H as (_ & _ & Hst).
    rewrite !Hst. unfold st2, st1. destruct reset; ep_lookup; (split; [done|]); (split; [done|]);
      intros x Hx1 Hx2; rewrite Hst; unfold st2, st1; by ep_lookup. }
  apply (MS_USBTask_dev fuel ein eout); [done|]. intros w1 H1. fold (st eout). unfold ep_ready.
  rewrite Hq. cbn [when]. apply wp_bind, wp_bind.
  eapply wp_mono; [by apply (invalid_block_dev ein eout w fuel Hport p ps st)|].
  intros ok w2 [-> H2]. cbn [when]. apply wp_ret, wp_bind, wp_gets. rewrite (dev_app _ _ _ _ H2).
  cbn [app upd_app]. rewrite load_store_in. fold (info w).
  cbn [set_CommandBlock set_State State IsMassStoreReset]. fold reset. fold st1 in H2. unfold st2.
  destruct reset eqn:Er; cbn [when].
  - eapply wp_mono; [eapply (reset_endpoints_dev ein eout); [..|exact H2]; try done;
      unfold info; cbn; by rewrite load_store_in|].
    intros [] w3 H3. eexists (fun a => store_in _ (store_in _ a)). split; [exact H3|].
    by rewrite !load_store_in.
  - apply wp_ret. eexists. split; [exact H2|]. rewrite load_store_in. fold (info w).
    unfold set_IsMassStoreReset, set_CommandBlock, set_State. cbn. fold reset in Er. unfold reset in Er.
    by rewrite Er.
Qed.

(** ** Witnesses *)

(** Endpoint 1 is an IN endpoint of 16 bytes; the host sends endpoint 2 a packet. *)
Definition ms_q (p : list Z) (e : Z) : list (list Z) := if e =? 2 then [p] else [].
Definition ms_hw (p : list Z) : Hardware := data_hw pair_in (fun _ => 16%nat) (ms_q p).

Lemma ms_host p : Forall is_u8 p -> DataHost (HW := ms_hw p) pair_in (fun _ => 16%nat) (ms_q p).
Proof. intros Hp. apply data_host. intros e. unfold ms_q. destruct (_ =? _); by repeat constructor. Qed.

Definition demo_disk (reset : bool) : MSInfo :=
  mkMSInfo (mkMSConfig 0 (mkEndpointTable 0x81 16 EP_TYPE_BULK 1) (mkEndpointTable 0x02 64 EP_TYPE_BULK 1) 1)
           (mkMSState (mkCBW 0 0 0 0 0 0 (replicate 16 0)) (mkCSW 0 0 0 0) reset).

(** An application that answers every command with one byte. *)
Definition no_residue (c : MS_CommandBlockWrapper_t) : MS_CommandBlockWrapper_t :=
  mkCBW (Signature c) (Tag c) 0 (Flags c) (LUN c) (SCSICommandLength c) (SCSICommandData c).
Definition demo_scsi (HW : Hardware) : MSCallbacks MSInfo :=
  {| CALLBACK_MS_Device_SCSICommandReceived :=
       Endpoint_Write_8 0x42;; Endpoint_ClearIN;; assign (set_CommandBlock no_residue);; mret true |}.

(** INQUIRY for one byte of data. *)
Definition demo_cbw : list Z :=
  [0x55; 0x53; 0x42; 0x43; 1; 2; 3; 4; 1; 0; 0; 0; 0x80; 0; 6; 0x12; 0; 0; 0; 1; 0] ++ replicate 10 0.
Definition demo_command : MS_CommandBlockWrapper_t := command demo_cbw (mkCBW 0 0 0 0 0 0 (replicate 16 0)).

Lemma demo_cbw_u8 : Forall is_u8 demo_cbw.
Proof. repeat constructor; lia. Qed.

Definition demo_answer (ok : bool) (i2 : MSInfo) (st : Z -> EPState) : Prop :=
  ok = true /\ i2 = set_CommandBlock (fun _ => no_residue demo_command) (demo_disk false) /\
  st 1 = mkEP [] [[0x42]] [] false /\ st 2 = mkEP [] [] [] false.

Lemma demo_scsi_answers :
  scsi_answers (CB := demo_scsi (ms_hw demo_cbw)) (is_in := pair_in) (q0 := ms_q demo_cbw)
    (selected_world (demo_disk false) 0) 1 2 demo_command
    (<[2 := with_queue [] (ep_state pair_in (ms_q demo_cbw) 2 [Wr UENUM 0])]>
       (fun x => ep_state pair_in (ms_q demo_cbw) x [Wr UENUM 0])) demo_answer.
Proof.
  intros w1 H. change (if tst _ _ then 1 else 2) with 1 in H. unfold CALLBACK_MS_Device_SCSICommandReceived, demo_scsi.
  apply wp_bind. dev_step Write_8_dev H. intros [] w2 H2.
  apply wp_bind. dev_step ClearIN_dev H2. intros [] w3 H3. apply wp_bind, wp_modify, wp_ret.
  apply (dev_upd_app (store_in (set_CommandBlock no_residue))) in H3.
  eexists _, 1, _. split; [exact H3|]. by split_and!.
Qed.

Lemma MS_command_answered_witness :
  let w := selected_world (demo_disk false) 0 in
  exists w' ok a2 st2, MS_Device_USBTask (HW := ms_hw demo_cbw) (EV := no_events _) (RQ := no_requests _)
      (CB := demo_scsi (ms_hw demo_cbw)) 50 w = Ret tt w' /\ demo_answer ok a2 st2 /\
    let csw := mkCSW MS_CSW_SIGNATURE (Tag demo_command) (DataTransferLength (CommandBlock (State (load (S := MSInfo) a2))))
                 (if ok then MS_SCSI_COMMAND_Pass else MS_SCSI_COMMAND_Fail) in
    app w' = store (set_CommandStatus csw (load a2)) a2 /\
    ep_state pair_in (ms_q demo_cbw) 1 (tr w')
      = mkEP [] (ep_sent (st2 1) ++ [enc_status csw]) (ep_queue (st2 1)) false /\
    forall x, x <> 1 -> ep_state pair_in (ms_q demo_cbw) x (tr w') = st2 x.
Proof.
  apply (MS_command_answered (DH := ms_host demo_cbw demo_cbw_u8) (EV := no_events _) (RQ := no_requests _)
    (CB := demo_scsi (ms_hw demo_cbw)) 50 1 2 demo_cbw [] (selected_world (demo_disk false) 0) demo_answer).
  - repeat split; cbn; lia.
  - done.
  - done.
  - exact demo_cbw_u8.
  - done.
  - cbn. lia.
  - exact demo_scsi_answers.
  - intros ok i2 st2 (-> & -> & E1 & E2). unfold settled. rewrite E1, E2. by repeat split.
Defined.

(** The same packet with a signature that is not the one of a command block. *)
Definition bad_cbw : list Z := 0x54 :: tail demo_cbw.

Lemma MS_invalid_command_witness :
  let w := selected_world (demo_disk true) 0 in
  let st x := ep_state pair_in (ms_q bad_cbw) x (tr w) in
  exists w', MS_Device_USBTask (HW := ms_hw bad_cbw) (EV := no_events _) (RQ := no_requests _)
      (CB := demo_scsi (ms_hw bad_cbw)) 50 w = Ret tt w' /\
    info w' = set_IsMassStoreReset false (set_CommandBlock (header bad_cbw) (demo_disk true)) /\
    ep_state pair_in (ms_q bad_cbw) 1 (tr w') = mkEP [] (ep_sent (st 1)) (tail (ep_queue (st 1))) false /\
    ep_state pair_in (ms_q bad_cbw) 2 (tr w') = mkEP [] (ep_sent (st 2)) [] false /\
    forall x, x <> 1 -> x <> 2 -> ep_state pair_in (ms_q bad_cbw) x (tr w') = st x.
Proof.
  assert (Forall is_u8 bad_cbw) as Hu by (repeat constructor; lia).
  refine (MS_invalid_command (DH := ms_host bad_cbw Hu) (EV := no_events _) (RQ := no_requests _)
    (CB := demo_scsi (ms_hw bad_cbw)) 50 1 2 bad_cbw [] (selected_world (demo_disk true) 0) _ _ _ _ _).
  - repeat split; cbn; lia.
  - done.
  - cbn. lia.
  - done.
  - cbn. lia.
Defined.
