(* ===== verification/PrinterDevice.v ===== *)
(** The printer device class driver: LUFA/Drivers/USB/Class/Device/PrinterClassDevice.[ch]. *)

From stdpp Require Import base tactics option list numbers.
From Stdlib Require Import ZArith Lia.
From S2P Require Import Prelude Memory Hardware Endpoint USBController ControlStream DeviceStandardReq.
From S2P Require Import EndpointStream ClassDriver SerialPort.

(** PrinterClassCommon.h *)
Definition PRNT_PORTSTATUS_NOTERROR : Z := bit 3.
Definition PRNT_PORTSTATUS_SELECT : Z := bit 4.
Definition PRNT_REQ_GetDeviceID : Z := 0x00.
Definition PRNT_REQ_GetPortStatus : Z := 0x01.
Definition PRNT_REQ_SoftReset : Z := 0x02.

(** [USB_ClassInfo_PRNT_Device_t]; [IEEE1284String] is the array the pointer leads to. *)
Record PRNT_Config : Set := mkPRNTConfig {
  InterfaceNumber : Z;
  DataINEndpoint : USB_Endpoint_Table_t;
  DataOUTEndpoint : USB_Endpoint_Table_t;
  IEEE1284String : list Z
}.
Record PRNT_State : Set := mkPRNTState {
  PortStatus : Z;
  IsPrinterReset : bool
}.
Record USB_ClassInfo_PRNT_Device_t : Set := mkPRNTInfo {
  Config : PRNT_Config;
  State : PRNT_State
}.

Abbreviation PRNTInfo := USB_ClassInfo_PRNT_Device_t.

Definition set_State (f : PRNT_State -> PRNT_State) (i : PRNTInfo) : PRNTInfo :=
  mkPRNTInfo (Config i) (f (State i)).
Definition set_PortStatus (v : Z) : PRNTInfo -> PRNTInfo :=
  set_State (fun s => mkPRNTState v (IsPrinterReset s)).
Definition set_IsPrinterReset (b : bool) : PRNTInfo -> PRNTInfo :=
  set_State (fun s => mkPRNTState (PortStatus s) b).
Definition set_EndpointTypes (i : PRNTInfo) : PRNTInfo :=
  let c := Config i in
  mkPRNTInfo (mkPRNTConfig (InterfaceNumber c) (with_Type EP_TYPE_BULK (DataINEndpoint c))
                (with_Type EP_TYPE_BULK (DataOUTEndpoint c)) (IEEE1284String c)) (State i).

Class PRNTEvents (App : Type) : Type := {
  EVENT_PRNT_Device_SoftReset : prog (World App) unit
}.
Definition PRNT_Device_Event_Stub {App} : PRNTEvents App := {| EVENT_PRNT_Device_SoftReset := mret tt |}.

Section PRNTDevice.
Context {HW : Hardware} {App : Type} {EV : DeviceEvents App} {RQ : DeviceRequests App}.
Context {OB : Object App PRNTInfo} {PE : PRNTEvents App}.
Context (fuel : nat).
Abbreviation P := (prog (World App)).

Definition PRNT_GetDeviceID : P unit :=
  Endpoint_ClearSETUP;;
  r ← StatusStage_wait fuel fuel Endpoint_IsINReady;
  if negb r then mret tt
  else
    i ← the;
    n ← checked (strlen (IEEE1284String (Config i)));
    let IEEEStringLen := u16 n in
    Endpoint_Write_16_BE IEEEStringLen;;
    Endpoint_Write_Control_Stream_LE fuel (IEEE1284String (Config i)) IEEEStringLen;;
    Endpoint_ClearStatusStage fuel.

Definition PRNT_GetPortStatus : P unit :=
  Endpoint_ClearSETUP;;
  r ← StatusStage_wait fuel fuel Endpoint_IsINReady;
  if negb r then mret tt
  else
    i ← the;
    Endpoint_Write_8 (PortStatus (State i));;
    Endpoint_ClearStatusStage fuel.

Definition PRNT_SoftReset : P unit :=
  Endpoint_ClearSETUP;;
  Endpoint_ClearStatusStage fuel;;
  assign (set_IsPrinterReset true);;
  EVENT_PRNT_Device_SoftReset.

Definition PRNT_Device_ProcessControlRequest : P unit :=
  s ← Endpoint_IsSETUPReceived;
  if negb s then mret tt
  else
    req ← gets USB_ControlRequest;
    i ← the;
    if negb (wIndex req =? InterfaceNumber (Config i)) then mret tt
    else
      let r := bRequest req in
      if r =? PRNT_REQ_GetDeviceID then when (bmRequestType req =? CLASS_IN) PRNT_GetDeviceID
      else if r =? PRNT_REQ_GetPortStatus then when (bmRequestType req =? CLASS_IN) PRNT_GetPortStatus
      else if r =? PRNT_REQ_SoftReset then when (bmRequestType req =? CLASS_OUT) PRNT_SoftReset
      else mret tt.

Definition PRNT_Device_ConfigureEndpoints : P bool :=
  assign (set_State (fun _ => mkPRNTState 0 false));;
  assign (set_PortStatus (Z.lor PRNT_PORTSTATUS_NOTERROR PRNT_PORTSTATUS_SELECT));;
  assign set_EndpointTypes;;
  i ← the;
  ok ← Endpoint_ConfigureEndpointTable fuel [DataINEndpoint (Config i)];
  if negb ok then mret false
  else
    ok ← Endpoint_ConfigureEndpointTable fuel [DataOUTEndpoint (Config i)];
    if negb ok then mret false else mret true.

(** [USB_DeviceState == DEVICE_STATE_Configured] *)
Definition PRNT_online : P bool :=
  st ← poll_DeviceState fuel; mret (st =? DEVICE_STATE_Configured).

Definition PRNT_select (f : PRNT_Config -> USB_Endpoint_Table_t) : P unit :=
  i ← the; Endpoint_SelectEndpoint (Address (f (Config i))).

(** The functions of the port (SerialPort.v). *)
Definition PRNT_Device_SendString : list Z -> P Z :=
  port_SendString fuel PRNT_online (PRNT_select DataINEndpoint).
Definition PRNT_Device_SendData : list Z -> Z -> P Z :=
  port_SendData fuel PRNT_online (PRNT_select DataINEndpoint).
Definition PRNT_Device_SendByte : Z -> P Z :=
  port_SendByte fuel PRNT_online (PRNT_select DataINEndpoint).
Definition PRNT_Device_Flush : P Z := port_Flush fuel PRNT_online (PRNT_select DataINEndpoint).
Definition PRNT_Device_BytesReceived : P Z := port_BytesReceived PRNT_online (PRNT_select DataOUTEndpoint).
Definition PRNT_Device_ReceiveByte : P Z := port_ReceiveByte PRNT_online (PRNT_select DataOUTEndpoint).

Definition PRNT_Device_USBTask : P unit :=
  on ← PRNT_online;
  if negb on then mret tt
  else
    port_autoflush fuel PRNT_online (PRNT_select DataINEndpoint);;
    i ← the;
    when (IsPrinterReset (State i))
      (reset_bulk (Address (DataINEndpoint (Config i))) (Address (DataOUTEndpoint (Config i)));;
       assign (set_IsPrinterReset false)).

(** ** The stdio streams *)

Definition PRNT_Device_putchar : Z -> P Z := port_putchar fuel PRNT_online (PRNT_select DataINEndpoint).
Definition PRNT_Device_getchar : P Z := port_getchar PRNT_online (PRNT_select DataOUTEndpoint).
Definition PRNT_Device_getchar_Blocking : P Z :=
  port_getchar_Blocking fuel PRNT_online (PRNT_select DataOUTEndpoint) PRNT_Device_USBTask.

Definition PRNT_Device_CreateStream : FILE App :=
  mkFILE App PRNT_Device_putchar PRNT_Device_getchar _FDEV_SETUP_RW.
Definition PRNT_Device_CreateBlockingStream : FILE App :=
  mkFILE App PRNT_Device_putchar PRNT_Device_getchar_Blocking _FDEV_SETUP_RW.
End PRNTDevice.
