(* ===== verification/PrinterSpec.v ===== *)
(** Correctness of the printer driver (PrinterDevice.v). *)

From stdpp Require Import base tactics option list numbers fin_maps functions.
From Stdlib Require Import ZArith Lia.
From S2P Require Import Prelude Memory Hardware Endpoint USBController ControlStream DeviceStandardReq.
From S2P Require Import EndpointStream ControlTransfer ControlReceive ControlRequest DataEndpoint.
From S2P Require Import DataStream ClassDriver SerialPort SerialPortSpec PrinterDevice.

(** ** The port of the driver *)

Definition PRNT_tx {HW : Hardware} {App} {EV : DeviceEvents App} {RQ : DeviceRequests App}
    {OB : Object App PRNTInfo} (fuel : nat) (op : tx_op) : prog (World App) Z :=
  match op with
  | TxByte Data => PRNT_Device_SendByte fuel Data
  | TxData Buffer Length => PRNT_Device_SendData fuel Buffer Length
  | TxString String => PRNT_Device_SendString fuel String
  | TxFlush => PRNT_Device_Flush fuel
  | TxTask => PRNT_Device_USBTask fuel;; mret 0
  end.

Definition PRNT_port {HW : Hardware} {App} {EV : DeviceEvents App} {OB : Object App PRNTInfo}
    (fuel : nat) : Port App :=
  mkPort App (PRNT_online fuel) (PRNT_select DataINEndpoint) (PRNT_select DataOUTEndpoint)
    (PRNT_Device_USBTask fuel).

(** The interface is configured and its data endpoints are [ein] and [eout]. *)
Definition printing {App} {OB : Object App PRNTInfo} (is_in : Z -> bool) (size : Z -> nat)
    (ein eout : Z) (w : World App) : Prop :=
  USB_DeviceState w = DEVICE_STATE_Configured /\
  Z.land (Address (DataINEndpoint (Config (info w)))) 0x0F = ein /\
  Z.land (Address (DataOUTEndpoint (Config (info w)))) 0x0F = eout /\
  0 < ein < 8 /\ 0 < eout < 8 /\ is_in ein = true /\ is_in eout = false /\
  0 < Z.of_nat (size ein) < 65536.

Section Instance.
Context {HW : Hardware} {is_in : Z -> bool} {size : Z -> nat} {q0 : Z -> list (list Z)}.
Context {DH : DataHost is_in size q0} {App : Type} {EV : DeviceEvents App} {RQ : DeviceRequests App}.
Context {OB : Object App PRNTInfo} (ein eout : Z) (w0 : World App) (fuel : nat).
Hypothesis Hopen : printing is_in size ein eout w0.
Abbreviation dev := (dev (is_in := is_in) (q0 := q0) (App := App) w0).

Lemma PRNT_online_dev e st w : dev e st w ->
  wp true (PRNT_online fuel) (fun r w' => r = true /\ dev e st w') w.
Proof.
  intros H. destruct Hopen as (Hst & _). unfold PRNT_online, poll_DeviceState.
  apply wp_bind, wp_bind. unfold wp at 1, interrupt_point. rewrite dh_irq, andb_false_r. apply wp_gets, wp_ret.
  by rewrite (dev_DeviceState _ _ _ _ H), Hst.
Qed.

Lemma PRNT_select_dev f e st w : dev e st w ->
  wp true (PRNT_select f) (fun _ => dev (Z.land (Address (f (Config (info w0)))) 0x0F) st) w.
Proof.
  intros H. apply wp_bind, wp_gets. rewrite (dev_app _ _ _ _ H). by eapply SelectEndpoint_dev.
Qed.

Lemma PRNT_OpenPort : OpenPort is_in size q0 (PRNT_port fuel) ein eout w0.
Proof.
  destruct (Hopen) as (_ & Hi & Ho & He & Heo & Hin & Hout & Hsz).
  split; cbn [online select_in select_out PRNT_port]; [|intros e st w H..|split; [lia|done]|split; [lia|done]].
  - exact PRNT_online_dev.
  - eapply wp_mono; [exact (PRNT_select_dev DataINEndpoint _ _ _ H)|]. intros [] w'. by rewrite Hi.
  - eapply wp_mono; [exact (PRNT_select_dev DataOUTEndpoint _ _ _ H)|]. intros [] w'. by rewrite Ho.
Qed.

(** The task flushes, and resets the endpoints when the host asked for it. *)
Lemma PRNT_task_dev e st w : (0 < fuel)%nat -> (length (ep_bank (st ein)) <= size ein)%nat -> dev e st w ->
  let st1 := <[ein := flushed (size ein) (st ein)]> st in
  wp true (PRNT_Device_USBTask fuel) (fun _ w' =>
    if IsPrinterReset (State (info w0))
    then DataEndpoint.dev (is_in := is_in) (q0 := q0) (upd_app (store_in (set_IsPrinterReset false)) w0) ein
           (<[ein := with_stall false (flush (st1 ein))]> (<[eout := with_stall false (flush (st1 eout))]> st1)) w'
    else dev ein st1 w') w.
Proof.
  intros Hf Hb H st1. destruct (Hopen) as (_ & Hi & Ho & He & Heo & Hin & Hout & Hsz).
  pose proof PRNT_OpenPort. unfold PRNT_Device_USBTask. apply wp_bind.
  eapply wp_mono; [by apply PRNT_online_dev|]. intros on w1 [-> H1]. cbn [negb]. apply wp_bind.
  eapply wp_mono; [exact (autoflush_dev (PRNT_port fuel) ein eout w0 fuel _ _ _ Hf Hb H1)|].
  intros [] w2 H2. fold st1 in H2. apply wp_bind, wp_gets. rewrite (dev_app _ _ _ _ H2). fold (info w0).
  destruct (IsPrinterReset (State (info w0))); cbn [when]; [|by apply wp_ret]. apply wp_bind.
  assert (ein <> eout) by (intros ->; congruence).
  dev_step (reset_bulk_dev _ _ ein eout) H2. intros [] w3 G3. apply wp_modify. by apply dev_upd_app.
Qed.

Lemma PRNT_FlushingTask : (0 < fuel)%nat -> IsPrinterReset (State (info w0)) = false ->
  FlushingTask is_in size q0 (PRNT_port fuel) ein w0.
Proof.
  intros Hf Hr e st w Hb H. cbn [task PRNT_port]. eapply wp_mono; [exact (PRNT_task_dev _ _ _ Hf Hb H)|].
  intros [] w1. by rewrite Hr.
Qed.
End Instance.

(** The printer's port carries data both ways as the virtual serial port does:
    whatever is sent reaches the host completely and in order, in a transfer that
    ends with a short packet, and calls of [PRNT_Device_ReceiveByte] deliver all the
    bytes the host sent.  When the host has asked for a soft reset, the task first
    sends what is waiting and then empties both endpoints, ends their stalls and
    clears the request. *)
Theorem PRNT_port_works {HW : Hardware} {is_in size q0} {DH : DataHost is_in size q0}
    {App} {EV : DeviceEvents App} {RQ : DeviceRequests App} {OB : Object App PRNTInfo}
    fuel ein eout n ops (w : World App) : (0 < fuel)%nat -> printing is_in size ein eout w ->
  let s := fun x => ep_state is_in q0 x (tr w) in
  let reset := IsPrinterReset (State (info w)) in
  Forall (tx_ok fuel) ops -> (length (ep_bank (s ein)) <= size ein)%nat -> countable (ep_queue (s eout)) ->
  (length (concat (ep_queue (s eout))) + length (ep_queue (s eout)) <= n)%nat -> (0 < n)%nat ->
  (reset = false -> exists ext ps, let w' := upd_tr (fun t => ext ++ t) w in
     run_all (PRNT_tx fuel) (ops ++ [TxFlush]) w = Ret true w' /\
     ep_bank (ep_state is_in q0 ein (tr w')) = [] /\
     ep_sent (ep_state is_in q0 ein (tr w')) = ep_sent (s ein) ++ ps /\
     concat ps = ep_bank (s ein) ++ concat (map tx_bytes ops) /\
     Forall (fun p => (length p <= size ein)%nat) ps /\
     (ps = [] \/ exists qs p, ps = qs ++ [p] /\ (length p < size ein)%nat)) /\
  (exists w', receive (PRNT_Device_ReceiveByte fuel) n w = Ret (concat (ep_queue (s eout))) w' /\
     ep_queue (ep_state is_in q0 eout (tr w')) = []) /\
  (reset = true -> exists w', PRNT_Device_USBTask fuel w = Ret tt w' /\
     info w' = set_IsPrinterReset false (info w) /\
     ep_state is_in q0 ein (tr w')
       = mkEP [] (ep_sent (flushed (size ein) (s ein))) (tail (ep_queue (s ein))) false /\
     ep_state is_in q0 eout (tr w') = mkEP [] (ep_sent (s eout)) (tail (ep_queue (s eout))) false).
Proof.
  intros Hf Ho s reset Hok Hb Hc Hn H0. pose proof (PRNT_OpenPort ein eout w fuel Ho) as OP. split; [|split].
  - intros Hr. pose proof (port_transmits (PRNT_port fuel) fuel ein eout ops w Hf OP
      (PRNT_FlushingTask ein eout w fuel Ho Hf Hr) Hok Hb) as (ext & ps & Hrun & He & Hp & Hl & Hs & _).
    exists ext, ps. split; [rewrite <- Hrun; apply run_all_ext; by intros []|]. by rewrite He.
  - destruct (port_receives (PRNT_port fuel) ein eout n w OP Hc) as [_ H].
    destruct (H Hn H0) as (w' & Hrun & He & _). exists w'. split; [exact Hrun|]. by rewrite He.
  - intros Hr. destruct (wp_total_run_unit _ _ _ (PRNT_task_dev ein eout w fuel Ho _
      (fun x => ep_state is_in q0 x (tr w)) w Hf Hb (dev_start w))) as (w' & Hrun & H).
    fold reset in H. rewrite Hr in H. exists w'. split; [done|].
    split; [unfold info; rewrite (dev_app _ _ _ _ H); cbn; by rewrite load_store_in|].
    destruct H as (_ & _ & Hst). destruct (Ho) as (_ & _ & _ & _ & _ & Hin & Hout & _).
    assert (ein <> eout) by (intros ->; congruence). rewrite !Hst. ep_lookup. split; [|done].
    unfold flushed, with_stall, flush. fold (s ein). by repeat case_match.
Qed.

(** ** The port status *)

Section PortStatus.
Context {HW : Hardware} {RH : ReadyHost} {App : Type} {EV : DeviceEvents App}.
Context {OB : Object App PRNTInfo} {PE : PRNTEvents App}.
Implicit Types w : World App.

(** A host acknowledges data only once it got some. *)
Definition awaits_data (w : World App) : Prop :=
  forall t, selected t = 0 -> packets t = packets (tr w) -> tst (u8 (hw_read t UEINTX)) (bit RXOUTI) = false.

Lemma OUT_never fuel n b w0 w : awaits_data w0 -> USB_DeviceState w0 <> DEVICE_STATE_Unattached ->
  ctl [] b w0 w -> StatusStage_wait fuel n Endpoint_IsOUTReceived w = NoFuel.
Proof.
  intros Ha Hd. revert w; induction n as [|n IH]; intros w H; [done|]. cbn [StatusStage_wait].
  assert (wp true Endpoint_IsOUTReceived (fun r w' => r = false /\ ctl [] b w0 w') w) as Hr.
  { unfold Endpoint_IsOUTReceived, test_bits. apply wp_bind, wp_rd, wp_ret. cbn [reg_trunc].
    destruct (H) as (_ & Hs & _ & Hp & _). rewrite Ha by (done || rewrite Hp; apply app_nil_r).
    split; [done|]. by apply ctl_rd. }
  run_step Hr as [-> H1].
  assert (wp true (poll_DeviceState fuel) (fun s w' => s = USB_DeviceState w0 /\ ctl [] b w0 w') w1) as Hpoll.
  { unfold poll_DeviceState. apply wp_bind. unfold wp, interrupt_point. rewrite rh_irq, andb_false_r.
    split; [apply (ctl_globals _ _ _ _ H1)|done]. }
  run_step Hpoll as [-> H2]. rewrite (proj2 (Z.eqb_neq _ _)) by done. by apply IH.
Qed.
End PortStatus.

(** GET_PORT_STATUS is never answered: the handler puts the status byte into the
    bank of the control endpoint and waits for the host's acknowledgement without
    having sent the packet, so against a host that acknowledges data it got the
    handler does not return, however long it runs. *)
Theorem PRNT_port_status_hangs {HW : Hardware} {RH : ReadyHost} {App} {EV : DeviceEvents App}
    {OB : Object App PRNTInfo} {PE : PRNTEvents App} fuel (w : World App) : pending w ->
  asks w CLASS_IN PRNT_REQ_GetPortStatus (InterfaceNumber (Config (info w))) ->
  is_u8 (PortStatus (State (info w))) -> awaits_data w -> USB_DeviceState w <> DEVICE_STATE_Unattached ->
  PRNT_Device_ProcessControlRequest fuel w = NoFuel.
Proof.
  intros Hp (Hb & Hr & Hi) Hu Ha Hd. unfold PRNT_Device_ProcessControlRequest.
  run_step (pending_ctl w Hp) as [-> H1]. cbn [negb].
  rewrite (bind_run (gets _) _ _ _ _ eq_refl), (bind_run the _ _ _ _ eq_refl).
  rewrite (ctl_request _ _ _ _ H1), (ctl_app _ _ _ _ H1). fold (info w). rewrite Hi, Z.eqb_refl, Hr, Hb.
  cbn [negb Z.eqb Pos.eqb PRNT_REQ_GetDeviceID PRNT_REQ_GetPortStatus].
  change (CLASS_IN =? CLASS_IN) with true. cbn [when]. unfold PRNT_GetPortStatus.
  run_step (ClearSETUP_ctl _ _ _ _ H1) as H2. destruct fuel as [|fuel]; [done|].
  run_step (StatusStage_IN_wait_ctl (S fuel) (S fuel) _ _ _ _ ltac:(lia) H2) as [-> H3]. cbn [negb].
  rewrite (bind_run the _ _ _ _ eq_refl), (ctl_app _ _ _ _ H3). fold (info w).
  run_step (Write_8_ctl _ _ _ _ _ Hu H3) as H4. unfold Endpoint_ClearStatusStage.
  rewrite (bind_run (gets _) _ _ _ _ eq_refl), (ctl_request _ _ _ _ H4), Hb.
  change (tst CLASS_IN REQDIR_DEVICETOHOST) with true. cbn iota. unfold mbind, prog_bind.
  by rewrite (OUT_never (S fuel) (S fuel) _ w w3 Ha Hd H4).
Qed.

(** ** Witnesses *)

Definition demo_printer (reset : bool) : PRNTInfo :=
  mkPRNTInfo (mkPRNTConfig 0 (mkEndpointTable 0x81 4 EP_TYPE_BULK 1) (mkEndpointTable 0x02 4 EP_TYPE_BULK 1)
                [77; 70; 71; 0])
             (mkPRNTState 0x18 reset).

Lemma PRNT_port_works_witness :
  let w := selected_world (demo_printer false) 0 in
  let s := fun x => ep_state pair_in pair_q x (tr w) in
  (false = false -> exists ext ps, let w' := upd_tr (fun t => ext ++ t) w in
     run_all (PRNT_tx (HW := pair_hw) (EV := no_events _) (RQ := no_requests _) 20)
       ([TxByte 1; TxData [2; 3; 4; 5] 3; TxTask] ++ [TxFlush]) w = Ret true w' /\
     ep_bank (ep_state pair_in pair_q 1 (tr w')) = [] /\
     ep_sent (ep_state pair_in pair_q 1 (tr w')) = ep_sent (s 1) ++ ps /\
     concat ps = ep_bank (s 1) ++ [1; 2; 3; 4] /\
     Forall (fun p => (length p <= 4)%nat) ps /\
     (ps = [] \/ exists qs p, ps = qs ++ [p] /\ (length p < 4)%nat)) /\
  (exists w', receive (PRNT_Device_ReceiveByte (HW := pair_hw) (EV := no_events _) 20) 10 w
       = Ret (concat (ep_queue (s 2))) w' /\
     ep_queue (ep_state pair_in pair_q 2 (tr w')) = []) /\
  (false = true -> exists w', PRNT_Device_USBTask (HW := pair_hw) (EV := no_events _) 20 w = Ret tt w' /\
     info w' = set_IsPrinterReset false (info w) /\
     ep_state pair_in pair_q 1 (tr w')
       = mkEP [] (ep_sent (flushed 4 (s 1))) (tail (ep_queue (s 1))) false /\
     ep_state pair_in pair_q 2 (tr w') = mkEP [] (ep_sent (s 2)) (tail (ep_queue (s 2))) false).
Proof.
  refine (PRNT_port_works (DH := pair_host) (EV := no_events _) (RQ := no_requests _) 20 1 2 10
    [TxByte 1; TxData [2; 3; 4; 5] 3; TxTask] (selected_world (demo_printer false) 0) _ _ _ _ _ _ _).
  - lia.
  - by repeat split.
  - repeat constructor; try done; lia.
  - cbn. lia.
  - repeat constructor; cbn; lia.
  - cbn. lia.
  - lia.
Defined.

(** A host that has sent a SETUP packet and waits for data. *)
Definition waiting_hw : Hardware :=
  {| hw_read := fun t r => match r with
       | UEINTX => Z.lor (Z.lor (bit TXINI) (match packets t with [] => 0 | _ => bit RXOUTI end)) (bit RXSTPI)
       | _ => 0 end;
     hw_irq := fun _ => false; hw_signature := fun _ => 0 |}.

Lemma waiting_ready : ReadyHost (HW := waiting_hw).
Proof. split; [done|]. intros t _. cbn. by destruct (packets t). Qed.

Lemma PRNT_port_status_hangs_witness :
  PRNT_Device_ProcessControlRequest (HW := waiting_hw) (EV := no_events _) (PE := PRNT_Device_Event_Stub) 1000
    (request_world (demo_printer false) (mkRequest 0xA1 PRNT_REQ_GetPortStatus 0 0 1)) = NoFuel.
Proof.
  apply (PRNT_port_status_hangs (RH := waiting_ready)).
  - by repeat split.
  - by repeat split.
  - done.
  - intros t _ Hp. cbn in *. by rewrite Hp.
  - done.
Defined.
