(* ===== verification/MIDIDevice.v ===== *)
(** The MIDI device class driver: LUFA/Drivers/USB/Class/Device/MIDIClassDevice.[ch]. *)

From stdpp Require Import base tactics option list numbers.
From Stdlib Require Import ZArith Lia.
From S2P Require Import Prelude Memory Hardware Endpoint USBController ControlStream DeviceStandardReq.
From S2P Require Import EndpointStream ClassDriver.

(** MIDIClassCommon.h *)
Record MIDI_EventPacket_t : Set := mkEvent {
  Event : Z;
  Data1 : Z;
  Data2 : Z;
  Data3 : Z
}.

(** The memory of an event. *)
Definition enc_event (e : MIDI_EventPacket_t) : list Z := [u8 (Event e); u8 (Data1 e); u8 (Data2 e); u8 (Data3 e)].
Definition dec_event (buf : list Z) (e : MIDI_EventPacket_t) : MIDI_EventPacket_t :=
  match buf with [a; b; c; d] => mkEvent a b c d | _ => e end.

(** [USB_ClassInfo_MIDI_Device_t]; its [State] is empty. *)
Record MIDI_Config : Set := mkMIDIConfig {
  StreamingInterfaceNumber : Z;
  DataINEndpoint : USB_Endpoint_Table_t;
  DataOUTEndpoint : USB_Endpoint_Table_t
}.
Record USB_ClassInfo_MIDI_Device_t : Set := mkMIDIInfo {
  Config : MIDI_Config
}.

Abbreviation MIDIInfo := USB_ClassInfo_MIDI_Device_t.

Definition set_EndpointTypes (i : MIDIInfo) : MIDIInfo :=
  let c := Config i in
  mkMIDIInfo (mkMIDIConfig (StreamingInterfaceNumber c) (with_Type EP_TYPE_BULK (DataINEndpoint c))
                (with_Type EP_TYPE_BULK (DataOUTEndpoint c))).

Section MIDIDevice.
Context {HW : Hardware} {App : Type} {EV : DeviceEvents App} {RQ : DeviceRequests App}.
Context {OB : Object App MIDIInfo}.
Context (fuel : nat).
Abbreviation P := (prog (World App)).

Definition MIDI_Device_ConfigureEndpoints : P bool :=
  assign set_EndpointTypes;;
  i ← the;
  ok ← Endpoint_ConfigureEndpointTable fuel [DataINEndpoint (Config i)];
  if negb ok then mret false
  else
    ok ← Endpoint_ConfigureEndpointTable fuel [DataOUTEndpoint (Config i)];
    if negb ok then mret false else mret true.

Definition MIDI_select (f : MIDI_Config -> USB_Endpoint_Table_t) : P unit :=
  i ← the; Endpoint_SelectEndpoint (Address (f (Config i))).

Definition MIDI_Device_SendEventPacket (e : MIDI_EventPacket_t) : P Z :=
  st ← poll_DeviceState fuel;
  if negb (st =? DEVICE_STATE_Configured) then mret ENDPOINT_RWSTREAM_DeviceDisconnected
  else
    MIDI_select DataINEndpoint;;
    r ← Endpoint_Write_Stream_LE fuel (enc_event e) 4 None;
    let '(_, ErrorCode, _) := r in
    if negb (ErrorCode =? ENDPOINT_RWSTREAM_NoError) then mret ErrorCode
    else
      a ← Endpoint_IsReadWriteAllowed;
      when (negb a) Endpoint_ClearIN;;
      mret ENDPOINT_RWSTREAM_NoError.

Definition MIDI_Device_Flush : P Z :=
  st ← poll_DeviceState fuel;
  if negb (st =? DEVICE_STATE_Configured) then mret ENDPOINT_RWSTREAM_DeviceDisconnected
  else
    MIDI_select DataINEndpoint;;
    n ← Endpoint_BytesInEndpoint;
    if negb (n =? 0) then
      Endpoint_ClearIN;;
      ErrorCode ← Endpoint_WaitUntilReady fuel;
      if negb (ErrorCode =? ENDPOINT_READYWAIT_NoError) then mret ErrorCode
      else mret ENDPOINT_READYWAIT_NoError
    else mret ENDPOINT_READYWAIT_NoError.

Definition MIDI_Device_USBTask : P unit :=
  st ← poll_DeviceState fuel;
  if negb (st =? DEVICE_STATE_Configured) then mret tt
  else
    MIDI_select DataINEndpoint;;
    r ← Endpoint_IsINReady;
    when r (MIDI_Device_Flush;; mret tt).

(** The result and the event the pointer leads to. *)
Definition MIDI_Device_ReceiveEventPacket (e : MIDI_EventPacket_t) : P (bool * MIDI_EventPacket_t) :=
  st ← poll_DeviceState fuel;
  if negb (st =? DEVICE_STATE_Configured) then mret (false, e)
  else
    MIDI_select DataOUTEndpoint;;
    r ← Endpoint_IsOUTReceived;
    if negb r then mret (false, e)
    else
      a ← Endpoint_IsReadWriteAllowed;
      if negb a then mret (false, e)
      else
        s ← Endpoint_Read_Stream_LE fuel (enc_event e) 4 None;
        let '(buf, _, _) := s in
        a ← Endpoint_IsReadWriteAllowed;
        when (negb a) Endpoint_ClearOUT;;
        mret (true, dec_event buf e).
End MIDIDevice.
