(* ===== verification/MIDISpec.v ===== *)
(** Correctness of the MIDI driver (MIDIDevice.v). *)

From stdpp Require Import base tactics option list numbers fin_maps functions.
From Stdlib Require Import ZArith Lia.
From S2P Require Import Prelude Memory Hardware Endpoint USBController ControlStream DeviceStandardReq.
From S2P Require Import EndpointStream ControlTransfer ControlReceive DataEndpoint.
From S2P Require Import DataStream ClassDriver MIDIDevice.

Definition event_ok (e : MIDI_EventPacket_t) : Prop :=
  is_u8 (Event e) /\ is_u8 (Data1 e) /\ is_u8 (Data2 e) /\ is_u8 (Data3 e).

Lemma dec_enc e e' : event_ok e -> dec_event (enc_event e) e' = e.
Proof. intros (H1 & H2 & H3 & H4). cbn. rewrite !u8_small by done. by destruct e. Qed.

Lemma enc_event_u8 e : Forall is_u8 (enc_event e).
Proof. repeat constructor; apply u8_range. Qed.

(** Events sent one after the other, and then a flush. *)
Fixpoint send_events {HW : Hardware} {App} {EV : DeviceEvents App} {RQ : DeviceRequests App}
    {OB : Object App MIDIInfo} (fuel : nat) (es : list MIDI_EventPacket_t) : prog (World App) Z :=
  match es with
  | [] => MIDI_Device_Flush fuel
  | e :: es => r ← MIDI_Device_SendEventPacket fuel e; if r =? 0 then send_events fuel es else mret r
  end.

(** The events of [n] calls that receive one, into the same variable. *)
Fixpoint receive_events {HW : Hardware} {App} {EV : DeviceEvents App} {RQ : DeviceRequests App}
    {OB : Object App MIDIInfo} (fuel n : nat) (e : MIDI_EventPacket_t)
    : prog (World App) (list MIDI_EventPacket_t) :=
  match n with
  | O => mret []
  | S n =>
      r ← MIDI_Device_ReceiveEventPacket fuel e;
      let '(ok, e) := r in
      es ← receive_events fuel n e; mret (if ok : bool then e :: es else es)
  end.

(** The interface is configured and its data endpoints are [ein] and [eout]. *)
Definition playing {App} {OB : Object App MIDIInfo} (is_in : Z -> bool) (size : Z -> nat)
    (ein eout : Z) (w : World App) : Prop :=
  USB_DeviceState w = DEVICE_STATE_Configured /\
  Z.land (Address (DataINEndpoint (Config (info w)))) 0x0F = ein /\
  Z.land (Address (DataOUTEndpoint (Config (info w)))) 0x0F = eout /\
  0 < ein < 16 /\ 0 < eout < 16 /\ is_in ein = true /\ is_in eout = false /\
  0 < Z.of_nat (size ein) < 65536.

(** On the reference machine: an event is written, and a full bank is sent. *)
Definition sent_event (size : nat) (s : EPState) (e : MIDI_EventPacket_t) : EPState :=
  let s := write_all size s (enc_event e) in
  if (length (ep_bank s) <? size)%nat then s else commit s.
Definition flush_bank (s : EPState) : EPState :=
  match ep_bank s with [] => s | _ => commit s end.

(** The packets sent since [s0], with the bank, hold [bs]. *)
Definition carries (size : nat) (s0 : EPState) (bs : list Z) (s : EPState) : Prop :=
  exists ps, (ep_sent s = ep_sent s0 ++ ps /\ ep_queue s = ep_queue s0 /\ ep_stalled s = ep_stalled s0) /\
    concat ps ++ ep_bank s = ep_bank s0 ++ bs /\ Forall (fun p => (length p <= size)%nat) ps /\
    (length (ep_bank s) <= size)%nat.

Lemma carries_commit size s0 bs s : carries size s0 bs s -> carries size s0 bs (commit s).
Proof.
  intros (ps & (Hs & Hq & Hst) & Hc & Hp & Hb). exists (ps ++ [ep_bank s]). cbn.
  rewrite Hs, <- app_assoc, concat_app. cbn. rewrite !app_nil_r, Hc. split_and!; try done; [|lia].
  apply Forall_app. by repeat constructor.
Qed.

Lemma carries_event size s0 bs s e : (0 < size)%nat -> carries size s0 bs s ->
  carries size s0 (bs ++ enc_event e) (sent_event size s e).
Proof.
  intros Hsz (ps & (Hs & Hqs & Hst) & Hc & Hp & Hb). unfold sent_event.
  destruct (write_all_spec size s (enc_event e) Hsz Hb) as (qs & b & -> & Hq & Hf & Hl).
  assert (carries size s0 (bs ++ enc_event e) (mkEP b (ep_sent s ++ qs) (ep_queue s) (ep_stalled s))) as H.
  { exists (ps ++ qs). rewrite Hs. cbn. rewrite <- app_assoc, concat_app. split_and!; try done.
    - by rewrite <- app_assoc, Hq, !app_assoc, Hc.
    - apply Forall_app. split; [done|]. eapply Forall_impl; [|exact Hf]. cbn. lia. }
  destruct (_ <? _)%nat; [done|]. by apply carries_commit.
Qed.

Section Transport.
Context {HW : Hardware} {is_in : Z -> bool} {size : Z -> nat} {q0 : Z -> list (list Z)}.
Context {DH : DataHost is_in size q0} {App : Type} {EV : DeviceEvents App} {RQ : DeviceRequests App}.
Context {OB : Object App MIDIInfo} (ein eout : Z) (w0 : World App) (fuel : nat).
Hypothesis Hplay : playing is_in size ein eout w0.
Hypothesis Hfuel : (9 < fuel)%nat.
Abbreviation dev := (dev (is_in := is_in) (q0 := q0) (App := App) w0).

(** The prologue of every function. *)
Lemma MIDI_prologue {A} (r : A) f (k : prog (World App) A) Q e st w : dev e st w ->
  (forall w', dev (Z.land (Address (f (Config (info w0)))) 0x0F) st w' -> wp true k Q w') ->
  wp true (s ← poll_DeviceState fuel; if negb (s =? DEVICE_STATE_Configured) then mret r else MIDI_select f;; k) Q w.
Proof.
  intros H Hk. destruct Hplay as (Hst & _). unfold poll_DeviceState. apply wp_bind, wp_bind.
  unfold wp at 1, interrupt_point. rewrite dh_irq, andb_false_r. apply wp_gets.
  rewrite (dev_DeviceState _ _ _ _ H), Hst. cbn [negb Z.eqb Pos.eqb DEVICE_STATE_Configured].
  apply wp_bind, wp_bind, wp_gets. rewrite (dev_app _ _ _ _ H). dev_step SelectEndpoint_dev H.
  intros [] w1 H1. by apply Hk.
Qed.

Lemma SendEvent_dev ev e st w : (length (ep_bank (st ein)) <= size ein)%nat -> dev e st w ->
  wp true (MIDI_Device_SendEventPacket fuel ev)
    (fun r w' => r = 0 /\ dev ein (<[ein := sent_event (size ein) (st ein) ev]> st) w') w.
Proof.
  intros Hb H. destruct (Hplay) as (_ & Hi & _ & He & _ & Hin & _ & Hsz).
  eapply MIDI_prologue; [exact H|]. rewrite Hi. intros w1 H1. apply wp_bind. unfold Endpoint_Write_Stream_LE.
  dev_step (Write_Stream_dev LE (enc_event ev) 4) H1; [apply enc_event_u8|by left|].
  intros r w2 [-> H2]. change (stream_bytes LE (enc_event ev) 4) with (enc_event ev) in H2.
  cbn [negb Z.eqb ENDPOINT_RWSTREAM_NoError]. apply wp_bind. dev_step IsReadWriteAllowed_dev H2.
  intros a w3 [-> H3]. rewrite Hin, fn_lookup_insert. cbn [ep_allowed]. apply wp_bind. unfold sent_event.
  destruct (_ <? _)%nat; cbn [negb when].
  - by apply wp_ret, wp_ret.
  - dev_step ClearIN_dev H3. intros [] w4 H4. apply wp_ret. split; [done|]. eapply dev_ext; [|exact H4].
    rewrite fn_lookup_insert. dev_eq; done.
Qed.

Lemma MIDI_Flush_dev e st w : (length (ep_bank (st ein)) <= size ein)%nat -> dev e st w ->
  wp true (MIDI_Device_Flush fuel) (fun r w' => r = 0 /\ dev ein (<[ein := flush_bank (st ein)]> st) w') w.
Proof.
  intros Hb H. destruct (Hplay) as (_ & Hi & _ & He & _ & Hin & _ & Hsz).
  eapply MIDI_prologue; [exact H|]. rewrite Hi. intros w1 H1. apply wp_bind.
  dev_step BytesInEndpoint_dev H1. intros n w2 [-> H2]. rewrite Hin. unfold ep_count, flush_bank.
  rewrite u16_small by (unfold is_u16; lia). destruct (ep_bank (st ein)) as [|x l] eqn:E; cbn [length].
  - apply wp_ret. split; [done|]. eapply dev_ext; [|exact H2]. dev_eq; done.
  - rewrite (proj2 (Z.eqb_neq _ 0)) by lia. cbn [negb]. apply wp_bind. dev_step ClearIN_dev H2. intros [] w3 H3.
    apply wp_bind. dev_step WaitUntilReady_dev H3; [by rewrite Hin|]. intros r w4 [-> H4]. by apply wp_ret.
Qed.

Lemma send_events_dev es s0 bs e st w : carries (size ein) s0 bs (st ein) -> dev e st w ->
  wp true (send_events fuel es) (fun r w' => r = 0 /\ exists s,
    carries (size ein) s0 (bs ++ concat (map enc_event es)) s /\ ep_bank s = [] /\ dev ein (<[ein := s]> st) w') w.
Proof.
  destruct (Hplay) as (_ & _ & _ & _ & _ & _ & _ & Hsz).
  revert bs e st w; induction es as [|ev es IH]; intros bs e st w Hc H; cbn [send_events map concat].
  - destruct (Hc) as (ps & Hs & _ & _ & Hb). eapply wp_mono; [by apply (MIDI_Flush_dev e st)|].
    intros r w1 [-> H1]. split; [done|]. exists (flush_bank (st ein)). rewrite app_nil_r.
    unfold flush_bank in *. destruct (ep_bank (st ein)) eqn:E; split_and!; try done. by apply carries_commit.
  - destruct (Hc) as (ps & Hs & _ & _ & Hb). apply wp_bind. eapply wp_mono; [by apply (SendEvent_dev ev e st)|].
    intros r w1 [-> H1]. cbn [Z.eqb]. rewrite app_assoc.
    eapply wp_mono; [eapply (IH (bs ++ enc_event ev)); [|exact H1]|].
    + rewrite fn_lookup_insert. apply carries_event; [lia|done].
    + intros r w2 (-> & s & Hcs & Hbs & H2). split; [done|]. exists s. split_and!; try done.
      eapply dev_ext; [|exact H2]. dev_eq; done.
Qed.

(** Packets of whole events. *)
Definition whole (es : list (list MIDI_EventPacket_t)) : Prop :=
  Forall (fun p => p <> [] /\ Forall event_ok p) es.
Definition on_bus (es : list (list MIDI_EventPacket_t)) : list (list Z) :=
  map (fun p => concat (map enc_event p)) es.

(** The packets after the first event was received. *)
Definition rest (es : list (list MIDI_EventPacket_t)) : list (list MIDI_EventPacket_t) :=
  match es with
  | (_ :: e :: p) :: ps => (e :: p) :: ps
  | _ :: ps => ps
  | [] => []
  end.

Lemma enc_event_length e : length (enc_event e) = 4%nat.
Proof. done. Qed.

Lemma Receive_dev ev p ps e0 e st w : whole ((ev :: p) :: ps) ->
  ep_queue (st eout) = on_bus ((ev :: p) :: ps) -> (length ps + 5 < fuel)%nat -> dev e st w ->
  wp true (MIDI_Device_ReceiveEventPacket fuel e0) (fun r w' => r = (true, ev) /\
    dev eout (<[eout := with_queue (on_bus (rest ((ev :: p) :: ps))) (st eout)]> st) w') w.
Proof.
  intros Hw Hq Hf H. destruct (Hplay) as (_ & _ & Ho & _ & He & _ & Hout & _).
  eapply MIDI_prologue; [exact H|]. rewrite Ho. intros w1 H1. apply wp_bind.
  dev_step IsOUTReceived_dev H1. intros r w2 [-> H2]. cbn [ep_ready]. rewrite Hq. cbn [on_bus map negb].
  apply wp_bind. dev_step IsReadWriteAllowed_dev H2. intros a w3 [-> H3]. rewrite Hout. cbn [ep_allowed].
  rewrite Hq. cbn [on_bus map concat enc_event Datatypes.app negb].
  apply wp_bind. unfold Endpoint_Read_Stream_LE.
  set (b := concat (map enc_event (ev :: p))). set (q := on_bus ps).
  assert (ep_queue (st eout) = b :: q) as Hq' by done.
  assert (length b = 4 + length (concat (map enc_event p)))%nat as Hlb by (unfold b; cbn; done).
  eapply wp_mono; [eapply (Read_Stream_dev LE (enc_event e0) (concat (b :: q)) 4); [..|exact H3]|];
    rewrite ?Hq'; try done; try (cbn; lia).
  { unfold q, on_bus. cbn. rewrite length_map. lia. }
  { by left. }
  intros r w4 (buf & -> & Hs & H4). destruct (Hs) as (Hl & Hd & _). apply stored_all in Hs; cbn; try lia.
  rewrite stream_bytes_LE in Hs by lia. rewrite take_ge in Hs by (rewrite Hl; cbn; lia).
  rewrite read_all_packet in H4 by (rewrite Hlb; cbn; lia).
  assert (drop 4 b = concat (map enc_event p)) as Hdb by done.
  change (Z.to_nat 4) with 4%nat in Hs, H4. rewrite Hdb in H4.
  assert (buf = enc_event ev) as -> by (by rewrite Hs).
  apply wp_bind. dev_step IsReadWriteAllowed_dev H4. intros a w5 [-> H5]. rewrite Hout, fn_lookup_insert.
  cbn [ep_allowed ep_queue with_queue]. apply wp_bind. apply Forall_cons_iff in Hw as [[_ Hev] _].
  apply Forall_cons_iff in Hev as [Hev _]. destruct p as [|ev' p]; cbn [map concat negb when Datatypes.app enc_event].
  - dev_step ClearOUT_dev H5. intros [] w6 H6. apply wp_ret. rewrite dec_enc by done. split; [done|].
    eapply dev_ext; [|exact H6]. rewrite fn_lookup_insert. dev_eq; done.
  - apply wp_ret, wp_ret. rewrite dec_enc by done. split; [done|]. exact H5.
Qed.

Lemma whole_rest es : whole es -> whole (rest es).
Proof.
  intros H. destruct H as [|p ps [Hp He] Hps]; [constructor|]. destruct p as [|a [|b p]]; try done.
  cbn. constructor; [|done]. split; [done|]. by apply Forall_cons_iff in He as [_ He].
Qed.

Lemma rest_spec es ev : whole es -> concat es !! 0%nat = Some ev ->
  exists p ps, es = (ev :: p) :: ps /\ concat (rest es) = tail (concat es) /\ (length (rest es) <= length es)%nat.
Proof.
  intros H. destruct H as [|p ps [Hp He] Hps]; [done|]. destruct p as [|a p]; [done|]. cbn.
  intros [= ->]. exists p, ps. destruct p; cbn; (split; [done|]); (split; [done|lia]).
Qed.

Lemma receive_events_dev n es e0 e st w : whole es -> n = length (concat es) -> (0 < n)%nat ->
  ep_queue (st eout) = on_bus es -> (length es + 5 < fuel)%nat -> dev e st w ->
  wp true (receive_events fuel n e0) (fun r w' => r = concat es /\
    dev eout (<[eout := with_queue [] (st eout)]> st) w') w.
Proof.
  revert es e0 e st w; induction n as [|n IH]; intros es e0 e st w Hw Hn Hp Hq Hf H; [lia|].
  destruct (concat es) as [|ev l] eqn:Ec; [done|]. cbn in Hn.
  destruct (rest_spec es ev Hw ltac:(by rewrite Ec)) as (p & ps & -> & Hrest & Hlen).
  cbn [receive_events]. apply wp_bind. cbn [length] in Hf.
  eapply wp_mono; [apply (Receive_dev ev p ps e0 e st); (done || lia)|]. intros r w1 [-> H1]. apply wp_bind.
  rewrite Ec in Hrest. cbn [list.tail] in Hrest. destruct n as [|n].
  - apply wp_ret, wp_ret. destruct l; [|done]. split; [done|]. eapply dev_ext; [|exact H1].
    assert (rest ((ev :: p) :: ps) = []) as ->; [|done].
    pose proof (whole_rest _ Hw) as Hwr. destruct (rest ((ev :: p) :: ps)) as [|[|a q] r]; [done|..|done].
    by apply Forall_cons_iff in Hwr as [[? _] _].
  - eapply wp_mono; [eapply (IH (rest ((ev :: p) :: ps))); [by apply whole_rest|..|exact H1]|].
    + rewrite Hrest. by injection Hn.
    + lia.
    + by rewrite fn_lookup_insert.
    + cbn [length] in Hlen. lia.
    + intros r w2 [-> H2]. apply wp_ret. rewrite Hrest. split; [done|]. eapply dev_ext; [|exact H2].
      rewrite fn_lookup_insert. dev_eq; done.
Qed.

(** An empty packet is never released. *)
Lemma Receive_empty_dev ps e0 e st w : ep_queue (st eout) = [] :: ps -> dev e st w ->
  wp true (MIDI_Device_ReceiveEventPacket fuel e0) (fun r w' => r = (false, e0) /\ dev eout st w') w.
Proof.
  clear Hfuel. intros Hq H. destruct (Hplay) as (_ & _ & Ho & _ & He & _ & Hout & _).
  eapply MIDI_prologue; [exact H|]. rewrite Ho. intros w1 H1. apply wp_bind.
  dev_step IsOUTReceived_dev H1. intros r w2 [-> H2]. cbn [ep_ready]. rewrite Hq. cbn [negb].
  apply wp_bind. dev_step IsReadWriteAllowed_dev H2. intros a w3 [-> H3]. rewrite Hout. cbn [ep_allowed].
  rewrite Hq. by apply wp_ret.
Qed.

Lemma receive_empty_dev n ps e0 e st w : ep_queue (st eout) = [] :: ps -> dev e st w -> (0 < n)%nat ->
  wp true (receive_events fuel n e0) (fun r w' => r = [] /\ dev eout st w') w.
Proof.
  clear Hfuel. intros Hq. revert e w; induction n as [|n IH]; intros e w H Hn; [lia|]. cbn [receive_events].
  apply wp_bind. eapply wp_mono; [by apply (Receive_empty_dev ps e0 e st)|]. intros r w1 [-> H1]. apply wp_bind.
  destruct n as [|n]; [by apply wp_ret, wp_ret|]. eapply wp_mono; [by eapply (IH eout); [|lia]|].
  intros r w2 [-> H2]. by apply wp_ret.
Qed.
End Transport.

(** Events go through the interface unchanged.  Events sent one by one and then
    flushed reach the host as the bytes of the events in order, in packets that fit
    the endpoint, and nothing stays in the bank; the calls that receive deliver
    exactly the events the host sent, in order, when its packets hold whole events,
    and leave the endpoint empty. *)
Theorem MIDI_events_transported {HW : Hardware} {is_in size q0} {DH : DataHost is_in size q0}
    {App} {EV : DeviceEvents App} {RQ : DeviceRequests App} {OB : Object App MIDIInfo}
    fuel ein eout es rs e0 (w : World App) : (9 < fuel)%nat -> playing is_in size ein eout w ->
  let s := fun x => ep_state is_in q0 x (tr w) in
  (length (ep_bank (s ein)) <= size ein)%nat ->
  (exists ext ps, let w' := upd_tr (fun t => ext ++ t) w in
     send_events fuel es w = Ret 0 w' /\
     ep_state is_in q0 ein (tr w') = mkEP [] (ep_sent (s ein) ++ ps) (ep_queue (s ein)) (ep_stalled (s ein)) /\
     concat ps = ep_bank (s ein) ++ concat (map enc_event es) /\
     Forall (fun p => (length p <= size ein)%nat) ps) /\
  (whole rs -> rs <> [] -> ep_queue (s eout) = on_bus rs -> (length rs + 5 < fuel)%nat ->
     exists w', receive_events fuel (length (concat rs)) e0 w = Ret (concat rs) w' /\
       ep_state is_in q0 eout (tr w') = with_queue [] (s eout) /\ app w' = app w).
Proof.
  intros Hf Hplay s Hb. split.
  - assert (carries (size ein) (s ein) [] (s ein)) as Hc by (exists []; by rewrite !app_nil_r).
    destruct (wp_total_run _ _ _ (send_events_dev ein eout w fuel Hplay Hf es (s ein) [] _
      (fun x => ep_state is_in q0 x (tr w)) w Hc (dev_start w)))
      as (r & w' & Hrun & -> & s' & (ps & (Hs & Hq & Hst) & Hcc & Hp & _) & Hbk & [ext ->] & _ & Hx).
    exists ext, ps. rewrite Hbk, app_nil_r in Hcc. split_and!; try done.
    rewrite Hx, fn_lookup_insert, <- Hs, <- Hq, <- Hst, <- Hbk. by destruct s'.
  - intros Hw Hne Hq Hr. assert (0 < length (concat rs))%nat as Hpos.
    { destruct Hw as [|p ps [Hp _] _]; [done|]. destruct p; [done|]. cbn. lia. }
    destruct (wp_total_run _ _ _ (receive_events_dev ein eout w fuel Hplay Hf _ rs e0 _
      (fun x => ep_state is_in q0 x (tr w)) w Hw eq_refl Hpos Hq Hr (dev_start w))) as (r & w' & Hrun & -> & H).
    exists w'. split; [done|]. split; [|by eapply dev_app]. destruct H as (_ & _ & Hx). by rewrite Hx, fn_lookup_insert.
Qed.

(** An empty packet of the host blocks the interface for good: no number of calls
    receives an event any more, and the packet and those after it stay in the
    endpoint. *)
Theorem MIDI_empty_packet_blocks {HW : Hardware} {is_in size q0} {DH : DataHost is_in size q0}
    {App} {EV : DeviceEvents App} {RQ : DeviceRequests App} {OB : Object App MIDIInfo}
    fuel ein eout n ps e0 (w : World App) : playing is_in size ein eout w -> (0 < n)%nat ->
  ep_queue (ep_state is_in q0 eout (tr w)) = [] :: ps ->
  exists w', receive_events fuel n e0 w = Ret [] w' /\
    ep_state is_in q0 eout (tr w') = ep_state is_in q0 eout (tr w).
Proof.
  intros Hplay Hn Hq. destruct (wp_total_run _ _ _ (receive_empty_dev ein eout w fuel Hplay n ps e0 _
    (fun x => ep_state is_in q0 x (tr w)) w Hq (dev_start w) Hn)) as (r & w' & Hrun & -> & _ & _ & Hx).
  by exists w'.
Qed.

(** ** Witnesses *)

Definition demo_synth : MIDIInfo :=
  mkMIDIInfo (mkMIDIConfig 1 (mkEndpointTable 0x81 8 EP_TYPE_BULK 1) (mkEndpointTable 0x02 8 EP_TYPE_BULK 1)).
Definition note (k : Z) : MIDI_EventPacket_t := mkEvent 0x09 0x90 k 64.

(** The host sends three notes in two packets. *)
Definition notes : list (list MIDI_EventPacket_t) := [[note 60; note 64]; [note 67]].
Definition midi_q (q : list (list Z)) (e : Z) : list (list Z) := if e =? 2 then q else [].

Lemma midi_host q : Forall (Forall is_u8) q ->
  DataHost (HW := data_hw pair_in (fun _ => 8%nat) (midi_q q)) pair_in (fun _ => 8%nat) (midi_q q).
Proof. intros Hq. apply data_host. intros e. unfold midi_q. destruct (_ =? _); [done|constructor]. Qed.

Lemma notes_u8 : Forall (Forall is_u8) (on_bus notes).
Proof.
  unfold on_bus, notes. apply Forall_fmap, Forall_forall. intros p _. cbn. apply Forall_concat, Forall_fmap, Forall_forall.
  intros e _. apply enc_event_u8.
Qed.

Lemma MIDI_events_transported_witness :
  let HW := data_hw pair_in (fun _ => 8%nat) (midi_q (on_bus notes)) in
  let w := selected_world demo_synth 0 in
  let s := fun x => ep_state pair_in (midi_q (on_bus notes)) x (tr w) in
  (exists ext ps, let w' := upd_tr (fun t => ext ++ t) w in
     send_events (HW := HW) (EV := no_events _) (RQ := no_requests _) 20 [note 60; note 64; note 67] w = Ret 0 w' /\
     ep_state pair_in (midi_q (on_bus notes)) 1 (tr w')
       = mkEP [] (ep_sent (s 1) ++ ps) (ep_queue (s 1)) (ep_stalled (s 1)) /\
     concat ps = ep_bank (s 1) ++ concat (map enc_event [note 60; note 64; note 67]) /\
     Forall (fun p => (length p <= 8)%nat) ps) /\
  (whole notes -> notes <> [] -> ep_queue (s 2) = on_bus notes -> (length notes + 5 < 20)%nat ->
     exists w', receive_events (HW := HW) (EV := no_events _) (RQ := no_requests _) 20 (length (concat notes))
         (note 0) w = Ret (concat notes) w' /\
       ep_state pair_in (midi_q (on_bus notes)) 2 (tr w') = with_queue [] (s 2) /\ app w' = app w).
Proof.
  refine (MIDI_events_transported (DH := midi_host (on_bus notes) notes_u8) (EV := no_events _)
    (RQ := no_requests _) 20 1 2 [note 60; note 64; note 67] notes (note 0) (selected_world demo_synth 0) _ _ _).
  - lia.
  - by repeat split.
  - cbn. lia.
Defined.

Lemma MIDI_empty_packet_blocks_witness :
  let q := midi_q ([] :: on_bus notes) in
  exists w', receive_events (HW := data_hw pair_in (fun _ => 8%nat) q) (EV := no_events _) (RQ := no_requests _)
      20 100 (note 0) (selected_world demo_synth 0) = Ret [] w' /\
    ep_state pair_in q 2 (tr w') = ep_state pair_in q 2 [Wr UENUM 0].
Proof.
  assert (Forall (Forall is_u8) ([] :: on_bus notes)) as Hu by (constructor; [constructor|exact notes_u8]).
  refine (MIDI_empty_packet_blocks (DH := midi_host ([] :: on_bus notes) Hu) (EV := no_events _)
    (RQ := no_requests _) 20 1 2 100 (on_bus notes) (note 0) (selected_world demo_synth 0) _ _ _).
  - by repeat split.
  - lia.
  - done.
Defined.
