(* ===== verification/RNDISDevice.v ===== *)
(** The RNDIS (Ethernet over USB) device class driver:
    LUFA/Drivers/USB/Class/Device/RNDISClassDevice.[ch].

    The driver keeps the message of the host and the response in one buffer, which it
    accesses as structures of little-endian 32-bit fields; [get32] and [set32] access
    a field by its offset and fail outside the buffer. *)

From stdpp Require Import base tactics option list numbers.
From Stdlib Require Import ZArith Lia.
From S2P Require Import Prelude Memory Hardware Endpoint USBController ControlStream DeviceStandardReq.
From S2P Require Import EndpointStream ClassDriver.

(** RNDISClassCommon.h *)
Definition RNDIS_ERROR_LOGICAL_CMD_FAILED : Z := 0x80.
Definition REMOTE_NDIS_VERSION_MAJOR : Z := 0x01.
Definition REMOTE_NDIS_VERSION_MINOR : Z := 0x00.
Definition REMOTE_NDIS_PACKET_MSG : Z := 0x00000001.
Definition REMOTE_NDIS_INITIALIZE_MSG : Z := 0x00000002.
Definition REMOTE_NDIS_HALT_MSG : Z := 0x00000003.
Definition REMOTE_NDIS_QUERY_MSG : Z := 0x00000004.
Definition REMOTE_NDIS_SET_MSG : Z := 0x00000005.
Definition REMOTE_NDIS_RESET_MSG : Z := 0x00000006.
Definition REMOTE_NDIS_KEEPALIVE_MSG : Z := 0x00000008.
Definition REMOTE_NDIS_INITIALIZE_CMPLT : Z := 0x80000002.
Definition REMOTE_NDIS_QUERY_CMPLT : Z := 0x80000004.
Definition REMOTE_NDIS_SET_CMPLT : Z := 0x80000005.
Definition REMOTE_NDIS_RESET_CMPLT : Z := 0x80000006.
Definition REMOTE_NDIS_KEEPALIVE_CMPLT : Z := 0x80000008.
Definition REMOTE_NDIS_STATUS_SUCCESS : Z := 0x00000000.
Definition REMOTE_NDIS_STATUS_NOT_SUPPORTED : Z := 0xC00000BB.
Definition REMOTE_NDIS_MEDIA_STATE_CONNECTED : Z := 0x00000000.
Definition REMOTE_NDIS_MEDIUM_802_3 : Z := 0x00000000.
Definition REMOTE_NDIS_DF_CONNECTIONLESS : Z := 0x00000001.
Definition NDIS_HardwareStatus_Ready : Z := 0.
Definition ETHERNET_FRAME_SIZE_MAX : Z := 1500.
Definition RNDIS_REQ_SendEncapsulatedCommand : Z := 0x00.
Definition RNDIS_REQ_GetEncapsulatedResponse : Z := 0x01.
Definition RNDIS_NOTIF_ResponseAvailable : Z := 0x01.

Definition OID_GEN_SUPPORTED_LIST : Z := 0x00010101.
Definition OID_GEN_HARDWARE_STATUS : Z := 0x00010102.
Definition OID_GEN_MEDIA_SUPPORTED : Z := 0x00010103.
Definition OID_GEN_MEDIA_IN_USE : Z := 0x00010104.
Definition OID_GEN_MAXIMUM_FRAME_SIZE : Z := 0x00010106.
Definition OID_GEN_LINK_SPEED : Z := 0x00010107.
Definition OID_GEN_TRANSMIT_BLOCK_SIZE : Z := 0x0001010A.
Definition OID_GEN_RECEIVE_BLOCK_SIZE : Z := 0x0001010B.
Definition OID_GEN_VENDOR_ID : Z := 0x0001010C.
Definition OID_GEN_VENDOR_DESCRIPTION : Z := 0x0001010D.
Definition OID_GEN_CURRENT_PACKET_FILTER : Z := 0x0001010E.
Definition OID_GEN_MAXIMUM_TOTAL_SIZE : Z := 0x00010111.
Definition OID_GEN_MEDIA_CONNECT_STATUS : Z := 0x00010114.
Definition OID_GEN_PHYSICAL_MEDIUM : Z := 0x00010202.
Definition OID_GEN_XMIT_OK : Z := 0x00020101.
Definition OID_GEN_RCV_OK : Z := 0x00020102.
Definition OID_GEN_XMIT_ERROR : Z := 0x00020103.
Definition OID_GEN_RCV_ERROR : Z := 0x00020104.
Definition OID_GEN_RCV_NO_BUFFER : Z := 0x00020105.
Definition OID_802_3_PERMANENT_ADDRESS : Z := 0x01010101.
Definition OID_802_3_CURRENT_ADDRESS : Z := 0x01010102.
Definition OID_802_3_MULTICAST_LIST : Z := 0x01010103.
Definition OID_802_3_MAXIMUM_LIST_SIZE : Z := 0x01010104.
Definition OID_802_3_RCV_ERROR_ALIGNMENT : Z := 0x01020101.
Definition OID_802_3_XMIT_ONE_COLLISION : Z := 0x01020102.
Definition OID_802_3_XMIT_MORE_COLLISIONS : Z := 0x01020103.

Definition AdapterSupportedOIDList : list Z :=
  [OID_GEN_SUPPORTED_LIST; OID_GEN_PHYSICAL_MEDIUM; OID_GEN_HARDWARE_STATUS; OID_GEN_MEDIA_SUPPORTED;
   OID_GEN_MEDIA_IN_USE; OID_GEN_MAXIMUM_FRAME_SIZE; OID_GEN_MAXIMUM_TOTAL_SIZE; OID_GEN_LINK_SPEED;
   OID_GEN_TRANSMIT_BLOCK_SIZE; OID_GEN_RECEIVE_BLOCK_SIZE; OID_GEN_VENDOR_ID; OID_GEN_VENDOR_DESCRIPTION;
   OID_GEN_CURRENT_PACKET_FILTER; OID_GEN_MAXIMUM_TOTAL_SIZE; OID_GEN_MEDIA_CONNECT_STATUS; OID_GEN_XMIT_OK;
   OID_GEN_RCV_OK; OID_GEN_XMIT_ERROR; OID_GEN_RCV_ERROR; OID_GEN_RCV_NO_BUFFER;
   OID_802_3_PERMANENT_ADDRESS; OID_802_3_CURRENT_ADDRESS; OID_802_3_MULTICAST_LIST;
   OID_802_3_MAXIMUM_LIST_SIZE; OID_802_3_RCV_ERROR_ALIGNMENT; OID_802_3_XMIT_ONE_COLLISION;
   OID_802_3_XMIT_MORE_COLLISIONS].

(** The sizes of the structures. *)
Definition sizeof_AdapterSupportedOIDList : Z := 4 * Z.of_nat (length AdapterSupportedOIDList).
Definition sizeof_Message_Header : Z := 8.
Definition sizeof_Packet_Message : Z := 44.
Definition sizeof_Initialize_Complete : Z := 52.
Definition sizeof_Query_Complete : Z := 24.
Definition sizeof_Set_Complete : Z := 16.
Definition sizeof_Reset_Complete : Z := 16.
Definition sizeof_KeepAlive_Complete : Z := 16.
Definition RNDIS_DEVICE_MIN_MESSAGE_BUFFER_LENGTH : Z := sizeof_AdapterSupportedOIDList + sizeof_Query_Complete.

(** ** The interface structure *)

Inductive RNDIS_States_t : Set := RNDIS_Uninitialized | RNDIS_Initialized | RNDIS_Data_Initialized.

#[export] Instance RNDIS_States_eq_dec : EqDecision RNDIS_States_t.
Proof. solve_decision. Defined.

(** [MessageBuffer] is the buffer the pointer leads to, [None] for NULL. *)
Record RNDIS_Config : Set := mkRNDISConfig {
  ControlInterfaceNumber : Z;
  DataINEndpoint : USB_Endpoint_Table_t;
  DataOUTEndpoint : USB_Endpoint_Table_t;
  NotificationEndpoint : USB_Endpoint_Table_t;
  AdapterVendorDescription : list Z;
  AdapterMACAddress : list Z;
  MessageBuffer : option (list Z);
  MessageBufferLength : Z
}.
Record RNDIS_State : Set := mkRNDISState {
  ResponseReady : bool;
  CurrRNDISState : RNDIS_States_t;
  CurrPacketFilter : Z
}.
Record USB_ClassInfo_RNDIS_Device_t : Set := mkRNDISInfo {
  Config : RNDIS_Config;
  State : RNDIS_State
}.

Abbreviation RNDISInfo := USB_ClassInfo_RNDIS_Device_t.

Definition set_State (f : RNDIS_State -> RNDIS_State) (i : RNDISInfo) : RNDISInfo :=
  mkRNDISInfo (Config i) (f (State i)).
Definition set_ResponseReady (b : bool) : RNDISInfo -> RNDISInfo :=
  set_State (fun s => mkRNDISState b (CurrRNDISState s) (CurrPacketFilter s)).
Definition set_CurrRNDISState (c : RNDIS_States_t) : RNDISInfo -> RNDISInfo :=
  set_State (fun s => mkRNDISState (ResponseReady s) c (CurrPacketFilter s)).
Definition set_CurrPacketFilter (f : Z) : RNDISInfo -> RNDISInfo :=
  set_State (fun s => mkRNDISState (ResponseReady s) (CurrRNDISState s) f).
Definition set_MessageBuffer (b : list Z) (i : RNDISInfo) : RNDISInfo :=
  let c := Config i in
  mkRNDISInfo (mkRNDISConfig (ControlInterfaceNumber c) (DataINEndpoint c) (DataOUTEndpoint c)
    (NotificationEndpoint c) (AdapterVendorDescription c) (AdapterMACAddress c) (Some b)
    (MessageBufferLength c)) (State i).
Definition set_EndpointTypes (i : RNDISInfo) : RNDISInfo :=
  let c := Config i in
  mkRNDISInfo (mkRNDISConfig (ControlInterfaceNumber c) (with_Type EP_TYPE_BULK (DataINEndpoint c))
    (with_Type EP_TYPE_BULK (DataOUTEndpoint c)) (with_Type EP_TYPE_INTERRUPT (NotificationEndpoint c))
    (AdapterVendorDescription c) (AdapterMACAddress c) (MessageBuffer c) (MessageBufferLength c)) (State i).

(** ** Fields of the message buffer *)

(** The offsets of the fields the messages share. *)
Definition off_MessageType : Z := 0.
Definition off_MessageLength : Z := 4.
Definition off_RequestId : Z := 8.

(** ** NDIS queries and settings *)

(** [RNDIS_Device_ProcessNDISQuery]: the size of the response, [None] for [false],
    and the buffer with the response at [ResponseData]. *)
Definition RNDIS_Device_ProcessNDISQuery (i : RNDISInfo) (OId : Z) (b : list Z) (ResponseData : Z)
    : option (option Z * list Z) :=
  let answer32 v := b ← set32 b ResponseData v; Some (Some 4, b) in
  if OId =? OID_GEN_SUPPORTED_LIST then
    b ← put_at b ResponseData (concat (map le32 AdapterSupportedOIDList));
    Some (Some sizeof_AdapterSupportedOIDList, b)
  else if OId =? OID_GEN_PHYSICAL_MEDIUM then answer32 0
  else if OId =? OID_GEN_HARDWARE_STATUS then answer32 NDIS_HardwareStatus_Ready
  else if (OId =? OID_GEN_MEDIA_SUPPORTED) || (OId =? OID_GEN_MEDIA_IN_USE) then answer32 REMOTE_NDIS_MEDIUM_802_3
  else if OId =? OID_GEN_VENDOR_ID then answer32 0x00FFFFFF
  else if (OId =? OID_GEN_MAXIMUM_FRAME_SIZE) || (OId =? OID_GEN_TRANSMIT_BLOCK_SIZE) ||
          (OId =? OID_GEN_RECEIVE_BLOCK_SIZE) then answer32 ETHERNET_FRAME_SIZE_MAX
  else if OId =? OID_GEN_VENDOR_DESCRIPTION then
    n ← strlen (AdapterVendorDescription (Config i));
    let ResponseSize := u16 (n + 1) in
    b ← put_at b ResponseData (take (Z.to_nat ResponseSize) (AdapterVendorDescription (Config i)));
    Some (Some ResponseSize, b)
  else if OId =? OID_GEN_MEDIA_CONNECT_STATUS then answer32 REMOTE_NDIS_MEDIA_STATE_CONNECTED
  else if OId =? OID_GEN_LINK_SPEED then answer32 100000
  else if (OId =? OID_802_3_PERMANENT_ADDRESS) || (OId =? OID_802_3_CURRENT_ADDRESS) then
    b ← put_at b ResponseData (AdapterMACAddress (Config i)); Some (Some 6, b)
  else if OId =? OID_802_3_MAXIMUM_LIST_SIZE then answer32 1
  else if OId =? OID_GEN_CURRENT_PACKET_FILTER then answer32 (CurrPacketFilter (State i))
  else if (OId =? OID_GEN_XMIT_OK) || (OId =? OID_GEN_RCV_OK) || (OId =? OID_GEN_XMIT_ERROR) ||
          (OId =? OID_GEN_RCV_ERROR) || (OId =? OID_GEN_RCV_NO_BUFFER) || (OId =? OID_802_3_RCV_ERROR_ALIGNMENT) ||
          (OId =? OID_802_3_XMIT_ONE_COLLISION) || (OId =? OID_802_3_XMIT_MORE_COLLISIONS) then answer32 0
  else if OId =? OID_GEN_MAXIMUM_TOTAL_SIZE then
    answer32 (u16 (MessageBufferLength (Config i) + ETHERNET_FRAME_SIZE_MAX))
  else Some (None, b).

(** [RNDIS_Device_ProcessNDISSet]; [SetData] is an offset of the buffer. *)
Definition RNDIS_Device_ProcessNDISSet (i : RNDISInfo) (OId : Z) (b : list Z) (SetData : Z)
    : option (bool * RNDISInfo) :=
  if OId =? OID_GEN_CURRENT_PACKET_FILTER then
    f ← get32 b SetData;
    let i := set_CurrPacketFilter f i in
    Some (true, set_CurrRNDISState (if CurrPacketFilter (State i) =? 0 then RNDIS_Initialized
                                    else RNDIS_Data_Initialized) i)
  else if OId =? OID_802_3_MULTICAST_LIST then Some (true, i)
  else Some (false, i).

(** ** Control messages *)

Definition process_INITIALIZE (i : RNDISInfo) (b : list Z) : option RNDISInfo :=
  let i := set_ResponseReady true i in
  b ← set32 b off_MessageType REMOTE_NDIS_INITIALIZE_CMPLT;
  b ← set32 b off_MessageLength sizeof_Initialize_Complete;
  RequestId ← get32 b off_RequestId;
  b ← set32 b off_RequestId RequestId;
  b ← set32 b 12 REMOTE_NDIS_STATUS_SUCCESS;
  b ← set32 b 16 REMOTE_NDIS_VERSION_MAJOR;
  b ← set32 b 20 REMOTE_NDIS_VERSION_MINOR;
  b ← set32 b 24 REMOTE_NDIS_DF_CONNECTIONLESS;
  b ← set32 b 28 REMOTE_NDIS_MEDIUM_802_3;
  b ← set32 b 32 1;
  b ← set32 b 36 (sizeof_Packet_Message + ETHERNET_FRAME_SIZE_MAX);
  b ← set32 b 40 0;
  b ← set32 b 44 0;
  b ← set32 b 48 0;
  Some (set_CurrRNDISState RNDIS_Initialized (set_MessageBuffer b i)).

Definition process_HALT (i : RNDISInfo) (b : list Z) : option RNDISInfo :=
  let i := set_ResponseReady false i in
  b ← set32 b off_MessageLength 0;
  Some (set_CurrRNDISState RNDIS_Uninitialized (set_MessageBuffer b i)).

Definition process_QUERY (i : RNDISInfo) (b : list Z) : option RNDISInfo :=
  let i := set_ResponseReady true i in
  Query_Oid ← get32 b 12;
  _ ← get32 b 20;
  b ← set32 b off_MessageType REMOTE_NDIS_QUERY_CMPLT;
  _ ← get32 b 16;
  r ← RNDIS_Device_ProcessNDISQuery i Query_Oid b sizeof_Query_Complete;
  let '(r, b) := r in
  match r with
  | Some ResponseSize =>
      b ← set32 b 12 REMOTE_NDIS_STATUS_SUCCESS;
      b ← set32 b off_MessageLength (u16 (sizeof_Query_Complete + ResponseSize));
      b ← set32 b 16 ResponseSize;
      b ← set32 b 20 (sizeof_Query_Complete - sizeof_Message_Header);
      Some (set_MessageBuffer b i)
  | None =>
      b ← set32 b 12 REMOTE_NDIS_STATUS_NOT_SUPPORTED;
      b ← set32 b off_MessageLength sizeof_Query_Complete;
      b ← set32 b 16 0;
      b ← set32 b 20 0;
      Some (set_MessageBuffer b i)
  end.

Definition process_SET (i : RNDISInfo) (b : list Z) : option RNDISInfo :=
  let i := set_ResponseReady true i in
  SET_Oid ← get32 b 12;
  b ← set32 b off_MessageType REMOTE_NDIS_SET_CMPLT;
  b ← set32 b off_MessageLength sizeof_Set_Complete;
  RequestId ← get32 b off_RequestId;
  b ← set32 b off_RequestId RequestId;
  InformationBufferOffset ← get32 b 20;
  r ← RNDIS_Device_ProcessNDISSet i SET_Oid b (u32 (sizeof_Message_Header + InformationBufferOffset));
  let '(ok, i) := r in
  b ← set32 b 12 (if ok : bool then REMOTE_NDIS_STATUS_SUCCESS else REMOTE_NDIS_STATUS_NOT_SUPPORTED);
  Some (set_MessageBuffer b i).

Definition process_RESET (i : RNDISInfo) (b : list Z) : option RNDISInfo :=
  let i := set_ResponseReady true i in
  b ← set32 b off_MessageType REMOTE_NDIS_RESET_CMPLT;
  b ← set32 b off_MessageLength sizeof_Reset_Complete;
  b ← set32 b 8 REMOTE_NDIS_STATUS_SUCCESS;
  b ← set32 b 12 0;
  Some (set_MessageBuffer b i).

Definition process_KEEPALIVE (i : RNDISInfo) (b : list Z) : option RNDISInfo :=
  let i := set_ResponseReady true i in
  b ← set32 b off_MessageType REMOTE_NDIS_KEEPALIVE_CMPLT;
  b ← set32 b off_MessageLength sizeof_KeepAlive_Complete;
  RequestId ← get32 b off_RequestId;
  b ← set32 b off_RequestId RequestId;
  b ← set32 b 12 REMOTE_NDIS_STATUS_SUCCESS;
  Some (set_MessageBuffer b i).

(** [None] is an access outside the buffer. *)
Definition RNDIS_Device_ProcessRNDISControlMessage (i : RNDISInfo) : option RNDISInfo :=
  b ← MessageBuffer (Config i);
  MessageType ← get32 b off_MessageType;
  if MessageType =? REMOTE_NDIS_INITIALIZE_MSG then process_INITIALIZE i b
  else if MessageType =? REMOTE_NDIS_HALT_MSG then process_HALT i b
  else if MessageType =? REMOTE_NDIS_QUERY_MSG then process_QUERY i b
  else if MessageType =? REMOTE_NDIS_SET_MSG then process_SET i b
  else if MessageType =? REMOTE_NDIS_RESET_MSG then process_RESET i b
  else if MessageType =? REMOTE_NDIS_KEEPALIVE_MSG then process_KEEPALIVE i b
  else Some i.

(** [RNDIS_Packet_Message_t] with the fields the driver does not use at 0. *)
Definition enc_packet_header (MessageType MessageLength DataOffset DataLength : Z) : list Z :=
  concat (map le32 [MessageType; MessageLength; DataOffset; DataLength; 0; 0; 0; 0; 0; 0; 0]).

Section RNDISDevice.
Context {HW : Hardware} {App : Type} {EV : DeviceEvents App} {RQ : DeviceRequests App}.
Context {OB : Object App RNDISInfo}.
Context (fuel : nat).
(** The contents of a variable on the stack. *)
Context (uninit : Z -> Z).
Abbreviation P := (prog (World App)).

(** An operation on the structure that may leave an object. *)
Definition modify_checked (f : RNDISInfo -> option RNDISInfo) : P unit :=
  i ← the; i' ← checked (f i); assign (fun _ => i').

Definition RNDIS_SendEncapsulatedCommand : P unit :=
  Endpoint_ClearSETUP;;
  i ← the;
  b ← checked (MessageBuffer (Config i));
  req ← gets USB_ControlRequest;
  r ← Endpoint_Read_Control_Stream_LE fuel b (wLength req);
  let '(b, _) := r in
  assign (set_MessageBuffer b);;
  Endpoint_ClearIN;;
  modify_checked RNDIS_Device_ProcessRNDISControlMessage.

(** A response of length 0 is replaced by one byte. *)
Definition default_response (i : RNDISInfo) : option RNDISInfo :=
  b ← MessageBuffer (Config i);
  n ← get32 b off_MessageLength;
  if n =? 0 then
    b ← buf_set b 0 0;
    b ← set32 b off_MessageLength 1;
    Some (set_MessageBuffer b i)
  else Some i.

Definition clear_response (i : RNDISInfo) : option RNDISInfo :=
  b ← MessageBuffer (Config i);
  b ← set32 b off_MessageLength 0;
  Some (set_MessageBuffer b i).

Definition RNDIS_GetEncapsulatedResponse : P unit :=
  modify_checked default_response;;
  Endpoint_ClearSETUP;;
  i ← the;
  b ← checked (MessageBuffer (Config i));
  n ← checked (get32 b off_MessageLength);
  Endpoint_Write_Control_Stream_LE fuel b (u16 n);;
  Endpoint_ClearOUT;;
  modify_checked clear_response.

Definition RNDIS_Device_ProcessControlRequest : P unit :=
  s ← Endpoint_IsSETUPReceived;
  if negb s then mret tt
  else
    req ← gets USB_ControlRequest;
    i ← the;
    if negb (wIndex req =? ControlInterfaceNumber (Config i)) then mret tt
    else
      let r := bRequest req in
      if r =? RNDIS_REQ_SendEncapsulatedCommand
      then when (bmRequestType req =? CLASS_OUT) RNDIS_SendEncapsulatedCommand
      else if r =? RNDIS_REQ_GetEncapsulatedResponse
      then when (bmRequestType req =? CLASS_IN) RNDIS_GetEncapsulatedResponse
      else mret tt.

Definition RNDIS_Device_ConfigureEndpoints : P bool :=
  assign (set_State (fun _ => mkRNDISState false RNDIS_Uninitialized 0));;
  assign set_EndpointTypes;;
  i ← the;
  if bool_decide (MessageBuffer (Config i) = None) then mret false
  else if MessageBufferLength (Config i) <? RNDIS_DEVICE_MIN_MESSAGE_BUFFER_LENGTH then mret false
  else
    ok ← Endpoint_ConfigureEndpointTable fuel [DataINEndpoint (Config i)];
    if negb ok then mret false
    else
      ok ← Endpoint_ConfigureEndpointTable fuel [DataOUTEndpoint (Config i)];
      if negb ok then mret false
      else
        ok ← Endpoint_ConfigureEndpointTable fuel [NotificationEndpoint (Config i)];
        if negb ok then mret false else mret true.

Definition RNDIS_select (f : RNDIS_Config -> USB_Endpoint_Table_t) : P unit :=
  i ← the; Endpoint_SelectEndpoint (Address (f (Config i))).

Definition RNDIS_Device_USBTask : P unit :=
  st ← poll_DeviceState fuel;
  if negb (st =? DEVICE_STATE_Configured) then mret tt
  else
    RNDIS_select NotificationEndpoint;;
    r ← Endpoint_IsINReady;
    i ← the;
    when (r && ResponseReady (State i))
      (Endpoint_Write_Stream_LE fuel
         (enc_request (mkRequest CLASS_IN RNDIS_NOTIF_ResponseAvailable 0 0 0)) 8 None;;
       Endpoint_ClearIN;;
       assign (set_ResponseReady false)).

(** The negation of the guard of the data functions. *)
Definition RNDIS_online : P bool :=
  st ← poll_DeviceState fuel;
  if negb (st =? DEVICE_STATE_Configured) then mret false
  else i ← the; mret (bool_decide (CurrRNDISState (State i) = RNDIS_Data_Initialized)).

Definition RNDIS_Device_IsPacketReceived : P bool :=
  on ← RNDIS_online;
  if negb on then mret false
  else RNDIS_select DataOUTEndpoint;; Endpoint_IsOUTReceived.

(** The error code, [*PacketLength] and the contents of [Buffer]. *)
Definition RNDIS_Device_ReadPacket (Buffer : list Z) (PacketLength : Z) : P (Z * Z * list Z) :=
  on ← RNDIS_online;
  if negb on then mret (ENDPOINT_RWSTREAM_DeviceDisconnected, PacketLength, Buffer)
  else
    RNDIS_select DataOUTEndpoint;;
    r ← Endpoint_IsOUTReceived;
    if negb r then mret (ENDPOINT_RWSTREAM_NoError, 0, Buffer)
    else
      r ← Endpoint_Read_Stream_LE fuel (map uninit (seqZ 0 sizeof_Packet_Message)) sizeof_Packet_Message None;
      let '(RNDISPacketHeader, _, _) := r in
      DataLength ← checked (get32 RNDISPacketHeader 12);
      if ETHERNET_FRAME_SIZE_MAX <? DataLength then
        Endpoint_StallTransaction;;
        mret (RNDIS_ERROR_LOGICAL_CMD_FAILED, 0, Buffer)
      else
        let PacketLength := u16 DataLength in
        r ← Endpoint_Read_Stream_LE fuel Buffer PacketLength None;
        let '(Buffer, _, _) := r in
        Endpoint_ClearOUT;;
        mret (ENDPOINT_RWSTREAM_NoError, PacketLength, Buffer).

Definition RNDIS_Device_SendPacket (Buffer : list Z) (PacketLength : Z) : P Z :=
  on ← RNDIS_online;
  if negb on then mret ENDPOINT_RWSTREAM_DeviceDisconnected
  else
    RNDIS_select DataINEndpoint;;
    ErrorCode ← Endpoint_WaitUntilReady fuel;
    if negb (ErrorCode =? ENDPOINT_READYWAIT_NoError) then mret ErrorCode
    else
      let RNDISPacketHeader := enc_packet_header REMOTE_NDIS_PACKET_MSG (u16 (sizeof_Packet_Message + PacketLength))
                                 (sizeof_Packet_Message - sizeof_Message_Header) PacketLength in
      Endpoint_Write_Stream_LE fuel RNDISPacketHeader sizeof_Packet_Message None;;
      Endpoint_Write_Stream_LE fuel Buffer PacketLength None;;
      Endpoint_ClearIN;;
      mret ENDPOINT_RWSTREAM_NoError.
End RNDISDevice.
