(* ===== verification/RNDISSpec.v ===== *)
(** Correctness of the RNDIS driver (RNDISDevice.v). *)

From stdpp Require Import base tactics option list numbers fin_maps functions.
From Stdlib Require Import ZArith Lia.
From S2P Require Import Prelude Memory Hardware Endpoint USBController ControlStream DeviceStandardReq.
From S2P Require Import EndpointStream ControlTransfer ControlReceive ControlRequest DataEndpoint.
From S2P Require Import DataStream ClassDriver RNDISDevice.

(** ** Fields of the message buffer *)

(** Runs a store of a field, keeping what is known of the others. *)
Ltac set_field :=
  match goal with
  | |- context [set32 ?b ?o ?v] =>
      let b' := fresh "b" in let E := fresh "E" in let L := fresh "L" in
      let G := fresh "G" in let K := fresh "K" in let U := fresh "U" in
      destruct (set32_spec b o v) as (b' & E & L & G & K & U);
      [cbv [off_MessageType off_MessageLength off_RequestId]; lia
      |cbv [off_MessageType off_MessageLength off_RequestId]; rewrite ?L in *; lia
      |(done || assumption || (unfold is_u32; cbn; lia))
      |rewrite E; cbn [mbind option_bind]]
  end.

(** A field of the buffer after some stores. *)
Ltac field :=
  repeat match goal with
  | H : get32 ?b ?o = ?v |- get32 ?b ?o = ?w => exact H
  | K : forall p, 0 <= p -> _ -> get32 ?b p = get32 _ p |- get32 ?b ?o = _ =>
      rewrite K by (cbv [off_MessageType off_MessageLength off_RequestId]; lia)
  end.

(** ** Control messages *)

(** The interface is configured as the driver asks for, with the buffer [b]. *)
Definition rndis_ok (i : RNDISInfo) (b : list Z) : Prop :=
  MessageBuffer (Config i) = Some b /\ Forall is_u8 b /\
  RNDIS_DEVICE_MIN_MESSAGE_BUFFER_LENGTH <= Z.of_nat (length b) < 65536 /\
  is_u32 (CurrPacketFilter (State i)) /\
  length (AdapterMACAddress (Config i)) = 6%nat /\ Forall is_u8 (AdapterMACAddress (Config i)) /\
  Forall is_u8 (AdapterVendorDescription (Config i)).

(** The vendor description is a string that fits into the buffer as a response.  The
    driver does not check it. *)
Definition description_fits (i : RNDISInfo) (b : list Z) : Prop :=
  exists n, strlen (AdapterVendorDescription (Config i)) = Some n /\
    sizeof_Query_Complete + n + 1 <= Z.of_nat (length b).

(** The answer to a query fits into the buffer behind the header, which it keeps. *)
Definition answered (b : list Z) (r : option (option Z * list Z)) : Prop :=
  exists a b', r = Some (a, b') /\ length b' = length b /\ Forall is_u8 b' /\
    (forall p, 0 <= p -> p + 4 <= sizeof_Query_Complete -> get32 b' p = get32 b p) /\
    (forall n, a = Some n -> 0 <= n /\ sizeof_Query_Complete + n <= Z.of_nat (length b)).

Lemma put_at_answered b bs n : Forall is_u8 b -> Forall is_u8 bs -> n = Z.of_nat (length bs) ->
  sizeof_Query_Complete + n <= Z.of_nat (length b) ->
  answered b (b ← put_at b sizeof_Query_Complete bs; Some (Some n, b)).
Proof.
  intros Hb Hbs -> Hl. destruct (put_at_spec b sizeof_Query_Complete bs) as (b' & -> & Hlen & Hold & _ & Hu);
    [done|done|]. unfold answered, sizeof_Query_Complete in *. exists (Some (Z.of_nat (length bs))), b'.
  split_and!; [done|done|by apply Hu| |].
  - intros p Hp Hp4. rewrite !get32_lookup by done. rewrite !Hold by lia. done.
  - intros n [= <-]. lia.
Qed.

Lemma query_answered i b OId : rndis_ok i b -> (OId = OID_GEN_VENDOR_DESCRIPTION -> description_fits i b) ->
  answered b (RNDIS_Device_ProcessNDISQuery i OId b sizeof_Query_Complete).
Proof.
  intros (Hb & Hu & Hl & Hf & Hm & Hmu & Hd) Hfit.
  change RNDIS_DEVICE_MIN_MESSAGE_BUFFER_LENGTH with 132 in Hl.
  assert (forall v, answered b (b ← set32 b sizeof_Query_Complete v; Some (Some 4, b))) as H32.
  { intros v. apply put_at_answered; [done| |done|unfold sizeof_Query_Complete; lia].
    repeat constructor; apply u8_range. }
  unfold RNDIS_Device_ProcessNDISQuery.
  repeat (case_match; [apply H32 || idtac|]).
  - apply put_at_answered; [done| |done|change sizeof_AdapterSupportedOIDList with 108; unfold sizeof_Query_Complete; lia].
    apply Forall_concat, Forall_fmap, Forall_forall. intros x _. repeat constructor; apply u8_range.
  - bool_hyps. destruct (Hfit ltac:(done)) as (n & Hn & Hnl). pose proof (strlen_bounds _ _ Hn).
    rewrite Hn. cbn [mbind option_bind]. unfold sizeof_Query_Complete in *.
    rewrite u16_small by (unfold is_u16; lia). apply put_at_answered; [done|by apply Forall_take| |unfold sizeof_Query_Complete; lia].
    rewrite length_take. lia.
  - apply put_at_answered; [done|done|by rewrite Hm|unfold sizeof_Query_Complete; lia].
  - exists None, b. split_and!; done.
Qed.

(** The identifiers a branch of the query handles. *)
Ltac oid_cases :=
  repeat match goal with H : (_ || _) = true |- _ => apply orb_true_iff in H as [H|H] end;
  match goal with H : (?x =? _) = true |- _ => apply Z.eqb_eq in H; subst x end.

(** The adapter answers exactly the NDIS queries it lists as supported, apart from
    the multicast list, which can only be set: for every object identifier, the
    query succeeds if and only if the identifier is in [AdapterSupportedOIDList] and
    is not that one, and then the response, which starts behind the header, stays
    inside a message buffer of the size the driver checks for, if the vendor description
    does. *)
Theorem RNDIS_query_supported i b OId : rndis_ok i b -> description_fits i b ->
  exists a b', RNDIS_Device_ProcessNDISQuery i OId b sizeof_Query_Complete = Some (a, b') /\
    length b' = length b /\
    (is_Some a <-> OId ∈ AdapterSupportedOIDList /\ OId <> OID_802_3_MULTICAST_LIST) /\
    (forall n, a = Some n -> 0 <= n /\ sizeof_Query_Complete + n <= Z.of_nat (length b)).
Proof.
  intros Hok Hfit. destruct (query_answered i b OId Hok ltac:(done)) as (a & b' & Hr & Hl & _ & _ & Hn).
  exists a, b'. split; [done|]. split; [done|]. split; [|done].
  split.
  - intros [n ->]. clear Hn Hl Hok. revert Hr. unfold RNDIS_Device_ProcessNDISQuery.
    repeat (case_match; [intros _; oid_cases; (split; [refine (bool_decide_unpack _ _); vm_compute; exact I|done])|]).
    done.
  - intros [Hin Hne]. destruct a as [n|]; [done|]. exfalso. clear Hn Hl Hok. unfold AdapterSupportedOIDList in Hin.
    rewrite !elem_of_cons in Hin. destruct_or! Hin; (by apply elem_of_nil in Hin) || subst OId; try done.
    all: cbn -[set32 put_at strlen] in Hr; by simplify_option_eq.
Qed.

(** *** The adapter the host sees

    Its state and packet filter, and what a message with the identifier [oid] and
    the setting [v] does to it. *)

Definition adapter : Type := RNDIS_States_t * Z.
Definition adapter_of (i : RNDISInfo) : adapter := (CurrRNDISState (State i), CurrPacketFilter (State i)).

Definition adapter_step (ty oid v : Z) (a : adapter) : adapter :=
  if ty =? REMOTE_NDIS_INITIALIZE_MSG then (RNDIS_Initialized, a.2)
  else if ty =? REMOTE_NDIS_HALT_MSG then (RNDIS_Uninitialized, a.2)
  else if (ty =? REMOTE_NDIS_SET_MSG) && (oid =? OID_GEN_CURRENT_PACKET_FILTER)
  then (if v =? 0 then RNDIS_Initialized else RNDIS_Data_Initialized, v)
  else a.

(** The messages that get a response, and its type. *)
Definition completes (ty : Z) : bool :=
  (ty =? REMOTE_NDIS_INITIALIZE_MSG) || (ty =? REMOTE_NDIS_QUERY_MSG) || (ty =? REMOTE_NDIS_SET_MSG) ||
  (ty =? REMOTE_NDIS_RESET_MSG) || (ty =? REMOTE_NDIS_KEEPALIVE_MSG).

(** The response [i'] to a message of type [ty] with the request [id]: complete,
    inside the buffer, for that request, with the adapter in state [a].  The completion
    of a RESET has no request identifier; it has the status in its place. *)
Definition responds (i : RNDISInfo) (b : list Z) (ty id : Z) (a : adapter) (i' : RNDISInfo) : Prop :=
  exists b' n, MessageBuffer (Config i') = Some b' /\ length b' = length b /\ Forall is_u8 b' /\
    i' = mkRNDISInfo (Config (set_MessageBuffer b' i)) (mkRNDISState true a.1 a.2) /\
    get32 b' off_MessageType = Some (ty + 0x80000000) /\
    get32 b' off_MessageLength = Some n /\ 16 <= n <= Z.of_nat (length b) /\
    get32 b' off_RequestId = Some (if ty =? REMOTE_NDIS_RESET_MSG then REMOTE_NDIS_STATUS_SUCCESS else id).

(** Closes [responds] after the stores, for a response of length [n]. *)
Ltac respond n :=
  eexists; split; [reflexivity|]; eexists _, n;
  split_and!; [reflexivity|congruence|by auto 20|reflexivity|field|field|lia|lia|field].

Section Messages.
Context (i : RNDISInfo) (b : list Z) (id : Z).
Hypothesis Hok : rndis_ok i b.
Hypothesis Hid : get32 b off_RequestId = Some id.

Lemma buffer_bounds : Forall is_u8 b /\ 132 <= Z.of_nat (length b) < 65536 /\ is_u32 id.
Proof.
  destruct Hok as (_ & Hu & Hl & _). split; [done|]. split; [done|].
  change RNDIS_DEVICE_MIN_MESSAGE_BUFFER_LENGTH with 132 in Hl.
  destruct (get32_some b off_RequestId) as (v & Hv & Hr); [done|unfold off_RequestId; lia|done|]. congruence.
Qed.

Lemma INITIALIZE_responds : exists i', process_INITIALIZE i b = Some i' /\
  responds i b REMOTE_NDIS_INITIALIZE_MSG id (adapter_step REMOTE_NDIS_INITIALIZE_MSG 0 0 (adapter_of i)) i'.
Proof.
  destruct buffer_bounds as (Hu & Hl & Hid32). unfold process_INITIALIZE. set_field. set_field.
  rewrite (K0 off_RequestId), (K off_RequestId), Hid by (cbv [off_MessageLength off_MessageType off_RequestId]; lia).
  cbn [mbind option_bind]. do 11 set_field.
  respond 52.
Qed.

Lemma KEEPALIVE_responds : exists i', process_KEEPALIVE i b = Some i' /\
  responds i b REMOTE_NDIS_KEEPALIVE_MSG id (adapter_of i) i'.
Proof.
  destruct buffer_bounds as (Hu & Hl & Hid32). unfold process_KEEPALIVE. set_field. set_field.
  rewrite (K0 off_RequestId), (K off_RequestId), Hid by (cbv [off_MessageLength off_MessageType off_RequestId]; lia).
  cbn [mbind option_bind]. do 2 set_field. respond 16.
Qed.

Lemma RESET_responds : exists i', process_RESET i b = Some i' /\
  responds i b REMOTE_NDIS_RESET_MSG id (adapter_of i) i'.
Proof.
  destruct buffer_bounds as (Hu & Hl & Hid32). unfold process_RESET. do 4 set_field.
  eexists. split; [reflexivity|]. eexists _, 16.
  split_and!; [reflexivity|congruence|by auto 20|reflexivity|field|field|lia|lia|field].
Qed.

Lemma SET_responds oid off v : get32 b 12 = Some oid -> get32 b 20 = Some off ->
  (oid = OID_GEN_CURRENT_PACKET_FILTER -> get32 b (sizeof_Message_Header + off) = Some v /\ 8 <= off) ->
  exists i', process_SET i b = Some i' /\
  responds i b REMOTE_NDIS_SET_MSG id (adapter_step REMOTE_NDIS_SET_MSG oid v (adapter_of i)) i'.
Proof.
  intros Hoid Hoff Hv. destruct buffer_bounds as (Hu & Hl & Hid32). unfold process_SET.
  rewrite Hoid. cbn [mbind option_bind]. set_field. set_field.
  rewrite (K0 off_RequestId), (K off_RequestId), Hid by (cbv [off_MessageLength off_MessageType off_RequestId]; lia).
  cbn [mbind option_bind]. set_field.
  replace (get32 b2 20) with (Some off) by (symmetry; field). cbn [mbind option_bind].
  destruct (get32_some b 20) as (off' & Hoff' & Hr); [done|lia|done|]. rewrite Hoff in Hoff'. injection Hoff' as <-.
  unfold RNDIS_Device_ProcessNDISSet. unfold adapter_step. cbn [Z.eqb Pos.eqb REMOTE_NDIS_SET_MSG REMOTE_NDIS_INITIALIZE_MSG REMOTE_NDIS_HALT_MSG andb].
  destruct (oid =? OID_GEN_CURRENT_PACKET_FILTER) eqn:Eo; bool_hyps.
  - destruct (Hv Eo) as [Hget H8]. assert (8 + off + 4 <= Z.of_nat (length b)) as Hin.
    { destruct (decide (8 + off + 4 <= Z.of_nat (length b))); [done|].
      rewrite get32_none in Hget by (unfold sizeof_Message_Header; lia). done. }
    rewrite u32_small by (unfold is_u32, sizeof_Message_Header in *; lia).
    replace (get32 b2 (sizeof_Message_Header + off)) with (Some v)
      by (symmetry; unfold sizeof_Message_Header in *; field).
    cbn [mbind option_bind]. set_field. respond 16.
  - destruct (oid =? OID_802_3_MULTICAST_LIST); cbn [mbind option_bind]; set_field; respond 16.
Qed.

Lemma QUERY_responds oid : get32 b 12 = Some oid -> (oid = OID_GEN_VENDOR_DESCRIPTION -> description_fits i b) ->
  exists i', process_QUERY i b = Some i' /\ responds i b REMOTE_NDIS_QUERY_MSG id (adapter_of i) i'.
Proof.
  intros Hoid Hfit. destruct buffer_bounds as (Hu & Hl & Hid32). unfold process_QUERY. rewrite Hoid.
  cbn [mbind option_bind]. destruct (get32_some b 20) as (x & -> & _); [done|lia|done|].
  cbn [mbind option_bind]. set_field.
  destruct (get32_some b0 16) as (y & -> & _); [done|lia|by apply U|]. cbn [mbind option_bind].
  destruct (query_answered (set_MessageBuffer b0 (set_ResponseReady true i)) b0 oid) as (a & b1 & Hr & L1 & U1 & K1 & Ha).
  { destruct Hok as (_ & _ & Hlen & H). split; [done|]. split; [by apply U|]. rewrite L. done. }
  { intros Ho. destruct (Hfit Ho) as (m & Hm & Hml). exists m. by rewrite L. }
  change (RNDIS_Device_ProcessNDISQuery (set_MessageBuffer b0 (set_ResponseReady true i)) oid b0 sizeof_Query_Complete)
    with (RNDIS_Device_ProcessNDISQuery (set_ResponseReady true i) oid b0 sizeof_Query_Complete) in Hr.
  rewrite Hr. cbn [mbind option_bind]. unfold sizeof_Query_Complete, sizeof_Message_Header in *.
  assert (forall p, 0 <= p -> p + 4 <= p \/ p + 4 <= 24 -> get32 b1 p = get32 b0 p) as K2 by (intros p ? [?|?]; [lia|by apply K1]).
  destruct a as [n|].
  - destruct (Ha n eq_refl) as [Hn0 Hn]. rewrite (u16_small (24 + n)) by (unfold is_u16; lia).
    do 4 set_field. eexists. split; [reflexivity|]. eexists _, (24 + n).
    split_and!; [reflexivity|congruence|by auto 20|reflexivity|field|field|lia|lia|field].
  - do 4 set_field. respond 24.
Qed.
End Messages.

(** C22: The driver implements the adapter of the RNDIS protocol.  For every message in
    a buffer of the size it checks for, with two exceptions it does not check, it stays
    inside the buffer, takes the adapter to the state the protocol prescribes
    (initialised, halted, or transferring data exactly when the packet filter is not 0),
    and answers every INITIALIZE, QUERY, SET, RESET and KEEPALIVE message: the response
    has the type of the completion, the request identifier of the message (for RESET,
    whose completion has none, the status "success" in its place), a length of at most
    the buffer's, and is announced to the host.  HALT has no response and other messages
    change nothing.  The exceptions: for a setting of the packet filter the offset in the
    message must lie inside the buffer, and for a query of the vendor description the
    description must fit into it ([RNDIS_set_offset_unchecked] and
    [RNDIS_description_unchecked] show that the driver leaves the buffer else). *)
Theorem RNDIS_messages_answered i b ty id oid off v : rndis_ok i b ->
  get32 b off_MessageType = Some ty -> get32 b off_RequestId = Some id ->
  get32 b 12 = Some oid -> get32 b 20 = Some off ->
  (ty = REMOTE_NDIS_SET_MSG -> oid = OID_GEN_CURRENT_PACKET_FILTER ->
     get32 b (sizeof_Message_Header + off) = Some v /\ 8 <= off) ->
  (ty = REMOTE_NDIS_QUERY_MSG -> oid = OID_GEN_VENDOR_DESCRIPTION -> description_fits i b) ->
  let a := adapter_step ty oid v (adapter_of i) in
  exists i', RNDIS_Device_ProcessRNDISControlMessage i = Some i' /\ adapter_of i' = a /\
    if completes ty then responds i b ty id a i'
    else if ty =? REMOTE_NDIS_HALT_MSG then ResponseReady (State i') = false
    else i' = i.
Proof.
  intros Hok Hty Hid Hoid Hoff Hset Hfit a. destruct (Hok) as (Hb & Hu & _).
  unfold RNDIS_Device_ProcessRNDISControlMessage. rewrite Hb. cbn [mbind option_bind]. rewrite Hty.
  cbn [mbind option_bind].
  assert (forall m i', m = Some i' /\ responds i b ty id a i' ->
    exists i', m = Some i' /\ adapter_of i' = a /\ responds i b ty id a i') as Hresp.
  { intros m i' [-> Hr]. exists i'. split; [done|]. split; [|done]. destruct Hr as (b' & n & _ & _ & _ & -> & _).
    by destruct a. }
  unfold completes.
  destruct (ty =? REMOTE_NDIS_INITIALIZE_MSG) eqn:E1; bool_hyps.
  { subst ty. destruct (INITIALIZE_responds i b id Hok Hid) as (i' & H). by apply (Hresp _ i'). }
  destruct (ty =? REMOTE_NDIS_HALT_MSG) eqn:E2; bool_hyps.
  { subst ty. destruct (buffer_bounds i b id Hok Hid) as (_ & Hl & _). unfold process_HALT. set_field.
    eexists. split; [reflexivity|]. done. }
  destruct (ty =? REMOTE_NDIS_QUERY_MSG) eqn:E3; bool_hyps.
  { subst ty. destruct (QUERY_responds i b id Hok Hid oid Hoid) as (i' & H); [by apply Hfit|]. by apply (Hresp _ i'). }
  destruct (ty =? REMOTE_NDIS_SET_MSG) eqn:E4; bool_hyps.
  { subst ty. destruct (SET_responds i b id Hok Hid oid off v Hoid Hoff) as (i' & H); [by intros; apply Hset|].
    by apply (Hresp _ i'). }
  assert (a = adapter_of i) as Ha.
  { unfold a, adapter_step. by rewrite !(proj2 (Z.eqb_neq ty _)) by done. }
  destruct (ty =? REMOTE_NDIS_RESET_MSG) eqn:E5; bool_hyps.
  { subst ty. destruct (RESET_responds i b id Hok Hid) as (i' & H). rewrite <- Ha in H. by apply (Hresp _ i'). }
  destruct (ty =? REMOTE_NDIS_KEEPALIVE_MSG) eqn:E6; bool_hyps.
  { subst ty. destruct (KEEPALIVE_responds i b id Hok Hid) as (i' & H). rewrite <- Ha in H. by apply (Hresp _ i'). }
  by exists i.
Qed.

(** The vendor description is not checked against the buffer: a query of one that does
    not fit makes the driver write behind it. *)
Theorem RNDIS_description_unchecked i b n : MessageBuffer (Config i) = Some b -> Forall is_u8 b ->
  24 <= Z.of_nat (length b) -> get32 b off_MessageType = Some REMOTE_NDIS_QUERY_MSG ->
  get32 b 12 = Some OID_GEN_VENDOR_DESCRIPTION -> strlen (AdapterVendorDescription (Config i)) = Some n ->
  Z.of_nat (length b) < sizeof_Query_Complete + n + 1 -> n < 65535 ->
  RNDIS_Device_ProcessRNDISControlMessage i = None.
Proof.
  intros Hb Hu Hl Hty Hoid Hn Hout Hmax. unfold RNDIS_Device_ProcessRNDISControlMessage. rewrite Hb.
  cbn [mbind option_bind]. rewrite Hty. cbn [mbind option_bind Z.eqb Pos.eqb REMOTE_NDIS_QUERY_MSG
    REMOTE_NDIS_INITIALIZE_MSG REMOTE_NDIS_HALT_MSG].
  unfold process_QUERY. rewrite Hoid. cbn [mbind option_bind]. destruct (get32_some b 20) as (x & -> & _); [done|lia|done|].
  cbn [mbind option_bind]. set_field. destruct (get32_some b0 16) as (y & -> & _); [done|lia|by apply U|]. cbn [mbind option_bind].
  pose proof (strlen_bounds _ _ Hn). unfold RNDIS_Device_ProcessNDISQuery. cbn -[strlen put_at sizeof_Query_Complete]. rewrite Hn. cbn [mbind option_bind].
  rewrite u16_small by (unfold is_u16; lia). unfold put_at, sizeof_Query_Complete in *. rewrite length_take.
  by rewrite (proj2 (Z.leb_gt (24 + _) _)), andb_false_r by lia.
Qed.

(** The offset of a setting is not checked: a SET message for the packet filter
    whose offset points behind the message buffer makes the driver read outside of
    it, whatever the size of the buffer. *)
Theorem RNDIS_set_offset_unchecked i b off : MessageBuffer (Config i) = Some b -> Forall is_u8 b ->
  24 <= Z.of_nat (length b) ->
  get32 b off_MessageType = Some REMOTE_NDIS_SET_MSG -> get32 b 12 = Some OID_GEN_CURRENT_PACKET_FILTER ->
  get32 b 20 = Some off -> Z.of_nat (length b) < off + 12 -> off < 0xFFFFFFF8 ->
  RNDIS_Device_ProcessRNDISControlMessage i = None.
Proof.
  intros Hb Hu Hl Hty Hoid Hoff Hout Hmax. unfold RNDIS_Device_ProcessRNDISControlMessage. rewrite Hb.
  cbn [mbind option_bind]. rewrite Hty. cbn [mbind option_bind Z.eqb Pos.eqb REMOTE_NDIS_SET_MSG
    REMOTE_NDIS_INITIALIZE_MSG REMOTE_NDIS_HALT_MSG REMOTE_NDIS_QUERY_MSG].
  unfold process_SET. rewrite Hoid. cbn [mbind option_bind]. set_field. set_field.
  destruct (get32_some b1 off_RequestId) as (id & -> & Hid); [done|unfold off_RequestId; lia|auto|].
  cbn [mbind option_bind]. set_field. replace (get32 b2 20) with (Some off) by (symmetry; field).
  cbn [mbind option_bind]. unfold RNDIS_Device_ProcessNDISSet. rewrite Z.eqb_refl.
  unfold sizeof_Message_Header. rewrite u32_small by (unfold is_u32; lia).
  by rewrite get32_none by lia.
Qed.

(** ** Ethernet frames *)

(** The bytes of a frame on the bus. *)
Definition frame_header (n : Z) : list Z :=
  enc_packet_header REMOTE_NDIS_PACKET_MSG (u16 (sizeof_Packet_Message + n))
    (sizeof_Packet_Message - sizeof_Message_Header) n.

Lemma frame_header_u8 n : Forall is_u8 (frame_header n).
Proof. unfold frame_header, enc_packet_header. repeat constructor; apply u8_range. Qed.

Lemma frame_header_length n : length (frame_header n) = 44%nat.
Proof. done. Qed.

Lemma frame_header_size n : is_u32 n -> get32 (frame_header n) 12 = Some n.
Proof. intros Hn. rewrite <- (of_le32_le32 n Hn) at 2. done. Qed.

Lemma read_all_nonempty k q : q <> [] -> (k <= length (concat q))%nat -> read_all k q <> [].
Proof.
  revert q; induction k as [|k IH]; intros q Hq Hk; [done|]. cbn [read_all].
  destruct (concat q) as [|x l] eqn:E; [cbn in Hk; lia|].
  destruct (skip_cons q x l E) as (p & ps & -> & Hc). cbn [pop_byte]. apply IH; [done|]. rewrite Hc.
  cbn in Hk. lia.
Qed.

Lemma read_all_shorter k q : (length (read_all k q) <= length q)%nat.
Proof.
  revert q; induction k as [|k IH]; intros q; [done|]. cbn [read_all]. etransitivity; [apply IH|].
  assert (length (skip q) <= length q)%nat as Hs by (induction q as [|[|x p] ps IHq]; cbn; lia).
  etransitivity; [|exact Hs]. by destruct (skip q) as [|[|x p] ps].
Qed.

(** The interface is configured, the host has set a packet filter, and the data
    endpoints are [ein] and [eout]. *)
Definition transferring {App} {OB : Object App RNDISInfo} (is_in : Z -> bool) (size : Z -> nat)
    (ein eout : Z) (w : World App) : Prop :=
  USB_DeviceState w = DEVICE_STATE_Configured /\ CurrRNDISState (State (info w)) = RNDIS_Data_Initialized /\
  Z.land (Address (DataINEndpoint (Config (info w)))) 0x0F = ein /\
  Z.land (Address (DataOUTEndpoint (Config (info w)))) 0x0F = eout /\
  0 < ein < 16 /\ 0 < eout < 16 /\ is_in ein = true /\ is_in eout = false /\ (0 < size ein)%nat.

Section Frames.
Context {HW : Hardware} {is_in : Z -> bool} {size : Z -> nat} {q0 : Z -> list (list Z)}.
Context {DH : DataHost is_in size q0} {App : Type} {EV : DeviceEvents App} {RQ : DeviceRequests App}.
Context {OB : Object App RNDISInfo} (ein eout : Z) (w0 : World App) (fuel : nat).
Hypothesis Htr : transferring is_in size ein eout w0.
Abbreviation dev := (dev (is_in := is_in) (q0 := q0) (App := App) w0).

(** The prologue of every function. *)
Lemma RNDIS_prologue {A} (r : A) f (k : prog (World App) A) Q e st w : dev e st w ->
  (forall w', dev (Z.land (Address (f (Config (info w0)))) 0x0F) st w' -> wp true k Q w') ->
  wp true (on ← RNDIS_online fuel; if negb on then mret r else RNDIS_select f;; k) Q w.
Proof.
  intros H Hk. destruct Htr as (Hst & Hs & _). unfold RNDIS_online, poll_DeviceState. apply wp_bind, wp_bind, wp_bind.
  unfold wp at 1, interrupt_point. rewrite dh_irq, andb_false_r. apply wp_gets.
  rewrite (dev_DeviceState _ _ _ _ H), Hst. cbn [negb Z.eqb Pos.eqb DEVICE_STATE_Configured].
  apply wp_bind, wp_gets, wp_ret. rewrite (dev_app _ _ _ _ H). fold (info w0). rewrite Hs. cbn [bool_decide negb].
  rewrite bool_decide_true by done. cbn [negb]. apply wp_bind, wp_bind, wp_gets. rewrite (dev_app _ _ _ _ H).
  dev_step SelectEndpoint_dev H. intros [] w1 H1. by apply Hk.
Qed.

Lemma SendPacket_dev Buffer n e st w : Forall is_u8 Buffer -> 0 <= n <= Z.of_nat (length Buffer) -> is_u16 n ->
  (2 * Z.to_nat n + 100 < fuel)%nat -> dev e st w ->
  wp true (RNDIS_Device_SendPacket fuel Buffer n) (fun r w' => r = 0 /\ dev ein (<[ein :=
    commit (write_all (size ein) (st ein) (frame_header n ++ take (Z.to_nat n) Buffer))]> st) w') w.
Proof.
  intros Hb Hn H16 Hf H. destruct (Htr) as (_ & _ & Hi & _ & He & _ & Hin & _ & Hsz).
  eapply RNDIS_prologue; [exact H|]. rewrite Hi. intros w1 H1. apply wp_bind.
  dev_step WaitUntilReady_dev H1; [by rewrite Hin|]. intros r w2 [-> H2]. cbn [negb Z.eqb ENDPOINT_READYWAIT_NoError].
  fold (frame_header n). unfold Endpoint_Write_Stream_LE. apply wp_bind.
  dev_step (Write_Stream_dev LE (frame_header n) sizeof_Packet_Message) H2;
    [apply frame_header_u8|unfold sizeof_Packet_Message; lia|by left|].
  intros r w3 [-> H3]. change (stream_bytes LE (frame_header n) sizeof_Packet_Message) with (frame_header n) in H3.
  apply wp_bind. dev_step (Write_Stream_dev LE Buffer n) H3; [by left|]. intros r w4 [-> H4].
  apply wp_bind. dev_step ClearIN_dev H4. intros [] w5 H5. apply wp_ret. split; [done|].
  eapply dev_ext; [|exact H5]. rewrite !fn_lookup_insert, stream_bytes_LE by lia.
  dev_eq; [|done]. unfold write_all. by rewrite foldl_app.
Qed.

Lemma ReadPacket_dev uninit Buffer l0 n data e st w : 0 <= n <= ETHERNET_FRAME_SIZE_MAX ->
  n <= Z.of_nat (length Buffer) -> Z.of_nat (length data) = n ->
  concat (ep_queue (st eout)) = frame_header n ++ data ->
  (Z.to_nat n + 44 + length (ep_queue (st eout)) < fuel)%nat -> dev e st w ->
  wp true (RNDIS_Device_ReadPacket fuel uninit Buffer l0) (fun r w' =>
    r = (ENDPOINT_RWSTREAM_NoError, n, data ++ drop (Z.to_nat n) Buffer) /\ exists q,
    dev eout (<[eout := with_queue q (st eout)]> st) w') w.
Proof.
  intros Hn Hbuf Hd Hq Hf H. destruct (Htr) as (_ & _ & _ & Ho & _ & He & _ & Hout & _).
  unfold ETHERNET_FRAME_SIZE_MAX in Hn.
  assert (ep_queue (st eout) <> []) as Hne by (intros E; rewrite E in Hq; done).
  eapply RNDIS_prologue; [exact H|]. rewrite Ho. intros w1 H1. apply wp_bind. dev_step IsOUTReceived_dev H1.
  intros r w2 [-> H2]. replace (ep_ready false (st eout)) with true by (cbn; by destruct (ep_queue (st eout))).
  cbn [negb]. apply wp_bind. unfold Endpoint_Read_Stream_LE. set (hdr := map uninit _).
  assert (length hdr = 44%nat) as Hh by (unfold hdr; by rewrite length_map, length_seqZ).
  assert (length (concat (ep_queue (st eout))) = 44 + Z.to_nat n)%nat as Hlen
    by (rewrite Hq, length_app, frame_header_length; lia).
  dev_step (Read_Stream_dev LE hdr (concat (ep_queue (st eout))) sizeof_Packet_Message) H2;
    unfold sizeof_Packet_Message; try lia; try done; try by left.
  intros r w3 (buf & -> & Hs & H3).
  pose proof (stored_all LE 44 hdr (concat (ep_queue (st eout))) buf ltac:(lia) ltac:(lia) Hs) as Hall.
  destruct Hs as (Hl & _). rewrite stream_bytes_LE, take_ge in Hall by lia. change (Z.to_nat 44) with 44%nat in *.
  rewrite Hq, take_app_length' in Hall by done. subst buf. rewrite frame_header_size by (unfold is_u32; lia).
  apply wp_bind. eapply wp_checked; [reflexivity|]. rewrite (proj2 (Z.ltb_ge _ _)) by (unfold ETHERNET_FRAME_SIZE_MAX; lia).
  rewrite u16_small by (unfold is_u16; lia). apply wp_bind.
  set (q := read_all 44 (ep_queue (st eout))) in *.
  assert (concat q = data) as Hqd by (unfold q; rewrite concat_read_all, Hq, drop_app_length' by (done || lia); done).
  dev_step (Read_Stream_dev LE Buffer (concat q) n) H3; rewrite ?fn_lookup_insert, ?Hqd; cbn [ep_queue with_queue];
    try done; try (unfold is_u16; lia); [|by apply read_all_nonempty; [|lia]|by left|].
  { pose proof (read_all_shorter 44 (ep_queue (st eout))) as Hs. fold q in Hs. lia. }
  intros r w4 (buf & -> & Hs & H4). pose proof (stored_all LE n Buffer data buf ltac:(lia) ltac:(lia) Hs) as Hall.
  destruct Hs as (Hl4 & Hd4 & _). rewrite stream_bytes_LE in Hall by lia. rewrite (take_ge data) in Hall by lia.
  apply wp_bind. dev_step ClearOUT_dev H4. intros [] w5 H5. apply wp_ret. split.
  - by rewrite <- (take_drop (Z.to_nat n) buf), Hall, Hd4.
  - eexists. eapply dev_ext; [|exact H5]. rewrite !fn_lookup_insert. dev_eq; [|done].
    done.
Qed.
End Frames.

(** C32: A frame that is sent is the frame that is received: sending a frame of up to
    1500 bytes terminates and puts its header and its bytes on the bus in packets
    that fit the endpoint, leaving the bank empty; and whenever the OUT endpoint
    carries those bytes, however they are split into packets, reading a packet
    terminates without error and returns the length and exactly the bytes of the
    frame, without touching the rest of the caller's buffer. *)
Theorem RNDIS_frame_roundtrip {HW : Hardware} {is_in size q0} {DH : DataHost is_in size q0}
    {App} {EV : DeviceEvents App} {RQ : DeviceRequests App} {OB : Object App RNDISInfo}
    fuel uninit ein eout Frame n (w : World App) : transferring is_in size ein eout w ->
  let s := ep_state is_in q0 ein (tr w) in
  Forall is_u8 Frame -> 0 <= n <= Z.of_nat (length Frame) -> n <= ETHERNET_FRAME_SIZE_MAX ->
  (2 * Z.to_nat n + 100 < fuel)%nat -> ep_bank s = [] ->
  exists w' ps, RNDIS_Device_SendPacket fuel Frame n w = Ret ENDPOINT_RWSTREAM_NoError w' /\
    ep_state is_in q0 ein (tr w') = mkEP [] (ep_sent s ++ ps) (ep_queue s) (ep_stalled s) /\
    Forall (fun p => (length p <= size ein)%nat) ps /\
    forall w2 Buffer, transferring is_in size ein eout w2 ->
      let q := ep_queue (ep_state is_in q0 eout (tr w2)) in
      concat q = concat ps -> n <= Z.of_nat (length Buffer) -> (Z.to_nat n + 44 + length q < fuel)%nat ->
      exists w3, RNDIS_Device_ReadPacket fuel uninit Buffer 0 w2
        = Ret (ENDPOINT_RWSTREAM_NoError, n, take (Z.to_nat n) Frame ++ drop (Z.to_nat n) Buffer) w3.
Proof.
  intros Htr s Hu Hn Hmax Hf Hb. unfold ETHERNET_FRAME_SIZE_MAX in Hmax.
  destruct (Htr) as (_ & _ & _ & _ & _ & _ & _ & _ & Hsz).
  destruct (wp_total_run _ _ _ (SendPacket_dev ein eout w fuel Htr Frame n _
    (fun x => ep_state is_in q0 x (tr w)) w Hu Hn ltac:(unfold is_u16; lia) Hf (dev_start w)))
    as (r & w' & Hrun & -> & _ & _ & Hst).
  destruct (write_all_spec (size ein) s (frame_header n ++ take (Z.to_nat n) Frame) Hsz ltac:(rewrite Hb; cbn; lia))
    as (ps & b & Hw & Hc & Hp & Hbl).
  exists w', (ps ++ [b]). split; [done|]. split_and!.
  - rewrite Hst, fn_lookup_insert. fold s. rewrite Hw. unfold commit. cbn. by rewrite app_assoc.
  - apply Forall_app. split; [eapply Forall_impl; [|exact Hp]; cbn; lia|by repeat constructor].
  - intros w2 Buffer Htr2 q Hq Hbuf Hf2. rewrite concat_app in Hq. cbn in Hq. rewrite app_nil_r, Hc, Hb in Hq.
    destruct (wp_total_run _ _ _ (ReadPacket_dev ein eout w2 fuel Htr2 uninit Buffer 0 n (take (Z.to_nat n) Frame) _
      (fun x => ep_state is_in q0 x (tr w2)) w2 ltac:(unfold ETHERNET_FRAME_SIZE_MAX; lia) Hbuf
      ltac:(rewrite length_take; lia) Hq Hf2 (dev_start w2))) as (r & w3 & Hrun3 & -> & _).
    by exists w3.
Qed.

(** ** Witnesses *)

Definition demo_adapter (b : list Z) (st : RNDIS_States_t) (f : Z) : RNDISInfo :=
  mkRNDISInfo (mkRNDISConfig 0 (mkEndpointTable 0x81 4 EP_TYPE_BULK 1) (mkEndpointTable 0x02 4 EP_TYPE_BULK 1)
      (mkEndpointTable 0x83 8 EP_TYPE_INTERRUPT 1) [76; 85; 70; 65; 0] [2; 0; 2; 0; 2; 0] (Some b)
      (Z.of_nat (length b)))
    (mkRNDISState false st f).

(** SET of the packet filter to 13, with the value at offset [off] of the message. *)
Definition demo_set (off : Z) : list Z :=
  concat (map le32 [REMOTE_NDIS_SET_MSG; 32; 7; OID_GEN_CURRENT_PACKET_FILTER; 4; off; 0; 13]) ++ replicate 100 0.

Lemma demo_set_u8 off : Forall is_u8 (demo_set off).
Proof.
  apply Forall_app. split; [|by apply Forall_replicate].
  apply Forall_concat, Forall_fmap, Forall_forall. intros x _. repeat constructor; apply u8_range.
Qed.

Lemma demo_adapter_ok off st f : is_u32 f -> rndis_ok (demo_adapter (demo_set off) st f) (demo_set off).
Proof.
  intros Hf. split; [done|]. split; [apply demo_set_u8|]. split; [by cbn|]. split; [done|]. split; [done|].
  split; [repeat constructor; lia|]. repeat constructor; lia.
Qed.
Lemma demo_description_fits off st f : description_fits (demo_adapter (demo_set off) st f) (demo_set off).
Proof. by exists 4. Qed.

Lemma RNDIS_messages_answered_witness :
  let i := demo_adapter (demo_set 20) RNDIS_Initialized 0 in
  exists i', RNDIS_Device_ProcessRNDISControlMessage i = Some i' /\
    adapter_of i' = (RNDIS_Data_Initialized, 13) /\
    responds i (demo_set 20) REMOTE_NDIS_SET_MSG 7 (RNDIS_Data_Initialized, 13) i'.
Proof.
  refine (RNDIS_messages_answered (demo_adapter (demo_set 20) RNDIS_Initialized 0) (demo_set 20) REMOTE_NDIS_SET_MSG 7
    OID_GEN_CURRENT_PACKET_FILTER 20 13 _ _ _ _ _ _ _).
  - by apply demo_adapter_ok.
  - reflexivity.
  - reflexivity.
  - reflexivity.
  - reflexivity.
  - intros _ _. split; [reflexivity|lia].
  - done.
Defined.

Lemma RNDIS_query_supported_witness :
  let i := demo_adapter (demo_set 20) RNDIS_Initialized 0 in
  exists a b', RNDIS_Device_ProcessNDISQuery i OID_GEN_LINK_SPEED (demo_set 20) sizeof_Query_Complete = Some (a, b') /\
    length b' = length (demo_set 20) /\
    (is_Some a <-> OID_GEN_LINK_SPEED ∈ AdapterSupportedOIDList /\ OID_GEN_LINK_SPEED <> OID_802_3_MULTICAST_LIST) /\
    (forall n, a = Some n -> 0 <= n /\ sizeof_Query_Complete + n <= Z.of_nat (length (demo_set 20))).
Proof. apply RNDIS_query_supported; [by apply demo_adapter_ok|apply demo_description_fits]. Defined.

Lemma RNDIS_set_offset_unchecked_witness :
  RNDIS_Device_ProcessRNDISControlMessage (demo_adapter (demo_set 1000) RNDIS_Initialized 0) = None.
Proof.
  apply (RNDIS_set_offset_unchecked _ (demo_set 1000) 1000); try reflexivity; [apply demo_set_u8|by cbn].
Defined.

(** The length of a command is not checked against the message buffer: the host's
    SEND_ENCAPSULATED_COMMAND of 133 bytes makes the driver write behind a buffer of
    132 bytes, the smallest size it accepts; one of 132 bytes is processed. *)
Theorem RNDIS_command_overflow :
  let run n := RNDIS_SendEncapsulatedCommand (HW := sender_hw [replicate 64 0; replicate 64 0; replicate n 0])
    (EV := no_events _) 20
    (request_world (demo_adapter (demo_set 20) RNDIS_Uninitialized 0)
       (mkRequest CLASS_OUT RNDIS_REQ_SendEncapsulatedCommand 0 0 (128 + Z.of_nat n))) in
  Z.of_nat (length (demo_set 20)) = RNDIS_DEVICE_MIN_MESSAGE_BUFFER_LENGTH /\
  run 5%nat = Fault /\ exists w, run 4%nat = Ret tt w.
Proof. split; [done|]. split; [vm_compute; done|]. eexists. vm_compute. reflexivity. Qed.

Lemma RNDIS_frame_roundtrip_witness :
  let w := selected_world (demo_adapter (demo_set 20) RNDIS_Data_Initialized 13) 0 in
  exists w' ps, RNDIS_Device_SendPacket (HW := pair_hw) (EV := no_events _) (RQ := no_requests _) 200 [1; 2; 3; 4; 5] 3 w
      = Ret ENDPOINT_RWSTREAM_NoError w' /\
    ep_state pair_in pair_q 1 (tr w') = mkEP [] ([] ++ ps) [] false /\
    Forall (fun p => (length p <= 4)%nat) ps /\
    forall w2 Buffer, transferring pair_in (fun _ => 4%nat) 1 2 w2 ->
      let q := ep_queue (ep_state pair_in pair_q 2 (tr w2)) in
      concat q = concat ps -> 3 <= Z.of_nat (length Buffer) -> (3 + 44 + length q < 200)%nat ->
      exists w3, RNDIS_Device_ReadPacket (HW := pair_hw) (EV := no_events _) (RQ := no_requests _) 200 (fun _ => 0) Buffer 0 w2
        = Ret (ENDPOINT_RWSTREAM_NoError, 3, [1; 2; 3] ++ drop 3 Buffer) w3.
Proof.
  refine (RNDIS_frame_roundtrip (DH := pair_host) (EV := no_events _) (RQ := no_requests _) 200 (fun _ => 0) 1 2
    [1; 2; 3; 4; 5] 3 (selected_world (demo_adapter (demo_set 20) RNDIS_Data_Initialized 13) 0) _ _ _ _ _ _).
  - repeat split; cbn; lia.
  - repeat constructor; lia.
  - cbn. lia.
  - done.
  - cbn. lia.
  - done.
Defined.
