(* ===== verification/AudioDevice.v ===== *)
(** The Audio 1.0 device class driver: LUFA/Drivers/USB/Class/Device/AudioClassDevice.[ch].

    The two operands of the expression that [Audio_Device_ReadSample24] returns read
    the FIFO, and C leaves their order open: the order is a parameter. *)

From stdpp Require Import base tactics option list numbers.
From Stdlib Require Import ZArith Lia.
From S2P Require Import Prelude Memory Hardware Endpoint USBController ControlStream DeviceStandardReq.
From S2P Require Import EndpointStream ClassDriver.

(** [enum Audio_ClassRequests_t] *)
Definition AUDIO_REQ_SetCurrent : Z := 0x01.
Definition AUDIO_REQ_SetMinimum : Z := 0x02.
Definition AUDIO_REQ_SetMaximum : Z := 0x03.
Definition AUDIO_REQ_SetResolution : Z := 0x04.
Definition AUDIO_REQ_GetCurrent : Z := 0x81.
Definition AUDIO_REQ_GetMinimum : Z := 0x82.
Definition AUDIO_REQ_GetMaximum : Z := 0x83.
Definition AUDIO_REQ_GetResolution : Z := 0x84.
Definition AUDIO_REQ_GetStatus : Z := 0xFF.

Definition REQ_SetInterface : Z := 11.

(** [USB_ClassInfo_Audio_Device_t] *)
Record Audio_Config : Set := mkAudioConfig {
  ControlInterfaceNumber : Z;
  StreamingInterfaceNumber : Z;
  DataINEndpoint : USB_Endpoint_Table_t;
  DataOUTEndpoint : USB_Endpoint_Table_t
}.
Record Audio_State : Set := mkAudioState {
  InterfaceEnabled : bool
}.
Record USB_ClassInfo_Audio_Device_t : Set := mkAudioInfo {
  Config : Audio_Config;
  State : Audio_State
}.

Abbreviation AudioInfo := USB_ClassInfo_Audio_Device_t.

Definition set_InterfaceEnabled (b : bool) (i : AudioInfo) : AudioInfo :=
  mkAudioInfo (Config i) (mkAudioState b).
Definition set_EndpointTypes (i : AudioInfo) : AudioInfo :=
  let c := Config i in
  mkAudioInfo (mkAudioConfig (ControlInterfaceNumber c) (StreamingInterfaceNumber c)
                 (with_Type EP_TYPE_ISOCHRONOUS (DataINEndpoint c))
                 (with_Type EP_TYPE_ISOCHRONOUS (DataOUTEndpoint c))) (State i).

(** The application's callbacks.  The last argument is [None] where the driver
    passes NULL and the length and the buffer otherwise; the result is the boolean
    with the new length and buffer. *)
Class AudioCallbacks (App : Type) : Type := {
  CALLBACK_Audio_Device_GetSetEndpointProperty :
    Z -> Z -> Z -> option (Z * list Z) -> prog (World App) (bool * (Z * list Z));
  CALLBACK_Audio_Device_GetSetInterfaceProperty :
    Z -> Z -> Z -> option (Z * list Z) -> prog (World App) (bool * (Z * list Z));
  EVENT_Audio_Device_StreamStartStop : prog (World App) unit
}.

Section AudioDevice.
Context {HW : Hardware} {App : Type} {EV : DeviceEvents App} {RQ : DeviceRequests App}.
Context {OB : Object App AudioInfo} {CB : AudioCallbacks App}.
Context (fuel : nat) (uninit : Z -> Z).
Abbreviation P := (prog (World App)).

(** The request is not for this interface or its endpoints. *)
Definition Audio_ignores (req : USB_Request_Header_t) (c : Audio_Config) : bool :=
  let recipient := Z.land (bmRequestType req) CONTROL_REQTYPE_RECIPIENT in
  let index := Z.land (wIndex req) 0xFF in
  if recipient =? REQREC_INTERFACE then
    negb (index =? ControlInterfaceNumber c) && negb (index =? StreamingInterfaceNumber c)
  else if recipient =? REQREC_ENDPOINT then
    negb (index =? Address (DataINEndpoint c)) && negb (index =? Address (DataOUTEndpoint c))
  else false.

Definition Audio_SetInterface : P unit :=
  req ← gets USB_ControlRequest;
  when (bmRequestType req =? Z.lor (Z.lor REQDIR_HOSTTODEVICE REQTYPE_STANDARD) REQREC_INTERFACE)
    (Endpoint_ClearSETUP;;
     Endpoint_ClearStatusStage fuel;;
     req ← gets USB_ControlRequest;
     assign (set_InterfaceEnabled (negb (Z.land (wValue req) 0xFF =? 0)));;
     EVENT_Audio_Device_StreamStartStop).

Definition Audio_GetStatus : P unit :=
  req ← gets USB_ControlRequest;
  when ((bmRequestType req =? Z.lor (Z.lor REQDIR_HOSTTODEVICE REQTYPE_CLASS) REQREC_INTERFACE) ||
        (bmRequestType req =? Z.lor (Z.lor REQDIR_HOSTTODEVICE REQTYPE_CLASS) REQREC_ENDPOINT))
    (Endpoint_ClearSETUP;;
     Endpoint_ClearStatusStage fuel).

(** A property is set, with the callback [cb] applied to its address. *)
Definition Audio_set_property (cb : option (Z * list Z) -> P (bool * (Z * list Z))) : P unit :=
  r ← cb None;
  when (fst r)
    (req ← gets USB_ControlRequest;
     let ValueLength := wLength req in
     Endpoint_ClearSETUP;;
     s ← Endpoint_Read_Control_Stream_LE fuel (vla uninit ValueLength) ValueLength;
     let '(Value, _) := s in
     Endpoint_ClearIN;;
     cb (Some (ValueLength, Value));; mret tt).

Definition Audio_get_property (cb : option (Z * list Z) -> P (bool * (Z * list Z))) : P unit :=
  req ← gets USB_ControlRequest;
  let ValueLength := wLength req in
  r ← cb (Some (ValueLength, vla uninit ValueLength));
  let '(ok, (ValueLength, Value)) := r in
  when ok
    (Endpoint_ClearSETUP;;
     Endpoint_Write_Control_Stream_LE fuel Value ValueLength;;
     Endpoint_ClearOUT).

(** The callback the request goes to. *)
Definition Audio_property (k : (option (Z * list Z) -> P (bool * (Z * list Z))) -> P unit) : P unit :=
  req ← gets USB_ControlRequest;
  let recipient := Z.land (bmRequestType req) CONTROL_REQTYPE_RECIPIENT in
  if recipient =? REQREC_ENDPOINT then
    k (CALLBACK_Audio_Device_GetSetEndpointProperty (bRequest req) (u8 (wIndex req)) (u8 (Z.shiftr (wValue req) 8)))
  else if recipient =? REQREC_INTERFACE then
    k (CALLBACK_Audio_Device_GetSetInterfaceProperty (bRequest req) (u8 (Z.shiftr (wIndex req) 8)) (wValue req))
  else mret tt.

Definition Audio_Device_ProcessControlRequest : P unit :=
  s ← Endpoint_IsSETUPReceived;
  if negb s then mret tt
  else
    req ← gets USB_ControlRequest;
    i ← the;
    if Audio_ignores req (Config i) then mret tt
    else
      let r := bRequest req in
      if r =? REQ_SetInterface then Audio_SetInterface
      else if r =? AUDIO_REQ_GetStatus then Audio_GetStatus
      else if (r =? AUDIO_REQ_SetCurrent) || (r =? AUDIO_REQ_SetMinimum) ||
              (r =? AUDIO_REQ_SetMaximum) || (r =? AUDIO_REQ_SetResolution) then
        Audio_property Audio_set_property
      else if (r =? AUDIO_REQ_GetCurrent) || (r =? AUDIO_REQ_GetMinimum) ||
              (r =? AUDIO_REQ_GetMaximum) || (r =? AUDIO_REQ_GetResolution) then
        Audio_property Audio_get_property
      else mret tt.

Definition Audio_Device_ConfigureEndpoints : P bool :=
  assign (set_InterfaceEnabled false);;
  assign set_EndpointTypes;;
  i ← the;
  ok ← Endpoint_ConfigureEndpointTable fuel [DataINEndpoint (Config i)];
  if negb ok then mret false
  else
    ok ← Endpoint_ConfigureEndpointTable fuel [DataOUTEndpoint (Config i)];
    if negb ok then mret false else mret true.

Definition Audio_Device_USBTask : P unit := mret tt.

(** The test both sample functions start with. *)
Definition Audio_streaming : P bool :=
  st ← poll_DeviceState fuel;
  if negb (st =? DEVICE_STATE_Configured) then mret false
  else i ← the; mret (InterfaceEnabled (State i)).

Definition Audio_Device_IsSampleReceived : P bool :=
  on ← Audio_streaming;
  if negb on then mret false
  else
    i ← the;
    Endpoint_SelectEndpoint (Address (DataOUTEndpoint (Config i)));;
    Endpoint_IsOUTReceived.

Definition Audio_Device_IsReadyForNextSample : P bool :=
  on ← Audio_streaming;
  if negb on then mret false
  else
    i ← the;
    Endpoint_SelectEndpoint (Address (DataINEndpoint (Config i)));;
    Endpoint_IsINReady.

(** [if (!(Endpoint_BytesInEndpoint())) Endpoint_ClearOUT();] *)
Definition release_empty : P unit :=
  n ← Endpoint_BytesInEndpoint;
  when (n =? 0) Endpoint_ClearOUT.

(** [if (Endpoint_BytesInEndpoint() == ...DataINEndpoint.Size) Endpoint_ClearIN();] *)
Definition send_full : P unit :=
  n ← Endpoint_BytesInEndpoint;
  i ← the;
  when (n =? Size (DataINEndpoint (Config i))) Endpoint_ClearIN.

Definition Audio_Device_ReadSample8 : P Z :=
  b ← Endpoint_Read_8;
  release_empty;;
  mret (int8 b).

Definition Audio_Device_ReadSample16 : P Z :=
  v ← Endpoint_Read_16_LE;
  release_empty;;
  mret (int16 v).

(** [left_first]: the left operand of [|] is evaluated first. *)
Definition Audio_Device_ReadSample24 (left_first : bool) : P Z :=
  s ← (if left_first then
         h ← Endpoint_Read_8; l ← Endpoint_Read_16_LE; mret (Z.lor (Z.shiftl h 16) l)
       else
         l ← Endpoint_Read_16_LE; h ← Endpoint_Read_8; mret (Z.lor (Z.shiftl h 16) l));
  release_empty;;
  mret s.

Definition Audio_Device_WriteSample8 (Sample : Z) : P unit :=
  Endpoint_Write_8 (u8 Sample);;
  send_full.

Definition Audio_Device_WriteSample16 (Sample : Z) : P unit :=
  Endpoint_Write_16_LE (u16 Sample);;
  send_full.

Definition Audio_Device_WriteSample24 (Sample : Z) : P unit :=
  Endpoint_Write_16_LE (u16 Sample);;
  Endpoint_Write_8 (u8 (Z.shiftr Sample 16));;
  send_full.
End AudioDevice.
