(* ===== verification/AudioSpec.v ===== *)
(** Correctness of the Audio driver (AudioDevice.v): the transport of samples. *)

From stdpp Require Import base tactics option list numbers fin_maps functions.
From Stdlib Require Import ZArith Lia.
From S2P Require Import Prelude Memory Hardware Endpoint USBController ControlStream DeviceStandardReq.
From S2P Require Import EndpointStream ControlTransfer ControlReceive DataEndpoint.
From S2P Require Import DataStream ClassDriver AudioDevice.

(** ** Sample formats *)

Inductive format : Set := W8 | W16 | W24 (left_first : bool).

Definition sample_bytes (f : format) : nat :=
  match f with W8 => 1 | W16 => 2 | W24 _ => 3 end.

(** A sample is a signed number of the format's width. *)
Definition in_range (f : format) (s : Z) : Prop :=
  let h := 2 ^ (8 * Z.of_nat (sample_bytes f) - 1) in - h <= s < h.

(** Two's complement, least significant byte first. *)
Definition enc_sample (f : format) (s : Z) : list Z :=
  match f with
  | W8 => [u8 s]
  | W16 => [u8 s; u8 (Z.shiftr s 8)]
  | W24 _ => [u8 s; u8 (Z.shiftr s 8); u8 (Z.shiftr s 16)]
  end.

(** The value that reading the bytes of a sample delivers. *)
Definition delivered (f : format) (s : Z) : Z :=
  match f with
  | W8 | W16 => s
  | W24 true => of_le32 (u8 (Z.shiftr s 8)) (u8 (Z.shiftr s 16)) (u8 s) 0
  | W24 false => s mod 2 ^ 24
  end.

Section Formats.
Context {HW : Hardware} {App : Type} {EV : DeviceEvents App}.
Context {OB : Object App AudioInfo} (fuel : nat).

Definition write_sample (f : format) : Z -> prog (World App) unit :=
  match f with
  | W8 => Audio_Device_WriteSample8
  | W16 => Audio_Device_WriteSample16
  | W24 _ => Audio_Device_WriteSample24
  end.
Definition read_sample (f : format) : prog (World App) Z :=
  match f with
  | W8 => Audio_Device_ReadSample8
  | W16 => Audio_Device_ReadSample16
  | W24 l => Audio_Device_ReadSample24 l
  end.

(** Samples are written one after the other while the interface is ready; the
    result tells whether all of them were. *)
Fixpoint write_samples (f : format) (ss : list Z) : prog (World App) bool :=
  match ss with
  | [] => mret true
  | s :: ss =>
      r ← Audio_Device_IsReadyForNextSample fuel;
      if r : bool then write_sample f s;; write_samples f ss else mret false
  end.

(** The samples that [n] tries to receive one deliver. *)
Fixpoint read_samples (f : format) (n : nat) : prog (World App) (list Z) :=
  match n with
  | O => mret []
  | S n =>
      r ← Audio_Device_IsSampleReceived fuel;
      if r : bool then s ← read_sample f; ss ← read_samples f n; mret (s :: ss)
      else read_samples f n
  end.
End Formats.

(** ** Arithmetic of the formats *)

Lemma int8_u8 s : in_range W8 s -> int8 (u8 s) = s.
Proof.
  unfold in_range, int8. cbn. intros H. rewrite (u8_small (u8 s)) by apply u8_range. unfold u8.
  destruct (decide (0 <= s)).
  - rewrite Z.mod_small by lia. rewrite (proj2 (Z.ltb_lt _ _)); lia.
  - rewrite <- (Z.mod_add s 1), Z.mod_small by lia. rewrite (proj2 (Z.ltb_ge _ _)); lia.
Qed.

Lemma of_le16_u16 s : of_le16 (u8 s) (u8 (Z.shiftr s 8)) = u16 s.
Proof. unfold of_le16. by rewrite Z.lor_comm, lor_halves. Qed.

Lemma int16_u16 s : in_range W16 s -> int16 (u16 s) = s.
Proof.
  unfold in_range, int16. cbn. intros H. rewrite (u16_small (u16 s)) by apply u16_range. unfold u16.
  destruct (decide (0 <= s)).
  - rewrite Z.mod_small by lia. rewrite (proj2 (Z.ltb_lt _ _)); lia.
  - rewrite <- (Z.mod_add s 1), Z.mod_small by lia. rewrite (proj2 (Z.ltb_ge _ _)); lia.
Qed.

Lemma lor_24 lo hi h : Z.lor (Z.shiftl h 16) (of_le16 lo hi) = of_le32 lo hi h 0.
Proof. unfold of_le32, of_le16. rewrite Z.shiftl_0_l, Z.lor_0_l. rewrite <- Z.lor_assoc. f_equal. apply Z.lor_comm. Qed.

Lemma u8_bytes_24 s : of_le32 (u8 s) (u8 (Z.shiftr s 8)) (u8 (Z.shiftr s 16)) 0 = s mod 2 ^ 24.
Proof.
  rewrite of_le32_sum by (apply u8_range || by unfold is_u8). unfold u8.
  rewrite !Z.shiftr_div_pow2 by lia. change 256 with (2 ^ 8).
  pose proof (Z.div_mod s (2 ^ 8) ltac:(lia)) as E0.
  pose proof (Z.div_mod (s / 2 ^ 8) (2 ^ 8) ltac:(lia)) as E1.
  pose proof (Z.div_mod (s / 2 ^ 16) (2 ^ 8) ltac:(lia)) as E2.
  rewrite Z.div_div in E1 by lia. change (2 ^ 8 * 2 ^ 8) with (2 ^ 16) in E1.
  rewrite Z.div_div in E2 by lia. change (2 ^ 16 * 2 ^ 8) with (2 ^ 24) in E2.
  rewrite (Z.mod_eq s (2 ^ 24)) by lia. lia.
Qed.

Lemma u8_u16_low s : u8 (Z.land (u16 s) 0xFF) = u8 s.
Proof.
  apply Z.bits_inj'. intros i Hi. change 0xFF with (Z.ones 8). rewrite !testbit_u8, Z.land_spec by done.
  destruct (Z.ltb_spec i 8); [|by rewrite !andb_false_r].
  rewrite Z.ones_spec_low by lia. unfold u16. change 65536 with (2 ^ 16).
  by rewrite Z.mod_pow2_bits_low, !andb_true_r by lia.
Qed.

Lemma u8_u16_high s : u8 (Z.shiftr (u16 s) 8) = u8 (Z.shiftr s 8).
Proof.
  apply Z.bits_inj'. intros i Hi. rewrite !testbit_u8, !Z.shiftr_spec by done.
  destruct (Z.ltb_spec i 8); [|by rewrite !andb_false_r].
  unfold u16. change 65536 with (2 ^ 16). by rewrite Z.mod_pow2_bits_low by lia.
Qed.

Lemma enc_sample_length f s : length (enc_sample f s) = sample_bytes f.
Proof. by destruct f. Qed.
Lemma enc_sample_u8 f s : Forall is_u8 (enc_sample f s).
Proof. destruct f; repeat constructor; apply u8_range. Qed.

(** ** The samples on the reference machine *)

(** The bytes of a sample enter the bank, and a full bank is sent. *)
Definition put_all (bs : list Z) (s : EPState) : EPState :=
  mkEP (ep_bank s ++ bs) (ep_sent s) (ep_queue s) (ep_stalled s).
Definition sent_sample (size : nat) (bs : list Z) (s : EPState) : EPState :=
  let s := put_all bs s in if (length (ep_bank s) =? size)%nat then commit s else s.

(** What is left of the queue when the current packet is [p]. *)
Definition unread (p : list Z) (ps : list (list Z)) : list (list Z) :=
  match p with [] => ps | _ => p :: ps end.

(** The interface is configured and the host has started the stream. *)
Definition streaming {App} {OB : Object App AudioInfo} (is_in : Z -> bool) (size : Z -> nat)
    (ein eout : Z) (w : World App) : Prop :=
  USB_DeviceState w = DEVICE_STATE_Configured /\ InterfaceEnabled (State (info w)) = true /\
  Z.land (Address (DataINEndpoint (Config (info w)))) 0x0F = ein /\
  Z.land (Address (DataOUTEndpoint (Config (info w)))) 0x0F = eout /\
  0 < ein < 16 /\ 0 < eout < 16 /\ is_in ein = true /\ is_in eout = false /\
  Size (DataINEndpoint (Config (info w))) = Z.of_nat (size ein) /\ 0 < Z.of_nat (size ein) < 65536.

Section Transport.
Context {HW : Hardware} {is_in : Z -> bool} {size : Z -> nat} {q0 : Z -> list (list Z)}.
Context {DH : DataHost is_in size q0} {App : Type} {EV : DeviceEvents App}.
Context {OB : Object App AudioInfo} (ein eout : Z) (w0 : World App) (fuel : nat).
Hypothesis Hplay : streaming is_in size ein eout w0.
Abbreviation dev := (dev (is_in := is_in) (q0 := q0) (App := App) w0).

(** The prologue of the two tests. *)
Lemma streaming_dev {A} (r : A) (k : AudioInfo -> prog (World App) A) Q e st w : dev e st w ->
  (forall w', dev e st w' -> wp true (k (info w0)) Q w') ->
  wp true (on ← Audio_streaming fuel; if negb on then mret r else i ← the; k i) Q w.
Proof.
  intros H Hk. destruct Hplay as (Hst & Hon & _). unfold Audio_streaming, poll_DeviceState.
  apply wp_bind, wp_bind, wp_bind. unfold wp at 1, interrupt_point. rewrite dh_irq, andb_false_r. apply wp_gets.
  rewrite (dev_DeviceState _ _ _ _ H), Hst. cbn [negb Z.eqb Pos.eqb DEVICE_STATE_Configured].
  apply wp_bind, wp_gets, wp_ret. rewrite (dev_app _ _ _ _ H). unfold info in Hon. rewrite Hon. cbn [negb].
  apply wp_bind, wp_gets. rewrite (dev_app _ _ _ _ H). by apply Hk.
Qed.

Lemma IsReady_dev e st w : dev e st w ->
  wp true (Audio_Device_IsReadyForNextSample fuel) (fun r w' => r = true /\ dev ein st w') w.
Proof.
  intros H. destruct (Hplay) as (_ & _ & Hi & _ & He & _ & Hin & _).
  eapply streaming_dev; [exact H|]. intros w1 H1. apply wp_bind. dev_step SelectEndpoint_dev H1.
  rewrite Hi. intros [] w2 H2. by dev_step IsINReady_dev H2.
Qed.

Lemma IsReceived_dev e st w : dev e st w ->
  wp true (Audio_Device_IsSampleReceived fuel)
    (fun r w' => r = ep_ready false (st eout) /\ dev eout st w') w.
Proof.
  intros H. destruct (Hplay) as (_ & _ & _ & Ho & _ & He & _ & Hout & _).
  eapply streaming_dev; [exact H|]. intros w1 H1. apply wp_bind. dev_step SelectEndpoint_dev H1.
  rewrite Ho. intros [] w2 H2. by dev_step IsOUTReceived_dev H2.
Qed.

Lemma put_dev v b bs st w : u8 v = b -> dev ein (<[ein := put_all bs (st ein)]> st) w ->
  wp true (wr UEDATX v) (fun _ => dev ein (<[ein := put_all (bs ++ [b]) (st ein)]> st)) w.
Proof.
  intros <- H. destruct (Hplay) as (_ & _ & _ & _ & He & _ & Hin & _).
  apply wp_wr. cbn [reg_trunc]. eapply dev_ext; [|eapply dev_at with (f := put (u8 v)); [..|exact H]]; try done.
  - rewrite fn_lookup_insert. unfold put, put_all. cbn [ep_bank]. rewrite <- app_assoc. dev_eq; done.
  - cbn [ep_step]. by rewrite Hin.
Qed.

Lemma send_full_dev st w : (length (ep_bank (st ein)) <= size ein)%nat -> dev ein st w ->
  wp true send_full (fun _ => dev ein (<[ein := if (length (ep_bank (st ein)) =? size ein)%nat
    then commit (st ein) else st ein]> st)) w.
Proof.
  intros Hb H. destruct (Hplay) as (_ & _ & _ & _ & He & _ & Hin & _ & Hs & Hsz).
  unfold send_full. apply wp_bind. dev_step BytesInEndpoint_dev H. intros n w1 [-> H1].
  apply wp_bind, wp_gets. rewrite (dev_app _ _ _ _ H1). fold (info w0). rewrite Hs, Hin. unfold ep_count.
  rewrite u16_small by (unfold is_u16; lia). destruct (Nat.eqb_spec (length (ep_bank (st ein))) (size ein)) as [->|Hn].
  - rewrite Z.eqb_refl. by dev_step ClearIN_dev H1.
  - rewrite (proj2 (Z.eqb_neq _ _)) by lia. apply wp_ret. eapply dev_ext; [|exact H1]. dev_eq; done.
Qed.

Lemma dev_put_nil st w : dev ein st w -> dev ein (<[ein := put_all [] (st ein)]> st) w.
Proof.
  apply dev_ext. intros x. destruct (decide (ein = x)) as [<-|]; [|by rewrite fn_lookup_insert_ne].
  rewrite fn_lookup_insert. unfold put_all. rewrite app_nil_r. by destruct (st ein).
Qed.

(** A sample is written when the bank has room for it. *)
Lemma write_sample_dev f s st w : (length (ep_bank (st ein)) + sample_bytes f <= size ein)%nat -> dev ein st w ->
  wp true (write_sample f s) (fun _ => dev ein (<[ein := sent_sample (size ein) (enc_sample f s) (st ein)]> st)) w.
Proof.
  intros Hb H. apply dev_put_nil in H.
  assert (forall w1, dev ein (<[ein := put_all (enc_sample f s) (st ein)]> st) w1 ->
    wp true send_full (fun _ => dev ein (<[ein := sent_sample (size ein) (enc_sample f s) (st ein)]> st)) w1) as Hfull.
  { intros w1 H1. eapply wp_mono; [apply (send_full_dev _ _) in H1; [exact H1|]|].
    - rewrite fn_lookup_insert. cbn. rewrite length_app, enc_sample_length. lia.
    - rewrite fn_lookup_insert. intros [] w2 H2. eapply dev_ext; [|exact H2]. unfold sent_sample. dev_eq; done. }
  destruct f as [| |l]; cbn [write_sample enc_sample].
  - apply wp_bind. eapply wp_mono; [by eapply (put_dev _ (u8 s)); [apply u8_small, u8_range|]|].
    intros [] w1 H1. by apply Hfull.
  - apply wp_bind. unfold Endpoint_Write_16_LE. apply wp_bind.
    eapply wp_mono; [by eapply (put_dev _ (u8 s)); [apply u8_u16_low|]|]. intros [] w1 H1.
    eapply wp_mono; [by eapply put_dev; [apply u8_u16_high|]|]. intros [] w2 H2. by apply Hfull.
  - apply wp_bind. unfold Endpoint_Write_16_LE. apply wp_bind.
    eapply wp_mono; [by eapply (put_dev _ (u8 s)); [apply u8_u16_low|]|]. intros [] w1 H1.
    eapply wp_mono; [by eapply put_dev; [apply u8_u16_high|]|]. intros [] w2 H2. apply wp_bind.
    eapply wp_mono; [by eapply put_dev; [apply u8_small, u8_range|]|]. intros [] w3 H3. by apply Hfull.
Qed.

(** Full packets of whole samples leave, the rest stays in the bank. *)
Lemma write_samples_dev f ss e st w : (sample_bytes f | size ein)%nat -> (sample_bytes f | length (ep_bank (st ein)))%nat ->
  (length (ep_bank (st ein)) < size ein)%nat -> dev e st w ->
  wp true (write_samples fuel f ss) (fun r w' => r = true /\ exists ps b x,
    concat ps ++ b = ep_bank (st ein) ++ concat (map (enc_sample f) ss) /\
    Forall (fun p => length p = size ein) ps /\ (length b < size ein)%nat /\
    dev x (<[ein := mkEP b (ep_sent (st ein) ++ ps) (ep_queue (st ein)) (ep_stalled (st ein))]> st) w') w.
Proof.
  intros Hd. revert e st w; induction ss as [|s ss IH]; intros e st w Hb Hlt H; cbn [write_samples map concat].
  - apply wp_ret. split; [done|]. exists [], (ep_bank (st ein)), e. rewrite !app_nil_r. split_and!; try done.
    eapply dev_ext; [|exact H]. dev_eq; by destruct (st ein).
  - apply wp_bind. eapply wp_mono; [by apply (IsReady_dev e st)|]. intros r w1 [-> H1]. apply wp_bind.
    assert (length (ep_bank (st ein)) + sample_bytes f <= size ein)%nat as Hroom.
    { destruct Hd as [a Ha], Hb as [c Hc]. rewrite Ha, Hc in *. destruct f; cbn in *; nia. }
    eapply wp_mono; [by apply (write_sample_dev f s st)|]. intros [] w2 H2.
    pose proof (enc_sample_length f s) as Hl.
    assert ((sample_bytes f | length (ep_bank (st ein) ++ enc_sample f s)))%nat as Hd'.
    { rewrite length_app, Hl. destruct Hb as [c ->]. exists (S c). lia. }
    eapply wp_mono; [eapply (IH ein); [..|exact H2]|]; rewrite ?fn_lookup_insert; unfold sent_sample, put_all in *; cbn [ep_bank].
    1,2: destruct (Nat.eqb_spec (length (ep_bank (st ein) ++ enc_sample f s)) (size ein)); cbn; try done; try lia.
    { by exists 0%nat. }
    { rewrite length_app in *. lia. }
    intros r w3 (-> & ps & b & x & Hc & Hp & Hlb & H3). split; [done|].
    destruct (Nat.eqb_spec (length (ep_bank (st ein) ++ enc_sample f s)) (size ein)) as [E|E]; cbn in Hc, H3.
    + exists ((ep_bank (st ein) ++ enc_sample f s) :: ps), b, x. cbn.
      split_and!; [by rewrite <- !app_assoc, Hc|by constructor|done|]. eapply dev_ext; [|exact H3].
      dev_eq; [|done]. by rewrite <- app_assoc.
    + exists ps, b, x. rewrite <- app_assoc in Hc. split_and!; try done. eapply dev_ext; [|exact H3]. dev_eq; done.
Qed.

(** ** Reading *)

(** [st] with the queue [q]. *)
Abbreviation at_queue st q := (dev eout (<[eout := with_queue q (st eout)]> st)).

Lemma at_queue_start st w : dev eout st w -> at_queue st (ep_queue (st eout)) w.
Proof. apply dev_ext. dev_eq; [|done]. by destruct (st eout). Qed.

Lemma at_queue_ext st q q' w : dev eout (<[eout := with_queue q' ((<[eout := with_queue q (st eout)]> st) eout)]>
    (<[eout := with_queue q (st eout)]> st)) w -> at_queue st q' w.
Proof. apply dev_ext. dev_eq; done. Qed.

Lemma read_dev b p ps st w : at_queue st ((b :: p) :: ps) w ->
  wp true (rd UEDATX) (fun v w' => v = b /\ at_queue st (p :: ps) w') w.
Proof.
  destruct (Hplay) as (_ & _ & _ & _ & _ & He & _ & Hout & _). intros H.
  dev_step (Read_8_dev b p ps) H; [by rewrite fn_lookup_insert|]. intros v w1 [-> H1].
  split; [done|]. by eapply at_queue_ext.
Qed.

Lemma release_empty_dev p ps st w : Z.of_nat (length p) < 65536 -> at_queue st (p :: ps) w ->
  wp true release_empty (fun _ => at_queue st (unread p ps)) w.
Proof.
  intros Hl H. destruct (Hplay) as (_ & _ & _ & _ & _ & He & _ & Hout & _).
  unfold release_empty. apply wp_bind. dev_step BytesInEndpoint_dev H. intros n w1 [-> H1].
  rewrite Hout, fn_lookup_insert. unfold ep_count. cbn [hd with_queue ep_queue].
  rewrite u16_small by (unfold is_u16; lia). destruct p as [|b p]; cbn [length].
  - cbn [Z.of_nat Z.eqb when]. dev_step ClearOUT_dev H1. intros [] w2 H2. apply at_queue_ext in H2.
    by rewrite fn_lookup_insert in H2.
  - by rewrite (proj2 (Z.eqb_neq _ 0)) by lia.
Qed.

(** Runs the next access of a sample function. *)
Ltac read_step H := apply wp_bind; eapply wp_mono; [exact (read_dev _ _ _ _ _ H)|]; clear H; intros ? ? [-> H].

Lemma read_sample_dev f s p ps st w : in_range f s -> Z.of_nat (length p) < 65536 ->
  at_queue st ((enc_sample f s ++ p) :: ps) w ->
  wp true (read_sample f) (fun v w' => v = delivered f s /\ at_queue st (unread p ps) w') w.
Proof.
  intros Hr Hl H.
  assert (forall v w1, v = delivered f s -> at_queue st (p :: ps) w1 ->
    wp true (release_empty;; mret v) (fun v w' => v = delivered f s /\ at_queue st (unread p ps) w') w1) as Hend.
  { intros v w1 -> H1. apply wp_bind. eapply wp_mono; [by apply (release_empty_dev p ps)|].
    intros [] w2 H2. by apply wp_ret. }
  destruct f as [| |[]]; cbn [read_sample enc_sample Datatypes.app delivered] in *;
    unfold Audio_Device_ReadSample8, Audio_Device_ReadSample16, Audio_Device_ReadSample24,
      Endpoint_Read_16_LE, Endpoint_Read_8.
  - read_step H. apply Hend; [by apply int8_u8|done].
  - apply wp_bind. read_step H. read_step H. apply wp_ret, Hend; [|done]. rewrite of_le16_u16. by apply int16_u16.
  - apply wp_bind. read_step H. apply wp_bind. read_step H. read_step H.
    apply wp_ret, wp_ret, Hend; [apply lor_24|done].
  - apply wp_bind, wp_bind. read_step H. read_step H. apply wp_ret. read_step H. apply wp_ret, Hend; [|done].
    rewrite lor_24. apply u8_bytes_24.
Qed.

(** Packets of whole samples. *)
Definition sampled (f : format) (ps : list (list Z)) : Prop :=
  Forall (fun p => p <> [] /\ Forall (in_range f) p /\ Z.of_nat (length (concat (map (enc_sample f) p))) < 65536) ps.

Definition on_bus (f : format) : list (list Z) -> list (list Z) := map (fun p => concat (map (enc_sample f) p)).

Lemma unread_bus f p ps : exists ps', unread (concat (map (enc_sample f) p)) (on_bus f ps) = on_bus f ps' /\
  concat ps' = p ++ concat ps /\ (sampled f ps -> Forall (in_range f) p ->
    Z.of_nat (length (concat (map (enc_sample f) p))) < 65536 -> sampled f ps').
Proof.
  destruct p as [|s p].
  - by exists ps.
  - exists ((s :: p) :: ps). split_and!; [by destruct f|done|]. intros H1 H2 H3. by constructor.
Qed.

Lemma read_samples_dev f n qs e st w : sampled f qs -> n = length (concat qs) ->
  ep_queue (st eout) = on_bus f qs -> dev e st w ->
  wp true (read_samples fuel f n) (fun r w' => r = map (delivered f) (concat qs) /\
    exists x, dev x (<[eout := with_queue [] (st eout)]> st) w') w.
Proof.
  revert qs e st w; induction n as [|n IH]; intros qs e st w Hs Hn Hq H; cbn [read_samples].
  - apply wp_ret. destruct qs as [|p ps].
    + split; [done|]. exists e. eapply dev_ext; [|exact H]. dev_eq; [|done]. cbn in Hq. rewrite <- Hq.
      by destruct (st eout).
    + apply Forall_cons_iff in Hs as [[Hp _] _]. by destruct p.
  - destruct qs as [|p ps]; [done|]. apply Forall_cons_iff in Hs as [(Hp & Hr & Hl) Hs].
    destruct p as [|s p]; [done|]. cbn [on_bus map concat] in *. apply Forall_cons_iff in Hr as [Hr1 Hr2].
    apply wp_bind. eapply wp_mono; [by apply (IsReceived_dev e st)|]. intros r w1 [-> H1].
    unfold ep_ready. rewrite Hq. apply wp_bind. apply at_queue_start in H1. rewrite Hq in H1.
    rewrite length_app in Hl.
    eapply wp_mono; [eapply (read_sample_dev f s); [done| |exact H1]; lia|]. intros r w2 [-> H2].
    destruct (unread_bus f p ps) as (ps' & E & Hc & Hok). rewrite E in H2. apply wp_bind.
    eapply wp_mono; [eapply (IH ps'); [..|exact H2]|].
    + apply Hok; [done|done|lia].
    + rewrite Hc. cbn in Hn. by injection Hn.
    + by rewrite fn_lookup_insert.
    + intros r w3 (-> & x & H3). apply wp_ret. rewrite Hc. split; [done|]. exists x.
      eapply dev_ext; [|exact H3]. dev_eq; done.
Qed.
End Transport.

(** Samples go through the stream unchanged.  Samples of any of the three widths,
    written one by one, reach the host as their two's complement bytes in order, in
    packets that fill the endpoint, with less than a packet left in the bank, when
    the endpoint holds a whole number of samples; and samples of 8 and 16 bits that
    the host sends in packets of whole samples are read with their signs, in order,
    until the endpoint is empty. *)
Theorem Audio_samples_transported {HW : Hardware} {is_in size q0} {DH : DataHost is_in size q0}
    {App} {EV : DeviceEvents App} {OB : Object App AudioInfo}
    fuel ein eout f ss qs (w : World App) : streaming is_in size ein eout w ->
  let s := fun x => ep_state is_in q0 x (tr w) in
  ((sample_bytes f | size ein)%nat -> (sample_bytes f | length (ep_bank (s ein)))%nat ->
   (length (ep_bank (s ein)) < size ein)%nat ->
   exists ps b w', write_samples fuel f ss w = Ret true w' /\ app w' = app w /\
     ep_state is_in q0 ein (tr w') = mkEP b (ep_sent (s ein) ++ ps) (ep_queue (s ein)) (ep_stalled (s ein)) /\
     concat ps ++ b = ep_bank (s ein) ++ concat (map (enc_sample f) ss) /\
     Forall (fun p => length p = size ein) ps /\ (length b < size ein)%nat) /\
  (f = W8 \/ f = W16 -> sampled f qs -> ep_queue (s eout) = on_bus f qs ->
   exists w', read_samples fuel f (length (concat qs)) w = Ret (concat qs) w' /\ app w' = app w /\
     ep_state is_in q0 eout (tr w') = with_queue [] (s eout)).
Proof.
  intros Hplay s. split.
  - intros Hd Hb Hl. destruct (wp_total_run _ _ _ (write_samples_dev ein eout w fuel Hplay f ss _
      (fun x => ep_state is_in q0 x (tr w)) w Hd Hb Hl (dev_start w)))
      as (r & w' & Hrun & -> & ps & b & x & Hc & Hp & Hlb & H).
    exists ps, b, w'. split_and!; try done; [by eapply dev_app|]. destruct H as (_ & _ & Hx).
    by rewrite Hx, fn_lookup_insert.
  - intros Hf Hs Hq. destruct (wp_total_run _ _ _ (read_samples_dev ein eout w fuel Hplay f _ qs _
      (fun x => ep_state is_in q0 x (tr w)) w Hs eq_refl Hq (dev_start w))) as (r & w' & Hrun & -> & x & H).
    exists w'. assert (map (delivered f) (concat qs) = concat qs) as E.
    { destruct Hf as [-> | ->]; apply map_id. }
    rewrite E in Hrun. split_and!; try done; [by eapply dev_app|]. destruct H as (_ & _ & Hx).
    by rewrite Hx, fn_lookup_insert.
Qed.

(** 24-bit samples are not read as they are written.  Reading back the bytes that
    [Audio_Device_WriteSample24] sends for a sample: when the operands of the
    expression are evaluated from left to right the bytes come in the wrong order
    (the least significant one is taken as the most significant), and in either order
    the sign is lost, so that no negative sample is ever read. *)
Theorem Audio_sample24_misread {HW : Hardware} {is_in size q0} {DH : DataHost is_in size q0}
    {App} {EV : DeviceEvents App} {OB : Object App AudioInfo}
    ein eout left_first x p ps (w : World App) : streaming is_in size ein eout w ->
  in_range (W24 left_first) x -> selected (tr w) = eout -> Z.of_nat (length p) < 65536 ->
  ep_queue (ep_state is_in q0 eout (tr w)) = (enc_sample (W24 left_first) x ++ p) :: ps ->
  exists v w', Audio_Device_ReadSample24 left_first w = Ret v w' /\
    v = (if left_first then u8 x * 65536 + u8 (Z.shiftr x 16) * 256 + u8 (Z.shiftr x 8) else x mod 2 ^ 24) /\
    0 <= v /\ (x < 0 -> v <> x).
Proof.
  intros Hplay Hr Hsel Hl Hq. pose proof (dev_start (is_in := is_in) (q0 := q0) w) as H. rewrite Hsel in H.
  apply (at_queue_start eout w) in H. rewrite Hq in H.
  destruct (wp_total_run _ _ _ (read_sample_dev ein eout w Hplay _ x p ps
    (fun x => ep_state is_in q0 x (tr w)) w Hr Hl H)) as (v & w' & Hrun & -> & _).
  exists (delivered (W24 left_first) x), w'. split; [exact Hrun|].
  assert (0 <= delivered (W24 left_first) x) as H0.
  { destruct left_first; cbn [delivered]; [|apply Z.mod_pos_bound; lia].
    rewrite of_le32_sum by (apply u8_range || by unfold is_u8).
    pose proof (u8_range x). pose proof (u8_range (Z.shiftr x 8)). pose proof (u8_range (Z.shiftr x 16)).
    unfold is_u8 in *. lia. }
  split_and!; [|done|lia]. destruct left_first; [|done]. cbn [delivered].
  rewrite of_le32_sum by (apply u8_range || by unfold is_u8). lia.
Qed.

(** ** Witnesses *)

Definition demo_card : AudioInfo :=
  mkAudioInfo (mkAudioConfig 0 1 (mkEndpointTable 0x81 8 EP_TYPE_ISOCHRONOUS 1)
    (mkEndpointTable 0x02 8 EP_TYPE_ISOCHRONOUS 1)) (mkAudioState true).
Definition audio_q (q : list (list Z)) (e : Z) : list (list Z) := if e =? 2 then q else [].

Lemma audio_host q : Forall (Forall is_u8) q ->
  DataHost (HW := data_hw pair_in (fun _ => 8%nat) (audio_q q)) pair_in (fun _ => 8%nat) (audio_q q).
Proof. intros Hq. apply data_host. intros e. unfold audio_q. destruct (_ =? _); [done|constructor]. Qed.

Lemma on_bus_u8 f qs : Forall (Forall is_u8) (on_bus f qs).
Proof.
  unfold on_bus. apply Forall_fmap, Forall_forall. intros p _. cbn. apply Forall_concat, Forall_fmap, Forall_forall.
  intros s _. apply enc_sample_u8.
Qed.

Definition tone : list (list Z) := [[-1; 300]; [-32768]].

Lemma Audio_samples_transported_witness :
  let q := audio_q (on_bus W16 tone) in
  let HW := data_hw pair_in (fun _ => 8%nat) q in
  let w := selected_world demo_card 0 in
  (exists ps b w', write_samples (HW := HW) (EV := no_events _) 1 W16 [1; -2; 3; -4; 5] w = Ret true w' /\
     app w' = demo_card /\ ep_state pair_in q 1 (tr w') = mkEP b ps [] false /\
     concat ps ++ b = concat (map (enc_sample W16) [1; -2; 3; -4; 5]) /\
     Forall (fun p => length p = 8%nat) ps /\ (length b < 8)%nat) /\
  (exists w', read_samples (HW := HW) (EV := no_events _) 1 W16 3 w = Ret [-1; 300; -32768] w' /\
     app w' = demo_card /\ ep_state pair_in q 2 (tr w') = mkEP [] [] [] false).
Proof.
  intros q HW w. pose proof (audio_host _ (on_bus_u8 W16 tone)) as DH.
  assert (streaming pair_in (fun _ => 8%nat) 1 2 w) as Hp by (repeat split; cbn; lia).
  destruct (Audio_samples_transported (HW := HW) (EV := no_events _) (DH := DH)
    1 1 2 W16 [1; -2; 3; -4; 5] tone w Hp) as [H1 H2]. split.
  - apply H1; [by exists 4%nat|by exists 0%nat|cbn; lia].
  - apply H2; [by right| |done]. unfold tone, sampled, in_range. repeat constructor; cbn; (done || lia).
Defined.

Lemma Audio_sample24_misread_witness :
  let q := audio_q [enc_sample (W24 true) (-3)] in
  let HW := data_hw pair_in (fun _ => 8%nat) q in
  exists v w', Audio_Device_ReadSample24 (HW := HW) true (selected_world demo_card 2) = Ret v w' /\
    v = u8 (-3) * 65536 + u8 (Z.shiftr (-3) 16) * 256 + u8 (Z.shiftr (-3) 8) /\ 0 <= v /\ (-3 < 0 -> v <> -3).
Proof.
  intros q HW. assert (Forall (Forall is_u8) [enc_sample (W24 true) (-3)]) as Hu
    by (constructor; [apply enc_sample_u8|constructor]).
  assert (streaming pair_in (fun _ => 8%nat) 1 2 (selected_world demo_card 2)) as Hp by (repeat split; cbn; lia).
  exact (Audio_sample24_misread (HW := HW) (EV := no_events _) (DH := audio_host _ Hu)
    1 2 true (-3) [] [] (selected_world demo_card 2) Hp ltac:(unfold in_range; cbn; lia) eq_refl ltac:(cbn; lia) eq_refl).
Defined.
