(* ===== verification/EthernetFrame.v ===== *)
(** The memory of the TCP/IP demo of the RNDIS driver: Demos/Device/ClassDriver/
    RNDISEthernet/Lib/EthernetProtocols.h, Ethernet.[ch] and TCP.h.

    The two frame buffers and the tables are global variables; a pointer into a
    frame is an offset of it, and an access outside a frame is a fault.  The 16- and
    32-bit fields are in the byte order of the processor. *)

From stdpp Require Import base tactics option list numbers.
From Stdlib Require Import ZArith Lia.
From S2P Require Import Prelude Memory.

(** ** Constants *)

Definition FRAME_SIZE : Z := 1500.
Definition ETHERTYPE_IPV4 : Z := 0x0800.
Definition ETHERTYPE_ARP : Z := 0x0806.
Definition PROTOCOL_ICMP : Z := 1.
Definition PROTOCOL_TCP : Z := 6.
Definition PROTOCOL_UDP : Z := 17.
Definition ETHERNET_VER2_MINSIZE : Z := 0x0600.
Definition NO_RESPONSE : Z := 0.
Definition NO_PROCESS : Z := -1.

Definition ServerMACAddress : list Z := [0x00; 0x01; 0x00; 0x01; 0x00; 0x01].
Definition ServerIPAddress : list Z := [10; 0; 0; 2].
Definition BroadcastMACAddress : list Z := [0xFF; 0xFF; 0xFF; 0xFF; 0xFF; 0xFF].
Definition BroadcastIPAddress : list Z := [0xFF; 0xFF; 0xFF; 0xFF].
Definition ClientIPAddress : list Z := [10; 0; 0; 1].
Definition AdapterMACAddress : list Z := [0x02; 0x00; 0x02; 0x00; 0x02; 0x00].

Definition sizeof_Ethernet_Frame_Header : Z := 14.
Definition sizeof_ARP_Header : Z := 28.
Definition sizeof_IP_Header : Z := 20.
Definition sizeof_ICMP_Header : Z := 8.
Definition sizeof_UDP_Header : Z := 8.
Definition sizeof_DHCP_Header : Z := 240.
Definition sizeof_TCP_Header : Z := 20.

(** ** The tables of TCP.c *)

Inductive TCP_PortStates_t : Set := TCP_Port_Closed | TCP_Port_Open.
Inductive TCP_ConnectionStates_t : Set :=
  | TCP_Connection_Listen | TCP_Connection_SYNSent | TCP_Connection_SYNReceived
  | TCP_Connection_Established | TCP_Connection_FINWait1 | TCP_Connection_FINWait2
  | TCP_Connection_CloseWait | TCP_Connection_Closing | TCP_Connection_LastACK
  | TCP_Connection_TimeWait | TCP_Connection_Closed.

#[export] Instance TCP_PortStates_eq_dec : EqDecision TCP_PortStates_t.
Proof. solve_decision. Defined.
#[export] Instance TCP_ConnectionStates_eq_dec : EqDecision TCP_ConnectionStates_t.
Proof. solve_decision. Defined.

Definition MAX_OPEN_TCP_PORTS : nat := 1.
Definition MAX_TCP_CONNECTIONS : nat := 3.
Definition TCP_WINDOW_SIZE : Z := 512.
Definition TCP_PACKETDIR_IN : bool := false.
Definition TCP_PACKETDIR_OUT : bool := true.

Record TCP_ConnectionBuffer_t : Set := mkBuffer {
  Length : Z;
  Data : list Z;
  Direction : bool;
  Ready : bool;
  InUse : bool
}.
Record TCP_ConnectionInfo_t : Set := mkConnInfo {
  SequenceNumberIn : Z;
  SequenceNumberOut : Z;
  Buffer : TCP_ConnectionBuffer_t
}.
Record TCP_ConnectionState_t : Set := mkConn {
  Port : Z;
  RemotePort : Z;
  RemoteAddress : list Z;
  Info : TCP_ConnectionInfo_t;
  conn_State : TCP_ConnectionStates_t
}.

(** The application handlers of the demo; a port is in the table with one or NULL. *)
Inductive Application : Set := Webserver.
Record TCP_PortState_t : Set := mkPort {
  port_Port : Z;
  port_State : TCP_PortStates_t;
  ApplicationHandler : option Application
}.

(** ** The globals *)

Record Net : Set := mkNet {
  FrameIN : list Z;
  FrameIN_Length : Z;
  FrameOUT : list Z;
  FrameOUT_Length : Z;
  PortStateTable : list TCP_PortState_t;
  ConnectionStateTable : list TCP_ConnectionState_t;
  PageBlock : Z
}.

Inductive frame : Set := IN | OUT.

Definition data (f : frame) (n : Net) : list Z := match f with IN => FrameIN n | OUT => FrameOUT n end.
Definition set_data (f : frame) (b : list Z) (n : Net) : Net :=
  match f with
  | IN => mkNet b (FrameIN_Length n) (FrameOUT n) (FrameOUT_Length n) (PortStateTable n)
            (ConnectionStateTable n) (PageBlock n)
  | OUT => mkNet (FrameIN n) (FrameIN_Length n) b (FrameOUT_Length n) (PortStateTable n)
             (ConnectionStateTable n) (PageBlock n)
  end.
Definition set_IN_Length (l : Z) (n : Net) : Net :=
  mkNet (FrameIN n) (u16 l) (FrameOUT n) (FrameOUT_Length n) (PortStateTable n) (ConnectionStateTable n) (PageBlock n).
Definition set_OUT_Length (l : Z) (n : Net) : Net :=
  mkNet (FrameIN n) (FrameIN_Length n) (FrameOUT n) (u16 l) (PortStateTable n) (ConnectionStateTable n) (PageBlock n).
Definition set_Ports (p : list TCP_PortState_t) (n : Net) : Net :=
  mkNet (FrameIN n) (FrameIN_Length n) (FrameOUT n) (FrameOUT_Length n) p (ConnectionStateTable n) (PageBlock n).
Definition set_Connections (c : list TCP_ConnectionState_t) (n : Net) : Net :=
  mkNet (FrameIN n) (FrameIN_Length n) (FrameOUT n) (FrameOUT_Length n) (PortStateTable n) c (PageBlock n).
Definition set_PageBlock (p : Z) (n : Net) : Net :=
  mkNet (FrameIN n) (FrameIN_Length n) (FrameOUT n) (FrameOUT_Length n) (PortStateTable n)
    (ConnectionStateTable n) (u8 p).

(** The globals at reset. *)
Definition zero_Buffer : TCP_ConnectionBuffer_t := mkBuffer 0 (replicate 512 0) false false false.
Definition zero_Connection : TCP_ConnectionState_t :=
  mkConn 0 0 [0; 0; 0; 0] (mkConnInfo 0 0 zero_Buffer) TCP_Connection_Listen.
Definition zero_Net : Net :=
  mkNet (replicate 1500 0) 0 (replicate 1500 0) 0 (replicate MAX_OPEN_TCP_PORTS (mkPort 0 TCP_Port_Closed None))
    (replicate MAX_TCP_CONNECTIONS zero_Connection) 0.

(** ** Accesses to the frames *)

(** The [n] bytes at offset [o]; [None] outside the object. *)
Definition bytes_at (b : list Z) (o n : Z) : option (list Z) :=
  if (0 <=? o) && (0 <=? n) && (o + n <=? Z.of_nat (length b))
  then Some (take (Z.to_nat n) (drop (Z.to_nat o) b)) else None.

Abbreviation P := (prog Net).

Definition load_bytes (f : frame) (o n : Z) : P (list Z) :=
  b ← gets (data f); checked (bytes_at b o n).
Definition load8 (f : frame) (o : Z) : P Z :=
  bs ← load_bytes f o 1; mret (hd 0 bs).
Definition load16 (f : frame) (o : Z) : P Z :=
  b ← gets (data f); checked (get16 b o).
Definition load32 (f : frame) (o : Z) : P Z :=
  b ← gets (data f); checked (get32 b o).
Definition store_bytes (f : frame) (o : Z) (bs : list Z) : P unit :=
  b ← gets (data f); b' ← checked (put_at b o bs); modify (set_data f b').
Definition store8 (f : frame) (o v : Z) : P unit := store_bytes f o [u8 v].
Definition store16 (f : frame) (o v : Z) : P unit := store_bytes f o (le16 v).
Definition store32 (f : frame) (o v : Z) : P unit := store_bytes f o (le32 v).

(** A bit field of [width] bits from bit [lo] of a byte. *)
Definition store_bits (f : frame) (o lo width v : Z) : P unit :=
  x ← load8 f o;
  let mask := Z.shiftl (Z.ones width) lo in
  store8 f o (Z.lor (Z.land x (Z.lnot mask)) (Z.land (Z.shiftl v lo) mask)).
Definition load_bits (f : frame) (o lo width : Z) : P Z :=
  x ← load8 f o; mret (Z.land (Z.shiftr x lo) (Z.ones width)).

(** [memcmp(a, b, sizeof( *a)) == 0] with a constant *)
Definition same (a b : list Z) : bool := bool_decide (a = b).

(** ** The checksum *)

(** The 16-bit words of a buffer; an odd last byte is left out. *)
Fixpoint words (bs : list Z) : list Z :=
  match bs with b0 :: b1 :: r => of_le16 b0 b1 :: words r | _ => [] end.

(** [while (Checksum & 0xFFFF0000) Checksum = (Checksum & 0xFFFF) + (Checksum >> 16)] *)
Fixpoint fold_carry {W} (fuel : nat) (Checksum : Z) : prog W Z :=
  match fuel with
  | O => nofuel
  | S fuel =>
      if tst Checksum 0xFFFF0000
      then fold_carry fuel (u32 (Z.land Checksum 0xFFFF + Z.shiftr Checksum 16))
      else mret Checksum
  end.

Definition add_words (Checksum : Z) (ws : list Z) : Z :=
  fold_left (fun c w => u32 (c + w)) ws Checksum.

Definition Ethernet_Checksum16 (f : frame) (Data Bytes : Z) : P Z :=
  bs ← load_bytes f Data (2 * Z.shiftr Bytes 1);
  c ← fold_carry 4 (add_words 0 (words bs));
  mret (u16 (Z.lnot c)).
