(* ===== verification/FrameSpec.v ===== *)
(** The frames of the TCP/IP demo as byte strings: fields of a buffer before and
    after stores, the steps of the code on the frames, and the internet checksum
    (RFC 1071) with the law that a message that carries its checksum verifies. *)

From stdpp Require Import base tactics option list numbers.
From Stdlib Require Import ZArith Lia.
From S2P Require Import Prelude Memory EthernetFrame.

(** ** Slices and stores *)

Abbreviation len l := (Z.of_nat (length l)).

Definition slice (b : list Z) (o n : Z) : list Z := take (Z.to_nat n) (drop (Z.to_nat o) b).
Definition put (b : list Z) (o : Z) (bs : list Z) : list Z := list_inserts (Z.to_nat o) bs b.

(** The bytes [bs] are at offset [o] of [b]. *)
Definition holds (b : list Z) (o : Z) (bs : list Z) : Prop := slice b o (len bs) = bs.

Lemma length_put b o bs : length (put b o bs) = length b.
Proof. apply length_inserts. Qed.

Lemma length_slice b o n : 0 <= o -> 0 <= n -> o + n <= len b -> length (slice b o n) = Z.to_nat n.
Proof. intros. unfold slice. rewrite length_take, length_drop. lia. Qed.

Lemma lookup_slice b o n i : (i < Z.to_nat n)%nat -> slice b o n !! i = b !! (Z.to_nat o + i)%nat.
Proof. intros. unfold slice. by rewrite lookup_take_lt, lookup_drop. Qed.

Lemma lookup_slice_ge b o n i : (Z.to_nat n <= i)%nat -> slice b o n !! i = None.
Proof. intros. unfold slice. by rewrite lookup_take_ge. Qed.

Lemma slice_eq b b' o o' n : (forall i, (i < Z.to_nat n)%nat -> b !! (Z.to_nat o + i)%nat = b' !! (Z.to_nat o' + i)%nat) ->
  slice b o n = slice b' o' n.
Proof.
  intros H. apply list_eq. intros i. destruct (decide (i < Z.to_nat n)%nat).
  - rewrite !lookup_slice by done. auto.
  - by rewrite !lookup_slice_ge by lia.
Qed.

Lemma slice_put_ne b o bs o' n : 0 <= o -> 0 <= o' -> 0 <= n -> o' + n <= o \/ o + len bs <= o' ->
  slice (put b o bs) o' n = slice b o' n.
Proof.
  intros. apply slice_eq. intros i Hi. unfold put.
  destruct (decide (Z.to_nat o' + i < Z.to_nat o)%nat).
  - by rewrite list_lookup_inserts_lt.
  - rewrite list_lookup_inserts_ge; [done|lia].
Qed.

Lemma slice_put_in b o bs o' n : 0 <= o <= o' -> 0 <= n -> o' + n <= o + len bs -> o + len bs <= len b ->
  slice (put b o bs) o' n = slice bs (o' - o) n.
Proof.
  intros. apply slice_eq. intros i Hi. unfold put. rewrite list_lookup_inserts by lia. f_equal. lia.
Qed.

Lemma slice_all bs n : n = len bs -> slice bs 0 n = bs.
Proof. intros ->. unfold slice. rewrite drop_0. apply take_ge. lia. Qed.

Lemma slice_put_eq b o bs n : 0 <= o -> n = len bs -> o + n <= len b -> slice (put b o bs) o n = bs.
Proof. intros. rewrite slice_put_in, Z.sub_diag by lia. by apply slice_all. Qed.

Lemma slice_app b o n m : 0 <= o -> 0 <= n -> 0 <= m -> slice b o (n + m) = slice b o n ++ slice b (o + n) m.
Proof.
  intros. unfold slice. rewrite Z2Nat.inj_add by lia.
  replace (drop (Z.to_nat (o + n)) b) with (drop (Z.to_nat n) (drop (Z.to_nat o) b))
    by (rewrite drop_drop; f_equal; lia).
  generalize (drop (Z.to_nat o) b). intros l. rewrite <- (take_drop (Z.to_nat n) l) at 1.
  destruct (decide (Z.to_nat n <= length l)%nat) as [Hn|Hn].
  - rewrite take_app_add' by (rewrite length_take; lia). done.
  - rewrite !(take_ge l), (drop_ge l) by lia. rewrite app_nil_r, take_ge by lia. by rewrite take_nil, app_nil_r.
Qed.

Lemma slice_0 b o : slice b o 0 = [].
Proof. done. Qed.

Lemma slice_u8 b o n : Forall is_u8 b -> Forall is_u8 (slice b o n).
Proof. intros. by apply Forall_take, Forall_drop. Qed.

Lemma put_u8 b o bs : Forall is_u8 b -> Forall is_u8 bs -> Forall is_u8 (put b o bs).
Proof.
  unfold put. generalize (Z.to_nat o). intros n Hb Hbs. revert n. induction Hbs as [|x bs Hx _ IH]; intros n; [done|].
  cbn [list_inserts]. by apply Forall_insert.
Qed.

Lemma holds_length b o bs : holds b o bs -> bs <> [] -> 0 <= o -> o + len bs <= len b.
Proof.
  unfold holds, slice. intros H Hne Ho. apply (f_equal length) in H. rewrite length_take, length_drop in H.
  assert (length bs <> 0%nat) by (by destruct bs). lia.
Qed.

Lemma holds_app b o x y : 0 <= o -> holds b o x -> holds b (o + len x) y -> holds b o (x ++ y).
Proof.
  unfold holds. intros Ho Hx Hy. rewrite length_app, Nat2Z.inj_add, slice_app by lia. by rewrite Hx, Hy.
Qed.

Lemma holds_app_inv b o x y : 0 <= o -> holds b o (x ++ y) -> holds b o x /\ holds b (o + len x) y.
Proof.
  unfold holds. intros Ho H. rewrite length_app, Nat2Z.inj_add, slice_app in H by lia.
  destruct (decide (y = [])) as [-> | Hy].
  { rewrite (app_nil_r x) in H. split; [|done]. change (slice b (o + len x) (len (@nil Z))) with (@nil Z) in H. by rewrite app_nil_r in H. }
  apply app_inj_1 in H; [done|]. unfold slice at 1. rewrite length_take, length_drop.
  apply (f_equal length) in H. unfold slice in H. rewrite !length_app, !length_take, !length_drop in H.
  assert (length y <> 0%nat) by (by destruct y). lia.
Qed.

Lemma holds_slice b o bs k n : holds b o bs -> 0 <= o -> 0 <= k -> 0 <= n -> k + n <= len bs ->
  slice b (o + k) n = slice bs k n.
Proof.
  unfold holds. intros H ????. rewrite <- H at 1. apply slice_eq. intros i Hi.
  rewrite lookup_slice by lia. f_equal. lia.
Qed.

Lemma holds_put_ne b o bs o' x : 0 <= o -> 0 <= o' -> o' + len x <= o \/ o + len bs <= o' ->
  holds b o' x -> holds (put b o bs) o' x.
Proof. unfold holds. intros. by rewrite slice_put_ne by lia. Qed.

Lemma holds_put_eq b o bs : 0 <= o -> o + len bs <= len b -> holds (put b o bs) o bs.
Proof. unfold holds. intros. by apply slice_put_eq. Qed.

Lemma put_app b o x y : 0 <= o -> put b o (x ++ y) = put (put b o x) (o + len x) y.
Proof. intros. unfold put. rewrite list_inserts_app_l. f_equal. lia. Qed.

Lemma put_cover b o x o' y : 0 <= o' <= o -> o + len x <= o' + len y -> o' + len y <= len b ->
  put (put b o x) o' y = put b o' y.
Proof.
  intros. apply list_eq. intros i. unfold put.
  destruct (decide (Z.to_nat o' <= i < Z.to_nat o' + length y)%nat).
  - rewrite !list_lookup_inserts by (rewrite ?length_inserts; lia). done.
  - destruct (decide (i < Z.to_nat o')%nat).
    + by rewrite !list_lookup_inserts_lt by lia.
    + by rewrite !list_lookup_inserts_ge by lia.
Qed.

Lemma put_prepend b o x y : 0 <= o -> o + len x + len y <= len b -> put (put b (o + len x) y) o x = put b o (x ++ y).
Proof.
  intros. apply list_eq. intros i. unfold put. destruct (decide (Z.to_nat o <= i < Z.to_nat o + length x)%nat).
  - rewrite !list_lookup_inserts by (rewrite ?length_inserts, ?length_app; lia). by rewrite lookup_app_l by lia.
  - destruct (decide (i < Z.to_nat o)%nat); [by rewrite !list_lookup_inserts_lt by lia|].
    rewrite (list_lookup_inserts_ge _ _ x) by lia. destruct (decide (i < Z.to_nat o + length x + length y)%nat).
    + rewrite !list_lookup_inserts, lookup_app_r by (rewrite ?length_app; lia). f_equal. lia.
    + by rewrite !list_lookup_inserts_ge by (rewrite ?length_app; lia).
Qed.

Lemma put_split b bs : (length bs <= length b)%nat -> put b 0 bs = bs ++ drop (length bs) b.
Proof.
  intros. unfold put. rewrite Z2Nat.inj_0. rewrite <- (take_drop (length bs) b) at 1. apply list_inserts_0_r.
  rewrite length_take. lia.
Qed.

Lemma slice_prefix b o n m x : slice b o n = x -> m <= n -> slice b o m = take (Z.to_nat m) x.
Proof. intros <- ?. unfold slice. rewrite take_take. f_equal. lia. Qed.

(** ** The accesses of the code *)

Lemma bytes_at_slice b o n : 0 <= o -> 0 <= n -> o + n <= len b -> bytes_at b o n = Some (slice b o n).
Proof. intros. unfold bytes_at. by rewrite !(proj2 (Z.leb_le _ _)) by lia. Qed.

Lemma put_at_put b o bs : 0 <= o -> o + len bs <= len b -> put_at b o bs = Some (put b o bs).
Proof.
  intros Ho Hl. destruct (put_at_spec b o bs Ho Hl) as (b' & -> & Hlen & Hold & Hnew & _). f_equal.
  apply list_eq. intros i. unfold put.
  destruct (decide (Z.to_nat o <= i < Z.to_nat o + length bs)%nat).
  - rewrite list_lookup_inserts by lia. rewrite <- Hnew by lia. f_equal. lia.
  - rewrite Hold by lia. destruct (decide (i < Z.to_nat o)%nat);
      [by rewrite list_lookup_inserts_lt|by rewrite list_lookup_inserts_ge by lia].
Qed.

(** The word two or four bytes are. *)
Definition word16 (bs : list Z) : Z := match bs with [a; b] => of_le16 a b | _ => 0 end.
Definition word32 (bs : list Z) : Z := match bs with [a; b; c; d] => of_le32 a b c d | _ => 0 end.

Lemma get16_slice b o : 0 <= o -> o + 2 <= len b -> get16 b o = Some (word16 (slice b o 2)).
Proof.
  intros Ho Hl. unfold get16, slice. rewrite (proj2 (Z.ltb_ge o 0)) by done.
  destruct (drop (Z.to_nat o) b) as [|x [|y l]] eqn:E; [..|done];
    apply (f_equal length) in E; rewrite length_drop in E; cbn in E; lia.
Qed.

Lemma get32_slice b o : 0 <= o -> o + 4 <= len b -> get32 b o = Some (word32 (slice b o 4)).
Proof.
  intros Ho Hl. unfold get32, slice. rewrite (proj2 (Z.ltb_ge o 0)) by done.
  destruct (drop (Z.to_nat o) b) as [|x [|y [|z [|t l]]]] eqn:E; [..|done];
    apply (f_equal length) in E; rewrite length_drop in E; cbn in E; lia.
Qed.

Section Steps.
Context {t : bool}.

Lemma wp_load_bytes f o k Q n : 0 <= o -> 0 <= k -> o + k <= len (data f n) ->
  Q (slice (data f n) o k) n -> wp t (load_bytes f o k) Q n.
Proof.
  intros. unfold load_bytes. apply wp_bind, wp_gets. eapply wp_checked; [by apply bytes_at_slice|done].
Qed.

Lemma wp_load8 f o Q n : 0 <= o -> o + 1 <= len (data f n) ->
  Q (hd 0 (slice (data f n) o 1)) n -> wp t (load8 f o) Q n.
Proof. intros. unfold load8. apply wp_bind, wp_load_bytes; [lia..|]. by apply wp_ret. Qed.

Lemma wp_load16 f o Q n : 0 <= o -> o + 2 <= len (data f n) ->
  Q (word16 (slice (data f n) o 2)) n -> wp t (load16 f o) Q n.
Proof.
  intros. unfold load16. apply wp_bind, wp_gets. eapply wp_checked; [by apply get16_slice|done].
Qed.

Lemma wp_load32 f o Q n : 0 <= o -> o + 4 <= len (data f n) ->
  Q (word32 (slice (data f n) o 4)) n -> wp t (load32 f o) Q n.
Proof.
  intros. unfold load32. apply wp_bind, wp_gets. eapply wp_checked; [by apply get32_slice|done].
Qed.

Lemma wp_store_bytes f o bs Q n : 0 <= o -> o + len bs <= len (data f n) ->
  Q tt (set_data f (put (data f n) o bs) n) -> wp t (store_bytes f o bs) Q n.
Proof.
  intros. unfold store_bytes. apply wp_bind, wp_gets, wp_bind. eapply wp_checked; [by apply put_at_put|].
  by apply wp_modify.
Qed.

Lemma wp_store8 f o v Q n : 0 <= o -> o + 1 <= len (data f n) ->
  Q tt (set_data f (put (data f n) o [u8 v]) n) -> wp t (store8 f o v) Q n.
Proof. intros. by apply wp_store_bytes. Qed.

Lemma wp_store16 f o v Q n : 0 <= o -> o + 2 <= len (data f n) ->
  Q tt (set_data f (put (data f n) o (le16 v)) n) -> wp t (store16 f o v) Q n.
Proof. intros. by apply wp_store_bytes. Qed.

Lemma wp_store32 f o v Q n : 0 <= o -> o + 4 <= len (data f n) ->
  Q tt (set_data f (put (data f n) o (le32 v)) n) -> wp t (store32 f o v) Q n.
Proof. intros. by apply wp_store_bytes. Qed.

(** A bit field is a read and a write of its byte. *)
Definition put_bits (x lo width v : Z) : Z :=
  u8 (Z.lor (Z.land x (Z.lnot (Z.shiftl (Z.ones width) lo))) (Z.land (Z.shiftl v lo) (Z.shiftl (Z.ones width) lo))).

Lemma wp_store_bits f o lo width v Q n : 0 <= o -> o + 1 <= len (data f n) ->
  Q tt (set_data f (put (data f n) o [put_bits (hd 0 (slice (data f n) o 1)) lo width v]) n) ->
  wp t (store_bits f o lo width v) Q n.
Proof. intros. unfold store_bits. apply wp_bind, wp_load8; [done..|]. by apply wp_store8. Qed.

Lemma wp_load_bits f o lo width Q n : 0 <= o -> o + 1 <= len (data f n) ->
  Q (Z.land (Z.shiftr (hd 0 (slice (data f n) o 1)) lo) (Z.ones width)) n ->
  wp t (load_bits f o lo width) Q n.
Proof. intros. unfold load_bits. apply wp_bind, wp_load8; [done..|]. by apply wp_ret. Qed.
End Steps.

(** ** Byte order *)

Lemma of_le16_be16 x : SwapEndian_16 (word16 (be16 x)) = u16 x.
Proof.
  unfold word16, be16, SwapEndian_16.
  pose proof (le16_of_le16 (u8 (Z.shiftr x 8)) (u8 x) (u8_range _) (u8_range _)) as E.
  unfold le16 in E. injection E as -> ->.
  rewrite <- (of_le16_le16 (u16 x)) by apply u16_range. f_equal.
  - unfold u8, u16. Z.div_mod_to_equations; lia.
  - unfold u8, u16. rewrite !Z.shiftr_div_pow2 by lia. change (2 ^ 8) with 256. Z.div_mod_to_equations; lia.
Qed.

Lemma of_le32_be32 x : SwapEndian_32 (word32 (be32 x)) = u32 x.
Proof.
  unfold word32, be32, SwapEndian_32.
  pose proof (le32_bytes (u8 (Z.shiftr x 24)) (u8 (Z.shiftr x 16)) (u8 (Z.shiftr x 8)) (u8 x)
    (u8_range _) (u8_range _) (u8_range _) (u8_range _)) as E.
  unfold le32 in E. injection E as -> -> -> ->.
  rewrite <- (of_le32_le32 (u32 x)) by apply u32_range.
  f_equal; unfold u8, u32; rewrite ?Z.shiftr_div_pow2 by lia;
    change (2 ^ 8) with 256; change (2 ^ 16) with 65536; change (2 ^ 24) with 16777216;
    Z.div_mod_to_equations; lia.
Qed.

(** ** The internet checksum *)

(** The sum of 16-bit words with the carries added back (RFC 1071). *)
Definition ones_sum (x : Z) : Z := if x =? 0 then 0 else (x - 1) mod 65535 + 1.
Definition sum (ws : list Z) : Z := foldr Z.add 0 ws.

(** The words of a message; an odd last byte is padded with a zero. *)
Fixpoint inet_words (bs : list Z) : list Z :=
  match bs with
  | b0 :: b1 :: r => of_le16 b0 b1 :: inet_words r
  | [b] => [b]
  | [] => []
  end.
Definition inet_checksum (bs : list Z) : Z := 65535 - ones_sum (sum (inet_words bs)).

(** The test of a receiver. *)
Definition verifies (bs : list Z) : Prop := ones_sum (sum (inet_words bs)) = 65535.

Lemma sum_app a b : sum (a ++ b) = sum a + sum b.
Proof. unfold sum. induction a as [|x a IH]; cbn in *; lia. Qed.

Lemma ones_sum_range x : 0 <= x -> is_u16 (ones_sum x).
Proof. intros. unfold ones_sum, is_u16. destruct (Z.eqb_spec x 0); [lia|]. pose proof (Z.mod_pos_bound (x - 1) 65535). lia. Qed.

Lemma ones_sum_mod x : 0 <= x -> ones_sum x mod 65535 = x mod 65535.
Proof. intros. unfold ones_sum. destruct (Z.eqb_spec x 0) as [->|]; [done|]. Z.div_mod_to_equations; lia. Qed.

Lemma ones_sum_full x : 0 < x -> x mod 65535 = 0 -> ones_sum x = 65535.
Proof.
  intros H E. unfold ones_sum. rewrite (proj2 (Z.eqb_neq x 0)) by lia.
  apply Z.mod_divide in E as [k ->]; [|lia]. replace (k * 65535 - 1) with (65534 + (k - 1) * 65535) by lia.
  by rewrite Z.mod_add, Z.mod_small by lia.
Qed.

Lemma inet_words_app a b : Nat.Even (length a) -> inet_words (a ++ b) = inet_words a ++ inet_words b.
Proof.
  intros [k Hk]. revert a Hk. induction k as [|k IH]; intros a Hk.
  - by destruct a.
  - destruct a as [|x [|y a]]; [done|cbn in Hk; lia|]. cbn [Datatypes.app inet_words]. f_equal. apply IH. cbn in Hk. lia.
Qed.

Lemma inet_words_u16 bs : Forall is_u8 bs -> Forall is_u16 (inet_words bs).
Proof.
  remember (length bs) as n eqn:E. revert bs E. induction (lt_wf n) as [n _ IH]. intros bs E H.
  destruct bs as [|x [|y bs]]; cbn [inet_words].
  - constructor.
  - inversion_clear H as [|? ? Hx _]. constructor; [|constructor]. unfold is_u8, is_u16 in *; lia.
  - inversion_clear H as [|? ? Hx H0]. inversion_clear H0 as [|? ? Hy H].
    constructor; [by apply of_le16_range|]. eapply IH; [|done|done]. cbn in E. lia.
Qed.

Lemma sum_bounds ws : Forall is_u16 ws -> 0 <= sum ws <= 65535 * len ws.
Proof. unfold is_u16. induction 1 as [|x ws Hx _ IH]; cbn [sum foldr length] in *; [|unfold sum in *]; lia. Qed.

Lemma length_inet_words bs : 2 * len (inet_words bs) <= len bs + 1.
Proof.
  remember (length bs) as n eqn:E. revert bs E. induction (lt_wf n) as [n _ IH]. intros bs E.
  destruct bs as [|x [|y bs]]; cbn [inet_words length] in *; [lia|lia|].
  specialize (IH (length bs) ltac:(lia) bs eq_refl). lia.
Qed.

Lemma words_even bs : Nat.Even (length bs) -> words bs = inet_words bs.
Proof.
  intros [k Hk]. revert bs Hk. induction k as [|k IH]; intros bs Hk; [by destruct bs|].
  destruct bs as [|x [|y bs]]; [done|cbn in Hk; lia|]. cbn [words inet_words]. f_equal. apply IH. cbn in Hk. lia.
Qed.

(** A message with its checksum at an even offset verifies. *)
Lemma checksum_verifies a b : Nat.Even (length a) -> Forall is_u8 a -> Forall is_u8 b ->
  verifies (a ++ le16 (inet_checksum (a ++ [0; 0] ++ b)) ++ b).
Proof.
  intros He Ha Hb. unfold verifies. rewrite !inet_words_app by done. rewrite !sum_app.
  pose proof (sum_bounds _ (inet_words_u16 a Ha)). pose proof (sum_bounds _ (inet_words_u16 b Hb)).
  assert (sum (inet_words (a ++ [0; 0] ++ b)) = sum (inet_words a) + sum (inet_words b)) as E.
  { rewrite inet_words_app, sum_app by done. done. }
  set (c := inet_checksum _). assert (is_u16 c) as Hc.
  { unfold c, inet_checksum. rewrite E. pose proof (ones_sum_range (sum (inet_words a) + sum (inet_words b))).
    unfold is_u16 in *. lia. }
  cbn [inet_words le16 Datatypes.app]. rewrite of_le16_le16 by done. cbn [sum foldr]. fold (sum (inet_words b)).
  unfold c, inet_checksum in *. rewrite E in *. set (s := sum (inet_words a) + sum (inet_words b)) in *.
  pose proof (ones_sum_mod s ltac:(lia)). pose proof (ones_sum_range s ltac:(lia)).
  replace (sum (inet_words a) + (65535 - ones_sum s + sum (inet_words b))) with (s + 65535 - ones_sum s) by lia.
  unfold is_u16 in *. apply ones_sum_full; [unfold ones_sum; destruct (Z.eqb_spec s 0); [lia|];
    pose proof (Z.mod_le (s - 1) 65535 ltac:(lia) ltac:(lia)); lia|].
  Z.div_mod_to_equations; lia.
Qed.

(** The loops of the code compute it. *)
Lemma tst_high c : is_u32 c -> tst c 0xFFFF0000 = (65536 <=? c).
Proof.
  intros Hc. unfold tst, is_u32 in *. change 0xFFFF0000 with (Z.shiftl (Z.ones 16) 16).
  destruct (Z.leb_spec 65536 c).
  - apply negb_true_iff, Z.eqb_neq. intros E. apply (f_equal (fun x => Z.shiftr x 16)) in E.
    rewrite Z.shiftr_land, Z.shiftr_shiftl_l, Z.shiftl_0_r, Z.land_ones, Z.shiftr_div_pow2 in E by lia.
    change (2 ^ 16) with 65536 in E. change (Z.shiftr 0 16) with 0 in E. Z.div_mod_to_equations; lia.
  - apply negb_false_iff, Z.eqb_eq. apply land_shiftl_small; lia.
Qed.

Lemma fold_carry_ones {W} c (w : W) : is_u32 c -> fold_carry 4 c w = Ret (ones_sum c) w.
Proof.
  assert (forall x, 0 <= x < 65536 -> ones_sum x = x) as Hsmall.
  { intros x Hx. unfold ones_sum. destruct (Z.eqb_spec x 0); [lia|]. rewrite Z.mod_small; lia. }
  assert (forall x, 65536 <= x < 4294967296 ->
    exists y, u32 (Z.land x 0xFFFF + Z.shiftr x 16) = y /\ y = x mod 65536 + x / 65536 /\ ones_sum y = ones_sum x) as Hstep.
  { intros x Hx. eexists. split; [reflexivity|]. change 0xFFFF with (Z.ones 16).
    rewrite Z.land_ones, Z.shiftr_div_pow2 by lia. change (2 ^ 16) with 65536.
    rewrite u32_small by (unfold is_u32; Z.div_mod_to_equations; lia). split; [done|]. unfold ones_sum.
    rewrite !(proj2 (Z.eqb_neq _ 0)) by (Z.div_mod_to_equations; lia). f_equal.
    replace (x - 1) with (x mod 65536 + x / 65536 - 1 + x / 65536 * 65535) by (Z.div_mod_to_equations; lia).
    by rewrite Z.mod_add by lia. }
  intros Hc. unfold is_u32 in Hc. cbn [fold_carry]. rewrite tst_high by done. destruct (Z.leb_spec 65536 c).
  2:{ rewrite Hsmall by lia. done. }
  destruct (Hstep c ltac:(lia)) as (y & -> & Hy & <-). rewrite tst_high by (unfold is_u32; Z.div_mod_to_equations; lia).
  destruct (Z.leb_spec 65536 y). 2:{ rewrite Hsmall by (Z.div_mod_to_equations; lia). done. }
  destruct (Hstep y ltac:(Z.div_mod_to_equations; lia)) as (z & -> & Hz & <-).
  assert (0 <= z < 65536) by (Z.div_mod_to_equations; lia).
  rewrite tst_high by (unfold is_u32; lia). destruct (Z.leb_spec 65536 z); [lia|]. by rewrite Hsmall.
Qed.

Lemma add_words_sum ws c : Forall is_u16 ws -> 0 <= c -> c + 65535 * len ws < 4294967296 ->
  add_words c ws = c + sum ws.
Proof.
  unfold add_words. intros H. revert c. induction H as [|x ws Hx Hws IH]; intros c Hc Hl; cbn [fold_left sum foldr length] in *; [lia|].
  unfold is_u16 in Hx. rewrite u32_small by (unfold is_u32; lia). rewrite IH by lia. unfold sum. lia.
Qed.

Lemma u16_lnot c : is_u16 c -> u16 (Z.lnot c) = 65535 - c.
Proof. unfold is_u16, u16. intros. unfold Z.lnot. Z.div_mod_to_equations; lia. Qed.

(** [Ethernet_Checksum16] is the checksum of RFC 1071 of the whole words. *)
Lemma wp_Ethernet_Checksum16 t f o n Q w : 0 <= o -> 0 <= n -> o + n <= len (data f w) -> n < 65536 ->
  Forall is_u8 (slice (data f w) o (2 * (n / 2))) ->
  Q (inet_checksum (slice (data f w) o (2 * (n / 2)))) w -> wp t (Ethernet_Checksum16 f o n) Q w.
Proof.
  intros Ho Hk Hl Hn Hu HQ. unfold Ethernet_Checksum16. rewrite Z.shiftr_div_pow2 by lia. change (2 ^ 1) with 2.
  assert (0 <= 2 * (n / 2) <= n) by (Z.div_mod_to_equations; lia).
  apply wp_bind, wp_load_bytes; [lia..|].
  assert (len (slice (data f w) o (2 * (n / 2))) = 2 * (n / 2)) as El by (rewrite length_slice; lia).
  rewrite words_even by (exists (Z.to_nat (n / 2)); lia).
  pose proof (length_inet_words (slice (data f w) o (2 * (n / 2)))). pose proof (inet_words_u16 _ Hu) as Hw.
  pose proof (sum_bounds _ Hw). rewrite add_words_sum, Z.add_0_l by (done || lia).
  apply wp_bind. unfold wp at 1. rewrite fold_carry_ones by (unfold is_u32; lia). apply wp_ret.
  rewrite u16_lnot by (apply ones_sum_range; lia). done.
Qed.

(** ** Fields at constant distances from a base

    The code addresses a structure at [o] by [o + a] with constant [a]; whether two
    such fields overlap is computed. *)

Ltac zval := lazymatch goal with |- ?l = _ => let v := eval vm_compute in l in
  lazymatch v with Z0 => idtac | Zpos _ => idtac | Zneg _ => idtac end; exact (@eq_refl Z v) end.
Ltac flen := first [eassumption | zval].

Lemma slice_put_off b o a bs k a' n : len bs = k -> 0 <= o ->
  (0 <=? a) && (0 <=? a') && (0 <=? n) && ((a' + n <=? a) || (a + k <=? a')) = true ->
  slice (put b (o + a) bs) (o + a') n = slice b (o + a') n.
Proof. intros Hk Ho H. bool_hyps. apply slice_put_ne; bool_hyps; lia. Qed.

Lemma slice_put_same b o a bs n : len bs = n -> 0 <= o -> (0 <=? a) = true -> o + a + n <= len b ->
  slice (put b (o + a) bs) (o + a) n = bs.
Proof. intros Hk Ho H ?. bool_hyps. apply slice_put_eq; lia. Qed.

Lemma slice_put_sub b o a bs k a' n : len bs = k -> 0 <= o -> (0 <=? a) && (a <=? a') && (0 <=? n) && (a' + n <=? a + k) = true ->
  o + a + k <= len b -> slice (put b (o + a) bs) (o + a') n = slice bs (a' - a) n.
Proof. intros Hk Ho H ?. bool_hyps. rewrite slice_put_in by lia. f_equal. lia. Qed.

Lemma slice_put_before b o a bs : 0 <= o -> (0 <=? a) = true -> slice (put b (o + a) bs) 0 o = slice b 0 o.
Proof. intros Ho H. bool_hyps. apply slice_put_ne; lia. Qed.

Lemma slice_put_past b o a bs a' n : 0 <= o -> 0 <= a -> a + len bs <= a' ->
  slice (put b (o + a) bs) (o + a') n = slice b (o + a') n.
Proof.
  intros Ho Ha H. destruct (decide (0 <= n)); [apply slice_put_ne; lia|].
  unfold slice. by replace (Z.to_nat n) with 0%nat by lia.
Qed.

Lemma slice_put_after b o a bs k a' n : len bs = k -> 0 <= o -> (0 <=? a) && (a + k <=? a') = true ->
  slice (put b (o + a) bs) (o + a') n = slice b (o + a') n.
Proof. intros <- Ho H. bool_hyps. by apply slice_put_past. Qed.

(** Reads fields after stores. *)
Ltac fields := repeat first
  [ erewrite slice_put_off; [|first [flen | reflexivity]|lia|reflexivity]
  | rewrite slice_put_same; [|first [flen | reflexivity]|lia|reflexivity|rewrite ?length_put; lia]
  | rewrite slice_put_before; [|lia|reflexivity]
  | erewrite slice_put_after; [|flen|lia|reflexivity]
  | erewrite slice_put_sub; [|flen|lia|reflexivity|rewrite ?length_put; lia] ].

(** The fields of a string that is in a buffer. *)
Lemma holds_cut b o a x y k c : holds b (o + a) (x ++ y) -> 0 <= o -> (0 <=? a) = true -> len x = k -> a + k = c ->
  slice b (o + a) k = x /\ holds b (o + c) y.
Proof.
  intros H Ho Ha <- <-. bool_hyps. apply holds_app_inv in H as [H1 H2]; [|lia]. split; [done|].
  by rewrite Z.add_assoc.
Qed.

Lemma holds_last b o x k : holds b o x -> len x = k -> slice b o k = x.
Proof. by intros ? <-. Qed.

Lemma holds_intro b o x k : len x = k -> slice b o k = x -> holds b o x.
Proof. by intros <- ?. Qed.

Lemma holds_join b o a x y k c : len x = k -> a + k = c -> 0 <= o -> (0 <=? a) = true ->
  slice b (o + a) k = x -> holds b (o + c) y -> holds b (o + a) (x ++ y).
Proof. intros <- <- Ho Ha H1 H2. bool_hyps. apply holds_app; [lia|done|]. by rewrite <- Z.add_assoc. Qed.

Ltac split_holds H :=
  lazymatch type of H with
  | holds _ _ (_ ++ _) =>
      let H1 := fresh H in
      eapply holds_cut in H; [|lia|reflexivity|flen|zval]; destruct H as [H1 H]; split_holds H
  | _ => try (eapply holds_last in H; [|flen])
  end.
Ltac regions :=
  lazymatch goal with
  | |- holds _ _ (_ ++ _) => eapply holds_join; [flen|zval|lia|reflexivity|fields; try done|regions; try done]
  | |- holds _ _ _ => first [eapply holds_intro; [flen|fields; done] | unfold holds; fields]
  end.

(** A buffer that has [bs] at [o] and is [b] elsewhere is [put b o bs]. *)
Lemma put_fill b b' o bs K : len bs = K -> length b' = length b -> 0 <= o -> o + K <= len b ->
  slice b' 0 o = slice b 0 o -> holds b' (o + 0) bs -> (forall m, slice b' (o + K) m = slice b (o + K) m) ->
  b' = put b o bs.
Proof.
  intros <- Hl Ho Hb H1 H2 H3. rewrite Z.add_0_r in H2.
  rewrite <- (slice_all b' (len b')), <- (slice_all (put b o bs) (len b')) by (by rewrite ?length_put, ?Hl).
  replace (len b') with (o + (len bs + (len b - o - len bs))) by lia.
  rewrite !slice_app by lia. rewrite !Z.add_0_l. rewrite H1, H2, H3.
  rewrite (slice_put_ne _ _ _ 0), slice_put_eq, slice_put_ne by lia. done.
Qed.
Ltac filled K := apply (put_fill _ _ _ _ K);
  [|by rewrite ?length_put|lia|rewrite ?length_put; lia|fields; try done|regions; try done|intros; fields; try done].

(** A byte of such a string. *)
Lemma wp_load8_at t f o bs k a x Q n : holds (data f n) o bs -> bs !! k = Some x -> 0 <= o -> a = o + Z.of_nat k ->
  Q x n -> wp t (load8 f a) Q n.
Proof.
  intros H Hx Ho -> HQ. pose proof (lookup_lt_Some _ _ _ Hx) as Hk.
  pose proof (holds_length _ _ _ H ltac:(by intros ->) Ho). apply wp_load8; [lia..|].
  rewrite (holds_slice _ _ _ _ _ H) by lia. unfold slice. rewrite Nat2Z.id, (drop_S _ _ _ Hx). done.
Qed.

(** Side conditions about sizes. *)
Ltac lens :=
  cbn [data set_data FrameIN FrameOUT length Datatypes.app le16 le32 be16 be32 replicate
    ServerMACAddress ServerIPAddress ClientIPAddress AdapterMACAddress];
  rewrite ?length_put, ?length_app, ?length_replicate; lia.

(** Constant strings, by computation. *)
Lemma all_computed {A} (P : A -> Prop) (p : A -> bool) l : (forall x, p x = true -> P x) -> forallb p l = true -> Forall P l.
Proof. intros Hp H. apply Forall_forall. intros x Hx. apply Hp. rewrite forallb_forall in H. by apply H. Qed.

Lemma u8_all l : forallb (fun x => (0 <=? x) && (x <? 256)) l = true -> Forall is_u8 l.
Proof. apply all_computed. intros x H. bool_hyps. unfold is_u8. lia. Qed.
Lemma nonzero_all l : forallb (fun x => negb (x =? 0)) l = true -> Forall (fun x => x <> 0) l.
Proof. apply all_computed. intros x H. apply negb_true_iff in H. by apply Z.eqb_neq. Qed.

Ltac u8s :=
  repeat lazymatch goal with
  | |- Forall _ (_ ++ _) => apply Forall_app_2
  | |- Forall _ (_ :: _) => constructor
  | |- Forall _ [] => constructor
  | |- Forall _ ServerIPAddress => unfold ServerIPAddress
  | |- Forall _ ServerMACAddress => unfold ServerMACAddress
  | |- Forall _ (be16 _) => apply be16_u8
  | |- Forall _ (be32 _) => apply be32_u8
  | |- Forall _ (le16 _) => apply le16_u8
  | |- Forall _ (slice _ _ _) => apply slice_u8
  | |- Forall _ (put _ _ _) => apply put_u8
  | |- is_u8 (u8 _) => apply u8_range
  | |- is_u8 (put_bits _ _ _ _) => apply u8_range
  | |- is_u8 _ => first [assumption | unfold is_u8; lia]
  end; try done.

(** A frame buffer that starts with these bytes. *)
Definition buffer (bs : list Z) : list Z := bs ++ replicate (1500 - length bs) 0.

(** The steps of the code on explicit globals. *)
Ltac net_step :=
  lazymatch goal with
  | |- wp _ (_ ≫= _) _ _ => apply wp_bind
  | |- wp _ (mret _) _ _ => apply wp_ret
  | |- wp _ (gets _) _ _ => apply wp_gets
  | |- wp _ (modify _) _ _ => apply wp_modify; unfold set_OUT_Length, set_IN_Length, set_Connections, set_PageBlock
  | |- wp _ (load_bytes _ _ _) _ _ => apply wp_load_bytes; [lens..|]
  | |- wp _ (load8 _ _) _ _ => apply wp_load8; [lens..|]
  | |- wp _ (load16 _ _) _ _ => apply wp_load16; [lens..|]
  | |- wp _ (load32 _ _) _ _ => apply wp_load32; [lens..|]
  | |- wp _ (store_bytes _ _ _) _ _ => apply wp_store_bytes; [lens..|]
  | |- wp _ (store8 _ _ _) _ _ => apply wp_store8; [lens..|]
  | |- wp _ (store16 _ _ _) _ _ => apply wp_store16; [lens..|]
  | |- wp _ (store32 _ _ _) _ _ => apply wp_store32; [lens..|]
  | |- wp _ (store_bits _ _ _ _ _) _ _ => apply wp_store_bits; [lens..|]
  | |- wp _ (load_bits _ _ _ _) _ _ => apply wp_load_bits; [lens..|]
  end; cbn [data set_data FrameIN FrameIN_Length FrameOUT FrameOUT_Length PortStateTable ConnectionStateTable PageBlock].
Ltac net_steps := repeat net_step.
