(* ===== verification/NetProtocols.v ===== *)
(** ARP, ICMP, DHCP and UDP of the TCP/IP demo: Demos/Device/ClassDriver/
    RNDISEthernet/Lib/ARP.[ch], ICMP.[ch], DHCP.[ch] and UDP.[ch].

    [InDataStart] and the like are offsets of the incoming frame, [OutDataStart] of
    the outgoing one; the decoders are compiled out by AppConfig.h. *)

From stdpp Require Import base tactics option list numbers.
From Stdlib Require Import ZArith Lia.
From S2P Require Import Prelude Memory EthernetFrame.

Definition MAC_COMPARE (f : frame) (o : Z) (MAC : list Z) : P bool :=
  m ← load_bytes f o 6; mret (same m MAC).
Definition IP_COMPARE (f : frame) (o : Z) (IP : list Z) : P bool :=
  a ← load_bytes f o 4; mret (same a IP).

(** [*d = *s] for a structure of [n] bytes of the incoming frame. *)
Definition copy_field (d s n : Z) : P unit := bs ← load_bytes IN s n; store_bytes OUT d bs.

(** ** ARP *)

Module ARP.
Definition OPERATION_REQUEST : Z := 1.
Definition OPERATION_REPLY : Z := 2.

(** The fields of [ARP_Header_t]. *)
Definition HardwareType : Z := 0.
Definition ProtocolType : Z := 2.
Definition HLEN : Z := 4.
Definition PLEN : Z := 5.
Definition Operation : Z := 6.
Definition SHA : Z := 8.
Definition SPA : Z := 14.
Definition THA : Z := 18.
Definition TPA : Z := 24.
End ARP.

(** The reply to a request. *)
Definition ARP_reply (InDataStart OutDataStart : Z) : P Z :=
  copy_field (OutDataStart + ARP.HardwareType) (InDataStart + ARP.HardwareType) 2;;
  copy_field (OutDataStart + ARP.ProtocolType) (InDataStart + ARP.ProtocolType) 2;;
  copy_field (OutDataStart + ARP.HLEN) (InDataStart + ARP.HLEN) 1;;
  copy_field (OutDataStart + ARP.PLEN) (InDataStart + ARP.PLEN) 1;;
  store16 OUT (OutDataStart + ARP.Operation) (SwapEndian_16 ARP.OPERATION_REPLY);;
  copy_field (OutDataStart + ARP.THA) (InDataStart + ARP.SHA) 6;;
  copy_field (OutDataStart + ARP.TPA) (InDataStart + ARP.SPA) 4;;
  store_bytes OUT (OutDataStart + ARP.SHA) ServerMACAddress;;
  store_bytes OUT (OutDataStart + ARP.SPA) ServerIPAddress;;
  mret sizeof_ARP_Header.

Definition ARP_ProcessARPPacket (InDataStart OutDataStart : Z) : P Z :=
  p ← load16 IN (InDataStart + ARP.ProtocolType);
  op ← load16 IN (InDataStart + ARP.Operation);
  if (SwapEndian_16 p =? ETHERTYPE_IPV4) && (SwapEndian_16 op =? ARP.OPERATION_REQUEST) then
    ip ← IP_COMPARE IN (InDataStart + ARP.TPA) ServerIPAddress;
    mac ← (if ip : bool then mret true else MAC_COMPARE IN (InDataStart + ARP.THA) ServerMACAddress);
    if mac : bool then ARP_reply InDataStart OutDataStart else mret NO_RESPONSE
  else mret NO_RESPONSE.

(** ** ICMP *)

Module ICMP.
Definition TYPE_ECHOREPLY : Z := 0.
Definition TYPE_ECHOREQUEST : Z := 8.

(** The fields of [ICMP_Header_t]. *)
Definition Type_ : Z := 0.
Definition Code : Z := 1.
Definition Checksum : Z := 2.
Definition Id : Z := 4.
Definition Sequence : Z := 6.
End ICMP.

Definition ICMP_ProcessICMPPacket (InDataStart OutDataStart : Z) : P Z :=
  t ← load8 IN (InDataStart + ICMP.Type_);
  if t =? ICMP.TYPE_ECHOREQUEST then
    store8 OUT (OutDataStart + ICMP.Type_) ICMP.TYPE_ECHOREPLY;;
    store8 OUT (OutDataStart + ICMP.Code) 0;;
    store16 OUT (OutDataStart + ICMP.Checksum) 0;;
    copy_field (OutDataStart + ICMP.Id) (InDataStart + ICMP.Id) 2;;
    copy_field (OutDataStart + ICMP.Sequence) (InDataStart + ICMP.Sequence) 2;;
    FrameLength ← gets FrameIN_Length;
    let DataSize := u16 (FrameLength - (InDataStart + sizeof_ICMP_Header)) in
    bs ← load_bytes IN (InDataStart + sizeof_ICMP_Header) DataSize;
    store_bytes OUT (OutDataStart + sizeof_ICMP_Header) bs;;
    c ← Ethernet_Checksum16 OUT OutDataStart (u16 (DataSize + sizeof_ICMP_Header));
    store16 OUT (OutDataStart + ICMP.Checksum) c;;
    mret (int16 (DataSize + sizeof_ICMP_Header))
  else mret NO_RESPONSE.

(** ** DHCP *)

Module DHCP.
Definition OP_BOOTREPLY : Z := 0x02.
Definition MAGIC_COOKIE : Z := 0x63825363.
Definition OPTION_PAD : Z := 0.
Definition OPTION_SUBNETMASK : Z := 1.
Definition OPTION_LEASETIME : Z := 51.
Definition OPTION_MESSAGETYPE : Z := 53.
Definition OPTION_DHCPSERVER : Z := 54.
Definition OPTION_END : Z := 255.
Definition MESSAGETYPE_DISCOVER : Z := 1.
Definition MESSAGETYPE_OFFER : Z := 2.
Definition MESSAGETYPE_REQUEST : Z := 3.
Definition MESSAGETYPE_ACK : Z := 5.

(** The fields of [DHCP_Header_t]. *)
Definition Operation : Z := 0.
Definition HardwareType : Z := 1.
Definition HardwareAddressLength : Z := 2.
Definition Hops : Z := 3.
Definition TransactionID : Z := 4.
Definition ElapsedSeconds : Z := 8.
Definition Flags : Z := 10.
Definition YourIP : Z := 16.
Definition ClientHardwareAddress : Z := 28.
Definition Cookie : Z := 236.
End DHCP.

(** The addresses of [IP_Header_t]. *)
Definition IP_SourceAddress : Z := 12.
Definition IP_DestinationAddress : Z := 16.

(** The header of the response, and the corrected addresses of the request. *)
Definition DHCP_fill_header (IPHeaderInStart InStart OutStart : Z) : P unit :=
  store_bytes OUT OutStart (replicate (Z.to_nat sizeof_DHCP_Header) 0);;
  copy_field (OutStart + DHCP.HardwareType) (InStart + DHCP.HardwareType) 1;;
  store8 OUT (OutStart + DHCP.Operation) DHCP.OP_BOOTREPLY;;
  copy_field (OutStart + DHCP.HardwareAddressLength) (InStart + DHCP.HardwareAddressLength) 1;;
  store8 OUT (OutStart + DHCP.Hops) 0;;
  copy_field (OutStart + DHCP.TransactionID) (InStart + DHCP.TransactionID) 4;;
  store16 OUT (OutStart + DHCP.ElapsedSeconds) 0;;
  copy_field (OutStart + DHCP.Flags) (InStart + DHCP.Flags) 2;;
  store_bytes OUT (OutStart + DHCP.YourIP) ClientIPAddress;;
  copy_field (OutStart + DHCP.ClientHardwareAddress) (InStart + DHCP.ClientHardwareAddress) 6;;
  store32 OUT (OutStart + DHCP.Cookie) (SwapEndian_32 DHCP.MAGIC_COOKIE);;
  store_bytes IN (IPHeaderInStart + IP_SourceAddress) ClientIPAddress;;
  store_bytes IN (IPHeaderInStart + IP_DestinationAddress) ServerIPAddress.

(** The options of the response, as the sequence of [*(DHCPOptionsOUTStart++) = ...] *)
Definition DHCP_options (MessageType : Z) : list Z :=
  [DHCP.OPTION_MESSAGETYPE; 1;
   if MessageType =? DHCP.MESSAGETYPE_DISCOVER then DHCP.MESSAGETYPE_OFFER else DHCP.MESSAGETYPE_ACK;
   DHCP.OPTION_SUBNETMASK; 4; 0xFF; 0xFF; 0xFF; 0x00;
   DHCP.OPTION_LEASETIME; 4; 0x00; 0x01; 0x51; 0x80;
   DHCP.OPTION_DHCPSERVER; 4] ++ ServerIPAddress ++ [DHCP.OPTION_END].

(** [while (DHCPOptionsINStart[0] != DHCP_OPTION_END) ...] *)
Fixpoint DHCP_process_options (fuel : nat) (OptionsIN OptionsOUT : Z) : P Z :=
  match fuel with
  | O => nofuel
  | S fuel =>
      o ← load8 IN OptionsIN;
      if o =? DHCP.OPTION_END then mret NO_RESPONSE
      else
        t ← (if o =? DHCP.OPTION_MESSAGETYPE then load8 IN (OptionsIN + 2) else mret 0);
        if (o =? DHCP.OPTION_MESSAGETYPE) &&
           ((t =? DHCP.MESSAGETYPE_DISCOVER) || (t =? DHCP.MESSAGETYPE_REQUEST)) then
          store_bytes OUT OptionsOUT (DHCP_options t);;
          mret (sizeof_DHCP_Header + 18 + 4)
        else
          n ← (if o =? DHCP.OPTION_PAD then mret 1 else l ← load8 IN (OptionsIN + 1); mret (l + 2));
          DHCP_process_options fuel (OptionsIN + n) OptionsOUT
  end.

(** The options are inside the frame, so that its size bounds the steps. *)
Definition DHCP_ProcessDHCPPacket (IPHeaderInStart InStart OutStart : Z) : P Z :=
  DHCP_fill_header IPHeaderInStart InStart OutStart;;
  DHCP_process_options 1501 (InStart + sizeof_DHCP_Header) (OutStart + sizeof_DHCP_Header).

(** ** UDP *)

Module UDP.
Definition PORT_DHCP_REQUEST : Z := 67.

(** The fields of [UDP_Header_t]. *)
Definition SourcePort : Z := 0.
Definition DestinationPort : Z := 2.
Definition Length : Z := 4.
Definition Checksum : Z := 6.
End UDP.

Definition UDP_ProcessUDPPacket (IPHeaderInStart InStart OutStart : Z) : P Z :=
  port ← load16 IN (InStart + UDP.DestinationPort);
  RetSize ← (if SwapEndian_16 port =? UDP.PORT_DHCP_REQUEST
             then DHCP_ProcessDHCPPacket IPHeaderInStart (InStart + sizeof_UDP_Header) (OutStart + sizeof_UDP_Header)
             else mret NO_RESPONSE);
  if 0 <? RetSize then
    copy_field (OutStart + UDP.SourcePort) (InStart + UDP.DestinationPort) 2;;
    copy_field (OutStart + UDP.DestinationPort) (InStart + UDP.SourcePort) 2;;
    store16 OUT (OutStart + UDP.Checksum) 0;;
    store16 OUT (OutStart + UDP.Length) (SwapEndian_16 (sizeof_UDP_Header + RetSize));;
    mret (sizeof_UDP_Header + RetSize)
  else mret NO_RESPONSE.
