(* ===== verification/NetSpec.v ===== *)
(** ARP, ICMP and DHCP of the TCP/IP demo answer as their RFCs ask. *)

From stdpp Require Import base tactics option list numbers.
From Stdlib Require Import ZArith Lia.
From S2P Require Import Prelude Memory EthernetFrame FrameSpec NetProtocols.

(** The field offsets, for the arithmetic on them. *)
Ltac net_offsets :=
  unfold ARP.HardwareType, ARP.ProtocolType, ARP.HLEN, ARP.PLEN, ARP.Operation, ARP.SHA, ARP.SPA, ARP.THA, ARP.TPA,
    DHCP.Operation, DHCP.HardwareType, DHCP.HardwareAddressLength, DHCP.Hops, DHCP.TransactionID, DHCP.ElapsedSeconds,
    DHCP.Flags, DHCP.YourIP, DHCP.ClientHardwareAddress, DHCP.Cookie, IP_SourceAddress, IP_DestinationAddress,
    sizeof_DHCP_Header, UDP.SourcePort, UDP.DestinationPort, UDP.Length, UDP.Checksum, sizeof_UDP_Header,
    ICMP.Type_, ICMP.Code, ICMP.Checksum, ICMP.Id, ICMP.Sequence, sizeof_ICMP_Header, sizeof_ARP_Header in *.

Lemma wp_copy_field t d s k Q I il O ol ps cs pb : length I = 1500%nat -> length O = 1500%nat ->
  0 <= d -> 0 <= s -> 0 <= k -> d + k <= 1500 -> s + k <= 1500 ->
  Q tt (mkNet I il (put O d (slice I s k)) ol ps cs pb) -> wp t (copy_field d s k) Q (mkNet I il O ol ps cs pb).
Proof.
  intros. unfold copy_field. net_step. net_step. apply wp_store_bytes; [lens|cbn [data FrameOUT]; rewrite length_slice; lia|done].
Qed.

Ltac frame_step :=
  lazymatch goal with
  | |- wp _ (copy_field _ _ _) _ _ => apply wp_copy_field; [lens..|]
  | _ => net_step
  end.
Ltac frame_steps := repeat frame_step.

Section Replies.
Context (I : list Z) (il : Z) (O : list Z) (ol : Z) (ps : list TCP_PortState_t) (cs : list TCP_ConnectionState_t) (pb : Z).
Context (HI : length I = 1500%nat) (HO : length O = 1500%nat).
Abbreviation net O := (mkNet I il O ol ps cs pb).

(** An ARP packet. *)
Definition arp_packet (hw pt hl pl : list Z) (op : Z) (sha spa tha tpa : list Z) : list Z :=
  hw ++ pt ++ hl ++ pl ++ be16 op ++ sha ++ spa ++ tha ++ tpa.

Lemma ARP_reply_fills t i o hw pt hl pl op sha spa tha tpa Q : 0 <= i -> i + 28 <= 1500 -> 0 <= o -> o + 28 <= 1500 ->
  len hw = 2 -> len pt = 2 -> len hl = 1 -> len pl = 1 ->
  len sha = 6 -> len spa = 4 -> len tha = 6 -> len tpa = 4 ->
  holds I (i + 0) (arp_packet hw pt hl pl op sha spa tha tpa) ->
  Q 28 (net (put O o (arp_packet hw pt hl pl 2 ServerMACAddress ServerIPAddress sha spa))) ->
  wp t (ARP_reply i o) Q (net O).
Proof.
  intros Hi1 Hi2 Ho1 Ho2 L1 L2 L3 L4 L5 L6 L7 L8 H HQ. unfold ARP_reply. net_offsets.
  unfold arp_packet in H. split_holds H. unfold ServerMACAddress, ServerIPAddress in *.
  frame_steps.
  change (le16 (SwapEndian_16 ARP.OPERATION_REPLY)) with (be16 2). rewrite ?H0, ?H1, ?H2, ?H3, ?H4, ?H5, ?H6, ?H7, ?H.
  match goal with |- Q _ (net ?b) => replace b with (put O o (arp_packet hw pt hl pl 2 ServerMACAddress ServerIPAddress sha spa)); [done|] end.
  symmetry. unfold arp_packet, ServerMACAddress, ServerIPAddress. filled 28. rewrite !length_app, !Nat2Z.inj_add. cbn [length be16]. lia.
Qed.

(** A request for the address of the server is answered. *)
Lemma ARP_request_answered t i o hw hl pl sha spa tha tpa Q : 0 <= i -> i + 28 <= 1500 -> 0 <= o -> o + 28 <= 1500 ->
  len hw = 2 -> len hl = 1 -> len pl = 1 ->
  len sha = 6 -> len spa = 4 -> len tha = 6 -> len tpa = 4 ->
  holds I (i + 0) (arp_packet hw (be16 ETHERTYPE_IPV4) hl pl 1 sha spa tha tpa) ->
  tpa = ServerIPAddress \/ tha = ServerMACAddress ->
  Q 28 (net (put O o (arp_packet hw (be16 ETHERTYPE_IPV4) hl pl 2 ServerMACAddress ServerIPAddress sha spa))) ->
  wp t (ARP_ProcessARPPacket i o) Q (net O).
Proof.
  intros Hi1 Hi2 Ho1 Ho2 L1 L3 L4 L5 L6 L7 L8 H Hme HQ. pose proof H as H'. unfold arp_packet in H. split_holds H.
  unfold ARP_ProcessARPPacket. net_offsets. net_steps. rewrite ?H0, ?H1, ?H2, ?H3, ?H4, ?H5, ?H6, ?H7, ?H.
  change (SwapEndian_16 (word16 (be16 ETHERTYPE_IPV4)) =? ETHERTYPE_IPV4) with true.
  change (SwapEndian_16 (word16 (be16 1)) =? ARP.OPERATION_REQUEST) with true. cbn [andb].
  unfold IP_COMPARE, MAC_COMPARE, same. net_steps. rewrite ?H0, ?H1, ?H2, ?H3, ?H4, ?H5, ?H6, ?H7, ?H.
  apply (wp_mono _ _ (fun b w => b = true /\ w = net O)).
  - case_bool_decide as E.
    + by apply wp_ret.
    + net_steps. rewrite ?H0, ?H1, ?H2, ?H3, ?H4, ?H5, ?H6, ?H7, ?H. rewrite bool_decide_true; [done|]. by destruct Hme.
  - intros b w [-> ->]. by apply (ARP_reply_fills t i o hw (be16 ETHERTYPE_IPV4) hl pl 1 sha spa tha tpa).
Qed.

(** Other packets are left alone. *)
Lemma ARP_other_ignored t i o hw pt hl pl op sha spa tha tpa Q : 0 <= i -> i + 28 <= 1500 ->
  len hw = 2 -> len hl = 1 -> len pl = 1 ->
  len sha = 6 -> len spa = 4 -> len tha = 6 -> len tpa = 4 ->
  is_u16 pt -> is_u16 op ->
  holds I (i + 0) (arp_packet hw (be16 pt) hl pl op sha spa tha tpa) ->
  pt <> ETHERTYPE_IPV4 \/ op <> 1 \/ (tpa <> ServerIPAddress /\ tha <> ServerMACAddress) ->
  Q 0 (net O) -> wp t (ARP_ProcessARPPacket i o) Q (net O).
Proof.
  intros Hi1 Hi2 L1 L3 L4 L5 L6 L7 L8 Hpt Hop H Hme HQ. unfold arp_packet in H. split_holds H.
  unfold ARP_ProcessARPPacket. net_offsets. net_steps. rewrite ?H0, ?H1, ?H2, ?H3, ?H4, ?H5, ?H6, ?H7, ?H.
  rewrite !of_le16_be16, !u16_small by done. change ARP.OPERATION_REQUEST with 1.
  destruct ((pt =? ETHERTYPE_IPV4) && (op =? 1)) eqn:E; [|by apply wp_ret]. bool_hyps.
  destruct Hme as [?|[?|[Hip Hmac]]]; [lia..|].
  unfold IP_COMPARE, MAC_COMPARE, same. net_steps. rewrite ?H0, ?H1, ?H2, ?H3, ?H4, ?H5, ?H6, ?H7, ?H. rewrite bool_decide_false by done.
  net_steps. rewrite ?H0, ?H1, ?H2, ?H3, ?H4, ?H5, ?H6, ?H7, ?H. rewrite bool_decide_false by done. by apply wp_ret.
Qed.

(** ** ICMP *)

Definition icmp_header (type code : Z) (ck id seq : list Z) : list Z := [type] ++ [code] ++ ck ++ id ++ seq.

(** The checksum is over the whole words of the reply: an odd last byte is left out. *)
Definition whole_words (bs : list Z) : list Z := take (2 * (length bs / 2)) bs.
Definition echo_reply (id seq payload : list Z) : list Z :=
  icmp_header 0 0 (le16 (inet_checksum (icmp_header 0 0 [0; 0] id seq ++ whole_words payload))) id seq ++ payload.

(** An echo request is answered with its data. *)
Lemma ICMP_echo_answered t i o code ck id seq payload Q : 0 <= i -> 0 <= o -> o + 8 + len payload <= 1500 ->
  len ck = 2 -> len id = 2 -> len seq = 2 -> Forall is_u8 I ->
  holds I (i + 0) (icmp_header 8 code ck id seq ++ payload) -> il = i + 8 + len payload -> i + 8 + len payload <= 1500 ->
  Q (8 + len payload) (net (put O o (echo_reply id seq payload))) ->
  wp t (ICMP_ProcessICMPPacket i o) Q (net O).
Proof.
  intros Hi Ho Hol L1 L2 L3 Hu H Hil Hib HQ. unfold icmp_header in H. rewrite <- !(assoc_L app) in H.
  split_holds H. unfold holds in H. unfold ICMP_ProcessICMPPacket. net_offsets.
  net_step. net_step. rewrite H0. change (hd 0 [8] =? ICMP.TYPE_ECHOREQUEST) with true. cbn iota.
  frame_steps. replace (u16 (il - (i + 8))) with (len payload) by (rewrite u16_small; unfold is_u16; lia).
  frame_steps. rewrite H, H3, H4. net_step.
  change (u8 ICMP.TYPE_ECHOREPLY) with 0. change (u8 0) with 0. change (le16 0) with [0; 0].
  match goal with |- wp _ _ _ (net ?b) => set (O5 := b) end.
  assert (length O5 = 1500%nat) as HO5 by (unfold O5; by rewrite !length_put).
  assert (slice O5 o (8 + len payload) = icmp_header 0 0 [0; 0] id seq ++ payload) as E5.
  { apply holds_last; [|unfold icmp_header; rewrite !length_app; cbn [length]; lia].
    rewrite <- (Z.add_0_r o). unfold icmp_header. rewrite <- !(assoc_L app). unfold O5. regions. }
  assert (slice O5 o (2 * ((len payload + 8) / 2)) = icmp_header 0 0 [0; 0] id seq ++ whole_words payload) as E6.
  { rewrite (slice_prefix _ _ _ _ _ E5) by (Z.div_mod_to_equations; lia).
    assert (length (icmp_header 0 0 [0; 0] id seq) = 8%nat) as L8.
    { unfold icmp_header. rewrite !length_app. cbn [length]. lia. }
    set (h := icmp_header 0 0 [0; 0] id seq) in *.
    replace (Z.to_nat (2 * ((len payload + 8) / 2))) with (length h + 2 * (length payload / 2))%nat.
    - rewrite take_app_add'; done.
    - assert ((len payload + 8) / 2 = Z.of_nat (length payload / 2) + 4) as ->; [|lia].
      change 8 with (4 * 2). rewrite Z.div_add, Nat2Z.inj_div by lia. done. }
  assert (Forall is_u8 (icmp_header 0 0 [0; 0] id seq ++ whole_words payload)) as Hu8.
  { assert (Forall is_u8 id) by (rewrite <- H3; by apply slice_u8).
    assert (Forall is_u8 seq) by (rewrite <- H4; by apply slice_u8).
    assert (Forall is_u8 payload) by (rewrite <- H; by apply slice_u8).
    unfold icmp_header. repeat apply Forall_app_2; try done; [by repeat constructor..|by apply Forall_take]. }
  rewrite (u16_small (len payload + 8)) by (unfold is_u16; lia).
  net_step. apply wp_Ethernet_Checksum16; [lens..|cbn [data FrameOUT]; by rewrite E6|].
  cbn [data FrameOUT]. rewrite E6. net_steps.
  replace (int16 (len payload + 8)) with (8 + len payload) by (unfold int16; rewrite u16_small; unfold is_u16; [|lia];
    rewrite (proj2 (Z.ltb_lt _ _)); lia).
  match goal with |- Q _ (net ?b) => replace b with (put O o (echo_reply id seq payload)); [done|] end.
  symmetry. unfold O5, echo_reply. set (c := inet_checksum _). unfold icmp_header. rewrite <- !(assoc_L app).
  filled (8 + len payload).
  - rewrite !length_app. cbn [length le16]. lia.
  - by rewrite !slice_put_past by lens.
Qed.

End Replies.

Lemma whole_words_even bs : Nat.Even (length bs) -> whole_words bs = bs.
Proof.
  intros [k Hk]. unfold whole_words. rewrite Hk. replace (2 * k / 2)%nat with k; [apply take_ge; lia|].
  by rewrite Nat.mul_comm, Nat.div_mul by lia.
Qed.

Lemma whole_words_odd bs x : Nat.Even (length bs) -> whole_words (bs ++ [x]) = bs.
Proof.
  intros [k Hk]. unfold whole_words. rewrite length_app, Hk. cbn [length].
  replace ((2 * k + 1) / 2)%nat with k; [by rewrite <- Hk, take_app_length|].
  rewrite Nat.add_comm, Nat.mul_comm, Nat.div_add by lia. done.
Qed.

(** With an even number of bytes the reply verifies; with an odd one it does not,
    unless the last byte is 0. *)
Lemma echo_reply_verifies id seq payload : len id = 2 -> len seq = 2 -> Forall is_u8 id -> Forall is_u8 seq ->
  Forall is_u8 payload -> Nat.Even (length payload) -> verifies (echo_reply id seq payload).
Proof.
  intros L1 L2 H1 H2 H3 He. unfold echo_reply, icmp_header. rewrite <- !(assoc_L app), whole_words_even by done.
  apply (checksum_verifies [0; 0] (id ++ seq ++ payload)); [by exists 1%nat|by repeat constructor|].
  by repeat apply Forall_app_2.
Qed.

Lemma echo_reply_odd id seq payload x : len id = 2 -> len seq = 2 -> Forall is_u8 id -> Forall is_u8 seq ->
  Forall is_u8 payload -> is_u8 x -> x <> 0 -> Nat.Even (length payload) -> ~ verifies (echo_reply id seq (payload ++ [x])).
Proof.
  intros L1 L2 H1 H2 H3 Hx Hx0 He. pose proof (echo_reply_verifies id seq payload L1 L2 H1 H2 H3 He) as Hv.
  unfold echo_reply, verifies in *. rewrite (assoc_L app), whole_words_odd by done. rewrite whole_words_even in Hv by done.
  rewrite inet_words_app, sum_app.
  2:{ unfold icmp_header. destruct He as [k Hk]. exists (4 + k)%nat. rewrite !length_app. cbn [length le16]. lia. }
  set (s := sum _) in *. cbn [inet_words sum foldr]. rewrite Z.add_0_r. unfold ones_sum, is_u8 in *.
  destruct (Z.eqb_spec s 0); [done|].
  assert (exists q, s = 65535 * q) as [q Hq].
  { exists ((s - 1) / 65535 + 1). pose proof (Z.div_mod (s - 1) 65535). lia. }
  assert (s + x - 1 = (x - 1) + q * 65535) as -> by lia. rewrite Z.mod_add, Z.mod_small by lia.
  destruct (Z.eqb_spec (s + x) 0); lia.
Qed.

(** ** DHCP *)

Definition dhcp_request (op htype hlen hops xid secs flags addrs chaddr rest : list Z) : list Z :=
  op ++ htype ++ hlen ++ hops ++ xid ++ secs ++ flags ++ addrs ++ chaddr ++ rest.
Definition dhcp_reply (htype hlen xid flags chaddr : list Z) : list Z :=
  [2] ++ htype ++ hlen ++ [0] ++ xid ++ [0; 0] ++ flags ++ replicate 4 0 ++ ClientIPAddress ++ replicate 8 0 ++
  chaddr ++ replicate 202 0 ++ be32 DHCP.MAGIC_COOKIE.

(** The addresses of the request are replaced by those of the lease. *)
Definition leased (I : list Z) (ip : Z) : list Z := put (put I (ip + 12) ClientIPAddress) (ip + 16) ServerIPAddress.

Lemma DHCP_header_fills t ip i o op htype hlen hops xid secs flags addrs chaddr rest I il O ol ps cs pb Q :
  length I = 1500%nat -> length O = 1500%nat -> 0 <= ip -> ip + 20 <= 1500 -> 0 <= i -> i + 240 <= 1500 -> 0 <= o -> o + 240 <= 1500 ->
  len op = 1 -> len htype = 1 -> len hlen = 1 -> len hops = 1 -> len xid = 4 -> len secs = 2 -> len flags = 2 ->
  len addrs = 16 -> len chaddr = 6 -> len rest = 206 ->
  holds I (i + 0) (dhcp_request op htype hlen hops xid secs flags addrs chaddr rest) ->
  Q tt (mkNet (leased I ip) il (put O o (dhcp_reply htype hlen xid flags chaddr)) ol ps cs pb) ->
  wp t (DHCP_fill_header ip i o) Q (mkNet I il O ol ps cs pb).
Proof.
  intros HI HO Hip1 Hip2 Hi1 Hi2 Ho1 Ho2 L1 L2 L3 L4 L5 L6 L7 L8 L9 L10 H HQ.
  unfold dhcp_request in H. split_holds H. unfold DHCP_fill_header. net_offsets. rewrite <- (Z.add_0_r o) at 1.
  frame_steps. rewrite ?H1, ?H2, ?H4, ?H6, ?H8. change (put (put I (ip + 12) ClientIPAddress) (ip + 16) ServerIPAddress) with (leased I ip).
  change (u8 DHCP.OP_BOOTREPLY) with 2. change (u8 0) with 0. change (le16 0) with [0; 0]. rewrite le32_Swap.
  match goal with |- Q _ (mkNet _ _ ?b _ _ _ _) => replace b with (put O o (dhcp_reply htype hlen xid flags chaddr)); [done|] end.
  symmetry. unfold dhcp_reply. filled 240. rewrite !length_app, !length_replicate. cbn [length be32 ClientIPAddress]. lia.
Qed.

(** The options of a request. *)
Inductive dhcp_option : Set := Pad | Opt (code : Z) (value : list Z).
Definition enc_option (x : dhcp_option) : list Z :=
  match x with Pad => [DHCP.OPTION_PAD] | Opt c v => [c; len v] ++ v end.

(** An option the server does not act on. *)
Definition passed (x : dhcp_option) : Prop :=
  match x with
  | Pad => True
  | Opt c v => c <> DHCP.OPTION_PAD /\ c <> DHCP.OPTION_END /\
      (c = DHCP.OPTION_MESSAGETYPE -> exists m v', v = m :: v' /\ m <> DHCP.MESSAGETYPE_DISCOVER /\ m <> DHCP.MESSAGETYPE_REQUEST)
  end.
Definition enc_options (xs : list dhcp_option) : list Z := concat (map enc_option xs).

Ltac load_at H k x := eapply (wp_load8_at _ _ _ _ k _ x); [exact H|done|lia|lia|].

Lemma DHCP_passes t xs tail p q fuel I il O ol ps cs pb Q : length I = 1500%nat -> 0 <= p ->
  Forall passed xs -> holds I p (enc_options xs ++ tail) -> tail <> [] ->
  wp t (DHCP_process_options fuel (p + len (enc_options xs)) q) Q (mkNet I il O ol ps cs pb) ->
  wp t (DHCP_process_options (length xs + fuel) p q) Q (mkNet I il O ol ps cs pb).
Proof.
  intros HI Hp Hxs. revert p Hp. induction Hxs as [|x xs Hx Hxs IH]; intros p Hp H Ht HQ; [by rewrite Z.add_0_r in HQ|].
  unfold enc_options in H. cbn [map concat] in H. rewrite <- (assoc_L app) in H. fold (enc_options xs) in H.
  pose proof (holds_length _ _ _ H ltac:(intros E; apply app_eq_nil in E as [_ E]; by apply app_eq_nil in E as [_ E]) Hp) as Hl.
  apply holds_app_inv in H as [Hx1 H]; [|done].
  assert (wp t (DHCP_process_options (length xs + fuel) (p + len (enc_option x)) q) Q (mkNet I il O ol ps cs pb)) as Hrest.
  { apply IH; [lia|done..|]. by rewrite <- Z.add_assoc, <- Nat2Z.inj_add, <- length_app. }
  cbn [length Nat.add DHCP_process_options]. destruct x as [|c v]; cbn [enc_option length Datatypes.app] in *.
  - apply wp_bind. load_at Hx1 0%nat 0. by net_steps.
  - destruct Hx as (Hc0 & Hc1 & Hm). apply wp_bind. load_at Hx1 0%nat c.
    rewrite (proj2 (Z.eqb_neq c DHCP.OPTION_END)) by done.
    apply wp_bind, (wp_mono _ _ (fun m w => (c = DHCP.OPTION_MESSAGETYPE -> m <> DHCP.MESSAGETYPE_DISCOVER /\ m <> DHCP.MESSAGETYPE_REQUEST)
                                  /\ w = mkNet I il O ol ps cs pb)).
    { destruct (Z.eqb_spec c DHCP.OPTION_MESSAGETYPE) as [E|E]; [|by apply wp_ret]. destruct (Hm E) as (m & v' & -> & Hm1 & Hm2).
      load_at Hx1 2%nat m. done. }
    intros m w [Hm' ->].
    assert ((c =? DHCP.OPTION_MESSAGETYPE) && ((m =? DHCP.MESSAGETYPE_DISCOVER) || (m =? DHCP.MESSAGETYPE_REQUEST)) = false) as ->.
    { destruct (Z.eqb_spec c DHCP.OPTION_MESSAGETYPE) as [E|E]; [|done]. destruct (Hm' E).
      by rewrite !(proj2 (Z.eqb_neq _ _)). }
    rewrite (proj2 (Z.eqb_neq c DHCP.OPTION_PAD)) by done.
    apply wp_bind, wp_bind. load_at Hx1 1%nat (len v). apply wp_ret.
    by replace (p + (len v + 2)) with (p + len (c :: len v :: v)) by (cbn [length]; lia).
Qed.

Lemma length_enc_options xs : (length xs <= length (enc_options xs))%nat.
Proof.
  unfold enc_options. induction xs as [|[|c v] xs IH]; cbn [map concat enc_option length]; [lia|..];
    rewrite ?length_app; cbn [length Datatypes.app] in *; lia.
Qed.

(** A discovery or a request is answered; [m] is its message type. *)
Lemma DHCP_answers t ip i o op htype hlen hops xid secs flags addrs chaddr rest xs l m tail I il O ol ps cs pb Q :
  length I = 1500%nat -> length O = 1500%nat -> 0 <= ip -> ip + 20 <= i -> 0 <= o -> o + 262 <= 1500 ->
  len op = 1 -> len htype = 1 -> len hlen = 1 -> len hops = 1 -> len xid = 4 -> len secs = 2 -> len flags = 2 ->
  len addrs = 16 -> len chaddr = 6 -> len rest = 206 ->
  Forall passed xs -> m = DHCP.MESSAGETYPE_DISCOVER \/ m = DHCP.MESSAGETYPE_REQUEST ->
  holds I i (dhcp_request op htype hlen hops xid secs flags addrs chaddr rest ++
             enc_options xs ++ [DHCP.OPTION_MESSAGETYPE; l; m] ++ tail) ->
  Q 262 (mkNet (leased I ip) il (put O o (dhcp_reply htype hlen xid flags chaddr ++ DHCP_options m)) ol ps cs pb) ->
  wp t (DHCP_ProcessDHCPPacket ip i o) Q (mkNet I il O ol ps cs pb).
Proof.
  intros HI HO Hip1 Hip2 Ho1 Ho2 L1 L2 L3 L4 L5 L6 L7 L8 L9 L10 Hxs Hm H HQ.
  pose proof (holds_length _ _ _ H ltac:(intros E; apply app_eq_nil in E as [_ E]; by apply app_eq_nil in E as [_ E]) ltac:(lia)) as Hl.
  apply holds_app_inv in H as [Hd H]; [|lia].
  assert (len (dhcp_request op htype hlen hops xid secs flags addrs chaddr rest) = 240) as E240.
  { unfold dhcp_request. rewrite !length_app. lia. }
  rewrite E240 in H. rewrite !length_app, !Nat2Z.inj_add, E240 in Hl. cbn [length] in Hl.
  unfold DHCP_ProcessDHCPPacket. apply wp_bind.
  eapply (DHCP_header_fills _ ip i o op htype hlen hops xid secs flags addrs chaddr rest); try done; [lia..|by rewrite Z.add_0_r|].
  pose proof (length_enc_options xs) as Hxl. unfold sizeof_DHCP_Header.
  replace 1501%nat with (length xs + S (1500 - length xs))%nat by lia.
  assert (holds (leased I ip) (i + 240) (enc_options xs ++ [DHCP.OPTION_MESSAGETYPE; l; m] ++ tail)) as H'.
  { unfold leased. apply holds_put_ne, holds_put_ne; try done; cbn [length ClientIPAddress ServerIPAddress]; lia. }
  eapply DHCP_passes; [unfold leased; by rewrite !length_put|lia|done|exact H'|done|].
  apply holds_app_inv in H' as [_ H']; [|lia]. cbn [DHCP_process_options].
  apply wp_bind. load_at H' 0%nat DHCP.OPTION_MESSAGETYPE.
  change (DHCP.OPTION_MESSAGETYPE =? DHCP.OPTION_END) with false. cbn iota.
  change (DHCP.OPTION_MESSAGETYPE =? DHCP.OPTION_MESSAGETYPE) with true. cbn [andb]. apply wp_bind. load_at H' 2%nat m.
  assert ((m =? DHCP.MESSAGETYPE_DISCOVER) || (m =? DHCP.MESSAGETYPE_REQUEST) = true) as -> by (by destruct Hm as [-> | ->]).
  assert (len (DHCP_options m) = 22) as E22 by done.
  apply wp_bind, wp_store_bytes; [lia|cbn [data FrameOUT]; rewrite length_put, E22; lia|]. apply wp_ret.
  cbn [data set_data FrameIN FrameIN_Length FrameOUT FrameOUT_Length PortStateTable ConnectionStateTable PageBlock].
  rewrite put_app in HQ by lia. replace (len (dhcp_reply htype hlen xid flags chaddr)) with 240 in HQ; [done|].
  unfold dhcp_reply. rewrite !length_app, !length_replicate. cbn [length be32 ClientIPAddress]. lia.
Qed.

Definition udp_header (sport dport length_ ck : list Z) : list Z := sport ++ dport ++ length_ ++ ck.

(** The same in its UDP datagram. *)
Lemma UDP_answers t ip i o sport ul uck op htype hlen hops xid secs flags addrs chaddr rest xs l m tail I il O ol ps cs pb Q :
  length I = 1500%nat -> length O = 1500%nat -> 0 <= ip -> ip + 20 <= i -> 0 <= o -> o + 270 <= 1500 ->
  len sport = 2 -> len ul = 2 -> len uck = 2 ->
  len op = 1 -> len htype = 1 -> len hlen = 1 -> len hops = 1 -> len xid = 4 -> len secs = 2 -> len flags = 2 ->
  len addrs = 16 -> len chaddr = 6 -> len rest = 206 ->
  Forall passed xs -> m = DHCP.MESSAGETYPE_DISCOVER \/ m = DHCP.MESSAGETYPE_REQUEST ->
  holds I (i + 0) (udp_header sport (be16 67) ul uck ++
    dhcp_request op htype hlen hops xid secs flags addrs chaddr rest ++
    enc_options xs ++ [DHCP.OPTION_MESSAGETYPE; l; m] ++ tail) ->
  Q 270 (mkNet (leased I ip) il (put O o (udp_header (be16 67) sport (be16 270) [0; 0] ++
    dhcp_reply htype hlen xid flags chaddr ++ DHCP_options m)) ol ps cs pb) ->
  wp t (UDP_ProcessUDPPacket ip i o) Q (mkNet I il O ol ps cs pb).
Proof.
  intros HI HO Hip1 Hip2 Ho1 Ho2 K1 K2 K3 L1 L2 L3 L4 L5 L6 L7 L8 L9 L10 Hxs Hm H HQ. unfold udp_header in H.
  pose proof (holds_length _ _ _ H ltac:(intros E; apply app_eq_nil in E as [_ E]; apply app_eq_nil in E as [_ E];
    by apply app_eq_nil in E as [_ E]) ltac:(lia)) as Hl.
  rewrite !length_app in Hl. cbn [length] in Hl. rewrite <- !(assoc_L app) in H.
  do 4 (eapply holds_cut in H; [|lia|reflexivity|flen|zval]; let Hf := fresh "F" in destruct H as [Hf H]).
  unfold UDP_ProcessUDPPacket. net_offsets. net_step. net_step. rewrite F0.
  change (SwapEndian_16 (word16 (be16 67)) =? UDP.PORT_DHCP_REQUEST) with true. cbn iota.
  net_step. eapply (DHCP_answers _ ip (i + 8) (o + 8) op htype hlen hops xid secs flags addrs chaddr rest xs l m tail); try done; [lia..|].
  change (0 <? 262) with true. cbn iota.
  assert (length (leased I ip) = 1500%nat) as HI' by (unfold leased; by rewrite !length_put).
  set (B := dhcp_reply _ _ _ _ _ ++ _) in *.
  assert (len B = 262) as EB.
  { unfold B, dhcp_reply. rewrite !length_app, !length_replicate. cbn [length be32 ClientIPAddress DHCP_options ServerIPAddress Datatypes.app]. lia. }
  assert (forall a, 0 <= a -> slice (leased I ip) (i + a) 2 = slice I (i + a) 2) as Hli.
  { intros. unfold leased. rewrite !slice_put_ne by (cbn [length ClientIPAddress ServerIPAddress]; lia). done. }
  frame_steps. rewrite !Hli, F, F0 by lia. change (le16 0) with [0; 0]. rewrite le16_Swap. change (8 + 262) with 270.
  match goal with |- Q _ (mkNet _ _ ?b _ _ _ _) => replace b with (put O o (udp_header (be16 67) sport (be16 270) [0; 0] ++ B)); [done|] end.
  symmetry. unfold udp_header. rewrite <- !(assoc_L app). filled 270. rewrite !length_app. cbn [length be16]. lia.
Qed.
