(* ===== verification/TCP.v ===== *)
(** TCP of the TCP/IP demo: Demos/Device/ClassDriver/RNDISEthernet/Lib/TCP.[ch], and
    the web server on top of it, Webserver.[ch].

    A [TCP_ConnectionInfo_t*] is the index of an entry of the connection table, or
    NULL. *)

From stdpp Require Import base tactics option list numbers strings.
From Stdlib Require Import ZArith Lia Ascii.
From S2P Require Import Prelude Memory EthernetFrame NetProtocols.

(** ** Constants and fields *)

Definition TCP_PORT_HTTP : Z := SwapEndian_16 80.
Definition TCP_FLAG_PSH : Z := bit 3.
Definition TCP_FLAG_ACK : Z := bit 4.
Definition TCP_FLAG_RST : Z := bit 2.
Definition TCP_FLAG_SYN : Z := bit 1.
Definition TCP_FLAG_FIN : Z := bit 0.

Module TCPH.
(** The fields of [TCP_Header_t]; [DataOffset] and [Reserved] share a byte. *)
Definition SourcePort : Z := 0.
Definition DestinationPort : Z := 2.
Definition SequenceNumber : Z := 4.
Definition AcknowledgmentNumber : Z := 8.
Definition DataOffset : Z := 12.
Definition Flags : Z := 13.
Definition WindowSize : Z := 14.
Definition Checksum : Z := 16.
Definition UrgentPointer : Z := 18.
End TCPH.

Module IPH.
(** The fields of [IP_Header_t]; [HeaderLength] and [Version] share a byte,
    [FragmentOffset] and [Flags] a word. *)
Definition HeaderLength : Z := 0.
Definition TypeOfService : Z := 1.
Definition TotalLength : Z := 2.
Definition Identification : Z := 4.
Definition FragmentOffset : Z := 6.
Definition TTL : Z := 8.
Definition Protocol : Z := 9.
Definition HeaderChecksum : Z := 10.
Definition SourceAddress : Z := 12.
Definition DestinationAddress : Z := 16.
End IPH.

(** ** Setters *)

Definition set_conn_State (s : TCP_ConnectionStates_t) (c : TCP_ConnectionState_t) : TCP_ConnectionState_t :=
  mkConn (Port c) (RemotePort c) (RemoteAddress c) (Info c) s.
Definition set_Info (f : TCP_ConnectionInfo_t -> TCP_ConnectionInfo_t) (c : TCP_ConnectionState_t)
    : TCP_ConnectionState_t :=
  mkConn (Port c) (RemotePort c) (RemoteAddress c) (f (Info c)) (conn_State c).
Definition set_SequenceNumberIn (x : Z) (i : TCP_ConnectionInfo_t) : TCP_ConnectionInfo_t :=
  mkConnInfo (u32 x) (SequenceNumberOut i) (Buffer i).
Definition set_SequenceNumberOut (x : Z) (i : TCP_ConnectionInfo_t) : TCP_ConnectionInfo_t :=
  mkConnInfo (SequenceNumberIn i) (u32 x) (Buffer i).
Definition set_Buffer (f : TCP_ConnectionBuffer_t -> TCP_ConnectionBuffer_t) (i : TCP_ConnectionInfo_t)
    : TCP_ConnectionInfo_t :=
  mkConnInfo (SequenceNumberIn i) (SequenceNumberOut i) (f (Buffer i)).
Definition set_Length (l : Z) (b : TCP_ConnectionBuffer_t) : TCP_ConnectionBuffer_t :=
  mkBuffer (u16 l) (Data b) (Direction b) (Ready b) (InUse b).
Definition set_Data (d : list Z) (b : TCP_ConnectionBuffer_t) : TCP_ConnectionBuffer_t :=
  mkBuffer (Length b) d (Direction b) (Ready b) (InUse b).
Definition set_Direction (d : bool) (b : TCP_ConnectionBuffer_t) : TCP_ConnectionBuffer_t :=
  mkBuffer (Length b) (Data b) d (Ready b) (InUse b).
Definition set_Ready (r : bool) (b : TCP_ConnectionBuffer_t) : TCP_ConnectionBuffer_t :=
  mkBuffer (Length b) (Data b) (Direction b) r (InUse b).
Definition set_InUse (u : bool) (b : TCP_ConnectionBuffer_t) : TCP_ConnectionBuffer_t :=
  mkBuffer (Length b) (Data b) (Direction b) (Ready b) u.

(** ** The tables *)

(** A loop that changes the first entry that satisfies a condition. *)
Fixpoint update_first {A} (p : A -> bool) (f : A -> A) (l : list A) : option (list A) :=
  match l with
  | [] => None
  | x :: l => if p x then Some (f x :: l) else l' ← update_first p f l; Some (x :: l')
  end.
Fixpoint find_first {A} (p : A -> bool) (l : list A) : option nat :=
  match l with
  | [] => None
  | x :: l => if p x then Some 0%nat else n ← find_first p l; Some (S n)
  end.

Definition TCP_Init : P unit :=
  ps ← gets PortStateTable;
  modify (set_Ports (map (fun p => mkPort (port_Port p) TCP_Port_Closed (ApplicationHandler p)) ps));;
  cs ← gets ConnectionStateTable;
  modify (set_Connections (map (set_conn_State TCP_Connection_Closed) cs)).

Definition TCP_SetPortState (Port : Z) (State : TCP_PortStates_t) (Handler : option Application) : P bool :=
  ps ← gets PortStateTable;
  match update_first (fun p => port_Port p =? Port) (fun p => mkPort (port_Port p) State Handler) ps with
  | Some ps' => modify (set_Ports ps');; mret true
  | None =>
      if bool_decide (State = TCP_Port_Open) then
        match update_first (fun p => bool_decide (port_State p = TCP_Port_Closed))
                (fun _ => mkPort Port State Handler) ps with
        | Some ps' => modify (set_Ports ps');; mret true
        | None => mret false
        end
      else mret true
  end.

Definition TCP_GetPortState (Port : Z) : P TCP_PortStates_t :=
  ps ← gets PortStateTable;
  mret match find_first (fun p => port_Port p =? Port) ps with
       | Some i => match ps !! i with Some p => port_State p | None => TCP_Port_Closed end
       | None => TCP_Port_Closed
       end.

(** The test the connection functions search with. *)
Definition is_connection (P_ : Z) (RA : list Z) (RP : Z) (c : TCP_ConnectionState_t) : bool :=
  (Port c =? P_) && same (RemoteAddress c) RA && (RemotePort c =? RP).

(** [TCP_SetConnectionState] on the table; [None] for [false]. *)
Definition connection_set (P_ : Z) (RA : list Z) (RP : Z) (State : TCP_ConnectionStates_t)
    (cs : list TCP_ConnectionState_t) : option (list TCP_ConnectionState_t) :=
  match update_first (is_connection P_ RA RP) (set_conn_State State) cs with
  | Some cs' => Some cs'
  | None => update_first (fun c => bool_decide (conn_State c = TCP_Connection_Closed))
              (fun c => mkConn P_ RP RA (Info c) State) cs
  end.

Definition TCP_SetConnectionState (P_ : Z) (RA : list Z) (RP : Z) (State : TCP_ConnectionStates_t) : P bool :=
  cs ← gets ConnectionStateTable;
  match connection_set P_ RA RP State cs with
  | Some cs' => modify (set_Connections cs');; mret true
  | None => mret false
  end.

Definition connection_get (P_ : Z) (RA : list Z) (RP : Z) (cs : list TCP_ConnectionState_t)
    : TCP_ConnectionStates_t :=
  match find_first (is_connection P_ RA RP) cs with
  | Some i => match cs !! i with Some c => conn_State c | None => TCP_Connection_Closed end
  | None => TCP_Connection_Closed
  end.

Definition TCP_GetConnectionState (P_ : Z) (RA : list Z) (RP : Z) : P TCP_ConnectionStates_t :=
  cs ← gets ConnectionStateTable; mret (connection_get P_ RA RP cs).

Definition TCP_GetConnectionInfo (P_ : Z) (RA : list Z) (RP : Z) : P (option nat) :=
  cs ← gets ConnectionStateTable; mret (find_first (is_connection P_ RA RP) cs).

(** Reading and writing through the pointer. *)
Definition info_load (p : option nat) : P TCP_ConnectionInfo_t :=
  i ← checked p; cs ← gets ConnectionStateTable; c ← checked (cs !! i); mret (Info c).
Definition info_store (p : option nat) (f : TCP_ConnectionInfo_t -> TCP_ConnectionInfo_t) : P unit :=
  i ← checked p; cs ← gets ConnectionStateTable; c ← checked (cs !! i);
  modify (set_Connections (<[i := set_Info f c]> cs)).

(** ** The checksum *)

Definition TCP_Checksum16 (TCPHeaderOutStart : Z) (SourceAddress DestinationAddress : list Z) (TCPOutSize : Z) : P Z :=
  bs ← load_bytes OUT TCPHeaderOutStart (2 * Z.shiftr TCPOutSize 1);
  let Checksum := add_words 0 (words SourceAddress ++ words DestinationAddress ++
                               [SwapEndian_16 PROTOCOL_TCP; SwapEndian_16 TCPOutSize] ++ words bs) in
  last ← (if tst TCPOutSize 0x01 then
            w ← load16 OUT (TCPHeaderOutStart + 2 * Z.shiftr TCPOutSize 1); mret (Z.land w 0x00FF)
          else mret 0);
  c ← fold_carry 4 (u32 (Checksum + last));
  mret (u16 (Z.lnot c)).

(** ** Incoming packets *)

(** The result of a case of the state machine: whether to respond, or defer. *)
Inductive reaction : Set := Respond (PacketResponse : bool) | Defer.

Section ProcessTCPPacket.
Context (IPHeaderInStart TCPHeaderInStart TCPHeaderOutStart : Z).

(** [TCPHeaderIN->Flags], [TCPHeaderOUT->Flags = f] *)
Definition flags_in : P Z := load8 IN (TCPHeaderInStart + TCPH.Flags).
Definition flags_out (f : Z) : P unit := store8 OUT (TCPHeaderOutStart + TCPH.Flags) f.

(** The arguments that identify the connection. *)
Definition connection_id : P (Z * list Z * Z) :=
  p ← load16 IN (TCPHeaderInStart + TCPH.DestinationPort);
  a ← load_bytes IN (IPHeaderInStart + IPH.SourceAddress) 4;
  r ← load16 IN (TCPHeaderInStart + TCPH.SourcePort);
  mret (p, a, r).
Definition SetConnectionState (s : TCP_ConnectionStates_t) : P bool :=
  k ← connection_id; let '(p, a, r) := k in TCP_SetConnectionState p a r s.
Definition GetConnectionState : P TCP_ConnectionStates_t :=
  k ← connection_id; let '(p, a, r) := k in TCP_GetConnectionState p a r.
Definition GetConnectionInfo : P (option nat) :=
  k ← connection_id; let '(p, a, r) := k in TCP_GetConnectionInfo p a r.

Definition in_Listen : P reaction :=
  f ← flags_in;
  if f =? TCP_FLAG_SYN then
    ok ← SetConnectionState TCP_Connection_SYNReceived;
    (if ok : bool then
       flags_out (Z.lor TCP_FLAG_SYN TCP_FLAG_ACK);;
       ConnectionInfo ← GetConnectionInfo;
       s ← load32 IN (TCPHeaderInStart + TCPH.SequenceNumber);
       info_store ConnectionInfo (set_SequenceNumberIn (SwapEndian_32 s + 1));;
       info_store ConnectionInfo (set_SequenceNumberOut 0);;
       info_store ConnectionInfo (set_Buffer (set_InUse false))
     else flags_out TCP_FLAG_RST);;
    mret (Respond true)
  else mret (Respond false).

Definition in_SYNReceived : P reaction :=
  f ← flags_in;
  when (f =? TCP_FLAG_ACK)
    (SetConnectionState TCP_Connection_Established;;
     ConnectionInfo ← GetConnectionInfo;
     info_store ConnectionInfo (fun i => set_SequenceNumberOut (SequenceNumberOut i + 1) i));;
  mret (Respond false).

(** [SequenceNumberIn++; SequenceNumberOut++] *)
Definition advance_both (ConnectionInfo : option nat) : P unit :=
  info_store ConnectionInfo (fun i => set_SequenceNumberIn (SequenceNumberIn i + 1) i);;
  info_store ConnectionInfo (fun i => set_SequenceNumberOut (SequenceNumberOut i + 1) i).

(** The data of a packet goes into the buffer of the application. *)
Definition receive_data (ConnectionInfo : option nat) : P reaction :=
  h ← load_bits IN (IPHeaderInStart + IPH.HeaderLength) 0 4;
  let IPOffset := h * 4 in
  d ← load_bits IN (TCPHeaderInStart + TCPH.DataOffset) 4 4;
  let TCPOffset := d * 4 in
  l ← load16 IN (IPHeaderInStart + IPH.TotalLength);
  let DataLength := u16 (SwapEndian_16 l - IPOffset - TCPOffset) in
  i ← info_load ConnectionInfo;
  bs ← load_bytes IN (TCPHeaderInStart + TCPOffset) DataLength;
  d' ← checked (put_at (Data (Buffer i)) (Length (Buffer i)) bs);
  info_store ConnectionInfo (set_Buffer (set_Data d'));;
  info_store ConnectionInfo (fun i => set_SequenceNumberIn (SequenceNumberIn i + DataLength) i);;
  info_store ConnectionInfo (fun i => set_Buffer (set_Length (Length (Buffer i) + DataLength)) i);;
  i ← info_load ConnectionInfo;
  f ← flags_in;
  if (TCP_WINDOW_SIZE - Length (Buffer i) =? 0) || tst f TCP_FLAG_PSH then
    info_store ConnectionInfo (set_Buffer (set_InUse false));;
    info_store ConnectionInfo (set_Buffer (set_Ready true));;
    flags_out TCP_FLAG_ACK;;
    mret (Respond true)
  else mret (Respond false).

Definition in_Established : P reaction :=
  f ← flags_in;
  if f =? Z.lor TCP_FLAG_FIN TCP_FLAG_ACK then
    flags_out (Z.lor TCP_FLAG_FIN TCP_FLAG_ACK);;
    SetConnectionState TCP_Connection_CloseWait;;
    ConnectionInfo ← GetConnectionInfo;
    advance_both ConnectionInfo;;
    mret (Respond true)
  else if (f =? TCP_FLAG_ACK) || (f =? Z.lor TCP_FLAG_ACK TCP_FLAG_PSH) then
    ConnectionInfo ← GetConnectionInfo;
    i ← info_load ConnectionInfo;
    when (negb (InUse (Buffer i)) && negb (Ready (Buffer i)))
      (info_store ConnectionInfo (set_Buffer (set_Direction TCP_PACKETDIR_IN));;
       info_store ConnectionInfo (set_Buffer (set_InUse true));;
       info_store ConnectionInfo (set_Buffer (set_Length 0)));;
    i ← info_load ConnectionInfo;
    if Bool.eqb (Direction (Buffer i)) TCP_PACKETDIR_IN && negb (Length (Buffer i) =? TCP_WINDOW_SIZE)
    then receive_data ConnectionInfo
    else mret Defer
  else mret (Respond false).

Definition in_Closing : P reaction :=
  ConnectionInfo ← GetConnectionInfo;
  flags_out (Z.lor TCP_FLAG_ACK TCP_FLAG_FIN);;
  info_store ConnectionInfo (set_Buffer (set_InUse false));;
  SetConnectionState TCP_Connection_FINWait1;;
  mret (Respond true).

(** The last FIN of the peer. *)
Definition last_FIN : P reaction :=
  ConnectionInfo ← GetConnectionInfo;
  flags_out TCP_FLAG_ACK;;
  advance_both ConnectionInfo;;
  SetConnectionState TCP_Connection_Closed;;
  mret (Respond true).

Definition in_FINWait1 : P reaction :=
  f ← flags_in;
  if f =? Z.lor TCP_FLAG_FIN TCP_FLAG_ACK then last_FIN
  else
    when (f =? TCP_FLAG_ACK) (SetConnectionState TCP_Connection_FINWait2;; mret tt);;
    mret (Respond false).

Definition in_FINWait2 : P reaction :=
  f ← flags_in;
  if f =? Z.lor TCP_FLAG_FIN TCP_FLAG_ACK then last_FIN else mret (Respond false).

Definition in_CloseWait : P reaction :=
  f ← flags_in;
  when (f =? TCP_FLAG_ACK) (SetConnectionState TCP_Connection_Closed;; mret tt);;
  mret (Respond false).

(** The packet is for an open port. *)
Definition in_open_port : P reaction :=
  f ← flags_in;
  when (tst f TCP_FLAG_SYN) (SetConnectionState TCP_Connection_Listen;; mret tt);;
  if tst f TCP_FLAG_RST then
    ok ← SetConnectionState TCP_Connection_Closed;
    when ok (flags_out (Z.lor TCP_FLAG_RST TCP_FLAG_ACK));;
    mret (Respond ok)
  else
    s ← GetConnectionState;
    match s with
    | TCP_Connection_Listen => in_Listen
    | TCP_Connection_SYNReceived => in_SYNReceived
    | TCP_Connection_Established => in_Established
    | TCP_Connection_Closing => in_Closing
    | TCP_Connection_FINWait1 => in_FINWait1
    | TCP_Connection_FINWait2 => in_FINWait2
    | TCP_Connection_CloseWait => in_CloseWait
    | _ => mret (Respond false)
    end.

(** The rest of the response header. *)
Definition TCP_respond : P Z :=
  ConnectionInfo ← GetConnectionInfo;
  copy_field (TCPHeaderOutStart + TCPH.SourcePort) (TCPHeaderInStart + TCPH.DestinationPort) 2;;
  copy_field (TCPHeaderOutStart + TCPH.DestinationPort) (TCPHeaderInStart + TCPH.SourcePort) 2;;
  i ← info_load ConnectionInfo;
  store32 OUT (TCPHeaderOutStart + TCPH.SequenceNumber) (SwapEndian_32 (SequenceNumberOut i));;
  store32 OUT (TCPHeaderOutStart + TCPH.AcknowledgmentNumber) (SwapEndian_32 (SequenceNumberIn i));;
  store_bits OUT (TCPHeaderOutStart + TCPH.DataOffset) 4 4 (sizeof_TCP_Header / 4);;
  (if negb (InUse (Buffer i)) then store16 OUT (TCPHeaderOutStart + TCPH.WindowSize) (SwapEndian_16 TCP_WINDOW_SIZE)
   else store16 OUT (TCPHeaderOutStart + TCPH.WindowSize) (SwapEndian_16 (u16 (TCP_WINDOW_SIZE - Length (Buffer i)))));;
  store16 OUT (TCPHeaderOutStart + TCPH.UrgentPointer) 0;;
  store16 OUT (TCPHeaderOutStart + TCPH.Checksum) 0;;
  store_bits OUT (TCPHeaderOutStart + TCPH.DataOffset) 0 4 0;;
  s ← load_bytes IN (IPHeaderInStart + IPH.DestinationAddress) 4;
  d ← load_bytes IN (IPHeaderInStart + IPH.SourceAddress) 4;
  c ← TCP_Checksum16 TCPHeaderOutStart s d sizeof_TCP_Header;
  store16 OUT (TCPHeaderOutStart + TCPH.Checksum) c;;
  mret sizeof_TCP_Header.

Definition TCP_ProcessTCPPacket : P Z :=
  p ← load16 IN (TCPHeaderInStart + TCPH.DestinationPort);
  s ← TCP_GetPortState p;
  r ← (if bool_decide (s = TCP_Port_Open) then in_open_port
       else flags_out (Z.lor TCP_FLAG_RST TCP_FLAG_ACK);; mret (Respond true));
  match r with
  | Respond true => TCP_respond
  | Respond false => mret NO_RESPONSE
  | Defer => mret NO_PROCESS
  end.
End ProcessTCPPacket.

(** ** The web server *)

Definition CRLF : list Z := [13; 10].
Definition TAB : list Z := [9].
Definition QUOTE : list Z := [34].

Definition HTTP200Header : list Z :=
  bytes_of "HTTP/1.1 200 OK" ++ CRLF ++ bytes_of "Server: LUFA RNDIS" ++ CRLF ++
  bytes_of "Content-type: text/html" ++ CRLF ++ bytes_of "Connection: close" ++ CRLF ++ CRLF ++ [0].
Definition HTTP404Header : list Z :=
  bytes_of "HTTP/1.1 404 Not Found" ++ CRLF ++ bytes_of "Server: LUFA RNDIS" ++ CRLF ++
  bytes_of "Connection: close" ++ CRLF ++ CRLF ++ [0].

(** LUFA/Version.h *)
Definition LUFA_VERSION_STRING : list Z := bytes_of "170418".

Definition HTTPPage : list Z :=
  bytes_of "<html>" ++
  TAB ++ bytes_of "<head>" ++
  TAB ++ TAB ++ bytes_of "<title>" ++
  TAB ++ TAB ++ TAB ++ bytes_of "LUFA Webserver Demo" ++
  TAB ++ TAB ++ bytes_of "</title>" ++
  TAB ++ bytes_of "</head>" ++
  TAB ++ bytes_of "<body>" ++
  TAB ++ TAB ++ bytes_of "<h1>Hello from your USB AVR!</h1>" ++
  TAB ++ TAB ++ bytes_of "<p>" ++
  TAB ++ TAB ++ TAB ++ bytes_of "Hello! Welcome to the LUFA RNDIS Demo Webserver test page, running on your USB AVR via the LUFA library. This demonstrates the HTTP webserver, TCP/IP stack and RNDIS demo all running atop the LUFA USB stack." ++
  TAB ++ TAB ++ TAB ++ bytes_of "<br /><br />" ++
  TAB ++ TAB ++ TAB ++ bytes_of "<small>Project Information: <a href=" ++ QUOTE ++ bytes_of "http://www.lufa-lib.org" ++ QUOTE ++ bytes_of ">http://www.lufa-lib.org</a>.</small>" ++
  TAB ++ TAB ++ TAB ++ bytes_of "<hr />" ++
  TAB ++ TAB ++ TAB ++ bytes_of "<i>LUFA Version: </i>" ++ LUFA_VERSION_STRING ++
  TAB ++ TAB ++ bytes_of "</p>" ++
  TAB ++ bytes_of "</body>" ++
  bytes_of "</html>" ++ [0].

Definition HTTP_REPLY_BLOCK_SIZE : Z := 128.
Definition sizeof_HTTPPage : Z := Z.of_nat (length HTTPPage).

Definition Webserver_Init : P unit :=
  TCP_SetPortState TCP_PORT_HTTP TCP_Port_Open (Some Webserver);; mret tt.

(** [strncmp(RequestHeader, Command, strlen(Command)) == 0]; a command has no
    terminator inside. *)
Definition IsHTTPCommand (RequestHeader Command : list Z) : bool :=
  same (take (length Command) RequestHeader) Command.

(** The macros of TCP.h. *)
Definition TCP_APP_HAS_RECEIVED_PACKET (b : TCP_ConnectionBuffer_t) : bool :=
  Ready b && Bool.eqb (Direction b) TCP_PACKETDIR_IN.
Definition TCP_APP_HAVE_CAPTURED_BUFFER (b : TCP_ConnectionBuffer_t) : bool :=
  negb (Ready b) && InUse b && Bool.eqb (Direction b) TCP_PACKETDIR_OUT.
Definition TCP_APP_CAPTURE_BUFFER (b : TCP_ConnectionBuffer_t) : TCP_ConnectionBuffer_t :=
  set_InUse true (set_Direction TCP_PACKETDIR_OUT b).
Definition TCP_APP_RELEASE_BUFFER (b : TCP_ConnectionBuffer_t) : TCP_ConnectionBuffer_t := set_InUse false b.
Definition TCP_APP_SEND_BUFFER (Len : Z) (b : TCP_ConnectionBuffer_t) : TCP_ConnectionBuffer_t :=
  set_Ready true (set_Length Len (set_Direction TCP_PACKETDIR_OUT b)).
Definition TCP_APP_CLEAR_BUFFER (b : TCP_ConnectionBuffer_t) : TCP_ConnectionBuffer_t :=
  set_Length 0 (set_Ready false b).
Definition TCP_APP_CLOSECONNECTION (c : TCP_ConnectionState_t) : TCP_ConnectionState_t :=
  set_conn_State TCP_Connection_Closing c.

Definition on_buffer (f : TCP_ConnectionBuffer_t -> TCP_ConnectionBuffer_t) (c : TCP_ConnectionState_t)
    : TCP_ConnectionState_t := set_Info (set_Buffer f) c.

(** [strcpy_P(BufferDataStr, Header); TCP_APP_SEND_BUFFER(Buffer, strlen(BufferDataStr))] *)
Definition send_string (Header : list Z) (c : TCP_ConnectionState_t) : option TCP_ConnectionState_t :=
  d ← put_at (Data (Buffer (Info c))) 0 Header;
  n ← strlen d;
  Some (on_buffer (fun b => TCP_APP_SEND_BUFFER n (set_Data d b)) c).

(** The request in the buffer is answered. *)
Definition answer_request (PageBlock : Z) (c : TCP_ConnectionState_t) : option (Z * TCP_ConnectionState_t) :=
  let request := Data (Buffer (Info c)) in
  if IsHTTPCommand request (bytes_of "GET") then
    if IsHTTPCommand request (bytes_of "GET / ") then
      c ← send_string HTTP200Header c;
      Some (0, on_buffer TCP_APP_CAPTURE_BUFFER c)
    else
      c ← send_string HTTP404Header c;
      Some (PageBlock, TCP_APP_CLOSECONNECTION c)
  else if IsHTTPCommand request (bytes_of "HEAD") then
    c ← send_string (if IsHTTPCommand request (bytes_of "HEAD / ") then HTTP200Header else HTTP404Header) c;
    Some (PageBlock, TCP_APP_CLOSECONNECTION c)
  else if IsHTTPCommand request (bytes_of "TRACE") then
    Some (PageBlock, TCP_APP_CLOSECONNECTION
                       (on_buffer (fun b => TCP_APP_SEND_BUFFER (Length b) b) c))
  else Some (PageBlock, on_buffer TCP_APP_CLEAR_BUFFER c).

(** The next block of the page is sent. *)
Definition send_block (PageBlock : Z) (c : TCP_ConnectionState_t) : option (Z * TCP_ConnectionState_t) :=
  let start := PageBlock * HTTP_REPLY_BLOCK_SIZE in
  if sizeof_HTTPPage <=? start then None
  else
    let rest := drop (Z.to_nat start) HTTPPage in
    RemLength ← strlen rest;
    let Length := if HTTP_REPLY_BLOCK_SIZE <? RemLength then HTTP_REPLY_BLOCK_SIZE else RemLength in
    d ← put_at (Data (Buffer (Info c))) 0 (take (Z.to_nat Length) rest);
    let c := on_buffer (fun b => TCP_APP_SEND_BUFFER Length (set_Data d b)) c in
    Some (PageBlock + 1,
          if PageBlock =? sizeof_HTTPPage / HTTP_REPLY_BLOCK_SIZE
          then TCP_APP_CLOSECONNECTION (on_buffer TCP_APP_RELEASE_BUFFER c) else c).

(** [Webserver_ApplicationCallback] with the static [PageBlock]; [None] is an access
    outside an object. *)
Definition Webserver_ApplicationCallback (PageBlock : Z) (c : TCP_ConnectionState_t)
    : option (Z * TCP_ConnectionState_t) :=
  let b := Buffer (Info c) in
  if TCP_APP_HAS_RECEIVED_PACKET b then answer_request PageBlock c
  else if TCP_APP_HAVE_CAPTURED_BUFFER b then send_block PageBlock c
  else Some (PageBlock, c).

(** ** The task *)

(** The handler of an open port runs on the connection at index [i]. *)
Definition run_handler (i : nat) (p : TCP_PortState_t) : P unit :=
  cs ← gets ConnectionStateTable;
  c ← checked (cs !! i);
  when ((port_Port p =? Port c) && bool_decide (port_State p = TCP_Port_Open))
    (h ← checked (ApplicationHandler p);
     match h with
     | Webserver =>
         pb ← gets PageBlock;
         r ← checked (Webserver_ApplicationCallback pb c);
         let '(pb, c') := r in
         modify (set_PageBlock pb);; modify (set_Connections (<[i := c']> cs))
     end).

Fixpoint for_each {A} (l : list A) (body : A -> P unit) : P unit :=
  match l with [] => mret tt | x :: l => body x;; for_each l body end.

Definition run_applications : P unit :=
  for_each (seq 0 MAX_TCP_CONNECTIONS) (fun i =>
    ps ← gets PortStateTable; for_each ps (run_handler i)).

(** The IP header of an outgoing packet, up to the addresses. *)
Definition fill_IP_header (IPHeaderOUT TotalLength Protocol : Z) : P unit :=
  store16 OUT (IPHeaderOUT + IPH.TotalLength) (SwapEndian_16 TotalLength);;
  store8 OUT (IPHeaderOUT + IPH.TypeOfService) 0;;
  store_bits OUT (IPHeaderOUT + IPH.HeaderLength) 0 4 (sizeof_IP_Header / 4);;
  store_bits OUT (IPHeaderOUT + IPH.HeaderLength) 4 4 4;;
  store_bits OUT (IPHeaderOUT + IPH.FragmentOffset + 1) 5 3 0;;
  store8 OUT (IPHeaderOUT + IPH.FragmentOffset) 0;;
  store_bits OUT (IPHeaderOUT + IPH.FragmentOffset + 1) 0 5 0;;
  store16 OUT (IPHeaderOUT + IPH.Identification) 0;;
  store16 OUT (IPHeaderOUT + IPH.HeaderChecksum) 0;;
  store8 OUT (IPHeaderOUT + IPH.Protocol) Protocol;;
  store8 OUT (IPHeaderOUT + IPH.TTL) 128.

(** The packet of the connection at index [i]. *)
Definition send_packet (i : nat) (c : TCP_ConnectionState_t) : P unit :=
  let IPHeaderOUT := sizeof_Ethernet_Frame_Header in
  let TCPHeaderOUT := IPHeaderOUT + sizeof_IP_Header in
  let TCPDataOUT := TCPHeaderOUT + sizeof_TCP_Header in
  let PacketSize := Length (Buffer (Info c)) in
  store16 OUT (TCPHeaderOUT + TCPH.SourcePort) (Port c);;
  store16 OUT (TCPHeaderOUT + TCPH.DestinationPort) (RemotePort c);;
  store32 OUT (TCPHeaderOUT + TCPH.SequenceNumber) (SwapEndian_32 (SequenceNumberOut (Info c)));;
  store32 OUT (TCPHeaderOUT + TCPH.AcknowledgmentNumber) (SwapEndian_32 (SequenceNumberIn (Info c)));;
  store_bits OUT (TCPHeaderOUT + TCPH.DataOffset) 4 4 (sizeof_TCP_Header / 4);;
  store16 OUT (TCPHeaderOUT + TCPH.WindowSize) (SwapEndian_16 TCP_WINDOW_SIZE);;
  store8 OUT (TCPHeaderOUT + TCPH.Flags) TCP_FLAG_ACK;;
  store16 OUT (TCPHeaderOUT + TCPH.UrgentPointer) 0;;
  store16 OUT (TCPHeaderOUT + TCPH.Checksum) 0;;
  store_bits OUT (TCPHeaderOUT + TCPH.DataOffset) 0 4 0;;
  bs ← checked (bytes_at (Data (Buffer (Info c))) 0 PacketSize);
  store_bytes OUT TCPDataOUT bs;;
  info_store (Some i) (fun f => set_SequenceNumberOut (SequenceNumberOut f + PacketSize) f);;
  k ← TCP_Checksum16 TCPHeaderOUT ServerIPAddress (RemoteAddress c) (u16 (sizeof_TCP_Header + PacketSize));
  store16 OUT (TCPHeaderOUT + TCPH.Checksum) k;;
  let PacketSize := u16 (PacketSize + sizeof_TCP_Header) in
  fill_IP_header IPHeaderOUT (u16 (sizeof_IP_Header + PacketSize)) PROTOCOL_TCP;;
  store_bytes OUT (IPHeaderOUT + IPH.SourceAddress) ServerIPAddress;;
  store_bytes OUT (IPHeaderOUT + IPH.DestinationAddress) (RemoteAddress c);;
  k ← Ethernet_Checksum16 OUT IPHeaderOUT sizeof_IP_Header;
  store16 OUT (IPHeaderOUT + IPH.HeaderChecksum) k;;
  let PacketSize := u16 (PacketSize + sizeof_IP_Header) in
  store_bytes OUT 6 ServerMACAddress;;
  store_bytes OUT 0 AdapterMACAddress;;
  store16 OUT 12 (SwapEndian_16 ETHERTYPE_IPV4);;
  modify (set_OUT_Length (PacketSize + sizeof_Ethernet_Frame_Header));;
  info_store (Some i) (set_Buffer (set_Ready false)).

Definition TCP_TCPTask : P unit :=
  run_applications;;
  l ← gets FrameOUT_Length;
  if negb (l =? 0) then mret tt
  else
    cs ← gets ConnectionStateTable;
    match find_first (fun c => Bool.eqb (Direction (Buffer (Info c))) TCP_PACKETDIR_OUT &&
                               Ready (Buffer (Info c))) cs with
    | Some i => c ← checked (cs !! i); send_packet i c
    | None => mret tt
    end.
