(* ===== verification/TCPTable.v ===== *)
(** The connection table of TCP.c is a finite map of bounded size: a connection is
    found by its ports and remote address, a new one takes the place of a closed one. *)

From stdpp Require Import base tactics option list numbers.
From Stdlib Require Import ZArith Lia.
From S2P Require Import Prelude Memory EthernetFrame TCP.

(** ** Searching a list *)

Section Search.
Context {A : Type} (p : A -> bool).

Lemma find_first_Some l i : find_first p l = Some i ->
  exists x, l !! i = Some x /\ p x = true /\ (forall j y, (j < i)%nat -> l !! j = Some y -> p y = false).
Proof.
  revert i; induction l as [|x l IH]; intros i; [done|]. cbn [find_first]. destruct (p x) eqn:E.
  - intros [= <-]. exists x. split_and!; [done..|]. intros j y Hj. lia.
  - destruct (find_first p l) as [n|]; [|done]. intros [= <-]. destruct (IH n eq_refl) as (y & H1 & H2 & H3).
    exists y. split_and!; [done..|]. intros [|j] z Hj Hz; [cbn in Hz; by simplify_eq|]. eapply H3; [|done]. lia.
Qed.

Lemma find_first_None l : find_first p l = None -> Forall (fun x => p x = false) l.
Proof.
  induction l as [|x l IH]; [constructor|]. cbn [find_first]. destruct (p x) eqn:E; [done|].
  destruct (find_first p l); [done|]. intros _. constructor; auto.
Qed.

Lemma find_first_intro l i x : l !! i = Some x -> p x = true ->
  (forall j y, (j < i)%nat -> l !! j = Some y -> p y = false) -> find_first p l = Some i.
Proof.
  revert i; induction l as [|z l IH]; intros [|i] H1 H2 H3; [done..| |]; cbn [find_first].
  - cbn in H1. simplify_eq. by rewrite H2.
  - rewrite (H3 0%nat z) by (done || lia). rewrite (IH i); [done..|]. intros j y Hj Hy. apply (H3 (S j)); [lia|done].
Qed.

Lemma update_first_find f l : update_first p f l = match find_first p l with
  | Some i => match l !! i with Some x => Some (<[i := f x]> l) | None => None end
  | None => None end.
Proof.
  induction l as [|x l IH]; [done|]. cbn [update_first find_first]. destruct (p x); [done|].
  rewrite IH. destruct (find_first p l) as [i|]; [|done]. cbn. by destruct (l !! i).
Qed.
End Search.

(** ** The table *)

(** What identifies a connection. *)
Definition key : Type := Z * list Z * Z.
Definition key_of (c : TCP_ConnectionState_t) : key := (Port c, RemoteAddress c, RemotePort c).
Definition is_key (k : key) : TCP_ConnectionState_t -> bool := let '(p, a, r) := k in is_connection p a r.
Definition get (k : key) : list TCP_ConnectionState_t -> TCP_ConnectionStates_t := let '(p, a, r) := k in connection_get p a r.
Definition set (k : key) (s : TCP_ConnectionStates_t) : list TCP_ConnectionState_t -> option (list TCP_ConnectionState_t) :=
  let '(p, a, r) := k in connection_set p a r s.
Definition entry (k : key) (s : TCP_ConnectionStates_t) (c : TCP_ConnectionState_t) : TCP_ConnectionState_t :=
  let '(p, a, r) := k in mkConn p r a (Info c) s.
Definition is_closed (c : TCP_ConnectionState_t) : bool := bool_decide (conn_State c = TCP_Connection_Closed).

Lemma is_key_spec k c : is_key k c = bool_decide (key_of c = k).
Proof.
  destruct k as [[p a] r]. cbn [is_key]. unfold is_connection, key_of, same.
  destruct (Z.eqb_spec (Port c) p), (Z.eqb_spec (RemotePort c) r); repeat case_bool_decide; cbn; congruence.
Qed.

Lemma key_of_entry k s c : key_of (entry k s c) = k.
Proof. by destruct k as [[p a] r]. Qed.
Lemma state_of_entry k s c : conn_State (entry k s c) = s.
Proof. by destruct k as [[p a] r]. Qed.
Lemma entry_of_key k s c : key_of c = k -> entry k s c = set_conn_State s c.
Proof. by intros <-. Qed.

(** The place of a connection: its own, or else the first closed one. *)
Definition slot (k : key) (cs : list TCP_ConnectionState_t) : option nat :=
  match find_first (is_key k) cs with Some i => Some i | None => find_first is_closed cs end.

(** Two entries of one connection: the later one is closed. *)
Definition unique (cs : list TCP_ConnectionState_t) : Prop :=
  forall i j c d, (i < j)%nat -> cs !! i = Some c -> cs !! j = Some d -> key_of c = key_of d ->
    conn_State d = TCP_Connection_Closed.

Lemma slot_lookup k cs i : slot k cs = Some i -> exists c, cs !! i = Some c.
Proof.
  unfold slot. destruct (find_first (is_key k) cs) as [n|] eqn:E; intros H.
  - simplify_eq. apply find_first_Some in E as (c & Hc & _). by exists c.
  - apply find_first_Some in H as (c & Hc & _). by exists c.
Qed.

Lemma set_slot k s cs : set k s cs = match slot k cs with
  | Some i => match cs !! i with Some c => Some (<[i := entry k s c]> cs) | None => None end
  | None => None end.
Proof.
  unfold slot, set, connection_set. destruct k as [[p a] r]. rewrite !update_first_find. cbn [is_key].
  destruct (find_first (is_connection p a r) cs) as [i|] eqn:E.
  - apply find_first_Some in E as (c & -> & Hc & _). f_equal. f_equal. symmetry. apply entry_of_key.
    change (is_connection p a r) with (is_key (p, a, r)) in Hc. rewrite is_key_spec in Hc. by apply bool_decide_eq_true in Hc.
  - done.
Qed.

(** Once a connection has a place, it is found there. *)
Lemma find_at k d i cs : slot k cs = Some i -> key_of d = k -> find_first (is_key k) (<[i := d]> cs) = Some i.
Proof.
  intros H Hd. destruct (slot_lookup _ _ _ H) as [c Hc]. pose proof (lookup_lt_Some _ _ _ Hc) as Hi.
  eapply find_first_intro; [by apply list_lookup_insert_eq|by rewrite is_key_spec, bool_decide_true|].
  intros j y Hj Hy. rewrite list_lookup_insert_ne in Hy by lia. unfold slot in H.
  destruct (find_first (is_key k) cs) as [n|] eqn:E.
  - simplify_eq. apply find_first_Some in E as (_ & _ & _ & E). by eapply E.
  - by eapply Forall_lookup_1 in Hy; [|by apply find_first_None].
Qed.

Lemma find_entry k s c i cs : slot k cs = Some i -> find_first (is_key k) (<[i := entry k s c]> cs) = Some i.
Proof. intros. apply find_at; [done|apply key_of_entry]. Qed.

Lemma slot_at k d i cs : slot k cs = Some i -> key_of d = k -> slot k (<[i := d]> cs) = Some i.
Proof. intros. unfold slot. by rewrite find_at. Qed.

Lemma get_find k cs : get k cs = match find_first (is_key k) cs with
  | Some i => match cs !! i with Some c => conn_State c | None => TCP_Connection_Closed end
  | None => TCP_Connection_Closed end.
Proof. by destruct k as [[p a] r]. Qed.

Lemma slot_None_get k cs : slot k cs = None -> get k cs = TCP_Connection_Closed.
Proof. unfold slot. rewrite get_find. by destruct (find_first (is_key k) cs). Qed.

(** A connection without a live entry is closed. *)
Lemma get_closed k cs : (forall j d, cs !! j = Some d -> key_of d = k -> conn_State d = TCP_Connection_Closed) ->
  get k cs = TCP_Connection_Closed.
Proof.
  intros H. rewrite get_find. destruct (find_first (is_key k) cs) as [i|] eqn:E; [|done].
  apply find_first_Some in E as (c & Hc & Hk & _). rewrite Hc. rewrite is_key_spec in Hk. apply bool_decide_eq_true in Hk. eauto.
Qed.

(** The state of a live entry is the state of its connection. *)
Lemma get_entry cs i c : unique cs -> cs !! i = Some c -> conn_State c <> TCP_Connection_Closed ->
  get (key_of c) cs = conn_State c.
Proof.
  intros Hu Hc Hs. rewrite get_find. erewrite find_first_intro; [by rewrite Hc|done|by rewrite is_key_spec, bool_decide_true|].
  intros j y Hj Hy. rewrite is_key_spec. apply bool_decide_eq_false. intros E. by destruct Hs; eapply Hu.
Qed.

Lemma unique_entry k s cs i c : unique cs -> slot k cs = Some i -> cs !! i = Some c -> unique (<[i := entry k s c]> cs).
Proof.
  intros Hu Hs Hc m n x y Hmn Hx Hy Hk. pose proof (lookup_lt_Some _ _ _ Hc) as Hi.
  destruct (decide (n = i)) as [-> | Hn].
  - rewrite list_lookup_insert_ne in Hx by lia. rewrite list_lookup_insert_eq in Hy by done. injection Hy as <-.
    rewrite key_of_entry in Hk. subst k. exfalso. unfold slot in Hs. destruct (find_first (is_key (key_of x)) cs) as [j|] eqn:E.
    + simplify_eq. apply find_first_Some in E as (_ & _ & _ & E). specialize (E m x Hmn Hx).
      rewrite is_key_spec in E. by apply bool_decide_eq_false in E.
    + apply find_first_None in E. eapply Forall_lookup_1 in E; [|exact Hx]. rewrite is_key_spec in E.
      by apply bool_decide_eq_false in E.
  - rewrite list_lookup_insert_ne in Hy by lia. destruct (decide (m = i)) as [-> | Hm].
    + rewrite list_lookup_insert_eq in Hx by done. injection Hx as <-. rewrite key_of_entry in Hk. subst k.
      unfold slot in Hs. destruct (find_first (is_key (key_of y)) cs) as [j|] eqn:E.
      * simplify_eq. apply find_first_Some in E as (c' & Hc' & Hk & _). simplify_eq. rewrite is_key_spec in Hk.
        apply bool_decide_eq_true in Hk. by refine (Hu _ n _ y Hmn _ Hy Hk).
      * apply find_first_None in E. eapply Forall_lookup_1 in E; [|exact Hy]. rewrite is_key_spec in E.
        by apply bool_decide_eq_false in E.
    + rewrite list_lookup_insert_ne in Hx by lia. exact (Hu m n x y Hmn Hx Hy Hk).
Qed.

Lemma get_entry_other k k' s cs i c : unique cs -> slot k cs = Some i -> cs !! i = Some c -> k' <> k ->
  get k' (<[i := entry k s c]> cs) = get k' cs.
Proof.
  intros Hu Hs Hc Hk. pose proof (unique_entry k s cs i c Hu Hs Hc) as Hu'. pose proof (lookup_lt_Some _ _ _ Hc) as Hi.
  destruct (decide (get k' cs = TCP_Connection_Closed)) as [E|E].
  - rewrite E. apply get_closed. intros j d Hd Hkd. destruct (decide (j = i)) as [-> | Hj].
    { rewrite list_lookup_insert_eq in Hd by done. injection Hd as <-. by rewrite key_of_entry in Hkd. }
    rewrite list_lookup_insert_ne in Hd by done. destruct (decide (conn_State d = TCP_Connection_Closed)) as [|Hl]; [done|].
    subst k'. by rewrite (get_entry _ _ _ Hu Hd Hl) in E.
  - rewrite get_find in E. destruct (find_first (is_key k') cs) as [j|] eqn:F; [|done].
    pose proof F as F'. apply find_first_Some in F' as (d & Hd & Hkd & _). rewrite Hd in E.
    rewrite is_key_spec in Hkd. apply bool_decide_eq_true in Hkd. subst k'. rewrite (get_entry _ _ _ Hu Hd E).
    apply (get_entry _ j); [done| |done]. rewrite list_lookup_insert_ne; [done|]. intros ->. simplify_eq.
    unfold slot in Hs. destruct (find_first (is_key k) cs) as [m|] eqn:G.
    + simplify_eq. apply find_first_Some in G as (c' & Hc' & Hkc & _). simplify_eq. rewrite is_key_spec in Hkc.
      by apply bool_decide_eq_true in Hkc.
    + apply find_first_Some in Hs as (c' & Hc' & Hcl & _). simplify_eq. by apply bool_decide_eq_true in Hcl.
Qed.

(** C23: the connection table implements a finite map from connections (port, remote
    address, remote port) to states, in which a connection that is not in the map is
    closed: setting a state changes that of the one connection and no other, the
    invariant of the table is kept, and setting fails only for a connection that has
    no entry while every entry is of a live connection. *)
Theorem TCP_table_refines k s cs : unique cs ->
  match set k s cs with
  | Some cs' => unique cs' /\ length cs' = length cs /\ get k cs' = s /\ forall k', k' <> k -> get k' cs' = get k' cs
  | None => get k cs = TCP_Connection_Closed /\ Forall (fun c => conn_State c <> TCP_Connection_Closed /\ key_of c <> k) cs
  end.
Proof.
  intros Hu. rewrite set_slot. destruct (slot k cs) as [i|] eqn:Hs.
  - destruct (slot_lookup _ _ _ Hs) as [c Hc]. rewrite Hc. pose proof (lookup_lt_Some _ _ _ Hc). split_and!.
    + by apply unique_entry.
    + by rewrite length_insert.
    + rewrite get_find, find_entry, list_lookup_insert_eq by done. apply state_of_entry.
    + intros. by apply get_entry_other.
  - unfold slot in Hs. destruct (find_first (is_key k) cs) as [|] eqn:E; [done|]. apply find_first_None in E, Hs.
    split; [|apply Forall_lookup_2; intros j d Hd; split].
    + apply get_closed. intros j d Hd Hk. eapply Forall_lookup_1 in E; [|exact Hd]. rewrite is_key_spec in E.
      by apply bool_decide_eq_false in E.
    + eapply Forall_lookup_1 in Hs; [|exact Hd]. by apply bool_decide_eq_false in Hs.
    + eapply Forall_lookup_1 in E; [|exact Hd]. rewrite is_key_spec in E. by apply bool_decide_eq_false in E.
Qed.

(** A table of three live connections, and of the one at reset. *)
Lemma TCP_table_refines_witness :
  let cs := map (set_conn_State TCP_Connection_Closed) (ConnectionStateTable zero_Net) in
  let k : key := (TCP_PORT_HTTP, [10; 0; 0; 1], 4242) in
  exists cs', set k TCP_Connection_Listen cs = Some cs' /\ get k cs' = TCP_Connection_Listen /\ unique cs'.
Proof.
  intros cs k. assert (unique cs) as Hu.
  { intros i j c d _ Hc Hd _. unfold cs in Hd. rewrite list_lookup_fmap_Some in Hd.
    destruct Hd as (? & -> & _). done. }
  pose proof (TCP_table_refines k TCP_Connection_Listen cs Hu) as H. destruct (set k TCP_Connection_Listen cs) as [cs'|] eqn:E; [|done].
  exists cs'. destruct H as (H1 & _ & H2 & _). by split_and!.
Defined.
