(* ===== verification/TCPSpec.v ===== *)
(** TCP of the TCP/IP demo: the segments it sends, and its packet handler as a state
    machine of one connection. *)

From stdpp Require Import base tactics option list numbers.
From Stdlib Require Import ZArith Lia.
From S2P Require Import Prelude Memory EthernetFrame FrameSpec NetProtocols NetSpec TCP TCPTable.

(** ** Bit fields *)

Lemma testbit_put_bits x lo width v i : 0 <= lo -> 0 <= width -> 0 <= i -> Z.testbit (put_bits x lo width v) i =
  (i <? 8) && (if (lo <=? i) && (i <? lo + width) then Z.testbit v (i - lo) else Z.testbit x i).
Proof.
  intros Hlo Hw Hi. unfold put_bits. rewrite testbit_u8, andb_comm by done. f_equal.
  rewrite Z.lor_spec, !Z.land_spec, Z.lnot_spec, !Z.shiftl_spec by done.
  destruct (Z.leb_spec lo i).
  - rewrite Z.testbit_ones_nonneg by lia. replace (i - lo <? width) with (i <? lo + width) by (symmetry; destruct (Z.ltb_spec i (lo + width)), (Z.ltb_spec (i - lo) width); lia).
    destruct (i <? lo + width); cbn; by rewrite ?andb_false_r, ?andb_true_r, ?orb_false_r.
  - rewrite !(Z.testbit_neg_r _ (i - lo)) by lia. cbn. by rewrite andb_true_r, orb_false_r.
Qed.

(** The fields that make up a byte determine it. *)
Ltac bits_of_byte :=
  apply Z.bits_inj'; intros i Hi; rewrite !testbit_put_bits by lia;
  destruct (Z.ltb_spec i 8); cbn [andb]; [|symmetry; apply (testbit_above 8); lia];
  assert (i = 0 \/ i = 1 \/ i = 2 \/ i = 3 \/ i = 4 \/ i = 5 \/ i = 6 \/ i = 7) as Hcase by lia;
  decompose [or] Hcase; subst; reflexivity.

Lemma put_bits_version x : put_bits (put_bits x 0 4 5) 4 4 4 = 0x45.
Proof. bits_of_byte. Qed.
Lemma put_bits_fragment x : put_bits (put_bits x 5 3 0) 0 5 0 = 0.
Proof. bits_of_byte. Qed.
Lemma put_bits_offset x : put_bits (put_bits x 4 4 5) 0 4 0 = 0x50.
Proof. bits_of_byte. Qed.

(** ** The checksum *)

(** The pseudo header the checksum of a segment covers. *)
Definition pseudo_header (src dst : list Z) (n : Z) : list Z := src ++ dst ++ [0; PROTOCOL_TCP] ++ be16 n.

Lemma inet_words_last bs x : Nat.Even (length bs) -> inet_words (bs ++ [x]) = inet_words bs ++ [x].
Proof. intros. by rewrite inet_words_app. Qed.

Lemma wp_TCP_Checksum16 t o src dst n Q w : 0 <= o -> 0 <= n -> o + n < len (FrameOUT w) -> n < 65536 ->
  len src = 4 -> len dst = 4 -> Forall is_u8 src -> Forall is_u8 dst -> Forall is_u8 (FrameOUT w) ->
  Q (inet_checksum (pseudo_header src dst n ++ slice (FrameOUT w) o n)) w -> wp t (TCP_Checksum16 o src dst n) Q w.
Proof.
  intros Ho Hn Hl Hn2 Ls Ld Us Ud Uo HQ. unfold TCP_Checksum16. rewrite Z.shiftr_div_pow2 by lia. change (2 ^ 1) with 2.
  set (B := FrameOUT w) in *. assert (exists h, n / 2 = h) as [h Eh] by eauto. rewrite Eh.
  assert (n = 2 * h \/ n = 2 * h + 1) as Hpar by (Z.div_mod_to_equations; lia).
  apply wp_bind, wp_load_bytes; [lia|lia|cbn [data]; fold B; lia|]. cbn [data]. fold B. set (bs := slice B o (2 * h)).
  assert (length bs = Z.to_nat (2 * h)) as Lb by (unfold bs; rewrite length_slice; lia).
  assert (Nat.Even (length bs)) as Eb by (exists (Z.to_nat h); lia).
  assert (Nat.Even (length src)) as Es by (exists 2%nat; lia). assert (Nat.Even (length dst)) as Ed by (exists 2%nat; lia).
  assert (Forall is_u8 bs) as Ub by (by apply slice_u8).
  set (last := if tst n 1 then hd 0 (slice B (o + 2 * h) 1) else 0).
  assert (inet_words (slice B o n) = inet_words bs ++ (if tst n 1 then [last] else [])) as Ew.
  { unfold last. destruct Hpar as [E|E].
    - replace (tst n 1) with false by (rewrite tst_odd, E, Z.odd_mul; done). rewrite app_nil_r, E. done.
    - replace (tst n 1) with true by (rewrite tst_odd, E, Z.odd_add, Z.odd_mul; done).
      rewrite E, slice_app by lia. fold bs. destruct (slice B (o + 2 * h) 1) as [|x [|y l]] eqn:El;
        [apply (f_equal length) in El; rewrite length_slice in El; cbn in El; lia|by apply inet_words_last|
         apply (f_equal length) in El; rewrite length_slice in El; cbn in El; lia]. }
  assert (inet_words (pseudo_header src dst n ++ slice B o n) =
    words src ++ words dst ++ [SwapEndian_16 PROTOCOL_TCP; SwapEndian_16 n] ++ words bs ++ (if tst n 1 then [last] else [])) as Ep.
  { unfold pseudo_header. rewrite <- !(assoc_L app), !inet_words_app, Ew, !words_even by (done || by exists 1%nat). done. }
  apply wp_bind, (wp_mono _ _ (fun l w' => l = last /\ w' = w)).
  { change 0x01 with 1. unfold last. destruct (tst n 1) eqn:Et; [|by apply wp_ret].
    rewrite tst_odd in Et. destruct Hpar as [E|E]; [by rewrite E, Z.odd_mul in Et|].
    apply wp_bind, wp_load16; [lia|cbn [data]; fold B; lia|]. cbn [data]. fold B. apply wp_ret. split; [|done].
    rewrite (slice_prefix B (o + 2 * h) 2 1 _ eq_refl) by lia.
    pose proof (slice_u8 B (o + 2 * h) 2 Uo) as U2. pose proof (length_slice B (o + 2 * h) 2 ltac:(lia) ltac:(lia) ltac:(lia)) as L2.
    destruct (slice B (o + 2 * h) 2) as [|x [|y [|z r]]]; try done. cbn [word16 hd take].
    inversion_clear U2 as [|? ? Hx U3]. inversion_clear U3 as [|? ? Hy _]. pose proof (le16_of_le16 x y Hx Hy) as E16.
    unfold le16 in E16. injection E16 as E16 _. change 255 with (Z.ones 8). rewrite Z.land_ones by lia. exact E16. }
  intros l w' [-> ->].
  assert (Forall is_u16 (inet_words (pseudo_header src dst n ++ slice B o n))) as Up.
  { apply inet_words_u16. unfold pseudo_header. repeat apply Forall_app_2; try done; [by repeat constructor| |by apply slice_u8].
    unfold be16. repeat constructor; apply u8_range. }
  pose proof (length_inet_words (pseudo_header src dst n ++ slice B o n)) as Lw.
  rewrite length_app in Lw. unfold pseudo_header in Lw at 2. rewrite !length_app, length_slice in Lw by lia. cbn [length be16] in Lw.
  pose proof (sum_bounds _ Up) as Sb.
  assert (u32 (add_words 0 (words src ++ words dst ++ [SwapEndian_16 PROTOCOL_TCP; SwapEndian_16 n] ++ words bs) + last)
    = sum (inet_words (pseudo_header src dst n ++ slice B o n))) as ->.
  { rewrite Ep in *. rewrite !(assoc_L app) in Up, Sb, Lw |- *. apply Forall_app in Up as [Up _].
    rewrite sum_app in *. rewrite length_app in *.
    assert (sum (if tst n 1 then [last] else []) = last) as El by (unfold last; destruct (tst n 1); cbn; lia).
    rewrite El in *. rewrite add_words_sum by (done || lia). rewrite !sum_app in *. rewrite El. rewrite u32_small; [lia|unfold is_u32; lia]. }
  apply wp_bind. unfold wp at 1. rewrite fold_carry_ones by (unfold is_u32; lia). apply wp_ret.
  rewrite u16_lnot by (apply ones_sum_range; lia). done.
Qed.

(** ** Segments *)

Definition tcp_header (sport dport : list Z) (seq ack flags win : Z) (ck : list Z) : list Z :=
  sport ++ dport ++ be32 seq ++ be32 ack ++ [0x50] ++ [flags] ++ be16 win ++ ck ++ [0; 0].
Definition tcp_checksum (src dst sport dport : list Z) (seq ack flags win : Z) (payload : list Z) : Z :=
  inet_checksum (pseudo_header src dst (20 + len payload) ++ tcp_header sport dport seq ack flags win [0; 0] ++ payload).
Definition tcp_segment (src dst sport dport : list Z) (seq ack flags win : Z) (payload : list Z) : list Z :=
  tcp_header sport dport seq ack flags win (le16 (tcp_checksum src dst sport dport seq ack flags win payload)) ++ payload.

Lemma length_tcp_segment src dst sport dport seq ack flags win bs : len sport = 2 -> len dport = 2 ->
  len (tcp_segment src dst sport dport seq ack flags win bs) = 20 + len bs.
Proof. intros. unfold tcp_segment, tcp_header. rewrite !length_app. cbn [length be16 be32 le16]. lia. Qed.

(** The receiver of a segment accepts its checksum. *)
Lemma segment_verifies src dst sport dport seq ack flags win payload :
  len src = 4 -> len dst = 4 -> len sport = 2 -> len dport = 2 -> is_u8 flags ->
  Forall is_u8 src -> Forall is_u8 dst -> Forall is_u8 sport -> Forall is_u8 dport -> Forall is_u8 payload ->
  verifies (pseudo_header src dst (20 + len payload) ++ tcp_segment src dst sport dport seq ack flags win payload).
Proof.
  intros L1 L2 L3 L4 Hf U1 U2 U3 U4 U5. unfold tcp_segment, tcp_checksum, tcp_header.
  set (a := pseudo_header src dst (20 + len payload) ++ sport ++ dport ++ be32 seq ++ be32 ack ++ [0x50] ++ [flags] ++ be16 win).
  set (b := [0; 0] ++ payload).
  assert (forall x, pseudo_header src dst (20 + len payload) ++ (sport ++ dport ++ be32 seq ++ be32 ack ++ [0x50] ++ [flags] ++ be16 win ++ x ++ [0; 0]) ++ payload = a ++ x ++ b) as E.
  { intros x. unfold a, b. by rewrite <- !(assoc_L app). }
  rewrite !E. apply checksum_verifies.
  - exists 14%nat. unfold a, pseudo_header. rewrite !length_app. cbn [length be16 be32]. lia.
  - unfold a, pseudo_header, PROTOCOL_TCP. u8s.
  - unfold b. u8s.
Qed.

(** The header of a segment whose flags are in place is completed. *)
Ltac tcp_offsets :=
  unfold TCPH.SourcePort, TCPH.DestinationPort, TCPH.SequenceNumber, TCPH.AcknowledgmentNumber, TCPH.DataOffset,
    TCPH.Flags, TCPH.WindowSize, TCPH.Checksum, TCPH.UrgentPointer, IPH.HeaderLength, IPH.TypeOfService,
    IPH.TotalLength, IPH.Identification, IPH.FragmentOffset, IPH.TTL, IPH.Protocol, IPH.HeaderChecksum,
    IPH.SourceAddress, IPH.DestinationAddress, sizeof_TCP_Header, sizeof_IP_Header in *.

(** The fields of an incoming segment the handler reads. *)
Record packet (I : list Z) (ip th : Z) (src dst sport dport : list Z) (seq flags : Z) : Prop := {
  pk_size : length I = 1500%nat;
  pk_ip : 0 <= ip /\ ip + 20 <= 1500;
  pk_th : 0 <= th /\ th + 20 <= 1500;
  pk_u8 : Forall is_u8 I;
  pk_src : slice I (ip + 12) 4 = src;
  pk_dst : slice I (ip + 16) 4 = dst;
  pk_sport : slice I (th + 0) 2 = sport;
  pk_dport : slice I (th + 2) 2 = dport;
  pk_seq : slice I (th + 4) 4 = be32 seq;
  pk_flags : slice I (th + 13) 1 = [flags]
}.

(** The connection a segment is of. *)
Definition key_in (src sport dport : list Z) : key := (word16 dport, src, word16 sport).

Section Handler.
Context (I : list Z) (ip th o : Z) (src dst sport dport : list Z) (seq flags : Z).
Context (PK : packet I ip th src dst sport dport seq flags) (Ho : 0 <= o /\ o + 20 < 1500).
Context (t : bool) (il ol : Z) (ps : list TCP_PortState_t) (pb : Z).
Abbreviation net O cs := (mkNet I il O ol ps cs pb).
Abbreviation k := (key_in src sport dport).

Lemma packet_lengths : len src = 4 /\ len dst = 4 /\ len sport = 2 /\ len dport = 2.
Proof. destruct PK as [H1 [] [] H2 <- <- <- <- _ _]. rewrite !length_slice by lia. lia. Qed.

Lemma packet_u8 : Forall is_u8 src /\ Forall is_u8 dst /\ Forall is_u8 sport /\ Forall is_u8 dport.
Proof. destruct PK as [H1 [] [] H2 <- <- <- <- _ _]. split_and!; by apply slice_u8. Qed.

Lemma wp_connection_id Q O cs : length O = 1500%nat -> Q k (net O cs) -> wp t (connection_id ip th) Q (net O cs).
Proof.
  intros HO HQ. destruct PK as [H1 [] [] H2 E1 E2 E3 E4 _ _]. unfold connection_id. tcp_offsets. net_steps.
  rewrite E1, E3, E4. done.
Qed.

Lemma wp_GetConnectionInfo Q O cs : length O = 1500%nat -> Q (find_first (is_key k) cs) (net O cs) ->
  wp t (GetConnectionInfo ip th) Q (net O cs).
Proof. intros HO HQ. unfold GetConnectionInfo. apply wp_bind, wp_connection_id; [done|]. cbn [key_in]. by net_steps. Qed.

Lemma wp_GetConnectionState Q O cs : length O = 1500%nat -> Q (get k cs) (net O cs) ->
  wp t (GetConnectionState ip th) Q (net O cs).
Proof. intros HO HQ. unfold GetConnectionState. apply wp_bind, wp_connection_id; [done|]. cbn [key_in]. by net_steps. Qed.

Lemma wp_SetConnectionState s Q O cs : length O = 1500%nat ->
  match set k s cs with Some cs' => Q true (net O cs') | None => Q false (net O cs) end ->
  wp t (SetConnectionState ip th s) Q (net O cs).
Proof.
  intros HO HQ. unfold SetConnectionState. apply wp_bind, wp_connection_id; [done|]. cbn [key_in].
  unfold TCP_SetConnectionState. net_steps. cbn [set key_in] in HQ. by destruct (connection_set _ _ _ s cs).
Qed.

Lemma wp_info_store i f Q O cs c : cs !! i = Some c -> Q tt (net O (<[i := set_Info f c]> cs)) ->
  wp t (info_store (Some i) f) Q (net O cs).
Proof. intros Hc HQ. unfold info_store. net_steps. cbn [checked]. net_steps. rewrite Hc. cbn [checked]. by net_steps. Qed.

Lemma wp_info_load i Q O cs c : cs !! i = Some c -> Q (Info c) (net O cs) -> wp t (info_load (Some i)) Q (net O cs).
Proof. intros Hc HQ. unfold info_load. net_steps. cbn [checked]. net_steps. rewrite Hc. cbn [checked]. by net_steps. Qed.

(** The window a reply announces. *)
Definition window (i : TCP_ConnectionInfo_t) : Z :=
  if InUse (Buffer i) then u16 (TCP_WINDOW_SIZE - Length (Buffer i)) else TCP_WINDOW_SIZE.
Definition reply (c : TCP_ConnectionState_t) (f : Z) : list Z :=
  tcp_segment dst src dport sport (SequenceNumberOut (Info c)) (SequenceNumberIn (Info c)) f (window (Info c)) [].

Lemma TCP_respond_fills O cs i c f Q : length O = 1500%nat -> Forall is_u8 O -> slice O (o + 13) 1 = [f] ->
  find_first (is_key k) cs = Some i -> cs !! i = Some c ->
  Q 20 (net (put O o (reply c f)) cs) -> wp t (TCP_respond ip th o) Q (net O cs).
Proof.
  intros HO Hu Hf Hi Hc HQ. destruct packet_lengths as (L1 & L2 & L3 & L4). destruct packet_u8 as (U1 & U2 & U3 & U4).
  destruct PK as [H1 [] [] H2 E1 E2 E3 E4 _ _]. unfold TCP_respond. tcp_offsets.
  apply wp_bind, wp_GetConnectionInfo; [done|]. rewrite Hi. frame_steps.
  eapply wp_info_load; [done|]. frame_steps. rewrite E3, E4, !le32_Swap. fields. set (x := hd 0 (slice O (o + 12) 1)).
  match goal with |- wp _ ?m _ _ => replace m with (store16 OUT (o + 14) (SwapEndian_16 (window (Info c)))) end.
  2:{ unfold window. by destruct (InUse (Buffer (Info c))). }
  frame_steps. rewrite E1, E2, !le16_Swap. change (le16 0) with [0; 0]. change (20 / 4) with 5. fields. cbn [hd]. rewrite put_bits_offset.
  match goal with |- wp _ _ _ (net ?b _) => set (O5 := b) end.
  assert (length O5 = 1500%nat) as HO5 by (unfold O5; by rewrite !length_put).
  set (i5 := Info c) in *.
  assert (slice O5 o 20 = tcp_header dport sport (SequenceNumberOut i5) (SequenceNumberIn i5) f (window i5) [0; 0]) as E5.
  { rewrite <- (Z.add_0_r o). apply holds_last; [|unfold tcp_header; rewrite !length_app; cbn [length be32 be16]; lia].
    unfold tcp_header, O5. regions. }
  assert (Forall is_u8 O5) as HU5 by (unfold O5; u8s).
  apply wp_TCP_Checksum16; try done; cbn [FrameOUT]; [lia..|]. rewrite E5. net_steps.
  match goal with |- Q _ (net ?b _) => replace b with (put O o (reply c f)); [done|] end.
  symmetry. unfold O5, reply, tcp_segment, tcp_checksum, tcp_header. rewrite !app_nil_r. cbn [length].
  change (20 + Z.of_nat 0) with 20. set (ck := inet_checksum _). fold i5. filled 20.
  rewrite !length_app. cbn [length be32 be16 le16]. lia.
Qed.

(** ** One connection *)

Section At.
Context (O : list Z) (HO : length O = 1500%nat) (cs : list TCP_ConnectionState_t) (i : nat) (Hi : slot k cs = Some i).
Abbreviation at_ d := (net O (<[i := d]> cs)).

Lemma at_lookup d : <[i := d]> cs !! i = Some d.
Proof. destruct (slot_lookup _ _ _ Hi) as [c Hc]. apply list_lookup_insert_eq. by eapply lookup_lt_Some. Qed.

Lemma wp_Set_at s d Q : key_of d = k -> Q true (at_ (set_conn_State s d)) -> wp t (SetConnectionState ip th s) Q (at_ d).
Proof.
  intros Hd HQ. apply wp_SetConnectionState; [done|]. rewrite set_slot, slot_at, at_lookup, list_insert_insert_eq by done.
  by rewrite entry_of_key.
Qed.

Lemma wp_Info_at d Q : key_of d = k -> Q (Some i) (at_ d) -> wp t (GetConnectionInfo ip th) Q (at_ d).
Proof. intros Hd HQ. apply wp_GetConnectionInfo; [done|]. by rewrite find_at. Qed.

Lemma wp_State_at d Q : key_of d = k -> Q (conn_State d) (at_ d) -> wp t (GetConnectionState ip th) Q (at_ d).
Proof. intros Hd HQ. apply wp_GetConnectionState; [done|]. by rewrite get_find, find_at, at_lookup. Qed.

Lemma wp_store_at f d Q : Q tt (at_ (set_Info f d)) -> wp t (info_store (Some i) f) Q (at_ d).
Proof. intros HQ. eapply wp_info_store; [apply at_lookup|]. by rewrite list_insert_insert_eq. Qed.

Lemma wp_load_at d Q : Q (Info d) (at_ d) -> wp t (info_load (Some i)) Q (at_ d).
Proof. intros HQ. eapply wp_info_load; [apply at_lookup|done]. Qed.
End At.
End Handler.

(** What becomes of a segment: no reply, a reply with these flags, or the segment is
    to be processed again later. *)
Inductive result : Set := NoReply | Reply (flags : Z) | Deferred.

(** The buffer of an established connection takes data. *)
Definition prepare_buffer (b : TCP_ConnectionBuffer_t) : TCP_ConnectionBuffer_t :=
  if negb (InUse b) && negb (Ready b) then set_Length 0 (set_InUse true (set_Direction TCP_PACKETDIR_IN b)) else b.
Definition accepts (b : TCP_ConnectionBuffer_t) : bool :=
  Bool.eqb (Direction b) TCP_PACKETDIR_IN && negb (Length b =? TCP_WINDOW_SIZE).
Definition append_data (bs : list Z) (b : TCP_ConnectionBuffer_t) : TCP_ConnectionBuffer_t :=
  set_Length (Length b + len bs) (set_Data (put (Data b) (Length b) bs) b).

(** The effect of a segment with flags [f], sequence number [seq] and data [bs] on its
    connection, by the state of the connection. *)
Definition state_step (f seq : Z) (bs : list Z) (c : TCP_ConnectionState_t) : TCP_ConnectionState_t * result :=
  let both i := set_SequenceNumberOut (SequenceNumberOut i + 1) (set_SequenceNumberIn (SequenceNumberIn i + 1) i) in
  match conn_State c with
  | TCP_Connection_Listen =>
      if f =? TCP_FLAG_SYN
      then (set_Info (fun i => set_Buffer (set_InUse false) (set_SequenceNumberOut 0 (set_SequenceNumberIn (u32 seq + 1) i)))
              (set_conn_State TCP_Connection_SYNReceived c), Reply (Z.lor TCP_FLAG_SYN TCP_FLAG_ACK))
      else (c, NoReply)
  | TCP_Connection_SYNReceived =>
      if f =? TCP_FLAG_ACK
      then (set_Info (fun i => set_SequenceNumberOut (SequenceNumberOut i + 1) i)
              (set_conn_State TCP_Connection_Established c), NoReply)
      else (c, NoReply)
  | TCP_Connection_Established =>
      if f =? Z.lor TCP_FLAG_FIN TCP_FLAG_ACK
      then (set_Info both (set_conn_State TCP_Connection_CloseWait c), Reply (Z.lor TCP_FLAG_FIN TCP_FLAG_ACK))
      else if (f =? TCP_FLAG_ACK) || (f =? Z.lor TCP_FLAG_ACK TCP_FLAG_PSH) then
        let b := prepare_buffer (Buffer (Info c)) in
        if accepts b then
          let b := append_data bs b in
          let full := (TCP_WINDOW_SIZE - Length b =? 0) || tst f TCP_FLAG_PSH in
          let b := if full then set_Ready true (set_InUse false b) else b in
          (set_Info (fun i => set_SequenceNumberIn (SequenceNumberIn i + len bs) (set_Buffer (fun _ => b) i)) c,
           if full then Reply TCP_FLAG_ACK else NoReply)
        else (set_Info (set_Buffer (fun _ => b)) c, Deferred)
      else (c, NoReply)
  | TCP_Connection_Closing =>
      (set_conn_State TCP_Connection_FINWait1 (set_Info (set_Buffer (set_InUse false)) c), Reply (Z.lor TCP_FLAG_ACK TCP_FLAG_FIN))
  | TCP_Connection_FINWait1 =>
      if f =? Z.lor TCP_FLAG_FIN TCP_FLAG_ACK
      then (set_conn_State TCP_Connection_Closed (set_Info both c), Reply TCP_FLAG_ACK)
      else if f =? TCP_FLAG_ACK then (set_conn_State TCP_Connection_FINWait2 c, NoReply) else (c, NoReply)
  | TCP_Connection_FINWait2 =>
      if f =? Z.lor TCP_FLAG_FIN TCP_FLAG_ACK
      then (set_conn_State TCP_Connection_Closed (set_Info both c), Reply TCP_FLAG_ACK)
      else (c, NoReply)
  | TCP_Connection_CloseWait =>
      if f =? TCP_FLAG_ACK then (set_conn_State TCP_Connection_Closed c, NoReply) else (c, NoReply)
  | _ => (c, NoReply)
  end.

(** SYN starts a connection afresh, RST ends it. *)
Definition conn_step (f seq : Z) (bs : list Z) (c : TCP_ConnectionState_t) : TCP_ConnectionState_t * result :=
  let c := if tst f TCP_FLAG_SYN then set_conn_State TCP_Connection_Listen c else c in
  if tst f TCP_FLAG_RST then (set_conn_State TCP_Connection_Closed c, Reply (Z.lor TCP_FLAG_RST TCP_FLAG_ACK))
  else state_step f seq bs c.

(** ** The handler implements it *)

(** The data of a segment, by the length fields of its headers. *)
Definition payload (I : list Z) (ip th : Z) (bs : list Z) : Prop :=
  exists first offset total, is_u8 first /\ is_u8 offset /\ is_u16 total /\
    slice I (ip + 0) 1 = [first] /\ slice I (th + 12) 1 = [offset] /\ slice I (ip + 2) 2 = be16 total /\
    len bs = total - 4 * (first mod 16) - 4 * (offset / 16) /\
    th + 4 * (offset / 16) + len bs <= 1500 /\ slice I (th + 4 * (offset / 16)) (len bs) = bs.

(** What the handler computes from them. *)
Lemma payload_read I ip th bs : payload I ip th bs -> exists first offset total,
  slice I (ip + 0) 1 = [first] /\ slice I (th + 12) 1 = [offset] /\ slice I (ip + 2) 2 = be16 total /\
  let doff := Z.land (Z.shiftr offset 4) (Z.ones 4) * 4 in
  u16 (SwapEndian_16 (word16 (be16 total)) - Z.land (Z.shiftr first 0) (Z.ones 4) * 4 - doff) = len bs /\
  0 <= doff /\ th + doff + len bs <= 1500 /\ slice I (th + doff) (len bs) = bs.
Proof.
  intros (first & offset & total & U1 & U2 & U3 & E1 & E2 & E3 & Hlen & Hb & Hbs). exists first, offset, total.
  split; [done|]. split; [done|]. split; [done|]. unfold is_u8, is_u16 in *.
  assert (0 <= first mod 16 < 16) by (apply Z.mod_pos_bound; lia).
  assert (0 <= offset / 16 < 16) by (Z.div_mod_to_equations; lia).
  rewrite of_le16_be16, Z.shiftr_0_r, !Z.land_ones, Z.shiftr_div_pow2 by lia. change (2 ^ 4) with 16.
  rewrite (Z.mod_small (offset / 16)) by lia. cbn zeta. split_and!; [|lia|lia|].
  - rewrite (u16_small total), u16_small by (unfold is_u16; lia). lia.
  - by replace (offset / 16 * 4) with (4 * (offset / 16)) by lia.
Qed.

(** The data fits in the buffer of the connection, when it takes data. *)
Definition fits (bs : list Z) (c : TCP_ConnectionState_t) : Prop :=
  let b := prepare_buffer (Buffer (Info c)) in
  length (Data b) = 512%nat /\ 0 <= Length b /\ (accepts b = true -> Length b + len bs <= TCP_WINDOW_SIZE).

Section Reads.
Context (I : list Z) (ip th o : Z) (src dst sport dport : list Z) (seq flags : Z).
Context (PK : packet I ip th src dst sport dport seq flags) (Ho : 0 <= o /\ o + 20 < 1500).
Context (t : bool) (il ol : Z) (ps : list TCP_PortState_t) (pb : Z).
Context (O : list Z) (HO : length O = 1500%nat) (cs : list TCP_ConnectionState_t) (i : nat).
Abbreviation k := (key_in src sport dport).
Context (Hi : slot k cs = Some i) (d : TCP_ConnectionState_t) (Hd : key_of d = k).
Context (bs : list Z) (PL : payload I ip th bs).
Abbreviation net O cs := (mkNet I il O ol ps cs pb).

Lemma wp_flags_in Q O1 cs1 : Q flags (net O1 cs1) -> wp t (flags_in th) Q (net O1 cs1).
Proof using PK. clear HO Ho. intros HQ. destruct PK as [H1 [] [] H2 _ _ _ _ _ E]. unfold flags_in. tcp_offsets. net_step. by rewrite E. Qed.

Lemma wp_flags_out f Q cs1 : Q tt (net (put O (o + 13) [u8 f]) cs1) -> wp t (flags_out o f) Q (net O cs1).
Proof using Ho HO. intros HQ. unfold flags_out. tcp_offsets. by net_step. Qed.

Lemma wp_seq_in Q O1 cs1 : Q (word32 (be32 seq)) (net O1 cs1) -> wp t (load32 IN (th + TCPH.SequenceNumber)) Q (net O1 cs1).
Proof using PK. clear HO Ho. intros HQ. destruct PK as [H1 [] [] H2 _ _ _ _ E _]. tcp_offsets. net_step. by rewrite E. Qed.


End Reads.

(** The steps of the handler on the globals with one connection in view. *)
Ltac the_key := match goal with H : key_of _ = _ |- _ => exact H end.
Ltac tcp_step :=
  lazymatch goal with
  | |- wp _ (SetConnectionState _ _ _) _ _ => eapply wp_Set_at; [eassumption|by rewrite ?length_put|eassumption|the_key|]
  | |- wp _ (GetConnectionInfo _ _) _ _ => eapply wp_Info_at; [eassumption|by rewrite ?length_put|eassumption|the_key|]
  | |- wp _ (GetConnectionState _ _) _ _ => eapply wp_State_at; [eassumption|by rewrite ?length_put|eassumption|the_key|]
  | |- wp _ (info_store _ _) _ _ => eapply wp_store_at; [eassumption|]
  | |- wp _ (info_load _) _ _ => eapply wp_load_at; [eassumption|]
  | |- wp _ (flags_in _) _ _ => eapply wp_flags_in; [eassumption|]
  | |- wp _ (flags_out _ _) _ _ => apply wp_flags_out; [assumption..|]
  | |- wp _ (load32 IN (_ + TCPH.SequenceNumber)) _ _ => eapply wp_seq_in; [eassumption|]
  | |- wp _ (_ ≫= _) _ _ => apply wp_bind
  | |- wp _ (mret _) _ _ => apply wp_ret
  | |- wp _ (advance_both _) _ _ => unfold advance_both
  | |- wp _ (when true _) _ _ => unfold when
  | |- wp _ (when false _) _ _ => unfold when
  end.
Ltac tcp_steps := repeat tcp_step.

Section Cases.
Context (I : list Z) (ip th o : Z) (src dst sport dport : list Z) (seq flags : Z).
Context (PK : packet I ip th src dst sport dport seq flags) (Ho : 0 <= o /\ o + 20 < 1500).
Context (t : bool) (il ol : Z) (ps : list TCP_PortState_t) (pb : Z).
Context (O : list Z) (HO : length O = 1500%nat) (cs : list TCP_ConnectionState_t) (i : nat).
Abbreviation k := (key_in src sport dport).
Context (Hi : slot k cs = Some i) (d : TCP_ConnectionState_t) (Hd : key_of d = k).
Context (bs : list Z) (PL : payload I ip th bs).
Abbreviation net O cs := (mkNet I il O ol ps cs pb).

(** The data of a segment is appended. *)
Lemma wp_receive_data Q : accepts (Buffer (Info d)) = true -> length (Data (Buffer (Info d))) = 512%nat ->
  0 <= Length (Buffer (Info d)) -> Length (Buffer (Info d)) + len bs <= TCP_WINDOW_SIZE ->
  let b := append_data bs (Buffer (Info d)) in
  let full := (TCP_WINDOW_SIZE - Length b =? 0) || tst flags TCP_FLAG_PSH in
  let b := if full then set_Ready true (set_InUse false b) else b in
  let c := set_Info (fun i => set_SequenceNumberIn (SequenceNumberIn i + len bs) (set_Buffer (fun _ => b) i)) d in
  (if full then Q (Respond true) (net (put O (o + 13) [u8 TCP_FLAG_ACK]) (<[i := c]> cs))
   else Q (Respond false) (net O (<[i := c]> cs))) ->
  wp t (receive_data ip th o (Some i)) Q (net O (<[i := d]> cs)).
Proof.
  intros Ha HD HL Hw b full b' c HQ. destruct (payload_read _ _ _ _ PL) as (first & offset & total & E1 & E2 & E3 & Hlen & Hd0 & Hb & Hbs).
  pose proof PK as [HI1 [] [] HI2 _ _ _ _ _ _]. unfold receive_data. tcp_offsets.
  net_steps. rewrite E1, E2, E3. cbn [hd]. rewrite Hlen. eapply wp_load_at; [exact Hi|]. net_steps. rewrite Hbs.
  unfold TCP_WINDOW_SIZE in *. rewrite put_at_put by lia. cbn [checked]. tcp_steps.
  match goal with |- wp _ (if (_ - ?x =? 0) || _ then _ else _) _ _ => change x with (Length b) end. fold full.
  unfold c, b' in HQ. clearbody full. destruct full; tcp_steps; exact HQ.
Qed.

End Cases.

Section States.
Context (I : list Z) (ip th o : Z) (src dst sport dport : list Z) (seq flags : Z).
Context (PK : packet I ip th src dst sport dport seq flags) (Ho : 0 <= o /\ o + 20 < 1500).
Context (t : bool) (il ol : Z) (ps : list TCP_PortState_t) (pb : Z).
Context (O : list Z) (HO : length O = 1500%nat) (cs : list TCP_ConnectionState_t) (i : nat).
Abbreviation k := (key_in src sport dport).
Context (Hi : slot k cs = Some i) (d : TCP_ConnectionState_t) (Hd : key_of d = k).
Context (bs : list Z) (PL : payload I ip th bs).
Abbreviation net O cs := (mkNet I il O ol ps cs pb).

Definition reacts (p : TCP_ConnectionState_t * result) (Q : reaction -> Net -> Prop) : Prop :=
  match p.2 with
  | NoReply => Q (Respond false) (net O (<[i := p.1]> cs))
  | Reply f => Q (Respond true) (net (put O (o + 13) [u8 f]) (<[i := p.1]> cs))
  | Deferred => Q Defer (net O (<[i := p.1]> cs))
  end.

Lemma state_case Q : (conn_State d = TCP_Connection_Established -> fits bs d) -> reacts (state_step flags seq bs d) Q ->
  wp t (match conn_State d with
    | TCP_Connection_Listen => in_Listen ip th o
    | TCP_Connection_SYNReceived => in_SYNReceived ip th
    | TCP_Connection_Established => in_Established ip th o
    | TCP_Connection_Closing => in_Closing ip th o
    | TCP_Connection_FINWait1 => in_FINWait1 ip th o
    | TCP_Connection_FINWait2 => in_FINWait2 ip th o
    | TCP_Connection_CloseWait => in_CloseWait ip th
    | _ => mret (Respond false)
    end) Q (net O (<[i := d]> cs)).
Proof.
  intros Hfit. unfold reacts, state_step. destruct (conn_State d) eqn:Hs; intros HQ; try (apply wp_ret; exact HQ).
  - unfold in_Listen. tcp_step. tcp_step. destruct (flags =? TCP_FLAG_SYN); tcp_steps; [|done].
    rewrite of_le32_be32. exact HQ.
  - unfold in_SYNReceived. tcp_step. tcp_step. destruct (flags =? TCP_FLAG_ACK); tcp_steps; exact HQ.
  - unfold in_Established. tcp_step. tcp_step. destruct (flags =? Z.lor TCP_FLAG_FIN TCP_FLAG_ACK); [tcp_steps; exact HQ|].
    destruct (_ || _); [|tcp_steps; exact HQ]. tcp_steps.
    set (d' := set_Info (set_Buffer prepare_buffer) d).
    apply (wp_mono _ _ (fun _ w => w = net O (<[i := d']> cs))).
    { unfold d', prepare_buffer, set_Info, set_Buffer. destruct (negb _ && negb _); tcp_steps; [done|].
      by destruct d as [? ? ? [? ? ?] ?]. }
    intros _ w ->. destruct (Hfit eq_refl) as (HD & HL & Hfit'). tcp_steps.
    change (Bool.eqb _ _ && _) with (accepts (prepare_buffer (Buffer (Info d)))).
    destruct (accepts (prepare_buffer (Buffer (Info d)))) eqn:Ea; [|tcp_steps; exact HQ]. specialize (Hfit' eq_refl).
    eapply (wp_receive_data _ _ _ _ _ _ _ _ _ _ PK Ho _ _ _ _ _ _ HO _ _ Hi d' bs PL); try done.
    change (Buffer (Info d')) with (prepare_buffer (Buffer (Info d))). cbn zeta.
    destruct ((TCP_WINDOW_SIZE - _ =? 0) || tst flags TCP_FLAG_PSH); exact HQ.
  - unfold in_FINWait1. tcp_step. tcp_step. destruct (flags =? Z.lor TCP_FLAG_FIN TCP_FLAG_ACK).
    + unfold last_FIN. tcp_steps. exact HQ.
    + destruct (flags =? TCP_FLAG_ACK); tcp_steps; exact HQ.
  - unfold in_FINWait2. tcp_step. tcp_step. destruct (flags =? Z.lor TCP_FLAG_FIN TCP_FLAG_ACK).
    + unfold last_FIN. tcp_steps. exact HQ.
    + tcp_steps. exact HQ.
  - unfold in_CloseWait. tcp_step. tcp_step. destruct (flags =? TCP_FLAG_ACK); tcp_steps; exact HQ.
  - unfold in_Closing. tcp_steps. exact HQ.
Qed.
End States.

(** The effect of a segment on the table, and its result: a SYN or RST of an unknown
    connection takes the place of a closed one. *)
Definition tcp_step (k : key) (f seq : Z) (bs : list Z) (cs : list TCP_ConnectionState_t)
    : list TCP_ConnectionState_t * option (TCP_ConnectionState_t * result) :=
  match (if tst f TCP_FLAG_SYN || tst f TCP_FLAG_RST then slot k cs else find_first (is_key k) cs) with
  | Some i =>
      match cs !! i with
      | Some c => let p := conn_step f seq bs (entry k (conn_State c) c) in (<[i := p.1]> cs, Some p)
      | None => (cs, None)
      end
  | None => (cs, None)
  end.

(** The port is in the table and open. *)
Definition listening (ps : list TCP_PortState_t) (p : Z) : Prop :=
  exists i q, find_first (fun q => port_Port q =? p) ps = Some i /\ ps !! i = Some q /\ port_State q = TCP_Port_Open.

(** A step keeps the connection what it is, and its replies have known flags. *)
Ltac step_cases :=
  repeat lazymatch goal with
  | |- context [match ?x with TCP_Connection_Listen => _ | _ => _ end] => destruct x
  | |- context [if ?b then _ else _] => destruct b
  end.

Lemma conn_step_key f seq bs c : key_of (conn_step f seq bs c).1 = key_of c.
Proof. unfold conn_step, state_step. cbn zeta. step_cases; done. Qed.

Lemma conn_step_flags f seq bs c : match (conn_step f seq bs c).2 with Reply r => u8 r = r /\ is_u8 r | _ => True end.
Proof. unfold conn_step, state_step. cbn zeta. step_cases; done. Qed.

Lemma tcp_step_some k f seq bs cs cs' c' r : tcp_step k f seq bs cs = (cs', Some (c', r)) ->
  exists i, slot k cs = Some i /\ cs' = <[i := c']> cs /\ key_of c' = k /\ match r with Reply g => u8 g = g /\ is_u8 g | _ => True end.
Proof.
  unfold tcp_step. destruct (if tst f TCP_FLAG_SYN || tst f TCP_FLAG_RST then slot k cs else find_first (is_key k) cs) as [i|] eqn:E; [|done]. destruct (cs !! i) as [c|] eqn:Ec; [|done].
  pose proof (conn_step_key f seq bs (entry k (conn_State c) c)) as Hk. pose proof (conn_step_flags f seq bs (entry k (conn_State c) c)) as Hf.
  rewrite key_of_entry in Hk. intros [= <- Hp]. rewrite Hp in *. exists i. split_and!; [|done..].
  destruct (_ || _); [done|]. unfold slot. by rewrite E.
Qed.

Section Packets.
Context (I : list Z) (ip th o : Z) (src dst sport dport : list Z) (seq flags : Z).
Context (PK : packet I ip th src dst sport dport seq flags) (Ho : 0 <= o /\ o + 20 < 1500).
Context (bs : list Z) (PL : payload I ip th bs).
Context (il ol : Z) (ps : list TCP_PortState_t) (pb : Z).
Context (O : list Z) (HO : length O = 1500%nat).
Abbreviation k := (key_in src sport dport).
Abbreviation net O cs := (mkNet I il O ol ps cs pb).

(** The segment is for the connection at index [i], whose entry is now [d]. *)
Lemma open_port_at t cs i d Q : slot k cs = Some i -> key_of d = k ->
  (conn_State d = TCP_Connection_Established -> fits bs d) ->
  reacts I o il ol ps pb O cs i (conn_step flags seq bs d) Q ->
  tst flags TCP_FLAG_SYN = false \/ conn_State d = TCP_Connection_Listen ->
  wp t (if tst flags TCP_FLAG_RST then
          ok ← SetConnectionState ip th TCP_Connection_Closed;
          when ok (flags_out o (Z.lor TCP_FLAG_RST TCP_FLAG_ACK));;
          mret (Respond ok)
        else
          s ← GetConnectionState ip th;
          match s with
          | TCP_Connection_Listen => in_Listen ip th o
          | TCP_Connection_SYNReceived => in_SYNReceived ip th
          | TCP_Connection_Established => in_Established ip th o
          | TCP_Connection_Closing => in_Closing ip th o
          | TCP_Connection_FINWait1 => in_FINWait1 ip th o
          | TCP_Connection_FINWait2 => in_FINWait2 ip th o
          | TCP_Connection_CloseWait => in_CloseWait ip th
          | _ => mret (Respond false)
          end) Q (net O (<[i := d]> cs)).
Proof.
  intros Hi Hd Hfit HQ Hsyn. unfold conn_step in HQ.
  assert ((if tst flags TCP_FLAG_SYN then set_conn_State TCP_Connection_Listen d else d) = d) as E.
  { destruct Hsyn as [-> | Hs]; [done|]. destruct (tst flags TCP_FLAG_SYN); [|done]. destruct d; cbn in *; by subst. }
  rewrite E in HQ. destruct (tst flags TCP_FLAG_RST).
  - tcp_steps. exact HQ.
  - tcp_steps. eapply state_case; try eassumption.
Qed.

Definition handled (p : list TCP_ConnectionState_t * option (TCP_ConnectionState_t * result)) (Q : reaction -> Net -> Prop) : Prop :=
  match p.2 with
  | Some (_, Reply f) => Q (Respond true) (net (put O (o + 13) [u8 f]) p.1)
  | Some (_, Deferred) => Q Defer (net O p.1)
  | _ => Q (Respond false) (net O p.1)
  end.

Lemma reacts_handled cs i p Q : handled (<[i := p.1]> cs, Some p) Q -> reacts I o il ol ps pb O cs i p Q.
Proof. by destruct p as [c []]. Qed.

Lemma entry_self c : entry (key_of c) (conn_State c) c = c.
Proof. by destruct c. Qed.

Lemma in_open_port_spec t cs Q : (forall c, c ∈ cs -> key_of c = k -> conn_State c = TCP_Connection_Established -> fits bs c) ->
  handled (tcp_step k flags seq bs cs) Q -> wp t (in_open_port ip th o) Q (net O cs).
Proof.
  intros Hfit HQ. unfold in_open_port. apply wp_bind. eapply wp_flags_in; [eassumption|]. unfold tcp_step in HQ. apply wp_bind.
  destruct (tst flags TCP_FLAG_SYN) eqn:Esyn; cbn [orb when] in *.
  - apply wp_bind. eapply wp_SetConnectionState; [eassumption|done|]. rewrite set_slot. destruct (slot k cs) as [i|] eqn:Hi.
    + destruct (slot_lookup _ _ _ Hi) as [c Hc]. rewrite Hc in *. apply wp_ret. apply open_port_at; [done|apply key_of_entry|by rewrite state_of_entry| |].
      * apply reacts_handled. unfold conn_step in *. rewrite Esyn in *. exact HQ.
      * right. apply state_of_entry.
    + apply wp_ret. destruct (tst flags TCP_FLAG_RST).
      * apply wp_bind. eapply wp_SetConnectionState; [eassumption|done|]. rewrite set_slot, Hi. tcp_steps. exact HQ.
      * apply wp_bind. eapply wp_GetConnectionState; [eassumption|done|]. rewrite slot_None_get by done. tcp_steps. exact HQ.
  - apply wp_ret. destruct (find_first (is_key k) cs) as [i|] eqn:Hf.
    + assert (slot k cs = Some i) as Hi by (unfold slot; by rewrite Hf).
      pose proof Hf as Hf'. apply find_first_Some in Hf' as (c & Hc & Hk & _). rewrite is_key_spec in Hk. apply bool_decide_eq_true in Hk.
      rewrite Hi in HQ. replace (if tst flags TCP_FLAG_RST then Some i else Some i) with (Some i) in HQ by (by destruct (tst flags TCP_FLAG_RST)).
      rewrite Hc in HQ. rewrite <- (list_insert_id cs i c) at 1 by done. apply open_port_at; [done|done| | |by left].
      * intros. apply Hfit; [|done..]. by eapply list_elem_of_lookup_2.
      * apply reacts_handled. by rewrite <- Hk, entry_self in HQ.
    + destruct (tst flags TCP_FLAG_RST) eqn:Erst.
      * apply wp_bind. eapply wp_SetConnectionState; [eassumption|done|]. rewrite set_slot. destruct (slot k cs) as [i|] eqn:Hi.
        -- destruct (slot_lookup _ _ _ Hi) as [c Hc]. rewrite Hc in *. tcp_steps. unfold conn_step in HQ. rewrite Esyn, Erst in HQ. exact HQ.
        -- tcp_steps. exact HQ.
      * apply wp_bind. eapply wp_GetConnectionState; [eassumption|done|]. rewrite get_find, Hf. tcp_steps. exact HQ.
Qed.

Lemma wp_port_state t p Q w : listening (PortStateTable w) p -> Q TCP_Port_Open w -> wp t (TCP_GetPortState p) Q w.
Proof. intros (i & q & Hf & Hq & Hs) HQ. unfold TCP_GetPortState. net_steps. by rewrite Hf, Hq, Hs. Qed.
End Packets.

(** C4: the handler of TCP segments implements a state machine of each connection: for
    a segment to an open port, the connection it is of makes the step [conn_step] (SYN
    starts it, the handshake, data within the window, the two ways of closing), no
    other connection is touched, and the reply the step asks for is a segment with the
    connection's numbers and window and a checksum its receiver accepts. *)
Theorem TCP_packet_refines I ip th o src dst sport dport seq flags bs il O ol ps cs pb :
  packet I ip th src dst sport dport seq flags -> payload I ip th bs -> 0 <= o -> o + 20 < 1500 ->
  length O = 1500%nat -> Forall is_u8 O -> listening ps (word16 dport) ->
  (forall c, c ∈ cs -> key_of c = key_in src sport dport -> conn_State c = TCP_Connection_Established -> fits bs c) ->
  let p := tcp_step (key_in src sport dport) flags seq bs cs in
  TCP_ProcessTCPPacket ip th o (mkNet I il O ol ps cs pb) =
    match p.2 with
    | Some (c, Reply f) => Ret 20 (mkNet I il (put O o (reply src dst sport dport c f)) ol ps p.1 pb)
    | Some (_, Deferred) => Ret NO_PROCESS (mkNet I il O ol ps p.1 pb)
    | _ => Ret NO_RESPONSE (mkNet I il O ol ps p.1 pb)
    end /\
  match p.2 with
  | Some (c, Reply f) => verifies (pseudo_header dst src 20 ++ reply src dst sport dport c f)
  | _ => True
  end.
Proof.
  intros PK PL Ho1 Ho2 HO Hu Hls Hfit p. unfold p. destruct (tcp_step (key_in src sport dport) flags seq bs cs) as [cs' r] eqn:Ep.
  cbn [fst snd]. split.
  - assert (wp true (TCP_ProcessTCPPacket ip th o) (fun a w => Ret a w = match r with
      | Some (c, Reply f) => Ret 20 (mkNet I il (put O o (reply src dst sport dport c f)) ol ps cs' pb)
      | Some (_, Deferred) => Ret NO_PROCESS (mkNet I il O ol ps cs' pb)
      | _ => Ret NO_RESPONSE (mkNet I il O ol ps cs' pb) end) (mkNet I il O ol ps cs pb)) as H.
    2:{ apply wp_total_run in H as (a & w & -> & E). exact E. }
    unfold TCP_ProcessTCPPacket. pose proof PK as [HI [] [] _ _ _ _ E4 _ _]. tcp_offsets. net_step. net_step. rewrite E4.
    apply wp_bind, wp_port_state; [done|]. rewrite bool_decide_true by done. apply wp_bind.
    eapply in_open_port_spec; try eassumption; [lia|]. unfold handled. rewrite Ep. cbn [fst snd].
    destruct r as [[c' [|f|]]|]; try (by apply wp_ret).
    apply tcp_step_some in Ep as (i & Hi & -> & Hk & Hf & Hf8). rewrite Hf.
    eapply TCP_respond_fills; try eassumption; [lia|by rewrite length_put|u8s|fields; done|by apply find_at| |].
    + by eapply at_lookup.
    + rewrite put_cover; [done|lia|..]; unfold reply, tcp_segment, tcp_header; rewrite ?app_nil_r, !length_app; cbn [length be16 be32 le16];
        destruct (packet_lengths _ _ _ _ _ _ _ _ _ PK) as (L1 & L2 & L3 & L4); lia.
  - destruct r as [[c' [|f|]]|]; try done. apply tcp_step_some in Ep as (i & Hi & -> & Hk & Hf & Hf8).
    destruct (packet_lengths _ _ _ _ _ _ _ _ _ PK) as (L1 & L2 & L3 & L4).
    destruct (packet_u8 _ _ _ _ _ _ _ _ _ PK) as (U1 & U2 & U3 & U4). by apply (segment_verifies dst src dport sport _ _ _ _ []).
Qed.

(** ** Segments the handler cannot take *)

(** A program that leaves an object at some point. *)
Lemma fault_bind {W A B} (m : prog W A) (k : A -> prog W B) w : wp true m (fun a w' => k a w' = Fault) w -> (m ≫= k) w = Fault.
Proof. intros H. apply wp_total_run in H as (a & w' & E & H). by rewrite (bind_run _ _ _ _ _ E). Qed.
Lemma fault_bind_l {W A B} (m : prog W A) (k : A -> prog W B) w : m w = Fault -> (m ≫= k) w = Fault.
Proof. intros H. unfold mbind, prog_bind. by rewrite H. Qed.

Definition not_listening (ps : list TCP_PortState_t) (p : Z) : Prop :=
  forall q, q ∈ ps -> port_Port q = p -> port_State q = TCP_Port_Closed.

Lemma wp_port_closed t p Q w : not_listening (PortStateTable w) p -> Q TCP_Port_Closed w -> wp t (TCP_GetPortState p) Q w.
Proof.
  intros Hn HQ. unfold TCP_GetPortState. net_steps. destruct (find_first _ _) as [i|] eqn:E; [|done].
  apply find_first_Some in E as (q & Hq & Hp & _). rewrite Hq. rewrite Hn; [done|by eapply list_elem_of_lookup_2|lia].
Qed.

Section Faults.
Context (I : list Z) (ip th o : Z) (src dst sport dport : list Z) (seq flags : Z).
Context (PK : packet I ip th src dst sport dport seq flags) (Ho : 0 <= o /\ o + 20 < 1500).
Context (il ol : Z) (ps : list TCP_PortState_t) (pb : Z) (O : list Z) (HO : length O = 1500%nat).
Abbreviation k := (key_in src sport dport).
Abbreviation net O cs := (mkNet I il O ol ps cs pb).

Lemma closed_port_faults cs : not_listening ps (word16 dport) -> find_first (is_key k) cs = None ->
  TCP_ProcessTCPPacket ip th o (net O cs) = Fault.
Proof.
  intros Hn Hf. pose proof PK as [HI [] [] _ _ _ _ E4 _ _]. unfold TCP_ProcessTCPPacket. tcp_offsets.
  apply fault_bind. net_step. rewrite E4. apply fault_bind, wp_port_closed; [done|]. rewrite bool_decide_false by done.
  apply fault_bind, wp_bind, wp_flags_out; [done..|]. apply wp_ret. unfold TCP_respond. tcp_offsets.
  apply fault_bind. eapply wp_GetConnectionInfo; [exact PK|by rewrite length_put|]. rewrite Hf.
  apply fault_bind. frame_steps. apply fault_bind. frame_steps. reflexivity.
Qed.

Lemma overflow_faults cs i c bs : payload I ip th bs -> listening ps (word16 dport) ->
  flags = TCP_FLAG_ACK \/ flags = Z.lor TCP_FLAG_ACK TCP_FLAG_PSH ->
  find_first (is_key k) cs = Some i -> cs !! i = Some c -> conn_State c = TCP_Connection_Established ->
  let b := prepare_buffer (Buffer (Info c)) in
  accepts b = true -> length (Data b) = 512%nat -> TCP_WINDOW_SIZE < Length b + len bs ->
  TCP_ProcessTCPPacket ip th o (net O cs) = Fault.
Proof.
  intros PL Hls Hfl Hf Hc Hs b Ha HD Hlen. pose proof PK as [HI [] [] _ _ _ _ E4 _ _].
  assert (tst flags TCP_FLAG_SYN = false /\ tst flags TCP_FLAG_RST = false /\ (flags =? Z.lor TCP_FLAG_FIN TCP_FLAG_ACK) = false /\
    (flags =? TCP_FLAG_ACK) || (flags =? Z.lor TCP_FLAG_ACK TCP_FLAG_PSH) = true) as (F1 & F2 & F3 & F4)
    by (destruct Hfl as [E|E]; rewrite E; done).
  assert (slot k cs = Some i) as Hi by (unfold slot; by rewrite Hf).
  pose proof Hf as Hf'. apply find_first_Some in Hf' as (c' & Hc' & Hk & _). rewrite Hc in Hc'. injection Hc' as <-.
  rewrite is_key_spec in Hk. apply bool_decide_eq_true in Hk.
  unfold TCP_ProcessTCPPacket. tcp_offsets. apply fault_bind. net_step. rewrite E4. apply fault_bind, wp_port_state; [done|].
  rewrite bool_decide_true by done. apply fault_bind_l. unfold in_open_port.
  rewrite <- (list_insert_id cs i c) by done. apply fault_bind. tcp_steps. rewrite F1, F2. apply fault_bind. tcp_steps.
  apply fault_bind. tcp_steps. rewrite Hs. unfold in_Established. apply fault_bind. tcp_steps. rewrite F3, F4.
  apply fault_bind. tcp_steps. apply fault_bind. tcp_steps. set (d' := set_Info (set_Buffer prepare_buffer) c).
  apply fault_bind, (wp_mono _ _ (fun _ w => w = net O (<[i := d']> cs))).
  { unfold d', prepare_buffer, set_Info, set_Buffer. destruct (negb _ && negb _); tcp_steps; [done|].
    by destruct c as [? ? ? [? ? ?] ?]. }
  intros _ w ->. apply fault_bind. tcp_steps. change (Bool.eqb _ _ && _) with (accepts b). rewrite Ha.
  destruct (payload_read _ _ _ _ PL) as (first & offset & total & E1 & E2 & E3 & Hl & Hd0 & Hb & Hbs).
  unfold receive_data. tcp_offsets. apply fault_bind. net_steps. apply fault_bind. net_steps. apply fault_bind. net_steps.
  rewrite E1, E2, E3. cbn [hd]. rewrite Hl. apply fault_bind. tcp_steps. apply fault_bind. net_steps. rewrite Hbs.
  change (Buffer (Info d')) with b. apply fault_bind_l. unfold put_at, TCP_WINDOW_SIZE in *.
  rewrite (proj2 (Z.leb_gt (Length b + len bs) _)), andb_false_r by lia. done.
Qed.
End Faults.

(** two kinds of segments make the handler leave its objects: one to a port that is
    not open from a peer it has no entry for (the answer is built through a null
    pointer), and one whose data does not fit in what is left of the receive buffer
    (the data is copied past its end; the window that was announced is not checked). *)
Theorem TCP_segment_faults I ip th o src dst sport dport seq flags il O ol ps cs pb :
  packet I ip th src dst sport dport seq flags -> 0 <= o -> o + 20 < 1500 -> length O = 1500%nat ->
  (not_listening ps (word16 dport) /\ find_first (is_key (key_in src sport dport)) cs = None) \/
  (exists i c bs, payload I ip th bs /\ listening ps (word16 dport) /\
     (flags = TCP_FLAG_ACK \/ flags = Z.lor TCP_FLAG_ACK TCP_FLAG_PSH) /\
     find_first (is_key (key_in src sport dport)) cs = Some i /\ cs !! i = Some c /\
     conn_State c = TCP_Connection_Established /\
     let b := prepare_buffer (Buffer (Info c)) in
     accepts b = true /\ length (Data b) = 512%nat /\ TCP_WINDOW_SIZE < Length b + len bs) ->
  TCP_ProcessTCPPacket ip th o (mkNet I il O ol ps cs pb) = Fault.
Proof.
  intros PK Ho1 Ho2 HO [[Hn Hf]|(i & c & bs & PL & Hls & Hfl & Hf & Hc & Hs & Ha & HD & Hlen)].
  - by eapply closed_port_faults.
  - by eapply overflow_faults.
Qed.

(** ** Witnesses *)

(** A segment from port 4242 of 10.0.0.1, after an Ethernet header. *)
Definition demo_segment (dport : Z) (flags : Z) (bs : list Z) : list Z :=
  buffer (replicate 14 0 ++ ([0x45] ++ [0] ++ be16 (40 + len bs) ++ replicate 5 0 ++ [6] ++ [0; 0] ++ [10; 0; 0; 1] ++ [10; 0; 0; 2]) ++
    be16 4242 ++ be16 dport ++ be32 1000 ++ be32 0 ++ [0x50] ++ [flags] ++ be16 512 ++ [0; 0; 0; 0] ++ bs).
Definition demo_ports : list TCP_PortState_t := [mkPort TCP_PORT_HTTP TCP_Port_Open (Some Webserver)].
Definition demo_table : list TCP_ConnectionState_t := replicate 3 (set_conn_State TCP_Connection_Closed zero_Connection).

Lemma demo_packet dport flags : is_u8 flags ->
  packet (demo_segment dport flags []) 14 34 [10; 0; 0; 1] [10; 0; 0; 2] (be16 4242) (be16 dport) 1000 flags.
Proof.
  intros Hf. split; try reflexivity; try lia.
  unfold demo_segment, buffer. u8s; [by apply u8_all..|]. by apply Forall_replicate.
Qed.

(** A SYN to the web server is answered with SYN and ACK. *)
Lemma TCP_packet_refines_witness : exists w,
  TCP_ProcessTCPPacket 14 34 34 (mkNet (demo_segment 80 TCP_FLAG_SYN []) 54 (replicate 1500 0) 0 demo_ports demo_table 0) = Ret 20 w /\
  get (TCP_PORT_HTTP, [10; 0; 0; 1], SwapEndian_16 4242) (ConnectionStateTable w) = TCP_Connection_SYNReceived.
Proof.
  eexists. split; [|shelve].
  apply (TCP_packet_refines (demo_segment 80 TCP_FLAG_SYN []) 14 34 34 [10; 0; 0; 1] [10; 0; 0; 2] (be16 4242) (be16 80) 1000 TCP_FLAG_SYN []
    54 (replicate 1500 0) 0 demo_ports demo_table 0).
  - by apply demo_packet.
  - exists 0x45, 0x50, 40. unfold is_u8, is_u16. split_and!; first [lia | reflexivity | vm_compute; congruence].
  - lia.
  - lia.
  - apply length_replicate.
  - by apply Forall_replicate.
  - exists 0%nat. eexists. split_and!; reflexivity.
  - intros c Hc _ Hs. apply elem_of_replicate_inv in Hc. by subst c.
  Unshelve. vm_compute. reflexivity.
Defined.

(** A SYN to port 81, which is closed. *)
Lemma TCP_segment_faults_witness :
  TCP_ProcessTCPPacket 14 34 34 (mkNet (demo_segment 81 TCP_FLAG_SYN []) 54 (replicate 1500 0) 0 demo_ports demo_table 0) = Fault.
Proof.
  apply (TCP_segment_faults (demo_segment 81 TCP_FLAG_SYN []) 14 34 34 [10; 0; 0; 1] [10; 0; 0; 2] (be16 4242) (be16 81) 1000 TCP_FLAG_SYN).
  - by apply demo_packet.
  - lia.
  - lia.
  - apply length_replicate.
  - left. split; [|reflexivity]. intros q Hq Hp. apply list_elem_of_singleton in Hq. by subst q.
Defined.
