(* ===== verification/TCPTaskSpec.v ===== *)
(** The frames the TCP task sends, and the page the web server sends with them. *)

From stdpp Require Import base tactics option list numbers.
From Stdlib Require Import ZArith Lia.
From S2P Require Import Prelude Memory EthernetFrame FrameSpec NetProtocols NetSpec TCP TCPTable TCPSpec.

(** ** IP headers *)

Definition ip_fields (total protocol : Z) (ck src dst : list Z) : list Z :=
  [0x45] ++ [0] ++ be16 total ++ [0; 0] ++ [0] ++ [0] ++ [128] ++ [protocol] ++ ck ++ src ++ dst.
Definition ip_header (total protocol : Z) (src dst : list Z) : list Z :=
  ip_fields total protocol (le16 (inet_checksum (ip_fields total protocol [0; 0] src dst))) src dst.

Lemma length_ip_fields total protocol ck src dst : len ck = 2 -> len src = 4 -> len dst = 4 ->
  len (ip_fields total protocol ck src dst) = 20.
Proof. intros. unfold ip_fields. rewrite !length_app. cbn [length be16]. lia. Qed.

Lemma length_ip_header total protocol src dst : len src = 4 -> len dst = 4 -> len (ip_header total protocol src dst) = 20.
Proof. intros. by apply length_ip_fields. Qed.

Lemma ip_header_verifies total protocol src dst : Forall is_u8 src -> Forall is_u8 dst -> is_u8 protocol ->
  verifies (ip_header total protocol src dst).
Proof.
  intros U1 U2 U3. unfold ip_header, ip_fields.
  set (a := [0x45] ++ [0] ++ be16 total ++ [0; 0] ++ [0] ++ [0] ++ [128] ++ [protocol]).
  assert (forall x, [0x45] ++ [0] ++ be16 total ++ [0; 0] ++ [0] ++ [0] ++ [128] ++ [protocol] ++ x ++ src ++ dst = a ++ x ++ src ++ dst) as E
    by (intros; unfold a; by rewrite <- !(assoc_L app)).
  rewrite !E. apply checksum_verifies; [by exists 5%nat|unfold a; u8s|u8s].
Qed.

(** The first 12 bytes are written by [fill_IP_header]. *)
Lemma fill_IP_header_fills t o total protocol I il O ol ps cs pb Q : length O = 1500%nat -> 0 <= o -> o + 12 <= 1500 ->
  Q tt (mkNet I il (put O o ([0x45] ++ [0] ++ be16 total ++ [0; 0] ++ [0] ++ [0] ++ [128] ++ [u8 protocol] ++ [0; 0])) ol ps cs pb) ->
  wp t (fill_IP_header o total protocol) Q (mkNet I il O ol ps cs pb).
Proof.
  intros HO Ho1 Ho2 HQ. unfold fill_IP_header. tcp_offsets. rewrite <- !Z.add_assoc. change (6 + 1) with 7.
  frame_steps. rewrite !le16_Swap. change (le16 0) with [0; 0]. change (u8 0) with 0. change (u8 128) with 128. change (20 / 4) with 5.
  fields. cbn [hd]. rewrite put_bits_version, put_bits_fragment.
  match goal with |- Q _ (mkNet _ _ ?b _ _ _ _) => replace b with (put O o ([0x45] ++ [0] ++ be16 total ++ [0; 0] ++ [0] ++ [0] ++ [128] ++ [u8 protocol] ++ [0; 0])); [done|] end.
  symmetry. filled 12. done.
Qed.

(** ** Frames *)

Definition ethernet_header (dst src : list Z) (ethertype : Z) : list Z := dst ++ src ++ be16 ethertype.
Definition ip_frame (mac_dst mac_src : list Z) (protocol : Z) (src dst body : list Z) : list Z :=
  ethernet_header mac_dst mac_src ETHERTYPE_IPV4 ++ ip_header (20 + len body) protocol src dst ++ body.

(** The frame that carries the buffer of a connection. *)
Definition out_frame (c : TCP_ConnectionState_t) : list Z :=
  ip_frame AdapterMACAddress ServerMACAddress PROTOCOL_TCP ServerIPAddress (RemoteAddress c)
    (tcp_segment ServerIPAddress (RemoteAddress c) (le16 (Port c)) (le16 (RemotePort c))
       (SequenceNumberOut (Info c)) (SequenceNumberIn (Info c)) TCP_FLAG_ACK TCP_WINDOW_SIZE
       (slice (Data (Buffer (Info c))) 0 (Length (Buffer (Info c))))).
Definition sent (c : TCP_ConnectionState_t) : TCP_ConnectionState_t :=
  set_Info (fun i => set_Buffer (set_Ready false) (set_SequenceNumberOut (SequenceNumberOut i + Length (Buffer i)) i)) c.

(** Offsets of the frame as distances from its start. *)
Ltac norm_offsets :=
  repeat match goal with
  | |- context [put ?b ?x ?bs] =>
      lazymatch x with 0 + _ => fail | _ => let v := eval vm_compute in x in change (put b x bs) with (put b (0 + v) bs) end
  | |- context [slice ?b ?x ?n] =>
      lazymatch x with 0 + _ => fail | _ => let v := eval vm_compute in x in
        lazymatch v with Z0 => idtac | Zpos _ => idtac end; change (slice b x n) with (slice b (0 + v) n) end
  end.

Lemma send_packet_fills t i c I il O ol ps cs pb Q : length O = 1500%nat -> Forall is_u8 O ->
  cs !! i = Some c -> length (Data (Buffer (Info c))) = 512%nat -> Forall is_u8 (Data (Buffer (Info c))) ->
  0 <= Length (Buffer (Info c)) <= 512 -> len (RemoteAddress c) = 4 -> Forall is_u8 (RemoteAddress c) ->
  Q tt (mkNet I il (put O 0 (out_frame c)) (len (out_frame c)) ps (<[i := sent c]> cs) pb) ->
  wp t (send_packet i c) Q (mkNet I il O ol ps cs pb).
Proof.
  intros HO UO Hc HD UD HL LR UR HQ. unfold send_packet. tcp_offsets. unfold sizeof_Ethernet_Frame_Header.
  set (n := Length (Buffer (Info c))) in *. set (D := Data (Buffer (Info c))) in *.
  frame_steps. rewrite !le16_Swap, !le32_Swap. norm_offsets. fields. cbn [hd]. change (20 / 4) with 5. rewrite put_bits_offset.
  change (le16 0) with [0; 0]. change (u8 TCP_FLAG_ACK) with TCP_FLAG_ACK.
  rewrite bytes_at_slice by lia. cbn [checked]. apply wp_ret. set (P := slice D 0 n).
  assert (len P = n) as LP by (unfold P; rewrite length_slice; lia). assert (Forall is_u8 P) as UP by (by apply slice_u8).
  net_step. net_step. norm_offsets. match goal with |- context [put (put ?b (0 + 46) [80]) (0 + 54) P] => set (O1 := put (put b (0 + 46) [80]) (0 + 54) P) end.
  assert (length O1 = 1500%nat) as HO1 by (unfold O1; by rewrite !length_put).
  assert (Forall is_u8 O1) as UO1 by (unfold O1, TCP_FLAG_ACK; u8s).
  net_step. eapply wp_info_store; [done|]. rewrite (u16_small (20 + n)) by (unfold is_u16; lia).
  assert (slice O1 34 (20 + n) = tcp_header (le16 (Port c)) (le16 (RemotePort c)) (SequenceNumberOut (Info c)) (SequenceNumberIn (Info c))
            TCP_FLAG_ACK TCP_WINDOW_SIZE [0; 0] ++ P) as E1.
  { apply holds_last; [|unfold tcp_header; rewrite !length_app; cbn [length be16 be32 le16]; lia].
    change 34 with (0 + 34). unfold tcp_header. rewrite <- !(assoc_L app). unfold O1. regions. }
  net_step. apply wp_TCP_Checksum16; try done; cbn [FrameOUT]; [lia..|u8s|]. change (14 + 20) with 34. rewrite E1.
  match goal with |- context [inet_checksum ?x] => set (ck := inet_checksum x) end.
  net_step. net_step. rewrite (u16_small (n + 20)), (u16_small (20 + (n + 20))) by (unfold is_u16; lia).
  net_step. apply fill_IP_header_fills; [lens|lia|lia|]. change (u8 PROTOCOL_TCP) with PROTOCOL_TCP. set (H12 := [69] ++ _).
  assert (len H12 = 12) as L12 by done. frame_steps. norm_offsets.
  match goal with |- wp _ (Ethernet_Checksum16 _ _ _) _ (mkNet _ _ ?b _ _ _ _) => set (O2 := b) end.
  assert (length O2 = 1500%nat) as HO2 by (unfold O2; by rewrite !length_put).
  assert (slice O2 14 20 = ip_fields (20 + (20 + n)) PROTOCOL_TCP [0; 0] ServerIPAddress (RemoteAddress c)) as E2.
  { apply holds_last; [|by apply length_ip_fields]. change 14 with (0 + 14). unfold ip_fields.
    replace (20 + (20 + n)) with (20 + (n + 20)) by lia.
    change (holds O2 (0 + 14) (H12 ++ ServerIPAddress ++ RemoteAddress c)). unfold O2. regions. }
  apply wp_Ethernet_Checksum16; [lia|lia|lens|lia|..]; cbn [data FrameOUT]; change (2 * (20 / 2)) with 20; rewrite E2.
  { unfold ip_fields, PROTOCOL_TCP. u8s. }
  match goal with |- context [inet_checksum ?x] => set (ck2 := inet_checksum x) end.
  frame_steps. eapply wp_info_store; [by apply list_lookup_insert_eq; eapply lookup_lt_Some|].
  cbn [FrameIN FrameIN_Length FrameOUT PortStateTable ConnectionStateTable PageBlock]. rewrite list_insert_insert_eq, le16_Swap. norm_offsets.
  assert (len (out_frame c) = 54 + n) as Lf.
  { unfold out_frame, ip_frame. rewrite !length_app, !Nat2Z.inj_add, length_ip_header, length_tcp_segment by done.
    cbn [length ethernet_header Datatypes.app AdapterMACAddress ServerMACAddress be16]. fold n D P. lia. }
  match goal with |- Q _ (mkNet _ _ ?b ?l _ ?cs1 _) => replace b with (put O 0 (out_frame c));
    [replace l with (len (out_frame c)) by (rewrite Lf; unfold u16; rewrite (Z.mod_small (n + 20 + 20)), Z.mod_small; lia); exact HQ|] end.
  assert (out_frame c = AdapterMACAddress ++ ServerMACAddress ++ be16 ETHERTYPE_IPV4 ++ [69] ++ [0] ++ be16 (20 + (n + 20)) ++
    [0; 0] ++ [0] ++ [0] ++ [128] ++ [PROTOCOL_TCP] ++ le16 ck2 ++ ServerIPAddress ++ RemoteAddress c ++
    le16 (Port c) ++ le16 (RemotePort c) ++ be32 (SequenceNumberOut (Info c)) ++ be32 (SequenceNumberIn (Info c)) ++ [80] ++
    [TCP_FLAG_ACK] ++ be16 TCP_WINDOW_SIZE ++ le16 ck ++ [0; 0] ++ P) as Ef.
  { unfold out_frame, ip_frame, ip_header. rewrite length_tcp_segment by done. fold n D P.
    unfold tcp_segment, tcp_checksum. rewrite LP. fold ck2 ck. unfold ip_fields, ethernet_header, tcp_header.
    replace (20 + (20 + n)) with (20 + (n + 20)) by lia. by rewrite <- !(assoc_L app). }
  symmetry. rewrite Ef in *. unfold O2, O1, H12. filled (54 + n).
  - exact Lf.
  - rewrite !slice_put_past by lens. done.
Qed.
