(* ===== verification/WebserverSpec.v ===== *)
(** The web server sends its page: the task of TCP.c with the handler of Webserver.c. *)

From stdpp Require Import base tactics option list numbers strings.
From Stdlib Require Import ZArith Lia.
From S2P Require Import Prelude Memory EthernetFrame FrameSpec NetProtocols NetSpec TCP TCPTable TCPSpec TCPTaskSpec.

Definition http_ports : list TCP_PortState_t := [mkPort TCP_PORT_HTTP TCP_Port_Open (Some Webserver)].

(** A connection the server has nothing to do for, and that has nothing to send. *)
Definition quiet (c : TCP_ConnectionState_t) : Prop :=
  (Port c <> TCP_PORT_HTTP \/
   (TCP_APP_HAS_RECEIVED_PACKET (Buffer (Info c)) = false /\ TCP_APP_HAVE_CAPTURED_BUFFER (Buffer (Info c)) = false)) /\
  Bool.eqb (Direction (Buffer (Info c))) TCP_PACKETDIR_OUT && Ready (Buffer (Info c)) = false.

(** A connection the task can send from. *)
Definition sendable (c : TCP_ConnectionState_t) : Prop :=
  length (Data (Buffer (Info c))) = 512%nat /\ Forall is_u8 (Data (Buffer (Info c))) /\
  0 <= Length (Buffer (Info c)) <= 512 /\ len (RemoteAddress c) = 4 /\ Forall is_u8 (RemoteAddress c).

Section Round.
Context (I : list Z) (il : Z).
Abbreviation net O ol cs pb := (mkNet I il O ol http_ports cs pb).

Lemma run_quiet t j c O ol cs pb Q : cs !! j = Some c -> quiet c -> is_u8 pb -> Q tt (net O ol cs pb) ->
  wp t (ps ← gets PortStateTable; for_each ps (run_handler j)) Q (net O ol cs pb).
Proof.
  intros Hc [Hq _] Hpb HQ. net_step. net_step. cbn [for_each http_ports]. unfold run_handler. cbn [port_Port port_State ApplicationHandler].
  apply wp_bind. net_steps. rewrite Hc. cbn [checked]. net_steps. apply wp_when; [|by intros; apply wp_ret].
  intros E. apply andb_prop in E as [E _]. apply Z.eqb_eq in E. destruct Hq as [Hq|[Hq1 Hq2]]; [congruence|].
  cbn [checked]. net_steps. unfold Webserver_ApplicationCallback. rewrite Hq1, Hq2. cbn [checked]. net_steps.
  rewrite u8_small, list_insert_id by done. exact HQ.
Qed.

Lemma run_active t j c c' pb' O ol cs pb Q : cs !! j = Some c -> Port c = TCP_PORT_HTTP ->
  Webserver_ApplicationCallback pb c = Some (pb', c') -> is_u8 pb' -> Q tt (net O ol (<[j := c']> cs) pb') ->
  wp t (ps ← gets PortStateTable; for_each ps (run_handler j)) Q (net O ol cs pb).
Proof.
  intros Hc Hp Hcb Hpb HQ. net_step. net_step. cbn [for_each http_ports]. unfold run_handler. cbn [port_Port port_State ApplicationHandler].
  apply wp_bind. net_steps. rewrite Hc. cbn [checked]. net_steps. rewrite Hp, Z.eqb_refl, bool_decide_true by done. cbn [andb when checked].
  net_steps. rewrite Hcb. cbn [checked]. net_steps. rewrite u8_small by done. exact HQ.
Qed.

(** One run of the task: the handler of the one connection that is not quiet fills its
    buffer, and the buffer goes out. *)
Lemma task_round t l1 c l2 c' pb' O pb Q : length (l1 ++ c :: l2) = 3%nat -> Forall quiet l1 -> Forall quiet l2 ->
  is_u8 pb -> is_u8 pb' -> Port c = TCP_PORT_HTTP -> Webserver_ApplicationCallback pb c = Some (pb', c') ->
  Direction (Buffer (Info c')) = TCP_PACKETDIR_OUT -> Ready (Buffer (Info c')) = true -> sendable c' ->
  length O = 1500%nat -> Forall is_u8 O ->
  Q tt (net (put O 0 (out_frame c')) (len (out_frame c')) (l1 ++ sent c' :: l2) pb') ->
  wp t TCP_TCPTask Q (net O 0 (l1 ++ c :: l2) pb).
Proof.
  intros Hl H1 H2 Hpb Hpb' Hp Hcb Hd Hr (S1 & S2 & S3 & S4 & S5) HO UO HQ. unfold TCP_TCPTask.
  assert (forall x, (l1 ++ x :: l2) !! length l1 = Some x) as Hx by (intros; by apply list_lookup_middle).
  assert (forall x y, <[length l1 := y]> (l1 ++ x :: l2) = l1 ++ y :: l2) as Hins.
  { intros. rewrite insert_app_r_alt, Nat.sub_diag by lia. done. }
  apply wp_bind, (wp_mono _ _ (fun _ w => w = net O 0 (l1 ++ c' :: l2) pb')).
  { unfold run_applications, MAX_TCP_CONNECTIONS. cbn [seq for_each].
    assert (forall j x, Forall quiet l1 -> (j < length l1)%nat -> exists y, (l1 ++ x :: l2) !! j = Some y /\ quiet y) as Hq1.
    { intros j x Hf Hj. destruct (lookup_lt_is_Some_2 l1 j Hj) as [y Hy]. exists y. rewrite lookup_app_l by done. split; [done|].
      by eapply Forall_lookup_1. }
    assert (forall j x, (length l1 < j < 3)%nat -> exists y, (l1 ++ x :: l2) !! j = Some y /\ quiet y) as Hq2.
    { intros j x Hj. rewrite length_app in Hl. cbn [length] in Hl.
      destruct (lookup_lt_is_Some_2 l2 (j - length l1 - 1)) as [y Hy]; [lia|]. exists y.
      rewrite lookup_app_r, lookup_cons_ne_0 by lia. replace (pred (j - length l1)) with (j - length l1 - 1)%nat by lia.
      split; [done|by eapply Forall_lookup_1]. }
    assert (length l1 = 0 \/ length l1 = 1 \/ length l1 = 2)%nat as Hcase by (rewrite length_app in Hl; cbn [length] in Hl; lia).
    assert (forall j x pb1 R, (j < 3)%nat -> j <> length l1 -> is_u8 pb1 -> R (net O 0 (l1 ++ x :: l2) pb1) ->
      wp t (ps ← gets PortStateTable; for_each ps (run_handler j)) (fun _ => R) (net O 0 (l1 ++ x :: l2) pb1)) as Hquiet.
    { intros j x pb1 R Hj Hne Hu HR. destruct (decide (j < length l1)%nat).
      - destruct (Hq1 j x) as (y & Hy & Qy); [done..|]. by eapply run_quiet.
      - destruct (Hq2 j x) as (y & Hy & Qy); [lia|]. by eapply run_quiet. }
    assert (forall j R, j = length l1 -> R (net O 0 (l1 ++ c' :: l2) pb') ->
      wp t (ps ← gets PortStateTable; for_each ps (run_handler j)) (fun _ => R) (net O 0 (l1 ++ c :: l2) pb)) as Hactive.
    { intros j R -> HR. eapply run_active; try done. by rewrite Hins. }
    destruct Hcase as [E|[E|E]].
    - apply wp_bind, Hactive; [done|]. apply wp_bind, Hquiet; [lia..|done|]. apply wp_bind, Hquiet; [lia..|done|]. by apply wp_ret.
    - apply wp_bind, Hquiet; [lia..|done|]. apply wp_bind, Hactive; [done|]. apply wp_bind, Hquiet; [lia..|done|]. by apply wp_ret.
    - apply wp_bind, Hquiet; [lia..|done|]. apply wp_bind, Hquiet; [lia..|done|]. apply wp_bind, Hactive; [done|]. by apply wp_ret. }
  intros _ w ->. net_step. net_step. change (negb (0 =? 0)) with false. cbn iota. net_step. net_step.
  rewrite (find_first_intro _ _ (length l1) c'); [|apply Hx|by rewrite Hd, Hr|].
  - rewrite Hx. cbn [checked]. net_step. net_step. eapply send_packet_fills; try done. by rewrite Hins.
  - intros j y Hj Hy. rewrite lookup_app_l in Hy by done. by destruct (Forall_lookup_1 _ _ _ _ H1 Hy) as [_ ?].
Qed.
End Round.

(** ** The page *)

(** The texts, without their terminators. *)
Definition http_ok : list Z := removelast HTTP200Header.
Definition page_text : list Z := removelast HTTPPage.
Definition block (j : Z) : list Z := slice page_text (128 * j) 128.

(** The connection with another sequence number and buffer. *)
Definition with_buffer (c : TCP_ConnectionState_t) (seq : Z) (b : TCP_ConnectionBuffer_t) (s : TCP_ConnectionStates_t)
    : TCP_ConnectionState_t :=
  mkConn (Port c) (RemotePort c) (RemoteAddress c) (mkConnInfo (SequenceNumberIn (Info c)) seq b) s.

(** The frame that carries [bs] of the stream of a connection, from [seq] on. *)
Definition stream_frame (c : TCP_ConnectionState_t) (seq : Z) (bs : list Z) : list Z :=
  ip_frame AdapterMACAddress ServerMACAddress PROTOCOL_TCP ServerIPAddress (RemoteAddress c)
    (tcp_segment ServerIPAddress (RemoteAddress c) (le16 (Port c)) (le16 (RemotePort c)) seq
       (SequenceNumberIn (Info c)) TCP_FLAG_ACK TCP_WINDOW_SIZE bs).
Fixpoint stream_frames (c : TCP_ConnectionState_t) (seq : Z) (bss : list (list Z)) : list (list Z) :=
  match bss with
  | [] => []
  | bs :: bss => stream_frame c seq bs :: stream_frames c (u32 (seq + len bs)) bss
  end.

Lemma request_callback c pb rest : Ready (Buffer (Info c)) = true -> Direction (Buffer (Info c)) = TCP_PACKETDIR_IN ->
  length (Data (Buffer (Info c))) = 512%nat -> Data (Buffer (Info c)) = bytes_of "GET / " ++ rest ->
  Webserver_ApplicationCallback pb c =
    Some (0, with_buffer c (SequenceNumberOut (Info c))
               (mkBuffer (len http_ok) (put (Data (Buffer (Info c))) 0 HTTP200Header) true true true) (conn_State c)).
Proof.
  intros HR Hd HD HG. unfold Webserver_ApplicationCallback, TCP_APP_HAS_RECEIVED_PACKET. rewrite HR, Hd. cbn [Bool.eqb andb TCP_PACKETDIR_IN].
  unfold answer_request.
  assert (IsHTTPCommand (Data (Buffer (Info c))) (bytes_of "GET") = true) as -> by (rewrite HG; reflexivity).
  assert (IsHTTPCommand (Data (Buffer (Info c))) (bytes_of "GET / ") = true) as -> by (rewrite HG; reflexivity).
  unfold send_string. rewrite put_at_put by (rewrite ?HD; cbv; intros; done). cbn [mbind option_bind].
  assert (strlen (put (Data (Buffer (Info c))) 0 HTTP200Header) = Some (len http_ok)) as ->.
  { rewrite (put_split _ HTTP200Header) by (rewrite HD; cbv; lia). change HTTP200Header with (http_ok ++ [0]). rewrite <- (assoc_L app).
    apply strlen_app, nonzero_all. reflexivity. }
  reflexivity.
Qed.

Lemma block_callback c seq j L D : 0 <= j <= 3 -> length D = 512%nat ->
  Webserver_ApplicationCallback j (with_buffer c seq (mkBuffer L D true false true) (conn_State c)) =
    Some (j + 1, with_buffer c seq (mkBuffer (len (block j)) (put D 0 (block j)) true true (negb (j =? 3)))
                   (if j =? 3 then TCP_Connection_Closing else conn_State c)).
Proof.
  intros Hj HD. assert (j = 0 \/ j = 1 \/ j = 2 \/ j = 3) as Hcase by lia.
  change (Webserver_ApplicationCallback j (with_buffer c seq (mkBuffer L D true false true) (conn_State c)))
    with (send_block j (with_buffer c seq (mkBuffer L D true false true) (conn_State c))).
  unfold send_block.
  assert ((sizeof_HTTPPage <=? j * HTTP_REPLY_BLOCK_SIZE) = false) as -> by (decompose [or] Hcase; subst; reflexivity).
  assert (strlen (drop (Z.to_nat (j * HTTP_REPLY_BLOCK_SIZE)) HTTPPage) = Some (len page_text - 128 * j)) as ->
    by (decompose [or] Hcase; subst; vm_compute; reflexivity).
  cbn [mbind option_bind].
  assert (take (Z.to_nat (if HTTP_REPLY_BLOCK_SIZE <? len page_text - 128 * j then HTTP_REPLY_BLOCK_SIZE else len page_text - 128 * j))
            (drop (Z.to_nat (j * HTTP_REPLY_BLOCK_SIZE)) HTTPPage) = block j /\
          (if HTTP_REPLY_BLOCK_SIZE <? len page_text - 128 * j then HTTP_REPLY_BLOCK_SIZE else len page_text - 128 * j) = len (block j) /\
          len (block j) <= 128 /\ u16 (len (block j)) = len (block j)) as (-> & -> & Hlen & Hu)
    by (decompose [or] Hcase; subst; vm_compute; done).
  cbn [with_buffer Info Buffer Data]. rewrite put_at_put by (rewrite ?HD; lia). cbn [mbind option_bind].
  change (sizeof_HTTPPage / HTTP_REPLY_BLOCK_SIZE) with 3. unfold TCP_APP_SEND_BUFFER, set_Length. rewrite Hu.
  destruct (j =? 3); reflexivity.
Qed.

(** ** The task and the frames it leaves *)

(** The task runs and the frame it made is taken from the buffer. *)
Definition task_frame : P (list Z) :=
  TCP_TCPTask;; l ← gets FrameOUT_Length; b ← gets FrameOUT; modify (set_OUT_Length 0);; mret (slice b 0 l).
Fixpoint task_frames (n : nat) : P (list (list Z)) :=
  match n with O => mret [] | S n => f ← task_frame; fs ← task_frames n; mret (f :: fs) end.

Lemma stream_frame_u8 c seq bs : len (RemoteAddress c) = 4 -> Forall is_u8 (RemoteAddress c) -> Forall is_u8 bs ->
  Forall is_u8 (stream_frame c seq bs).
Proof.
  intros. unfold stream_frame, ip_frame, ip_header, ip_fields, ethernet_header, tcp_segment, tcp_header,
    AdapterMACAddress, TCP_FLAG_ACK, PROTOCOL_TCP, bit. u8s. all: unfold is_u8; cbv; split; done.
Qed.

Lemma length_stream_frame c seq bs : len (RemoteAddress c) = 4 -> len (stream_frame c seq bs) = 54 + len bs.
Proof.
  intros. unfold stream_frame, ip_frame. rewrite !length_app, !Nat2Z.inj_add, length_ip_header, length_tcp_segment by done.
  cbn [length ethernet_header Datatypes.app AdapterMACAddress ServerMACAddress be16]. lia.
Qed.

Section Stream.
Context (I : list Z) (il : Z) (l1 l2 : list TCP_ConnectionState_t) (c : TCP_ConnectionState_t).
Context (Hl : length (l1 ++ c :: l2) = 3%nat) (Hq1 : Forall quiet l1) (Hq2 : Forall quiet l2).
Context (Hport : Port c = TCP_PORT_HTTP) (Hra : len (RemoteAddress c) = 4) (Hrau : Forall is_u8 (RemoteAddress c)).
Abbreviation net O cs pb := (mkNet I il O 0 http_ports cs pb).

Lemma stream_round t O x pb pb' seq bs D iu s Q : length O = 1500%nat -> Forall is_u8 O -> is_u8 pb -> is_u8 pb' ->
  Port x = TCP_PORT_HTTP ->
  Webserver_ApplicationCallback pb x = Some (pb', with_buffer c seq (mkBuffer (len bs) D true true iu) s) ->
  length D = 512%nat -> Forall is_u8 D -> slice D 0 (len bs) = bs -> len bs <= 512 ->
  (forall O', length O' = 1500%nat -> Forall is_u8 O' ->
    Q (stream_frame c seq bs) (net O' (l1 ++ with_buffer c (u32 (seq + len bs)) (mkBuffer (len bs) D true false iu) s :: l2) pb')) ->
  wp t task_frame Q (net O (l1 ++ x :: l2) pb).
Proof.
  intros HO UO Hpb Hpb' Hx Hcb HD UD Hbs Hlen HQ. unfold task_frame.
  assert (out_frame (with_buffer c seq (mkBuffer (len bs) D true true iu) s) = stream_frame c seq bs) as Ef.
  { unfold out_frame, stream_frame. cbn [with_buffer Info Buffer Data Length Port RemotePort RemoteAddress SequenceNumberIn SequenceNumberOut].
    by rewrite Hbs. }
  apply wp_bind. eapply task_round; try done.
  - rewrite length_app in *. done.
  - unfold sendable. cbn [with_buffer Info Buffer Data Length RemoteAddress]. split_and!; try done. lia.
  - rewrite Ef. net_steps. rewrite slice_put_eq; [|done|done|rewrite length_stream_frame by done; lia].
    apply HQ; [by rewrite length_put|]. apply put_u8; [done|]. apply stream_frame_u8; [done..|].
    rewrite <- Hbs. by apply slice_u8.
Qed.

Lemma block_facts j : 0 <= j <= 3 -> Forall is_u8 (block j) /\ len (block j) <= 128.
Proof.
  intros Hj. assert (j = 0 \/ j = 1 \/ j = 2 \/ j = 3) as Hcase by lia.
  split; [apply u8_all|]; decompose [or] Hcase; subst; vm_compute; done.
Qed.

(** A round after the header sends the next block. *)
Lemma block_round t j O sn L D Q : 0 <= j <= 3 -> length O = 1500%nat -> Forall is_u8 O -> length D = 512%nat -> Forall is_u8 D ->
  (forall O' D', length O' = 1500%nat -> Forall is_u8 O' -> length D' = 512%nat -> Forall is_u8 D' ->
    Q (stream_frame c sn (block j))
      (net O' (l1 ++ with_buffer c (u32 (sn + len (block j))) (mkBuffer (len (block j)) D' true false (negb (j =? 3)))
                       (if j =? 3 then TCP_Connection_Closing else conn_State c) :: l2) (j + 1))) ->
  wp t task_frame Q (net O (l1 ++ with_buffer c sn (mkBuffer L D true false true) (conn_State c) :: l2) j).
Proof.
  intros Hj HO UO HD UD HQ. destruct (block_facts j Hj) as [Ub Lb].
  eapply stream_round; [done|done|unfold is_u8; lia| |done|by apply block_callback|..]; [unfold is_u8; lia|..].
  - by rewrite length_put.
  - by apply put_u8.
  - apply slice_put_eq; [lia|done|rewrite HD; lia].
  - lia.
  - intros O' HO' UO'. apply HQ; [done..|by rewrite length_put|by apply put_u8].
Qed.
End Stream.

(** C5: when a browser has asked for the page on a connection and the other connections
    are quiet, five runs of the TCP task (each frame taken from the buffer before the
    next) send the response header and then the whole page, as segments of consecutive
    sequence numbers of that connection, and leave it closing with its buffer free. *)
Theorem Webserver_serves_page I il O l1 c l2 pb rest : length (l1 ++ c :: l2) = 3%nat -> Forall quiet l1 -> Forall quiet l2 ->
  length O = 1500%nat -> Forall is_u8 O -> is_u8 pb ->
  Port c = TCP_PORT_HTTP -> len (RemoteAddress c) = 4 -> Forall is_u8 (RemoteAddress c) ->
  length (Data (Buffer (Info c))) = 512%nat -> Forall is_u8 (Data (Buffer (Info c))) ->
  Ready (Buffer (Info c)) = true -> Direction (Buffer (Info c)) = TCP_PACKETDIR_IN ->
  Data (Buffer (Info c)) = bytes_of "GET / " ++ rest ->
  exists texts w' c', concat texts = http_ok ++ page_text /\
    task_frames 5 (mkNet I il O 0 http_ports (l1 ++ c :: l2) pb) = Ret (stream_frames c (SequenceNumberOut (Info c)) texts) w' /\
    ConnectionStateTable w' = l1 ++ c' :: l2 /\ FrameOUT_Length w' = 0 /\
    conn_State c' = TCP_Connection_Closing /\ key_of c' = key_of c /\
    InUse (Buffer (Info c')) = false /\ Ready (Buffer (Info c')) = false.
Proof.
  intros Hl Hq1 Hq2 HO UO Hpb Hport Hra Hrau HD UD HR Hd HG.
  exists [http_ok; block 0; block 1; block 2; block 3].
  assert (wp true (task_frames 5) (fun fs w => fs = stream_frames c (SequenceNumberOut (Info c)) [http_ok; block 0; block 1; block 2; block 3] /\
    exists c', ConnectionStateTable w = l1 ++ c' :: l2 /\ FrameOUT_Length w = 0 /\
    conn_State c' = TCP_Connection_Closing /\ key_of c' = key_of c /\
    InUse (Buffer (Info c')) = false /\ Ready (Buffer (Info c')) = false) (mkNet I il O 0 http_ports (l1 ++ c :: l2) pb)) as H.
  2:{ apply wp_total_run in H as (fs & w & E & -> & c' & Hc'). exists w, c'. split; [vm_compute; reflexivity|]. by rewrite E. }
  pose proof (request_callback c pb rest HR Hd HD HG) as Hcb. cbn [task_frames]. apply wp_bind.
  assert (length (put (Data (Buffer (Info c))) 0 HTTP200Header) = 512%nat) as HD1 by (by rewrite length_put).
  assert (Forall is_u8 (put (Data (Buffer (Info c))) 0 HTTP200Header)) as UD1 by (apply put_u8; [done|by apply u8_all]).
  eapply stream_round; lazymatch goal with |- Webserver_ApplicationCallback _ _ = _ => exact Hcb | _ => idtac end; try done.
  { rewrite (slice_prefix _ 0 (len HTTP200Header) _ HTTP200Header); [reflexivity|apply slice_put_eq; [lia|done|rewrite HD; done]|done]. }
  revert HD1 UD1. generalize (put (Data (Buffer (Info c))) 0 HTTP200Header). clear O HO UO Hcb. intros D HD1 UD1 O HO UO.
  do 4 (apply wp_bind, wp_bind; eapply block_round; try done; intros ? ? ? ? ? ?).
  net_steps. split; [reflexivity|]. eexists. split_and!; reflexivity.
Qed.

(** A request on the first connection, the others never opened. *)
Definition get_request : list Z := bytes_of "GET / HTTP/1.1" ++ replicate 498 0.
Definition http_client : TCP_ConnectionState_t :=
  mkConn TCP_PORT_HTTP (SwapEndian_16 4242) [10; 0; 0; 1] (mkConnInfo 1016 1 (mkBuffer 14 get_request false true false))
    TCP_Connection_Established.

Lemma Webserver_serves_page_witness : exists texts w',
  task_frames 5 (mkNet (replicate 1500 0) 0 (replicate 1500 0) 0 http_ports [http_client; zero_Connection; zero_Connection] 0) =
    Ret (stream_frames http_client 1 texts) w' /\ concat texts = http_ok ++ page_text.
Proof.
  destruct (Webserver_serves_page (replicate 1500 0) 0 (replicate 1500 0) [] http_client [zero_Connection; zero_Connection] 0
    (bytes_of "HTTP/1.1" ++ replicate 498 0)) as (texts & w' & c' & Ht & Hr & _).
  - reflexivity.
  - constructor.
  - assert (quiet zero_Connection) as Hq by (split; [left; done|done]). by repeat constructor.
  - apply length_replicate.
  - by apply Forall_replicate.
  - done.
  - done.
  - done.
  - by apply u8_all.
  - reflexivity.
  - by apply u8_all.
  - done.
  - done.
  - reflexivity.
  - exists texts, w'. exact (conj Hr Ht).
Defined.

(** The block counter is one variable for all connections: with two connections that
    are sent the page, each gets every other block, and the one that is left when the
    counter has passed the last block reads past the end of the page. *)
Definition sending_client (port : Z) : TCP_ConnectionState_t :=
  with_buffer (mkConn TCP_PORT_HTTP port [10; 0; 0; 1] (Info http_client) TCP_Connection_Established) 1
    (mkBuffer 84 (replicate 512 0) true false true) TCP_Connection_Established.

Theorem Webserver_shared_counter : let cs := [sending_client 1; sending_client 2; zero_Connection] in
  (exists w, run_applications (mkNet [] 0 [] 0 http_ports cs 0) = Ret tt w /\
     map (fun c => slice (Data (Buffer (Info c))) 0 128) (take 2 (ConnectionStateTable w)) = [block 0; block 1]) /\
  run_applications (mkNet [] 0 [] 0 http_ports cs 3) = Fault.
Proof. split; [eexists; split; vm_compute; reflexivity|vm_compute; reflexivity]. Qed.
