(* ===== verification/Ethernet.v ===== *)
(** IP and the Ethernet frames of the TCP/IP demo: Demos/Device/ClassDriver/
    RNDISEthernet/Lib/IP.[ch] and Ethernet.[ch]. *)

From stdpp Require Import base tactics option list numbers.
From Stdlib Require Import ZArith Lia.
From S2P Require Import Prelude Memory EthernetFrame NetProtocols TCP.

(** The response is completed with an IP header. *)
Definition IP_respond (InDataStart OutDataStart RetSize : Z) : P Z :=
  p ← load8 IN (InDataStart + IPH.Protocol);
  fill_IP_header OutDataStart (sizeof_IP_Header + RetSize) p;;
  copy_field (OutDataStart + IPH.SourceAddress) (InDataStart + IPH.DestinationAddress) 4;;
  copy_field (OutDataStart + IPH.DestinationAddress) (InDataStart + IPH.SourceAddress) 4;;
  c ← Ethernet_Checksum16 OUT OutDataStart sizeof_IP_Header;
  store16 OUT (OutDataStart + IPH.HeaderChecksum) c;;
  mret (sizeof_IP_Header + RetSize).

Definition IP_ProcessIPPacket (InDataStart OutDataStart : Z) : P Z :=
  h ← load_bits IN (InDataStart + IPH.HeaderLength) 0 4;
  let HeaderLengthBytes := h * 4 in
  server ← IP_COMPARE IN (InDataStart + IPH.DestinationAddress) ServerIPAddress;
  mine ← (if server : bool then mret true
          else IP_COMPARE IN (InDataStart + IPH.DestinationAddress) BroadcastIPAddress);
  if negb mine then mret NO_RESPONSE
  else
    Protocol ← load8 IN (InDataStart + IPH.Protocol);
    let payload := InDataStart + HeaderLengthBytes in
    let reply := OutDataStart + sizeof_IP_Header in
    RetSize ← (if Protocol =? PROTOCOL_ICMP then ICMP_ProcessICMPPacket payload reply
               else if Protocol =? PROTOCOL_TCP then TCP_ProcessTCPPacket InDataStart payload reply
               else if Protocol =? PROTOCOL_UDP then UDP_ProcessUDPPacket InDataStart payload reply
               else mret NO_RESPONSE);
    if 0 <? RetSize then IP_respond InDataStart OutDataStart RetSize else mret RetSize.

Module EthernetH.
(** The fields of [Ethernet_Frame_Header_t]. *)
Definition Destination : Z := 0.
Definition Source : Z := 6.
Definition EtherType : Z := 12.
End EthernetH.

(** The frame is for this device and of type II, by the test of the code. *)
Definition Ethernet_accepts : P bool :=
  server ← MAC_COMPARE IN EthernetH.Destination ServerMACAddress;
  mine ← (if server : bool then mret true else MAC_COMPARE IN EthernetH.Destination BroadcastMACAddress);
  l ← gets FrameIN_Length;
  mret (mine && (ETHERNET_VER2_MINSIZE <? SwapEndian_16 l)).

Definition Ethernet_respond (RetSize : Z) : P unit :=
  store_bytes OUT EthernetH.Source ServerMACAddress;;
  copy_field EthernetH.Destination EthernetH.Source 6;;
  copy_field EthernetH.EtherType EthernetH.EtherType 2;;
  modify (set_OUT_Length (sizeof_Ethernet_Frame_Header + RetSize)).

Definition Ethernet_ProcessPacket : P unit :=
  ok ← Ethernet_accepts;
  RetSize ← (if ok : bool then
      t ← load16 IN EthernetH.EtherType;
      RetSize ←
        (if SwapEndian_16 t =? ETHERTYPE_ARP
         then ARP_ProcessARPPacket sizeof_Ethernet_Frame_Header sizeof_Ethernet_Frame_Header
         else if SwapEndian_16 t =? ETHERTYPE_IPV4
         then IP_ProcessIPPacket sizeof_Ethernet_Frame_Header sizeof_Ethernet_Frame_Header
         else mret NO_RESPONSE);
      when (0 <? RetSize) (Ethernet_respond RetSize);;
      mret RetSize
    else mret NO_RESPONSE);
  when (negb (RetSize =? NO_PROCESS)) (modify (set_IN_Length 0)).
