(* ===== verification/EthernetSpec.v ===== *)
(** The TCP/IP demo answers frames: ARP requests, echo requests and DHCP requests in
    the frames they come in, with the frames that go out. *)

From stdpp Require Import base tactics option list numbers.
From Stdlib Require Import ZArith Lia.
From S2P Require Import Prelude Memory EthernetFrame FrameSpec NetProtocols NetSpec TCP TCPTable TCPSpec TCPTaskSpec Ethernet.

(** The length test the code makes for frames of type II.  It swaps the bytes of the
    length first: a frame passes when the low byte of its length exceeds 6, or is 6 and
    the high byte is not 0.  A frame of 256 bytes is dropped, for instance. *)
Definition length_accepted (l : Z) : Prop := ETHERNET_VER2_MINSIZE < SwapEndian_16 l.
Definition length_passes (l : Z) : bool := (6 <? l mod 256) || ((l mod 256 =? 6) && (256 <=? l)).

Lemma Ethernet_length_test l : is_u16 l -> length_passes l = (ETHERNET_VER2_MINSIZE <? SwapEndian_16 l).
Proof.
  unfold length_passes, ETHERNET_VER2_MINSIZE, SwapEndian_16, is_u16. intros Hl.
  assert (of_le16 (u8 (Z.shiftr l 8)) (u8 l) = u8 (Z.shiftr l 8) + 256 * u8 l) as ->.
  { unfold of_le16. rewrite <- Z.lxor_lor, <- Z.add_nocarry_lxor by (apply land_shiftl_small; [lia|apply u8_range]).
    rewrite Z.shiftl_mul_pow2 by lia. lia. }
  unfold u8. rewrite Z.shiftr_div_pow2 by lia. change (2 ^ 8) with 256. apply eq_true_iff_eq.
  rewrite orb_true_iff, andb_true_iff, !Z.ltb_lt, Z.eqb_eq, Z.leb_le. Z.div_mod_to_equations; lia.
Qed.

Lemma length_passes_accepted l : is_u16 l -> length_passes l = true -> length_accepted l.
Proof. intros Hl. rewrite Ethernet_length_test by done. by rewrite Z.ltb_lt. Qed.
Definition for_device (mac : list Z) : Prop := mac = ServerMACAddress \/ mac = BroadcastMACAddress.
Definition for_server (ip : list Z) : Prop := ip = ServerIPAddress \/ ip = BroadcastIPAddress.

(** An incoming IP header, with its options. *)
Definition ip_in (first : Z) (mid : list Z) (protocol : Z) (hck src dst options : list Z) : list Z :=
  [first] ++ mid ++ [protocol] ++ hck ++ src ++ dst ++ options.

Section Frames.
Context (I : list Z) (il : Z) (ol : Z) (ps : list TCP_PortState_t) (pb : Z).
Context (HI : length I = 1500%nat).
Abbreviation net O cs := (mkNet I il O ol ps cs pb).

Lemma Ethernet_accepts_frame t mac O cs Q : slice I 0 6 = mac -> for_device mac -> length_accepted il ->
  Q true (net O cs) -> wp t Ethernet_accepts Q (net O cs).
Proof.
  intros Hm Hd Hl HQ. unfold Ethernet_accepts, MAC_COMPARE, EthernetH.Destination, same. net_step. net_step. net_step. net_step. rewrite Hm.
  apply wp_bind, (wp_mono _ _ (fun b w => b = true /\ w = net O cs)).
  - case_bool_decide; [by apply wp_ret|]. net_steps. rewrite Hm. split; [|done]. apply bool_decide_eq_true. by destruct Hd.
  - intros b w [-> ->]. net_steps. unfold length_accepted in Hl. by rewrite (proj2 (Z.ltb_lt _ _)).
Qed.

(** A frame that does not pass is dropped, and changes nothing. *)
Lemma Ethernet_drops O cs : is_u16 il -> length_passes il = false ->
  Ethernet_ProcessPacket (net O cs) = Ret tt (mkNet I 0 O ol ps cs pb).
Proof.
  intros Hu Hl. rewrite Ethernet_length_test in Hl by done.
  assert (wp true Ethernet_ProcessPacket (fun u w => Ret u w = Ret tt (mkNet I 0 O ol ps cs pb)) (net O cs)) as Hw.
  2:{ apply wp_total_run in Hw as (u & w & -> & E). exact E. }
  unfold Ethernet_ProcessPacket. apply wp_bind.
  eapply (wp_mono _ _ (fun b w => b = false /\ w = net O cs)).
  - unfold Ethernet_accepts, MAC_COMPARE, EthernetH.Destination, same. net_step. net_step. net_step. net_step.
    apply wp_bind, (wp_mono _ _ (fun _ w => w = net O cs)); [case_bool_decide; [by apply wp_ret|by net_steps]|].
    intros b w ->. net_steps. by rewrite Hl, andb_false_r.
  - intros b w [-> ->]. apply wp_bind, wp_ret. change (negb (NO_RESPONSE =? NO_PROCESS)) with true. cbn [when]. by apply wp_modify.
Qed.

Lemma IP_respond_fills t i o n first mid p hck src dst options O cs Q :
  length O = 1500%nat -> 0 <= i -> i + 20 <= 1500 -> 0 <= o -> o + 20 <= 1500 -> 0 <= n -> 20 + n < 65536 ->
  len mid = 8 -> len hck = 2 -> len src = 4 -> len dst = 4 -> is_u8 p -> Forall is_u8 src -> Forall is_u8 dst ->
  holds I (i + 0) (ip_in first mid p hck src dst options) ->
  Q (20 + n) (net (put O o (ip_header (20 + n) p dst src)) cs) -> wp t (IP_respond i o n) Q (net O cs).
Proof.
  intros HO Hi1 Hi2 Ho1 Ho2 Hn1 Hn2 L1 L2 L3 L4 Up U1 U2 H HQ. unfold ip_in in H.
  do 6 (eapply holds_cut in H; [|lia|reflexivity|flen|zval]; let Hf := fresh "F" in destruct H as [Hf H]).
  unfold IP_respond. tcp_offsets. net_step. net_step. rewrite F1. cbn [hd].
  net_step. apply fill_IP_header_fills; [done|lia|lia|]. rewrite (u8_small p) by done. set (H12 := [69] ++ _).
  assert (len H12 = 12) as L12 by done.
  frame_steps. rewrite F3, F4. match goal with |- wp _ _ _ (net ?b _) => set (O1 := b) end.
  assert (length O1 = 1500%nat) as HO1 by (unfold O1; by rewrite !length_put).
  assert (slice O1 o 20 = ip_fields (20 + n) p [0; 0] dst src) as E1.
  { rewrite <- (Z.add_0_r o) at 1. apply holds_last; [|by apply length_ip_fields].
    change (holds O1 (o + 0) (H12 ++ dst ++ src)). unfold O1. rewrite <- (Z.add_0_r o) at 1. regions. }
  apply wp_Ethernet_Checksum16; [lia|lia|lens|lia|..]; cbn [data FrameOUT]; change (2 * (20 / 2)) with 20; rewrite E1.
  { unfold ip_fields. u8s. }
  net_steps. match goal with |- Q _ (net ?b _) => replace b with (put O o (ip_header (20 + n) p dst src)); [done|] end.
  symmetry. unfold ip_header. set (c := inet_checksum _). unfold O1. rewrite <- (Z.add_0_r o) at 1. unfold H12, ip_fields.
  filled 20. by apply (length_ip_fields (20 + n) p (le16 c) dst src).
Qed.

Lemma Ethernet_respond_fills t n mac_src type O cs Q : length O = 1500%nat -> 0 <= n -> 14 + n < 65536 ->
  slice I 6 6 = mac_src -> slice I 12 2 = type -> len mac_src = 6 -> len type = 2 ->
  Q tt (mkNet I il (put O 0 (mac_src ++ ServerMACAddress ++ type)) (14 + n) ps cs pb) ->
  wp t (Ethernet_respond n) Q (net O cs).
Proof.
  intros HO Hn1 Hn2 E1 E2 L1 L2 HQ. unfold Ethernet_respond, EthernetH.Source, EthernetH.Destination, EthernetH.EtherType, sizeof_Ethernet_Frame_Header.
  frame_steps. rewrite E1, E2. rewrite u16_small by (unfold is_u16; lia).
  match goal with |- Q _ (mkNet _ _ ?b _ _ _ _) => replace b with (put O 0 (mac_src ++ ServerMACAddress ++ type)); [done|] end.
  norm_offsets. symmetry. change (0 + 0) with 0. change (put (put (put O (0 + 6) ServerMACAddress) 0 mac_src)) with (put (put (put O (0 + 6) ServerMACAddress) (0 + 0) mac_src)).
  filled 14. rewrite !length_app. cbn [length ServerMACAddress]. lia.
Qed.

(** The dispatch on the protocol of a packet for the server. *)
Lemma IP_dispatch t i o first mid p hck src dst options O cs Q :
  0 <= i -> i + 20 <= 1500 -> len mid = 8 -> len hck = 2 -> len src = 4 -> len dst = 4 ->
  is_u8 first -> for_server dst -> holds I (i + 0) (ip_in first mid p hck src dst options) ->
  let payload := i + 4 * (first mod 16) in
  wp t (if p =? PROTOCOL_ICMP then ICMP_ProcessICMPPacket payload (o + 20)
        else if p =? PROTOCOL_TCP then TCP_ProcessTCPPacket i payload (o + 20)
        else if p =? PROTOCOL_UDP then UDP_ProcessUDPPacket i payload (o + 20) else mret NO_RESPONSE)
     (fun r w => wp t (if 0 <? r then IP_respond i o r else mret r) Q w) (net O cs) ->
  wp t (IP_ProcessIPPacket i o) Q (net O cs).
Proof.
  intros Hi1 Hi2 L1 L2 L3 L4 U1 Hs H payload HQ. unfold ip_in in H.
  do 6 (eapply holds_cut in H; [|lia|reflexivity|flen|zval]; let Hf := fresh "F" in destruct H as [Hf H]).
  unfold IP_ProcessIPPacket, IP_COMPARE, same. tcp_offsets. net_step. net_step. rewrite F. cbn [hd].
  rewrite Z.shiftr_0_r, Z.land_ones by lia. change (2 ^ 4) with 16. net_step. net_step. net_step. net_step. rewrite F4.
  apply wp_bind, (wp_mono _ _ (fun b w => b = true /\ w = net O cs)).
  - case_bool_decide; [by apply wp_ret|]. net_steps. rewrite F4. split; [|done]. apply bool_decide_eq_true. by destruct Hs.
  - intros b w [-> ->]. cbn [negb]. net_step. net_step. rewrite F1. cbn [hd]. apply wp_bind.
    replace (i + first mod 16 * 4) with payload by (unfold payload; lia). exact HQ.
Qed.

(** The dispatch on the type of a frame for the device. *)
Lemma Ethernet_dispatch t mac_dst type O cs Q : slice I 0 6 = mac_dst -> for_device mac_dst -> length_accepted il ->
  slice I 12 2 = be16 type -> is_u16 type ->
  wp t (if type =? ETHERTYPE_ARP then ARP_ProcessARPPacket 14 14 else if type =? ETHERTYPE_IPV4 then IP_ProcessIPPacket 14 14 else mret NO_RESPONSE)
     (fun r w => wp t (when (0 <? r) (Ethernet_respond r))
        (fun _ w => wp t (when (negb (r =? NO_PROCESS)) (modify (set_IN_Length 0))) Q w) w) (net O cs) ->
  wp t Ethernet_ProcessPacket Q (net O cs).
Proof.
  intros Hm Hd Hl Ht Hu HQ. unfold Ethernet_ProcessPacket. apply wp_bind. eapply Ethernet_accepts_frame; try done.
  apply wp_bind. unfold EthernetH.EtherType. net_step. net_step. rewrite Ht, of_le16_be16, u16_small by done.
  apply wp_bind. eapply wp_mono; [exact HQ|]. intros r w Hr. apply wp_bind. eapply wp_mono; [exact Hr|]. intros u w' Hw.
  apply wp_ret. exact Hw.
Qed.
End Frames.

(** The reply of a protocol at its place becomes a frame. *)
Lemma reply_frame t I il O ol ps cs pb first mid p hck src dst options mac_src body r Q :
  length I = 1500%nat -> length O = 1500%nat -> holds I 14 (ip_in first mid p hck src dst options) ->
  len mid = 8 -> len hck = 2 -> len src = 4 -> len dst = 4 -> is_u8 p -> Forall is_u8 src -> Forall is_u8 dst ->
  slice I 6 6 = mac_src -> len mac_src = 6 -> slice I 12 2 = be16 ETHERTYPE_IPV4 -> len body = r -> 0 < r -> 34 + r <= 1500 ->
  Q tt (mkNet I 0 (put O 0 (ip_frame mac_src ServerMACAddress p dst src body))
          (len (ip_frame mac_src ServerMACAddress p dst src body)) ps cs pb) ->
  wp t (if 0 <? r then IP_respond 14 14 r else mret r)
    (fun r' w => wp t (when (0 <? r') (Ethernet_respond r'))
       (fun _ w => wp t (when (negb (r' =? NO_PROCESS)) (modify (set_IN_Length 0))) Q w) w)
    (mkNet I il (put O 34 body) ol ps cs pb).
Proof.
  intros HI HO H L1 L2 L3 L4 Up U1 U2 E1 L5 E2 Hr Hr0 Hr1 HQ. rewrite (proj2 (Z.ltb_lt 0 r)) by done.
  apply (IP_respond_fills I il ol ps pb HI t 14 14 r first mid p hck src dst options); try done; try lia; [by rewrite length_put|].
  rewrite (proj2 (Z.ltb_lt 0 (20 + r))) by lia. cbn [when].
  apply (Ethernet_respond_fills I il ol ps pb HI t (20 + r) mac_src (be16 ETHERTYPE_IPV4)); try done; try lia; [by rewrite !length_put|].
  rewrite (proj2 (Z.eqb_neq (20 + r) NO_PROCESS)) by (unfold NO_PROCESS; lia). cbn [negb when]. net_steps.
  change (u16 0) with 0.
  assert (len (ip_frame mac_src ServerMACAddress p dst src body) = 34 + r) as Lf.
  { unfold ip_frame, ethernet_header. rewrite !length_app, !Nat2Z.inj_add, length_ip_header by done. cbn [length ServerMACAddress be16]. lia. }
  rewrite Lf in HQ. replace (14 + (20 + r)) with (34 + r) by lia.
  match goal with |- Q _ (mkNet _ _ ?b _ _ _ _) => replace b with (put O 0 (ip_frame mac_src ServerMACAddress p dst src body)); [done|] end.
  unfold ip_frame. rewrite Hr. set (h := ip_header (20 + r) p dst src). assert (len h = 20) as Lh by (by apply length_ip_header).
  assert (len (ethernet_header mac_src ServerMACAddress ETHERTYPE_IPV4) = 14) as Le.
  { unfold ethernet_header. rewrite !length_app. cbn [length ServerMACAddress be16]. lia. }
  rewrite <- (put_prepend O 0) by (rewrite ?length_app; lia). rewrite Le. change (0 + 14) with 14.
  rewrite <- (put_prepend O 14) by lia. rewrite Lh. done.
Qed.

(** ** Ping *)

(** An echo request in a frame for the device, of any data that fits a frame, is
    answered with one frame to its sender: Ethernet and IP headers with the addresses
    exchanged, a valid IP checksum, and the identifier, sequence number and data of the
    request.  The request is consumed; the connections are not touched. *)
Theorem ping_answered I il O ol ps cs pb mac_dst mac_src first mid hck src dst options code ck id seq payload :
  length I = 1500%nat -> Forall is_u8 I -> length O = 1500%nat ->
  len mac_dst = 6 -> len mac_src = 6 -> len mid = 8 -> len hck = 2 -> len src = 4 -> len dst = 4 ->
  len ck = 2 -> len id = 2 -> len seq = 2 -> is_u8 first -> 20 + len options = 4 * (first mod 16) ->
  for_device mac_dst -> for_server dst -> length_accepted il ->
  holds I 0 (ethernet_header mac_dst mac_src ETHERTYPE_IPV4 ++ ip_in first mid PROTOCOL_ICMP hck src dst options ++
             icmp_header 8 code ck id seq ++ payload) ->
  il = 42 + len options + len payload -> il <= 1500 ->
  let reply := ip_frame mac_src ServerMACAddress PROTOCOL_ICMP dst src (echo_reply id seq payload) in
  Ethernet_ProcessPacket (mkNet I il O ol ps cs pb) = Ret tt (mkNet I 0 (put O 0 reply) (len reply) ps cs pb) /\
  verifies (ip_header (28 + len payload) PROTOCOL_ICMP dst src) /\
  (Nat.Even (length payload) -> verifies (echo_reply id seq payload)).
Proof.
  intros HI HU HO L1 L2 L3 L4 L5 L6 L7 L8 L9 Uf Hopt Hd Hs Hla H Hil Hib reply.
  unfold ethernet_header in H. rewrite <- (Z.add_0_r 0), <- !(assoc_L app) in H.
  do 3 (eapply holds_cut in H; [|lia|reflexivity|flen|zval]; let Hf := fresh "F" in destruct H as [Hf H]).
  change (0 + 14) with 14 in H. apply holds_app_inv in H as [Hip Hic]; [|lia].
  assert (len (ip_in first mid PROTOCOL_ICMP hck src dst options) = 4 * (first mod 16)) as Lip.
  { unfold ip_in. rewrite !length_app. cbn [length]. lia. }
  rewrite Lip in Hic. assert (0 <= first mod 16 < 16) by (apply Z.mod_pos_bound; lia).
  assert (Forall is_u8 src /\ Forall is_u8 dst /\ Forall is_u8 id /\ Forall is_u8 seq /\ Forall is_u8 payload) as (U1 & U2 & U3 & U4 & U5).
  { assert (Forall is_u8 (ip_in first mid PROTOCOL_ICMP hck src dst options) /\ Forall is_u8 (icmp_header 8 code ck id seq ++ payload)) as [V1 V2].
    { unfold holds in *. rewrite <- Hip, <- Hic. split; by apply slice_u8. }
    unfold ip_in in V1. unfold icmp_header in V2. repeat rewrite Forall_app in V1; repeat rewrite Forall_app in V2. destruct_and!; by split_and!. }
  split; [|split].
  - assert (wp true Ethernet_ProcessPacket (fun u w => Ret u w = Ret tt (mkNet I 0 (put O 0 reply) (len reply) ps cs pb)) (mkNet I il O ol ps cs pb)) as Hw.
    2:{ apply wp_total_run in Hw as (u & w & -> & E). exact E. }
    eapply (Ethernet_dispatch I il ol ps pb HI true mac_dst ETHERTYPE_IPV4); try done.
    change (ETHERTYPE_IPV4 =? ETHERTYPE_ARP) with false. rewrite Z.eqb_refl.
    eapply (IP_dispatch I il ol ps pb HI true 14 14 first mid PROTOCOL_ICMP hck src dst options); try done.
    change (PROTOCOL_ICMP =? PROTOCOL_ICMP) with true. cbn iota.
    eapply (ICMP_echo_answered I il O ol ps cs pb HI HO true (14 + 4 * (first mod 16)) (14 + 20) code ck id seq payload); try done; try lia; [by rewrite Z.add_0_r|].
    change (14 + 20) with 34. apply (reply_frame true I il O ol ps cs pb first mid PROTOCOL_ICMP hck src dst options mac_src (echo_reply id seq payload)); try done; try lia.
    unfold echo_reply, icmp_header. rewrite !length_app. cbn [length le16]. lia.
  - apply ip_header_verifies; done.
  - by apply echo_reply_verifies.
Qed.

(** ** ARP *)

(** an ARP request for the address of the server (or sent to its hardware address)
    is answered with the server's hardware and protocol addresses, sent to the asker;
    the request is consumed. *)
Theorem Ethernet_answers_arp I il O ol ps cs pb mac_dst mac_src hw hl pl sha spa tha tpa :
  length I = 1500%nat -> length O = 1500%nat -> len mac_dst = 6 -> len mac_src = 6 ->
  len hw = 2 -> len hl = 1 -> len pl = 1 -> len sha = 6 -> len spa = 4 -> len tha = 6 -> len tpa = 4 ->
  for_device mac_dst -> length_accepted il ->
  holds I 0 (ethernet_header mac_dst mac_src ETHERTYPE_ARP ++ arp_packet hw (be16 ETHERTYPE_IPV4) hl pl 1 sha spa tha tpa) ->
  tpa = ServerIPAddress \/ tha = ServerMACAddress ->
  let reply := ethernet_header mac_src ServerMACAddress ETHERTYPE_ARP ++
               arp_packet hw (be16 ETHERTYPE_IPV4) hl pl 2 ServerMACAddress ServerIPAddress sha spa in
  Ethernet_ProcessPacket (mkNet I il O ol ps cs pb) = Ret tt (mkNet I 0 (put O 0 reply) 42 ps cs pb).
Proof.
  intros HI HO L1 L2 L3 L4 L5 L6 L7 L8 L9 Hd Hla H Hme reply.
  unfold ethernet_header in H. rewrite <- (Z.add_0_r 0), <- !(assoc_L app) in H.
  do 3 (eapply holds_cut in H; [|lia|reflexivity|flen|zval]; let Hf := fresh "F" in destruct H as [Hf H]).
  assert (wp true Ethernet_ProcessPacket (fun u w => Ret u w = Ret tt (mkNet I 0 (put O 0 reply) 42 ps cs pb)) (mkNet I il O ol ps cs pb)) as Hw.
  2:{ apply wp_total_run in Hw as (u & w & -> & E). exact E. }
  apply (Ethernet_dispatch I il ol ps pb HI true mac_dst ETHERTYPE_ARP); try done.
  change (ETHERTYPE_ARP =? ETHERTYPE_ARP) with true. cbn iota.
  apply (ARP_request_answered I il O ol ps cs pb HI HO true 14 14 hw hl pl sha spa tha tpa); try done; try lia.
  change (0 <? 28) with true. cbn [when].
  apply (Ethernet_respond_fills I il ol ps pb HI true 28 mac_src (be16 ETHERTYPE_ARP)); try done; [by rewrite length_put|].
  change (negb (28 =? NO_PROCESS)) with true. cbn [when]. net_steps. unfold reply.
  assert (len (ethernet_header mac_src ServerMACAddress ETHERTYPE_ARP) = 14) as Le.
  { unfold ethernet_header. rewrite !length_app. cbn [length ServerMACAddress be16]. lia. }
  rewrite <- (put_prepend O 0); [by rewrite Le|lia|]. rewrite Le. unfold arp_packet. rewrite !length_app. cbn [length be16 ServerMACAddress ServerIPAddress]. lia.
Qed.

(** ** DHCP *)

(** The options of an answer (RFC 2132): the message type, the subnet mask
    255.255.255.0, a lease of one day, the identity of the server, and the end. *)
Definition dhcp_option (code : Z) (value : list Z) : list Z := [code; len value] ++ value.
Definition lease_options (type : Z) : list Z :=
  dhcp_option 53 [type] ++ dhcp_option 1 [255; 255; 255; 0] ++ dhcp_option 51 (be32 86400) ++
  dhcp_option 54 ServerIPAddress ++ [255].
(** DHCPOFFER and DHCPACK *)
Definition answer_type (m : Z) : Z := if m =? 1 then 2 else 5.

Lemma DHCP_options_lease m : DHCP_options m = lease_options (answer_type m).
Proof. done. Qed.

Lemma lease_answered I il O ol ps cs pb mac_dst mac_src first mid hck src dst options sport ul uck
    op htype hlen hops xid secs flags addrs chaddr rest xs l m tail :
  length I = 1500%nat -> length O = 1500%nat -> len mac_dst = 6 -> len mac_src = 6 ->
  len mid = 8 -> len hck = 2 -> len src = 4 -> len dst = 4 -> is_u8 first -> 20 + len options = 4 * (first mod 16) ->
  len sport = 2 -> len ul = 2 -> len uck = 2 -> len op = 1 -> len htype = 1 -> len hlen = 1 -> len hops = 1 ->
  len xid = 4 -> len secs = 2 -> len flags = 2 -> len addrs = 16 -> len chaddr = 6 -> len rest = 206 ->
  for_device mac_dst -> for_server dst -> length_accepted il ->
  Forall passed xs -> m = 1 \/ m = 3 ->
  holds I 0 (ethernet_header mac_dst mac_src ETHERTYPE_IPV4 ++ ip_in first mid PROTOCOL_UDP hck src dst options ++
    udp_header sport (be16 67) ul uck ++ dhcp_request op htype hlen hops xid secs flags addrs chaddr rest ++
    enc_options xs ++ [DHCP.OPTION_MESSAGETYPE; l; m] ++ tail) ->
  let reply := ip_frame mac_src ServerMACAddress PROTOCOL_UDP ServerIPAddress ClientIPAddress
    (udp_header (be16 67) sport (be16 270) [0; 0] ++ dhcp_reply htype hlen xid flags chaddr ++ lease_options (answer_type m)) in
  Ethernet_ProcessPacket (mkNet I il O ol ps cs pb) =
    Ret tt (mkNet (leased I 14) 0 (put O 0 reply) (len reply) ps cs pb) /\
  verifies (ip_header 290 PROTOCOL_UDP ServerIPAddress ClientIPAddress).
Proof.
  intros HI HO L1 L2 L3 L4 L5 L6 Uf Hopt K1 K2 K3 K4 K5 K6 K7 K8 K9 K10 K11 K12 K13 Hd Hs Hla Hxs Hm H reply.
  unfold reply. rewrite <- DHCP_options_lease. clear reply. set (reply := ip_frame _ _ _ _ _ _).
  split; [|by apply ip_header_verifies; apply u8_all || done].
  unfold ethernet_header in H. rewrite <- (Z.add_0_r 0), <- !(assoc_L app) in H.
  do 3 (eapply holds_cut in H; [|lia|reflexivity|flen|zval]; let Hf := fresh "F" in destruct H as [Hf H]).
  change (0 + 14) with 14 in H. apply holds_app_inv in H as [Hip Hic]; [|lia].
  assert (len (ip_in first mid PROTOCOL_UDP hck src dst options) = 4 * (first mod 16)) as Lip.
  { unfold ip_in. rewrite !length_app. cbn [length]. lia. }
  rewrite Lip in Hic. assert (0 <= first mod 16 < 16) by (apply Z.mod_pos_bound; lia).
  assert (wp true Ethernet_ProcessPacket (fun u w => Ret u w = Ret tt (mkNet (leased I 14) 0 (put O 0 reply) (len reply) ps cs pb)) (mkNet I il O ol ps cs pb)) as Hw.
  2:{ apply wp_total_run in Hw as (u & w & -> & E). exact E. }
  apply (Ethernet_dispatch I il ol ps pb HI true mac_dst ETHERTYPE_IPV4); try done.
  change (ETHERTYPE_IPV4 =? ETHERTYPE_ARP) with false. rewrite Z.eqb_refl.
  apply (IP_dispatch I il ol ps pb HI true 14 14 first mid PROTOCOL_UDP hck src dst options); try done.
  change (PROTOCOL_UDP =? PROTOCOL_ICMP) with false. change (PROTOCOL_UDP =? PROTOCOL_TCP) with false. rewrite Z.eqb_refl. cbn iota.
  apply (UDP_answers true 14 (14 + 4 * (first mod 16)) (14 + 20) sport ul uck op htype hlen hops xid secs flags addrs chaddr rest xs l m tail);
    try done; try lia; [by rewrite Z.add_0_r|].
  assert (holds (leased I 14) 14 (ip_in first mid PROTOCOL_UDP hck ClientIPAddress ServerIPAddress options)) as Hip'.
  { unfold ip_in in *. rewrite <- (Z.add_0_r 14) in Hip |- *.
    do 6 (eapply holds_cut in Hip; [|lia|reflexivity|flen|zval]; let Hf := fresh "G" in destruct Hip as [Hf Hip]).
    do 6 (eapply holds_join; [flen|zval|lia|reflexivity|unfold leased; fields; done|]).
    unfold leased. apply holds_put_ne, holds_put_ne; try done; cbn [length ClientIPAddress ServerIPAddress]; lia. }
  change (14 + 20) with 34.
  apply (reply_frame true (leased I 14) il O ol ps cs pb first mid PROTOCOL_UDP hck ClientIPAddress ServerIPAddress options mac_src
    (udp_header (be16 67) sport (be16 270) [0; 0] ++ dhcp_reply htype hlen xid flags chaddr ++ DHCP_options m)); try done.
  - unfold leased. by rewrite !length_put.
  - by apply u8_all.
  - by apply u8_all.
  - unfold leased. by rewrite !slice_put_ne by (done || cbn; lia).
  - unfold leased. by rewrite !slice_put_ne by (done || cbn; lia).
  - unfold udp_header, dhcp_reply. rewrite !length_app, !length_replicate.
    cbn [length be16 be32 ClientIPAddress ServerIPAddress DHCP_options Datatypes.app]. lia.
Qed.

(** C24: a DHCP discovery is answered with an offer and a request with an acknowledgment,
    whatever options come before the message type, if the length of the frame passes the
    test of Ethernet.c, which swaps its bytes first ([length_passes]: the low byte of the
    length exceeds 6, or is 6 and the high byte is not 0).  The reply repeats the
    transaction, flags and hardware address of the client, leases it the address 10.0.0.1
    with the subnet mask, lease time and server of the demo, and goes from the server's
    address to the leased one.  A frame of any other length is dropped without an answer. *)
Theorem Ethernet_leases_address I il O ol ps cs pb mac_dst mac_src first mid hck src dst options sport ul uck
    op htype hlen hops xid secs flags addrs chaddr rest xs l m tail :
  length I = 1500%nat -> length O = 1500%nat -> len mac_dst = 6 -> len mac_src = 6 ->
  len mid = 8 -> len hck = 2 -> len src = 4 -> len dst = 4 -> is_u8 first -> 20 + len options = 4 * (first mod 16) ->
  len sport = 2 -> len ul = 2 -> len uck = 2 -> len op = 1 -> len htype = 1 -> len hlen = 1 -> len hops = 1 ->
  len xid = 4 -> len secs = 2 -> len flags = 2 -> len addrs = 16 -> len chaddr = 6 -> len rest = 206 ->
  for_device mac_dst -> for_server dst -> is_u16 il ->
  Forall passed xs -> m = 1 \/ m = 3 ->
  holds I 0 (ethernet_header mac_dst mac_src ETHERTYPE_IPV4 ++ ip_in first mid PROTOCOL_UDP hck src dst options ++
    udp_header sport (be16 67) ul uck ++ dhcp_request op htype hlen hops xid secs flags addrs chaddr rest ++
    enc_options xs ++ [DHCP.OPTION_MESSAGETYPE; l; m] ++ tail) ->
  let reply := ip_frame mac_src ServerMACAddress PROTOCOL_UDP ServerIPAddress ClientIPAddress
    (udp_header (be16 67) sport (be16 270) [0; 0] ++ dhcp_reply htype hlen xid flags chaddr ++ lease_options (answer_type m)) in
  Ethernet_ProcessPacket (mkNet I il O ol ps cs pb) =
    (if length_passes il then Ret tt (mkNet (leased I 14) 0 (put O 0 reply) (len reply) ps cs pb)
     else Ret tt (mkNet I 0 O ol ps cs pb)) /\
  verifies (ip_header 290 PROTOCOL_UDP ServerIPAddress ClientIPAddress).
Proof.
  intros HI HO L1 L2 L3 L4 L5 L6 Uf Hopt K1 K2 K3 K4 K5 K6 K7 K8 K9 K10 K11 K12 K13 Hd Hs Hl Hxs Hm H.
  destruct (length_passes il) eqn:E.
  - by apply (lease_answered I il O ol ps cs pb mac_dst mac_src first mid hck src dst options sport ul uck
      op htype hlen hops xid secs flags addrs chaddr rest xs l m tail); try done; apply length_passes_accepted.
  - split; [by apply Ethernet_drops|]. by apply ip_header_verifies; apply u8_all || done.
Qed.

(** ** Witnesses *)

Definition demo_ip (protocol : Z) (src dst : list Z) : list Z := ip_in 0x45 (replicate 8 0) protocol [0; 0] src dst [].
Definition demo_eth (type : Z) : list Z := ethernet_header ServerMACAddress AdapterMACAddress type.
Definition demo_globals (bs : list Z) (l : Z) : Net :=
  mkNet (buffer bs) l (replicate 1500 0) 0 [mkPort TCP_PORT_HTTP TCP_Port_Open (Some Webserver)]
    (replicate 3 (set_conn_State TCP_Connection_Closed zero_Connection)) 0.

Definition demo_ping : list Z :=
  demo_eth ETHERTYPE_IPV4 ++ demo_ip PROTOCOL_ICMP ClientIPAddress ServerIPAddress ++ icmp_header 8 0 [0; 0] [1; 2] [0; 1] ++ [104; 101; 108; 108; 111; 33].

Definition demo_arp : list Z :=
  ethernet_header BroadcastMACAddress AdapterMACAddress ETHERTYPE_ARP ++
  arp_packet [0; 1] (be16 ETHERTYPE_IPV4) [6] [4] 1 AdapterMACAddress ClientIPAddress (replicate 6 0) ServerIPAddress.

Lemma Ethernet_answers_arp_witness : exists w',
  Ethernet_ProcessPacket (demo_globals demo_arp 42) = Ret tt w' /\ FrameOUT_Length w' = 42.
Proof.
  eexists. split; [|shelve]. apply (Ethernet_answers_arp (buffer demo_arp) 42 (replicate 1500 0) 0
    [mkPort TCP_PORT_HTTP TCP_Port_Open (Some Webserver)] (replicate 3 (set_conn_State TCP_Connection_Closed zero_Connection)) 0
    BroadcastMACAddress AdapterMACAddress [0; 1] [6] [4] AdapterMACAddress ClientIPAddress (replicate 6 0) ServerIPAddress).
  all: try reflexivity.
  - by right.
  - by left.
  Unshelve. reflexivity.
Defined.

Definition demo_dhcp : list Z :=
  ethernet_header BroadcastMACAddress AdapterMACAddress ETHERTYPE_IPV4 ++ demo_ip PROTOCOL_UDP [0; 0; 0; 0] BroadcastIPAddress ++
  udp_header (be16 68) (be16 67) [1; 0] [0; 0] ++
  dhcp_request [1] [1] [6] [0] [1; 2; 3; 4] [0; 0] [0; 0] (replicate 16 0) AdapterMACAddress (replicate 206 0) ++
  enc_options [Pad; Opt 61 [1; 2]] ++ [DHCP.OPTION_MESSAGETYPE; 1; 1] ++ [DHCP.OPTION_END].

Lemma Ethernet_leases_address_witness : exists w',
  Ethernet_ProcessPacket (demo_globals demo_dhcp 300) = Ret tt w' /\ FrameOUT_Length w' = 304.
Proof.
  edestruct (Ethernet_leases_address (buffer demo_dhcp) 300 (replicate 1500 0) 0 [mkPort TCP_PORT_HTTP TCP_Port_Open (Some Webserver)]
    (replicate 3 (set_conn_State TCP_Connection_Closed zero_Connection)) 0
    BroadcastMACAddress AdapterMACAddress 0x45 (replicate 8 0) [0; 0] [0; 0; 0; 0] BroadcastIPAddress [] (be16 68) [1; 0] [0; 0]
    [1] [1] [6] [0] [1; 2; 3; 4] [0; 0] [0; 0] (replicate 16 0) AdapterMACAddress (replicate 206 0) [Pad; Opt 61 [1; 2]] 1 1 [DHCP.OPTION_END])
    as (Hr & _).
  all: try reflexivity.
  - done.
  - by right.
  - by right.
  - done.
  - repeat constructor; done.
  - by left.
  - eexists. split; [exact Hr|reflexivity].
Defined.

(** A DHCP message with no message type and no end option: the search for the options
    runs past the end of the frame. *)
Theorem DHCP_unterminated_faults :
  Ethernet_ProcessPacket (demo_globals (ethernet_header BroadcastMACAddress AdapterMACAddress ETHERTYPE_IPV4 ++
    demo_ip PROTOCOL_UDP [0; 0; 0; 0] BroadcastIPAddress ++ udp_header (be16 68) (be16 67) [1; 0] [0; 0]) 300) = Fault.
Proof. vm_compute. reflexivity. Qed.
