(* ===== verification/RNDISEthernet.v ===== *)
(** The application of the TCP/IP demo: Demos/Device/ClassDriver/RNDISEthernet/
    RNDISEthernet.[ch].

    Its memory is the RNDIS interface structure and the globals of the protocols.  The
    LED driver of the board, avr-libc and the descriptors of the demo are parameters. *)

From stdpp Require Import base tactics option list numbers strings.
From Stdlib Require Import ZArith Lia.
From S2P Require Import Prelude Memory Hardware Endpoint USBController ControlStream DeviceStandardReq.
From S2P Require Import EndpointStream Serial ControlRequest ClassDriver RNDISDevice Board.
From S2P Require Import EthernetFrame NetProtocols TCP Ethernet.

Record Ethernet_App : Set := mkEthernetApp {
  Ethernet_RNDIS_Interface : RNDISInfo;
  Globals : Net
}.
Definition set_Globals (n : Net) (a : Ethernet_App) : Ethernet_App := mkEthernetApp (Ethernet_RNDIS_Interface a) n.

#[export] Instance Ethernet_object : Object Ethernet_App RNDISInfo :=
  {| load := Ethernet_RNDIS_Interface; store := fun i a => mkEthernetApp i (Globals a);
     load_store := fun _ _ => eq_refl; store_store := fun _ _ _ => eq_refl |}.

Section RNDISEthernet.
Context {HW : Hardware} {BD : Board Ethernet_App}.
Abbreviation P := (prog (World Ethernet_App)).

(** The interface structure as RNDISEthernet.c initialises it; [AdapterVendorDescription]
    is the string with its terminator. *)
Definition CDC_TX_EPADDR : Z := Z.lor 0x80 1.
Definition CDC_RX_EPADDR : Z := 2.
Definition CDC_NOTIFICATION_EPADDR : Z := Z.lor 0x80 3.
Definition CDC_TXRX_EPSIZE : Z := 64.
Definition CDC_NOTIFICATION_EPSIZE : Z := 8.
Definition initial_Interface : RNDISInfo :=
  mkRNDISInfo (mkRNDISConfig 0 (mkEndpointTable CDC_TX_EPADDR CDC_TXRX_EPSIZE 0 1)
      (mkEndpointTable CDC_RX_EPADDR CDC_TXRX_EPSIZE 0 1) (mkEndpointTable CDC_NOTIFICATION_EPADDR CDC_NOTIFICATION_EPSIZE 0 1)
      (bytes_of "LUFA RNDIS Demo Adapter" ++ [0]) EthernetFrame.AdapterMACAddress (Some (replicate 192 0)) 192)
    (mkRNDISState false RNDIS_Uninitialized 0).
Definition initial_App : Ethernet_App := mkEthernetApp initial_Interface zero_Net.

(** A protocol routine runs on the globals. *)
Definition on_net {A} (m : prog Net A) : P A := fun w =>
  match m (Globals (app w)) with
  | Ret a n => Ret a (upd_app (set_Globals n) w)
  | NoFuel => NoFuel
  | Fault => Fault
  end.

#[export] Instance EthernetEvents : DeviceEvents Ethernet_App := {|
  EVENT_USB_Device_StartOfFrame := mret tt;
  EVENT_USB_Device_Connect := LEDs_SetAllLEDs LEDMASK_USB_ENUMERATING;
  EVENT_USB_Device_Disconnect := LEDs_SetAllLEDs LEDMASK_USB_NOTREADY;
  EVENT_USB_Device_Suspend := mret tt;
  EVENT_USB_Device_WakeUp := mret tt;
  EVENT_USB_Device_Reset := mret tt
|}.

Definition Ethernet_ConfigurationChanged (fuel : nat) : P unit :=
  ConfigSuccess ← RNDIS_Device_ConfigureEndpoints fuel;
  LEDs_SetAllLEDs (if ConfigSuccess : bool then LEDMASK_USB_READY else LEDMASK_USB_ERROR).

(** The descriptors are those of the demo's Descriptors.c. *)
Context (GetDescriptor : Z -> Z -> Z * option (list Z)).
#[local] Instance EthernetRequests : DeviceRequests Ethernet_App := {|
  CALLBACK_USB_GetDescriptor := GetDescriptor;
  EVENT_USB_Device_ControlRequest := RNDIS_Device_ProcessControlRequest;
  EVENT_USB_Device_ConfigurationChanged := Ethernet_ConfigurationChanged
|}.

Definition SetupHardware (fuel : nat) : P unit :=
  clr_bits MCUSR (bit WDRF);;
  wdt_disable;;
  clock_prescale_set 0;;
  LEDs_Init;;
  Serial_Init 9600 false;;
  USB_Init fuel;;
  Serial_CreateStream.

Context (uninit : Z -> Z).

(** [RNDIS_Device_ReadPacket(&Interface, &FrameIN.FrameData, &FrameIN.FrameLength)] *)
Definition read_frame (fuel : nat) : P unit :=
  n ← gets (fun w => Globals (app w));
  r ← RNDIS_Device_ReadPacket fuel uninit (FrameIN n) (FrameIN_Length n);
  let '(_, l, b) := r in
  on_net (modify (set_data IN b));; on_net (modify (set_IN_Length l)).

(** A frame that is waiting is sent. *)
Definition send_frame (fuel : nat) : P unit :=
  n ← gets (fun w => Globals (app w));
  when (negb (FrameOUT_Length n =? 0))
    (RNDIS_Device_SendPacket fuel (FrameOUT n) (FrameOUT_Length n);;
     on_net (modify (set_OUT_Length 0))).

(** The body of [if (RNDIS_Device_IsPacketReceived(...))]. *)
Definition process_frame (fuel : nat) : P unit :=
  LEDs_SetAllLEDs LEDMASK_USB_BUSY;;
  read_frame fuel;;
  on_net Ethernet_ProcessPacket;;
  send_frame fuel;;
  LEDs_SetAllLEDs LEDMASK_USB_READY.

Definition receive_frame (fuel : nat) : P unit :=
  r ← RNDIS_Device_IsPacketReceived fuel;
  when r (process_frame fuel).

(** One round of the endless loop. *)
Definition main_round (fuel : nat) : P unit :=
  receive_frame fuel;;
  on_net TCP_TCPTask;;
  RNDIS_Device_USBTask fuel;;
  USB_USBTask fuel.

Fixpoint main_loop (rounds fuel : nat) : P unit :=
  match rounds with
  | O => mret tt
  | S rounds => main_round fuel;; main_loop rounds fuel
  end.

(** [main], observed after [rounds] rounds of its loop. *)
Definition main (rounds fuel : nat) : P unit :=
  SetupHardware fuel;;
  on_net TCP_Init;;
  on_net Webserver_Init;;
  LEDs_SetAllLEDs LEDMASK_USB_NOTREADY;;
  GlobalInterruptEnable;;
  main_loop rounds fuel.
End RNDISEthernet.
