(* ===== verification/RNDISEthernetSpec.v ===== *)
(** The TCP/IP demo as the host sees it: frames on the endpoints of the RNDIS interface
    (RNDISEthernet.v) answered by the protocols (Ethernet.v). *)

From stdpp Require Import base tactics option list numbers functions.
From Stdlib Require Import ZArith Lia.
From S2P Require Import Prelude Memory Hardware Endpoint USBController ControlStream DeviceStandardReq.
From S2P Require Import EndpointStream ControlTransfer ControlReceive ControlRequest DataEndpoint.
From S2P Require Import DataStream ClassDriver Board RNDISDevice RNDISSpec.
From S2P Require Import EthernetFrame FrameSpec NetProtocols NetSpec TCP TCPTaskSpec Ethernet EthernetSpec RNDISEthernet.


Section Exchange.
Context {HW : Hardware} {BD : Board Ethernet_App} {QL : QuietLEDs BD} {is_in : Z -> bool} {size : Z -> nat} {q0 : Z -> list (list Z)}.
Context {DH : DataHost is_in size q0} (GetDescriptor : Z -> Z -> Z * option (list Z)) (uninit : Z -> Z).
Context (ein eout : Z) (fuel : nat).
Abbreviation dev := (dev (is_in := is_in) (q0 := q0) (App := Ethernet_App)).
Abbreviation transferring := (transferring is_in size ein eout).








End Exchange.

(** ** Ping over the bus *)









(** ** Witness *)




