(* ===== verification/Flash.v ===== *)
(** The self-programming memory of the processor.

    The boot loaders program the flash memory page by page through the operations of
    avr/boot.h, which are not part of the sources: the code is observed through the
    sequence of operations it performs, and what they do to the memory is described here
    as the data sheet of the processor documents it.  What the makefile and avr-libc define
    for the processor is the class [Target]; reading its memories is the class [NVM]. *)

From stdpp Require Import base tactics option list numbers.
From Stdlib Require Import ZArith Lia.
From S2P Require Import Prelude.

(** The operations, the most recent first. *)
Inductive spm_op : Set :=
  | boot_page_erase (a : Z)
  | boot_page_fill (a w : Z)
  | boot_page_write (a : Z)
  | boot_spm_busy_wait
  | boot_rww_enable
  | boot_lock_bits_set (b : Z).
Definition spm_log : Set := list spm_op.

(** The cells, the temporary page buffer with the words of it that were filled, and
    whether an operation is under way. *)
Record Flash : Type := mkFlash {
  cells : Z -> Z;
  temp : Z -> Z;
  filled : Z -> bool;
  busy : bool
}.

Section Machine.
Context (SPM_PAGESIZE : Z).

Definition page_of (a : Z) : Z := a - a mod SPM_PAGESIZE.

(** An operation while another is under way, and a second fill of a word of the buffer,
    have no defined result.  Erasing sets the bits of a page; writing can only clear
    them, and empties the buffer, and so does the end of the lock of the memory that is
    programmed ([boot_rww_enable]). *)
Definition spm_step (op : spm_op) (f : Flash) : option Flash :=
  match op with
  | boot_spm_busy_wait => Some (mkFlash (cells f) (temp f) (filled f) false)
  | _ =>
      if busy f then None
      else
        match op with
        | boot_page_erase a =>
            Some (mkFlash (fun x => if page_of x =? page_of a then 0xFF else cells f x) (temp f) (filled f) true)
        | boot_page_fill a w =>
            let o := a mod SPM_PAGESIZE in
            if filled f o then None
            else Some (mkFlash (cells f)
                         (fun x => if x =? o then w mod 256 else if x =? o + 1 then w / 256 else temp f x)
                         (fun x => (x =? o) || filled f x) false)
        | boot_page_write a =>
            Some (mkFlash (fun x => if page_of x =? page_of a then Z.land (cells f x) (temp f (x mod SPM_PAGESIZE))
                                    else cells f x) (fun _ => 0xFF) (fun _ => false) true)
        | boot_rww_enable => Some (mkFlash (cells f) (fun _ => 0xFF) (fun _ => false) false)
        | _ => Some f
        end
  end.

Definition spm_run (log : spm_log) (f : Flash) : option Flash :=
  foldr (fun op r => r ≫= spm_step op) (Some f) log.

Lemma spm_run_cons op l f : spm_run (op :: l) f = spm_run l f ≫= spm_step op.
Proof. done. Qed.

Lemma spm_run_app l1 l2 f : spm_run (l1 ++ l2) f = spm_run l2 f ≫= spm_run l1.
Proof.
  unfold spm_run. rewrite foldr_app. destruct (foldr _ (Some f) l2) as [f'|]; [done|].
  induction l1 as [|op l1 IH]; [done|]. cbn [foldr]. by rewrite IH.
Qed.
End Machine.

(** After a page was erased or written the memory reads wrong until it is unlocked. *)
Fixpoint rww_ready (log : spm_log) : bool :=
  match log with
  | [] | boot_rww_enable :: _ => true
  | boot_page_erase _ :: _ | boot_page_write _ :: _ => false
  | _ :: log => rww_ready log
  end.

(** A memory at rest. *)
Definition idle (f : Flash) : Prop := busy f = false /\ (forall x, temp f x = 0xFF) /\ (forall x, filled f x = false).
Definition at_rest (c : Z -> Z) : Flash := mkFlash c (fun _ => 0xFF) (fun _ => false) false.

(** What the makefile and avr-libc define for the processor. *)
Class Target : Set := {
  FLASHEND : Z;
  E2END : Z;
  SPM_PAGESIZE : Z;
  BOOT_START_ADDR : Z;
  AUX_BOOT_SECTION_SIZE : Z
}.

(** The bytes written to the EEPROM, the most recent first. *)
Definition eeprom_log : Set := list (Z * Z).

(** Reading the two memories: [pgm_read_byte], or [pgm_read_byte_far] where FLASHEND is above 0xFFFF. *)
Class NVM : Type := {
  pgm_read_byte : spm_log -> Z -> Z;
  eeprom_read_byte : eeprom_log -> Z -> Z
}.
