(* ===== verification/FlashSpec.v ===== *)
(** Programming pages of the flash memory (Flash.v): what the operations of a boot loader
    leave in the cells, and what reading gives afterwards. *)

From stdpp Require Import base tactics option list numbers.
From Stdlib Require Import ZArith Lia Znumtheory.
From S2P Require Import Prelude Flash.

(** Bytes of the EEPROM after the writes of [log]. *)
Definition eeprom_cells (log : eeprom_log) (e0 : Z -> Z) (x : Z) : Z :=
  foldr (fun '(a, b) r => if x =? a then b else r) (e0 x) log.

(** Reading gives what the memory holds; the flash memory has to be unlocked. *)
Class NVMReads {T : Target} (N : NVM) (c0 e0 : Z -> Z) : Prop := {
  flash_reads log f a : spm_run SPM_PAGESIZE log (at_rest c0) = Some f -> busy f = false -> rww_ready log = true ->
    pgm_read_byte log a = cells f a;
  eeprom_reads log a : eeprom_read_byte log a = eeprom_cells log e0 a
}.

(** ** Pages *)

Section Pages.
Context (P : Z) (HP : exists k, 1 <= k <= 9 /\ P = 2 ^ k).

Lemma page_facts : exists h, P = 2 * h /\ 0 < h /\ (P | 512).
Proof.
  destruct HP as (k & Hk & ->). exists (2 ^ (k - 1)). split_and!.
  - rewrite <- Z.pow_succ_r by lia. f_equal. lia.
  - apply Z.pow_pos_nonneg; lia.
  - exists (2 ^ (9 - k)). rewrite <- Z.pow_add_r by lia. by replace (9 - k + k) with 9 by lia.
Qed.

Lemma page_split a : exists q, page_of P a = P * q /\ a = P * q + a mod P /\ 0 <= a mod P < P.
Proof.
  destruct page_facts as (h & E & Hh & _). exists (a / P). unfold page_of.
  pose proof (Z.div_mod a P ltac:(lia)). pose proof (Z.mod_pos_bound a P ltac:(lia)). lia.
Qed.

Lemma page_eq x q : (page_of P x =? P * q) = (P * q <=? x) && (x <? P * q + P).
Proof.
  destruct (page_split x) as (r & -> & Hx & Hm). destruct page_facts as (h & E & Hh & _).
  destruct (Z.lt_trichotomy r q) as [H|[->|H]].
  - assert (P * r + P <= P * q) by nia. rewrite (proj2 (Z.eqb_neq _ _)), (proj2 (Z.leb_gt _ _)) by lia. done.
  - rewrite Z.eqb_refl, (proj2 (Z.leb_le _ _)), (proj2 (Z.ltb_lt _ _)) by lia. done.
  - assert (P * q + P <= P * r) by nia. rewrite (proj2 (Z.eqb_neq _ _)), (proj2 (Z.ltb_ge _ _)), andb_false_r by lia. done.
Qed.

Lemma page_base q : page_of P (P * q) = P * q /\ (P * q) mod P = 0.
Proof.
  destruct page_facts as (h & E & Hh & _). unfold page_of. rewrite Z.mul_comm, Z.mod_mul by lia. lia.
Qed.

Lemma offset_of q t : 0 <= t < P -> (P * q + t) mod P = t /\ page_of P (P * q + t) = P * q.
Proof using Type.
  intros Ht. unfold page_of. assert ((P * q + t) mod P = t) as ->.
  { rewrite Z.add_comm, (Z.mul_comm P), Z_mod_plus_full. by apply Z.mod_small. }
  lia.
Qed.
End Pages.

(** Waiting when nothing is under way. *)
Lemma rested f : busy f = false -> mkFlash (cells f) (temp f) (filled f) false = f.
Proof. intros H. by destruct f; cbn in H; subst. Qed.

(** ** Filling and writing a page *)

(** A byte of the data. *)
Definition byte (buf : list Z) (i : Z) : Z := nth (Z.to_nat i) buf 0.

Lemma byte_u8 buf i : Forall is_u8 buf -> is_u8 (byte buf i).
Proof.
  intros Hbuf. unfold byte. destruct (nth_in_or_default (Z.to_nat i) buf 0) as [Hin| ->]; [|done].
  apply (proj1 (List.Forall_forall _ _) Hbuf _ Hin).
Qed.

Section Filling.
Context (P : Z) (HP : exists k, 1 <= k <= 9 /\ P = 2 ^ k).
Context (c0 : Z -> Z) (A : Z) (buf : list Z).
Abbreviation byte := (byte buf).

(** The pages before [g] are written, the one at [g] is blank, and [t] bytes of it are
    in the buffer. *)
Definition filling (g t : Z) (f : Flash) : Prop :=
  busy f = false /\
  (forall x, cells f x = if (A <=? x) && (x <? g) then byte (x - A) else if (g <=? x) && (x <? g + P) then 0xFF else c0 x) /\
  (forall o, temp f o = if (0 <=? o) && (o <? t) then byte (g + o - A) else 0xFF) /\
  (forall o, filled f o = true -> 0 <= o < t).

(** The cells after the data was programmed up to [a], in pages up to [b]. *)
Definition downloaded (a b x : Z) : Z :=
  if (A <=? x) && (x <? a) then byte (x - A) else if (a <=? x) && (x <? b) then 0xFF else c0 x.

Lemma erase_blank q f : A <= P * q -> idle f ->
  (forall x, cells f x = if (A <=? x) && (x <? P * q) then byte (x - A) else c0 x) ->
  exists f1, spm_run P [boot_spm_busy_wait; boot_page_erase (P * q)] f = Some f1 /\ filling (P * q) 0 f1.
Proof.
  intros HA (Hbusy & Ht & Hf) Hc. destruct (page_base P HP q) as [Hb _]. rewrite !spm_run_cons. cbn. rewrite Hbusy. cbn.
  eexists. split; [reflexivity|]. split; [done|]. split_and!; cbn.
  - intros x. rewrite Hb, (page_eq P HP), Hc. destruct (Z.leb_spec A x), (Z.ltb_spec x (P * q)), (Z.leb_spec (P * q) x), (Z.ltb_spec x (P * q + P)); cbn; try done; lia.
  - intros o. rewrite Ht. destruct (Z.leb_spec 0 o), (Z.ltb_spec o 0); cbn; try done; lia.
  - intros o H. by rewrite Hf in H.
Qed.

Lemma fill_word q t f b0 b1 : 0 <= t -> t + 2 <= P -> byte (P * q + t - A) = b0 -> byte (P * q + t + 1 - A) = b1 ->
  is_u8 b0 -> is_u8 b1 -> filling (P * q) t f ->
  exists f1, spm_step P (boot_page_fill (P * q + t) (256 * b1 + b0)) f = Some f1 /\ filling (P * q) (t + 2) f1.
Proof using Type.
  intros Ht HtP Hb0 Hb1 Hu0 Hu1 (Hbusy & Hc & Htemp & Hf). assert (0 <= t < P) as Ht' by lia. destruct (offset_of P q t Ht') as [Ho _].
  cbn. rewrite Hbusy, Ho. destruct (filled f t) eqn:E; [apply Hf in E; lia|]. eexists. split; [reflexivity|].
  unfold is_u8 in *. replace (256 * b1 + b0) with (b0 + b1 * 256) by lia.
  rewrite Z_mod_plus_full, Z.mod_small, Z.div_add, Z.div_small, Z.add_0_l by lia.
  split; [done|]. split; [done|]. split; cbn.
  - intros o. rewrite Htemp.
    destruct (Z.eqb_spec o t) as [->|]; [by rewrite (proj2 (Z.leb_le 0 t)), (proj2 (Z.ltb_lt t (t + 2))) by lia|].
    destruct (Z.eqb_spec o (t + 1)) as [->|].
    { rewrite (proj2 (Z.leb_le 0 (t + 1))), (proj2 (Z.ltb_lt (t + 1) (t + 2))) by lia. cbn. rewrite <- Hb1. f_equal. lia. }
    destruct (Z.leb_spec 0 o), (Z.ltb_spec o t), (Z.ltb_spec o (t + 2)); cbn; try done; lia.
  - intros o [H%Z.eqb_eq|H%Hf]%orb_true_iff; lia.
Qed.

Hypothesis Hbuf : Forall is_u8 buf.

Lemma write_buffer q t f : A <= P * q -> 0 <= t <= P -> filling (P * q) t f ->
  exists f1, spm_run P [boot_spm_busy_wait; boot_page_write (P * q)] f = Some f1 /\ idle f1 /\
    forall x, cells f1 x = downloaded (P * q + t) (P * q + P) x.
Proof.
  intros HA Ht (Hbusy & Hc & Htemp & Hf). destruct (page_base P HP q) as [Hb _].
  rewrite !spm_run_cons. cbn. rewrite Hbusy. cbn. eexists. split; [reflexivity|]. split; [done|]. intros x. cbn. unfold downloaded.
  rewrite Hb, (page_eq P HP), Hc, Htemp.
  destruct (page_facts P HP) as (h & E & Hh & _). destruct (page_split P HP x) as (r & Hpx & Hx & Hm).
  destruct (Z.leb_spec (P * q) x), (Z.ltb_spec x (P * q + P)); cbn; [|..].
  - rewrite (proj2 (Z.leb_le A x)), (proj2 (Z.ltb_ge x (P * q))), (proj2 (Z.leb_le 0 _)) by lia. cbn.
    assert (x mod P = x - P * q) as ->.
    { replace x with (P * q + (x - P * q)) at 1 by lia. apply offset_of. lia. }
    destruct (Z.ltb_spec (x - P * q) t), (Z.ltb_spec x (P * q + t)); try lia.
    + replace (P * q + (x - P * q) - A) with (x - A) by lia. rewrite Z.land_comm.
      change 255 with (Z.ones 8). rewrite Z.land_ones by lia. by apply Z.mod_small, byte_u8.
    + by rewrite (proj2 (Z.leb_le (P * q + t) x)) by lia.
  - rewrite (proj2 (Z.ltb_ge x (P * q))), (proj2 (Z.ltb_ge x (P * q + t))), !andb_false_r by lia. done.
  - destruct (Z.leb_spec A x); cbn.
    + rewrite (proj2 (Z.ltb_lt x (P * q))), (proj2 (Z.ltb_lt x (P * q + t))) by lia. done.
    + by rewrite (proj2 (Z.leb_gt (P * q + t) x)) by lia.
  - lia.
Qed.
End Filling.

(** ** Processors *)

Definition at90usb1287 : Target := {| FLASHEND := 0x1FFFF; E2END := 0xFFF; SPM_PAGESIZE := 256; BOOT_START_ADDR := 0x1E000; AUX_BOOT_SECTION_SIZE := 0 |}.
Definition at90usb647 : Target := {| FLASHEND := 0xFFFF; E2END := 0x7FF; SPM_PAGESIZE := 256; BOOT_START_ADDR := 0xE000; AUX_BOOT_SECTION_SIZE := 0 |}.

(** Memories that read as they are programmed. *)
Definition machine_nvm {T : Target} (c0 e0 : Z -> Z) : NVM := {|
  pgm_read_byte log a := match spm_run SPM_PAGESIZE log (at_rest c0) with Some f => cells f a | None => 0 end;
  eeprom_read_byte log a := eeprom_cells log e0 a
|}.
Lemma machine_reads {T : Target} c0 e0 : NVMReads (machine_nvm c0 e0) c0 e0.
Proof. split; cbn; [|done]. by intros log f a ->. Qed.
