(* ===== verification/BootloaderAPI.v ===== *)
(** The functions a boot loader uses to program the flash memory and offers to the
    application: Bootloaders/Printer/BootloaderAPI.c, which
    Bootloaders/MassStorage/BootloaderAPI.c repeats. *)

From stdpp Require Import base list.
From Stdlib Require Import ZArith.
From S2P Require Import Flash.

(** The safe variants of avr/boot.h wait for an operation that is under way. *)
Definition BootloaderAPI_ErasePage (Address : Z) (log : spm_log) : spm_log :=
  boot_rww_enable :: boot_spm_busy_wait :: boot_page_erase Address :: boot_spm_busy_wait :: log.
Definition BootloaderAPI_WritePage (Address : Z) (log : spm_log) : spm_log :=
  boot_rww_enable :: boot_spm_busy_wait :: boot_page_write Address :: boot_spm_busy_wait :: log.
Definition BootloaderAPI_FillWord (Address Word : Z) (log : spm_log) : spm_log :=
  boot_page_fill Address Word :: boot_spm_busy_wait :: log.
Definition BootloaderAPI_WriteLock (LockBits : Z) (log : spm_log) : spm_log :=
  boot_lock_bits_set LockBits :: boot_spm_busy_wait :: log.
