(* ===== verification/IntelHex.v ===== *)
(** The Intel HEX loader of the printer class boot loader: the parser of
    Bootloaders/Printer/BootloaderPrinter.[ch].

    It is fed with one character after the other and programs the flash memory.  The
    page size of the processor and the start of the boot section (BOOT_START_ADDR,
    computed by the makefile) are parameters. *)

From stdpp Require Import base tactics option list numbers.
From Stdlib Require Import ZArith Lia.
From S2P Require Import Prelude Memory Flash.

Inductive HEX_Parser_States_t : Set :=
  | HEX_PARSE_STATE_WAIT_LINE | HEX_PARSE_STATE_BYTE_COUNT | HEX_PARSE_STATE_ADDRESS_HIGH
  | HEX_PARSE_STATE_ADDRESS_LOW | HEX_PARSE_STATE_RECORD_TYPE | HEX_PARSE_STATE_READ_DATA
  | HEX_PARSE_STATE_CHECKSUM.
#[export] Instance HEX_Parser_States_eq_dec : EqDecision HEX_Parser_States_t.
Proof. solve_decision. Defined.

Definition HEX_RECORD_TYPE_Data : Z := 0.
Definition HEX_RECORD_TYPE_EndOfFile : Z := 1.
Definition HEX_RECORD_TYPE_ExtendedSegmentAddress : Z := 2.
Definition HEX_RECORD_TYPE_ExtendedLinearAddress : Z := 4.

(** The globals of the parser: [HEXParser], [PageDirty] and [RunBootloader], and the
    operations on the flash memory. *)
Record Loader : Set := mkLoader {
  ParserState : HEX_Parser_States_t;
  PrevData : Z;
  Data : Z;
  ReadMSB : bool;
  RecordType : Z;
  DataRem : Z;
  Checksum : Z;
  PageStartAddress : Z;
  CurrBaseAddress : Z;
  CurrAddress : Z;
  PageDirty : bool;
  RunBootloader : bool;
  spm : spm_log
}.

Definition set_ParserState v l := mkLoader v (PrevData l) (Data l) (ReadMSB l) (RecordType l) (DataRem l) (Checksum l)
  (PageStartAddress l) (CurrBaseAddress l) (CurrAddress l) (PageDirty l) (RunBootloader l) (spm l).
Definition set_PrevData v l := mkLoader (ParserState l) v (Data l) (ReadMSB l) (RecordType l) (DataRem l) (Checksum l)
  (PageStartAddress l) (CurrBaseAddress l) (CurrAddress l) (PageDirty l) (RunBootloader l) (spm l).
Definition set_Data v l := mkLoader (ParserState l) (PrevData l) (u8 v) (ReadMSB l) (RecordType l) (DataRem l) (Checksum l)
  (PageStartAddress l) (CurrBaseAddress l) (CurrAddress l) (PageDirty l) (RunBootloader l) (spm l).
Definition set_ReadMSB v l := mkLoader (ParserState l) (PrevData l) (Data l) v (RecordType l) (DataRem l) (Checksum l)
  (PageStartAddress l) (CurrBaseAddress l) (CurrAddress l) (PageDirty l) (RunBootloader l) (spm l).
Definition set_RecordType v l := mkLoader (ParserState l) (PrevData l) (Data l) (ReadMSB l) v (DataRem l) (Checksum l)
  (PageStartAddress l) (CurrBaseAddress l) (CurrAddress l) (PageDirty l) (RunBootloader l) (spm l).
Definition set_DataRem v l := mkLoader (ParserState l) (PrevData l) (Data l) (ReadMSB l) (RecordType l) (u8 v) (Checksum l)
  (PageStartAddress l) (CurrBaseAddress l) (CurrAddress l) (PageDirty l) (RunBootloader l) (spm l).
Definition set_Checksum v l := mkLoader (ParserState l) (PrevData l) (Data l) (ReadMSB l) (RecordType l) (DataRem l) (u8 v)
  (PageStartAddress l) (CurrBaseAddress l) (CurrAddress l) (PageDirty l) (RunBootloader l) (spm l).
Definition set_PageStartAddress v l := mkLoader (ParserState l) (PrevData l) (Data l) (ReadMSB l) (RecordType l) (DataRem l)
  (Checksum l) v (CurrBaseAddress l) (CurrAddress l) (PageDirty l) (RunBootloader l) (spm l).
Definition set_CurrBaseAddress v l := mkLoader (ParserState l) (PrevData l) (Data l) (ReadMSB l) (RecordType l) (DataRem l)
  (Checksum l) (PageStartAddress l) (u32 v) (CurrAddress l) (PageDirty l) (RunBootloader l) (spm l).
Definition set_CurrAddress v l := mkLoader (ParserState l) (PrevData l) (Data l) (ReadMSB l) (RecordType l) (DataRem l)
  (Checksum l) (PageStartAddress l) (CurrBaseAddress l) (u32 v) (PageDirty l) (RunBootloader l) (spm l).
Definition set_PageDirty v l := mkLoader (ParserState l) (PrevData l) (Data l) (ReadMSB l) (RecordType l) (DataRem l)
  (Checksum l) (PageStartAddress l) (CurrBaseAddress l) (CurrAddress l) v (RunBootloader l) (spm l).
Definition set_RunBootloader v l := mkLoader (ParserState l) (PrevData l) (Data l) (ReadMSB l) (RecordType l) (DataRem l)
  (Checksum l) (PageStartAddress l) (CurrBaseAddress l) (CurrAddress l) (PageDirty l) v (spm l).
Definition perform op l := mkLoader (ParserState l) (PrevData l) (Data l) (ReadMSB l) (RecordType l) (DataRem l) (Checksum l)
  (PageStartAddress l) (CurrBaseAddress l) (CurrAddress l) (PageDirty l) (RunBootloader l) (op :: spm l).

Definition initial_Loader : Loader :=
  mkLoader HEX_PARSE_STATE_WAIT_LINE 0 0 false 0 0 0 0 0 0 false true [].

(** ** The parser *)

(** [Byte] is a [char], which is signed. *)
Definition HexToDecimal (Byte : Z) : Z :=
  if (65 <=? Byte) && (Byte <=? 70) then 10 + (Byte - 65)
  else if (48 <=? Byte) && (Byte <=? 57) then Byte - 48
  else -1.

Section Parser.
Context (SPM_PAGESIZE BOOT_START_ADDR : Z).

Definition FlushPageIfRequired (l : Loader) : Loader :=
  if negb (PageDirty l) then l
  else
    let NewPageStartAddress := Z.land (CurrAddress l) (u32 (Z.lnot (SPM_PAGESIZE - 1))) in
    if negb (PageStartAddress l =? NewPageStartAddress) then
      let l := perform (boot_page_write (PageStartAddress l)) l in
      let l := perform boot_spm_busy_wait l in
      let l := set_PageStartAddress NewPageStartAddress l in
      set_PageDirty false l
    else l.

(** [case HEX_RECORD_TYPE_Data] *)
Definition write_word (NewDataWord : Z) (l : Loader) : Loader :=
  let l :=
    if negb (PageDirty l) then
      let l := perform (boot_page_erase (PageStartAddress l)) l in
      let l := perform boot_spm_busy_wait l in
      set_PageDirty true l
    else l in
  let l := perform (boot_page_fill (CurrAddress l) NewDataWord) l in
  let l := set_CurrAddress (CurrAddress l + 2) l in
  FlushPageIfRequired l.

(** [case HEX_PARSE_STATE_READ_DATA], from the word on. *)
Definition store_word (l : Loader) : Loader :=
  let NewDataWord := Z.lor (Z.shiftl (Data l) 8) (PrevData l) in
  let l :=
    if RecordType l =? HEX_RECORD_TYPE_Data then write_word NewDataWord l
    else if RecordType l =? HEX_RECORD_TYPE_ExtendedSegmentAddress then
      set_CurrBaseAddress (Z.shiftl NewDataWord 4) l
    else if RecordType l =? HEX_RECORD_TYPE_ExtendedLinearAddress then
      set_CurrBaseAddress (Z.shiftl NewDataWord 16) l
    else l in
  if DataRem l =? 0 then set_ParserState HEX_PARSE_STATE_CHECKSUM l else l.

Definition read_data (l : Loader) : Loader :=
  let l := set_DataRem (DataRem l - 1) l in
  if BOOT_START_ADDR <=? CurrAddress l then
    set_PageDirty false (set_ParserState HEX_PARSE_STATE_WAIT_LINE l)
  else if tst (DataRem l) 0x01 then set_PrevData (Data l) l
  else store_word l.

Definition check_record (l : Loader) : Loader :=
  if negb (Data l =? Z.land (Z.lnot (Checksum l) + 1) 0xFF) then l
  else
    let l := FlushPageIfRequired l in
    if RecordType l =? HEX_RECORD_TYPE_EndOfFile then set_RunBootloader false l else l.

(** The [switch] over the state. *)
Definition process_byte (l : Loader) : Loader :=
  match ParserState l with
  | HEX_PARSE_STATE_BYTE_COUNT =>
      set_ParserState HEX_PARSE_STATE_ADDRESS_HIGH (set_DataRem (Data l) l)
  | HEX_PARSE_STATE_ADDRESS_HIGH =>
      set_ParserState HEX_PARSE_STATE_ADDRESS_LOW (set_CurrAddress (CurrAddress l + Z.shiftl (Data l) 8) l)
  | HEX_PARSE_STATE_ADDRESS_LOW =>
      set_ParserState HEX_PARSE_STATE_RECORD_TYPE (set_CurrAddress (CurrAddress l + Data l) l)
  | HEX_PARSE_STATE_RECORD_TYPE =>
      set_ParserState (if negb (DataRem l =? 0) then HEX_PARSE_STATE_READ_DATA else HEX_PARSE_STATE_CHECKSUM)
        (set_RecordType (Data l) l)
  | HEX_PARSE_STATE_READ_DATA => read_data l
  | HEX_PARSE_STATE_CHECKSUM => check_record l
  | HEX_PARSE_STATE_WAIT_LINE => set_ParserState HEX_PARSE_STATE_WAIT_LINE l
  end.

Definition ParseIntelHEXByte (ReadCharacter : Z) (l : Loader) : Loader :=
  if bool_decide (ParserState l = HEX_PARSE_STATE_WAIT_LINE) || (ReadCharacter =? 58) then
    let l := set_Checksum 0 l in
    let l := set_CurrAddress (CurrBaseAddress l) l in
    let l := set_ReadMSB false l in
    if ReadCharacter =? 58 then set_ParserState HEX_PARSE_STATE_BYTE_COUNT l else l
  else
    let ReadCharacterDec := HexToDecimal ReadCharacter in
    if ReadCharacterDec <? 0 then l
    else
      let l := set_Data (Z.lor (Z.shiftl (Data l) 4) ReadCharacterDec) l in
      let l := set_ReadMSB (negb (ReadMSB l)) l in
      if ReadMSB l then l
      else
        let l := if negb (bool_decide (ParserState l = HEX_PARSE_STATE_CHECKSUM))
                 then set_Checksum (Checksum l + Data l) l else l in
        process_byte l.

(** A sequence of characters. *)
Definition parse (cs : list Z) (l : Loader) : Loader :=
  fold_left (fun l c => ParseIntelHEXByte c l) cs l.
End Parser.
