(* ===== verification/HexSpec.v ===== *)
(** Correctness of the Intel HEX loader (IntelHex.v): printing an image and
    parsing the text programs the image. *)

From stdpp Require Import base tactics option list numbers.
From Stdlib Require Import ZArith Lia.
From S2P Require Import Prelude Memory Flash IntelHex.

(** ** Intel HEX *)

Definition hex_digit (n : Z) : Z := if n <? 10 then 48 + n else 55 + n.
Definition hex_byte (b : Z) : list Z := [hex_digit (b / 16); hex_digit (b mod 16)].

Definition hex_sum (bs : list Z) : Z := fold_right Z.add 0 bs.
(** The checksum makes the sum of the bytes of a record a multiple of 256. *)
Definition hex_checksum (bs : list Z) : Z := (- hex_sum bs) mod 256.

Definition hex_fields (type address : Z) (data : list Z) : list Z :=
  [Z.of_nat (length data); address / 256; address mod 256; type] ++ data.
Definition hex_record (type address : Z) (data : list Z) (eol : list Z) : list Z :=
  let fs := hex_fields type address data in
  [58] ++ concat (map hex_byte (fs ++ [hex_checksum fs])) ++ eol.

(** The data records of consecutive pieces of an image, and the end of the file. *)
Fixpoint hex_data (address : Z) (chunks : list (list Z)) (eol : list Z) : list Z :=
  match chunks with
  | [] => []
  | c :: cs => hex_record 0 address c eol ++ hex_data (address + Z.of_nat (length c)) cs eol
  end.
Definition hex_file (chunks : list (list Z)) (eol : list Z) : list Z :=
  hex_data 0 chunks eol ++ hex_record 1 0 [] eol.

Lemma hex_record_split type address data eol : hex_record type address data eol =
  ([58] ++ concat (map hex_byte [Z.of_nat (length data); address / 256; address mod 256; type])) ++
  concat (map hex_byte data) ++ hex_byte (hex_checksum (hex_fields type address data)) ++ eol.
Proof. unfold hex_record, hex_fields. rewrite !map_app, !concat_app, <- !app_assoc. done. Qed.

Lemma hex_sum_app a b : hex_sum (a ++ b) = hex_sum a + hex_sum b.
Proof. induction a as [|x a IH]; cbn; [done|]. unfold hex_sum in *. lia. Qed.

(** What may stand between records. *)
Definition is_eol (eol : list Z) : Prop := Forall (fun c => HexToDecimal c < 0 /\ c <> 58) eol.

(** ** Characters and bytes *)

Lemma lor_nibble x d : 0 <= d < 16 -> Z.lor (Z.shiftl x 4) d = 16 * x + d.
Proof. by apply (lor_shiftl x d 4). Qed.

Lemma HexToDecimal_digit d : 0 <= d < 16 -> HexToDecimal (hex_digit d) = d /\ hex_digit d <> 58.
Proof.
  intros Hd. unfold hex_digit, HexToDecimal. destruct (Z.ltb_spec d 10).
  - rewrite (proj2 (Z.leb_gt 65 _)), (proj2 (Z.leb_le 48 _)), (proj2 (Z.leb_le _ 57)) by lia. cbn. lia.
  - rewrite (proj2 (Z.leb_le 65 _)), (proj2 (Z.leb_le _ 70)) by lia. cbn. lia.
Qed.

Section Loading.
Context (SPM_PAGESIZE BOOT_START_ADDR : Z).
Abbreviation ParseIntelHEXByte := (ParseIntelHEXByte SPM_PAGESIZE BOOT_START_ADDR).
Abbreviation parse := (parse SPM_PAGESIZE BOOT_START_ADDR).
Abbreviation process_byte := (process_byte SPM_PAGESIZE BOOT_START_ADDR).

Lemma parse_app a b l : parse (a ++ b) l = parse b (parse a l).
Proof. apply fold_left_app. Qed.

(** The parser is between two bytes of a record. *)
Definition in_record (l : Loader) : Prop := ParserState l <> HEX_PARSE_STATE_WAIT_LINE /\ ReadMSB l = false.

(** A byte of a record. *)
Definition take_byte (b : Z) (l : Loader) : Loader :=
  let l := set_Data b l in
  process_byte (if bool_decide (ParserState l = HEX_PARSE_STATE_CHECKSUM) then l else set_Checksum (Checksum l + Data l) l).

Lemma parse_byte b l : is_u8 b -> in_record l -> parse (hex_byte b) l = take_byte b l.
Proof.
  intros Hb [Hs Hr]. assert (0 <= b / 16 < 16) as H1 by (unfold is_u8 in Hb; split; [apply Z.div_pos|apply Z.div_lt_upper_bound]; lia).
  assert (0 <= b mod 16 < 16) as H2 by (apply Z.mod_pos_bound; lia).
  destruct (HexToDecimal_digit _ H1) as [E1 N1], (HexToDecimal_digit _ H2) as [E2 N2].
  assert (u8 (16 * u8 (16 * Data l + b / 16) + b mod 16) = b) as Hd.
  { unfold u8. rewrite Zplus_mod, Zmult_mod_idemp_r, <- Zplus_mod.
    replace (16 * (16 * Data l + b / 16) + b mod 16) with (b + Data l * 256) by (pose proof (Z.div_mod b 16); lia).
    rewrite Z_mod_plus_full. apply Z.mod_small. exact Hb. }
  unfold parse, hex_byte. cbn [fold_left]. unfold IntelHex.ParseIntelHEXByte at 2.
  rewrite bool_decide_false by done. rewrite (proj2 (Z.eqb_neq _ 58)) by done. cbn [orb]. rewrite E1.
  rewrite (proj2 (Z.ltb_ge _ 0)) by lia. rewrite lor_nibble by done. cbn [ReadMSB set_ReadMSB set_Data]. rewrite Hr. cbn [negb].
  unfold IntelHex.ParseIntelHEXByte. cbn [ParserState set_ReadMSB set_Data].
  rewrite bool_decide_false by done. rewrite (proj2 (Z.eqb_neq _ 58)) by done. cbn [orb]. rewrite E2.
  rewrite (proj2 (Z.ltb_ge _ 0)) by lia. rewrite lor_nibble by done. cbn [ReadMSB set_ReadMSB set_Data Data negb].
  rewrite Hd. unfold take_byte, set_Data, set_ReadMSB. cbn -[u8]. rewrite Hr, (u8_small b) by done.
  rewrite Hd. by destruct (bool_decide _).
Qed.

Lemma parse_eol eol l : is_eol eol -> ParserState l <> HEX_PARSE_STATE_WAIT_LINE -> parse eol l = l.
Proof.
  intros H Hs. induction H as [|c eol [Hc Hn] _ IH]; [done|]. cbn. unfold IntelHex.ParseIntelHEXByte at 2.
  rewrite bool_decide_false by done. rewrite (proj2 (Z.eqb_neq c 58)) by done. cbn [orb].
  by rewrite (proj2 (Z.ltb_lt _ _)) by done.
Qed.

(** The header of a record, byte by byte. *)
Lemma take_count b p d m t r c g a x y z s : is_u8 b ->
  take_byte b (mkLoader HEX_PARSE_STATE_BYTE_COUNT p d m t r c g a x y z s) =
  mkLoader HEX_PARSE_STATE_ADDRESS_HIGH p b m t b (u8 (c + b)) g a x y z s.
Proof.
  intros Hb. unfold take_byte. cbn [ParserState set_Data]. rewrite bool_decide_false by done.
  cbn [IntelHex.process_byte ParserState set_Checksum set_Data]. unfold set_ParserState, set_DataRem, set_Checksum, set_Data.
  cbn -[u8]. by rewrite !(u8_small b).
Qed.
Lemma take_high b p d m t r c g a x y z s : is_u8 b ->
  take_byte b (mkLoader HEX_PARSE_STATE_ADDRESS_HIGH p d m t r c g a x y z s) =
  mkLoader HEX_PARSE_STATE_ADDRESS_LOW p b m t r (u8 (c + b)) g a (u32 (x + 256 * b)) y z s.
Proof.
  intros Hb. unfold take_byte. cbn [ParserState set_Data]. rewrite bool_decide_false by done.
  cbn [IntelHex.process_byte ParserState set_Checksum set_Data]. unfold set_ParserState, set_CurrAddress, set_Checksum, set_Data.
  cbn -[u8 u32 Z.shiftl Z.mul]. rewrite !(u8_small b), Z.shiftl_mul_pow2, (Z.mul_comm b) by done. done.
Qed.
Lemma take_low b p d m t r c g a x y z s : is_u8 b ->
  take_byte b (mkLoader HEX_PARSE_STATE_ADDRESS_LOW p d m t r c g a x y z s) =
  mkLoader HEX_PARSE_STATE_RECORD_TYPE p b m t r (u8 (c + b)) g a (u32 (x + b)) y z s.
Proof.
  intros Hb. unfold take_byte. cbn [ParserState set_Data]. rewrite bool_decide_false by done.
  cbn [IntelHex.process_byte ParserState set_Checksum set_Data]. unfold set_ParserState, set_CurrAddress, set_Checksum, set_Data.
  cbn -[u8 u32]. by rewrite !(u8_small b).
Qed.
Lemma take_type b p d m t r c g a x y z s : is_u8 b ->
  take_byte b (mkLoader HEX_PARSE_STATE_RECORD_TYPE p d m t r c g a x y z s) =
  mkLoader (if r =? 0 then HEX_PARSE_STATE_CHECKSUM else HEX_PARSE_STATE_READ_DATA) p b m b r (u8 (c + b)) g a x y z s.
Proof.
  intros Hb. unfold take_byte. cbn [ParserState set_Data]. rewrite bool_decide_false by done.
  cbn [IntelHex.process_byte ParserState set_Checksum set_Data]. unfold set_ParserState, set_RecordType, set_Checksum, set_Data.
  cbn -[u8 u32]. rewrite !(u8_small b) by done. by destruct (r =? 0).
Qed.

Lemma u8_add_l a b : u8 (u8 a + b) = u8 (a + b).
Proof. unfold u8. by rewrite Zplus_mod_idemp_l. Qed.

Lemma parse_header l n hi lo ty : is_u8 n -> is_u8 hi -> is_u8 lo -> is_u8 ty -> CurrBaseAddress l = 0 ->
  parse ([58] ++ concat (map hex_byte [n; hi; lo; ty])) l =
  mkLoader (if n =? 0 then HEX_PARSE_STATE_CHECKSUM else HEX_PARSE_STATE_READ_DATA) (PrevData l) ty false ty n
    (u8 (hex_sum [n; hi; lo; ty])) (PageStartAddress l) 0 (256 * hi + lo) (PageDirty l) (RunBootloader l) (spm l).
Proof.
  intros Hn Hhi Hlo Hty Hb. rewrite parse_app. cbn [map concat]. rewrite app_nil_r.
  assert (parse [58] l = mkLoader HEX_PARSE_STATE_BYTE_COUNT (PrevData l) (Data l) false (RecordType l) (DataRem l) 0
    (PageStartAddress l) 0 0 (PageDirty l) (RunBootloader l) (spm l)) as ->.
  { unfold parse. cbn [fold_left]. unfold IntelHex.ParseIntelHEXByte. rewrite Z.eqb_refl, orb_true_r.
    unfold set_ParserState, set_ReadMSB, set_CurrAddress, set_Checksum. cbn -[u8 u32]. by rewrite Hb. }
  rewrite !parse_app, (parse_byte n), take_count, (parse_byte hi), take_high, (parse_byte lo), take_low, (parse_byte ty), take_type by (done || (split; done)).
  rewrite !u8_add_l. unfold is_u8 in *. rewrite !u32_small by (unfold is_u32; rewrite ?u32_small by (unfold is_u32; lia); lia).
  cbn [hex_sum fold_right]. f_equal. rewrite <- (Z.add_assoc _ lo ty), u8_add_l. f_equal. lia.
Qed.

(** ** Pages *)

Context (k : Z) (Hk : 1 <= k <= 16) (HP : SPM_PAGESIZE = 2 ^ k).
Context (Hboot32 : 0 < BOOT_START_ADDR <= 2 ^ 31).
Abbreviation page_of := (page_of SPM_PAGESIZE).

Lemma pagesize_pos : 2 <= SPM_PAGESIZE <= 65536 /\ SPM_PAGESIZE mod 2 = 0.
Proof.
  rewrite HP. split.
  - split; [change 2 with (2 ^ 1) at 1|change 65536 with (2 ^ 16)]; apply Z.pow_le_mono_r; lia.
  - replace k with (k - 1 + 1) by lia. rewrite Z.pow_add_r by lia. apply Z.mod_mul. lia.
Qed.

(** The mask of the code is the start of the page. *)
Lemma page_mask x : is_u32 x -> Z.land x (u32 (Z.lnot (SPM_PAGESIZE - 1))) = page_of x.
Proof.
  intros Hx. unfold Flash.page_of. rewrite HP. assert (0 < 2 ^ k) by (apply Z.pow_pos_nonneg; lia).
  replace (x - x mod 2 ^ k) with (Z.shiftl (Z.shiftr x k) k).
  2:{ rewrite Z.shiftl_mul_pow2, Z.shiftr_div_pow2 by lia. pose proof (Z.div_mod x (2 ^ k)). lia. }
  rewrite Z.sub_1_r, <- Z.ones_equiv. unfold u32. change 4294967296 with (2 ^ 32).
  apply Z.bits_inj'. intros i Hi. rewrite Z.land_spec. destruct (decide (i < 32)).
  - rewrite Z.mod_pow2_bits_low, Z.lnot_spec, Z.testbit_ones_nonneg by lia. destruct (decide (i < k)).
    + rewrite (proj2 (Z.ltb_lt i k)), Z.shiftl_spec_low by lia. apply andb_false_r.
    + rewrite (proj2 (Z.ltb_ge i k)), Z.shiftl_spec, Z.shiftr_spec by lia. cbn. rewrite andb_true_r. f_equal. lia.
  - assert (Z.testbit x i = false) as ->. { rewrite <- (Z.mod_small x (2 ^ 32)) by exact Hx. apply Z.mod_pow2_bits_high. lia. }
    rewrite Z.shiftl_spec, Z.shiftr_spec by lia. replace (i - k + k) with i by lia.
    symmetry. rewrite <- (Z.mod_small x (2 ^ 32)) by exact Hx. apply Z.mod_pow2_bits_high. lia.
Qed.

Lemma page_of_bounds n : 0 <= n -> (0 <= page_of n <= n /\ n < page_of n + SPM_PAGESIZE) /\ page_of n mod SPM_PAGESIZE = 0.
Proof using HP Hk.
  clear Hboot32. intros Hn. destruct pagesize_pos as [Hp _]. unfold Flash.page_of.
  pose proof (Z.mod_pos_bound n SPM_PAGESIZE ltac:(lia)). pose proof (Z.mod_le n SPM_PAGESIZE Hn ltac:(lia)).
  split; [lia|]. rewrite Zminus_mod_idemp_r, Z.sub_diag. by apply Z.mod_0_l; lia.
Qed.

(** Within a page an address is its start and an offset. *)
Lemma page_of_unique n p : p mod SPM_PAGESIZE = 0 -> p <= n < p + SPM_PAGESIZE -> page_of n = p /\ n mod SPM_PAGESIZE = n - p.
Proof using HP Hk.
  clear Hboot32. intros Hp Hn. destruct pagesize_pos as [Hs _].
  assert (n mod SPM_PAGESIZE = n - p) as E.
  { replace n with (n - p + p) at 1 by lia. rewrite Zplus_mod, Hp, Z.add_0_r, Z.mod_mod by lia. apply Z.mod_small. lia. }
  split; [unfold Flash.page_of; rewrite E; lia|done].
Qed.

(** A word does not cross a page. *)
Lemma word_fits n : 0 <= n -> n mod 2 = 0 -> n + 2 <= page_of n + SPM_PAGESIZE /\ (n - page_of n) mod 2 = 0.
Proof using HP Hk.
  clear Hboot32. intros Hn Hn2. destruct pagesize_pos as [HPb HP2]. destruct (page_of_bounds n Hn) as [Hpb Hp0].
  assert (page_of n mod 2 = 0) as Hp2.
  { apply Z.mod_divide; [lia|]. eapply Z.divide_trans; [apply Z.mod_divide, HP2; lia|apply Z.mod_divide; [lia|exact Hp0]]. }
  assert ((n - page_of n) mod 2 = 0) as Ho2 by (rewrite Zminus_mod, Hn2, Hp2; done). split; [|done].
  destruct (decide (n - page_of n + 1 = SPM_PAGESIZE)) as [E|E]; [|lia]. rewrite <- E, Zplus_mod, Ho2 in HP2. done.
Qed.

(** ** The state while an image is loaded *)

(** The bytes [img] have been loaded over the cells [c0]: the pages before the current
    one are written, the current one is erased once it has bytes, and they are in the
    page buffer. *)
Definition loaded (c0 : Z -> Z) (img : list Z) (l : Loader) : Prop :=
  let n := Z.of_nat (length img) in
  let page := page_of n in
  PageStartAddress l = page /\ PageDirty l = (page <? n) /\ CurrBaseAddress l = 0 /\ RunBootloader l = true /\
  exists f, spm_run SPM_PAGESIZE (spm l) (at_rest c0) = Some f /\ busy f = false /\
    (forall x, 0 <= x -> cells f x =
       if x <? page then nth (Z.to_nat x) img 0 else if (page <? n) && (x <? page + SPM_PAGESIZE) then 0xFF else c0 x) /\
    (forall x, 0 <= x < SPM_PAGESIZE -> temp f x = if page + x <? n then nth (Z.to_nat (page + x)) img 0 else 0xFF) /\
    (forall x, 0 <= x < SPM_PAGESIZE -> x mod 2 = 0 -> filled f x = (page + x <? n)).

(** A record of data is being read: [rem] bytes are to come. *)
Definition reading (c0 : Z -> Z) (img : list Z) (rem sum : Z) (l : Loader) : Prop :=
  ParserState l = (if rem =? 0 then HEX_PARSE_STATE_CHECKSUM else HEX_PARSE_STATE_READ_DATA) /\ ReadMSB l = false /\
  RecordType l = 0 /\ DataRem l = rem /\ Checksum l = u8 sum /\ CurrAddress l = Z.of_nat (length img) /\ loaded c0 img l.

(** The parser registers a word does not touch. *)
Definition same_registers (l l' : Loader) : Prop :=
  ParserState l' = ParserState l /\ PrevData l' = PrevData l /\ Data l' = Data l /\ ReadMSB l' = ReadMSB l /\
  RecordType l' = RecordType l /\ DataRem l' = DataRem l /\ Checksum l' = Checksum l.

Lemma write_word_registers w l : same_registers l (write_word SPM_PAGESIZE w l).
Proof using. unfold write_word, FlushPageIfRequired. destruct (PageDirty l); cbn; repeat case_match; done. Qed.

(** Filling a word of the buffer. *)
Lemma nth_word img (b0 b1 : Z) x : 0 <= x < Z.of_nat (length img) + 2 -> nth (Z.to_nat x) (img ++ [b0; b1]) 0 =
  if x <? Z.of_nat (length img) then nth (Z.to_nat x) img 0 else if x =? Z.of_nat (length img) then b0 else b1.
Proof.
  intros Hx. destruct (Z.ltb_spec x (Z.of_nat (length img))); [by rewrite app_nth1 by lia|].
  rewrite app_nth2 by lia. destruct (Z.eqb_spec x (Z.of_nat (length img))) as [->|Hne].
  - by rewrite Nat2Z.id, Nat.sub_diag.
  - replace (Z.to_nat x - length img)%nat with 1%nat by lia. done.
Qed.

(** The buffer and the cells while the page that starts at [page] is loaded. *)
Definition page_state (c0 : Z -> Z) (img : list Z) (page : Z) (f : Flash) : Prop :=
  let n := Z.of_nat (length img) in
  busy f = false /\
  (forall x, 0 <= x -> cells f x = if x <? page then nth (Z.to_nat x) img 0 else if x <? page + SPM_PAGESIZE then 0xFF else c0 x) /\
  (forall x, 0 <= x < SPM_PAGESIZE -> temp f x = if page + x <? n then nth (Z.to_nat (page + x)) img 0 else 0xFF) /\
  (forall x, 0 <= x < SPM_PAGESIZE -> x mod 2 = 0 -> filled f x = (page + x <? n)).

(** The erase, where there is one. *)
Lemma hex_erase_page c0 img l : let n := Z.of_nat (length img) in let page := page_of n in
  loaded c0 img l -> exists s f,
    (if negb (PageDirty l) then set_PageDirty true (perform boot_spm_busy_wait (perform (boot_page_erase (PageStartAddress l)) l)) else l)
      = mkLoader (ParserState l) (PrevData l) (Data l) (ReadMSB l) (RecordType l) (DataRem l) (Checksum l) page 0 (CurrAddress l) true true s /\
    spm_run SPM_PAGESIZE s (at_rest c0) = Some f /\ page_state c0 img page f.
Proof using HP Hk.
  clear Hboot32. intros n page (Hs & Hd & Hb & Hr & f & Hf & Hbusy & Hc & Ht & Hfl). fold n page in Hs, Hd, Hc, Ht, Hfl.
  destruct (page_of_bounds n ltac:(lia)) as [Hpb Hp0]. fold page in Hpb, Hp0. destruct l as [ps pd d m t r c g a x y z s].
  cbn in Hs, Hd, Hb, Hr |- *. cbn [spm] in Hf. subst g y a z. destruct (Z.ltb_spec page n) as [Hlt|Hge]; cbn [negb].
  - exists s, f. by repeat split.
  - eexists (boot_spm_busy_wait :: boot_page_erase page :: s), _. split; [reflexivity|]. rewrite !spm_run_cons, Hf. cbn -[Flash.page_of].
    rewrite Hbusy. cbn -[Flash.page_of]. split; [reflexivity|]. repeat split; try done. intros x' Hx'. cbn [cells].
    destruct pagesize_pos as [HPb _]. rewrite Hc by done. cbn [andb].
    assert (page_of page = page) as Epp by (apply page_of_unique; [done|lia]). rewrite Epp.
    destruct (Z.ltb_spec x' page); [|destruct (Z.ltb_spec x' (page + SPM_PAGESIZE))].
    + rewrite (proj2 (Z.eqb_neq _ _)); [done|]. pose proof (page_of_bounds x' Hx'). lia.
    + rewrite (proj2 (Z.eqb_eq _ _)); [done|]. apply page_of_unique; [done|lia].
    + rewrite (proj2 (Z.eqb_neq _ _)); [done|]. pose proof (page_of_bounds x' Hx'). intros E. lia.
Qed.

(** Filling the next word of the buffer. *)
Lemma hex_fill_word c0 img b0 b1 f : let n := Z.of_nat (length img) in let page := page_of n in
  is_u8 b0 -> is_u8 b1 -> n mod 2 = 0 -> page_state c0 img page f -> exists f',
  spm_step SPM_PAGESIZE (boot_page_fill n (256 * b1 + b0)) f = Some f' /\ page_state c0 (img ++ [b0; b1]) page f'.
Proof using HP Hk.
  clear Hboot32. intros n page H0 H1 Hn2 (Hb & Hc & Ht & Hf). unfold is_u8 in *. fold n in Ht, Hf.
  destruct pagesize_pos as [HPb HP2]. destruct (page_of_bounds n ltac:(lia)) as [Hpb Hp0]. fold page in Hpb, Hp0.
  assert (n mod SPM_PAGESIZE = n - page) as En by (apply page_of_unique; [done|lia]).
  destruct (word_fits n ltac:(lia) Hn2) as [Hlast Ho2]. fold page in Hlast, Ho2.
  cbn -[Flash.page_of Z.mul]. rewrite Hb, En, Hf by (done || lia). rewrite (proj2 (Z.ltb_ge _ _)) by lia.
  eexists. split; [reflexivity|]. unfold page_state. rewrite length_app. cbn [length].
  replace (Z.of_nat (length img + 2)) with (n + 2) by (unfold n; lia). split; [done|]. cbn [cells temp filled]. split_and!.
  - intros x Hx. rewrite Hc by done. destruct (Z.ltb_spec x page); [|done]. by rewrite app_nth1 by lia.
  - intros x Hx. rewrite Ht by done. destruct (Z.eqb_spec x (n - page)) as [->|Hne].
    { rewrite (proj2 (Z.ltb_lt _ (n + 2))) by lia. rewrite nth_word by (fold n; lia). fold n.
      rewrite (proj2 (Z.ltb_ge _ n)), (proj2 (Z.eqb_eq _ n)) by lia. rewrite Z.add_comm, Z.mul_comm, Z_mod_plus_full. by apply Z.mod_small. }
    destruct (Z.eqb_spec x (n - page + 1)) as [->|Hne'].
    { rewrite (proj2 (Z.ltb_lt _ (n + 2))) by lia. rewrite nth_word by (fold n; lia). fold n.
      rewrite (proj2 (Z.ltb_ge _ n)), (proj2 (Z.eqb_neq _ n)) by lia. rewrite Z.add_comm, Z.mul_comm, Z_div_plus_full by lia.
      rewrite Z.div_small by lia. done. }
    destruct (Z.ltb_spec (page + x) n).
    + rewrite (proj2 (Z.ltb_lt _ (n + 2))) by lia. by rewrite app_nth1 by lia.
    + by rewrite (proj2 (Z.ltb_ge _ (n + 2))) by lia.
  - intros x Hx Hx2. rewrite Hf by done. destruct (Z.eqb_spec x (n - page)) as [->|Hne]; cbn [orb].
    + symmetry. apply Z.ltb_lt. lia.
    + destruct (Z.ltb_spec (page + x) n); [symmetry; apply Z.ltb_lt; lia|]. symmetry. apply Z.ltb_ge.
      destruct (decide (x = n - page + 1)) as [->|]; [|lia]. rewrite Zplus_mod, Ho2 in Hx2. done.
Qed.

(** Writing the buffer to the page that was erased for it. *)
Lemma write_page c0 img page f : page mod SPM_PAGESIZE = 0 -> 0 <= page -> Forall is_u8 img ->
  page_state c0 img page f -> let n := Z.of_nat (length img) in n <= page + SPM_PAGESIZE -> exists f',
  spm_run SPM_PAGESIZE [boot_spm_busy_wait; boot_page_write page] f = Some f' /\ idle f' /\
  forall x, 0 <= x -> cells f' x = if x <? page + SPM_PAGESIZE then (if x <? n then nth (Z.to_nat x) img 0 else
                                     if x <? page then nth (Z.to_nat x) img 0 else 0xFF) else c0 x.
Proof using HP Hk.
  clear Hboot32. intros Hp0 Hp Hu (Hb & Hc & Ht & Hf) n Hn. fold n in Ht, Hf. destruct pagesize_pos as [HPb _].
  rewrite !spm_run_cons. cbn -[Flash.page_of Z.land]. rewrite Hb. cbn -[Flash.page_of Z.land].
  assert (page_of page = page) as Epp by (apply page_of_unique; [done|lia]). rewrite Epp.
  eexists. split; [reflexivity|]. split; [done|]. intros x Hx. cbn [cells]. rewrite Hc by done.
  destruct (Z.ltb_spec x page) as [H|H].
  { rewrite (proj2 (Z.eqb_neq _ _)) by (pose proof (page_of_bounds x Hx); lia).
    rewrite (proj2 (Z.ltb_lt x (page + _))) by lia. by destruct (x <? n). }
  destruct (Z.ltb_spec x (page + SPM_PAGESIZE)) as [H'|H'].
  - destruct (page_of_unique x page Hp0 ltac:(lia)) as [E1 E2]. rewrite (proj2 (Z.eqb_eq _ _)) by done.
    rewrite E2, Ht by lia. replace (page + (x - page)) with x by lia. destruct (Z.ltb_spec x n); [|done].
    change 255 with (Z.ones 8). rewrite Z.land_comm, Z.land_ones by lia. apply Z.mod_small.
    apply (proj1 (Forall_nth is_u8 img) Hu (Z.to_nat x) 0). lia.
  - rewrite (proj2 (Z.eqb_neq _ _)); [done|]. pose proof (page_of_bounds x Hx). lia.
Qed.

(** The page is written when the next byte is not in it any more. *)
Lemma flush_page c0 img page l f : let n := Z.of_nat (length img) in Forall is_u8 img ->
  page mod SPM_PAGESIZE = 0 -> 0 <= page -> page < n <= page + SPM_PAGESIZE -> n <= 2 ^ 31 ->
  PageStartAddress l = page -> PageDirty l = true -> CurrBaseAddress l = 0 -> RunBootloader l = true -> CurrAddress l = n ->
  spm_run SPM_PAGESIZE (spm l) (at_rest c0) = Some f -> page_state c0 img page f ->
  CurrAddress (FlushPageIfRequired SPM_PAGESIZE l) = n /\ loaded c0 img (FlushPageIfRequired SPM_PAGESIZE l).
Proof using HP Hk.
  clear Hboot32. intros n Hu Hp0 Hp Hpn Hn Hs Hd Hb Hr Ha Hrun Hf. unfold FlushPageIfRequired, loaded. fold n.
  rewrite Hd, Ha, page_mask by (unfold is_u32; lia). cbn [negb]. rewrite Hs. destruct pagesize_pos as [HPb _].
  destruct (decide (n < page + SPM_PAGESIZE)) as [Hlt|Hge].
  - assert (page_of n = page) as -> by (apply page_of_unique; [done|lia]). rewrite Z.eqb_refl. cbn [negb].
    split; [done|]. split_and!; try done; [by rewrite Hd; symmetry; apply Z.ltb_lt; lia|].
    exists f. split; [done|]. destruct Hf as (H1 & H2 & H3 & H4). split_and!; try done.
    intros x Hx. rewrite H2 by done. by rewrite (proj2 (Z.ltb_lt page n)) by lia.
  - assert (page_of n = page + SPM_PAGESIZE) as ->.
    { apply page_of_unique; [|lia]. rewrite Zplus_mod, Hp0, Z.mod_same by lia. by rewrite Z.mod_0_l by lia. }
    rewrite (proj2 (Z.eqb_neq _ _)) by lia. cbn [negb]. cbn [CurrAddress PageStartAddress PageDirty CurrBaseAddress RunBootloader spm
      set_PageDirty set_PageStartAddress perform]. split; [done|]. rewrite (proj2 (Z.ltb_ge _ n)) by lia. split_and!; try done.
    destruct (write_page c0 img page f) as (f' & Hw & (Hb' & Ht' & Hf') & Hc'); try done; [fold n; lia|]. fold n in Hc'.
    exists f'. split; [|split_and!; try done].
    + change (boot_spm_busy_wait :: boot_page_write page :: spm l) with ([boot_spm_busy_wait; boot_page_write page] ++ spm l).
      rewrite spm_run_app, Hrun. exact Hw.
    + intros x Hx. rewrite Hc' by done. destruct (Z.ltb_spec x (page + SPM_PAGESIZE)); [|done]. by rewrite (proj2 (Z.ltb_lt x n)) by lia.
    + intros x Hx. rewrite Ht', (proj2 (Z.ltb_ge _ n)) by lia. done.
    + intros x Hx Hx2. rewrite Hf', (proj2 (Z.ltb_ge _ n)) by lia. done.
Qed.

Lemma write_word_loaded c0 img b0 b1 l : let n := Z.of_nat (length img) in Forall is_u8 (img ++ [b0; b1]) ->
  n mod 2 = 0 -> n + 2 <= 2 ^ 31 -> CurrAddress l = n -> loaded c0 img l ->
  let l' := write_word SPM_PAGESIZE (256 * b1 + b0) l in
  CurrAddress l' = n + 2 /\ loaded c0 (img ++ [b0; b1]) l'.
Proof using HP Hk.
  clear Hboot32. intros n Hu Hn2 Hn Ha Hl l'. unfold l', write_word.
  destruct (hex_erase_page c0 img l Hl) as (s & f & -> & Hrun & Hps). fold n in Hps |- *.
  assert (is_u8 b0 /\ is_u8 b1) as [H0 H1]. { apply Forall_app in Hu as [_ Hu]. inversion_clear Hu as [|? ? ? Hu']. by inversion_clear Hu'. }
  destruct (hex_fill_word c0 img b0 b1 f H0 H1 Hn2 Hps) as (f' & Hfill & Hps'). fold n in Hfill, Hps'.
  destruct (page_of_bounds n ltac:(lia)) as [Hpb Hp0]. destruct pagesize_pos as [HPb HP2].
  assert (Z.of_nat (length (img ++ [b0; b1])) = n + 2) as El by (rewrite length_app; cbn [length]; lia). rewrite <- El.
  apply (flush_page c0 (img ++ [b0; b1]) (page_of n) _ f'); try done; rewrite ?El; try lia.
  - destruct (word_fits n ltac:(lia) Hn2). lia.
  - cbn. rewrite Ha. apply u32_small. unfold is_u32. lia.
  - cbn [spm set_CurrAddress perform]. rewrite spm_run_cons, Hrun. cbn [CurrAddress]. rewrite Ha. exact Hfill.
Qed.

(** The two bytes of a word. *)
Lemma take_first b p d m t r c g a x y z s : is_u8 b -> 1 <= r < 256 -> Z.odd r = false -> x < BOOT_START_ADDR ->
  take_byte b (mkLoader HEX_PARSE_STATE_READ_DATA p d m t r c g a x y z s) =
  mkLoader HEX_PARSE_STATE_READ_DATA b b m t (r - 1) (u8 (c + b)) g a x y z s.
Proof using k.
  intros Hb Hr Ho Hx. unfold take_byte. cbn [ParserState set_Data]. rewrite bool_decide_false by done.
  cbn [IntelHex.process_byte ParserState set_Checksum set_Data]. unfold read_data. cbn [CurrAddress DataRem set_DataRem set_Checksum set_Data].
  rewrite (proj2 (Z.leb_gt BOOT_START_ADDR x)) by lia. rewrite (u8_small (r - 1)) by (unfold is_u8; lia).
  rewrite tst_odd, Z.odd_sub, Ho. cbn [xorb Z.odd]. unfold set_PrevData, set_DataRem, set_Checksum, set_Data. cbn -[u8].
  by rewrite !(u8_small b), (u8_small (r - 1)) by (unfold is_u8; lia || done).
Qed.

Lemma take_second b p d m r c g a x y z s : is_u8 b -> is_u8 p -> 1 <= r < 256 -> Z.odd r = true -> x < BOOT_START_ADDR ->
  take_byte b (mkLoader HEX_PARSE_STATE_READ_DATA p d m 0 r c g a x y z s) =
  let l := write_word SPM_PAGESIZE (256 * b + p) (mkLoader HEX_PARSE_STATE_READ_DATA p b m 0 (r - 1) (u8 (c + b)) g a x y z s) in
  if r - 1 =? 0 then set_ParserState HEX_PARSE_STATE_CHECKSUM l else l.
Proof using k.
  intros Hb Hp Hr Ho Hx. unfold take_byte. cbn [ParserState set_Data]. rewrite bool_decide_false by done.
  cbn [IntelHex.process_byte ParserState set_Checksum set_Data]. unfold read_data. cbn [CurrAddress DataRem set_DataRem set_Checksum set_Data].
  rewrite (proj2 (Z.leb_gt BOOT_START_ADDR x)) by lia. rewrite (u8_small (r - 1)) by (unfold is_u8; lia).
  rewrite tst_odd, Z.odd_sub, Ho. cbn [xorb Z.odd]. unfold store_word. cbn [RecordType Data PrevData set_DataRem set_Checksum set_Data].
  change (0 =? HEX_RECORD_TYPE_Data) with true. cbn iota.
  replace (Z.lor (Z.shiftl (u8 b) 8) p) with (256 * b + p).
  2:{ rewrite (u8_small b) by done. symmetry. by apply (lor_shiftl b p 8). }
  set (l0 := mkLoader HEX_PARSE_STATE_READ_DATA p b m 0 (r - 1) (u8 (c + b)) g a x y z s).
  replace (set_DataRem _ _) with l0. 2:{ unfold l0, set_DataRem, set_Checksum, set_Data. cbn -[u8]. by rewrite !(u8_small b), (u8_small (r - 1)) by (unfold is_u8; lia || done). }
  destruct (write_word_registers (256 * b + p) l0) as (_ & _ & _ & _ & _ & -> & _). done.
Qed.

(** A word of data. *)
Lemma read_word c0 img b0 b1 rem sum l : is_u8 b0 -> is_u8 b1 -> 2 <= rem < 256 -> rem mod 2 = 0 ->
  Forall is_u8 img -> Z.of_nat (length img) mod 2 = 0 -> Z.of_nat (length img) + 2 <= BOOT_START_ADDR -> reading c0 img rem sum l ->
  reading c0 (img ++ [b0; b1]) (rem - 2) (sum + b0 + b1) (take_byte b1 (take_byte b0 l)).
Proof.
  intros H0 H1 Hr Hr2 Hu Hn2 Hn (Hs & Hm & Ht & Hd & Hc & Ha & Hl).
  rewrite (proj2 (Z.eqb_neq rem 0)) in Hs by lia. set (n := Z.of_nat (length img)) in *.
  assert (Z.odd rem = false) as Hodd by (rewrite Zodd_mod, Hr2; done).
  destruct l as [ps pd d m t r c g a x y z s]. cbn in Hs, Hm, Ht, Hd, Hc, Ha. subst ps m t r c x.
  rewrite take_first by (done || lia). rewrite take_second by (done || lia || (rewrite Z.odd_sub, Hodd; done)).
  assert (u8 (u8 (u8 sum + b0) + b1) = u8 (sum + b0 + b1)) as ->.
  { unfold u8. by rewrite Zplus_mod_idemp_l, <- Z.add_assoc, Zplus_mod_idemp_l, Z.add_assoc. }
  replace (rem - 1 - 1) with (rem - 2) by lia.
  set (l0 := mkLoader _ _ _ _ _ _ _ _ _ _ _ _ _).
  destruct (write_word_registers (256 * b1 + b0) l0) as (R1 & _ & _ & R2 & R3 & R4 & R5).
  destruct (write_word_loaded c0 img b0 b1 l0) as (W1 & W2);
    [apply Forall_app_2; [done|constructor; [done|by constructor]]|done|fold n; lia|done|exact Hl|].
  cbv zeta. destruct (rem - 2 =? 0) eqn:Er; unfold reading; rewrite Er, length_app, Nat2Z.inj_add; cbn [length].
  - split_and!; try done; cbn; congruence.
  - split_and!; try done; cbn; congruence.
Qed.

Lemma reading_in_record c0 img rem sum l : reading c0 img rem sum l -> in_record l.
Proof using. intros (Hs & Hm & _). split; [rewrite Hs; by destruct (rem =? 0)|done]. Qed.

(** The data of a record. *)
Lemma read_chunk c0 m : forall img data sum l, length data = (2 * m)%nat -> (length data < 256)%nat ->
  Forall is_u8 img -> Forall is_u8 data -> Z.of_nat (length img) mod 2 = 0 ->
  Z.of_nat (length img) + Z.of_nat (length data) <= BOOT_START_ADDR ->
  reading c0 img (Z.of_nat (length data)) sum l ->
  reading c0 (img ++ data) 0 (sum + hex_sum data) (parse (concat (map hex_byte data)) l).
Proof.
  induction m as [|m IH]; intros img data sum l Hm Hl Hu Hd H2 Hb H.
  - apply nil_length_inv in Hm. subst data. rewrite app_nil_r, Z.add_0_r. exact H.
  - destruct data as [|b0 [|b1 data]]; cbn [length] in *; [lia..|].
    inversion_clear Hd as [|? ? H0 Hd']. inversion_clear Hd' as [|? ? H1 Hd].
    cbn [map concat]. rewrite !parse_app, (parse_byte b0) by (done || by eapply reading_in_record).
    assert (in_record (take_byte b0 l)) as Hin.
    { destruct H as (Hs & Hms & _ & Hr & _ & Ha & _). rewrite (proj2 (Z.eqb_neq _ 0)) in Hs by lia. destruct l as [ps ? ? ? ? ? ? ? ? ? ? ? ?].
      cbn in Hs, Hms, Hr, Ha. subst. rewrite take_first; [done|done|lia| |lia].
      rewrite Zodd_mod. replace (Z.of_nat (S (S (length data)))) with (2 * Z.of_nat (S m)) by lia. by rewrite Z.mul_comm, Z_mod_mult. }
    rewrite (parse_byte b1) by done. replace (img ++ b0 :: b1 :: data) with ((img ++ [b0; b1]) ++ data) by (by rewrite <- app_assoc).
    replace (sum + hex_sum (b0 :: b1 :: data)) with (sum + b0 + b1 + hex_sum data) by (cbn [hex_sum fold_right]; fold (hex_sum data); lia).
    apply IH; [lia|lia| |done| | |].
    + apply Forall_app_2; [done|constructor; [done|by constructor]].
    + rewrite length_app, Nat2Z.inj_add, Zplus_mod, H2. done.
    + rewrite length_app. cbn [length]. lia.
    + replace (Z.of_nat (length data)) with (Z.of_nat (S (S (length data))) - 2) by lia. apply read_word; try done; try lia.
      replace (Z.of_nat (S (S (length data)))) with (2 * Z.of_nat (S m)) by lia. by rewrite Z.mul_comm, Z_mod_mult.
Qed.

(** The checksum test. *)
Lemma checksum_test sum : (- sum) mod 256 = Z.land (Z.lnot (u8 sum) + 1) 0xFF.
Proof using k.
  unfold Z.lnot. replace (Z.pred (- u8 sum) + 1) with (- u8 sum) by lia. change 255 with (Z.ones 8). rewrite Z.land_ones by lia.
  change (2 ^ 8) with 256. unfold u8. rewrite <- (Z.sub_0_l (sum mod 256)), Zminus_mod_idemp_r. f_equal.
Qed.

Lemma take_checksum sum p d m t r g a x y z s :
  take_byte ((- sum) mod 256) (mkLoader HEX_PARSE_STATE_CHECKSUM p d m t r (u8 sum) g a x y z s) =
  let l := FlushPageIfRequired SPM_PAGESIZE (mkLoader HEX_PARSE_STATE_CHECKSUM p ((- sum) mod 256) m t r (u8 sum) g a x y z s) in
  if t =? HEX_RECORD_TYPE_EndOfFile then set_RunBootloader false l else l.
Proof using k.
  assert (is_u8 ((- sum) mod 256)) as Hu by (apply Z.mod_pos_bound; lia).
  unfold take_byte. cbn [ParserState set_Data]. rewrite bool_decide_true by done. unfold set_Data. cbn -[u8 check_record Z.modulo].
  rewrite (u8_small _ Hu). unfold check_record. cbn [Data Checksum]. rewrite <- checksum_test, Z.eqb_refl. cbn [negb].
  cbv zeta. assert (forall l, RecordType (FlushPageIfRequired SPM_PAGESIZE l) = RecordType l) as ->; [|done].
  intros l. unfold FlushPageIfRequired. by repeat case_match.
Qed.

(** Nothing is written while the address is in the current page. *)
Lemma flush_same_page c0 img l : loaded c0 img l -> CurrAddress l = Z.of_nat (length img) -> Z.of_nat (length img) < 2 ^ 32 ->
  FlushPageIfRequired SPM_PAGESIZE l = l.
Proof using HP Hk.
  clear Hboot32. intros (Hs & _) Ha Hn. unfold FlushPageIfRequired. rewrite Ha, page_mask by (unfold is_u32; lia).
  rewrite Hs, Z.eqb_refl. by destruct (PageDirty l).
Qed.

(** A record of data. *)
Lemma load_record c0 img data eol l : Forall is_u8 img -> Forall is_u8 data -> is_eol eol ->
  Nat.Even (length data) -> (length data < 256)%nat -> Z.of_nat (length img) mod 2 = 0 -> Z.of_nat (length img) < 65536 ->
  Z.of_nat (length (img ++ data)) <= BOOT_START_ADDR -> loaded c0 img l ->
  loaded c0 (img ++ data) (parse (hex_record 0 (Z.of_nat (length img)) data eol) l).
Proof.
  intros Hu Hd He [m Hm] Hl H2 Hn Hb H. rewrite length_app in Hb. set (n := Z.of_nat (length img)) in *.
  destruct (Z.mod_pos_bound n 256 ltac:(lia)) as [Hlo1 Hlo2].
  assert (0 <= n / 256 < 256) as Hhi by (split; [apply Z.div_pos; lia|apply Z.div_lt_upper_bound; lia]).
  rewrite hex_record_split, !parse_app. pose proof H as (_ & _ & Hb0 & _).
  rewrite <- (parse_app [58]), parse_header by (done || unfold is_u8; lia).
  set (h := hex_sum [_; _; _; _]). set (l1 := mkLoader _ _ _ _ _ _ _ _ _ _ _ _ _).
  assert (reading c0 img (Z.of_nat (length data)) h l1) as Hr1.
  { unfold reading. cbn -[loaded]. split_and!; try done.
    - pose proof (Z.div_mod n 256). lia.
    - destruct H as (E1 & E2 & E3 & E4 & E5). unfold loaded. cbn [PageStartAddress PageDirty CurrBaseAddress RunBootloader spm l1]. done. }
  pose proof (read_chunk c0 m img data h l1 Hm Hl Hu Hd H2 ltac:(lia) Hr1) as Hr2.
  set (l2 := parse (concat (map hex_byte data)) l1) in *.
  assert (hex_checksum (hex_fields 0 n data) = (- (h + hex_sum data)) mod 256) as -> by (unfold hex_checksum, hex_fields; by rewrite hex_sum_app).
  rewrite parse_byte by ((apply Z.mod_pos_bound; lia) || by eapply reading_in_record).
  destruct Hr2 as (S1 & S2 & S3 & S4 & S5 & S6 & S7). cbn [Z.eqb] in S1. destruct l2 as [ps p d mm t r c g a x y z s].
  cbn in S1, S2, S3, S4, S5. subst ps mm t r c. rewrite take_checksum. change (0 =? HEX_RECORD_TYPE_EndOfFile) with false. cbv zeta iota.
  rewrite (flush_same_page c0 (img ++ data)); [|exact S7|exact S6|rewrite length_app; lia].
  rewrite parse_eol by done. exact S7.
Qed.

(** The pieces of an image: each fits a record and is a number of words. *)
Definition chunks_ok (chunks : list (list Z)) : Prop :=
  Forall (fun c => c <> [] /\ (length c < 256)%nat /\ Nat.Even (length c) /\ Forall is_u8 c) chunks.

Lemma load_data c0 chunks eol : forall img l, chunks_ok chunks -> is_eol eol -> Forall is_u8 img ->
  Z.of_nat (length img) mod 2 = 0 -> Z.of_nat (length (img ++ concat chunks)) <= Z.min 65536 BOOT_START_ADDR ->
  loaded c0 img l -> loaded c0 (img ++ concat chunks) (parse (hex_data (Z.of_nat (length img)) chunks eol) l).
Proof.
  induction chunks as [|c cs IH]; intros img l Hc He Hu H2 Hn H; [by rewrite app_nil_r|].
  unfold chunks_ok in Hc. rewrite Forall_cons_iff in Hc. destruct Hc as [(Hne & Hl & Hev & Hcu) Hcs]. cbn [hex_data concat] in *. rewrite parse_app, app_assoc.
  rewrite app_assoc, length_app, (length_app img) in Hn. assert (length c <> 0%nat) by (destruct c; cbn; [congruence|lia]).
  replace (Z.of_nat (length img) + Z.of_nat (length c)) with (Z.of_nat (length (img ++ c))) by (rewrite length_app; lia).
  apply IH; try done.
  - by apply Forall_app_2.
  - rewrite length_app, Nat2Z.inj_add, Zplus_mod, H2. destruct Hev as [m ->]. rewrite Nat2Z.inj_mul, Z.mul_comm, Z_mod_mult. done.
  - rewrite length_app, (length_app img). lia.
  - apply load_record; try done; rewrite ?length_app; lia.
Qed.

Lemma loaded_start c0 : loaded c0 [] initial_Loader.
Proof using HP Hk.
  clear Hboot32. destruct pagesize_pos as [HPb _]. unfold loaded. cbn [length]. change (Z.of_nat 0) with 0.
  assert (page_of 0 = 0) as -> by (unfold Flash.page_of; by rewrite Z.mod_0_l by lia).
  split_and!; try done. exists (at_rest c0). split_and!; try done; intros x Hx; cbn.
  - by rewrite (proj2 (Z.ltb_ge _ 0)) by lia.
  - by rewrite (proj2 (Z.ltb_ge _ 0)) by lia.
  - intros _. by rewrite (proj2 (Z.ltb_ge _ 0)) by lia.
Qed.

(** The end of the file: what is in the buffer is written, unless it belongs to the
    first page. *)
Lemma load_end c0 img eol l : is_eol eol -> Forall is_u8 img -> loaded c0 img l ->
  let n := Z.of_nat (length img) in let l' := parse (hex_record 1 0 [] eol) l in
  RunBootloader l' = false /\ exists f, spm_run SPM_PAGESIZE (spm l') (at_rest c0) = Some f /\ busy f = false /\
  forall x, 0 <= x -> cells f x =
    if x <? page_of n then nth (Z.to_nat x) img 0
    else if (page_of n <? n) && (x <? page_of n + SPM_PAGESIZE)
      then (if negb (page_of n =? 0) && (x <? n) then nth (Z.to_nat x) img 0 else 0xFF) else c0 x.
Proof.
  intros He Hu H n l'. pose proof H as (Hs & Hd & Hb & Hr & f & Hf & Hbusy & Hc & Ht & Hfl). fold n in Hs, Hd, Hc, Ht, Hfl.
  set (l1 := mkLoader HEX_PARSE_STATE_CHECKSUM (PrevData l) 255 false 1 0 (u8 1) (PageStartAddress l) 0 0 (PageDirty l) (RunBootloader l) (spm l)).
  assert (l' = set_RunBootloader false (FlushPageIfRequired SPM_PAGESIZE l1)) as ->.
  { unfold l'. rewrite hex_record_split, !parse_app, <- (parse_app [58]), parse_header by done.
    change (hex_checksum (hex_fields 1 0 [])) with ((- 1) mod 256). change (parse (concat (map hex_byte [])) ?x) with x.
    rewrite parse_byte by done. change (u8 (hex_sum [_; _; _; _])) with (u8 1). cbn [length Z.of_nat Z.eqb]. rewrite (take_checksum 1). cbv zeta.
    change (1 =? HEX_RECORD_TYPE_EndOfFile) with true. cbn iota. change (256 * (0 / 256) + 0 mod 256) with 0. change ((- 1) mod 256) with 255. fold l1.
    apply parse_eol; [done|]. unfold FlushPageIfRequired. by repeat case_match. }
  split; [done|]. cbn [spm set_RunBootloader]. unfold FlushPageIfRequired. cbn [PageDirty CurrAddress PageStartAddress l1].
  rewrite Hd, Hs, page_mask by done. destruct pagesize_pos as [HPb _]. destruct (page_of_bounds n ltac:(lia)) as [Hpb Hp0].
  assert (page_of 0 = 0) as -> by (unfold Flash.page_of; by rewrite Z.mod_0_l by lia).
  destruct (Z.ltb_spec (page_of n) n) as [Hlt|Hge]; cbn [negb andb].
  - destruct (Z.eqb_spec (page_of n) 0) as [E|E]; cbn [negb andb].
    + exists f. split_and!; try done. 
    + assert (page_state c0 img (page_of n) f) as Hps.
      { split_and!; try done. }
      destruct (write_page c0 img (page_of n) f) as (f' & Hw & (Hb' & _) & Hc'); try done; [lia|fold n; lia|]. fold n in Hc'.
      exists f'. cbn [spm set_PageDirty set_PageStartAddress perform l1]. split; [|split; [done|]].
      * change (boot_spm_busy_wait :: ?a :: ?s) with ([boot_spm_busy_wait; a] ++ s). rewrite spm_run_app, Hf. exact Hw.
      * intros x Hx. rewrite Hc' by done. destruct (Z.ltb_spec x (page_of n)); [|done].
        rewrite (proj2 (Z.ltb_lt x (page_of n + _))), (proj2 (Z.ltb_lt x n)) by lia. done.
  - exists f. split_and!; try done.
Qed.
End Loading.

(** ** Loading a file *)

(** An image of a page or more that fits below 64 KB and the boot section, in records
    of whole words one after the other, is programmed. *)
Lemma load_file SPM_PAGESIZE BOOT_START_ADDR k c0 chunks eol : 1 <= k <= 16 -> SPM_PAGESIZE = 2 ^ k ->
  0 < BOOT_START_ADDR <= 2 ^ 31 -> chunks_ok chunks -> is_eol eol ->
  let img := concat chunks in
  let n := Z.of_nat (length img) in
  n <= Z.min 65536 BOOT_START_ADDR ->
  let l := parse SPM_PAGESIZE BOOT_START_ADDR (hex_file chunks eol) initial_Loader in
  let page := page_of SPM_PAGESIZE n in
  RunBootloader l = false /\ exists f, spm_run SPM_PAGESIZE (spm l) (at_rest c0) = Some f /\ busy f = false /\
  forall x, 0 <= x -> cells f x =
    if x <? page then nth (Z.to_nat x) img 0
    else if (page <? n) && (x <? page + SPM_PAGESIZE)
      then (if negb (page =? 0) && (x <? n) then nth (Z.to_nat x) img 0 else 0xFF) else c0 x.
Proof.
  intros Hk HP Hboot Hc He img n Hn l page. unfold l, hex_file. rewrite parse_app.
  assert (Forall is_u8 img) as Hu.
  { apply Forall_concat. eapply Forall_impl; [|exact Hc]. by intros c (_ & _ & _ & H). }
  apply (load_end SPM_PAGESIZE BOOT_START_ADDR k Hk HP c0 img eol); try done.
  apply (load_data SPM_PAGESIZE BOOT_START_ADDR k Hk HP Hboot c0 chunks eol [] initial_Loader); try done.
  by apply (loaded_start SPM_PAGESIZE k).
Qed.

(** ** What the loader does not support *)

(** An image smaller than a page is lost: its page is erased but never written. *)
Lemma HEX_small_image_lost SPM_PAGESIZE BOOT_START_ADDR k c0 chunks eol : 1 <= k <= 16 -> SPM_PAGESIZE = 2 ^ k ->
  0 < BOOT_START_ADDR <= 2 ^ 31 -> chunks_ok chunks -> is_eol eol ->
  let n := Z.of_nat (length (concat chunks)) in
  0 < n < SPM_PAGESIZE -> n <= Z.min 65536 BOOT_START_ADDR ->
  let l := parse SPM_PAGESIZE BOOT_START_ADDR (hex_file chunks eol) initial_Loader in
  exists f, spm_run SPM_PAGESIZE (spm l) (at_rest c0) = Some f /\ forall x, 0 <= x < SPM_PAGESIZE -> cells f x = 0xFF.
Proof.
  intros Hk HP Hboot Hc He n Hn Hn2 l.
  destruct (load_file SPM_PAGESIZE BOOT_START_ADDR k c0 chunks eol Hk HP Hboot Hc He Hn2) as (_ & f & Hf & _ & Hcells).
  exists f. split; [exact Hf|]. intros x Hx. rewrite Hcells by lia. fold n. clearbody n.
  replace (page_of SPM_PAGESIZE n) with 0 by (unfold page_of; rewrite Z.mod_small; lia).
  rewrite (proj2 (Z.ltb_ge x 0)), (proj2 (Z.ltb_lt 0 n)), (proj2 (Z.ltb_lt x (0 + SPM_PAGESIZE))) by lia. done.
Qed.

(** files the loader does not program as they say, on a processor with pages of 256
    bytes and a boot section at 0x1E000.  Where the addresses skip to another page, the
    first word after the gap goes into the page before it: here the word for 0x202 is
    written at 0x002.  The two bytes of an extended segment address are taken in the
    wrong order: the segment 0x1000 (the address 0x10000) is taken for the address 0x100.
    The bytes of a record of odd length are paired with the wrong neighbours.  And the
    page after the last one that may be written can be erased: this file erases the first
    page of the boot loader. *)
Theorem HEX_unsupported_files :
  let parse := parse 256 0x1E000 in
  let eol := [13; 10] in
  (let l := parse (hex_record 0 0 [1; 2] eol ++ hex_record 0 0x202 [3; 4] eol ++ hex_record 1 0 [] eol) initial_Loader in
   exists f, spm_run 256 (spm l) (at_rest (fun _ => 0)) = Some f /\ cells f 2 = 3 /\ cells f 3 = 4 /\ cells f 0x202 = 0) /\
  CurrBaseAddress (parse (hex_record 2 0 [0x10; 0x00] eol) initial_Loader) = 0x100 /\
  spm (parse (hex_record 0 0 [1; 2; 3] eol) initial_Loader) =
    [boot_page_fill 2 0x0302; boot_page_fill 0 0x0100; boot_spm_busy_wait; boot_page_erase 0] /\
  In (boot_page_erase 0x1E000)
    (spm (parse (hex_record 4 0 [1; 0] eol ++ hex_record 0 0xDFFE [1; 2] eol ++ hex_record 0 0 [3; 4] eol) initial_Loader)).
Proof.
  split_and!.
  - eexists. split; [vm_compute; reflexivity|]. split_and!; vm_compute; reflexivity.
  - vm_compute. reflexivity.
  - vm_compute. reflexivity.
  - vm_compute. intuition.
Qed.
