(* ===== verification/BootloaderPrinter.v ===== *)
(** The printer class boot loader: Bootloaders/Printer/BootloaderPrinter.[ch].

    The host prints an Intel HEX file to the device.  The LEDs of the board, the fuses,
    the watchdog and the descriptors are parameters. *)

From stdpp Require Import base tactics option list numbers strings.
From Stdlib Require Import ZArith Lia.
From S2P Require Import Prelude Memory Hardware Board Endpoint USBController ControlStream DeviceStandardReq.
From S2P Require Import EndpointStream ControlRequest ClassDriver SerialPort PrinterDevice Flash IntelHex.

Record Printer_App : Set := mkPrinterApp {
  TextOnly_Printer_Interface : PRNTInfo;
  HEXParser : Loader;
  MagicBootKey : Z
}.
Definition set_HEXParser (l : Loader) (a : Printer_App) : Printer_App :=
  mkPrinterApp (TextOnly_Printer_Interface a) l (MagicBootKey a).
Definition set_MagicBootKey (k : Z) (a : Printer_App) : Printer_App :=
  mkPrinterApp (TextOnly_Printer_Interface a) (HEXParser a) k.

#[export] Instance Printer_object : Object Printer_App PRNTInfo :=
  {| load := TextOnly_Printer_Interface; store := fun i a => mkPrinterApp i (HEXParser a) (MagicBootKey a);
     load_store := fun _ _ => eq_refl; store_store := fun _ _ _ => eq_refl |}.

Definition MAGIC_BOOT_KEY : Z := 0xDC42.
Definition PRINTER_IN_EPADDR : Z := Z.lor 0x80 3.
Definition PRINTER_OUT_EPADDR : Z := 4.
Definition PRINTER_IO_EPSIZE : Z := 64.

Definition initial_Printer_Interface : PRNTInfo :=
  mkPRNTInfo (mkPRNTConfig 0 (mkEndpointTable PRINTER_IN_EPADDR PRINTER_IO_EPSIZE 0 1)
      (mkEndpointTable PRINTER_OUT_EPADDR PRINTER_IO_EPSIZE 0 1)
      (bytes_of "MFG:Generic;MDL:Generic_/_Text_Only;CMD:1284.4;CLS:PRINTER" ++ [0]))
    (mkPRNTState 0 false).
(** [MagicBootKey] is not initialised. *)
Definition initial_Printer_App (key : Z) : Printer_App :=
  mkPrinterApp initial_Printer_Interface initial_Loader key.

Section BootloaderPrinter.
Context {HW : Hardware} {BD : Board Printer_App}.
Context (SPM_PAGESIZE BOOT_START_ADDR : Z).
Abbreviation P := (prog (World Printer_App)).

(** ** Start of the application *)

(** The fuses and the program memory. *)
Context (boot_lock_fuse_bits_get : Z -> Z) (GET_HIGH_FUSE_BITS FUSE_BOOTRST : Z) (pgm_read_word_near : Z -> Z).

(** The branch of the boards without a boot jumper; the result is whether the
    application is started. *)
Definition Application_Jump_Check : P bool :=
  key ← gets (fun w => MagicBootKey (app w));
  JumpToApplication ←
    (if tst (boot_lock_fuse_bits_get GET_HIGH_FUSE_BITS) FUSE_BOOTRST then
       m ← rd MCUSR;
       clr_bits MCUSR (bit EXTRF);;
       mret (negb (tst m (bit EXTRF)) || (key =? MAGIC_BOOT_KEY))
     else
       m ← rd MCUSR;
       clr_bits MCUSR (bit WDRF);;
       mret (tst m (bit WDRF) && (key =? MAGIC_BOOT_KEY)));
  let ApplicationValid := negb (pgm_read_word_near 0 =? 0xFFFF) in
  if (JumpToApplication : bool) && ApplicationValid then
    clr_bits MCUSR (bit WDRF);;
    wdt_disable;;
    modify (upd_app (set_MagicBootKey 0));;
    mret true
  else mret false.

(** ** Events *)

#[export] Instance PrinterEvents : DeviceEvents Printer_App := {|
  EVENT_USB_Device_StartOfFrame := mret tt;
  EVENT_USB_Device_Connect := LEDs_SetAllLEDs LEDMASK_USB_ENUMERATING;
  EVENT_USB_Device_Disconnect := LEDs_SetAllLEDs LEDMASK_USB_NOTREADY;
  EVENT_USB_Device_Suspend := mret tt;
  EVENT_USB_Device_WakeUp := mret tt;
  EVENT_USB_Device_Reset := mret tt
|}.
#[local] Instance SoftReset : PRNTEvents Printer_App := PRNT_Device_Event_Stub.

Definition Printer_ConfigurationChanged (fuel : nat) : P unit :=
  ConfigSuccess ← PRNT_Device_ConfigureEndpoints fuel;
  modify (upd_app (fun a => set_HEXParser (set_ParserState HEX_PARSE_STATE_WAIT_LINE (HEXParser a)) a));;
  LEDs_SetAllLEDs (if ConfigSuccess : bool then LEDMASK_USB_READY else LEDMASK_USB_ERROR).

(** The descriptors are those of the boot loader's Descriptors.c. *)
Context (GetDescriptor : Z -> Z -> Z * option (list Z)).
#[local] Instance PrinterRequests : DeviceRequests Printer_App := {|
  CALLBACK_USB_GetDescriptor := GetDescriptor;
  EVENT_USB_Device_ControlRequest := PRNT_Device_ProcessControlRequest;
  EVENT_USB_Device_ConfigurationChanged := Printer_ConfigurationChanged
|}.

(** ** The program *)

Definition SetupHardware (fuel : nat) : P unit :=
  clr_bits MCUSR (bit WDRF);;
  wdt_disable;;
  clock_prescale_set 0;;
  wr MCUCR (bit IVCE);;
  wr MCUCR (bit IVSEL);;
  LEDs_Init;;
  USB_Init fuel;;
  wr TIMSK1 (bit TOIE1);;
  wr TCCR1B (Z.lor (bit CS11) (bit CS10)).

(** [while (BytesReceived--)] *)
Fixpoint feed (fuel BytesReceived : nat) : P unit :=
  match BytesReceived with
  | O => mret tt
  | S n =>
      ReceivedByte ← PRNT_Device_ReceiveByte fuel;
      modify (upd_app (fun a => set_HEXParser (ParseIntelHEXByte SPM_PAGESIZE BOOT_START_ADDR (int8 ReceivedByte) (HEXParser a)) a));;
      feed fuel n
  end.

Definition main_round (fuel : nat) : P unit :=
  n ← PRNT_Device_BytesReceived fuel;
  let BytesReceived := u8 n in
  when (negb (BytesReceived =? 0))
    (LEDs_SetAllLEDs LEDMASK_USB_BUSY;;
     feed fuel (Z.to_nat BytesReceived);;
     LEDs_SetAllLEDs LEDMASK_USB_READY);;
  PRNT_Device_USBTask fuel;;
  USB_USBTask fuel.

(** [while (RunBootloader)], up to [rounds] times. *)
Fixpoint main_loop (rounds fuel : nat) : P unit :=
  match rounds with
  | O => nofuel
  | S rounds =>
      run ← gets (fun w => RunBootloader (HEXParser (app w)));
      if run : bool then main_round fuel;; main_loop rounds fuel else mret tt
  end.

(** [main] up to the endless loop that waits for the watchdog ([WDTO_250MS] is 4). *)
Definition main (rounds fuel : nat) : P unit :=
  SetupHardware fuel;;
  LEDs_SetAllLEDs LEDMASK_USB_NOTREADY;;
  GlobalInterruptEnable;;
  main_loop rounds fuel;;
  USB_Detach;;
  modify (upd_app (set_MagicBootKey MAGIC_BOOT_KEY));;
  wdt_enable 4.
End BootloaderPrinter.
