(* ===== verification/BootloaderPrinterSpec.v ===== *)
(** Correctness of the printer class boot loader (BootloaderPrinter.v): a HEX file that
    the host prints is in the flash memory when the main loop ends. *)

From stdpp Require Import base tactics option list numbers functions.
From Stdlib Require Import ZArith Lia.
From S2P Require Import Prelude Memory Hardware Board Endpoint USBController ControlStream DeviceStandardReq.
From S2P Require Import EndpointStream ControlTransfer ControlReceive ControlRequest DataEndpoint DataStream.
From S2P Require Import ClassDriver SerialPort SerialPortSpec PrinterDevice PrinterSpec Flash IntelHex HexSpec BootloaderPrinter.

(** ** When the loader stops *)

Section Stops.
Context (SPM_PAGESIZE BOOT_START_ADDR : Z).
Abbreviation parse := (parse SPM_PAGESIZE BOOT_START_ADDR).
Abbreviation ParseIntelHEXByte := (ParseIntelHEXByte SPM_PAGESIZE BOOT_START_ADDR).

Lemma flush_run l : RunBootloader (FlushPageIfRequired SPM_PAGESIZE l) = RunBootloader l.
Proof. unfold FlushPageIfRequired. by repeat case_match. Qed.

Lemma word_run w l : RunBootloader (write_word SPM_PAGESIZE w l) = RunBootloader l.
Proof. unfold write_word. rewrite flush_run. by destruct (PageDirty l). Qed.

(** Once it is to stop it does not go on. *)
Lemma parse_stopped_byte c l : RunBootloader l = false -> RunBootloader (ParseIntelHEXByte c l) = false.
Proof.
  intros H. unfold IntelHex.ParseIntelHEXByte. case_match; [by case_match|]. case_match; [done|]. case_match; [done|].
  set (l1 := if negb _ then _ else _). assert (RunBootloader l1 = false) as Hl1 by (unfold l1; by case_match). clearbody l1.
  unfold process_byte, read_data, store_word, check_record. repeat case_match; cbn; rewrite ?word_run, ?flush_run; done.
Qed.

Lemma parse_stopped cs l : RunBootloader l = false -> RunBootloader (parse cs l) = false.
Proof. revert l; induction cs as [|c cs IH]; intros l H; [done|]. by apply IH, parse_stopped_byte. Qed.

(** The first digit of a byte does not stop it. *)
Lemma parse_digit_run c l : ReadMSB l = false -> RunBootloader (ParseIntelHEXByte c l) = RunBootloader l.
Proof.
  intros H. unfold IntelHex.ParseIntelHEXByte. case_match; [by case_match|]. case_match; [done|].
  cbn [ReadMSB set_ReadMSB set_Data]. by rewrite H.
Qed.

(** What stands between records has no effect on the memory. *)
Lemma parse_eol_inert eol l : is_eol eol -> spm (parse eol l) = spm l /\ RunBootloader (parse eol l) = RunBootloader l.
Proof.
  intros H. revert l; induction H as [|c eol [Hc Hn] _ IH]; intros l; [done|].
  change (parse (c :: eol) l) with (parse eol (ParseIntelHEXByte c l)).
  destruct (IH (ParseIntelHEXByte c l)) as [-> ->]. unfold IntelHex.ParseIntelHEXByte. rewrite (proj2 (Z.eqb_neq c 58)) by done.
  case_match; [done|]. by rewrite (proj2 (Z.ltb_lt _ _)) by done.
Qed.
End Stops.

(** A file: the loader goes on until the end record is complete, and what follows has
    no effect. *)
Lemma file_prefix SPM_PAGESIZE BOOT_START_ADDR k chunks eol a b : 1 <= k <= 16 -> SPM_PAGESIZE = 2 ^ k ->
  0 < BOOT_START_ADDR <= 2 ^ 31 -> chunks_ok chunks -> is_eol eol ->
  Z.of_nat (length (concat chunks)) <= Z.min 65536 BOOT_START_ADDR -> a ++ b = hex_file chunks eol ->
  let l := parse SPM_PAGESIZE BOOT_START_ADDR a initial_Loader in
  RunBootloader l = true \/
  RunBootloader l = false /\ spm l = spm (parse SPM_PAGESIZE BOOT_START_ADDR (hex_file chunks eol) initial_Loader).
Proof.
  intros Hk HP Hboot Hc He Hn Hab l. unfold hex_file in *. rewrite hex_record_split in *.
  set (body := hex_data 0 chunks eol ++ [58] ++ concat (map hex_byte [Z.of_nat (length (@nil Z)); 0 / 256; 0 mod 256; 1])).
  assert (hex_data 0 chunks eol ++ ([58] ++ concat (map hex_byte [Z.of_nat (length (@nil Z)); 0 / 256; 0 mod 256; 1])) ++
    concat (map hex_byte []) ++ hex_byte (hex_checksum (hex_fields 1 0 [])) ++ eol = (body ++ [70]) ++ [70] ++ eol) as Ht.
  { unfold body. rewrite <- !app_assoc. done. }
  rewrite Ht in *. set (l1 := parse SPM_PAGESIZE BOOT_START_ADDR body initial_Loader).
  assert (RunBootloader l1 = true /\ ReadMSB l1 = false) as [Hr1 Hm1].
  { unfold l1, body. rewrite parse_app.
    pose proof (load_data SPM_PAGESIZE BOOT_START_ADDR k Hk HP Hboot (fun _ => 0) chunks eol [] initial_Loader Hc He
      ltac:(done) ltac:(done) Hn (loaded_start SPM_PAGESIZE k Hk HP _)) as (_ & _ & Hb & Hr & _).
    cbn [length Datatypes.app] in Hb, Hr. rewrite parse_header by done. done. }
  assert (RunBootloader (parse SPM_PAGESIZE BOOT_START_ADDR (body ++ [70]) initial_Loader) = true) as Hr2.
  { rewrite parse_app. fold l1. change (parse _ _ [70] l1) with (ParseIntelHEXByte SPM_PAGESIZE BOOT_START_ADDR 70 l1). by rewrite parse_digit_run. }
  destruct (RunBootloader l) eqn:E; [by left|right; split; [done|]].
  destruct (app_eq_inv a b (body ++ [70]) ([70] ++ eol) Hab) as [(c & -> & Hc2)|(c & Hc2 & _)].
  - destruct c as [|x c]; [unfold l in E; rewrite app_nil_r in E; congruence|]. injection Hc2 as _ Hc2.
    assert (is_eol b) as Hb by (rewrite Hc2 in He; by apply Forall_app in He as [_ He]).
    rewrite <- Hab, parse_app. fold l. by destruct (parse_eol_inert SPM_PAGESIZE BOOT_START_ADDR b l Hb) as [-> _].
  - pose proof (parse_stopped SPM_PAGESIZE BOOT_START_ADDR c l E) as Hst. unfold l in Hst. rewrite <- parse_app, <- Hc2 in Hst. congruence.
Qed.

(** ** The main loop *)

Section Loop.
Context {HW : Hardware} {BD : Board Printer_App} {QL : QuietLEDs BD} {is_in : Z -> bool} {size : Z -> nat} {q0 : Z -> list (list Z)}.
Context {DH : DataHost is_in size q0} (GetDescriptor : Z -> Z -> Z * option (list Z)).
Context (SPM_PAGESIZE BOOT_START_ADDR ein eout : Z) (fuel : nat) (Hfuel : (0 < fuel)%nat).
Abbreviation dev := (dev (is_in := is_in) (q0 := q0) (App := Printer_App)).
Abbreviation printing := (printing is_in size ein eout).
Abbreviation parse := (parse SPM_PAGESIZE BOOT_START_ADDR).
Abbreviation at_ w l := (upd_app (set_HEXParser l) w).

(** The bytes of a packet go to the parser. *)
Lemma feed_dev ps p : forall l w0 e st w, printing (at_ w0 l) -> countable (p :: ps) -> Forall is_u8 p -> p <> [] ->
  ep_queue (st eout) = p :: ps -> dev (at_ w0 l) e st w ->
  wp true (feed SPM_PAGESIZE BOOT_START_ADDR fuel (length p)) (fun _ w' =>
    dev (at_ w0 (parse (map int8 p) l)) eout (<[eout := with_queue ps (st eout)]> st) w') w.
Proof.
  induction p as [|b p IH]; intros l w0 e st w Hpr Hc Hu Hne Hq H; [done|]. cbn [length feed map].
  inversion_clear Hu as [|? ? Hb Hu']. apply wp_bind. pose proof (PRNT_OpenPort ein eout (at_ w0 l) fuel Hpr) as OP.
  eapply wp_mono; [eapply (ReceiveByte_dev (PRNT_port fuel) ein eout (at_ w0 l)); [by rewrite Hq|exact H]|].
  intros r w1 (-> & _ & H1). rewrite Hq in H1 |- *. apply wp_bind, wp_modify.
  assert (default (-1) (rx_step ((b :: p) :: ps)).1 = b) as -> by (by destruct p).
  assert ((rx_step ((b :: p) :: ps)).2 = match p with [] => ps | _ => p :: ps end) as Eq by (by destruct p). rewrite Eq in H1.
  set (l' := ParseIntelHEXByte SPM_PAGESIZE BOOT_START_ADDR (int8 b) l).
  assert (dev (at_ w0 l') eout (<[eout := with_queue (match p with [] => ps | _ => p :: ps end) (st eout)]> st)
    (upd_app (fun a => set_HEXParser (ParseIntelHEXByte SPM_PAGESIZE BOOT_START_ADDR (int8 b) (HEXParser a)) a) w1)) as H2.
  { pose proof (dev_app _ _ _ _ H1) as Ha. apply (dev_upd_app (set_HEXParser l')) in H1.
    replace (upd_app _ w1) with (upd_app (set_HEXParser l') w1); [exact H1|]. unfold upd_app. by rewrite Ha. }
  destruct p as [|b' p]; [by apply wp_ret|].
  eapply wp_mono; [eapply (IH l' w0 eout); [exact Hpr| |done|done| |exact H2]|].
  - inversion_clear Hc as [|? ? Hp Hps]. constructor; [cbn in *; lia|done].
  - by rewrite fn_lookup_insert.
  - intros [] w2 H3. eapply dev_ext; [|exact H3]. rewrite fn_lookup_insert. dev_eq; done.
Qed.

(** A round takes a packet. *)
Lemma round_dev ps p l w0 e st w : printing (at_ w0 l) -> IsPrinterReset (State (info w0)) = false ->
  countable (p :: ps) -> Forall is_u8 p -> p <> [] -> (length p < 256)%nat ->
  ep_queue (st eout) = p :: ps -> ep_bank (st ein) = [] -> dev (at_ w0 l) e st w ->
  wp true (main_round SPM_PAGESIZE BOOT_START_ADDR GetDescriptor fuel) (fun _ w' =>
    dev (at_ w0 (parse (map int8 p) l)) ein (<[eout := with_queue ps (st eout)]> st) w') w.
Proof.
  intros Hpr Hres Hc Hu Hne Hl Hq Hb H. pose proof (PRNT_OpenPort ein eout (at_ w0 l) fuel Hpr) as OP.
  assert (ein <> eout) as Hee by (destruct Hpr as (_ & _ & _ & _ & _ & Hi & Ho & _); congruence).
  unfold main_round. apply wp_bind.
  eapply wp_mono; [eapply (BytesReceived_dev (PRNT_port fuel) ein eout (at_ w0 l)); [exact Hq|done|inversion_clear Hc; done|exact H]|].
  intros n w1 [-> H1]. rewrite u8_small by (unfold is_u8; lia).
  rewrite (proj2 (Z.eqb_neq _ 0)) by (destruct p; [done|cbn; lia]). cbn [negb when]. apply wp_bind, wp_bind.
  unfold wp at 1. rewrite LEDs_quiet. apply wp_bind. rewrite Nat2Z.id.
  eapply wp_mono; [eapply (feed_dev ps p); [exact Hpr|done..|exact Hq|exact H1]|]. intros [] w2 H2.
  unfold wp at 1. rewrite LEDs_quiet. set (l' := parse (map int8 p) l) in *. apply wp_bind.
  set (st2 := <[eout := with_queue ps (st eout)]> st) in *.
  assert (st2 ein = st ein) as E2 by (unfold st2; by rewrite fn_lookup_insert_ne).
  assert (printing (at_ w0 l')) as Hpr' by exact Hpr.
  eapply wp_mono; [eapply (PRNT_task_dev ein eout (at_ w0 l') fuel Hpr'); [done|rewrite E2, Hb; cbn; lia|exact H2]|].
  intros [] w3 H3. cbn [info upd_app app load set_HEXParser Printer_object TextOnly_Printer_Interface] in H3.
  unfold info in Hres. cbn [load Printer_object] in Hres. rewrite Hres in H3.
  destruct Hpr as (_ & _ & _ & He & _). dev_step USBTask_dev H3. intros [] w4 H4. eapply dev_ext; [|exact H4].
  intros x. unfold flushed. rewrite E2, Hb. destruct (decide (x = ein)) as [->|Hx]; [by rewrite fn_lookup_insert|by rewrite fn_lookup_insert_ne].
Qed.

(** The loop takes packets until the file is complete. *)
Lemma loop_dev text final : (forall a b, a ++ b = text -> let l := parse a initial_Loader in
    RunBootloader l = true \/ RunBootloader l = false /\ spm l = final) ->
  RunBootloader (parse text initial_Loader) = false ->
  Forall (fun c => 0 <= c < 128) text -> forall q a w0 e st w rounds,
  printing (at_ w0 (parse a initial_Loader)) -> IsPrinterReset (State (info w0)) = false ->
  Forall (fun p => p <> [] /\ (length p < 256)%nat) q -> a ++ concat q = text -> (length q < rounds)%nat ->
  ep_queue (st eout) = q -> ep_bank (st ein) = [] -> dev (at_ w0 (parse a initial_Loader)) e st w ->
  wp true (main_loop SPM_PAGESIZE BOOT_START_ADDR GetDescriptor rounds fuel) (fun _ w' => exists l e' st',
    dev (at_ w0 l) e' st' w' /\ RunBootloader l = false /\ spm l = final) w.
Proof.
  intros Hpre Hend Hasc. induction q as [|p q IH]; intros a w0 e st w rounds Hpr Hres Hps Ht Hr Hq Hb H;
    (destruct rounds as [|rounds]; [cbn in Hr; lia|]); cbn [main_loop]; apply wp_bind, wp_gets; rewrite (dev_app _ _ _ _ H);
    cbn [app upd_app HEXParser set_HEXParser]; (destruct (Hpre _ _ Ht) as [Hrun|[Hrun Hfin]]; rewrite Hrun;
    [|apply wp_ret; by exists (parse a initial_Loader), e, st]).
  - cbn in Ht. rewrite app_nil_r in Ht. subst a. congruence.
  - rewrite Forall_cons_iff in Hps. destruct Hps as [[Hne Hl] Hps]. cbn [concat] in Ht.
    assert (Forall (fun c => 0 <= c < 128) p) as Hp.
    { rewrite <- Ht in Hasc. apply Forall_app in Hasc as [_ Hasc]. by apply Forall_app in Hasc as [? _]. }
    assert (map int8 p = p) as Ep.
    { clear -Hp. induction Hp as [|c p Hc _ IH]; [done|]. cbn [map]. rewrite IH. unfold int8.
      rewrite u8_small, (proj2 (Z.ltb_lt c 128)) by (unfold is_u8; lia). done. }
    apply wp_bind. eapply wp_mono; [eapply (round_dev q p); [exact Hpr|done| | |done|done|exact Hq|exact Hb|exact H]|].
    + constructor; [lia|]. eapply Forall_impl; [|exact Hps]. cbn. intros x [_ Hx]. lia.
    + eapply Forall_impl; [|exact Hp]. unfold is_u8. intros c Hc. lia.
    + intros [] w1 H1. rewrite Ep, <- parse_app in H1.
      eapply wp_mono; [eapply (IH (a ++ p) w0 ein _ w1 rounds); [exact Hpr|done|done|by rewrite <- app_assoc|cbn in Hr; lia| | |exact H1]|]; [..|done].
      * by rewrite fn_lookup_insert.
      * destruct Hpr as (_ & _ & _ & _ & _ & Hi & Ho & _). rewrite fn_lookup_insert_ne by congruence. done.
Qed.
End Loop.

(** ** The text *)

Definition ascii (cs : list Z) : Prop := Forall (fun c => 0 <= c < 128) cs.

Lemma hex_bytes_ascii bs : Forall is_u8 bs -> ascii (concat (map hex_byte bs)).
Proof.
  induction 1 as [|b bs Hb _ IH]; [constructor|]. cbn [map concat]. apply Forall_app_2; [|done]. unfold is_u8 in Hb.
  assert (forall d, 0 <= d < 16 -> 0 <= hex_digit d < 128) as Hd by (intros d ?; unfold hex_digit; case_match; lia).
  constructor; [apply Hd; split; [apply Z.div_pos|apply Z.div_lt_upper_bound]; lia|].
  constructor; [apply Hd, Z.mod_pos_bound; lia|constructor].
Qed.

Lemma hex_record_ascii type address data eol : is_u8 type -> 0 <= address < 65536 -> (length data < 256)%nat ->
  Forall is_u8 data -> ascii eol -> ascii (hex_record type address data eol).
Proof.
  intros Ht Ha Hl Hd He. unfold hex_record. apply Forall_app_2; [by repeat constructor|]. apply Forall_app_2; [|done].
  apply hex_bytes_ascii, Forall_app_2; [|constructor; [|constructor]; unfold hex_checksum; apply Z.mod_pos_bound; lia].
  apply Forall_app_2; [|done]. assert (0 <= address / 256 < 256) by (split; [apply Z.div_pos|apply Z.div_lt_upper_bound]; lia).
  pose proof (Z.mod_pos_bound address 256 ltac:(lia)). do 4 (constructor; [unfold is_u8 in *; lia|]). constructor.
Qed.

Lemma hex_data_ascii chunks eol : ascii eol -> chunks_ok chunks -> forall n, 0 <= n -> n + Z.of_nat (length (concat chunks)) <= 65536 ->
  ascii (hex_data n chunks eol).
Proof.
  intros He. induction chunks as [|c cs IH]; intros Hc n Hn Hl; [constructor|].
  unfold chunks_ok in Hc. rewrite Forall_cons_iff in Hc. destruct Hc as [(Hne & Hlc & _ & Hu) Hcs]. cbn [hex_data concat] in *.
  rewrite length_app in Hl. assert (length c <> 0%nat) by (destruct c; cbn; [congruence|lia]).
  apply Forall_app_2; [apply hex_record_ascii; try done; lia|apply IH; [done|lia|lia]].
Qed.

(** ** Programming *)

(** The cells after [img] was programmed over [c0] in pages of [size] bytes: the rest of
    the last page is blank. *)
Definition programmed (size : Z) (c0 : Z -> Z) (img : list Z) (x : Z) : Z :=
  let n := Z.of_nat (length img) in
  if x <? n then nth (Z.to_nat x) img 0 else if x <? page_of size (n + size - 1) then 0xFF else c0 x.

Lemma programmed_pages size c0 img x : let n := Z.of_nat (length img) in let page := page_of size n in
  0 < size <= n -> 0 <= x ->
  (if x <? page then nth (Z.to_nat x) img 0
   else if (page <? n) && (x <? page + size) then (if negb (page =? 0) && (x <? n) then nth (Z.to_nat x) img 0 else 0xFF) else c0 x)
  = programmed size c0 img x.
Proof.
  intros n page Hs Hx. unfold programmed. fold n. pose proof (Z.mod_pos_bound n size ltac:(lia)) as Hm.
  pose proof (Z.div_mod n size ltac:(lia)) as Hdm.
  assert (1 <= n / size) as Hq by (apply Z.div_le_lower_bound; lia).
  assert (page = size * (n / size)) as Epage by (unfold page, page_of; lia).
  assert (page_of size (n + size - 1) = if page <? n then page + size else page) as ->.
  { clearbody page n. unfold page_of. replace (n + size - 1) with (n mod size + size - 1 + (n / size) * size) by lia. rewrite Z_mod_plus_full.
    destruct (Z.ltb_spec page n).
    - replace (n mod size + size - 1) with (n mod size - 1 + 1 * size) by lia. rewrite Z_mod_plus_full, (Z.mod_small (n mod size - 1)) by lia. nia.
    - replace (n mod size) with 0 by lia. rewrite Z.mod_small by lia. nia. }
  rewrite (proj2 (Z.eqb_neq page 0)) by nia. cbn [negb andb]. destruct (Z.ltb_spec page n); cbn [andb].
  - destruct (Z.ltb_spec x page), (Z.ltb_spec x n), (Z.ltb_spec x (page + size)); try lia; done.
  - destruct (Z.ltb_spec x page), (Z.ltb_spec x n); try lia; done.
Qed.

(** C7: a host that prints an Intel HEX file of an image programs it: when the image is
    at least a page, lies below 64 KB and the boot section, and its records are whole
    words one after the other, then however the text is split into records and into
    packets, the main loop ends, and the operations it performed on the flash memory are
    all defined, finished, and leave the image in it; the rest of its last page is
    blank and the pages after it are not touched. *)
Theorem bootloader_loads_file {HW : Hardware} {BD : Board Printer_App} {QL : QuietLEDs BD} {is_in size q0}
    {DH : DataHost is_in size q0} GetDescriptor SPM_PAGESIZE BOOT_START_ADDR k c0 chunks eol rounds fuel ein eout
    (w : World Printer_App) : printing is_in size ein eout w -> IsPrinterReset (State (info w)) = false ->
  HEXParser (app w) = initial_Loader -> 1 <= k <= 16 -> SPM_PAGESIZE = 2 ^ k -> 0 < BOOT_START_ADDR <= 2 ^ 31 ->
  chunks_ok chunks -> is_eol eol -> ascii eol ->
  let img := concat chunks in
  SPM_PAGESIZE <= Z.of_nat (length img) <= Z.min 65536 BOOT_START_ADDR ->
  let q := ep_queue (ep_state is_in q0 eout (tr w)) in
  concat q = hex_file chunks eol -> Forall (fun p => p <> [] /\ (length p < 256)%nat) q ->
  ep_bank (ep_state is_in q0 ein (tr w)) = [] -> (0 < fuel)%nat -> (length q < rounds)%nat ->
  exists w' f, main_loop SPM_PAGESIZE BOOT_START_ADDR GetDescriptor rounds fuel w = Ret tt w' /\
    spm_run SPM_PAGESIZE (spm (HEXParser (app w'))) (at_rest c0) = Some f /\ busy f = false /\
    forall x, 0 <= x -> cells f x = programmed SPM_PAGESIZE c0 img x.
Proof.
  intros Hpr Hres Hini Hk HP Hboot Hc He Hea img Hn q Hq Hps Hb Hf Hr.
  destruct (load_file SPM_PAGESIZE BOOT_START_ADDR k c0 chunks eol Hk HP Hboot Hc He ltac:(fold img; lia)) as (Hrun & f & Hspm & Hbusy & Hcells).
  fold img in Hcells. set (n := Z.of_nat (length img)) in *.
  assert (upd_app (set_HEXParser (parse SPM_PAGESIZE BOOT_START_ADDR [] initial_Loader)) w = w) as Ew.
  { destruct w as [? ? ? ? ? ? ? ? [? ? ?]]. cbn in Hini. by rewrite <- Hini. }
  destruct (wp_total_run_unit _ _ _ (loop_dev GetDescriptor SPM_PAGESIZE BOOT_START_ADDR ein eout fuel Hf (hex_file chunks eol)
    (spm (parse SPM_PAGESIZE BOOT_START_ADDR (hex_file chunks eol) initial_Loader))
    (fun a b H => file_prefix SPM_PAGESIZE BOOT_START_ADDR k chunks eol a b Hk HP Hboot Hc He ltac:(fold img; lia) H) Hrun
    ltac:(apply Forall_app_2; [apply hex_data_ascii; [done|done|lia|fold img; lia]|apply hex_record_ascii; done || (cbn; lia)])
    q [] w _ (fun x => ep_state is_in q0 x (tr w)) w rounds ltac:(by rewrite Ew) Hres Hps Hq Hr eq_refl Hb
    ltac:(rewrite Ew; apply dev_start))) as (w' & Hw & l & e' & st' & Hdev & _ & Hfin).
  exists w', f. split; [done|]. rewrite (dev_app _ _ _ _ Hdev). cbn [app upd_app HEXParser set_HEXParser]. rewrite Hfin. split; [done|].
  split; [done|]. intros x Hx. rewrite Hcells by done. apply programmed_pages; [|done].
  fold n. rewrite HP in Hn |- *. split; [apply Z.pow_pos_nonneg|]; lia.
Qed.

(** ** Witness *)

Definition demo_chunks : list (list Z) := [[1; 2; 3; 4]; [5; 6]].
Definition demo_text : list Z := hex_file demo_chunks [13; 10].
Definition demo_packets (e : Z) : list (list Z) :=
  if e =? 4 then [take 16 demo_text; take 32 (drop 16 demo_text); drop 48 demo_text] else [].

Lemma demo_packets_u8 e : Forall (Forall is_u8) (demo_packets e).
Proof.
  unfold demo_packets. case_match; [|done].
  repeat (constructor; [vm_compute; repeat (constructor; [done|]); constructor|]). constructor.
Qed.

Definition printer_hw : Hardware := data_hw (fun e => e =? 3) (fun _ => 64%nat) demo_packets.
Definition printer_host : DataHost (HW := printer_hw) (fun e => e =? 3) (fun _ => 64%nat) demo_packets :=
  data_host _ _ _ demo_packets_u8.

Lemma bootloader_loads_file_witness : exists w' f,
  main_loop (HW := printer_hw) (BD := no_board _) 4 64 (fun _ _ => (0, None)) 4 100
    (selected_world (initial_Printer_App 0) 0) = Ret tt w' /\
  spm_run 4 (spm (HEXParser (app w'))) (at_rest (fun _ => 7)) = Some f /\ busy f = false /\
  forall x, 0 <= x -> cells f x = programmed 4 (fun _ => 7) [1; 2; 3; 4; 5; 6] x.
Proof.
  apply (bootloader_loads_file (HW := printer_hw) (BD := no_board _) (QL := fun _ _ => eq_refl) (DH := printer_host)
    (fun _ _ => (0, None)) 4 64 2 (fun _ => 7) demo_chunks [13; 10] 4 100 3 4 (selected_world (initial_Printer_App 0) 0)); try done.
  - unfold chunks_ok, demo_chunks, is_u8. rewrite !Forall_cons_iff.
    split_and!; try done; try (cbn; lia); try (by exists 2%nat); try (by exists 1%nat); by repeat constructor.
  - by repeat constructor.
  - by repeat constructor.
  - vm_compute. repeat (constructor; [split; [done|lia]|]). constructor.
  - lia.
  - vm_compute. lia.
Defined.
