(* ===== verification/VirtualFAT.v ===== *)
(** The virtual disk of the mass storage boot loader: Bootloaders/MassStorage/
    Lib/VirtualFAT.[ch].

    The disk shows the flash memory and the EEPROM as the two files of a FAT12 volume.
    The flash memory is known by the operations on it (Flash.v), the EEPROM by the bytes
    that were written, the latest first. *)

From stdpp Require Import base tactics option list numbers strings.
From Stdlib Require Import ZArith Lia.
From S2P Require Import Prelude Memory Hardware Endpoint USBController ControlStream DeviceStandardReq.
From S2P Require Import EndpointStream ClassDriver MassStorageDevice Flash BootloaderAPI.

(** ** The layout of the disk *)

Definition SECTOR_PER_CLUSTER : Z := 4.
Definition SECTOR_SIZE_BYTES : Z := 512.
Definition CLUSTER_SIZE_BYTES : Z := SECTOR_PER_CLUSTER * SECTOR_SIZE_BYTES.
Definition FILE_SECTORS (size : Z) : Z := size / SECTOR_SIZE_BYTES + (if size mod SECTOR_SIZE_BYTES =? 0 then 0 else 1).
Definition FILE_CLUSTERS (size : Z) : Z := size / CLUSTER_SIZE_BYTES + (if size mod CLUSTER_SIZE_BYTES =? 0 then 0 else 1).

Definition DISK_FILE_ENTRY_FLASH_MSDOS : Z := 2.
Definition DISK_FILE_ENTRY_EEPROM_MSDOS : Z := 4.
Definition DISK_BLOCK_BootBlock : Z := 0.
Definition DISK_BLOCK_FATBlock1 : Z := 1.
Definition DISK_BLOCK_FATBlock2 : Z := 2.
Definition DISK_BLOCK_RootFilesBlock : Z := 3.
Definition DISK_BLOCK_DataStartBlock : Z := 4.

Definition FAT_TIME (hh mm ss : Z) : Z := Z.lor (Z.lor (Z.shiftl hh 11) (Z.shiftl mm 5)) (Z.shiftr ss 1).
Definition FAT_DATE (dd mm yyyy : Z) : Z := Z.lor (Z.lor (Z.shiftl (yyyy - 1980) 9) (Z.shiftl mm 5)) dd.
Definition ROT8 (x : Z) : Z := Z.lor (Z.shiftr (Z.land x 0xFE) 1) (if tst x 1 then 0x80 else 0).
(** [FAT_CHECKSUM(n0, ..., e2)] of the characters of a name. *)
Definition FAT_CHECKSUM (name : list Z) : Z :=
  match name with
  | [] => 0
  | n0 :: ns => u8 (foldl (fun sum n => ROT8 sum + n) n0 ns)
  end.
Definition FAT_FLAG_VOLUME_NAME : Z := bit 3.
Definition FAT_FLAG_LONG_FILE_NAME : Z := 0x0F.
Definition FAT_ORDINAL_LAST_ENTRY : Z := bit 6.

Section Layout.
Context {T : Target}.
Definition FLASH_FILE_SIZE_BYTES : Z := FLASHEND - (FLASHEND - BOOT_START_ADDR) - AUX_BOOT_SECTION_SIZE.
Definition EEPROM_FILE_SIZE_BYTES : Z := E2END.
Definition LUN_MEDIA_BLOCKS : Z := FILE_SECTORS FLASH_FILE_SIZE_BYTES + FILE_SECTORS EEPROM_FILE_SIZE_BYTES + 32.
End Layout.

(** ** The structures on the disk *)

Record FATBootBlock_t : Set := mkBootBlock {
  Bootstrap : list Z;
  Description : list Z;
  SectorSize : Z;
  SectorsPerCluster : Z;
  ReservedSectors : Z;
  FATCopies : Z;
  RootDirectoryEntries : Z;
  TotalSectors16 : Z;
  MediaDescriptor : Z;
  SectorsPerFAT : Z;
  SectorsPerTrack : Z;
  Heads : Z;
  HiddenSectors : Z;
  TotalSectors32 : Z;
  PhysicalDriveNum : Z;
  ExtendedBootRecordSig : Z;
  VolumeSerialNumber : Z;
  VolumeLabel : list Z;
  FilesystemIdentifier : list Z
}.
Definition enc_boot_block (b : FATBootBlock_t) : list Z :=
  Bootstrap b ++ Description b ++ le16 (SectorSize b) ++ [u8 (SectorsPerCluster b)] ++ le16 (ReservedSectors b) ++
  [u8 (FATCopies b)] ++ le16 (RootDirectoryEntries b) ++ le16 (TotalSectors16 b) ++ [u8 (MediaDescriptor b)] ++
  le16 (SectorsPerFAT b) ++ le16 (SectorsPerTrack b) ++ le16 (Heads b) ++ le32 (HiddenSectors b) ++
  le32 (TotalSectors32 b) ++ le16 (PhysicalDriveNum b) ++ [u8 (ExtendedBootRecordSig b)] ++
  le32 (VolumeSerialNumber b) ++ VolumeLabel b ++ FilesystemIdentifier b.

(** The union; the name of a long file name entry is its 13 characters. *)
Inductive FATDirectoryEntry_t : Set :=
  | VFAT_LongFileName (Ordinal : Z) (Unicode : list Z) (Attribute Checksum : Z)
  | MSDOS_File (Filename Extension : list Z) (Attributes CreationTime CreationDate StartingCluster FileSizeBytes : Z)
  | MSDOS_Directory (Name : list Z) (Attributes CreationTime CreationDate StartingCluster : Z).
Definition sizeof_FATDirectoryEntry : Z := 32.
Definition enc_entry (e : FATDirectoryEntry_t) : list Z :=
  match e with
  | VFAT_LongFileName o u a c =>
      [u8 o] ++ (take 5 u ≫= le16) ++ [u8 a; 0; u8 c] ++ (take 6 (drop 5 u) ≫= le16) ++ le16 0 ++ (drop 11 u ≫= le16)
  | MSDOS_File n x a t d s z => n ++ x ++ [u8 a] ++ replicate 10 0 ++ le16 t ++ le16 d ++ le16 s ++ le32 z
  | MSDOS_Directory n a t d s => n ++ [u8 a] ++ replicate 10 0 ++ le16 t ++ le16 d ++ le16 s ++ le32 0
  end.

Section Contents.
Context {T : Target}.

Definition BootBlock : FATBootBlock_t :=
  mkBootBlock [0xEB; 0x3C; 0x90] (bytes_of "mkdosfs" ++ [0]) SECTOR_SIZE_BYTES SECTOR_PER_CLUSTER 1 2
    (SECTOR_SIZE_BYTES / sizeof_FATDirectoryEntry) LUN_MEDIA_BLOCKS 0xF8 1 (LUN_MEDIA_BLOCKS mod 64)
    (LUN_MEDIA_BLOCKS / 64) 0 0 0 0x29 0x12345678 (bytes_of "LUFA BOOT  ") (bytes_of "FAT12   ").

Definition initial_entries : list FATDirectoryEntry_t := [
  MSDOS_Directory (bytes_of "LUFA BOOT  ") FAT_FLAG_VOLUME_NAME 0 0 0;
  VFAT_LongFileName (Z.lor 1 FAT_ORDINAL_LAST_ENTRY) (bytes_of "FLASH.BIN" ++ replicate 4 0) FAT_FLAG_LONG_FILE_NAME
    (FAT_CHECKSUM (bytes_of "FLASH   BIN"));
  MSDOS_File (bytes_of "FLASH   ") (bytes_of "BIN") 0 (FAT_TIME 1 1 0) (FAT_DATE 14 2 1989) 2 FLASH_FILE_SIZE_BYTES;
  VFAT_LongFileName (Z.lor 1 FAT_ORDINAL_LAST_ENTRY) (bytes_of "EEPROM.BIN" ++ replicate 3 0) FAT_FLAG_LONG_FILE_NAME
    (FAT_CHECKSUM (bytes_of "EEPROM  BIN"));
  MSDOS_File (bytes_of "EEPROM  ") (bytes_of "BIN") 0 (FAT_TIME 1 1 0) (FAT_DATE 14 2 1989)
    (2 + FILE_CLUSTERS FLASH_FILE_SIZE_BYTES) EEPROM_FILE_SIZE_BYTES
].
End Contents.

(** ** The state *)

(** [FirmwareFileEntries] is memory the host can overwrite, and the two memories. *)
Record Volume : Set := mkVolume {
  FirmwareFileEntries : list Z;
  flash : spm_log;
  eeprom : eeprom_log
}.
Definition set_FirmwareFileEntries e v := mkVolume e (flash v) (eeprom v).
Definition set_flash l v := mkVolume (FirmwareFileEntries v) l (eeprom v).
Definition set_eeprom l v := mkVolume (FirmwareFileEntries v) (flash v) l.
Definition sizeof_FirmwareFileEntries : Z := 5 * sizeof_FATDirectoryEntry.
Definition initial_Volume {T : Target} : Volume := mkVolume (initial_entries ≫= enc_entry) [] [].

(** [FirmwareFileEntries[n].MSDOS_File.StartingCluster] *)
Definition StartingCluster (n : Z) (v : Volume) : Z :=
  let o := Z.to_nat (n * sizeof_FATDirectoryEntry + 26) in
  of_le16 (nth o (FirmwareFileEntries v) 0) (nth (o + 1) (FirmwareFileEntries v) 0).
Definition FLASHFileStartCluster : Volume -> Z := StartingCluster DISK_FILE_ENTRY_FLASH_MSDOS.
Definition EEPROMFileStartCluster : Volume -> Z := StartingCluster DISK_FILE_ENTRY_EEPROM_MSDOS.

(** ** The file allocation table *)

Definition UpdateFAT12ClusterEntry (FATTable : list Z) (Index ChainEntry : Z) : list Z :=
  let FATOffset := Z.to_nat (u8 (Index + Z.shiftr Index 1)) in
  let UpperNibble := negb (Z.land Index 1 =? 0) in
  if UpperNibble then
    let FATTable := <[FATOffset := u8 (Z.lor (Z.land (nth FATOffset FATTable 0) 0x0F)
                                             (Z.shiftl (Z.land ChainEntry 0x0F) 4))]> FATTable in
    <[(FATOffset + 1)%nat := u8 (Z.shiftr ChainEntry 4)]> FATTable
  else
    let FATTable := <[FATOffset := u8 ChainEntry]> FATTable in
    <[(FATOffset + 1)%nat := u8 (Z.lor (Z.land (nth FATOffset FATTable 0) 0xF0) (Z.shiftr ChainEntry 8))]> FATTable.

(** [for (uint8_t i = 0; i < ChainLength; i++)] *)
Definition UpdateFAT12ClusterChain (FATTable : list Z) (Index ChainLength : Z) : list Z :=
  foldl (fun FATTable i =>
      let CurrentCluster := u16 (Index + i) in
      let NextCluster := if i =? ChainLength - 1 then 0xFFF else u16 (CurrentCluster + 1) in
      UpdateFAT12ClusterEntry FATTable CurrentCluster NextCluster)
    FATTable (seqZ 0 ChainLength).

(** ** The files *)

Section Files.
Context {T : Target} {N : NVM}.

(** The type of [FlashAddress]. *)
Definition flash_address (x : Z) : Z := if 0xFFFF <? FLASHEND then u32 x else u16 x.

(** The block is in a file of [size] bytes from cluster [start] on. *)
Definition FileStartBlock (start : Z) : Z := u16 (DISK_BLOCK_DataStartBlock + (start - 2) * SECTOR_PER_CLUSTER).
Definition in_file (start size BlockNumber : Z) : bool :=
  let FileEndBlock := u16 (FileStartBlock start + (FILE_SECTORS size - 1)) in
  (FileStartBlock start <=? BlockNumber) && (BlockNumber <=? FileEndBlock).

(** The body of [for (i = 0; i < SECTOR_SIZE_BYTES; i++)], reading. *)
Definition read_byte (v : Volume) (s : Z * list Z) (i : nat) : Z * list Z :=
  let '(FlashAddress, BlockBuffer) := s in
  (flash_address (FlashAddress + 1), <[i := pgm_read_byte (flash v) FlashAddress]> BlockBuffer).

(** The body of [for (i = 0; i < SECTOR_SIZE_BYTES; i += 2)], writing. *)
Definition write_word (BlockBuffer : list Z) (s : Z * spm_log) (k : nat) : Z * spm_log :=
  let '(FlashAddress, log) := s in
  let i := (2 * k)%nat in
  let log := if FlashAddress mod SPM_PAGESIZE =? 0 then BootloaderAPI_ErasePage FlashAddress log else log in
  let log := BootloaderAPI_FillWord FlashAddress
               (u16 (Z.lor (Z.shiftl (nth (i + 1) BlockBuffer 0) 8) (nth i BlockBuffer 0))) log in
  let FlashAddress := flash_address (FlashAddress + 2) in
  let log := if FlashAddress mod SPM_PAGESIZE =? 0
             then BootloaderAPI_WritePage (flash_address (FlashAddress - SPM_PAGESIZE)) log else log in
  (FlashAddress, log).

(** The result is the volume and the buffer. *)
Definition ReadWriteFLASHFileBlock (BlockNumber : Z) (Read : bool) (v : Volume) (BlockBuffer : list Z)
    : Volume * list Z :=
  let start := FLASHFileStartCluster v in
  if negb (in_file start FLASH_FILE_SIZE_BYTES BlockNumber) then (v, BlockBuffer)
  else
    let FlashAddress := flash_address (u16 (BlockNumber - FileStartBlock start) * SECTOR_SIZE_BYTES) in
    if Read then (v, (foldl (read_byte v) (FlashAddress, BlockBuffer) (seq 0 512)).2)
    else (set_flash (foldl (write_word BlockBuffer) (FlashAddress, flash v) (seq 0 256)).2 v, BlockBuffer).

Definition ReadEEPROMByte (v : Volume) (Address : Z) : Z := eeprom_read_byte (eeprom v) Address.
(** [eeprom_update_byte] *)
Definition WriteEEPROMByte (Address Data : Z) (log : eeprom_log) : eeprom_log := (Address, Data) :: log.

Definition read_eeprom (v : Volume) (s : Z * list Z) (i : nat) : Z * list Z :=
  let '(EEPROMAddress, BlockBuffer) := s in
  (u16 (EEPROMAddress + 1), <[i := ReadEEPROMByte v EEPROMAddress]> BlockBuffer).
Definition write_eeprom (BlockBuffer : list Z) (s : Z * eeprom_log) (i : nat) : Z * eeprom_log :=
  let '(EEPROMAddress, log) := s in
  (u16 (EEPROMAddress + 1), WriteEEPROMByte EEPROMAddress (nth i BlockBuffer 0) log).

Definition ReadWriteEEPROMFileBlock (BlockNumber : Z) (Read : bool) (v : Volume) (BlockBuffer : list Z)
    : Volume * list Z :=
  let start := EEPROMFileStartCluster v in
  if negb (in_file start EEPROM_FILE_SIZE_BYTES BlockNumber) then (v, BlockBuffer)
  else
    let EEPROMAddress := u16 (u16 (BlockNumber - FileStartBlock start) * SECTOR_SIZE_BYTES) in
    if Read then (v, (foldl (read_eeprom v) (EEPROMAddress, BlockBuffer) (seq 0 512)).2)
    else (set_eeprom (foldl (write_eeprom BlockBuffer) (EEPROMAddress, eeprom v) (seq 0 512)).2 v, BlockBuffer).

(** ** Blocks *)

(** The [switch] of [VirtualFAT_WriteBlock]; the directory is smaller than a block. *)
Definition write_block (BlockNumber : Z) (BlockBuffer : list Z) (v : Volume) : Volume :=
  if (BlockNumber =? DISK_BLOCK_BootBlock) || (BlockNumber =? DISK_BLOCK_FATBlock1) ||
     (BlockNumber =? DISK_BLOCK_FATBlock2) then v
  else if BlockNumber =? DISK_BLOCK_RootFilesBlock then
    set_FirmwareFileEntries (take (Z.to_nat sizeof_FirmwareFileEntries) BlockBuffer) v
  else
    let '(v, BlockBuffer) := ReadWriteFLASHFileBlock BlockNumber false v BlockBuffer in
    (ReadWriteEEPROMFileBlock BlockNumber false v BlockBuffer).1.

(** The [switch] of [VirtualFAT_ReadBlock]. *)
Definition read_block (BlockNumber : Z) (v : Volume) : list Z :=
  let BlockBuffer := replicate 512 0 in
  if BlockNumber =? DISK_BLOCK_BootBlock then
    let b := enc_boot_block BootBlock in
    let BlockBuffer := b ++ drop (length b) BlockBuffer in
    <[511%nat := 0xAA]> (<[510%nat := 0x55]> BlockBuffer)
  else if (BlockNumber =? DISK_BLOCK_FATBlock1) || (BlockNumber =? DISK_BLOCK_FATBlock2) then
    let BlockBuffer := UpdateFAT12ClusterEntry BlockBuffer 0 (Z.lor 0xF00 (MediaDescriptor BootBlock)) in
    let BlockBuffer := UpdateFAT12ClusterEntry BlockBuffer 1 0xFFF in
    let BlockBuffer := UpdateFAT12ClusterChain BlockBuffer (FLASHFileStartCluster v) (u8 (FILE_CLUSTERS FLASH_FILE_SIZE_BYTES)) in
    UpdateFAT12ClusterChain BlockBuffer (EEPROMFileStartCluster v) (u8 (FILE_CLUSTERS EEPROM_FILE_SIZE_BYTES))
  else if BlockNumber =? DISK_BLOCK_RootFilesBlock then
    FirmwareFileEntries v ++ drop (length (FirmwareFileEntries v)) BlockBuffer
  else
    let BlockBuffer := (ReadWriteFLASHFileBlock BlockNumber true v BlockBuffer).2 in
    (ReadWriteEEPROMFileBlock BlockNumber true v BlockBuffer).2.
End Files.

(** ** The globals of the boot loader *)

(** MassStorageClassCommon.h *)
Record SCSI_Request_Sense_Response_t : Set := mkSense {
  ResponseCode : Z;
  SegmentNumber : Z;
  SenseKey : Z;
  Information : list Z;
  AdditionalLength : Z;
  CmdSpecificInformation : list Z;
  AdditionalSenseCode : Z;
  AdditionalSenseQualifier : Z;
  FieldReplaceableUnitCode : Z;
  SenseKeySpecific : list Z
}.

Record Disk_App : Set := mkDiskApp {
  Disk_MS_Interface : MSInfo;
  RunBootloader : bool;
  MagicBootKey : Z;
  TicksSinceLastCommand : Z;
  SenseData : SCSI_Request_Sense_Response_t;
  volume : Volume
}.
Definition set_Disk_MS_Interface i a :=
  mkDiskApp i (RunBootloader a) (MagicBootKey a) (TicksSinceLastCommand a) (SenseData a) (volume a).
Definition set_RunBootloader b a :=
  mkDiskApp (Disk_MS_Interface a) b (MagicBootKey a) (TicksSinceLastCommand a) (SenseData a) (volume a).
Definition set_MagicBootKey k a :=
  mkDiskApp (Disk_MS_Interface a) (RunBootloader a) k (TicksSinceLastCommand a) (SenseData a) (volume a).
Definition set_Ticks t a :=
  mkDiskApp (Disk_MS_Interface a) (RunBootloader a) (MagicBootKey a) (u8 t) (SenseData a) (volume a).
Definition set_SenseData s a :=
  mkDiskApp (Disk_MS_Interface a) (RunBootloader a) (MagicBootKey a) (TicksSinceLastCommand a) s (volume a).
Definition set_volume v a :=
  mkDiskApp (Disk_MS_Interface a) (RunBootloader a) (MagicBootKey a) (TicksSinceLastCommand a) (SenseData a) v.

#[export] Instance Disk_object : Object Disk_App MSInfo :=
  {| load := Disk_MS_Interface; store := set_Disk_MS_Interface;
     load_store := fun _ _ => eq_refl; store_store := fun _ _ _ => eq_refl |}.

Section VirtualFAT.
Context {HW : Hardware} {EV : DeviceEvents Disk_App} {RQ : DeviceRequests Disk_App} {T : Target} {N : NVM}.
(** The contents of the stack. *)
Context (uninit : Z -> Z) (fuel : nat).
Abbreviation P := (prog (World Disk_App)).

Definition VirtualFAT_WriteBlock (BlockNumber : Z) : P unit :=
  r ← Endpoint_Read_Stream_LE fuel (vla uninit SECTOR_SIZE_BYTES) SECTOR_SIZE_BYTES None;
  let '(BlockBuffer, _, _) := r in
  Endpoint_ClearOUT;;
  modify (upd_app (fun a => set_volume (write_block BlockNumber BlockBuffer (volume a)) a)).

Definition VirtualFAT_ReadBlock (BlockNumber : Z) : P unit :=
  v ← gets (fun w => volume (app w));
  Endpoint_Write_Stream_LE fuel (read_block BlockNumber v) SECTOR_SIZE_BYTES None;;
  Endpoint_ClearIN.
End VirtualFAT.
