(* ===== verification/VirtualFATSpec.v ===== *)
(** Correctness of the virtual disk (VirtualFAT.v): it is a block device over two files,
    and its file allocation table describes them. *)

From stdpp Require Import base tactics option list numbers.
From Stdlib Require Import ZArith Lia Znumtheory.
From S2P Require Import Prelude Memory Flash FlashSpec BootloaderAPI MassStorageDevice VirtualFAT.

(** ** The processor *)

(** Pages are a power of two and no larger than a sector; both files are whole sectors
    (the EEPROM has [E2END] + 1 bytes), and the application is below the boot loader. *)
Class TargetOK (T : Target) : Prop := {
  ok_page : exists k, 1 <= k <= 9 /\ SPM_PAGESIZE = 2 ^ k;
  ok_flash : exists k, 0 < k /\ FLASH_FILE_SIZE_BYTES = 512 * k;
  ok_flashend : FLASH_FILE_SIZE_BYTES <= FLASHEND < 2 ^ 24;
  ok_eeprom : exists k, 0 < k /\ E2END + 1 = 512 * k;
  ok_e2end : E2END < 65536
}.

(** ** Writing a sector of the flash memory *)

Section Sector.
Context {T : Target} {TO : TargetOK T} {N : NVM}.
Context (c0 : Z -> Z) (A : Z) (buf : list Z).
Abbreviation P := (@SPM_PAGESIZE T).
Abbreviation run := (spm_run P).
Abbreviation byte := (FlashSpec.byte buf).
Abbreviation filling := (FlashSpec.filling P c0 A buf).
Hypothesis Hbuf : Forall is_u8 buf.

(** The address [a] is next; a page is blank from its first word on. *)
Definition written_up_to (a : Z) (f : Flash) : Prop :=
  if a mod P =? 0 then idle f /\ forall x, cells f x = if (A <=? x) && (x <? a) then byte (x - A) else c0 x
  else filling (page_of P a) (a mod P) f.

Lemma erase_filling q log f0 f : A <= P * q -> run log f0 = Some f -> written_up_to (P * q) f ->
  exists f1, run (BootloaderAPI_ErasePage (P * q) log) f0 = Some f1 /\ filling (P * q) 0 f1.
Proof.
  intros HA Hr Hw. destruct (page_base P ok_page q) as [_ Hm]. unfold written_up_to in Hw. rewrite Hm, Z.eqb_refl in Hw.
  destruct Hw as [Hi Hc]. destruct (erase_blank P ok_page c0 A buf q f HA Hi Hc) as (f1 & E & Hf).
  unfold BootloaderAPI_ErasePage. change (boot_rww_enable :: ?a :: ?b :: ?l) with (boot_rww_enable :: [a; b] ++ l).
  rewrite spm_run_cons, spm_run_app, spm_run_cons, Hr. cbn [mbind option_bind spm_step].
  rewrite (rested f), E by apply Hi. cbn. destruct Hf as (Hb & Hc1 & Ht & Hfl). rewrite Hb. eexists. split; [reflexivity|].
  split_and!; [done|exact Hc1| |done]. intros o. cbn. by destruct (Z.leb_spec 0 o), (Z.ltb_spec o 0); cbn; lia || done.
Qed.

Lemma fill_filling q t log f0 f b0 b1 : 0 <= t -> t + 2 <= P -> byte (P * q + t - A) = b0 -> byte (P * q + t + 1 - A) = b1 ->
  is_u8 b0 -> is_u8 b1 -> run log f0 = Some f -> filling (P * q) t f ->
  exists f1, run (BootloaderAPI_FillWord (P * q + t) (u16 (Z.lor (Z.shiftl b1 8) b0)) log) f0 = Some f1 /\
    filling (P * q) (t + 2) f1.
Proof.
  intros Ht HP Hb0 Hb1 Hu0 Hu1 Hr Hf. unfold BootloaderAPI_FillWord. rewrite !spm_run_cons, Hr. cbn [mbind option_bind].
  change (spm_step P boot_spm_busy_wait f) with (Some (mkFlash (cells f) (temp f) (filled f) false)). rewrite (rested f) by apply Hf.
  unfold is_u8 in *. rewrite lor_shiftl by lia. change (2 ^ 8) with 256. rewrite u16_small by (unfold is_u16; lia).
  by apply fill_word.
Qed.

Lemma page_filling q log f0 f : run log f0 = Some f -> A <= P * q -> filling (P * q) P f ->
  exists f1, run (BootloaderAPI_WritePage (P * q) log) f0 = Some f1 /\ written_up_to (P * q + P) f1.
Proof.
  intros Hr HA Hf. destruct (page_facts P ok_page) as (h & E & Hh & _).
  destruct (write_buffer P ok_page c0 A buf Hbuf q P f HA ltac:(lia) Hf) as (f1 & E1 & (Hb & Ht & Hfl) & Hc).
  unfold BootloaderAPI_WritePage. change (boot_rww_enable :: ?a :: ?b :: ?l) with (boot_rww_enable :: [a; b] ++ l).
  rewrite spm_run_cons, spm_run_app, spm_run_cons, Hr. cbn [mbind option_bind spm_step].
  rewrite (rested f), E1 by apply Hf. cbn. rewrite Hb. eexists. split; [reflexivity|].
  unfold written_up_to. assert ((P * q + P) mod P = 0) as ->.
  { replace (P * q + P) with (P * (q + 1)) by lia. apply page_base, ok_page. }
  rewrite Z.eqb_refl. split; [done|]. intros x. cbn. rewrite Hc. unfold downloaded. by destruct (Z.leb_spec A x), (Z.ltb_spec x (P * q + P)), (Z.leb_spec (P * q + P) x); cbn; lia || done.
Qed.

Hypothesis HA : exists j, 0 <= j /\ A = 512 * j.
Hypothesis Hend : A + 512 <= FLASH_FILE_SIZE_BYTES.

Lemma flash_address_id x : 0 <= x <= FLASH_FILE_SIZE_BYTES -> flash_address x = x.
Proof using TO.
  intros Hx. pose proof ok_flashend. unfold flash_address. destruct (Z.ltb_spec 0xFFFF FLASHEND).
  - apply u32_small. unfold is_u32. lia.
  - apply u16_small. unfold is_u16. lia.
Qed.

(** A word, which may be the first or the last of a page. *)
Lemma write_word_step k log f0 f : (k < 256)%nat -> let a := A + 2 * Z.of_nat k in
  run log f0 = Some f -> written_up_to a f ->
  exists log' f', write_word buf (a, log) k = (a + 2, log') /\ run log' f0 = Some f' /\ written_up_to (a + 2) f' /\
    ((a + 2) mod P = 0 -> rww_ready log' = true).
Proof.
  intros Hk a Hr Hw. destruct HA as (j & Hj & EA). destruct (page_facts P ok_page) as (h & EP & Hh & c & Ec).
  destruct (page_split P ok_page a) as (q & Hg & Ea & Ht). set (t := a mod P) in *.
  assert (A <= P * q) as HAq.
  { assert (A = P * (c * j)) as -> by nia. assert (c * j < q + 1) by nia. nia. }
  assert (t + 2 <= P) as Ht2. { assert (t = 2 * (256 * j + Z.of_nat k - h * q)) by (unfold a in Ea; nia). lia. }
  assert (byte (P * q + t - A) = nth (2 * k) buf 0) as Hb0 by (unfold byte; f_equal; lia).
  assert (byte (P * q + t + 1 - A) = nth (2 * k + 1) buf 0) as Hb1 by (unfold byte; f_equal; lia).
  (* the page is blank *)
  set (log1 := if t =? 0 then BootloaderAPI_ErasePage a log else log).
  assert (exists f1, run log1 f0 = Some f1 /\ filling (P * q) t f1) as (f1 & Hr1 & Hf1).
  { unfold log1. unfold written_up_to in Hw. fold t in Hw. destruct (Z.eqb_spec t 0) as [E|E].
    - assert (a = P * q) as Eq by lia. rewrite Eq, E. apply (erase_filling q log f0 f); [done|done|].
      rewrite <- Eq. unfold written_up_to. fold t. by rewrite E.
    - exists f. split; [done|]. by rewrite <- Hg. }
  (* the word is in the buffer *)
  pose proof (byte_u8 buf (P * q + t - A) Hbuf) as Hu0. pose proof (byte_u8 buf (P * q + t + 1 - A) Hbuf) as Hu1. rewrite Hb0 in Hu0. rewrite Hb1 in Hu1.
  destruct (fill_filling q t log1 f0 f1 _ _ (proj1 Ht) Ht2 Hb0 Hb1 Hu0 Hu1 Hr1 Hf1) as (f2 & Hr2 & Hf2). rewrite <- Ea in Hr2.
  unfold write_word. fold t log1. rewrite flash_address_id by lia.
  set (log2 := BootloaderAPI_FillWord _ _ _) in *. destruct (decide (t + 2 = P)) as [E|E].
  - replace (a + 2) with (P * q + P) by lia. assert ((P * q + P) mod P = 0) as Em.
    { replace (P * q + P) with (P * (q + 1)) by lia. apply page_base, ok_page. }
    rewrite Em, Z.eqb_refl. replace (P * q + P - P) with (P * q) by lia. rewrite flash_address_id by lia. rewrite E in Hf2.
    destruct (page_filling q log2 f0 f2 Hr2 HAq Hf2) as (f3 & Hr3 & Hf3). eexists _, f3. by split_and!.
  - assert (0 <= t + 2 < P) as Ht3 by lia. destruct (offset_of P q (t + 2) Ht3) as [Em Hp].
    replace (a + 2) with (P * q + (t + 2)) by lia. rewrite Em, (proj2 (Z.eqb_neq _ _)) by lia.
    eexists _, f2. split_and!; [done|done| |lia]. unfold written_up_to. by rewrite Em, (proj2 (Z.eqb_neq _ _)), Hp by lia.
Qed.

(** The whole sector. *)
Lemma write_sector log f0 f : run log f0 = Some f -> idle f -> (forall x, cells f x = c0 x) ->
  exists log' f', foldl (write_word buf) (A, log) (seq 0 256) = (A + 512, log') /\ run log' f0 = Some f' /\ idle f' /\
    rww_ready log' = true /\
    forall x, cells f' x = if (A <=? x) && (x <? A + 512) then byte (x - A) else c0 x.
Proof.
  intros Hr Hi Hc. destruct (page_facts P ok_page) as (h & EP & Hh & c & Ec). destruct (HA) as (j & Hj & EA).
  assert (A mod P = 0) as Em by (replace A with (P * (c * j)) by nia; apply page_base, ok_page).
  assert ((A + 512) mod P = 0) as Em2 by (replace (A + 512) with (P * (c * (j + 1))) by nia; apply page_base, ok_page).
  assert (forall k, (k <= 256)%nat -> exists log' f', foldl (write_word buf) (A, log) (seq 0 k) = (A + 2 * Z.of_nat k, log') /\
    run log' f0 = Some f' /\ written_up_to (A + 2 * Z.of_nat k) f' /\ ((k = 256)%nat -> rww_ready log' = true)) as H.
  { induction k as [|k IH]; intros Hk.
    - exists log, f. replace (A + 2 * Z.of_nat 0) with A by lia. split_and!; [done|done| |lia].
      unfold written_up_to. rewrite Em, Z.eqb_refl. split; [done|]. intros x. rewrite Hc.
      destruct (Z.leb_spec A x), (Z.ltb_spec x A); cbn; done || lia.
    - destruct IH as (log1 & f1 & E1 & Hr1 & Hw1 & _); [lia|].
      destruct (write_word_step k log1 f0 f1 ltac:(lia) Hr1 Hw1) as (log2 & f2 & E2 & Hr2 & Hw2 & Hrdy).
      exists log2, f2. rewrite seq_S, foldl_app, E1. cbn [foldl plus]. rewrite E2.
      replace (A + 2 * Z.of_nat (S k)) with (A + 2 * Z.of_nat k + 2) by lia. split_and!; [done..|].
      intros Ek. apply Hrdy. by replace (A + 2 * Z.of_nat k + 2) with (A + 512) by lia. }
  destruct (H 256%nat ltac:(lia)) as (log' & f' & E & Hr' & Hw & Hrdy). change (2 * Z.of_nat 256) with 512 in *.
  exists log', f'. unfold written_up_to in Hw. rewrite Em2, Z.eqb_refl in Hw. destruct Hw as [? ?]. split_and!; auto.
Qed.
End Sector.

(** ** The loops over a sector *)

Section Loops.
Context (wrap g : Z -> Z) (A : Z) (n : nat) (Hwrap : forall i, 0 <= i < Z.of_nat n -> wrap (A + i) = A + i) (Hn : (0 < n)%nat).

Lemma read_loop step buf k : (forall a b i, step (a, b) i = (wrap (a + 1), <[i := g a]> b)) ->
  (k <= n)%nat -> (k <= length buf)%nat ->
  foldl step (A, buf) (seq 0 k) = (wrap (A + Z.of_nat k), map g (seqZ A (Z.of_nat k)) ++ drop k buf).
Proof using Hwrap Hn.
  intros Hstep. induction k as [|k IH]; intros Hk Hl.
  - cbn. rewrite Hwrap by lia. by rewrite Z.add_0_r.
  - rewrite seq_S, foldl_app, IH by lia. cbn [foldl plus]. rewrite Hstep, Hwrap by lia. f_equal; [f_equal; lia|].
    replace (Z.of_nat (S k)) with (Z.of_nat k + 1) by lia. rewrite seqZ_app, map_app, <- app_assoc by lia.
    destruct (lookup_lt_is_Some_2 buf k) as [x Hx]; [lia|]. rewrite (drop_S buf x k Hx).
    rewrite insert_app_r_alt by (rewrite length_map, length_seqZ; lia).
    rewrite length_map, length_seqZ, Nat2Z.id, Nat.sub_diag. done.
Qed.

Lemma eeprom_loop (step : Z * eeprom_log -> nat -> Z * eeprom_log) (buf : list Z) log e0 k : (forall a l i, step (a, l) i = (wrap (a + 1), (a, nth i buf 0) :: l)) -> (k <= n)%nat ->
  exists log', foldl step (A, log) (seq 0 k) = (wrap (A + Z.of_nat k), log') /\
    forall x, eeprom_cells log' e0 x =
      if (A <=? x) && (x <? A + Z.of_nat k) then byte buf (x - A) else eeprom_cells log e0 x.
Proof using Hwrap Hn.
  intros Hstep. induction k as [|k IH]; intros Hk.
  - exists log. cbn. rewrite Hwrap by lia. rewrite Z.add_0_r. split; [done|]. intros x.
    destruct (Z.leb_spec A x), (Z.ltb_spec x A); cbn; done || lia.
  - destruct IH as (log' & E & Hc); [lia|]. rewrite seq_S, foldl_app, E. cbn [foldl plus]. rewrite Hstep, Hwrap by lia.
    eexists. split; [f_equal; f_equal; lia|]. intros x. cbn [eeprom_cells foldr]. change (foldr _ _ log') with (eeprom_cells log' e0 x).
    rewrite Hc. destruct (Z.eqb_spec x (A + Z.of_nat k)) as [->|].
    + rewrite (proj2 (Z.leb_le _ _)), (proj2 (Z.ltb_lt _ _)) by lia. cbn. unfold byte. f_equal. lia.
    + destruct (Z.leb_spec A x), (Z.ltb_spec x (A + Z.of_nat k)), (Z.ltb_spec x (A + Z.of_nat (S k))); cbn; done || lia.
Qed.
End Loops.

(** ** The disk as two files *)

(** The root directory and the contents of FLASH.BIN and EEPROM.BIN. *)
Record Disk : Set := mkDisk {
  root : list Z;
  flash_file : list Z;
  eeprom_file : list Z
}.

(** Sector [k] of a file. *)
Definition sector (k : Z) (file : list Z) : list Z := take 512 (drop (Z.to_nat (512 * k)) file).
Definition set_sector (k : Z) (data file : list Z) : list Z :=
  take (Z.to_nat (512 * k)) file ++ data ++ drop (Z.to_nat (512 * k) + 512) file.

Section Disk.
Context {T : Target} {N : NVM}.

(** The sector of a file that is block [n] of the disk: files are contiguous, and the
    directory says where they start. *)
Definition directory (d : Disk) : Volume := mkVolume (root d) [] [].
Definition file_sector (start size n : Z) : option Z :=
  if in_file start size n then Some (n - FileStartBlock start) else None.
Definition flash_sector (d : Disk) (n : Z) : option Z := file_sector (FLASHFileStartCluster (directory d)) FLASH_FILE_SIZE_BYTES n.
Definition eeprom_sector (d : Disk) (n : Z) : option Z := file_sector (EEPROMFileStartCluster (directory d)) EEPROM_FILE_SIZE_BYTES n.

Definition disk_read (n : Z) (d : Disk) : list Z :=
  if n <=? DISK_BLOCK_RootFilesBlock then read_block n (directory d)
  else match eeprom_sector d n, flash_sector d n with
       | Some k, _ => sector k (eeprom_file d)
       | None, Some k => sector k (flash_file d)
       | None, None => replicate 512 0
       end.
Definition disk_write (n : Z) (data : list Z) (d : Disk) : Disk :=
  if n <? DISK_BLOCK_RootFilesBlock then d
  else if n =? DISK_BLOCK_RootFilesBlock then mkDisk (take 160 data) (flash_file d) (eeprom_file d)
  else mkDisk (root d)
         (match flash_sector d n with Some k => set_sector k data (flash_file d) | None => flash_file d end)
         (match eeprom_sector d n with Some k => set_sector k data (eeprom_file d) | None => eeprom_file d end).

(** The volume holds the disk: the operations on the flash memory were all defined, are
    finished, and have changed nothing but the file. *)
Definition flash_holds (c0 : Z -> Z) (log : spm_log) (file : list Z) : Prop :=
  exists f, spm_run SPM_PAGESIZE log (at_rest c0) = Some f /\ idle f /\ rww_ready log = true /\
    file = map (cells f) (seqZ 0 FLASH_FILE_SIZE_BYTES) /\
    forall x, x < 0 \/ FLASH_FILE_SIZE_BYTES <= x -> cells f x = c0 x.
Definition holds (c0 e0 : Z -> Z) (v : Volume) (d : Disk) : Prop :=
  FirmwareFileEntries v = root d /\ flash_holds c0 (flash v) (flash_file d) /\
  eeprom_file d = map (eeprom_cells (eeprom v) e0) (seqZ 0 (E2END + 1)).
End Disk.

(** ** Sectors *)

Lemma seqZ_drop a n k : 0 <= k <= n -> drop (Z.to_nat k) (seqZ a n) = seqZ (a + k) (n - k).
Proof.
  intros Hk. replace n with (k + (n - k)) at 1 by lia. rewrite seqZ_app by lia.
  rewrite drop_app_ge by (rewrite length_seqZ; lia). rewrite length_seqZ, Nat.sub_diag. by rewrite drop_0.
Qed.
Lemma seqZ_take a n k : 0 <= k <= n -> take (Z.to_nat k) (seqZ a n) = seqZ a k.
Proof.
  intros Hk. replace n with (k + (n - k)) at 1 by lia. rewrite seqZ_app by lia.
  rewrite take_app_le by (rewrite length_seqZ; lia). apply take_ge. rewrite length_seqZ. lia.
Qed.

Lemma sector_map (f : Z -> Z) n k : 0 <= k -> 512 * k + 512 <= n -> sector k (map f (seqZ 0 n)) = map f (seqZ (512 * k) 512).
Proof.
  intros Hk Hn. unfold sector. rewrite skipn_map, firstn_map, seqZ_drop by lia.
  change 512%nat with (Z.to_nat 512). by rewrite seqZ_take by lia.
Qed.

Lemma set_sector_map (f g : Z -> Z) n k data : length data = 512%nat -> 0 <= k -> 512 * k + 512 <= n ->
  (forall x, g x = if (512 * k <=? x) && (x <? 512 * k + 512) then byte data (x - 512 * k) else f x) ->
  set_sector k data (map f (seqZ 0 n)) = map g (seqZ 0 n).
Proof.
  intros Hl Hk Hn Hg. unfold set_sector. replace (Z.to_nat (512 * k) + 512)%nat with (Z.to_nat (512 * k + 512)) by lia.
  rewrite skipn_map, firstn_map, seqZ_drop, seqZ_take by lia. symmetry.
  replace n with (512 * k + (512 + (n - (512 * k + 512)))) at 1 by lia. rewrite !seqZ_app, !map_app by lia. f_equal; [|f_equal].
  - apply map_ext_in. intros x Hx%list_elem_of_In%elem_of_seqZ. rewrite Hg, (proj2 (Z.leb_gt _ _)) by lia. done.
  - apply list_eq_same_length with 512%nat; [done|by rewrite length_map, length_seqZ|].
    intros i x y Hi. change (map g) with (fmap (M := list) g). rewrite list_lookup_fmap, lookup_seqZ_lt by lia. cbn. intros [= <-] Hy. rewrite Hg.
    rewrite (proj2 (Z.leb_le _ _)), (proj2 (Z.ltb_lt _ _)) by lia. cbn. unfold byte.
    replace (Z.to_nat _) with i by lia. by apply nth_lookup_Some.
  - replace (0 + 512 * k + 512) with (0 + (512 * k + 512)) by lia.
    apply map_ext_in. intros x Hx%list_elem_of_In%elem_of_seqZ. rewrite Hg, (proj2 (Z.ltb_ge _ _)), andb_false_r by lia. done.
Qed.

Section Refinement.
Context {T : Target} {TO : TargetOK T} {N : NVM} {c0 e0 : Z -> Z} {NR : NVMReads N c0 e0}.

Lemma flash_sectors : 512 * FILE_SECTORS FLASH_FILE_SIZE_BYTES = FLASH_FILE_SIZE_BYTES /\ 1 <= FILE_SECTORS FLASH_FILE_SIZE_BYTES <= 65535.
Proof using TO.
  destruct ok_flash as (k & Hk & E). pose proof ok_flashend. unfold FILE_SECTORS, SECTOR_SIZE_BYTES. rewrite E, (Z.mul_comm 512 k).
  rewrite Z.div_mul, Z.mod_mul by lia. cbn. lia.
Qed.
Lemma eeprom_sectors : 512 * FILE_SECTORS EEPROM_FILE_SIZE_BYTES = E2END + 1 /\ 1 <= FILE_SECTORS EEPROM_FILE_SIZE_BYTES <= 65535.
Proof using TO.
  destruct ok_eeprom as (k & Hk & E). pose proof ok_e2end. unfold FILE_SECTORS, SECTOR_SIZE_BYTES, EEPROM_FILE_SIZE_BYTES.
  assert (E2END / 512 = k - 1 /\ E2END mod 512 = 511) as [-> ->]; [|change (511 =? 0) with false; cbn [negb]; lia].
  replace E2END with (511 + (k - 1) * 512) by lia. rewrite Z.div_add, Z_mod_plus_full by lia. done.
Qed.

Lemma file_sector_bounds start size n k : 1 <= FILE_SECTORS size <= 65535 -> file_sector start size n = Some k ->
  0 <= k < FILE_SECTORS size /\ u16 (n - FileStartBlock start) = k.
Proof.
  intros HS. unfold file_sector, in_file. pose proof (u16_range (DISK_BLOCK_DataStartBlock + (start - 2) * SECTOR_PER_CLUSTER)) as Hs.
  fold (FileStartBlock start) in Hs. set (s := FileStartBlock start) in *. unfold is_u16 in Hs.
  destruct (_ && _) eqn:E; [|done]. apply andb_true_iff in E as [E1%Z.leb_le E2%Z.leb_le]. intros [= <-].
  set (S := FILE_SECTORS size) in *. unfold u16 in E2. assert (0 <= n - s < S) as Hk.
  { pose proof (Z.mod_pos_bound (s + (S - 1)) 65536 ltac:(lia)).
    destruct (decide (s + (S - 1) < 65536)); [rewrite Z.mod_small in E2; lia|].
    replace (s + (S - 1)) with (s + (S - 1) - 65536 + 1 * 65536) in E2 by lia. rewrite Z_mod_plus_full, Z.mod_small in E2; lia. }
  split; [done|]. apply u16_small. unfold is_u16. lia.
Qed.

Section Volume.
Context (v : Volume) (d : Disk) (Hv : holds c0 e0 v d).

Lemma start_cluster n : StartingCluster n v = StartingCluster n (directory d).
Proof using Hv. destruct Hv as [Hroot _]. unfold StartingCluster. by rewrite Hroot. Qed.

(** A sector of FLASH.BIN is read and written. *)
Lemma flash_read n buf : length buf = 512%nat ->
  (ReadWriteFLASHFileBlock n true v buf).2
  = match flash_sector d n with Some k => sector k (flash_file d) | None => buf end.
Proof using All.
  intros Hl. destruct (Hv) as (Hroot & (f & Hr & (Hb & _) & Hrdy & Hfile & _) & _). unfold ReadWriteFLASHFileBlock, flash_sector, file_sector.
  unfold FLASHFileStartCluster. rewrite start_cluster. fold FLASHFileStartCluster.
  destruct (in_file _ _ n) eqn:E; cbn [negb]; [|done]. destruct flash_sectors as [HS1 HS2].
  destruct (file_sector_bounds (FLASHFileStartCluster (directory d)) FLASH_FILE_SIZE_BYTES n _ HS2 ltac:(unfold file_sector; by rewrite E)) as [Hk ->].
  set (k := n - _) in *. rewrite flash_address_id by (unfold SECTOR_SIZE_BYTES; lia). unfold SECTOR_SIZE_BYTES.
  rewrite (read_loop flash_address (pgm_read_byte (flash v)) (k * 512) 512); [|intros i Hi; apply flash_address_id; lia|lia|done|lia|lia].
  cbn [snd]. rewrite drop_ge, app_nil_r by lia. rewrite Hfile, sector_map by lia. replace (k * 512) with (512 * k) by lia.
  apply map_ext. intros x. by apply flash_reads.
Qed.

Lemma flash_write n data : length data = 512%nat -> Forall is_u8 data ->
  exists log', ReadWriteFLASHFileBlock n false v data = (set_flash log' v, data) /\
    flash_holds c0 log' (match flash_sector d n with Some k => set_sector k data (flash_file d) | None => flash_file d end).
Proof using TO Hv.
  intros Hl Hu. destruct (Hv) as (Hroot & (f & Hr & Hi & Hrdy & Hfile & Hout) & _). unfold ReadWriteFLASHFileBlock, flash_sector, file_sector.
  unfold FLASHFileStartCluster. rewrite start_cluster. fold FLASHFileStartCluster.
  destruct (in_file _ _ n) eqn:E; cbn [negb]; [|exists (flash v); split; [by destruct v|by exists f]]. destruct flash_sectors as [HS1 HS2].
  destruct (file_sector_bounds (FLASHFileStartCluster (directory d)) FLASH_FILE_SIZE_BYTES n _ HS2 ltac:(unfold file_sector; by rewrite E)) as [Hk ->].
  set (k := n - _) in *. unfold SECTOR_SIZE_BYTES. rewrite flash_address_id, Z.mul_comm by lia.
  destruct (write_sector (cells f) (512 * k) data Hu ltac:(exists k; lia) ltac:(lia) (flash v) (at_rest c0) f Hr Hi (fun x => eq_refl))
    as (log' & f' & -> & Hr' & Hi' & Hrdy' & Hc'). exists log'. split; [done|]. exists f'. split_and!; try done.
  - rewrite Hfile. apply set_sector_map; [done|lia|lia|done].
  - intros x Hx. rewrite Hc', Hout by done. destruct (Z.leb_spec (512 * k) x), (Z.ltb_spec x (512 * k + 512)); cbn; done || lia.
Qed.

(** And of EEPROM.BIN. *)
Lemma eeprom_address k : 0 <= k < FILE_SECTORS EEPROM_FILE_SIZE_BYTES ->
  u16 (k * 512) = 512 * k /\ forall i, 0 <= i < Z.of_nat 512 -> u16 (512 * k + i) = 512 * k + i.
Proof using TO.
  intros Hk. destruct eeprom_sectors as [HS1 HS2]. pose proof ok_e2end. rewrite Z.mul_comm.
  split; [|intros i Hi]; apply u16_small; unfold is_u16; lia.
Qed.

Lemma eeprom_read n buf : length buf = 512%nat ->
  (ReadWriteEEPROMFileBlock n true v buf).2
  = match eeprom_sector d n with Some k => sector k (eeprom_file d) | None => buf end.
Proof using All.
  intros Hl. destruct (Hv) as (Hroot & _ & Hfile). unfold ReadWriteEEPROMFileBlock, eeprom_sector, file_sector.
  unfold EEPROMFileStartCluster. rewrite start_cluster. fold EEPROMFileStartCluster.
  destruct (in_file _ _ n) eqn:E; cbn [negb]; [|done]. destruct eeprom_sectors as [HS1 HS2].
  destruct (file_sector_bounds (EEPROMFileStartCluster (directory d)) EEPROM_FILE_SIZE_BYTES n _ HS2 ltac:(unfold file_sector; by rewrite E)) as [Hk ->].
  set (k := n - _) in *. destruct (eeprom_address k Hk) as [Ea Hw]. unfold SECTOR_SIZE_BYTES. rewrite Ea.
  rewrite (read_loop u16 (ReadEEPROMByte v) (512 * k) 512 Hw); [|lia|done|lia|lia].
  cbn [snd]. rewrite drop_ge, app_nil_r by lia. rewrite Hfile, sector_map by lia.
  apply map_ext. intros x. apply eeprom_reads.
Qed.

Lemma eeprom_write n data : length data = 512%nat ->
  exists log', (ReadWriteEEPROMFileBlock n false v data).1 = set_eeprom log' v /\
    (match eeprom_sector d n with Some k => set_sector k data (eeprom_file d) | None => eeprom_file d end)
    = map (eeprom_cells log' e0) (seqZ 0 (E2END + 1)).
Proof using TO Hv.
  intros Hl. destruct (Hv) as (Hroot & _ & Hfile). unfold ReadWriteEEPROMFileBlock, eeprom_sector, file_sector.
  unfold EEPROMFileStartCluster. rewrite start_cluster. fold EEPROMFileStartCluster.
  destruct (in_file _ _ n) eqn:E; cbn [negb]; [|exists (eeprom v); split; [by destruct v|done]]. destruct eeprom_sectors as [HS1 HS2].
  destruct (file_sector_bounds (EEPROMFileStartCluster (directory d)) EEPROM_FILE_SIZE_BYTES n _ HS2 ltac:(unfold file_sector; by rewrite E)) as [Hk ->].
  set (k := n - _) in *. destruct (eeprom_address k Hk) as [Ea Hw]. unfold SECTOR_SIZE_BYTES. rewrite Ea.
  destruct (eeprom_loop u16 (512 * k) 512 Hw ltac:(lia) (write_eeprom data) data (eeprom v) e0 512) as (log' & -> & Hc); [done|lia|].
  exists log'. split; [done|]. rewrite Hfile. apply set_sector_map; [done|lia|lia|done].
Qed.
End Volume.

(** What the code reads and writes is what the disk says. *)
Lemma read_block_refines n v d : 0 <= n -> holds c0 e0 v d -> read_block n v = disk_read n d.
Proof using TO NR.
  intros Hn Hv. unfold disk_read. destruct (Z.leb_spec n DISK_BLOCK_RootFilesBlock) as [H|H]; unfold DISK_BLOCK_RootFilesBlock in H.
  - destruct (Hv) as [Hroot _]. unfold read_block, FLASHFileStartCluster, EEPROMFileStartCluster. rewrite !(start_cluster v d Hv), Hroot.
    assert (n = 0 \/ n = 1 \/ n = 2 \/ n = 3) as [-> | [-> | [-> | ->]]] by lia; reflexivity.
  - unfold read_block, DISK_BLOCK_BootBlock, DISK_BLOCK_FATBlock1, DISK_BLOCK_FATBlock2, DISK_BLOCK_RootFilesBlock.
    rewrite !(proj2 (Z.eqb_neq n _)) by lia. cbn [orb]. rewrite (eeprom_read v d Hv).
    + rewrite (flash_read v d Hv) by done. by destruct (eeprom_sector d n), (flash_sector d n).
    + rewrite (flash_read v d Hv) by done. destruct (flash_sector d n) as [k|] eqn:E; [|done].
      destruct (Hv) as (_ & (f & _ & _ & _ & -> & _) & _). destruct flash_sectors as [HS1 HS2].
      destruct (file_sector_bounds _ _ n k HS2 E). by rewrite sector_map, length_map, length_seqZ by lia.
Qed.

Lemma write_block_refines n data v d : 0 <= n -> length data = 512%nat -> Forall is_u8 data ->
  holds c0 e0 v d -> holds c0 e0 (write_block n data v) (disk_write n data d).
Proof using TO.
  intros Hn Hl Hu Hv. destruct (Hv) as (Hroot & Hf & He).
  unfold write_block, disk_write, DISK_BLOCK_BootBlock, DISK_BLOCK_FATBlock1, DISK_BLOCK_FATBlock2, DISK_BLOCK_RootFilesBlock.
  destruct (Z.ltb_spec n 3).
  { replace ((n =? 0) || (n =? 1) || (n =? 2)) with true; [done|]. destruct (Z.eqb_spec n 0), (Z.eqb_spec n 1), (Z.eqb_spec n 2); done || lia. }
  rewrite (proj2 (Z.eqb_neq n 0)), (proj2 (Z.eqb_neq n 1)), (proj2 (Z.eqb_neq n 2)) by lia. cbn [orb]. destruct (n =? 3); [by split_and!|].
  destruct (flash_write v d Hv n data Hl Hu) as (log1 & -> & Hf1).
  assert (holds c0 e0 (set_flash log1 v) (mkDisk (root d) (match flash_sector d n with Some k => set_sector k data (flash_file d) | None => flash_file d end)
    (eeprom_file d))) as Hv1 by by split_and!.
  destruct (eeprom_write _ _ Hv1 n data Hl) as (log2 & -> & He2). by split_and!.
Qed.
End Refinement.

(** ** The disk over time *)

Lemma sector_set_sector k data file : length data = 512%nat -> 0 <= k -> 512 * k + 512 <= Z.of_nat (length file) ->
  sector k (set_sector k data file) = data.
Proof.
  intros Hl Hk Hf. unfold sector, set_sector. assert (length (take (Z.to_nat (512 * k)) file) = Z.to_nat (512 * k)) as E
    by (rewrite length_take; lia). rewrite drop_app_ge by lia. rewrite E, Nat.sub_diag, drop_0, take_app_le by lia. apply take_ge. lia.
Qed.

Section Time.
Context {T : Target} {TO : TargetOK T} {N : NVM} {c0 e0 : Z -> Z}.

Definition initial_Disk : Disk :=
  mkDisk (FirmwareFileEntries initial_Volume) (map c0 (seqZ 0 FLASH_FILE_SIZE_BYTES)) (map e0 (seqZ 0 (E2END + 1))).
Definition written (writes : list (Z * list Z)) : Volume := foldl (fun v '(n, data) => write_block n data v) initial_Volume writes.
Definition disk_written (writes : list (Z * list Z)) : Disk := foldl (fun d '(n, data) => disk_write n data d) initial_Disk writes.
Definition write_ok (nd : Z * list Z) : Prop := is_u16 nd.1 /\ length nd.2 = 512%nat /\ Forall is_u8 nd.2.

Lemma initial_holds : holds c0 e0 initial_Volume initial_Disk.
Proof using Type. split; [done|]. split; [|done]. by exists (at_rest c0). Qed.

Lemma written_holds writes : Forall write_ok writes -> holds c0 e0 (written writes) (disk_written writes).
Proof using TO.
  intros H. unfold written, disk_written. generalize initial_holds. generalize initial_Volume initial_Disk.
  induction H as [|[n data] writes (Hn & Hl & Hu) _ IH]; intros v d Hv; [done|]. cbn [foldl]. apply IH.
  apply write_block_refines; [|done..]. cbn in Hn. unfold is_u16 in Hn. lia.
Qed.

Lemma read_your_write v d n data : holds c0 e0 v d -> 3 < n -> length data = 512%nat ->
  is_Some (flash_sector d n) \/ is_Some (eeprom_sector d n) -> disk_read n (disk_write n data d) = data.
Proof using TO.
  intros (_ & (f & _ & _ & _ & Hf & _) & He) Hn Hl Hs. unfold disk_read, disk_write, DISK_BLOCK_RootFilesBlock.
  rewrite (proj2 (Z.leb_gt n 3)), (proj2 (Z.ltb_ge n 3)), (proj2 (Z.eqb_neq n 3)) by lia.
  unfold eeprom_sector, flash_sector in *. cbn [root flash_file eeprom_file directory] in *.
  destruct flash_sectors as [HF1 HF2], eeprom_sectors as [HE1 HE2]. destruct (file_sector (EEPROMFileStartCluster _) _ n) as [k|] eqn:Ee.
  - destruct (file_sector_bounds _ _ _ _ HE2 Ee) as [Hk _]. apply sector_set_sector; [done|lia|]. rewrite He, length_map, length_seqZ. lia.
  - destruct (file_sector (FLASHFileStartCluster _) _ n) as [k|] eqn:Ef; [|destruct Hs as [[]|[]]; done].
    destruct (file_sector_bounds _ _ _ _ HF2 Ef) as [Hk _]. apply sector_set_sector; [done|lia|]. rewrite Hf, length_map, length_seqZ. lia.
Qed.
End Time.
Arguments initial_Disk {T} c0 e0.
Arguments disk_written {T} c0 e0 writes.

(** C8: the virtual disk is a block device over two files.  Whatever blocks the host
    writes, and also when it writes a directory that moves the files, or makes them
    overlap, or places them outside the disk: every operation on the flash memory is
    defined and finished; outside FLASH.BIN, and so in the boot loader, the memory does
    not change; reading any block gives what the disk of two contiguous files holds; and
    a block of a file that is written reads back. *)
Theorem volume_refines_disk {T : Target} {TO : TargetOK T} {N : NVM} {c0 e0} {NR : NVMReads N c0 e0} writes :
  Forall write_ok writes -> let v := written writes in let d := disk_written c0 e0 writes in
  (exists f, spm_run SPM_PAGESIZE (flash v) (at_rest c0) = Some f /\ busy f = false /\
     forall x, x < 0 \/ FLASH_FILE_SIZE_BYTES <= x -> cells f x = c0 x) /\
  (forall n, is_u16 n -> read_block n v = disk_read n d) /\
  (forall n data, 3 < n -> length data = 512%nat -> is_Some (flash_sector d n) \/ is_Some (eeprom_sector d n) ->
     disk_read n (disk_write n data d) = data).
Proof.
  intros Hw v d. pose proof (written_holds (c0 := c0) (e0 := e0) writes Hw) as Hv. split_and!.
  - destruct Hv as (_ & (f & Hr & (Hb & _) & _ & _ & Hout) & _). by exists f.
  - intros n Hn. unfold is_u16 in Hn. apply (read_block_refines (c0 := c0) (e0 := e0)); [lia|exact Hv].
  - intros n data. exact (read_your_write v d n data Hv).
Qed.

(** ** Processors *)

Lemma at90usb1287_ok : TargetOK at90usb1287.
Proof.
  split; cbn.
  - exists 8. split; [lia|done].
  - exists 240. split; [lia|done].
  - unfold FLASH_FILE_SIZE_BYTES. cbn. lia.
  - exists 8. split; [lia|done].
  - done.
Qed.
Lemma at90usb647_ok : TargetOK at90usb647.
Proof.
  split; cbn.
  - exists 8. split; [lia|done].
  - exists 112. split; [lia|done].
  - unfold FLASH_FILE_SIZE_BYTES. cbn. lia.
  - exists 4. split; [lia|done].
  - done.
Qed.

(** The host writes the first block of FLASH.BIN. *)
Definition demo_writes : list (Z * list Z) := [(4, replicate 512 0x5A)].

Lemma volume_refines_disk_witness :
  let T := at90usb1287 in let N := machine_nvm (T := T) (fun _ => 7) (fun _ => 9) in
  let v := written (T := T) demo_writes in let d := disk_written (T := T) (fun _ => 7) (fun _ => 9) demo_writes in
  (exists f, spm_run 256 (flash v) (at_rest (fun _ => 7)) = Some f /\ busy f = false /\
     forall x, x < 0 \/ FLASH_FILE_SIZE_BYTES <= x -> cells f x = 7) /\
  (forall n, is_u16 n -> read_block n v = disk_read n d) /\
  (forall n data, 3 < n -> length data = 512%nat -> is_Some (flash_sector d n) \/ is_Some (eeprom_sector d n) ->
     disk_read n (disk_write n data d) = data).
Proof.
  apply (volume_refines_disk (TO := at90usb1287_ok) (NR := machine_reads (T := at90usb1287) (fun _ => 7) (fun _ => 9)) demo_writes).
  constructor; [|constructor]. split; [done|]. split; [done|]. by apply Forall_replicate.
Defined.
