(* ===== verification/FATSpec.v ===== *)
(** The file allocation table of the virtual disk (VirtualFAT.v): the FAT12 entries the
    host decodes from the block the code builds. *)

From stdpp Require Import base tactics option list numbers.
From Stdlib Require Import ZArith Lia.
From S2P Require Import Prelude Memory MassStorageDevice Flash FlashSpec VirtualFAT VirtualFATSpec.

(** ** FAT12 *)

(** Entry [i] of a table: two entries share three bytes. *)
Definition fat_entry (t : list Z) (i : nat) : Z :=
  let o := (i + i / 2)%nat in
  if Nat.even i then nth o t 0 + 256 * (nth (o + 1) t 0 mod 16) else nth o t 0 / 16 + 16 * nth (o + 1) t 0.

(** Entries [m], [m] + 1, ... set to [vs]. *)
Fixpoint write_entries (m : nat) (vs t : list Z) : list Z :=
  match vs with
  | [] => t
  | v :: vs => write_entries (S m) vs (UpdateFAT12ClusterEntry t (Z.of_nat m) v)
  end.

Lemma write_entries_app m vs vs' t :
  write_entries m (vs ++ vs') t = write_entries (m + length vs) vs' (write_entries m vs t).
Proof.
  revert m t; induction vs as [|v vs IH]; intros m t; cbn [write_entries Datatypes.app length]; [by rewrite Nat.add_0_r|].
  rewrite IH. f_equal. lia.
Qed.

(** The clusters [s], [s] + 1, ... of a file of [n] clusters. *)
Definition chain (s n : Z) : list Z := map (fun i => if i =? n - 1 then 0xFFF else s + i + 1) (seqZ 0 n).

Lemma ClusterChain_entries t s n : 0 <= n -> Z.of_nat s + n < 65536 ->
  UpdateFAT12ClusterChain t (Z.of_nat s) n = write_entries s (chain (Z.of_nat s) n) t.
Proof.
  intros Hn Hs. unfold UpdateFAT12ClusterChain, chain.
  assert (forall k a t, 0 <= a -> a + Z.of_nat k <= n ->
    foldl (fun FATTable i =>
      let CurrentCluster := u16 (Z.of_nat s + i) in
      let NextCluster := if i =? n - 1 then 0xFFF else u16 (CurrentCluster + 1) in
      UpdateFAT12ClusterEntry FATTable CurrentCluster NextCluster) t (seqZ a (Z.of_nat k))
    = write_entries (s + Z.to_nat a) (map (fun i => if i =? n - 1 then 0xFFF else Z.of_nat s + i + 1) (seqZ a (Z.of_nat k))) t) as H.
  { induction k as [|k IH]; intros a t0 Ha Hk; [done|]. rewrite seqZ_cons by lia. cbn [foldl map write_entries].
    replace (Z.pred (Z.of_nat (S k))) with (Z.of_nat k) by lia. rewrite IH by lia.
    rewrite u16_small by (unfold is_u16; lia). rewrite (u16_small (_ + 1)) by (unfold is_u16; lia).
    replace (Z.of_nat (s + Z.to_nat a)) with (Z.of_nat s + a) by lia. f_equal. lia. }
  specialize (H (Z.to_nat n) 0 t ltac:(lia) ltac:(lia)). rewrite Z2Nat.id in H by done. etransitivity; [exact H|]. f_equal. lia.
Qed.

(** ** Tables *)

(** The entries of [t] are [vs]; the bytes after them are 0, except that an even last
    entry also sets the half byte of the next one. *)
Definition fat_table (vs t : list Z) : Prop :=
  let m := length vs in
  length t = 512%nat /\ Forall is_u8 t /\
  (forall i v, vs !! i = Some v -> fat_entry t i = v) /\
  (forall o, ((3 * m + 1) / 2 <= o)%nat -> nth o t 0 = 0) /\
  (Nat.odd m = true -> nth ((3 * m + 1) / 2 - 1) t 0 / 16 = List.last vs 0 / 16 mod 16).

Definition is_u12 (v : Z) : Prop := 0 <= v < 4096.

Lemma nth_insert (o p : nat) x (t : list Z) : (o < length t)%nat -> nth p (<[o := x]> t) 0 = if (p =? o)%nat then x else nth p t 0.
Proof.
  intros Ho. rewrite !nth_lookup. destruct (Nat.eqb_spec p o) as [->|]; [by rewrite list_lookup_insert_eq|by rewrite list_lookup_insert_ne].
Qed.

Lemma nth_u8 (t : list Z) o : Forall is_u8 t -> is_u8 (nth o t 0).
Proof.
  intros H. rewrite nth_lookup. destruct (t !! o) eqn:E; [|done]. by eapply Forall_lookup_1 in E.
Qed.

(** The bytes of an entry, by enumeration. *)
Lemma checked_range (p : Z -> bool) n : forallb p (seqZ 0 n) = true -> forall v, 0 <= v < n -> p v = true.
Proof. intros H v Hv. rewrite forallb_forall in H. apply H, list_elem_of_In, elem_of_seqZ. lia. Qed.

Lemma even_entry v : is_u12 v -> let b := u8 (Z.lor (Z.land (u8 v) 0xF0) (Z.shiftr v 8)) in
  u8 v + 256 * (b mod 16) = v /\ b / 16 = v / 16 mod 16.
Proof.
  intros Hv. pose proof (checked_range (fun v => let b := u8 (Z.lor (Z.land (u8 v) 0xF0) (Z.shiftr v 8)) in
    (u8 v + 256 * (b mod 16) =? v) && (b / 16 =? v / 16 mod 16)) 4096 ltac:(vm_compute; reflexivity) v Hv) as H.
  cbv beta zeta in H. bool_hyps. done.
Qed.

Lemma odd_entry b0 v : is_u8 b0 -> is_u12 v -> let b := u8 (Z.lor (Z.land b0 0x0F) (Z.shiftl (Z.land v 0x0F) 4)) in
  b mod 16 = b0 mod 16 /\ b / 16 + 16 * u8 (Z.shiftr v 4) = v.
Proof.
  intros Hb Hv b.
  change 0x0F with (Z.ones 4) in b. unfold b. rewrite !Z.land_ones by lia. change (2 ^ 4) with 16.
  pose proof (Z.mod_pos_bound b0 16 ltac:(lia)) as H0. pose proof (Z.mod_pos_bound v 16 ltac:(lia)) as H1.
  rewrite Z.lor_comm, lor_shiftl by lia. change (2 ^ 4) with 16. unfold is_u12 in Hv.
  rewrite u8_small by (unfold is_u8; lia). rewrite Z.add_comm, (Z.mul_comm 16 (v mod 16)), Z_mod_plus_full, Z.div_add by lia.
  rewrite Z.mod_mod, (Z.div_small (b0 mod 16)) by lia. split; [done|]. rewrite Z.shiftr_div_pow2 by lia. change (2 ^ 4) with 16.
  pose proof (Z.div_mod v 16 ltac:(lia)). rewrite u8_small; [lia|]. split; [apply Z.div_pos|apply Z.div_lt_upper_bound]; lia.
Qed.

(** Where the entries are. *)
Lemma entry_offset m h : (m = 2 * h \/ m = 2 * h + 1)%nat -> (m < 170)%nat ->
  Z.to_nat (u8 (Z.of_nat m + Z.shiftr (Z.of_nat m) 1)) = (m + h)%nat /\ (m + m / 2 = m + h)%nat /\
  ((3 * m + 1) / 2 = m + h + (m - 2 * h))%nat.
Proof.
  intros Hm Hl. assert (m / 2 = h)%nat as E by (destruct Hm as [-> | ->]; [rewrite Nat.mul_comm; by apply Nat.div_mul|
    rewrite Nat.add_comm, Nat.mul_comm, Nat.div_add by lia; done]).
  assert (Z.shiftr (Z.of_nat m) 1 = Z.of_nat h) as Es by (rewrite Z.shiftr_div_pow2 by lia; change (2 ^ 1) with (Z.of_nat 2); rewrite <- Nat2Z.inj_div; by rewrite E).
  rewrite Es, E, u8_small by (unfold is_u8; lia). split; [lia|]. split; [done|].
  destruct Hm as [-> | ->].
  - replace (3 * (2 * h) + 1)%nat with (1 + (3 * h) * 2)%nat by lia. rewrite Nat.div_add by lia. cbn. lia.
  - replace (3 * (2 * h + 1) + 1)%nat with ((3 * h + 2) * 2)%nat by lia. rewrite Nat.div_mul by lia. lia.
Qed.

(** An entry depends on its two bytes only. *)
Lemma fat_entry_bytes t t' i g : (i = 2 * g \/ i = 2 * g + 1)%nat -> (i < 170)%nat ->
  nth (i + g) t' 0 = nth (i + g) t 0 ->
  (if Nat.even i then nth (i + g + 1) t' 0 mod 16 = nth (i + g + 1) t 0 mod 16 else nth (i + g + 1) t' 0 = nth (i + g + 1) t 0) ->
  fat_entry t' i = fat_entry t i.
Proof.
  intros Hg Hi H0 H1. destruct (entry_offset i g Hg Hi) as (_ & E & _). unfold fat_entry. rewrite E, H0.
  destruct (Nat.even i); by rewrite H1.
Qed.

Lemma half m : exists h, (m = 2 * h \/ m = 2 * h + 1)%nat.
Proof. destruct (Nat.Even_or_Odd m) as [[h ->]|[h ->]]; eauto. Qed.

Lemma update_table vs t v : fat_table vs t -> is_u12 v -> (length vs < 170)%nat ->
  fat_table (vs ++ [v]) (UpdateFAT12ClusterEntry t (Z.of_nat (length vs)) v).
Proof.
  intros (Hl & Hu & He & Hz & _) Hv Hm. unfold fat_table. rewrite length_app, List.last_last. cbn [length]. replace (length vs + 1)%nat with (S (length vs)) by lia.
  set (m := length vs) in *. destruct (half m) as (h & Hh). destruct (entry_offset m h Hh Hm) as (Eo & Em & Ez). rewrite Ez in Hz.
  set (t' := UpdateFAT12ClusterEntry t (Z.of_nat m) v).
  assert (exists b0 b1, t' = <[(m + h + 1)%nat := b1]> (<[(m + h)%nat := b0]> t) /\ is_u8 b0 /\ is_u8 b1 /\
    (if Nat.even m then b0 + 256 * (b1 mod 16) = v /\ b1 / 16 = v / 16 mod 16
     else b0 mod 16 = nth (m + h) t 0 mod 16 /\ b0 / 16 + 16 * b1 = v)) as (b0 & b1 & Et & Hu0 & Hu1 & Hb).
  { unfold t', UpdateFAT12ClusterEntry. rewrite Eo. assert (Z.land (Z.of_nat m) 1 = Z.of_nat m mod 2) as -> by (apply (Z.land_ones _ 1); lia).
    destruct Hh as [Hh|Hh].
    - replace (Z.of_nat m mod 2) with 0 by (rewrite Hh, Nat2Z.inj_mul, Z.mul_comm; symmetry; apply Z.mod_mul; lia).
      cbn [Z.eqb negb]. do 2 eexists. split; [reflexivity|]. split; [apply u8_range|]. split; [apply u8_range|].
      rewrite nth_insert, Nat.eqb_refl by lia. assert (Nat.even m = true) as -> by (rewrite Hh; apply Nat.even_even). by apply even_entry.
    - replace (Z.of_nat m mod 2) with 1 by (rewrite Hh, Nat2Z.inj_add, Nat2Z.inj_mul, Z.add_comm, Z.mul_comm; symmetry; apply Z_mod_plus_full).
      cbn [Z.eqb Pos.eqb negb]. do 2 eexists. split; [reflexivity|]. split; [apply u8_range|]. split; [apply u8_range|].
      assert (Nat.even m = false) as -> by (rewrite Hh; apply Nat.even_odd). apply odd_entry; [by apply nth_u8|done]. }
  assert (forall p, nth p t' 0 = if (p =? m + h + 1)%nat then b1 else if (p =? m + h)%nat then b0 else nth p t 0) as Hn.
  { intros p. rewrite Et, !nth_insert by (rewrite ?length_insert; lia). done. }
  split; [by rewrite Et, !length_insert|]. split; [rewrite Et; by repeat apply Forall_insert|]. split_and!.
  - intros i x Hi. destruct (decide (i < m)%nat) as [Hlt|Hge].
    + rewrite lookup_app_l in Hi by done. rewrite <- (He i x Hi). destruct (half i) as (g & Hg).
      apply (fat_entry_bytes _ _ i g Hg); [lia| |].
      * rewrite Hn, (proj2 (Nat.eqb_neq _ _)), (proj2 (Nat.eqb_neq _ _)) by lia. done.
      * rewrite Hn, (proj2 (Nat.eqb_neq (i + g + 1) (m + h + 1))) by lia. destruct (Nat.eqb_spec (i + g + 1) (m + h)) as [E|]; [|by destruct (Nat.even i)].
        assert (i = 2 * h)%nat as -> by lia. rewrite Nat.even_even. assert (m = 2 * h + 1)%nat as Em2 by lia.
        assert (Nat.even m = false) as Ee by (rewrite Em2; apply Nat.even_odd). rewrite Ee in Hb. destruct Hb as [Hb _]. by rewrite Hb, E.
    + rewrite lookup_app_r in Hi by lia. replace i with m in * by (apply lookup_lt_Some in Hi; cbn in Hi; lia).
      fold m in Hi. rewrite Nat.sub_diag in Hi. injection Hi as <-. unfold fat_entry. rewrite Em, !Hn, Nat.eqb_refl.
      rewrite (proj2 (Nat.eqb_neq (m + h) (m + h + 1))), Nat.eqb_refl by lia. destruct (Nat.even m); tauto.
  - intros o Ho. assert ((3 * S m + 1) / 2 = m + h + 2)%nat as E.
    { destruct Hh as [-> | ->].
      - replace (3 * S (2 * h) + 1)%nat with ((3 * h + 2) * 2)%nat by lia. rewrite Nat.div_mul by lia. lia.
      - replace (3 * S (2 * h + 1) + 1)%nat with (1 + (3 * h + 3) * 2)%nat by lia. rewrite Nat.div_add by lia. cbn. lia. }
    rewrite E in Ho. rewrite Hn, (proj2 (Nat.eqb_neq o (m + h + 1))), (proj2 (Nat.eqb_neq o (m + h))) by lia. apply Hz. lia.
  - rewrite Nat.odd_succ. intros Hev. rewrite Hev in Hb. destruct Hb as [_ <-].
    destruct Hh as [Hh|Hh]; [|rewrite Hh, Nat.even_odd in Hev; done].
    replace ((3 * S m + 1) / 2)%nat with (m + h + 2)%nat.
    2: { rewrite Hh. replace (3 * S (2 * h) + 1)%nat with ((3 * h + 2) * 2)%nat by lia. rewrite Nat.div_mul by lia. lia. }
    rewrite Hn. replace (m + h + 2 - 1)%nat with (m + h + 1)%nat by lia. by rewrite Nat.eqb_refl.
Qed.

Lemma entries_table vs' : forall vs t, fat_table vs t -> Forall is_u12 vs' -> (length vs + length vs' <= 170)%nat ->
  fat_table (vs ++ vs') (write_entries (length vs) vs' t).
Proof.
  induction vs' as [|v vs' IH]; intros vs t Ht Hv Hl; [by rewrite app_nil_r|]. rewrite Forall_cons_iff in Hv. destruct Hv as [Hv Hvs].
  cbn [write_entries length] in *. replace (vs ++ v :: vs') with ((vs ++ [v]) ++ vs') by (by rewrite <- app_assoc).
  replace (S (length vs)) with (length (vs ++ [v])) by (rewrite length_app; cbn; lia).
  apply IH; [apply update_table; [done|done|lia]|done|rewrite length_app; cbn; lia].
Qed.

(** ** Files *)

(** The clusters a host finds from [c] on, up to an end of file mark. *)
Fixpoint follow (fuel : nat) (t : list Z) (c : Z) : list Z :=
  match fuel with
  | O => []
  | S fuel =>
      let next := fat_entry t (Z.to_nat c) in
      c :: (if 0xFF8 <=? next then [] else follow fuel t next)
  end.

Lemma follow_chain t s n : 0 <= s -> 0 < n -> s + n <= 0xFF8 ->
  (forall i v, chain s n !! i = Some v -> fat_entry t (Z.to_nat s + i) = v) ->
  forall k fuel, 0 <= k < n -> n - k <= Z.of_nat fuel -> follow fuel t (s + k) = seqZ (s + k) (n - k).
Proof.
  intros Hs Hn Hmax He k fuel. revert k; induction fuel as [|fuel IH]; intros k Hk Hf; [lia|]. cbn [follow].
  assert (fat_entry t (Z.to_nat (s + k)) = if k =? n - 1 then 0xFFF else s + k + 1) as ->.
  { rewrite Z2Nat.inj_add by lia. apply He. unfold chain. change (map ?f) with (fmap (M := list) f).
    rewrite list_lookup_fmap, lookup_seqZ_lt by lia. cbn. by rewrite Z2Nat.id by lia. }
  rewrite seqZ_cons by lia. f_equal. destruct (Z.eqb_spec k (n - 1)) as [->|].
  - by replace (Z.pred (n - (n - 1))) with 0 by lia.
  - rewrite (proj2 (Z.leb_gt _ _)) by lia. replace (s + k + 1) with (s + (k + 1)) by lia. rewrite IH by lia. f_equal; lia.
Qed.

Lemma chain_length s n : length (chain s n) = Z.to_nat n.
Proof. unfold chain. by rewrite length_map, length_seqZ. Qed.

Lemma chain_last s n : 0 < n -> exists l, chain s n = l ++ [0xFFF].
Proof.
  intros Hn. unfold chain. assert (seqZ 0 n = seqZ 0 (n - 1) ++ [n - 1]) as ->.
  { replace (seqZ 0 n) with (seqZ 0 ((n - 1) + 1)) by (f_equal; lia). by rewrite seqZ_app by lia. }
  rewrite map_app. eexists. f_equal.
  cbn. by rewrite (proj2 (Z.eqb_eq _ _)) by lia.
Qed.

Lemma chain_u12 s n : 0 <= s -> s + n <= 0xFFF -> Forall is_u12 (chain s n).
Proof.
  intros Hs Hn. unfold chain. apply Forall_map, Forall_forall. intros i Hi%list_elem_of_In%elem_of_seqZ. unfold is_u12. destruct (_ =? _); lia.
Qed.

Section Table.
Context {T : Target} {TO : TargetOK T} {N : NVM} (v : Volume) (n : Z).
Abbreviation cF := (FILE_CLUSTERS FLASH_FILE_SIZE_BYTES).
Abbreviation cE := (FILE_CLUSTERS EEPROM_FILE_SIZE_BYTES).

Definition table_entries : list Z := [0xFF8; 0xFFF] ++ chain 2 cF ++ chain (2 + cF) cE.

Lemma clusters_pos : 0 < cF /\ 0 < cE.
Proof using TO.
  destruct ok_flash as (k & Hk & Ek), ok_eeprom as (j & Hj & Ej). unfold EEPROM_FILE_SIZE_BYTES.
  assert (forall x, 0 < x -> 0 < FILE_CLUSTERS x) as H; [|split; apply H; lia]. intros x Hx. unfold FILE_CLUSTERS.
  pose proof (Z.div_mod x CLUSTER_SIZE_BYTES ltac:(done)). pose proof (Z.mod_pos_bound x CLUSTER_SIZE_BYTES ltac:(done)).
  assert (0 <= x / CLUSTER_SIZE_BYTES) by (apply Z.div_pos; [lia|done]). destruct (Z.eqb_spec (x mod CLUSTER_SIZE_BYTES) 0); nia.
Qed.

Lemma read_table : n = DISK_BLOCK_FATBlock1 \/ n = DISK_BLOCK_FATBlock2 ->
  FLASHFileStartCluster v = 2 -> EEPROMFileStartCluster v = 2 + cF -> 2 + cF + cE <= 170 ->
  fat_table table_entries (read_block n v).
Proof using TO.
  intros Hn HF HE Hmax. destruct clusters_pos as [HcF HcE]. 
  assert (read_block n v = write_entries 0 table_entries (replicate 512 0)) as ->.
  { transitivity (read_block DISK_BLOCK_FATBlock1 v); [by destruct Hn as [-> | ->]|]. unfold read_block.
    change (DISK_BLOCK_FATBlock1 =? DISK_BLOCK_BootBlock) with false. change (DISK_BLOCK_FATBlock1 =? DISK_BLOCK_FATBlock1) with true.
    cbn [orb]. rewrite HF, HE, !u8_small by (unfold is_u8; lia). unfold table_entries.
    rewrite !write_entries_app, chain_length. cbn [length plus].
    change 2 with (Z.of_nat 2) at 1. rewrite ClusterChain_entries by lia. change (Z.of_nat 2) with 2.
    replace (2 + cF) with (Z.of_nat (2 + Z.to_nat cF)) at 1 by lia. rewrite ClusterChain_entries by lia.
    by replace (Z.of_nat (2 + Z.to_nat cF)) with (2 + cF) by lia. }
  apply (entries_table table_entries [] (replicate 512 0)).
  - split_and!; [done|by apply Forall_replicate|done| |done]. intros o _. rewrite nth_lookup.
    destruct (replicate 512 0 !! o) eqn:E; [|done]. by apply lookup_replicate in E as [-> _].
  - unfold table_entries. repeat apply Forall_app_2; [by repeat constructor|apply chain_u12; lia|apply chain_u12; lia].
  - unfold table_entries. rewrite !length_app, !chain_length. cbn. lia.
Qed.
End Table.

(** ** Clusters are blocks *)

(** The block of sector [j] of cluster [k], as a host computes it: the data area begins
    at block 4 with cluster 2, and a cluster has four sectors. *)
Definition cluster_block (k j : Z) : Z := 4 + 4 * (k - 2) + j.

Lemma file_block start size i j : 2 <= start -> 4 + 4 * (start - 2) + FILE_SECTORS size < 65536 -> 0 <= i -> 0 <= j ->
  4 * i + j < FILE_SECTORS size -> file_sector start size (cluster_block (start + i) j) = Some (4 * i + j).
Proof.
  intros Hs Hm Hi Hj Hij. unfold file_sector, in_file, FileStartBlock, DISK_BLOCK_DataStartBlock, SECTOR_PER_CLUSTER, cluster_block.
  rewrite (u16_small (4 + _ * 4)), u16_small by (unfold is_u16; lia).
  rewrite (proj2 (Z.leb_le _ _)), (proj2 (Z.leb_le _ _)) by lia. cbn [andb]. f_equal. lia.
Qed.

Lemma other_block start size n : 2 <= start -> 4 + 4 * (start - 2) + FILE_SECTORS size < 65536 -> 1 <= FILE_SECTORS size ->
  n < 4 + 4 * (start - 2) \/ 4 + 4 * (start - 2) + FILE_SECTORS size <= n -> file_sector start size n = None.
Proof.
  intros Hs Hm H1 Hn. unfold file_sector, in_file, FileStartBlock, DISK_BLOCK_DataStartBlock, SECTOR_PER_CLUSTER.
  rewrite (u16_small (4 + _ * 4)), u16_small by (unfold is_u16; lia).
  destruct (_ && _) eqn:E; [|done]. apply andb_true_iff in E as [E1%Z.leb_le E2%Z.leb_le]. lia.
Qed.

Lemma cluster_sectors x : 0 <= x -> FILE_SECTORS x <= 4 * FILE_CLUSTERS x.
Proof.
  intros Hx. unfold FILE_SECTORS, FILE_CLUSTERS. change CLUSTER_SIZE_BYTES with 2048. change SECTOR_SIZE_BYTES with 512.
  pose proof (Z.div_mod x 2048 ltac:(done)). pose proof (Z.mod_pos_bound x 2048 ltac:(done)).
  pose proof (Z.div_mod x 512 ltac:(done)). pose proof (Z.mod_pos_bound x 512 ltac:(done)).
  destruct (Z.eqb_spec (x mod 512) 0), (Z.eqb_spec (x mod 2048) 0); cbn [negb]; lia.
Qed.

(** The file from cluster [start] on has its sectors in the blocks of its clusters, and
    no other file there. *)
Definition file_blocks (start size start' size' : Z) : Prop :=
  forall i j, 0 <= i -> 0 <= j < 4 -> 4 * i + j < FILE_SECTORS size ->
    file_sector start size (cluster_block (start + i) j) = Some (4 * i + j) /\
    file_sector start' size' (cluster_block (start + i) j) = None.

(** C18: the file allocation table shows the two files.  While the directory places them
    one after the other, as it does initially, and they have at most 167 clusters, a host
    that follows the table from the first cluster of a file finds its clusters in order
    and then the end mark; for each of the two files, the blocks of its cluster number [i],
    where the host looks for them, hold its sectors 4 [i] to 4 [i] + 3 and none of the
    other file; the first entry is the media descriptor; and
    all other clusters are free.  But the cluster after the files is only shown as free
    when its number is even: else its entry reads 0x00F, because an even entry also sets
    the low half byte of the next one (to that of its own second digit). *)
Theorem FAT_shows_files {T : Target} {TO : TargetOK T} {N : NVM} v n :
  let cF := FILE_CLUSTERS FLASH_FILE_SIZE_BYTES in let cE := FILE_CLUSTERS EEPROM_FILE_SIZE_BYTES in
  n = DISK_BLOCK_FATBlock1 \/ n = DISK_BLOCK_FATBlock2 ->
  FLASHFileStartCluster v = 2 -> EEPROMFileStartCluster v = 2 + cF -> 2 + cF + cE < 170 ->
  let t := read_block n v in
  length t = 512%nat /\ fat_entry t 0 = 0xFF8 /\
  follow 170 t (FLASHFileStartCluster v) = seqZ 2 cF /\ follow 170 t (EEPROMFileStartCluster v) = seqZ (2 + cF) cE /\
  file_blocks (FLASHFileStartCluster v) FLASH_FILE_SIZE_BYTES (EEPROMFileStartCluster v) EEPROM_FILE_SIZE_BYTES /\
  file_blocks (EEPROMFileStartCluster v) EEPROM_FILE_SIZE_BYTES (FLASHFileStartCluster v) FLASH_FILE_SIZE_BYTES /\
  (forall i, 2 + cF + cE < Z.of_nat i < 170 -> fat_entry t i = 0) /\
  fat_entry t (Z.to_nat (2 + cF + cE)) = (if Z.even (cF + cE) then 0 else 0x00F).
Proof.
  intros cF cE Hn HF HE Hmax t. destruct (read_table v n Hn HF HE (Z.lt_le_incl _ _ Hmax)) as (Hl & _ & He & Hz & Ho). fold t in Hl, He, Hz, Ho.
  destruct clusters_pos as [HcF HcE]. fold cF in HcF. fold cE in HcE.
  assert (length table_entries = Z.to_nat (2 + cF + cE)) as Hlen
    by (unfold table_entries; rewrite !length_app, !chain_length; fold cF cE; cbn; lia).
  rewrite Hlen in Hz, Ho. set (m := Z.to_nat (2 + cF + cE)) in *.
  destruct (half m) as (h & Hh). destruct (entry_offset m h Hh ltac:(lia)) as (_ & Em & Ez).
  destruct flash_sectors as [HS1 HS2], eeprom_sectors as [HT1 HT2]. pose proof ok_e2end as He2.
  assert (FILE_SECTORS FLASH_FILE_SIZE_BYTES <= 4 * cF) as HsF by (apply cluster_sectors; lia).
  assert (FILE_SECTORS EEPROM_FILE_SIZE_BYTES <= 4 * cE) as HsE by (apply cluster_sectors; unfold EEPROM_FILE_SIZE_BYTES; lia).
  split; [done|]. split; [by apply He|]. rewrite HF, HE. split_and!.
  - pose proof (follow_chain t 2 cF) as H. specialize (H ltac:(lia) HcF ltac:(lia)). rewrite <- (Z.add_0_r 2) at 1. rewrite H; [f_equal; lia| |lia|lia].
    intros i x Hx. apply He. unfold table_entries. apply lookup_app_Some. right. cbn [length]. split; [lia|].
    apply lookup_app_l_Some. rewrite <- Hx. f_equal. lia.
  - pose proof (follow_chain t (2 + cF) cE) as H. specialize (H ltac:(lia) HcE ltac:(lia)). rewrite <- (Z.add_0_r (2 + cF)) at 1.
    rewrite H; [f_equal; lia| |lia|lia]. intros i x Hx. apply He. unfold table_entries. fold cF cE. apply lookup_app_Some. right. cbn [length].
    split; [lia|]. apply lookup_app_Some. right. rewrite chain_length. split; [lia|].
    rewrite <- Hx. f_equal. lia.
  - intros i j Hi Hj Hij. split; [apply file_block; lia|]. apply other_block; [lia..|]. left. unfold cluster_block. lia.
  - intros i j Hi Hj Hij. split; [apply file_block; lia|]. apply other_block; [lia..|]. right. unfold cluster_block. lia.
  - intros i Hi. destruct (half i) as (g & Hg). destruct (entry_offset i g Hg ltac:(lia)) as (_ & E & _).
    rewrite Ez in Hz.
    unfold fat_entry. rewrite E, !Hz by lia. by destruct (Nat.even i).
  - unfold fat_entry. rewrite Em. rewrite Ez in Hz, Ho. destruct Hh as [Hh|Hh].
    + replace (cF + cE) with (2 * (Z.of_nat h - 1)) by lia. rewrite Z.even_mul. cbn [orb Z.even].
      rewrite !Hz by lia. by destruct (Nat.even m).
    + replace (cF + cE) with (1 + 2 * (Z.of_nat h - 1)) by lia. rewrite Z.even_add_mul_2. cbn [Z.even].
      assert (Nat.even m = false) as -> by (rewrite Hh; apply Nat.even_odd). rewrite (Hz (m + h + 1)%nat) by lia.
      replace (m + h + (m - 2 * h) - 1)%nat with (m + h)%nat in Ho by lia. rewrite Ho by (rewrite Hh; apply Nat.odd_odd).
      destruct (chain_last (2 + cF) cE HcE) as [l El]. unfold table_entries. fold cF cE. rewrite El, !app_assoc, List.last_last. done.
Qed.

(** ** Witness *)

(** On the AT90USB647 the files end with an even cluster, so that the next one is shown
    as in use. *)
Lemma FAT_shows_files_witness :
  let T := at90usb647 in let N := machine_nvm (T := T) (fun _ => 0) (fun _ => 0) in
  let v := initial_Volume (T := T) in let t := read_block (T := T) 1 v in
  length t = 512%nat /\ fat_entry t 0 = 0xFF8 /\
  follow 170 t (FLASHFileStartCluster v) = seqZ 2 28 /\ follow 170 t (EEPROMFileStartCluster v) = seqZ 30 1 /\
  file_blocks (FLASHFileStartCluster v) (FLASH_FILE_SIZE_BYTES (T := T)) (EEPROMFileStartCluster v) (EEPROM_FILE_SIZE_BYTES (T := T)) /\
  file_blocks (EEPROMFileStartCluster v) (EEPROM_FILE_SIZE_BYTES (T := T)) (FLASHFileStartCluster v) (FLASH_FILE_SIZE_BYTES (T := T)) /\
  (forall i, 31 < Z.of_nat i < 170 -> fat_entry t i = 0) /\ fat_entry t 31 = 0x00F.
Proof.
  apply (FAT_shows_files (TO := at90usb647_ok) (N := machine_nvm (T := at90usb647) (fun _ => 0) (fun _ => 0)) initial_Volume 1);
    [by left|vm_compute; reflexivity|vm_compute; reflexivity|vm_compute; reflexivity].
Defined.
