(* ===== verification/SCSI.v ===== *)
(** The SCSI commands of the mass storage boot loader: Bootloaders/MassStorage/
    Lib/SCSI.[ch]. *)

From stdpp Require Import base tactics option list numbers strings.
From Stdlib Require Import ZArith Lia.
From S2P Require Import Prelude Memory Hardware Endpoint USBController ControlStream DeviceStandardReq.
From S2P Require Import EndpointStream ClassDriver MassStorageDevice Flash VirtualFAT.

(** ** MassStorageClassCommon.h *)

Definition SCSI_CMD_INQUIRY : Z := 0x12.
Definition SCSI_CMD_REQUEST_SENSE : Z := 0x03.
Definition SCSI_CMD_TEST_UNIT_READY : Z := 0x00.
Definition SCSI_CMD_READ_CAPACITY_10 : Z := 0x25.
Definition SCSI_CMD_START_STOP_UNIT : Z := 0x1B.
Definition SCSI_CMD_SEND_DIAGNOSTIC : Z := 0x1D.
Definition SCSI_CMD_PREVENT_ALLOW_MEDIUM_REMOVAL : Z := 0x1E.
Definition SCSI_CMD_WRITE_10 : Z := 0x2A.
Definition SCSI_CMD_READ_10 : Z := 0x28.
Definition SCSI_CMD_VERIFY_10 : Z := 0x2F.
Definition SCSI_CMD_MODE_SENSE_6 : Z := 0x1A.
Definition SCSI_SENSE_KEY_GOOD : Z := 0x00.
Definition SCSI_SENSE_KEY_ILLEGAL_REQUEST : Z := 0x05.
Definition SCSI_ASENSE_NO_ADDITIONAL_INFORMATION : Z := 0x00.
Definition SCSI_ASENSE_INVALID_FIELD_IN_CDB : Z := 0x24.
Definition SCSI_ASENSE_INVALID_COMMAND : Z := 0x20.
Definition SCSI_ASENSE_LOGICAL_BLOCK_ADDRESS_OUT_OF_RANGE : Z := 0x21.
Definition SCSI_ASENSEQ_NO_QUALIFIER : Z := 0x00.

(** The bytes of the sense data; the flags beside the key are 0. *)
Definition enc_sense (s : SCSI_Request_Sense_Response_t) : list Z :=
  [u8 (ResponseCode s); u8 (SegmentNumber s); Z.land (SenseKey s) 0x0F] ++ Information s ++ [u8 (AdditionalLength s)] ++
  CmdSpecificInformation s ++ [u8 (AdditionalSenseCode s); u8 (AdditionalSenseQualifier s); u8 (FieldReplaceableUnitCode s)] ++
  SenseKeySpecific s.
Definition sizeof_SenseData : Z := 18.
Definition initial_SenseData : SCSI_Request_Sense_Response_t :=
  mkSense 0x70 0 0 (replicate 4 0) 0x0A (replicate 4 0) 0 0 0 (replicate 3 0).
(** [SCSI_SET_SENSE] *)
Definition set_sense (Key Acode Aqual : Z) (s : SCSI_Request_Sense_Response_t) : SCSI_Request_Sense_Response_t :=
  mkSense (ResponseCode s) (SegmentNumber s) Key (Information s) (AdditionalLength s) (CmdSpecificInformation s)
    Acode Aqual (FieldReplaceableUnitCode s) (SenseKeySpecific s).

Record SCSI_Inquiry_Response_t : Set := mkInquiry {
  DeviceType : Z;
  PeripheralQualifier : Z;
  Removable : bool;
  Version : Z;
  ResponseDataFormat : Z;
  NormACA : bool;
  TrmTsk : bool;
  AERC : bool;
  inq_AdditionalLength : Z;
  SoftReset : bool;
  CmdQue : bool;
  Linked : bool;
  Sync : bool;
  WideBus16Bit : bool;
  WideBus32Bit : bool;
  RelAddr : bool;
  VendorID : list Z;
  ProductID : list Z;
  RevisionID : list Z
}.
(** Bit fields are allocated from the low bit. *)
Definition flag (b : bool) (n : Z) : Z := if b then bit n else 0.
Definition enc_inquiry (q : SCSI_Inquiry_Response_t) : list Z :=
  [Z.lor (Z.land (DeviceType q) 0x1F) (Z.shiftl (Z.land (PeripheralQualifier q) 7) 5);
   flag (Removable q) 7;
   u8 (Version q);
   Z.lor (Z.land (ResponseDataFormat q) 0x0F) (flag (NormACA q) 5 + flag (TrmTsk q) 6 + flag (AERC q) 7);
   u8 (inq_AdditionalLength q); 0; 0;
   flag (SoftReset q) 0 + flag (CmdQue q) 1 + flag (Linked q) 3 + flag (Sync q) 4 + flag (WideBus16Bit q) 5 +
     flag (WideBus32Bit q) 6 + flag (RelAddr q) 7] ++
  VendorID q ++ ProductID q ++ RevisionID q.
Definition DEVICE_TYPE_BLOCK : Z := 0x00.
Definition InquiryData : SCSI_Inquiry_Response_t :=
  mkInquiry DEVICE_TYPE_BLOCK 0 true 0 2 false false false 0x1F false false false false false false false
    (bytes_of "LUFA" ++ replicate 4 0) (bytes_of "Bootloader" ++ replicate 6 0) (bytes_of "0.00").
Definition sizeof_InquiryData : Z := 36.

Section SCSI.
Context {HW : Hardware} {EV : DeviceEvents Disk_App} {RQ : DeviceRequests Disk_App}.
Context {T : Target} {N : NVM}.
(** The contents of the stack. *)
Context (uninit : Z -> Z) (fuel : nat).
Abbreviation P := (prog (World Disk_App)).

Definition SCSI_SET_SENSE (Key Acode Aqual : Z) : P unit :=
  modify (upd_app (fun a => set_SenseData (set_sense Key Acode Aqual (SenseData a)) a)).

(** [CommandBlock.DataTransferLength] *)
Definition set_DataTransferLength (f : Z -> Z) (c : MS_CommandBlockWrapper_t) : MS_CommandBlockWrapper_t :=
  mkCBW (Signature c) (Tag c) (u32 (f (DataTransferLength c))) (Flags c) (LUN c) (SCSICommandLength c) (SCSICommandData c).
Definition transferred (n : Z) : P unit := assign (set_CommandBlock (set_DataTransferLength (fun l => l - n))).

(** The command, and the big-endian integers in it. *)
Definition SCSICommand : P (list Z) := i ← the; mret (SCSICommandData (CommandBlock (State i))).
Definition be16_at (o : Z) (c : list Z) : P Z := x ← checked (get16 c o); mret (SwapEndian_16 x).
Definition be32_at (o : Z) (c : list Z) : P Z := x ← checked (get32 c o); mret (SwapEndian_32 x).
Definition byte_at (o : nat) (c : list Z) : P Z := checked (c !! o).

Definition SCSI_Command_Inquiry : P bool :=
  c ← SCSICommand;
  AllocationLength ← be16_at 3 c;
  let BytesTransferred := Z.min AllocationLength sizeof_InquiryData in
  c1 ← byte_at 1 c;
  c2 ← byte_at 2 c;
  if tst c1 (Z.lor (bit 0) (bit 1)) || negb (c2 =? 0) then
    SCSI_SET_SENSE SCSI_SENSE_KEY_ILLEGAL_REQUEST SCSI_ASENSE_INVALID_FIELD_IN_CDB SCSI_ASENSEQ_NO_QUALIFIER;;
    mret false
  else
    Endpoint_Write_Stream_LE fuel (enc_inquiry InquiryData) BytesTransferred None;;
    Endpoint_Null_Stream fuel (u16 (AllocationLength - BytesTransferred)) None;;
    Endpoint_ClearIN;;
    transferred BytesTransferred;;
    mret true.

Definition SCSI_Command_Request_Sense : P bool :=
  c ← SCSICommand;
  AllocationLength ← byte_at 4 c;
  let BytesTransferred := Z.min AllocationLength sizeof_SenseData in
  s ← gets (fun w => SenseData (app w));
  Endpoint_Write_Stream_LE fuel (enc_sense s) BytesTransferred None;;
  Endpoint_Null_Stream fuel (u16 (AllocationLength - BytesTransferred)) None;;
  Endpoint_ClearIN;;
  transferred BytesTransferred;;
  mret true.

Definition SCSI_Command_Read_Capacity_10 : P bool :=
  Endpoint_Write_32_BE (LUN_MEDIA_BLOCKS - 1);;
  Endpoint_Write_32_BE SECTOR_SIZE_BYTES;;
  Endpoint_ClearIN;;
  transferred 8;;
  mret true.

(** [for (uint16_t i = 0; i < TotalBlocks; i++)], with [n] blocks left. *)
Fixpoint blocks_loop (n : nat) (IsDataRead : bool) (BlockAddress i : Z) : P unit :=
  match n with
  | O => mret tt
  | S n =>
      (if IsDataRead then VirtualFAT_ReadBlock fuel (u16 (BlockAddress + i))
       else VirtualFAT_WriteBlock uninit fuel (u16 (BlockAddress + i)));;
      blocks_loop n IsDataRead BlockAddress (u16 (i + 1))
  end.

Definition SCSI_Command_ReadWrite_10 (IsDataRead : bool) : P bool :=
  c ← SCSICommand;
  a ← be32_at 2 c;
  let BlockAddress := u16 a in
  TotalBlocks ← be16_at 7 c;
  if LUN_MEDIA_BLOCKS <=? BlockAddress then
    SCSI_SET_SENSE SCSI_SENSE_KEY_ILLEGAL_REQUEST SCSI_ASENSE_LOGICAL_BLOCK_ADDRESS_OUT_OF_RANGE SCSI_ASENSEQ_NO_QUALIFIER;;
    mret false
  else
    blocks_loop (Z.to_nat TotalBlocks) IsDataRead BlockAddress 0;;
    transferred (TotalBlocks * SECTOR_SIZE_BYTES);;
    mret true.

Definition SCSI_Command_ModeSense_6 : P bool :=
  Endpoint_Write_32_LE 0;;
  Endpoint_ClearIN;;
  transferred 4;;
  mret true.

(** The commands that only succeed. *)
Definition no_handling (cmd : Z) : bool :=
  existsb (Z.eqb cmd) [SCSI_CMD_START_STOP_UNIT; SCSI_CMD_SEND_DIAGNOSTIC; SCSI_CMD_TEST_UNIT_READY;
                       SCSI_CMD_PREVENT_ALLOW_MEDIUM_REMOVAL; SCSI_CMD_VERIFY_10].

(** The [switch]; [case SCSI_CMD_START_STOP_UNIT] falls through. *)
Definition SCSI_dispatch : P bool :=
  c ← SCSICommand;
  cmd ← byte_at 0 c;
  if cmd =? SCSI_CMD_INQUIRY then SCSI_Command_Inquiry
  else if cmd =? SCSI_CMD_REQUEST_SENSE then SCSI_Command_Request_Sense
  else if cmd =? SCSI_CMD_READ_CAPACITY_10 then SCSI_Command_Read_Capacity_10
  else if cmd =? SCSI_CMD_WRITE_10 then SCSI_Command_ReadWrite_10 false
  else if cmd =? SCSI_CMD_READ_10 then SCSI_Command_ReadWrite_10 true
  else if cmd =? SCSI_CMD_MODE_SENSE_6 then SCSI_Command_ModeSense_6
  else if no_handling cmd then
    when (cmd =? SCSI_CMD_START_STOP_UNIT)
      (c4 ← byte_at 4 c; modify (upd_app (set_RunBootloader (negb (Z.land c4 0x03 =? 0x02)))));;
    assign (set_CommandBlock (set_DataTransferLength (fun _ => 0)));;
    mret true
  else
    SCSI_SET_SENSE SCSI_SENSE_KEY_ILLEGAL_REQUEST SCSI_ASENSE_INVALID_COMMAND SCSI_ASENSEQ_NO_QUALIFIER;;
    mret false.

Definition SCSI_DecodeSCSICommand : P bool :=
  CommandSuccess ← SCSI_dispatch;
  if CommandSuccess : bool then
    SCSI_SET_SENSE SCSI_SENSE_KEY_GOOD SCSI_ASENSE_NO_ADDITIONAL_INFORMATION SCSI_ASENSEQ_NO_QUALIFIER;;
    mret true
  else mret false.
End SCSI.
