(* ===== verification/BootloaderMassStorage.v ===== *)
(** The mass storage boot loader: Bootloaders/MassStorage/BootloaderMassStorage.[ch].

    The device is a disk with the memories of the processor as files (VirtualFAT.v).  The
    LEDs of the board, the watchdog, the fuses and the descriptors are parameters. *)

From stdpp Require Import base tactics option list numbers.
From Stdlib Require Import ZArith Lia.
From S2P Require Import Prelude Memory Hardware Board Endpoint USBController ControlStream DeviceStandardReq.
From S2P Require Import EndpointStream ClassDriver MassStorageDevice Flash VirtualFAT SCSI.

Definition MAGIC_BOOT_KEY : Z := 0xDC42.
Definition MASS_STORAGE_IN_EPADDR : Z := Z.lor 0x80 3.
Definition MASS_STORAGE_OUT_EPADDR : Z := 4.
Definition MASS_STORAGE_IO_EPSIZE : Z := 64.
Definition initial_Disk_MS_Interface : MSInfo :=
  mkMSInfo (mkMSConfig 0 (mkEndpointTable MASS_STORAGE_IN_EPADDR MASS_STORAGE_IO_EPSIZE 0 1)
              (mkEndpointTable MASS_STORAGE_OUT_EPADDR MASS_STORAGE_IO_EPSIZE 0 1) 1)
    (mkMSState (mkCBW 0 0 0 0 0 0 (replicate 16 0)) (mkCSW 0 0 0 0) false).
(** [MagicBootKey] is not initialised. *)
Definition initial_Disk_App {T : Target} (key : Z) : Disk_App :=
  mkDiskApp initial_Disk_MS_Interface true key 0 initial_SenseData initial_Volume.

Section Callback.
Context {HW : Hardware} {BD : Board Disk_App} {EV : DeviceEvents Disk_App} {RQ : DeviceRequests Disk_App}.
Context {T : Target} {N : NVM} (uninit : Z -> Z) (fuel : nat).

#[export] Instance DiskCallbacks : MSCallbacks Disk_App := {|
  CALLBACK_MS_Device_SCSICommandReceived :=
    LEDs_SetAllLEDs LEDMASK_USB_BUSY;;
    CommandSuccess ← SCSI_DecodeSCSICommand uninit fuel;
    LEDs_SetAllLEDs LEDMASK_USB_READY;;
    modify (upd_app (set_Ticks 0));;
    mret CommandSuccess
|}.
End Callback.

Section Bootloader.
Context {HW : Hardware} {BD : Board Disk_App} {T : Target} {N : NVM} (uninit : Z -> Z).
Abbreviation P := (prog (World Disk_App)).

(** The fuses and the program memory. *)
Context (boot_lock_fuse_bits_get : Z -> Z) (GET_HIGH_FUSE_BITS FUSE_BOOTRST : Z) (pgm_read_word_near : Z -> Z).

(** The branch of the boards without a boot jumper; the result is whether the
    application is started. *)
Definition Application_Jump_Check : P bool :=
  key ← gets (fun w => MagicBootKey (app w));
  JumpToApplication ←
    (if tst (boot_lock_fuse_bits_get GET_HIGH_FUSE_BITS) FUSE_BOOTRST then
       m ← rd MCUSR;
       clr_bits MCUSR (bit EXTRF);;
       mret (negb (tst m (bit EXTRF)) || (key =? MAGIC_BOOT_KEY))
     else
       m ← rd MCUSR;
       clr_bits MCUSR (bit WDRF);;
       mret (tst m (bit WDRF) && (key =? MAGIC_BOOT_KEY)));
  let ApplicationValid := negb (pgm_read_word_near 0 =? 0xFFFF) in
  if (JumpToApplication : bool) && ApplicationValid then
    clr_bits MCUSR (bit WDRF);;
    wdt_disable;;
    modify (upd_app (set_MagicBootKey 0));;
    mret true
  else mret false.

#[export] Instance DiskEvents : DeviceEvents Disk_App := {|
  EVENT_USB_Device_StartOfFrame := mret tt;
  EVENT_USB_Device_Connect := LEDs_SetAllLEDs LEDMASK_USB_ENUMERATING;
  EVENT_USB_Device_Disconnect := LEDs_SetAllLEDs LEDMASK_USB_NOTREADY;
  EVENT_USB_Device_Suspend := mret tt;
  EVENT_USB_Device_WakeUp := mret tt;
  EVENT_USB_Device_Reset := mret tt
|}.

Definition Disk_ConfigurationChanged (fuel : nat) : P unit :=
  ConfigSuccess ← MS_Device_ConfigureEndpoints fuel;
  LEDs_SetAllLEDs (if ConfigSuccess : bool then LEDMASK_USB_READY else LEDMASK_USB_ERROR).

(** The descriptors are those of the boot loader's Descriptors.c. *)
Context (GetDescriptor : Z -> Z -> Z * option (list Z)).
#[local] Instance DiskRequests : DeviceRequests Disk_App := {|
  CALLBACK_USB_GetDescriptor := GetDescriptor;
  EVENT_USB_Device_ControlRequest := MS_Device_ProcessControlRequest;
  EVENT_USB_Device_ConfigurationChanged := Disk_ConfigurationChanged
|}.

Definition SetupHardware (fuel : nat) : P unit :=
  clr_bits MCUSR (bit WDRF);;
  wdt_disable;;
  clock_prescale_set 0;;
  wr MCUCR (bit IVCE);;
  wr MCUCR (bit IVSEL);;
  LEDs_Init;;
  USB_Init fuel;;
  wr TIMSK1 (bit TOIE1);;
  wr TCCR1B (Z.lor (bit CS11) (bit CS10)).

Definition main_round (fuel : nat) : P unit :=
  MS_Device_USBTask (CB := DiskCallbacks uninit fuel) fuel;;
  USB_USBTask fuel.

(** [RunBootloader || TicksSinceLastCommand++ < 0xFF] *)
Definition keep_running : P bool :=
  a ← gets app;
  if RunBootloader a then mret true
  else
    modify (upd_app (set_Ticks (TicksSinceLastCommand a + 1)));;
    mret (TicksSinceLastCommand a <? 0xFF).

(** [while (...)], up to [rounds] times. *)
Fixpoint main_loop (rounds fuel : nat) : P unit :=
  match rounds with
  | O => nofuel
  | S rounds =>
      run ← keep_running;
      if run : bool then main_round fuel;; main_loop rounds fuel else mret tt
  end.

(** [main] up to the endless loop that waits for the watchdog ([WDTO_250MS] is 4). *)
Definition main (rounds fuel : nat) : P unit :=
  SetupHardware fuel;;
  LEDs_SetAllLEDs LEDMASK_USB_NOTREADY;;
  GlobalInterruptEnable;;
  main_loop rounds fuel;;
  USB_Detach;;
  modify (upd_app (set_MagicBootKey MAGIC_BOOT_KEY));;
  wdt_enable 4.
End Bootloader.
