(* ===== verification/SCSISpec.v ===== *)
(** Correctness of the mass storage boot loader (SCSI.v, BootloaderMassStorage.v): the
    SCSI commands over USB read and write the disk of VirtualFATSpec.v. *)

From stdpp Require Import base tactics option list numbers functions.
From Stdlib Require Import ZArith Lia.
From S2P Require Import Prelude Memory Hardware Board Endpoint USBController ControlStream DeviceStandardReq.
From S2P Require Import EndpointStream ControlTransfer ControlReceive ControlRequest DataEndpoint DataStream.
From S2P Require Import ClassDriver MassStorageDevice MassStorageSpec Flash FlashSpec VirtualFAT VirtualFATSpec SCSI BootloaderMassStorage.

(** ** Blocks are bytes *)

Definition disk_ok (d : Disk) : Prop :=
  length (root d) = 160%nat /\ Forall is_u8 (root d) /\ Forall is_u8 (flash_file d) /\ Forall is_u8 (eeprom_file d).

Definition block_ok (b : list Z) : Prop := length b = 512%nat /\ Forall is_u8 b.

Lemma bytes_of_u8 s : Forall is_u8 (bytes_of s).
Proof.
  unfold bytes_of. apply Forall_map, Forall_forall. intros c _. pose proof (Ascii.nat_ascii_bounded c). unfold is_u8. lia.
Qed.
Lemma zeros_u8 n : Forall is_u8 (replicate n 0).
Proof. by apply Forall_replicate. Qed.
#[local] Hint Resolve Forall_app_2 Forall_nil_2 bytes_of_u8 le16_u8 le32_u8 zeros_u8 u8_range : core.

Lemma Forall_cons_u8 x l : is_u8 x -> Forall is_u8 l -> Forall is_u8 (x :: l).
Proof. by constructor. Qed.
#[local] Hint Resolve Forall_cons_u8 : core.

Lemma update_entry_ok t i e : block_ok t -> block_ok (UpdateFAT12ClusterEntry t i e).
Proof.
  intros [Hl Hu]. unfold UpdateFAT12ClusterEntry, block_ok. destruct (negb _); rewrite !length_insert; (split; [done|]);
    repeat apply Forall_insert; auto.
Qed.

Lemma update_chain_ok t i n : block_ok t -> block_ok (UpdateFAT12ClusterChain t i n).
Proof.
  unfold UpdateFAT12ClusterChain. generalize (seqZ 0 n). intros l. revert t. induction l as [|x l IH]; intros t Ht; [done|].
  cbn [foldl]. apply IH, update_entry_ok, Ht.
Qed.

Section Blocks.
Context {T : Target} {TO : TargetOK T} {N : NVM} {c0 e0 : Z -> Z} {NR : NVMReads N c0 e0}.

Lemma boot_block_u8 : length (enc_boot_block BootBlock) = 62%nat /\ Forall is_u8 (enc_boot_block BootBlock).
Proof.
  split; [reflexivity|]. unfold enc_boot_block, BootBlock.
  cbn [Bootstrap Description SectorSize SectorsPerCluster ReservedSectors FATCopies RootDirectoryEntries TotalSectors16 MediaDescriptor
    SectorsPerFAT SectorsPerTrack Heads HiddenSectors TotalSectors32 PhysicalDriveNum ExtendedBootRecordSig VolumeSerialNumber
    VolumeLabel FilesystemIdentifier].
  repeat apply Forall_app_2; auto; repeat (constructor; [unfold is_u8; lia|]); constructor.
Qed.

Lemma sector_ok k file : 0 <= k -> 512 * k + 512 <= Z.of_nat (length file) -> Forall is_u8 file -> block_ok (sector k file).
Proof.
  intros Hk Hl Hu. unfold sector, block_ok. rewrite length_take, length_drop. split; [lia|]. by apply Forall_take, Forall_drop.
Qed.

Lemma read_block_ok n v d : 0 <= n -> holds c0 e0 v d -> disk_ok d -> block_ok (read_block n v).
Proof.
  intros Hn Hv (Hl & Hr & Hf & He). rewrite (read_block_refines (c0 := c0) (e0 := e0) n v d Hn Hv). unfold disk_read.
  destruct (Z.leb_spec n DISK_BLOCK_RootFilesBlock) as [H|H]; unfold DISK_BLOCK_RootFilesBlock in H.
  - assert (block_ok (replicate 512 0)) as Hz by (split; [done|auto]).
    assert (n = 0 \/ n = 1 \/ n = 2 \/ n = 3) as [-> | [-> | [-> | ->]]] by lia.
    + change (read_block 0 (directory d)) with (<[511%nat := 0xAA]> (<[510%nat := 0x55]>
        (enc_boot_block BootBlock ++ drop (length (enc_boot_block BootBlock)) (replicate 512 0)))).
      destruct boot_block_u8 as [El Eu]. split; [by rewrite !length_insert, length_app, El|].
      repeat apply Forall_insert; [|done..]. apply Forall_app_2; [done|]. by apply Forall_drop.
    + do 2 apply update_chain_ok. by do 2 apply update_entry_ok.
    + do 2 apply update_chain_ok. by do 2 apply update_entry_ok.
    + change (read_block 3 (directory d)) with (root d ++ drop (length (root d)) (replicate 512 0)). split.
      * by rewrite length_app, length_drop, Hl.
      * apply Forall_app_2; [done|]. by apply Forall_drop.
  - destruct Hv as (_ & (f & _ & _ & _ & Ef & _) & Ee). destruct flash_sectors as [HF1 HF2], eeprom_sectors as [HE1 HE2].
    destruct (eeprom_sector d n) as [k|] eqn:E1; [|destruct (flash_sector d n) as [k|] eqn:E2; [|by split; [done|auto]]].
    + destruct (file_sector_bounds _ _ _ _ HE2 E1) as [Hk _]. apply sector_ok; [lia| |done]. rewrite Ee, length_map, length_seqZ. lia.
    + destruct (file_sector_bounds _ _ _ _ HF2 E2) as [Hk _]. apply sector_ok; [lia| |done]. rewrite Ef, length_map, length_seqZ. lia.
Qed.

Lemma set_sector_u8 k data file : Forall is_u8 data -> Forall is_u8 file -> Forall is_u8 (set_sector k data file).
Proof. intros Hd Hf. unfold set_sector. auto using Forall_take, Forall_drop. Qed.

Lemma disk_write_ok n data d : block_ok data -> disk_ok d -> disk_ok (disk_write n data d).
Proof.
  intros [Hl Hu] (Hlr & Hr & Hf & He). unfold disk_write. destruct (_ <? _); [done|]. destruct (_ =? _).
  - split_and!; cbn; [rewrite length_take; lia|by apply Forall_take|done|done].
  - split_and!; cbn; [done|done|destruct (flash_sector d n)|destruct (eeprom_sector d n)]; auto using set_sector_u8.
Qed.
End Blocks.

(** ** Commands *)

(** The big-endian integers of a command. *)
Definition be16_of (c : list Z) (o : nat) : Z := 256 * nth o c 0 + nth (o + 1) c 0.
Definition be32_of (c : list Z) (o : nat) : Z :=
  nth (o + 3) c 0 + 256 * (nth (o + 2) c 0 + 256 * (nth (o + 1) c 0 + 256 * nth o c 0)).

(** Data cut or padded to the length the host asks for. *)
Definition padded (n : Z) (bs : list Z) : list Z := take (Z.to_nat n) bs ++ replicate (Z.to_nat n - length bs) 0.

Section Spec.
Context {T : Target}.

(** The data a command sends, as streams, and the number of bytes it is said to be, when
    the blocks of the disk are [block] and the sense data is [s]; [None] when the command
    fails or sends nothing. *)
Definition scsi_in (block : Z -> list Z) (s : SCSI_Request_Sense_Response_t) (c : list Z) : option (list (list Z) * Z) :=
  let cmd := nth 0 c 0 in
  if cmd =? SCSI_CMD_INQUIRY then
    if (nth 1 c 0 mod 4 =? 0) && (nth 2 c 0 =? 0)
    then let n := be16_of c 3 in Some ([padded n (enc_inquiry InquiryData)], Z.min n 36) else None
  else if cmd =? SCSI_CMD_REQUEST_SENSE then
    let n := nth 4 c 0 in Some ([padded n (enc_sense s)], Z.min n 18)
  else if cmd =? SCSI_CMD_READ_CAPACITY_10 then Some ([be32 (LUN_MEDIA_BLOCKS - 1) ++ be32 512], 8)
  else if cmd =? SCSI_CMD_READ_10 then
    let first := be32_of c 2 mod 65536 in
    let n := be16_of c 7 in
    if first <? LUN_MEDIA_BLOCKS
    then Some (map (fun i => block (u16 (first + i))) (seqZ 0 n), 512 * n) else None
  else if cmd =? SCSI_CMD_MODE_SENSE_6 then Some ([replicate 4 0], 4)
  else None.

(** The application after a command that succeeded and transferred [n] bytes. *)
Definition succeeded (n : Z) (a : Disk_App) : Disk_App :=
  set_SenseData (set_sense SCSI_SENSE_KEY_GOOD 0 0 (SenseData a))
    (store_in (set_CommandBlock (set_DataTransferLength (fun l => l - n))) a).
End Spec.

Lemma wp_be16_at o c (Q : Z -> World Disk_App -> Prop) w : (o + 2 <= length c)%nat -> Forall is_u8 c ->
  Q (be16_of c o) w -> wp true (be16_at (Z.of_nat o) c) Q w.
Proof.
  intros Hl Hu HQ. unfold be16_at. destruct (lookup_lt_is_Some_2 c o) as [b0 E0]; [lia|].
  destruct (lookup_lt_is_Some_2 c (o + 1)) as [b1 E1]; [lia|].
  assert (get16 c (Z.of_nat o) = Some (of_le16 b0 b1)) as Eg.
  { unfold get16. rewrite (proj2 (Z.ltb_ge _ 0)), Nat2Z.id by lia. rewrite (drop_S c b0 o E0), <- Nat.add_1_r, (drop_S c b1 _ E1). done. }
  apply wp_bind, (wp_checked _ _ _ _ _ Eg), wp_ret.
  rewrite Swap_of_le16 by (by eapply Forall_lookup_1). unfold be16_of in HQ.
  by rewrite (nth_lookup_Some _ _ _ _ E0), (nth_lookup_Some _ _ _ _ E1) in HQ.
Qed.

Lemma wp_be32_at o c (Q : Z -> World Disk_App -> Prop) w : (o + 4 <= length c)%nat -> Forall is_u8 c ->
  Q (be32_of c o) w -> wp true (be32_at (Z.of_nat o) c) Q w.
Proof.
  intros Hl Hu HQ. unfold be32_at. destruct (lookup_lt_is_Some_2 c o) as [b0 E0]; [lia|].
  destruct (lookup_lt_is_Some_2 c (o + 1)) as [b1 E1]; [lia|]. destruct (lookup_lt_is_Some_2 c (o + 2)) as [b2 E2]; [lia|].
  destruct (lookup_lt_is_Some_2 c (o + 3)) as [b3 E3]; [lia|].
  assert (get32 c (Z.of_nat o) = Some (of_le32 b0 b1 b2 b3)) as Eg.
  { unfold get32. rewrite (proj2 (Z.ltb_ge _ 0)), Nat2Z.id by lia. rewrite (drop_S c b0 o E0).
    replace (S o) with (o + 1)%nat by lia. rewrite (drop_S c b1 _ E1). replace (S (o + 1)) with (o + 2)%nat by lia.
    rewrite (drop_S c b2 _ E2). replace (S (o + 2)) with (o + 3)%nat by lia. by rewrite (drop_S c b3 _ E3). }
  apply wp_bind, (wp_checked _ _ _ _ _ Eg), wp_ret.
  rewrite Swap_of_le32 by (by eapply Forall_lookup_1). unfold be32_of in HQ.
  by rewrite (nth_lookup_Some _ _ _ _ E0), (nth_lookup_Some _ _ _ _ E1), (nth_lookup_Some _ _ _ _ E2), (nth_lookup_Some _ _ _ _ E3) in HQ.
Qed.

Lemma wp_byte_at o c (Q : Z -> World Disk_App -> Prop) w : (o < length c)%nat -> Q (nth o c 0) w -> wp true (byte_at o c) Q w.
Proof.
  intros Hl HQ. destruct (lookup_lt_is_Some_2 c o Hl) as [b E]. rewrite (nth_lookup_Some _ _ _ _ E) in HQ.
  by apply (wp_checked _ _ _ _ _ E).
Qed.

Lemma be16_of_range c o : Forall is_u8 c -> is_u16 (be16_of c o).
Proof.
  intros H. unfold be16_of, is_u16.
  assert (forall i, is_u8 (nth i c 0)) as Hn.
  { intros i. rewrite nth_lookup. destruct (c !! i) eqn:E; [|done]. by eapply Forall_lookup_1 in E. }
  pose proof (Hn o). pose proof (Hn (o + 1)%nat). unfold is_u8 in *. lia.
Qed.

(** ** Commands that send data *)

Lemma u8_land_FF x : u8 (Z.land x 0xFF) = u8 x.
Proof. change 0xFF with (Z.ones 8). rewrite Z.land_ones by lia. apply Z.mod_mod. lia. Qed.

Lemma land3_mod c : (Z.land c 3 =? 0) = (c mod 4 =? 0).
Proof. change 3 with (Z.ones 2). by rewrite Z.land_ones. Qed.

Lemma padded_length n bs : 0 <= n -> length (padded n bs) = Z.to_nat n.
Proof. intros Hn. unfold padded. rewrite length_app, length_take, length_replicate. lia. Qed.


(** An endpoint after streams were sent, each with its own last packet. *)
Definition sent_all (size : nat) (s : EPState) (streams : list (list Z)) : EPState :=
  mkEP [] (ep_sent s ++ concat (map (in_packets size) streams)) (ep_queue s) (ep_stalled s).

Lemma sent_all_app size s l1 l2 : sent_all size (sent_all size s l1) l2 = sent_all size s (l1 ++ l2).
Proof. unfold sent_all. cbn. by rewrite map_app, concat_app, app_assoc. Qed.

Lemma sent_all_nil size s : ep_bank s = [] -> sent_all size s [] = s.
Proof. intros Hb. unfold sent_all. cbn. rewrite app_nil_r. destruct s. cbn in Hb. by subst. Qed.

Lemma InquiryData_ok : length (enc_inquiry InquiryData) = 36%nat /\ Forall is_u8 (enc_inquiry InquiryData).
Proof. split; [done|]. vm_compute. repeat (constructor; [split; [discriminate|reflexivity]|]). constructor. Qed.

Definition sense_ok (s : SCSI_Request_Sense_Response_t) : Prop :=
  length (Information s) = 4%nat /\ length (CmdSpecificInformation s) = 4%nat /\ length (SenseKeySpecific s) = 3%nat /\
  Forall is_u8 (Information s) /\ Forall is_u8 (CmdSpecificInformation s) /\ Forall is_u8 (SenseKeySpecific s).

Lemma enc_sense_ok s : sense_ok s -> length (enc_sense s) = 18%nat /\ Forall is_u8 (enc_sense s).
Proof.
  intros (H1 & H2 & H3 & U1 & U2 & U3). unfold enc_sense. split; [rewrite !length_app, H1, H2, H3; done|].
  assert (is_u8 (Z.land (SenseKey s) 0x0F)).
  { change 0x0F with (Z.ones 4). rewrite Z.land_ones by lia. pose proof (Z.mod_pos_bound (SenseKey s) (2 ^ 4) ltac:(lia)). unfold is_u8. lia. }
  repeat apply Forall_app_2; try done; auto.
Qed.

Section Serve.
Context {HW : Hardware} {is_in : Z -> bool} {size : Z -> nat} {q0 : Z -> list (list Z)}.
Context {DH : DataHost is_in size q0} {EV : DeviceEvents Disk_App} {RQ : DeviceRequests Disk_App}.
Context {T : Target} {TO : TargetOK T} {N : NVM} (uninit : Z -> Z) (fuel : nat).
Abbreviation dev := (dev (is_in := is_in) (q0 := q0) (App := Disk_App)).
Implicit Types w : World Disk_App.

Section In.
Context (e : Z) (Hin : is_in e = true).

(** The bank is sent. *)
Lemma finish_dev bs w0 st w : ep_bank (st e) = [] -> dev w0 e (<[e := write_all (size e) (st e) bs]> st) w ->
  wp true Endpoint_ClearIN (fun _ => dev w0 e (<[e := sent_all (size e) (st e) [bs]]> st)) w.
Proof using DH Hin.
  intros Hb H. dev_step ClearIN_dev H. intros [] w1 H1. eapply dev_ext; [|exact H1]. rewrite fn_lookup_insert. dev_eq; [|done].
  rewrite commit_write_all by done. unfold sent_all. cbn. by rewrite app_nil_r.
Qed.

(** Bytes that fit go into the bank one by one. *)
Lemma scsi_put_dev v bs w0 st w : (length (ep_bank (st e)) + length bs < size e)%nat ->
  dev w0 e (<[e := write_all (size e) (st e) bs]> st) w ->
  wp true (wr UEDATX v) (fun _ => dev w0 e (<[e := write_all (size e) (st e) (bs ++ [u8 v])]> st)) w.
Proof using DH Hin.
  intros Hb H. apply wp_wr. cbn [reg_trunc].
  eapply dev_ext; [|apply (dev_at (Wr UEDATX (u8 v)) (put (u8 v))); [done|done|..|exact H]; try done].
  - dev_eq; [|done]. rewrite ?fn_lookup_insert. unfold write_all at 2. rewrite foldl_app. cbn [foldl].
    change (foldl (put_byte (size e))) with (write_all (size e)). unfold put_byte. rewrite write_all_fits by lia. cbn [ep_bank].
    rewrite length_app, (proj2 (Nat.ltb_lt _ _)) by lia. done.
  - cbn. by rewrite Hin.
Qed.

Lemma put32_dev v0 v1 v2 v3 bs w0 st w : (length (ep_bank (st e)) + length bs + 4 <= size e)%nat ->
  dev w0 e (<[e := write_all (size e) (st e) bs]> st) w ->
  wp true (wr UEDATX v0;; wr UEDATX v1;; wr UEDATX v2;; wr UEDATX v3)
    (fun _ => dev w0 e (<[e := write_all (size e) (st e) (bs ++ [u8 v0; u8 v1; u8 v2; u8 v3])]> st)) w.
Proof using DH Hin.
  intros Hb H. assert (forall n : nat, (n < 4)%nat -> (length (ep_bank (st e)) + (length bs + n) < size e)%nat) as Hn by lia.
  apply wp_bind. eapply wp_mono; [eapply scsi_put_dev; [|exact H]; lia|]. intros [] w1 H1.
  apply wp_bind. eapply wp_mono; [eapply scsi_put_dev; [|exact H1]; rewrite length_app; apply (Hn 1%nat); lia|]. intros [] w2 H2. rewrite <- app_assoc in H2.
  apply wp_bind. eapply wp_mono; [eapply scsi_put_dev; [|exact H2]; rewrite length_app; apply (Hn 2%nat); lia|]. intros [] w3 H3. rewrite <- app_assoc in H3.
  eapply wp_mono; [eapply scsi_put_dev; [|exact H3]; rewrite length_app; apply (Hn 3%nat); lia|]. intros [] w4 H4. by rewrite <- app_assoc in H4.
Qed.

Context (He : 0 < e < 16) (Hsz : (13 <= size e)%nat).

(** A stream that fills [padded], as the code writes it. *)
Lemma padded_dev n bs w0 st w : is_u16 n -> Forall is_u8 bs -> (Z.of_nat (length bs) < 100) ->
  (2 * Z.to_nat n + 202 < fuel)%nat -> dev w0 e st w ->
  let k := Z.min n (Z.of_nat (length bs)) in
  wp true (Endpoint_Write_Stream_LE fuel bs k None;; Endpoint_Null_Stream fuel (u16 (n - k)) None)
    (fun _ => dev w0 e (<[e := write_all (size e) (st e) (padded n bs)]> st)) w.
Proof.
  intros Hn Hu Hl Hf H k. unfold is_u16 in Hn. apply wp_bind. unfold Endpoint_Write_Stream_LE.
  eapply wp_mono; [eapply (Write_Stream_dev LE bs k); [lia|unfold is_u16; lia|done|lia|exact He|exact Hin|lia|by left|exact H]|].
  intros r w1 [_ H1]. rewrite u16_small by (unfold is_u16; lia).
  eapply wp_mono; [eapply Null_Stream_dev; [exact He|exact Hin|lia|unfold is_u16; lia|lia|exact H1]|].
  intros r' w2 H2. eapply dev_ext; [|exact H2]. rewrite fn_lookup_insert. dev_eq; [|done].
  rewrite stream_bytes_LE by lia. unfold write_all. rewrite <- foldl_app. f_equal. unfold padded, k.
  f_equal; [|f_equal; lia]. destruct (decide (n <= Z.of_nat (length bs))); [by rewrite Z.min_l by lia|].
  rewrite Z.min_r by lia. by rewrite !take_ge by lia.
Qed.

(** A block. *)
Lemma ReadBlock_dev n w0 st w : ep_bank (st e) = [] -> block_ok (read_block n (volume (app w0))) -> (1025 < fuel)%nat -> dev w0 e st w ->
  wp true (VirtualFAT_ReadBlock fuel n)
    (fun _ => dev w0 e (<[e := sent_all (size e) (st e) [read_block n (volume (app w0))]]> st)) w.
Proof.
  intros Hb [Hl Hu] Hf H. unfold VirtualFAT_ReadBlock. apply wp_bind, wp_gets. rewrite (dev_app _ _ _ _ H). apply wp_bind.
  unfold Endpoint_Write_Stream_LE, SECTOR_SIZE_BYTES.
  eapply wp_mono; [eapply (Write_Stream_dev LE (read_block n (volume (app w0))) 512); [lia|done|done|change (Z.to_nat 512) with 512%nat; lia|exact He|exact Hin|lia|by left|exact H]|].
  intros r w1 [_ H1]. rewrite stream_bytes_LE, take_ge in H1 by lia. by apply finish_dev.
Qed.

Lemma read_blocks_dev first n : forall i w0 st w, 0 <= i -> i + Z.of_nat n <= 65535 -> ep_bank (st e) = [] -> (1025 < fuel)%nat ->
  (forall j, block_ok (read_block (u16 (first + j)) (volume (app w0)))) -> dev w0 e st w ->
  wp true (blocks_loop uninit fuel n true first i)
    (fun _ => dev w0 e (<[e := sent_all (size e) (st e)
       (map (fun j => read_block (u16 (first + j)) (volume (app w0))) (seqZ i (Z.of_nat n)))]> st)) w.
Proof.
  induction n as [|n IH]; intros i w0 st w Hi Hm Hb Hf Hok H; cbn [blocks_loop].
  { apply wp_ret. eapply dev_ext; [|exact H]. dev_eq; [|done]. by rewrite sent_all_nil. }
  apply wp_bind. eapply wp_mono; [eapply ReadBlock_dev; [done|apply Hok|done|exact H]|]. intros [] w1 H1.
  rewrite u16_small by (unfold is_u16; lia).
  eapply wp_mono; [eapply (IH (i + 1) w0 (<[e := sent_all (size e) (st e) [_]]> st)); [lia|lia|by rewrite fn_lookup_insert|done|exact Hok|exact H1]|].
  intros [] w2 H2. eapply dev_ext; [|exact H2]. rewrite fn_lookup_insert. dev_eq; [|done].
  rewrite (seqZ_cons i (Z.of_nat (S n))) by lia. replace (Z.pred (Z.of_nat (S n))) with (Z.of_nat n) by lia. cbn [map].
  by rewrite sent_all_app.
Qed.

(** The end of a command that sends one stream. *)
Lemma one_stream_dev bs n w0 st w : ep_bank (st e) = [] -> dev w0 e (<[e := write_all (size e) (st e) bs]> st) w ->
  wp true (Endpoint_ClearIN;; transferred n;; mret true)
    (fun ok w' => ok = true /\ dev (upd_app (store_in (set_CommandBlock (set_DataTransferLength (fun l => l - n)))) w0) e
       (<[e := sent_all (size e) (st e) [bs]]> st) w') w.
Proof using DH Hin.
  intros Hb H. apply wp_bind. eapply wp_mono; [eapply finish_dev; [done|exact H]|]. intros [] w1 H1.
  apply wp_bind, wp_modify, wp_ret. split; [done|]. by apply dev_upd_app.
Qed.

(** What a command sends is what [scsi_in] says. *)
Lemma dispatch_in_dev c streams n w0 st w : SCSICommandData (CommandBlock (State (info w0))) = c ->
  length c = 16%nat -> Forall is_u8 c -> sense_ok (SenseData (app w0)) ->
  (forall j, block_ok (read_block (u16 j) (volume (app w0)))) -> ep_bank (st e) = [] ->
  (1300 < fuel)%nat -> Forall (fun s => (2 * length s + 202 < fuel)%nat) streams ->
  scsi_in (fun j => read_block j (volume (app w0))) (SenseData (app w0)) c = Some (streams, n) -> dev w0 e st w ->
  wp true (SCSI_dispatch uninit fuel) (fun ok w' => ok = true /\
    dev (upd_app (store_in (set_CommandBlock (set_DataTransferLength (fun l => l - n)))) w0) e
      (<[e := sent_all (size e) (st e) streams]> st) w') w.
Proof.
  intros Hc Hl Hu Hs Hok Hb Hf Hfs Hin_ H. unfold info in Hc.
  assert (forall A (k : list Z -> prog (World Disk_App) A) Q, wp true (k c) Q w -> wp true (SCSICommand ≫= k) Q w) as Hcmd.
  { intros A k Q Hk. apply wp_bind. unfold SCSICommand. apply wp_bind, wp_gets, wp_ret. by rewrite (dev_app _ _ _ _ H), Hc. }
  unfold SCSI_dispatch. apply Hcmd, wp_bind, wp_byte_at; [lia|]. unfold scsi_in in Hin_.
  set (cmd := nth 0 c 0) in *. pose proof (dev_app _ _ _ _ H) as Ha.
  assert (dev w0 e (<[e := write_all (size e) (st e) []]> st) w) as H' by (eapply dev_ext; [|exact H]; dev_eq; done).
  destruct (cmd =? SCSI_CMD_INQUIRY).
  { destruct (_ && _) eqn:Eo; [|done]. injection Hin_ as <- <-. apply andb_true_iff in Eo as [E1 E2].
    unfold SCSI_Command_Inquiry. apply Hcmd, wp_bind, (wp_be16_at 3); [lia|done|].
    apply wp_bind, wp_byte_at; [lia|]. apply wp_bind, wp_byte_at; [lia|]. change (Z.lor (bit 0) (bit 1)) with 3.
    unfold tst. rewrite land3_mod, E1, E2. cbn [negb orb]. destruct InquiryData_ok as [Li Ui]. pose proof (be16_of_range c 3 Hu) as Hr.
    apply Forall_inv in Hfs. rewrite padded_length in Hfs by (unfold is_u16 in Hr; lia).
    eapply wp_seq, wp_mono; [change sizeof_InquiryData with (Z.of_nat (length (enc_inquiry InquiryData)));
      eapply padded_dev; [exact Hr|done|rewrite Li; lia|lia|exact H]|].
    intros [] w1 H1. by eapply one_stream_dev. }
  destruct (cmd =? SCSI_CMD_REQUEST_SENSE).
  { injection Hin_ as <- <-. unfold SCSI_Command_Request_Sense. apply Hcmd, wp_bind, wp_byte_at; [lia|].
    apply wp_bind, wp_gets. rewrite Ha. destruct (enc_sense_ok _ Hs) as [Ls Us].
    assert (is_u8 (nth 4 c 0)) as Hr by (rewrite nth_lookup; destruct (c !! 4%nat) eqn:E; [by eapply Forall_lookup_1 in E|done]).
    apply Forall_inv in Hfs. rewrite padded_length in Hfs by (unfold is_u8 in Hr; lia).
    eapply wp_seq, wp_mono; [replace sizeof_SenseData with (Z.of_nat (length (enc_sense (SenseData (app w0))))) by (by rewrite Ls);
      eapply padded_dev; [unfold is_u8, is_u16 in *; lia|done|rewrite Ls; lia|lia|exact H]|].
    intros [] w1 H1. by eapply one_stream_dev. }
  destruct (cmd =? SCSI_CMD_READ_CAPACITY_10).
  { injection Hin_ as <- <-. unfold SCSI_Command_Read_Capacity_10, Endpoint_Write_32_BE. apply wp_bind.
    eapply wp_mono; [eapply put32_dev; [|exact H']; rewrite Hb; cbn; lia|]. intros [] w1 H1. apply wp_bind.
    eapply wp_mono; [eapply put32_dev; [|exact H1]; rewrite Hb; cbn; lia|]. intros [] w2 H2.
    eapply wp_mono; [eapply one_stream_dev; [done|exact H2]|]. intros ok w3 [-> H3]. split; [done|].
    eapply dev_ext; [|exact H3]. dev_eq; [|done]. f_equal. unfold be32. cbn [Datatypes.app]. by rewrite !u8_land_FF. }
  rewrite (proj2 (Z.eqb_neq cmd SCSI_CMD_WRITE_10)) by (intros E; rewrite E in Hin_; done).
  destruct (cmd =? SCSI_CMD_READ_10).
  { unfold SCSI_Command_ReadWrite_10. apply Hcmd, wp_bind, (wp_be32_at 2); [lia|done|]. apply wp_bind, (wp_be16_at 7); [lia|done|].
    fold (u16 (be32_of c 2)) in Hin_. set (first := u16 (be32_of c 2)) in *. pose proof (be16_of_range c 7 Hu) as Hr. unfold is_u16 in Hr.
    destruct (Z.ltb_spec first LUN_MEDIA_BLOCKS); [|done]. injection Hin_ as <- <-. rewrite (proj2 (Z.leb_gt _ _)) by lia. apply wp_bind.
    eapply wp_mono; [eapply (read_blocks_dev first (Z.to_nat (be16_of c 7)) 0 w0 st); [lia|lia|done|lia|intros j; apply Hok|exact H]|].
    intros [] w1 H1. apply wp_bind, wp_modify, wp_ret. split; [done|]. rewrite Z2Nat.id in H1 by lia.
    replace (512 * be16_of c 7) with (be16_of c 7 * SECTOR_SIZE_BYTES) by (unfold SECTOR_SIZE_BYTES; lia). by apply dev_upd_app. }
  destruct (cmd =? SCSI_CMD_MODE_SENSE_6); [|done]. injection Hin_ as <- <-. unfold SCSI_Command_ModeSense_6, Endpoint_Write_32_LE.
  apply wp_bind. eapply wp_mono; [eapply put32_dev; [|exact H']; rewrite Hb; cbn; lia|]. intros [] w1 H1. by eapply one_stream_dev.
Qed.
End In.

(** ** Commands that receive data *)

Section Out.
Context (e : Z) (He : 0 < e < 16) (Hout : is_in e = false).

(** The host sends [data] as the packets [g]. *)
Definition sends (g : list (list Z)) (data : list Z) : Prop :=
  concat g = data /\ Forall (fun p => p <> []) g /\ block_ok data.

Lemma WriteBlock_dev n g data rest w0 st w : sends g data -> ep_queue (st e) = g ++ rest ->
  (512 + length (g ++ rest) < fuel)%nat -> dev w0 e st w ->
  wp true (VirtualFAT_WriteBlock uninit fuel n)
    (fun _ => dev (upd_app (fun a => set_volume (write_block n data (volume a)) a) w0) e (<[e := with_queue rest (st e)]> st)) w.
Proof using DH He Hout.
  intros (Hg & Hne & Hl & Hu) Hq Hf H. unfold VirtualFAT_WriteBlock, SECTOR_SIZE_BYTES, Endpoint_Read_Stream_LE. apply wp_bind.
  assert (g <> []) as Hg0 by (intros ->; cbn in Hg; subst; done).
  assert (length (concat (g ++ rest)) = 512 + length (concat rest))%nat as Hlc by (by rewrite concat_app, Hg, length_app, Hl).
  eapply wp_mono; [eapply (Read_Stream_dev LE (vla uninit 512) (concat (g ++ rest)) 512); [rewrite length_vla; lia|done|lia|rewrite Hq; change (Z.to_nat 512) with 512%nat; lia|done|done|
    rewrite Hq; by destruct g|by rewrite Hq|by left|exact H]|].
  intros r w1 (buf & -> & Hs & H1). apply stored_all in Hs as Hb; [|rewrite length_vla; lia|lia].
  destruct Hs as (Hlb & _). rewrite length_vla in Hlb. change (Z.to_nat 512) with 512%nat in *.
  rewrite stream_bytes_LE in Hb by lia. change (Z.to_nat 512) with 512%nat in Hb.
  assert (buf = data) as ->.
  { rewrite (take_ge buf 512) in Hb by lia. rewrite Hb, concat_app, Hg, take_app_le, take_ge by lia. done. }
  apply wp_bind. dev_step ClearOUT_dev H1. intros [] w2 H2. apply wp_modify. apply dev_upd_app.
  eapply dev_ext; [|exact H2]. rewrite fn_lookup_insert. dev_eq; [|done]. rewrite Hq. rewrite <- Hl, <- Hg at 1.
  rewrite read_all_packets by done. done.
Qed.

(** Consecutive blocks. *)
Fixpoint write_blocks (first i : Z) (ds : list (list Z)) (v : Volume) : Volume :=
  match ds with
  | [] => v
  | d :: ds => write_blocks first (i + 1) ds (write_block (u16 (first + i)) d v)
  end.

Lemma write_blocks_dev first gs ds rest : Forall2 sends gs ds -> forall i w0 st w, 0 <= i -> i + Z.of_nat (length ds) <= 65535 ->
  ep_queue (st e) = concat gs ++ rest -> (512 + length (concat gs ++ rest) < fuel)%nat -> dev w0 e st w ->
  wp true (blocks_loop uninit fuel (length ds) false first i)
    (fun _ => dev (upd_app (fun a => set_volume (write_blocks first i ds (volume a)) a) w0) e (<[e := with_queue rest (st e)]> st)) w.
Proof using DH He Hout.
  induction 1 as [|g d gs ds Hg _ IH]; intros i w0 st w Hi Hm Hq Hf H; cbn [blocks_loop length].
  - apply wp_ret. replace (upd_app _ w0) with w0 by (by destruct w0 as [? ? ? ? ? ? ? ? []]).
    eapply dev_ext; [|exact H]. cbn in Hq. dev_eq; [|done]. rewrite <- Hq. by destruct (st e).
  - cbn [concat] in Hq, Hf. rewrite <- app_assoc in Hq, Hf. rewrite length_app in Hf.
    apply wp_bind. eapply wp_mono; [eapply (WriteBlock_dev _ g d (concat gs ++ rest)); [done|exact Hq|rewrite length_app; lia|exact H]|].
    intros [] w1 H1. cbn [length] in Hm. rewrite u16_small by (unfold is_u16; lia).
    eapply wp_mono; [eapply (IH (i + 1) _ (<[e := with_queue (concat gs ++ rest) (st e)]> st)); [lia|lia|by rewrite fn_lookup_insert|lia|exact H1]|].
    intros [] w2 H2. cbn [write_blocks]. eapply dev_ext; [|exact H2]. rewrite fn_lookup_insert. dev_eq; done.
Qed.

(** WRITE (10) *)
Lemma dispatch_out_dev c gs ds rest w0 st w : SCSICommandData (CommandBlock (State (info w0))) = c ->
  length c = 16%nat -> Forall is_u8 c -> nth 0 c 0 = SCSI_CMD_WRITE_10 ->
  let first := be32_of c 2 mod 65536 in first < LUN_MEDIA_BLOCKS -> be16_of c 7 = Z.of_nat (length ds) ->
  Forall2 sends gs ds -> ep_queue (st e) = concat gs ++ rest -> (512 + length (concat gs ++ rest) < fuel)%nat -> dev w0 e st w ->
  wp true (SCSI_dispatch uninit fuel) (fun ok w' => ok = true /\
    dev (upd_app (fun a => store_in (set_CommandBlock (set_DataTransferLength (fun l => l - 512 * Z.of_nat (length ds))))
           (set_volume (write_blocks first 0 ds (volume a)) a)) w0) e (<[e := with_queue rest (st e)]> st) w') w.
Proof using DH He Hout.
  intros Hc Hl Hu Hcmd first Hfirst Hn Hg Hq Hf H. unfold info in Hc.
  assert (forall A (k : list Z -> prog (World Disk_App) A) Q, wp true (k c) Q w -> wp true (SCSICommand ≫= k) Q w) as Hget.
  { intros A k Q Hk. apply wp_bind. unfold SCSICommand. apply wp_bind, wp_gets, wp_ret. by rewrite (dev_app _ _ _ _ H), Hc. }
  unfold SCSI_dispatch. apply Hget, wp_bind, wp_byte_at; [lia|]. rewrite Hcmd.
  change (SCSI_CMD_WRITE_10 =? SCSI_CMD_INQUIRY) with false. change (SCSI_CMD_WRITE_10 =? SCSI_CMD_REQUEST_SENSE) with false.
  change (SCSI_CMD_WRITE_10 =? SCSI_CMD_READ_CAPACITY_10) with false. change (SCSI_CMD_WRITE_10 =? SCSI_CMD_WRITE_10) with true.
  cbv iota. unfold SCSI_Command_ReadWrite_10. apply Hget, wp_bind, (wp_be32_at 2); [lia|done|].
  apply wp_bind, (wp_be16_at 7); [lia|done|]. change (u16 (be32_of c 2)) with first. rewrite (proj2 (Z.leb_gt _ _)) by lia.
  pose proof (be16_of_range c 7 Hu) as Hr. unfold is_u16 in Hr. rewrite Hn in Hr |- *. rewrite Nat2Z.id. apply wp_bind.
  eapply wp_mono; [eapply (write_blocks_dev first gs ds rest Hg 0); [lia|lia|exact Hq|done|exact H]|].
  intros [] w1 H1. apply wp_bind, wp_modify, wp_ret. split; [done|]. unfold SECTOR_SIZE_BYTES.
  replace (Z.of_nat (length ds) * 512) with (512 * Z.of_nat (length ds)) by lia.
  by apply (dev_upd_app (store_in (set_CommandBlock (set_DataTransferLength (fun l => l - 512 * Z.of_nat (length ds)))))) in H1.
Qed.
End Out.
End Serve.

(** ** Commands over USB *)

Section USB.
Context {HW : Hardware} {BD : Board Disk_App} {QL : QuietLEDs BD} {is_in : Z -> bool} {size : Z -> nat} {q0 : Z -> list (list Z)}.
Context {DH : DataHost is_in size q0} {EV : DeviceEvents Disk_App} {RQ : DeviceRequests Disk_App}.
Context {T : Target} {TO : TargetOK T} {N : NVM} {c0 e0 : Z -> Z} {NR : NVMReads N c0 e0} (uninit : Z -> Z) (fuel : nat).
Abbreviation dev := (dev (is_in := is_in) (q0 := q0) (App := Disk_App)).
Implicit Types w : World Disk_App.

(** The application after a command that succeeded. *)
Definition after_command (a : Disk_App) : Disk_App :=
  set_Ticks 0 (set_SenseData (set_sense SCSI_SENSE_KEY_GOOD SCSI_ASENSE_NO_ADDITIONAL_INFORMATION SCSI_ASENSEQ_NO_QUALIFIER (SenseData a)) a).

Lemma callback_dev g e st' w0 w :
  wp true (SCSI_dispatch uninit fuel) (fun ok w' => ok = true /\ dev (upd_app g w0) e st' w') w ->
  wp true (CALLBACK_MS_Device_SCSICommandReceived (MSCallbacks := DiskCallbacks uninit fuel))
    (fun ok w' => ok = true /\ dev (upd_app (fun a => after_command (g a)) w0) e st' w') w.
Proof using QL.
  intros H. cbn [CALLBACK_MS_Device_SCSICommandReceived DiskCallbacks]. apply wp_bind. unfold wp at 1. rewrite LEDs_quiet.
  apply wp_bind. unfold SCSI_DecodeSCSICommand. apply wp_bind. eapply wp_mono; [exact H|]. intros ok w1 [-> H1].
  apply wp_bind, wp_modify, wp_ret. apply wp_bind. unfold wp at 1. rewrite LEDs_quiet. apply wp_bind, wp_modify, wp_ret.
  split; [done|]. eapply (dev_upd_app (fun a => set_SenseData (set_sense _ _ _ (SenseData a)) a)), (dev_upd_app (set_Ticks 0)) in H1. exact H1.
Qed.

Context (ein eout : Z) (w : World Disk_App).
Hypothesis Hport : ms_port is_in size ein eout w.

(** The interface between commands. *)
Definition ready (p : list Z) : Prop :=
  let st x := ep_state is_in q0 x (tr w) in
  ep_bank (st ein) = [] /\ ep_stalled (st ein) = false /\ ep_stalled (st eout) = false /\
  IsMassStoreReset (State (info w)) = false /\ Forall is_u8 (SCSICommandData (CommandBlock (State (info w)))) /\
  length p = 31%nat /\ Forall is_u8 p /\ invalid_block (set_CommandBlock (header p) (info w)) = false.

Definition status (c : MS_CommandBlockWrapper_t) (n : Z) : list Z :=
  enc_status (mkCSW MS_CSW_SIGNATURE (Tag c) (u32 (DataTransferLength c - n)) MS_SCSI_COMMAND_Pass).

(** The states a command leaves. *)
Definition left (a : Disk_App) (st' : Z -> EPState) (ok : bool) (a2 : Disk_App) (st2 : Z -> EPState) : Prop :=
  ok = true /\ a2 = a /\ st2 = st'.

Lemma settled_left c n g st' ok a2 st2 : IsMassStoreReset (State (info w)) = false ->
  ep_bank (st' ein) = [] -> ep_stalled (st' ein) = false -> ep_stalled (st' eout) = false ->
  Disk_MS_Interface (g (app w)) = set_CommandBlock (fun _ => set_DataTransferLength (fun l => l - n) c) (info w) ->
  left (after_command (g (app w))) st' ok a2 st2 -> settled c (info w) ein eout ok a2 st2.
Proof using Type.
  intros Hr Hb Hs1 Hs2 Hg (-> & -> & ->). unfold settled. cbn [load Disk_object after_command set_Ticks set_SenseData Disk_MS_Interface]. rewrite Hg.
  by split_and!.
Qed.

(** The interface structure with a command. *)
Abbreviation called c := (upd_app (store (set_CommandBlock (fun _ => c) (info w))) w).

Lemma read_answers c st streams n d : tst (Flags c) MS_COMMAND_DIR_DATA_IN = true -> length (SCSICommandData c) = 16%nat ->
  Forall is_u8 (SCSICommandData c) -> ep_bank (st ein) = [] -> sense_ok (SenseData (app w)) -> holds c0 e0 (volume (app w)) d -> disk_ok d ->
  (1300 < fuel)%nat -> Forall (fun s => (2 * length s + 202 < fuel)%nat) streams ->
  scsi_in (fun j => disk_read j d) (SenseData (app w)) (SCSICommandData c) = Some (streams, n) ->
  let g := store_in (set_CommandBlock (set_DataTransferLength (fun l => l - n))) in
  scsi_answers (CB := DiskCallbacks uninit fuel) (is_in := is_in) (q0 := q0) w ein eout c st
    (left (after_command (g (app (called c)))) (<[ein := sent_all (size ein) (st ein) streams]> st)).
Proof using QL DH TO NR Hport.
  intros Hfl Hl Hu Hb Hs Hv Hd Hf Hfs Hin g w1 H1. rewrite Hfl in H1. destruct Hport as (_ & _ & _ & Hein & _ & Hi & _ & Hsz & _).
  assert (forall j, read_block (u16 j) (volume (app w)) = disk_read (u16 j) d) as Hrd.
  { intros j. apply (read_block_refines (c0 := c0) (e0 := e0)); [apply u16_range|done]. }
  eapply wp_mono; [eapply (callback_dev g ein (<[ein := sent_all (size ein) (st ein) streams]> st) (called c)), (dispatch_in_dev uninit fuel ein Hi ltac:(lia) Hsz (SCSICommandData c)); [done|done|done|done| |done|done|done| |exact H1]|].
  - intros j. eapply (read_block_ok (c0 := c0) (e0 := e0)); [apply u16_range|exact Hv|exact Hd].
  - rewrite <- Hin. unfold scsi_in. cbn [app upd_app store Disk_object set_Disk_MS_Interface SenseData volume].
    repeat case_match; try done. f_equal. f_equal. apply map_ext. intros i. apply Hrd.
  - intros ok w2 [-> H2]. eexists (after_command (g (app (called c)))), ein, _. split; [exact H2|done].
Qed.

Lemma write_answers c st gs ds rest : tst (Flags c) MS_COMMAND_DIR_DATA_IN = false -> length (SCSICommandData c) = 16%nat ->
  Forall is_u8 (SCSICommandData c) -> nth 0 (SCSICommandData c) 0 = SCSI_CMD_WRITE_10 ->
  let first := be32_of (SCSICommandData c) 2 mod 65536 in first < LUN_MEDIA_BLOCKS ->
  be16_of (SCSICommandData c) 7 = Z.of_nat (length ds) -> Forall2 sends gs ds -> ep_queue (st eout) = concat gs ++ rest ->
  (512 + length (concat gs ++ rest) < fuel)%nat ->
  let g a := store_in (set_CommandBlock (set_DataTransferLength (fun l => l - 512 * Z.of_nat (length ds))))
               (set_volume (write_blocks first 0 ds (volume a)) a) in
  scsi_answers (CB := DiskCallbacks uninit fuel) (is_in := is_in) (q0 := q0) w ein eout c st
    (left (after_command (g (app (called c)))) (<[eout := with_queue rest (st eout)]> st)).
Proof using QL DH Hport.
  intros Hfl Hl Hu Hc first Hfi Hn Hg Hq Hf g w1 H1. rewrite Hfl in H1. destruct Hport as (_ & _ & _ & _ & Heo & _ & Ho & _ & _).
  eapply wp_mono; [eapply (callback_dev g eout (<[eout := with_queue rest (st eout)]> st) (called c)), (dispatch_out_dev uninit fuel eout ltac:(lia) Ho (SCSICommandData c) gs ds rest); try done|].
  intros ok w2 [-> H2]. eexists (after_command (g (app (called c)))), eout, _. split; [exact H2|done].
Qed.
End USB.

(** Consecutive blocks of the disk. *)
Fixpoint disk_write_blocks {T : Target} (n : Z) (ds : list (list Z)) (d : Disk) : Disk :=
  match ds with
  | [] => d
  | data :: ds => disk_write_blocks (n + 1) ds (disk_write (u16 n) data d)
  end.

Lemma write_blocks_holds {T : Target} {TO : TargetOK T} {N : NVM} {c0 e0 : Z -> Z} first ds : Forall block_ok ds -> forall i v d,
  holds c0 e0 v d -> disk_ok d ->
  holds c0 e0 (write_blocks first i ds v) (disk_write_blocks (first + i) ds d) /\ disk_ok (disk_write_blocks (first + i) ds d).
Proof.
  induction 1 as [|data ds Hb _ IH]; intros i v d Hv Hd; [done|]. cbn [write_blocks disk_write_blocks].
  replace (first + i + 1) with (first + (i + 1)) by lia. apply IH; [|by apply disk_write_ok]. destruct (Hb) as [Hl Hu].
  apply write_block_refines; [apply u16_range|done..].
Qed.

(** C17: the disk answers the commands that read from it.  When the host's packet is a
    command block of INQUIRY, REQUEST SENSE, READ CAPACITY, MODE SENSE or READ (10), with
    the addresses in range, the task sends exactly the data the specification of the
    command says (for READ (10) the blocks of the disk the volume holds), in packets no
    larger than the endpoint, followed by one status wrapper with the tag of the command,
    "passed" and the bytes that are left; it clears the sense data (the key and both
    codes) and the counter of idle rounds, and leaves the disk, and the packets that follow, as they are. *)
Theorem disk_answers_commands {HW : Hardware} {BD : Board Disk_App} {QL : QuietLEDs BD} {is_in size q0}
    {DH : DataHost is_in size q0} {EV : DeviceEvents Disk_App} {RQ : DeviceRequests Disk_App} {T : Target} {TO : TargetOK T}
    {N : NVM} {c0 e0} {NR : NVMReads N c0 e0} uninit fuel ein eout p ps (w : World Disk_App) d streams n :
  ms_port is_in size ein eout w -> ready (is_in := is_in) (q0 := q0) ein eout w p ->
  let c := command p (CommandBlock (State (info w))) in
  ep_queue (ep_state is_in q0 eout (tr w)) = p :: ps -> tst (Flags c) MS_COMMAND_DIR_DATA_IN = true ->
  holds c0 e0 (volume (app w)) d -> disk_ok d -> sense_ok (SenseData (app w)) ->
  scsi_in (fun j => disk_read j d) (SenseData (app w)) (SCSICommandData c) = Some (streams, n) ->
  (1300 + length ps < fuel)%nat -> Forall (fun s => (2 * length s + 202 < fuel)%nat) streams ->
  exists w' pks, MS_Device_USBTask (CB := DiskCallbacks uninit fuel) fuel w = Ret tt w' /\
    concat pks = concat streams /\ Forall (fun k => (length k <= size ein)%nat) pks /\
    ep_state is_in q0 ein (tr w') = mkEP [] (ep_sent (ep_state is_in q0 ein (tr w)) ++ pks ++ [status c n])
      (ep_queue (ep_state is_in q0 ein (tr w))) false /\
    ep_queue (ep_state is_in q0 eout (tr w')) = ps /\ volume (app w') = volume (app w) /\
    TicksSinceLastCommand (app w') = 0 /\ SenseData (app w') = set_sense SCSI_SENSE_KEY_GOOD 0 0 (SenseData (app w)).
Proof.
  intros Hport (Hb & Hsi & Hso & Hre & Hold & Hp & Hu & Hv) c Hq Hfl Hh Hd Hse Hin Hf Hfs.
  destruct (Hport) as (_ & _ & _ & _ & _ & Hi & Ho & Hsz & Hlen). assert (ein <> eout) as Hne by congruence.
  destruct (command_data p (info w) Hp Hu Hv Hlen Hold) as [Hlc Huc]. fold c in Hlc, Huc.
  set (st1 := <[eout := with_queue ps (ep_state is_in q0 eout (tr w))]> (fun x => ep_state is_in q0 x (tr w))).
  assert (st1 ein = ep_state is_in q0 ein (tr w)) as E1 by (unfold st1; by rewrite fn_lookup_insert_ne).
  pose proof (MS_USBTask_command_dev (CB := DiskCallbacks uninit fuel) (is_in := is_in) (size := size) fuel ein eout p ps w _ Hport Hq Hp Hu Hv ltac:(lia)
    (read_answers uninit fuel ein eout w Hport c st1 streams n d Hfl Hlc Huc ltac:(by rewrite E1) Hse Hh Hd ltac:(lia) Hfs Hin)) as H.
  destruct (wp_total_run_unit _ _ _ (H ltac:(intros ok a2 st2 HL; eapply (settled_left ein eout w c n (fun a => store_in _ (store _ a))); [done| | | |reflexivity|exact HL];
    ep_lookup; rewrite ?E1; unfold st1; ep_lookup; done))) as (w' & Hrun & ok & a2 & st2 & (-> & -> & ->) & Hdev).
  exists w', (concat (map (in_packets (size ein)) streams)). split; [done|].
  assert (concat (concat (map (in_packets (size ein)) streams)) = concat streams /\
    Forall (fun k => (length k <= size ein)%nat) (concat (map (in_packets (size ein)) streams))) as [Hc Hs].
  { clear -Hsz. induction streams as [|s streams [IH1 IH2]]; [by split|]. destruct (in_packets_spec (size ein) s ltac:(lia)) as [E Hk].
    cbn [map concat]. rewrite concat_app, E, IH1. split; [done|by apply Forall_app_2]. }
  split; [done|]. split; [done|]. destruct (Hdev) as (_ & _ & Hst). rewrite !Hst, (dev_app _ _ _ _ Hdev). split_and!; [|..|done|done].
  - ep_lookup. rewrite E1. unfold sent_all. cbn [ep_sent ep_queue]. rewrite <- app_assoc. done.
  - unfold st1. ep_lookup. done.
  - done.
Qed.

(** C9: the disk stores what the host writes.  When the host's packet is a command block
    of WRITE (10) for blocks of the disk and the packets that follow carry the data, 512
    bytes for each block, however they are split, then one call of the task takes all of
    them, writes the blocks one after the other (so that in particular the flash memory
    is programmed, and not outside its file), and answers with a status wrapper with the
    tag of the command, "passed" and the bytes that are left. *)
Theorem disk_stores_writes {HW : Hardware} {BD : Board Disk_App} {QL : QuietLEDs BD} {is_in size q0}
    {DH : DataHost is_in size q0} {EV : DeviceEvents Disk_App} {RQ : DeviceRequests Disk_App} {T : Target} {TO : TargetOK T}
    {N : NVM} {c0 e0} uninit fuel ein eout p gs ds rest (w : World Disk_App) d :
  ms_port is_in size ein eout w -> ready (is_in := is_in) (q0 := q0) ein eout w p ->
  let c := command p (CommandBlock (State (info w))) in let first := be32_of (SCSICommandData c) 2 mod 65536 in
  ep_queue (ep_state is_in q0 eout (tr w)) = p :: concat gs ++ rest -> tst (Flags c) MS_COMMAND_DIR_DATA_IN = false ->
  nth 0 (SCSICommandData c) 0 = SCSI_CMD_WRITE_10 -> first < LUN_MEDIA_BLOCKS ->
  be16_of (SCSICommandData c) 7 = Z.of_nat (length ds) -> Forall2 sends gs ds ->
  holds c0 e0 (volume (app w)) d -> disk_ok d -> (512 + length (concat gs ++ rest) < fuel)%nat ->
  exists w', MS_Device_USBTask (CB := DiskCallbacks uninit fuel) fuel w = Ret tt w' /\
    holds c0 e0 (volume (app w')) (disk_write_blocks first ds d) /\ disk_ok (disk_write_blocks first ds d) /\
    ep_state is_in q0 ein (tr w') = mkEP [] (ep_sent (ep_state is_in q0 ein (tr w)) ++ [status c (512 * Z.of_nat (length ds))])
      (ep_queue (ep_state is_in q0 ein (tr w))) false /\
    ep_queue (ep_state is_in q0 eout (tr w')) = rest.
Proof.
  intros Hport (Hb & Hsi & Hso & Hre & Hold & Hp & Hu & Hv) c first Hq Hfl Hc Hfi Hn Hg Hh Hd Hf.
  destruct (Hport) as (_ & _ & _ & _ & _ & Hi & Ho & Hsz & Hlen). assert (ein <> eout) as Hne by congruence.
  destruct (command_data p (info w) Hp Hu Hv Hlen Hold) as [Hlc Huc]. fold c in Hlc, Huc. set (ps := concat gs ++ rest) in *.
  set (st1 := <[eout := with_queue ps (ep_state is_in q0 eout (tr w))]> (fun x => ep_state is_in q0 x (tr w))).
  assert (st1 ein = ep_state is_in q0 ein (tr w)) as E1 by (unfold st1; by rewrite fn_lookup_insert_ne).
  assert (ep_queue (st1 eout) = concat gs ++ rest) as E2 by (unfold st1; by rewrite fn_lookup_insert).
  assert (ep_stalled (st1 eout) = false) as E3 by (unfold st1; by rewrite fn_lookup_insert).
  pose proof (MS_USBTask_command_dev (CB := DiskCallbacks uninit fuel) (is_in := is_in) (size := size) fuel ein eout p ps w _ Hport Hq Hp Hu Hv ltac:(lia)
    (write_answers uninit fuel ein eout w Hport c st1 gs ds rest Hfl Hlc Huc Hc Hfi Hn Hg E2 Hf)) as H.
  destruct (wp_total_run_unit _ _ _ (H ltac:(intros ok a2 st2 HL;
    eapply (settled_left ein eout w c (512 * Z.of_nat (length ds)) (fun a => store_in _ (set_volume _ (store _ a)))); [done| | | |reflexivity|exact HL];
    ep_lookup; rewrite ?E1; done))) as (w' & Hrun & ok & a2 & st2 & (-> & -> & ->) & Hdev).
  exists w'. split; [done|]. destruct (Hdev) as (_ & _ & Hst). rewrite !Hst, (dev_app _ _ _ _ Hdev).
  assert (Forall block_ok ds) as Hok by (clear -Hg; induction Hg as [|g x gs ds (_ & _ & Hx) _ IH]; by constructor).
  destruct (write_blocks_holds first ds Hok 0 _ _ Hh Hd) as [Hh' Hd']. rewrite Z.add_0_r in Hh', Hd'. split_and!; [exact Hh'|exact Hd'|..].
  - ep_lookup. by rewrite E1.
  - ep_lookup. done.
Qed.

(** ** Commands that are refused *)

(** C40: the commands the disk does not support fail and say why.  An unknown command, an
    INQUIRY for vital data, and a READ (10) or WRITE (10) from a block that is not on the
    disk return false after they have set the sense data, and do nothing else: no register
    is touched.  The address that is compared with the size of the disk is the one modulo
    65536. *)
Theorem SCSI_refuses {HW : Hardware} {EV : DeviceEvents Disk_App} {RQ : DeviceRequests Disk_App} {T : Target} {N : NVM}
    uninit fuel (w : World Disk_App) : let c := SCSICommandData (CommandBlock (State (info w))) in
  length c = 16%nat -> Forall is_u8 c ->
  let fails code := SCSI_DecodeSCSICommand uninit fuel w =
    Ret false (upd_app (fun a => set_SenseData (set_sense SCSI_SENSE_KEY_ILLEGAL_REQUEST code 0 (SenseData a)) a) w) in
  let cmd := nth 0 c 0 in
  (cmd = SCSI_CMD_INQUIRY -> nth 1 c 0 mod 4 <> 0 \/ nth 2 c 0 <> 0 -> fails SCSI_ASENSE_INVALID_FIELD_IN_CDB) /\
  (cmd = SCSI_CMD_READ_10 \/ cmd = SCSI_CMD_WRITE_10 -> LUN_MEDIA_BLOCKS <= be32_of c 2 mod 65536 ->
     fails SCSI_ASENSE_LOGICAL_BLOCK_ADDRESS_OUT_OF_RANGE) /\
  (~ In cmd [SCSI_CMD_INQUIRY; SCSI_CMD_REQUEST_SENSE; SCSI_CMD_READ_CAPACITY_10; SCSI_CMD_WRITE_10; SCSI_CMD_READ_10;
             SCSI_CMD_MODE_SENSE_6; SCSI_CMD_START_STOP_UNIT; SCSI_CMD_SEND_DIAGNOSTIC; SCSI_CMD_TEST_UNIT_READY;
             SCSI_CMD_PREVENT_ALLOW_MEDIUM_REMOVAL; SCSI_CMD_VERIFY_10] -> fails SCSI_ASENSE_INVALID_COMMAND).
Proof.
  intros c Hl Hu fails cmd.
  assert (forall A (k : list Z -> prog (World Disk_App) A), (SCSICommand ≫= k) w = k c w) as Hget by done.
  assert (forall A o (k : Z -> prog (World Disk_App) A), (o < 16)%nat -> (byte_at o c ≫= k) w = k (nth o c 0) w) as Hbyte.
  { intros A o k Ho. unfold byte_at, mbind, prog_bind. destruct (lookup_lt_is_Some_2 c o) as [b E]; [lia|]. by rewrite E, (nth_lookup_Some _ _ _ _ E). }
  assert (forall A o (k : Z -> prog (World Disk_App) A), (o + 2 <= 16)%nat -> (be16_at (Z.of_nat o) c ≫= k) w = k (be16_of c o) w) as H16.
  { intros A o k Ho. pose proof (wp_be16_at o c (fun v w' => v = be16_of c o /\ w' = w) w ltac:(lia) Hu (conj eq_refl eq_refl)) as H.
    unfold wp in H. unfold mbind at 1, prog_bind at 1. destruct (be16_at _ c w) as [v w'| |]; [by destruct H as [-> ->]|done|done]. }
  assert (forall A o (k : Z -> prog (World Disk_App) A), (o + 4 <= 16)%nat -> (be32_at (Z.of_nat o) c ≫= k) w = k (be32_of c o) w) as H32.
  { intros A o k Ho. pose proof (wp_be32_at o c (fun v w' => v = be32_of c o /\ w' = w) w ltac:(lia) Hu (conj eq_refl eq_refl)) as H.
    unfold wp in H. unfold mbind at 1, prog_bind at 1. destruct (be32_at _ c w) as [v w'| |]; [by destruct H as [-> ->]|done|done]. }
  assert (forall code, SCSI_dispatch uninit fuel w = Ret false (upd_app (fun a => set_SenseData (set_sense SCSI_SENSE_KEY_ILLEGAL_REQUEST code 0 (SenseData a)) a) w) ->
    fails code) as Hd.
  { intros code E. unfold fails, SCSI_DecodeSCSICommand. unfold mbind, prog_bind. by rewrite E. }
  split_and!.
  - intros Ec Ho. apply Hd. unfold SCSI_dispatch. rewrite Hget, Hbyte by lia. fold cmd. rewrite Ec. cbn [Z.eqb Pos.eqb SCSI_CMD_INQUIRY].
    unfold SCSI_Command_Inquiry. rewrite Hget, (H16 _ 3%nat), !Hbyte by lia. unfold tst. change (Z.lor (bit 0) (bit 1)) with 3. rewrite land3_mod.
    replace (negb (nth 1 c 0 mod 4 =? 0) || negb (nth 2 c 0 =? 0)) with true; [done|]. symmetry.
    destruct (Z.eqb_spec (nth 1 c 0 mod 4) 0), (Z.eqb_spec (nth 2 c 0) 0); try done. lia.
  - intros Ec Ho. apply Hd. unfold SCSI_dispatch. rewrite Hget, Hbyte by lia. fold cmd.
    assert (forall r, SCSI_Command_ReadWrite_10 uninit fuel r w = Ret false (upd_app (fun a => set_SenseData
      (set_sense SCSI_SENSE_KEY_ILLEGAL_REQUEST SCSI_ASENSE_LOGICAL_BLOCK_ADDRESS_OUT_OF_RANGE 0 (SenseData a)) a) w)) as Hrw.
    { intros r. unfold SCSI_Command_ReadWrite_10. rewrite Hget, (H32 _ 2%nat), (H16 _ 7%nat) by lia. unfold u16.
      by rewrite (proj2 (Z.leb_le _ _)) by done. }
    destruct Ec as [-> | ->]; apply Hrw.
  - intros Hn. apply Hd. unfold SCSI_dispatch. rewrite Hget, Hbyte by lia. fold cmd. unfold no_handling. cbn [existsb].
    cbn [In] in Hn. repeat match goal with |- context [cmd =? ?x] => rewrite (proj2 (Z.eqb_neq cmd x)) by (intros E; apply Hn; rewrite E; tauto) end. done.
Qed.

(** ** Witnesses *)

(** A command block for [len] bytes, and the world of a host that sends it, then [data]. *)
Definition disk_cbw (len flags : Z) (cdb : list Z) : list Z :=
  [0x55; 0x53; 0x42; 0x43; 1; 2; 3; 4] ++ le32 len ++ [flags; 0; 10] ++ cdb ++ replicate (16 - length cdb) 0.
Definition disk_q (ps : list (list Z)) (e : Z) : list (list Z) := if e =? 4 then ps else [].
Definition disk_hw (ps : list (list Z)) : Hardware := data_hw (fun e => e =? 3) (fun _ => 64%nat) (disk_q ps).
Lemma disk_host ps : Forall (Forall is_u8) ps -> DataHost (HW := disk_hw ps) (fun e => e =? 3) (fun _ => 64%nat) (disk_q ps).
Proof. intros H. apply data_host. intros e. unfold disk_q. destruct (_ =? _); [done|constructor]. Qed.
Definition disk_world : World Disk_App := selected_world (initial_Disk_App (T := at90usb1287) 0) 0.

Lemma disk_world_port : ms_port (fun e => e =? 3) (fun _ => 64%nat) 3 4 disk_world.
Proof. repeat split; cbn; lia. Qed.

Lemma initial_disk_ok c0 e0 : (forall x, is_u8 (c0 x)) -> (forall x, is_u8 (e0 x)) -> disk_ok (initial_Disk (T := at90usb1287) c0 e0).
Proof.
  intros Hc He. unfold disk_ok. cbn [initial_Disk root flash_file eeprom_file].
  split_and!; [vm_compute; reflexivity|vm_compute; repeat (constructor; [done|]); constructor| |];
    apply Forall_map, Forall_forall; intros x _; [apply Hc|apply He].
Qed.

(** READ (10) of the first block of FLASH.BIN. *)
Definition read_cbw : list Z := disk_cbw 512 0x80 [0x28; 0; 0; 0; 0; 4; 0; 0; 1; 0].

Lemma disk_answers_commands_witness :
  let T := at90usb1287 in let N := machine_nvm (T := T) (fun _ => 7) (fun _ => 9) in
  let d := initial_Disk (T := T) (fun _ => 7) (fun _ => 9) in
  let c := command read_cbw (CommandBlock (State (info disk_world))) in
  exists w' pks, MS_Device_USBTask (HW := disk_hw [read_cbw]) (EV := no_events _) (RQ := no_requests _)
      (CB := DiskCallbacks (HW := disk_hw [read_cbw]) (BD := no_board _) (EV := no_events _) (RQ := no_requests _) (T := T) (N := N) (fun _ => 0) 2000)
      2000 disk_world = Ret tt w' /\
    concat pks = concat [disk_read (T := T) (N := N) 4 d] /\ Forall (fun k => (length k <= 64)%nat) pks /\
    ep_state (fun e => e =? 3) (disk_q [read_cbw]) 3 (tr w') = mkEP [] ([] ++ pks ++ [status c 512]) [] false /\
    ep_queue (ep_state (fun e => e =? 3) (disk_q [read_cbw]) 4 (tr w')) = [] /\ volume (app w') = initial_Volume (T := T) /\
    TicksSinceLastCommand (app w') = 0 /\ SenseData (app w') = set_sense SCSI_SENSE_KEY_GOOD 0 0 (SenseData (app disk_world)).
Proof.
  intros T N d c.
  assert (Forall is_u8 read_cbw) as Hu by (vm_compute; repeat (constructor; [done|]); constructor).
  assert (holds (T := T) (fun _ => 7) (fun _ => 9) (volume (app disk_world)) d) as Hh by apply initial_holds.
  assert (disk_ok d) as Hd by (by apply initial_disk_ok).
  apply (disk_answers_commands (HW := disk_hw [read_cbw]) (BD := no_board _) (QL := fun _ _ => eq_refl)
    (DH := disk_host [read_cbw] ltac:(by repeat constructor)) (EV := no_events _) (RQ := no_requests _) (TO := at90usb1287_ok)
    (NR := machine_reads (T := T) (fun _ => 7) (fun _ => 9)) (fun _ => 0) 2000 3 4 read_cbw [] disk_world d [disk_read (T := T) (N := N) 4 d] 512).
  - exact disk_world_port.
  - split_and!; try done. by repeat constructor.
  - done.
  - done.
  - exact Hh.
  - exact Hd.
  - split_and!; try done; by repeat constructor.
  - done.
  - cbn [length]. lia.
  - constructor; [|constructor].
    destruct (read_block_ok (TO := at90usb1287_ok) (NR := machine_reads (T := T) (fun _ => 7) (fun _ => 9)) 4 _ d ltac:(lia) Hh Hd) as [Hl _].
    rewrite (read_block_refines (TO := at90usb1287_ok) (NR := machine_reads (T := T) (fun _ => 7) (fun _ => 9)) 4 _ d ltac:(lia) Hh) in Hl.
    match goal with |- (2 * ?n + 202 < 2000)%nat => assert (n = 512%nat) as -> by exact Hl end. lia.
Defined.

(** WRITE (10) of that block, in eight packets. *)
Definition write_cbw : list Z := disk_cbw 512 0 [0x2A; 0; 0; 0; 0; 4; 0; 0; 1; 0].
Definition written_packets : list (list Z) := replicate 8 (replicate 64 0x5A).

Lemma disk_stores_writes_witness :
  let T := at90usb1287 in let N := machine_nvm (T := T) (fun _ => 7) (fun _ => 9) in
  let d := initial_Disk (T := T) (fun _ => 7) (fun _ => 9) in let ps := write_cbw :: written_packets in
  let c := command write_cbw (CommandBlock (State (info disk_world))) in
  let d' := disk_write_blocks (T := T) 4 [replicate 512 0x5A] d in
  exists w', MS_Device_USBTask (HW := disk_hw ps) (EV := no_events _) (RQ := no_requests _)
      (CB := DiskCallbacks (HW := disk_hw ps) (BD := no_board _) (EV := no_events _) (RQ := no_requests _) (T := T) (N := N) (fun _ => 0) 600)
      600 disk_world = Ret tt w' /\
    holds (T := T) (fun _ => 7) (fun _ => 9) (volume (app w')) d' /\ disk_ok d' /\
    ep_state (fun e => e =? 3) (disk_q ps) 3 (tr w') = mkEP [] ([] ++ [status c (512 * 1)]) [] false /\
    ep_queue (ep_state (fun e => e =? 3) (disk_q ps) 4 (tr w')) = [].
Proof.
  intros T N d ps c d'.
  assert (Forall (Forall is_u8) ps) as Hu by (vm_compute; repeat (constructor; [repeat (constructor; [done|]); constructor|]); constructor).
  apply (disk_stores_writes (HW := disk_hw ps) (BD := no_board _) (QL := fun _ _ => eq_refl) (DH := disk_host ps Hu)
    (EV := no_events _) (RQ := no_requests _) (TO := at90usb1287_ok) (N := N) (c0 := fun _ => 7) (e0 := fun _ => 9)
    (fun _ => 0) 600 3 4 write_cbw [written_packets] [replicate 512 0x5A] [] disk_world d).
  - exact disk_world_port.
  - split_and!; try done; [by repeat constructor|by apply Forall_inv in Hu].
  - done.
  - done.
  - done.
  - done.
  - done.
  - constructor; [|constructor]. split; [reflexivity|]. split; [by apply Forall_replicate|]. split; [reflexivity|by apply Forall_replicate].
  - apply initial_holds.
  - by apply initial_disk_ok.
  - cbn. lia.
Defined.

(** READ (10) beyond the end of the disk. *)
Definition refused_world : World Disk_App :=
  upd_app (store_in (set_CommandBlock (fun _ => command (disk_cbw 512 0x80 [0x28; 0; 0; 0; 0xF0; 0; 0; 0; 1; 0]) (mkCBW 0 0 0 0 0 0 (replicate 16 0)))))
    disk_world.

Lemma SCSI_refuses_witness :
  SCSI_DecodeSCSICommand (HW := disk_hw []) (EV := no_events _) (RQ := no_requests _) (T := at90usb1287)
    (N := machine_nvm (T := at90usb1287) (fun _ => 7) (fun _ => 9)) (fun _ => 0) 9 refused_world =
  Ret false (upd_app (fun a => set_SenseData (set_sense SCSI_SENSE_KEY_ILLEGAL_REQUEST
    SCSI_ASENSE_LOGICAL_BLOCK_ADDRESS_OUT_OF_RANGE 0 (SenseData a)) a) refused_world).
Proof.
  refine (proj1 (proj2 (SCSI_refuses (HW := disk_hw []) (EV := no_events _) (RQ := no_requests _) (T := at90usb1287)
    (fun _ => 0) 9 refused_world _ _)) _ _).
  - done.
  - vm_compute. repeat (constructor; [done|]). constructor.
  - by left.
  - vm_compute. discriminate.
Defined.
