(* ===== verification/BootloaderMassStorageSpec.v ===== *)
(** The main loop of the mass storage boot loader (BootloaderMassStorage.v): it ends when
    the host has ejected the disk and sends no more commands. *)

From stdpp Require Import base tactics option list numbers functions.
From Stdlib Require Import ZArith Lia.
From S2P Require Import Prelude Memory Hardware Board Endpoint USBController ControlStream DeviceStandardReq.
From S2P Require Import EndpointStream ControlTransfer ControlReceive ControlRequest DataEndpoint DataStream.
From S2P Require Import ClassDriver MassStorageDevice MassStorageSpec Flash FlashSpec VirtualFAT VirtualFATSpec SCSI BootloaderMassStorage SCSISpec.

Section Loop.
Context {HW : Hardware} {BD : Board Disk_App} {QL : QuietLEDs BD} {is_in : Z -> bool} {size : Z -> nat} {q0 : Z -> list (list Z)}.
Context {DH : DataHost is_in size q0} {T : Target} {N : NVM} (uninit : Z -> Z).
Context (GetDescriptor : Z -> Z -> Z * option (list Z)) (fuel : nat) (ein eout : Z).
Abbreviation dev := (dev (is_in := is_in) (q0 := q0) (App := Disk_App)).
Abbreviation ep w x := (ep_state is_in q0 x (tr w)).
Implicit Types w : World Disk_App.

(** Nothing to do. *)
Definition quiet w : Prop := ms_port is_in size ein eout w /\ IsMassStoreReset (State (info w)) = false /\ ep_queue (ep w eout) = [].

(** The worlds that differ in the trace and in the counter of idle rounds only. *)
Definition idles w w' : Prop := (exists t, app w' = set_Ticks t (app w)) /\ USB_DeviceState w' = USB_DeviceState w /\ forall x, ep w' x = ep w x.

Lemma idles_quiet w w' : idles w w' -> quiet w -> quiet w'.
Proof using Type.
  intros ((t & Ha) & Hd & He) (Hp & Hr & Hq). unfold quiet, ms_port, info in *. rewrite Ha, Hd, He.
  split; [exact Hp|]. by split.
Qed.

Lemma idle_round w : quiet w ->
  wp true (main_round uninit GetDescriptor fuel) (fun _ w' => app w' = app w /\ USB_DeviceState w' = USB_DeviceState w /\ forall x, ep w' x = ep w x) w.
Proof using DH.
  intros (Hp & Hr & Hq). unfold main_round. apply wp_bind. apply (MS_USBTask_dev fuel ein eout w _ Hp). intros w1 H1.
  unfold ep_ready. rewrite Hq. cbn [when]. apply wp_bind, wp_ret. apply wp_bind, wp_gets. rewrite (dev_app _ _ _ _ H1). fold (info w).
  rewrite Hr. apply wp_ret. destruct Hp as (_ & _ & _ & _ & He & _). dev_step USBTask_dev H1. intros [] w2 H2.
  split; [exact (dev_app _ _ _ _ H2)|]. split; [exact (dev_DeviceState _ _ _ _ H2)|]. apply H2.
Qed.

Lemma idle_loop n : forall w rounds, quiet w -> RunBootloader (app w) = false -> TicksSinceLastCommand (app w) = 255 - Z.of_nat n ->
  (n <= 255)%nat -> (n < rounds)%nat ->
  wp true (main_loop uninit GetDescriptor rounds fuel) (fun _ w' => idles w w') w.
Proof using DH.
  induction n as [|n IH]; intros w rounds Hq Hrun Ht Hn Hr; (destruct rounds as [|rounds]; [lia|]); cbn [main_loop];
    apply wp_bind; unfold keep_running; apply wp_bind, wp_gets; rewrite Hrun; apply wp_bind, wp_modify, wp_ret; rewrite Ht.
  - apply wp_ret. split; [|done]. eexists. reflexivity.
  - rewrite (proj2 (Z.ltb_lt _ _)) by lia. set (w1 := upd_app _ w). assert (idles w w1) as H1 by (split; [eexists; reflexivity|done]).
    apply wp_bind. eapply wp_mono; [apply idle_round, (idles_quiet w w1 H1 Hq)|]. intros [] w2 (Ha & Hd & He).
    assert (idles w w2) as H2 by (destruct H1 as ((t & E1) & E2 & E3); split; [exists t; congruence|split; [congruence|]; intros x; by rewrite He, E3]).
    eapply wp_mono; [apply (IH w2); [by apply (idles_quiet w)| | |lia|lia]|].
    + by rewrite Ha.
    + rewrite Ha. cbn [w1 app upd_app set_Ticks TicksSinceLastCommand]. rewrite u8_small by (unfold is_u8; lia). lia.
    + intros [] w3 ((t & E1) & E2 & E3). destruct H2 as ((t2 & F1) & F2 & F3). split; [exists t; rewrite E1, F1; done|].
      split; [congruence|]. intros x. by rewrite E3, F3.
Qed.

(** The loop is still running after as many rounds as are left to count. *)
Lemma idle_loop_runs n : forall w rounds, quiet w -> RunBootloader (app w) = false -> TicksSinceLastCommand (app w) = 255 - Z.of_nat n ->
  (n <= 255)%nat -> (rounds <= n)%nat -> main_loop uninit GetDescriptor rounds fuel w = NoFuel.
Proof using DH.
  induction n as [|n IH]; intros w rounds Hq Hrun Ht Hn Hr; (destruct rounds as [|rounds]; [done|]); [lia|].
  set (w1 := upd_app (set_Ticks (TicksSinceLastCommand (app w) + 1)) w).
  assert (keep_running w = Ret true w1) as Hk.
  { unfold keep_running, mbind, prog_bind. cbn. rewrite Hrun. cbn. by rewrite (proj2 (Z.ltb_lt _ 255)) by lia. }
  assert (idles w w1) as H1 by (split; [eexists; reflexivity|done]).
  destruct (wp_total_run_unit _ _ _ (idle_round w1 (idles_quiet w w1 H1 Hq))) as (w2 & E2 & Ha & Hd & He).
  cbn [main_loop]. unfold mbind, prog_bind. rewrite Hk, E2. apply IH; [|by rewrite Ha| |lia|lia].
  - apply (idles_quiet w); [|done]. destruct H1 as ((t & F1) & F2 & F3). split; [exists t; congruence|]. split; [congruence|].
    intros x. by rewrite He, F3.
  - rewrite Ha. cbn [w1 app upd_app set_Ticks TicksSinceLastCommand]. rewrite u8_small by (unfold is_u8; lia). lia.
Qed.

(** ** Ejecting *)

Lemma dispatch_stop_dev e c w0 st w : SCSICommandData (CommandBlock (State (info w0))) = c -> length c = 16%nat ->
  nth 0 c 0 = SCSI_CMD_START_STOP_UNIT -> nth 4 c 0 mod 4 = 2 -> dev w0 e st w ->
  wp true (SCSI_dispatch (EV := DiskEvents) (RQ := DiskRequests GetDescriptor) uninit fuel) (fun ok w' => ok = true /\
    dev (upd_app (fun a => store_in (set_CommandBlock (set_DataTransferLength (fun _ => 0))) (set_RunBootloader false a)) w0) e st w') w.
Proof using Type.
  intros Hc Hl Hcmd H4 H. unfold info in Hc. unfold SCSI_dispatch. apply wp_bind. unfold SCSICommand. apply wp_bind, wp_gets, wp_ret.
  rewrite (dev_app _ _ _ _ H), Hc. apply wp_bind, wp_byte_at; [lia|]. rewrite Hcmd. cbn [Z.eqb Pos.eqb SCSI_CMD_START_STOP_UNIT SCSI_CMD_INQUIRY
    SCSI_CMD_REQUEST_SENSE SCSI_CMD_READ_CAPACITY_10 SCSI_CMD_WRITE_10 SCSI_CMD_READ_10 SCSI_CMD_MODE_SENSE_6 no_handling existsb orb when].
  apply wp_bind, wp_bind, wp_byte_at; [lia|]. apply wp_modify.
  assert (Z.land (nth 4 c 0) 3 = 2) as -> by (change 3 with (Z.ones 2); by rewrite Z.land_ones).
  apply wp_bind, wp_modify, wp_ret. split; [done|]. cbn [Z.eqb Pos.eqb negb].
  apply (dev_upd_app (set_RunBootloader false)), (dev_upd_app (store_in (set_CommandBlock (set_DataTransferLength (fun _ => 0))))) in H. exact H.
Qed.

(** The command leaves nothing to transfer. *)
Lemma no_residue_sub c : set_DataTransferLength (fun _ => 0) c = set_DataTransferLength (fun l => l - DataTransferLength c) c.
Proof using Type. unfold set_DataTransferLength. by rewrite Z.sub_diag. Qed.

(** The application after the disk was ejected. *)
Definition ejected (a : Disk_App) : Disk_App :=
  store_in (set_CommandBlock (set_DataTransferLength (fun _ => 0))) (set_RunBootloader false a).

Lemma stop_answers w c st : ms_port is_in size ein eout w -> length (SCSICommandData c) = 16%nat ->
  nth 0 (SCSICommandData c) 0 = SCSI_CMD_START_STOP_UNIT -> nth 4 (SCSICommandData c) 0 mod 4 = 2 ->
  scsi_answers (CB := DiskCallbacks (EV := DiskEvents) (RQ := DiskRequests GetDescriptor) uninit fuel) (is_in := is_in) (q0 := q0) w ein eout c st
    (left (after_command (ejected (app (upd_app (store (set_CommandBlock (fun _ => c) (info w))) w)))) st).
Proof using QL DH.
  intros Hport Hl Hc H4 w1 H1.
  eapply wp_mono; [eapply (callback_dev _ _ ejected _ st), (dispatch_stop_dev _ (SCSICommandData c)); [|exact Hl|exact Hc|exact H4|exact H1]; done|].
  intros ok w2 [-> H2]. eexists _, _, st. split; [exact H2|done].
Qed.

(** The round that executes the command: the host is told that it has passed, and the
    loop begins to count. *)
Lemma eject_round p w : ms_port is_in size ein eout w -> ready (is_in := is_in) (q0 := q0) ein eout w p ->
  let c := command p (CommandBlock (State (info w))) in
  ep_queue (ep w eout) = [p] -> nth 0 (SCSICommandData c) 0 = SCSI_CMD_START_STOP_UNIT -> nth 4 (SCSICommandData c) 0 mod 4 = 2 ->
  (40 < fuel)%nat ->
  wp true (main_round uninit GetDescriptor fuel) (fun _ w' => quiet w' /\ RunBootloader (app w') = false /\
    TicksSinceLastCommand (app w') = 0 /\ volume (app w') = volume (app w) /\
    ep w' ein = mkEP [] (ep_sent (ep w ein) ++ [status c (DataTransferLength c)]) (ep_queue (ep w ein)) false) w.
Proof using QL DH.
  intros Hport (Hb & Hsi & Hso & Hre & Hold & Hp & Hu & Hv) c Hq Hc H4 Hf.
  destruct (Hport) as (Hds & Ei & Eo & Hein & Heout & Hi & Ho & Hsz & Hlen). assert (ein <> eout) as Hne by congruence.
  destruct (command_data p (info w) Hp Hu Hv Hlen Hold) as [Hlc Huc]. fold c in Hlc, Huc.
  set (st1 := <[eout := with_queue [] (ep w eout)]> (fun x => ep w x)).
  assert (st1 ein = ep w ein) as E1 by (unfold st1; by rewrite fn_lookup_insert_ne).
  assert (st1 eout = with_queue [] (ep w eout)) as E2 by (unfold st1; by rewrite fn_lookup_insert).
  unfold main_round. apply wp_bind.
  eapply wp_mono; [apply (MS_USBTask_command_dev (EV := DiskEvents) (RQ := DiskRequests GetDescriptor) (CB := DiskCallbacks (EV := DiskEvents) (RQ := DiskRequests GetDescriptor) uninit fuel)
    (is_in := is_in) (size := size) fuel ein eout p [] w _ Hport Hq Hp Hu Hv ltac:(cbn; lia) (stop_answers w c st1 Hport Hlc Hc H4))|].
  { intros ok a2 st2 HL. eapply (settled_left ein eout w c (DataTransferLength c) (fun a => ejected (store _ a))); [done|..|exact HL];
      rewrite ?E1, ?E2; [done..|]. rewrite <- no_residue_sub. done. }
  intros [] w1 (ok & a2 & st2 & (-> & -> & ->) & Hdev). dev_step USBTask_dev Hdev. intros [] w2 H2.
  destruct (H2) as (_ & _ & Hst). pose proof (dev_app _ _ _ _ H2) as Ha. rewrite Ha. split_and!; [|done..|].
  - split; [|split].
    + unfold ms_port, info. rewrite Ha. rewrite (dev_DeviceState _ _ _ _ H2).
      split_and!; [exact Hds|exact Ei|exact Eo|lia..|exact Hi|exact Ho|exact Hsz|exact Hlc].
    + unfold info. rewrite Ha. done.
    + rewrite Hst. ep_lookup. by rewrite E2.
  - rewrite Hst. ep_lookup. rewrite E1. unfold status. rewrite Z.sub_diag. done.
Qed.
End Loop.

(** C19: the boot loader ends when the disk is ejected.  When the host's packet is a START
    STOP UNIT that ejects the disk, and no other follows, the loop of the boot loader
    answers the command with one status wrapper, "passed" with nothing left, in its first
    round, then runs for exactly 255 idle rounds and ends when it evaluates its condition
    for the 257th time: not before, and with the disk as it was. *)
Theorem main_loop_ejects {HW : Hardware} {BD : Board Disk_App} {QL : QuietLEDs BD} {is_in size q0}
    {DH : DataHost is_in size q0} {T : Target} {N : NVM} uninit GetDescriptor fuel ein eout p (w : World Disk_App) :
  ms_port is_in size ein eout w -> ready (is_in := is_in) (q0 := q0) ein eout w p ->
  let c := command p (CommandBlock (State (info w))) in
  ep_queue (ep_state is_in q0 eout (tr w)) = [p] -> RunBootloader (app w) = true ->
  nth 0 (SCSICommandData c) 0 = SCSI_CMD_START_STOP_UNIT -> nth 4 (SCSICommandData c) 0 mod 4 = 2 ->
  (40 < fuel)%nat ->
  (forall rounds, (rounds <= 256)%nat -> main_loop uninit GetDescriptor rounds fuel w = NoFuel) /\
  (forall rounds, (257 <= rounds)%nat ->
    exists w', main_loop uninit GetDescriptor rounds fuel w = Ret tt w' /\
      RunBootloader (app w') = false /\ volume (app w') = volume (app w) /\
      ep_state is_in q0 ein (tr w') = mkEP [] (ep_sent (ep_state is_in q0 ein (tr w)) ++ [status c (DataTransferLength c)])
        (ep_queue (ep_state is_in q0 ein (tr w))) false /\
      ep_queue (ep_state is_in q0 eout (tr w')) = []).
Proof.
  intros Hport Hr c Hq Hrun Hc H4 Hf.
  destruct (wp_total_run_unit _ _ _ (eject_round uninit GetDescriptor fuel ein eout p w Hport Hr Hq Hc H4 Hf))
    as (w1 & E1 & Hquiet & Hstop & Hticks & Hvol & Hep).
  assert (forall rounds, main_loop uninit GetDescriptor (S rounds) fuel w = main_loop uninit GetDescriptor rounds fuel w1) as Hfirst.
  { assert (keep_running w = Ret true w) as Hk by (unfold keep_running, mbind, prog_bind; cbn; by rewrite Hrun).
    intros rounds. cbn [main_loop]. unfold mbind, prog_bind. by rewrite Hk, E1. }
  split; intros [|rounds] Hn; try done; rewrite ?Hfirst; [|lia|].
  - apply (idle_loop_runs uninit GetDescriptor fuel ein eout 255 w1); [done|done|by rewrite Hticks|lia|lia].
  - destruct (wp_total_run_unit _ _ _ (idle_loop uninit GetDescriptor fuel ein eout 255 w1 rounds Hquiet Hstop
      ltac:(by rewrite Hticks) ltac:(lia) ltac:(lia))) as (w' & E' & (t & Et) & _ & Hx).
    exists w'. rewrite !Hx, Et. split_and!; try done. apply Hquiet.
Qed.

(** ** Witness *)

Definition eject_cbw : list Z := disk_cbw 0 0 [0x1B; 0; 0; 0; 2; 0].

Lemma main_loop_ejects_witness :
  let T := at90usb1287 in let N := machine_nvm (T := T) (fun _ => 7) (fun _ => 9) in
  let c := command eject_cbw (CommandBlock (State (info disk_world))) in
  let run n := main_loop (HW := disk_hw [eject_cbw]) (BD := no_board _) (T := T) (N := N) (fun _ => 0) (fun _ _ => (0, None)) n 50 disk_world in
  run 256%nat = NoFuel /\ exists w', run 257%nat = Ret tt w' /\
    RunBootloader (app w') = false /\ volume (app w') = initial_Volume (T := T) /\
    ep_state (fun e => e =? 3) (disk_q [eject_cbw]) 3 (tr w') = mkEP [] ([] ++ [status c 0]) [] false /\
    ep_queue (ep_state (fun e => e =? 3) (disk_q [eject_cbw]) 4 (tr w')) = [].
Proof.
  intros T N c run.
  assert (Forall is_u8 eject_cbw) as Hu by (vm_compute; repeat (constructor; [done|]); constructor).
  destruct (main_loop_ejects (HW := disk_hw [eject_cbw]) (BD := no_board _) (QL := fun _ _ => eq_refl) (T := T) (N := N)
    (DH := disk_host [eject_cbw] ltac:(by repeat constructor)) (fun _ => 0) (fun _ _ => (0, None)) 50 3 4 eject_cbw disk_world) as [H1 H2].
  - exact disk_world_port.
  - split_and!; try done. by repeat constructor.
  - done.
  - done.
  - done.
  - done.
  - lia.
  - split; [apply H1; lia|apply H2; lia].
Defined.
