(* ===== verification/BootloaderDFU.v ===== *)
(** The DFU class boot loader: Bootloaders/DFU/BootloaderDFU.[ch].

    The host programs and reads the memories with requests to the control endpoint.  The
    program memory is known by the operations on it and the EEPROM by the bytes written
    (Flash.v); both logs are part of the state.  The LEDs of the board, the watchdog, the
    fuses and the descriptors are parameters, and so are the signature of the processor and
    SECURE_MODE of Config/AppConfig.h. *)

From stdpp Require Import base tactics option list numbers.
From Stdlib Require Import ZArith Lia.
From S2P Require Import Prelude Memory Hardware Board Endpoint USBController ControlStream DeviceStandardReq.
From S2P Require Import Flash.

Definition BOOTLOADER_VERSION_MINOR : Z := 2.
Definition BOOTLOADER_VERSION_REV : Z := 0.
Definition MAGIC_BOOT_KEY : Z := 0xDC42.
Definition BOOTLOADER_VERSION : Z := Z.lor (Z.shiftl BOOTLOADER_VERSION_MINOR 4) BOOTLOADER_VERSION_REV.
Definition BOOTLOADER_ID_BYTE1 : Z := 0xDC.
Definition BOOTLOADER_ID_BYTE2 : Z := 0xFB.
Definition DFU_FILE_SUFFIX_SIZE : nat := 16.
Definition DFU_FILLER_BYTES_SIZE : nat := 26.
(** [FIXED_CONTROL_ENDPOINT_SIZE] of Config/LUFAConfig.h. *)
Definition DFU_CONTROL_ENDPOINT_SIZE : Z := 32.

Definition DFU_REQ_DNLOAD : Z := 0x01.
Definition DFU_REQ_UPLOAD : Z := 0x02.
Definition DFU_REQ_GETSTATUS : Z := 0x03.
Definition DFU_REQ_CLRSTATUS : Z := 0x04.
Definition DFU_REQ_GETSTATE : Z := 0x05.
Definition DFU_REQ_ABORT : Z := 0x06.
Definition COMMAND_PROG_START : Z := 0x01.
Definition COMMAND_DISP_DATA : Z := 0x03.
Definition COMMAND_WRITE : Z := 0x04.
Definition COMMAND_READ : Z := 0x05.
Definition COMMAND_CHANGE_BASE_ADDR : Z := 0x06.

Inductive DFU_State_t : Set :=
  | appIDLE | appDETACH | dfuIDLE | dfuDNLOAD_SYNC | dfuDNBUSY | dfuDNLOAD_IDLE | dfuMANIFEST_SYNC | dfuMANIFEST
  | dfuMANIFEST_WAIT_RESET | dfuUPLOAD_IDLE | dfuERROR.
Inductive DFU_Status_t : Set :=
  | OK | errTARGET | errFILE | errWRITE | errERASE | errCHECK_ERASED | errPROG | errVERIFY | errADDRESS | errNOTDONE
  | errFIRMWARE | errVENDOR | errUSBR | errPOR | errUNKNOWN | errSTALLEDPKT.
#[export] Instance DFU_State_eq_dec : EqDecision DFU_State_t.
Proof. solve_decision. Defined.

(** The values of the enumerations. *)
Definition state_byte (s : DFU_State_t) : Z :=
  match s with
  | appIDLE => 0 | appDETACH => 1 | dfuIDLE => 2 | dfuDNLOAD_SYNC => 3 | dfuDNBUSY => 4 | dfuDNLOAD_IDLE => 5
  | dfuMANIFEST_SYNC => 6 | dfuMANIFEST => 7 | dfuMANIFEST_WAIT_RESET => 8 | dfuUPLOAD_IDLE => 9 | dfuERROR => 10
  end.
Definition status_byte (s : DFU_Status_t) : Z :=
  match s with
  | OK => 0 | errTARGET => 1 | errFILE => 2 | errWRITE => 3 | errERASE => 4 | errCHECK_ERASED => 5 | errPROG => 6
  | errVERIFY => 7 | errADDRESS => 8 | errNOTDONE => 9 | errFIRMWARE => 10 | errVENDOR => 11 | errUSBR => 12
  | errPOR => 13 | errUNKNOWN => 14 | errSTALLEDPKT => 15
  end.

(** [Data] has 5 bytes. *)
Record DFU_Command_t : Set := mkCommand { Command : Z; Data : list Z; DataSize : Z }.
Definition set_Command (x : Z) (c : DFU_Command_t) : DFU_Command_t := mkCommand x (Data c) (DataSize c).
Definition set_Data (i : nat) (b : Z) (c : DFU_Command_t) : DFU_Command_t := mkCommand (Command c) (<[i := b]> (Data c)) (DataSize c).
Definition set_DataSize (x : Z) (c : DFU_Command_t) : DFU_Command_t := mkCommand (Command c) (Data c) (u16 x).

Definition IS_ONEBYTE_COMMAND (dataarr : list Z) (cb1 : Z) : bool := nth 0 dataarr 0 =? cb1.
Definition IS_TWOBYTE_COMMAND (dataarr : list Z) (cb1 cb2 : Z) : bool := (nth 0 dataarr 0 =? cb1) && (nth 1 dataarr 0 =? cb2).

(** The globals, and the operations on the two memories. *)
Record DFU_App : Set := mkDFU {
  IsSecure : bool;
  RunBootloader : bool;
  WaitForExit : bool;
  DFU_State : DFU_State_t;
  DFU_Status : DFU_Status_t;
  SentCommand : DFU_Command_t;
  ResponseByte : Z;
  AppStartPtr : Z;
  Flash64KBPage : Z;
  StartAddr : Z;
  EndAddr : Z;
  MagicBootKey : Z;
  spm : spm_log;
  eeprom : eeprom_log
}.
Definition set_IsSecure (x : bool) (a : DFU_App) : DFU_App :=
  mkDFU x (RunBootloader a) (WaitForExit a) (DFU_State a) (DFU_Status a) (SentCommand a) (ResponseByte a) (AppStartPtr a) (Flash64KBPage a) (StartAddr a) (EndAddr a) (MagicBootKey a) (spm a) (eeprom a).
Definition set_RunBootloader (x : bool) (a : DFU_App) : DFU_App :=
  mkDFU (IsSecure a) x (WaitForExit a) (DFU_State a) (DFU_Status a) (SentCommand a) (ResponseByte a) (AppStartPtr a) (Flash64KBPage a) (StartAddr a) (EndAddr a) (MagicBootKey a) (spm a) (eeprom a).
Definition set_WaitForExit (x : bool) (a : DFU_App) : DFU_App :=
  mkDFU (IsSecure a) (RunBootloader a) x (DFU_State a) (DFU_Status a) (SentCommand a) (ResponseByte a) (AppStartPtr a) (Flash64KBPage a) (StartAddr a) (EndAddr a) (MagicBootKey a) (spm a) (eeprom a).
Definition set_DFU_State (x : DFU_State_t) (a : DFU_App) : DFU_App :=
  mkDFU (IsSecure a) (RunBootloader a) (WaitForExit a) x (DFU_Status a) (SentCommand a) (ResponseByte a) (AppStartPtr a) (Flash64KBPage a) (StartAddr a) (EndAddr a) (MagicBootKey a) (spm a) (eeprom a).
Definition set_DFU_Status (x : DFU_Status_t) (a : DFU_App) : DFU_App :=
  mkDFU (IsSecure a) (RunBootloader a) (WaitForExit a) (DFU_State a) x (SentCommand a) (ResponseByte a) (AppStartPtr a) (Flash64KBPage a) (StartAddr a) (EndAddr a) (MagicBootKey a) (spm a) (eeprom a).
Definition set_SentCommand (x : DFU_Command_t) (a : DFU_App) : DFU_App :=
  mkDFU (IsSecure a) (RunBootloader a) (WaitForExit a) (DFU_State a) (DFU_Status a) x (ResponseByte a) (AppStartPtr a) (Flash64KBPage a) (StartAddr a) (EndAddr a) (MagicBootKey a) (spm a) (eeprom a).
Definition set_ResponseByte (x : Z) (a : DFU_App) : DFU_App :=
  mkDFU (IsSecure a) (RunBootloader a) (WaitForExit a) (DFU_State a) (DFU_Status a) (SentCommand a) x (AppStartPtr a) (Flash64KBPage a) (StartAddr a) (EndAddr a) (MagicBootKey a) (spm a) (eeprom a).
Definition set_AppStartPtr (x : Z) (a : DFU_App) : DFU_App :=
  mkDFU (IsSecure a) (RunBootloader a) (WaitForExit a) (DFU_State a) (DFU_Status a) (SentCommand a) (ResponseByte a) x (Flash64KBPage a) (StartAddr a) (EndAddr a) (MagicBootKey a) (spm a) (eeprom a).
Definition set_Flash64KBPage (x : Z) (a : DFU_App) : DFU_App :=
  mkDFU (IsSecure a) (RunBootloader a) (WaitForExit a) (DFU_State a) (DFU_Status a) (SentCommand a) (ResponseByte a) (AppStartPtr a) x (StartAddr a) (EndAddr a) (MagicBootKey a) (spm a) (eeprom a).
Definition set_StartAddr (x : Z) (a : DFU_App) : DFU_App :=
  mkDFU (IsSecure a) (RunBootloader a) (WaitForExit a) (DFU_State a) (DFU_Status a) (SentCommand a) (ResponseByte a) (AppStartPtr a) (Flash64KBPage a) x (EndAddr a) (MagicBootKey a) (spm a) (eeprom a).
Definition set_EndAddr (x : Z) (a : DFU_App) : DFU_App :=
  mkDFU (IsSecure a) (RunBootloader a) (WaitForExit a) (DFU_State a) (DFU_Status a) (SentCommand a) (ResponseByte a) (AppStartPtr a) (Flash64KBPage a) (StartAddr a) x (MagicBootKey a) (spm a) (eeprom a).
Definition set_MagicBootKey (x : Z) (a : DFU_App) : DFU_App :=
  mkDFU (IsSecure a) (RunBootloader a) (WaitForExit a) (DFU_State a) (DFU_Status a) (SentCommand a) (ResponseByte a) (AppStartPtr a) (Flash64KBPage a) (StartAddr a) (EndAddr a) x (spm a) (eeprom a).
Definition set_spm (x : spm_log) (a : DFU_App) : DFU_App :=
  mkDFU (IsSecure a) (RunBootloader a) (WaitForExit a) (DFU_State a) (DFU_Status a) (SentCommand a) (ResponseByte a) (AppStartPtr a) (Flash64KBPage a) (StartAddr a) (EndAddr a) (MagicBootKey a) x (eeprom a).
Definition set_eeprom (x : eeprom_log) (a : DFU_App) : DFU_App :=
  mkDFU (IsSecure a) (RunBootloader a) (WaitForExit a) (DFU_State a) (DFU_Status a) (SentCommand a) (ResponseByte a) (AppStartPtr a) (Flash64KBPage a) (StartAddr a) (EndAddr a) (MagicBootKey a) (spm a) x.

(** [CurrFlashAddress = {.Words = {StartAddr, Flash64KBPage}}] *)
Definition flash_start (a : DFU_App) : Z := StartAddr a + 65536 * Flash64KBPage a.

Section Commands.
Context {BD : Board DFU_App} {T : Target} {N : NVM}.
(** The signature of the processor. *)
Context (AVR_SIGNATURE : Z * Z * Z).
Abbreviation P := (prog (World DFU_App)).

(** The address of a memory of at most 64 KB has 16 bits. *)
Definition near (a : Z) : Z := if 0xFFFF <? FLASHEND then u32 a else u16 a.
Definition pgm_read_word (log : spm_log) (a : Z) : Z := of_le16 (pgm_read_byte log (near a)) (pgm_read_byte log (near (a + 1))).
(** The operation [op] on the program memory, and waiting for it. *)
Definition perform (op : spm_op) (a : DFU_App) : DFU_App := set_spm (op :: spm a) a.
Definition perform_wait (op : spm_op) (a : DFU_App) : DFU_App := perform boot_spm_busy_wait (perform op a).

Definition LoadStartEndAddresses (a : DFU_App) : DFU_App :=
  let d := Data (SentCommand a) in
  set_EndAddr (of_le16 (nth 4 d 0) (nth 3 d 0)) (set_StartAddr (of_le16 (nth 2 d 0) (nth 1 d 0)) a).

Definition ProcessMemProgCommand (a : DFU_App) : DFU_App :=
  let d := Data (SentCommand a) in
  if IS_ONEBYTE_COMMAND d 0x00 || IS_ONEBYTE_COMMAND d 0x01 then
    let a := LoadStartEndAddresses a in
    let a := if IS_ONEBYTE_COMMAND d 0x00 then perform_wait (boot_page_erase (near (flash_start a))) a else a in
    set_DFU_State dfuDNLOAD_IDLE a
  else a.

(** The first of [n] addresses from [a] on whose byte is not blank. *)
Fixpoint first_used (log : spm_log) (n : nat) (a : Z) : option Z :=
  match n with
  | O => None
  | S n => if negb (pgm_read_byte log (near a) =? 0xFF) then Some a else first_used log n (a + 1)
  end.

Definition ProcessMemReadCommand (a : DFU_App) : DFU_App :=
  let d := Data (SentCommand a) in
  if IS_ONEBYTE_COMMAND d 0x00 || IS_ONEBYTE_COMMAND d 0x02 then set_DFU_State dfuUPLOAD_IDLE (LoadStartEndAddresses a)
  else if IS_ONEBYTE_COMMAND d 0x01 then
    match first_used (spm a) (Z.to_nat BOOT_START_ADDR) 0 with
    | Some CurrFlashAddress =>
        set_DFU_Status errCHECK_ERASED (set_DFU_State dfuERROR
          (set_StartAddr (u16 CurrFlashAddress) (set_Flash64KBPage (u8 (Z.shiftr CurrFlashAddress 16)) a)))
    | None => a
    end
  else a.

(** [while (CurrFlashAddress < BOOT_START_ADDR)]: at most [n] pages from [CurrFlashAddress] on. *)
Fixpoint erase_pages (n : nat) (CurrFlashAddress : Z) (log : spm_log) : spm_log :=
  match n with
  | O => log
  | S n =>
      if CurrFlashAddress <? BOOT_START_ADDR then
        erase_pages n (CurrFlashAddress + SPM_PAGESIZE)
          (boot_spm_busy_wait :: boot_page_write (near CurrFlashAddress) ::
           boot_spm_busy_wait :: boot_page_erase (near CurrFlashAddress) :: log)
      else log
  end.

Definition ProcessWriteCommand : P unit :=
  a ← gets app;
  let d := Data (SentCommand a) in
  if IS_ONEBYTE_COMMAND d 0x03 then
    modify (upd_app (set_WaitForExit true));;
    if negb (DataSize (SentCommand a) =? 0) then
      when (nth 1 d 0 =? 0x01) (modify (upd_app (set_AppStartPtr (of_le16 (nth 4 d 0) (nth 3 d 0)))))
    else if nth 1 d 0 =? 0x00 then
      modify (upd_app (set_MagicBootKey MAGIC_BOOT_KEY));;
      wdt_enable 4
    else
      when (pgm_read_word (spm a) 0 =? 0xFFFF) (modify (upd_app (set_RunBootloader false)))
  else if IS_TWOBYTE_COMMAND d 0x00 0xFF then
    modify (upd_app (fun a => set_spm (boot_rww_enable :: erase_pages (Z.to_nat BOOT_START_ADDR) 0 (spm a)) a));;
    modify (upd_app (set_IsSecure false))
  else mret tt.

(** The byte a Data Read command asks for. *)
Definition info_byte (d : list Z) : option Z :=
  let '(s1, s2, s3) := AVR_SIGNATURE in
  let DataIndexToRead := nth 1 d 0 in
  if IS_ONEBYTE_COMMAND d 0x00 then
    if DataIndexToRead <? 3 then [BOOTLOADER_VERSION; BOOTLOADER_ID_BYTE1; BOOTLOADER_ID_BYTE2] !! Z.to_nat DataIndexToRead else None
  else
    if DataIndexToRead =? 0x30 then Some 0x58 else if DataIndexToRead =? 0x31 then Some s1
    else if DataIndexToRead =? 0x60 then Some s2 else if DataIndexToRead =? 0x61 then Some s3 else None.

Definition ProcessReadCommand (a : DFU_App) : DFU_App :=
  let d := Data (SentCommand a) in
  if IS_ONEBYTE_COMMAND d 0x00 || IS_ONEBYTE_COMMAND d 0x01 then
    match info_byte d with
    | Some b => set_ResponseByte b a
    | None => set_DFU_Status errADDRESS (set_DFU_State dfuERROR a)
    end
  else a.

(** The command a loader in secure mode accepts. *)
Definition secure_command (c : DFU_Command_t) : bool :=
  ((Command c =? COMMAND_WRITE) && IS_TWOBYTE_COMMAND (Data c) 0x00 0xFF) || (Command c =? COMMAND_READ).

Definition ProcessBootloaderCommand {HW : Hardware} : P unit :=
  a ← gets app;
  let c := SentCommand a in
  if IsSecure a && negb (secure_command c) then
    modify (upd_app (set_DFU_State dfuERROR));;
    modify (upd_app (set_DFU_Status errWRITE));;
    Endpoint_StallTransaction
  else if Command c =? COMMAND_PROG_START then modify (upd_app ProcessMemProgCommand)
  else if Command c =? COMMAND_DISP_DATA then modify (upd_app ProcessMemReadCommand)
  else if Command c =? COMMAND_WRITE then ProcessWriteCommand
  else if Command c =? COMMAND_READ then modify (upd_app ProcessReadCommand)
  else if Command c =? COMMAND_CHANGE_BASE_ADDR then
    when (IS_TWOBYTE_COMMAND (Data c) 0x03 0x00) (modify (upd_app (set_Flash64KBPage (nth 2 (Data c) 0))))
  else mret tt.
End Commands.

Definition CONTROL_REQTYPE_TYPE : Z := 0x60.

Section Requests.
Context {HW : Hardware} {BD : Board DFU_App} {EV : DeviceEvents DFU_App} {T : Target} {N : NVM}.
Context (AVR_SIGNATURE : Z * Z * Z) (fuel : nat).
Abbreviation P := (prog (World DFU_App)).

(** The loops that wait for a packet return where the device is detached; the results of
    what follows tell whether the handler goes on. *)
Definition wait_OUT : P bool := StatusStage_wait fuel fuel Endpoint_IsOUTReceived.
Definition wait_IN : P bool := StatusStage_wait fuel fuel Endpoint_IsINReady.

(** [if (!(Endpoint_BytesInEndpoint())) { Endpoint_ClearOUT(); while (...) ... }] *)
Definition next_OUT : P bool :=
  n ← Endpoint_BytesInEndpoint;
  if n =? 0 then Endpoint_ClearOUT;; wait_OUT else mret true.

(** [if (Endpoint_BytesInEndpoint() == FIXED_CONTROL_ENDPOINT_SIZE) { Endpoint_ClearIN(); while (...) ... }] *)
Definition next_IN : P bool :=
  n ← Endpoint_BytesInEndpoint;
  if n =? DFU_CONTROL_ENDPOINT_SIZE then Endpoint_ClearIN;; wait_IN else mret true.

Fixpoint DiscardFillerBytes (NumberOfBytes : nat) : P unit :=
  match NumberOfBytes with
  | O => mret tt
  | S NumberOfBytes =>
      n ← Endpoint_BytesInEndpoint;
      if n =? 0 then
        Endpoint_ClearOUT;;
        r ← wait_OUT;
        if r : bool then DiscardFillerBytes NumberOfBytes else mret tt
      else Endpoint_Discard_8;; DiscardFillerBytes NumberOfBytes
  end.

(** [on_command f]: an assignment to [SentCommand]. *)
Definition on_command (f : DFU_Command_t -> DFU_Command_t) : P unit := modify (upd_app (fun a => set_SentCommand (f (SentCommand a)) a)).

(** The loop over the [n] bytes of [SentCommand.Data] from [DataByte] on. *)
Fixpoint read_parameters (n DataByte : nat) : P unit :=
  match n with
  | O => mret tt
  | S n =>
      c ← Endpoint_BytesInEndpoint;
      if negb (c =? 0) then
        b ← Endpoint_Read_8;
        on_command (set_Data DataByte b);;
        on_command (fun c => set_DataSize (DataSize c - 1) c);;
        read_parameters n (S DataByte)
      else mret tt
  end.

Definition receive_command : P bool :=
  a ← gets app;
  if negb (DataSize (SentCommand a) =? 0) then
    r ← wait_OUT;
    if r : bool then
      b ← Endpoint_Read_8;
      on_command (set_Command b);;
      on_command (fun c => set_DataSize (DataSize c - 1) c);;
      read_parameters 5 0;;
      ProcessBootloaderCommand AVR_SIGNATURE;;
      mret true
    else mret false
  else mret true.

(** [while (WordsRemaining--)] *)
Fixpoint write_flash (WordsRemaining : nat) (CurrFlashAddress CurrFlashPageStartAddress WordsInFlashPage : Z) : P bool :=
  match WordsRemaining with
  | O => mret true
  | S WordsRemaining =>
      r ← next_OUT;
      if negb r then mret false
      else
        w ← Endpoint_Read_16_LE;
        modify (upd_app (perform (boot_page_fill (near CurrFlashAddress) w)));;
        let WordsInFlashPage := u8 (WordsInFlashPage + 1) in
        let CurrFlashAddress := u32 (CurrFlashAddress + 2) in
        let more := match WordsRemaining with O => false | _ => true end in
        if (WordsInFlashPage =? Z.shiftr SPM_PAGESIZE 1) || negb more then
          modify (upd_app (perform_wait (boot_page_write (near CurrFlashPageStartAddress))));;
          if more then
            modify (upd_app (perform_wait (boot_page_erase (near CurrFlashAddress))));;
            write_flash WordsRemaining CurrFlashAddress CurrFlashAddress 0
          else write_flash WordsRemaining CurrFlashAddress CurrFlashPageStartAddress WordsInFlashPage
        else write_flash WordsRemaining CurrFlashAddress CurrFlashPageStartAddress WordsInFlashPage
  end.

(** [while (BytesRemaining--)] *)
Fixpoint write_eeprom (BytesRemaining : nat) : P bool :=
  match BytesRemaining with
  | O => mret true
  | S BytesRemaining =>
      r ← next_OUT;
      if negb r then mret false
      else
        b ← Endpoint_Read_8;
        modify (upd_app (fun a => set_StartAddr (u16 (StartAddr a + 1)) (set_eeprom ((StartAddr a, b) :: eeprom a) a)));;
        write_eeprom BytesRemaining
  end.

Definition BytesRemaining (a : DFU_App) : Z := u16 (EndAddr a - StartAddr a + 1).

(** The data stage of a download. *)
Definition download : P bool :=
  a ← gets app;
  if bool_decide (DFU_State a = dfuDNLOAD_IDLE) then
    if DataSize (SentCommand a) =? 0 then modify (upd_app (set_DFU_State dfuIDLE));; mret true
    else
      DiscardFillerBytes DFU_FILLER_BYTES_SIZE;;
      DiscardFillerBytes (Z.to_nat (StartAddr a mod DFU_CONTROL_ENDPOINT_SIZE));;
      r ← (if IS_ONEBYTE_COMMAND (Data (SentCommand a)) 0x00 then
             let CurrFlashAddress := flash_start a in
             r ← write_flash (Z.to_nat (Z.shiftr (BytesRemaining a) 1)) CurrFlashAddress CurrFlashAddress 0;
             when r (modify (upd_app (fun a => perform boot_rww_enable (set_StartAddr (EndAddr a) a))));;
             mret r
           else write_eeprom (Z.to_nat (BytesRemaining a)));
      when r (DiscardFillerBytes DFU_FILE_SUFFIX_SIZE);;
      mret r
  else mret true.

Definition DNLOAD : P unit :=
  Endpoint_ClearSETUP;;
  a ← gets app;
  when (WaitForExit a)
    (ProcessBootloaderCommand AVR_SIGNATURE;;
     modify (upd_app (set_WaitForExit false)));;
  r ← receive_command;
  if negb r then mret tt
  else
    r ← download;
    when r
      (Endpoint_ClearOUT;;
       Endpoint_ClearStatusStage fuel).

Fixpoint read_flash (WordsRemaining : nat) (CurrFlashAddress : Z) : P bool :=
  match WordsRemaining with
  | O => mret true
  | S WordsRemaining =>
      r ← next_IN;
      if negb r then mret false
      else
        a ← gets app;
        Endpoint_Write_16_LE (pgm_read_word (spm a) CurrFlashAddress);;
        read_flash WordsRemaining (u32 (CurrFlashAddress + 2))
  end.

Fixpoint read_eeprom (BytesRemaining : nat) : P bool :=
  match BytesRemaining with
  | O => mret true
  | S BytesRemaining =>
      r ← next_IN;
      if negb r then mret false
      else
        a ← gets app;
        Endpoint_Write_8 (eeprom_read_byte (eeprom a) (StartAddr a));;
        modify (upd_app (fun a => set_StartAddr (u16 (StartAddr a + 1)) a));;
        read_eeprom BytesRemaining
  end.

(** What an upload writes to the endpoint. *)
Definition upload : P bool :=
  a ← gets app;
  let d := Data (SentCommand a) in
  if negb (bool_decide (DFU_State a = dfuUPLOAD_IDLE)) then
    (if bool_decide (DFU_State a = dfuERROR) && IS_ONEBYTE_COMMAND d 0x01 then Endpoint_Write_16_LE (StartAddr a)
     else Endpoint_Write_8 (ResponseByte a));;
    mret true
  else
    r ← (if IS_ONEBYTE_COMMAND d 0x00 then
           r ← read_flash (Z.to_nat (Z.shiftr (BytesRemaining a) 1)) (flash_start a);
           when r (modify (upd_app (fun a => set_StartAddr (EndAddr a) a)));;
           mret r
         else if IS_ONEBYTE_COMMAND d 0x02 then read_eeprom (Z.to_nat (BytesRemaining a))
         else mret true);
    when r (modify (upd_app (set_DFU_State dfuIDLE)));;
    mret r.

(** The requests that send a packet: [m] fills it. *)
Definition send_reply (m : P bool) : P unit :=
  Endpoint_ClearSETUP;;
  r ← wait_IN;
  if negb r then mret tt
  else
    r ← m;
    when r
      (Endpoint_ClearIN;;
       Endpoint_ClearStatusStage fuel).

Definition GETSTATUS : P unit := send_reply (
  a ← gets app;
  Endpoint_Write_8 (status_byte (DFU_Status a));;
  Endpoint_Write_8 0;;
  Endpoint_Write_16_LE 0;;
  Endpoint_Write_8 (state_byte (DFU_State a));;
  Endpoint_Write_8 0;;
  mret true).

Definition GETSTATE : P unit := send_reply (
  a ← gets app;
  Endpoint_Write_8 (state_byte (DFU_State a));;
  mret true).

Definition DFU_ControlRequest : P unit :=
  req ← gets USB_ControlRequest;
  if negb (Z.land (bmRequestType req) (Z.lor CONTROL_REQTYPE_TYPE CONTROL_REQTYPE_RECIPIENT) =? Z.lor REQTYPE_CLASS REQREC_INTERFACE) then mret tt
  else
    LEDs_ToggleLEDs (Z.lor LEDS_LED1 LEDS_LED2);;
    on_command (set_DataSize (wLength req));;
    if bRequest req =? DFU_REQ_DNLOAD then DNLOAD
    else if bRequest req =? DFU_REQ_UPLOAD then send_reply upload
    else if bRequest req =? DFU_REQ_GETSTATUS then GETSTATUS
    else if bRequest req =? DFU_REQ_CLRSTATUS then
      Endpoint_ClearSETUP;;
      modify (upd_app (set_DFU_Status OK));;
      Endpoint_ClearStatusStage fuel
    else if bRequest req =? DFU_REQ_GETSTATE then GETSTATE
    else if bRequest req =? DFU_REQ_ABORT then
      Endpoint_ClearSETUP;;
      modify (upd_app (set_DFU_State dfuIDLE));;
      Endpoint_ClearStatusStage fuel
    else mret tt.
End Requests.

Section Bootloader.
Context {HW : Hardware} {BD : Board DFU_App} {T : Target} {N : NVM} (AVR_SIGNATURE : Z * Z * Z).
Abbreviation P := (prog (World DFU_App)).

(** [MagicBootKey] is not initialised. *)
Definition initial_DFU (SECURE_MODE : bool) (key : Z) : DFU_App :=
  mkDFU SECURE_MODE true false dfuIDLE OK (mkCommand 0 (replicate 5 0) 0) 0 0 0 0 0 key [] [].

(** The fuses and the program memory at the reset. *)
Context (boot_lock_fuse_bits_get : Z -> Z) (GET_HIGH_FUSE_BITS FUSE_BOOTRST : Z) (pgm_read_word_near : Z -> Z).

(** The branch of the boards without a boot jumper; the result is whether the
    application is started. *)
Definition Application_Jump_Check : P bool :=
  key ← gets (fun w => MagicBootKey (app w));
  JumpToApplication ←
    (if tst (boot_lock_fuse_bits_get GET_HIGH_FUSE_BITS) FUSE_BOOTRST then
       m ← rd MCUSR;
       clr_bits MCUSR (bit EXTRF);;
       mret (negb (tst m (bit EXTRF)) || (key =? MAGIC_BOOT_KEY))
     else
       m ← rd MCUSR;
       clr_bits MCUSR (bit WDRF);;
       mret (tst m (bit WDRF) && (key =? MAGIC_BOOT_KEY)));
  let ApplicationValid := negb (pgm_read_word_near 0 =? 0xFFFF) in
  if (JumpToApplication : bool) && ApplicationValid then
    clr_bits MCUSR (bit WDRF);;
    wdt_disable;;
    modify (upd_app (set_MagicBootKey 0));;
    mret true
  else mret false.

(** The application has no handlers for the events of the stack. *)
#[local] Instance DFU_Events : DeviceEvents DFU_App := no_events _.

(** The descriptors are those of the boot loader's Descriptors.c. *)
Context (GetDescriptor : Z -> Z -> Z * option (list Z)).
#[local] Instance DFU_Requests : DeviceRequests DFU_App := {|
  CALLBACK_USB_GetDescriptor := GetDescriptor;
  EVENT_USB_Device_ControlRequest := DFU_ControlRequest AVR_SIGNATURE;
  EVENT_USB_Device_ConfigurationChanged := fun _ => mret tt
|}.

Definition SetupHardware (fuel : nat) : P unit :=
  clr_bits MCUSR (bit WDRF);;
  wdt_disable;;
  clock_prescale_set 0;;
  wr MCUCR (bit IVCE);;
  wr MCUCR (bit IVSEL);;
  USB_Init fuel;;
  LEDs_Init;;
  wr TIMSK1 (bit TOIE1);;
  wr TCCR1B (Z.lor (bit CS11) (bit CS10)).

Definition ResetHardware : P unit :=
  USB_Disable;;
  LEDs_Disable;;
  wr TIMSK1 0;;
  wr TCCR1B 0;;
  wr MCUCR (bit IVCE);;
  wr MCUCR 0.

(** [while (RunBootloader || WaitForExit)], up to [rounds] times. *)
Fixpoint main_loop (rounds fuel : nat) : P unit :=
  match rounds with
  | O => nofuel
  | S rounds =>
      a ← gets app;
      if RunBootloader a || WaitForExit a then USB_USBTask fuel;; main_loop rounds fuel else mret tt
  end.

(** [main] up to the start of the application, whose address is the result. *)
Definition main (rounds fuel : nat) : P Z :=
  SetupHardware fuel;;
  LEDs_SetAllLEDs LEDS_LED1;;
  GlobalInterruptEnable;;
  main_loop rounds fuel;;
  ResetHardware;;
  gets (fun w => AppStartPtr (app w)).
End Bootloader.
