(* ===== verification/BootloaderDFUSpec.v ===== *)
(** Correctness of the DFU boot loader (BootloaderDFU.v): what the commands do to the
    memories, and what a loader in secure mode keeps from its host. *)

From stdpp Require Import base tactics option list numbers.
From Stdlib Require Import ZArith Lia Znumtheory.
From S2P Require Import Prelude Memory Hardware Board Endpoint USBController ControlStream DeviceStandardReq.
From S2P Require Import StdDescriptors ControlRequest ClassDriver Flash FlashSpec BootloaderDFU.

(** ** Erasing *)

Section Erase.
Context {T : Target}.

(** Pages are a power of two, of 32 to 256 bytes, and the application is whole pages below
    the boot loader. *)
Class DFU_Target : Prop := {
  dt_page : exists k, 5 <= k <= 8 /\ SPM_PAGESIZE = 2 ^ k;
  dt_boot : exists n, 0 <= n /\ BOOT_START_ADDR = SPM_PAGESIZE * n;
  dt_end : BOOT_START_ADDR <= FLASHEND + 1 <= 2 ^ 24
}.
Context {DT : DFU_Target}.
Abbreviation P := (@SPM_PAGESIZE T).

Lemma dt_page9 : exists k, 1 <= k <= 9 /\ P = 2 ^ k.
Proof using DT. destruct dt_page as (k & Hk & E). exists k. split; [lia|done]. Qed.

Lemma near_id a : 0 <= a <= FLASHEND -> near a = a.
Proof using DT.
  intros Ha. pose proof dt_end. unfold near. destruct (Z.ltb_spec 0xFFFF FLASHEND).
  - apply u32_small. unfold is_u32. lia.
  - apply u16_small. unfold is_u16. lia.
Qed.

Lemma erase_pages_app n a log : erase_pages n a log = erase_pages n a [] ++ log.
Proof using Type.
  revert a log. induction n as [|n IH]; intros a log; cbn; [done|]. destruct (_ <? _); [|done].
  rewrite IH, (IH _ (_ :: _ :: _ :: _ :: [])). by rewrite <- app_assoc.
Qed.

(** The operations of an erase. *)
Definition erase_log : spm_log := boot_rww_enable :: erase_pages (Z.to_nat BOOT_START_ADDR) 0 [].

(** Blank up to [a]. *)
Definition blanked (c0 : Z -> Z) (a : Z) (f : Flash) : Prop :=
  idle f /\ forall x, cells f x = if (0 <=? x) && (x <? a) then 0xFF else c0 x.

Lemma erase_page c0 q log f0 f : 0 <= q -> P * q < BOOT_START_ADDR -> spm_run P log f0 = Some f -> blanked c0 (P * q) f ->
  exists f', spm_run P (boot_spm_busy_wait :: boot_page_write (near (P * q)) :: boot_spm_busy_wait ::
      boot_page_erase (near (P * q)) :: log) f0 = Some f' /\ blanked c0 (P * q + P) f'.
Proof using DT.
  intros Hq Hb Hr ((Hbusy & Ht & Hf) & Hc). pose proof dt_end. destruct (page_facts P dt_page9) as (h & E & Hh & _).
  rewrite near_id by nia. destruct (page_base P dt_page9 q) as [Hpq _]. rewrite !spm_run_cons, Hr. cbn. rewrite Hbusy. cbn.
  eexists. split; [reflexivity|]. split; [done|]. intros x. cbn. rewrite Hpq, (page_eq P dt_page9), Ht, Hc.
  destruct (Z.leb_spec (P * q) x), (Z.ltb_spec x (P * q + P)), (Z.leb_spec 0 x), (Z.ltb_spec x (P * q)); cbn; try done; try lia; nia.
Qed.

Lemma erase_pages_blank c0 n : forall q log f0 f, 0 <= q -> BOOT_START_ADDR <= P * (q + Z.of_nat n) -> P * q <= BOOT_START_ADDR ->
  spm_run P log f0 = Some f -> blanked c0 (P * q) f ->
  exists f', spm_run P (erase_pages n (P * q) log) f0 = Some f' /\ blanked c0 BOOT_START_ADDR f'.
Proof using DT.
  destruct dt_boot as (m & Hm & Em). destruct (page_facts P dt_page9) as (h & E & Hh & _).
  induction n as [|n IH]; intros q log f0 f Hq Hn Hb Hr Hf; cbn [erase_pages].
  - exists f. split; [done|]. by replace BOOT_START_ADDR with (P * q) by (cbn in Hn; lia).
  - destruct (Z.ltb_spec (P * q) BOOT_START_ADDR) as [Hlt|Hge].
    + destruct (erase_page c0 q log f0 f Hq Hlt Hr Hf) as (f1 & Hr1 & Hf1).
      replace (P * q + P) with (P * (q + 1)) in * by lia. apply (IH (q + 1) _ f0 f1); [lia|by replace (q + 1 + Z.of_nat n) with (q + Z.of_nat (S n)) by lia| |done|done].
      rewrite Em in Hlt |- *. apply Z.mul_lt_mono_pos_l in Hlt; [|lia]. apply Z.mul_le_mono_nonneg_l; lia.
    + exists f. split; [done|]. by replace BOOT_START_ADDR with (P * q) by lia.
Qed.

Lemma erase_blank_all c0 log f0 f : spm_run P log f0 = Some f -> idle f -> (forall x, cells f x = c0 x) ->
  exists f', spm_run P (erase_log ++ log) f0 = Some f' /\ blanked c0 BOOT_START_ADDR f'.
Proof using DT.
  intros Hr Hi Hc. destruct (page_facts P dt_page9) as (h & E & Hh & _). destruct dt_boot as (m & Hm & Em).
  destruct (erase_pages_blank c0 (Z.to_nat BOOT_START_ADDR) 0 log f0 f) as (f1 & Hr1 & (Hb1 & Ht1 & Hf1) & Hc1); [lia|nia|nia|done| |].
  { split; [done|]. intros x. rewrite Hc. destruct (Z.leb_spec 0 x), (Z.ltb_spec x (P * 0)); cbn; try done; lia. }
  rewrite Z.mul_0_r in Hr1. unfold erase_log. change ((?a :: ?l) ++ log) with (a :: l ++ log).
  rewrite <- erase_pages_app, spm_run_cons, Hr1. cbn. rewrite Hb1. eexists. split; [reflexivity|]. by split.
Qed.
End Erase.
Arguments DFU_Target : clear implicits.

Lemma at90usb1287_dfu : DFU_Target at90usb1287.
Proof.
  split; cbn.
  - exists 8. split; [lia|done].
  - exists 480. split; [lia|done].
  - lia.
Qed.

(** ** Secure mode *)

Section Secure.
Context {T : Target}.

(** No operation was performed on the memories, and none is being prepared. *)
Definition locked (a : DFU_App) : Prop :=
  IsSecure a = true /\ spm a = [] /\ eeprom a = [] /\ WaitForExit a = false /\
  DFU_State a <> dfuDNLOAD_IDLE /\ DFU_State a <> dfuUPLOAD_IDLE.
(** The first operations erased the application. *)
Definition wiped (a : DFU_App) : Prop := IsSecure a = false /\ exists l, spm a = l ++ erase_log.
Definition secured (a : DFU_App) : Prop := locked a \/ wiped a.
End Secure.

Section SecureProofs.
Context {HW : Hardware} {BD : Board DFU_App} {PB : PlainBoard BD} {EV : DeviceEvents DFU_App} {T : Target} {N : NVM}.
Context (sig : Z * Z * Z) (fuel : nat).

Lemma safe_upd (I : DFU_App -> Prop) f : (forall a, I a -> I (f a)) -> safe (driver_inv I) (modify (upd_app f)).
Proof using Type. intros Hf. exact (safe_assign (App := DFU_App) I f Hf). Qed.

Lemma wiped_perform op a : wiped a -> wiped (perform op a).
Proof using Type. intros (H & l & E). split; [done|]. exists (op :: l). cbn. by rewrite E. Qed.

Lemma wiped_more l a : wiped a -> wiped (set_spm (l ++ spm a) a).
Proof using Type. intros (H & l' & E). split; [done|]. exists (l ++ l'). cbn. by rewrite E, app_assoc. Qed.

(** Commands leave the start of the log. *)
Lemma wiped_same a a' : IsSecure a' = IsSecure a -> spm a' = spm a -> wiped a -> wiped a'.
Proof using Type. intros H1 H2 (H & l & E). split; [congruence|]. exists l. congruence. Qed.

Lemma wiped_MemProg a : wiped a -> wiped (ProcessMemProgCommand a).
Proof using Type.
  intros H. unfold ProcessMemProgCommand. destruct (_ || _); [|done]. destruct (IS_ONEBYTE_COMMAND _ _).
  - eapply (wiped_same (perform_wait _ _)); [reflexivity|reflexivity|]. by do 2 apply wiped_perform.
  - by apply (wiped_same a).
Qed.

Lemma wiped_MemRead a : wiped a -> wiped (ProcessMemReadCommand a).
Proof using Type. intros H. unfold ProcessMemReadCommand. repeat case_match; by apply (wiped_same a). Qed.

Lemma wiped_Read a : wiped a -> wiped (ProcessReadCommand sig a).
Proof using Type. intros H. unfold ProcessReadCommand. repeat case_match; by apply (wiped_same a). Qed.

Lemma wiped_erase a : wiped a -> wiped (set_spm (boot_rww_enable :: erase_pages (Z.to_nat BOOT_START_ADDR) 0 (spm a)) a).
Proof using Type. rewrite erase_pages_app. by apply (wiped_more (boot_rww_enable :: _)). Qed.

Lemma safe_wiped f : (forall a, IsSecure (f a) = IsSecure a /\ spm (f a) = spm a) -> safe (driver_inv wiped) (modify (upd_app f)).
Proof using Type. intros Hf. apply safe_upd. intros a. by apply wiped_same; apply Hf. Qed.

Lemma safe_Process : safe (driver_inv wiped) (ProcessBootloaderCommand sig).
Proof using PB.
  unfold ProcessBootloaderCommand, ProcessWriteCommand.
  repeat first [safe_step | by apply safe_wiped | solve [eauto 2 with safe] | apply safe_upd | safe_unfold];
    [apply wiped_MemProg|apply wiped_MemRead|apply wiped_erase|by intros ? [_ ?]|apply wiped_Read].
Qed.

Context {ESw : EventsSafe EV (driver_inv wiped)} {ESl : EventsSafe EV (driver_inv locked)}.

Section Any.
Context (I : DFU_App -> Prop) {ES : EventsSafe EV (driver_inv I)}.

Lemma safe_wait_OUT : safe (driver_inv I) (wait_OUT fuel).
Proof using ES. unfold wait_OUT. apply safe_StatusStage_wait; [apply _..|]. safe_tac. Qed.
Lemma safe_wait_IN : safe (driver_inv I) (wait_IN fuel).
Proof using ES. unfold wait_IN. apply safe_StatusStage_wait; [apply _..|]. safe_tac. Qed.
#[local] Hint Resolve safe_wait_OUT safe_wait_IN : safe.

Lemma safe_next_OUT : safe (driver_inv I) (next_OUT fuel).
Proof using ES. unfold next_OUT. safe_tac. Qed.
Lemma safe_next_IN : safe (driver_inv I) (next_IN fuel).
Proof using ES. unfold next_IN. safe_tac. Qed.

Lemma safe_Discard n : safe (driver_inv I) (DiscardFillerBytes fuel n).
Proof using ES. induction n as [|n IH]; cbn; safe_tac; apply IH. Qed.

Lemma safe_finish_OUT : safe (driver_inv I) (Endpoint_ClearOUT;; Endpoint_ClearStatusStage fuel).
Proof using ES. safe_tac. Qed.

Lemma safe_reply (m : prog (World DFU_App) bool) : safe (driver_inv I) m -> safe (driver_inv I) (send_reply fuel m).
Proof using ES. intros Hm. unfold send_reply. repeat first [safe_step | exact Hm | solve [eauto 2 with safe] | safe_unfold]. Qed.

Hypothesis Hcommand : forall c a, I a -> I (set_SentCommand c a).
Lemma safe_on_command f : safe (driver_inv I) (on_command f).
Proof using Hcommand. apply safe_upd. intros a Ha. by apply Hcommand. Qed.

Lemma safe_parameters n : forall i, safe (driver_inv I) (read_parameters n i).
Proof using Hcommand.
  induction n as [|n IH]; intros i; cbn [read_parameters]; [safe_tac|].
  repeat first [safe_step | apply IH | apply safe_on_command | solve [eauto 2 with safe] | safe_unfold].
Qed.
End Any.

(** *** A loader that was opened stays so *)

#[local] Hint Resolve safe_Process safe_wait_OUT safe_wait_IN safe_next_OUT safe_next_IN safe_Discard safe_reply : safe.
Ltac wiped_tac := repeat first [safe_step | by apply safe_wiped | apply safe_upd; intros ? ?; by repeat apply wiped_perform
  | solve [eauto 2 with safe] | safe_unfold].

Lemma safe_write_flash n : forall a b c, safe (driver_inv wiped) (write_flash fuel n a b c).
Proof using ESw.
  induction n as [|n IH]; intros a b c; cbn [write_flash]; [safe_tac|].
  repeat first [safe_step | apply IH | apply safe_upd; intros ? ?; by repeat apply wiped_perform | solve [eauto 2 with safe] | safe_unfold].
Qed.
Lemma safe_write_eeprom n : safe (driver_inv wiped) (write_eeprom fuel n).
Proof using ESw. induction n as [|n IH]; cbn [write_eeprom]; wiped_tac; apply IH. Qed.
Lemma safe_read_flash n : forall a, safe (driver_inv wiped) (read_flash fuel n a).
Proof using ESw. induction n as [|n IH]; intros a; cbn [read_flash]; wiped_tac; apply IH. Qed.
Lemma safe_read_eeprom n : safe (driver_inv wiped) (read_eeprom fuel n).
Proof using ESw. induction n as [|n IH]; cbn [read_eeprom]; wiped_tac; apply IH. Qed.
#[local] Hint Resolve safe_write_flash safe_write_eeprom safe_read_flash safe_read_eeprom : safe.

Lemma safe_download : safe (driver_inv wiped) (download fuel).
Proof using ESw. unfold download. wiped_tac. Qed.

Lemma safe_receive : safe (driver_inv wiped) (receive_command sig fuel).
Proof using ESw PB.
  assert (forall f, safe (driver_inv wiped) (on_command f)) as Hf by (intros f; by apply safe_wiped).
  assert (safe (driver_inv wiped) (read_parameters 5 0)) as Hr by (apply safe_parameters; intros c a Ha; by apply (wiped_same a)).
  unfold receive_command. repeat first [safe_step | apply Hf | exact Hr | solve [eauto 2 with safe] | safe_unfold].
Qed.
#[local] Hint Resolve safe_download safe_receive : safe.

Lemma safe_request_wiped : safe (driver_inv wiped) (DFU_ControlRequest sig fuel).
Proof using ESw PB.
  assert (safe (driver_inv wiped) (upload fuel)) as Hu by (unfold upload; wiped_tac).
  assert (safe (driver_inv wiped) (DNLOAD sig fuel)) as Hd by (unfold DNLOAD; wiped_tac).
  assert (safe (driver_inv wiped) (GETSTATUS fuel)) by (apply safe_reply; [apply _|]; wiped_tac).
  assert (safe (driver_inv wiped) (GETSTATE fuel)) by (apply safe_reply; [apply _|]; wiped_tac).
  unfold DFU_ControlRequest. repeat first [safe_step | exact Hd | apply safe_reply; [apply _|exact Hu] | by apply safe_wiped | solve [eauto 2 with safe] | safe_unfold].
Qed.

(** *** A locked loader opens by erasing only *)

Context {ESs : EventsSafe EV (driver_inv secured)}.

Lemma secured_cases {A} (m : prog (World DFU_App) A) :
  (forall w, driver_inv locked w -> wp false m (fun _ w' => driver_inv secured w') w) -> safe (driver_inv wiped) m -> safe (driver_inv secured) m.
Proof using Type.
  intros Hl Hw w [Hs [H|H]]; [by apply Hl; split|]. eapply wp_mono; [by apply Hw; split|]. intros _ w' [H1 H2]. split; [done|by right].
Qed.

Lemma locked_wp {A} (m : prog (World DFU_App) A) w : safe (driver_inv locked) m -> driver_inv locked w ->
  wp false m (fun _ w' => driver_inv secured w') w.
Proof using Type. intros Hm H. eapply wp_mono; [by apply Hm|]. intros _ w' [H1 H2]. split; [done|by left]. Qed.

Lemma locked_Process w : driver_inv locked w -> wp false (ProcessBootloaderCommand sig) (fun _ w' => driver_inv secured w') w.
Proof using Type.
  intros [Hs Hl]. destruct (Hl) as (Hsec & Hspm & Hee & Hwait & Hd & Hu). change (info w) with (app w) in *.
  unfold ProcessBootloaderCommand. apply wp_bind, wp_gets. rewrite Hsec. cbn [andb].
  destruct (secure_command (SentCommand (app w))) eqn:Ec; cbn [negb].
  - unfold secure_command in Ec. apply orb_true_iff in Ec as [Ec|Ec].
    + apply andb_true_iff in Ec as [Ec Hdata]. apply Z.eqb_eq in Ec. rewrite Ec. cbn [Z.eqb Pos.eqb COMMAND_WRITE COMMAND_PROG_START COMMAND_DISP_DATA].
      unfold ProcessWriteCommand. apply wp_bind, wp_gets. rewrite Hdata.
      assert (IS_ONEBYTE_COMMAND (Data (SentCommand (app w))) 3 = false) as ->.
      { unfold IS_ONEBYTE_COMMAND, IS_TWOBYTE_COMMAND in *. by apply andb_true_iff in Hdata as [->%Z.eqb_eq _]. }
      apply wp_bind, wp_modify, wp_modify. split; [done|]. right. split; [done|]. exists []. cbn. unfold info. cbn. by rewrite Hspm.
    + apply Z.eqb_eq in Ec. rewrite Ec. cbn [Z.eqb Pos.eqb COMMAND_WRITE COMMAND_PROG_START COMMAND_DISP_DATA COMMAND_READ].
      apply wp_modify. split; [done|]. left. unfold info. cbn [app upd_app load object_self id]. unfold ProcessReadCommand. repeat case_match; by split_and!.
  - apply wp_bind, wp_modify, wp_bind, wp_modify. apply locked_wp; [safe_tac|]. split; [done|]. by split_and!.
Qed.

Lemma locked_receive w : driver_inv locked w -> wp false (receive_command sig fuel) (fun _ w' => driver_inv secured w') w.
Proof using ESl.
  intros Hw. unfold receive_command. apply wp_bind, wp_gets. destruct (negb _); [|apply wp_ret; destruct Hw; split; [done|by left]].
  assert (forall f, safe (driver_inv locked) (on_command f)) as Hcmd by (intros f; by apply safe_upd).
  apply wp_bind. eapply wp_mono; [apply (safe_wait_OUT locked), Hw|]. intros [] w1 H1; [|apply wp_ret; destruct H1; split; [done|by left]].
  apply wp_bind. assert (safe (driver_inv locked) Endpoint_Read_8) as Hrd by safe_tac. eapply wp_mono; [by apply Hrd|]. intros b w2 H2.
  apply wp_bind. eapply wp_mono; [by apply Hcmd|]. intros [] w3 H3. apply wp_bind. eapply wp_mono; [by apply Hcmd|]. intros [] w4 H4.
  apply wp_bind. eapply wp_mono; [by apply (safe_parameters locked)|]. intros [] w5 H5.
  apply wp_bind. eapply wp_mono; [by apply locked_Process|]. intros [] w6 H6. by apply wp_ret.
Qed.

Lemma secured_download : safe (driver_inv secured) (download fuel).
Proof using ESw.
  apply secured_cases; [|apply safe_download]. intros w Hw. unfold download. apply wp_bind, wp_gets.
  destruct (Hw) as (? & _ & _ & _ & _ & Hd & _). change (info w) with (app w) in Hd. rewrite bool_decide_eq_false_2 by done.
  apply wp_ret. destruct Hw. split; [done|by left].
Qed.

Lemma safe_request_secured : safe (driver_inv secured) (DFU_ControlRequest sig fuel).
Proof using ESl ESs ESw PB.
  apply secured_cases; [|apply safe_request_wiped]. intros w Hw.
  assert (forall f, (forall a, locked a -> locked (f a)) -> safe (driver_inv locked) (modify (upd_app f))) as Hup by (intros f Hf; by apply safe_upd).
  assert (forall f, safe (driver_inv locked) (on_command f)) as Hcmd by (intros f; by apply Hup).
  unfold DFU_ControlRequest. apply wp_bind, wp_gets. destruct (negb _); [apply wp_ret; destruct Hw; split; [done|by left]|].
  apply wp_bind. eapply wp_mono; [apply (safe_plain (driver_inv locked)); [apply plain_toggle|exact Hw]|]. intros [] w1 H1.
  apply wp_bind. eapply wp_mono; [apply Hcmd, H1|]. intros [] w2 H2.
  destruct (_ =? DFU_REQ_DNLOAD); [|destruct (_ =? DFU_REQ_UPLOAD)].
  - unfold DNLOAD. apply wp_bind. assert (safe (driver_inv locked) Endpoint_ClearSETUP) as Hset by safe_tac.
    eapply wp_mono; [apply Hset, H2|]. intros [] w3 H3. apply wp_bind, wp_gets. destruct (H3) as (_ & _ & _ & _ & Hwait & _).
    change (info w3) with (app w3) in Hwait. rewrite Hwait. apply wp_bind, wp_ret. apply wp_bind.
    eapply wp_mono; [apply locked_receive, H3|]. intros r w4 H4. destruct (negb r); [by apply wp_ret|].
    apply wp_bind. eapply wp_mono; [apply secured_download, H4|]. intros r' w5 H5. destruct r'; [|by apply wp_ret].
    by apply safe_finish_OUT.
  - apply locked_wp; [|exact H2]. apply safe_reply; [apply _|]. intros w3 H3. unfold upload. apply wp_bind, wp_gets.
    destruct (H3) as (_ & _ & _ & _ & _ & _ & Hu). change (info w3) with (app w3) in Hu. rewrite bool_decide_eq_false_2 by done. cbn [negb].
    assert (forall b x y, safe (driver_inv locked) ((if b : bool then Endpoint_Write_16_LE x else Endpoint_Write_8 y);; mret true)) as Hwr by (intros b x y; safe_tac).
    by apply Hwr.
  - apply locked_wp; [|exact H2]. repeat (match goal with |- safe _ (if ?b then _ else _) => destruct b end);
      repeat first [safe_step | apply Hup; intros ? (?&?&?&?&?&?); by split_and! | apply safe_reply; [apply _|] | solve [eauto 2 with safe] | safe_unfold].
Qed.
End SecureProofs.

(** *** The whole session *)

Section Session.
Context {HW : Hardware} {BD : Board DFU_App} {T : Target} {N : NVM} (sig : Z * Z * Z).
Context (GetDescriptor : Z -> Z -> Z * option (list Z)).

(** [main] observed after [n] rounds of its loop, or at the end of it. *)
Fixpoint rounds (n fuel : nat) : prog (World DFU_App) unit :=
  match n with
  | O => mret tt
  | S n =>
      a ← gets app;
      if RunBootloader a || WaitForExit a
      then USB_USBTask (EV := DFU_Events) (RQ := DFU_Requests sig GetDescriptor) fuel;; rounds n fuel else mret tt
  end.
Definition session (n fuel : nat) : prog (World DFU_App) unit :=
  SetupHardware fuel;;
  LEDs_SetAllLEDs LEDS_LED1;;
  GlobalInterruptEnable;;
  rounds n fuel.

(** The descriptors are inside their objects. *)
Definition descriptors_ok : Prop := forall v i, let '(size, d) := GetDescriptor v i in
  size = NO_DESCRIPTOR \/ exists bytes, d = Some bytes /\ is_u16 size /\ size <= Z.of_nat (length bytes).

Lemma session_safe {PB : PlainBoard BD} n fuel : descriptors_ok -> safe (driver_inv secured) (session n fuel).
Proof using Type.
  intros Hdesc. assert (forall I : DFU_App -> Prop, EventsSafe DFU_Events (driver_inv I)) as HE by (intros I; split; apply safe_ret).
  pose proof (HE secured). pose proof (HE locked). pose proof (HE wiped).
  assert (RequestsSafe (DFU_Requests sig GetDescriptor) (driver_inv secured)) as HR.
  { split; [exact Hdesc|intros f; by apply safe_request_secured|intros f; apply safe_ret]. }
  assert (safe (driver_inv secured) (USB_USBTask (EV := DFU_Events) (RQ := DFU_Requests sig GetDescriptor) fuel)) by by apply safe_USBTask.
  unfold session, SetupHardware. repeat (apply safe_bind; [safe_tac|intros _]).
  induction n as [|n IH]; cbn [rounds]; safe_tac; exact IH.
Qed.
End Session.

(** C11: a loader in secure mode never shows or changes the memories before it has erased
    the application.  On every board, for every host and any number of rounds: either the
    loader is still locked, no operation was performed on the program memory or the
    EEPROM, and neither a download nor an upload is under way; or the first operations on
    the program memory erased all of the application, whatever it was, and nothing
    outside it. *)
Theorem DFU_secure {HW : Hardware} {BD : Board DFU_App} {PB : PlainBoard BD} {T : Target} {DT : DFU_Target T} {N : NVM}
    sig GetDescriptor n fuel key w w' : descriptors_ok GetDescriptor -> stack_inv w -> app w = initial_DFU true key ->
  session sig GetDescriptor n fuel w = Ret tt w' ->
  (IsSecure (app w') = true /\ spm (app w') = [] /\ eeprom (app w') = [] /\
     DFU_State (app w') <> dfuDNLOAD_IDLE /\ DFU_State (app w') <> dfuUPLOAD_IDLE) \/
  (IsSecure (app w') = false /\ exists later, spm (app w') = later ++ erase_log /\
     forall c0, exists f, spm_run SPM_PAGESIZE erase_log (at_rest c0) = Some f /\ busy f = false /\
       forall x, cells f x = if (0 <=? x) && (x <? BOOT_START_ADDR) then 0xFF else c0 x).
Proof.
  intros Hd Hs Ha Hrun.
  pose proof (session_safe sig GetDescriptor n fuel Hd w) as Hw. unfold wp in Hw. rewrite Hrun in Hw.
  destruct Hw as [_ [(? & ? & ? & _ & ? & ?)|(H & l & E)]].
  - split; [done|]. left. unfold info. rewrite Ha. by split_and!.
  - left. by split_and!.
  - right. split; [done|]. exists l. split; [done|]. intros c0.
    destruct (erase_blank_all c0 [] (at_rest c0) (at_rest c0)) as (f & Hf & (Hb & _) & Hc); [done|done|done|].
    rewrite app_nil_r in Hf. by exists f.
Qed.

(** *** Nothing depends on the memories *)

Section Blind.
Context {HW : Hardware} {BD : Board DFU_App} {PB : PlainBoard BD} {T : Target} (sig : Z * Z * Z) (fuel : nat).
#[local] Existing Instance DFU_Events.
#[local] Instance blind_events (I : DFU_App -> Prop) : EventsSafe DFU_Events (driver_inv I).
Proof. split; apply safe_ret. Qed.

Lemma blind_bind {A B} (m : prog (World DFU_App) A) (k k' : A -> prog (World DFU_App) B) w :
  safe (driver_inv locked) m -> driver_inv locked w -> (forall a w', driver_inv locked w' -> k a w' = k' a w') ->
  (m ≫= k) w = (m ≫= k') w.
Proof using Type.
  intros Hm Hw Hk. specialize (Hm w Hw). unfold wp in Hm. unfold mbind, prog_bind. destruct (m w) as [a w'| |]; [|done|done]. by apply Hk.
Qed.

Lemma gets_run {A B} (f : World DFU_App -> A) (k : A -> prog (World DFU_App) B) w : (gets f ≫= k) w = k (f w) w.
Proof using Type. done. Qed.

Lemma blind_Process (N N' : NVM) w : locked (app w) -> ProcessBootloaderCommand (N := N) sig w = ProcessBootloaderCommand (N := N') sig w.
Proof using Type.
  intros (Hsec & _). unfold ProcessBootloaderCommand. rewrite !gets_run, Hsec. cbn [andb].
  destruct (secure_command (SentCommand (app w))) eqn:Ec; cbn [negb]; [|done].
  unfold secure_command in Ec. apply orb_true_iff in Ec as [[Ec%Z.eqb_eq Hdata]%andb_true_iff|Ec%Z.eqb_eq]; rewrite Ec; [|done].
  change (COMMAND_WRITE =? COMMAND_PROG_START) with false. change (COMMAND_WRITE =? COMMAND_DISP_DATA) with false.
  change (COMMAND_WRITE =? COMMAND_WRITE) with true. cbv iota. unfold ProcessWriteCommand. rewrite !gets_run, Hdata.
  unfold IS_ONEBYTE_COMMAND, IS_TWOBYTE_COMMAND in *. apply andb_true_iff in Hdata as [->%Z.eqb_eq _]. done.
Qed.

Lemma blind_receive (N N' : NVM) w : driver_inv locked w -> receive_command (N := N) sig fuel w = receive_command (N := N') sig fuel w.
Proof using Type.
  intros Hw. unfold receive_command. rewrite !gets_run. destruct (negb _); [|done].
  assert (forall f, safe (driver_inv locked) (on_command f)) as Hcmd by (intros f; by apply safe_upd).
  apply blind_bind; [apply safe_wait_OUT, _|done|]. intros [] w1 H1; [|done].
  apply blind_bind; [safe_tac|done|]. intros b w2 H2. apply blind_bind; [apply Hcmd|done|]. intros [] w3 H3.
  apply blind_bind; [apply Hcmd|done|]. intros [] w4 H4. apply blind_bind; [by apply safe_parameters|done|]. intros [] w5 H5.
  unfold mbind, prog_bind. rewrite (blind_Process N N') by apply H5. done.
Qed.
End Blind.

(** C21: what a locked loader does, and everything it sends to the host, is independent of
    what is in the memories: the handler of any request runs the same, register access by
    register access, whatever the program memory and the EEPROM would read as. *)
Theorem DFU_secure_blind {HW : Hardware} {BD : Board DFU_App} {PB : PlainBoard BD} {T : Target} (N N' : NVM) sig fuel w :
  stack_inv w -> locked (app w) ->
  DFU_ControlRequest (EV := DFU_Events) (N := N) sig fuel w = DFU_ControlRequest (EV := DFU_Events) (N := N') sig fuel w.
Proof.
  intros Hs Hl. assert (driver_inv locked w) as Hw by by split. pose proof blind_events as HE.
  unfold DFU_ControlRequest. rewrite !gets_run. destruct (negb _); [done|].
  apply blind_bind; [safe_tac|done|]. intros [] w1 H1. apply blind_bind; [by apply safe_upd|done|]. intros [] w2 H2.
  destruct (_ =? DFU_REQ_DNLOAD); [|destruct (_ =? DFU_REQ_UPLOAD); [|done]].
  - unfold DNLOAD. apply blind_bind; [safe_tac|done|]. intros [] w3 H3. rewrite !gets_run. destruct (H3) as (_ & _ & _ & _ & Hwait & _).
    change (info w3) with (app w3) in Hwait. rewrite Hwait. cbn [when]. unfold mbind at 1 4, prog_bind at 1 4. cbn.
    unfold mbind at 1 3, prog_bind at 1 3. by rewrite (blind_receive sig fuel N N').
  - unfold send_reply. apply blind_bind; [safe_tac|done|]. intros [] w3 H3. apply blind_bind; [by apply safe_wait_IN|done|]. intros [] w4 H4; [|done].
    cbn [negb]. unfold mbind at 1 3, prog_bind at 1 3. replace (upload (EV := DFU_Events) (N := N') fuel w4) with (upload (EV := DFU_Events) (N := N) fuel w4); [done|].
    unfold upload. rewrite !gets_run. destruct (H4) as (_ & _ & _ & _ & _ & _ & Hu). change (info w4) with (app w4) in Hu.
    by rewrite bool_decide_eq_false_2 by done.
Qed.

(** *** Starting the application *)

(** The loader is told to start the application by a jump: it stops running where the
    reset vector is blank, and keeps running where an application is loaded. *)
Theorem DFU_start_inverted {HW : Hardware} {BD : Board DFU_App} {T : Target} {N : NVM} (w : World DFU_App) : let a := app w in
  nth 0 (Data (SentCommand a)) 0 = 3 -> nth 1 (Data (SentCommand a)) 0 <> 0 -> DataSize (SentCommand a) = 0 ->
  exists w', ProcessWriteCommand w = Ret tt w' /\ WaitForExit (app w') = true /\
    RunBootloader (app w') = if pgm_read_word (spm a) 0 =? 0xFFFF then false else RunBootloader a.
Proof.
  intros a H0 H1 Hs. apply (wp_total_run_unit ProcessWriteCommand). unfold ProcessWriteCommand. apply wp_bind, wp_gets.
  fold a. unfold IS_ONEBYTE_COMMAND. rewrite H0. change (3 =? 3) with true. cbv iota. apply wp_bind, wp_modify. rewrite Hs. cbn [Z.eqb negb].
  rewrite (proj2 (Z.eqb_neq _ 0)) by done. destruct (pgm_read_word (spm a) 0 =? 0xFFFF); [by apply wp_modify|by apply wp_ret].
Qed.

(** ** Witnesses *)

Definition quiet_hw : Hardware := {| hw_read := fun _ _ => 0; hw_irq := fun _ => false; hw_signature := fun _ => 0 |}.
Definition dfu_reset (a : DFU_App) (r : USB_Request_Header_t) : World DFU_App := mkWorld [] false 0 r 0 false false false a.

Lemma DFU_secure_witness :
  exists w', session (HW := quiet_hw) (BD := no_board _) (T := at90usb1287) (N := machine_nvm (T := at90usb1287) (fun _ => 7) (fun _ => 9))
    (1, 2, 3) (fun _ _ => (0, None)) 2 20 (dfu_reset (initial_DFU true 0) (mkRequest 0 0 0 0 0)) = Ret tt w' /\
  ((IsSecure (app w') = true /\ spm (app w') = [] /\ eeprom (app w') = [] /\
     DFU_State (app w') <> dfuDNLOAD_IDLE /\ DFU_State (app w') <> dfuUPLOAD_IDLE) \/
   (IsSecure (app w') = false /\ exists later, spm (app w') = later ++ erase_log (T := at90usb1287) /\
      forall c0, exists f, spm_run 256 (erase_log (T := at90usb1287)) (at_rest c0) = Some f /\ busy f = false /\
        forall x, cells f x = if (0 <=? x) && (x <? 0x1E000) then 0xFF else c0 x)).
Proof.
  eexists. split; [vm_compute; reflexivity|].
  eapply (DFU_secure (HW := quiet_hw) (BD := no_board _) (DT := at90usb1287_dfu) (N := machine_nvm (T := at90usb1287) (fun _ => 7) (fun _ => 9))
    (1, 2, 3) (fun _ _ => (0, None)) 2 20 0 (dfu_reset (initial_DFU true 0) (mkRequest 0 0 0 0 0))).
  - intros v i. by left.
  - repeat split; cbn; lia.
  - done.
  - vm_compute. reflexivity.
Defined.

Lemma DFU_secure_blind_witness :
  let w := dfu_reset (initial_DFU true 0) (mkRequest 0xA1 DFU_REQ_UPLOAD 0 0 1) in
  DFU_ControlRequest (HW := quiet_hw) (BD := no_board _) (EV := DFU_Events) (T := at90usb1287)
    (N := machine_nvm (T := at90usb1287) (fun _ => 7) (fun _ => 9)) (1, 2, 3) 20 w =
  DFU_ControlRequest (HW := quiet_hw) (BD := no_board _) (EV := DFU_Events) (T := at90usb1287)
    (N := machine_nvm (T := at90usb1287) (fun _ => 8) (fun _ => 10)) (1, 2, 3) 20 w.
Proof. apply DFU_secure_blind; [repeat split; cbn; unfold DFU_REQ_UPLOAD; lia|by split_and!]. Defined.
