(* ===== verification/DFUDownloadSpec.v ===== *)
(** Downloads of the DFU boot loader (BootloaderDFU.v): the data stage of a program
    command ends up in the pages of the flash memory it names. *)

From stdpp Require Import base tactics option list numbers.
From Stdlib Require Import ZArith Lia Znumtheory.
From S2P Require Import Prelude Memory Hardware Board Endpoint USBController ControlStream DeviceStandardReq.
From S2P Require Import ControlTransfer ControlReceive ClassDriver Flash FlashSpec BootloaderDFU BootloaderDFUSpec.

(** ** Reading the packets of the host *)

Section Packets.
Context {HW : Hardware} {EV : DeviceEvents DFU_App} {K : nat} {CS : ControlSender K} (fuel : nat).
Context (r : USB_Request_Header_t).
Implicit Types w : World DFU_App.

(** The state is [a], and the packets [ps] are to be read, of which the first is there. *)
Definition got (a : DFU_App) (ps : list (list Z)) w : Prop :=
  serving w /\ USB_ControlRequest w = r /\ app w = a /\ out (tr w) = ps /\ wait (tr w) = 0%nat.

Lemma got_upd f a ps w : got a ps w -> got (f a) ps (upd_app f w).
Proof using Type. intros (Hs & Hr & Ha & Ho & Hw). split_and!; [exact Hs|done|cbn; by rewrite Ha|done|done]. Qed.

Lemma got_app a ps w : got a ps w -> app w = a.
Proof using Type. by intros (_ & _ & Ha & _). Qed.

(** Polling for the packets [ps] that are on their way. *)
Lemma wait_OUT_got a ps n w : serving w -> USB_ControlRequest w = r -> app w = a -> out (tr w) = ps -> ps <> [] -> (wait (tr w) < n)%nat ->
  wp true (StatusStage_wait fuel n Endpoint_IsOUTReceived) (fun ok w' => ok = true /\ got a ps w') w.
Proof using Type.
  revert w. induction n as [|n IH]; intros w Hs Hr Ha Ho Hne Hn; [lia|]. cbn [StatusStage_wait].
  unfold Endpoint_IsOUTReceived, test_bits. apply wp_bind, wp_bind, wp_rd, wp_ret. cbn [reg_trunc]. rewrite cs_flag by apply Hs.
  set (v := u8 _). destruct (cs_poll (tr w) v) as [Ho1 Hw1]. case_bool_decide as Hr1.
  - apply wp_ret. split; [done|]. split_and!; [exact Hs|done|done|cbn; congruence|cbn; rewrite Hw1; by destruct Hr1 as [-> _]].
  - assert (wait (tr w) <> 0%nat) by (intros E; apply Hr1; split; [done|by rewrite Ho]).
    apply wp_bind. unfold poll_DeviceState. apply wp_bind. unfold wp at 1, interrupt_point. rewrite cs_irq, andb_false_r. apply wp_gets.
    destruct (Hs) as (_ & Hu & _). cbn [USB_DeviceState upd_tr]. rewrite (proj2 (Z.eqb_neq _ _)) by done.
    apply IH; [exact Hs|done|done|cbn; congruence|done|cbn; rewrite Hw1; lia].
Qed.

Lemma Bytes_got a p ps w : got a (p :: ps) w -> wp true Endpoint_BytesInEndpoint (fun n w' => n = Z.of_nat (length p) /\ got a (p :: ps) w') w.
Proof using Type.
  intros (Hs & Hr & Ha & Ho & Hw). unfold Endpoint_BytesInEndpoint. apply wp_bind, wp_rd, wp_bind, wp_rd, wp_ret.
  cbn [reg_trunc]. destruct (cs_count (tr w) p ps) as [-> _]; [apply Hs|done|].
  destruct (cs_peek UEBCHX (tr w) 0) as [Ho1 Hw1]; [auto|].
  destruct (cs_count (Rd UEBCHX 0 :: tr w) p ps) as [_ Hl]; [apply Hs|congruence|]. cbn [tr upd_tr]. rewrite Hl.
  destruct (cs_peek UEBCLX (Rd UEBCHX 0 :: tr w) (Z.of_nat (length p))) as [Ho2 Hw2]; [auto|].
  split; [done|]. split_and!; [exact Hs|done|done|cbn; congruence|cbn; congruence].
Qed.

Lemma Read_got a b p ps w : got a ((b :: p) :: ps) w -> wp true Endpoint_Read_8 (fun x w' => x = b /\ got a (p :: ps) w') w.
Proof using Type.
  intros (Hs & Hr & Ha & Ho & Hw). unfold Endpoint_Read_8. apply wp_rd. cbn [reg_trunc].
  destruct (cs_data (tr w) b p ps b) as (-> & Ho2 & Hw2); [apply Hs|done|].
  split; [done|]. split_and!; [exact Hs|done|done|cbn; congruence|cbn; congruence].
Qed.

(** Releasing a packet. *)
Lemma Clear_got a p ps w : got a (p :: ps) w -> wp true Endpoint_ClearOUT (fun _ w' => serving w' /\ USB_ControlRequest w' = r /\ app w' = a /\
  out (tr w') = ps /\ (wait (tr w') <= K)%nat) w.
Proof using Type.
  intros (Hs & Hr & Ha & Ho & Hw). pose proof (ClearOUT_ack w Hs Hw) as H. unfold Endpoint_ClearOUT, clr_bits in *.
  apply wp_bind, wp_rd, wp_wr. unfold wp, mbind, prog_bind, rd, wr in H. cbn in H. destruct H as (Hs' & Ho' & Hw').
  rewrite Ho in Ho'. split_and!; [exact Hs'|done|done|exact Ho'|exact Hw'].
Qed.

(** Filler inside a packet. *)
Lemma discard_got n : forall a p ps w, (n <= length p)%nat -> got a (p :: ps) w ->
  wp true (DiscardFillerBytes fuel n) (fun _ w' => got a (drop n p :: ps) w') w.
Proof using Type.
  induction n as [|n IH]; intros a p ps w Hn H; cbn [DiscardFillerBytes]; [by apply wp_ret|].
  apply wp_bind. eapply wp_mono; [by apply Bytes_got|]. intros k w1 [-> H1]. destruct p as [|b p]; cbn [length] in *; [lia|].
  rewrite (proj2 (Z.eqb_neq _ 0)) by lia. apply wp_bind. unfold Endpoint_Discard_8. apply wp_bind.
  change (rd UEDATX) with (Endpoint_Read_8 (App := DFU_App)).
  eapply wp_mono; [by eapply Read_got|]. intros x w2 [_ H2]. apply wp_ret. apply IH; [lia|done].
Qed.

Lemma u16_sub_l x y : u16 (u16 x - y) = u16 (x - y).
Proof using Type. unfold u16. apply Zminus_mod_idemp_l. Qed.

(** A parameter of a command. *)
Definition parameter (i : nat) (b : Z) (c : DFU_Command_t) : DFU_Command_t := set_DataSize (DataSize c - 1) (set_Data i b c).

Lemma parameter_got n i a b p ps w (Q : unit -> World DFU_App -> Prop) : got a ((b :: p) :: ps) w ->
  (forall w', got (set_SentCommand (parameter i b (SentCommand a)) a) (p :: ps) w' -> wp true (read_parameters n (S i)) Q w') ->
  wp true (read_parameters (S n) i) Q w.
Proof using Type.
  intros H HQ. cbn [read_parameters]. apply wp_bind. eapply wp_mono; [by apply Bytes_got|]. intros k w1 [-> H1]. cbn [length].
  rewrite (proj2 (Z.eqb_neq _ 0)) by lia. cbn [negb]. apply wp_bind. eapply wp_mono; [by eapply Read_got|]. intros x w2 [-> H2].
  unfold on_command. apply wp_bind, wp_modify, wp_bind, wp_modify. apply HQ.
  apply (got_upd (fun a => set_SentCommand (set_Data i b (SentCommand a)) a)) in H2.
  by apply (got_upd (fun a => set_SentCommand (set_DataSize (DataSize (SentCommand a) - 1) (SentCommand a)) a)) in H2.
Qed.

Lemma parameters_got d0 d1 d2 d3 d4 a p ps w : got a ((d0 :: d1 :: d2 :: d3 :: d4 :: p) :: ps) w ->
  length (Data (SentCommand a)) = 5%nat ->
  wp true (read_parameters 5 0) (fun _ w' =>
    got (set_SentCommand (mkCommand (Command (SentCommand a)) [d0; d1; d2; d3; d4] (u16 (DataSize (SentCommand a) - 5))) a) (p :: ps) w') w.
Proof using Type.
  intros H Hl. do 5 (eapply parameter_got; [eassumption|]; clear H; intros ? H). cbn [read_parameters]. apply wp_ret.
  destruct a as [? ? ? ? ? [cmd dat sz] ? ? ? ? ? ? ? ?]. cbn in Hl. destruct dat as [|x0 [|x1 [|x2 [|x3 [|x4 []]]]]]; try done.
  unfold parameter, set_Data, set_DataSize, set_SentCommand in H |- *. cbn -[u16] in H |- *. repeat first [rewrite u16_sub_l in H | rewrite <- Z.sub_add_distr in H]. exact H.
Qed.
Context (Hf : (K < fuel)%nat).

(** The next packet. *)
Lemma fetch_got a p ps w : ps <> [] -> got a (p :: ps) w ->
  wp true (Endpoint_ClearOUT;; wait_OUT fuel) (fun ok w' => ok = true /\ got a ps w') w.
Proof using Hf.
  intros Hne H. apply wp_bind. eapply wp_mono; [by eapply Clear_got|]. intros [] w1 (Hs & Hr & Ha & Ho & Hw).
  apply wait_OUT_got; [done..|lia].
Qed.

Lemma next_got a ps w : concat ps <> [] -> Forall (fun p => p <> []) (tail ps) -> got a ps w ->
  wp true (next_OUT fuel) (fun ok w' => ok = true /\ exists p ps', got a (p :: ps') w' /\ p <> [] /\ concat (p :: ps') = concat ps /\
    p :: ps' `suffix_of` ps) w.
Proof using Hf.
  intros Hc Hne H. destruct ps as [|p ps]; [done|]. unfold next_OUT. apply wp_bind. eapply wp_mono; [by apply Bytes_got|]. intros n w1 [-> H1].
  destruct p as [|b p]; cbn [length].
  - cbn [Z.of_nat Z.eqb]. destruct ps as [|p ps]; [done|]. cbn [tail] in Hne. apply Forall_cons_1 in Hne as [Hp _].
    eapply wp_mono; [eapply (fetch_got _ [] (p :: ps)); [done|exact H1]|]. intros ok w2 [-> H2]. split; [done|].
    exists p, ps. split_and!; [done..|]. by exists [[]].
  - rewrite (proj2 (Z.eqb_neq _ 0)) by lia. apply wp_ret. split; [done|]. exists (b :: p), ps. by split_and!.
Qed.

(** Filler that may go on in the packets that follow: the loop ends. *)
Lemma discard_some n : forall a ps w, (n <= length (concat ps))%nat -> Forall (fun p => p <> []) (tail ps) -> ps <> [] -> got a ps w ->
  wp true (DiscardFillerBytes fuel n) (fun _ w' => exists p ps', got a (p :: ps') w') w.
Proof using Hf.
  induction n as [|n IH]; intros a ps w Hn Hne H0 H; (destruct ps as [|p ps]; [done|]); cbn [DiscardFillerBytes].
  { apply wp_ret. by exists p, ps. }
  apply wp_bind. eapply wp_mono; [by apply Bytes_got|]. intros k w1 [-> H1]. destruct p as [|b p]; cbn [length].
  - cbn [Z.of_nat Z.eqb]. destruct ps as [|p ps]; [cbn in Hn; lia|]. cbn [tail] in Hne. apply Forall_cons_1 in Hne as [Hp Hne].
    apply wp_assoc, wp_bind. eapply wp_mono; [eapply (fetch_got a [] (p :: ps)); [done|exact H1]|]. intros ok w2 [-> H2].
    apply (IH a (p :: ps)); [cbn in Hn |- *; lia|done|done|done].
  - rewrite (proj2 (Z.eqb_neq _ 0)) by lia. apply wp_bind. unfold Endpoint_Discard_8. apply wp_bind.
    change (rd UEDATX) with (Endpoint_Read_8 (App := DFU_App)).
    eapply wp_mono; [by eapply Read_got|]. intros x w2 [_ H2]. apply wp_ret. apply (IH a (p :: ps)); [cbn in Hn |- *; lia|done|done|done].
Qed.

(** Packets of whole words; only the first may have been read. *)
Definition words (ps : list (list Z)) : Prop :=
  Forall (fun p => Nat.Even (length p) /\ Forall is_u8 p) ps /\ Forall (fun p => p <> []) (tail ps).

Lemma next_word_got a ps w : concat ps <> [] -> words ps -> got a ps w ->
  wp true (next_OUT fuel) (fun ok w' => ok = true /\ exists b0 b1 p ps', got a ((b0 :: b1 :: p) :: ps') w' /\
    b0 :: b1 :: concat (p :: ps') = concat ps /\ words (p :: ps') /\ is_u8 b0 /\ is_u8 b1) w.
Proof using Hf.
  intros Hc [He Hne] H. eapply wp_mono; [by apply next_got|]. intros ok w1 (-> & p & ps' & H1 & Hp & Hcc & [pre ->]).
  split; [done|]. apply Forall_app in He as [_ He]. apply Forall_cons_1 in He as [[Hev Hu] He].
  assert (Forall (fun p => p <> []) ps') as Hn' by (destruct pre as [|x pre]; cbn in Hne; [done|]; apply Forall_app in Hne as [_ Hne]; by apply Forall_cons_1 in Hne as [_ ?]).
  destruct p as [|b0 [|b1 p]]; [done|by destruct Hev as [k Hk]; cbn in Hk; lia|]. exists b0, b1, p, ps'.
  apply Forall_cons_1 in Hu as [Hu0 Hu]. apply Forall_cons_1 in Hu as [Hu1 Hu].
  split_and!; [done|by rewrite <- Hcc|split; [|done]|done|done]. constructor; [|done]. split; [|done]. destruct Hev as [k Hk]. exists (k - 1)%nat. cbn in Hk. lia.
Qed.

Lemma Read_16_got a b0 b1 p ps w : got a ((b0 :: b1 :: p) :: ps) w ->
  wp true Endpoint_Read_16_LE (fun x w' => x = of_le16 b0 b1 /\ got a (p :: ps) w') w.
Proof using Type.
  intros H. unfold Endpoint_Read_16_LE. change (rd UEDATX) with (Endpoint_Read_8 (App := DFU_App)).
  apply wp_bind. eapply wp_mono; [by eapply Read_got|]. intros x w1 [-> H1].
  apply wp_bind. eapply wp_mono; [by eapply Read_got|]. intros x w2 [-> H2]. by apply wp_ret.
Qed.
End Packets.

(** ** Programming *)

Section Program.
Context {HW : Hardware} {EV : DeviceEvents DFU_App} {K : nat} {CS : ControlSender K} (fuel : nat) (Hf : (K < fuel)%nat).
Context {T : Target} {DT : DFU_Target T} (r : USB_Request_Header_t).
Abbreviation P := (@SPM_PAGESIZE T).
Context (c0 : Z -> Z) (A : Z) (buf suf : list Z) (f0 : Flash).
Hypothesis Hbuf : Forall is_u8 buf.
Hypothesis HA : 0 <= A.
Hypothesis Hend : A + Z.of_nat (length buf) <= FLASHEND + 1.
Implicit Types w : World DFU_App.

(** The first address after the last page of [n] bytes from [A] on. *)
Definition page_end (n : Z) : Z := page_of P (A + n - 1) + P.

Lemma run_wait op a f f1 : spm_run P (spm a) f0 = Some f -> spm_run P [boot_spm_busy_wait; op] f = Some f1 ->
  spm_run P (spm (perform_wait op a)) f0 = Some f1.
Proof using Type.
  intros Hr H. change (spm (perform_wait op a)) with ([boot_spm_busy_wait; op] ++ spm a). by rewrite spm_run_app, Hr.
Qed.

(** The loop, when [t] bytes of the page at [P * q] are in the buffer. *)
Lemma write_flash_got n : forall a q t f i ps w, (0 < n)%nat -> 0 <= q -> 0 <= t < P -> Z.even t = true -> P * q + t = A + i -> A <= P * q -> 0 <= i ->
  Z.of_nat (length buf) = i + 2 * Z.of_nat n -> concat ps = drop (Z.to_nat i) buf ++ suf -> words ps ->
  spm_run P (spm a) f0 = Some f -> filling P c0 A buf (P * q) t f -> got r a ps w ->
  wp true (write_flash fuel n (P * q + t) (P * q) (t / 2)) (fun ok w' => ok = true /\ exists l f' ps',
    got r (set_spm l a) ps' w' /\ concat ps' = suf /\ words ps' /\ ps' <> [] /\ spm_run P l f0 = Some f' /\ idle f' /\
    forall x, cells f' x = downloaded c0 A buf (A + Z.of_nat (length buf)) (page_end (Z.of_nat (length buf))) x) w.
Proof using DT Hf HA Hbuf Hend.
  destruct (page_facts P dt_page9) as (h & EP & Hh & _). destruct dt_page as (k & Hk & Ek). pose proof dt_end as Hde.
  assert (P <= 256) as HP256 by (rewrite Ek; apply (Z.pow_le_mono_r 2 k 8); lia).
  induction n as [|n IH]; intros a q t f i ps w Hn Hq Ht Hev Ei HAq Hi Hl Hc Hws Hr Hfl H; [lia|]. cbn [write_flash].
  assert (exists g, t = 2 * g) as [g Eg] by (apply Z.even_spec in Hev as [g ->]; by exists g).
  assert (drop (Z.to_nat i) buf <> []) as Hd by (intros E; apply (f_equal length) in E; rewrite length_drop in E; cbn in E; lia).
  apply wp_bind. eapply wp_mono; [apply (next_word_got fuel r Hf a ps); [rewrite Hc; by destruct (drop _ buf)|done|done]|].
  intros ok w1 (-> & b0 & b1 & p & ps' & H1 & Hcc & Hws' & Hu0 & Hu1). cbn [negb].
  apply wp_bind. eapply wp_mono; [eapply Read_16_got; exact H1|]. intros x w2 [-> H2]. apply wp_bind, wp_modify.
  rewrite of_le16_add by done. apply (got_upd r (perform (boot_page_fill (near (P * q + t)) (256 * b1 + b0)))) in H2.
  rewrite (near_id (P * q + t)) in H2 |- * by lia. set (a1 := perform _ a) in *.
  (* the word *)
  assert (drop (Z.to_nat i) buf ++ suf = b0 :: b1 :: concat (p :: ps')) as Hdrop by congruence.
  assert (byte buf i = b0 /\ byte buf (i + 1) = b1 /\ drop (Z.to_nat (i + 2)) buf ++ suf = concat (p :: ps')) as (Hb0 & Hb1 & Hrest).
  { destruct (drop (Z.to_nat i) buf) as [|x0 [|x1 l]] eqn:E; [done|apply (f_equal length) in E; rewrite length_drop in E; cbn in E; lia|].
    cbn in Hdrop. injection Hdrop as -> -> Hl'. unfold byte. rewrite !nth_lookup.
    replace (Z.to_nat (i + 1)) with (Z.to_nat i + 1)%nat by lia. replace (Z.to_nat (i + 2)) with (Z.to_nat i + 2)%nat by lia.
    rewrite <- (Nat.add_0_r (Z.to_nat i)) at 1. rewrite <- !lookup_drop, <- drop_drop, E. done. }
  destruct (fill_word P c0 A buf q t f b0 b1) as (f1 & Hs1 & Hf1); [lia|lia|rewrite <- Hb0; f_equal; lia|rewrite <- Hb1; f_equal; lia|done|done|done|].
  assert (spm_run P (spm a1) f0 = Some f1) as Hr1 by (unfold a1; cbn [spm perform set_spm]; by rewrite spm_run_cons, Hr).
  (* the counters *)
  assert (t / 2 = g) as Et2 by (rewrite Eg, Z.mul_comm; by apply Z.div_mul). rewrite Et2.
  rewrite (u8_small (g + 1)), u32_small by (unfold is_u8, is_u32; lia).
  assert (Z.shiftr P 1 = h) as Eh by (rewrite Z.shiftr_div_pow2, EP by lia; change (2 ^ 1) with 2; rewrite Z.mul_comm; by apply Z.div_mul). rewrite Eh.
  destruct (Z.eqb_spec (g + 1) h) as [Eq|Eq]; [|destruct n as [|n']]; cbn [orb negb]; cbv zeta.
  - (* the page is full *)
    apply wp_bind, wp_modify. rewrite (near_id (P * q)) by lia. assert (t + 2 = P) as EtP by lia.
    apply (got_upd r (perform_wait (boot_page_write (P * q)))) in H2. set (a2 := perform_wait _ a1) in *.
    destruct (write_buffer P dt_page9 c0 A buf Hbuf q (t + 2) f1 HAq ltac:(lia) Hf1) as (f2 & Hs2 & Hi2 & Hc2).
    pose proof (run_wait _ a1 _ _ Hr1 Hs2) as Hr2. fold a2 in Hr2. destruct n as [|n'].
    + apply wp_ret. split; [done|]. exists (spm a2), f2, (p :: ps'). split_and!; try done.
      * rewrite <- Hrest. rewrite drop_ge by lia. done.
      * intros x. rewrite Hc2. f_equal; [lia|]. unfold page_end. replace (A + Z.of_nat (length buf) - 1) with (P * q + (t + 1)) by lia.
        by rewrite (proj2 (offset_of P q (t + 1) ltac:(lia))).
    + apply wp_bind, wp_modify. replace (P * q + t + 2) with (P * (q + 1)) by lia. rewrite (near_id (P * (q + 1))) by lia.
      apply (got_upd r (perform_wait (boot_page_erase (P * (q + 1))))) in H2. set (a3 := perform_wait _ a2) in *.
      destruct (erase_blank P dt_page9 c0 A buf (q + 1) f2) as (f3 & Hs3 & Hf3); [lia|done| |].
      { intros x. rewrite Hc2. unfold downloaded. replace (P * q + (t + 2)) with (P * (q + 1)) by lia. replace (P * q + P) with (P * (q + 1)) by lia.
        destruct (Z.leb_spec (P * (q + 1)) x), (Z.ltb_spec x (P * (q + 1))); cbn; try lia; by rewrite ?andb_true_r, ?andb_false_r. }
      pose proof (run_wait _ a2 _ _ Hr2 Hs3) as Hr3. fold a3 in Hr3.
      pose proof (IH a3 (q + 1) 0 f3 (i + 2) (p :: ps') _ ltac:(lia) ltac:(lia) ltac:(lia) eq_refl ltac:(lia) ltac:(lia) ltac:(lia) ltac:(lia)
        (eq_sym Hrest) Hws' Hr3 Hf3 H2) as H3. rewrite Z.add_0_r in H3. change (0 / 2) with 0 in H3. eapply wp_mono; [exact H3|].
      clear H3.
      intros ok w3 (-> & l & f' & ps2 & H3 & Hrest3). split; [done|]. by exists l, f', ps2.
  - (* the last word *)
    apply wp_bind, wp_modify. rewrite (near_id (P * q)) by lia.
    apply (got_upd r (perform_wait (boot_page_write (P * q)))) in H2. set (a2 := perform_wait _ a1) in *.
    destruct (write_buffer P dt_page9 c0 A buf Hbuf q (t + 2) f1 HAq ltac:(lia) Hf1) as (f2 & Hs2 & Hi2 & Hc2).
    pose proof (run_wait _ a1 _ _ Hr1 Hs2) as Hr2. fold a2 in Hr2. apply wp_ret. split; [done|]. exists (spm a2), f2, (p :: ps'). split_and!; try done.
    + rewrite <- Hrest. rewrite drop_ge by lia. done.
    + intros x. rewrite Hc2. f_equal; [lia|]. unfold page_end. replace (A + Z.of_nat (length buf) - 1) with (P * q + (t + 1)) by lia.
      by rewrite (proj2 (offset_of P q (t + 1) ltac:(lia))).
  - (* within the page *)
    pose proof (IH a1 q (t + 2) f1 (i + 2) (p :: ps') _ ltac:(lia) Hq ltac:(lia) ltac:(by rewrite Z.even_add, Hev) ltac:(lia) HAq ltac:(lia) ltac:(lia)
      (eq_sym Hrest) Hws' Hr1 Hf1 H2) as H3. replace ((t + 2) / 2) with (g + 1) in H3 by (rewrite Eg; replace (2 * g + 2) with ((g + 1) * 2) by lia; by rewrite Z.div_mul).
    rewrite Z.add_assoc in H3. eapply wp_mono; [exact H3|]. clear H3.
    intros ok w3 (-> & l & f' & ps2 & H3 & Hrest3). split; [done|]. by exists l, f', ps2.
Qed.
End Program.

(** ** The request *)

(** The command that programs [n] bytes from [start] on, and a request that carries it. *)
Definition program_command (start n : Z) : list Z := [COMMAND_PROG_START; 0] ++ be16 start ++ be16 (start + n - 1).
Definition download_request (n : Z) : USB_Request_Header_t := mkRequest (Z.lor REQTYPE_CLASS REQREC_INTERFACE) DFU_REQ_DNLOAD 0 0 n.

Section Request.
Context {HW : Hardware} {EV : DeviceEvents DFU_App} {K : nat} {CS : ControlSender K} (fuel : nat) (r : USB_Request_Header_t).
Implicit Types w : World DFU_App.

(** Acknowledging the SETUP packet leaves the data that is on its way. *)
Lemma ClearSETUP_coming w ps : serving w -> out (tr w) = ps -> ps <> [] -> wait (tr w) <> 1%nat ->
  wp true Endpoint_ClearSETUP (fun _ w' => serving w' /\ USB_ControlRequest w' = USB_ControlRequest w /\ app w' = app w /\
    out (tr w') = ps /\ (wait (tr w') <= wait (tr w))%nat) w.
Proof using Type.
  intros Hs Ho Hne Hw. unfold Endpoint_ClearSETUP, clr_bits. apply wp_bind, wp_rd, wp_wr. cbn [reg_trunc].
  set (v := u8 (hw_read (tr w) UEINTX)). destruct (cs_poll (tr w) v) as [Ho1 Hw1].
  destruct (cs_keep (Rd UEINTX v :: tr w) (u8 (Z.land v (Z.lnot (bit RXSTPI))))) as [Ho2 Hw2]; [apply Hs| |].
  - rewrite Hw1. destruct (wait (tr w)) as [|[|n]] eqn:E; [right|done|left; cbn; lia].
    rewrite tst_clr_other by (done || lia). unfold v. rewrite cs_flag by apply Hs. apply bool_decide_eq_true_2. by rewrite Ho.
  - split_and!; [exact Hs|done|done|cbn [tr upd_tr]; congruence|cbn [tr upd_tr]; rewrite Hw2, Hw1; lia].
Qed.

(** The status stage of a request to the device. *)
Lemma StatusIN_sender w : (0 < fuel)%nat -> serving w -> tst (bmRequestType (USB_ControlRequest w)) REQDIR_DEVICETOHOST = false ->
  wp true (Endpoint_ClearStatusStage fuel) (fun _ w' => app w' = app w) w.
Proof using CS.
  intros Hf Hs Hd. unfold Endpoint_ClearStatusStage. apply wp_bind, wp_gets. rewrite Hd. destruct fuel as [|n]; [lia|]. cbn [StatusStage_wait].
  unfold Endpoint_IsINReady, test_bits. apply wp_bind, wp_bind, wp_bind, wp_rd, wp_ret. cbn [reg_trunc]. rewrite cs_in by apply Hs.
  apply wp_ret. cbn [when]. unfold Endpoint_ClearIN, clr_bits. by apply wp_bind, wp_rd, wp_wr.
Qed.

Lemma of_be16 x : is_u16 x -> of_le16 (nth 1 (be16 x) 0) (nth 0 (be16 x) 0) = x.
Proof using Type.
  unfold is_u16. intros Hx. cbn [be16 nth]. rewrite of_le16_add by apply u8_range. unfold u8. rewrite Z.shiftr_div_pow2 by lia. change (2 ^ 8) with 256.
  rewrite (Z.mod_small (x / 256)) by (split; [apply Z.div_pos|apply Z.div_lt_upper_bound]; lia). pose proof (Z.div_mod x 256 ltac:(lia)). lia.
Qed.

Context (sig : Z * Z * Z) {BD : Board DFU_App} {T : Target} {N : NVM}.

(** The state after the program command. *)
Definition programming (start n total : Z) (a : DFU_App) : DFU_App :=
  ProcessMemProgCommand (set_SentCommand (mkCommand COMMAND_PROG_START ([0] ++ be16 start ++ be16 (start + n - 1)) (u16 (total - 6))) a).

Lemma receive_program start n total p ps a w : is_u16 total -> 6 <= total -> DataSize (SentCommand a) = total -> length (Data (SentCommand a)) = 5%nat ->
  IsSecure a = false -> serving w -> USB_ControlRequest w = r -> app w = a -> out (tr w) = (program_command start n ++ p) :: ps -> (wait (tr w) < fuel)%nat ->
  wp true (receive_command sig fuel) (fun ok w' => ok = true /\ got r (programming start n total a) (p :: ps) w') w.
Proof using CS.
  intros Hu H6 Hsz Hl Hsec Hs Hr Ha Ho Hw. unfold receive_command. apply wp_bind, wp_gets. rewrite Ha, Hsz, (proj2 (Z.eqb_neq _ 0)) by lia. cbn [negb].
  apply wp_bind. eapply wp_mono; [eapply wait_OUT_got; [exact Hs|exact Hr|exact Ha|exact Ho|done|exact Hw]|]. intros ok w1 [-> H1].
  apply wp_bind. eapply wp_mono; [eapply Read_got; exact H1|]. intros x w2 [-> H2]. unfold on_command. apply wp_bind, wp_modify, wp_bind, wp_modify.
  apply (got_upd r (fun a => set_SentCommand (set_Command COMMAND_PROG_START (SentCommand a)) a)) in H2.
  apply (got_upd r (fun a => set_SentCommand (set_DataSize (DataSize (SentCommand a) - 1) (SentCommand a)) a)) in H2.
  apply wp_bind. eapply wp_mono; [eapply parameters_got; [exact H2|done]|]. intros [] w3 H3. unfold set_Command, set_DataSize, set_SentCommand in H3. cbn -[u16 be16] in H3.
  rewrite Hsz, u16_sub_l, <- Z.sub_add_distr in H3. change (1 + 5) with 6 in H3.
  apply wp_bind. unfold ProcessBootloaderCommand. apply wp_bind, wp_gets. rewrite (got_app _ _ _ _ H3). cbn [IsSecure SentCommand Command andb]. rewrite Hsec. cbn [andb].
  change (COMMAND_PROG_START =? COMMAND_PROG_START) with true. cbv iota. apply wp_modify, wp_ret. split; [done|].
  apply (got_upd r ProcessMemProgCommand) in H3. exact H3.
Qed.
End Request.

Section Download.
Context {HW : Hardware} {EV : DeviceEvents DFU_App} {K : nat} {CS : ControlSender K} (fuel : nat) (r : USB_Request_Header_t).
Context {T : Target} {DT : DFU_Target T}.
Abbreviation P := (@SPM_PAGESIZE T).

(** A page of the selected block of 64 KB. *)
Lemma block_page start b : 0 <= start -> 0 <= b -> start mod P = 0 -> exists q, 0 <= q /\ start + 65536 * b = P * q.
Proof using DT.
  intros Hs Hb Hm. destruct dt_page as (k & Hk & E). assert (0 < P) by (rewrite E; apply Z.pow_pos_nonneg; lia).
  exists (start / P + 2 ^ (16 - k) * b). pose proof (Z.div_mod start P ltac:(lia)). pose proof (Z.div_pos start P ltac:(lia) ltac:(lia)).
  assert (65536 = P * 2 ^ (16 - k)) as E16 by (rewrite E, <- Z.pow_add_r by lia; by replace (k + (16 - k)) with 16 by lia).
  assert (0 < 2 ^ (16 - k)) by (apply Z.pow_pos_nonneg; lia). split; [nia|]. rewrite E16 at 1. nia.
Qed.

(** The state the program command leaves. *)
Lemma programming_state start n total a : is_u16 start -> is_u16 (start + n - 1) -> let a' := programming start n total a in
  DFU_State a' = dfuDNLOAD_IDLE /\ DataSize (SentCommand a') = u16 (total - 6) /\ IS_ONEBYTE_COMMAND (Data (SentCommand a')) 0 = true /\
  StartAddr a' = start /\ BytesRemaining a' = u16 n /\ flash_start a' = start + 65536 * Flash64KBPage a /\
  spm a' = boot_spm_busy_wait :: boot_page_erase (near (start + 65536 * Flash64KBPage a)) :: spm a.
Proof using Type.
  intros Hs He a'. assert (StartAddr a' = start /\ EndAddr a' = start + n - 1) as [E1 E2].
  { split; [rewrite <- (of_be16 start Hs)|rewrite <- (of_be16 _ He)]; reflexivity. }
  assert (spm a' = boot_spm_busy_wait :: boot_page_erase (near (StartAddr a' + 65536 * Flash64KBPage a)) :: spm a) as Es by done.
  split_and!; [done|done|done|done|unfold BytesRemaining; rewrite E1, E2; f_equal; lia|unfold flash_start; by rewrite E1|by rewrite Es, E1].
Qed.

Lemma download_got start data suffix filler ps total a c f w : (K < fuel)%nat ->
  let n := Z.of_nat (length data) in let base := start + 65536 * Flash64KBPage a in
  got r (programming start n total a) (filler :: ps) w -> length filler = 26%nat -> concat ps = data ++ suffix ->
  Forall (fun p => p <> [] /\ Nat.Even (length p) /\ Forall is_u8 p) ps -> (16 <= length suffix)%nat -> is_u16 total -> 6 < total ->
  0 <= Flash64KBPage a -> 0 <= start -> start mod P = 0 -> 0 < n < 65536 -> Z.even n = true -> start + n <= 65536 -> base + n <= FLASHEND + 1 ->
  spm_run P (spm a) (at_rest c) = Some f -> idle f ->
  wp true (download fuel) (fun ok w' => ok = true /\ exists a' p' ps' f', got r a' (p' :: ps') w' /\
    spm_run P (spm a') (at_rest c) = Some f' /\ idle f' /\ rww_ready (spm a') = true /\
    forall x, cells f' x = downloaded (cells f) base data (base + n) (page_end base n) x) w.
Proof using DT.
  intros Hf n base H Hfil Hc Hps Hsuf Htot Ht6 H64 Hst Hal Hn Hev H64K Hend Hrun Hidle.
  destruct (programming_state start n total a) as (Est & Esz & Eone & Esa & Ebr & Efs & Esp); [unfold is_u16; lia..|].
  set (a1 := programming start n total a) in *. destruct (page_facts P dt_page9) as (h & EP & Hh & _).
  destruct (block_page start (Flash64KBPage a) Hst H64 Hal) as (q & Hq & Eq). fold base in Eq, Efs, Esp.
  assert (0 <= base) as Hbase by (unfold base; lia). rewrite near_id in Esp by lia.
  unfold download. apply wp_bind, wp_gets. rewrite (got_app _ _ _ _ H), Est, Esz, bool_decide_eq_true_2 by done.
  rewrite u16_small, (proj2 (Z.eqb_neq _ 0)) by (unfold is_u16 in *; lia).
  apply wp_bind. eapply wp_mono; [eapply discard_got; [|exact H]; rewrite Hfil; done|]. intros [] w1 H1. rewrite drop_ge in H1 by (rewrite Hfil; done).
  assert (start mod DFU_CONTROL_ENDPOINT_SIZE = 0) as E32.
  { destruct dt_page as (k & Hk & Ek). assert (P = 32 * 2 ^ (k - 5)) as E5 by (rewrite Ek; change 32 with (2 ^ 5); rewrite <- Z.pow_add_r by lia; f_equal; lia).
    apply Z.mod_divide in Hal as [j Ej]; [|lia]. rewrite Ej, E5. unfold DFU_CONTROL_ENDPOINT_SIZE.
    replace (j * (32 * 2 ^ (k - 5))) with (j * 2 ^ (k - 5) * 32) by lia. by apply Z.mod_mul. }
  rewrite Esa, Eone, Ebr, Efs, E32. apply wp_bind, wp_ret. apply wp_bind, wp_bind.
  assert (Z.shiftr (u16 n) 1 = n / 2) as -> by (rewrite u16_small by (unfold is_u16; lia); rewrite Z.shiftr_div_pow2 by lia; done).
  apply Z.even_spec in Hev as [m Em]. assert (n / 2 = m) as -> by (rewrite Em, Z.mul_comm; by apply Z.div_mul).
  (* the first page is blank *)
  destruct (erase_blank P dt_page9 (cells f) base data q f) as (f1 & Hs1 & Hf1); [lia|done| |].
  { intros x. rewrite Eq. destruct (Z.leb_spec (P * q) x), (Z.ltb_spec x (P * q)); cbn; try done; lia. }
  assert (spm_run P (spm a1) (at_rest c) = Some f1) as Hr1.
  { rewrite Esp, Eq. change (?x :: ?y :: spm a) with ([x; y] ++ spm a). by rewrite spm_run_app, Hrun. }
  assert (words ([] :: ps)) as Hws.
  { split; [apply Forall_cons_2; [split; [by exists 0%nat|apply Forall_nil_2]|]|]; (eapply Forall_impl; [|exact Hps]); intros p Hp; [|apply Hp]. split; apply Hp. }
  assert (Forall is_u8 data) as Hd.
  { assert (Forall is_u8 (data ++ suffix)) as Hu by (rewrite <- Hc; apply Forall_concat; eapply Forall_impl; [|exact Hps]; intros p Hp; apply Hp).
    by apply Forall_app in Hu as [? _]. }
  pose proof (write_flash_got (CS := CS) fuel Hf r (cells f) base data suffix (at_rest c) Hd Hbase Hend (Z.to_nat m) a1 q 0 f1 0 ([] :: ps) w1
    ltac:(lia) Hq ltac:(lia) eq_refl ltac:(lia) ltac:(lia) ltac:(lia) ltac:(unfold n in Em; lia) Hc Hws Hr1 Hf1 H1) as Hwf.
  rewrite Z.add_0_r in Hwf. change (0 / 2) with 0 in Hwf. rewrite <- Eq in Hwf. fold n in Hwf.
  eapply wp_mono; [exact Hwf|]. clear Hwf. intros ok w2 (-> & l & f2 & ps2 & H2 & Hc2 & [_ Hne2] & H02 & Hr2 & (Hb2 & Ht2 & Hfl2) & Hcells).
  cbn [when]. apply wp_bind, wp_modify, wp_ret. cbn [when].
  apply (got_upd r (fun a => perform boot_rww_enable (set_StartAddr (EndAddr a) a))) in H2. set (a2 := perform _ _) in H2.
  apply wp_bind. eapply wp_mono; [eapply (discard_some fuel r Hf 16 a2 ps2); [by rewrite Hc2|done|done|exact H2]|].
  intros [] w3 (p' & ps' & H3). apply wp_ret. split; [done|]. eexists a2, p', ps', _. split; [exact H3|].
  change (spm a2) with (boot_rww_enable :: l). rewrite spm_run_cons, Hr2. cbn. rewrite Hb2. split; [reflexivity|]. split; [done|]. split; [done|]. exact Hcells.
Qed.
End Download.

(** C10: a download programs the flash memory.  When the host sends the command to program
    [data] from the page [start] on, 26 bytes of filler, the data in packets of whole
    words and at least 16 bytes of file suffix, in its own time, the handler takes all of
    it and returns; the program memory then holds the data from the address on, in the 64
    KB block that was selected, the rest of the last page is blank, and no other cell has
    changed; the memory is unlocked, and no operation is under way. *)
Theorem DFU_downloads {HW : Hardware} {BD : Board DFU_App} {QT : QuietToggle BD} {EV : DeviceEvents DFU_App} {K : nat}
    {CS : ControlSender K} {T : Target} {DT : DFU_Target T} {N : NVM} sig fuel (w : World DFU_App) start data suffix filler ps total c f :
  let n := Z.of_nat (length data) in let a := app w in let base := start + 65536 * Flash64KBPage a in
  serving w -> USB_ControlRequest w = download_request total -> wait (tr w) <> 1%nat -> (wait (tr w) + K < fuel)%nat ->
  out (tr w) = (program_command start n ++ filler) :: ps -> length filler = 26%nat -> concat ps = data ++ suffix ->
  Forall (fun p => p <> [] /\ Nat.Even (length p) /\ Forall is_u8 p) ps -> (16 <= length suffix)%nat -> is_u16 total -> 6 < total ->
  IsSecure a = false -> WaitForExit a = false -> length (Data (SentCommand a)) = 5%nat -> 0 <= Flash64KBPage a ->
  0 <= start -> start mod SPM_PAGESIZE = 0 -> 0 < n < 65536 -> Z.even n = true -> start + n <= 65536 -> base + n <= FLASHEND + 1 ->
  spm_run SPM_PAGESIZE (spm a) (at_rest c) = Some f -> idle f ->
  exists w', DFU_ControlRequest sig fuel w = Ret tt w' /\ exists f', spm_run SPM_PAGESIZE (spm (app w')) (at_rest c) = Some f' /\ idle f' /\
    rww_ready (spm (app w')) = true /\
    forall x, cells f' x = if (base <=? x) && (x <? base + n) then nth (Z.to_nat (x - base)) data 0
                           else if (base + n <=? x) && (x <? page_of SPM_PAGESIZE (base + n - 1) + SPM_PAGESIZE) then 0xFF else cells f x.
Proof.
  intros n a base Hs Hr Hw1 Hw Ho Hfil Hc Hps Hsuf Htot Ht6 Hsec Hwx Hl H64 Hst Hal Hn Hev H64K Hend Hrun Hidle.
  apply (wp_total_run_unit (DFU_ControlRequest sig fuel) (fun w' => exists f', spm_run SPM_PAGESIZE (spm (app w')) (at_rest c) = Some f' /\
    idle f' /\ rww_ready (spm (app w')) = true /\ forall x, cells f' x = downloaded (cells f) base data (base + n) (page_end base n) x)).
  unfold DFU_ControlRequest. apply wp_bind, wp_gets. rewrite Hr. change (negb _) with false. cbv iota.
  apply wp_bind. unfold wp at 1. rewrite toggle_quiet. unfold on_command. apply wp_bind, wp_modify. cbn [bRequest wLength download_request].
  change (DFU_REQ_DNLOAD =? DFU_REQ_DNLOAD) with true. cbv iota. set (a1 := set_SentCommand (set_DataSize total (SentCommand a)) a).
  unfold DNLOAD. apply wp_bind. eapply wp_mono; [eapply ClearSETUP_coming; [exact Hs|exact Ho|done|exact Hw1]|].
  intros [] w1 (Hs1 & Hr1 & Ha1 & Ho1 & Hw1'). change (app w1 = a1) in Ha1. apply wp_bind, wp_gets. rewrite Ha1. change (WaitForExit a1) with (WaitForExit a). rewrite Hwx.
  apply wp_bind, wp_ret, wp_bind. unfold is_u16 in Htot.
  eapply wp_mono; [eapply (receive_program fuel (download_request total) sig start n total filler ps a1);
    [exact Htot|lia|cbn [SentCommand set_SentCommand DataSize set_DataSize a1]; by apply u16_small|exact Hl|exact Hsec|exact Hs1|rewrite Hr1; exact Hr|exact Ha1|exact Ho1|cbn in Hw1'; lia]|].
  intros ok w2 [-> H2]. cbn [negb]. apply wp_bind.
  eapply wp_mono; [eapply (download_got fuel (download_request total) start data suffix filler ps total a1 c f); [lia|exact H2|done|done|done|done|done|done|done|done|done|done|done|done|done|exact Hrun|done]|].
  intros ok w3 (-> & a' & p' & ps' & f' & H3 & Hr' & Hi' & Hrdy & Hcells). cbn [when].
  apply wp_bind. eapply wp_mono; [eapply Clear_got; exact H3|]. intros [] w4 (Hs4 & Hr4 & Ha4 & _).
  eapply wp_mono; [apply StatusIN_sender; [lia|exact Hs4|by rewrite Hr4]|]. intros [] w5 Ha5. exists f'. rewrite Ha5, Ha4. by split_and!.
Qed.

(** *** Alignment filler *)

(** When the alignment filler starts with a new packet, one byte of it is not discarded
    and is programmed as data: the step that fetches the packet counts as a byte. *)
Lemma DFU_filler_short {HW : Hardware} {EV : DeviceEvents DFU_App} {K : nat} {CS : ControlSender K} fuel r n a p ps (w : World DFU_App) :
  (K < fuel)%nat -> (n <= length p)%nat -> got r a ([] :: p :: ps) w ->
  wp true (DiscardFillerBytes fuel (S n)) (fun _ w' => got r a (drop n p :: ps) w') w.
Proof.
  intros Hf Hn H. cbn [DiscardFillerBytes]. apply wp_bind. eapply wp_mono; [eapply Bytes_got; exact H|]. intros k w1 [-> H1]. cbn [length Z.of_nat Z.eqb].
  apply wp_assoc, wp_bind. eapply wp_mono; [eapply (fetch_got fuel r Hf a [] (p :: ps)); [done|exact H1]|]. intros ok w2 [-> H2]. by apply discard_got.
Qed.

(** ** Witness *)

(** Four bytes for the second page. *)
Definition dfu_packets : list (list Z) := [program_command 256 4 ++ replicate 26 0; [1; 2; 3; 4] ++ replicate 16 0].
Lemma dfu_packets_ok : Forall (fun p => (length p <= 64)%nat /\ Forall is_u8 p) dfu_packets.
Proof. unfold dfu_packets. repeat (apply Forall_cons_2; [split; [cbn; lia|vm_compute; repeat (constructor; [done|]); constructor]|]). apply Forall_nil_2. Qed.

Lemma DFU_downloads_witness :
  let T := at90usb1287 in let w := request_world (initial_DFU false 0) (download_request 52) in
  exists w', DFU_ControlRequest (HW := sender_hw dfu_packets) (BD := no_board _) (EV := no_events _) (T := T)
      (N := machine_nvm (T := T) (fun _ => 7) (fun _ => 9)) (1, 2, 3) 5 w = Ret tt w' /\
    exists f', spm_run 256 (spm (app w')) (at_rest (fun _ => 7)) = Some f' /\ idle f' /\ rww_ready (spm (app w')) = true /\
    forall x, cells f' x = if (256 <=? x) && (x <? 260) then nth (Z.to_nat (x - 256)) [1; 2; 3; 4] 0
                           else if (260 <=? x) && (x <? 512) then 0xFF else 7.
Proof.
  intros T w.
  apply (DFU_downloads (HW := sender_hw dfu_packets) (BD := no_board _) (QT := fun _ _ => eq_refl) (EV := no_events _) (CS := sender_control _ dfu_packets_ok)
    (DT := at90usb1287_dfu) (N := machine_nvm (T := T) (fun _ => 7) (fun _ => 9)) (1, 2, 3) 5 w 256 [1; 2; 3; 4] (replicate 16 0) (replicate 26 0)
    [[1; 2; 3; 4] ++ replicate 16 0] 52 (fun _ => 7) (at_rest (fun _ => 7))); try done; try (cbn; lia).
  - apply Forall_cons_2; [|apply Forall_nil_2]. split_and!; [done|by exists 10%nat|vm_compute; repeat (constructor; [done|]); constructor].
Defined.
