(* ===== verification/DFUUploadSpec.v ===== *)
(** Uploads of the DFU boot loader (BootloaderDFU.v): the host gets what the flash memory
    holds. *)

From stdpp Require Import base tactics option list numbers.
From Stdlib Require Import ZArith Lia Znumtheory.
From S2P Require Import Prelude Memory Hardware Board Endpoint USBController ControlStream DeviceStandardReq.
From S2P Require Import ControlRequest ClassDriver Flash FlashSpec BootloaderDFU BootloaderDFUSpec.

(** The byte counter gives the bytes of the control endpoint's bank. *)
Class CountedBank {HW : Hardware} : Prop :=
  bank_count t : selected t = 0 -> (length (bank t) <= 64)%nat ->
    u8 (hw_read t UEBCHX) = 0 /\ u8 (hw_read t UEBCLX) = Z.of_nat (length (bank t)).

Section Upload.
Context {HW : Hardware} {RH : ReadyHost} {CB : CountedBank} {EV : DeviceEvents DFU_App} {T : Target} {N : NVM} (fuel : nat).
Implicit Types w : World DFU_App.

Lemma Bytes_ctl ps b w0 w : (length b <= 64)%nat -> ctl ps b w0 w ->
  wp true Endpoint_BytesInEndpoint (fun n w' => n = Z.of_nat (length b) /\ ctl ps b w0 w') w.
Proof using CB.
  intros Hl H. destruct (H) as (_ & Hs & Hb & _). unfold Endpoint_BytesInEndpoint. apply wp_bind, wp_rd, wp_bind, wp_rd, wp_ret. cbn [reg_trunc].
  destruct (bank_count (tr w)) as [-> _]; [done|by rewrite Hb|]. cbn [tr upd_tr].
  destruct (bank_count (Rd UEBCHX 0 :: tr w)) as [_ ->]; [done|cbn; by rewrite Hb|]. cbn [bank]. rewrite Hb. split; [done|]. by do 2 apply ctl_rd.
Qed.

Lemma wait_IN_ctl n ps b w0 w : (0 < n)%nat -> ctl ps b w0 w ->
  wp true (StatusStage_wait fuel n Endpoint_IsINReady) (fun r w' => r = true /\ ctl ps b w0 w') w.
Proof using RH. apply StatusStage_IN_wait_ctl. Qed.

Lemma Write_16_ctl b0 b1 ps b w0 w : is_u8 b0 -> is_u8 b1 -> ctl ps b w0 w ->
  wp true (Endpoint_Write_16_LE (of_le16 b0 b1)) (fun _ => ctl ps (b ++ [b0; b1]) w0) w.
Proof using Type.
  intros H0 H1 H. pose proof (le16_of_le16 b0 b1 H0 H1) as E. injection E as E0 E1. set (x := of_le16 b0 b1) in *.
  unfold Endpoint_Write_16_LE. change (wr UEDATX ?v) with (Endpoint_Write_8 (App := DFU_App) v).
  assert (Z.land x 255 = b0) as -> by (change 255 with (Z.ones 8); rewrite Z.land_ones by lia; exact E0).
  assert (Z.shiftr x 8 = b1) as ->.
  { rewrite <- E1. symmetry. apply u8_small. unfold x, is_u8 in *. rewrite of_le16_add, Z.shiftr_div_pow2 by (done || lia). change (2 ^ 8) with 256.
    rewrite Z.mul_comm, Z.div_add_l, Z.div_small by lia. lia. }
  apply wp_bind. ctl_step Write_8_ctl H. intros [] w1 G1. ctl_step Write_8_ctl G1. intros [] w2 G2. by rewrite <- app_assoc in G2.
Qed.

Context (Hf : (0 < fuel)%nat).

(** Room for the next word. *)
Lemma next_IN_ctl ps b w0 w : (length b <= 32)%nat -> ctl ps b w0 w ->
  wp true (next_IN fuel) (fun r w' => r = true /\ exists qs b', ctl (ps ++ qs) b' w0 w' /\ concat qs ++ b' = b /\
    Forall (fun q => length q = 32%nat) qs /\ (length b' < 32)%nat /\ (b' = b \/ b' = [])) w.
Proof using RH CB Hf.
  intros Hl H. unfold next_IN. apply wp_bind. ctl_step Bytes_ctl H. intros n w1 [-> H1]. unfold DFU_CONTROL_ENDPOINT_SIZE.
  destruct (Z.eqb_spec (Z.of_nat (length b)) 32) as [E|E].
  - apply wp_bind. ctl_step ClearIN_ctl H1. intros [] w2 H2. eapply wp_mono; [eapply (wait_IN_ctl fuel); [exact Hf|exact H2]|]. intros r w3 [-> H3].
    split; [done|]. exists [b], []. cbn [concat]. rewrite !app_nil_r. split_and!; [exact H3|done|repeat constructor; lia|cbn; lia|by right].
  - apply wp_ret. split; [done|]. exists [], b. rewrite app_nil_r. split_and!; [exact H1|done|constructor|lia|by left].
Qed.

(** The bytes of [n] words. *)
Definition flash_bytes (log : spm_log) (n : nat) (A : Z) : list Z := map (pgm_read_byte log) (seqZ A (2 * Z.of_nat n)).

Context {DT : DFU_Target T}.

Lemma read_flash_ctl n : forall A ps b w0 w, (length b <= 32)%nat -> Nat.Even (length b) -> 0 <= A -> A + 2 * Z.of_nat n <= FLASHEND + 1 ->
  (forall x, is_u8 (pgm_read_byte (spm (app w0)) x)) -> ctl ps b w0 w ->
  wp true (read_flash fuel n A) (fun r w' => r = true /\ exists qs b', ctl (ps ++ qs) b' w0 w' /\
    concat qs ++ b' = b ++ flash_bytes (spm (app w0)) n A /\ Forall (fun q => length q = 32%nat) qs /\ (length b' <= 32)%nat) w.
Proof using RH CB Hf DT.
  pose proof dt_end as Hde. induction n as [|n IH]; intros A ps b w0 w Hl He HA Hend Hu H; cbn [read_flash].
  { apply wp_ret. split; [done|]. exists [], b. rewrite app_nil_r. split_and!; [done| |constructor|done]. unfold flash_bytes. cbn. by rewrite app_nil_r. }
  apply wp_bind. eapply wp_mono; [eapply next_IN_ctl; [exact Hl|exact H]|]. intros r w1 (-> & qs & b' & H1 & Hc & Hq & Hb' & Hor). cbn [negb].
  apply wp_bind, wp_gets. rewrite (ctl_app _ _ _ _ H1). unfold pgm_read_word. rewrite (near_id A), (near_id (A + 1)) by lia. apply wp_bind.
  eapply wp_mono; [eapply Write_16_ctl; [apply Hu|apply Hu|exact H1]|]. intros [] w2 H2. rewrite u32_small by (unfold is_u32; lia).
  assert (Nat.Even (length b')) as He' by (destruct Hor as [-> | ->]; [done|by exists 0%nat]).
  eapply wp_mono; [refine (IH (A + 2) (ps ++ qs) _ w0 w2 _ _ _ _ Hu H2); [..|lia|lia]; rewrite length_app; destruct He' as [k Hk]; cbn [length]; [lia|exists (k + 1)%nat; lia]|].
  intros r w3 (-> & qs2 & b2 & H3 & Hc2 & Hq2 & Hb2). split; [done|]. exists (qs ++ qs2), b2. rewrite <- app_assoc in H3. split_and!; [exact H3| |by apply Forall_app_2|done].
  rewrite concat_app, <- app_assoc, Hc2, !app_assoc, Hc. rewrite <- app_assoc. f_equal. unfold flash_bytes.
  rewrite (seqZ_cons A), (seqZ_cons (Z.succ A)) by lia. cbn [map].
  replace (Z.pred (Z.pred (2 * Z.of_nat (S n)))) with (2 * Z.of_nat n) by lia. replace (Z.succ (Z.succ A)) with (A + 2) by lia. by replace (Z.succ A) with (A + 1) by lia.
Qed.

(** An upload in the state [a]. *)
Lemma upload_ctl w0 w n : let a := app w0 in let base := flash_start a in
  DFU_State a = dfuUPLOAD_IDLE -> nth 0 (Data (SentCommand a)) 0 = 0 -> BytesRemaining a = 2 * Z.of_nat n -> 0 <= base -> base + 2 * Z.of_nat n <= FLASHEND + 1 ->
  (forall x, is_u8 (pgm_read_byte (spm a) x)) -> ctl [] [] w0 w ->
  wp true (upload fuel) (fun r w' => r = true /\ exists qs b', ctl qs b' (upd_app (fun a => set_DFU_State dfuIDLE (set_StartAddr (EndAddr a) a)) w0) w' /\
    concat qs ++ b' = flash_bytes (spm a) n base /\ Forall (fun q => length q = 32%nat) qs /\ (length b' <= 32)%nat) w.
Proof using RH CB Hf DT.
  intros a base Hst Hd Hb H0 Hend Hu H. unfold upload. apply wp_bind, wp_gets. rewrite (ctl_app _ _ _ _ H). fold a. rewrite bool_decide_eq_true_2 by done.
  unfold IS_ONEBYTE_COMMAND. rewrite Hd, Hb. cbn [negb Z.eqb]. apply wp_bind, wp_bind. rewrite Z.shiftr_div_pow2 by lia. change (2 ^ 1) with 2.
  rewrite (Z.mul_comm 2), Z.div_mul, Nat2Z.id by lia. fold base.
  eapply wp_mono; [eapply (read_flash_ctl n base [] []); [cbn; lia|by exists 0%nat|done|done|exact Hu|exact H]|].
  intros r w1 (-> & qs & b' & H1 & Hc & Hq & Hb'). cbn [when]. apply wp_bind, wp_modify, wp_ret. cbn [when]. apply wp_bind, wp_modify, wp_ret. split; [done|].
  exists qs, b'. split_and!; [|done|done|done]. apply (ctl_upd_app (fun a => set_StartAddr (EndAddr a) a)), (ctl_upd_app (set_DFU_State dfuIDLE)) in H1. exact H1.
Qed.
End Upload.

Definition upload_request (n : Z) : USB_Request_Header_t := mkRequest (Z.lor REQDIR_DEVICETOHOST (Z.lor REQTYPE_CLASS REQREC_INTERFACE)) DFU_REQ_UPLOAD 0 0 n.

(** An upload of the [n] words from the selected address on. *)
Lemma uploads_selected {HW : Hardware} {RH : ReadyHost} {CB : CountedBank} {BD : Board DFU_App} {QT : QuietToggle BD} {EV : DeviceEvents DFU_App}
    {T : Target} {DT : DFU_Target T} {N : NVM} {c e} {NR : NVMReads N c e} sig fuel (w : World DFU_App) n total f :
  let a := app w in let base := flash_start a in
  selected (tr w) = 0 -> bank (tr w) = [] -> acked w -> USB_ControlRequest w = upload_request total -> (0 < fuel)%nat ->
  DFU_State a = dfuUPLOAD_IDLE -> nth 0 (Data (SentCommand a)) 0 = 0 -> BytesRemaining a = 2 * Z.of_nat n -> 0 <= base -> base + 2 * Z.of_nat n <= FLASHEND + 1 ->
  spm_run SPM_PAGESIZE (spm a) (at_rest c) = Some f -> busy f = false -> rww_ready (spm a) = true -> (forall x, is_u8 (cells f x)) ->
  exists w', DFU_ControlRequest sig fuel w = Ret tt w' /\ exists full last,
    packets (tr w') = packets (tr w) ++ map (pair 0) (full ++ [last]) /\ concat (full ++ [last]) = map (cells f) (seqZ base (2 * Z.of_nat n)) /\
    Forall (fun q => length q = 32%nat) full /\ (length last <= 32)%nat /\ DFU_State (app w') = dfuIDLE /\ spm (app w') = spm a.
Proof.
  intros a base Hs Hb Hack Hr Hf Hst Hd Hbr H0 Hend Hrun Hbusy Hrdy Hu.
  assert (forall x, pgm_read_byte (spm a) x = cells f x) as Hrd by (intros x; by apply (flash_reads (c0 := c) (e0 := e))).
  apply (wp_total_run_unit (DFU_ControlRequest sig fuel)). unfold DFU_ControlRequest. apply wp_bind, wp_gets. rewrite Hr. change (negb _) with false. cbv iota.
  apply wp_bind. unfold wp at 1. rewrite toggle_quiet. unfold on_command. apply wp_bind, wp_modify. cbn [bRequest wLength upload_request].
  change (DFU_REQ_UPLOAD =? DFU_REQ_DNLOAD) with false. change (DFU_REQ_UPLOAD =? DFU_REQ_UPLOAD) with true. cbv iota.
  set (w1 := upd_app _ w). pose proof (ctl_start w1 Hs) as H. change (bank (tr w1)) with (bank (tr w)) in H. rewrite Hb in H.
  unfold send_reply. apply wp_bind. ctl_step ClearSETUP_ctl H. intros [] w2 H2. apply wp_bind. unfold wait_IN. ctl_step (wait_IN_ctl fuel) H2. intros r w3 [-> H3].
  cbn [negb]. apply wp_bind. eapply wp_mono; [eapply (upload_ctl fuel Hf w1 w3 n); [exact Hst|exact Hd|exact Hbr|exact H0|exact Hend| |exact H3]|].
  { intros x. change (spm (app w1)) with (spm a). by rewrite Hrd. }
  intros r w4 (-> & qs & b' & H4 & Hc & Hq & Hl). cbn [when]. apply wp_bind. ctl_step ClearIN_ctl H4. intros [] w5 H5.
  eapply wp_mono; [eapply StatusOUT_ctl; [exact Hf| | | |exact H5]|].
  - by destruct qs.
  - exact Hack.
  - change (USB_ControlRequest _) with (USB_ControlRequest w). by rewrite Hr.
  - intros [] w6 H6. exists qs, b'. destruct (H6) as (_ & _ & _ & Hp & _). rewrite (ctl_app _ _ _ _ H6). split_and!; [exact Hp| |done|done|done|done].
    rewrite concat_app. cbn [concat]. rewrite app_nil_r, Hc. apply map_ext. exact Hrd.
Qed.

(** The command that selects the bytes from [start] to [last] of the flash memory. *)
Definition read_command (start last : Z) : list Z := 0x00 :: be16 start ++ be16 last.

Lemma selected_addresses {T : Target} {N : NVM} a start last : Data (SentCommand a) = read_command start last -> is_u16 start -> is_u16 last ->
  let a' := ProcessMemReadCommand a in StartAddr a' = start /\ EndAddr a' = last /\ DFU_State a' = dfuUPLOAD_IDLE /\
    SentCommand a' = SentCommand a /\ Flash64KBPage a' = Flash64KBPage a /\ spm a' = spm a.
Proof.
  intros Hd Hs Hl a'. unfold a', ProcessMemReadCommand, LoadStartEndAddresses, IS_ONEBYTE_COMMAND. rewrite Hd. cbn.
  by rewrite !of_le16_le16 by (unfold is_u16 in *; lia).
Qed.

(** C20: an upload sends what the flash memory holds.  After the command that selects the
    bytes from [start] to [last] in the 64 KB page [page], an even number of them, the
    upload request is answered with the bytes 65536 [page] + [start] to 65536 [page] +
    [last] of the memory, as packets of 32 bytes and a last one, and the loader is idle
    again.  The number of bytes is counted modulo 65536, so that of the whole page (0 to
    0xFFFF) nothing is sent.  The bytes are the cells of the memory, which
    [DFU_downloads] says are the data of a download. *)
Theorem DFU_uploads {HW : Hardware} {RH : ReadyHost} {CB : CountedBank} {BD : Board DFU_App} {QT : QuietToggle BD} {EV : DeviceEvents DFU_App}
    {T : Target} {DT : DFU_Target T} {N : NVM} {c e} {NR : NVMReads N c e} sig fuel (w : World DFU_App) a page start last total f :
  app w = ProcessMemReadCommand a -> Data (SentCommand a) = read_command start last -> Flash64KBPage a = page -> 0 <= page ->
  0 <= start <= last -> last < 65536 -> (last - start) mod 2 = 1 -> 65536 * page + last <= FLASHEND ->
  selected (tr w) = 0 -> bank (tr w) = [] -> acked w -> USB_ControlRequest w = upload_request total -> (0 < fuel)%nat ->
  spm_run SPM_PAGESIZE (spm a) (at_rest c) = Some f -> busy f = false -> rww_ready (spm a) = true -> (forall x, is_u8 (cells f x)) ->
  exists w', DFU_ControlRequest sig fuel w = Ret tt w' /\ exists full rest,
    packets (tr w') = packets (tr w) ++ map (pair 0) (full ++ [rest]) /\
    concat (full ++ [rest]) = map (cells f) (seqZ (65536 * page + start) ((last - start + 1) mod 65536)) /\
    Forall (fun q => length q = 32%nat) full /\ (length rest <= 32)%nat /\ DFU_State (app w') = dfuIDLE /\ spm (app w') = spm a.
Proof.
  intros Ha Hd Hp H0 Hr Hl Hodd Hend Hs Hb Hack Hreq Hf Hrun Hbusy Hrdy Hu.
  destruct (selected_addresses a start last Hd ltac:(unfold is_u16; lia) ltac:(unfold is_u16; lia)) as (E1 & E2 & E3 & E4 & E5 & E6).
  rewrite <- Ha in E1, E2, E3, E4, E5, E6. rewrite <- E6 in Hrun, Hrdy |- *.
  pose proof (Z.div_mod (last - start) 2 ltac:(lia)) as Hdm. set (k := (last - start) / 2) in *.
  set (n := Z.to_nat ((last - start + 1) mod 65536 / 2)).
  assert (2 * Z.of_nat n = (last - start + 1) mod 65536 /\ (last - start + 1) mod 65536 <= last - start + 1) as [En Hn].
  { subst n. destruct (decide (last - start + 1 = 65536)) as [->|]; [done|]. rewrite (Z.mod_small (last - start + 1)) by lia.
    replace (last - start + 1) with ((k + 1) * 2) by lia. rewrite Z.div_mul by lia. lia. }
  assert (flash_start (app w) = 65536 * page + start) as Eb by (unfold flash_start; rewrite E1, E5, Hp; lia).
  destruct (uploads_selected (c := c) (e := e) sig fuel w n total f) as (w' & Hrun' & full & rest & Hx); try done.
  - rewrite E4, Hd. done.
  - rewrite En. unfold BytesRemaining. by rewrite E1, E2.
  - rewrite Eb. lia.
  - rewrite Eb, En. lia.
  - exists w'. split; [done|]. exists full, rest. by rewrite Eb, En in Hx.
Qed.

(** The bytes of a whole 64 KB page are counted as none. *)
Theorem DFU_whole_page_wraps {T : Target} {N : NVM} a : Data (SentCommand a) = read_command 0 0xFFFF ->
  BytesRemaining (ProcessMemReadCommand a) = 0.
Proof.
  intros Hd. destruct (selected_addresses a 0 0xFFFF Hd) as (E1 & E2 & _); [done..|]. unfold BytesRemaining. by rewrite E1, E2.
Qed.

(** ** Witness *)

(** A host that takes packets and acknowledges them. *)
Definition upload_hw : Hardware :=
  {| hw_read := fun t r => match r with
       | UEINTX => Z.lor (bit TXINI) (bit RXOUTI)
       | UEBCLX => Z.of_nat (length (bank t))
       | _ => 0 end;
     hw_irq := fun _ => false; hw_signature := fun _ => 0 |}.
Lemma upload_ready : ReadyHost (HW := upload_hw).
Proof. by split. Qed.
Lemma upload_counted : CountedBank (HW := upload_hw).
Proof. intros t _ Hl. split; [done|]. apply u8_small. unfold is_u8. lia. Qed.

(** The first four bytes are selected. *)
Definition command_DFU : DFU_App := set_SentCommand (mkCommand COMMAND_DISP_DATA (read_command 0 3) 0) (initial_DFU false 0).
Definition selected_DFU : DFU_App :=
  ProcessMemReadCommand (T := at90usb1287) (N := machine_nvm (T := at90usb1287) (fun _ => 7) (fun _ => 9)) command_DFU.

Lemma DFU_uploads_witness :
  let T := at90usb1287 in let w := mkWorld [] true DEVICE_STATE_Configured (upload_request 4) 1 false false true selected_DFU in
  exists w', DFU_ControlRequest (HW := upload_hw) (BD := no_board _) (EV := no_events _) (T := T)
      (N := machine_nvm (T := T) (fun _ => 7) (fun _ => 9)) (1, 2, 3) 5 w = Ret tt w' /\ exists full rest,
    packets (tr w') = packets (tr w) ++ map (pair 0) (full ++ [rest]) /\ concat (full ++ [rest]) = [7; 7; 7; 7] /\
    Forall (fun q => length q = 32%nat) full /\ (length rest <= 32)%nat /\ DFU_State (app w') = dfuIDLE /\ spm (app w') = [].
Proof.
  intros T w.
  apply (DFU_uploads (HW := upload_hw) (RH := upload_ready) (CB := upload_counted) (BD := no_board _) (QT := fun _ _ => eq_refl) (EV := no_events _)
    (DT := at90usb1287_dfu) (NR := machine_reads (T := T) (fun _ => 7) (fun _ => 9)) (1, 2, 3) 5 w command_DFU 0 0 3 4 (at_rest (fun _ => 7)));
    try done; cbn; lia.
Defined.
