(* ===== verification/Joystick.v ===== *)
(** The application: firmware/Joystick.[ch].

    The global [virtual_controller] is the application state of the device stack;
    the serial commands update it and both report paths send a copy of it. *)

From stdpp Require Import base tactics option list numbers.
From Stdlib Require Import ZArith Lia.
From S2P Require Import Prelude Hardware StdDescriptors Endpoint USBController ControlStream.
From S2P Require Import DeviceStandardReq EndpointStream Serial Descriptors.

(** [JoystickButtons_t] *)
Definition SWITCH_Y : Z := 0x01.
Definition SWITCH_B : Z := 0x02.
Definition SWITCH_A : Z := 0x04.
Definition SWITCH_X : Z := 0x08.
Definition SWITCH_L : Z := 0x10.
Definition SWITCH_R : Z := 0x20.
Definition SWITCH_ZL : Z := 0x40.
Definition SWITCH_ZR : Z := 0x80.
Definition SWITCH_SELECT : Z := 0x100.
Definition SWITCH_START : Z := 0x200.
Definition SWITCH_LCLICK : Z := 0x400.
Definition SWITCH_RCLICK : Z := 0x800.
Definition SWITCH_HOME : Z := 0x1000.
Definition SWITCH_CAPTURE : Z := 0x2000.
Definition SWITCH_RELEASE : Z := 0x00.
Definition HAT_TOP : Z := 0x00.
Definition HAT_RIGHT : Z := 0x02.
Definition HAT_BOTTOM : Z := 0x04.
Definition HAT_LEFT : Z := 0x06.
Definition HAT_CENTER : Z := 0x08.
Definition STICK_MIN : Z := 0.
Definition STICK_CENTER : Z := 128.
Definition STICK_MAX : Z := 255.

Definition HID_REQ_GetReport : Z := 0x01.
Definition HID_REQ_SetReport : Z := 0x09.

(** [USB_JoystickReport_Input_t], [Virtual_Controller] *)
Record Virtual_Controller : Set := mkVC {
  Button : Z;
  HAT : Z;
  LX : Z;
  LY : Z;
  RX : Z;
  RY : Z;
  VendorSpec : Z
}.

#[export] Instance Virtual_Controller_eq_dec : EqDecision Virtual_Controller.
Proof. solve_decision. Defined.

(** The memory image of the structure, which is what [memcpy] and the stream
    functions move. *)
Definition enc_report (v : Virtual_Controller) : list Z :=
  le16 (Button v) ++ [u8 (HAT v); u8 (LX v); u8 (LY v); u8 (RX v); u8 (RY v); u8 (VendorSpec v)].
Definition sizeof_Input : Z := 8.
Definition sizeof_Output : Z := 7.

(** Assignments through [vp]. *)
Definition Button_or (m : Z) (v : Virtual_Controller) : Virtual_Controller :=
  mkVC (u16 (Z.lor (Button v) m)) (HAT v) (LX v) (LY v) (RX v) (RY v) (VendorSpec v).
Definition Button_and_not (m : Z) (v : Virtual_Controller) : Virtual_Controller :=
  mkVC (u16 (Z.land (Button v) (Z.lnot m))) (HAT v) (LX v) (LY v) (RX v) (RY v) (VendorSpec v).
Definition set_HAT (x : Z) (v : Virtual_Controller) : Virtual_Controller :=
  mkVC (Button v) (u8 x) (LX v) (LY v) (RX v) (RY v) (VendorSpec v).
Definition set_LX (x : Z) (v : Virtual_Controller) : Virtual_Controller :=
  mkVC (Button v) (HAT v) (u8 x) (LY v) (RX v) (RY v) (VendorSpec v).
Definition set_LY (x : Z) (v : Virtual_Controller) : Virtual_Controller :=
  mkVC (Button v) (HAT v) (LX v) (u8 x) (RX v) (RY v) (VendorSpec v).
Definition set_RX (x : Z) (v : Virtual_Controller) : Virtual_Controller :=
  mkVC (Button v) (HAT v) (LX v) (LY v) (u8 x) (RY v) (VendorSpec v).
Definition set_RY (x : Z) (v : Virtual_Controller) : Virtual_Controller :=
  mkVC (Button v) (HAT v) (LX v) (LY v) (RX v) (u8 x) (VendorSpec v).
Definition set_Button (x : Z) (v : Virtual_Controller) : Virtual_Controller :=
  mkVC (u16 x) (HAT v) (LX v) (LY v) (RX v) (RY v) (VendorSpec v).

Definition initVirtualController (v : Virtual_Controller) : Virtual_Controller :=
  let v := mkVC 0 0 0 0 0 0 0 in
  let v := set_LX STICK_CENTER v in
  let v := set_LY STICK_CENTER v in
  let v := set_RX STICK_CENTER v in
  let v := set_RY STICK_CENTER v in
  let v := set_HAT HAT_CENTER v in
  set_Button SWITCH_RELEASE v.

(** The assignments of the switch in [executeCommand]; the identity for the
    cases that only answer on the serial line. *)
Definition command (c : Z) : Virtual_Controller -> Virtual_Controller :=
  match c with
  | 1 => Button_or SWITCH_A
  | 2 => Button_and_not (bit 2)
  | 3 => Button_or SWITCH_B
  | 4 => Button_and_not (bit 1)
  | 5 => Button_or SWITCH_X
  | 6 => Button_and_not (bit 3)
  | 7 => Button_or SWITCH_Y
  | 8 => Button_and_not (bit 0)
  | 9 => Button_or SWITCH_L
  | 10 => Button_and_not (bit 4)
  | 11 => Button_or SWITCH_R
  | 12 => Button_and_not (bit 5)
  | 13 => Button_or SWITCH_ZL
  | 14 => Button_and_not (bit 6)
  | 15 => Button_or SWITCH_ZR
  | 16 => Button_and_not (bit 7)
  | 17 => Button_or SWITCH_LCLICK
  | 18 => Button_and_not (bit 10)
  | 19 => Button_or SWITCH_RCLICK
  | 20 => Button_and_not (bit 11)
  | 21 => set_HAT HAT_TOP
  | 22 => set_HAT HAT_CENTER
  | 23 => set_HAT HAT_BOTTOM
  | 24 => set_HAT HAT_CENTER
  | 25 => set_HAT HAT_LEFT
  | 26 => set_HAT HAT_CENTER
  | 27 => set_HAT HAT_RIGHT
  | 28 => set_HAT HAT_CENTER
  | 29 => Button_or SWITCH_START
  | 30 => Button_and_not (bit 9)
  | 31 => Button_or SWITCH_SELECT
  | 32 => Button_and_not (bit 8)
  | 33 => Button_or SWITCH_HOME
  | 34 => Button_and_not (bit 12)
  | 35 => Button_or SWITCH_CAPTURE
  | 36 => Button_and_not (bit 13)
  | 37 => set_LX STICK_MIN
  | 38 => set_LX STICK_MAX
  | 39 => set_LX STICK_CENTER
  | 40 => set_LY STICK_MIN
  | 41 => set_LY STICK_MAX
  | 42 => set_LY STICK_CENTER
  | 43 => set_RX STICK_MIN
  | 44 => set_RX STICK_MAX
  | 45 => set_RX STICK_CENTER
  | 46 => set_LY STICK_MIN
  | 47 => set_LY STICK_MAX
  | 48 => set_LY STICK_CENTER
  | 49 => initVirtualController
  | _ => id
  end.

(** "I'm Ready!" and "?", with their terminators *)
Definition ready_string : list Z := [73; 39; 109; 32; 82; 101; 97; 100; 121; 33; 0].
Definition unknown_string : list Z := [63; 0].

(** The interrupt events the application leaves to [USB_Event_Stub] or defines
    with an empty body. *)
#[export] Instance JoystickEvents : DeviceEvents Virtual_Controller := {|
  EVENT_USB_Device_StartOfFrame := mret tt;
  EVENT_USB_Device_Connect := mret tt;
  EVENT_USB_Device_Disconnect := mret tt;
  EVENT_USB_Device_Suspend := mret tt;
  EVENT_USB_Device_WakeUp := mret tt;
  EVENT_USB_Device_Reset := mret tt
|}.

(** The watchdog and clock routines of avr-libc. *)
Class AvrLibc : Type := {
  wdt_disable : prog (World Virtual_Controller) unit;
  clock_prescale_set : Z -> prog (World Virtual_Controller) unit
}.

Section Joystick.
Context {HW : Hardware}.
Abbreviation P := (prog (World Virtual_Controller)).

Definition executeCommand (fuel : nat) (c : Z) : P bool :=
  if c <? 0 then mret false
  else
    (if c =? 0 then Serial_SendString fuel ready_string
     else if c <=? 49 then modify (upd_app (command c))
     else Serial_SendString fuel unknown_string);;
    mret true.

(** [do{}while(executeCommand(Serial_ReceiveByte()));] *)
Fixpoint receive_loop (n fuel : nat) : P unit :=
  match n with
  | O => nofuel
  | S n =>
      b ← Serial_ReceiveByte;
      r ← executeCommand fuel b;
      if r : bool then receive_loop n fuel else mret tt
  end.

Definition receiveCommand (fuel : nat) : P unit :=
  r ← Serial_IsCharReceived;
  when r (receive_loop fuel fuel).

Definition Joystick_ConfigurationChanged (fuel : nat) : P unit :=
  Endpoint_ConfigureEndpoint fuel JOYSTICK_OUT_EPADDR EP_TYPE_INTERRUPT JOYSTICK_EPSIZE 1;;
  Endpoint_ConfigureEndpoint fuel JOYSTICK_IN_EPADDR EP_TYPE_INTERRUPT JOYSTICK_EPSIZE 1;;
  mret tt.

(** The output report buffer is an uninitialised local whose contents are never
    used; it is modelled zeroed. *)
Definition JoystickOutputData : list Z := replicate 7 0.

Definition Joystick_ControlRequest (fuel : nat) : P unit :=
  req ← gets USB_ControlRequest;
  if bRequest req =? HID_REQ_GetReport then
    when (bmRequestType req =? Z.lor (Z.lor REQDIR_DEVICETOHOST REQTYPE_CLASS) REQREC_INTERFACE)
      (joystickReport_Input ← gets app;
       Endpoint_ClearSETUP;;
       Endpoint_Write_Control_Stream_LE fuel (enc_report joystickReport_Input) sizeof_Input;;
       Endpoint_ClearOUT)
  else if bRequest req =? HID_REQ_SetReport then
    when (bmRequestType req =? Z.lor (Z.lor REQDIR_HOSTTODEVICE REQTYPE_CLASS) REQREC_INTERFACE)
      (Endpoint_ClearSETUP;;
       Endpoint_Read_Control_Stream_LE fuel JoystickOutputData sizeof_Output;;
       Endpoint_ClearIN)
  else mret tt.

#[export] Instance JoystickRequests : DeviceRequests Virtual_Controller := {|
  CALLBACK_USB_GetDescriptor := Joystick_GetDescriptor;
  EVENT_USB_Device_ControlRequest := Joystick_ControlRequest;
  EVENT_USB_Device_ConfigurationChanged := Joystick_ConfigurationChanged
|}.

(** The two halves of [HID_Task] after the state check. *)
Definition HID_Task_OUT (fuel : nat) : P unit :=
  Endpoint_SelectEndpoint JOYSTICK_OUT_EPADDR;;
  o ← Endpoint_IsOUTReceived;
  when o
    (a ← Endpoint_IsReadWriteAllowed;
     when a (Endpoint_Read_Stream_LE fuel JoystickOutputData sizeof_Output None;; mret tt);;
     Endpoint_ClearOUT).

Definition HID_Task_IN (fuel : nat) : P unit :=
  Endpoint_SelectEndpoint JOYSTICK_IN_EPADDR;;
  i ← Endpoint_IsINReady;
  when i
    (joystickReport_Input ← gets app;
     Endpoint_Write_Stream_LE fuel (enc_report joystickReport_Input) sizeof_Input None;;
     Endpoint_ClearIN).

Definition HID_Task (fuel : nat) : P unit :=
  s ← poll_DeviceState fuel;
  if negb (s =? DEVICE_STATE_Configured) then mret tt
  else HID_Task_OUT fuel;; HID_Task_IN fuel.

Definition clock_div_1 : Z := 0.

Definition init {LIBC : AvrLibc} (fuel : nat) : P unit :=
  clr_bits MCUSR (bit WDRF);;
  wdt_disable;;
  clock_prescale_set clock_div_1;;
  USB_Init fuel;;
  modify (upd_app initVirtualController).

(** One round of the endless loop of [main]. *)
Definition main_round (fuel : nat) : P unit :=
  receiveCommand fuel;;
  HID_Task fuel;;
  USB_USBTask fuel.

Fixpoint main_loop (rounds fuel : nat) : P unit :=
  match rounds with
  | O => mret tt
  | S rounds => main_round fuel;; main_loop rounds fuel
  end.

(** [main], observed after [rounds] rounds of its loop. *)
Definition main {LIBC : AvrLibc} (rounds fuel : nat) : P unit :=
  Serial_Init 9600 false;;
  init fuel;;
  GlobalInterruptEnable;;
  main_loop rounds fuel.
End Joystick.

(** ** Frames and safety of the application *)

Section Interfaces.
Context {HW : Hardware}.

#[export] Instance JoystickEvents_keep R `{!PreOrder R} : EventsKeep JoystickEvents R.
Proof. split; cbn; keeps_tac. Qed.

#[export] Instance JoystickRequests_keep R `{!StackRel R} : RequestsKeep JoystickRequests R.
Proof. pose proof (JoystickEvents_keep R). split; cbn; keeps_tac. Qed.

#[export] Instance JoystickEvents_safe : EventsSafe JoystickEvents stack_inv.
Proof. split; cbn; safe_tac. Qed.

Lemma enc_report_length v : length (enc_report v) = 8%nat.
Proof. done. Qed.

Lemma Joystick_GetDescriptor_safe wv wi :
  let '(size, d) := Joystick_GetDescriptor wv wi in
  size = NO_DESCRIPTOR \/
  exists bytes, d = Some bytes /\ is_u16 size /\ size <= Z.of_nat (length bytes).
Proof.
  unfold Joystick_GetDescriptor.
  repeat match goal with |- context [if ?b then _ else _] => destruct b end;
    try (by left); right; eexists; split; try done; unfold is_u16; vm_compute; intuition discriminate.
Qed.

#[export] Instance JoystickRequests_safe : RequestsSafe JoystickRequests stack_inv.
Proof.
  pose proof JoystickEvents_safe.
  split; [exact Joystick_GetDescriptor_safe|..]; cbn; intros fuel; [|safe_tac].
  unfold Joystick_ControlRequest. apply safe_bind; [safe_tac|]. intros req.
  destruct (_ =? _); [|destruct (_ =? _); [|safe_tac]]; apply safe_when.
  - apply safe_bind; [safe_tac|]. intros v. apply safe_bind; [safe_tac|]. intros _.
    apply safe_bind; [|safe_tac]. apply safe_Control_W; [|rewrite enc_report_length]; done.
  - apply safe_bind; [safe_tac|]. intros _.
    apply safe_bind; [|safe_tac]. by apply safe_Control_R.
Qed.
End Interfaces.
