(* ===== verification/JoystickSpec.v ===== *)
(** Correctness of the controller application (Joystick.v).

    The commands, taken alone, keep the controller well formed; the serial
    receiver applies them to the bytes it reads, in order and without loss; the
    rest of the main loop leaves the controller alone. *)

From stdpp Require Import base tactics option list numbers.
From Stdlib Require Import ZArith Lia.
From S2P Require Import Prelude Hardware StdDescriptors Endpoint USBController ControlStream.
From S2P Require Import DeviceStandardReq EndpointStream Serial Descriptors ControlTransfer.
From S2P Require Import Joystick.

(** ** The controller *)

(** What a report may hold: 14 buttons, a hat in one of four directions or
    centred, axes at an end or centred. *)
Definition axis_ok (a : Z) : Prop := a = STICK_MIN \/ a = STICK_CENTER \/ a = STICK_MAX.
Definition hat_ok (h : Z) : Prop :=
  h = HAT_TOP \/ h = HAT_RIGHT \/ h = HAT_BOTTOM \/ h = HAT_LEFT \/ h = HAT_CENTER.
Definition controller_ok (v : Virtual_Controller) : Prop :=
  0 <= Button v < 2 ^ 14 /\ hat_ok (HAT v) /\
  axis_ok (LX v) /\ axis_ok (LY v) /\ axis_ok (RX v) /\ axis_ok (RY v) /\ VendorSpec v = 0.

(** The state after a sequence of commands, and what the firmware answers to
    one of them. *)
Definition commands (cs : list Z) (v : Virtual_Controller) : Virtual_Controller :=
  foldl (fun v c => command c v) v cs.
Definition reply (c : Z) : list Z :=
  if c =? 0 then [73; 39; 109; 32; 82; 101; 97; 100; 121; 33]
  else if c <=? 49 then [] else [63].

(** The commands act on one field each; case analysis for proofs about all. *)
Inductive action : (Virtual_Controller -> Virtual_Controller) -> Prop :=
  | act_press i : 0 <= i < 14 -> action (Button_or (bit i))
  | act_release i : 0 <= i < 14 -> action (Button_and_not (bit i))
  | act_hat h : hat_ok h -> action (set_HAT h)
  | act_lx a : axis_ok a -> action (set_LX a)
  | act_ly a : axis_ok a -> action (set_LY a)
  | act_rx a : axis_ok a -> action (set_RX a)
  | act_reset : action initVirtualController
  | act_none : action id.

Lemma command_action c : action (command c).
Proof.
  unfold command.
  repeat match goal with |- action (match ?x with _ => _ end) => destruct x end;
    first [ apply act_none | apply act_reset
          | apply act_hat; unfold hat_ok; tauto
          | apply act_lx; unfold axis_ok; tauto | apply act_ly; unfold axis_ok; tauto
          | apply act_rx; unfold axis_ok; tauto
          | apply act_release; lia | idtac ].
  all: match goal with |- action (Button_or ?m) =>
    first [apply (act_press 0)|apply (act_press 1)|apply (act_press 2)|apply (act_press 3)
          |apply (act_press 4)|apply (act_press 5)|apply (act_press 6)|apply (act_press 7)
          |apply (act_press 8)|apply (act_press 9)|apply (act_press 10)|apply (act_press 11)
          |apply (act_press 12)|apply (act_press 13)]; lia end.
Qed.

Lemma command_other c : 49 < c -> command c = id.
Proof.
  intros Hc. unfold command. destruct c as [|p|p]; [lia| |lia].
  repeat (destruct p as [p|p|]; try reflexivity; try lia).
Qed.

Lemma bit_range i n : 0 <= i < n -> 0 <= bit i < 2 ^ n.
Proof.
  intros Hi. unfold bit. rewrite Z.shiftl_mul_pow2, Z.mul_1_l by lia.
  split; [apply Z.pow_nonneg; lia|apply Z.pow_lt_mono_r; lia].
Qed.

Lemma axis_u8 a : axis_ok a -> axis_ok (u8 a).
Proof. intros [-> | [-> | ->]]; unfold axis_ok, u8; vm_compute; tauto. Qed.
Lemma hat_u8 h : hat_ok h -> hat_ok (u8 h).
Proof. intros [-> | [-> | [-> | [-> | ->]]]]; unfold hat_ok, u8; vm_compute; tauto. Qed.

Lemma press_range b i : 0 <= b < 2 ^ 14 -> 0 <= i < 14 -> 0 <= u16 (Z.lor b (bit i)) < 2 ^ 14.
Proof.
  intros Hb Hi. assert (0 <= Z.lor b (bit i) < 2 ^ 14).
  { apply lor_range; [lia|done|by apply bit_range]. }
  rewrite u16_small; [done|]. unfold is_u16. lia.
Qed.

Lemma release_range b i : 0 <= b < 2 ^ 14 -> 0 <= u16 (Z.land b (Z.lnot (bit i))) < 2 ^ 14.
Proof.
  intros Hb. assert (0 <= Z.land b (Z.lnot (bit i)) < 2 ^ 14) by (by apply land_range).
  rewrite u16_small; [done|]. unfold is_u16. lia.
Qed.

Lemma init_ok v : controller_ok (initVirtualController v).
Proof. unfold controller_ok, hat_ok, axis_ok. vm_compute. intuition congruence. Qed.

Lemma action_ok f v : action f -> controller_ok v -> controller_ok (f v).
Proof.
  intros Hf (Hb & Hh & Hlx & Hly & Hrx & Hry & Hv).
  destruct Hf; try apply init_ok; unfold controller_ok; cbn;
    auto 10 using axis_u8, hat_u8, press_range, release_range.
Qed.

Lemma commands_app cs cs' v : commands (cs ++ cs') v = commands cs' (commands cs v).
Proof. apply foldl_app. Qed.

(** ** The serial line

    [served w w']: between the two worlds the code read the bytes [cs] from the
    USART, applied them to the controller in order and answered each.  Outside
    the receiver the device stack serves nothing, so it respects [served]. *)

Definition served (w w' : World Virtual_Controller) : Prop :=
  exists cs, Forall is_u8 cs /\
    reads_of UDR1 (tr w') = reads_of UDR1 (tr w) ++ cs /\
    app w' = commands cs (app w) /\
    writes_to UDR1 (tr w') = writes_to UDR1 (tr w) ++ concat (map reply cs).

#[export] Instance served_preorder : PreOrder served.
Proof.
  split.
  - intros w. exists []. cbn. by rewrite !app_nil_r.
  - intros w1 w2 w3 (cs & Hu & Hr & Ha & Hw) (cs' & Hu' & Hr' & Ha' & Hw').
    exists (cs ++ cs'). rewrite map_app, concat_app, commands_app, Hr', Hr, Ha', Ha, Hw', Hw.
    rewrite !app_assoc. auto using Forall_app_2.
Qed.

Lemma served_same w w' :
  app w' = app w -> reads_of UDR1 (tr w') = reads_of UDR1 (tr w) ->
  writes_to UDR1 (tr w') = writes_to UDR1 (tr w) -> served w w'.
Proof. intros Ha Hr Hw. exists []. cbn. by rewrite Ha, Hr, Hw, !app_nil_r. Qed.

#[export] Instance served_stack : StackRel served.
Proof.
  split; [apply _|..]; intros; apply served_same; try done; cbn; by rewrite ?decide_False.
Qed.

Section Serial.
Context {HW : Hardware}.
Abbreviation P := (prog (World Virtual_Controller)).

(** Sending leaves the controller and the bytes read so far alone. *)
Definition sent (bs : list Z) (w w' : World Virtual_Controller) : Prop :=
  app w' = app w /\ reads_of UDR1 (tr w') = reads_of UDR1 (tr w) /\
  writes_to UDR1 (tr w') = writes_to UDR1 (tr w) ++ bs.

Lemma sent_nil w : sent [] w w.
Proof. unfold sent. by rewrite app_nil_r. Qed.

Lemma sent_trans bs bs' w1 w2 w3 : sent bs w1 w2 -> sent bs' w2 w3 -> sent (bs ++ bs') w1 w3.
Proof. intros (? & ? & ?) (? & ? & ?). unfold sent. rewrite app_assoc. intuition congruence. Qed.

Lemma SendByte_sent fuel b w : is_u8 b ->
  wp false (Serial_SendByte fuel b) (fun _ w' => sent [b] w w') w.
Proof.
  intros Hb. unfold Serial_SendByte. apply wp_bind.
  apply (wp_while _ _ _ (fun w' => sent [] w w')); [apply sent_nil|].
  intros w' (Ha & Hr & Hw'). unfold Serial_IsSendReady, test_bits. hw_steps.
  destruct (negb _); [apply wp_ret|apply wp_wr]; unfold sent; regs_simpl.
  - done.
  - by rewrite Hw', app_nil_r, u8_small.
Qed.

Lemma SendString_sent fuel s w : Forall is_u8 s -> Forall (fun b => b <> 0) s ->
  wp false (Serial_SendString fuel (s ++ [0])) (fun _ w' => sent s w w') w.
Proof.
  intros Hs Hz. revert w; induction s as [|b s IH]; intros w; cbn; [by apply sent_nil|].
  inversion Hs; inversion Hz; subst. destruct (b =? 0) eqn:?; bool_hyps; [done|].
  apply wp_bind. eapply wp_mono; [by apply SendByte_sent|]. intros [] w1 Hw1.
  eapply wp_mono; [by apply IH|]. intros [] w2 Hw2. by apply (sent_trans [b] s w w1 w2).
Qed.

Lemma executeCommand_sent fuel c w : 0 <= c ->
  wp false (executeCommand fuel c) (fun r w' => r = true /\ app w' = command c (app w) /\
    reads_of UDR1 (tr w') = reads_of UDR1 (tr w) /\
    writes_to UDR1 (tr w') = writes_to UDR1 (tr w) ++ reply c) w.
Proof.
  intros Hc. unfold executeCommand, reply. destruct (c <? 0) eqn:?; bool_hyps; [lia|].
  destruct (c =? 0) eqn:?; [|destruct (c <=? 49) eqn:?]; bool_hyps; subst; apply wp_bind.
  - eapply wp_mono; [apply (SendString_sent fuel [73; 39; 109; 32; 82; 101; 97; 100; 121; 33]);
      repeat constructor; done|].
    intros [] w' (? & ? & ?). by apply wp_ret.
  - apply wp_modify, wp_ret. cbn. by rewrite app_nil_r.
  - eapply wp_mono; [apply (SendString_sent fuel [63]); repeat constructor; done|].
    intros [] w' (Ha & ? & ?). apply wp_ret. by rewrite command_other, Ha by lia.
Qed.

Lemma served_one c w w' w'' : is_u8 c -> app w' = app w ->
  reads_of UDR1 (tr w') = reads_of UDR1 (tr w) ++ [c] ->
  writes_to UDR1 (tr w') = writes_to UDR1 (tr w) ->
  app w'' = command c (app w') /\ reads_of UDR1 (tr w'') = reads_of UDR1 (tr w') /\
  writes_to UDR1 (tr w'') = writes_to UDR1 (tr w') ++ reply c -> served w w''.
Proof.
  intros Hc Ha Hr Hw (Ha' & Hr' & Hw'). exists [c]. cbn. rewrite app_nil_r.
  repeat split; [by constructor|congruence..].
Qed.

Lemma receive_loop_served n fuel : keeps served (receive_loop n fuel).
Proof.
  induction n as [|n IH]; [done|]. apply keeps_bind_pair; [apply _| |].
  - intros w. unfold Serial_ReceiveByte, Serial_IsCharReceived, test_bits. hw_steps.
    + unfold wp. cbn. by apply sr_rd.
    + eapply wp_mono; [apply executeCommand_sent; apply u8_range|]. intros r w' [_ H].
      eapply served_one; [apply u8_range|..|exact H]; by regs_simpl.
  - keeps_tac.
Qed.

Lemma receiveCommand_served fuel : keeps served (receiveCommand fuel).
Proof. pose proof (receive_loop_served fuel fuel). keeps_tac. Qed.

Lemma HID_Task_keeps R `{!StackRel R} fuel : keeps R (HID_Task fuel).
Proof.
  pose proof (JoystickEvents_keep R). pose proof (JoystickRequests_keep R). keeps_tac.
Qed.

Lemma USBTask_keeps R `{!StackRel R} fuel : keeps R (USB_USBTask (App := Virtual_Controller) fuel).
Proof.
  pose proof (JoystickEvents_keep R). pose proof (JoystickRequests_keep R). by apply keeps_USBTask.
Qed.

Lemma main_loop_keeps R `{!StackRel R} :
  (forall fuel, keeps R (receiveCommand fuel)) ->
  forall rounds fuel, keeps R (main_loop rounds fuel).
Proof.
  intros Hr rounds fuel. pose proof (HID_Task_keeps R fuel). pose proof (USBTask_keeps R fuel).
  induction rounds as [|n IH]; cbn; keeps_tac.
Qed.
End Serial.

(** ** [main] *)

(** The watchdog and clock routines access neither the USART data register nor
    the firmware's variables. *)
Class LibcFrame (LIBC : AvrLibc) : Prop := {
  lf_wdt R : StackRel R -> keeps R wdt_disable;
  lf_clock R d : StackRel R -> keeps R (clock_prescale_set d);
  lf_wdt_safe : safe stack_inv wdt_disable;
  lf_clock_safe d : safe stack_inv (clock_prescale_set d)
}.
#[export] Hint Extern 1 (keeps _ wdt_disable) => apply lf_wdt; apply _ : keeps.
#[export] Hint Extern 1 (keeps _ (clock_prescale_set _)) => apply lf_clock; apply _ : keeps.
#[export] Hint Resolve lf_wdt_safe lf_clock_safe : safe.

Section Main.
Context {HW : Hardware} {LIBC : AvrLibc} {LF : LibcFrame LIBC}.

(** The start of [main] up to the assignment of the controller. *)
Definition startup (fuel : nat) : prog (World Virtual_Controller) unit :=
  Serial_Init 9600 false;;
  clr_bits MCUSR (bit WDRF);; wdt_disable;; clock_prescale_set clock_div_1;; USB_Init fuel.

Lemma startup_keeps R `{!StackRel R} fuel : keeps R (startup fuel).
Proof. keeps_tac. Qed.

Lemma main_startup rounds fuel w :
  main rounds fuel w =
  (startup fuel;; modify (upd_app initVirtualController);; GlobalInterruptEnable;;
   main_loop rounds fuel) w.
Proof.
  unfold main, init, startup, mbind, prog_bind.
  repeat match goal with |- context [match ?m ?w with Ret _ _ => _ | _ => _ end] =>
    destruct (m w); try done end.
Qed.

(** Whatever happened before the controller was initialised, the serial line was
    not served. *)
Definition quiet (w w' : World Virtual_Controller) : Prop :=
  app w' = app w /\ reads_of UDR1 (tr w') = reads_of UDR1 (tr w) /\
  writes_to UDR1 (tr w') = writes_to UDR1 (tr w).

#[local] Instance quiet_stack : StackRel quiet.
Proof.
  split; [split; [by intros w|intros w1 w2 w3; unfold quiet; intuition congruence]|..];
    intros; unfold quiet; cbn; by rewrite ?decide_False.
Qed.

Lemma main_run rounds fuel w w' : main rounds fuel w = Ret tt w' ->
  served (upd_app initVirtualController w) w'.
Proof.
  rewrite main_startup. pose proof (startup_keeps quiet fuel w) as Hq. unfold mbind, prog_bind.
  destruct (startup fuel w) as [[] w1| |]; [|done|done]. cbn. intros Hrun.
  pose proof (keeps_run _ _ _ _ _
    (main_loop_keeps served receiveCommand_served rounds fuel) Hrun) as Hs.
  destruct Hs as (cs & Hu & Hr & Ha & Hw). destruct Hq as (Ha1 & Hr1 & Hw1).
  exists cs. cbn in *. rewrite Hr, Ha, Hw, Ha1, Hr1, Hw1. done.
Qed.

Lemma executeCommand_safe fuel c : safe stack_inv (executeCommand fuel c).
Proof.
  assert (safe stack_inv (Serial_SendString (App := Virtual_Controller) fuel ready_string))
    by (apply safe_SendString; cbn; tauto).
  assert (safe stack_inv (Serial_SendString (App := Virtual_Controller) fuel unknown_string))
    by (apply safe_SendString; cbn; tauto).
  safe_tac.
Qed.

Lemma receive_loop_safe n fuel : safe stack_inv (receive_loop n fuel).
Proof.
  pose proof (executeCommand_safe fuel). induction n as [|n IH]; [apply safe_nofuel|].
  cbn. safe_tac.
Qed.

Lemma HID_Task_safe fuel : safe stack_inv (HID_Task fuel).
Proof.
  pose proof JoystickEvents_safe. pose proof JoystickRequests_safe.
  assert (safe stack_inv (Endpoint_Read_Stream_LE (App := Virtual_Controller) fuel
    JoystickOutputData sizeof_Output None))
    by (apply safe_Stream_RW; [safe_tac|apply safe_transfer_read|done|done]).
  assert (forall v, safe stack_inv (Endpoint_Write_Stream_LE (App := Virtual_Controller) fuel
    (enc_report v) sizeof_Input None))
    by (intros v; apply safe_Stream_RW;
        [safe_tac|apply safe_transfer_write|done|by rewrite enc_report_length]).
  safe_tac.
Qed.

Lemma main_safe rounds fuel : safe stack_inv (main rounds fuel).
Proof.
  pose proof (receive_loop_safe fuel fuel). pose proof (HID_Task_safe fuel).
  pose proof JoystickEvents_safe. pose proof JoystickRequests_safe.
  unfold main. apply safe_bind; [safe_tac|intros _]. apply safe_bind; [safe_tac|intros _].
  apply safe_bind; [safe_tac|intros _].
  assert (safe stack_inv (USB_USBTask (App := Virtual_Controller) fuel)) by by apply safe_USBTask.
  induction rounds as [|n IH]; cbn; [safe_tac|]. apply safe_bind; [|done].
  unfold main_round. safe_tac.
Qed.
End Main.

(** ** The receiver drains the line

    The USART as its data sheet describes it: RXC1 is set while there are unread
    bytes, reading UDR1 returns and removes the oldest, UDRE1 is set again within
    [K] polls of a write to UDR1. *)

Class Uart {HW : Hardware} (K : nat) : Type := {
  rx : trace -> list Z;
  tx_wait : trace -> nat;
  ua_rxc t : tst (u8 (hw_read t UCSR1A)) (bit RXC1) = negb (bool_decide (rx t = []));
  ua_udre t : tst (u8 (hw_read t UCSR1A)) (bit UDRE1) = bool_decide (tx_wait t = 0%nat);
  ua_data t b q : rx t = b :: q -> u8 (hw_read t UDR1) = b;
  ua_pop t b q v : rx t = b :: q -> rx (Rd UDR1 v :: t) = q;
  ua_rx_poll t v : rx (Rd UCSR1A v :: t) = rx t;
  ua_rx_wr t v : rx (Wr UDR1 v :: t) = rx t;
  ua_tx_poll t v : tx_wait (Rd UCSR1A v :: t) = Nat.pred (tx_wait t);
  ua_tx_rd t v : tx_wait (Rd UDR1 v :: t) = tx_wait t;
  ua_tx_wr t v : (tx_wait (Wr UDR1 v :: t) <= K)%nat
}.

Section Drain.
Context {HW : Hardware} {K : nat} {UA : Uart K} (fuel : nat) (Hfuel : (K < fuel)%nat).
Abbreviation P := (prog (World Virtual_Controller)).

(** Sending [bs] from [w] ends in [w'], the transmitter being ready within [K]. *)
Definition sent_all (bs : list Z) (w w' : World Virtual_Controller) : Prop :=
  sent bs w w' /\ rx (tr w') = rx (tr w) /\ (tx_wait (tr w') <= K)%nat.

Lemma send_wait n (w : World Virtual_Controller) (Q : unit -> World Virtual_Controller -> Prop) :
  (tx_wait (tr w) < n)%nat ->
  (forall w', sent [] w w' -> rx (tr w') = rx (tr w) -> Q tt w') ->
  wp true (while_ n (r ← Serial_IsSendReady; mret (negb r)) (mret tt)) Q w.
Proof.
  revert w; induction n as [|n IH]; intros w Hn HQ; [lia|]. cbn.
  unfold Serial_IsSendReady, test_bits. wp_steps; [|done..]. apply wp_rd. wp_steps.
  all: bool_hyps; cbn in Heqb; rewrite ua_udre in Heqb.
  - apply bool_decide_eq_false in Heqb. apply IH.
    + cbn. rewrite ua_tx_poll. lia.
    + intros w' Hs Hr. apply HQ; [exact Hs|]. rewrite Hr. apply ua_rx_poll.
  - apply HQ; [by unfold sent; rewrite app_nil_r|]. apply ua_rx_poll.
Qed.

Lemma SendByte_all b w : is_u8 b -> (tx_wait (tr w) <= K)%nat ->
  wp true (Serial_SendByte fuel b) (fun _ w' => sent_all [b] w w') w.
Proof.
  intros Hb Hw. unfold Serial_SendByte. apply wp_bind. apply send_wait; [lia|].
  intros w1 (Ha & Hr & Ht) Hrx. apply wp_wr. split; [|split].
  - unfold sent. regs_simpl. by rewrite Ht, app_nil_r, u8_small.
  - cbn. by rewrite ua_rx_wr.
  - cbn. apply ua_tx_wr.
Qed.

Lemma SendString_all s w :
  Forall is_u8 s -> Forall (fun b => b <> 0) s -> (tx_wait (tr w) <= K)%nat ->
  wp true (Serial_SendString fuel (s ++ [0])) (fun _ w' => sent_all s w w') w.
Proof.
  intros Hs Hz. revert w; induction s as [|b s IH]; intros w Hw; cbn.
  { change (sent_all [] w w). split; [apply sent_nil|done]. }
  inversion Hs; inversion Hz; subst. destruct (b =? 0) eqn:?; bool_hyps; [done|].
  apply wp_bind. eapply wp_mono; [by apply SendByte_all|]. intros [] w1 (Hw1 & Hr1 & Ht1).
  eapply wp_mono; [by apply IH|]. intros [] w2 (Hw2 & Hr2 & Ht2).
  split; [by apply (sent_trans [b] s w w1 w2)|split; [congruence|done]].
Qed.

Lemma executeCommand_all c w : 0 <= c -> (tx_wait (tr w) <= K)%nat ->
  wp true (executeCommand fuel c) (fun r w' => r = true /\ app w' = command c (app w) /\
    reads_of UDR1 (tr w') = reads_of UDR1 (tr w) /\
    writes_to UDR1 (tr w') = writes_to UDR1 (tr w) ++ reply c /\
    rx (tr w') = rx (tr w) /\ (tx_wait (tr w') <= K)%nat) w.
Proof.
  intros Hc Hw. unfold executeCommand, reply. destruct (c <? 0) eqn:?; bool_hyps; [lia|].
  destruct (c =? 0) eqn:?; [|destruct (c <=? 49) eqn:?]; bool_hyps; subst; apply wp_bind.
  - eapply wp_mono; [apply (SendString_all [73; 39; 109; 32; 82; 101; 97; 100; 121; 33]);
      repeat constructor; done|].
    intros [] w' ((? & ? & ?) & ? & ?). by apply wp_ret.
  - apply wp_modify, wp_ret. cbn. by rewrite app_nil_r.
  - eapply wp_mono; [apply (SendString_all [63]); repeat constructor; done|].
    intros [] w' ((Ha & ? & ?) & ? & ?). apply wp_ret. by rewrite command_other, Ha by lia.
Qed.

(** The line is empty, the bytes [cs] have been read, applied and answered. *)
Definition drained (cs : list Z) (w w' : World Virtual_Controller) : Prop :=
  rx (tr w') = [] /\ reads_of UDR1 (tr w') = reads_of UDR1 (tr w) ++ cs /\
  app w' = commands cs (app w) /\
  writes_to UDR1 (tr w') = writes_to UDR1 (tr w) ++ concat (map reply cs).

Lemma receive_loop_all cs n w : Forall is_u8 cs -> rx (tr w) = cs ->
  (tx_wait (tr w) <= K)%nat -> (length cs < n)%nat ->
  wp true (receive_loop n fuel) (fun _ w' => drained cs w w') w.
Proof.
  intros Hu. revert n w; induction cs as [|c cs IH]; intros [|n] w Hrx Hw Hn; cbn in Hn; try lia;
    cbn [receive_loop]; unfold Serial_ReceiveByte, Serial_IsCharReceived, test_bits;
    apply wp_bind, wp_bind, wp_bind, wp_rd, wp_ret; cbn [reg_trunc]; rewrite ua_rxc, Hrx; cbn.
  - unfold wp, mbind, prog_bind, drained. cbn. by rewrite ua_rx_poll, !app_nil_r, Hrx.
  - inversion Hu as [|? ? Hc Hcs]; subst. apply wp_bind.
    set (w1 := upd_tr (cons (Rd UCSR1A _)) w). assert (rx (tr w1) = c :: cs) as Hrx1 by (cbn; by rewrite ua_rx_poll).
    change (_ :: tr w) with (tr w1). rewrite (ua_data _ _ _ Hrx1).
    eapply wp_mono; [apply executeCommand_all; [unfold is_u8 in Hc; lia|]|].
    { cbn. rewrite ua_tx_rd, ua_tx_poll. lia. }
    intros r w2 (-> & Ha & Hrd & Hwr & Hr & Ht). cbn.
    eapply wp_mono; [apply IH; [done|rewrite Hr; by apply (ua_pop _ c)|done|lia]|].
    intros [] w3 (H1 & H2 & H3 & H4). unfold drained. rewrite H2, H3, H4, Ha, Hrd, Hwr.
    regs_simpl. by rewrite <- !app_assoc.
Qed.

Lemma receiveCommand_all cs w : (length cs < fuel)%nat -> Forall is_u8 cs ->
  rx (tr w) = cs -> (tx_wait (tr w) <= K)%nat ->
  wp true (receiveCommand fuel) (fun _ w' => drained cs w w') w.
Proof.
  intros Hf Hu Hrx Hw. unfold receiveCommand, Serial_IsCharReceived, test_bits.
  apply wp_bind, wp_bind, wp_rd, wp_ret. cbn [reg_trunc]. rewrite ua_rxc, Hrx.
  apply wp_when; intros Hb.
  - eapply wp_mono; [apply (receive_loop_all cs)|]; cbn; rewrite ?ua_rx_poll, ?ua_tx_poll;
      try done; lia.
  - destruct cs; [|done]. unfold drained. cbn. by rewrite ua_rx_poll, !app_nil_r.
Qed.
End Drain.

(** ** A concrete board

    A USART that has received [input] and is always ready to send, a locked PLL,
    endpoints that accept every configuration, no USB interrupt. *)

Definition line_read (input : list Z) (t : trace) (r : Reg) : Z :=
  match r with
  | UCSR1A => Z.lor (bit UDRE1)
                (if (length (reads_of UDR1 t) <? length input)%nat then bit RXC1 else 0)
  | UDR1 => nth (length (reads_of UDR1 t)) input 0
  | PLLCSR => bit PLOCK
  | UESTA0X => bit CFGOK
  | _ => 0
  end.
Definition line_hw (input : list Z) : Hardware :=
  {| hw_read := line_read input; hw_irq := fun _ => false; hw_signature := fun _ => 0 |}.

Definition no_libc : AvrLibc :=
  {| wdt_disable := mret tt; clock_prescale_set := fun _ => mret tt |}.

Lemma no_libc_frame : LibcFrame no_libc.
Proof. split; intros; first [apply keeps_ret, _ | apply safe_ret]. Qed.

Definition power_on : World Virtual_Controller := reset_world (mkVC 0 0 0 0 0 0 0).

Lemma drop_empty {A} n (l : list A) : bool_decide (drop n l = []) = negb (n <? length l)%nat.
Proof.
  destruct (n <? length l)%nat eqn:E; [apply Nat.ltb_lt in E|apply Nat.ltb_ge in E].
  - apply bool_decide_eq_false. intros H. apply (f_equal length) in H.
    rewrite length_drop in H. cbn in H. lia.
  - by apply bool_decide_eq_true, drop_ge.
Qed.

Lemma drop_head {A} n (l : list A) x q : drop n l = x :: q -> l !! n = Some x /\ drop (n + 1) l = q.
Proof.
  intros H. split.
  - rewrite <- (Nat.add_0_r n), <- lookup_drop, H. done.
  - rewrite <- drop_drop, H. done.
Qed.

Definition line_uart {HW : Hardware} (input : list Z) (Hu : Forall is_u8 input)
    (Hc : forall t, hw_read t UCSR1A = line_read input t UCSR1A)
    (Hd : forall t, hw_read t UDR1 = line_read input t UDR1) : Uart 0.
Proof.
  refine {| rx := (fun t => drop (length (reads_of UDR1 t)) input); tx_wait := fun _ => 0%nat |};
    try done.
  - intros t. rewrite drop_empty, Hc. cbn [line_read]. by destruct (_ <? _)%nat.
  - intros t. rewrite Hc. cbn [line_read]. by destruct (_ <? _)%nat.
  - intros t b q [Hi _]%drop_head. rewrite Hd. cbn [line_read].
    rewrite (nth_lookup_Some _ _ _ _ Hi). apply u8_small. by apply (Forall_lookup_1 _ _ _ _ Hu Hi).
  - intros t b q v [_ Hi]%drop_head. regs_simpl. by rewrite length_app.
Defined.

(** ** Theorems *)

(** C1: On every board, when [main] has completed some rounds of its loop, the
    controller is the initial one with the commands read from the serial line
    applied in the order of their arrival, and the serial output is the answers
    to them in that order: no command is lost, repeated or reordered, and nothing
    the USB stack does (interrupts and control requests included) changes the
    controller or uses the serial line. *)
Theorem main_serves_commands {HW : Hardware} {LIBC : AvrLibc} {LF : LibcFrame LIBC}
    rounds fuel w w' :
  main rounds fuel w = Ret tt w' ->
  exists cs, Forall is_u8 cs /\
    reads_of UDR1 (tr w') = reads_of UDR1 (tr w) ++ cs /\
    app w' = commands cs (initVirtualController (app w)) /\
    writes_to UDR1 (tr w') = writes_to UDR1 (tr w) ++ concat (map reply cs).
Proof. intros H. exact (main_run _ _ _ _ H). Qed.

Definition demo_end (input : list Z) (rounds fuel : nat) : World Virtual_Controller :=
  match main (HW := line_hw input) (LIBC := no_libc) rounds fuel power_on with
  | Ret _ w => w
  | _ => power_on
  end.

Lemma main_serves_commands_witness :
  exists cs, Forall is_u8 cs /\
    reads_of UDR1 (tr (demo_end [1; 99; 0] 2 30)) = reads_of UDR1 (tr power_on) ++ cs /\
    app (demo_end [1; 99; 0] 2 30) = commands cs (initVirtualController (app power_on)) /\
    writes_to UDR1 (tr (demo_end [1; 99; 0] 2 30))
      = writes_to UDR1 (tr power_on) ++ concat (map reply cs).
Proof.
  apply (main_serves_commands (HW := line_hw [1; 99; 0]) (LIBC := no_libc) (LF := no_libc_frame) 2 30).
  vm_compute. reflexivity.
Defined.

(** C13: On every board and for every behaviour of the host, [main] never reads or
    writes outside a buffer, a descriptor or a string, however many rounds it
    runs: no serial command, SETUP packet, transfer length or interrupt leads it
    out of an object. *)
Theorem main_never_faults {HW : Hardware} {LIBC : AvrLibc} {LF : LibcFrame LIBC} rounds fuel w :
  wf_request (USB_ControlRequest w) -> main rounds fuel w <> Fault.
Proof.
  intros Hw E. pose proof (main_safe rounds fuel w Hw) as H. unfold wp in H. by rewrite E in H.
Qed.

Lemma main_never_faults_witness :
  main (HW := line_hw [1; 99; 0]) (LIBC := no_libc) 2 30 power_on <> Fault.
Proof.
  apply (main_never_faults (LF := no_libc_frame)). repeat split; cbn; lia.
Defined.

(** Every command keeps the controller well formed, and so does [main]. *)
Lemma commands_ok cs v : controller_ok v -> controller_ok (commands cs v).
Proof. revert v; induction cs as [|c cs IH]; intros v Hv; [done|]. apply IH, action_ok; [apply command_action|done]. Qed.

Lemma main_ok {HW : Hardware} {LIBC : AvrLibc} {LF : LibcFrame LIBC} rounds fuel w w' :
  main rounds fuel w = Ret tt w' -> controller_ok (app w').
Proof. intros (cs & _ & _ & -> & _)%main_run. apply commands_ok, init_ok. Qed.

(** The vertical axis of the right stick never leaves its centre: no sequence
    of serial bytes moves it, since the three commands meant for it store into
    the left stick. *)
Theorem main_RY_centered {HW : Hardware} {LIBC : AvrLibc} {LF : LibcFrame LIBC} rounds fuel w w' :
  main rounds fuel w = Ret tt w' -> RY (app w') = STICK_CENTER.
Proof.
  intros (cs & _ & _ & -> & _)%main_run. cbn.
  enough (forall v, RY v = STICK_CENTER -> RY (commands cs v) = STICK_CENTER) as H by by apply H.
  induction cs as [|c cs IH]; intros v Hv; [done|].
  apply IH. destruct (command_action c); cbn; done.
Qed.

Lemma main_RY_centered_witness : RY (app (demo_end [46; 47; 47] 3 30)) = STICK_CENTER.
Proof.
  apply (main_RY_centered (HW := line_hw [46; 47; 47]) (LIBC := no_libc)
           (LF := no_libc_frame) 3 30 power_on).
  vm_compute. reflexivity.
Defined.

(** C28: The receiver terminates and loses nothing: with a USART that has the bytes
    [cs] waiting and becomes ready to send within [K] polls, [receiveCommand]
    returns with the line drained, every command of [cs] applied in order and
    every answer sent. *)
Theorem receiveCommand_drains {HW : Hardware} {K : nat} {UA : Uart K} fuel cs w :
  (K < fuel)%nat -> (length cs < fuel)%nat -> Forall is_u8 cs ->
  rx (tr w) = cs -> (tx_wait (tr w) <= K)%nat ->
  exists w', receiveCommand fuel w = Ret tt w' /\ rx (tr w') = [] /\
    app w' = commands cs (app w) /\
    writes_to UDR1 (tr w') = writes_to UDR1 (tr w) ++ concat (map reply cs).
Proof.
  intros HK Hf Hu Hrx Hw. apply (wp_total_run_unit (receiveCommand fuel)).
  eapply wp_mono; [by apply receiveCommand_all|]. by intros [] w' (? & _ & ? & ?).
Qed.

Lemma receiveCommand_drains_witness :
  exists w', receiveCommand (HW := line_hw [1; 99; 0]) 10 power_on = Ret tt w' /\
    drop (length (reads_of UDR1 (tr w'))) [1; 99; 0] = [] /\
    app w' = commands [1; 99; 0] (app power_on) /\
    writes_to UDR1 (tr w') = writes_to UDR1 (tr power_on) ++ concat (map reply [1; 99; 0]).
Proof.
  assert (Forall is_u8 [1; 99; 0]) as Hu by (repeat constructor; done).
  apply (receiveCommand_drains (HW := line_hw [1; 99; 0])
    (UA := line_uart (HW := line_hw [1; 99; 0]) [1; 99; 0] Hu (fun _ => eq_refl) (fun _ => eq_refl)) 10 [1; 99; 0]);
    [lia|cbn; lia|exact Hu|reflexivity|cbn; lia].
Defined.

(** The report sent to the host is the eight bytes of the controller in the
    order of the report descriptor, and distinct well-formed controllers give
    distinct reports. *)
Theorem enc_report_faithful v v' : controller_ok v -> controller_ok v' ->
  length (enc_report v) = 8%nat /\ (enc_report v = enc_report v' -> v = v').
Proof.
  intros Hv Hv'. split; [done|]. unfold enc_report, le16. cbn. intros E. injection E as E0 E1 E2 E3 E4 E5 E6 _.
  destruct v as [b h lx ly rx ry vs], v' as [b' h' lx' ly' rx' ry' vs']. cbn in *.
  assert (forall a, axis_ok a -> u8 a = a) as Ha by (intros a [-> | [-> | ->]]; done).
  assert (forall a, hat_ok a -> u8 a = a) as Hh by (intros a [-> | [-> | [-> | [-> | ->]]]]; done).
  unfold controller_ok in *. cbn in *.
  destruct Hv as (Hb & Hhat & H1 & H2 & H3 & H4 & ->), Hv' as (Hb' & Hhat' & H1' & H2' & H3' & H4' & ->).
  rewrite !Ha, !Hh in * by done.
  assert (b = b') as ->; [|congruence].
  rewrite <- (of_le16_le16 b), <- (of_le16_le16 b') by (unfold is_u16; lia). congruence.
Qed.

Lemma enc_report_faithful_witness :
  length (enc_report (initVirtualController (app power_on))) = 8%nat /\
  (enc_report (initVirtualController (app power_on)) = enc_report (initVirtualController (app power_on))
   -> initVirtualController (app power_on) = initVirtualController (app power_on)).
Proof. apply enc_report_faithful; apply init_ok. Defined.

(** ** Reports

    A configured device whose host keeps polling: no output report is waiting,
    the IN bank is free when the endpoint is selected and has room for its 64
    bytes. *)

Class ReportEndpoints {HW : Hardware} : Prop := {
  re_irq t : hw_irq t = false;
  re_out t : selected t = 2 -> tst (u8 (hw_read t UEINTX)) (bit RXOUTI) = false;
  re_dir t : selected t = 1 -> tst (u8 (hw_read t UECFG0X)) (bit EPDIR) = true;
  re_ready t : selected t = 1 -> bank t = [] -> tst (u8 (hw_read t UEINTX)) (bit TXINI) = true;
  re_room t : selected t = 1 -> (length (bank t) < 64)%nat ->
    tst (u8 (hw_read t UEINTX)) (bit RWAL) = true
}.

Section Report.
Context {HW : Hardware} {RE : ReportEndpoints}.

Lemma enc_report_u8 v : Forall is_u8 (enc_report v).
Proof. unfold enc_report, le16. repeat constructor; apply u8_range. Qed.

Lemma WaitUntilReady_now fuel (w : World Virtual_Controller) :
  (0 < fuel)%nat -> selected (tr w) = 1 -> bank (tr w) = [] ->
  wp true (Endpoint_WaitUntilReady fuel) (fun e w' => e = ENDPOINT_READYWAIT_NoError /\
    filled 1 [] w w') w.
Proof.
  intros Hf Hs Hb. unfold Endpoint_WaitUntilReady, USB_Device_GetFrameNumber.
  apply wp_bind, wp_rd. destruct fuel as [|fuel]; [lia|]. cbn [WaitUntilReady_loop].
  unfold Endpoint_GetEndpointDirection, Endpoint_IsINReady, test_bits.
  apply wp_bind, wp_bind, wp_bind, wp_rd, wp_ret, wp_ret. cbn [reg_trunc].
  rewrite re_dir by done. cbn [ENDPOINT_DIR_IN Z.eqb Pos.eqb].
  apply wp_bind, wp_bind, wp_rd, wp_ret. cbn [reg_trunc]. rewrite re_ready by done.
  apply wp_ret. split; [done|]. unfold filled. cbn. by rewrite app_nil_r.
Qed.

Lemma HID_Task_IN_sends fuel w : (8 < fuel)%nat ->
  wp true (HID_Task_IN fuel) (fun _ w' =>
    (app w' = app w /\ packets (tr w') = packets (tr w) ++ [(1, enc_report (app w))]) /\
    USB_DeviceState w' = USB_DeviceState w) w.
Proof.
  intros Hf. unfold HID_Task_IN, Endpoint_SelectEndpoint. apply wp_bind, wp_wr.
  unfold Endpoint_IsINReady, test_bits. apply wp_bind, wp_bind, wp_rd, wp_ret.
  cbn [reg_trunc]. rewrite re_ready by done. cbn [when]. apply wp_bind, wp_gets.
  unfold Endpoint_Write_Stream_LE, Template_Endpoint_RW.
  apply wp_bind, wp_bind. eapply wp_mono; [apply WaitUntilReady_now; [lia|done|done]|].
  intros e w1 (-> & Hs & Hb & Hp & Ha & Hd). cbn [negb Z.eqb ENDPOINT_READYWAIT_NoError].
  cbn in Hb, Hp, Ha, Hd. cbn [app upd_tr TEMPLATE_BUFFER_OFFSET].
  set (v := app w) in *. change 0 with (Z.of_nat (length (enc_report v)) - 8) at 1.
  eapply wp_mono; [apply (StreamRW_loop_fits 1 64 re_room); try done|].
  - apply enc_report_u8.
  - rewrite Hb. change (Z.to_nat sizeof_Input) with 8%nat. cbn. lia.
  - intros r w2 (-> & Hs2 & Hb2 & Hp2 & Ha2 & Hd2). unfold Endpoint_ClearIN, clr_bits.
    apply wp_bind, wp_rd, wp_wr. cbn [tr upd_tr packets reg_trunc]. rewrite ClearIN_commit.
    cbn -[enc_report]. split; [split; [by rewrite Ha2|]|by rewrite Hd2].
    by rewrite Hp2, Hp, Hs2, Hb2, Hb.
Qed.

Lemma HID_Task_reports fuel w :
  (8 < fuel)%nat -> USB_DeviceState w = DEVICE_STATE_Configured ->
  wp true (HID_Task fuel) (fun _ w' =>
    (app w' = app w /\ packets (tr w') = packets (tr w) ++ [(1, enc_report (app w))]) /\
    USB_DeviceState w' = USB_DeviceState w) w.
Proof.
  intros Hf Hst. unfold HID_Task, poll_DeviceState.
  apply wp_bind, wp_bind. unfold wp at 1, interrupt_point. rewrite re_irq, andb_false_r.
  apply wp_gets. rewrite Hst. cbn [negb Z.eqb Pos.eqb DEVICE_STATE_Configured].
  apply wp_bind. unfold HID_Task_OUT, Endpoint_SelectEndpoint, Endpoint_IsOUTReceived, test_bits.
  apply wp_bind, wp_wr, wp_bind, wp_bind, wp_rd, wp_ret. cbn [reg_trunc].
  rewrite re_out by done. apply wp_ret.
  eapply wp_mono; [by apply HID_Task_IN_sends|]. intros [] w' [H1 H2]. cbn in H2. by rewrite H2, <- Hst.
Qed.
End Report.

(** While the device is configured and the host keeps the report endpoint free,
    [HID_Task] terminates and sends exactly one packet on endpoint 1, the eight
    bytes of the current controller state. *)
Theorem HID_Task_sends_report {HW : Hardware} {RE : ReportEndpoints} fuel w :
  (8 < fuel)%nat -> USB_DeviceState w = DEVICE_STATE_Configured ->
  exists w', HID_Task fuel w = Ret tt w' /\ app w' = app w /\
    packets (tr w') = packets (tr w) ++ [(1, enc_report (app w))].
Proof.
  intros Hf Hst. apply wp_total_run_unit.
  eapply wp_mono; [by apply HID_Task_reports|]. by intros [] w' [H _].
Qed.

(** A host that always polls. *)
Definition polling_hw : Hardware :=
  {| hw_read := fun t r =>
       if selected t =? 1 then
         match r with UEINTX => Z.lor (bit TXINI) (bit RWAL) | UECFG0X => bit EPDIR | _ => 0 end
       else 0;
     hw_irq := fun _ => false; hw_signature := fun _ => 0 |}.

Lemma polling_endpoints : ReportEndpoints (HW := polling_hw).
Proof. split; cbn; intros t; try done; by intros ->. Qed.

Definition configured_world : World Virtual_Controller :=
  upd_DeviceState DEVICE_STATE_Configured (upd_app (command 1) power_on).

Lemma HID_Task_sends_report_witness :
  exists w', HID_Task (HW := polling_hw) 9 configured_world = Ret tt w' /\
    app w' = app configured_world /\
    packets (tr w') = packets (tr configured_world) ++ [(1, enc_report (app configured_world))].
Proof. apply (HID_Task_sends_report (RE := polling_endpoints)); [lia|reflexivity]. Defined.

(** ** The globals of the device stack *)

(** The device state is a member of its enumeration, the configuration number is
    one the device has, the last request has fields of its widths. *)
Definition device_ok (w : World Virtual_Controller) : Prop :=
  DEVICE_STATE_Unattached <= USB_DeviceState w <= DEVICE_STATE_Suspended /\
  0 <= USB_Device_ConfigurationNumber w <= FIXED_NUM_CONFIGURATIONS /\
  wf_request (USB_ControlRequest w).
Definition keeps_device (w w' : World Virtual_Controller) : Prop := device_ok w -> device_ok w'.

#[local] Instance keeps_device_stack : StackRel keeps_device.
Proof.
  unfold keeps_device, device_ok, DEVICE_STATE_Unattached, DEVICE_STATE_Suspended,
    FIXED_NUM_CONFIGURATIONS.
  split; [split; red; tauto|..]; cbn; try tauto;
    intros n w Hn (Hs & Hc & Hr); rewrite u8_small by (unfold is_u8; lia); done.
Qed.

Section Device.
Context {HW : Hardware}.

Lemma device_rd r : keeps keeps_device (rd r).
Proof. intros w. exact id. Qed.
Lemma device_wr r v : keeps keeps_device (wr r v).
Proof. intros w. exact id. Qed.
Lemma device_app f : keeps keeps_device (modify (upd_app f)).
Proof. intros w. exact id. Qed.
#[local] Hint Resolve device_rd device_wr device_app : keeps.

Lemma device_SendString fuel s : keeps keeps_device (Serial_SendString fuel s).
Proof. induction s as [|b s IH]; cbn; keeps_tac; exact IH. Qed.
#[local] Hint Resolve device_SendString : keeps.

Lemma device_receiveCommand fuel : keeps keeps_device (receiveCommand fuel).
Proof.
  assert (forall n, keeps keeps_device (receive_loop n fuel)) as H.
  { intros n. induction n as [|n IH]; [done|]. cbn [receive_loop]. keeps_tac. }
  keeps_tac.
Qed.

Lemma device_main {LIBC : AvrLibc} {LF : LibcFrame LIBC} rounds fuel :
  keeps keeps_device (main rounds fuel).
Proof.
  pose proof (main_loop_keeps keeps_device device_receiveCommand rounds fuel).
  pose proof keeps_device_stack. unfold main, init. keeps_tac.
Qed.
End Device.

(** C35: On every board and for every host, the globals the stack shares with its
    interrupt handler stay valid for as long as [main] runs: the device state is
    always one of the six states, only the one existing configuration is ever
    selected, and the request being handled has fields of the right widths. *)
Theorem main_device_ok {HW : Hardware} {LIBC : AvrLibc} {LF : LibcFrame LIBC} rounds fuel w w' :
  main rounds fuel w = Ret tt w' -> device_ok w -> device_ok w'.
Proof. intros Hrun. exact (keeps_run _ _ _ _ _ (device_main rounds fuel) Hrun). Qed.

Lemma main_device_ok_witness : device_ok (demo_end [1; 99; 0] 2 30).
Proof.
  apply (main_device_ok (HW := line_hw [1; 99; 0]) (LIBC := no_libc) (LF := no_libc_frame) 2 30
           power_on).
  - vm_compute. reflexivity.
  - repeat split; vm_compute; congruence.
Defined.

(** ** Descriptors *)

Ltac descriptor_cases :=
  unfold Joystick_GetDescriptor;
  repeat match goal with |- context [if ?b then _ else _] => destruct b eqn:? end.

Lemma Joystick_GetDescriptor_object wv wi size d :
  Joystick_GetDescriptor wv wi = (size, Some d) ->
  0 < size <= Z.of_nat (length d) /\ is_u16 size /\ Forall is_u8 d.
Proof.
  descriptor_cases; intros [= <- <-]; unfold is_u16;
    (split; [vm_compute; intuition discriminate|split; [vm_compute; intuition discriminate|]]);
    apply (bool_decide_unpack (Forall (fun b => 0 <= b < 256) _)); vm_compute; done.
Qed.

(** C29: Every GET_DESCRIPTOR the device supports terminates with the right data on
    the bus: the descriptor object up to its size or wLength, whichever is less,
    packetized as the USB specification asks. *)
Theorem GetDescriptor_transfers {HW : Hardware} fuel size d (w : World Virtual_Controller) :
  let req := USB_ControlRequest w in
  ControlHost (length (packets (tr w))) (wLength req) ->
  Joystick_GetDescriptor (wValue req) (wIndex req) = (size, Some d) ->
  0 < wLength req -> (Z.to_nat size + 2 <= fuel)%nat ->
  selected (tr w) = 0 -> bank (tr w) = [] -> USB_DeviceState w <> DEVICE_STATE_Unattached ->
  USB_DeviceState w <> DEVICE_STATE_Suspended ->
  exists w' ps, USB_Device_GetDescriptor fuel w = Ret tt w' /\
    packets (tr w') = packets (tr w) ++ map (pair 0) ps /\
    packetized (take (Z.to_nat (Z.min size (wLength req))) d) (wLength req) ps.
Proof.
  intros req CH Hd Hw Hf Hs Hk H1 H2.
  destruct (Joystick_GetDescriptor_object _ _ _ _ Hd) as (Hsz & Hu & Hb).
  assert (wValue req <> 0x03DC) as Hv.
  { intros E. rewrite E in Hd. by vm_compute in Hd. }
  destruct (wp_total_run_unit _ _ _ (GetDescriptor_spec (RQ := JoystickRequests) (packets (tr w)) (wLength req) fuel w size d
    Hv eq_refl Hw Hd ltac:(lia) Hu Hb Hf ltac:(unfold between; cbn; by rewrite app_nil_r)))
    as (w' & Hrun & ps & Hbt & Hps).
  exists w', ps. repeat split; [done|apply Hbt|done].
Qed.

Lemma GetDescriptor_transfers_witness :
  exists w' ps, USB_Device_GetDescriptor (HW := host_hw 0 255) (RQ := JoystickRequests (HW := host_hw 0 255)) 90
      (request_world (app power_on) (mkRequest 0x81 6 0x2200 0 255)) = Ret tt w' /\
    packets (tr w') = [] ++ map (pair 0) ps /\ packetized (take 86 JoystickReport) 255 ps.
Proof.
  apply (GetDescriptor_transfers (HW := host_hw 0 255) 90 86 JoystickReport
           (request_world (app power_on) (mkRequest 0x81 6 0x2200 0 255)));
    try reflexivity; try discriminate.
  - apply host_control.
  - vm_compute. lia.
Defined.

(** A descriptor begins with its own length and its type. *)
Definition self_described (type size : Z) (d : list Z) : Prop :=
  d !! 0%nat = Some size /\ d !! 1%nat = Some type.

(** The answer to GET_DESCRIPTOR, for every wValue and wIndex: device, string and
    HID descriptors are self-describing objects of the type asked for and of the
    size returned, which is that of the object (less the terminator of a string); the configuration descriptor's total length is its size; the
    report descriptor has the length the HID descriptor announces; strings beyond
    the product string and other types are refused with size 0 and no object. *)
Theorem GetDescriptor_answers wv wi : is_u16 wv ->
  let t := wv / 256 in let n := wv mod 256 in
  match Joystick_GetDescriptor wv wi with
  | (size, Some d) =>
      size = Z.of_nat (length d) - (if bool_decide (t = DTYPE_String /\ 0 < n) then 2 else 0) /\
      (t = DTYPE_Device \/ t = DTYPE_HID \/ (t = DTYPE_String /\ n <= 2) ->
         self_described t size d) /\
      (t = DTYPE_Configuration ->
         d !! 1%nat = Some t /\ (lo ← d !! 2%nat; hi ← d !! 3%nat; Some (of_le16 lo hi)) = Some size) /\
      (t = DTYPE_Report ->
         exists hid, Joystick_GetDescriptor (DTYPE_HID * 256) 0 = (9, Some hid) /\
         (lo ← hid !! 7%nat; hi ← hid !! 8%nat; Some (of_le16 lo hi)) = Some size)
  | (size, None) =>
      size = NO_DESCRIPTOR /\
      ~ (t = DTYPE_Device \/ t = DTYPE_Configuration \/ t = DTYPE_HID \/ t = DTYPE_Report \/
         (t = DTYPE_String /\ n <= 2))
  end.
Proof.
  intros Hwv t n. assert (Z.shiftr wv 8 = t) as Ht by (by rewrite Z.shiftr_div_pow2).
  assert (0 <= t < 256) as Htr.
  { subst t. unfold is_u16 in Hwv. split; [apply Z.div_pos|apply Z.div_lt_upper_bound]; lia. }
  assert (Z.land wv 0xFF = n) as Hn by (exact (Z.land_ones wv 8 ltac:(lia))).
  pose proof (Z.mod_pos_bound wv 256 ltac:(lia)) as Hnr. fold n in Hnr.
  unfold Joystick_GetDescriptor at 1. rewrite Ht, Hn, (u8_small t), (u8_small n) by done.
  repeat match goal with |- context [if ?b then _ else _] => destruct b eqn:? end; bool_hyps;
    try match goal with H : t = _ |- _ => rewrite H in * end;
    unfold DTYPE_Device, DTYPE_HID, DTYPE_String, DTYPE_Configuration, DTYPE_Report,
      STRING_ID_Language, STRING_ID_Manufacturer, STRING_ID_Product in *.
  all: try (split; [reflexivity|]; lia).
  all: case_bool_decide; try lia.
  all: split; [reflexivity|]; split; [intros ?; first [lia|split; reflexivity]|]; split;
    [intros ?; first [lia|split; reflexivity]|intros ?; first [lia|eexists; split; reflexivity]].
Qed.

Lemma GetDescriptor_answers_witness :
  Joystick_GetDescriptor 0x0302 0 = (36, Some (enc_string ProductString)) /\
  self_described DTYPE_String 36 (enc_string ProductString).
Proof.
  pose proof (GetDescriptor_answers 0x0302 0 ltac:(unfold is_u16; lia)) as H.
  split; [reflexivity|]. apply H. right. right. split; [reflexivity|]. vm_compute. discriminate.
Defined.
