(* ===== verification/LoopSpec.v ===== *)
(** The main loop end to end: with a configured device, a host that polls the
    report endpoint and sends no control request, and a serial line that works as
    its data sheet says, every round of the loop of Joystick.c ends, takes the
    bytes that were waiting and reports their effect in the same round, in a well
    formed report. *)

From stdpp Require Import base tactics option list numbers.
From Stdlib Require Import ZArith Lia.
From S2P Require Import Prelude Hardware Endpoint USBController DeviceStandardReq Serial Joystick.
From S2P Require Import JoystickSpec.

(** A steady board: at most [cap] bytes wait in the receiver, the transmitter
    empties within [K] polls, and no SETUP packet arrives. *)
Class Steady {HW : Hardware} {K : nat} {UA : Uart K} (cap : nat) : Prop := {
  st_rx t : (length (rx t) <= cap)%nat;
  st_rx_u8 t : Forall is_u8 (rx t);
  st_tx t : (tx_wait t <= K)%nat;
  st_setup t : selected t = 0 -> tst (u8 (hw_read t UEINTX)) (bit RXSTPI) = false
}.

(** The reports of successive rounds that received [chunks]. *)
Fixpoint reports (chunks : list (list Z)) (v : Virtual_Controller) : list (Z * list Z) :=
  match chunks with
  | [] => []
  | cs :: chunks => (1, enc_report (commands cs v)) :: reports chunks (commands cs v)
  end.

(** The receiver does not touch the endpoints or the device state. *)
Definition off_bus (w w' : World Virtual_Controller) : Prop :=
  packets (tr w') = packets (tr w) /\ USB_DeviceState w' = USB_DeviceState w.

#[local] Instance off_bus_preorder : PreOrder off_bus.
Proof. split; [by intros w|intros w1 w2 w3; unfold off_bus; intuition congruence]. Qed.

Section Loop.
Context {HW : Hardware} {K : nat} {UA : Uart K} {cap : nat} {ST : Steady cap} {RE : ReportEndpoints}.

Lemma off_bus_rd r : keeps off_bus (rd r).
Proof. done. Qed.
Lemma off_bus_send v : keeps off_bus (wr UDR1 v).
Proof. done. Qed.
Lemma off_bus_app f : keeps off_bus (modify (upd_app f)).
Proof. done. Qed.
#[local] Hint Resolve off_bus_rd off_bus_send off_bus_app : keeps.

Lemma off_bus_SendString fuel s : keeps off_bus (Serial_SendString (App := Virtual_Controller) fuel s).
Proof. induction s; cbn; keeps_tac. Qed.
#[local] Hint Resolve off_bus_SendString : keeps.

Lemma receiveCommand_off_bus fuel : keeps off_bus (receiveCommand fuel).
Proof.
  assert (forall n, keeps off_bus (receive_loop n fuel)) as H.
  { intros n. induction n as [|n IH]; [done|]. cbn. keeps_tac. }
  specialize (H fuel). keeps_tac.
Qed.

(** The device task of an idle control endpoint only moves the selection. *)
Lemma USBTask_idle fuel w :
  wp true (USB_USBTask fuel) (fun _ w' => off_bus w w' /\ app w' = app w /\
    reads_of UDR1 (tr w') = reads_of UDR1 (tr w)) w.
Proof.
  unfold USB_USBTask, USB_DeviceTask, poll_DeviceState.
  apply wp_bind, wp_bind. unfold wp at 1, interrupt_point. rewrite re_irq, andb_false_r.
  apply wp_gets. destruct (_ =? _); [done|].
  unfold Endpoint_GetCurrentEndpoint, Endpoint_SelectEndpoint, Endpoint_IsSETUPReceived, test_bits.
  apply wp_bind, wp_bind, wp_rd, wp_ret, wp_bind, wp_wr, wp_bind, wp_bind, wp_rd, wp_ret.
  cbn [reg_trunc]. rewrite st_setup by done. done.
Qed.

(** One round. *)
Lemma main_round_reports fuel w :
  (K < fuel)%nat -> (cap < fuel)%nat -> (8 < fuel)%nat ->
  USB_DeviceState w = DEVICE_STATE_Configured ->
  wp true (main_round fuel) (fun _ w' => let cs := rx (tr w) in
    reads_of UDR1 (tr w') = reads_of UDR1 (tr w) ++ cs /\
    app w' = commands cs (app w) /\
    packets (tr w') = packets (tr w) ++ [(1, enc_report (commands cs (app w)))] /\
    USB_DeviceState w' = DEVICE_STATE_Configured) w.
Proof.
  intros HK Hc H8 Hst. pose proof (st_rx (tr w)).
  destruct (wp_total_run_unit (receiveCommand fuel) (drained (rx (tr w)) w) w) as (w1 & E1 & _ & Hr1 & Ha1 & _).
  { apply receiveCommand_all; [done|lia|apply st_rx_u8|done|apply st_tx]. }
  pose proof (keeps_run _ _ _ _ _ (receiveCommand_off_bus fuel) E1) as [Hp1 Hs1].
  destruct (wp_total_run_unit (HID_Task fuel) _ w1 (HID_Task_reports fuel w1 H8 (eq_trans Hs1 Hst)))
    as (w2 & E2 & [Ha2 Hp2] & Hs2).
  pose proof (keeps_run _ _ _ _ _ (HID_Task_keeps quiet (StackRel0 := quiet_stack) fuel) E2) as (_ & Hr2 & _).
  unfold main_round. apply wp_bind. unfold wp at 1. rewrite E1.
  apply wp_bind. unfold wp at 1. rewrite E2.
  eapply wp_mono; [apply USBTask_idle|]. intros [] w3 ([Hp3 Hs3] & Ha3 & Hr3). cbn.
  rewrite Hr3, Hr2, Hr1, Ha3, Ha2, Ha1, Hp3, Hp2, Hp1, Hs3, Hs2, Hs1, Ha1. done.
Qed.
End Loop.

Lemma main_loop_run {HW : Hardware} {K : nat} {UA : Uart K} {cap : nat} {ST : Steady cap}
    {RE : ReportEndpoints} rounds fuel w :
  (K < fuel)%nat -> (cap < fuel)%nat -> (8 < fuel)%nat ->
  USB_DeviceState w = DEVICE_STATE_Configured ->
  exists w' chunks, main_loop rounds fuel w = Ret tt w' /\
    length chunks = rounds /\ ((0 < rounds)%nat -> head chunks = Some (rx (tr w))) /\
    reads_of UDR1 (tr w') = reads_of UDR1 (tr w) ++ concat chunks /\
    app w' = commands (concat chunks) (app w) /\
    packets (tr w') = packets (tr w) ++ reports chunks (app w).
Proof.
  intros HK Hc H8. revert w. induction rounds as [|n IH]; intros w Hst.
  { exists w, []. cbn. rewrite !app_nil_r. repeat split. lia. }
  destruct (wp_total_run_unit _ _ w (main_round_reports fuel w HK Hc H8 Hst))
    as (w1 & E1 & Hr1 & Ha1 & Hp1 & Hs1).
  destruct (IH w1 Hs1) as (w2 & chunks & E2 & Hl & _ & Hr2 & Ha2 & Hp2).
  exists w2, (rx (tr w) :: chunks). cbn [main_loop concat reports head length]. unfold mbind, prog_bind. rewrite E1, E2.
  rewrite Hr2, Hr1, Ha2, Ha1, Hp2, Hp1, commands_app, Ha1, Hl, <- !app_assoc. done.
Qed.

(** C3: The loop of [main] makes progress for ever and keeps its promise in every
    round: on a steady board with a configured device every round terminates, takes
    from the serial line the bytes that were waiting when it began, and sends the
    host exactly one packet, the report of the controller with those bytes (and all
    earlier ones) applied. *)
Theorem main_loop_reports {HW : Hardware} {K : nat} {UA : Uart K} {cap : nat} {ST : Steady cap}
    {RE : ReportEndpoints} rounds fuel w :
  (K < fuel)%nat -> (cap < fuel)%nat -> (8 < fuel)%nat ->
  USB_DeviceState w = DEVICE_STATE_Configured ->
  exists w' chunks, main_loop rounds fuel w = Ret tt w' /\
    length chunks = rounds /\ ((0 < rounds)%nat -> head chunks = Some (rx (tr w))) /\
    reads_of UDR1 (tr w') = reads_of UDR1 (tr w) ++ concat chunks /\
    app w' = commands (concat chunks) (app w) /\
    packets (tr w') = packets (tr w) ++ reports chunks (app w).
Proof. apply main_loop_run. Qed.

(** A board that has received [input] and whose host always polls. *)
Definition station_hw (input : list Z) : Hardware :=
  {| hw_read := fun t r => match r with
                           | UCSR1A | UDR1 => line_read input t r
                           | _ => hw_read (Hardware := polling_hw) t r
                           end;
     hw_irq := fun _ => false; hw_signature := fun _ => 0 |}.

Definition station_uart (input : list Z) (Hu : Forall is_u8 input) : Uart (HW := station_hw input) 0 :=
  line_uart (HW := station_hw input) input Hu (fun _ => eq_refl) (fun _ => eq_refl).

Lemma station_steady input Hu : Steady (UA := station_uart input Hu) (length input).
Proof.
  split; cbn [rx tx_wait station_uart line_uart].
  - intros t. rewrite length_drop. lia.
  - intros t. by apply Forall_drop.
  - done.
  - intros t Ht. cbn. by rewrite Ht.
Qed.

Lemma station_endpoints input : ReportEndpoints (HW := station_hw input).
Proof. split; cbn; intros t; try done; by intros ->. Qed.

Lemma main_loop_reports_witness :
  exists w' chunks, main_loop (HW := station_hw [3; 38; 49]) 2 9 configured_world = Ret tt w' /\
    length chunks = 2%nat /\ ((0 < 2)%nat -> head chunks = Some [3; 38; 49]) /\
    reads_of UDR1 (tr w') = [] ++ concat chunks /\
    app w' = commands (concat chunks) (app configured_world) /\
    packets (tr w') = [] ++ reports chunks (app configured_world).
Proof.
  assert (Forall is_u8 [3; 38; 49]) as Hu by (repeat constructor; done).
  apply (main_loop_reports (HW := station_hw [3; 38; 49]) (UA := station_uart _ Hu)
           (ST := station_steady _ Hu) (RE := station_endpoints [3; 38; 49]) 2 9 configured_world);
    [lia|cbn; lia|lia|reflexivity].
Defined.

(** ** Reports are well formed *)

(** A report as the host decodes it: two bytes of buttons, of which only the 14 of the
    controller are pressed, a hat direction of the descriptor or centred, four axes at
    an end or centred, a zero vendor byte. *)
Definition report_ok (r : list Z) : Prop :=
  exists b0 b1 h lx ly rx ry, r = [b0; b1; h; lx; ly; rx; ry; 0] /\
    is_u8 b0 /\ 0 <= b1 < 2 ^ 6 /\ hat_ok h /\ axis_ok lx /\ axis_ok ly /\ axis_ok rx /\ axis_ok ry.

Lemma controller_report v : controller_ok v -> report_ok (enc_report v).
Proof.
  intros (Hb & Hh & Hlx & Hly & Hrx & Hry & Hv). unfold enc_report. rewrite Hv.
  assert (forall a, axis_ok a -> is_u8 a) as HA by (by intros a [->|[->| ->]]).
  assert (is_u8 (HAT v)) by (by destruct Hh as [->|[->|[->|[->| ->]]]]).
  rewrite (u8_small (HAT v)), (u8_small (LX v)), (u8_small (LY v)), (u8_small (RX v)), (u8_small (RY v)) by auto.
  eexists _, _, _, _, _, _, _. split; [reflexivity|]. split; [apply u8_range|]. split; [|done].
  unfold u8. rewrite Z.shiftr_div_pow2 by lia. change (2 ^ 8) with 256. change (2 ^ 6) with 64. change (2 ^ 14) with 16384 in Hb.
  pose proof (Z.div_mod (Button v) 256). pose proof (Z.mod_pos_bound (Button v) 256). rewrite Z.mod_small; lia.
Qed.

Lemma reports_ok chunks v : controller_ok v ->
  Forall (fun p => fst p = 1 /\ report_ok (snd p)) (reports chunks v).
Proof.
  revert v. induction chunks as [|cs chunks IH]; intros v Hv; constructor.
  - split; [done|]. by apply controller_report, commands_ok.
  - by apply IH, commands_ok.
Qed.

Lemma length_reports chunks v : length (reports chunks v) = length chunks.
Proof. revert v. induction chunks as [|cs chunks IH]; intros v; [done|]. cbn. by rewrite IH. Qed.

(** C34: Whatever bytes arrive, the controller stays well formed and so is what it
    reports.  On any hardware, the controller is well formed after any number of rounds
    of [main]; and from a world with a configured device whose controller is well formed,
    on a steady board, every round of the loop sends one packet on the report endpoint,
    and each packet is a well formed report: eight bytes, only the 14 buttons of the
    controller, a hat direction of the descriptor or centred, every axis at an end or
    centred, a zero vendor byte. *)
Theorem main_controller_ok :
  (forall (HW : Hardware) (LIBC : AvrLibc) (LF : LibcFrame LIBC) rounds fuel w w',
     main rounds fuel w = Ret tt w' -> controller_ok (app w')) /\
  (forall (HW : Hardware) (K : nat) (UA : Uart K) (cap : nat) (ST : Steady cap) (RE : ReportEndpoints) rounds fuel w,
     (K < fuel)%nat -> (cap < fuel)%nat -> (8 < fuel)%nat ->
     USB_DeviceState w = DEVICE_STATE_Configured -> controller_ok (app w) ->
     exists w' ps, main_loop rounds fuel w = Ret tt w' /\ packets (tr w') = packets (tr w) ++ ps /\
       length ps = rounds /\ Forall (fun p => fst p = 1 /\ report_ok (snd p)) ps /\ controller_ok (app w')).
Proof.
  split; [intros; by eapply main_ok|]. intros HW K UA cap ST RE rounds fuel w HK Hc H8 Hst Hok.
  destruct (main_loop_run rounds fuel w HK Hc H8 Hst) as (w' & chunks & E & Hl & _ & _ & Ha & Hp).
  exists w', (reports chunks (app w)). rewrite length_reports, Ha.
  split_and!; auto using reports_ok, commands_ok.
Qed.

Lemma main_controller_ok_witness :
  controller_ok (app (demo_end [1; 37; 255; 23] 3 30)) /\
  exists w' ps, main_loop (HW := station_hw [3; 38; 49]) 2 9
      (upd_app initVirtualController configured_world) = Ret tt w' /\ packets (tr w') = [] ++ ps /\
    length ps = 2%nat /\ Forall (fun p => fst p = 1 /\ report_ok (snd p)) ps /\ controller_ok (app w').
Proof.
  destruct main_controller_ok as [H1 H2]. split.
  - apply (H1 (line_hw [1; 37; 255; 23]) no_libc no_libc_frame 3%nat 30%nat power_on). vm_compute. reflexivity.
  - assert (Forall is_u8 [3; 38; 49]) as Hu by (repeat constructor; done).
    apply (H2 (station_hw [3; 38; 49]) _ (station_uart _ Hu) _ (station_steady _ Hu) (station_endpoints [3; 38; 49])
      2%nat 9%nat (upd_app initVirtualController configured_world)); [lia|cbn; lia|lia|reflexivity|apply init_ok].
Defined.
