(* ===== verification/HostProtocol.v ===== *)
(** The desktop side of the serial protocol and its agreement with the firmware:
    the PGCon columns of the Java enumerations NintendoSwitchStandardButton,
    NintendoSwitchBaseStick and NintendoSwitchStandardStick and the bytes
    PGConProtocol sends, against an abstract game pad. *)

From stdpp Require Import base tactics option list numbers gmap sets.
From Stdlib Require Import ZArith Lia.
From S2P Require Import Prelude Hardware Serial Joystick JoystickSpec.

(** ** The Java enumerations *)

Inductive StandardButton : Set :=
  | A | B | X | Y | L | R | ZL | ZR | L_STICK | R_STICK
  | D_TOP | D_BOTTOM | D_LEFT | D_RIGHT | PLUS | MINUS | HOME | CAPTURE.

#[export] Instance StandardButton_eq_dec : EqDecision StandardButton.
Proof. solve_decision. Defined.

Definition all_buttons : list StandardButton :=
  [A; B; X; Y; L; R; ZL; ZR; L_STICK; R_STICK; D_TOP; D_BOTTOM; D_LEFT; D_RIGHT;
   PLUS; MINUS; HOME; CAPTURE].

Definition holdCommandPGCon (b : StandardButton) : Z :=
  match b with
  | A => 1 | B => 3 | X => 5 | Y => 7 | L => 9 | R => 11 | ZL => 13 | ZR => 15
  | L_STICK => 17 | R_STICK => 19 | D_TOP => 21 | D_BOTTOM => 23 | D_LEFT => 25 | D_RIGHT => 27
  | PLUS => 29 | MINUS => 31 | HOME => 33 | CAPTURE => 35
  end.
Definition releaseCommandPGCon (b : StandardButton) : Z :=
  match b with
  | A => 2 | B => 4 | X => 6 | Y => 8 | L => 10 | R => 12 | ZL => 14 | ZR => 16
  | L_STICK => 18 | R_STICK => 20 | D_TOP => 22 | D_BOTTOM => 24 | D_LEFT => 26 | D_RIGHT => 28
  | PLUS => 30 | MINUS => 32 | HOME => 34 | CAPTURE => 36
  end.
Definition isHat (b : StandardButton) : bool :=
  match b with D_TOP | D_BOTTOM | D_LEFT | D_RIGHT => true | _ => false end.

Inductive BaseStick : Set :=
  | LX_MIN | LX_MAX | LX_CENTER | LY_MIN | LY_MAX | LY_CENTER
  | RX_MIN | RX_MAX | RX_CENTER | RY_MIN | RY_MAX | RY_CENTER.

Definition commandPGCon (s : BaseStick) : Z :=
  match s with
  | LX_MIN => 37 | LX_MAX => 38 | LX_CENTER => 39 | LY_MIN => 40 | LY_MAX => 41 | LY_CENTER => 42
  | RX_MIN => 43 | RX_MAX => 44 | RX_CENTER => 45 | RY_MIN => 46 | RY_MAX => 47 | RY_CENTER => 48
  end.

Inductive StandardStick : Set :=
  | L_TOP | L_TOP_RIGHT | L_RIGHT | L_BOTTOM_RIGHT | L_BOTTOM | L_BOTTOM_LEFT | L_LEFT
  | L_TOP_LEFT | L_CENTER
  | R_TOP | R_TOP_RIGHT | R_RIGHT | R_BOTTOM_RIGHT | R_BOTTOM | R_BOTTOM_LEFT | R_LEFT
  | R_TOP_LEFT | R_CENTER.

(** The constructor arguments [actionX] and [actionY] of each member. *)
Definition stick_actions (s : StandardStick) : BaseStick * BaseStick :=
  match s with
  | L_TOP => (LX_CENTER, LY_MIN)
  | L_TOP_RIGHT => (LX_MAX, LY_MIN)
  | L_RIGHT => (LX_MAX, LY_CENTER)
  | L_BOTTOM_RIGHT => (LX_MAX, LY_MAX)
  | L_BOTTOM => (LX_CENTER, LY_MAX)
  | L_BOTTOM_LEFT => (LX_MIN, LY_MAX)
  | L_LEFT => (LX_MIN, LY_CENTER)
  | L_TOP_LEFT => (LX_MIN, LY_MIN)
  | L_CENTER => (LX_CENTER, LY_CENTER)
  | R_TOP => (RX_CENTER, LY_MIN)
  | R_TOP_RIGHT => (RX_MAX, LY_MIN)
  | R_RIGHT => (RX_MAX, RY_CENTER)
  | R_BOTTOM_RIGHT => (RX_MAX, RY_MAX)
  | R_BOTTOM => (RX_CENTER, RY_MAX)
  | R_BOTTOM_LEFT => (RX_MIN, RY_MAX)
  | R_LEFT => (RX_MIN, RY_CENTER)
  | R_TOP_LEFT => (RX_MIN, LY_MIN)
  | R_CENTER => (RX_CENTER, RY_CENTER)
  end.
Definition xCommandPGCon (s : StandardStick) : Z := commandPGCon (fst (stick_actions s)).
Definition yCommandPGCon (s : StandardStick) : Z := commandPGCon (snd (stick_actions s)).

(** The bytes the methods of [PGConProtocol] send. *)
Definition hold (b : StandardButton) : list Z := [holdCommandPGCon b].
Definition release (b : StandardButton) : list Z := [releaseCommandPGCon b].
Definition set_stick (s : StandardStick) : list Z := [xCommandPGCon s; yCommandPGCon s].
Definition clear : list Z := [49].

(** ** The abstract game pad *)

Inductive direction : Set := Up | Down | Left_ | Right_.
Inductive tilt : Set := Low | Mid | High.
Record gamepad : Type := mkPad {
  pressed : gset Z;               (** buttons held, by report bit *)
  dpad : option direction;
  left_stick : tilt * tilt;
  right_stick : tilt * tilt
}.
Definition neutral : gamepad := mkPad ∅ None (Mid, Mid) (Mid, Mid).

(** The report bit of a button and the direction of a hat. *)
Definition button_bit (b : StandardButton) : Z :=
  match b with
  | Y => 0 | B => 1 | A => 2 | X => 3 | L => 4 | R => 5 | ZL => 6 | ZR => 7
  | MINUS => 8 | PLUS => 9 | L_STICK => 10 | R_STICK => 11 | HOME => 12 | CAPTURE => 13
  | _ => -1
  end.
Definition hat_direction (b : StandardButton) : option direction :=
  match b with
  | D_TOP => Some Up | D_BOTTOM => Some Down | D_LEFT => Some Left_ | D_RIGHT => Some Right_
  | _ => None
  end.

(** What the operations of the protocol promise. *)
Definition pad_hold (b : StandardButton) (g : gamepad) : gamepad :=
  if isHat b then mkPad (pressed g) (hat_direction b) (left_stick g) (right_stick g)
  else mkPad ({[button_bit b]} ∪ pressed g) (dpad g) (left_stick g) (right_stick g).
Definition pad_release (b : StandardButton) (g : gamepad) : gamepad :=
  if isHat b then mkPad (pressed g) None (left_stick g) (right_stick g)
  else mkPad (pressed g ∖ {[button_bit b]}) (dpad g) (left_stick g) (right_stick g).
Definition stick_position (s : StandardStick) : bool * (tilt * tilt) :=
  match s with
  | L_TOP => (true, (Mid, Low)) | L_TOP_RIGHT => (true, (High, Low))
  | L_RIGHT => (true, (High, Mid)) | L_BOTTOM_RIGHT => (true, (High, High))
  | L_BOTTOM => (true, (Mid, High)) | L_BOTTOM_LEFT => (true, (Low, High))
  | L_LEFT => (true, (Low, Mid)) | L_TOP_LEFT => (true, (Low, Low)) | L_CENTER => (true, (Mid, Mid))
  | R_TOP => (false, (Mid, Low)) | R_TOP_RIGHT => (false, (High, Low))
  | R_RIGHT => (false, (High, Mid)) | R_BOTTOM_RIGHT => (false, (High, High))
  | R_BOTTOM => (false, (Mid, High)) | R_BOTTOM_LEFT => (false, (Low, High))
  | R_LEFT => (false, (Low, Mid)) | R_TOP_LEFT => (false, (Low, Low)) | R_CENTER => (false, (Mid, Mid))
  end.
Definition pad_set_left (p : tilt * tilt) (g : gamepad) : gamepad :=
  mkPad (pressed g) (dpad g) p (right_stick g).

(** ** The game pad a report stands for *)

Definition view_tilt (a : Z) : tilt := if a <? 128 then Low else if a =? 128 then Mid else High.
Definition view_hat (h : Z) : option direction :=
  if h =? HAT_TOP then Some Up else if h =? HAT_RIGHT then Some Right_
  else if h =? HAT_BOTTOM then Some Down else if h =? HAT_LEFT then Some Left_ else None.
Definition bits : list Z := seqZ 0 14.
Definition view (v : Virtual_Controller) : gamepad :=
  mkPad (list_to_set (filter (fun i => Z.testbit (Button v) i = true) bits)) (view_hat (HAT v))
    (view_tilt (LX v), view_tilt (LY v)) (view_tilt (RX v), view_tilt (RY v)).

Lemma elem_of_pressed v i :
  i ∈ pressed (view v) <-> Z.testbit (Button v) i = true /\ 0 <= i < 14.
Proof.
  unfold view, bits. cbn. rewrite elem_of_list_to_set, list_elem_of_filter, elem_of_seqZ.
  intuition lia.
Qed.

Lemma testbit_u16 x i : 0 <= i < 14 -> Z.testbit (u16 x) i = Z.testbit x i.
Proof. intros Hi. unfold u16. change 65536 with (2 ^ 16). apply Z.mod_pow2_bits_low. lia. Qed.

Lemma view_press v i : 0 <= i < 14 ->
  view (Button_or (bit i) v) = mkPad ({[i]} ∪ pressed (view v)) (dpad (view v))
                                 (left_stick (view v)) (right_stick (view v)).
Proof.
  intros Hi. unfold view at 1. f_equal. apply set_eq. intros j.
  change (j ∈ pressed (view (Button_or (bit i) v)) <-> j ∈ {[i]} ∪ pressed (view v)).
  rewrite elem_of_union, !elem_of_pressed, elem_of_singleton. cbn.
  destruct (decide (0 <= j < 14)); [|intuition lia].
  rewrite testbit_u16, Z.lor_spec, testbit_bit, orb_true_iff, Z.eqb_eq by lia. intuition lia.
Qed.

Lemma view_release v i : 0 <= i < 14 ->
  view (Button_and_not (bit i) v) = mkPad (pressed (view v) ∖ {[i]}) (dpad (view v))
                                      (left_stick (view v)) (right_stick (view v)).
Proof.
  intros Hi. unfold view at 1. f_equal. apply set_eq. intros j.
  change (j ∈ pressed (view (Button_and_not (bit i) v)) <-> j ∈ pressed (view v) ∖ {[i]}).
  rewrite elem_of_difference, !elem_of_pressed, elem_of_singleton. cbn.
  destruct (decide (0 <= j < 14)); [|intuition lia].
  rewrite testbit_u16, Z.land_spec, Z.lnot_spec, testbit_bit, andb_true_iff, negb_true_iff,
    Z.eqb_neq by lia. intuition lia.
Qed.

(** ** The operations one by one *)

(** Holding any of the 18 buttons adds its bit to those held, or points the hat. *)
Lemma hold_refines b v : view (commands (hold b) v) = pad_hold b (view v).
Proof.
  destruct b; unfold pad_hold, isHat, button_bit; try reflexivity;
    [apply (view_press v 2)|apply (view_press v 1)|apply (view_press v 3)|apply (view_press v 0)
    |apply (view_press v 4)|apply (view_press v 5)|apply (view_press v 6)|apply (view_press v 7)
    |apply (view_press v 10)|apply (view_press v 11)|apply (view_press v 9)|apply (view_press v 8)
    |apply (view_press v 12)|apply (view_press v 13)]; lia.
Qed.

(** Releasing one removes exactly its bit, or centres the hat. *)
Lemma release_refines b v : view (commands (release b) v) = pad_release b (view v).
Proof.
  destruct b; unfold pad_release, isHat, button_bit; try reflexivity; by apply view_release.
Qed.

Lemma set_left_stick_refines s p v : stick_position s = (true, p) ->
  view (commands (set_stick s) v) = pad_set_left p (view v).
Proof. destruct s; cbn; intros [= <-]; reflexivity. Qed.

(** [clear] returns the game pad to neutral from every state. *)
Lemma clear_refines v : view (commands clear v) = neutral.
Proof. vm_compute. reflexivity. Qed.

(** ** Sequences of operations *)

Inductive pad_op : Set :=
  | Hold (b : StandardButton) | Release (b : StandardButton) | SetStick (s : StandardStick) | Clear.

(** The bytes the desktop application sends for an operation. *)
Definition sends (o : pad_op) : list Z :=
  match o with Hold b => hold b | Release b => release b | SetStick s => set_stick s | Clear => clear end.

(** What the operation promises. *)
Definition pad_step (g : gamepad) (o : pad_op) : gamepad :=
  match o with
  | Hold b => pad_hold b g
  | Release b => pad_release b g
  | SetStick s =>
      let '(is_left, p) := stick_position s in
      if is_left : bool then pad_set_left p g else mkPad (pressed g) (dpad g) (left_stick g) p
  | Clear => neutral
  end.

(** The operations that leave the right stick alone. *)
Definition left_only (o : pad_op) : bool :=
  match o with SetStick s => fst (stick_position s) | _ => true end.

Lemma op_refines o v : left_only o = true -> view (commands (sends o) v) = pad_step (view v) o.
Proof.
  destruct o as [b|b|s|]; cbn [left_only sends pad_step].
  - intros _. apply hold_refines.
  - intros _. apply release_refines.
  - destruct (stick_position s) as [[] p] eqn:E; [|done]. intros _. by apply set_left_stick_refines.
  - intros _. apply clear_refines.
Qed.

Lemma ops_refine os v : Forall (fun o => left_only o = true) os ->
  view (commands (concat (map sends os)) v) = foldl pad_step (view v) os.
Proof.
  intros H. revert v; induction H as [|o os Ho _ IH]; intros v; [done|]. cbn [map concat foldl].
  by rewrite commands_app, IH, op_refines.
Qed.

(** No operation is answered. *)
Lemma sends_silent o : concat (map reply (sends o)) = [].
Proof. by destruct o as [[]|[]|[]|]. Qed.

Lemma ops_silent os : concat (map reply (concat (map sends os))) = [].
Proof.
  induction os as [|o os IH]; [done|]. cbn [map concat]. by rewrite map_app, concat_app, sends_silent, IH.
Qed.

(** ** Theorems *)

(** C2: The firmware implements the game pad the desktop application works with: when
    [main] has read the bytes of a sequence of operations (buttons and hat held and
    released, positions of the left stick, clear) the controller it reports is the
    neutral pad after these operations, in order, with every other control where it
    was, and nothing is sent back. *)
Theorem protocol_refines {HW : Hardware} {LIBC : AvrLibc} {LF : LibcFrame LIBC} rounds fuel os w w' :
  Forall (fun o => left_only o = true) os -> main rounds fuel w = Ret tt w' ->
  reads_of UDR1 (tr w') = reads_of UDR1 (tr w) ++ concat (map sends os) ->
  view (app w') = foldl pad_step neutral os /\ writes_to UDR1 (tr w') = writes_to UDR1 (tr w).
Proof.
  intros Ho (cs & _ & Hr & Ha & Hw)%main_run Hin. cbn [tr app upd_app] in *.
  rewrite Hr in Hin. apply app_inv_head in Hin as ->. rewrite Ha, Hw, ops_silent, app_nil_r.
  split; [|done]. by rewrite ops_refine.
Qed.

Definition demo_ops : list pad_op :=
  [Hold D_TOP; Hold A; SetStick L_TOP_RIGHT; Hold ZR; Release A; Release D_TOP].

Lemma protocol_refines_witness :
  let w' := demo_end (concat (map sends demo_ops)) 8 30 in
  view (app w') = foldl pad_step neutral demo_ops /\ writes_to UDR1 (tr w') = writes_to UDR1 (tr power_on).
Proof.
  cbv zeta. apply (protocol_refines (HW := line_hw (concat (map sends demo_ops))) (LIBC := no_libc)
    (LF := no_libc_frame) 8 30 demo_ops power_on); [by repeat constructor|..]; vm_compute; reflexivity.
Defined.

(** A position of the right stick moves its horizontal axis as promised, but its
    vertical axis stays where it was and the left stick takes the vertical position
    instead. *)
Theorem set_right_stick_moves_left s px py v : stick_position s = (false, (px, py)) ->
  view (commands (set_stick s) v)
    = mkPad (pressed (view v)) (dpad (view v)) (fst (left_stick (view v)), py)
            (px, snd (right_stick (view v))).
Proof. destruct s; cbn; intros [= <- <-]; reflexivity. Qed.
