(* ===== verification/RequestSpec.v ===== *)
(** Correctness of the control request handler (DeviceStandardReq.v) as linked
    into the controller: requests it refuses, SET_CONFIGURATION and SET_ADDRESS. *)

From stdpp Require Import base tactics option list numbers.
From Stdlib Require Import ZArith Lia.
From S2P Require Import Prelude Hardware Endpoint EndpointSpec USBController ControlStream.
From S2P Require Import DeviceStandardReq ControlRequest Descriptors Joystick JoystickSpec.

(** ** Refused requests *)

(** The (bmRequestType, bRequest) pairs the device handles: the standard requests
    of a device, interface and endpoint recipient, and the two HID requests. *)
Definition supported : list (Z * Z) :=
  [(0x80, REQ_GetStatus); (0x82, REQ_GetStatus);
   (0x00, REQ_ClearFeature); (0x02, REQ_ClearFeature);
   (0x00, REQ_SetFeature); (0x02, REQ_SetFeature);
   (0x00, REQ_SetAddress); (0x80, REQ_GetDescriptor); (0x81, REQ_GetDescriptor);
   (0x80, REQ_GetConfiguration); (0x00, REQ_SetConfiguration);
   (0xA1, HID_REQ_GetReport); (0x21, HID_REQ_SetReport)].

Definition is_read (e : event) : Prop := match e with Rd _ _ => True | Wr _ _ => False end.

(** The world after some reads. *)
Definition after_reads {App} (ext : trace) (w : World App) : World App := upd_tr (fun t => ext ++ t) w.

Section Refused.
Context {HW : Hardware}.
Abbreviation P := (prog (World Virtual_Controller)).

Ltac refused Hn :=
  repeat match goal with
  | |- context [?rq =? ?r] => destruct (rq =? r) eqn:?
  end; bool_hyps; try reflexivity; exfalso; try lia;
  apply Hn; subst; apply (bool_decide_unpack (_ ∈ supported)); vm_compute; exact I.

Lemma ControlRequest_ignores fuel (w : World Virtual_Controller) :
  let req := USB_ControlRequest w in
  (bmRequestType req, bRequest req) ∉ supported -> Joystick_ControlRequest fuel w = Ret tt w.
Proof.
  intros req Hn. unfold Joystick_ControlRequest, when, mbind at 1, prog_bind at 1, gets at 1. fold req.
  generalize dependent (bmRequestType req). generalize (bRequest req). intros rq bm Hn. unfold HID_REQ_GetReport, HID_REQ_SetReport.
  change (Z.lor (Z.lor REQDIR_DEVICETOHOST REQTYPE_CLASS) REQREC_INTERFACE) with 0xA1.
  change (Z.lor (Z.lor REQDIR_HOSTTODEVICE REQTYPE_CLASS) REQREC_INTERFACE) with 0x21.
  refused Hn.
Qed.

Lemma dispatch_ignores fuel bm rq (w : World Virtual_Controller) :
  (bm, rq) ∉ supported -> dispatch_request fuel bm rq w = Ret tt w.
Proof.
  intros Hn. unfold dispatch_request, when. cbn zeta beta.
  change (Z.lor (Z.lor REQDIR_DEVICETOHOST REQTYPE_STANDARD) REQREC_DEVICE) with 0x80.
  change (Z.lor (Z.lor REQDIR_DEVICETOHOST REQTYPE_STANDARD) REQREC_INTERFACE) with 0x81.
  change (Z.lor (Z.lor REQDIR_DEVICETOHOST REQTYPE_STANDARD) REQREC_ENDPOINT) with 0x82.
  change (Z.lor (Z.lor REQDIR_HOSTTODEVICE REQTYPE_STANDARD) REQREC_DEVICE) with 0x00.
  change (Z.lor (Z.lor REQDIR_HOSTTODEVICE REQTYPE_STANDARD) REQREC_ENDPOINT) with 0x02.
  unfold REQ_GetStatus, REQ_ClearFeature, REQ_SetFeature, REQ_SetAddress, REQ_GetDescriptor,
    REQ_GetConfiguration, REQ_SetConfiguration.
  refused Hn.
Qed.
End Refused.

(** C36: A request the device does not support is refused and has no other effect:
    while the SETUP flag stays set until it is acknowledged,
    [USB_Device_ProcessControlRequest] terminates, having only read registers,
    acknowledged the SETUP packet and requested a STALL; the controller and the
    globals of the stack keep their values but for the stored request. *)
Theorem unsupported_request_stalled {HW : Hardware} fuel (w : World Virtual_Controller) req w1 :
  read_request_header w = Ret req w1 ->
  (bmRequestType req, bRequest req) ∉ supported ->
  (forall ext, Forall is_read ext ->
     tst (u8 (hw_read (ext ++ tr w) UEINTX)) (bit RXSTPI) = true) ->
  exists ext v c, Forall is_read ext /\
    USB_Device_ProcessControlRequest fuel w =
      Ret tt (upd_ControlRequest req (upd_tr (fun t =>
        Wr UECONX (set_mask c (bit STALLRQ)) :: Rd UECONX c ::
        Wr UEINTX (clr_mask v (bit RXSTPI)) :: Rd UEINTX v :: ext ++ t) w)).
Proof.
  intros Hread Hn Hset.
  assert (exists ext, Forall is_read ext /\ w1 = upd_tr (fun t => ext ++ t) w) as (ext & He & ->).
  { revert Hread. unfold read_request_header, Endpoint_Read_8, rd, mbind, prog_bind.
    intros [= <- <-]. eexists [Rd _ _; Rd _ _; Rd _ _; Rd _ _; Rd _ _; Rd _ _; Rd _ _; Rd _ _].
    split; [repeat constructor|reflexivity]. }
  set (s1 := hw_read (ext ++ tr w) UEINTX). set (e1 := Rd UEINTX (u8 s1)).
  set (s2 := hw_read (e1 :: ext ++ tr w) UEINTX). set (e2 := Rd UEINTX (u8 s2)).
  assert (tst (u8 s1) (bit RXSTPI) = true) as H1 by (by apply Hset).
  assert (tst (u8 s2) (bit RXSTPI) = true) as H2 by (apply (Hset (e1 :: ext)); by constructor).
  exists (e2 :: e1 :: ext). eexists _, _. split; [by repeat constructor|].
  unfold USB_Device_ProcessControlRequest. unfold mbind at 1, prog_bind at 1. rewrite Hread.
  unfold mbind at 1, prog_bind at 1, modify. cbn [EVENT_USB_Device_ControlRequest JoystickRequests].
  unfold mbind at 1, prog_bind at 1. rewrite ControlRequest_ignores by done.
  unfold Endpoint_IsSETUPReceived, test_bits, rd, mbind, prog_bind, mret, prog_ret, when, gets.
  cbn [tr upd_tr upd_ControlRequest reg_trunc]. fold s1. fold e1. rewrite H1.
  cbn [USB_ControlRequest upd_tr upd_ControlRequest]. rewrite dispatch_ignores by done.
  cbn [tr upd_tr upd_ControlRequest]. fold s2. fold e2. rewrite H2. reflexivity.
Qed.

(** A board that received a vendor request: the eight bytes are 0xC0. *)
Definition vendor_hw : Hardware :=
  {| hw_read := fun t r => match r with UEDATX => 0xC0 | UEINTX => bit RXSTPI | _ => 0 end;
     hw_irq := fun _ => false; hw_signature := fun _ => 0 |}.

Lemma unsupported_request_stalled_witness :
  exists ext v c, Forall is_read ext /\
    USB_Device_ProcessControlRequest (HW := vendor_hw) (RQ := JoystickRequests (HW := vendor_hw))
      10 power_on =
      Ret tt (upd_ControlRequest (mkRequest 0xC0 0xC0 0xC0C0 0xC0C0 0xC0C0) (upd_tr (fun t =>
        Wr UECONX (set_mask c (bit STALLRQ)) :: Rd UECONX c ::
        Wr UEINTX (clr_mask v (bit RXSTPI)) :: Rd UEINTX v :: ext ++ t) power_on)).
Proof.
  eapply (unsupported_request_stalled (HW := vendor_hw) 10 power_on).
  - reflexivity.
  - apply (bool_decide_unpack (_ ∉ supported)). vm_compute. exact I.
  - intros ext _. reflexivity.
Defined.

(** ** Set configuration *)

Definition same_dev (w w' : World Virtual_Controller) : Prop :=
  USB_DeviceState w' = USB_DeviceState w /\
  USB_Device_ConfigurationNumber w' = USB_Device_ConfigurationNumber w /\
  USB_ControlRequest w' = USB_ControlRequest w.

#[local] Instance same_dev_preorder : PreOrder same_dev.
Proof. split; [done|]. unfold same_dev. intros w1 w2 w3. intuition congruence. Qed.

Section Same.
Context {HW : Hardware}.

Lemma same_rd r : keeps same_dev (rd r).
Proof. done. Qed.
Lemma same_wr r v : keeps same_dev (wr r v).
Proof. done. Qed.
#[local] Hint Resolve same_rd same_wr : keeps.

Lemma same_ConfigureEndpoint fuel a t s b :
  keeps same_dev (Endpoint_ConfigureEndpoint fuel a t s b).
Proof.
  assert (forall n e num d0 d1, keeps same_dev (ConfigureEndpoint_loop n e num d0 d1)) as H.
  { intros n. induction n as [|n IH]; intros; cbn [ConfigureEndpoint_loop]; keeps_tac. }
  unfold Endpoint_ConfigureEndpoint, Endpoint_ConfigureEndpoint_Prv. keeps_tac.
Qed.

(** The re-allocation loop ends whatever the controller answers. *)
Lemma ConfigureEndpoint_ends fuel a t s b (w : World Virtual_Controller) :
  s <= 32768 -> (13 <= fuel)%nat ->
  wp true (Endpoint_ConfigureEndpoint fuel a t s b) (fun _ w' => same_dev w w') w.
Proof.
  intros Hs Hf. assert (forall n e num d0 d1 w,
    wp true (ConfigureEndpoint_loop (App := Virtual_Controller) n e num d0 d1) (fun _ _ => True) w) as H.
  { intros n. induction n as [|n IH]; intros e num d0 d1 w0; cbn [ConfigureEndpoint_loop]; [done|].
    unfold Endpoint_SelectEndpoint, Endpoint_DisableEndpoint, Endpoint_EnableEndpoint,
      Endpoint_IsConfigured, clr_bits, set_bits, test_bits.
    hw_steps; first [done | apply IH]. }
  assert (wp true (Endpoint_ConfigureEndpoint fuel a t s b) (fun _ _ => True) w) as Ht.
  { unfold Endpoint_ConfigureEndpoint. destruct (_ <=? _); [done|].
    destruct (EPSizeMask_loop_finds fuel 0 s) as (m & Hm & _); [lia|lia|done|cbn; lia|].
    unfold Endpoint_BytesToEPSizeMask. change (8 * 2 ^ 0) with 8 in Hm. rewrite Hm. apply H. }
  pose proof (same_ConfigureEndpoint fuel a t s b w) as Hk. revert Ht. unfold wp.
  by destruct (Endpoint_ConfigureEndpoint _ _ _ _ _ w).
Qed.

Lemma ConfigurationChanged_ends fuel (w : World Virtual_Controller) : (13 <= fuel)%nat ->
  wp true (Joystick_ConfigurationChanged fuel) (fun _ w' => same_dev w w') w.
Proof.
  intros Hf. unfold Joystick_ConfigurationChanged, JOYSTICK_EPSIZE.
  apply wp_bind. eapply wp_mono; [by apply ConfigureEndpoint_ends|]. intros ok w1 H1.
  apply wp_bind. eapply wp_mono; [by apply ConfigureEndpoint_ends|]. intros ok2 w2 H2.
  apply wp_ret. by transitivity w1.
Qed.
End Same.

(** SET_CONFIGURATION terminates against a ready host: a configuration the
    device does not have leaves the device unchanged; otherwise the configuration
    number becomes the one asked for and the device state follows from it: it is
    Configured for configuration 1, and for configuration 0 it is Configured when
    the device has an address and Powered when it has none. *)
Theorem SetConfiguration_result {HW : Hardware} {RH : ReadyHost} fuel addressed
    (w : World Virtual_Controller) :
  (forall t, tst (u8 (hw_read t UDADDR)) (bit ADDEN) = addressed) -> (13 <= fuel)%nat ->
  tst (bmRequestType (USB_ControlRequest w)) REQDIR_DEVICETOHOST = false ->
  selected (tr w) = 0 -> bank (tr w) = [] ->
  let c := u8 (wValue (USB_ControlRequest w)) in
  exists w', USB_Device_SetConfiguration fuel w = Ret tt w' /\
    if 1 <? c then w' = w
    else USB_Device_ConfigurationNumber w' = c /\
         USB_DeviceState w' =
           (if (c =? 1) || addressed then DEVICE_STATE_Configured else DEVICE_STATE_Powered).
Proof.
  intros Haddr Hf Hd Hs Hb c. apply wp_total_run_unit. unfold USB_Device_SetConfiguration.
  apply wp_bind, wp_gets. fold c. unfold FIXED_NUM_CONFIGURATIONS.
  destruct (1 <? c) eqn:Ec; [done|]. apply Z.ltb_ge in Ec.
  assert (c = 0 \/ c = 1) as Hc by (pose proof (u8_range (wValue (USB_ControlRequest w))) as [? ?]; fold c in H; lia).
  pose proof (ctl_start w Hs) as H0. rewrite Hb in H0.
  apply wp_bind. ctl_step ClearSETUP_ctl H0. intros [] w1 H1.
  pose proof (ctl_request _ _ _ _ H1) as Hq.
  apply wp_bind, wp_modify, wp_bind. set (w1' := upd_ConfigurationNumber _ w1).
  assert (ctl [] [] w1' w1') as H1'.
  { destruct H1 as (_ & Hs1 & Hb1 & _). pose proof (ctl_start w1' Hs1) as H1.
    change (bank (tr w1')) with (bank (tr w1)) in H1. by rewrite Hb1 in H1. }
  ctl_step StatusIN_ctl H1'; [cbn; by rewrite Hq|].
  intros [] w2 H2. destruct (ctl_globals _ _ _ _ H2) as (_ & Hn & _). cbn in Hn.
  apply wp_bind, wp_gets. rewrite Hn, (u8_small c) by (unfold is_u8; lia).
  apply wp_bind. unfold USB_Device_IsAddressSet, test_bits.
  destruct Hc as [-> | ->]; cbn [negb Z.eqb]; hw_steps;
    (eapply wp_mono; [by apply ConfigurationChanged_ends|]); intros [] w3 (Hst & Hcn & _);
    cbn in Hst, Hcn; rewrite Hst, Hcn, Hn, ?Haddr; by destruct addressed.
Qed.

(** A board whose device has an address and whose host answers at once. *)
Definition addressed_hw : Hardware :=
  {| hw_read := fun t r => match r with
       | UDADDR => Z.lor (bit ADDEN) 5 | UEINTX => bit TXINI | UESTA0X => bit CFGOK | _ => 0 end;
     hw_irq := fun _ => false; hw_signature := fun _ => 0 |}.

Lemma addressed_ready : ReadyHost (HW := addressed_hw).
Proof. split; done. Qed.

Definition setcfg_world (n : Z) : World Virtual_Controller :=
  upd_DeviceState DEVICE_STATE_Configured (upd_ControlRequest (mkRequest 0 9 n 0 0) power_on).

Lemma SetConfiguration_result_witness :
  exists w', USB_Device_SetConfiguration (HW := addressed_hw)
      (RQ := JoystickRequests (HW := addressed_hw)) 20 (setcfg_world 0) = Ret tt w' /\
    USB_Device_ConfigurationNumber w' = 0 /\ USB_DeviceState w' = DEVICE_STATE_Configured.
Proof.
  apply (SetConfiguration_result (HW := addressed_hw) (RH := addressed_ready) 20 true (setcfg_world 0));
    try reflexivity. lia.
Defined.

(** ** Set address *)

Lemma enable_bit o v :
  let a := Z.land v 0x7F in Z.lor (Z.lor (Z.land o (bit ADDEN)) a) (bit ADDEN) = 128 + a.
Proof.
  intros a. change (bit ADDEN) with 128. assert (Z.land a 128 = 0) as Hd.
  { subst a. rewrite <- Z.land_assoc. change (Z.land 0x7F 128) with 0. apply Z.land_0_r. }
  rewrite <- (Z.add_lor_land 128 a), (Z.land_comm 128 a), Hd, Z.add_0_r.
  apply Z.bits_inj'. intros i Hi. rewrite !Z.lor_spec, Z.land_spec.
  by destruct (Z.testbit 128 i), (Z.testbit o i), (Z.testbit a i).
Qed.

Lemma land7_range v : 0 <= Z.land v 0x7F < 128.
Proof. change 0x7F with (Z.ones 7). rewrite Z.land_ones by lia. by apply Z.mod_pos_bound. Qed.

Lemma addr_range o v : is_u8 o -> is_u8 (Z.lor (Z.land o (bit ADDEN)) (Z.land v 0x7F)).
Proof.
  intros Ho. unfold is_u8. change 256 with (2 ^ 8). apply lor_range; [lia|by apply land_range|].
  pose proof (land7_range v). lia.
Qed.

(** SET_ADDRESS terminates against a ready host and takes effect only after its
    status stage: the last write enables the new address in UDADDR, at a point where
    exactly the empty status packet has been sent and the register already holds the
    address; the device is then Addressed, or Default for address 0. *)
Theorem SetAddress_result {HW : Hardware} {RH : ReadyHost} fuel (w : World Virtual_Controller) :
  (forall t, u8 (hw_read t UDADDR) = u8 (reg_val UDADDR t)) -> (0 < fuel)%nat ->
  tst (bmRequestType (USB_ControlRequest w)) REQDIR_DEVICETOHOST = false ->
  selected (tr w) = 0 -> bank (tr w) = [] ->
  let a := Z.land (wValue (USB_ControlRequest w)) 0x7F in
  exists w' v t, USB_Device_SetAddress fuel w = Ret tt w' /\
    tr w' = Wr UDADDR (128 + a) :: Rd UDADDR v :: t /\
    packets t = packets (tr w) ++ [(0, [])] /\
    reg_val UDADDR t = Z.lor (Z.land (u8 (reg_val UDADDR (tr w))) (bit ADDEN)) a /\
    USB_DeviceState w' = if a =? 0 then DEVICE_STATE_Default else DEVICE_STATE_Addressed.
Proof.
  intros Haddr Hf Hd Hs Hb a. enough (wp true (USB_Device_SetAddress fuel) (fun _ w' => exists v t,
    tr w' = Wr UDADDR (128 + a) :: Rd UDADDR v :: t /\
    packets t = packets (tr w) ++ [(0, [])] /\
    reg_val UDADDR t = Z.lor (Z.land (u8 (reg_val UDADDR (tr w))) (bit ADDEN)) a /\
    USB_DeviceState w' = if a =? 0 then DEVICE_STATE_Default else DEVICE_STATE_Addressed) w) as H.
  { apply wp_total_run_unit in H as (w' & E & v & t & H). by exists w', v, t. }
  unfold USB_Device_SetAddress. apply wp_bind, wp_gets. fold a.
  unfold USB_Device_SetDeviceAddress. apply wp_bind, wp_bind, wp_rd, wp_wr. cbn [reg_trunc].
  rewrite Haddr. replace (Z.land a 0x7F) with a by (subst a; by rewrite <- Z.land_assoc).
  rewrite (u8_small (Z.lor _ a)) by apply addr_range, u8_range.
  apply wp_seq. eapply wp_mono; [by apply finish_request|]. intros [] w2 H2.
  destruct H2 as (_ & Hs2 & Hb2 & Hp2 & Hr2). specialize (Hr2 UDADDR ltac:(done) ltac:(done)). cbn in Hp2.
  cbn [tr upd_tr reg_val] in Hr2. rewrite decide_True in Hr2 by done.
  apply wp_bind. destruct fuel as [|fuel]; [lia|]. cbn [while_].
  unfold Endpoint_IsINReady, test_bits. apply wp_bind, wp_bind, wp_bind, wp_rd, wp_ret, wp_ret.
  cbn [reg_trunc]. rewrite rh_in by done. apply wp_ret.
  unfold USB_Device_EnableDeviceAddress, set_bits. apply wp_bind, wp_bind, wp_rd, wp_wr, wp_modify.
  cbn [reg_trunc]. rewrite Haddr. cbn [tr upd_tr reg_val]. rewrite Hr2.
  rewrite (u8_small (Z.lor _ a)) by apply addr_range, u8_range.
  pose proof (enable_bit (u8 (reg_val UDADDR (tr w))) (wValue (USB_ControlRequest w))) as He.
  cbn zeta in He. fold a in He. rewrite He.
  eexists _, (Rd UEINTX _ :: tr w2). split; [|split; [exact Hp2|split; [exact Hr2|]]].
  - cbn [tr upd_DeviceState upd_tr]. do 2 f_equal. apply u8_small.
    pose proof (land7_range (wValue (USB_ControlRequest w))). unfold is_u8. subst a. lia.
  - cbn. by destruct (a =? 0).
Qed.

(** A board whose address register reads back and whose IN bank is free. *)
Definition address_hw : Hardware :=
  {| hw_read := fun t r => match r with UDADDR => reg_val UDADDR t | UEINTX => bit TXINI | _ => 0 end;
     hw_irq := fun _ => false; hw_signature := fun _ => 0 |}.

Lemma address_ready : ReadyHost (HW := address_hw).
Proof. split; done. Qed.

Definition setaddr_world : World Virtual_Controller :=
  upd_DeviceState DEVICE_STATE_Default (upd_ControlRequest (mkRequest 0 5 9 0 0) power_on).

Lemma SetAddress_result_witness :
  exists w' v t, USB_Device_SetAddress (HW := address_hw) 20 setaddr_world = Ret tt w' /\
    tr w' = Wr UDADDR (128 + 9) :: Rd UDADDR v :: t /\
    packets t = [] ++ [(0, [])] /\
    reg_val UDADDR t = Z.lor (Z.land (u8 0) (bit ADDEN)) 9 /\
    USB_DeviceState w' = DEVICE_STATE_Addressed.
Proof.
  apply (SetAddress_result (HW := address_hw) (RH := address_ready) 20 setaddr_world);
    try reflexivity. lia.
Defined.
