(* ===== verification/FeatureSpec.v ===== *)
(** GET_STATUS, SET_FEATURE and CLEAR_FEATURE: what DeviceStandardReq.c answers
    and stores. *)

From stdpp Require Import base tactics option list numbers.
From Stdlib Require Import ZArith Lia.
From S2P Require Import Prelude Hardware Endpoint USBController ControlStream.
From S2P Require Import DeviceStandardReq ControlRequest Joystick JoystickSpec.

Abbreviation VC := Virtual_Controller.

(** The status words of the USB specification: self powered and remote wake-up
    for the device, halted for an endpoint. *)
Definition device_status (w : World VC) : Z :=
  (if USB_Device_CurrentlySelfPowered w then 1 else 0) +
  (if USB_Device_RemoteWakeupEnabled w then 2 else 0).

Definition endpoint_halted {HW : Hardware} (ep : Z) (t : trace) : bool :=
  tst (u8 (hw_read (Wr UENUM ep :: t) UECONX)) (bit STALLRQ).

(** The endpoint a request names. *)
Definition request_endpoint (w : World VC) : Z := Z.land (u8 (wIndex (USB_ControlRequest w))) 0x0F.

Section Status.
Context {HW : Hardware} {RH : ReadyHost}.

(** Sending the two bytes of a status word and taking the acknowledgement. *)
Lemma send_status fuel v (w0 w : World VC) : is_u8 v -> (0 < fuel)%nat ->
  (forall t, selected t = 0 -> (length (packets (tr w0)) < length (packets t))%nat ->
     tst (u8 (hw_read t UEINTX)) (bit RXOUTI) = true) ->
  tst (bmRequestType (USB_ControlRequest w)) REQDIR_DEVICETOHOST = true ->
  selected (tr w) = 0 -> bank (tr w) = [] -> packets (tr w) = packets (tr w0) ->
  wp true (Endpoint_ClearSETUP;; Endpoint_Write_16_LE v;; Endpoint_ClearIN;;
           Endpoint_ClearStatusStage fuel)
    (fun _ w' => packets (tr w') = packets (tr w0) ++ [(0, [v; 0])]) w.
Proof.
  intros Hv Hf Hout Hd Hs Hb Hp. pose proof (ctl_start w Hs) as H. rewrite Hb in H.
  apply wp_bind. ctl_step ClearSETUP_ctl H. intros [] w1 H1.
  unfold Endpoint_Write_16_LE. change 0xFF with (Z.ones 8). unfold is_u8 in Hv.
  rewrite Z.land_ones, Z.shiftr_div_pow2, Z.div_small, (Z.mod_small v) by lia.
  apply wp_bind, wp_bind. ctl_step Write_8_ctl H1. intros [] w2 H2. ctl_step Write_8_ctl H2.
  intros [] w3 H3. apply wp_bind. ctl_step ClearIN_ctl H3. intros [] w4 H4.
  ctl_step StatusOUT_ctl H4. { by rewrite Hp. }
  intros [] w5 (_ & _ & _ & Hp5 & _). rewrite Hp5, Hp. done.
Qed.
End Status.

(** GET_STATUS terminates against a host that acknowledges the answer, having
    sent exactly one packet with the status word: for the device its power source
    and whether remote wake-up is enabled, for an endpoint that exists whether it
    is halted. *)
Theorem GetStatus_answers {HW : Hardware} {RH : ReadyHost} fuel (w : World VC) :
  (forall t, selected t = 0 -> (length (packets (tr w)) < length (packets t))%nat ->
     tst (u8 (hw_read t UEINTX)) (bit RXOUTI) = true) ->
  (0 < fuel)%nat -> selected (tr w) = 0 -> bank (tr w) = [] ->
  let bm := bmRequestType (USB_ControlRequest w) in
  bm = 0x80 \/ (bm = 0x82 /\ request_endpoint w < ENDPOINT_TOTAL_ENDPOINTS) ->
  exists w', USB_Device_GetStatus fuel w = Ret tt w' /\
    packets (tr w') = packets (tr w) ++
      [(0, [if bm =? 0x80 then device_status w
            else if endpoint_halted (request_endpoint w) (tr w) then 1 else 0; 0])].
Proof.
  intros Hout Hf Hs Hb bm Hbm. apply wp_total_run_unit. unfold USB_Device_GetStatus, GetStatus_value.
  apply wp_bind, wp_bind, wp_gets. fold bm.
  change (Z.lor (Z.lor REQDIR_DEVICETOHOST REQTYPE_STANDARD) REQREC_DEVICE) with 0x80.
  change (Z.lor (Z.lor REQDIR_DEVICETOHOST REQTYPE_STANDARD) REQREC_ENDPOINT) with 0x82.
  destruct Hbm as [Hbm|[Hbm He]]; rewrite Hbm; cbn [Z.eqb Pos.eqb].
  - apply wp_bind, wp_gets, wp_bind, wp_gets, wp_ret. eapply wp_mono.
    + apply (send_status fuel _ w); try done; [|by fold bm; rewrite Hbm].
      destruct (USB_Device_CurrentlySelfPowered w), (USB_Device_RemoteWakeupEnabled w); done.
    + intros [] w' ->. unfold device_status.
      by destruct (USB_Device_CurrentlySelfPowered w), (USB_Device_RemoteWakeupEnabled w).
  - change ENDPOINT_EPNUM_MASK with 0x0F. fold (request_endpoint w).
    rewrite (proj2 (Z.leb_gt _ _) He).
    assert (u8 (Z.land (request_endpoint w) 0x0F) = request_endpoint w) as Hep.
    { unfold request_endpoint. rewrite <- Z.land_assoc. apply u8_small. unfold is_u8.
      change 256 with (2 ^ 8). apply land_range; [lia|]. apply u8_range. }
    unfold Endpoint_SelectEndpoint, Endpoint_IsStalled, test_bits. change ENDPOINT_EPNUM_MASK with 0x0F.
    apply wp_bind, wp_wr, wp_bind, wp_bind, wp_rd, wp_ret, wp_bind, wp_wr, wp_ret.
    cbn [reg_trunc tr upd_tr]. rewrite Hep. fold (endpoint_halted (request_endpoint w) (tr w)).
    eapply wp_mono.
    + apply (send_status fuel _ w); try done; [by destruct (endpoint_halted _ _)|].
      cbn. by fold bm; rewrite Hbm.
    + by intros [] w' ->.
Qed.

(** SET_FEATURE and CLEAR_FEATURE for remote wake-up terminate against a ready
    host: they enable or disable it, send the empty status packet and nothing else,
    and the change shows in the next device status. *)
Theorem RemoteWakeup_feature {HW : Hardware} {RH : ReadyHost} fuel (w : World VC) :
  (0 < fuel)%nat -> bmRequestType (USB_ControlRequest w) = 0 ->
  u8 (wValue (USB_ControlRequest w)) = FEATURE_SEL_DeviceRemoteWakeup ->
  let on := bRequest (USB_ControlRequest w) =? REQ_SetFeature in
  exists w', USB_Device_ClearSetFeature fuel w = Ret tt w' /\
    USB_Device_RemoteWakeupEnabled w' = on /\
    device_status w' = (if USB_Device_CurrentlySelfPowered w then 1 else 0) + (if on then 2 else 0) /\
    packets (tr w') = packets (tr w) ++ [(0, [])].
Proof.
  intros Hf Hbm Hv on. apply wp_total_run_unit. unfold USB_Device_ClearSetFeature, ClearSetFeature_apply.
  apply wp_bind, wp_bind, wp_gets. rewrite Hbm, Hv. cbn [Z.land Z.eqb REQREC_DEVICE Pos.eqb
    FEATURE_SEL_DeviceRemoteWakeup]. apply wp_bind, wp_modify, wp_ret. fold on.
  unfold when, Endpoint_SelectEndpoint. apply wp_bind, wp_wr.
  eapply wp_mono; [apply finish_request; [done|done|done|cbn; by rewrite Hbm]|].
  intros [] w' Hc. destruct (ctl_globals _ _ _ _ Hc) as (_ & _ & _ & Hr & Hsp & _).
  destruct Hc as (_ & _ & _ & Hp & _). cbn in Hr, Hsp, Hp.
  unfold device_status. rewrite Hr, Hsp, Hp. done.
Qed.

(** A board whose host answers at once and whose endpoints are halted. *)
Definition halted_hw : Hardware :=
  {| hw_read := fun t r => match r with
       | UEINTX => Z.lor (bit TXINI) (bit RXOUTI) | UECONX => bit STALLRQ | _ => 0 end;
     hw_irq := fun _ => false; hw_signature := fun _ => 0 |}.

Lemma halted_ready : ReadyHost (HW := halted_hw).
Proof. split; done. Qed.

Lemma GetStatus_answers_witness :
  exists w', USB_Device_GetStatus (HW := halted_hw) 5
      (upd_ControlRequest (mkRequest 0x82 0 0 0x81 2) power_on) = Ret tt w' /\
    packets (tr w') = [] ++ [(0, [1; 0])].
Proof.
  apply (GetStatus_answers (HW := halted_hw) (RH := halted_ready) 5
           (upd_ControlRequest (mkRequest 0x82 0 0 0x81 2) power_on)); try reflexivity.
  - lia.
  - right. split; reflexivity.
Defined.

Lemma RemoteWakeup_feature_witness :
  exists w', USB_Device_ClearSetFeature (HW := halted_hw) 5
      (upd_ControlRequest (mkRequest 0 3 1 0 0) power_on) = Ret tt w' /\
    USB_Device_RemoteWakeupEnabled w' = true /\ device_status w' = 0 + 2 /\
    packets (tr w') = [] ++ [(0, [])].
Proof.
  apply (RemoteWakeup_feature (HW := halted_hw) (RH := halted_ready) 5
           (upd_ControlRequest (mkRequest 0 3 1 0 0) power_on)); try reflexivity. lia.
Defined.
