(* ===== verification/ConfigDescriptors.v ===== *)
(** Walking a configuration descriptor: LUFA/Drivers/USB/Core/
    ConfigDescriptors.[ch].

    The descriptor lies in memory [mem]; a position is the pair
    [(BytesRem, CurrConfigLoc)] the C functions update through their pointers.
    The search loops take fuel: [None] is a loop that has not ended. *)

From stdpp Require Import base tactics option list numbers.
From Stdlib Require Import ZArith Lia.
From S2P Require Import Prelude StdDescriptors.

(** [enum DSearch_Return_ErrorCodes_t] and [enum DSearch_Comp_Return_ErrorCodes_t] *)
Definition DESCRIPTOR_SEARCH_Found : Z := 0.
Definition DESCRIPTOR_SEARCH_Fail : Z := 1.
Definition DESCRIPTOR_SEARCH_NotFound : Z := 2.
Definition DESCRIPTOR_SEARCH_COMP_EndOfDescriptor : Z := 2.

Section Walk.
Context (mem : Z -> Z).

Definition DESCRIPTOR_SIZE (p : Z) : Z := u8 (mem p).
Definition DESCRIPTOR_TYPE (p : Z) : Z := u8 (mem (p + 1)).

Definition USB_GetNextDescriptor (s : Z * Z) : Z * Z :=
  let '(BytesRem, CurrConfigLoc) := s in
  let CurrDescriptorSize := DESCRIPTOR_SIZE CurrConfigLoc in
  let CurrDescriptorSize :=
    if BytesRem <? CurrDescriptorSize then BytesRem else CurrDescriptorSize in
  (u16 (BytesRem - CurrDescriptorSize), CurrConfigLoc + CurrDescriptorSize).

Fixpoint USB_GetNextDescriptorOfType (fuel : nat) (s : Z * Z) (Type_ : Z) : option (Z * Z) :=
  if fst s =? 0 then Some s
  else
    match fuel with
    | O => None
    | S fuel =>
        let s' := USB_GetNextDescriptor s in
        if DESCRIPTOR_TYPE (snd s') =? Type_ then Some s'
        else USB_GetNextDescriptorOfType fuel s' Type_
    end.

Fixpoint USB_GetNextDescriptorOfTypeBefore (fuel : nat) (s : Z * Z) (Type_ BeforeType : Z)
    : option (Z * Z) :=
  if fst s =? 0 then Some s
  else
    match fuel with
    | O => None
    | S fuel =>
        let s' := USB_GetNextDescriptor s in
        if DESCRIPTOR_TYPE (snd s') =? Type_ then Some s'
        else if DESCRIPTOR_TYPE (snd s') =? BeforeType then Some (0, snd s')
        else USB_GetNextDescriptorOfTypeBefore fuel s' Type_ BeforeType
    end.

Definition USB_GetNextDescriptorOfTypeAfter (fuel : nat) (s : Z * Z) (Type_ AfterType : Z)
    : option (Z * Z) :=
  s' ← USB_GetNextDescriptorOfType fuel s AfterType;
  if negb (fst s' =? 0) then USB_GetNextDescriptorOfType fuel s' Type_ else Some s'.

(** The comparator gets the address of a descriptor. *)
Fixpoint USB_GetNextDescriptorComp (fuel : nat) (s : Z * Z) (ComparatorRoutine : Z -> Z)
    : option (Z * (Z * Z)) :=
  if fst s =? 0 then Some (DESCRIPTOR_SEARCH_COMP_EndOfDescriptor, s)
  else
    match fuel with
    | O => None
    | S fuel =>
        let s' := USB_GetNextDescriptor s in
        let ErrorCode := ComparatorRoutine (snd s') in
        if negb (ErrorCode =? DESCRIPTOR_SEARCH_NotFound) then
          Some (ErrorCode, if ErrorCode =? DESCRIPTOR_SEARCH_Fail then s else s')
        else USB_GetNextDescriptorComp fuel s' ComparatorRoutine
    end.
End Walk.
