(* ===== verification/ConfigDescriptorsSpec.v ===== *)
(** Correctness of the configuration descriptor search (ConfigDescriptors.v). *)

From stdpp Require Import base tactics option list numbers.
From Stdlib Require Import ZArith Lia.
From S2P Require Import Prelude StdDescriptors Descriptors ConfigDescriptors.

Section Walk.
Context (mem : Z -> Z).

(** The position after [n] descriptors. *)
Fixpoint walk (n : nat) (s : Z * Z) : Z * Z :=
  match n with
  | O => s
  | S n => walk n (USB_GetNextDescriptor mem s)
  end.

(** A step keeps the end of the descriptor and moves on when the length is not
    zero. *)
Lemma next_end s : is_u16 (fst s) ->
  let s' := USB_GetNextDescriptor mem s in
  fst s' + snd s' = fst s + snd s /\ 0 <= fst s' <= fst s /\
  (1 <= DESCRIPTOR_SIZE mem (snd s) -> 0 < fst s -> fst s' < fst s).
Proof.
  destruct s as [rem loc]. unfold is_u16. cbn. intros Hr.
  pose proof (u8_range (mem loc)) as Hs. fold (DESCRIPTOR_SIZE mem loc) in Hs. unfold is_u8 in Hs.
  destruct (_ <? _) eqn:E; bool_hyps; rewrite u16_small by (unfold is_u16; lia); lia.
Qed.

(** Every descriptor visited before the end has a non-zero length. *)
Definition nonzero_sizes (s : Z * Z) : Prop :=
  forall n, 0 < fst (walk n s) -> 1 <= DESCRIPTOR_SIZE mem (snd (walk n s)).

Lemma nonzero_next s : nonzero_sizes s -> nonzero_sizes (USB_GetNextDescriptor mem s).
Proof. intros H n. exact (H (S n)). Qed.

(** What a search for [T] from [s] must find: the first descriptor of the type after
    the current one, or the end. *)
Definition found (T : Z) (s s' : Z * Z) : Prop :=
  exists n, s' = walk n s /\ 
    (forall k, (0 < k < n)%nat -> 0 < fst (walk k s) /\ DESCRIPTOR_TYPE mem (snd (walk k s)) <> T) /\
    (fst s' = 0 \/ ((0 < n)%nat /\ DESCRIPTOR_TYPE mem (snd s') = T)).

Lemma found_next T s s' : is_u16 (fst s) -> fst s <> 0 ->
  fst (USB_GetNextDescriptor mem s) <> 0 ->
  DESCRIPTOR_TYPE mem (snd (USB_GetNextDescriptor mem s)) <> T ->
  found T (USB_GetNextDescriptor mem s) s' -> found T s s'.
Proof.
  intros Hu Hn Hr HT (n & -> & Hk & He). exists (S n). split; [done|]. split.
  - intros [|[|k]] Hkn; [lia| |apply (Hk (S k)); lia]. cbn.
    destruct (next_end s Hu) as (_ & Hpos & _). lia.
  - destruct He as [He|[Hn0 He]]; [by left|]. right. split; [lia|done].
Qed.

Lemma OfType_finds fuel s T : is_u16 (fst s) -> nonzero_sizes s -> fst s <= Z.of_nat fuel ->
  exists s', USB_GetNextDescriptorOfType mem fuel s T = Some s' /\ found T s s' /\
    fst s' + snd s' = fst s + snd s.
Proof.
  revert s; induction fuel as [|fuel IH]; intros s Hu Hz Hf; cbn;
    (destruct (fst s =? 0) eqn:E; bool_hyps;
     [exists s; split; [done|]; split; [exists 0%nat; split; [done|]; split; [lia|by left]|done]|]).
  { unfold is_u16 in Hu. lia. }
  destruct (next_end s Hu) as (Hend & Hle & Hlt). unfold is_u16 in Hu.
  specialize (Hlt (Hz 0%nat ltac:(cbn; lia)) ltac:(lia)).
  set (s1 := USB_GetNextDescriptor mem s) in *.
  assert (is_u16 (fst s1)) as Hu1 by (unfold is_u16; lia).
  destruct (DESCRIPTOR_TYPE mem (snd s1) =? T) eqn:ET; bool_hyps.
  - exists s1. split; [done|]. split; [|done]. exists 1%nat. split; [done|]. split; [lia|].
    right. split; [lia|done].
  - destruct (IH s1 Hu1 (nonzero_next s Hz) ltac:(lia)) as (s' & E' & Hfd & He').
    exists s'. split; [done|]. split; [|lia].
    destruct (decide (fst s1 = 0)) as [H0|H0]; [|by apply found_next].
    destruct fuel; cbn in E'; rewrite H0 in E'; injection E' as <-;
      (exists 1%nat; split; [done|]; split; [lia|by left]).
Qed.
End Walk.

(** In a configuration whose descriptors have non-zero lengths, the search for a
    descriptor type ends within as many steps as there are bytes, at the first
    descriptor of that type after the current one or at the end of the data, and
    never moves past the end. *)
Theorem GetNextDescriptorOfType_finds mem fuel s T :
  is_u16 (fst s) -> nonzero_sizes mem s -> fst s <= Z.of_nat fuel ->
  exists s', USB_GetNextDescriptorOfType mem fuel s T = Some s' /\ found mem T s s' /\
    fst s' + snd s' = fst s + snd s.
Proof. apply OfType_finds. Qed.

(** The firmware's own configuration descriptor in memory from address 0. *)
Definition config_mem (p : Z) : Z :=
  nth (Z.to_nat p) (enc_configuration ConfigurationDescriptor) 0.

Lemma walk_end mem n l : walk mem n (0, l) = (0, l).
Proof.
  induction n as [|n IH]; [done|]. cbn.
  pose proof (u8_range (mem l)) as Hs. fold (DESCRIPTOR_SIZE mem l) in Hs. unfold is_u8 in Hs.
  destruct (0 <? DESCRIPTOR_SIZE mem l) eqn:E; bool_hyps.
  - by rewrite Z.add_0_r.
  - assert (DESCRIPTOR_SIZE mem l = 0) as -> by lia. by rewrite Z.add_0_r.
Qed.

Lemma config_nonzero : nonzero_sizes config_mem (sizeof_Configuration, 0).
Proof.
  intros n. do 5 (destruct n as [|n]; [vm_compute; congruence|]).
  change (walk config_mem (S (S (S (S (S n))))) (sizeof_Configuration, 0))
    with (walk config_mem n (walk config_mem 5 (sizeof_Configuration, 0))).
  replace (walk config_mem 5 (sizeof_Configuration, 0)) with (0, 41) by (vm_compute; reflexivity).
  rewrite walk_end. cbn. lia.
Qed.

Lemma GetNextDescriptorOfType_finds_witness :
  exists s', USB_GetNextDescriptorOfType config_mem 41 (41, 0) DTYPE_Endpoint = Some s' /\
    found config_mem DTYPE_Endpoint (41, 0) s' /\ fst s' + snd s' = 41 + 0.
Proof.
  apply (GetNextDescriptorOfType_finds config_mem 41 (41, 0)).
  - vm_compute. split; congruence.
  - apply config_nonzero.
  - cbn. lia.
Defined.

(** A descriptor of length zero hangs the search: unless it has the type sought,
    the loop never ends, whatever else the descriptor holds. *)
Theorem zero_length_descriptor_hangs mem fuel rem loc T :
  0 < rem < 65536 -> DESCRIPTOR_SIZE mem loc = 0 -> DESCRIPTOR_TYPE mem loc <> T ->
  USB_GetNextDescriptorOfType mem fuel (rem, loc) T = None.
Proof.
  intros Hr Hs HT. assert (USB_GetNextDescriptor mem (rem, loc) = (rem, loc)) as Hn.
  { unfold USB_GetNextDescriptor. rewrite Hs. destruct (rem <? 0) eqn:?; bool_hyps; [lia|].
    rewrite Z.sub_0_r, Z.add_0_r, u16_small by (unfold is_u16; lia). done. }
  induction fuel as [|fuel IH]; cbn [USB_GetNextDescriptorOfType fst];
    rewrite (proj2 (Z.eqb_neq rem 0)) by lia; [done|].
  rewrite Hn. cbn [snd]. by rewrite (proj2 (Z.eqb_neq _ T)).
Qed.

Lemma zero_length_descriptor_hangs_witness :
  USB_GetNextDescriptorOfType (fun _ => 0) 1000 (9, 0) DTYPE_Endpoint = None.
Proof.
  apply zero_length_descriptor_hangs; [lia|reflexivity|vm_compute; discriminate].
Defined.

(** Walking the firmware's configuration descriptor visits its five descriptors in
    order and stops exactly at its end; searching it finds the interface, the HID
    descriptor, the OUT endpoint and then the IN endpoint, and no third one. *)
Theorem joystick_configuration_walk :
  map (fun n => walk config_mem n (sizeof_Configuration, 0)) (seq 0 6)
    = [(41, 0); (32, 9); (23, 18); (14, 27); (7, 34); (0, 41)] /\
  map (fun n => DESCRIPTOR_TYPE config_mem (snd (walk config_mem n (41, 0)))) (seq 0 5)
    = [DTYPE_Configuration; DTYPE_Interface; DTYPE_HID; DTYPE_Endpoint; DTYPE_Endpoint] /\
  USB_GetNextDescriptorOfType config_mem 41 (41, 0) DTYPE_Interface = Some (32, 9) /\
  USB_GetNextDescriptorOfType config_mem 41 (32, 9) DTYPE_HID = Some (23, 18) /\
  USB_GetNextDescriptorOfType config_mem 41 (23, 18) DTYPE_Endpoint = Some (14, 27) /\
  config_mem (27 + 2) = JOYSTICK_OUT_EPADDR /\
  USB_GetNextDescriptorOfType config_mem 41 (14, 27) DTYPE_Endpoint = Some (7, 34) /\
  config_mem (34 + 2) = JOYSTICK_IN_EPADDR /\
  USB_GetNextDescriptorOfType config_mem 41 (7, 34) DTYPE_Endpoint = Some (0, 41).
Proof. repeat split; vm_compute; reflexivity. Qed.
