(* ===== verification/HIDParser.v ===== *)
(** The HID report descriptor parser and the report item accessors:
    LUFA/Drivers/USB/Class/Common/HIDParser.[ch] with its default limits.

    Pointers into the parser's tables are indices.  [ReportData] is the memory
    from the pointer on; reading or copying outside an object is an overrun. *)

From stdpp Require Import base tactics option list numbers.
From Stdlib Require Import ZArith Lia.
From S2P Require Import Prelude StdDescriptors.

Definition HID_STATETABLE_STACK_DEPTH : Z := 2.
Definition HID_USAGE_STACK_DEPTH : Z := 8.
Definition HID_MAX_COLLECTIONS : Z := 10.
Definition HID_MAX_REPORTITEMS : Z := 20.
Definition HID_MAX_REPORT_IDS : Z := 10.

(** [enum HID_Parse_ErrorCodes_t] *)
Definition HID_PARSE_Successful : Z := 0.
Definition HID_PARSE_HIDStackOverflow : Z := 1.
Definition HID_PARSE_HIDStackUnderflow : Z := 2.
Definition HID_PARSE_InsufficientReportItems : Z := 3.
Definition HID_PARSE_UnexpectedEndCollection : Z := 4.
Definition HID_PARSE_InsufficientCollectionPaths : Z := 5.
Definition HID_PARSE_UsageListOverflow : Z := 6.
Definition HID_PARSE_InsufficientReportIDItems : Z := 7.
Definition HID_PARSE_NoUnfilteredReportItems : Z := 8.

Definition HID_REPORT_ITEM_In : Z := 0.
Definition HID_REPORT_ITEM_Out : Z := 1.
Definition HID_REPORT_ITEM_Feature : Z := 2.

(** ** Structures *)

Record HID_MinMax_t : Set := mkMinMax { Minimum : Z; Maximum : Z }.
Record HID_Unit_t : Set := mkUnit { UnitType : Z; Exponent : Z }.
Record HID_Usage_t : Set := mkUsage { Page : Z; Usage : Z }.
Record HID_CollectionPath_t : Set := mkPath {
  cp_Type : Z;
  cp_Usage : HID_Usage_t;
  cp_Parent : option nat   (** index of the parent, [None] for NULL *)
}.
Record HID_ReportItem_Attributes_t : Set := mkAttributes {
  BitSize : Z;
  at_Usage : HID_Usage_t;
  at_Unit : HID_Unit_t;
  Logical : HID_MinMax_t;
  Physical : HID_MinMax_t
}.
Record HID_ReportItem_t : Set := mkItem {
  BitOffset : Z;
  ItemType : Z;
  ItemFlags : Z;
  it_ReportID : Z;
  it_CollectionPath : option nat;
  it_Attributes : HID_ReportItem_Attributes_t;
  Value : Z;
  PreviousValue : Z
}.
Record HID_ReportSizeInfo_t : Set := mkSizeInfo {
  si_ReportID : Z;
  ReportSizeBits : list Z
}.
Record HID_ReportInfo_t : Set := mkInfo {
  TotalReportItems : Z;
  ReportItems : list HID_ReportItem_t;
  CollectionPaths : list HID_CollectionPath_t;
  TotalDeviceReports : Z;
  ReportIDSizes : list HID_ReportSizeInfo_t;
  LargestReportSizeBits : Z;
  UsingReportIDs : bool
}.
Record HID_StateTable_t : Set := mkState {
  st_Attributes : HID_ReportItem_Attributes_t;
  st_ReportCount : Z;
  st_ReportID : Z
}.

(** Sizes of the structures on the AVR: no padding, 2-byte pointers. *)
Definition sizeof_Attributes : Z := 1 + (2 + 2) + (4 + 1) + (4 + 4) + (4 + 4).
Definition sizeof_ReportItem : Z := 2 + 1 + 2 + 1 + 2 + sizeof_Attributes + 4 + 4.
Definition sizeof_StateTable : Z := sizeof_Attributes + 1 + 1.

Definition zero_attributes : HID_ReportItem_Attributes_t :=
  mkAttributes 0 (mkUsage 0 0) (mkUnit 0 0) (mkMinMax 0 0) (mkMinMax 0 0).
Definition zero_item : HID_ReportItem_t := mkItem 0 0 0 0 None zero_attributes 0 0.
Definition zero_path : HID_CollectionPath_t := mkPath 0 (mkUsage 0 0) None.
Definition zero_sizeinfo : HID_ReportSizeInfo_t := mkSizeInfo 0 [0; 0; 0].
Definition zero_state : HID_StateTable_t := mkState zero_attributes 0 0.

(** [memset(ParserData, 0x00, sizeof(HID_ReportInfo_t))] *)
Definition zero_info : HID_ReportInfo_t :=
  mkInfo 0 (replicate 20 zero_item) (replicate 10 zero_path) 0 (replicate 10 zero_sizeinfo) 0 false.

(** The locals of [USB_ProcessHIDReport] and the structure it fills in.
    [UsageList] holds the [UsageListSize] entries in use. *)
Record Parser : Set := mkParser {
  StateTable : list HID_StateTable_t;
  CurrStateTable : nat;
  CurrCollectionPath : option nat;
  CurrReportIDInfo : nat;
  UsageList : list Z;
  UsageMinMax : HID_MinMax_t;
  ParserData : HID_ReportInfo_t
}.

(** A step goes on, returns from the function, or leaves an object. *)
Inductive pres (A : Type) : Type :=
  | Go (a : A)
  | Return (code : Z) (info : HID_ReportInfo_t)
  | Overrun.
Arguments Go {A} a.
Arguments Return {A} code info.
Arguments Overrun {A}.

(** [l[i]]: the element, or an overrun. *)
Definition deref {A B : Type} (l : list A) (i : nat) (k : A -> pres B) : pres B :=
  match l !! i with Some x => k x | None => Overrun end.
(** A store through an index into an array of [n] elements. *)
Definition within {B : Type} (i n : Z) (r : pres B) : pres B :=
  if i <? n then r else Overrun.

(** ** Field updates *)

Definition upd_StateTable (l : list HID_StateTable_t) (p : Parser) : Parser :=
  mkParser l (CurrStateTable p) (CurrCollectionPath p) (CurrReportIDInfo p) (UsageList p)
    (UsageMinMax p) (ParserData p).
Definition upd_Curr (i : nat) (p : Parser) : Parser :=
  mkParser (StateTable p) i (CurrCollectionPath p) (CurrReportIDInfo p) (UsageList p)
    (UsageMinMax p) (ParserData p).
Definition upd_Path (c : option nat) (p : Parser) : Parser :=
  mkParser (StateTable p) (CurrStateTable p) c (CurrReportIDInfo p) (UsageList p)
    (UsageMinMax p) (ParserData p).
Definition upd_IDInfo (i : nat) (p : Parser) : Parser :=
  mkParser (StateTable p) (CurrStateTable p) (CurrCollectionPath p) i (UsageList p)
    (UsageMinMax p) (ParserData p).
Definition upd_UsageList (l : list Z) (p : Parser) : Parser :=
  mkParser (StateTable p) (CurrStateTable p) (CurrCollectionPath p) (CurrReportIDInfo p) l
    (UsageMinMax p) (ParserData p).
Definition upd_MinMax (m : HID_MinMax_t) (p : Parser) : Parser :=
  mkParser (StateTable p) (CurrStateTable p) (CurrCollectionPath p) (CurrReportIDInfo p)
    (UsageList p) m (ParserData p).
Definition upd_Data (d : HID_ReportInfo_t) (p : Parser) : Parser :=
  mkParser (StateTable p) (CurrStateTable p) (CurrCollectionPath p) (CurrReportIDInfo p)
    (UsageList p) (UsageMinMax p) d.

(** [*CurrStateTable] and assignments through it. *)
Definition cur_state (p : Parser) : HID_StateTable_t :=
  default zero_state (StateTable p !! CurrStateTable p).
Definition upd_state (f : HID_StateTable_t -> HID_StateTable_t) (p : Parser) : Parser :=
  upd_StateTable (<[CurrStateTable p := f (cur_state p)]> (StateTable p)) p.
Definition upd_attr (f : HID_ReportItem_Attributes_t -> HID_ReportItem_Attributes_t)
    : Parser -> Parser :=
  upd_state (fun s => mkState (f (st_Attributes s)) (st_ReportCount s) (st_ReportID s)).

Definition upd_items (n : Z) (l : list HID_ReportItem_t) (d : HID_ReportInfo_t)
    : HID_ReportInfo_t :=
  mkInfo n l (CollectionPaths d) (TotalDeviceReports d) (ReportIDSizes d)
    (LargestReportSizeBits d) (UsingReportIDs d).
Definition upd_paths (l : list HID_CollectionPath_t) (d : HID_ReportInfo_t) : HID_ReportInfo_t :=
  mkInfo (TotalReportItems d) (ReportItems d) l (TotalDeviceReports d) (ReportIDSizes d)
    (LargestReportSizeBits d) (UsingReportIDs d).
Definition upd_reports (n : Z) (l : list HID_ReportSizeInfo_t) (d : HID_ReportInfo_t)
    : HID_ReportInfo_t :=
  mkInfo (TotalReportItems d) (ReportItems d) (CollectionPaths d) n l
    (LargestReportSizeBits d) (UsingReportIDs d).
Definition upd_largest (n : Z) (d : HID_ReportInfo_t) : HID_ReportInfo_t :=
  mkInfo (TotalReportItems d) (ReportItems d) (CollectionPaths d) (TotalDeviceReports d)
    (ReportIDSizes d) n (UsingReportIDs d).
Definition upd_using (b : bool) (d : HID_ReportInfo_t) : HID_ReportInfo_t :=
  mkInfo (TotalReportItems d) (ReportItems d) (CollectionPaths d) (TotalDeviceReports d)
    (ReportIDSizes d) (LargestReportSizeBits d) b.

(** ** Items *)

(** The operand of an item, the rest of the data and of the size. *)
Definition item_operand (HIDReportItem : Z) (ReportData : list Z) (ReportSize : Z)
    : option (Z * list Z * Z) :=
  let k := Z.land HIDReportItem HID_RI_DATA_SIZE_MASK in
  if k =? HID_RI_DATA_BITS Bits32 then
    match ReportData with
    | b0 :: b1 :: b2 :: b3 :: rest => Some (of_le32 b0 b1 b2 b3, rest, u16 (ReportSize - 4))
    | _ => None
    end
  else if k =? HID_RI_DATA_BITS Bits16 then
    match ReportData with
    | b0 :: b1 :: rest => Some (of_le16 b0 b1, rest, u16 (ReportSize - 2))
    | _ => None
    end
  else if k =? HID_RI_DATA_BITS Bits8 then
    match ReportData with
    | b0 :: rest => Some (b0, rest, u16 (ReportSize - 1))
    | _ => None
    end
  else Some (0, ReportData, ReportSize).

(** The prefix of an item macro with no data bits, [HID_RI_X(0)] *)
Definition tag (m : DataBits -> Z -> list Z) : Z := hd 0 (m Bits0 0).

Definition item_push (p : Parser) : pres Parser :=
  if Z.of_nat (CurrStateTable p) =? HID_STATETABLE_STACK_DEPTH - 1
  then Return HID_PARSE_HIDStackOverflow (ParserData p)
  else if HID_STATETABLE_STACK_DEPTH * sizeof_StateTable
            <? (Z.of_nat (CurrStateTable p) + 1) * sizeof_StateTable + sizeof_ReportItem
  then Overrun
  else Go (upd_Curr (S (CurrStateTable p))
             (upd_StateTable (<[S (CurrStateTable p) := cur_state p]> (StateTable p)) p)).

Definition item_pop (p : Parser) : pres Parser :=
  match CurrStateTable p with
  | O => Return HID_PARSE_HIDStackUnderflow (ParserData p)
  | S i => Go (upd_Curr i p)
  end.

Definition set_page (v : Z) : Parser -> Parser :=
  upd_attr (fun a => mkAttributes (BitSize a) (mkUsage (u16 v) (Usage (at_Usage a)))
                       (at_Unit a) (Logical a) (Physical a)).

Definition item_usage_page (HIDReportItem ReportItemData : Z) (p : Parser) : pres Parser :=
  let p := if Z.land HIDReportItem HID_RI_DATA_SIZE_MASK =? HID_RI_DATA_BITS Bits32
           then set_page (Z.shiftr ReportItemData 16) p else p in
  Go (set_page ReportItemData p).

(** The global items that only store their operand; [None] for the others. *)
Definition item_attribute (t ReportItemData : Z) (p : Parser) : option Parser :=
  let logical f := upd_attr (fun a => mkAttributes (BitSize a) (at_Usage a) (at_Unit a)
                                        (f (Logical a)) (Physical a)) p in
  let physical f := upd_attr (fun a => mkAttributes (BitSize a) (at_Usage a) (at_Unit a)
                                         (Logical a) (f (Physical a))) p in
  let unit f := upd_attr (fun a => mkAttributes (BitSize a) (at_Usage a) (f (at_Unit a))
                                     (Logical a) (Physical a)) p in
  if t =? tag HID_RI_LOGICAL_MINIMUM
  then Some (logical (fun m => mkMinMax (u32 ReportItemData) (Maximum m)))
  else if t =? tag HID_RI_LOGICAL_MAXIMUM
  then Some (logical (fun m => mkMinMax (Minimum m) (u32 ReportItemData)))
  else if t =? tag HID_RI_PHYSICAL_MINIMUM
  then Some (physical (fun m => mkMinMax (u32 ReportItemData) (Maximum m)))
  else if t =? tag HID_RI_PHYSICAL_MAXIMUM
  then Some (physical (fun m => mkMinMax (Minimum m) (u32 ReportItemData)))
  else if t =? tag HID_RI_UNIT_EXPONENT
  then Some (unit (fun u => mkUnit (UnitType u) (u8 ReportItemData)))
  else if t =? tag HID_RI_UNIT
  then Some (unit (fun u => mkUnit (u32 ReportItemData) (Exponent u)))
  else if t =? tag HID_RI_REPORT_SIZE
  then Some (upd_attr (fun a => mkAttributes (u8 ReportItemData) (at_Usage a) (at_Unit a)
                                  (Logical a) (Physical a)) p)
  else if t =? tag HID_RI_REPORT_COUNT
  then Some (upd_state (fun s => mkState (st_Attributes s) (u8 ReportItemData) (st_ReportID s)) p)
  else None.

(** The search [for (i = 0; i < TotalDeviceReports; i++)] for a report ID. *)
Fixpoint find_report (n i : nat) (id : Z) (l : list HID_ReportSizeInfo_t) : pres (option nat) :=
  match n with
  | O => Go None
  | S n => deref l i (fun s => if si_ReportID s =? id then Go (Some i) else find_report n (S i) id l)
  end.

(** The end of a report ID item: [i] is the report's size information. *)
Definition store_report_id (id : Z) (i : nat) (d : HID_ReportInfo_t) (p : Parser) : pres Parser :=
  let d := upd_using true d in
  let l := ReportIDSizes d in
  deref l i (fun s =>
    let l := <[i := mkSizeInfo id (ReportSizeBits s)]> l in
    Go (upd_IDInfo i (upd_Data (upd_reports (TotalDeviceReports d) l d) p))).

Definition item_report_id (ReportItemData : Z) (p : Parser) : pres Parser :=
  let p := upd_state (fun s => mkState (st_Attributes s) (st_ReportCount s) (u8 ReportItemData)) p in
  let id := st_ReportID (cur_state p) in
  let d := ParserData p in
  if UsingReportIDs d then
    match find_report (Z.to_nat (TotalDeviceReports d)) 0 id (ReportIDSizes d) with
    | Go (Some i) => store_report_id id i d p
    | Go None =>
        if TotalDeviceReports d =? HID_MAX_REPORT_IDS
        then Return HID_PARSE_InsufficientReportIDItems d
        else
          let i := Z.to_nat (TotalDeviceReports d) in
          within (TotalDeviceReports d) HID_MAX_REPORT_IDS
            (store_report_id id i (upd_reports (u8 (TotalDeviceReports d + 1))
                                     (<[i := zero_sizeinfo]> (ReportIDSizes d)) d) p)
    | Return code info => Return code info
    | Overrun => Overrun
    end
  else store_report_id id (CurrReportIDInfo p) d p.

Definition item_usage (ReportItemData : Z) (p : Parser) : pres Parser :=
  if Z.of_nat (length (UsageList p)) =? HID_USAGE_STACK_DEPTH
  then Return HID_PARSE_UsageListOverflow (ParserData p)
  else within (Z.of_nat (length (UsageList p))) HID_USAGE_STACK_DEPTH
         (Go (upd_UsageList (UsageList p ++ [u16 ReportItemData]) p)).

(** The next usage: the head of the list, the running minimum, or neither. *)
Definition take_usage (p : Parser) : option Z * Parser :=
  match UsageList p with
  | u :: rest => (Some u, upd_UsageList rest p)
  | [] =>
      let m := UsageMinMax p in
      if Minimum m <=? Maximum m
      then (Some (u16 (Minimum m)), upd_MinMax (mkMinMax (u32 (Minimum m + 1)) (Maximum m)) p)
      else (None, p)
  end.

(** [while (CurrCollectionPath->Parent != NULL)] from index [i]: the first free
    slot.  The table has [HID_MAX_COLLECTIONS] entries, so [n] of them are enough:
    the loop finds a slot, returns, or reads past the table before they are used up. *)
Fixpoint find_path (n i : nat) (d : HID_ReportInfo_t) : pres nat :=
  match n with
  | O => Overrun
  | S n =>
      deref (CollectionPaths d) i (fun c =>
        match cp_Parent c with
        | None => Go i
        | Some _ =>
            if Z.of_nat i =? HID_MAX_COLLECTIONS - 1
            then Return HID_PARSE_InsufficientCollectionPaths d
            else find_path n (S i) d
        end)
  end.

(** The slot of a new collection, linked to its parent. *)
Definition collection_slot (p : Parser) : pres (nat * list HID_CollectionPath_t) :=
  let d := ParserData p in
  match CurrCollectionPath p with
  | None => Go (0%nat, CollectionPaths d)
  | Some parent =>
      match find_path (Z.to_nat HID_MAX_COLLECTIONS) 1 d with
      | Go i => Go (i, alter (fun c => mkPath (cp_Type c) (cp_Usage c) (Some parent)) i
                         (CollectionPaths d))
      | Return code info => Return code info
      | Overrun => Overrun
      end
  end.

Definition item_collection (ReportItemData : Z) (p : Parser) : pres Parser :=
  match collection_slot p with
  | Go (i, paths) =>
      let page := Page (at_Usage (st_Attributes (cur_state p))) in
      let '(u, p) := take_usage p in
      deref paths i (fun c =>
        let paths := <[i := mkPath (u8 ReportItemData)
                              (mkUsage page (default (Usage (cp_Usage c)) u)) (cp_Parent c)]> paths in
        Go (upd_Path (Some i) (upd_Data (upd_paths paths (ParserData p)) p)))
  | Return code info => Return code info
  | Overrun => Overrun
  end.

Definition item_end_collection (p : Parser) : pres Parser :=
  match CurrCollectionPath p with
  | None => Return HID_PARSE_UnexpectedEndCollection (ParserData p)
  | Some i =>
      deref (CollectionPaths (ParserData p)) i (fun c => Go (upd_Path (cp_Parent c) p))
  end.

Section Process.
(** [CALLBACK_HIDParser_FilterHIDReportItem], implemented by the user, and the
    indeterminate contents of the two fields [NewReportItem] leaves unset. *)
Context (filter : HID_ReportItem_t -> bool) (uninit_Value uninit_PreviousValue : Z).

Definition item_type (t : Z) : Z :=
  if t =? tag HID_RI_INPUT then HID_REPORT_ITEM_In
  else if t =? tag HID_RI_OUTPUT then HID_REPORT_ITEM_Out
  else HID_REPORT_ITEM_Feature.

(** One round of the [for] loop over [ReportCount]. *)
Definition new_item (t ReportItemData : Z) (p : Parser) : pres Parser :=
  let s := cur_state p in
  let path := CurrCollectionPath p in
  let a := st_Attributes s in
  let '(u, p) := take_usage p in
  let a := mkAttributes (BitSize a) (mkUsage (Page (at_Usage a)) (default (Usage (at_Usage a)) u))
             (at_Unit a) (Logical a) (Physical a) in
  let ty := item_type t in
  let d := ParserData p in
  deref (ReportIDSizes d) (CurrReportIDInfo p) (fun info =>
  deref (ReportSizeBits info) (Z.to_nat ty) (fun offset =>
  let item := mkItem offset ty (u16 ReportItemData) (st_ReportID s) path a
                uninit_Value uninit_PreviousValue in
  let bits := u16 (offset + BitSize (st_Attributes s)) in
  let info := mkSizeInfo (si_ReportID info) (<[Z.to_nat ty := bits]> (ReportSizeBits info)) in
  let d := upd_reports (TotalDeviceReports d) (<[CurrReportIDInfo p := info]> (ReportIDSizes d)) d in
  let d := upd_largest (if bits <? LargestReportSizeBits d then LargestReportSizeBits d else bits) d in
  if TotalReportItems d =? HID_MAX_REPORTITEMS
  then Return HID_PARSE_InsufficientReportItems d
  else
    let items := <[Z.to_nat (TotalReportItems d) := item]> (ReportItems d) in
    let n := if negb (tst ReportItemData HID_IOF_CONSTANT) && filter item
             then u8 (TotalReportItems d + 1) else TotalReportItems d in
    within (TotalReportItems d) HID_MAX_REPORTITEMS (Go (upd_Data (upd_items n items d) p)))).

Fixpoint new_items (n : nat) (t ReportItemData : Z) (p : Parser) : pres Parser :=
  match n with
  | O => Go p
  | S n =>
      match new_item t ReportItemData p with
      | Go p => new_items n t ReportItemData p
      | r => r
      end
  end.

(** The switch on the item's type and tag. *)
Definition process_item (HIDReportItem ReportItemData : Z) (p : Parser) : pres Parser :=
  let t := Z.land HIDReportItem (Z.lor HID_RI_TYPE_MASK HID_RI_TAG_MASK) in
  if t =? tag HID_RI_PUSH then item_push p
  else if t =? tag HID_RI_POP then item_pop p
  else if t =? tag HID_RI_USAGE_PAGE then item_usage_page HIDReportItem ReportItemData p
  else if t =? tag HID_RI_REPORT_ID then item_report_id ReportItemData p
  else if t =? tag HID_RI_USAGE then item_usage ReportItemData p
  else if t =? tag HID_RI_USAGE_MINIMUM
  then Go (upd_MinMax (mkMinMax (u32 ReportItemData) (Maximum (UsageMinMax p))) p)
  else if t =? tag HID_RI_USAGE_MAXIMUM
  then Go (upd_MinMax (mkMinMax (Minimum (UsageMinMax p)) (u32 ReportItemData)) p)
  else if t =? tag HID_RI_COLLECTION then item_collection ReportItemData p
  else if t =? tag HID_RI_END_COLLECTION then item_end_collection p
  else if (t =? tag HID_RI_INPUT) || (t =? tag HID_RI_OUTPUT) || (t =? tag HID_RI_FEATURE)
  then new_items (Z.to_nat (st_ReportCount (cur_state p))) t ReportItemData p
  else
    match item_attribute t ReportItemData p with
    | Some p => Go p
    | None => Go p
    end.

(** A main item ends the scope of the local items. *)
Definition reset_locals (HIDReportItem : Z) (p : Parser) : Parser :=
  if Z.land HIDReportItem HID_RI_TYPE_MASK =? HID_RI_TYPE_MAIN
  then upd_UsageList [] (upd_MinMax (mkMinMax 0 0) p) else p.

(** [while (ReportSize)].  Every round reads at least one byte, so [fuel] is
    the number of bytes there are. *)
Fixpoint parse_loop (fuel : nat) (ReportData : list Z) (ReportSize : Z) (p : Parser)
    : pres Parser :=
  if ReportSize =? 0 then Go p
  else
    match fuel, ReportData with
    | S fuel, HIDReportItem :: rest =>
        match item_operand HIDReportItem rest (u16 (ReportSize - 1)) with
        | None => Overrun
        | Some (ReportItemData, rest, ReportSize) =>
            match process_item HIDReportItem ReportItemData p with
            | Go p => parse_loop fuel rest ReportSize (reset_locals HIDReportItem p)
            | r => r
            end
        end
    | _, _ => Overrun
    end.

(** The locals at the start, after the [memset]s. *)
Definition parser_init : Parser :=
  mkParser (replicate 2 zero_state) 0 None 0 [] (mkMinMax 0 0)
    (upd_reports 1 (ReportIDSizes zero_info) zero_info).

(** The error code and the structure filled in; [None] is an overrun. *)
Definition USB_ProcessHIDReport (ReportData : list Z) (ReportSize : Z)
    : option (Z * HID_ReportInfo_t) :=
  match parse_loop (length ReportData) ReportData ReportSize parser_init with
  | Go p =>
      Some (if TotalReportItems (ParserData p) =? 0
            then (HID_PARSE_NoUnfilteredReportItems, ParserData p)
            else (HID_PARSE_Successful, ParserData p))
  | Return code info => Some (code, info)
  | Overrun => None
  end.
End Process.

(** ** Report item access *)

Definition upd_value (v prev : Z) (i : HID_ReportItem_t) : HID_ReportItem_t :=
  mkItem (BitOffset i) (ItemType i) (ItemFlags i) (it_ReportID i) (it_CollectionPath i)
    (it_Attributes i) v prev.

(** [while (DataBitsRem--)] of the reader: the value collected so far. *)
Fixpoint get_bits (DataBitsRem : nat) (ReportData : list Z) (CurrentBit BitMask acc : Z)
    : option Z :=
  match DataBitsRem with
  | O => Some acc
  | S n =>
      b ← ReportData !! Z.to_nat (CurrentBit / 8);
      get_bits n ReportData (u16 (CurrentBit + 1)) (u32 (Z.shiftl BitMask 1))
        (if tst b (bit (CurrentBit mod 8)) then Z.lor acc BitMask else acc)
  end.

(** The result and the updated item; [None] is a read outside the report. *)
Definition USB_GetHIDReportItemInfo (ReportData : list Z) (ReportItem : option HID_ReportItem_t)
    : option (bool * option HID_ReportItem_t) :=
  match ReportItem with
  | None => Some (false, None)
  | Some item =>
      let get data :=
        v ← get_bits (Z.to_nat (BitSize (it_Attributes item))) data (BitOffset item) (bit 0) 0;
        Some (true, Some (upd_value v (Value item) item)) in
      if negb (it_ReportID item =? 0) then
        match ReportData with
        | [] => None
        | id :: rest => if negb (it_ReportID item =? id) then Some (false, Some item) else get rest
        end
      else get ReportData
  end.

(** [while (DataBitsRem--)] of the writer. *)
Fixpoint set_bits_ (DataBitsRem : nat) (ReportData : list Z) (CurrentBit BitMask v : Z)
    : option (list Z) :=
  match DataBitsRem with
  | O => Some ReportData
  | S n =>
      let i := Z.to_nat (CurrentBit / 8) in
      data ← (if tst v BitMask
              then b ← ReportData !! i;
                   Some (<[i := u8 (Z.lor b (bit (CurrentBit mod 8)))]> ReportData)
              else Some ReportData);
      set_bits_ n data (u16 (CurrentBit + 1)) (u32 (Z.shiftl BitMask 1)) v
  end.

Definition USB_SetHIDReportItemInfo (ReportData : list Z) (ReportItem : option HID_ReportItem_t)
    : option (list Z * option HID_ReportItem_t) :=
  match ReportItem with
  | None => Some (ReportData, None)
  | Some item =>
      let item' := upd_value (Value item) (Value item) item in
      let set data := set_bits_ (Z.to_nat (BitSize (it_Attributes item))) data
                        (BitOffset item) (bit 0) (Value item) in
      if negb (it_ReportID item =? 0) then
        match ReportData with
        | [] => None
        | _ :: rest => rest' ← set rest; Some (it_ReportID item :: rest', Some item')
        end
      else data' ← set ReportData; Some (data', Some item')
  end.

(** The loop over [HID_MAX_REPORT_IDS] from index [i]. *)
Fixpoint report_size_loop (n i : nat) (d : HID_ReportInfo_t) (ReportID ReportType : Z) : Z :=
  match n with
  | O => 0
  | S n =>
      let s := default zero_sizeinfo (ReportIDSizes d !! i) in
      let bits := default 0 (ReportSizeBits s !! Z.to_nat ReportType) in
      if si_ReportID s =? ReportID
      then u16 (bits / 8 + (if negb (bits mod 8 =? 0) then 1 else 0))
      else report_size_loop n (S i) d ReportID ReportType
  end.

Definition USB_GetHIDReportSize (d : HID_ReportInfo_t) (ReportID ReportType : Z) : Z :=
  report_size_loop (Z.to_nat HID_MAX_REPORT_IDS) 0 d ReportID ReportType.
