(* ===== verification/HIDParserSpec.v ===== *)
(** The report descriptor parser (HIDParser.v) returns for every well formed
    descriptor without a PUSH item, and its tables stay within their bounds for every
    descriptor. *)

From stdpp Require Import base tactics option list numbers.
From Stdlib Require Import ZArith Lia.
From S2P Require Import Prelude StdDescriptors HIDParser.

(** ** The invariant *)

(** A report's sizes: one per item type, none above the largest. *)
Definition sizeinfo_ok (largest : Z) (s : HID_ReportSizeInfo_t) : Prop :=
  length (ReportSizeBits s) = 3%nat /\ Forall (fun b => 0 <= b <= largest) (ReportSizeBits s).

Record info_ok (d : HID_ReportInfo_t) : Prop := {
  ok_items : length (ReportItems d) = 20%nat;
  ok_total : 0 <= TotalReportItems d <= HID_MAX_REPORTITEMS;
  ok_paths : length (CollectionPaths d) = 10%nat;
  ok_parents : Forall (fun c => forall i, cp_Parent c = Some i -> (i < 10)%nat) (CollectionPaths d);
  ok_reports : length (ReportIDSizes d) = 10%nat;
  ok_ids : 1 <= TotalDeviceReports d <= HID_MAX_REPORT_IDS;
  ok_sizes : Forall (sizeinfo_ok (LargestReportSizeBits d)) (ReportIDSizes d);
  ok_largest : is_u16 (LargestReportSizeBits d)
}.

Record parser_ok (p : Parser) : Prop := {
  ok_table : length (StateTable p) = 2%nat;
  ok_curr : (CurrStateTable p < 2)%nat;
  ok_path : forall i, CurrCollectionPath p = Some i -> (i < 10)%nat;
  ok_id : Z.of_nat (CurrReportIDInfo p) < TotalDeviceReports (ParserData p);
  ok_usages : Z.of_nat (length (UsageList p)) <= HID_USAGE_STACK_DEPTH;
  ok_info : info_ok (ParserData p)
}.

(** What a step may give; [t] excludes an overrun, as for [wp]. *)
Definition step_ok {A} (t : bool) (Q : A -> Prop) (r : pres A) : Prop :=
  match r with
  | Go a => Q a
  | Return code info => HID_PARSE_Successful < code <= HID_PARSE_InsufficientReportIDItems /\ info_ok info
  | Overrun => t = false
  end.

Lemma step_deref {A B} t (Q : B -> Prop) (l : list A) i k : (i < length l)%nat ->
  (forall x, l !! i = Some x -> step_ok t Q (k x)) -> step_ok t Q (deref l i k).
Proof. intros Hi Hk. unfold deref. destruct (l !! i) eqn:E; [by apply Hk|]. apply lookup_ge_None in E. lia. Qed.

Lemma step_within {B} t (Q : B -> Prop) i n r : i < n -> step_ok t Q r -> step_ok t Q (within i n r).
Proof. intros Hi Hr. unfold within. by rewrite (proj2 (Z.ltb_lt _ _)). Qed.

Create HintDb parser.

(** ** Steps *)

Lemma ok_upd_state p f : parser_ok p -> parser_ok (upd_state f p).
Proof. intros []. split; cbn; rewrite ?length_insert; done. Qed.

Lemma ok_upd_attr p f : parser_ok p -> parser_ok (upd_attr f p).
Proof. apply ok_upd_state. Qed.

Lemma ok_upd_MinMax p m : parser_ok p -> parser_ok (upd_MinMax m p).
Proof. intros []. by split. Qed.

Lemma ok_clear_usages p : parser_ok p -> parser_ok (upd_UsageList [] p).
Proof. intros []. by split. Qed.

Lemma ok_upd_Data p d : parser_ok p -> info_ok d ->
  TotalDeviceReports (ParserData p) <= TotalDeviceReports d -> parser_ok (upd_Data d p).
Proof. intros [] Hd Hle. split; cbn; try done. lia. Qed.

#[local] Hint Resolve ok_upd_state ok_upd_attr ok_upd_MinMax ok_clear_usages : parser.

Lemma ok_push p : parser_ok p -> step_ok false parser_ok (item_push p).
Proof.
  intros Hp. unfold item_push. destruct (_ =? _) eqn:?; bool_hyps; [split; [done|apply Hp]|].
  destruct (_ <? _); [done|]. destruct Hp. unfold HID_STATETABLE_STACK_DEPTH in *.
  split; cbn; rewrite ?length_insert; try done. lia.
Qed.

Lemma ok_pop t p : parser_ok p -> step_ok t parser_ok (item_pop p).
Proof.
  intros Hp. unfold item_pop. destruct (CurrStateTable p) eqn:E; [split; [done|apply Hp]|].
  destruct Hp. split; cbn; try done. lia.
Qed.

Lemma ok_usage_page t p h v : parser_ok p -> step_ok t parser_ok (item_usage_page h v p).
Proof. intros Hp. unfold item_usage_page, set_page. cbn. destruct (_ =? _); auto with parser. Qed.

Lemma ok_attribute p t v p' : parser_ok p -> item_attribute t v p = Some p' -> parser_ok p'.
Proof.
  intros Hp. unfold item_attribute.
  repeat match goal with |- context [if ?b then _ else _] => destruct b end;
    intros [= <-]; auto with parser.
Qed.

Lemma ok_usage t p v : parser_ok p -> step_ok t parser_ok (item_usage v p).
Proof.
  intros Hp. unfold item_usage. destruct (_ =? _) eqn:?; bool_hyps; [split; [done|apply Hp]|].
  destruct Hp. apply step_within; [lia|]. split; cbn; try done. rewrite length_app. cbn. lia.
Qed.

(** The next usage leaves the rest of the parser alone. *)
Lemma ok_take_usage p : parser_ok p ->
  parser_ok (snd (take_usage p)) /\ ParserData (snd (take_usage p)) = ParserData p.
Proof.
  intros Hp. unfold take_usage. destruct (UsageList p) as [|u l] eqn:E.
  - destruct (_ <=? _); cbn; auto with parser.
  - split; [|done]. destruct Hp. rewrite E in *. split; cbn in *; try done. lia.
Qed.

Lemma find_report_ok t n i id l : (i + n <= length l)%nat ->
  step_ok t (fun o => forall j, o = Some j -> (i <= j < i + n)%nat) (find_report n i id l).
Proof.
  revert i; induction n as [|n IH]; intros i Hl; cbn; [done|]. apply step_deref; [lia|]. intros s _.
  destruct (_ =? _); [cbn; intros j [= <-]; lia|]. specialize (IH (S i) ltac:(lia)).
  destruct (find_report n (S i) id l) as [o|c d|]; cbn in *; [intros j Hj; apply IH in Hj; lia|done..].
Qed.

Lemma zero_sizeinfo_ok largest : 0 <= largest -> sizeinfo_ok largest zero_sizeinfo.
Proof. intros H. split; [done|]. repeat constructor; lia. Qed.

Lemma ok_store_report_id t id i d p : parser_ok p -> info_ok d -> TotalDeviceReports (ParserData p) <= TotalDeviceReports d ->
  Z.of_nat i < TotalDeviceReports d -> step_ok t parser_ok (store_report_id id i d p).
Proof.
  intros Hp Hd Hle Hi. destruct Hp, Hd. unfold HID_MAX_REPORT_IDS in *. apply step_deref; cbn; [lia|]. intros s Hs.
  split; cbn; try done. split; cbn; rewrite ?length_insert; auto.
  apply Forall_insert; [done|]. by apply (Forall_lookup_1 _ _ _ _ ok_sizes0 Hs).
Qed.

Lemma ok_report_id t p v : parser_ok p -> step_ok t parser_ok (item_report_id v p).
Proof.
  intros Hp0. unfold item_report_id.
  set (p1 := upd_state _ p). assert (parser_ok p1) as Hp by (by apply ok_upd_state). clearbody p1. clear Hp0.
  pose proof (ok_info _ Hp) as Hd. pose proof (ok_ids _ Hd) as Hids. pose proof (ok_reports _ Hd) as Hl. unfold HID_MAX_REPORT_IDS in *.
  destruct (UsingReportIDs _); [|apply ok_store_report_id; [done|done|lia|apply Hp]].
  pose proof (find_report_ok t (Z.to_nat (TotalDeviceReports (ParserData p1))) 0 (st_ReportID (cur_state p1))
    (ReportIDSizes (ParserData p1)) ltac:(lia)) as E.
  destruct (find_report _ _ _ _) as [[i|]|c d|]; cbn in E; try done.
  - specialize (E i eq_refl). apply ok_store_report_id; [done|done|lia|lia].
  - destruct (_ =? _) eqn:E2; bool_hyps; [by split|]. apply step_within; [lia|].
    apply ok_store_report_id; cbn; rewrite ?u8_small by (unfold is_u8; lia); [done| |lia|lia].
    destruct Hd. split; cbn; rewrite ?length_insert; auto.
    + unfold HID_MAX_REPORT_IDS. lia.
    + apply Forall_insert; [done|]. apply zero_sizeinfo_ok. apply ok_largest0.
Qed.

(** The search for a free slot stays in the table. *)
Lemma find_path_ok t d n i : info_ok d -> (i < 10)%nat -> (10 <= i + n)%nat ->
  step_ok t (fun j => (j < 10)%nat) (find_path n i d).
Proof.
  intros Hd. pose proof (ok_paths _ Hd) as Hl. revert i; induction n as [|n IH]; intros i Hi Hn; cbn; [lia|].
  apply step_deref; [lia|]. intros c _. destruct (cp_Parent c); [|done].
  unfold HID_MAX_COLLECTIONS. destruct (_ =? _) eqn:E; bool_hyps; [by split|]. apply IH; lia.
Qed.

(** Collection paths that keep their number and valid parents. *)
Definition paths_ok (l : list HID_CollectionPath_t) : Prop :=
  length l = 10%nat /\ Forall (fun c => forall i, cp_Parent c = Some i -> (i < 10)%nat) l.

Lemma paths_alter f i l : paths_ok l ->
  (forall c, (forall j, cp_Parent c = Some j -> (j < 10)%nat) ->
     forall j, cp_Parent (f c) = Some j -> (j < 10)%nat) ->
  paths_ok (alter f i l).
Proof.
  intros [Hl Hf] Hc. split; [by rewrite length_alter|]. apply Forall_alter; [done|].
  intros c _ H. by apply Hc.
Qed.

Lemma ok_upd_paths d l : info_ok d -> paths_ok l -> info_ok (upd_paths l d).
Proof. intros [] [? ?]. by split. Qed.

Lemma collection_slot_ok t p : parser_ok p ->
  step_ok t (fun '(i, l) => (i < 10)%nat /\ paths_ok l) (collection_slot p).
Proof.
  intros Hp. pose proof (ok_info _ Hp) as Hd. unfold collection_slot.
  assert (paths_ok (CollectionPaths (ParserData p))) by (split; apply Hd).
  destruct (CurrCollectionPath p) as [parent|] eqn:E; [|split; [lia|done]].
  pose proof (find_path_ok t (ParserData p) (Z.to_nat HID_MAX_COLLECTIONS) 1 Hd ltac:(lia) ltac:(vm_compute; lia)) as F.
  destruct (find_path _ _ _) as [i|c d|]; cbn in F |- *; [|done..]. split; [done|].
  apply paths_alter; [done|]. intros c _ j [= <-]. by apply (ok_path _ Hp).
Qed.

Lemma ok_collection t p v : parser_ok p -> step_ok t parser_ok (item_collection v p).
Proof.
  intros Hp. unfold item_collection. pose proof (collection_slot_ok t p Hp) as Hs.
  destruct (collection_slot p) as [[i l]|c d|]; [|done..]. destruct Hs as [Hi Hl].
  destruct (ok_take_usage p Hp) as [Hp' Ed]. destruct (take_usage p) as [u p']. cbn in Hp', Ed.
  destruct (Hl) as [Hlen Hpar]. apply step_deref; [lia|]. intros c Hc.
  assert (parser_ok (upd_Path (Some i) p')) as Hp2.
  { destruct Hp'. split; cbn; try done. by intros j [= <-]. }
  apply (ok_upd_Data _ _ Hp2); [|done]. apply ok_upd_paths; [apply Hp'|].
  split; [by rewrite length_insert|]. apply Forall_insert; [done|]. by apply (Forall_lookup_1 _ _ _ _ Hpar Hc).
Qed.

Lemma ok_end_collection t p : parser_ok p -> step_ok t parser_ok (item_end_collection p).
Proof.
  intros Hp. unfold item_end_collection. destruct (CurrCollectionPath p) as [i|] eqn:E;
    [|split; [done|apply Hp]].
  pose proof (ok_parents _ (ok_info _ Hp)) as Hf. pose proof (ok_paths _ (ok_info _ Hp)) as Hl.
  apply step_deref; [rewrite Hl; by apply (ok_path _ Hp)|]. intros c Hc. destruct Hp. split; cbn; try done.
  intros j. by apply (Forall_lookup_1 _ _ _ _ Hf Hc).
Qed.

Lemma sizeinfo_mono a b s : a <= b -> sizeinfo_ok a s -> sizeinfo_ok b s.
Proof. intros Hab [Hl Hf]. split; [done|]. eapply Forall_impl; [|exact Hf]. cbn. lia. Qed.

(** Adding the bits of an item to the sizes of its report. *)
Definition add_bits (i : nat) (s : HID_ReportSizeInfo_t) (bits : Z) (d : HID_ReportInfo_t) :=
  upd_largest (if bits <? LargestReportSizeBits d then LargestReportSizeBits d else bits)
    (upd_reports (TotalDeviceReports d) (<[i := s]> (ReportIDSizes d)) d).

Lemma ok_add_bits i k s bits d : info_ok d -> is_u16 bits ->
  sizeinfo_ok (LargestReportSizeBits d) s ->
  info_ok (add_bits i (mkSizeInfo (si_ReportID s) (<[k := bits]> (ReportSizeBits s))) bits d).
Proof.
  intros Hd Hb [Hl Hs]. unfold is_u16 in Hb.
  assert (LargestReportSizeBits d <= LargestReportSizeBits (add_bits i s bits d)
          /\ bits <= LargestReportSizeBits (add_bits i s bits d)
          /\ is_u16 (LargestReportSizeBits (add_bits i s bits d))) as (H1 & H2 & H3).
  { cbn. destruct Hd. unfold is_u16 in *. destruct (_ <? _) eqn:?; bool_hyps; lia. }
  cbn in H1, H2, H3. destruct Hd. split; cbn; rewrite ?length_insert; try done.
  apply Forall_insert; [eapply Forall_impl; [|done]; intros x; by apply sizeinfo_mono|].
  split; cbn; [by rewrite length_insert|]. apply Forall_insert; [|lia].
  eapply Forall_impl; [|exact Hs]. cbn. lia.
Qed.

Section Items.
Context (filter : HID_ReportItem_t -> bool) (u1 u2 : Z).

Lemma ok_new_item b t v p : parser_ok p -> step_ok b parser_ok (new_item filter u1 u2 t v p).
Proof.
  intros Hp. unfold new_item. destruct (ok_take_usage p Hp) as [Hp' _].
  destruct (take_usage p) as [u p']. cbn [snd] in Hp'. pose proof (ok_info _ Hp') as Hd.
  pose proof (ok_ids _ Hd) as Hids. pose proof (ok_reports _ Hd) as Hl. pose proof (ok_id _ Hp') as Hid. unfold HID_MAX_REPORT_IDS in *.
  apply step_deref; [lia|]. intros s E. pose proof (Forall_lookup_1 _ _ _ _ (ok_sizes _ Hd) E) as Hs.
  apply step_deref; [destruct Hs as [-> _]; unfold item_type; repeat case_match; vm_compute; lia|]. intros offset _.
  set (bits := u16 _).
  pose proof (ok_add_bits (CurrReportIDInfo p') (Z.to_nat (item_type t)) s bits _ Hd
    (u16_range _) Hs) as Hd'.
  set (d := upd_largest _ _). change (info_ok d) in Hd'.
  assert (TotalDeviceReports d = TotalDeviceReports (ParserData p')) as Ht by done. clearbody d.
  destruct (_ =? _) eqn:E2; bool_hyps; [by split|]. pose proof (ok_total _ Hd').
  apply step_within; [lia|]. apply (ok_upd_Data _ _ Hp'); [|cbn; lia]. destruct Hd'. unfold HID_MAX_REPORTITEMS in *.
  split; cbn; rewrite ?length_insert; try done. unfold HID_MAX_REPORTITEMS.
  destruct (negb _ && _); [rewrite u8_small by (unfold is_u8; lia)|]; lia.
Qed.

Lemma ok_new_items b n t v p : parser_ok p -> step_ok b parser_ok (new_items filter u1 u2 n t v p).
Proof.
  revert p; induction n as [|n IH]; intros p Hp; cbn; [done|].
  pose proof (ok_new_item b t v p Hp) as H. by destruct (new_item _ _ _ _ _ _); [apply IH|..].
Qed.

(** An item is a PUSH. *)
Definition is_push (h : Z) : bool := Z.land h (Z.lor HID_RI_TYPE_MASK HID_RI_TAG_MASK) =? tag HID_RI_PUSH.

Lemma ok_process_item b h v p : parser_ok p -> (b = true -> is_push h = false) ->
  step_ok b parser_ok (process_item filter u1 u2 h v p).
Proof.
  intros Hp Hb. unfold process_item. unfold is_push in Hb. destruct (_ =? tag HID_RI_PUSH).
  { destruct b; [by specialize (Hb eq_refl)|by apply ok_push]. }
  repeat match goal with |- step_ok _ _ (if ?b then _ else _) => destruct b end;
    auto using ok_pop, ok_usage_page, ok_report_id, ok_usage, ok_collection,
      ok_end_collection, ok_new_items with parser; cbn; auto with parser.
  destruct (item_attribute _ _ _) eqn:E; [by eapply ok_attribute|done].
Qed.

Lemma ok_reset h p : parser_ok p -> parser_ok (reset_locals h p).
Proof. intros Hp. unfold reset_locals. destruct (_ =? _); auto with parser. Qed.

Lemma ok_parse_loop fuel data size p : parser_ok p -> step_ok false parser_ok (parse_loop filter u1 u2 fuel data size p).
Proof.
  revert data size p; induction fuel as [|fuel IH]; intros data size p Hp; cbn;
    (destruct (size =? 0); [done|]); [done|]. destruct data as [|h rest]; [done|].
  destruct (item_operand _ _ _) as [[[v rest'] size']|]; [|done].
  pose proof (ok_process_item false h v p Hp ltac:(done)) as H. destruct (process_item _ _ _ _ _ _); try done.
  by apply IH, ok_reset.
Qed.

(** The number of operand bytes of an item. *)
Definition operand_bytes (h : Z) : nat :=
  let k := h mod 4 in if k =? 0 then 0 else if k =? 1 then 1 else if k =? 2 then 2 else 4.

(** A descriptor that is a sequence of whole items, none of which is a PUSH. *)
Inductive whole_items : list Z -> Prop :=
  | whole_nil : whole_items []
  | whole_cons h ops rest : length ops = operand_bytes h -> is_push h = false ->
      whole_items rest -> whole_items (h :: ops ++ rest).

Lemma whole_operand h ops rest : length ops = operand_bytes h -> Z.of_nat (length (ops ++ rest)) < 65536 ->
  exists v, item_operand h (ops ++ rest) (Z.of_nat (length (ops ++ rest))) = Some (v, rest, Z.of_nat (length rest)).
Proof.
  intros Hl Hn. unfold item_operand, operand_bytes in *. change HID_RI_DATA_SIZE_MASK with (Z.ones 2).
  rewrite Z.land_ones by lia. change (2 ^ 2) with 4. change (HID_RI_DATA_BITS Bits32) with 3.
  change (HID_RI_DATA_BITS Bits16) with 2. change (HID_RI_DATA_BITS Bits8) with 1.
  pose proof (Z.mod_pos_bound h 4 ltac:(lia)).
  repeat match type of Hl with context [if ?b then _ else _] => destruct b eqn:?; bool_hyps end;
    repeat match goal with |- context [if ?b then _ else _] => destruct b eqn:?; bool_hyps end; try lia;
    repeat (destruct ops as [|? ops]; cbn [length] in Hl; try lia);
    cbn [length Datatypes.app] in *; eexists; (apply (f_equal Some), pair_equal_spec; split; [reflexivity|]);
    rewrite ?u16_small by (unfold is_u16; lia); lia.
Qed.

Lemma whole_parse_loop data : whole_items data -> forall fuel p, parser_ok p -> Z.of_nat (length data) < 65536 ->
  (length data <= fuel)%nat -> step_ok true parser_ok (parse_loop filter u1 u2 fuel data (Z.of_nat (length data)) p).
Proof.
  induction 1 as [|h ops rest Ho Hh _ IH]; intros fuel p Hp Hn Hf; [by destruct fuel|].
  destruct fuel as [|fuel]; cbn [length] in Hn, Hf; [lia|]. cbn [length parse_loop].
  rewrite (proj2 (Z.eqb_neq _ 0)) by lia. rewrite u16_small by (unfold is_u16; lia).
  replace (Z.of_nat (S (length (ops ++ rest))) - 1) with (Z.of_nat (length (ops ++ rest))) by lia.
  destruct (whole_operand h ops rest Ho ltac:(lia)) as [v ->]. rewrite length_app in Hn, Hf.
  pose proof (ok_process_item true h v p Hp ltac:(done)) as H. destruct (process_item _ _ _ _ _ _); try done.
  apply IH; [by apply ok_reset|lia..].
Qed.

Lemma parser_init_ok : parser_ok parser_init.
Proof.
  assert (info_ok (upd_reports 1 (ReportIDSizes zero_info) zero_info)).
  { split; cbn; try done; try lia; repeat constructor; try done; lia. }
  split; cbn; try done; lia.
Qed.
End Items.

(** C38: The parser returns for every descriptor of whole items without PUSH, of at
    most 65535 bytes and whatever its items are and the filter says: no item makes it
    leave the data or one of its tables.  And for every descriptor at all, of any length
    and content: if it returns, then with one of its error codes, and the structure it
    filled in is within its bounds: at most 20 items, 10 collections and 10 report IDs,
    parents inside the collection table, and no report longer than the largest size it
    announces.  (A PUSH writes past the state table, and an operand that is cut off is
    read past the data: [push_never_succeeds], [truncated_operand_overruns].) *)
Theorem ProcessHIDReport_bounds filter u1 u2 data :
  (whole_items data -> Z.of_nat (length data) < 65536 ->
     exists r, USB_ProcessHIDReport filter u1 u2 data (Z.of_nat (length data)) = Some r) /\
  (forall size code info, USB_ProcessHIDReport filter u1 u2 data size = Some (code, info) ->
     HID_PARSE_Successful <= code <= HID_PARSE_NoUnfilteredReportItems /\ info_ok info /\
     (code = HID_PARSE_Successful -> 0 < TotalReportItems info)).
Proof.
  unfold USB_ProcessHIDReport. split.
  - intros Hw Hn. pose proof (whole_parse_loop filter u1 u2 data Hw (length data) _ parser_init_ok Hn ltac:(done)) as H.
    destruct (parse_loop _ _ _ _ _ _ _) as [p|c i|]; [by eexists..|done].
  - intros size code info. pose proof (ok_parse_loop filter u1 u2 (length data) data size _ parser_init_ok) as H.
    destruct (parse_loop _ _ _ _ _ _ _) as [p|c i|]; [| |done].
    + pose proof (ok_info _ H) as Hd. pose proof (ok_total _ Hd).
      destruct (_ =? _) eqn:E; bool_hyps; intros [= <- <-]; (split; [done|split; [done|]]); [done|lia].
    + intros [= <- <-]. destruct H as [Hc Hd].
      unfold HID_PARSE_Successful, HID_PARSE_InsufficientReportIDItems, HID_PARSE_NoUnfilteredReportItems in *.
      split; [lia|]. split; [done|lia].
Qed.

(** Eleven nested collections, one more than there is room for, and two buttons. *)
Definition nested : list Z := concat (replicate 11 [0xA1; 0]) ++ [0x75; 8; 0x95; 2; 0x81; 2].

Lemma whole_byte h v rest : operand_bytes h = 1%nat -> is_push h = false -> whole_items rest -> whole_items (h :: v :: rest).
Proof. intros Hh Hp Hr. by apply (whole_cons h [v] rest). Qed.

Lemma ProcessHIDReport_bounds_witness :
  (exists r, USB_ProcessHIDReport (fun _ => true) 0 0 nested 28 = Some r) /\
  match USB_ProcessHIDReport (fun _ => true) 0 0 nested 28 with
  | Some (code, info) =>
      HID_PARSE_Successful <= code <= HID_PARSE_NoUnfilteredReportItems /\ info_ok info /\
      (code = HID_PARSE_Successful -> 0 < TotalReportItems info)
  | None => False
  end.
Proof.
  destruct (ProcessHIDReport_bounds (fun _ => true) 0 0 nested) as [H1 H2]. split.
  - apply H1; [|reflexivity]. unfold nested. cbn. repeat (apply whole_byte; [reflexivity|reflexivity|]). apply whole_nil.
  - destruct (USB_ProcessHIDReport (fun _ => true) 0 0 nested 28) as [[code info]|] eqn:E;
      [exact (H2 28 code info E)|vm_compute in E; discriminate E].
Defined.

(** The parser does not check that an item's operand lies inside the report: a
    descriptor cut off before the operand of its last item makes the remaining size
    wrap and the parser run past the data. *)
Theorem truncated_operand_overruns filter u1 u2 prefix :
  Z.land prefix HID_RI_DATA_SIZE_MASK <> 0 -> USB_ProcessHIDReport filter u1 u2 [prefix] 1 = None.
Proof.
  intros Hs. unfold USB_ProcessHIDReport. cbn [length parse_loop Z.eqb Pos.eqb].
  change (u16 (1 - 1)) with 0. unfold item_operand.
  assert (0 <= Z.land prefix HID_RI_DATA_SIZE_MASK < 4) as Hr.
  { change HID_RI_DATA_SIZE_MASK with (Z.ones 2). rewrite Z.land_ones by lia.
    by apply Z.mod_pos_bound. }
  destruct (_ =? HID_RI_DATA_BITS Bits32) eqn:E1; [done|].
  destruct (_ =? HID_RI_DATA_BITS Bits16) eqn:E2; [done|].
  destruct (_ =? HID_RI_DATA_BITS Bits8) eqn:E3; [done|].
  bool_hyps. change (HID_RI_DATA_BITS Bits32) with 3 in E1.
  change (HID_RI_DATA_BITS Bits16) with 2 in E2. change (HID_RI_DATA_BITS Bits8) with 1 in E3. lia.
Qed.

Lemma truncated_operand_overruns_witness :
  USB_ProcessHIDReport (fun _ => true) 0 0 [0x75] 1 = None.
Proof. apply truncated_operand_overruns. vm_compute. discriminate. Defined.
