(* ===== verification/HIDSpec.v ===== *)
(** Correctness of the report item accessors and of the report descriptor parser
    (HIDParser.v). *)

From stdpp Require Import base tactics option list numbers.
From Stdlib Require Import ZArith Lia.
From S2P Require Import Prelude Hardware StdDescriptors Descriptors Joystick JoystickSpec HIDParser.

(** ** Reports as numbers

    A report is one little-endian number; an item of [n] bits at offset [off] is a
    field of it. *)

Fixpoint le_num (data : list Z) : Z :=
  match data with
  | [] => 0
  | b :: rest => Z.lor b (Z.shiftl (le_num rest) 8)
  end.
Definition field (x off n : Z) : Z := Z.land (Z.shiftr x off) (Z.ones n).

Lemma testbit_field x off n i : 0 <= i -> 0 <= n ->
  Z.testbit (field x off n) i = Z.testbit x (i + off) && (i <? n).
Proof.
  intros Hi Hn. unfold field. rewrite Z.land_spec, Z.shiftr_spec by done. f_equal.
  destruct (i <? n) eqn:E; bool_hyps; [apply Z.ones_spec_low|apply Z.ones_spec_high]; lia.
Qed.

Lemma le_num_nonneg data : Forall is_u8 data -> 0 <= le_num data.
Proof.
  induction 1 as [|b data Hb _ IH]; cbn; [lia|].
  apply Z.lor_nonneg. split; [apply Hb|by apply Z.shiftl_nonneg].
Qed.

Lemma testbit_le_num data i : Forall is_u8 data -> 0 <= i ->
  Z.testbit (le_num data) i =
    match data !! Z.to_nat (i / 8) with Some b => Z.testbit b (i mod 8) | None => false end.
Proof.
  intros Hd. revert i; induction Hd as [|b data Hb _ IH]; intros i Hi; cbn [le_num].
  { by rewrite Z.bits_0. }
  rewrite Z.lor_spec, Z.shiftl_spec by done. destruct (decide (i < 8)).
  - rewrite Z.div_small, Z.mod_small, (Z.testbit_neg_r _ (i - 8)) by lia. cbn. apply orb_false_r.
  - rewrite IH by lia. rewrite (testbit_above 8 b) by (unfold is_u8 in Hb; lia). cbn.
    assert (i / 8 = (i - 8) / 8 + 1) as ->.
    { replace i with (i - 8 + 1 * 8) at 1 by lia. by rewrite Z.div_add. }
    assert (0 <= (i - 8) / 8) by (apply Z.div_pos; lia).
    replace (Z.to_nat ((i - 8) / 8 + 1)) with (S (Z.to_nat ((i - 8) / 8))) by lia. cbn.
    replace (i mod 8) with ((i - 8) mod 8); [done|].
    replace (i - 8) with (i + (-1) * 8) by lia. apply Z.mod_add. lia.
Qed.

Lemma byte_index data i : 0 <= i < 8 * Z.of_nat (length data) ->
  exists b : Z, data !! Z.to_nat (i / 8) = Some b.
Proof.
  intros Hi. apply lookup_lt_is_Some_2.
  assert (i / 8 < Z.of_nat (length data)) by (apply Z.div_lt_upper_bound; lia). lia.
Qed.

Lemma u32_bit k : 0 <= k < 32 -> u32 (bit k) = bit k.
Proof.
  intros Hk. apply u32_small. unfold is_u32, bit. rewrite Z.shiftl_1_l.
  assert (2 ^ k < 2 ^ 32) by (apply Z.pow_lt_mono_r; lia). split; [apply Z.pow_nonneg; lia|lia].
Qed.

(** The mask of the loops, which wraps to zero after the last of 32 bits. *)
Lemma shift_mask k : 0 <= k -> u32 (Z.shiftl (u32 (bit k)) 1) = u32 (bit (k + 1)).
Proof.
  intros Hk. unfold u32, bit. rewrite !Z.shiftl_mul_pow2, Z.pow_add_r by lia.
  rewrite Z.mul_mod_idemp_l by lia. f_equal. lia.
Qed.

(** A field is its lowest bit and the field above it. *)
Lemma field_step x off n : 0 <= n ->
  field x off (n + 1) = Z.lor (if Z.testbit x off then 1 else 0) (Z.shiftl (field x (off + 1) n) 1).
Proof.
  intros Hn. apply Z.bits_inj'. intros i Hi. rewrite testbit_field, Z.lor_spec, Z.shiftl_spec by lia.
  destruct (decide (i = 0)) as [->|Hne].
  - rewrite (Z.testbit_neg_r _ (0 - 1)), orb_false_r, Z.add_0_l by lia.
    replace (0 <? n + 1) with true by (symmetry; apply Z.ltb_lt; lia).
    rewrite andb_true_r. by destruct (Z.testbit x off).
  - rewrite testbit_field by lia. replace (i - 1 + (off + 1)) with (i + off) by lia.
    replace (i - 1 <? n) with (i <? n + 1) by (destruct (i <? n + 1) eqn:?, (i - 1 <? n) eqn:?; bool_hyps; lia).
    replace (Z.testbit (if Z.testbit x off then 1 else 0) i) with false; [done|].
    destruct (Z.testbit x off); symmetry; [apply (testbit_above 1)|apply Z.bits_0]; lia.
Qed.

(** The reader collects the field above the bits it already has. *)
Lemma get_bits_spec n data off k acc : Forall is_u8 data ->
  0 <= off -> off + Z.of_nat n <= 8 * Z.of_nat (length data) -> off + Z.of_nat n < 65536 ->
  0 <= k -> k + Z.of_nat n <= 32 ->
  get_bits n data off (u32 (bit k)) acc =
    Some (Z.lor acc (Z.shiftl (field (le_num data) off (Z.of_nat n)) k)).
Proof.
  intros Hd. revert off k acc; induction n as [|n IH]; intros off k acc Ho Hl H16 Hk Hk32; cbn [get_bits].
  { unfold field. rewrite Z.land_0_r, Z.shiftl_0_l, Z.lor_0_r. done. }
  destruct (byte_index data off) as [b Hb]; [lia|]. rewrite Hb. cbn [mbind option_bind].
  rewrite u16_small by (unfold is_u16; lia). rewrite shift_mask by done. rewrite IH by lia. f_equal.
  rewrite Nat2Z.inj_succ, <- Z.add_1_r, field_step, Z.shiftl_lor, Z.shiftl_shiftl, (Z.add_comm 1 k) by lia.
  rewrite testbit_le_num, Hb by (done || lia). rewrite tst_bit by (apply Z.mod_pos_bound; lia).
  destruct (Z.testbit b (off mod 8)).
  - rewrite u32_bit by lia. by rewrite Z.lor_assoc.
  - by rewrite Z.shiftl_0_l, Z.lor_0_l.
Qed.

(** ** The writer *)

Lemma le_num_set data i b j : Forall is_u8 data -> data !! i = Some b -> 0 <= j < 8 ->
  Forall is_u8 (<[i := u8 (Z.lor b (bit j))]> data) /\
  le_num (<[i := u8 (Z.lor b (bit j))]> data) = Z.lor (le_num data) (bit (8 * Z.of_nat i + j)).
Proof.
  intros Hd Hi Hj. assert (Forall is_u8 (<[i := u8 (Z.lor b (bit j))]> data)) as Hd'
    by (apply Forall_insert; [done|apply u8_range]).
  split; [done|]. apply Z.bits_inj'. intros q Hq.
  rewrite testbit_le_num, Z.lor_spec, testbit_le_num, testbit_bit by (done || lia).
  assert (q = 8 * (q / 8) + q mod 8) as Hqd by (apply Z.div_mod; lia).
  pose proof (Z.mod_pos_bound q 8 ltac:(lia)). assert (0 <= q / 8) by (apply Z.div_pos; lia).
  destruct (decide (Z.to_nat (q / 8) = i)) as [Hqi|Hqi].
  - rewrite Hqi, list_lookup_insert_eq by (by eapply lookup_lt_Some). rewrite Hi.
    rewrite testbit_u8, Z.lor_spec, testbit_bit by lia.
    replace (q mod 8 <? 8) with true by (symmetry; apply Z.ltb_lt; lia). rewrite andb_true_r.
    f_equal. destruct (q mod 8 =? j) eqn:?, (q =? _) eqn:?; bool_hyps; try done; lia.
  - rewrite list_lookup_insert_ne by done. rewrite (proj2 (Z.eqb_neq q _)), orb_false_r by lia. done.
Qed.

(** The writer sets the bits of the value in the field, and clears none. *)
Lemma set_bits_spec n data off k v : Forall is_u8 data ->
  0 <= off -> off + Z.of_nat n <= 8 * Z.of_nat (length data) -> off + Z.of_nat n < 65536 ->
  0 <= k -> k + Z.of_nat n <= 32 ->
  exists data', set_bits_ n data off (u32 (bit k)) v = Some data' /\ Forall is_u8 data' /\
    length data' = length data /\
    le_num data' = Z.lor (le_num data) (Z.shiftl (field v k (Z.of_nat n)) off).
Proof.
  revert data off k; induction n as [|n IH]; intros data off k Hd Ho Hl H16 Hk Hk32; cbn [set_bits_].
  { exists data. unfold field. rewrite Z.land_0_r, Z.shiftl_0_l, Z.lor_0_r. done. }
  rewrite u16_small by (unfold is_u16; lia). rewrite shift_mask by done.
  rewrite (u32_bit k), tst_bit by lia.
  assert (forall data1, Forall is_u8 data1 -> length data1 = length data ->
    le_num data1 = Z.lor (le_num data) (Z.shiftl (if Z.testbit v k then 1 else 0) off) ->
    exists data', set_bits_ n data1 (off + 1) (u32 (bit (k + 1))) v = Some data' /\
      Forall is_u8 data' /\ length data' = length data /\
      le_num data' = Z.lor (le_num data) (Z.shiftl (field v k (Z.of_nat (S n))) off)) as Hstep.
  { intros data1 Hd1 Hl1 Hn1. destruct (IH data1 (off + 1) (k + 1)) as (data' & E & Hd' & Hl' & Hn');
      [done|lia..|]. exists data'. split; [done|]. split; [done|]. split; [lia|].
    rewrite Hn', Hn1, Nat2Z.inj_succ, <- Z.add_1_r, field_step, Z.shiftl_lor, Z.shiftl_shiftl,
      (Z.add_comm 1 off) by lia. by rewrite Z.lor_assoc. }
  destruct (byte_index data off) as [b Hb]; [lia|].
  pose proof (Z.mod_pos_bound off 8 ltac:(lia)).
  assert (8 * Z.of_nat (Z.to_nat (off / 8)) + off mod 8 = off) as Hoff.
  { rewrite Z2Nat.id by (apply Z.div_pos; lia). symmetry. apply Z.div_mod. lia. }
  destruct (Z.testbit v k); cbn [mbind option_bind].
  - rewrite Hb. cbn [mbind option_bind].
    destruct (le_num_set data (Z.to_nat (off / 8)) b (off mod 8) Hd Hb) as [Hd1 Hn1]; [done|].
    rewrite Hoff in Hn1. apply Hstep; [done|apply length_insert|done].
  - apply Hstep; [done|done|]. by rewrite Z.shiftl_0_l, Z.lor_0_r.
Qed.

(** An item the accessors can serve in a report of [len] bytes (past the report
    ID, when there is one). *)
Definition item_fits (item : HID_ReportItem_t) (len : nat) : Prop :=
  0 <= BitOffset item /\ 0 <= BitSize (it_Attributes item) <= 32 /\
  BitOffset item + BitSize (it_Attributes item) <= 8 * Z.of_nat len /\
  BitOffset item + BitSize (it_Attributes item) < 65536.

(** The field of an item in a report without its ID. *)
Definition item_field (item : HID_ReportItem_t) (data : list Z) : Z :=
  field (le_num data) (BitOffset item) (BitSize (it_Attributes item)).

Lemma get_item data item : Forall is_u8 data -> item_fits item (length data) ->
  get_bits (Z.to_nat (BitSize (it_Attributes item))) data (BitOffset item) (bit 0) 0
    = Some (item_field item data).
Proof.
  intros Hd (Ho & Hs & Hl & H16). change (bit 0) with (u32 (bit 0)).
  rewrite get_bits_spec by (done || lia). rewrite Z2Nat.id by lia.
  by rewrite Z.lor_0_l, Z.shiftl_0_r.
Qed.

(** Reading an item of up to 32 bits from a report returns the item's field of the
    report, and keeps the value read before as the previous one; a report with
    another ID is left to its own items. *)
Theorem GetHIDReportItemInfo_reads item id data :
  Forall is_u8 data -> item_fits item (length data) ->
  let report := if it_ReportID item =? 0 then data else id :: data in
  USB_GetHIDReportItemInfo report (Some item) =
    if (it_ReportID item =? 0) || (it_ReportID item =? id)
    then Some (true, Some (upd_value (item_field item data) (Value item) item))
    else Some (false, Some item).
Proof.
  intros Hd Hf report. subst report. unfold USB_GetHIDReportItemInfo.
  destruct (it_ReportID item =? 0); cbn [negb orb]; [by rewrite get_item|].
  destruct (it_ReportID item =? id); cbn [negb]; [by rewrite get_item|done].
Qed.

Definition sample_item : HID_ReportItem_t :=
  mkItem 12 0 2 3 None (mkAttributes 8 (mkUsage 1 48) (mkUnit 0 0) (mkMinMax 0 255) (mkMinMax 0 255)) 7 6.

Lemma GetHIDReportItemInfo_reads_witness :
  USB_GetHIDReportItemInfo [3; 0x34; 0x12; 0x78] (Some sample_item)
    = Some (true, Some (upd_value 0x81 7 sample_item)).
Proof.
  apply (GetHIDReportItemInfo_reads sample_item 3 [0x34; 0x12; 0x78]).
  - repeat constructor; vm_compute; congruence.
  - repeat split; vm_compute; congruence.
Defined.

(** Writing an item into a report whose field is clear and reading it back
    gives the value written, reduced to the item's width; the rest of the report
    is untouched and the length is kept. *)
Theorem SetHIDReportItemInfo_roundtrip item data :
  Forall is_u8 data -> item_fits item (length data) -> item_field item data = 0 ->
  it_ReportID item = 0 ->
  exists data', USB_SetHIDReportItemInfo data (Some item)
      = Some (data', Some (upd_value (Value item) (Value item) item)) /\
    length data' = length data /\
    le_num data' = Z.lor (le_num data)
      (Z.shiftl (field (Value item) 0 (BitSize (it_Attributes item))) (BitOffset item)) /\
    USB_GetHIDReportItemInfo data' (Some item)
      = Some (true, Some (upd_value (field (Value item) 0 (BitSize (it_Attributes item)))
                            (Value item) item)).
Proof.
  intros Hd Hf H0 Hid. pose proof Hf as (Ho & Hs & Hl & H16).
  set (n := BitSize (it_Attributes item)) in *.
  destruct (set_bits_spec (Z.to_nat n) data (BitOffset item) 0 (Value item))
    as (data' & E & Hd' & Hlen & Hnum); [done|lia..|].
  rewrite Z2Nat.id in Hnum by lia. change (u32 (bit 0)) with (bit 0) in E.
  exists data'. unfold USB_SetHIDReportItemInfo, USB_GetHIDReportItemInfo. fold n.
  rewrite Hid, E. cbn [Z.eqb negb mbind option_bind].
  split; [done|]. split; [done|]. split; [done|].
  subst n. rewrite get_item by (done || by rewrite Hlen). cbn [mbind option_bind]. do 4 f_equal.
  unfold item_field in *. rewrite Hnum. apply Z.bits_inj'. intros i Hi.
  apply (f_equal (fun z => Z.testbit z i)) in H0. rewrite Z.bits_0, testbit_field in H0 by lia.
  rewrite !testbit_field, Z.lor_spec, Z.shiftl_spec, testbit_field by lia.
  replace (i + BitOffset item - BitOffset item) with i by lia. rewrite Z.add_0_r.
  destruct (i <? _); [|by rewrite !andb_false_r].
  rewrite andb_true_r in *. by rewrite H0, !andb_true_r.
Qed.

Definition sample_output : HID_ReportItem_t :=
  mkItem 4 1 2 0 None (mkAttributes 8 (mkUsage 1 48) (mkUnit 0 0) (mkMinMax 0 255) (mkMinMax 0 255)) 0x1A5 0.

Lemma SetHIDReportItemInfo_roundtrip_witness :
  exists data', USB_SetHIDReportItemInfo [0x0F; 0xF0] (Some sample_output)
      = Some (data', Some (upd_value 0x1A5 0x1A5 sample_output)) /\
    length data' = 2%nat /\ le_num data' = Z.lor 0xF00F (Z.shiftl 0xA5 4) /\
    USB_GetHIDReportItemInfo data' (Some sample_output)
      = Some (true, Some (upd_value 0xA5 0x1A5 sample_output)).
Proof.
  apply (SetHIDReportItemInfo_roundtrip sample_output [0x0F; 0xF0]).
  - repeat constructor; vm_compute; congruence.
  - repeat split; vm_compute; congruence.
  - reflexivity.
  - reflexivity.
Defined.

(** ** The controller's own report descriptor *)

(** The filter of a host that does not want the buttons one by one. *)
Definition no_buttons (item : HID_ReportItem_t) : bool :=
  negb (Page (at_Usage (it_Attributes item)) =? 9).

Definition parsed : option (Z * HID_ReportInfo_t) := USB_ProcessHIDReport no_buttons 0 0 JoystickReport 86.
Definition parsed_info : HID_ReportInfo_t := match parsed with Some (_, i) => i | None => zero_info end.

Lemma field_byte i data b off : Forall is_u8 data -> data !! i = Some b ->
  off = 8 * Z.of_nat i -> field (le_num data) off 8 = b.
Proof.
  intros Hd Hi ->. apply Z.bits_inj'. intros q Hq. rewrite testbit_field, testbit_le_num by (done || lia).
  pose proof (Forall_lookup_1 _ _ _ _ Hd Hi) as Hb. unfold is_u8 in Hb.
  destruct (q <? 8) eqn:E; bool_hyps.
  - replace (q + 8 * Z.of_nat i) with (q + Z.of_nat i * 8) by lia.
    rewrite Z.div_add, Z.mod_add, Z.div_small, Z.mod_small by lia.
    rewrite Z.add_0_l, Nat2Z.id, Hi. apply andb_true_r.
  - rewrite andb_false_r. symmetry. apply (testbit_above 8); lia.
Qed.

Lemma field_narrow x off n m : 0 <= n <= m -> field x off n = Z.land (field x off m) (Z.ones n).
Proof.
  intros Hn. apply Z.bits_inj'. intros q Hq. rewrite Z.land_spec, !testbit_field by lia.
  destruct (q <? n) eqn:E, (q <? m) eqn:E2; bool_hyps; try lia;
    rewrite ?(Z.ones_spec_low n), ?(Z.ones_spec_high n) by lia; by rewrite ?andb_true_r, ?andb_false_r.
Qed.

(** C30: The report descriptor describes the reports the firmware sends: a host that
    parses it (filtering the buttons) gets one input report of 8 bytes, the length
    of the reports, and the items it finds there (hat, X, Y, Z, Rz, vendor) are
    the fields HAT, LX, LY, RX, RY and VendorSpec of the controller. *)
Theorem report_matches_descriptor v : controller_ok v ->
  parsed = Some (HID_PARSE_Successful, parsed_info) /\
  Z.of_nat (length (enc_report v)) = USB_GetHIDReportSize parsed_info 0 HID_REPORT_ITEM_In /\
  map (fun it => (Usage (at_Usage (it_Attributes it)), item_field it (enc_report v)))
      (take 6 (ReportItems parsed_info))
    = [(57, HAT v); (48, LX v); (49, LY v); (50, RX v); (53, RY v); (32, VendorSpec v)] /\
  Forall (fun it => ItemType it = HID_REPORT_ITEM_In /\ item_fits it 8) (take 6 (ReportItems parsed_info)).
Proof.
  intros (_ & Hh & Hlx & Hly & Hrx & Hry & Hv).
  split; [vm_compute; reflexivity|]. split; [vm_compute; reflexivity|].
  pose proof (enc_report_u8 v) as Hd. split.
  - unfold item_field. set (items := take 6 (ReportItems parsed_info)).
    assert (map (fun it => (Usage (at_Usage (it_Attributes it)), BitOffset it, BitSize (it_Attributes it)))
              items = [(57, 16, 4); (48, 24, 8); (49, 32, 8); (50, 40, 8); (53, 48, 8); (32, 56, 8)])
      as Hitems by (vm_compute; reflexivity).
    assert (forall a, axis_ok a -> u8 a = a) as Ha by (intros a [-> | [-> | ->]]; done).
    transitivity (map (fun '(u, o, n) => (u, field (le_num (enc_report v)) o n))
                    (map (fun it => (Usage (at_Usage (it_Attributes it)), BitOffset it,
                            BitSize (it_Attributes it))) items)); [by rewrite map_map|].
    rewrite Hitems. cbn [map]. rewrite (field_narrow _ 16 4 8) by lia.
    rewrite (field_byte 2 _ _ 16 Hd eq_refl eq_refl), (field_byte 3 _ _ 24 Hd eq_refl eq_refl), (field_byte 4 _ _ 32 Hd eq_refl eq_refl),
      (field_byte 5 _ _ 40 Hd eq_refl eq_refl), (field_byte 6 _ _ 48 Hd eq_refl eq_refl), (field_byte 7 _ _ 56 Hd eq_refl eq_refl).
    rewrite (Ha _ Hlx), (Ha _ Hly), (Ha _ Hrx), (Ha _ Hry), Hv. clear -Hh.
    destruct Hh as [-> | [-> | [-> | [-> | ->]]]]; reflexivity.
  - let l := eval vm_compute in (take 6 (ReportItems parsed_info)) in
    replace (take 6 (ReportItems parsed_info)) with l by (vm_compute; reflexivity).
    repeat constructor; vm_compute; congruence.
Qed.

Lemma report_matches_descriptor_witness :
  parsed = Some (HID_PARSE_Successful, parsed_info) /\
  8 = USB_GetHIDReportSize parsed_info 0 HID_REPORT_ITEM_In /\
  map (fun it => (Usage (at_Usage (it_Attributes it)),
                  item_field it (enc_report (initVirtualController (mkVC 0 0 0 0 0 0 0)))))
      (take 6 (ReportItems parsed_info))
    = [(57, 8); (48, 128); (49, 128); (50, 128); (53, 128); (32, 0)] /\
  Forall (fun it => ItemType it = HID_REPORT_ITEM_In /\ item_fits it 8) (take 6 (ReportItems parsed_info)).
Proof. apply (report_matches_descriptor (initVirtualController (mkVC 0 0 0 0 0 0 0))). apply init_ok. Defined.

(** A host that keeps every item cannot parse the controller's descriptor with
    this parser: its 30 items exceed the table of 20 and the parse ends with
    [HID_PARSE_InsufficientReportItems], whatever the uninitialised fields hold. *)
Theorem descriptor_exceeds_item_table u1 u2 :
  exists info, USB_ProcessHIDReport (fun _ => true) u1 u2 JoystickReport 86
                 = Some (HID_PARSE_InsufficientReportItems, info) /\ TotalReportItems info = 20.
Proof. eexists. split; vm_compute; reflexivity. Qed.

(** ** Flaws of two items *)

(** A PUSH item never succeeds: at the bottom of the state table the copy of a
    report item's size runs past the table, and one level up the table is full. *)
Theorem push_never_succeeds p p' : item_push p <> Go p'.
Proof.
  unfold item_push. destruct (_ =? _) eqn:E; [done|]. destruct (_ <? _) eqn:E2; [done|]. bool_hyps.
  unfold HID_STATETABLE_STACK_DEPTH, sizeof_StateTable, sizeof_ReportItem, sizeof_Attributes in *. lia.
Qed.

(** The high half of a 32-bit USAGE PAGE operand is lost: the item stores the
    low half of its operand whatever its size. *)
Lemma usage_page_high_half_lost prefix data p :
  item_usage_page prefix data p = Go (set_page data p).
Proof.
  unfold item_usage_page. destruct (_ =? _); [|done]. f_equal.
  unfold set_page, upd_attr, upd_state, cur_state, upd_StateTable. cbn.
  destruct (decide (CurrStateTable p < length (StateTable p))%nat).
  - rewrite list_lookup_insert_eq by done. cbn.
    by rewrite list_insert_insert_eq.
  - by rewrite !list_insert_ge by (rewrite ?length_insert; lia).
Qed.
