(* ===== verification/RingBuffer.v ===== *)
(** The byte ring buffer of LUFA: LUFA/Drivers/Misc/RingBuffer.h, and its
    refinement of a bounded first-in first-out queue.

    The buffer structure and the memory its pointers go to are the application
    state; a pointer is an index into that memory and using one outside it is
    [Fault]. *)

From stdpp Require Import base tactics option list numbers.
From Stdlib Require Import ZArith Lia.
From S2P Require Import Prelude Hardware.

Record RingBuffer_t : Set := mkRing {
  In : Z;
  Out : Z;
  Start : Z;
  End_ : Z;
  Size : Z;
  Count : Z
}.

(** The structure and the memory. *)
Record Ring : Set := mkRingState { Buffer : RingBuffer_t; mem : list Z }.

Definition upd_In (x : Z) (s : Ring) : Ring :=
  let b := Buffer s in mkRingState (mkRing x (Out b) (Start b) (End_ b) (Size b) (Count b)) (mem s).
Definition upd_Out (x : Z) (s : Ring) : Ring :=
  let b := Buffer s in mkRingState (mkRing (In b) x (Start b) (End_ b) (Size b) (Count b)) (mem s).
Definition upd_Count (x : Z) (s : Ring) : Ring :=
  let b := Buffer s in
  mkRingState (mkRing (In b) (Out b) (Start b) (End_ b) (Size b) (u16 x)) (mem s).

Section RingBuffer.
Abbreviation P := (prog (World Ring)).

Definition field {A} (f : RingBuffer_t -> A) : P A := gets (fun w => f (Buffer (app w))).

Definition load (p : Z) : P Z := fun w =>
  if p <? 0 then Fault
  else match mem (app w) !! Z.to_nat p with Some v => Ret v w | None => Fault end.
Definition store (p v : Z) : P unit := fun w =>
  if (p <? 0) || (Z.of_nat (length (mem (app w))) <=? p) then Fault
  else Ret tt (upd_app (fun s => mkRingState (Buffer s) (<[Z.to_nat p := u8 v]> (mem s))) w).

Definition RingBuffer_InitBuffer (DataPtr Size : Z) : P unit :=
  CurrentGlobalInt ← GetGlobalInterruptMask;
  GlobalInterruptDisable;;
  modify (upd_app (fun s =>
    mkRingState (mkRing DataPtr DataPtr DataPtr (DataPtr + Size) Size 0) (mem s)));;
  SetGlobalInterruptMask CurrentGlobalInt.

Definition RingBuffer_GetCount : P Z :=
  CurrentGlobalInt ← GetGlobalInterruptMask;
  GlobalInterruptDisable;;
  c ← field Count;
  SetGlobalInterruptMask CurrentGlobalInt;;
  mret c.

Definition RingBuffer_GetFreeCount : P Z :=
  n ← field Size; c ← RingBuffer_GetCount; mret (u16 (n - c)).

Definition RingBuffer_IsEmpty : P bool :=
  c ← RingBuffer_GetCount; mret (c =? 0).

Definition RingBuffer_IsFull : P bool :=
  c ← RingBuffer_GetCount; n ← field Size; mret (c =? n).

Definition RingBuffer_Insert (Data : Z) : P unit :=
  p ← field In;
  store p Data;;
  modify (upd_app (upd_In (p + 1)));;
  e ← field End_; s ← field Start;
  when (p + 1 =? e) (modify (upd_app (upd_In s)));;
  CurrentGlobalInt ← GetGlobalInterruptMask;
  GlobalInterruptDisable;;
  c ← field Count;
  modify (upd_app (upd_Count (c + 1)));;
  SetGlobalInterruptMask CurrentGlobalInt.

Definition RingBuffer_Remove : P Z :=
  p ← field Out;
  Data ← load p;
  modify (upd_app (upd_Out (p + 1)));;
  e ← field End_; s ← field Start;
  when (p + 1 =? e) (modify (upd_app (upd_Out s)));;
  CurrentGlobalInt ← GetGlobalInterruptMask;
  GlobalInterruptDisable;;
  c ← field Count;
  modify (upd_app (upd_Count (c - 1)));;
  SetGlobalInterruptMask CurrentGlobalInt;;
  mret Data.

Definition RingBuffer_Peek : P Z := p ← field Out; load p.
End RingBuffer.

(** ** The queue it implements *)

(** The address of the [i]-th byte of the queue. *)
Definition slot (b : RingBuffer_t) (i : Z) : Z :=
  if Out b + i <? End_ b then Out b + i else Out b + i - Size b.

Record ring_ok (s : Ring) (q : list Z) : Prop := {
  ro_size : 0 < Size (Buffer s) < 65536;
  ro_start : 0 <= Start (Buffer s);
  ro_end : End_ (Buffer s) = Start (Buffer s) + Size (Buffer s);
  ro_mem : End_ (Buffer s) <= Z.of_nat (length (mem s));
  ro_out : Start (Buffer s) <= Out (Buffer s) < End_ (Buffer s);
  ro_count : Count (Buffer s) = Z.of_nat (length q);
  ro_fits : Z.of_nat (length q) <= Size (Buffer s);
  ro_in : In (Buffer s) = slot (Buffer s) (Z.of_nat (length q));
  ro_data : forall i x, q !! i = Some x -> mem s !! Z.to_nat (slot (Buffer s) (Z.of_nat i)) = Some x
}.

(** A world whose ring of [n] bytes at [p0] holds [q], the interrupt flag being
    [irq] and the rest of the memory that of [m0]. *)
Definition holds (irq : bool) (p0 n : Z) (m0 q : list Z) (w : World Ring) : Prop :=
  ring_ok (app w) q /\ Size (Buffer (app w)) = n /\ global_irq w = irq /\
  Start (Buffer (app w)) = p0 /\
  forall i, Z.of_nat i < p0 \/ p0 + n <= Z.of_nat i -> mem (app w) !! i = m0 !! i.

Lemma slot_range s q i : ring_ok s q -> 0 <= i <= Size (Buffer s) ->
  Start (Buffer s) <= slot (Buffer s) i < End_ (Buffer s).
Proof. intros [] Hi. unfold slot. destruct (_ <? _) eqn:?; bool_hyps; lia. Qed.

Lemma slot_inj s q i j : ring_ok s q -> 0 <= i < Size (Buffer s) -> 0 <= j < Size (Buffer s) ->
  slot (Buffer s) i = slot (Buffer s) j -> i = j.
Proof.
  intros [] Hi Hj. unfold slot. destruct (Out _ + i <? _) eqn:?, (Out _ + j <? _) eqn:?; bool_hyps; lia.
Qed.

Section Queue.
Context (irq : bool) (p0 n : Z) (m0 : list Z).

Lemma Insert_holds d q w : is_u8 d -> Z.of_nat (length q) < n -> holds irq p0 n m0 q w ->
  wp true (RingBuffer_Insert d) (fun _ w' => holds irq p0 n m0 (q ++ [d]) w') w.
Proof.
  intros Hd Hfull (Hok & Hn & Hirq & Hp0 & Hfr). destruct (Hok) as [Hsz Hst He Hm Ho Hc Hf Hin Hdat].
  pose proof (slot_range _ _ (Z.of_nat (length q)) Hok ltac:(lia)) as Hr. rewrite <- Hin in Hr.
  unfold RingBuffer_Insert, store, field. apply wp_bind, wp_gets, wp_bind. unfold wp at 1.
  destruct (_ || _) eqn:E; [apply orb_true_iff in E as [E|E]; bool_hyps; lia|]. clear E.
  apply wp_bind, wp_modify, wp_bind, wp_gets, wp_bind, wp_gets, wp_bind. cbn [app upd_app Buffer upd_In End_ Start].
  assert (forall x, x = In (Buffer (app w)) + 1 /\ In (Buffer (app w)) + 1 <> End_ (Buffer (app w)) \/
                    x = Start (Buffer (app w)) /\ In (Buffer (app w)) + 1 = End_ (Buffer (app w)) ->
    ring_ok (mkRingState (mkRing x (Out (Buffer (app w))) (Start (Buffer (app w))) (End_ (Buffer (app w)))
       (Size (Buffer (app w))) (u16 (Count (Buffer (app w)) + 1)))
       (<[Z.to_nat (In (Buffer (app w))) := u8 d]> (mem (app w)))) (q ++ [d])) as Hnew.
  { intros x Hx. split; cbn [Buffer mem In Out Start End_ Size Count]; rewrite ?length_app, ?length_insert;
      cbn [length]; try done; try lia.
    - rewrite Hc, u16_small by (unfold is_u16; lia). lia.
    - rewrite Hin in Hx. unfold slot in *. cbn [Out End_ Size].
      destruct (_ <? _) eqn:?, (Out _ + Z.of_nat (length q + 1) <? _) eqn:?; bool_hyps; lia.
    - intros i y Hy. change (slot (mkRing _ _ _ _ _ _)) with (slot (Buffer (app w))).
      apply lookup_app_Some in Hy as [Hy|[Hle Hy]].
      + pose proof (lookup_lt_Some _ _ _ Hy) as Hlt. rewrite list_lookup_insert_ne; [by apply Hdat|].
        pose proof (slot_range _ _ (Z.of_nat i) Hok ltac:(lia)). intros Heq. rewrite Hin in *.
        apply Z2Nat.inj in Heq; [|lia..]. apply (slot_inj _ _ _ _ Hok) in Heq; lia.
      + apply list_lookup_singleton_Some in Hy as [Hi <-].
        replace (Z.of_nat i) with (Z.of_nat (length q)) by lia. rewrite <- Hin.
        rewrite list_lookup_insert_eq by lia. by rewrite u8_small. }
  apply wp_when; intros Hw; bool_hyps;
    unfold GetGlobalInterruptMask, GlobalInterruptDisable, SetGlobalInterruptMask;
    [apply wp_modify|]; hw_steps; (split; [apply Hnew; auto|]); cbn; (repeat split; try done);
    intros i Hi; rewrite list_lookup_insert_ne by lia; by apply Hfr.
Qed.

Lemma load_head b q w : holds irq p0 n m0 (b :: q) w ->
  load (Out (Buffer (app w))) w = Ret b w.
Proof.
  intros ([] & _). unfold load. destruct (_ <? 0) eqn:?; bool_hyps; [lia|].
  specialize (ro_data0 0%nat b eq_refl). unfold slot in ro_data0. cbn in ro_data0.
  rewrite Z.add_0_r in ro_data0. destruct (Out _ <? End_ _) eqn:?; bool_hyps; [|lia].
  by rewrite ro_data0.
Qed.

Lemma Remove_holds b q w : holds irq p0 n m0 (b :: q) w ->
  wp true RingBuffer_Remove (fun r w' => r = b /\ holds irq p0 n m0 q w') w.
Proof.
  intros H. pose proof (load_head b q w H) as Hload. destruct H as (Hok & Hn & Hirq & Hp0 & Hfr).
  destruct (Hok) as [Hsz Hst He Hm Ho Hc Hf Hin Hdat]. cbn [length] in *.
  unfold RingBuffer_Remove, field. apply wp_bind, wp_gets, wp_bind. unfold wp at 1. rewrite Hload.
  apply wp_bind, wp_modify, wp_bind, wp_gets, wp_bind, wp_gets, wp_bind.
  cbn [app upd_app Buffer upd_Out End_ Start].
  assert (forall x, x = Out (Buffer (app w)) + 1 /\ Out (Buffer (app w)) + 1 <> End_ (Buffer (app w)) \/
                    x = Start (Buffer (app w)) /\ Out (Buffer (app w)) + 1 = End_ (Buffer (app w)) ->
    ring_ok (mkRingState (mkRing (In (Buffer (app w))) x (Start (Buffer (app w))) (End_ (Buffer (app w)))
       (Size (Buffer (app w))) (u16 (Count (Buffer (app w)) - 1))) (mem (app w))) q) as Hnew.
  { intros x Hx. assert (forall i, 0 <= i < Size (Buffer (app w)) ->
      slot (mkRing (In (Buffer (app w))) x (Start (Buffer (app w))) (End_ (Buffer (app w)))
        (Size (Buffer (app w))) (u16 (Count (Buffer (app w)) - 1))) i = slot (Buffer (app w)) (i + 1)) as Hslot.
    { intros i Hi. unfold slot. cbn [Out End_ Size].
      destruct (x + i <? _) eqn:?, (Out _ + (i + 1) <? _) eqn:?; bool_hyps; lia. }
    split; cbn [Buffer mem In Out Start End_ Size Count]; try done; try lia.
    - rewrite Hc, u16_small by (unfold is_u16; lia). lia.
    - rewrite Hslot, Hin by lia. f_equal. lia.
    - intros i y Hy. pose proof (lookup_lt_Some _ _ _ Hy). rewrite Hslot by lia.
      replace (Z.of_nat i + 1) with (Z.of_nat (S i)) by lia. by apply Hdat. }
  apply wp_when; intros Hw; bool_hyps;
    unfold GetGlobalInterruptMask, GlobalInterruptDisable, SetGlobalInterruptMask;
    [apply wp_modify|]; hw_steps; (split; [done|split; [apply Hnew; auto|done]]).
Qed.

(** The queries see the queue. *)
Lemma GetCount_holds q w : holds irq p0 n m0 q w ->
  RingBuffer_GetCount w = Ret (Z.of_nat (length q)) (upd_global_irq irq (upd_global_irq false w)).
Proof.
  intros ([] & _ & Hirq & _). unfold RingBuffer_GetCount, field, GetGlobalInterruptMask,
    GlobalInterruptDisable, SetGlobalInterruptMask, mbind, prog_bind, gets, modify. cbn.
  by rewrite ro_count0, Hirq.
Qed.

Lemma holds_relock q w : holds irq p0 n m0 q w -> holds irq p0 n m0 q (upd_global_irq irq (upd_global_irq false w)).
Proof. intros (? & ? & ? & ? & ?). done. Qed.
End Queue.

(** Guarded use of the buffer: insert unless it is full, remove unless it is
    empty, as its documentation asks. *)
Inductive rop : Set := Put (d : Z) | Take.

Definition ring_op (o : rop) : prog (World Ring) (option Z) :=
  match o with
  | Put d => f ← RingBuffer_IsFull; when (negb f) (RingBuffer_Insert d);; mret None
  | Take => e ← RingBuffer_IsEmpty;
            if e : bool then mret None else d ← RingBuffer_Remove; mret (Some d)
  end.

Fixpoint ring_run (os : list rop) : prog (World Ring) (list Z) :=
  match os with
  | [] => mret []
  | o :: os => r ← ring_op o; rs ← ring_run os; mret (option_list r ++ rs)
  end.

(** The same on a queue of at most [n] bytes: what comes out and what stays. *)
Fixpoint queue_run (n : Z) (os : list rop) (q : list Z) : list Z * list Z :=
  match os with
  | [] => ([], q)
  | Put d :: os => queue_run n os (if Z.of_nat (length q) <? n then q ++ [d] else q)
  | Take :: os =>
      match q with
      | [] => queue_run n os []
      | b :: q => let '(outs, q') := queue_run n os q in (b :: outs, q')
      end
  end.

Lemma ring_op_put irq p0 n m0 d q w : is_u8 d -> holds irq p0 n m0 q w ->
  wp true (ring_op (Put d)) (fun r w' => r = None /\
    holds irq p0 n m0 (if Z.of_nat (length q) <? n then q ++ [d] else q) w') w.
Proof.
  intros Hd H. cbn. unfold RingBuffer_IsFull. apply wp_bind, wp_bind. unfold wp at 1.
  rewrite (GetCount_holds irq p0 n m0 q) by done. apply holds_relock in H.
  unfold field. apply wp_bind, wp_gets, wp_ret. destruct (H) as (Hok & Hn & _). rewrite Hn.
  pose proof (ro_fits _ _ Hok). rewrite Hn in *. apply wp_bind.
  destruct (_ <? n) eqn:E; bool_hyps.
  - rewrite (proj2 (Z.eqb_neq _ _)) by lia. cbn [negb when].
    eapply wp_mono; [by apply Insert_holds|]. by intros [] w'.
  - rewrite (proj2 (Z.eqb_eq _ _)) by lia. by apply wp_ret.
Qed.

Lemma ring_op_take irq p0 n m0 q w : holds irq p0 n m0 q w ->
  wp true (ring_op Take) (fun r w' => r = head q /\ holds irq p0 n m0 (tail q) w') w.
Proof.
  intros H. cbn. unfold RingBuffer_IsEmpty. apply wp_bind, wp_bind. unfold wp at 1.
  rewrite (GetCount_holds irq p0 n m0 q) by done. apply holds_relock in H. apply wp_ret.
  destruct q as [|b q]; [done|]. cbn [length Z.of_nat Z.eqb]. apply wp_bind.
  eapply wp_mono; [by apply Remove_holds|]. intros r w' [-> Hw']. by apply wp_ret.
Qed.

Lemma ring_run_holds irq p0 n m0 os q w :
  Forall (fun o => match o with Put d => is_u8 d | Take => True end) os -> holds irq p0 n m0 q w ->
  wp true (ring_run os) (fun r w' => r = fst (queue_run n os q) /\
    holds irq p0 n m0 (snd (queue_run n os q)) w') w.
Proof.
  intros Hos. revert q w; induction Hos as [|o os Ho _ IH]; intros q w H; cbn [ring_run queue_run];
    [by apply wp_ret|]. apply wp_bind. destruct o as [d|].
  - eapply wp_mono; [by apply ring_op_put|]. intros r w1 [-> H1]. apply wp_bind.
    eapply wp_mono; [by apply IH|]. intros rs w2 [-> H2]. by apply wp_ret.
  - eapply wp_mono; [by apply ring_op_take|]. intros r w1 [-> H1]. apply wp_bind.
    eapply wp_mono; [by apply IH|]. intros rs w2 [-> H2]. apply wp_ret.
    destruct q as [|b q]; cbn in *; [done|]. by destruct (queue_run n os q).
Qed.

(** C39: The ring buffer is a bounded queue: from its initialisation on, any sequence
    of guarded insertions and removals returns exactly the bytes a queue of [n]
    bytes would, in order and without loss, never leaves the [n] bytes of its
    storage, keeps the rest of the memory, and leaves the interrupt flag as it was. *)
Theorem RingBuffer_fifo DataPtr n os (w : World Ring) :
  0 <= DataPtr -> 0 < n < 65536 -> DataPtr + n <= Z.of_nat (length (mem (app w))) ->
  Forall (fun o => match o with Put d => is_u8 d | Take => True end) os ->
  exists w', (RingBuffer_InitBuffer DataPtr n;; ring_run os) w = Ret (fst (queue_run n os [])) w' /\
    Count (Buffer (app w')) = Z.of_nat (length (snd (queue_run n os []))) /\
    global_irq w' = global_irq w /\
    forall i, Z.of_nat i < DataPtr \/ DataPtr + n <= Z.of_nat i ->
      mem (app w') !! i = mem (app w) !! i.
Proof.
  intros Hp Hn Hm Hos. destruct (wp_total_run (RingBuffer_InitBuffer DataPtr n;; ring_run os)
    (fun r w' => r = fst (queue_run n os []) /\
       holds (global_irq w) DataPtr n (mem (app w)) (snd (queue_run n os [])) w') w)
    as (r & w' & E & -> & Hok & _ & Hirq & _ & Hfr).
  - apply wp_bind. unfold RingBuffer_InitBuffer, GetGlobalInterruptMask, GlobalInterruptDisable,
      SetGlobalInterruptMask. hw_steps. apply ring_run_holds; [done|]. split; [|done].
    split; cbn; try lia; try done. unfold slot. cbn. destruct (_ <? _) eqn:?; bool_hyps; lia.
  - exists w'. split; [done|]. split; [apply Hok|]. split; [done|]. exact Hfr.
Qed.

Lemma RingBuffer_fifo_witness :
  exists w', (RingBuffer_InitBuffer 1 3;; ring_run [Put 5; Put 6; Take; Put 7; Put 8; Put 9; Take])
      (reset_world (mkRingState (mkRing 0 0 0 0 0 0) (replicate 5 0))) = Ret [5; 6] w' /\
    Count (Buffer (app w')) = Z.of_nat (length [7; 8]) /\ global_irq w' = false /\
    forall i, Z.of_nat i < 1 \/ 1 + 3 <= Z.of_nat i -> mem (app w') !! i = replicate 5 0 !! i.
Proof.
  apply (RingBuffer_fifo 1 3 [Put 5; Put 6; Take; Put 7; Put 8; Put 9; Take]
           (reset_world (mkRingState (mkRing 0 0 0 0 0 0) (replicate 5 0))));
    [lia|lia|vm_compute; discriminate|repeat constructor; vm_compute; intuition discriminate].
Defined.
